(* ===== verification/_CoqProject ===== *)
-Q . S2P
Prelude.v
Status.v
World.v
Owner.v
CacheEntry.v
Access.v
LockList.v
LockHeap.v
LockMerge.v
LockSubtract.v
LockCalm.v
LockOps.v
LockLedger.v
LockTable.v
LockGrant.v
LockRequest.v
LockAcquire.v
Share.v
Release.v
Nlm.v
NlmServer.v
NlmShare.v
KurmaAttrs.v
KurmaIO.v
KurmaFile.v
KurmaFsal.v
KurmaHandle.v
Utf8.v
Client.v
ClientInv.v
ClientStep.v
ClientEnter.v
ClientOps.v
ClientFrame.v
ClientSpec.v
ClientConfirm.v
ClientLease.v
ClientSession.v
ClientCounts.v
ClientServer.v
Compound.v
CompoundSafe.v
CompoundOnce.v
CompoundServer.v
Dupreq.v
DupreqInv.v
DupreqStep.v
DupreqOps.v
DupreqServer.v
