(* ===== verification/Prelude.v ===== *)
(** * Verification of the Kurma NFS gateway

    Kurma serves files of several data centres over NFS.  Its gateway is a
    user-space NFS server (src/src, in C): protocol handlers call a state layer
    (SAL), which keeps locks, shares and owners on the entries of an inode cache
    (cache_inode); the cache reaches the storage through a file-system
    abstraction layer, here FSAL_KURMA, which turns each operation into a Thrift
    call to the Kurma middleware.

    ** Files

    - [Prelude] (this file): machine integers with their wrap-around, the
      outcome monad and its rules of total correctness, list and option lemmas.
    - [Status]: the error types of the four layers and the conversions of
      SAL/state_misc.c, cache_inode_misc.c, support/nfs_convert.c, nlm_util.c
      and nfs4_clientid.c.
    - [World]: the shared store; the structures of include/sal_data.h and
      include/cache_inode.h as records, intrusive lists (ganesha_list.h), and
      the FSAL as the class [FsalOps].
    - [Owner]: identity of owners (nlm_owner.c, 9p_owner.c, nfs4_owner.c,
      state_misc.c, [cmp_sockaddr] of rpc_tools.c) and [Check_nfs4_seqid].
    - [CacheEntry]: pins, open and close of cache entries and the count of open
      descriptors (cache_inode_open_close.c, cache_inode_lru.c,
      cache_inode_kill_entry.c).
    - [Access]: FSAL/access_check.c.
    - [LockList], [LockHeap], [LockMerge], [LockSubtract], [LockCalm]: lock
      entries and lock lists of SAL/state_lock.c, what they mean byte by byte,
      merging and subtracting.
    - [LockOps]: the requests of the lock manager and the grant of blocked locks
      (SAL/state_lock.c).  [LockLedger] is the invariant of its heap (reference
      counts, block data, cookies), [LockTable] that of the lock table,
      [LockGrant] shows that granting and cancelling keep it, [LockRequest] and
      [LockAcquire] what unlock, cancel, test, the answer to a grant and lock do.
    - [Share]: share reservations (SAL/state_share.c), of NFSv4 opens and of NLM.
    - [Release]: the release of all locks and shares of an owner or an export
      (SAL/state_lock.c, state_share.c), with the references on cache entries that it
      takes and gives back, and the clean-up of an entry that loses its last one
      (cache_inode_lru.c, [state_wipe_file]).
    - [Nlm]: the handlers of Protocols/NLM over the lock manager; [NlmServer]:
      the server that runs any sequence of calls, and concrete runs; [NlmShare]:
      the handlers of SHARE and UNSHARE.
    - [Client]: client records, client ids, leases and sessions with the store
      that holds them (SAL/nfs4_clientid.c, nfs4_lease.c, nfs41_session_id.c,
      nfs4_owner.c, support/nfs_creds.c) and the callback address of a client
      (MainNFSD/nfs_rpc_callback.c); [ClientOps]: SETCLIENTID,
      SETCLIENTID_CONFIRM, RENEW, EXCHANGE_ID, CREATE_SESSION, DESTROY_SESSION,
      DESTROY_CLIENTID (Protocols/NFS) and the reaper
      (MainNFSD/nfs_reaper_thread.c).  [ClientInv] is the invariant of the store,
      [ClientStep] and [ClientEnter] show that the operations of [Client] keep it,
      [ClientSpec] and [ClientConfirm] hold the specifications of SETCLIENTID and
      its confirmation and that the code implements them, [ClientLease] is about
      leases and the reaper, [ClientSession] about the operations of NFSv4.1,
      [ClientFrame] about what no operation changes in a session, [ClientCounts]
      about how many references the operations take;
      [ClientServer]: the theorems, the server that runs any sequence of calls,
      and concrete runs.
    - [Utf8]: the filter for names from the wire (nfs_proto_tools.c).
    - [Compound]: the COMPOUND procedure with its table of operations
      (Protocols/NFS/nfs4_Compound.c) and SEQUENCE (nfs4_op_sequence.c);
      [CompoundSafe]: a compound keeps the client store well formed and ends;
      [CompoundOnce]: what a request does to a slot; [CompoundServer]: the
      theorems, the server that runs any sequence of compounds, concrete runs.
    - [Dupreq]: the duplicate request cache (RPCAL/nfs_dupreq.c) and its use by
      [nfs_rpc_execute] (MainNFSD/nfs_worker_thread.c); [DupreqInv]: the orders of
      keys, the laws of the trees and the invariant; [DupreqStep] and [DupreqOps]:
      the operations on caches and on entries keep it; [DupreqServer]: the
      theorems, the server that executes any requests, concrete runs.
    - [KurmaAttrs], [KurmaIO], [KurmaFile], [KurmaFsal], [KurmaHandle]:
      FSAL/FSAL_KURMA (kurma.c, file.c, handle.c, main.c).

    ** Conventions

    An operation is a function [M W A := W -> outcome W A].  [Ret] is a return
    with the state at that point, [Undef] undefined behaviour of C (a read of
    freed memory, an uninitialised variable, an overflow of [int]), [Fatal] a
    failed [assert] or a call of [LogFatal], [Stuck] a loop that used up its
    fuel.  [wp m Q w] holds only of [Ret], so each theorem stated with it also
    says that the operation ends, without undefined behaviour or abort.
    Integers are [Z] in range, and [u32] and [u64] write the wrap-around; only the
    reference counts of lock entries, cache entries, client records, client ids and
    sessions, which are int32_t in the code, go on without wrap-around.
    Allocation fails when the store says so, hence no theorem assumes memory
    unless its statement names [memory_ok].  Locks of the code are not modelled:
    an operation runs with the locks held that the code takes for it.

    ** Theorems

    - Input and output of the Kurma FSAL: over a middleware that replaces whole
      blocks, alignment is invisible for files below 2 GiB, and what happens to
      larger ones; block sizes are bounded and minimal.
    - Handles and attributes of the Kurma FSAL: round trips, protection of
      snapshots, and the places where an attribute or a snapshot id gets lost.
      The middleware is the class [KurmaService] with the laws
      [KurmaFileServer]; [RefServer] is an instance that shows they can hold.
    - Inode cache: the count of open descriptors equals the number of open
      files; proved against [FsalOpenLaws], which [KurmaFsal] discharges.
    - Access checks: the ACL loop equals first-match evaluation per permission;
      without an ACL the check is the POSIX one, of the class of the caller.
    - Owners: comparison is an equivalence; NFSv4.0 requests run at most once.
    - Lock lists: merging changes exactly the bytes of the new lock, subtracting
      exactly those of the range.
    - Locks over NLM: in every reachable store no two owners have conflicting
      locks and every call ends; what the answer to each call means, and for LOCK
      and TEST which answer it is, as a function of the store: the error of a file
      that cannot be opened, DENIED with the holder, or GRANTED; and the runs
      in which the code fails (a null and a dangling pointer, a range over 64
      bits, leaks, a loop that does not end).  They hold for FSALs without locks
      of their own ([ServerLocks], which [KurmaFsal] discharges).  The server
      relies on [call_ok]: ranges within 64 bits, memory for the block data of a
      request that may block, cookies that were not given up, and room in the
      64-bit counter of cookies.

    - Share reservations: the counters of a file implement a set of
      reservations of which no two clash ([share_calls_refine]); what the answers
      to SHARE and UNSHARE mean and which answer is given when; and that the two lose a reference on the owner.
    - Clients: SETCLIENTID and SETCLIENTID_CONFIRM implement specifications that
      see, for each client, only its confirmed and its unconfirmed client id;
      RENEW; the reaper ends and leaves exactly the clients with a valid lease;
      any sequence of calls keeps the store well formed ([client_server_safe]) and
      the reference counts below five times their number.
      Assumed of a call is what [admissible] says: the counters that number clients
      and sessions have not gone round, there is memory for a new record, and
      CREATE_SESSION is for a client of NFSv4.1.  Two theorems and the
      runs of [ClientExamples] show where the code fails.

    - Compounds, for any operations on files that keep to the client store
      ([CompoundLaws]; [CompoundExamples] has an instance): any sequence of
      compounds runs to its end; a request on a slot runs once and a retry gets
      its reply; operations run only with the permissions they need
      ([permission_needed], which says which operations are checked) and, in
      NFSv4.1, within a session; the shape of replies.  [compound_fits] asks
      what [admissible] asks of each operation, that CREATE_SESSION is the last
      operation, and DESTROY_CLIENTID only for numbers that no client has.  The runs of [CompoundExamples] show where the code fails.

    - Duplicate requests, for any trees with the laws [RbTreeLaws] (lists of
      pairs have them): any sequence of connections and requests keeps the
      invariant and runs to its end ([dupreq_server_safe]); a retry is not
      executed again and gets the kept reply, or none while the request is being
      executed, also when it comes over a new connection from the address that the
      cache is kept for ([finds]); both are about requests that can be cached.  [fits] asks for addresses of one family (comparing those of two
      is no order), room in the 32-bit counters, and, of a request that is dropped
      or refused, that its cache has a reference to spare: without it the cache is
      freed under its connection, as a run shows.  Memory does not run out.

    ** Fuel

    A loop over a list that changes under it runs with twice the length of the
    list at its start: each iteration removes the current entry or moves on,
    and adds at most one entry per entry of the start; that this is enough is
    part of the theorems.  The loops of [state_owner_unlock_all] and
    [state_export_unlock_all] take their fuel as an argument; a theorem shows
    stores for which none is enough.  A bucket of the reaper starts over once for each client that
    expires; more fuel than there are clients is enough.  The comparison of NFSv4
    owners follows at most one link from a lock owner to its open owner.  The
    expiry of caches takes one from the queue in each iteration; its fuel is one
    more than the length of the queue.

    ** Not modelled

    The Java middleware and the generated Thrift stubs (parameters), XDR and
    RPC, threads and locking, configuration, logging and start-up, the other
    back ends, and the parts of SAL, cache_inode and the protocol handlers that
    the file list above does not name. *)

From Stdlib Require Export ZArith Lia.
From stdpp Require Export base numbers option list gmap.

#[global] Open Scope Z_scope.

(** * Machine integers

    Unsigned C integers are values of [Z] in range; every operation that can
    wrap writes the wrap out with [u32] or [u64].  [i32] is the conversion of
    an unsigned 32-bit value to the signed type. *)

Definition UINT32_MAX : Z := 2 ^ 32 - 1.
Definition UINT64_MAX : Z := 2 ^ 64 - 1.
Definition u32 (x : Z) : Z := x mod 2 ^ 32.
Definition u64 (x : Z) : Z := x mod 2 ^ 64.
Definition i32 (x : Z) : Z := if decide (u32 x < 2 ^ 31) then u32 x else u32 x - 2 ^ 32.

(** [bit_set w m] is the C test [(w & m) != 0]. *)
Definition bit_set (w m : Z) : bool := negb (Z.land w m =? 0).

Lemma u32_range x : 0 <= u32 x <= UINT32_MAX.
Proof. unfold u32, UINT32_MAX. pose proof (Z.mod_pos_bound x (2 ^ 32)). lia. Qed.

Lemma u64_range x : 0 <= u64 x <= UINT64_MAX.
Proof. unfold u64, UINT64_MAX. pose proof (Z.mod_pos_bound x (2 ^ 64)). lia. Qed.

Lemma u32_small x : 0 <= x <= UINT32_MAX -> u32 x = x.
Proof. unfold u32, UINT32_MAX. intros. apply Z.mod_small. lia. Qed.

Lemma u64_small x : 0 <= x <= UINT64_MAX -> u64 x = x.
Proof. unfold u64, UINT64_MAX. intros. apply Z.mod_small. lia. Qed.

Lemma u64_over x : UINT64_MAX < x <= 2 * UINT64_MAX + 1 -> u64 x = x - 2 ^ 64.
Proof.
  unfold u64, UINT64_MAX. intros.
  rewrite <- (Z.mod_small (x - 2 ^ 64) (2 ^ 64)) by lia.
  rewrite <- (Z_mod_plus_full (x - 2 ^ 64) 1 (2 ^ 64)). f_equal. lia.
Qed.

Lemma u32_add_l x y : u32 (u32 x + y) = u32 (x + y).
Proof. unfold u32. apply Zplus_mod_idemp_l. Qed.

Lemma u64_add_l x y : u64 (u64 x + y) = u64 (x + y).
Proof. unfold u64. apply Zplus_mod_idemp_l. Qed.

Lemma bit_set_lor x y c : bit_set (Z.lor x y) c = bit_set x c || bit_set y c.
Proof.
  unfold bit_set. rewrite Z.land_lor_distr_l, <- negb_andb. f_equal.
  apply eq_true_iff_eq. rewrite andb_true_iff, !Z.eqb_eq. apply Z.lor_eq_0_iff.
Qed.

Lemma bit_set_if (b : bool) x c : bit_set (if b then x else 0) c = b && bit_set x c.
Proof. by destruct b. Qed.

(** * Bytes of integers, the least first *)

Fixpoint le_bytes (n : nat) (x : Z) : list Z :=
  match n with
  | O => []
  | S n => x mod 256 :: le_bytes n (x / 256)
  end.
Fixpoint le_value (bs : list Z) : Z :=
  match bs with
  | [] => 0
  | b :: bs => b + 256 * le_value bs
  end.

Lemma le_bytes_length n x : length (le_bytes n x) = n.
Proof. revert x. induction n as [|n IH]; intros x; [done|]. simpl. by rewrite IH. Qed.

Lemma le_value_bytes n x : le_value (le_bytes n x) = x mod 256 ^ Z.of_nat n.
Proof.
  revert x. induction n as [|n IH]; intros x; [simpl; by rewrite Z.mod_1_r|]. simpl le_value.
  rewrite IH, Nat2Z.inj_succ, Z.pow_succ_r by lia.
  rewrite Z.rem_mul_r by lia. lia.
Qed.

(** * Outcomes of C code

    A call returns a value with the new state, has undefined behaviour (a
    pointer to freed or never allocated memory is followed), or ends the
    process ([LogFatal]).  [Stuck] is the exhaustion of a loop's fuel; the
    theorems show that it does not happen. *)

Inductive outcome (W A : Type) : Type :=
| Ret (a : A) (w : W)
| Undef
| Fatal
| Stuck.
Arguments Ret {W A} a w.
Arguments Undef {W A}.
Arguments Fatal {W A}.
Arguments Stuck {W A}.

Definition M (W A : Type) : Type := W -> outcome W A.

#[global] Instance M_ret {W} : MRet (M W) := fun A a w => Ret a w.
#[global] Instance M_bind {W} : MBind (M W) := fun A B k m w =>
  match m w with
  | Ret a w' => k a w'
  | Undef => Undef
  | Fatal => Fatal
  | Stuck => Stuck
  end.

Section primitives.
Context {W : Type}.

Definition get_state : M W W := fun w => Ret w w.
Definition gets {A} (f : W -> A) : M W A := fun w => Ret (f w) w.
Definition modify (f : W -> W) : M W unit := fun w => Ret tt (f w).
Definition undef {A} : M W A := fun _ => Undef.
Definition fatal {A} : M W A := fun _ => Fatal.
Definition stuck {A} : M W A := fun _ => Stuck.

(** Reading through a pointer: undefined when nothing is allocated there. *)
Definition deref {A} (f : W -> option A) : M W A := fun w =>
  match f w with
  | Some a => Ret a w
  | None => Undef
  end.

Definition when (b : bool) (m : M W unit) : M W unit :=
  if b then m else mret tt.
End primitives.

(** Total-correctness weakest precondition: [wp m Q w] holds when [m], run
    from [w], returns, and what it returns satisfies [Q]. *)
Definition wp {W A} (m : M W A) (Q : A -> W -> Prop) (w : W) : Prop :=
  match m w with
  | Ret a w' => Q a w'
  | _ => False
  end.

Section wp_rules.
Context {W : Type}.

Lemma wp_ret {A} (a : A) (Q : A -> W -> Prop) w : Q a w -> wp (mret a) Q w.
Proof. done. Qed.

Lemma wp_bind {A B} (m : M W A) (k : A -> M W B) Q w :
  wp m (fun a w' => wp (k a) Q w') w -> wp (m ≫= k) Q w.
Proof. unfold wp, mbind, M_bind. destruct (m w); done. Qed.

Lemma wp_bind_inv {A B} (m : M W A) (k : A -> M W B) Q w :
  wp (m ≫= k) Q w -> wp m (fun a w' => wp (k a) Q w') w.
Proof. unfold wp, mbind, M_bind. destruct (m w); done. Qed.

Lemma wp_mono {A} (m : M W A) (P Q : A -> W -> Prop) w :
  (forall a w', P a w' -> Q a w') -> wp m P w -> wp m Q w.
Proof. unfold wp. destruct (m w); auto. Qed.

Lemma wp_and {A} (m : M W A) (P Q : A -> W -> Prop) w :
  wp m P w -> wp m Q w -> wp m (fun a w' => P a w' /\ Q a w') w.
Proof. unfold wp. destruct (m w); auto. Qed.

Lemma wp_get_state (Q : W -> W -> Prop) w : Q w w -> wp get_state Q w.
Proof. done. Qed.

Lemma wp_gets {A} (f : W -> A) (Q : A -> W -> Prop) w : Q (f w) w -> wp (gets f) Q w.
Proof. done. Qed.

Lemma wp_modify (f : W -> W) (Q : unit -> W -> Prop) w :
  Q tt (f w) -> wp (modify f) Q w.
Proof. done. Qed.

Lemma wp_deref {A} (f : W -> option A) (Q : A -> W -> Prop) w a :
  f w = Some a -> Q a w -> wp (deref f) Q w.
Proof. unfold wp, deref. intros ->. done. Qed.

Lemma wp_when (b : bool) (m : M W unit) Q w :
  (b = true -> wp m Q w) -> (b = false -> Q tt w) -> wp (when b m) Q w.
Proof. destruct b; simpl; intros H1 H2; [by apply H1 | by apply H2]. Qed.

Lemma wp_elim {A} (m : M W A) Q w :
  wp m Q w <-> exists a w', m w = Ret a w' /\ Q a w'.
Proof.
  unfold wp. split.
  - destruct (m w) eqn:E; try done. eauto.
  - intros (a & w' & -> & HQ). done.
Qed.

Lemma wp_forall {A I} (m : M W A) (P : I -> Prop) (Q : I -> A -> W -> Prop) w :
  (forall i, P i -> wp m (Q i) w) -> (exists i, P i) -> wp m (fun a w' => forall i, P i -> Q i a w') w.
Proof. unfold wp. intros H [i0 H0]. destruct (m w); [done|by apply (H i0)..]. Qed.

Lemma wp_bind_run {A B} (m : M W A) (k : A -> M W B) Q w a w' : m w = Ret a w' -> wp (m ≫= k) Q w -> wp (k a) Q w'.
Proof. unfold wp, mbind, M_bind. by intros ->. Qed.

Lemma wp_run {A} (m : M W A) (Q : A -> W -> Prop) w a w' : m w = Ret a w' -> wp m Q w -> Q a w'.
Proof. unfold wp. by intros ->. Qed.

Lemma wp_intro {A} (m : M W A) (Q : A -> W -> Prop) w a w' :
  m w = Ret a w' -> Q a w' -> wp m Q w.
Proof. unfold wp. by intros ->. Qed.
End wp_rules.

(** Partial correctness: what holds of every return.  With a proof that there is one, it can be used
    for the rest. *)
Definition wlp {W A} (m : M W A) (Q : A -> W -> Prop) (w : W) : Prop :=
  forall a w', m w = Ret a w' -> Q a w'.

Section wlp_rules.
Context {W : Type}.

Lemma wlp_ret {A} (a : A) (Q : A -> W -> Prop) w : Q a w -> wlp (mret a) Q w.
Proof. by intros HQ a' w' [= <- <-]. Qed.

Lemma wlp_bind {A B} (m : M W A) (k : A -> M W B) Q w :
  wlp m (fun a w' => wlp (k a) Q w') w -> wlp (m ≫= k) Q w.
Proof. intros H b w'. unfold mbind, M_bind. destruct (m w) as [a w1| | |] eqn:E; try done. by apply (H a w1). Qed.

Lemma wlp_gets {A} (f : W -> A) (Q : A -> W -> Prop) w : Q (f w) w -> wlp (gets f) Q w.
Proof. by intros HQ a w' [= <- <-]. Qed.

Lemma wlp_modify (f : W -> W) (Q : unit -> W -> Prop) w : Q tt (f w) -> wlp (modify f) Q w.
Proof. by intros HQ a w' [= <- <-]. Qed.

Lemma wlp_deref {A} (f : W -> option A) (Q : A -> W -> Prop) w : (forall a, f w = Some a -> Q a w) -> wlp (deref f) Q w.
Proof. intros HQ a w'. unfold deref. destruct (f w) as [b|]; [|done]. intros [= <- <-]. by apply HQ. Qed.

Lemma wlp_mono {A} (m : M W A) (P Q : A -> W -> Prop) w : (forall a w', P a w' -> Q a w') -> wlp m P w -> wlp m Q w.
Proof. intros HPQ HP a w' Hrun. by apply HPQ, HP. Qed.

Lemma wp_wlp {A} (m : M W A) (P Q : A -> W -> Prop) w : wp m P w -> wlp m Q w -> wp m (fun a w' => P a w' /\ Q a w') w.
Proof. intros HP HQ. apply wp_elim in HP as (a & w' & Hrun & HP). apply (wp_intro _ _ _ a w'); [done|]. split; [done|by apply HQ]. Qed.
End wlp_rules.

(** One symbolic step of a program under [wp]. *)
Ltac wp_step :=
  lazymatch goal with
  | |- wp (mbind _ _) _ _ => apply wp_bind
  | |- wp (mret _) _ _ => apply wp_ret
  | |- wp get_state _ _ => apply wp_get_state
  | |- wp (gets _) _ _ => apply wp_gets
  | |- wp (modify _) _ _ => apply wp_modify
  | |- wp (deref _) _ _ => eapply wp_deref
  end.
Ltac wp_steps := repeat (wp_step; simpl).

(** ** What a program leaves alone

    [preserves π m]: whenever [m] returns, the view [π] of the state is as it
    was.  The rules are a hint database, so that the frame of a program is found
    by [eauto with preserves]. *)
Definition preserves {W A B} (π : W -> B) (m : M W A) : Prop :=
  forall w a w', m w = Ret a w' -> π w' = π w.

Section preserves_rules.
Context {W B : Type} (π : W -> B).

Lemma bind_ret_inv {A C} (m : M W A) (k : A -> M W C) w c w'' :
  (m ≫= k) w = Ret c w'' -> exists a w', m w = Ret a w' /\ k a w' = Ret c w''.
Proof. unfold mbind, M_bind. destruct (m w); try done. eauto. Qed.

Lemma preserves_ret {A} (a : A) : preserves π (mret a).
Proof. by intros w ? ? [= _ <-]. Qed.

Lemma preserves_bind {A C} (m : M W A) (k : A -> M W C) :
  preserves π m -> (forall a, preserves π (k a)) -> preserves π (m ≫= k).
Proof.
  intros Hm Hk w c w'' (a & w' & H1 & H2)%bind_ret_inv.
  rewrite (Hk _ _ _ _ H2). by eapply Hm.
Qed.

Lemma preserves_get_state : preserves π get_state.
Proof. by intros w ? ? [= _ <-]. Qed.

Lemma preserves_gets {A} (f : W -> A) : preserves π (gets f).
Proof. by intros w ? ? [= _ <-]. Qed.

Lemma preserves_modify f : (forall w, π (f w) = π w) -> preserves π (modify f).
Proof. by intros Hf w ? ? [= _ <-]. Qed.

Lemma preserves_deref {A} (f : W -> option A) : preserves π (deref f).
Proof. intros w ? ?. unfold deref. destruct (f w); [|done]. by intros [= _ <-]. Qed.

Lemma preserves_undef {A} : preserves π (undef (A := A)).
Proof. done. Qed.

Lemma preserves_fatal {A} : preserves π (fatal (A := A)).
Proof. done. Qed.

Lemma preserves_stuck {A} : preserves π (stuck (A := A)).
Proof. done. Qed.

Lemma preserves_when (b : bool) m : preserves π m -> preserves π (when b m).
Proof. destruct b; [done|]. intros _. apply preserves_ret. Qed.

(** A frame in [wp] form. *)
Lemma wp_preserves {A} (m : M W A) Q w :
  preserves π m -> wp m Q w -> wp m (fun a w' => Q a w' /\ π w' = π w) w.
Proof. intros Hp. unfold wp. specialize (Hp w). destruct (m w); eauto. Qed.
End preserves_rules.

Create HintDb preserves.
#[export] Hint Resolve preserves_ret preserves_bind preserves_get_state preserves_gets
  preserves_modify preserves_deref preserves_undef preserves_fatal preserves_stuck
  preserves_when : preserves.

(** Proves a [preserves] goal by following the program. *)
Ltac preserves_step :=
  lazymatch goal with
  | |- preserves _ (mbind _ _) => apply preserves_bind; [|intros ?]
  | |- preserves _ (mret _) => apply preserves_ret
  | |- preserves _ (when _ _) => apply preserves_when
  | |- preserves _ (if ?b then _ else _) => destruct b
  | |- preserves _ (match ?x with _ => _ end) => destruct x
  | |- preserves _ (let '_ := ?x in _) => destruct x
  end.
Ltac preserves_go := repeat preserves_step; eauto with preserves.

(** * Intrusive lists

    A [glist_head] list is the list of the addresses of the structures linked
    on it, head first.  A node is linked at most once through one of its link
    fields, so [glist_del] is the removal of an address; it is the identity on
    a list the node is not linked on, as in the code, where unlinked nodes have
    null links. *)

Abbreviation loc := positive.

Definition glist_del (a : loc) (l : list loc) : list loc := filter (fun b => b <> a) l.
Definition glist_add_tail (l : list loc) (a : loc) : list loc := l ++ [a].
Definition glist_empty (l : list loc) : bool := bool_decide (l = []).

Lemma elem_of_glist_del a b l : b ∈ glist_del a l <-> b <> a /\ b ∈ l.
Proof. unfold glist_del. rewrite list_elem_of_filter. done. Qed.

Lemma glist_del_nodup a l : NoDup l -> NoDup (glist_del a l).
Proof. apply NoDup_filter. Qed.

Lemma glist_del_notin a l : a ∉ l -> glist_del a l = l.
Proof.
  induction l as [|b l IH]; [done|]. intros [Hb Hl]%not_elem_of_cons. unfold glist_del in *.
  rewrite filter_cons_True by congruence. f_equal. auto.
Qed.

Lemma glist_del_app a l1 l2 : glist_del a (l1 ++ l2) = glist_del a l1 ++ glist_del a l2.
Proof. apply filter_app. Qed.

Lemma glist_del_middle a l1 l2 : NoDup (l1 ++ a :: l2) -> glist_del a (l1 ++ a :: l2) = l1 ++ l2.
Proof.
  intros (_ & Hd & [Ha _]%NoDup_cons)%NoDup_app. rewrite glist_del_app, (glist_del_notin a l1).
  - f_equal. unfold glist_del. rewrite filter_cons_False by tauto. by apply glist_del_notin.
  - intros Hin. apply (Hd a Hin). by left.
Qed.

Create HintDb kurma.
#[export] Hint Resolve glist_del_nodup u32_range u64_range : kurma.
Create Rewrite HintDb glist.
#[export] Hint Rewrite elem_of_glist_del glist_del_app : glist.
