(* ===== verification/Status.v ===== *)
(** Status codes of the server's layers and the conversions between them.

    The four layers each have an error type: the FSAL ([fsal_errors_t]), the
    inode cache ([cache_inode_status_t]), the state layer ([state_status_t])
    and the protocols ([nfsstat3], [nfsstat4], [nlm4_stats]).  The conversions
    are [cache_inode_error_convert] of cache_inode_misc.c, the four functions of
    SAL/state_misc.c, [nfs4_Errno_verbose] and [nfs3_Errno_verbose] of
    support/nfs_convert.c, [nlm_convert_state_error] of nlm_util.c and
    [clientid_error_to_nfsstat] of SAL/nfs4_clientid.c. *)

From S2P Require Import Prelude.

Inductive state_status_t : Set :=
| STATE_SUCCESS
| STATE_MALLOC_ERROR
| STATE_POOL_MUTEX_INIT_ERROR
| STATE_GET_NEW_LRU_ENTRY
| STATE_INIT_ENTRY_FAILED
| STATE_FSAL_ERROR
| STATE_LRU_ERROR
| STATE_HASH_SET_ERROR
| STATE_NOT_A_DIRECTORY
| STATE_INCONSISTENT_ENTRY
| STATE_BAD_TYPE
| STATE_ENTRY_EXISTS
| STATE_DIR_NOT_EMPTY
| STATE_NOT_FOUND
| STATE_INVALID_ARGUMENT
| STATE_INSERT_ERROR
| STATE_HASH_TABLE_ERROR
| STATE_FSAL_EACCESS
| STATE_IS_A_DIRECTORY
| STATE_FSAL_EPERM
| STATE_NO_SPACE_LEFT
| STATE_READ_ONLY_FS
| STATE_IO_ERROR
| STATE_FSAL_ESTALE
| STATE_FSAL_ERR_SEC
| STATE_STATE_CONFLICT
| STATE_QUOTA_EXCEEDED
| STATE_DEAD_ENTRY
| STATE_ASYNC_POST_ERROR
| STATE_NOT_SUPPORTED
| STATE_STATE_ERROR
| STATE_FSAL_DELAY
| STATE_NAME_TOO_LONG
| STATE_LOCK_CONFLICT
| STATE_LOCK_BLOCKED
| STATE_LOCK_DEADLOCK
| STATE_BAD_COOKIE
| STATE_FILE_BIG
| STATE_GRACE_PERIOD
| STATE_CACHE_INODE_ERR
| STATE_SIGNAL_ERROR
| STATE_KILLED
| STATE_FILE_OPEN
| STATE_MLINK
| STATE_SERVERFAULT
| STATE_TOOSMALL
| STATE_XDEV
| STATE_FSAL_SHARE_DENIED
| STATE_IN_GRACE
| STATE_BADHANDLE.

#[global] Instance state_status_t_eq_dec : EqDecision state_status_t.
Proof. solve_decision. Defined.

Inductive fsal_errors_t : Set :=
| ERR_FSAL_NO_ERROR
| ERR_FSAL_PERM
| ERR_FSAL_NOENT
| ERR_FSAL_IO
| ERR_FSAL_NXIO
| ERR_FSAL_NOMEM
| ERR_FSAL_ACCESS
| ERR_FSAL_FAULT
| ERR_FSAL_EXIST
| ERR_FSAL_XDEV
| ERR_FSAL_NOTDIR
| ERR_FSAL_ISDIR
| ERR_FSAL_INVAL
| ERR_FSAL_FBIG
| ERR_FSAL_NOSPC
| ERR_FSAL_ROFS
| ERR_FSAL_MLINK
| ERR_FSAL_DQUOT
| ERR_FSAL_NAMETOOLONG
| ERR_FSAL_NOTEMPTY
| ERR_FSAL_STALE
| ERR_FSAL_BADHANDLE
| ERR_FSAL_BADCOOKIE
| ERR_FSAL_NOTSUPP
| ERR_FSAL_TOOSMALL
| ERR_FSAL_SERVERFAULT
| ERR_FSAL_BADTYPE
| ERR_FSAL_DELAY
| ERR_FSAL_FHEXPIRED
| ERR_FSAL_SHARE_DENIED
| ERR_FSAL_SYMLINK
| ERR_FSAL_ATTRNOTSUPP
| ERR_FSAL_NOT_INIT
| ERR_FSAL_ALREADY_INIT
| ERR_FSAL_BAD_INIT
| ERR_FSAL_SEC
| ERR_FSAL_NO_QUOTA
| ERR_FSAL_NOT_OPENED
| ERR_FSAL_DEADLOCK
| ERR_FSAL_OVERFLOW
| ERR_FSAL_INTERRUPT
| ERR_FSAL_BLOCKED
| ERR_FSAL_TIMEOUT
| ERR_FSAL_FILE_OPEN
| ERR_FSAL_UNION_NOTSUPP
| ERR_FSAL_IN_GRACE.

#[global] Instance fsal_errors_t_eq_dec : EqDecision fsal_errors_t.
Proof. solve_decision. Defined.

Inductive cache_inode_status_t : Set :=
| CACHE_INODE_SUCCESS
| CACHE_INODE_MALLOC_ERROR
| CACHE_INODE_POOL_MUTEX_INIT_ERROR
| CACHE_INODE_GET_NEW_LRU_ENTRY
| CACHE_INODE_INIT_ENTRY_FAILED
| CACHE_INODE_FSAL_ERROR
| CACHE_INODE_LRU_ERROR
| CACHE_INODE_HASH_SET_ERROR
| CACHE_INODE_NOT_A_DIRECTORY
| CACHE_INODE_INCONSISTENT_ENTRY
| CACHE_INODE_BAD_TYPE
| CACHE_INODE_ENTRY_EXISTS
| CACHE_INODE_DIR_NOT_EMPTY
| CACHE_INODE_NOT_FOUND
| CACHE_INODE_INVALID_ARGUMENT
| CACHE_INODE_INSERT_ERROR
| CACHE_INODE_HASH_TABLE_ERROR
| CACHE_INODE_FSAL_EACCESS
| CACHE_INODE_IS_A_DIRECTORY
| CACHE_INODE_FSAL_EPERM
| CACHE_INODE_NO_SPACE_LEFT
| CACHE_INODE_READ_ONLY_FS
| CACHE_INODE_IO_ERROR
| CACHE_INODE_FSAL_ESTALE
| CACHE_INODE_FSAL_ERR_SEC
| CACHE_INODE_STATE_CONFLICT
| CACHE_INODE_QUOTA_EXCEEDED
| CACHE_INODE_DEAD_ENTRY
| CACHE_INODE_ASYNC_POST_ERROR
| CACHE_INODE_NOT_SUPPORTED
| CACHE_INODE_STATE_ERROR
| CACHE_INODE_DELAY
| CACHE_INODE_NAME_TOO_LONG
| CACHE_INODE_BAD_COOKIE
| CACHE_INODE_FILE_BIG
| CACHE_INODE_KILLED
| CACHE_INODE_FILE_OPEN
| CACHE_INODE_FSAL_XDEV
| CACHE_INODE_FSAL_MLINK
| CACHE_INODE_SERVERFAULT
| CACHE_INODE_TOOSMALL
| CACHE_INODE_FSAL_SHARE_DENIED
| CACHE_INODE_BADNAME
| CACHE_INODE_UNION_NOTSUPP
| CACHE_INODE_CROSS_JUNCTION
| CACHE_INODE_IN_GRACE
| CACHE_INODE_BADHANDLE.

#[global] Instance cache_inode_status_t_eq_dec : EqDecision cache_inode_status_t.
Proof. solve_decision. Defined.

Inductive nfsstat4 : Set :=
| NFS4_OK
| NFS4ERR_PERM
| NFS4ERR_NOENT
| NFS4ERR_IO
| NFS4ERR_NXIO
| NFS4ERR_ACCESS
| NFS4ERR_EXIST
| NFS4ERR_XDEV
| NFS4ERR_NOTDIR
| NFS4ERR_ISDIR
| NFS4ERR_INVAL
| NFS4ERR_FBIG
| NFS4ERR_NOSPC
| NFS4ERR_ROFS
| NFS4ERR_MLINK
| NFS4ERR_NAMETOOLONG
| NFS4ERR_NOTEMPTY
| NFS4ERR_DQUOT
| NFS4ERR_STALE
| NFS4ERR_BADHANDLE
| NFS4ERR_BAD_COOKIE
| NFS4ERR_NOTSUPP
| NFS4ERR_TOOSMALL
| NFS4ERR_SERVERFAULT
| NFS4ERR_BADTYPE
| NFS4ERR_DELAY
| NFS4ERR_SAME
| NFS4ERR_DENIED
| NFS4ERR_EXPIRED
| NFS4ERR_LOCKED
| NFS4ERR_GRACE
| NFS4ERR_FHEXPIRED
| NFS4ERR_SHARE_DENIED
| NFS4ERR_WRONGSEC
| NFS4ERR_CLID_INUSE
| NFS4ERR_RESOURCE
| NFS4ERR_MOVED
| NFS4ERR_NOFILEHANDLE
| NFS4ERR_MINOR_VERS_MISMATCH
| NFS4ERR_STALE_CLIENTID
| NFS4ERR_STALE_STATEID
| NFS4ERR_OLD_STATEID
| NFS4ERR_BAD_STATEID
| NFS4ERR_BAD_SEQID
| NFS4ERR_NOT_SAME
| NFS4ERR_LOCK_RANGE
| NFS4ERR_SYMLINK
| NFS4ERR_RESTOREFH
| NFS4ERR_LEASE_MOVED
| NFS4ERR_ATTRNOTSUPP
| NFS4ERR_NO_GRACE
| NFS4ERR_RECLAIM_BAD
| NFS4ERR_RECLAIM_CONFLICT
| NFS4ERR_BADXDR
| NFS4ERR_LOCKS_HELD
| NFS4ERR_OPENMODE
| NFS4ERR_BADOWNER
| NFS4ERR_BADCHAR
| NFS4ERR_BADNAME
| NFS4ERR_BAD_RANGE
| NFS4ERR_LOCK_NOTSUPP
| NFS4ERR_OP_ILLEGAL
| NFS4ERR_DEADLOCK
| NFS4ERR_FILE_OPEN
| NFS4ERR_ADMIN_REVOKED
| NFS4ERR_CB_PATH_DOWN
| NFS4ERR_BADIOMODE
| NFS4ERR_BADLAYOUT
| NFS4ERR_BAD_SESSION_DIGEST
| NFS4ERR_BADSESSION
| NFS4ERR_BADSLOT
| NFS4ERR_COMPLETE_ALREADY
| NFS4ERR_CONN_NOT_BOUND_TO_SESSION
| NFS4ERR_DELEG_ALREADY_WANTED
| NFS4ERR_BACK_CHAN_BUSY
| NFS4ERR_LAYOUTTRYLATER
| NFS4ERR_LAYOUTUNAVAILABLE
| NFS4ERR_NOMATCHING_LAYOUT
| NFS4ERR_RECALLCONFLICT
| NFS4ERR_UNKNOWN_LAYOUTTYPE
| NFS4ERR_SEQ_MISORDERED
| NFS4ERR_SEQUENCE_POS
| NFS4ERR_REQ_TOO_BIG
| NFS4ERR_REP_TOO_BIG
| NFS4ERR_REP_TOO_BIG_TO_CACHE
| NFS4ERR_RETRY_UNCACHED_REP
| NFS4ERR_UNSAFE_COMPOUND
| NFS4ERR_TOO_MANY_OPS
| NFS4ERR_OP_NOT_IN_SESSION
| NFS4ERR_HASH_ALG_UNSUPP
| NFS4ERR_CLIENTID_BUSY
| NFS4ERR_PNFS_IO_HOLE
| NFS4ERR_SEQ_FALSE_RETRY
| NFS4ERR_BAD_HIGH_SLOT
| NFS4ERR_DEADSESSION
| NFS4ERR_ENCR_ALG_UNSUPP
| NFS4ERR_PNFS_NO_LAYOUT
| NFS4ERR_NOT_ONLY_OP
| NFS4ERR_WRONG_CRED
| NFS4ERR_WRONG_TYPE
| NFS4ERR_DIRDELEG_UNAVAIL
| NFS4ERR_REJECT_DELEG
| NFS4ERR_RETURNCONFLICT
| NFS4ERR_DELEG_REVOKED
| NFS4ERR_PARTNER_NOTSUPP
| NFS4ERR_PARTNER_NO_AUTH
| NFS4ERR_UNION_NOTSUPP
| NFS4ERR_OFFLOAD_DENIED
| NFS4ERR_WRONG_LFS
| NFS4ERR_BADLABEL
| NFS4ERR_PROT_NOTSUPP
| NFS4ERR_PROT_INVAL
| NFS4ERR_PROT_FAIL
| NFS4ERR_PROT_LATFAIL
| NFS4ERR_REPLAY.

(** The wire value of each status, and its inverse. *)
Definition nfsstat4_code (s : nfsstat4) : Z :=
  match s with
  | NFS4_OK => 0
  | NFS4ERR_PERM => 1
  | NFS4ERR_NOENT => 2
  | NFS4ERR_IO => 5
  | NFS4ERR_NXIO => 6
  | NFS4ERR_ACCESS => 13
  | NFS4ERR_EXIST => 17
  | NFS4ERR_XDEV => 18
  | NFS4ERR_NOTDIR => 20
  | NFS4ERR_ISDIR => 21
  | NFS4ERR_INVAL => 22
  | NFS4ERR_FBIG => 27
  | NFS4ERR_NOSPC => 28
  | NFS4ERR_ROFS => 30
  | NFS4ERR_MLINK => 31
  | NFS4ERR_NAMETOOLONG => 63
  | NFS4ERR_NOTEMPTY => 66
  | NFS4ERR_DQUOT => 69
  | NFS4ERR_STALE => 70
  | NFS4ERR_BADHANDLE => 10001
  | NFS4ERR_BAD_COOKIE => 10003
  | NFS4ERR_NOTSUPP => 10004
  | NFS4ERR_TOOSMALL => 10005
  | NFS4ERR_SERVERFAULT => 10006
  | NFS4ERR_BADTYPE => 10007
  | NFS4ERR_DELAY => 10008
  | NFS4ERR_SAME => 10009
  | NFS4ERR_DENIED => 10010
  | NFS4ERR_EXPIRED => 10011
  | NFS4ERR_LOCKED => 10012
  | NFS4ERR_GRACE => 10013
  | NFS4ERR_FHEXPIRED => 10014
  | NFS4ERR_SHARE_DENIED => 10015
  | NFS4ERR_WRONGSEC => 10016
  | NFS4ERR_CLID_INUSE => 10017
  | NFS4ERR_RESOURCE => 10018
  | NFS4ERR_MOVED => 10019
  | NFS4ERR_NOFILEHANDLE => 10020
  | NFS4ERR_MINOR_VERS_MISMATCH => 10021
  | NFS4ERR_STALE_CLIENTID => 10022
  | NFS4ERR_STALE_STATEID => 10023
  | NFS4ERR_OLD_STATEID => 10024
  | NFS4ERR_BAD_STATEID => 10025
  | NFS4ERR_BAD_SEQID => 10026
  | NFS4ERR_NOT_SAME => 10027
  | NFS4ERR_LOCK_RANGE => 10028
  | NFS4ERR_SYMLINK => 10029
  | NFS4ERR_RESTOREFH => 10030
  | NFS4ERR_LEASE_MOVED => 10031
  | NFS4ERR_ATTRNOTSUPP => 10032
  | NFS4ERR_NO_GRACE => 10033
  | NFS4ERR_RECLAIM_BAD => 10034
  | NFS4ERR_RECLAIM_CONFLICT => 10035
  | NFS4ERR_BADXDR => 10036
  | NFS4ERR_LOCKS_HELD => 10037
  | NFS4ERR_OPENMODE => 10038
  | NFS4ERR_BADOWNER => 10039
  | NFS4ERR_BADCHAR => 10040
  | NFS4ERR_BADNAME => 10041
  | NFS4ERR_BAD_RANGE => 10042
  | NFS4ERR_LOCK_NOTSUPP => 10043
  | NFS4ERR_OP_ILLEGAL => 10044
  | NFS4ERR_DEADLOCK => 10045
  | NFS4ERR_FILE_OPEN => 10046
  | NFS4ERR_ADMIN_REVOKED => 10047
  | NFS4ERR_CB_PATH_DOWN => 10048
  | NFS4ERR_BADIOMODE => 10049
  | NFS4ERR_BADLAYOUT => 10050
  | NFS4ERR_BAD_SESSION_DIGEST => 10051
  | NFS4ERR_BADSESSION => 10052
  | NFS4ERR_BADSLOT => 10053
  | NFS4ERR_COMPLETE_ALREADY => 10054
  | NFS4ERR_CONN_NOT_BOUND_TO_SESSION => 10055
  | NFS4ERR_DELEG_ALREADY_WANTED => 10056
  | NFS4ERR_BACK_CHAN_BUSY => 10057
  | NFS4ERR_LAYOUTTRYLATER => 10058
  | NFS4ERR_LAYOUTUNAVAILABLE => 10059
  | NFS4ERR_NOMATCHING_LAYOUT => 10060
  | NFS4ERR_RECALLCONFLICT => 10061
  | NFS4ERR_UNKNOWN_LAYOUTTYPE => 10062
  | NFS4ERR_SEQ_MISORDERED => 10063
  | NFS4ERR_SEQUENCE_POS => 10064
  | NFS4ERR_REQ_TOO_BIG => 10065
  | NFS4ERR_REP_TOO_BIG => 10066
  | NFS4ERR_REP_TOO_BIG_TO_CACHE => 10067
  | NFS4ERR_RETRY_UNCACHED_REP => 10068
  | NFS4ERR_UNSAFE_COMPOUND => 10069
  | NFS4ERR_TOO_MANY_OPS => 10070
  | NFS4ERR_OP_NOT_IN_SESSION => 10071
  | NFS4ERR_HASH_ALG_UNSUPP => 10072
  | NFS4ERR_CLIENTID_BUSY => 10074
  | NFS4ERR_PNFS_IO_HOLE => 10075
  | NFS4ERR_SEQ_FALSE_RETRY => 10076
  | NFS4ERR_BAD_HIGH_SLOT => 10077
  | NFS4ERR_DEADSESSION => 10078
  | NFS4ERR_ENCR_ALG_UNSUPP => 10079
  | NFS4ERR_PNFS_NO_LAYOUT => 10080
  | NFS4ERR_NOT_ONLY_OP => 10081
  | NFS4ERR_WRONG_CRED => 10082
  | NFS4ERR_WRONG_TYPE => 10083
  | NFS4ERR_DIRDELEG_UNAVAIL => 10084
  | NFS4ERR_REJECT_DELEG => 10085
  | NFS4ERR_RETURNCONFLICT => 10086
  | NFS4ERR_DELEG_REVOKED => 10087
  | NFS4ERR_PARTNER_NOTSUPP => 10088
  | NFS4ERR_PARTNER_NO_AUTH => 10089
  | NFS4ERR_UNION_NOTSUPP => 10090
  | NFS4ERR_OFFLOAD_DENIED => 10091
  | NFS4ERR_WRONG_LFS => 10092
  | NFS4ERR_BADLABEL => 10093
  | NFS4ERR_PROT_NOTSUPP => 10200
  | NFS4ERR_PROT_INVAL => 10201
  | NFS4ERR_PROT_FAIL => 10202
  | NFS4ERR_PROT_LATFAIL => 10203
  | NFS4ERR_REPLAY => 11001
  end.

Definition nfsstat4_of_code (z : Z) : option nfsstat4 :=
  match z with
  | 0 => Some NFS4_OK
  | 1 => Some NFS4ERR_PERM
  | 2 => Some NFS4ERR_NOENT
  | 5 => Some NFS4ERR_IO
  | 6 => Some NFS4ERR_NXIO
  | 13 => Some NFS4ERR_ACCESS
  | 17 => Some NFS4ERR_EXIST
  | 18 => Some NFS4ERR_XDEV
  | 20 => Some NFS4ERR_NOTDIR
  | 21 => Some NFS4ERR_ISDIR
  | 22 => Some NFS4ERR_INVAL
  | 27 => Some NFS4ERR_FBIG
  | 28 => Some NFS4ERR_NOSPC
  | 30 => Some NFS4ERR_ROFS
  | 31 => Some NFS4ERR_MLINK
  | 63 => Some NFS4ERR_NAMETOOLONG
  | 66 => Some NFS4ERR_NOTEMPTY
  | 69 => Some NFS4ERR_DQUOT
  | 70 => Some NFS4ERR_STALE
  | 10001 => Some NFS4ERR_BADHANDLE
  | 10003 => Some NFS4ERR_BAD_COOKIE
  | 10004 => Some NFS4ERR_NOTSUPP
  | 10005 => Some NFS4ERR_TOOSMALL
  | 10006 => Some NFS4ERR_SERVERFAULT
  | 10007 => Some NFS4ERR_BADTYPE
  | 10008 => Some NFS4ERR_DELAY
  | 10009 => Some NFS4ERR_SAME
  | 10010 => Some NFS4ERR_DENIED
  | 10011 => Some NFS4ERR_EXPIRED
  | 10012 => Some NFS4ERR_LOCKED
  | 10013 => Some NFS4ERR_GRACE
  | 10014 => Some NFS4ERR_FHEXPIRED
  | 10015 => Some NFS4ERR_SHARE_DENIED
  | 10016 => Some NFS4ERR_WRONGSEC
  | 10017 => Some NFS4ERR_CLID_INUSE
  | 10018 => Some NFS4ERR_RESOURCE
  | 10019 => Some NFS4ERR_MOVED
  | 10020 => Some NFS4ERR_NOFILEHANDLE
  | 10021 => Some NFS4ERR_MINOR_VERS_MISMATCH
  | 10022 => Some NFS4ERR_STALE_CLIENTID
  | 10023 => Some NFS4ERR_STALE_STATEID
  | 10024 => Some NFS4ERR_OLD_STATEID
  | 10025 => Some NFS4ERR_BAD_STATEID
  | 10026 => Some NFS4ERR_BAD_SEQID
  | 10027 => Some NFS4ERR_NOT_SAME
  | 10028 => Some NFS4ERR_LOCK_RANGE
  | 10029 => Some NFS4ERR_SYMLINK
  | 10030 => Some NFS4ERR_RESTOREFH
  | 10031 => Some NFS4ERR_LEASE_MOVED
  | 10032 => Some NFS4ERR_ATTRNOTSUPP
  | 10033 => Some NFS4ERR_NO_GRACE
  | 10034 => Some NFS4ERR_RECLAIM_BAD
  | 10035 => Some NFS4ERR_RECLAIM_CONFLICT
  | 10036 => Some NFS4ERR_BADXDR
  | 10037 => Some NFS4ERR_LOCKS_HELD
  | 10038 => Some NFS4ERR_OPENMODE
  | 10039 => Some NFS4ERR_BADOWNER
  | 10040 => Some NFS4ERR_BADCHAR
  | 10041 => Some NFS4ERR_BADNAME
  | 10042 => Some NFS4ERR_BAD_RANGE
  | 10043 => Some NFS4ERR_LOCK_NOTSUPP
  | 10044 => Some NFS4ERR_OP_ILLEGAL
  | 10045 => Some NFS4ERR_DEADLOCK
  | 10046 => Some NFS4ERR_FILE_OPEN
  | 10047 => Some NFS4ERR_ADMIN_REVOKED
  | 10048 => Some NFS4ERR_CB_PATH_DOWN
  | 10049 => Some NFS4ERR_BADIOMODE
  | 10050 => Some NFS4ERR_BADLAYOUT
  | 10051 => Some NFS4ERR_BAD_SESSION_DIGEST
  | 10052 => Some NFS4ERR_BADSESSION
  | 10053 => Some NFS4ERR_BADSLOT
  | 10054 => Some NFS4ERR_COMPLETE_ALREADY
  | 10055 => Some NFS4ERR_CONN_NOT_BOUND_TO_SESSION
  | 10056 => Some NFS4ERR_DELEG_ALREADY_WANTED
  | 10057 => Some NFS4ERR_BACK_CHAN_BUSY
  | 10058 => Some NFS4ERR_LAYOUTTRYLATER
  | 10059 => Some NFS4ERR_LAYOUTUNAVAILABLE
  | 10060 => Some NFS4ERR_NOMATCHING_LAYOUT
  | 10061 => Some NFS4ERR_RECALLCONFLICT
  | 10062 => Some NFS4ERR_UNKNOWN_LAYOUTTYPE
  | 10063 => Some NFS4ERR_SEQ_MISORDERED
  | 10064 => Some NFS4ERR_SEQUENCE_POS
  | 10065 => Some NFS4ERR_REQ_TOO_BIG
  | 10066 => Some NFS4ERR_REP_TOO_BIG
  | 10067 => Some NFS4ERR_REP_TOO_BIG_TO_CACHE
  | 10068 => Some NFS4ERR_RETRY_UNCACHED_REP
  | 10069 => Some NFS4ERR_UNSAFE_COMPOUND
  | 10070 => Some NFS4ERR_TOO_MANY_OPS
  | 10071 => Some NFS4ERR_OP_NOT_IN_SESSION
  | 10072 => Some NFS4ERR_HASH_ALG_UNSUPP
  | 10074 => Some NFS4ERR_CLIENTID_BUSY
  | 10075 => Some NFS4ERR_PNFS_IO_HOLE
  | 10076 => Some NFS4ERR_SEQ_FALSE_RETRY
  | 10077 => Some NFS4ERR_BAD_HIGH_SLOT
  | 10078 => Some NFS4ERR_DEADSESSION
  | 10079 => Some NFS4ERR_ENCR_ALG_UNSUPP
  | 10080 => Some NFS4ERR_PNFS_NO_LAYOUT
  | 10081 => Some NFS4ERR_NOT_ONLY_OP
  | 10082 => Some NFS4ERR_WRONG_CRED
  | 10083 => Some NFS4ERR_WRONG_TYPE
  | 10084 => Some NFS4ERR_DIRDELEG_UNAVAIL
  | 10085 => Some NFS4ERR_REJECT_DELEG
  | 10086 => Some NFS4ERR_RETURNCONFLICT
  | 10087 => Some NFS4ERR_DELEG_REVOKED
  | 10088 => Some NFS4ERR_PARTNER_NOTSUPP
  | 10089 => Some NFS4ERR_PARTNER_NO_AUTH
  | 10090 => Some NFS4ERR_UNION_NOTSUPP
  | 10091 => Some NFS4ERR_OFFLOAD_DENIED
  | 10092 => Some NFS4ERR_WRONG_LFS
  | 10093 => Some NFS4ERR_BADLABEL
  | 10200 => Some NFS4ERR_PROT_NOTSUPP
  | 10201 => Some NFS4ERR_PROT_INVAL
  | 10202 => Some NFS4ERR_PROT_FAIL
  | 10203 => Some NFS4ERR_PROT_LATFAIL
  | 11001 => Some NFS4ERR_REPLAY
  | _ => None
  end.

Lemma nfsstat4_of_code_code s : nfsstat4_of_code (nfsstat4_code s) = Some s.
Proof. by destruct s. Qed.

#[global] Instance nfsstat4_code_inj : Inj (=) (=) nfsstat4_code.
Proof.
  intros s1 s2 E. apply (f_equal nfsstat4_of_code) in E.
  rewrite !nfsstat4_of_code_code in E. by injection E.
Qed.

#[global] Instance nfsstat4_eq_dec : EqDecision nfsstat4 := inj_eq_dec nfsstat4_code.

Inductive nfsstat3 : Set :=
| NFS3_OK
| NFS3ERR_PERM
| NFS3ERR_NOENT
| NFS3ERR_IO
| NFS3ERR_NXIO
| NFS3ERR_ACCES
| NFS3ERR_EXIST
| NFS3ERR_XDEV
| NFS3ERR_NODEV
| NFS3ERR_NOTDIR
| NFS3ERR_ISDIR
| NFS3ERR_INVAL
| NFS3ERR_FBIG
| NFS3ERR_NOSPC
| NFS3ERR_ROFS
| NFS3ERR_MLINK
| NFS3ERR_NAMETOOLONG
| NFS3ERR_NOTEMPTY
| NFS3ERR_DQUOT
| NFS3ERR_STALE
| NFS3ERR_REMOTE
| NFS3ERR_BADHANDLE
| NFS3ERR_NOT_SYNC
| NFS3ERR_BAD_COOKIE
| NFS3ERR_NOTSUPP
| NFS3ERR_TOOSMALL
| NFS3ERR_SERVERFAULT
| NFS3ERR_BADTYPE
| NFS3ERR_JUKEBOX.

#[global] Instance nfsstat3_eq_dec : EqDecision nfsstat3.
Proof. solve_decision. Defined.

Inductive nlm4_stats : Set :=
| NLM4_GRANTED
| NLM4_DENIED
| NLM4_DENIED_NOLOCKS
| NLM4_BLOCKED
| NLM4_DENIED_GRACE_PERIOD
| NLM4_DEADLCK
| NLM4_ROFS
| NLM4_STALE_FH
| NLM4_FBIG
| NLM4_FAILED.

#[global] Instance nlm4_stats_eq_dec : EqDecision nlm4_stats.
Proof. solve_decision. Defined.

Inductive clientid_status_t : Set :=
| CLIENT_ID_SUCCESS
| CLIENT_ID_INSERT_MALLOC_ERROR
| CLIENT_ID_INVALID_ARGUMENT
| CLIENT_ID_EXPIRED
| CLIENT_ID_STALE.

#[global] Instance clientid_status_t_eq_dec : EqDecision clientid_status_t.
Proof. solve_decision. Defined.

Definition cache_inode_status_to_state_status (status : cache_inode_status_t) : state_status_t :=
  match status with
  | CACHE_INODE_SUCCESS => STATE_SUCCESS
  | CACHE_INODE_MALLOC_ERROR => STATE_MALLOC_ERROR
  | CACHE_INODE_POOL_MUTEX_INIT_ERROR => STATE_POOL_MUTEX_INIT_ERROR
  | CACHE_INODE_GET_NEW_LRU_ENTRY => STATE_GET_NEW_LRU_ENTRY
  | CACHE_INODE_INIT_ENTRY_FAILED => STATE_INIT_ENTRY_FAILED
  | CACHE_INODE_FSAL_ERROR => STATE_FSAL_ERROR
  | CACHE_INODE_LRU_ERROR => STATE_LRU_ERROR
  | CACHE_INODE_HASH_SET_ERROR => STATE_HASH_SET_ERROR
  | CACHE_INODE_NOT_A_DIRECTORY => STATE_NOT_A_DIRECTORY
  | CACHE_INODE_INCONSISTENT_ENTRY => STATE_INCONSISTENT_ENTRY
  | CACHE_INODE_BAD_TYPE => STATE_BAD_TYPE
  | CACHE_INODE_ENTRY_EXISTS => STATE_ENTRY_EXISTS
  | CACHE_INODE_DIR_NOT_EMPTY => STATE_DIR_NOT_EMPTY
  | CACHE_INODE_NOT_FOUND => STATE_NOT_FOUND
  | CACHE_INODE_BADNAME
  | CACHE_INODE_INVALID_ARGUMENT
  | CACHE_INODE_CROSS_JUNCTION => STATE_INVALID_ARGUMENT
  | CACHE_INODE_INSERT_ERROR => STATE_INSERT_ERROR
  | CACHE_INODE_HASH_TABLE_ERROR => STATE_HASH_TABLE_ERROR
  | CACHE_INODE_FSAL_EACCESS => STATE_FSAL_EACCESS
  | CACHE_INODE_IS_A_DIRECTORY => STATE_IS_A_DIRECTORY
  | CACHE_INODE_FSAL_EPERM => STATE_FSAL_EPERM
  | CACHE_INODE_NO_SPACE_LEFT => STATE_NO_SPACE_LEFT
  | CACHE_INODE_READ_ONLY_FS => STATE_READ_ONLY_FS
  | CACHE_INODE_IO_ERROR => STATE_IO_ERROR
  | CACHE_INODE_FSAL_ESTALE => STATE_FSAL_ESTALE
  | CACHE_INODE_FSAL_ERR_SEC => STATE_FSAL_ERR_SEC
  | CACHE_INODE_STATE_CONFLICT => STATE_STATE_CONFLICT
  | CACHE_INODE_QUOTA_EXCEEDED => STATE_QUOTA_EXCEEDED
  | CACHE_INODE_DEAD_ENTRY => STATE_DEAD_ENTRY
  | CACHE_INODE_ASYNC_POST_ERROR => STATE_ASYNC_POST_ERROR
  | CACHE_INODE_NOT_SUPPORTED
  | CACHE_INODE_UNION_NOTSUPP => STATE_NOT_SUPPORTED
  | CACHE_INODE_STATE_ERROR => STATE_STATE_ERROR
  | CACHE_INODE_DELAY => STATE_FSAL_DELAY
  | CACHE_INODE_NAME_TOO_LONG => STATE_NAME_TOO_LONG
  | CACHE_INODE_BAD_COOKIE => STATE_BAD_COOKIE
  | CACHE_INODE_FILE_BIG => STATE_FILE_BIG
  | CACHE_INODE_KILLED => STATE_KILLED
  | CACHE_INODE_FILE_OPEN => STATE_FILE_OPEN
  | CACHE_INODE_FSAL_SHARE_DENIED => STATE_FSAL_SHARE_DENIED
  | CACHE_INODE_FSAL_MLINK => STATE_MLINK
  | CACHE_INODE_SERVERFAULT => STATE_SERVERFAULT
  | CACHE_INODE_TOOSMALL => STATE_TOOSMALL
  | CACHE_INODE_FSAL_XDEV => STATE_XDEV
  | CACHE_INODE_IN_GRACE => STATE_IN_GRACE
  | CACHE_INODE_BADHANDLE => STATE_BADHANDLE
  end.

Definition state_error_convert (major : fsal_errors_t) : state_status_t :=
  match major with
  | ERR_FSAL_NO_ERROR => STATE_SUCCESS
  | ERR_FSAL_NOENT => STATE_NOT_FOUND
  | ERR_FSAL_DELAY
  | ERR_FSAL_ACCESS => STATE_LOCK_CONFLICT
  | ERR_FSAL_PERM => STATE_FSAL_EPERM
  | ERR_FSAL_NOSPC => STATE_NO_SPACE_LEFT
  | ERR_FSAL_ROFS => STATE_READ_ONLY_FS
  | ERR_FSAL_IO
  | ERR_FSAL_NXIO => STATE_IO_ERROR
  | ERR_FSAL_STALE
  | ERR_FSAL_FHEXPIRED => STATE_FSAL_ESTALE
  | ERR_FSAL_INVAL
  | ERR_FSAL_OVERFLOW => STATE_INVALID_ARGUMENT
  | ERR_FSAL_SEC => STATE_FSAL_ERR_SEC
  | ERR_FSAL_NOTSUPP
  | ERR_FSAL_ATTRNOTSUPP
  | ERR_FSAL_UNION_NOTSUPP => STATE_NOT_SUPPORTED
  | ERR_FSAL_NOMEM => STATE_MALLOC_ERROR
  | ERR_FSAL_DEADLOCK => STATE_LOCK_DEADLOCK
  | ERR_FSAL_BADCOOKIE => STATE_BAD_COOKIE
  | ERR_FSAL_NOT_OPENED => STATE_FSAL_ERROR
  | ERR_FSAL_SYMLINK
  | ERR_FSAL_BADTYPE => STATE_BAD_TYPE
  | ERR_FSAL_ISDIR => STATE_IS_A_DIRECTORY
  | ERR_FSAL_FBIG => STATE_FILE_BIG
  | ERR_FSAL_FILE_OPEN => STATE_FILE_OPEN
  | ERR_FSAL_SHARE_DENIED => STATE_FSAL_SHARE_DENIED
  | ERR_FSAL_BLOCKED => STATE_LOCK_BLOCKED
  | ERR_FSAL_IN_GRACE => STATE_IN_GRACE
  | ERR_FSAL_BADHANDLE => STATE_BADHANDLE
  | ERR_FSAL_DQUOT
  | ERR_FSAL_NAMETOOLONG
  | ERR_FSAL_EXIST
  | ERR_FSAL_NOTEMPTY
  | ERR_FSAL_NOTDIR
  | ERR_FSAL_INTERRUPT
  | ERR_FSAL_FAULT
  | ERR_FSAL_NOT_INIT
  | ERR_FSAL_ALREADY_INIT
  | ERR_FSAL_BAD_INIT
  | ERR_FSAL_NO_QUOTA
  | ERR_FSAL_XDEV
  | ERR_FSAL_MLINK
  | ERR_FSAL_TOOSMALL
  | ERR_FSAL_TIMEOUT
  | ERR_FSAL_SERVERFAULT => STATE_FSAL_ERROR
  end.

Definition cache_inode_error_convert (major : fsal_errors_t) : cache_inode_status_t :=
  match major with
  | ERR_FSAL_NO_ERROR => CACHE_INODE_SUCCESS
  | ERR_FSAL_NOENT => CACHE_INODE_NOT_FOUND
  | ERR_FSAL_EXIST => CACHE_INODE_ENTRY_EXISTS
  | ERR_FSAL_ACCESS => CACHE_INODE_FSAL_EACCESS
  | ERR_FSAL_PERM => CACHE_INODE_FSAL_EPERM
  | ERR_FSAL_NOSPC => CACHE_INODE_NO_SPACE_LEFT
  | ERR_FSAL_NOTEMPTY => CACHE_INODE_DIR_NOT_EMPTY
  | ERR_FSAL_ROFS => CACHE_INODE_READ_ONLY_FS
  | ERR_FSAL_NOTDIR => CACHE_INODE_NOT_A_DIRECTORY
  | ERR_FSAL_IO
  | ERR_FSAL_NXIO => CACHE_INODE_IO_ERROR
  | ERR_FSAL_STALE
  | ERR_FSAL_FHEXPIRED => CACHE_INODE_FSAL_ESTALE
  | ERR_FSAL_INVAL
  | ERR_FSAL_OVERFLOW => CACHE_INODE_INVALID_ARGUMENT
  | ERR_FSAL_DQUOT
  | ERR_FSAL_NO_QUOTA => CACHE_INODE_QUOTA_EXCEEDED
  | ERR_FSAL_SEC => CACHE_INODE_FSAL_ERR_SEC
  | ERR_FSAL_NOTSUPP
  | ERR_FSAL_ATTRNOTSUPP => CACHE_INODE_NOT_SUPPORTED
  | ERR_FSAL_UNION_NOTSUPP => CACHE_INODE_UNION_NOTSUPP
  | ERR_FSAL_DELAY => CACHE_INODE_DELAY
  | ERR_FSAL_NAMETOOLONG => CACHE_INODE_NAME_TOO_LONG
  | ERR_FSAL_NOMEM => CACHE_INODE_MALLOC_ERROR
  | ERR_FSAL_BADCOOKIE => CACHE_INODE_BAD_COOKIE
  | ERR_FSAL_FILE_OPEN => CACHE_INODE_FILE_OPEN
  | ERR_FSAL_NOT_OPENED => CACHE_INODE_FSAL_ERROR
  | ERR_FSAL_ISDIR => CACHE_INODE_IS_A_DIRECTORY
  | ERR_FSAL_SYMLINK
  | ERR_FSAL_BADTYPE => CACHE_INODE_BAD_TYPE
  | ERR_FSAL_FBIG => CACHE_INODE_FILE_BIG
  | ERR_FSAL_XDEV => CACHE_INODE_FSAL_XDEV
  | ERR_FSAL_MLINK => CACHE_INODE_FSAL_MLINK
  | ERR_FSAL_FAULT
  | ERR_FSAL_SERVERFAULT
  | ERR_FSAL_DEADLOCK => CACHE_INODE_SERVERFAULT
  | ERR_FSAL_TOOSMALL => CACHE_INODE_TOOSMALL
  | ERR_FSAL_SHARE_DENIED => CACHE_INODE_FSAL_SHARE_DENIED
  | ERR_FSAL_IN_GRACE => CACHE_INODE_IN_GRACE
  | ERR_FSAL_BADHANDLE => CACHE_INODE_BADHANDLE
  | ERR_FSAL_BLOCKED
  | ERR_FSAL_INTERRUPT
  | ERR_FSAL_NOT_INIT
  | ERR_FSAL_ALREADY_INIT
  | ERR_FSAL_BAD_INIT
  | ERR_FSAL_TIMEOUT => CACHE_INODE_FSAL_ERROR
  end.

Definition nfs4_Errno_state (error : state_status_t) : nfsstat4 :=
  match error with
  | STATE_SUCCESS => NFS4_OK
  | STATE_MALLOC_ERROR => NFS4ERR_RESOURCE
  | STATE_POOL_MUTEX_INIT_ERROR
  | STATE_GET_NEW_LRU_ENTRY
  | STATE_INIT_ENTRY_FAILED => NFS4ERR_SERVERFAULT
  | STATE_BAD_TYPE => NFS4ERR_INVAL
  | STATE_NOT_A_DIRECTORY => NFS4ERR_NOTDIR
  | STATE_ENTRY_EXISTS => NFS4ERR_EXIST
  | STATE_DIR_NOT_EMPTY => NFS4ERR_NOTEMPTY
  | STATE_NOT_FOUND => NFS4ERR_NOENT
  | STATE_FSAL_ERROR
  | STATE_INSERT_ERROR
  | STATE_LRU_ERROR
  | STATE_HASH_SET_ERROR => NFS4ERR_IO
  | STATE_FSAL_EACCESS => NFS4ERR_ACCESS
  | STATE_FSAL_EPERM
  | STATE_FSAL_ERR_SEC => NFS4ERR_PERM
  | STATE_NO_SPACE_LEFT => NFS4ERR_NOSPC
  | STATE_IS_A_DIRECTORY => NFS4ERR_ISDIR
  | STATE_READ_ONLY_FS => NFS4ERR_ROFS
  | STATE_IO_ERROR => NFS4ERR_IO
  | STATE_FILE_OPEN => NFS4ERR_FILE_OPEN
  | STATE_NAME_TOO_LONG => NFS4ERR_NAMETOOLONG
  | STATE_KILLED
  | STATE_DEAD_ENTRY
  | STATE_FSAL_ESTALE => NFS4ERR_STALE
  | STATE_STATE_CONFLICT
  | STATE_FSAL_SHARE_DENIED => NFS4ERR_SHARE_DENIED
  | STATE_QUOTA_EXCEEDED => NFS4ERR_DQUOT
  | STATE_NOT_SUPPORTED => NFS4ERR_NOTSUPP
  | STATE_FSAL_DELAY => NFS4ERR_DELAY
  | STATE_FILE_BIG => NFS4ERR_FBIG
  | STATE_LOCK_DEADLOCK => NFS4ERR_DEADLOCK
  | STATE_LOCK_BLOCKED
  | STATE_LOCK_CONFLICT => NFS4ERR_DENIED
  | STATE_STATE_ERROR => NFS4ERR_BAD_STATEID
  | STATE_BAD_COOKIE => NFS4ERR_BAD_COOKIE
  | STATE_GRACE_PERIOD => NFS4ERR_GRACE
  | STATE_SERVERFAULT => NFS4ERR_SERVERFAULT
  | STATE_MLINK => NFS4ERR_MLINK
  | STATE_TOOSMALL => NFS4ERR_TOOSMALL
  | STATE_IN_GRACE => NFS4ERR_GRACE
  | STATE_XDEV => NFS4ERR_XDEV
  | STATE_BADHANDLE => NFS4ERR_BADHANDLE
  | STATE_INVALID_ARGUMENT
  | STATE_CACHE_INODE_ERR
  | STATE_INCONSISTENT_ENTRY
  | STATE_HASH_TABLE_ERROR
  | STATE_ASYNC_POST_ERROR
  | STATE_SIGNAL_ERROR => NFS4ERR_INVAL
  end.

Definition nfs3_Errno_state (error : state_status_t) : nfsstat3 :=
  match error with
  | STATE_SUCCESS => NFS3_OK
  | STATE_MALLOC_ERROR
  | STATE_POOL_MUTEX_INIT_ERROR
  | STATE_GET_NEW_LRU_ENTRY
  | STATE_INIT_ENTRY_FAILED
  | STATE_INSERT_ERROR
  | STATE_LRU_ERROR
  | STATE_HASH_SET_ERROR
  | STATE_FILE_OPEN => NFS3ERR_IO
  | STATE_INVALID_ARGUMENT => NFS3ERR_INVAL
  | STATE_FSAL_ERROR => NFS3ERR_IO
  | STATE_NOT_A_DIRECTORY => NFS3ERR_NOTDIR
  | STATE_ENTRY_EXISTS => NFS3ERR_EXIST
  | STATE_DIR_NOT_EMPTY => NFS3ERR_NOTEMPTY
  | STATE_NOT_FOUND => NFS3ERR_NOENT
  | STATE_FSAL_EACCESS => NFS3ERR_ACCES
  | STATE_FSAL_EPERM
  | STATE_FSAL_ERR_SEC => NFS3ERR_PERM
  | STATE_NO_SPACE_LEFT => NFS3ERR_NOSPC
  | STATE_IS_A_DIRECTORY => NFS3ERR_ISDIR
  | STATE_READ_ONLY_FS => NFS3ERR_ROFS
  | STATE_KILLED
  | STATE_DEAD_ENTRY
  | STATE_FSAL_ESTALE => NFS3ERR_STALE
  | STATE_QUOTA_EXCEEDED => NFS3ERR_DQUOT
  | STATE_BAD_TYPE => NFS3ERR_BADTYPE
  | STATE_NOT_SUPPORTED => NFS3ERR_NOTSUPP
  | STATE_FSAL_DELAY
  | STATE_FSAL_SHARE_DENIED => NFS3ERR_JUKEBOX
  | STATE_IO_ERROR => NFS3ERR_IO
  | STATE_NAME_TOO_LONG => NFS3ERR_NAMETOOLONG
  | STATE_FILE_BIG => NFS3ERR_FBIG
  | STATE_BAD_COOKIE => NFS3ERR_BAD_COOKIE
  | STATE_MLINK => NFS3ERR_MLINK
  | STATE_SERVERFAULT => NFS3ERR_SERVERFAULT
  | STATE_TOOSMALL => NFS3ERR_TOOSMALL
  | STATE_XDEV => NFS3ERR_XDEV
  | STATE_IN_GRACE => NFS3ERR_JUKEBOX
  | STATE_BADHANDLE => NFS3ERR_BADHANDLE
  | STATE_CACHE_INODE_ERR
  | STATE_INCONSISTENT_ENTRY
  | STATE_HASH_TABLE_ERROR
  | STATE_STATE_CONFLICT
  | STATE_ASYNC_POST_ERROR
  | STATE_STATE_ERROR
  | STATE_LOCK_CONFLICT
  | STATE_LOCK_BLOCKED
  | STATE_LOCK_DEADLOCK
  | STATE_GRACE_PERIOD
  | STATE_SIGNAL_ERROR => NFS3ERR_INVAL
  end.

Definition nfs4_Errno_verbose (error : cache_inode_status_t) : nfsstat4 :=
  match error with
  | CACHE_INODE_SUCCESS => NFS4_OK
  | CACHE_INODE_MALLOC_ERROR
  | CACHE_INODE_POOL_MUTEX_INIT_ERROR
  | CACHE_INODE_GET_NEW_LRU_ENTRY
  | CACHE_INODE_INIT_ENTRY_FAILED => NFS4ERR_SERVERFAULT
  | CACHE_INODE_BAD_TYPE
  | CACHE_INODE_INVALID_ARGUMENT => NFS4ERR_INVAL
  | CACHE_INODE_NOT_A_DIRECTORY => NFS4ERR_NOTDIR
  | CACHE_INODE_ENTRY_EXISTS => NFS4ERR_EXIST
  | CACHE_INODE_DIR_NOT_EMPTY => NFS4ERR_NOTEMPTY
  | CACHE_INODE_NOT_FOUND => NFS4ERR_NOENT
  | CACHE_INODE_FSAL_ERROR
  | CACHE_INODE_INSERT_ERROR
  | CACHE_INODE_LRU_ERROR
  | CACHE_INODE_HASH_SET_ERROR => NFS4ERR_IO
  | CACHE_INODE_FSAL_EACCESS => NFS4ERR_ACCESS
  | CACHE_INODE_FSAL_EPERM
  | CACHE_INODE_FSAL_ERR_SEC => NFS4ERR_PERM
  | CACHE_INODE_NO_SPACE_LEFT => NFS4ERR_NOSPC
  | CACHE_INODE_IS_A_DIRECTORY => NFS4ERR_ISDIR
  | CACHE_INODE_READ_ONLY_FS => NFS4ERR_ROFS
  | CACHE_INODE_IO_ERROR => NFS4ERR_IO
  | CACHE_INODE_NAME_TOO_LONG => NFS4ERR_NAMETOOLONG
  | CACHE_INODE_KILLED
  | CACHE_INODE_DEAD_ENTRY
  | CACHE_INODE_FSAL_ESTALE => NFS4ERR_STALE
  | CACHE_INODE_STATE_CONFLICT => NFS4ERR_PERM
  | CACHE_INODE_QUOTA_EXCEEDED => NFS4ERR_DQUOT
  | CACHE_INODE_NOT_SUPPORTED => NFS4ERR_NOTSUPP
  | CACHE_INODE_UNION_NOTSUPP => NFS4ERR_UNION_NOTSUPP
  | CACHE_INODE_DELAY => NFS4ERR_DELAY
  | CACHE_INODE_FILE_BIG => NFS4ERR_FBIG
  | CACHE_INODE_FILE_OPEN => NFS4ERR_FILE_OPEN
  | CACHE_INODE_STATE_ERROR => NFS4ERR_BAD_STATEID
  | CACHE_INODE_BAD_COOKIE => NFS4ERR_BAD_COOKIE
  | CACHE_INODE_TOOSMALL => NFS4ERR_TOOSMALL
  | CACHE_INODE_SERVERFAULT => NFS4ERR_SERVERFAULT
  | CACHE_INODE_FSAL_XDEV => NFS4ERR_XDEV
  | CACHE_INODE_BADNAME => NFS4ERR_BADNAME
  | CACHE_INODE_BADHANDLE => NFS4ERR_BADHANDLE
  | CACHE_INODE_FSAL_MLINK => NFS4ERR_MLINK
  | CACHE_INODE_FSAL_SHARE_DENIED => NFS4ERR_SHARE_DENIED
  | CACHE_INODE_IN_GRACE => NFS4ERR_GRACE
  | CACHE_INODE_INCONSISTENT_ENTRY
  | CACHE_INODE_HASH_TABLE_ERROR
  | CACHE_INODE_ASYNC_POST_ERROR
  | CACHE_INODE_CROSS_JUNCTION => NFS4ERR_INVAL
  end.

Definition nfs3_Errno_verbose (error : cache_inode_status_t) : nfsstat3 :=
  match error with
  | CACHE_INODE_SUCCESS => NFS3_OK
  | CACHE_INODE_MALLOC_ERROR
  | CACHE_INODE_POOL_MUTEX_INIT_ERROR
  | CACHE_INODE_GET_NEW_LRU_ENTRY
  | CACHE_INODE_INIT_ENTRY_FAILED
  | CACHE_INODE_INSERT_ERROR
  | CACHE_INODE_LRU_ERROR
  | CACHE_INODE_HASH_SET_ERROR
  | CACHE_INODE_FILE_OPEN => NFS3ERR_IO
  | CACHE_INODE_INVALID_ARGUMENT => NFS3ERR_INVAL
  | CACHE_INODE_FSAL_ERROR => NFS3ERR_IO
  | CACHE_INODE_NOT_A_DIRECTORY => NFS3ERR_NOTDIR
  | CACHE_INODE_ENTRY_EXISTS => NFS3ERR_EXIST
  | CACHE_INODE_DIR_NOT_EMPTY => NFS3ERR_NOTEMPTY
  | CACHE_INODE_NOT_FOUND => NFS3ERR_NOENT
  | CACHE_INODE_FSAL_EACCESS => NFS3ERR_ACCES
  | CACHE_INODE_FSAL_EPERM
  | CACHE_INODE_FSAL_ERR_SEC => NFS3ERR_PERM
  | CACHE_INODE_NO_SPACE_LEFT => NFS3ERR_NOSPC
  | CACHE_INODE_IS_A_DIRECTORY => NFS3ERR_ISDIR
  | CACHE_INODE_READ_ONLY_FS => NFS3ERR_ROFS
  | CACHE_INODE_KILLED
  | CACHE_INODE_DEAD_ENTRY
  | CACHE_INODE_FSAL_ESTALE => NFS3ERR_STALE
  | CACHE_INODE_QUOTA_EXCEEDED => NFS3ERR_DQUOT
  | CACHE_INODE_BAD_TYPE => NFS3ERR_BADTYPE
  | CACHE_INODE_NOT_SUPPORTED
  | CACHE_INODE_UNION_NOTSUPP => NFS3ERR_NOTSUPP
  | CACHE_INODE_DELAY
  | CACHE_INODE_FSAL_SHARE_DENIED => NFS3ERR_JUKEBOX
  | CACHE_INODE_IO_ERROR => NFS3ERR_IO
  | CACHE_INODE_NAME_TOO_LONG => NFS3ERR_NAMETOOLONG
  | CACHE_INODE_FILE_BIG => NFS3ERR_FBIG
  | CACHE_INODE_BAD_COOKIE => NFS3ERR_BAD_COOKIE
  | CACHE_INODE_TOOSMALL => NFS3ERR_TOOSMALL
  | CACHE_INODE_SERVERFAULT => NFS3ERR_SERVERFAULT
  | CACHE_INODE_FSAL_XDEV => NFS3ERR_XDEV
  | CACHE_INODE_BADNAME => NFS3ERR_INVAL
  | CACHE_INODE_BADHANDLE => NFS3ERR_BADHANDLE
  | CACHE_INODE_FSAL_MLINK => NFS3ERR_MLINK
  | CACHE_INODE_IN_GRACE => NFS3ERR_JUKEBOX
  | CACHE_INODE_INCONSISTENT_ENTRY
  | CACHE_INODE_HASH_TABLE_ERROR
  | CACHE_INODE_STATE_CONFLICT
  | CACHE_INODE_ASYNC_POST_ERROR
  | CACHE_INODE_STATE_ERROR
  | CACHE_INODE_CROSS_JUNCTION => NFS3ERR_INVAL
  end.

Definition nlm_convert_state_error (status : state_status_t) : nlm4_stats :=
  match status with
  | STATE_SUCCESS => NLM4_GRANTED
  | STATE_LOCK_CONFLICT => NLM4_DENIED
  | STATE_STATE_CONFLICT => NLM4_DENIED
  | STATE_MALLOC_ERROR => NLM4_DENIED_NOLOCKS
  | STATE_LOCK_BLOCKED => NLM4_BLOCKED
  | STATE_GRACE_PERIOD => NLM4_DENIED_GRACE_PERIOD
  | STATE_LOCK_DEADLOCK => NLM4_DEADLCK
  | STATE_READ_ONLY_FS => NLM4_ROFS
  | STATE_NOT_FOUND => NLM4_STALE_FH
  | STATE_FSAL_ESTALE => NLM4_STALE_FH
  | STATE_FILE_BIG => NLM4_FBIG
  | _ => NLM4_FAILED
  end.

Definition clientid_error_to_nfsstat (err : clientid_status_t) : nfsstat4 :=
  match err with
  | CLIENT_ID_SUCCESS => NFS4_OK
  | CLIENT_ID_INSERT_MALLOC_ERROR => NFS4ERR_RESOURCE
  | CLIENT_ID_INVALID_ARGUMENT => NFS4ERR_SERVERFAULT
  | CLIENT_ID_EXPIRED => NFS4ERR_EXPIRED
  | CLIENT_ID_STALE => NFS4ERR_STALE_CLIENTID
  end.

(** [state_unlock_err_ok]: the errors an unlock of a whole file may end with
    without counting as a failure. *)
Definition state_unlock_err_ok (status : state_status_t) : bool :=
  bool_decide (status = STATE_SUCCESS) || bool_decide (status = STATE_FSAL_ESTALE)
  || bool_decide (status = STATE_DEAD_ENTRY).

(** A failed FSAL call is never reported as success. *)
Lemma cache_inode_error_convert_err e :
  e <> ERR_FSAL_NO_ERROR -> cache_inode_error_convert e <> CACHE_INODE_SUCCESS.
Proof. by destruct e. Qed.

Lemma state_error_convert_err e :
  e <> ERR_FSAL_NO_ERROR -> state_error_convert e <> STATE_SUCCESS.
Proof. by destruct e. Qed.

Lemma cache_inode_status_to_state_status_err s :
  s <> CACHE_INODE_SUCCESS -> cache_inode_status_to_state_status s <> STATE_SUCCESS.
Proof. by destruct s. Qed.

(** C37: no conversion turns an error into success or success into an error:
    through every path from the FSAL, the inode cache, the state layer and the
    client-id layer to NFSv3, NFSv4 and NLM, the protocol status is OK exactly
    when the status it was made from is. *)
Theorem conversions_reflect_success :
  (forall e, state_error_convert e = STATE_SUCCESS <-> e = ERR_FSAL_NO_ERROR) /\
  (forall e, cache_inode_error_convert e = CACHE_INODE_SUCCESS <-> e = ERR_FSAL_NO_ERROR) /\
  (forall s, cache_inode_status_to_state_status s = STATE_SUCCESS <-> s = CACHE_INODE_SUCCESS) /\
  (forall s, nfs4_Errno_state s = NFS4_OK <-> s = STATE_SUCCESS) /\
  (forall s, nfs3_Errno_state s = NFS3_OK <-> s = STATE_SUCCESS) /\
  (forall s, nfs4_Errno_verbose s = NFS4_OK <-> s = CACHE_INODE_SUCCESS) /\
  (forall s, nfs3_Errno_verbose s = NFS3_OK <-> s = CACHE_INODE_SUCCESS) /\
  (forall s, nlm_convert_state_error s = NLM4_GRANTED <-> s = STATE_SUCCESS) /\
  (forall e, clientid_error_to_nfsstat e = NFS4_OK <-> e = CLIENT_ID_SUCCESS).
Proof. repeat split; try (intros ->; reflexivity); intros H; by destruct_or?; revert H; match goal with |- ?f ?x = _ -> _ => destruct x end. Qed.
