(* ===== verification/World.v ===== *)
(** The shared store of the server: cache entries, lock entries, block data,
    grant cookies, NLM shares, NFSv4 states, list heads and reference counts.

    The structures of include/sal_data.h and include/cache_inode.h are records;
    pointers are addresses into finite maps, so that aliasing (a cookie and a
    lock list that reach the same lock entry) is modelled and freeing is the
    deletion of an address.  Every [glist_head] of the code has a name in
    [list_head], and [w_lists] gives the addresses linked on it.  What the code
    only calls (the FSAL) is the class [FsalOps]. *)

From S2P Require Import Prelude Status.

(** * Enumerations *)

Inductive object_file_type_t : Set :=
| NO_FILE_TYPE | REGULAR_FILE | CHARACTER_FILE | BLOCK_FILE | SYMBOLIC_LINK
| SOCKET_FILE | FIFO_FILE | DIRECTORY | EXTENDED_ATTR.

Inductive lru_q_id : Set :=
| LRU_ENTRY_NONE | LRU_ENTRY_L1 | LRU_ENTRY_L2 | LRU_ENTRY_PINNED | LRU_ENTRY_CLEANUP.

Inductive state_blocking_t : Set :=
| STATE_NON_BLOCKING | STATE_NLM_BLOCKING | STATE_NFSV4_BLOCKING | STATE_GRANTING
| STATE_CANCELED.

Inductive state_grant_type_t : Set :=
| STATE_GRANT_NONE | STATE_GRANT_INTERNAL | STATE_GRANT_FSAL | STATE_GRANT_FSAL_AVAILABLE.

Inductive lock_type_t : Set := POSIX_LOCK | LEASE_LOCK.

Inductive fsal_lock_t : Set := FSAL_LOCK_R | FSAL_LOCK_W | FSAL_NO_LOCK.

Inductive fsal_lock_op_t : Set :=
| FSAL_OP_LOCKT | FSAL_OP_LOCK | FSAL_OP_LOCKB | FSAL_OP_UNLOCK | FSAL_OP_CANCEL.

Inductive fsal_sle_type : Set := FSAL_POSIX_LOCK | FSAL_LEASE_LOCK.

Inductive state_type_t : Set :=
| STATE_TYPE_NONE | STATE_TYPE_SHARE | STATE_TYPE_DELEG | STATE_TYPE_LOCK | STATE_TYPE_LAYOUT.

Inductive fsal_fsinfo_options_t : Set :=
| fso_no_trunc | fso_chown_restricted | fso_case_insensitive | fso_case_preserving
| fso_link_support | fso_symlink_support | fso_lock_support | fso_lock_support_owner
| fso_lock_support_async_block | fso_named_attr | fso_unique_handles | fso_cansettime
| fso_homogenous | fso_auth_exportpath_xdev | fso_delegations | fso_accesscheck_support
| fso_share_support | fso_share_support_owner | fso_pnfs_ds_supported | fso_reopen_method.

#[global] Instance object_file_type_t_eq_dec : EqDecision object_file_type_t.
Proof. solve_decision. Defined.
#[global] Instance lru_q_id_eq_dec : EqDecision lru_q_id.
Proof. solve_decision. Defined.
#[global] Instance state_blocking_t_eq_dec : EqDecision state_blocking_t.
Proof. solve_decision. Defined.
#[global] Instance state_grant_type_t_eq_dec : EqDecision state_grant_type_t.
Proof. solve_decision. Defined.
#[global] Instance lock_type_t_eq_dec : EqDecision lock_type_t.
Proof. solve_decision. Defined.
#[global] Instance fsal_lock_t_eq_dec : EqDecision fsal_lock_t.
Proof. solve_decision. Defined.
#[global] Instance fsal_lock_op_t_eq_dec : EqDecision fsal_lock_op_t.
Proof. solve_decision. Defined.
#[global] Instance fsal_sle_type_eq_dec : EqDecision fsal_sle_type.
Proof. solve_decision. Defined.
#[global] Instance state_type_t_eq_dec : EqDecision state_type_t.
Proof. solve_decision. Defined.
#[global] Instance fsal_fsinfo_options_t_eq_dec : EqDecision fsal_fsinfo_options_t.
Proof. solve_decision. Defined.

(** * Structures *)

Record fsal_lock_param_t : Set := mk_lock_param {
  lock_sle_type : fsal_sle_type;
  lock_type : fsal_lock_t;
  lock_start : Z;
  lock_length : Z;
  lock_reclaim : bool
}.

Record fsal_share_param_t : Set := mk_share_param {
  share_access_p : Z;
  share_deny_p : Z;
  share_reclaim_p : bool
}.

(** [struct state_lock_entry_t].  Null pointers are [None].  For an NLM lock
    [sle_state] is the state number of the client, not the address of a state. *)
Record state_lock_entry_t : Set := mk_lock_entry {
  sle_export : loc;
  sle_entry : loc;
  sle_block_data : option loc;
  sle_owner : option loc;
  sle_state : option loc;
  sle_blocked : state_blocking_t;
  sle_ref_count : Z;
  sle_lock : fsal_lock_param_t;
  sle_type : lock_type_t
}.

(** [struct state_block_data_t]; the only grant callback of the server is
    [nlm_granted_callback], so [sbd_granted_callback] has no field. *)
Record state_block_data_t : Set := mk_block_data {
  sbd_grant_type : state_grant_type_t;
  sbd_blocked_cookie : option loc;
  sbd_lock_entry : option loc
}.

Record state_cookie_entry_t : Set := mk_cookie_entry {
  sce_entry : loc;
  sce_lock_entry : loc;
  sce_cookie : list Z
}.

Record state_nlm_share_t : Set := mk_nlm_share {
  sns_owner : loc;
  sns_entry : loc;
  sns_export : loc;
  sns_access : Z;
  sns_deny : Z
}.

Record cache_inode_share_t : Set := mk_share {
  share_access_read : Z;
  share_access_write : Z;
  share_deny_read : Z;
  share_deny_write : Z;
  share_deny_write_v4 : Z
}.

(** The share part of [state_data_t]. *)
Record state_share_t : Set := mk_state_share {
  share_access : Z;
  share_deny : Z;
  share_access_prev : Z;
  share_deny_prev : Z
}.

Record state_t : Set := mk_state {
  state_type : state_type_t;
  state_entry : loc;
  state_share : state_share_t
}.

(** The part of [cache_entry_t] the state layer uses: the file type, the LRU
    record ([qid], [refcnt], [pin_refcnt]), whether it is in the handle table,
    the link count and the share counters. *)
Record cache_entry_t : Set := mk_cache_entry {
  ce_type : object_file_type_t;
  ce_qid : lru_q_id;
  ce_refcnt : Z;
  ce_pin_refcnt : Z;
  ce_inavl : bool;
  ce_numlinks : Z;
  ce_share : cache_inode_share_t
}.

(** Names of the list heads of the code. *)
Inductive list_head : Set :=
| file_lock_list (entry : loc)      (* entry->object.file.lock_list *)
| file_deleg_list (entry : loc)     (* entry->object.file.deleg_list *)
| file_nlm_share_list (entry : loc) (* entry->object.file.nlm_share_list *)
| so_lock_list (owner : loc)
| so_nlm_shares (owner : loc)
| ssc_lock_list (client : loc)
| ssc_share_list (client : loc)
| exp_lock_list (export : loc)
| exp_nlm_share_list (export : loc)
| state_locklist (state : loc)
| state_blocked_locks
| fsal_unlock_list                  (* the local list of do_unlock_no_owner *)
| split_lock_list                   (* the local lists of subtract_lock_from_list *)
| remove_list.

(** The link field of the structures on a list: a structure is on at most one
    list through each of its link fields.  [sle_client_locks] and
    [sle_state_locks] are one field, [sle_locks]. *)
Inductive glist_link : Set :=
| sle_list | sle_owner_locks | sle_locks | sle_export_locks
| sbd_list
| sns_share_per_file | sns_share_per_owner | sns_share_per_client | sns_share_per_export.

Inductive ref_name : Set :=
| so_refcount (owner : loc)
| ssc_refcount (client : loc)
| slc_refcount (client : loc)
| exp_refcount (export : loc).

#[global] Instance list_head_eq_dec : EqDecision list_head.
Proof. solve_decision. Defined.
#[global] Instance glist_link_eq_dec : EqDecision glist_link.
Proof. solve_decision. Defined.
#[global] Instance ref_name_eq_dec : EqDecision ref_name.
Proof. solve_decision. Defined.

Definition link_of (h : list_head) : glist_link :=
  match h with
  | file_lock_list _ | file_deleg_list _ | fsal_unlock_list | split_lock_list | remove_list =>
      sle_list
  | so_lock_list _ => sle_owner_locks
  | ssc_lock_list _ | state_locklist _ => sle_locks
  | exp_lock_list _ => sle_export_locks
  | state_blocked_locks => sbd_list
  | file_nlm_share_list _ => sns_share_per_file
  | so_nlm_shares _ => sns_share_per_owner
  | ssc_share_list _ => sns_share_per_client
  | exp_nlm_share_list _ => sns_share_per_export
  end.

(** Work handed to the asynchronous thread: a blocked lock the FSAL granted
    ([state_block_schedule]) or an NLM GRANTED message ([state_async_schedule]). *)
Inductive async_job : Set :=
| job_blocked_lock (block : loc)
| job_grant_msg (cookie : loc).

(** * The FSAL

    The object operations the state layer calls, over the private state [FS] of
    the file-system layer. *)
Class FsalOps (FS : Type) := {
  fs_supports : loc -> fsal_fsinfo_options_t -> bool;
  obj_lock_op : FS -> loc -> option loc -> fsal_lock_op_t -> fsal_lock_param_t ->
                fsal_errors_t * fsal_lock_param_t * FS;
  obj_share_op : FS -> loc -> fsal_share_param_t -> fsal_errors_t * FS;
  obj_status : FS -> loc -> Z;
  obj_open : FS -> loc -> Z -> fsal_errors_t * FS;
  obj_reopen : FS -> loc -> Z -> fsal_errors_t * FS;
  obj_close : FS -> loc -> fsal_errors_t * FS
}.

(** * The world *)

Record world (FS : Type) : Type := mk_world {
  w_fs : FS;
  w_open_fd_count : Z;
  w_caching_fds : bool;
  w_files : gmap loc cache_entry_t;
  w_locks : gmap loc state_lock_entry_t;
  w_blocks : gmap loc state_block_data_t;
  w_cookies : gmap loc state_cookie_entry_t;
  w_ht_lock_cookies : gmap (list Z) loc;
  w_nlm_shares : gmap loc state_nlm_share_t;
  w_states : gmap loc state_t;
  w_lists : list_head -> list loc;
  w_refs : ref_name -> Z;
  w_next : loc (* next address to allocate *);
  w_choices : list bool (* results of the coming allocations and thread submissions; success when empty *);
  w_next_cookie : Z (* the counter of next_granted_cookie *);
  w_export : option loc (* op_ctx->export *);
  w_fsal_export : loc (* op_ctx->fsal_export *);
  w_async : list async_job (* queue of the asynchronous thread *)
}.
Arguments mk_world {FS}.
Arguments w_fs {FS} _.
Arguments w_open_fd_count {FS} _.
Arguments w_caching_fds {FS} _.
Arguments w_files {FS} _.
Arguments w_locks {FS} _.
Arguments w_blocks {FS} _.
Arguments w_cookies {FS} _.
Arguments w_ht_lock_cookies {FS} _.
Arguments w_nlm_shares {FS} _.
Arguments w_states {FS} _.
Arguments w_lists {FS} _.
Arguments w_refs {FS} _.
Arguments w_next {FS} _.
Arguments w_choices {FS} _.
Arguments w_next_cookie {FS} _.
Arguments w_export {FS} _.
Arguments w_fsal_export {FS} _.
Arguments w_async {FS} _.

Section setters.
Context {FS : Type}.
Implicit Types w : world FS.

Definition set_fs (f : FS -> FS) w : world FS :=
  mk_world (f (w_fs w)) (w_open_fd_count w) (w_caching_fds w) (w_files w) (w_locks w)
    (w_blocks w) (w_cookies w) (w_ht_lock_cookies w) (w_nlm_shares w) (w_states w) (w_lists w)
    (w_refs w) (w_next w) (w_choices w) (w_next_cookie w) (w_export w) (w_fsal_export w)
    (w_async w).
Definition set_open_fd_count (f : Z -> Z) w : world FS :=
  mk_world (w_fs w) (f (w_open_fd_count w)) (w_caching_fds w) (w_files w) (w_locks w)
    (w_blocks w) (w_cookies w) (w_ht_lock_cookies w) (w_nlm_shares w) (w_states w) (w_lists w)
    (w_refs w) (w_next w) (w_choices w) (w_next_cookie w) (w_export w) (w_fsal_export w)
    (w_async w).
Definition set_caching_fds (f : bool -> bool) w : world FS :=
  mk_world (w_fs w) (w_open_fd_count w) (f (w_caching_fds w)) (w_files w) (w_locks w)
    (w_blocks w) (w_cookies w) (w_ht_lock_cookies w) (w_nlm_shares w) (w_states w) (w_lists w)
    (w_refs w) (w_next w) (w_choices w) (w_next_cookie w) (w_export w) (w_fsal_export w)
    (w_async w).
Definition set_files (f : gmap loc cache_entry_t -> gmap loc cache_entry_t) w : world FS :=
  mk_world (w_fs w) (w_open_fd_count w) (w_caching_fds w) (f (w_files w)) (w_locks w)
    (w_blocks w) (w_cookies w) (w_ht_lock_cookies w) (w_nlm_shares w) (w_states w) (w_lists w)
    (w_refs w) (w_next w) (w_choices w) (w_next_cookie w) (w_export w) (w_fsal_export w)
    (w_async w).
Definition set_locks (f : gmap loc state_lock_entry_t -> gmap loc state_lock_entry_t) w : world FS :=
  mk_world (w_fs w) (w_open_fd_count w) (w_caching_fds w) (w_files w) (f (w_locks w))
    (w_blocks w) (w_cookies w) (w_ht_lock_cookies w) (w_nlm_shares w) (w_states w) (w_lists w)
    (w_refs w) (w_next w) (w_choices w) (w_next_cookie w) (w_export w) (w_fsal_export w)
    (w_async w).
Definition set_blocks (f : gmap loc state_block_data_t -> gmap loc state_block_data_t) w : world FS :=
  mk_world (w_fs w) (w_open_fd_count w) (w_caching_fds w) (w_files w) (w_locks w)
    (f (w_blocks w)) (w_cookies w) (w_ht_lock_cookies w) (w_nlm_shares w) (w_states w)
    (w_lists w) (w_refs w) (w_next w) (w_choices w) (w_next_cookie w) (w_export w)
    (w_fsal_export w) (w_async w).
Definition set_cookies (f : gmap loc state_cookie_entry_t -> gmap loc state_cookie_entry_t) w : world FS :=
  mk_world (w_fs w) (w_open_fd_count w) (w_caching_fds w) (w_files w) (w_locks w) (w_blocks w)
    (f (w_cookies w)) (w_ht_lock_cookies w) (w_nlm_shares w) (w_states w) (w_lists w)
    (w_refs w) (w_next w) (w_choices w) (w_next_cookie w) (w_export w) (w_fsal_export w)
    (w_async w).
Definition set_ht_lock_cookies (f : gmap (list Z) loc -> gmap (list Z) loc) w : world FS :=
  mk_world (w_fs w) (w_open_fd_count w) (w_caching_fds w) (w_files w) (w_locks w) (w_blocks w)
    (w_cookies w) (f (w_ht_lock_cookies w)) (w_nlm_shares w) (w_states w) (w_lists w)
    (w_refs w) (w_next w) (w_choices w) (w_next_cookie w) (w_export w) (w_fsal_export w)
    (w_async w).
Definition set_nlm_shares (f : gmap loc state_nlm_share_t -> gmap loc state_nlm_share_t) w : world FS :=
  mk_world (w_fs w) (w_open_fd_count w) (w_caching_fds w) (w_files w) (w_locks w) (w_blocks w)
    (w_cookies w) (w_ht_lock_cookies w) (f (w_nlm_shares w)) (w_states w) (w_lists w)
    (w_refs w) (w_next w) (w_choices w) (w_next_cookie w) (w_export w) (w_fsal_export w)
    (w_async w).
Definition set_states (f : gmap loc state_t -> gmap loc state_t) w : world FS :=
  mk_world (w_fs w) (w_open_fd_count w) (w_caching_fds w) (w_files w) (w_locks w) (w_blocks w)
    (w_cookies w) (w_ht_lock_cookies w) (w_nlm_shares w) (f (w_states w)) (w_lists w)
    (w_refs w) (w_next w) (w_choices w) (w_next_cookie w) (w_export w) (w_fsal_export w)
    (w_async w).
Definition set_lists (f : (list_head -> list loc) -> (list_head -> list loc)) w : world FS :=
  mk_world (w_fs w) (w_open_fd_count w) (w_caching_fds w) (w_files w) (w_locks w) (w_blocks w)
    (w_cookies w) (w_ht_lock_cookies w) (w_nlm_shares w) (w_states w) (f (w_lists w))
    (w_refs w) (w_next w) (w_choices w) (w_next_cookie w) (w_export w) (w_fsal_export w)
    (w_async w).
Definition set_refs (f : (ref_name -> Z) -> (ref_name -> Z)) w : world FS :=
  mk_world (w_fs w) (w_open_fd_count w) (w_caching_fds w) (w_files w) (w_locks w) (w_blocks w)
    (w_cookies w) (w_ht_lock_cookies w) (w_nlm_shares w) (w_states w) (w_lists w)
    (f (w_refs w)) (w_next w) (w_choices w) (w_next_cookie w) (w_export w) (w_fsal_export w)
    (w_async w).
Definition set_next (f : loc -> loc) w : world FS :=
  mk_world (w_fs w) (w_open_fd_count w) (w_caching_fds w) (w_files w) (w_locks w) (w_blocks w)
    (w_cookies w) (w_ht_lock_cookies w) (w_nlm_shares w) (w_states w) (w_lists w) (w_refs w)
    (f (w_next w)) (w_choices w) (w_next_cookie w) (w_export w) (w_fsal_export w) (w_async w).
Definition set_choices (f : list bool -> list bool) w : world FS :=
  mk_world (w_fs w) (w_open_fd_count w) (w_caching_fds w) (w_files w) (w_locks w) (w_blocks w)
    (w_cookies w) (w_ht_lock_cookies w) (w_nlm_shares w) (w_states w) (w_lists w) (w_refs w)
    (w_next w) (f (w_choices w)) (w_next_cookie w) (w_export w) (w_fsal_export w) (w_async w).
Definition set_next_cookie (f : Z -> Z) w : world FS :=
  mk_world (w_fs w) (w_open_fd_count w) (w_caching_fds w) (w_files w) (w_locks w) (w_blocks w)
    (w_cookies w) (w_ht_lock_cookies w) (w_nlm_shares w) (w_states w) (w_lists w) (w_refs w)
    (w_next w) (w_choices w) (f (w_next_cookie w)) (w_export w) (w_fsal_export w) (w_async w).
Definition set_export (f : option loc -> option loc) w : world FS :=
  mk_world (w_fs w) (w_open_fd_count w) (w_caching_fds w) (w_files w) (w_locks w) (w_blocks w)
    (w_cookies w) (w_ht_lock_cookies w) (w_nlm_shares w) (w_states w) (w_lists w) (w_refs w)
    (w_next w) (w_choices w) (w_next_cookie w) (f (w_export w)) (w_fsal_export w) (w_async w).
Definition set_fsal_export (f : loc -> loc) w : world FS :=
  mk_world (w_fs w) (w_open_fd_count w) (w_caching_fds w) (w_files w) (w_locks w) (w_blocks w)
    (w_cookies w) (w_ht_lock_cookies w) (w_nlm_shares w) (w_states w) (w_lists w) (w_refs w)
    (w_next w) (w_choices w) (w_next_cookie w) (w_export w) (f (w_fsal_export w)) (w_async w).
Definition set_async (f : list async_job -> list async_job) w : world FS :=
  mk_world (w_fs w) (w_open_fd_count w) (w_caching_fds w) (w_files w) (w_locks w) (w_blocks w)
    (w_cookies w) (w_ht_lock_cookies w) (w_nlm_shares w) (w_states w) (w_lists w) (w_refs w)
    (w_next w) (w_choices w) (w_next_cookie w) (w_export w) (w_fsal_export w) (f (w_async w)).
End setters.

(** * Primitive operations on the store *)

Section primitives.
Context {FS : Type}.
Abbreviation M := (M (world FS)).

(** The head names and addresses are decidable, so updating one list leaves the
    others alone. *)
Definition list_update (h : list_head) (f : list loc -> list loc)
    (L : list_head -> list loc) : list_head -> list loc :=
  fun h' => if decide (h' = h) then f (L h) else L h'.
Definition ref_update (r : ref_name) (f : Z -> Z) (R : ref_name -> Z) : ref_name -> Z :=
  fun r' => if decide (r' = r) then f (R r) else R r'.

Definition list_of (h : list_head) : M (list loc) := gets (fun w => w_lists w h).
Definition add_tail (h : list_head) (a : loc) : M unit :=
  modify (set_lists (list_update h (fun l => glist_add_tail l a))).
(** [glist_del] of a link field: off whichever list the structure is on. *)
Definition unlink (k : glist_link) (a : loc) : M unit :=
  modify (set_lists (fun L h => if decide (link_of h = k) then glist_del a (L h) else L h)).
(** [glist_add_list_tail]: the structures of the second list end up on the first. *)
Definition add_list_tail (h h' : list_head) : M unit :=
  modify (set_lists (fun L => list_update h' (fun _ => []) (list_update h (fun l => l ++ L h') L))).
Definition init_list (h : list_head) : M unit :=
  modify (set_lists (list_update h (fun _ => []))).

Definition ref_add (r : ref_name) (d : Z) : M unit :=
  modify (set_refs (ref_update r (fun n => n + d))).

(** The outcome of the next allocation or thread submission. *)
Definition choose : M bool := fun w =>
  match w_choices w with
  | [] => Ret true w
  | b :: bs => Ret b (set_choices (fun _ => bs) w)
  end.
Definition fresh : M loc := fun w =>
  Ret (w_next w) (set_next (fun a => Pos.succ a) w).

Definition get_lock (a : loc) : M state_lock_entry_t := deref (fun w => w_locks w !! a).
Definition get_block (a : loc) : M state_block_data_t := deref (fun w => w_blocks w !! a).
Definition get_cookie (a : loc) : M state_cookie_entry_t := deref (fun w => w_cookies w !! a).
Definition get_file (a : loc) : M cache_entry_t := deref (fun w => w_files w !! a).
Definition get_nlm_share (a : loc) : M state_nlm_share_t := deref (fun w => w_nlm_shares w !! a).
Definition get_st (a : loc) : M state_t := deref (fun w => w_states w !! a).

(** Assigning through a pointer; undefined when nothing is allocated there. *)
Definition upd_lock (a : loc) (f : state_lock_entry_t -> state_lock_entry_t) : M unit :=
  e ← get_lock a; modify (set_locks (<[a := f e]>)).
Definition upd_block (a : loc) (f : state_block_data_t -> state_block_data_t) : M unit :=
  e ← get_block a; modify (set_blocks (<[a := f e]>)).
Definition upd_file (a : loc) (f : cache_entry_t -> cache_entry_t) : M unit :=
  e ← get_file a; modify (set_files (<[a := f e]>)).
Definition upd_st (a : loc) (f : state_t -> state_t) : M unit :=
  e ← get_st a; modify (set_states (<[a := f e]>)).
End primitives.

(** Field assignments of the structures. *)
Definition with_start (s : Z) (l : fsal_lock_param_t) : fsal_lock_param_t :=
  mk_lock_param (lock_sle_type l) (lock_type l) s (lock_length l) (lock_reclaim l).
Definition with_length (n : Z) (l : fsal_lock_param_t) : fsal_lock_param_t :=
  mk_lock_param (lock_sle_type l) (lock_type l) (lock_start l) n (lock_reclaim l).
Definition with_sle_type (t : fsal_sle_type) (l : fsal_lock_param_t) : fsal_lock_param_t :=
  mk_lock_param t (lock_type l) (lock_start l) (lock_length l) (lock_reclaim l).

Definition with_lock (f : fsal_lock_param_t -> fsal_lock_param_t) (e : state_lock_entry_t) :=
  mk_lock_entry (sle_export e) (sle_entry e) (sle_block_data e) (sle_owner e) (sle_state e)
    (sle_blocked e) (sle_ref_count e) (f (sle_lock e)) (sle_type e).
Definition with_blocked (b : state_blocking_t) (e : state_lock_entry_t) :=
  mk_lock_entry (sle_export e) (sle_entry e) (sle_block_data e) (sle_owner e) (sle_state e)
    b (sle_ref_count e) (sle_lock e) (sle_type e).
Definition with_ref_count (f : Z -> Z) (e : state_lock_entry_t) :=
  mk_lock_entry (sle_export e) (sle_entry e) (sle_block_data e) (sle_owner e) (sle_state e)
    (sle_blocked e) (f (sle_ref_count e)) (sle_lock e) (sle_type e).
Definition with_owner (o : option loc) (e : state_lock_entry_t) :=
  mk_lock_entry (sle_export e) (sle_entry e) (sle_block_data e) o (sle_state e)
    (sle_blocked e) (sle_ref_count e) (sle_lock e) (sle_type e).
Definition with_block_data (b : option loc) (e : state_lock_entry_t) :=
  mk_lock_entry (sle_export e) (sle_entry e) b (sle_owner e) (sle_state e)
    (sle_blocked e) (sle_ref_count e) (sle_lock e) (sle_type e).

Definition with_grant_type (g : state_grant_type_t) (b : state_block_data_t) :=
  mk_block_data g (sbd_blocked_cookie b) (sbd_lock_entry b).
Definition with_cookie (c : option loc) (b : state_block_data_t) :=
  mk_block_data (sbd_grant_type b) c (sbd_lock_entry b).
Definition with_lock_entry (a : option loc) (b : state_block_data_t) :=
  mk_block_data (sbd_grant_type b) (sbd_blocked_cookie b) a.

Definition with_qid (q : lru_q_id) (e : cache_entry_t) :=
  mk_cache_entry (ce_type e) q (ce_refcnt e) (ce_pin_refcnt e) (ce_inavl e) (ce_numlinks e)
    (ce_share e).
Definition with_refcnt (f : Z -> Z) (e : cache_entry_t) :=
  mk_cache_entry (ce_type e) (ce_qid e) (f (ce_refcnt e)) (ce_pin_refcnt e) (ce_inavl e)
    (ce_numlinks e) (ce_share e).
Definition with_pin_refcnt (f : Z -> Z) (e : cache_entry_t) :=
  mk_cache_entry (ce_type e) (ce_qid e) (ce_refcnt e) (f (ce_pin_refcnt e)) (ce_inavl e)
    (ce_numlinks e) (ce_share e).
Definition with_inavl (b : bool) (e : cache_entry_t) :=
  mk_cache_entry (ce_type e) (ce_qid e) (ce_refcnt e) (ce_pin_refcnt e) b (ce_numlinks e)
    (ce_share e).
Definition with_share (s : cache_inode_share_t) (e : cache_entry_t) :=
  mk_cache_entry (ce_type e) (ce_qid e) (ce_refcnt e) (ce_pin_refcnt e) (ce_inavl e)
    (ce_numlinks e) s.

Definition with_state_share (f : state_share_t -> state_share_t) (s : state_t) :=
  mk_state (state_type s) (state_entry s) (f (state_share s)).

Lemma list_update_eq h f L : list_update h f L h = f (L h).
Proof. unfold list_update. by rewrite decide_True. Qed.

Lemma list_update_ne h h' f L : h' <> h -> list_update h f L h' = L h'.
Proof. intros. unfold list_update. by rewrite decide_False. Qed.

#[export] Hint Rewrite list_update_eq : glist.
#[export] Hint Rewrite list_update_ne using done : glist.

(** A store with the given cache entries and nothing else, for examples. *)
Definition initial_world {FS} (fs : FS) (files : gmap loc cache_entry_t) : world FS :=
  mk_world fs 0 true files ∅ ∅ ∅ ∅ ∅ ∅ (fun _ => []) (fun _ => 0) 100 [] 1 (Some 1%positive) 1 [].
Definition regular_file : cache_entry_t :=
  mk_cache_entry REGULAR_FILE LRU_ENTRY_L1 1 0 true 1 (mk_share 0 0 0 0 0).
