(* ===== verification/Owner.v ===== *)
(** State owners: who holds a lock, a share reservation or an open.

    The structures of include/sal_data.h that identify an owner, the comparison
    functions of nlm_owner.c, 9p_owner.c, nfs4_owner.c and state_misc.c, and the
    seqid check of nfs4_owner.c that gives NFSv4.0 requests at-most-once
    semantics. *)

From S2P Require Import Prelude Status.

(** * Owners and clients *)

(** An address is a family with the bytes of the address and a port;
    [AF_OTHER] is any family but the two the code knows. *)
Inductive sockaddr_t : Set :=
| AF_INET (s_addr port : Z)
| AF_INET6 (s6_addr : list Z) (port : Z)
| AF_OTHER (family : Z) (data : list Z).

Inductive state_owner_type_t : Set :=
| STATE_LOCK_OWNER_UNKNOWN | STATE_LOCK_OWNER_NLM | STATE_LOCK_OWNER_9P
| STATE_OPEN_OWNER_NFSV4 | STATE_LOCK_OWNER_NFSV4 | STATE_CLIENTID_OWNER_NFSV4.

#[global] Instance state_owner_type_t_eq_dec : EqDecision state_owner_type_t.
Proof. solve_decision. Defined.

Record state_nsm_client_t : Set := mk_nsm_client {
  ssc_client_addr : sockaddr_t;
  ssc_nlm_caller_name : list Z
}.

Record state_nlm_client_t : Set := mk_nlm_client {
  slc_nsm_client : loc;
  slc_client_type : Z;
  slc_server_addr : sockaddr_t;
  slc_nlm_caller_name : list Z
}.

(** The fields that identify an owner: the type, the name and the members of
    the union [so_owner].  They are set when the owner is created and do not
    change while it can be found. *)
Record state_owner_t : Set := mk_owner {
  so_type : state_owner_type_t;
  so_owner_val : list Z;
  so_clientid : Z;
  so_related_owner : option loc;
  so_client : loc;
  so_nlm_svid : Z;
  proc_id : Z
}.

(** The owners and clients pointers lead to, and the configuration item that
    selects how NSM clients are compared. *)
Class OwnerEnv := {
  owner_of : loc -> state_owner_t;
  nlm_client_of : loc -> state_nlm_client_t;
  nsm_client_of : loc -> state_nsm_client_t;
  nsm_use_caller_name : bool
}.

(** * Comparisons *)

Definition cmp_sockaddr (addr_1 addr_2 : sockaddr_t) (ignore_port : bool) : bool :=
  match addr_1, addr_2 with
  | AF_INET a1 p1, AF_INET a2 p2 => (a1 =? a2) && (ignore_port || (p1 =? p2))
  | AF_INET6 a1 p1, AF_INET6 a2 p2 => bool_decide (a1 = a2) && (ignore_port || (p1 =? p2))
  | _, _ => false
  end.

Section comparisons.
Context {env : OwnerEnv}.

(** A comparison returns whether its arguments differ (in the code: 0 when they
    are the same); lengths and contents of names are compared together. *)
Definition compare_nsm_client (client1 client2 : loc) : bool :=
  if decide (client1 = client2) then false
  else
    let c1 := nsm_client_of client1 in
    let c2 := nsm_client_of client2 in
    if negb nsm_use_caller_name then negb (cmp_sockaddr (ssc_client_addr c1) (ssc_client_addr c2) true)
    else bool_decide (ssc_nlm_caller_name c1 <> ssc_nlm_caller_name c2).

Definition compare_nlm_client (client1 client2 : loc) : bool :=
  if decide (client1 = client2) then false
  else
    let c1 := nlm_client_of client1 in
    let c2 := nlm_client_of client2 in
    if compare_nsm_client (slc_nsm_client c1) (slc_nsm_client c2) then true
    else if negb (cmp_sockaddr (slc_server_addr c1) (slc_server_addr c2) true) then true
    else if negb (slc_client_type c1 =? slc_client_type c2) then true
    else bool_decide (slc_nlm_caller_name c1 <> slc_nlm_caller_name c2).

Definition compare_nlm_owner (owner1 owner2 : loc) : bool :=
  if decide (owner1 = owner2) then false
  else
    let o1 := owner_of owner1 in
    let o2 := owner_of owner2 in
    if compare_nlm_client (so_client o1) (so_client o2) then true
    else if negb (so_nlm_svid o1 =? so_nlm_svid o2) then true
    else bool_decide (so_owner_val o1 <> so_owner_val o2).

(** The comparison of the addresses is compiled out. *)
Definition compare_9p_owner (owner1 owner2 : loc) : bool :=
  if decide (owner1 = owner2) then false
  else
    let o1 := owner_of owner1 in
    let o2 := owner_of owner2 in
    if negb (proc_id o1 =? proc_id o2) then true
    else bool_decide (so_owner_val o1 <> so_owner_val o2).

(** A lock owner compares with an open owner through its related open owner;
    [None] is the exhaustion of the recursion. *)
Fixpoint compare_nfs4_owner (fuel : nat) (owner1 owner2 : option loc) : option bool :=
  match fuel with
  | O => None
  | S fuel =>
      match owner1, owner2 with
      | Some a1, Some a2 =>
          if decide (a1 = a2) then Some false
          else
            let o1 := owner_of a1 in
            let o2 := owner_of a2 in
            if bool_decide (so_type o1 = STATE_LOCK_OWNER_NFSV4)
               && bool_decide (so_type o2 = STATE_OPEN_OWNER_NFSV4)
            then compare_nfs4_owner fuel (so_related_owner o1) owner2
            else if bool_decide (so_type o2 = STATE_LOCK_OWNER_NFSV4)
                    && bool_decide (so_type o1 = STATE_OPEN_OWNER_NFSV4)
            then compare_nfs4_owner fuel (so_related_owner o2) owner1
            else if bool_decide (so_type o1 <> so_type o2) then Some true
            else if negb (so_clientid o1 =? so_clientid o2) then Some true
            else Some (bool_decide (so_owner_val o1 <> so_owner_val o2))
      | _, _ => Some true
      end
  end.

(** [different_owners] compares NFSv4 owners of one type only, so the recursion
    ends at once. *)
Definition different_owners (owner1 owner2 : option loc) : bool :=
  match owner1, owner2 with
  | Some a1, Some a2 =>
      if decide (a1 = a2) then false
      else if bool_decide (so_type (owner_of a1) <> so_type (owner_of a2)) then true
      else
        match so_type (owner_of a1) with
        | STATE_LOCK_OWNER_NLM => compare_nlm_owner a1 a2
        | STATE_LOCK_OWNER_9P => compare_9p_owner a1 a2
        | STATE_OPEN_OWNER_NFSV4 | STATE_LOCK_OWNER_NFSV4 | STATE_CLIENTID_OWNER_NFSV4 =>
            default true (compare_nfs4_owner 1 owner1 owner2)
        | STATE_LOCK_OWNER_UNKNOWN => true
        end
  | _, _ => true
  end.

(** Two owner pointers name the same owner. *)
Definition same_owner (a1 a2 : loc) : Prop := different_owners (Some a1) (Some a2) = false.
End comparisons.
#[global] Arguments different_owners : simpl never.

(** * The seqid of NFSv4.0 owners *)

(** A denied lock in a reply; no owner name stands for [unknown_owner]'s. *)
Record LOCK4denied : Set := mk_denied {
  denied_offset : Z;
  denied_length : Z;
  denied_write : bool (* locktype is WRITE_LT *);
  denied_clientid : Z;
  denied_owner : option (list Z)
}.

(** The reply to one operation: its number, its status, the conflict of a LOCK
    and the rest of its contents. *)
Record nfs_resop4 : Set := mk_resop {
  resop : Z;
  res_status : nfsstat4;
  res_denied : LOCK4denied;
  res_body : list Z
}.

Definition with_status (st : nfsstat4) (r : nfs_resop4) : nfs_resop4 :=
  mk_resop (resop r) st (res_denied r) (res_body r).

(** The part of an NFSv4 owner that serialises its requests. *)
Record nfs4_owner_seq : Set := mk_owner_seq {
  so_seqid : Z;
  so_args_argop : Z;
  so_last_entry : option loc;
  so_resp : nfs_resop4
}.

Definition NFS4_OP_CLOSE : Z := 4.
Definition NFS4_OP_COMMIT : Z := 5.
Definition NFS4_OP_CREATE : Z := 6.
Definition NFS4_OP_DELEGPURGE : Z := 7.
Definition NFS4_OP_DELEGRETURN : Z := 8.
Definition NFS4_OP_LOCK : Z := 12.
Definition NFS4_OP_LOCKU : Z := 14.
Definition NFS4_OP_OPEN : Z := 18.
Definition NFS4_OP_OPEN_CONFIRM : Z := 20.
Definition NFS4_OP_OPEN_DOWNGRADE : Z := 21.

(** [malloc_ok] is the outcome of the allocation of a copied owner name. *)
Definition Copy_nfs4_denied (malloc_ok : bool) (d : LOCK4denied) : LOCK4denied :=
  mk_denied (denied_offset d) (denied_length d) (denied_write d) (denied_clientid d)
    (if malloc_ok then denied_owner d else None).

Definition nfs4_op_lock_CopyRes (malloc_ok : bool) (r : nfs_resop4) : nfs_resop4 :=
  if decide (res_status r = NFS4ERR_DENIED)
  then mk_resop (resop r) (res_status r) (Copy_nfs4_denied malloc_ok (res_denied r)) (res_body r)
  else r.

(** The operations whose reply can be copied; for any other the process ends,
    which is [None]. *)
Definition nfs4_Compound_CopyResOne (malloc_ok : bool) (r : nfs_resop4) : option nfs_resop4 :=
  if resop r =? NFS4_OP_LOCK then Some (nfs4_op_lock_CopyRes malloc_ok r)
  else if bool_decide (resop r ∈ [NFS4_OP_CLOSE; NFS4_OP_COMMIT; NFS4_OP_CREATE;
            NFS4_OP_DELEGPURGE; NFS4_OP_DELEGRETURN; NFS4_OP_LOCKU; NFS4_OP_OPEN;
            NFS4_OP_OPEN_CONFIRM; NFS4_OP_OPEN_DOWNGRADE])
  then Some r else None.

(** The owner after a request was processed; nothing is kept without an owner. *)
Definition Copy_nfs4_state_req (malloc_ok : bool) (owner : option nfs4_owner_seq)
    (seqid argop : Z) (entry : option loc) (resp : nfs_resop4)
    : option (option nfs4_owner_seq) :=
  match owner with
  | None => Some None
  | Some _ =>
      saved ← nfs4_Compound_CopyResOne malloc_ok resp;
      Some (Some (mk_owner_seq seqid argop entry saved))
  end.

(** Whether the caller is to process the request, and the reply as left for the
    client otherwise; [owner] is [None] for a null pointer. *)
Definition Check_nfs4_seqid (malloc_ok : bool) (owner : option nfs4_owner_seq)
    (seqid argop : Z) (entry : option loc) (resp : nfs_resop4) : option (bool * nfs_resop4) :=
  match owner with
  | None => Some (true, resp)
  | Some o =>
      if decide (so_last_entry o = None) then Some (true, resp)
      else if seqid =? u32 (so_seqid o + 1) then Some (true, resp)
      else
        let bad := with_status NFS4ERR_BAD_SEQID resp in
        if negb (so_seqid o =? seqid) then Some (false, bad)
        else if negb (argop =? so_args_argop o) then Some (false, bad)
        else if decide (so_last_entry o <> entry) then Some (false, bad)
        else r ← nfs4_Compound_CopyResOne malloc_ok (so_resp o); Some (false, r)
  end.

(** * Identity of owners *)

(** Pointers compared first, then what they point to. *)
Definition ptr_or {A} (R : relation A) (x y : A) : Prop := x = y \/ R x y.

#[global] Instance ptr_or_equivalence {A} (R : relation A) :
  Symmetric R -> Transitive R -> Equivalence (ptr_or R).
Proof.
  intros Hs Ht. split.
  - intros x. by left.
  - intros x y [->|H]; [by left|by right; apply Hs].
  - intros x y z [->|H1]; [done|]. intros [->|H2]; [by right|right; by eapply Ht].
Qed.

Definition same_addr (a1 a2 : sockaddr_t) : Prop := cmp_sockaddr a1 a2 true = true.

#[global] Instance same_addr_sym : Symmetric same_addr.
Proof.
  intros [a p|a p|] [b q|b q|]; unfold same_addr; simpl; try done; rewrite !andb_true_r.
  - rewrite !Z.eqb_eq. congruence.
  - rewrite !bool_decide_eq_true. congruence.
Qed.

#[global] Instance same_addr_trans : Transitive same_addr.
Proof.
  intros [a p|a p|] [b q|b q|] [c r|c r|]; unfold same_addr; simpl; try done;
    rewrite !andb_true_r.
  - rewrite !Z.eqb_eq. congruence.
  - rewrite !bool_decide_eq_true. congruence.
Qed.

Section identity.
Context {env : OwnerEnv}.

Definition nsm_identity (c1 c2 : state_nsm_client_t) : Prop :=
  if nsm_use_caller_name then ssc_nlm_caller_name c1 = ssc_nlm_caller_name c2
  else same_addr (ssc_client_addr c1) (ssc_client_addr c2).
Definition same_nsm_client : relation loc :=
  ptr_or (fun a b => nsm_identity (nsm_client_of a) (nsm_client_of b)).

Definition nlm_identity (c1 c2 : state_nlm_client_t) : Prop :=
  same_nsm_client (slc_nsm_client c1) (slc_nsm_client c2) /\
  same_addr (slc_server_addr c1) (slc_server_addr c2) /\
  slc_client_type c1 = slc_client_type c2 /\
  slc_nlm_caller_name c1 = slc_nlm_caller_name c2.
Definition same_nlm_client : relation loc :=
  ptr_or (fun a b => nlm_identity (nlm_client_of a) (nlm_client_of b)).

(** What makes two owners one, by the protocol they came from. *)
Definition owner_identity (o1 o2 : state_owner_t) : Prop :=
  so_type o1 = so_type o2 /\ so_owner_val o1 = so_owner_val o2 /\
  match so_type o1 with
  | STATE_LOCK_OWNER_NLM =>
      same_nlm_client (so_client o1) (so_client o2) /\ so_nlm_svid o1 = so_nlm_svid o2
  | STATE_LOCK_OWNER_9P => proc_id o1 = proc_id o2
  | STATE_OPEN_OWNER_NFSV4 | STATE_LOCK_OWNER_NFSV4 | STATE_CLIENTID_OWNER_NFSV4 =>
      so_clientid o1 = so_clientid o2
  | STATE_LOCK_OWNER_UNKNOWN => False
  end.

#[export] Instance same_nsm_client_equiv : Equivalence same_nsm_client.
Proof.
  apply ptr_or_equivalence; unfold nsm_identity; destruct nsm_use_caller_name.
  - by intros a b ->.
  - intros a b H. by symmetry.
  - intros a b c. by intros ->.
  - intros a b c H1 H2. by etrans.
Qed.

#[export] Instance same_nlm_client_equiv : Equivalence same_nlm_client.
Proof.
  apply ptr_or_equivalence; unfold nlm_identity.
  - intros a b (? & ? & ? & ?). split_and!; by symmetry.
  - intros a b c (? & ? & ? & ?) (? & ? & ? & ?). split_and!; by etrans.
Qed.

Lemma compare_nsm_client_spec a b : compare_nsm_client a b = false <-> same_nsm_client a b.
Proof.
  unfold compare_nsm_client, same_nsm_client, ptr_or, nsm_identity, same_addr.
  destruct (decide (a = b)) as [->|Hne]; [tauto|].
  destruct nsm_use_caller_name; simpl.
  - rewrite bool_decide_eq_false. split; [intros H; right; by apply dec_stable|tauto].
  - rewrite negb_false_iff. tauto.
Qed.

Lemma compare_nlm_client_spec a b : compare_nlm_client a b = false <-> same_nlm_client a b.
Proof.
  unfold compare_nlm_client, same_nlm_client, ptr_or, nlm_identity.
  destruct (decide (a = b)) as [->|Hne]; [tauto|].
  rewrite <- compare_nsm_client_spec. unfold same_addr.
  destruct (compare_nsm_client _ _); [intuition congruence|].
  destruct (cmp_sockaddr _ _ _); simpl; [|intuition congruence].
  destruct (Z.eqb_spec (slc_client_type (nlm_client_of a)) (slc_client_type (nlm_client_of b)));
    simpl; [|intuition congruence].
  rewrite bool_decide_eq_false. split; [|tauto]. intros H%dec_stable. tauto.
Qed.

(** [different_owners] decides the identity of owners. *)
Lemma same_owner_spec a b :
  same_owner a b <-> ptr_or (fun a b => owner_identity (owner_of a) (owner_of b)) a b.
Proof.
  unfold same_owner, different_owners, ptr_or, owner_identity.
  destruct (decide (a = b)) as [->|Hne]; [tauto|].
  case_bool_decide as Ht; [intuition congruence|].
  unfold compare_nlm_owner, compare_9p_owner, compare_nfs4_owner.
  rewrite !decide_False by done. rewrite <- Ht.
  pose proof (compare_nlm_client_spec (so_client (owner_of a)) (so_client (owner_of b))) as Hc.
  assert (Hv : bool_decide (so_owner_val (owner_of a) <> so_owner_val (owner_of b)) = false
            <-> so_owner_val (owner_of a) = so_owner_val (owner_of b)).
  { rewrite bool_decide_eq_false. split; [apply dec_stable|tauto]. }
  destruct (so_type (owner_of a)) eqn:E; try tauto;
    rewrite ?bool_decide_eq_false_2 by done; cbn [andb default];
    rewrite ?negb_if, <- ?Hc, <- ?Hv, <- ?Z.eqb_eq;
    (destruct (compare_nlm_client _ _), (bool_decide _)); repeat case_match; simplify_eq/=; try tauto; intuition congruence.
Qed.

#[export] Instance same_owner_equiv : Equivalence same_owner.
Proof.
  pose (R := fun a b => owner_identity (owner_of a) (owner_of b)).
  assert (Hs : Symmetric R).
  { intros a b (Ht & Hv & Hi). subst R; unfold owner_identity; simpl in *. rewrite Ht, Hv in *.
    split_and!; [done|done|]. destruct (so_type (owner_of b)); try done.
    destruct Hi. split; by symmetry. }
  assert (Htr : Transitive R).
  { intros a b c (Ht1 & Hv1 & Hi1) (Ht2 & Hv2 & Hi2). subst R; unfold owner_identity; simpl in *.
    rewrite Ht1, Hv1 in *. split_and!; [done|done|].
    destruct (so_type (owner_of b)); try done; [|congruence..].
    destruct Hi1, Hi2. split; by etrans. }
  pose proof (ptr_or_equivalence R Hs Htr) as [Hrefl Hsym Htrans].
  split; red; setoid_rewrite same_owner_spec; [apply Hrefl|apply Hsym|apply Htrans].
Qed.

(** C22: the comparison of owners that decides lock conflicts is an equivalence,
    and it identifies owners exactly by what their protocol says names them:
    client id and owner name for NFSv4, client, process and owner handle for
    NLM, process and name for 9P; an owner of unknown type is only itself. *)
Theorem different_owners_equivalence :
  Equivalence same_owner /\
  forall a b, same_owner a b <-> a = b \/ owner_identity (owner_of a) (owner_of b).
Proof. split; [apply _|]. intros a b. apply same_owner_spec. Qed.

(** The comparison of a lock owner with an open owner goes through the related
    open owner and ends: lock owners are related to open owners. *)
Lemma compare_nfs4_owner_total a b :
  (forall o r, so_type (owner_of o) = STATE_LOCK_OWNER_NFSV4 ->
     so_related_owner (owner_of o) = Some r -> so_type (owner_of r) = STATE_OPEN_OWNER_NFSV4) ->
  is_Some (compare_nfs4_owner 2 a b).
Proof.
  intros Hrel. destruct a as [a|], b as [b|]; try (by eexists). cbn [compare_nfs4_owner].
  case_decide; [by eexists|].
  destruct (bool_decide (so_type (owner_of a) = _) && _) eqn:E1.
  - apply andb_true_iff in E1 as [Ha%bool_decide_eq_true Hb%bool_decide_eq_true].
    destruct (so_related_owner (owner_of a)) as [r|] eqn:Er; [|by eexists].
    rewrite (Hrel _ _ Ha Er), Hb. simpl. repeat case_match; by eexists.
  - destruct (bool_decide (so_type (owner_of b) = _) && _) eqn:E2.
    + apply andb_true_iff in E2 as [Hb%bool_decide_eq_true Ha%bool_decide_eq_true].
      destruct (so_related_owner (owner_of b)) as [r|] eqn:Er; [|by eexists].
      rewrite (Hrel _ _ Hb Er), Ha. simpl. repeat case_match; by eexists.
    + repeat case_match; by eexists.
Qed.
End identity.

(** * At-most-once execution *)

Lemma copy_res_again m1 m2 r r' :
  nfs4_Compound_CopyResOne m1 r = Some r' ->
  exists r'', nfs4_Compound_CopyResOne m2 r' = Some r'' /\ (m1 = true -> m2 = true -> r'' = r).
Proof.
  unfold nfs4_Compound_CopyResOne. intros H. destruct (resop r =? NFS4_OP_LOCK) eqn:E.
  - injection H as <-. unfold nfs4_op_lock_CopyRes. destruct r as [n st d b].
    case_decide as Hd; cbn [resop] in *; rewrite E; eexists; (split; [done|]); intros -> ->.
    + cbn [res_status res_denied res_body] in *. rewrite decide_True by done. by destruct d.
    + by rewrite decide_False.
  - case_bool_decide; [|done]. injection H as <-. rewrite E, bool_decide_eq_true_2 by done. eauto.
Qed.

(** C23: requests of an NFSv4.0 owner are executed at most once.  After a
    request was processed and recorded, the next sequence number (modulo 2^32) is
    processed, the same number for the same operation on the same file is
    answered with the recorded reply and not processed, and any other is refused
    with BAD_SEQID. *)
Theorem seqid_at_most_once (o : nfs4_owner_seq) seqid argop file resp o' :
  Copy_nfs4_state_req true (Some o) seqid argop (Some file) resp = Some (Some o') ->
  forall seqid' argop' entry' resp0,
    Check_nfs4_seqid true (Some o') seqid' argop' entry' resp0 =
    Some (if seqid' =? u32 (seqid + 1) then (true, resp0)
          else if decide (seqid' = seqid /\ argop' = argop /\ entry' = Some file)
          then (false, resp)
          else (false, with_status NFS4ERR_BAD_SEQID resp0)).
Proof.
  intros Hc seqid' argop' entry' resp0. simpl in Hc.
  destruct (nfs4_Compound_CopyResOne true resp) as [saved|] eqn:Hr; [|done].
  injection Hc as <-. destruct (copy_res_again true true _ _ Hr) as (r'' & Hr'' & Heq).
  rewrite (Heq eq_refl eq_refl) in Hr''.
  unfold Check_nfs4_seqid. cbn [so_last_entry so_seqid so_args_argop so_resp].
  rewrite decide_False by done. destruct (seqid' =? _); [done|].
  destruct (Z.eqb_spec seqid seqid'); simpl; [|by rewrite decide_False by (intros (? & _); done)].
  destruct (Z.eqb_spec argop' argop); simpl; [|by rewrite decide_False by (intros (? & ? & _); done)].
  destruct (decide (Some file = entry')) as [He|He].
  - rewrite decide_False by (intros Hn; by apply Hn). rewrite Hr''. simpl.
    by rewrite decide_True.
  - rewrite decide_True by done. by rewrite decide_False by (intros (? & ? & ?); done).
Qed.

(** A LOCK with sequence number 2^32 - 1 was denied; its retransmission gets the
    recorded conflict, and the request after it is number 0. *)
Lemma seqid_at_most_once_witness :
  let denied := mk_resop NFS4_OP_LOCK NFS4ERR_DENIED (mk_denied 0 10 true 7 (Some [65])) [] in
  let fresh := mk_resop NFS4_OP_LOCK NFS4_OK (mk_denied 0 0 false 0 None) [] in
  let o := mk_owner_seq 5 NFS4_OP_OPEN (Some 1%positive) fresh in
  exists o',
    Copy_nfs4_state_req true (Some o) UINT32_MAX NFS4_OP_LOCK (Some 2%positive) denied =
      Some (Some o') /\
    Check_nfs4_seqid true (Some o') UINT32_MAX NFS4_OP_LOCK (Some 2%positive) fresh =
      Some (false, denied) /\
    Check_nfs4_seqid true (Some o') 0 NFS4_OP_LOCKU (Some 2%positive) fresh = Some (true, fresh).
Proof.
  intros denied fresh o. eexists. split; [reflexivity|]. split.
  - rewrite (seqid_at_most_once o UINT32_MAX NFS4_OP_LOCK 2 denied _ eq_refl). reflexivity.
  - rewrite (seqid_at_most_once o UINT32_MAX NFS4_OP_LOCK 2 denied _ eq_refl). reflexivity.
Defined.
