(* ===== verification/CacheEntry.v ===== *)
(** Pinning, opening and closing of cache entries.

    The parts of cache_inode that the state layer drives: the pin count of
    cache_inode_lru.c, [cache_inode_kill_entry], and the open-file handling of
    cache_inode_open_close.c with its count of open descriptors.  The LRU queues
    are represented by each entry's queue id; locks are not modelled, every
    operation runs with the entry's locks held as the code requires.  The FSAL's
    open, reopen and close are the class [FsalOps]; [FsalOpenLaws] states what
    the open-file code relies on. *)

From S2P Require Import Prelude Status World.

(** Open flags of fsal_types.h and cache-inode flags of cache_inode.h. *)
Definition FSAL_O_CLOSED : Z := 0x00.
Definition FSAL_O_READ : Z := 0x01.
Definition FSAL_O_WRITE : Z := 0x02.
Definition FSAL_O_RDWR : Z := Z.lor FSAL_O_READ FSAL_O_WRITE.
Definition FSAL_O_RECLAIM : Z := 0x08.
Definition FSAL_O_DIRECT : Z := 0x10.

Definition CACHE_INODE_FLAG_NONE : Z := 0x00.
Definition CACHE_INODE_FLAG_REALLYCLOSE : Z := 0x80.
Definition CACHE_INODE_FLAG_NOT_PINNED : Z := 0x100.
Definition CACHE_INODE_FLAG_RECLAIM : Z := 0x200.

Definition FSAL_IS_ERROR (major : fsal_errors_t) : bool :=
  bool_decide (major <> ERR_FSAL_NO_ERROR).

Section cache_entry.
Context {FS : Type} `{!FsalOps FS}.
Abbreviation M := (M (world FS)).

(** [lru_state.fds_hard_limit]. *)
Variable fds_hard_limit : Z.

(** ** Pins and killing *)

Definition cond_pin_entry (entry : loc) : M unit :=
  e ← get_file entry;
  if decide (ce_qid e = LRU_ENTRY_PINNED) then mret tt
  else upd_file entry (with_qid LRU_ENTRY_PINNED).

Definition cache_inode_inc_pin_ref (entry : loc) : M cache_inode_status_t :=
  e ← get_file entry;
  if decide (ce_qid e = LRU_ENTRY_CLEANUP) then mret CACHE_INODE_DEAD_ENTRY
  else
    cond_pin_entry entry;;
    upd_file entry (with_pin_refcnt (fun n => n + 1));;
    mret CACHE_INODE_SUCCESS.

Definition cache_inode_lru_cleanup_push (entry : loc) : M unit :=
  e ← get_file entry;
  if decide (ce_qid e = LRU_ENTRY_CLEANUP) then mret tt
  else upd_file entry (with_qid LRU_ENTRY_CLEANUP).

(** [cih_remove_checked]: out of the handle table, with the sentinel reference. *)
Definition cih_remove_checked (entry : loc) : M unit :=
  e ← get_file entry;
  if ce_inavl e then
    upd_file entry (fun e => with_refcnt (fun n => n - 1) (with_inavl false e))
  else mret tt.

Definition cache_inode_kill_entry (entry : loc) : M unit :=
  cih_remove_checked entry;; cache_inode_lru_cleanup_push entry.

(** ** Calls of the FSAL object operations *)

Definition call_status (entry : loc) : M Z := gets (fun w => obj_status (w_fs w) entry).
Definition call_open (entry : loc) (openflags : Z) : M fsal_errors_t := fun w =>
  let '(err, fs) := obj_open (w_fs w) entry openflags in Ret err (set_fs (fun _ => fs) w).
Definition call_reopen (entry : loc) (openflags : Z) : M fsal_errors_t := fun w =>
  let '(err, fs) := obj_reopen (w_fs w) entry openflags in Ret err (set_fs (fun _ => fs) w).
Definition call_close (entry : loc) : M fsal_errors_t := fun w =>
  let '(err, fs) := obj_close (w_fs w) entry in Ret err (set_fs (fun _ => fs) w).

(** ** Open files *)

Definition is_open (entry : loc) : M bool :=
  e ← get_file entry;
  if decide (ce_type e = REGULAR_FILE) then
    st ← call_status entry; mret (bool_decide (st <> FSAL_O_CLOSED))
  else mret false.

Definition is_open_for_write (entry : loc) : M bool :=
  e ← get_file entry;
  if decide (ce_type e = REGULAR_FILE) then
    st ← call_status entry; mret (bit_set st FSAL_O_WRITE)
  else mret false.

Definition is_open_for_read (entry : loc) : M bool :=
  e ← get_file entry;
  if decide (ce_type e = REGULAR_FILE) then
    st ← call_status entry; mret (bit_set st FSAL_O_READ)
  else mret false.

Definition cache_inode_lru_fds_available : M bool := fun w =>
  if (fds_hard_limit <=? w_open_fd_count w) && w_caching_fds w
  then Ret false (set_caching_fds (fun _ => false) w)
  else Ret true w.

Definition atomic_dec_open_fd_count : M unit := modify (set_open_fd_count (fun n => u64 (n - 1))).
Definition atomic_inc_open_fd_count : M unit := modify (set_open_fd_count (fun n => u64 (n + 1))).

(** The first half of [cache_inode_open]: a file open in another mode is
    reopened, or closed to be opened again.  [inl] is the early error exit. *)
Definition open_prepare (entry : loc) (openflags : Z)
    : M (cache_inode_status_t + Z) :=
  current_flags ← call_status entry;
  if (negb (Z.land current_flags openflags =? openflags)
      || (bit_set current_flags FSAL_O_DIRECT && negb (bit_set openflags FSAL_O_DIRECT)))
     && negb (current_flags =? FSAL_O_CLOSED)
  then
    fe ← gets w_fsal_export;
    let reopen := fs_supports fe fso_reopen_method in
    major ← (if reopen then call_reopen entry openflags else call_close entry);
    let closed := negb reopen in
    if FSAL_IS_ERROR major && bool_decide (major <> ERR_FSAL_NOT_OPENED) then
      when (bool_decide (major = ERR_FSAL_STALE)) (cache_inode_kill_entry entry);;
      mret (inl (cache_inode_error_convert major))
    else
      when (negb (FSAL_IS_ERROR major) && closed) atomic_dec_open_fd_count;;
      current_flags' ← call_status entry;
      mret (inr current_flags')
  else mret (inr current_flags).

Definition cache_inode_open (entry : loc) (openflags flags : Z) : M cache_inode_status_t :=
  e ← get_file entry;
  if decide (ce_type e = REGULAR_FILE) then
    available ← cache_inode_lru_fds_available;
    if negb available then mret CACHE_INODE_DELAY
    else
      prepared ← open_prepare entry openflags;
      match prepared with
      | inl status => mret status
      | inr current_flags =>
          if current_flags =? FSAL_O_CLOSED then
            major ← call_open entry openflags;
            if FSAL_IS_ERROR major then
              when (bool_decide (major = ERR_FSAL_STALE)) (cache_inode_kill_entry entry);;
              mret (cache_inode_error_convert major)
            else atomic_inc_open_fd_count;; mret CACHE_INODE_SUCCESS
          else mret CACHE_INODE_SUCCESS
      end
  else mret CACHE_INODE_BAD_TYPE.

Definition cache_inode_is_pinned (entry : loc) : M bool :=
  e ← get_file entry; mret (0 <? ce_pin_refcnt e).

(** The FSAL call of [cache_inode_close] and what follows it. *)
Definition close_descriptor (entry : loc) : M cache_inode_status_t :=
  major ← call_close entry;
  if FSAL_IS_ERROR major && bool_decide (major <> ERR_FSAL_NOT_OPENED) then
    when (bool_decide (major = ERR_FSAL_STALE)) (cache_inode_kill_entry entry);;
    mret (cache_inode_error_convert major)
  else
    when (negb (FSAL_IS_ERROR major)) atomic_dec_open_fd_count;;
    mret CACHE_INODE_SUCCESS.

Definition cache_inode_close (entry : loc) (flags : Z) : M cache_inode_status_t :=
  e ← get_file entry;
  if decide (ce_type e = REGULAR_FILE) then
    opened ← is_open entry;
    if negb opened then mret CACHE_INODE_SUCCESS
    else
      pinned ← cache_inode_is_pinned entry;
      if negb (bit_set flags CACHE_INODE_FLAG_NOT_PINNED) && pinned
      then mret CACHE_INODE_SUCCESS
      else
        caching ← gets w_caching_fds;
        if negb caching || bit_set flags CACHE_INODE_FLAG_REALLYCLOSE || (ce_numlinks e =? 0)
        then close_descriptor entry
        else mret CACHE_INODE_SUCCESS
  else mret CACHE_INODE_BAD_TYPE.

Definition cache_inode_dec_pin_ref (entry : loc) (closefile : bool) : M unit :=
  upd_file entry (with_pin_refcnt (fun n => n - 1));;
  e ← get_file entry;
  when (ce_pin_refcnt e =? 0) (
    when (bool_decide (ce_qid e = LRU_ENTRY_PINNED)) (upd_file entry (with_qid LRU_ENTRY_L1));;
    when closefile (
      cache_inode_close entry
        (Z.lor CACHE_INODE_FLAG_REALLYCLOSE CACHE_INODE_FLAG_NOT_PINNED);;
      mret tt)).

Definition cache_inode_adjust_openflags (entry : loc) : M unit :=
  e ← get_file entry;
  if decide (ce_type e = REGULAR_FILE) then
    fe ← gets w_fsal_export;
    if (0 <? share_access_write (ce_share e)) || negb (fs_supports fe fso_reopen_method)
    then mret tt
    else
      openflags ← call_status entry;
      if negb (bit_set openflags FSAL_O_WRITE) then mret tt
      else if negb (bit_set openflags FSAL_O_READ) then mret tt
      else
        call_reopen entry (Z.ldiff openflags FSAL_O_WRITE);;
        mret tt
  else mret tt.

(** ** What the open-file code relies on *)

(** An FSAL records the flags of a successful open or reopen, a successful
    close leaves the file closed, a failed call changes nothing, [NOT_OPENED]
    is only reported for a closed file, and no call touches another file. *)
Class FsalOpenLaws := {
  open_law fs e fl err fs' : obj_open fs e fl = (err, fs') ->
    obj_status fs' e = (if decide (err = ERR_FSAL_NO_ERROR) then fl else obj_status fs e)
    /\ (forall e', e' <> e -> obj_status fs' e' = obj_status fs e');
  reopen_law fs e fl err fs' : obj_reopen fs e fl = (err, fs') ->
    obj_status fs' e = (if decide (err = ERR_FSAL_NO_ERROR) then fl else obj_status fs e)
    /\ (err = ERR_FSAL_NOT_OPENED -> obj_status fs e = FSAL_O_CLOSED)
    /\ (forall e', e' <> e -> obj_status fs' e' = obj_status fs e');
  close_law fs e err fs' : obj_close fs e = (err, fs') ->
    obj_status fs' e =
      (if decide (err = ERR_FSAL_NO_ERROR) then FSAL_O_CLOSED else obj_status fs e)
    /\ (err = ERR_FSAL_NOT_OPENED -> obj_status fs e = FSAL_O_CLOSED)
    /\ (forall e', e' <> e -> obj_status fs' e' = obj_status fs e')
}.

(** The cached files that hold a descriptor, and the accounting invariant: the
    global counter is their number. *)
Definition open_files (w : world FS) : gset loc :=
  filter (fun e => obj_status (w_fs w) e <> FSAL_O_CLOSED) (dom (w_files w)).
Definition fd_accounted (w : world FS) : Prop :=
  w_open_fd_count w = u64 (Z.of_nat (size (open_files w))).

(** The file keeps its place among the cached files and nothing but [entry]'s
    FSAL status and the descriptor counter changes. *)
Definition status_frame (entry : loc) (w w' : world FS) : Prop :=
  dom (w_files w') = dom (w_files w)
  /\ forall e', e' <> entry -> obj_status (w_fs w') e' = obj_status (w_fs w) e'.

Definition opened (w : world FS) (entry : loc) : Z :=
  Z.b2z (bool_decide (obj_status (w_fs w) entry <> FSAL_O_CLOSED)).

Lemma open_files_size w entry :
  entry ∈ dom (w_files w) ->
  Z.of_nat (size (open_files w)) =
  Z.of_nat (size (open_files w ∖ {[entry]})) + opened w entry.
Proof.
  intros Hin. unfold opened. case_bool_decide as Ho; simpl.
  - rewrite (union_difference_singleton_L entry (open_files w)) at 1
      by (by apply elem_of_filter).
    rewrite size_union by (apply disjoint_singleton_l; intros [_ []]%elem_of_difference; set_solver).
    rewrite size_singleton. lia.
  - rewrite difference_disjoint_L; [lia|]. apply disjoint_singleton_r.
    intros [? ?]%elem_of_filter. done.
Qed.

Lemma accounted_step entry w w' :
  fd_accounted w -> entry ∈ dom (w_files w) -> status_frame entry w w' ->
  w_open_fd_count w' = u64 (w_open_fd_count w + opened w' entry - opened w entry) ->
  fd_accounted w'.
Proof.
  intros Hacc Hin [Hdom Hfr] Hcount. unfold fd_accounted in *. rewrite Hcount, Hacc.
  unfold Z.sub. rewrite <- Z.add_assoc, u64_add_l. f_equal.
  assert (Hrest : open_files w' ∖ {[entry]} = open_files w ∖ {[entry]}).
  { apply set_eq. intros e. unfold open_files.
    rewrite !elem_of_difference, !elem_of_filter, not_elem_of_singleton, Hdom.
    split; intros [[? ?] ?]; rewrite Hfr in * by done; done. }
  rewrite (open_files_size w entry), (open_files_size w' entry) by (done || by rewrite Hdom).
  rewrite Hrest. lia.
Qed.

Context `{!FsalOpenLaws}.

(** Facts about the primitives, in the form [wp] uses them. *)
Lemma wp_get_file entry e (Q : cache_entry_t -> world FS -> Prop) w :
  w_files w !! entry = Some e -> Q e w -> wp (get_file entry) Q w.
Proof. apply (wp_deref (fun w => w_files w !! entry)). Qed.

Lemma wp_upd_file entry e f (Q : unit -> world FS -> Prop) w :
  w_files w !! entry = Some e -> Q tt (set_files <[entry := f e]> w) ->
  wp (upd_file entry f) Q w.
Proof. intros. apply wp_bind. by eapply wp_get_file. Qed.

(** Killing an entry moves it to the cleanup queue and touches neither the
    FSAL's state nor the counter. *)
Lemma wp_kill entry (Q : unit -> world FS -> Prop) w :
  entry ∈ dom (w_files w) ->
  (forall w', w_fs w' = w_fs w -> w_open_fd_count w' = w_open_fd_count w ->
    dom (w_files w') = dom (w_files w) ->
    (exists e, w_files w' !! entry = Some e /\ ce_qid e = LRU_ENTRY_CLEANUP) ->
    Q tt w') ->
  wp (cache_inode_kill_entry entry) Q w.
Proof.
  intros [e He]%elem_of_dom HQ. unfold cache_inode_kill_entry, cih_remove_checked.
  apply wp_bind, wp_bind. eapply wp_get_file; [done|].
  set (w1 := if ce_inavl e then set_files <[entry := with_refcnt (fun n => n - 1)
                                            (with_inavl false e)]> w else w).
  assert (exists e1, w_files w1 !! entry = Some e1) as [e1 He1].
  { subst w1. destruct (ce_inavl e); simpl; [|by eauto].
    eexists. apply lookup_insert_eq. }
  assert (Hd : dom (w_files w1) = dom (w_files w)).
  { subst w1. destruct (ce_inavl e); simpl; [|done]. apply dom_insert_lookup_L. eauto. }
  assert (Hfs : w_fs w1 = w_fs w /\ w_open_fd_count w1 = w_open_fd_count w).
  { subst w1. by destruct (ce_inavl e). }
  cut (wp (cache_inode_lru_cleanup_push entry) Q w1).
  { subst w1. destruct (ce_inavl e); [|done]. intros Hw1. by eapply wp_upd_file. }
  clearbody w1. unfold cache_inode_lru_cleanup_push. apply wp_bind.
  eapply wp_get_file; [done|]. destruct Hfs, (decide _) as [Hq|Hq].
  - apply wp_ret, HQ; eauto.
  - eapply wp_upd_file; [done|]. apply HQ; simpl; try done.
    + rewrite dom_insert_lookup_L; eauto.
    + eexists. by rewrite lookup_insert_eq.
Qed.

Lemma wp_call_open entry fl (Q : fsal_errors_t -> world FS -> Prop) w :
  (forall err fs', obj_open (w_fs w) entry fl = (err, fs') -> Q err (set_fs (fun _ => fs') w)) ->
  wp (call_open entry fl) Q w.
Proof. unfold wp, call_open. destruct (obj_open _ _ _). auto. Qed.

Lemma wp_call_reopen entry fl (Q : fsal_errors_t -> world FS -> Prop) w :
  (forall err fs', obj_reopen (w_fs w) entry fl = (err, fs') -> Q err (set_fs (fun _ => fs') w)) ->
  wp (call_reopen entry fl) Q w.
Proof. unfold wp, call_reopen. destruct (obj_reopen _ _ _). auto. Qed.

Lemma wp_call_close entry (Q : fsal_errors_t -> world FS -> Prop) w :
  (forall err fs', obj_close (w_fs w) entry = (err, fs') -> Q err (set_fs (fun _ => fs') w)) ->
  wp (call_close entry) Q w.
Proof. unfold wp, call_close. destruct (obj_close _ _). auto. Qed.

(** The counter follows each FSAL call, as the code adjusts it. *)
Lemma close_accounted entry w err fs' :
  fd_accounted w -> entry ∈ dom (w_files w) -> obj_status (w_fs w) entry <> FSAL_O_CLOSED ->
  obj_close (w_fs w) entry = (err, fs') ->
  fd_accounted (if decide (err = ERR_FSAL_NO_ERROR)
                then set_open_fd_count (fun n => u64 (n - 1)) (set_fs (fun _ => fs') w)
                else set_fs (fun _ => fs') w).
Proof.
  intros Hacc Hin Ho (Hst & _ & Hfr)%close_law. apply (accounted_step entry w); try done.
  - destruct (decide _); done.
  - unfold opened. destruct (decide _); simpl; rewrite Hst;
      rewrite (bool_decide_eq_true_2 (obj_status (w_fs w) entry <> _)) by done.
    + f_equal. simpl. lia.
    + rewrite Z.add_simpl_r, Hacc. unfold u64. by rewrite Z.mod_mod.
Qed.

Lemma open_accounted entry w fl err fs' :
  fd_accounted w -> entry ∈ dom (w_files w) -> obj_status (w_fs w) entry = FSAL_O_CLOSED ->
  fl <> FSAL_O_CLOSED -> obj_open (w_fs w) entry fl = (err, fs') ->
  fd_accounted (if decide (err = ERR_FSAL_NO_ERROR)
                then set_open_fd_count (fun n => u64 (n + 1)) (set_fs (fun _ => fs') w)
                else set_fs (fun _ => fs') w).
Proof.
  intros Hacc Hin Ho Hfl (Hst & Hfr)%open_law. apply (accounted_step entry w); try done.
  - destruct (decide _); done.
  - unfold opened. destruct (decide _); simpl; rewrite Hst, Ho;
      rewrite ?(bool_decide_eq_true_2 (fl <> _)) by done; simpl.
    + f_equal. lia.
    + rewrite Z.add_simpl_r, Hacc. unfold u64. by rewrite Z.mod_mod.
Qed.

Lemma reopen_accounted entry w fl err fs' :
  fd_accounted w -> entry ∈ dom (w_files w) -> obj_status (w_fs w) entry <> FSAL_O_CLOSED ->
  fl <> FSAL_O_CLOSED -> obj_reopen (w_fs w) entry fl = (err, fs') ->
  fd_accounted (set_fs (fun _ => fs') w).
Proof.
  intros Hacc Hin Ho Hfl (Hst & _ & Hfr)%reopen_law. apply (accounted_step entry w); try done.
  unfold opened; simpl. rewrite Hst.
  rewrite (bool_decide_eq_true_2 (obj_status (w_fs w) entry <> _)) by done.
  rewrite bool_decide_eq_true_2 by (by destruct (decide _)).
  rewrite Z.add_simpl_r, Hacc. unfold u64. by rewrite Z.mod_mod.
Qed.

Lemma accounted_same w w' :
  fd_accounted w -> w_fs w' = w_fs w -> w_open_fd_count w' = w_open_fd_count w ->
  dom (w_files w') = dom (w_files w) -> fd_accounted w'.
Proof. unfold fd_accounted, open_files. by intros ? -> -> ->. Qed.

Lemma wp_kill_when entry b (Q : unit -> world FS -> Prop) w :
  entry ∈ dom (w_files w) ->
  (forall w', w_fs w' = w_fs w -> w_open_fd_count w' = w_open_fd_count w ->
    dom (w_files w') = dom (w_files w) -> Q tt w') ->
  wp (when b (cache_inode_kill_entry entry)) Q w.
Proof.
  intros Hin HQ. apply wp_when; intros _; [|by apply HQ].
  apply wp_kill; [done|]. intros w' Hfs Hc Hd _. by apply HQ.
Qed.

(** What [open_prepare] leaves: either an error, or the flags the file is now
    open with, which include the wanted ones unless the file is closed. *)
Lemma wp_open_prepare entry fl w :
  entry ∈ dom (w_files w) -> fd_accounted w -> fl <> FSAL_O_CLOSED ->
  wp (open_prepare entry fl) (fun r w' =>
    fd_accounted w' /\ entry ∈ dom (w_files w') /\
    match r with
    | inl st => st <> CACHE_INODE_SUCCESS
    | inr cur => cur = obj_status (w_fs w') entry /\
                 (cur <> FSAL_O_CLOSED -> Z.land cur fl = fl)
    end) w.
Proof.
  intros Hin Hacc Hfl. unfold open_prepare, call_status. wp_steps.
  set (cur := obj_status (w_fs w) entry). destruct (_ && _) eqn:Hneed.
  2: { wp_steps. repeat split; try done. intros Hcur.
       apply andb_false_iff in Hneed as [Hneed|Hneed].
       - apply orb_false_iff in Hneed as [Hneed _]. by apply negb_false_iff, Z.eqb_eq in Hneed.
       - apply negb_false_iff, Z.eqb_eq in Hneed. done. }
  apply andb_true_iff in Hneed as [_ Hopen]. apply negb_true_iff, Z.eqb_neq in Hopen.
  wp_steps. destruct (fs_supports _ _).
  - apply wp_call_reopen. intros err fs' Hre. pose proof (reopen_accounted _ _ _ _ _ Hacc Hin Hopen Hfl Hre).
    destruct (reopen_law _ _ _ _ _ Hre) as (Hst & Hno & _). simpl. rewrite andb_false_r.
    destruct (decide (err = ERR_FSAL_NO_ERROR)) as [->|Herr].
    + simpl. wp_steps. repeat split; try done. intros _. rewrite Hst. apply Z.land_diag.
    + rewrite (bool_decide_eq_true_2 (err <> _)) by (intros ->; by apply Hopen, Hno).
      unfold FSAL_IS_ERROR. rewrite bool_decide_eq_true_2 by done. simpl.
      apply wp_bind, wp_kill_when; [done|]. intros w' Hfs Hc Hd. wp_steps.
      rewrite Hd. repeat split; [by eapply accounted_same|done|by apply cache_inode_error_convert_err].
  - apply wp_call_close. intros err fs' Hcl. pose proof (close_accounted _ _ _ _ Hacc Hin Hopen Hcl) as Ha.
    destruct (close_law _ _ _ _ Hcl) as (Hst & Hno & _). simpl. rewrite andb_true_r.
    destruct (decide (err = ERR_FSAL_NO_ERROR)) as [->|Herr].
    + simpl. wp_steps. by repeat split.
    + rewrite (bool_decide_eq_true_2 (err <> _)) by (intros ->; by apply Hopen, Hno).
      unfold FSAL_IS_ERROR. rewrite bool_decide_eq_true_2 by done. simpl.
      apply wp_bind, wp_kill_when; [done|]. intros w' Hfs Hc Hd. wp_steps.
      rewrite Hd. repeat split; [by eapply accounted_same|done|by apply cache_inode_error_convert_err].
Qed.

(** C24: [cache_inode_open] keeps the count of open descriptors equal to the
    number of open cached files on every path, and returns success only with
    the file open in a mode that includes the requested one (so never for
    something that is not a regular file). *)
Theorem cache_inode_open_correct entry fl flags w :
  entry ∈ dom (w_files w) -> fd_accounted w -> fl <> FSAL_O_CLOSED ->
  wp (cache_inode_open entry fl flags) (fun st w' =>
    fd_accounted w' /\ entry ∈ dom (w_files w') /\
    (st = CACHE_INODE_SUCCESS ->
     ce_type <$> w_files w !! entry = Some REGULAR_FILE /\
     Z.land (obj_status (w_fs w') entry) fl = fl)) w.
Proof.
  intros Hin Hacc Hfl. pose proof Hin as [e He]%elem_of_dom.
  unfold cache_inode_open. apply wp_bind. eapply wp_get_file; [done|].
  rewrite He. destruct (decide (ce_type e = REGULAR_FILE)) as [Ht|Ht]; [|by wp_steps].
  apply wp_bind. unfold cache_inode_lru_fds_available at 1, wp at 1.
  destruct (_ && _); simpl; [by wp_steps|].
  apply wp_bind. eapply wp_mono; [|by apply wp_open_prepare].
  intros [st|cur] w1 (Hacc1 & Hin1 & Hr); [by wp_steps|]. destruct Hr as [-> Hr].
  destruct (Z.eqb_spec (obj_status (w_fs w1) entry) FSAL_O_CLOSED) as [Hc|Hc].
  2: { wp_steps. repeat split; try done; [by rewrite Ht|auto]. }
  apply wp_bind, wp_call_open. intros err fs' Ho.
  pose proof (open_accounted _ _ _ _ _ Hacc1 Hin1 Hc Hfl Ho) as Ha.
  destruct (open_law _ _ _ _ _ Ho) as [Hst _]. unfold FSAL_IS_ERROR.
  destruct (decide (err = ERR_FSAL_NO_ERROR)) as [->|Herr].
  - simpl. wp_steps. repeat split; try done; [by rewrite Ht|]. simpl. rewrite Hst.
    apply Z.land_diag.
  - rewrite bool_decide_eq_true_2 by done. apply wp_bind, wp_kill_when; [done|].
    intros w' Hfs Hcnt Hd. wp_steps. rewrite Hd. repeat split; try done.
    + by eapply accounted_same.
    + by apply cache_inode_error_convert_err in Herr.
    + by apply cache_inode_error_convert_err in Herr.
Qed.

Lemma wp_close_descriptor entry w :
  entry ∈ dom (w_files w) -> fd_accounted w -> obj_status (w_fs w) entry <> FSAL_O_CLOSED ->
  wp (close_descriptor entry) (fun st w' =>
    fd_accounted w' /\ dom (w_files w') = dom (w_files w) /\
    (st = CACHE_INODE_SUCCESS -> obj_status (w_fs w') entry = FSAL_O_CLOSED)) w.
Proof.
  intros Hin Hacc Ho. apply wp_bind, wp_call_close. intros err fs' Hcl.
  pose proof (close_accounted _ _ _ _ Hacc Hin Ho Hcl) as Ha.
  destruct (close_law _ _ _ _ Hcl) as (Hst & Hno & _).
  destruct (decide (err = ERR_FSAL_NO_ERROR)) as [->|Herr]; [by simpl; wp_steps|].
  rewrite (bool_decide_eq_true_2 (err <> _)) by (intros ->; by apply Ho, Hno).
  unfold FSAL_IS_ERROR. rewrite bool_decide_eq_true_2 by done. simpl.
  apply wp_bind, wp_kill_when; [done|]. intros w' Hfs Hc Hd. wp_steps.
  repeat split; [by eapply accounted_same|done|].
  by intros ?%cache_inode_error_convert_err.
Qed.

(** [cache_inode_close] under the accounting invariant: success with both
    flags set leaves the file closed. *)
Lemma wp_close entry e flags w :
  w_files w !! entry = Some e -> fd_accounted w ->
  wp (cache_inode_close entry flags) (fun st w' =>
    fd_accounted w' /\ dom (w_files w') = dom (w_files w) /\
    (st = CACHE_INODE_SUCCESS ->
     bit_set flags CACHE_INODE_FLAG_NOT_PINNED || (ce_pin_refcnt e <=? 0) = true ->
     bit_set flags CACHE_INODE_FLAG_REALLYCLOSE = true ->
     obj_status (w_fs w') entry = FSAL_O_CLOSED)) w.
Proof.
  intros He Hacc. assert (Hin : entry ∈ dom (w_files w)) by by eapply elem_of_dom_2.
  unfold cache_inode_close, is_open, cache_inode_is_pinned, call_status.
  apply wp_bind. eapply wp_get_file; [done|].
  destruct (decide (ce_type e = REGULAR_FILE)) as [Ht|Ht]; [|by wp_steps].
  apply wp_bind, wp_bind. eapply wp_get_file; [done|]. rewrite decide_True by done. wp_steps.
  case_bool_decide as Ho; simpl.
  2: by wp_steps.
  apply wp_bind, wp_bind. eapply wp_get_file; [done|]. wp_steps.
  destruct (negb _ && _) eqn:Hp.
  - wp_steps. repeat split; try done. intros _ Hf _.
    apply andb_true_iff in Hp as [Hp1 Hp2]. apply negb_true_iff in Hp1. rewrite Hp1 in Hf.
    simpl in Hf. lia.
  - wp_steps. destruct (_ || _ || _) eqn:Hr.
    + eapply wp_mono; [|by apply wp_close_descriptor].
      intros st w' (? & ? & Hs). by repeat split; auto.
    + wp_steps. repeat split; try done. intros _ _ Hf. rewrite Hf in Hr. by destruct (w_caching_fds w).
Qed.

Lemma wp_adjust_openflags entry w :
  entry ∈ dom (w_files w) -> fd_accounted w ->
  wp (cache_inode_adjust_openflags entry) (fun _ w' =>
    fd_accounted w' /\ dom (w_files w') = dom (w_files w)) w.
Proof.
  intros Hin Hacc. pose proof Hin as [e He]%elem_of_dom.
  unfold cache_inode_adjust_openflags, call_status. apply wp_bind. eapply wp_get_file; [done|].
  destruct (decide _); [|by wp_steps]. wp_steps.
  destruct (_ || _); [by wp_steps|]. wp_steps.
  destruct (bit_set _ FSAL_O_WRITE) eqn:Hw; [|by simpl; wp_steps].
  destruct (bit_set _ FSAL_O_READ) eqn:Hr; [|by simpl; wp_steps]. simpl.
  apply wp_bind, wp_call_reopen. intros err fs' Hre. wp_steps. split; [|done].
  assert (Hro : forall s, bit_set s FSAL_O_READ = true ->
                s <> FSAL_O_CLOSED /\ Z.ldiff s FSAL_O_WRITE <> FSAL_O_CLOSED).
  { intros s Hs. apply negb_true_iff, Z.eqb_neq in Hs. split; intros Heq; apply Hs.
    - by rewrite Heq.
    - apply Z.bits_inj. intros n. apply (f_equal (fun z => Z.testbit z n)) in Heq.
      rewrite Z.ldiff_spec, Z.bits_0 in Heq. rewrite Z.land_spec, Z.bits_0.
      destruct (Z.testbit FSAL_O_READ n) eqn:E; [|apply andb_false_r].
      change FSAL_O_READ with (2 ^ 0) in E. rewrite Z.pow2_bits_eqb in E by lia.
      apply Z.eqb_eq in E as <-.
      by rewrite andb_true_r in *. }
  destruct (Hro _ Hr). by eapply reopen_accounted.
Qed.

Lemma wp_dec_pin_ref entry closefile w :
  entry ∈ dom (w_files w) -> fd_accounted w ->
  wp (cache_inode_dec_pin_ref entry closefile) (fun _ w' =>
    fd_accounted w' /\ dom (w_files w') = dom (w_files w)) w.
Proof.
  intros Hin Hacc. pose proof Hin as [e He]%elem_of_dom.
  unfold cache_inode_dec_pin_ref. apply wp_bind. eapply wp_upd_file; [done|].
  set (w1 := set_files _ w).
  assert (He1 : exists e1, w_files w1 !! entry = Some e1) by (eexists; apply lookup_insert_eq).
  destruct He1 as [e1 He1].
  assert (Hd1 : dom (w_files w1) = dom (w_files w)) by (apply dom_insert_lookup_L; eauto).
  assert (Hacc1 : fd_accounted w1) by by eapply accounted_same.
  apply wp_bind. eapply wp_get_file; [done|]. clearbody w1. rewrite <- Hd1.
  apply wp_when; intros _; [|by split]. apply wp_bind.
  set (w2 := if bool_decide (ce_qid e1 = LRU_ENTRY_PINNED)
             then set_files <[entry := with_qid LRU_ENTRY_L1 e1]> w1 else w1).
  assert (Hd2 : dom (w_files w2) = dom (w_files w1)).
  { subst w2. case_bool_decide; [|done]. apply dom_insert_lookup_L; eauto. }
  assert (Hacc2 : fd_accounted w2).
  { apply (accounted_same w1); try done; by subst w2; case_bool_decide. }
  cut (wp (when closefile (cache_inode_close entry (Z.lor CACHE_INODE_FLAG_REALLYCLOSE
         CACHE_INODE_FLAG_NOT_PINNED);; mret tt))
         (fun _ w' => fd_accounted w' /\ dom (w_files w') = dom (w_files w2)) w2).
  { rewrite Hd2. subst w2. intros Hw. apply wp_when; intros Hb; rewrite Hb in *; [|done].
    by eapply wp_upd_file. }
  apply wp_when; intros _; [|by split]. apply wp_bind.
  assert (Hin2 : entry ∈ dom (w_files w2)) by (rewrite Hd2, Hd1; done).
  apply elem_of_dom in Hin2 as [e2 He2].
  eapply wp_mono; [|by eapply wp_close]. intros st w' (? & ? & _). by wp_steps.
Qed.

(** C25: closing, releasing a pin (with or without closing the file) and
    narrowing the open mode keep the descriptor count equal to the number of
    open cached files, whatever the FSAL answers, and a close that is forced
    and reports success leaves the file closed. *)
Theorem fd_count_tracks_open_files entry e closefile flags w :
  w_files w !! entry = Some e -> fd_accounted w ->
  wp (cache_inode_close entry flags) (fun st w' =>
    fd_accounted w' /\
    (st = CACHE_INODE_SUCCESS ->
     bit_set flags CACHE_INODE_FLAG_NOT_PINNED || (ce_pin_refcnt e <=? 0) = true ->
     bit_set flags CACHE_INODE_FLAG_REALLYCLOSE = true ->
     obj_status (w_fs w') entry = FSAL_O_CLOSED)) w
  /\ wp (cache_inode_dec_pin_ref entry closefile) (fun _ => fd_accounted) w
  /\ wp (cache_inode_adjust_openflags entry) (fun _ => fd_accounted) w.
Proof.
  intros He Hacc. assert (Hin : entry ∈ dom (w_files w)) by by eapply elem_of_dom_2.
  repeat split.
  - eapply wp_mono; [|by eapply wp_close]. by intros st w' (? & _ & ?).
  - eapply wp_mono; [|by eapply wp_dec_pin_ref]. by intros ? w' [].
  - eapply wp_mono; [|by eapply wp_adjust_openflags]. by intros ? w' [].
Qed.
End cache_entry.

(** * When a file can be opened

    The outcome of pinning and opening a file, as a function of the store. *)
Section access.
Context {FS : Type} `{!FsalOps FS}.
Variable fds_hard_limit : Z.
Implicit Types w : world FS.

(** The FSAL refuses to open a closed file. *)
Definition fsal_open_error (fs : FS) (entry : loc) (openflags : Z) : option cache_inode_status_t :=
  let err := (obj_open fs entry openflags).1 in
  if decide (err = ERR_FSAL_NO_ERROR) then None else Some (cache_inode_error_convert err).

(** A file that is open is used as it is if its mode has what is asked for; else it is
    reopened in that mode by an FSAL that can, or closed and opened again. *)
Definition fsal_mode_error (reopen : bool) (fs : FS) (entry : loc) (openflags : Z) : option cache_inode_status_t :=
  let mode := obj_status fs entry in
  if mode =? FSAL_O_CLOSED then fsal_open_error fs entry openflags
  else if (Z.land mode openflags =? openflags)
          && (bit_set openflags FSAL_O_DIRECT || negb (bit_set mode FSAL_O_DIRECT)) then None
  else
    let r := if reopen then obj_reopen fs entry openflags else obj_close fs entry in
    if decide (r.1 = ERR_FSAL_NO_ERROR \/ r.1 = ERR_FSAL_NOT_OPENED) then
      if obj_status r.2 entry =? FSAL_O_CLOSED then fsal_open_error r.2 entry openflags else None
    else Some (cache_inode_error_convert r.1).

Definition open_error (entry : loc) (openflags : Z) w : option cache_inode_status_t :=
  if decide (ce_type <$> w_files w !! entry = Some REGULAR_FILE) then
    if (fds_hard_limit <=? w_open_fd_count w) && w_caching_fds w then Some CACHE_INODE_DELAY
    else fsal_mode_error (fs_supports (w_fsal_export w) fso_reopen_method) (w_fs w) entry openflags
  else Some CACHE_INODE_BAD_TYPE.

(** The entry cannot be pinned when it is being destroyed. *)
Definition access_error (entry : loc) (openflags : Z) w : option cache_inode_status_t :=
  if decide (ce_qid <$> w_files w !! entry = Some LRU_ENTRY_CLEANUP) then Some CACHE_INODE_DEAD_ENTRY
  else open_error entry openflags w.

(** What the outcome depends on, besides the entry. *)
Definition open_part w := (w_fs w, w_open_fd_count w, w_caching_fds w).

Lemma open_error_same entry openflags w w' :
  ce_type <$> w_files w' !! entry = ce_type <$> w_files w !! entry ->
  w_fsal_export w' = w_fsal_export w -> open_part w' = open_part w ->
  open_error entry openflags w' = open_error entry openflags w.
Proof. unfold open_error. by intros -> -> [= -> -> ->]. Qed.

Lemma access_error_same entry openflags w w' :
  w_files w' = w_files w -> w_fsal_export w' = w_fsal_export w -> open_part w' = open_part w ->
  access_error entry openflags w' = access_error entry openflags w.
Proof. intros Hf Hx Ho. unfold access_error. rewrite (open_error_same _ _ w w'); by rewrite ?Hf. Qed.

Lemma wp_open_exact entry openflags flags w :
  is_Some (w_files w !! entry) ->
  wp (cache_inode_open fds_hard_limit entry openflags flags)
    (fun st _ => st = default CACHE_INODE_SUCCESS (open_error entry openflags w)) w.
Proof.
  intros [e He]. assert (Hin : entry ∈ dom (w_files w)) by (by eapply elem_of_dom_2).
  assert (Hopen : forall w1, entry ∈ dom (w_files w1) ->
    wp (major ← call_open entry openflags;
        if FSAL_IS_ERROR major then
          when (bool_decide (major = ERR_FSAL_STALE)) (cache_inode_kill_entry entry);;
          mret (cache_inode_error_convert major)
        else atomic_inc_open_fd_count;; mret CACHE_INODE_SUCCESS)
      (fun st _ => st = default CACHE_INODE_SUCCESS (fsal_open_error (w_fs w1) entry openflags)) w1).
  { intros w1 Hin1. apply wp_bind, wp_call_open. intros err fs' Ho. unfold fsal_open_error. rewrite Ho. simpl.
    unfold FSAL_IS_ERROR. destruct (decide (err = ERR_FSAL_NO_ERROR)) as [->|Herr]; [by simpl; wp_steps|].
    rewrite bool_decide_eq_true_2 by done. apply wp_bind, wp_kill_when; [done|]. intros. by wp_steps. }
  unfold cache_inode_open, open_error. apply wp_bind. eapply wp_get_file; [done|]. rewrite He. simpl.
  destruct (decide (ce_type e = REGULAR_FILE)) as [->|Ht]; [|rewrite decide_False by congruence; by wp_steps].
  rewrite (decide_True _ _ (eq_refl (Some REGULAR_FILE))).
  apply wp_bind. unfold cache_inode_lru_fds_available at 1, wp at 1. destruct (_ && _); [by simpl; wp_steps|].
  simpl. unfold open_prepare, fsal_mode_error, call_status. apply wp_bind. wp_steps.
  set (mode := obj_status (w_fs w) entry). destruct (Z.eqb_spec mode FSAL_O_CLOSED) as [Hc|Hc].
  { rewrite andb_false_r. wp_steps. rewrite Hc. by apply Hopen. }
  rewrite andb_true_r. assert (Hneg : negb (Z.land mode openflags =? openflags) || bit_set mode FSAL_O_DIRECT && negb (bit_set openflags FSAL_O_DIRECT)
    = negb ((Z.land mode openflags =? openflags) && (bit_set openflags FSAL_O_DIRECT || negb (bit_set mode FSAL_O_DIRECT)))).
  { by destruct (_ =? _), (bit_set mode _), (bit_set openflags _). }
  rewrite Hneg. clear Hneg. destruct ((_ =? _) && _); simpl.
  { wp_steps. rewrite (proj2 (Z.eqb_neq _ _)) by done. by wp_steps. }
  wp_steps. set (reopen := fs_supports _ _). set (r := if reopen then obj_reopen (w_fs w) entry openflags else obj_close (w_fs w) entry).
  assert (Hcall : forall Q : fsal_errors_t -> world FS -> Prop, Q r.1 (set_fs (fun _ => r.2) w) ->
    wp (if reopen then call_reopen entry openflags else call_close entry) Q w).
  { intros Q HQ. subst r. destruct reopen; [apply wp_call_reopen|apply wp_call_close]; intros err fs' Hr; by rewrite Hr in HQ. }
  apply Hcall. clear Hcall. unfold FSAL_IS_ERROR. case_decide as Hok.
  - replace (bool_decide (r.1 <> ERR_FSAL_NO_ERROR) && bool_decide (r.1 <> ERR_FSAL_NOT_OPENED)) with false
      by (destruct Hok as [-> | ->]; done).
    apply wp_bind, wp_when; intros _; unfold atomic_dec_open_fd_count; wp_steps;
      (destruct (_ =? _); [by apply Hopen|by wp_steps]).
  - rewrite !bool_decide_eq_true_2 by tauto. simpl. apply wp_bind, wp_kill_when; [done|]. intros. by wp_steps.
Qed.
End access.
