(* ===== verification/Access.v ===== *)
(** Access checks: NFSv4 ACLs and POSIX mode bits (FSAL/access_check.c).

    [fsal_check_access_acl] and [fsal_check_access_no_acl] are translated with
    their in-out masks: [allowed] and [denied] are [None] when the caller passes
    a null pointer.  Permissions are 32-bit masks.  The code calls the function
    [fsalstat] in several places where it means to return its value; those calls
    have no effect and the model falls through as the code does. *)

From S2P Require Import Prelude Status World.

(** ** ACL entries *)

Definition FSAL_ACE_TYPE_ALLOW : Z := 0.
Definition FSAL_ACE_TYPE_DENY : Z := 1.
Definition FSAL_ACE_TYPE_AUDIT : Z := 2.
Definition FSAL_ACE_TYPE_ALARM : Z := 3.
Definition FSAL_ACE_FLAG_INHERIT_ONLY : Z := 0x8.
Definition FSAL_ACE_FLAG_GROUP_ID : Z := 0x40.
Definition FSAL_ACE_IFLAG_EXCLUDE_FILES : Z := 0x40000000.
Definition FSAL_ACE_IFLAG_EXCLUDE_DIRS : Z := 0x20000000.
Definition FSAL_ACE_IFLAG_SPECIAL_ID : Z := 0x80000000.
Definition FSAL_ACE_PERM_READ_DATA : Z := 0x1.
Definition FSAL_ACE_PERM_WRITE_DATA : Z := 0x2.
Definition FSAL_ACE_PERM_EXECUTE : Z := 0x20.
Definition FSAL_ACE_PERM_READ_ATTR : Z := 0x80.
Definition FSAL_ACE_PERM_WRITE_ATTR : Z := 0x100.
Definition FSAL_ACE_PERM_READ_ACL : Z := 0x20000.
Definition FSAL_ACE_PERM_WRITE_ACL : Z := 0x40000.
Definition FSAL_ACE_PERM_WRITE_OWNER : Z := 0x80000.
Definition FSAL_ACE_SPECIAL_OWNER : Z := 1.
Definition FSAL_ACE_SPECIAL_GROUP : Z := 2.
Definition FSAL_ACE_SPECIAL_EVERYONE : Z := 3.

Definition FSAL_R_OK : Z := 0x04000000.
Definition FSAL_W_OK : Z := 0x02000000.
Definition FSAL_X_OK : Z := 0x01000000.
Definition FSAL_ACE4_PERM_CONTINUE : Z := 0x40000000.
Definition FSAL_MODE_BIT_MASK : Z := 0x07000000.
Definition FSAL_ACE4_BIT_MASK : Z := 0x40FFFFFF.
Definition FSAL_ACCESS_FLAG_BIT_MASK : Z := 0x80000000.
Definition FSAL_ACE4_MASK_FLAG : Z := 0x80000000.
Definition FSAL_MODE_MASK (access : Z) : Z := Z.land access FSAL_MODE_BIT_MASK.
Definition FSAL_ACE4_MASK (access : Z) : Z := Z.land access FSAL_ACE4_BIT_MASK.
Definition IS_FSAL_ACE4_MASK_VALID (access : Z) : bool :=
  Z.land access FSAL_ACCESS_FLAG_BIT_MASK =? FSAL_ACE4_MASK_FLAG.

Record fsal_ace_t : Set := mk_ace {
  ace_type : Z; ace_perm : Z; ace_flag : Z; ace_iflag : Z; ace_who : Z
}.

Definition IS_FSAL_ACE_ALLOW (a : fsal_ace_t) : bool := ace_type a =? FSAL_ACE_TYPE_ALLOW.
Definition IS_FSAL_ACE_DENY (a : fsal_ace_t) : bool := ace_type a =? FSAL_ACE_TYPE_DENY.
Definition IS_FSAL_ACE_INHERIT_ONLY (a : fsal_ace_t) : bool :=
  bit_set (ace_flag a) FSAL_ACE_FLAG_INHERIT_ONLY.
Definition IS_FSAL_ACE_GROUP_ID (a : fsal_ace_t) : bool :=
  bit_set (ace_flag a) FSAL_ACE_FLAG_GROUP_ID.
Definition IS_FSAL_ACE_SPECIAL_ID (a : fsal_ace_t) : bool :=
  bit_set (ace_iflag a) FSAL_ACE_IFLAG_SPECIAL_ID.
Definition IS_FSAL_FILE_APPLICABLE (a : fsal_ace_t) : bool :=
  negb (bit_set (ace_iflag a) FSAL_ACE_IFLAG_EXCLUDE_FILES).
Definition IS_FSAL_DIR_APPLICABLE (a : fsal_ace_t) : bool :=
  negb (bit_set (ace_iflag a) FSAL_ACE_IFLAG_EXCLUDE_DIRS).

Record user_cred : Set := mk_cred {
  caller_uid : Z; caller_gid : Z; caller_garray : list Z
}.

(** The attributes the checks read. *)
Record object_attrs : Set := mk_object_attrs {
  oa_type : object_file_type_t;
  oa_owner : Z;
  oa_group : Z;
  oa_mode : Z;
  oa_acl : option (list fsal_ace_t)
}.

(** ** Which entries apply *)

Definition fsal_check_ace_owner (uid : Z) (creds : user_cred) : bool := caller_uid creds =? uid.
Definition fsal_check_ace_group (gid : Z) (creds : user_cred) : bool :=
  (caller_gid creds =? gid) || existsb (fun g => g =? gid) (caller_garray creds).

Definition fsal_check_ace_matches (a : fsal_ace_t) (creds : user_cred)
    (is_owner is_group : bool) : bool :=
  if IS_FSAL_ACE_SPECIAL_ID a then
    if ace_who a =? FSAL_ACE_SPECIAL_OWNER then is_owner
    else if ace_who a =? FSAL_ACE_SPECIAL_GROUP then is_group
    else ace_who a =? FSAL_ACE_SPECIAL_EVERYONE
  else if IS_FSAL_ACE_GROUP_ID a then fsal_check_ace_group (ace_who a) creds
  else fsal_check_ace_owner (ace_who a) creds.

Definition fsal_check_ace_applicable (a : fsal_ace_t) (creds : user_cred)
    (is_dir is_owner is_group is_root : bool) : bool :=
  if IS_FSAL_ACE_INHERIT_ONLY a then false
  else if negb is_dir && negb (IS_FSAL_FILE_APPLICABLE a) then false
  else if is_dir && negb (IS_FSAL_DIR_APPLICABLE a) then false
  else is_root || fsal_check_ace_matches a creds is_owner is_group.

(** ** Evaluation of an ACL *)

Definition PERM_BITS : Z :=
  Z.lor FSAL_ACE_PERM_WRITE_ATTR (Z.lor FSAL_ACE_PERM_WRITE_ACL FSAL_ACE_PERM_WRITE_OWNER).
Definition OWNER_BITS : Z :=
  Z.lor (Z.lor FSAL_ACE_PERM_WRITE_ACL FSAL_ACE_PERM_READ_ACL)
        (Z.lor FSAL_ACE_PERM_WRITE_ATTR FSAL_ACE_PERM_READ_ATTR).

Definition denied_error (bits : Z) : fsal_errors_t :=
  if bit_set bits PERM_BITS then ERR_FSAL_PERM else ERR_FSAL_ACCESS.

(** The masks a check works on. *)
Record acl_state : Set := mk_acl_state {
  missing_access : Z; allowed : option Z; denied : option Z
}.

(** One entry: an early [return], a [break], or on to the next entry. *)
Inductive ace_step : Set :=
| ace_return (err : fsal_errors_t) (st : acl_state)
| ace_break (st : acl_state)
| ace_next (st : acl_state).

Definition check_ace (a : fsal_ace_t) (applicable is_root : bool) (v4mask : Z)
    (st : acl_state) : ace_step :=
  if negb (IS_FSAL_ACE_ALLOW a) && negb (IS_FSAL_ACE_DENY a) then ace_next st
  else if negb applicable then ace_next st
  else if IS_FSAL_ACE_ALLOW a then
    let tperm := match denied st with
                 | Some d => Z.ldiff (ace_perm a) d
                 | None => ace_perm a
                 end in
    let missing := Z.ldiff (missing_access st) (Z.land tperm (missing_access st)) in
    let st' := mk_acl_state missing
                 ((fun al => Z.lor al (Z.land v4mask tperm)) <$> allowed st) (denied st) in
    if missing =? 0 then ace_break st' else ace_next st'
  else if bit_set (ace_perm a) (missing_access st) && negb is_root then
    let denied' := (fun d => Z.lor d (Z.land v4mask (ace_perm a))) <$> denied st in
    if bool_decide (denied' = None) || negb (bit_set v4mask FSAL_ACE4_PERM_CONTINUE) then
      ace_return (denied_error (Z.land (ace_perm a) (missing_access st)))
        (mk_acl_state (missing_access st) (allowed st) denied')
    else
      let missing := Z.ldiff (missing_access st) (Z.land (ace_perm a) (missing_access st)) in
      let st' := mk_acl_state missing (allowed st) denied' in
      if missing =? 0 then ace_break st' else ace_next st'
  else ace_next st.

(** The verdict after the loop. *)
Definition acl_verdict (st : acl_state) : fsal_errors_t * acl_state :=
  if negb (missing_access st =? 0)
     || match denied st with Some d => negb (d =? 0) | None => false end
  then (denied_error (missing_access st), st)
  else (ERR_FSAL_NO_ERROR, st).

Fixpoint check_aces (aces : list fsal_ace_t) (applicable : fsal_ace_t -> bool)
    (is_root : bool) (v4mask : Z) (st : acl_state) : fsal_errors_t * acl_state :=
  match aces with
  | [] => acl_verdict st
  | a :: aces =>
      match check_ace a (applicable a) is_root v4mask st with
      | ace_return err st => (err, st)
      | ace_break st => acl_verdict st
      | ace_next st => check_aces aces applicable is_root v4mask st
      end
  end.

(** [want_allowed] and [want_denied] say whether the caller passes a pointer for
    the masks; their values after the check are in the final state. *)
Definition fsal_check_access_acl (creds : user_cred) (v4mask : Z)
    (want_allowed want_denied : bool) (oa : object_attrs) (aces : list fsal_ace_t)
    : fsal_errors_t * acl_state :=
  let missing := Z.ldiff v4mask FSAL_ACE4_PERM_CONTINUE in
  let uid := u32 (oa_owner oa) in
  let gid := u32 (oa_group oa) in
  let is_dir := bool_decide (oa_type oa = DIRECTORY) in
  let is_root := caller_uid creds =? 0 in
  let missing := if is_root then Z.land missing FSAL_ACE_PERM_EXECUTE else missing in
  let al := if is_root then Z.ldiff v4mask FSAL_ACE_PERM_EXECUTE else 0 in
  let is_owner := fsal_check_ace_owner uid creds in
  let is_group := fsal_check_ace_group gid creds in
  let al := if is_owner then Z.lor al (Z.land v4mask OWNER_BITS) else al in
  let missing := if is_owner then Z.ldiff missing OWNER_BITS else missing in
  check_aces aces
    (fun a => fsal_check_ace_applicable a creds is_dir is_owner is_group is_root)
    is_root v4mask
    (mk_acl_state missing (if want_allowed then Some al else None)
       (if want_denied then Some 0 else None)).

(** ** Mode bits *)

Definition S_IXANY : Z := 73. (* S_IXOTH | S_IXUSR | S_IXGRP *)

(** The permission bits of the class the caller belongs to, as the low three bits. *)
Definition class_mode (creds : user_cred) (oa : object_attrs) : Z :=
  if caller_uid creds =? u32 (oa_owner oa) then Z.shiftr (oa_mode oa) 6
  else if caller_gid creds =? u32 (oa_group oa) then Z.shiftr (oa_mode oa) 3
  else if existsb (fun g => g =? u32 (oa_group oa)) (caller_garray creds)
  then Z.shiftr (oa_mode oa) 3 else oa_mode oa.

(** The result, [*allowed] and [*denied]. *)
Definition fsal_check_access_no_acl (creds : user_cred) (access_type : Z) (oa : object_attrs)
    : fsal_errors_t * Z * Z :=
  if caller_uid creds =? 0 then
    if (Z.land access_type FSAL_X_OK =? 0) || bit_set (oa_mode oa) S_IXANY
    then (ERR_FSAL_NO_ERROR, access_type, 0)
    else (ERR_FSAL_ACCESS, Z.ldiff access_type FSAL_X_OK, Z.land access_type FSAL_X_OK)
  else
    let mode := class_mode creds oa in
    let mask := Z.lor (if bit_set mode 4 then FSAL_R_OK else 0)
                  (Z.lor (if bit_set mode 2 then FSAL_W_OK else 0)
                         (if bit_set mode 1 then FSAL_X_OK else 0)) in
    (if Z.land mask access_type =? access_type then ERR_FSAL_NO_ERROR else ERR_FSAL_ACCESS,
     Z.land mask access_type, Z.ldiff access_type mask).

Definition fsal_test_access (creds : user_cred) (oa : object_attrs) (access_type : Z)
    (want_allowed want_denied : bool) : fsal_errors_t :=
  match oa_acl oa with
  | Some aces =>
      if IS_FSAL_ACE4_MASK_VALID access_type
      then fst (fsal_check_access_acl creds (FSAL_ACE4_MASK access_type) want_allowed want_denied
                  oa aces)
      else fst (fst (fsal_check_access_no_acl creds (FSAL_MODE_MASK access_type) oa))
  | None => fst (fst (fsal_check_access_no_acl creds (FSAL_MODE_MASK access_type) oa))
  end.

(** * Properties *)

(** ** The reference semantics of an ACL

    Each permission bit is decided by the first applicable allow or deny entry
    that mentions it. *)

Fixpoint first_decision (applicable : fsal_ace_t -> bool) (aces : list fsal_ace_t) (i : Z)
    : option bool :=
  match aces with
  | [] => None
  | a :: aces =>
      if (IS_FSAL_ACE_ALLOW a || IS_FSAL_ACE_DENY a) && applicable a && Z.testbit (ace_perm a) i
      then Some (IS_FSAL_ACE_ALLOW a) else first_decision applicable aces i
  end.

(** Bits of the results of the mask operations. *)
Lemma bit_set_false x y : bit_set x y = false -> forall i, Z.testbit x i && Z.testbit y i = false.
Proof.
  unfold bit_set. intros H%negb_false_iff%Z.eqb_eq i.
  by rewrite <- Z.land_spec, H, Z.bits_0.
Qed.

Lemma bit_set_true x y : bit_set x y = true -> exists i, 0 <= i /\ Z.testbit x i && Z.testbit y i = true.
Proof.
  unfold bit_set. intros H%negb_true_iff%Z.eqb_neq.
  destruct (decide (0 <= Z.land x y)).
  - exists (Z.log2 (Z.land x y)). rewrite <- Z.land_spec. split; [apply Z.log2_nonneg|].
    apply Z.bit_log2. apply Z.le_neq. split; congruence || done.
  - exists (Z.log2 (Z.lnot (Z.land x y)) + 1). pose proof (Z.log2_nonneg (Z.lnot (Z.land x y))).
    split; [lia|]. rewrite <- Z.land_spec. set (c := Z.land x y) in *.
    rewrite <- (Z.lnot_involutive c) at 1. rewrite Z.lnot_spec by lia. apply negb_true_iff, Z.bits_above_log2; [|lia].
    unfold Z.lnot. lia.
Qed.

Lemma ldiff_land_spec m p i :
  Z.testbit (Z.ldiff m (Z.land p m)) i = Z.testbit m i && negb (Z.testbit p i).
Proof.
  rewrite Z.ldiff_spec, Z.land_spec. by destruct (Z.testbit m i), (Z.testbit p i).
Qed.

Lemma no_bits m : (m =? 0) = true -> forall i, Z.testbit m i = false.
Proof. intros ->%Z.eqb_eq i. apply Z.bits_0. Qed.

Lemma some_bit m : (m =? 0) = false -> exists i, Z.testbit m i = true.
Proof.
  intros H. destruct (bit_set_true m m) as (i & _ & Hi).
  - unfold bit_set. by rewrite Z.land_diag, H.
  - exists i. by rewrite andb_diag in Hi.
Qed.

Lemma and_iff_under (P A B : Prop) : (P -> A <-> B) -> (P /\ A <-> P /\ B).
Proof. tauto. Qed.

(** No denial has been recorded. *)
Definition undenied (st : acl_state) : Prop :=
  match denied st with Some d => d = 0 | None => True end.

Lemma denied_error_ne bits : denied_error bits <> ERR_FSAL_NO_ERROR.
Proof. unfold denied_error. by case_match. Qed.

Lemma verdict_ok st :
  fst (acl_verdict st) = ERR_FSAL_NO_ERROR <->
  undenied st /\ forall i, Z.testbit (missing_access st) i = false.
Proof.
  unfold acl_verdict, undenied.
  destruct (missing_access st =? 0) eqn:Hm; simpl.
  - pose proof (no_bits _ Hm) as Hb. destruct (denied st) as [d|]; simpl; [|by split].
    destruct (Z.eqb_spec d 0) as [->|Hd]; simpl; [by split|].
    split; [by intros ?%denied_error_ne|by intros [? _]].
  - destruct (some_bit _ Hm) as [i Hi].
    split; [by intros ?%denied_error_ne|]. intros [_ Hb]. by rewrite Hb in Hi.
Qed.

(** The loop succeeds exactly when nothing was denied and every missing bit is
    decided by an allow entry. *)
Lemma check_aces_ok aces app v4mask st :
  (forall i, Z.testbit (missing_access st) i = true -> Z.testbit v4mask i = true) ->
  (bit_set v4mask FSAL_ACE4_PERM_CONTINUE = false -> undenied st) ->
  fst (check_aces aces app false v4mask st) = ERR_FSAL_NO_ERROR <->
  undenied st /\ forall i, Z.testbit (missing_access st) i = true ->
    first_decision app aces i = Some true.
Proof.
  revert st. induction aces as [|a aces IH]; intros st Hsub Hcont.
  { simpl. rewrite verdict_ok. split; intros [Hd Hb]; split; try done; intros i.
    - intros Hi. by rewrite Hb in Hi.
    - destruct (Z.testbit _ i) eqn:E; [|done]. by specialize (Hb i E). }
  assert (Hskip : (IS_FSAL_ACE_ALLOW a || IS_FSAL_ACE_DENY a) && app a = false \/
      (forall i, Z.testbit (missing_access st) i = true -> Z.testbit (ace_perm a) i = false) ->
    (undenied st /\ forall i, Z.testbit (missing_access st) i = true ->
       first_decision app (a :: aces) i = Some true) <->
    fst (check_aces aces app false v4mask st) = ERR_FSAL_NO_ERROR).
  { intros Hs. rewrite IH by done. split; intros [Hd Hb]; split; try done; intros i Hi;
      specialize (Hb i Hi); simpl in *; destruct Hs as [Hs|Hs];
      rewrite ?Hs, ?(Hs i Hi), ?andb_false_r in *; done. }
  cbn [check_aces]. unfold check_ace. destruct (IS_FSAL_ACE_ALLOW a) eqn:Hal.
  - destruct (app a) eqn:Happ; simpl negb; cbn [andb].
    2: { symmetry. apply Hskip. left. by rewrite ?Hal, ?Hde, ?Happ, ?andb_false_r. }
    set (st' := mk_acl_state _ _ _).
    assert (Hst' : fst (if missing_access st' =? 0 then acl_verdict st'
                        else check_aces aces app false v4mask st') = ERR_FSAL_NO_ERROR <->
      undenied st' /\ forall i, Z.testbit (missing_access st') i = true ->
        first_decision app aces i = Some true).
    { destruct (missing_access st' =? 0) eqn:Hm'.
      - rewrite verdict_ok. pose proof (no_bits _ Hm') as Hnb.
        split; intros [? _]; split; try done. intros i Hi. by rewrite Hnb in Hi.
      - apply IH; [|done]. intros i Hi. apply Hsub. subst st'. simpl in Hi.
        rewrite ldiff_land_spec in Hi. by apply andb_true_iff in Hi as [? _]. }
    transitivity (fst (if missing_access st' =? 0 then acl_verdict st'
                        else check_aces aces app false v4mask st') = ERR_FSAL_NO_ERROR).
    { change (Z.ldiff _ _) with (missing_access st') at 1. by destruct (missing_access st' =? 0). }
    rewrite Hst'. change (undenied st') with (undenied st). apply and_iff_under.
    intros Hund.
    assert (Htp : forall i, Z.testbit (missing_access st') i =
                    Z.testbit (missing_access st) i && negb (Z.testbit (ace_perm a) i)).
    { intros i. subst st'. simpl. rewrite ldiff_land_spec. unfold undenied in Hund.
      destruct (denied st) as [d|]; [subst d; by rewrite Z.ldiff_0_r|done]. }
    split; intros Hb i Hi; specialize (Hb i); simpl in *; rewrite Htp in *;
      rewrite ?Hal, ?Happ in *; simpl in *; destruct (Z.testbit (ace_perm a) i); simpl in *;
      rewrite ?andb_false_r, ?andb_true_r in *; auto; done.
  - destruct (IS_FSAL_ACE_DENY a) eqn:Hde; [|symmetry; apply Hskip; left; by rewrite ?Hal, ?Hde].
    destruct (app a) eqn:Happ; simpl negb; cbn [andb].
    2: { symmetry. apply Hskip. left. by rewrite ?Hal, ?Hde, ?Happ, ?andb_false_r. }
    destruct (bit_set (ace_perm a) (missing_access st)) eqn:Hbit; cbn [andb].
    2: { symmetry. apply Hskip. right. intros i Hi. pose proof (bit_set_false _ _ Hbit i) as Hb.
         rewrite Hi, andb_true_r in Hb. done. }
    destruct (bit_set_true _ _ Hbit) as (j & _ & Hj). apply andb_true_iff in Hj as [Hjp Hjm].
    assert (Hno : ~ (undenied st /\ forall i, Z.testbit (missing_access st) i = true ->
        first_decision app (a :: aces) i = Some true)).
    { intros [_ Hb]. specialize (Hb j Hjm). simpl in Hb. by rewrite Hal, Hde, Happ, Hjp in Hb. }
    split; [|by intros ?%Hno]. intros Hres. exfalso.
    destruct (bool_decide _ || _) eqn:Hret; [by apply denied_error_ne in Hres|].
    apply orb_false_iff in Hret as [Hnn Hct]. apply negb_false_iff in Hct. apply bool_decide_eq_false in Hnn.
    destruct (denied st) as [d|]; [|done]. simpl in Hres.
    set (st' := mk_acl_state _ _ _) in Hres.
    assert (Hund : undenied st' -> False).
    { unfold undenied; simpl. intros Hz. apply (f_equal (fun z => Z.testbit z j)) in Hz.
      rewrite Z.lor_spec, Z.land_spec, Hjp, (Hsub j Hjm), Z.bits_0 in Hz.
      by rewrite orb_true_r in Hz. }
    assert (Hor : fst (acl_verdict st') = ERR_FSAL_NO_ERROR \/
                  fst (check_aces aces app false v4mask st') = ERR_FSAL_NO_ERROR).
    { by destruct (_ =? 0) in Hres; [left|right]. }
    destruct Hor as [[? _]%verdict_ok|[? _]%IH]; [done|done| |].
    + intros i Hi. apply Hsub. simpl in Hi. rewrite ldiff_land_spec in Hi.
      by apply andb_true_iff in Hi as [? _].
    + by rewrite Hct.
Qed.

(** ** The mask of allowed bits *)

Definition abit (st : acl_state) (i : Z) : bool :=
  match allowed st with Some al => Z.testbit al i | None => false end.
Definition dbit (st : acl_state) (i : Z) : bool :=
  match denied st with Some d => Z.testbit d i | None => false end.

(** What evaluation does to one requested bit [i] from [st] to [st'], [fd] being
    its first decision: a missing bit ends up allowed exactly when it is decided
    by an allow entry; bits already allowed stay, and bits already denied and not
    allowed never become allowed. *)
Definition bit_post (i : Z) (st : acl_state) (fd : option bool) (st' : acl_state) : Prop :=
  (Z.testbit (missing_access st) i = true -> (abit st' i = true <-> fd = Some true)) /\
  (Z.testbit (missing_access st) i = false ->
     (abit st i = true -> abit st' i = true) /\
     (dbit st i = true -> abit st' i = abit st i)).
Definition bit_inv (i : Z) (st : acl_state) : Prop :=
  allowed st <> None /\ denied st <> None /\
  (Z.testbit (missing_access st) i = true -> dbit st i = false /\ abit st i = false).

Lemma verdict_state st : snd (acl_verdict st) = st.
Proof. unfold acl_verdict. by case_match. Qed.

(** The rest of the loop after a step to [st1] that cleared or kept missing bits. *)
Lemma bit_post_rest i aces app v4mask st1 :
  (bit_inv i st1 -> bit_post i st1 (first_decision app aces i)
                      (snd (check_aces aces app false v4mask st1))) ->
  bit_inv i st1 ->
  bit_post i st1 (first_decision app aces i)
    (snd (if missing_access st1 =? 0 then acl_verdict st1
          else check_aces aces app false v4mask st1)).
Proof.
  intros IH Hi. destruct (missing_access st1 =? 0) eqn:E; [|by apply IH].
  rewrite verdict_state. split; [by rewrite (no_bits _ E)|done].
Qed.

(** One allow entry, seen at bit [i]. *)
Lemma allow_step i m al d p v4mask :
  Z.testbit v4mask i = true -> bit_inv i (mk_acl_state m (Some al) (Some d)) ->
  let st1 := mk_acl_state (Z.ldiff m (Z.land (Z.ldiff p d) m))
               (Some (Z.lor al (Z.land v4mask (Z.ldiff p d)))) (Some d) in
  bit_inv i st1 /\
  forall fd st', bit_post i st1 fd st' ->
    bit_post i (mk_acl_state m (Some al) (Some d))
      (if Z.testbit p i then Some true else fd) st'.
Proof.
  intros Hv (_ & _ & Hm). unfold bit_inv, bit_post, abit, dbit in *. simpl in *.
  rewrite !ldiff_land_spec, !Z.lor_spec, !Z.land_spec, !Z.ldiff_spec, Hv.
  destruct (Z.testbit m i), (Z.testbit al i), (Z.testbit d i), (Z.testbit p i); simpl;
    (split; [|intros fd st' [H1 H2]]); intuition congruence.
Qed.

(** One deny entry that denies some missing bit, seen at bit [i]. *)
Lemma deny_step i m al d p v4mask :
  Z.testbit v4mask i = true -> bit_inv i (mk_acl_state m (Some al) (Some d)) ->
  let st1 := mk_acl_state (Z.ldiff m (Z.land p m)) (Some al)
               (Some (Z.lor d (Z.land v4mask p))) in
  bit_inv i st1 /\
  forall fd st', bit_post i st1 fd st' ->
    bit_post i (mk_acl_state m (Some al) (Some d))
      (if Z.testbit p i then Some false else fd) st'.
Proof.
  intros Hv (_ & _ & Hm). unfold bit_inv, bit_post, abit, dbit in *. simpl in *.
  rewrite !ldiff_land_spec, !Z.lor_spec, !Z.land_spec, Hv.
  destruct (Z.testbit m i), (Z.testbit al i), (Z.testbit d i), (Z.testbit p i); simpl;
    (split; [|intros fd st' [H1 H2]]); intuition congruence.
Qed.

(** The allowed mask of a check that continues past denials. *)
Lemma check_aces_allowed aces app v4mask st i :
  bit_set v4mask FSAL_ACE4_PERM_CONTINUE = true -> Z.testbit v4mask i = true ->
  bit_inv i st ->
  bit_post i st (first_decision app aces i) (snd (check_aces aces app false v4mask st)).
Proof.
  intros Hc Hv. revert st. induction aces as [|a aces IH]; intros st Hinv.
  { simpl. rewrite verdict_state. destruct Hinv as (_ & _ & Hm). split; [|done].
    intros Hi. by rewrite (proj2 (Hm Hi)). }
  destruct st as [m [al|] [d|]]; try (by destruct Hinv as (? & ? & ?)).
  cbn [check_aces first_decision]. unfold check_ace.
  destruct (IS_FSAL_ACE_ALLOW a) eqn:Hal.
  - destruct (app a); [|rewrite andb_false_r; by apply IH]. simpl.
    destruct (allow_step i m al d (ace_perm a) v4mask Hv Hinv) as [Hinv1 Hpost].
    pose proof (bit_post_rest i aces app v4mask _ (IH _) Hinv1) as Hrest. simpl in Hrest.
    apply Hpost in Hrest. by destruct (_ =? 0) in Hrest |- *.
  - destruct (IS_FSAL_ACE_DENY a); [|by apply IH].
    destruct (app a); [|by apply IH]. simpl.
    destruct (bit_set (ace_perm a) m) eqn:Hbit; simpl.
    + rewrite Hc. simpl.
      destruct (deny_step i m al d (ace_perm a) v4mask Hv Hinv) as [Hinv1 Hpost].
      pose proof (bit_post_rest i aces app v4mask _ (IH _) Hinv1) as Hrest. simpl in Hrest.
      apply Hpost in Hrest. by destruct (_ =? 0) in Hrest |- *.
    + pose proof (bit_set_false _ _ Hbit i) as Hb. simpl in Hb.
      destruct (IH _ Hinv) as [H1 H2]. split; [|done]. simpl in *. intros Hi.
      rewrite Hi, andb_true_r in Hb. rewrite Hb. by apply H1.
Qed.

(** The caller as the entries see it, and what it is granted: the owner has the
    attribute and ACL permissions, everything else is decided by the entries. *)
Definition acl_applicable (creds : user_cred) (oa : object_attrs) (a : fsal_ace_t) : bool :=
  fsal_check_ace_applicable a creds (bool_decide (oa_type oa = DIRECTORY))
    (fsal_check_ace_owner (u32 (oa_owner oa)) creds)
    (fsal_check_ace_group (u32 (oa_group oa)) creds) (caller_uid creds =? 0).
Definition acl_grants (creds : user_cred) (oa : object_attrs) (aces : list fsal_ace_t) (i : Z)
    : Prop :=
  (fsal_check_ace_owner (u32 (oa_owner oa)) creds = true /\ Z.testbit OWNER_BITS i = true) \/
  first_decision (acl_applicable creds oa) aces i = Some true.

Lemma continue_bit i : Z.testbit FSAL_ACE4_PERM_CONTINUE i = bool_decide (i = 30).
Proof.
  change FSAL_ACE4_PERM_CONTINUE with (2 ^ 30). rewrite Z.pow2_bits_eqb by lia.
  apply eq_true_iff_eq. rewrite bool_decide_eq_true, Z.eqb_eq. lia.
Qed.

(** C21: for a caller that is not root the ACL check computes the NFSv4
    semantics: it grants the request exactly when every requested permission is
    either one the owner always has or is decided by an allow entry, the first
    applicable allow or deny entry that mentions it; and with evaluation
    continued past denials (the ACCESS operation) the returned mask of allowed
    permissions is exact, bit for bit. *)
Theorem acl_check_matches_reference creds v4mask want_allowed want_denied oa aces :
  caller_uid creds <> 0 ->
  let res := fsal_check_access_acl creds v4mask want_allowed want_denied oa aces in
  (fst res = ERR_FSAL_NO_ERROR <->
   forall i, Z.testbit v4mask i = true -> i <> 30 -> acl_grants creds oa aces i) /\
  (want_allowed = true -> want_denied = true ->
   bit_set v4mask FSAL_ACE4_PERM_CONTINUE = true ->
   forall i, Z.testbit v4mask i = true -> i <> 30 ->
     (abit (snd res) i = true <-> acl_grants creds oa aces i)).
Proof.
  intros Hnr. unfold fsal_check_access_acl, acl_grants, acl_applicable.
  apply Z.eqb_neq in Hnr as Hroot. rewrite Hroot.
  set (own := fsal_check_ace_owner _ _). set (app := fun a => fsal_check_ace_applicable _ _ _ _ _ _).
  set (m := if own then Z.ldiff _ OWNER_BITS else _).
  assert (Hm : forall i, Z.testbit m i = true <-> Z.testbit v4mask i = true /\ i <> 30 /\
                 ~ (own = true /\ Z.testbit OWNER_BITS i = true)).
  { intros i. subst m. destruct own; rewrite ?Z.ldiff_spec, ?Z.ldiff_spec, continue_bit;
      destruct (Z.testbit v4mask i), (Z.testbit OWNER_BITS i); simpl;
      repeat case_bool_decide; simpl; intuition congruence. }
  split.
  - rewrite check_aces_ok.
    + unfold undenied; simpl. split.
      * intros [_ Hb] i Hv H30. destruct (own && Z.testbit OWNER_BITS i) eqn:Ho.
        { apply andb_true_iff in Ho. by left. }
        right. apply Hb, Hm. split_and!; [done..|]. intros [Ho1 Ho2]. by rewrite Ho1, Ho2 in Ho.
      * intros Hg. split; [by destruct want_denied|]. intros i (Hv & H30 & Ho)%Hm.
        by destruct (Hg i Hv H30).
    + intros i Hi. simpl in Hi. by apply Hm in Hi as [? _].
    + unfold undenied; simpl. by destruct want_denied.
  - intros -> -> Hc i Hv H30.
    set (al := if own then Z.lor _ _ else _).
    assert (Hal : Z.testbit al i = true <-> own = true /\ Z.testbit OWNER_BITS i = true).
    { subst al. destruct own; rewrite ?Z.lor_spec, ?Z.land_spec, Z.bits_0, ?Hv; simpl; intuition congruence. }
    destruct (check_aces_allowed aces app v4mask (mk_acl_state m (Some al) (Some 0)) i Hc Hv)
      as [H1 H2].
    { split_and!; try done. simpl. intros (_ & _ & Ho)%Hm. unfold dbit, abit; simpl.
      rewrite Z.bits_0. split; [done|]. destruct (Z.testbit al i); intuition. }
    simpl in H1, H2. unfold abit at 2 in H2; simpl in H2.
    destruct (Z.testbit m i) eqn:Emi.
    + apply Hm in Emi as (_ & _ & Ho). rewrite (H1 eq_refl). intuition.
    + assert (Ho : own = true /\ Z.testbit OWNER_BITS i = true).
      { destruct own eqn:Eo; [|exfalso]; [split; [done|]|].
        - destruct (Z.testbit OWNER_BITS i) eqn:E; [done|].
          assert (Z.testbit m i = true) by (apply Hm; intuition congruence). congruence.
        - assert (Z.testbit m i = true) by (apply Hm; intuition congruence). congruence. }
      destruct (H2 eq_refl) as [H3 _]. split; [by left|]. intros _. by apply H3, Hal.
Qed.

Lemma acl_check_matches_reference_witness :
  let creds := mk_cred 1000 100 [] in
  let oa := mk_object_attrs REGULAR_FILE 0 100 0 None in
  let aces := [mk_ace FSAL_ACE_TYPE_DENY FSAL_ACE_PERM_WRITE_DATA 0 0 1000;
               mk_ace FSAL_ACE_TYPE_ALLOW 3 0 FSAL_ACE_IFLAG_SPECIAL_ID 3] in
  fst (fsal_check_access_acl creds FSAL_ACE_PERM_READ_DATA false false oa aces) =
    ERR_FSAL_NO_ERROR /\
  fst (fsal_check_access_acl creds 3 false false oa aces) <> ERR_FSAL_NO_ERROR.
Proof.
  set (creds := mk_cred 1000 100 []). set (oa := mk_object_attrs REGULAR_FILE 0 100 0 None).
  set (aces := [_; _]). split.
  - apply (acl_check_matches_reference creds FSAL_ACE_PERM_READ_DATA false false oa aces);
      [done|]. intros i Hi _. right.
    change FSAL_ACE_PERM_READ_DATA with (2 ^ 0) in Hi. rewrite Z.pow2_bits_eqb in Hi by lia.
    apply Z.eqb_eq in Hi as <-. reflexivity.
  - intros H. apply (acl_check_matches_reference creds 3 false false oa aces) with (i := 1) in H;
      [|done..]. destruct H as [[? ?]|?]; by vm_compute in *.
Defined.

(** ** Root *)

Lemma check_aces_root aces app v4mask st :
  undenied st ->
  fst (check_aces aces app true v4mask st) = ERR_FSAL_NO_ERROR <->
  forall i, Z.testbit (missing_access st) i = true ->
    exists a, a ∈ aces /\ IS_FSAL_ACE_ALLOW a = true /\ app a = true /\
              Z.testbit (ace_perm a) i = true.
Proof.
  revert st. induction aces as [|a aces IH]; intros st Hund.
  { simpl. rewrite verdict_ok. split; [intros [_ Hb] i Hi; by rewrite Hb in Hi|].
    intros Hb. split; [done|]. intros i. destruct (Z.testbit _ i) eqn:E; [|done].
    destruct (Hb i E) as (? & []%elem_of_nil & _). }
  cbn [check_aces]. unfold check_ace.
  destruct (IS_FSAL_ACE_ALLOW a && app a) eqn:Hap.
  - apply andb_true_iff in Hap as [Hal Happ]. rewrite Hal, Happ. simpl.
    set (st' := mk_acl_state _ _ _).
    assert (Htp : forall i, Z.testbit (missing_access st') i =
                    Z.testbit (missing_access st) i && negb (Z.testbit (ace_perm a) i)).
    { intros i. subst st'. simpl. rewrite ldiff_land_spec. unfold undenied in Hund.
      destruct (denied st) as [d|]; [subst d; by rewrite Z.ldiff_0_r|done]. }
    transitivity (forall i, Z.testbit (missing_access st') i = true ->
      exists a, a ∈ aces /\ IS_FSAL_ACE_ALLOW a = true /\ app a = true /\
                Z.testbit (ace_perm a) i = true).
    + change (Z.ldiff _ _) with (missing_access st') at 1.
      destruct (missing_access st' =? 0) eqn:E; [|by apply IH].
      rewrite verdict_ok. pose proof (no_bits _ E) as Hb.
      split; [intros _ i Hi; by rewrite Hb in Hi|done].
    + setoid_rewrite Htp. setoid_rewrite elem_of_cons. split; intros Hb i Hi.
      * destruct (Z.testbit (ace_perm a) i) eqn:Ep; [exists a; tauto|].
        destruct (Hb i) as (a' & ? & ?); [by rewrite Hi, Ep|]. exists a'. tauto.
      * apply andb_true_iff in Hi as [Hi Hp]. destruct (Hb i Hi) as (a' & [->|?] & ? & ? & Hp').
        { by rewrite Hp' in Hp. } by exists a'.
  - assert (Hsk : (forall i, Z.testbit (missing_access st) i = true ->
        exists a', a' ∈ a :: aces /\ IS_FSAL_ACE_ALLOW a' = true /\ app a' = true /\
                Z.testbit (ace_perm a') i = true) <->
        fst (check_aces aces app true v4mask st) = ERR_FSAL_NO_ERROR).
    { rewrite IH by done. setoid_rewrite elem_of_cons. split; intros Hb i Hi;
        destruct (Hb i Hi) as (a' & Hin & Ha & Hb' & Hc); exists a'; [|tauto].
      destruct Hin as [->|?]; [by rewrite Ha, Hb' in Hap|done]. }
    rewrite Hsk. rewrite (andb_false_r (bit_set _ _)).
    destruct (IS_FSAL_ACE_ALLOW a), (IS_FSAL_ACE_DENY a), (app a); done.
Qed.

(** root passes every check except for execute, which some applicable
    allow entry must grant, on a directory as well as on a file: with no such
    entry root is refused the search of a directory, where the code means to
    allow root anything. *)
Theorem acl_check_root creds v4mask want_allowed want_denied oa aces :
  caller_uid creds = 0 ->
  fst (fsal_check_access_acl creds v4mask want_allowed want_denied oa aces) =
    ERR_FSAL_NO_ERROR <->
  Z.testbit v4mask 5 = false \/
  exists a, a ∈ aces /\ IS_FSAL_ACE_ALLOW a = true /\ acl_applicable creds oa a = true /\
            Z.testbit (ace_perm a) 5 = true.
Proof.
  intros Hr. unfold fsal_check_access_acl, acl_applicable. rewrite Hr. simpl (0 =? 0).
  set (own := fsal_check_ace_owner _ _). rewrite check_aces_root; cbn [missing_access].
  2: { unfold undenied; simpl. by destruct want_denied. }
  set (m := if own then Z.ldiff _ OWNER_BITS else _).
  assert (Hm : forall i, Z.testbit m i = Z.testbit v4mask i && (i =? 5)).
  { intros i. assert (H5 : Z.testbit FSAL_ACE_PERM_EXECUTE i = (i =? 5)).
    { change FSAL_ACE_PERM_EXECUTE with (2 ^ 5). rewrite Z.pow2_bits_eqb by lia. lia. }
    subst m. destruct own; rewrite ?Z.ldiff_spec, Z.land_spec, Z.ldiff_spec, continue_bit, H5;
      (destruct (decide (i = 5)) as [E5|E5];
       [rewrite E5|rewrite (proj2 (Z.eqb_neq i 5) E5)]); simpl;
      rewrite ?andb_false_r, ?andb_true_r; done. }
  setoid_rewrite Hm. split.
  - intros Hb. destruct (Z.testbit v4mask 5) eqn:E; [|by left]. right. apply (Hb 5). by rewrite E.
  - intros H i [Hv ->%Z.eqb_eq]%andb_true_iff. destruct H as [H|H]; [congruence|done].
Qed.

Lemma acl_check_root_witness :
  fst (fsal_check_access_acl (mk_cred 0 0 []) FSAL_ACE_PERM_EXECUTE false false
         (mk_object_attrs DIRECTORY 1000 100 493 None) []) <> ERR_FSAL_NO_ERROR.
Proof.
  intros H. apply (acl_check_root (mk_cred 0 0 []) FSAL_ACE_PERM_EXECUTE false false
    (mk_object_attrs DIRECTORY 1000 100 493 None) [] eq_refl) in H as [H|(a & H & _)].
  - by vm_compute in H.
  - by apply elem_of_nil in H.
Defined.

(** ** Mode bits *)

(** The POSIX rules, on the numbers of the bits: the mode has three bits for each of
    the classes owner (2), group (1) and other (0). *)
Inductive permission : Set := may_read | may_write | may_execute.

Definition bit_of (p : permission) : Z :=
  match p with may_read => 2 | may_write => 1 | may_execute => 0 end.

(** The flag of a permission in a request. *)
Definition requested (access_type : Z) (p : permission) : bool := Z.testbit access_type (24 + bit_of p).

Inductive posix_class (creds : user_cred) (oa : object_attrs) : Z -> Prop :=
| class_owner : caller_uid creds = u32 (oa_owner oa) -> posix_class creds oa 2
| class_group : caller_uid creds <> u32 (oa_owner oa) ->
    u32 (oa_group oa) ∈ caller_gid creds :: caller_garray creds -> posix_class creds oa 1
| class_other : caller_uid creds <> u32 (oa_owner oa) ->
    u32 (oa_group oa) ∉ caller_gid creds :: caller_garray creds -> posix_class creds oa 0.

(** Root may execute what anyone may; others have the bits of their class. *)
Definition posix_permits (creds : user_cred) (oa : object_attrs) (p : permission) : Prop :=
  if decide (caller_uid creds = 0)
  then p = may_execute -> exists c, c ∈ [0; 1; 2] /\ Z.testbit (oa_mode oa) (3 * c) = true
  else exists c, posix_class creds oa c /\ Z.testbit (oa_mode oa) (3 * c + bit_of p) = true.

(** Settle a known request and known permission bits. *)
Ltac perm_cases :=
  match goal with Hpp : forall p, _ <-> _ |- _ =>
    pose proof (Hpp may_read); pose proof (Hpp may_write); pose proof (Hpp may_execute); clear Hpp end;
  split_and!; [reflexivity|reflexivity|intros []; vm_compute; intuition congruence|];
  split; [intros ? []; vm_compute in *; intuition congruence
         |intros Hall; pose proof (Hall may_read); pose proof (Hall may_write);
          pose proof (Hall may_execute); clear Hall; vm_compute in *; intuition congruence].

Lemma mode_request_cases a :
  Z.land a FSAL_MODE_BIT_MASK = a -> exists k, k ∈ [0; 1; 2; 3; 4; 5; 6; 7] /\ a = Z.shiftl k 24.
Proof.
  intros Ha. exists (Z.shiftr a 24). split.
  - assert (Hk : Z.land (Z.shiftr a 24) 7 = Z.shiftr a 24).
    { rewrite <- Ha at 2. by rewrite Z.shiftr_land. }
    change 7 with (Z.ones 3) in Hk. rewrite Z.land_ones in Hk by lia.
    pose proof (Z.mod_pos_bound (Z.shiftr a 24) (2 ^ 3) ltac:(lia)).
    set_unfold. lia.
  - apply Z.bits_inj'. intros i Hi. destruct (decide (i < 24)).
    + rewrite Z.shiftl_spec_low by done. rewrite <- Ha, Z.land_spec.
      change FSAL_MODE_BIT_MASK with (Z.shiftl 7 24). rewrite (Z.shiftl_spec_low 7) by done.
      by rewrite andb_false_r.
    + rewrite Z.shiftl_spec, Z.shiftr_spec by lia. f_equal. lia.
Qed.

Lemma bit_set_pow2 x i : 0 <= i -> bit_set x (2 ^ i) = Z.testbit x i.
Proof.
  intros Hi. unfold bit_set. apply eq_true_iff_eq. rewrite negb_true_iff, Z.eqb_neq. split.
  - intros Hx. destruct (Z.testbit x i) eqn:E; [done|]. destruct Hx. apply Z.bits_inj'. intros j Hj.
    rewrite Z.land_spec, Z.pow2_bits_eqb, Z.bits_0 by done.
    destruct (Z.eqb_spec i j) as [<-|]; [by rewrite E|by rewrite andb_false_r].
  - intros Hx Hz. pose proof (f_equal (fun z => Z.testbit z i) Hz) as Hb. simpl in Hb.
    by rewrite Z.land_spec, Z.pow2_bits_true, Hx, Z.bits_0 in Hb.
Qed.

Lemma bit_set_lor_mask x y z : bit_set x (Z.lor y z) = bit_set x y || bit_set x z.
Proof.
  unfold bit_set. rewrite Z.land_lor_distr_r. apply eq_true_iff_eq.
  rewrite orb_true_iff, !negb_true_iff, !Z.eqb_neq, Z.lor_eq_0_iff. lia.
Qed.

Lemma class_mode_posix creds oa :
  exists c, 0 <= c /\ class_mode creds oa = Z.shiftr (oa_mode oa) (3 * c) /\
    forall c', posix_class creds oa c' <-> c' = c.
Proof.
  unfold class_mode. destruct (Z.eqb_spec (caller_uid creds) (u32 (oa_owner oa))) as [Ho|Ho].
  { exists 2. split_and!; [done|done|]. intros c'. split; [by intros []|intros ->; by apply class_owner]. }
  assert (Hg : (caller_gid creds =? u32 (oa_group oa)) || existsb (fun g => g =? u32 (oa_group oa)) (caller_garray creds)
    = bool_decide (u32 (oa_group oa) ∈ caller_gid creds :: caller_garray creds)).
  { apply eq_true_iff_eq. rewrite bool_decide_eq_true, elem_of_cons, orb_true_iff, Z.eqb_eq, existsb_exists.
    setoid_rewrite Z.eqb_eq. setoid_rewrite <- list_elem_of_In. split; [intros [->|(x & Hx & <-)]; [by left|by right]|intros [->|Hx]; [by left|right; eauto]]. }
  case_bool_decide as Hin.
  - exists 1. split_and!; [done| |].
    + destruct (_ =? _); [done|]. by destruct (existsb _ _).
    + intros c'. split; [by intros []|intros ->; by apply class_group].
  - exists 0. split_and!; [done| |].
    + destruct (_ =? _); [done|]. by destruct (existsb _ _).
    + intros c'. split; [by intros []|intros ->; by apply class_other].
Qed.

(** What the code looks at decides what the rules permit. *)
Lemma posix_permits_code creds oa p :
  posix_permits creds oa p <->
  (if caller_uid creds =? 0 then match p with may_execute => bit_set (oa_mode oa) S_IXANY | _ => true end
   else bit_set (class_mode creds oa) (2 ^ bit_of p)) = true.
Proof.
  unfold posix_permits. destruct (Z.eqb_spec (caller_uid creds) 0) as [Hr|Hr].
  - rewrite decide_True by done. change S_IXANY with (Z.lor (2 ^ 0) (Z.lor (2 ^ 3) (2 ^ 6))).
    destruct p; [done|done|]. rewrite !bit_set_lor_mask, !bit_set_pow2, !orb_true_iff by done. split.
    + intros H. destruct (H eq_refl) as (c & Hc & Hb). set_unfold in Hc. destruct Hc as [->|[->|[->|[]]]]; auto.
    + intros [?|[?|?]] _; [exists 0|exists 1|exists 2]; (split; [set_solver|done]).
  - rewrite decide_False by done. destruct (class_mode_posix creds oa) as (c & Hc & -> & Hcl).
    assert (0 <= bit_of p) by (by destruct p). rewrite bit_set_pow2, Z.shiftr_spec by done.
    setoid_rewrite Hcl. rewrite Z.add_comm. split; [by intros (? & -> & ?)|by eauto].
Qed.

(** C36: without an ACL the check is the POSIX one.  A request for read, write
    and execute is split into the permissions that are allowed, exactly those that
    the caller has, and those that are denied; it succeeds exactly when none is
    denied.  A caller that is not root has the mode bits of its class: of the owner
    when it owns the file, else of the group when its group or one of its further
    groups is that of the file, else of the others.  Root may read and write, and
    execute when one of the three execute bits is set. *)
Theorem mode_check_is_posix creds oa access_type :
  Z.land access_type FSAL_MODE_BIT_MASK = access_type ->
  let '(err, al, de) := fsal_check_access_no_acl creds access_type oa in
  Z.lor al de = access_type /\ Z.land al de = 0 /\
  (forall p, requested al p = true <-> requested access_type p = true /\ posix_permits creds oa p) /\
  (err = ERR_FSAL_NO_ERROR <-> forall p, requested access_type p = true -> posix_permits creds oa p).
Proof.
  intros Ha. pose proof (posix_permits_code creds oa) as Hpp. revert Hpp.
  generalize (posix_permits creds oa). intros P Hpp. unfold fsal_check_access_no_acl.
  destruct (mode_request_cases _ Ha) as (k & Hk & ->). clear Ha.
  rewrite !elem_of_cons, elem_of_nil in Hk. destruct (caller_uid creds =? 0).
  - destruct (bit_set (oa_mode oa) S_IXANY); destruct_or? Hk; try done; subst k; perm_cases.
  - set (r := bit_set (class_mode creds oa) (2 ^ bit_of may_read)).
    set (w := bit_set (class_mode creds oa) (2 ^ bit_of may_write)).
    set (x := bit_set (class_mode creds oa) (2 ^ bit_of may_execute)).
    change (bit_set (class_mode creds oa) 4) with r. change (bit_set (class_mode creds oa) 2) with w.
    change (bit_set (class_mode creds oa) 1) with x.
    assert (Hp : forall p, bit_set (class_mode creds oa) (2 ^ bit_of p) =
      match p with may_read => r | may_write => w | may_execute => x end) by (by intros []).
    setoid_rewrite Hp in Hpp. clear Hp. clearbody r w x.
    destruct r, w, x; destruct_or? Hk; try done; subst k; perm_cases.
Qed.

Lemma mode_check_is_posix_witness :
  let oa := mk_object_attrs REGULAR_FILE 1000 100 416 None in
  fst (fst (fsal_check_access_no_acl (mk_cred 1000 5 []) FSAL_W_OK oa)) = ERR_FSAL_NO_ERROR /\
  fst (fst (fsal_check_access_no_acl (mk_cred 1001 5 [100]) FSAL_W_OK oa)) <> ERR_FSAL_NO_ERROR.
Proof.
  set (oa := mk_object_attrs _ _ _ _ _). split.
  - apply (mode_check_is_posix (mk_cred 1000 5 []) oa FSAL_W_OK eq_refl).
    intros [] Hreq; try done. exists 2. split; [by apply class_owner|done].
  - intros H. pose proof (mode_check_is_posix (mk_cred 1001 5 [100]) oa FSAL_W_OK eq_refl) as
      (_ & _ & _ & [Hp _]). destruct (Hp H may_write eq_refl) as (c & Hc & Hb).
    destruct Hc as [Hc|? Hc|? Hc]; [done|done|]. by vm_compute in Hb.
Defined.
