(* ===== verification/LockList.v ===== *)
(** Lock entries and lock lists of SAL/state_lock.c: creating, duplicating and
    releasing entries, looking for conflicts, merging a granted lock with the
    locks its owner has, and subtracting a range from a list of locks.

    [LockHeap] gives these operations their meaning byte by byte: which owner
    holds which kind of lock on which byte of the file. *)

From S2P Require Import Prelude Status World Owner.

(** * Ranges *)

Definition lock_end (lock : fsal_lock_param_t) : Z :=
  if lock_length lock =? 0 then UINT64_MAX
  else u64 (lock_start lock + lock_length lock - 1).

Definition different_lock (lock1 lock2 : fsal_lock_param_t) : bool :=
  bool_decide (lock_type lock1 <> lock_type lock2)
  || negb (lock_start lock1 =? lock_start lock2)
  || negb (lock_length lock1 =? lock_length lock2).

(** * Iteration

    [glist_for_each_safe] reads the successor of a structure before its body
    runs, so that the body can unlink the structure; structures the body appends
    are visited, unless the body ran on the last one. *)

Fixpoint succ_of (a : loc) (l : list loc) : option loc :=
  match l with
  | [] => None
  | b :: l => if decide (b = a) then head l else succ_of a l
  end.

Section lock_list.
Context {FS : Type} {env : OwnerEnv}.
Abbreviation M := (M (world FS)).

(** The body says whether to go on ([break] otherwise) and updates the local
    variables [acc] of the function. *)
Fixpoint for_each_safe {A} (fuel : nat) (h : list_head) (node : option loc) (acc : A)
    (body : loc -> A -> M (bool * A)) : M A :=
  match node with
  | None => mret acc
  | Some a =>
      match fuel with
      | O => stuck
      | S fuel =>
          l ← list_of h;
          '(go, acc) ← body a acc;
          if (go : bool) then for_each_safe fuel h (succ_of a l) acc body else mret acc
      end
  end.

(** Fuel for every structure on the list, and as many again that are appended
    meanwhile. *)
Definition glist_for_each_safe {A} (h : list_head) (acc : A) (body : loc -> A -> M (bool * A))
    : M A :=
  l ← list_of h; for_each_safe (2 * length l) h (head l) acc body.

(** * Lock entries *)

Definition nsm_client (owner : loc) : loc :=
  slc_nsm_client (nlm_client_of (so_client (owner_of owner))).
Definition is_nlm (owner : loc) : bool := bool_decide (so_type (owner_of owner) = STATE_LOCK_OWNER_NLM).
Definition is_nfs4 (owner : loc) : bool :=
  bool_decide (so_type (owner_of owner) = STATE_LOCK_OWNER_NFSV4).

(** [None] when memory is exhausted. *)
Definition create_state_lock_entry (entry export : loc) (blocked : state_blocking_t)
    (owner : loc) (state : option loc) (lock : fsal_lock_param_t) (sle_type : lock_type_t)
    : M (option loc) :=
  ok ← choose;
  if negb ok then mret None
  else
    new_entry ← fresh;
    modify (set_locks (<[new_entry :=
      mk_lock_entry export entry None (Some owner) state blocked 1 lock sle_type]>));;
    when (is_nlm owner) (
      ref_add (ssc_refcount (nsm_client owner)) 1;;
      add_tail (ssc_lock_list (nsm_client owner)) new_entry);;
    add_tail (exp_lock_list export) new_entry;;
    ref_add (so_refcount owner) 1;;
    match state with
    | Some st => when (is_nfs4 owner) (add_tail (state_locklist st) new_entry)
    | None => mret tt
    end;;
    add_tail (so_lock_list owner) new_entry;;
    mret (Some new_entry).

(** Duplicating an entry without an owner follows a null pointer. *)
Definition state_lock_entry_t_dup (orig_entry : loc) : M (option loc) :=
  e ← get_lock orig_entry;
  match sle_owner e with
  | Some owner =>
      create_state_lock_entry (sle_entry e) (sle_export e) (sle_blocked e) owner (sle_state e)
        (sle_lock e) (sle_type e)
  | None => undef
  end.

Definition lock_entry_inc_ref (lock_entry : loc) : M unit :=
  upd_lock lock_entry (with_ref_count (fun n => n + 1)).

Definition lock_entry_dec_ref (lock_entry : loc) : M unit :=
  upd_lock lock_entry (with_ref_count (fun n => n - 1));;
  e ← get_lock lock_entry;
  if sle_ref_count e =? 0 then
    match sle_block_data e with
    | Some block => unlink sbd_list block;; modify (set_blocks (delete block))
    | None => mret tt
    end;;
    modify (set_locks (delete lock_entry))
  else mret tt.

Definition remove_from_locklist (lock_entry : loc) : M unit :=
  e ← get_lock lock_entry;
  match sle_owner e with
  | Some owner =>
      when (is_nlm owner) (
        unlink sle_locks lock_entry;;
        ref_add (ssc_refcount (nsm_client owner)) (-1));;
      unlink sle_export_locks lock_entry;;
      when (is_nfs4 owner) (unlink sle_locks lock_entry);;
      unlink sle_owner_locks lock_entry;;
      ref_add (so_refcount owner) (-1)
  | None => mret tt
  end;;
  upd_lock lock_entry (with_owner None);;
  unlink sle_list lock_entry;;
  lock_entry_dec_ref lock_entry.

(** A lock whose owner is gone has no owner type to look at. *)
Definition lock_owner_is_nlm (e : state_lock_entry_t) : M bool :=
  match sle_owner e with
  | Some owner => mret (is_nlm owner)
  | None => undef
  end.

(** * Conflicts *)

Definition conflicts_with (owner : option loc) (lock : fsal_lock_param_t)
    (found : state_lock_entry_t) : bool :=
  if bool_decide (sle_blocked found = STATE_NLM_BLOCKING)
     || bool_decide (sle_blocked found = STATE_NFSV4_BLOCKING)
     || bool_decide (sle_blocked found = STATE_CANCELED)
  then false
  else
    (lock_start lock <=? lock_end (sle_lock found))
    && (lock_start (sle_lock found) <=? lock_end lock)
    && (bool_decide (lock_type (sle_lock found) = FSAL_LOCK_W)
        || bool_decide (lock_type lock = FSAL_LOCK_W))
    && different_owners (sle_owner found) owner.

Fixpoint find_conflict (l : list loc) (owner : option loc) (lock : fsal_lock_param_t)
    : M (option loc) :=
  match l with
  | [] => mret None
  | a :: l =>
      found ← get_lock a;
      if conflicts_with owner lock found then mret (Some a) else find_conflict l owner lock
  end.

Definition get_overlapping_entry (entry : loc) (owner : option loc) (lock : fsal_lock_param_t)
    : M (option loc) :=
  l ← list_of (file_lock_list entry); find_conflict l owner lock.

(** * Merging *)

(** One round of [merge_lock_entry]: the lock [a] of the list against the new
    lock. *)
Definition merge_check (entry lock_entry a : loc) : M unit :=
  if decide (a = lock_entry) then mret tt
  else
    check ← get_lock a;
    new ← get_lock lock_entry;
    let check_start := lock_start (sle_lock check) in
    let start := lock_start (sle_lock new) in
    let check_end := lock_end (sle_lock check) in
    let end_ := lock_end (sle_lock new) in
    if different_owners (sle_owner check) (sle_owner new) then mret tt
    else if bool_decide (sle_blocked check <> STATE_NON_BLOCKING) then mret tt
    else if u64 (check_end + 1) <? start then mret tt
    else if u64 (end_ + 1) <? check_start then mret tt
    else if bool_decide (lock_type (sle_lock check) <> lock_type (sle_lock new))
            && ((end_ <? check_end) || (check_start <? start)) then
      right ← (if (end_ <? check_end) && (check_start <? start) then
                 dup ← state_lock_entry_t_dup a;
                 match dup with
                 | Some r => add_tail (file_lock_list entry) r;; mret (Some r)
                 | None => mret None
                 end
               else mret (Some a));
      match right with
      | None => mret tt
      | Some r =>
          when (end_ <? check_end) (upd_lock r (with_lock (fun l =>
            with_length (u64 (check_end - end_)) (with_start (u64 (end_ + 1)) l))));;
          check ← get_lock a;
          when (lock_start (sle_lock check) <? start) (upd_lock a (with_lock
            (with_length (u64 (start - lock_start (sle_lock check))))))
      end
    else
      let end_ := if end_ <? check_end then check_end else end_ in
      let start := if check_start <? start then check_start else start in
      upd_lock lock_entry (with_lock (fun l =>
        with_length (u64 (end_ - start + 1)) (with_start start l)));;
      remove_from_locklist a.

Definition merge_lock_entry (entry lock_entry : loc) : M unit :=
  glist_for_each_safe (file_lock_list entry) tt (fun a _ =>
    merge_check entry lock_entry a;; mret (true, tt)).

Definition free_list (h : list_head) : M unit :=
  glist_for_each_safe h tt (fun a _ => remove_from_locklist a;; mret (true, tt)).

(** * Subtracting *)

(** A remaining fragment of an entry goes on the split list; when there is no
    memory for it, the whole split list is dropped. *)
Definition split_off (found_entry : loc) (f : fsal_lock_param_t -> fsal_lock_param_t) : M bool :=
  dup ← state_lock_entry_t_dup found_entry;
  match dup with
  | None => free_list split_lock_list;; mret false
  | Some part => upd_lock part (with_lock f);; add_tail split_lock_list part;; mret true
  end.

Definition move_to_remove_list (found_entry : loc) : M unit :=
  unlink sle_list found_entry;; add_tail remove_list found_entry.

(** The status, and whether the entry was removed. *)
Definition subtract_lock_from_entry (found_entry : loc) (lock : fsal_lock_param_t)
    : M (state_status_t * bool) :=
  found ← get_lock found_entry;
  let found_start := lock_start (sle_lock found) in
  let found_entry_end := lock_end (sle_lock found) in
  let range_end := lock_end lock in
  if range_end <? found_start then mret (STATE_SUCCESS, false)
  else if found_entry_end <? lock_start lock then mret (STATE_SUCCESS, false)
  else if (lock_start lock <=? found_start) && (found_entry_end <=? range_end) then
    move_to_remove_list found_entry;; mret (STATE_SUCCESS, true)
  else
    left_ok ← (if found_start <? lock_start lock then
                 split_off found_entry (with_length (u64 (lock_start lock - found_start)))
               else mret true);
    if negb left_ok then mret (STATE_MALLOC_ERROR, false)
    else
      right_ok ← (if range_end <? found_entry_end then
                    split_off found_entry (fun l => with_length (u64 (found_entry_end - range_end))
                                                      (with_start (u64 (range_end + 1)) l))
                  else mret true);
      if negb right_ok then mret (STATE_MALLOC_ERROR, false)
      else move_to_remove_list found_entry;; mret (STATE_SUCCESS, true).

Definition subtract_deleg_from_list (owner : option loc) (list_ : list_head) : M bool :=
  glist_for_each_safe list_ false (fun a removed =>
    found ← get_lock a;
    if bool_decide (owner <> None) && different_owners (sle_owner found) owner
    then mret (true, removed)
    else if bool_decide (sle_type found <> LEASE_LOCK) then mret (true, removed)
    else unlink sle_list a;; mret (true, true)).

(** Whether an unlock by [owner] (anybody when null) takes an entry: granted, and
    not a lock of the current incarnation [state] of an NLM client. *)
Definition subtracts (owner state : option loc) (found : state_lock_entry_t) : M bool :=
  if bool_decide (owner <> None) && different_owners (sle_owner found) owner then mret false
  else if bool_decide (sle_blocked found <> STATE_NON_BLOCKING) then mret false
  else
    match state with
    | Some _ =>
        nlm ← lock_owner_is_nlm found;
        mret (negb (nlm && bool_decide (sle_state found = state)))
    | None => mret true
    end.

(** The status, and whether an entry was removed. *)
Definition subtract_lock_from_list (owner state : option loc) (lock : fsal_lock_param_t)
    (list_ : list_head) : M (state_status_t * bool) :=
  init_list split_lock_list;;
  init_list remove_list;;
  '(status, removed) ← glist_for_each_safe list_ (STATE_SUCCESS, false) (fun a acc =>
    found ← get_lock a;
    takes ← subtracts owner state found;
    if negb takes then mret (true, acc)
    else
      '(status, removed_one) ← subtract_lock_from_entry a lock;
      mret (bool_decide (status = STATE_SUCCESS), (status, snd acc || removed_one)));
  (if decide (status = STATE_SUCCESS) then
     free_list remove_list;; add_list_tail list_ split_lock_list
   else
     glist_for_each_safe remove_list tt (fun a _ =>
       unlink sle_list a;; add_tail list_ a;; mret (true, tt)));;
  mret (status, removed).

Definition subtract_list_from_list (target source : list_head) : M state_status_t :=
  glist_for_each_safe source STATE_SUCCESS (fun a _ =>
    found ← get_lock a;
    '(status, _) ← subtract_lock_from_list None None (sle_lock found) target;
    mret (bool_decide (status = STATE_SUCCESS), status)).
End lock_list.
