(* ===== verification/LockHeap.v ===== *)
(** Reasoning about lock lists: ranges of bytes, what a store says about who
    holds which lock on which byte, the effect of the primitive operations on
    lock entries, and the rule for loops over a list that changes under them. *)

From S2P Require Import Prelude Status World Owner LockList.

(** * Ranges *)

(** A range a client may ask for: it starts and ends within 64 bits. *)
Definition range_ok (lock : fsal_lock_param_t) : Prop :=
  0 <= lock_start lock <= UINT64_MAX /\ 0 <= lock_length lock <= UINT64_MAX /\
  lock_start lock + lock_length lock - 1 <= UINT64_MAX.
Definition in_range (lock : fsal_lock_param_t) (b : Z) : Prop :=
  lock_start lock <= b <= lock_end lock.

Lemma lock_end_eq lock :
  range_ok lock ->
  lock_end lock = if lock_length lock =? 0 then UINT64_MAX
                  else lock_start lock + lock_length lock - 1.
Proof.
  intros (H1 & H2 & H3). unfold lock_end. destruct (Z.eqb_spec (lock_length lock) 0); [done|].
  apply u64_small. lia.
Qed.

Lemma lock_end_bounds lock :
  range_ok lock -> lock_start lock <= lock_end lock <= UINT64_MAX.
Proof.
  intros H. rewrite lock_end_eq by done. destruct H as (H1 & H2 & H3).
  destruct (Z.eqb_spec (lock_length lock) 0); lia.
Qed.

(** The range from [s] to [e], as the code writes it into a lock. *)
Lemma set_range_ok lock s e :
  0 <= s -> s <= e <= UINT64_MAX ->
  let lock' := with_length (u64 (e - s + 1)) (with_start s lock) in
  range_ok lock' /\ lock_start lock' = s /\ lock_end lock' = e.
Proof.
  intros Hs He. simpl. unfold range_ok, lock_end. simpl.
  destruct (decide (s = 0 /\ e = UINT64_MAX)) as [[-> ->]|Hne].
  - split_and!; done.
  - rewrite (u64_small (e - s + 1)) by lia. destruct (Z.eqb_spec (e - s + 1) 0); [lia|].
    rewrite u64_small by lia. lia.
Qed.

(** * Who holds what *)

Abbreviation lock_map := (gmap loc state_lock_entry_t).

Section holding.
Context {env : OwnerEnv}.
Implicit Types (m : lock_map) (e : state_lock_entry_t) (l : list loc).

(** The entry is a granted lock of (an owner that is the same as) [o]. *)
Definition granted_to (o : loc) e : Prop :=
  sle_blocked e = STATE_NON_BLOCKING /\
  exists o', sle_owner e = Some o' /\ same_owner o' o.

(** Through the entries [l], owner [o] holds a lock of type [t] on byte [b]. *)
Definition held m l (o : loc) (t : fsal_lock_t) (b : Z) : Prop :=
  exists a e, a ∈ l /\ m !! a = Some e /\ granted_to o e /\
              lock_type (sle_lock e) = t /\ in_range (sle_lock e) b.

(** Live entries have an owner and a proper range. *)
Definition live e : Prop :=
  0 < sle_ref_count e /\ range_ok (sle_lock e) /\ exists o, sle_owner e = Some o.
Definition live_list m l : Prop :=
  NoDup l /\ forall a, a ∈ l -> exists e, m !! a = Some e /\ live e.

Lemma granted_to_same o1 o2 e : same_owner o1 o2 -> granted_to o1 e -> granted_to o2 e.
Proof. intros Hs (? & o' & ? & ?). split; [done|]. exists o'. split; [done|by etrans]. Qed.

Lemma granted_to_dec o e : sle_blocked e = STATE_NON_BLOCKING ->
  granted_to o e <-> different_owners (sle_owner e) (Some o) = false.
Proof.
  unfold granted_to, same_owner. destruct (sle_owner e) as [o'|]; [|by split; [intros (? & ? & ? & _)|]].
  intros Hb. split.
  - intros (_ & ? & [= <-] & ?). done.
  - eauto.
Qed.

Lemma held_same m l o1 o2 t b : same_owner o1 o2 -> held m l o1 t b <-> held m l o2 t b.
Proof.
  intros Hs. split; intros (a & e & ? & ? & Hg & ?); exists a, e;
    (split; [done|]; split; [done|]; split; [|done]).
  - by eapply granted_to_same.
  - eapply granted_to_same; [by symmetry|done].
Qed.

Lemma held_mono m m' l l' o t b :
  (forall a e, a ∈ l -> m !! a = Some e -> granted_to o e -> a ∈ l' /\ m' !! a = Some e) ->
  held m l o t b -> held m' l' o t b.
Proof.
  intros Hsub (a & e & Ha & He & Hg & Hr). destruct (Hsub a e Ha He Hg). exists a, e. eauto.
Qed.

Lemma held_intro m l o t b a e :
  a ∈ l -> m !! a = Some e -> granted_to o e -> lock_type (sle_lock e) = t ->
  in_range (sle_lock e) b -> held m l o t b.
Proof. intros. by exists a, e. Qed.

(** The new lock and the rest of the list. *)
Lemma held_cons m x l o t b :
  held m (x :: l) o t b <-> held m (glist_del x l) o t b \/ held m [x] o t b.
Proof.
  split.
  - intros (a & e & Ha & He & ?). destruct (decide (a = x)) as [->|Hne].
    + right. exists x, e. rewrite list_elem_of_singleton. done.
    + left. exists a, e. rewrite elem_of_glist_del. apply elem_of_cons in Ha as [?|?]; done.
  - intros [(a & e & [_ ?]%elem_of_glist_del & ?)|(a & e & ->%list_elem_of_singleton & ?)].
    + exists a, e. rewrite elem_of_cons. auto.
    + exists x, e. rewrite elem_of_cons. auto.
Qed.

Lemma held_singleton m x e o t b :
  m !! x = Some e -> granted_to o e ->
  held m [x] o t b <-> t = lock_type (sle_lock e) /\ in_range (sle_lock e) b.
Proof.
  intros Hx Hg. split.
  - intros (a & e' & ->%list_elem_of_singleton & He & _ & <- & ?). by simplify_eq.
  - intros [-> ?]. exists x, e. by rewrite list_elem_of_singleton.
Qed.
End holding.

Section held.
Context {FS : Type} {env : OwnerEnv}.
Implicit Types (w : world FS) (e : state_lock_entry_t) (l : list loc).

(** New entries get addresses that no entry has. *)
Definition addresses_ok w : Prop :=
  forall a e, w_locks w !! a = Some e -> (a < w_next w)%positive.

(** Allocations succeed. *)
Definition memory_ok w : Prop := Forall (fun b => b = true) (w_choices w).

(** * Loops *)

Lemma succ_of_app done a todo : NoDup (done ++ a :: todo) -> succ_of a (done ++ a :: todo) = head todo.
Proof.
  induction done as [|x done IH]; simpl; intros Hn.
  - by rewrite decide_True.
  - apply NoDup_cons in Hn as [Hx Hn]. rewrite decide_False; [by apply IH|].
    intros ->. apply Hx. set_solver.
Qed.

(** An invariant of the node the loop is at and of the local variables, with a
    number of rounds that suffices. *)
Lemma wp_for_each_safe {A} (Inv : nat -> option loc -> A -> world FS -> Prop)
    (Q : A -> world FS -> Prop) h body fuel :
  (forall n acc w, Inv n None acc w -> Q acc w) ->
  (forall n a acc w, Inv n (Some a) acc w -> exists m, n = S m /\
     wp (body a acc) (fun r w' => if r.1 : bool then Inv m (succ_of a (w_lists w h)) r.2 w'
                                  else Q r.2 w') w) ->
  forall n node acc w, (n <= fuel)%nat -> Inv n node acc w ->
    wp (for_each_safe fuel h node acc body) Q w.
Proof.
  intros Hend Hstep. induction fuel as [|fuel IH]; intros n node acc w Hn Hinv.
  - destruct node as [a|]; [|by apply wp_ret; eapply Hend].
    destruct (Hstep _ _ _ _ Hinv) as (m & -> & _). lia.
  - destruct node as [a|]; [|by apply wp_ret; eapply Hend].
    destruct (Hstep _ _ _ _ Hinv) as (m & -> & Hbody). simpl.
    apply wp_bind, wp_gets, wp_bind. eapply wp_mono; [|exact Hbody].
    intros [go acc'] w' HI. simpl in *. destruct go; [|done].
    eapply IH; [|exact HI]. lia.
Qed.

(** * Effects of the primitive operations *)

(** Lists threaded through [sle_list] are the same. *)
Definition lists_agree w w' : Prop :=
  forall h, link_of h = sle_list -> w_lists w' h = w_lists w h.
(** They are the same but for [a], which is off them. *)
Definition lists_without (a : loc) w w' : Prop :=
  forall h, link_of h = sle_list -> w_lists w' h = glist_del a (w_lists w h).

#[local] Instance lists_agree_refl : Reflexive lists_agree.
Proof. by intros w h. Qed.

(** What the lock code sees of the store is the same: the lock entries, the
    lists of them, and the state of the allocator. *)
Definition same_locks w w' : Prop :=
  w_locks w' = w_locks w /\ lists_agree w w' /\ w_next w' = w_next w /\ w_choices w' = w_choices w.

#[local] Instance same_locks_trans : Transitive same_locks.
Proof.
  intros w1 w2 w3 (? & Ha & ? & ?) (? & Hb & ? & ?). split_and!; [congruence| |congruence..].
  intros h Hh. by rewrite Hb, Ha.
Qed.
#[local] Instance same_locks_refl : Reflexive same_locks.
Proof. by intros w. Qed.

(** An operation that does not concern them. *)
Definition lock_neutral (m : M (world FS) unit) : Prop :=
  forall w, exists w', m w = Ret tt w' /\ same_locks w w'.

Lemma neutral_ret : lock_neutral (mret tt).
Proof. intros w. by exists w. Qed.

Lemma neutral_ref_add r d : lock_neutral (ref_add r d).
Proof. intros w. by eexists. Qed.

Lemma neutral_add_tail h a : link_of h <> sle_list -> lock_neutral (add_tail h a).
Proof.
  intros Hne w. eexists. split; [done|]. split_and!; try done. intros h' Hh'. simpl.
  apply list_update_ne. congruence.
Qed.

Lemma neutral_unlink k a : k <> sle_list -> lock_neutral (unlink k a).
Proof.
  intros Hne w. eexists. split; [done|]. split_and!; try done. intros h' Hh'. simpl.
  rewrite decide_False by congruence. done.
Qed.

Lemma neutral_bind m1 m2 : lock_neutral m1 -> lock_neutral m2 -> lock_neutral (m1;; m2).
Proof.
  intros H1 H2 w. destruct (H1 w) as (w1 & E1 & S1). destruct (H2 w1) as (w2 & E2 & S2).
  exists w2. split; [|by etrans]. unfold mbind, M_bind. by rewrite E1.
Qed.

Lemma neutral_when b m : lock_neutral m -> lock_neutral (when b m).
Proof. destruct b; [done|]. intros _. apply neutral_ret. Qed.

Lemma wp_neutral m (Q : unit -> world FS -> Prop) w :
  lock_neutral m -> (forall w', same_locks w w' -> Q tt w') -> wp m Q w.
Proof. intros Hm HQ. destruct (Hm w) as (w' & E & Hs). eapply wp_intro; [exact E|]. auto. Qed.

Lemma wp_choose (Q : bool -> world FS -> Prop) w :
  Q (default true (head (w_choices w))) (set_choices tail w) -> wp choose Q w.
Proof.
  unfold wp, choose. destruct (w_choices w) as [|b cs] eqn:E; simpl.
  - intros HQ. replace w with (set_choices tail w); [done|].
    destruct w. simpl in *. by subst.
  - intros HQ. replace (set_choices (fun _ => cs) w) with (set_choices tail w); [done|].
    unfold set_choices. by rewrite E.
Qed.

Ltac neutral_solve :=
  repeat first [apply neutral_when|apply neutral_bind|apply neutral_ref_add
    |apply neutral_add_tail; done|apply neutral_unlink; done|apply neutral_ret
    |match goal with |- lock_neutral (match ?s with _ => _ end) => destruct s end].

(** A first operation that does not concern them, [w0] being an earlier store. *)
Lemma wp_bind_neutral {A} (m : M (world FS) unit) (k : unit -> M (world FS) A) Q w0 w :
  lock_neutral m -> same_locks w0 w -> (forall w', same_locks w0 w' -> wp (k tt) Q w') ->
  wp (m ≫= k) Q w.
Proof. intros Hm Hs Hk. apply wp_bind, wp_neutral; [done|]. intros w' Hs'. apply Hk. by etrans. Qed.

Lemma wp_create entry export blocked owner state lock ty (Q : option loc -> world FS -> Prop) w :
  (forall w', w_locks w' = <[w_next w := mk_lock_entry export entry None (Some owner) state
                                           blocked 1 lock ty]> (w_locks w) ->
     lists_agree w w' -> w_next w' = Pos.succ (w_next w) -> w_choices w' = tail (w_choices w) ->
     Q (Some (w_next w)) w') ->
  (forall w', head (w_choices w) = Some false -> w_locks w' = w_locks w -> lists_agree w w' ->
     w_next w' = w_next w -> w_choices w' = tail (w_choices w) -> Q None w') ->
  wp (create_state_lock_entry entry export blocked owner state lock ty) Q w.
Proof.
  intros Hok Hfail. unfold create_state_lock_entry. apply wp_bind, wp_choose.
  destruct (default true (head (w_choices w))) eqn:E; cbn [negb].
  2: { apply wp_ret, Hfail; try done. destruct (w_choices w) as [|b cs]; [done|]. by simpl in *; subst. }
  apply wp_bind. eapply wp_intro; [reflexivity|]. cbn [w_next set_choices].
  apply wp_bind, wp_modify. set (w1 := set_locks _ _).
  assert (H1 : w_locks w1 = <[w_next w := mk_lock_entry export entry None (Some owner) state
      blocked 1 lock ty]> (w_locks w) /\ lists_agree w w1 /\ w_next w1 = Pos.succ (w_next w) /\
      w_choices w1 = tail (w_choices w)) by done.
  destruct H1 as (Hm & Hl & Hn & Hc). clearbody w1.
  assert (Hlink : forall w', same_locks w1 w' -> Q (Some (w_next w)) w').
  { intros w' (Hm2 & Hl2 & Hn2 & Hc2).
    apply Hok; [congruence|intros h Hh; by rewrite Hl2, Hl|congruence|congruence]. }
  assert (H1 : same_locks w1 w1) by done.
  eapply wp_bind_neutral; [neutral_solve|exact H1|intros w2 H2].
  eapply wp_bind_neutral; [neutral_solve|exact H2|intros w3 H3].
  eapply wp_bind_neutral; [neutral_solve|exact H3|intros w4 H4].
  eapply wp_bind_neutral; [neutral_solve|exact H4|intros w5 H5].
  eapply wp_bind_neutral; [neutral_solve|exact H5|intros w6 H6].
  by apply wp_ret, Hlink.
Qed.

Lemma wp_dup a e o (Q : option loc -> world FS -> Prop) w :
  w_locks w !! a = Some e -> sle_owner e = Some o ->
  (forall w', w_locks w' = <[w_next w := mk_lock_entry (sle_export e) (sle_entry e) None (Some o)
                      (sle_state e) (sle_blocked e) 1 (sle_lock e) (sle_type e)]> (w_locks w) ->
     lists_agree w w' -> w_next w' = Pos.succ (w_next w) -> w_choices w' = tail (w_choices w) ->
     Q (Some (w_next w)) w') ->
  (forall w', head (w_choices w) = Some false -> w_locks w' = w_locks w -> lists_agree w w' ->
     w_next w' = w_next w -> w_choices w' = tail (w_choices w) -> Q None w') ->
  wp (state_lock_entry_t_dup a) Q w.
Proof.
  intros Ha Ho Hok Hfail. unfold state_lock_entry_t_dup.
  apply wp_bind, (wp_deref (fun w => w_locks w !! a) _ _ e Ha). rewrite Ho.
  by apply wp_create.
Qed.

Lemma wp_upd_lock a f e (Q : unit -> world FS -> Prop) w :
  w_locks w !! a = Some e -> Q tt (set_locks (<[a := f e]>) w) -> wp (upd_lock a f) Q w.
Proof.
  intros Ha HQ. unfold upd_lock.
  apply wp_bind, (wp_deref (fun w => w_locks w !! a) _ _ e Ha), wp_modify, HQ.
Qed.

Lemma lists_without_unlink a w :
  lists_without a w (set_lists (fun L h => if decide (link_of h = sle_list)
                                           then glist_del a (L h) else L h) w).
Proof. intros h Hh. simpl. by rewrite decide_True. Qed.

(** The heap after an entry was released: nothing else changes, and if somebody
    still has a reference to it, it has no owner. *)
Definition released (a : loc) w w' : Prop :=
  (forall a', a' <> a -> w_locks w' !! a' = w_locks w !! a') /\
  (forall e, w_locks w' !! a = Some e -> sle_owner e = None) /\
  lists_without a w w' /\ w_next w' = w_next w /\ w_choices w' = w_choices w.

Lemma wp_dec_ref a e (Q : unit -> world FS -> Prop) w :
  w_locks w !! a = Some e -> sle_owner e = None ->
  (forall w', (forall a', a' <> a -> w_locks w' !! a' = w_locks w !! a') ->
     (forall e', w_locks w' !! a = Some e' -> sle_owner e' = None) ->
     lists_agree w w' -> w_next w' = w_next w -> w_choices w' = w_choices w -> Q tt w') ->
  wp (lock_entry_dec_ref a) Q w.
Proof.
  intros Ha Ho HQ. unfold lock_entry_dec_ref. apply wp_bind, (wp_upd_lock _ _ e _ _ Ha).
  apply wp_bind. eapply (wp_deref (fun w => w_locks w !! a)); [apply lookup_insert_eq|].
  assert (Hoff : forall m, forall a', a' <> a ->
    (<[a := with_ref_count (fun n => n - 1) e]> m : gmap loc state_lock_entry_t) !! a' = m !! a').
  { intros m a' Hne. by apply lookup_insert_ne. }
  cbn [sle_ref_count with_ref_count sle_block_data].
  destruct (_ =? 0).
  - destruct (sle_block_data e); repeat (first [apply wp_ret|apply wp_bind|apply wp_modify]);
      (apply HQ; try done; cbn [w_locks set_locks set_blocks set_lists]).
    1, 4: intros a' Hne; by rewrite lookup_delete_ne, Hoff.
    1, 3: intros e'; by rewrite lookup_delete_eq.
    + intros h Hh. simpl. rewrite decide_False by congruence. done.
  - apply wp_ret, HQ; try done.
    + intros a' Hne. by apply Hoff.
    + intros e'. simpl. rewrite lookup_insert_eq. by intros [= <-].
Qed.

Lemma wp_remove a e (Q : unit -> world FS -> Prop) w :
  w_locks w !! a = Some e -> (forall w', released a w w' -> Q tt w') ->
  wp (remove_from_locklist a) Q w.
Proof.
  intros Ha HQ. unfold remove_from_locklist.
  apply wp_bind, (wp_deref (fun w => w_locks w !! a) _ _ e Ha), wp_bind.
  assert (Hrest : forall w1, w_locks w1 = w_locks w -> lists_agree w w1 -> w_next w1 = w_next w ->
    w_choices w1 = w_choices w ->
    wp (upd_lock a (with_owner None);; unlink sle_list a;; lock_entry_dec_ref a) Q w1).
  { intros w1 Hl Hs Hn Hc. apply wp_bind, (wp_upd_lock _ _ e); [by rewrite Hl|].
    apply wp_bind, wp_modify.
    eapply wp_dec_ref; [simpl; apply lookup_insert_eq|done|].
    intros w2 Hoff Hown Hagree Hn2 Hc2. apply HQ. split_and!.
    - intros a' Hne. rewrite Hoff by done. simpl. rewrite lookup_insert_ne by done. by rewrite Hl.
    - exact Hown.
    - intros h Hh. rewrite Hagree by done. simpl. rewrite decide_True by done. by rewrite Hs.
    - by rewrite Hn2.
    - by rewrite Hc2. }
  destruct (sle_owner e) as [o|]; [|by apply wp_ret, Hrest].
  apply wp_neutral; [neutral_solve|]. intros w' (? & ? & ? & ?). by apply Hrest.
Qed.

(** * Bystanders

    A property of the store that does not concern the lists, and that changing the
    range of a granted entry, duplicating and releasing one preserve: it survives
    merging and subtracting. *)
Record bystander (I : world FS -> Prop) : Prop := {
  by_lists : forall w f, I w -> I (set_lists f w);
  by_range : forall w a e f, I w -> w_locks w !! a = Some e -> sle_blocked e = STATE_NON_BLOCKING ->
    I (set_locks (<[a := with_lock f e]>) w);
  by_dup : forall w a e r w', I w -> w_locks w !! a = Some e -> sle_blocked e = STATE_NON_BLOCKING ->
    state_lock_entry_t_dup a w = Ret r w' -> I w';
  by_remove : forall w a e w', I w -> w_locks w !! a = Some e -> is_Some (sle_owner e) ->
    sle_blocked e = STATE_NON_BLOCKING -> remove_from_locklist a w = Ret tt w' -> I w'
}.


(** An operation whose outcome is known to keep [I]. *)
Lemma wp_keep {A} (I : world FS -> Prop) (m : M (world FS) A) (Q : A -> world FS -> Prop) w :
  (forall a w', m w = Ret a w' -> I w') -> wp m (fun a w' => I w' -> Q a w') w -> wp m Q w.
Proof. unfold wp. intros HI. destruct (m w) eqn:E; try done. eauto. Qed.

(** The other lists of lock entries than [h] and the local lists of
    [subtract_lock_from_list]. *)
Definition elsewhere (h h' : list_head) : Prop :=
  link_of h' = sle_list /\ h' <> h /\ h' <> split_lock_list /\ h' <> remove_list.
End held.

(** * Examples

    Owners that are told apart by their NFSv4 client id, and a file (address 1)
    with the given locks, the first of which is not yet on its list. *)
Module LockExamples.
Definition owners : OwnerEnv := {|
  owner_of a := mk_owner STATE_LOCK_OWNER_NFSV4 [] (Zpos a) None 1 0 0;
  nlm_client_of _ := mk_nlm_client 1 0 (AF_INET 0 0) [];
  nsm_client_of _ := mk_nsm_client (AF_INET 0 0) [];
  nsm_use_caller_name := false
|}.

Definition lock (owner : loc) (t : fsal_lock_t) (start length : Z) : state_lock_entry_t :=
  mk_lock_entry 1 1 None (Some owner) None STATE_NON_BLOCKING 1
    (mk_lock_param FSAL_POSIX_LOCK t start length false) POSIX_LOCK.

Definition locked_file (new : state_lock_entry_t) (old : list state_lock_entry_t) : world unit :=
  set_lists (list_update (file_lock_list 1) (fun _ => (fun n => Pos.of_nat (11 + n)) <$> seq 0 (length old)))
    (set_locks (fun _ => list_to_map ((10%positive, new) ::
       imap (fun n e => (Pos.of_nat (11 + n), e)) old))
      (initial_world tt {[ 1%positive := regular_file ]})).
End LockExamples.
