(* ===== verification/LockMerge.v ===== *)
(** Correctness of [merge_lock_entry]: what an owner holds, byte by byte, after
    a granted lock was merged with the locks the owner has on the file. *)

From S2P Require Import Prelude Status World Owner LockList LockHeap.

(** The same lock over another range. *)
Definition reranged (e e' : state_lock_entry_t) : Prop :=
  exists s n, e' = with_lock (fun l => with_length n (with_start s l)) e.

Section merge_invariant.
Context {env : OwnerEnv}.

(** The new lock [x], as it was ([e0]) when the merge began, its owner, and the
    entries and the list at that time. *)
Variables (x : loc) (e0 : state_lock_entry_t) (o : loc) (m0 : lock_map) (L0 : list loc).

(** What the owner holds through the list without the new lock. *)
Abbreviation old := (held m0 (glist_del x L0) o).
Abbreviation t0 := (lock_type (sle_lock e0)).

(** No byte of the file is locked both for reading and for writing by the owner. *)
Definition one_type : Prop := forall t1 t2 b, old t1 b -> old t2 b -> t1 = t2.
Hypothesis Hone : one_type.
Hypothesis Hg0 : granted_to o e0.

(** The state of the merge at a point of the loop: [done] was visited, [todo]
    was not, [ex] is the new lock so far. *)
Record merge_inv (m : lock_map) (done todo : list loc) (ex : state_lock_entry_t) : Prop := {
  mi_live : live_list m (done ++ todo);
  mi_new : m !! x = Some ex;
  mi_new_live : live ex;
  mi_new_end : lock_end (sle_lock ex) < UINT64_MAX;
  mi_new_eq : reranged e0 ex;
  mi_ends : forall a e, a ∈ done ++ todo -> m !! a = Some e -> granted_to o e ->
    lock_end (sle_lock e) < UINT64_MAX;
  mi_others : forall a e, ~ granted_to o e ->
    (a ∈ done ++ todo /\ m !! a = Some e <-> a ∈ L0 /\ m0 !! a = Some e);
  mi_grows : forall b, in_range (sle_lock e0) b -> in_range (sle_lock ex) b;
  mi_bounded : forall b, in_range (sle_lock ex) b -> in_range (sle_lock e0) b \/ old t0 b;
  mi_mono : forall t b, held m (glist_del x (done ++ todo)) o t b -> old t b;
  mi_keep : forall t b, old t b -> ~ in_range (sle_lock e0) b ->
    held m (glist_del x (done ++ todo)) o t b \/ (t = t0 /\ in_range (sle_lock ex) b);
  mi_done : forall a e b, a ∈ done -> a <> x -> m !! a = Some e -> granted_to o e ->
    lock_type (sle_lock e) <> t0 -> in_range (sle_lock e) b -> ~ in_range (sle_lock e0) b
}.

Lemma held_in m l t b a e :
  a ∈ l -> a <> x -> m !! a = Some e -> granted_to o e -> lock_type (sle_lock e) = t ->
  in_range (sle_lock e) b -> held m (glist_del x l) o t b.
Proof. intros. exists a, e. rewrite elem_of_glist_del. auto. Qed.

(** A byte the new lock has by now that another type covers is one it was
    requested for. *)
Lemma merge_inv_sep m done todo ex a e b :
  merge_inv m done todo ex -> a ∈ done ++ todo -> a <> x -> m !! a = Some e -> granted_to o e ->
  lock_type (sle_lock e) <> t0 -> in_range (sle_lock e) b -> in_range (sle_lock ex) b ->
  in_range (sle_lock e0) b.
Proof.
  intros HI Ha Hx He Hg Ht Hb Hex. destruct (mi_bounded _ _ _ _ HI b Hex) as [?|Hold]; [done|].
  destruct Ht. eapply Hone; [|exact Hold]. eapply mi_mono; [done|]. by eapply held_in.
Qed.

(** A lock that does not concern the merge, or is apart from the new lock. *)
Lemma merge_inv_skip m done a rest ex :
  merge_inv m done (a :: rest) ex ->
  (forall e b, a <> x -> m !! a = Some e -> granted_to o e -> lock_type (sle_lock e) <> t0 ->
     in_range (sle_lock e) b -> ~ in_range (sle_lock ex) b) ->
  merge_inv m (done ++ [a]) rest ex.
Proof.
  intros HI Hsk. destruct HI. rewrite (app_assoc _ [a] rest : done ++ a :: rest = _) in *.
  split; try done.
  intros a' e b [Hd|Hd%list_elem_of_singleton]%elem_of_app Hx He Hg Ht Hb; [by eapply mi_done0|].
  subst a'. intros H0. eapply (Hsk e b); eauto.
Qed.

(** A fragment [r] of a lock is appended to the list. *)
Lemma merge_inv_piece m done todo ex r er :
  merge_inv m done todo ex -> m !! r = None -> live er -> granted_to o er ->
  lock_end (sle_lock er) < UINT64_MAX ->
  (forall b, in_range (sle_lock er) b ->
     held m (glist_del x (done ++ todo)) o (lock_type (sle_lock er)) b) ->
  merge_inv (<[r := er]> m) done (todo ++ [r]) ex.
Proof.
  intros HI Hr Hlive Hg Hend Hsub. destruct HI. pose proof (app_assoc done todo [r]) as Happ.
  assert (Hrx : r <> x) by congruence. destruct mi_live0 as [Hnd Hall].
  assert (Hrl : r ∉ done ++ todo). { intros (e & ? & _)%Hall. congruence. }
  assert (Hne : forall a, a ∈ done ++ todo -> r <> a) by (by intros a ? <-).
  assert (Hheld : forall t b, held m (glist_del x (done ++ todo)) o t b ->
            held (<[r := er]> m) (glist_del x ((done ++ todo) ++ [r])) o t b).
  { intros t b. apply held_mono. intros a e [? ?]%elem_of_glist_del He _.
    rewrite elem_of_glist_del, elem_of_app, lookup_insert_ne by auto. auto. }
  split; rewrite ?Happ; try done.
  - split.
    + apply NoDup_app. split; [done|]. split; [by intros a ? ->%list_elem_of_singleton|].
      apply NoDup_singleton.
    + intros a [Ha|Ha%list_elem_of_singleton]%elem_of_app.
      * rewrite lookup_insert_ne by auto. auto.
      * subst a. rewrite lookup_insert_eq. eauto.
  - by rewrite lookup_insert_ne.
  - intros a e [Ha|Ha%list_elem_of_singleton]%elem_of_app.
    + rewrite lookup_insert_ne by auto. eauto.
    + subst a. rewrite lookup_insert_eq. by intros [= <-].
  - intros a e Hng. rewrite <- mi_others0 by done. rewrite elem_of_app, list_elem_of_singleton.
    destruct (decide (a = r)) as [->|Har].
    + rewrite lookup_insert_eq. split; [by intros [_ [= <-]]|by intros [? _]].
    + rewrite lookup_insert_ne by done. tauto.
  - intros t b (a & e & [Hax Ha]%elem_of_glist_del & He & Hge & Ht & Hb). apply mi_mono0.
    apply elem_of_app in Ha as [Ha|Ha%list_elem_of_singleton].
    + rewrite lookup_insert_ne in He by auto. by eapply held_in.
    + subst a. rewrite lookup_insert_eq in He. injection He as <-. subst t. by apply Hsub.
  - intros t b Hold H0. destruct (mi_keep0 t b Hold H0) as [?|?]; [left; by apply Hheld|by right].
  - intros a e b Ha Hax. rewrite lookup_insert_ne by (apply Hne, elem_of_app; by left). by apply mi_done0.
Qed.

(** A lock of the owner loses bytes to the new lock or to another entry. *)
Lemma merge_inv_shrink m done todo ex a ck la :
  merge_inv m done todo ex -> a ∈ done ++ todo -> a <> x -> m !! a = Some ck ->
  granted_to o ck -> lock_type (sle_lock ck) <> t0 ->
  range_ok la -> lock_type la = lock_type (sle_lock ck) ->
  (forall b, in_range la b -> in_range (sle_lock ck) b) ->
  (forall b, in_range (sle_lock ck) b -> in_range la b \/ in_range (sle_lock ex) b \/
     held m (glist_del a (glist_del x (done ++ todo))) o (lock_type (sle_lock ck)) b) ->
  merge_inv (<[a := with_lock (fun _ => la) ck]> m) done todo ex.
Proof.
  intros HI Ha Hax Hck Hg Ht Hok Htype Hsub Hcov.
  assert (Hsep : forall b, in_range (sle_lock ck) b -> in_range (sle_lock ex) b ->
            in_range (sle_lock e0) b) by (intros b ? ?; by eapply (merge_inv_sep m done todo ex a)).
  destruct HI. assert (Hg' : granted_to o (with_lock (fun _ => la) ck)) by done.
  pose proof (lock_end_bounds la Hok) as Hla.
  destruct mi_live0 as [Hnd Hall]. destruct (Hall a Ha) as (? & ? & (Href & _ & Hown)).
  simplify_eq.
  assert (Hheld : forall t b, held (<[a := with_lock (fun _ => la) ck]> m)
            (glist_del x (done ++ todo)) o t b -> held m (glist_del x (done ++ todo)) o t b).
  { intros t b (a' & e & Ha' & He & Hge & He2 & Hb). destruct (decide (a' = a)) as [->|Hne].
    - rewrite lookup_insert_eq in He. injection He as <-. exists a, ck.
      split_and!; try done; [by rewrite <- Htype|by apply Hsub].
    - rewrite lookup_insert_ne in He by done. by exists a', e. }
  split; try done.
  - split; [done|]. intros a' Ha'. destruct (decide (a' = a)) as [->|Hne].
    + rewrite lookup_insert_eq. eexists. split; [done|]. by split_and!.
    + rewrite lookup_insert_ne by done. auto.
  - by rewrite lookup_insert_ne.
  - intros a' e Ha'. destruct (decide (a' = a)) as [->|Hne].
    + rewrite lookup_insert_eq. intros [= <-] _. simpl.
      assert (in_range (sle_lock ck) (lock_end la)) as [_ Hle] by (apply Hsub; split; lia).
      specialize (mi_ends0 a ck Ha Hck Hg). lia.
    + rewrite lookup_insert_ne by done. eauto.
  - intros a' e Hng. rewrite <- mi_others0 by done. destruct (decide (a' = a)) as [->|Hne].
    + rewrite lookup_insert_eq. split; intros [_ He]; simplify_eq; done.
    + by rewrite lookup_insert_ne.
  - intros t b Hh. by apply mi_mono0, Hheld.
  - intros t b Hold H0. destruct (mi_keep0 t b Hold H0) as [Hh|?]; [|by right].
    destruct Hh as (a' & e & Ha' & He & Hge & He2 & Hb). destruct (decide (a' = a)) as [->|Hne].
    + simplify_eq. destruct (Hcov b Hb) as [Hin|[Hin|Hin]].
      * left. exists a. rewrite lookup_insert_eq. by eexists.
      * destruct H0. by apply Hsep.
      * left. revert Hin. apply held_mono. intros a' e' [? ?]%elem_of_glist_del ? _.
        by rewrite lookup_insert_ne.
    + left. exists a', e. by rewrite lookup_insert_ne.
  - intros a' e b Ha' Hx'. destruct (decide (a' = a)) as [->|Hne].
    + rewrite lookup_insert_eq. intros [= <-] _ _ Hb. eapply mi_done0; eauto.
    + rewrite lookup_insert_ne by done. by apply mi_done0.
Qed.

(** A lock of the owner is merged into the new lock and leaves the list. *)
Lemma merge_inv_absorb m m' done a rest ex ex' ck :
  merge_inv m done (a :: rest) ex -> a <> x -> m !! a = Some ck -> granted_to o ck ->
  lock_type (sle_lock ck) = t0 \/
    (forall b, in_range (sle_lock ck) b -> in_range (sle_lock ex) b) ->
  reranged ex ex' -> range_ok (sle_lock ex') -> lock_end (sle_lock ex') < UINT64_MAX ->
  (forall b, in_range (sle_lock ex') b <-> in_range (sle_lock ex) b \/ in_range (sle_lock ck) b) ->
  m' !! x = Some ex' -> (forall a', a' <> a -> a' <> x -> m' !! a' = m !! a') ->
  merge_inv m' done rest ex'.
Proof.
  intros HI Hax Hck Hg Hty [s [n Hex']] Hok Hend Hcov Hx Hoff.
  assert (Hal : a ∈ done ++ a :: rest) by (rewrite elem_of_app, elem_of_cons; tauto).
  assert (Hsep : lock_type (sle_lock ck) <> t0 -> forall b, in_range (sle_lock ck) b ->
            in_range (sle_lock ex) b -> in_range (sle_lock e0) b).
  { intros Ht b ? ?. by eapply (merge_inv_sep m done (a :: rest) ex a). }
  assert (Hgex : granted_to o ex') by (destruct (mi_new_eq _ _ _ _ HI) as (? & ? & ->); by rewrite Hex').
  destruct HI. destruct mi_live0 as [Hnd Hall].
  assert (Hin : forall a', a' ∈ done ++ rest -> a' ∈ done ++ a :: rest /\ a' <> a).
  { intros a' Ha'. split; [rewrite elem_of_app, elem_of_cons in *; tauto|]. intros ->.
    apply NoDup_app in Hnd as (_ & Hd & Hn%NoDup_cons). apply elem_of_app in Ha' as [Ha'|Ha'].
    - by apply (Hd a), elem_of_cons; [|left].
    - tauto. }
  assert (Hback : forall a', a' ∈ done ++ a :: rest -> a' <> a -> a' ∈ done ++ rest).
  { intros a'. rewrite !elem_of_app, elem_of_cons. tauto. }
  assert (Hlk : forall a' e, a' ∈ done ++ rest -> m' !! a' = Some e ->
            (a' = x /\ e = ex') \/ (a' <> x /\ m !! a' = Some e)).
  { intros a' e Ha' He. destruct (decide (a' = x)) as [->|Hx']; [left; split; congruence|].
    right. rewrite Hoff in He by (try apply Hin; done). done. }
  assert (Hold : forall t b, held m' (glist_del x (done ++ rest)) o t b ->
            held m (glist_del x (done ++ a :: rest)) o t b).
  { intros t b. apply held_mono. intros a' e [Hx' Ha']%elem_of_glist_del He _.
    destruct (Hlk a' e Ha' He) as [[? _]|[_ ?]]; [done|]. rewrite elem_of_glist_del.
    split; [split; [done|]|done]. by apply Hin. }
  split; try done.
  - split.
    + eapply sublist_NoDup; [exact Hnd|]. apply sublist_app; [done|]. by apply sublist_cons.
    + intros a' Ha'. destruct (decide (a' = x)) as [->|Hx'].
      * exists ex'. split; [done|]. destruct mi_new_live0 as (? & _ & ?). by rewrite Hex' in *.
      * rewrite Hoff by (try apply Hin; done). by apply Hall, Hin.
  - destruct mi_new_live0 as (? & _ & ?). by rewrite Hex' in *.
  - destruct mi_new_eq0 as (s0 & n0 & ->). rewrite Hex'. by exists s, n.
  - intros a' e Ha' He Hge. destruct (Hlk a' e Ha' He) as [[-> ->]|[_ ?]]; [done|].
    eapply (mi_ends0 a'); [by apply Hin|done|done].
  - intros a' e Hng. rewrite <- mi_others0 by done. split; intros [Ha' He].
    + destruct (Hlk a' e Ha' He) as [[-> ->]|[_ ?]]; [|split; [by apply Hin|done]].
      done.
    + assert (a' <> a) by congruence. split; [by apply Hback|].
      assert (a' <> x). { intros Heq. destruct Hng. rewrite Heq, mi_new0 in He. injection He as <-.
        by destruct mi_new_eq0 as (? & ? & ->). }
      by rewrite Hoff.
  - intros b Hb. apply Hcov. left. auto.
  - intros b [Hb|Hb]%Hcov; [auto|]. destruct (decide (lock_type (sle_lock ck) = t0)) as [Ht|Ht].
    + right. apply mi_mono0. rewrite <- Ht. by eapply held_in.
    + left. destruct Hty as [?|Hty]; [done|]. by apply Hsep; [..|apply Hty].
  - intros t b Hh. by apply mi_mono0, Hold.
  - intros t b Hh H0. destruct (mi_keep0 t b Hh H0) as [Hk|[? ?]].
    + destruct Hk as (a' & e & [Hx' Ha']%elem_of_glist_del & He & Hge & Ht & Hb).
      destruct (decide (a' = a)) as [->|Hne].
      * simplify_eq. right. destruct Hty as [Hty|Hty].
        -- split; [done|]. apply Hcov. by right.
        -- split; [|apply Hcov; by right].
           destruct (decide (lock_type (sle_lock ck) = t0)) as [?|Ht]; [done|].
           destruct H0. apply Hsep; auto.
      * left. eapply held_in; eauto. by rewrite Hoff.
    + right. split; [done|]. apply Hcov. by left.
  - intros a' e b Ha' Hx' He. destruct (Hlk a' e) as [[? _]|[_ ?]]; [apply elem_of_app; by left|done|done|].
    by eapply mi_done0.
Qed.
End merge_invariant.

(** ** The rounds of the loop *)

(** How many rounds a lock can still cause: a lock that begins before the new
    lock can be split, and its second part, appended to the list, is visited. *)
Definition weight (m : lock_map) (s : Z) (a : loc) : nat :=
  match m !! a with
  | Some e => if lock_start (sle_lock e) <? s then 2 else 1
  | None => 1
  end.
Definition rounds (m : lock_map) (s : Z) (l : list loc) : nat := sum_list_with (weight m s) l.

Lemma weight_pos m s a : (1 <= weight m s a <= 2)%nat.
Proof. unfold weight. destruct (m !! a) as [e|]; [destruct (_ <? _)|]; lia. Qed.

Lemma rounds_le_length m s l : (rounds m s l <= 2 * length l)%nat.
Proof.
  induction l as [|a l IH]; simpl; [lia|]. pose proof (weight_pos m s a). unfold rounds in *. lia.
Qed.

Lemma rounds_mono m m' s s' x ex' l :
  (forall a, a ∈ l -> a <> x -> m' !! a = m !! a) -> m' !! x = Some ex' ->
  s' <= lock_start (sle_lock ex') -> s' <= s -> (rounds m' s' l <= rounds m s l)%nat.
Proof.
  intros Hoff Hx Hs' Hs. induction l as [|a l IH]; simpl; [done|].
  assert (weight m' s' a <= weight m s a)%nat.
  { destruct (decide (a = x)) as [->|Hne].
    - unfold weight at 1. rewrite Hx. pose proof (weight_pos m s x).
      destruct (Z.ltb_spec (lock_start (sle_lock ex')) s'); lia.
    - unfold weight. rewrite Hoff by set_solver. destruct (m !! a) as [e|]; [|done].
      destruct (Z.ltb_spec (lock_start (sle_lock e)) s'), (Z.ltb_spec (lock_start (sle_lock e)) s); lia. }
  unfold rounds in *. enough (sum_list_with (weight m' s') l <= sum_list_with (weight m s) l)%nat by lia.
  apply IH. intros b ?. apply Hoff. set_solver.
Qed.

Lemma with_start_same l : with_start (lock_start l) l = l.
Proof. by destruct l. Qed.

Section merge_loop.
Context {FS : Type} {env : OwnerEnv}.
Implicit Types w : world FS.
Variables (entry x o : loc) (e0 : state_lock_entry_t) (m0 : lock_map) (L0 : list loc).
Hypothesis Hone : one_type x o m0 L0.
Hypothesis Hg0 : granted_to o e0.

Abbreviation inv := (merge_inv x e0 o m0 L0).
Abbreviation h := (file_lock_list entry).

(** The invariant of the loop. *)
Definition merging (n : nat) (node : option loc) w : Prop := exists done todo ex,
  w_lists w h = done ++ todo /\ node = head todo /\ inv (w_locks w) done todo ex /\
  addresses_ok w /\ memory_ok w /\ (rounds (w_locks w) (lock_start (sle_lock ex)) todo <= n)%nat.

Lemma inv_granted m done todo ex : inv m done todo ex -> granted_to o ex.
Proof. intros HI. by destruct (mi_new_eq _ _ _ _ _ _ _ _ _ HI) as (? & ? & ->). Qed.

Lemma inv_type m done todo ex :
  inv m done todo ex -> lock_type (sle_lock ex) = lock_type (sle_lock e0).
Proof. intros HI. by destruct (mi_new_eq _ _ _ _ _ _ _ _ _ HI) as (? & ? & ->). Qed.

(** A round that leaves the lock alone. *)
Lemma merging_skip n w done a rest ex :
  w_lists w h = done ++ a :: rest -> inv (w_locks w) done (a :: rest) ex ->
  addresses_ok w -> memory_ok w ->
  (rounds (w_locks w) (lock_start (sle_lock ex)) (a :: rest) <= S n)%nat ->
  (forall e b, a <> x -> w_locks w !! a = Some e -> granted_to o e ->
     lock_type (sle_lock e) <> lock_type (sle_lock e0) ->
     in_range (sle_lock e) b -> ~ in_range (sle_lock ex) b) ->
  merging n (head rest) w.
Proof.
  intros Hl HI Hadr Hmem Hn Hsk. exists (done ++ [a]), rest, ex. split_and!; try done.
  - by rewrite Hl, <- app_assoc.
  - by apply merge_inv_skip.
  - simpl in Hn. pose proof (weight_pos (w_locks w) (lock_start (sle_lock ex)) a).
    unfold rounds in *. lia.
Qed.

(** A round that merges the lock into the new one. *)
Lemma merging_absorb n w done a rest ex ck (start end_ : Z) :
  w_lists w h = done ++ a :: rest -> inv (w_locks w) done (a :: rest) ex ->
  addresses_ok w -> memory_ok w ->
  (rounds (w_locks w) (lock_start (sle_lock ex)) (a :: rest) <= S n)%nat ->
  a <> x -> w_locks w !! a = Some ck -> granted_to o ck ->
  lock_type (sle_lock ck) = lock_type (sle_lock e0) \/
    (forall b, in_range (sle_lock ck) b -> in_range (sle_lock ex) b) ->
  start = Z.min (lock_start (sle_lock ck)) (lock_start (sle_lock ex)) ->
  end_ = Z.max (lock_end (sle_lock ck)) (lock_end (sle_lock ex)) ->
  (forall b, start <= b <= end_ -> in_range (sle_lock ex) b \/ in_range (sle_lock ck) b) ->
  wp (upd_lock x (with_lock (fun l => with_length (u64 (end_ - start + 1)) (with_start start l)));;
      remove_from_locklist a) (fun _ w' => merging n (head rest) w') w.
Proof.
  intros Hl HI Hadr Hmem Hn Hax Hck Hg Hty Hs He Hcov.
  pose proof (mi_new _ _ _ _ _ _ _ _ _ HI) as Hx. pose proof (mi_new_live _ _ _ _ _ _ _ _ _ HI) as (_ & Hokx & _).
  pose proof (mi_new_end _ _ _ _ _ _ _ _ _ HI) as Hendx.
  assert (Hal : a ∈ done ++ a :: rest) by (rewrite elem_of_app, elem_of_cons; tauto).
  destruct (proj2 (mi_live _ _ _ _ _ _ _ _ _ HI) a Hal) as (? & ? & (_ & Hokc & _)).
  pose proof (mi_ends _ _ _ _ _ _ _ _ _ HI a ck Hal Hck Hg) as Hendc. simplify_eq.
  pose proof (lock_end_bounds _ Hokx). pose proof (lock_end_bounds _ Hokc).
  assert (Hpos : 0 <= lock_start (sle_lock ck) /\ 0 <= lock_start (sle_lock ex)).
  { destruct Hokx as [? _], Hokc as [? _]. lia. }
  set (start := Z.min _ _) in *. set (end_ := Z.max _ _) in *.
  destruct (set_range_ok (sle_lock ex) start end_ ltac:(lia) ltac:(lia)) as (Hok' & Hst' & Hen').
  apply wp_bind, (wp_upd_lock _ _ ex _ _ Hx). cbv beta.
  set (lx := with_length _ (with_start start (sle_lock ex))) in *.
  set (ex' := with_lock _ ex). assert (Hlx : sle_lock ex' = lx) by done.
  apply (wp_remove a ck); [simpl; by rewrite lookup_insert_ne|].
  intros w' (Hoff & _ & Hwo & Hnext & Hch). simpl in Hoff, Hnext, Hch.
  assert (Hx' : w_locks w' !! x = Some ex').
  { rewrite Hoff by done. apply lookup_insert_eq. }
  assert (Hoff' : forall a', a' <> a -> a' <> x -> w_locks w' !! a' = w_locks w !! a').
  { intros a' ? ?. rewrite Hoff by done. by rewrite lookup_insert_ne. }
  assert (Hnd : NoDup (done ++ a :: rest)) by apply (mi_live _ _ _ _ _ _ _ _ _ HI).
  exists done, rest, ex'. split_and!; try done.
  - rewrite Hwo by done. simpl. rewrite Hl. apply NoDup_app in Hnd as (_ & Hd & [Ha _]%NoDup_cons).
    rewrite glist_del_app, (glist_del_notin a done).
    2: { intros Hin. apply (Hd a Hin). by left. }
    f_equal. unfold glist_del. rewrite filter_cons_False by tauto. by apply glist_del_notin.
  - eapply (merge_inv_absorb x e0 o m0 L0); eauto; try (by rewrite Hlx); try (rewrite Hlx; lia).
    + by exists start, (u64 (end_ - start + 1)).
    + intros b. rewrite Hlx. unfold in_range in *. rewrite Hst', Hen'. split; [apply Hcov|lia].
  - intros a' e' He'. rewrite Hnext. destruct (decide (a' = x)) as [->|]; [by eapply Hadr|].
    destruct (decide (a' = a)) as [->|]; [by eapply Hadr|]. rewrite Hoff' in He' by done.
    by eapply Hadr.
  - unfold memory_ok. by rewrite Hch.
  - simpl in Hn. pose proof (weight_pos (w_locks w) (lock_start (sle_lock ex)) a).
    assert (rounds (w_locks w') (lock_start (sle_lock ex')) rest <=
            rounds (w_locks w) (lock_start (sle_lock ex)) rest)%nat.
    { apply (rounds_mono _ _ _ _ x ex'); [|done|done|rewrite Hlx; lia].
      intros a' Ha' Hax'. apply Hoff'; [|done]. intros ->.
      apply NoDup_app in Hnd as (_ & _ & [? _]%NoDup_cons). done. }
    unfold rounds in *. lia.
Qed.

(** A round that takes from a lock of another type what the new lock covers:
    the part of the lock left of the new lock, the part right of it, or both. *)
Lemma merging_shrink n w done a rest ex ck la :
  w_lists w h = done ++ a :: rest -> inv (w_locks w) done (a :: rest) ex ->
  addresses_ok w -> memory_ok w ->
  (rounds (w_locks w) (lock_start (sle_lock ex)) (a :: rest) <= S n)%nat ->
  a <> x -> w_locks w !! a = Some ck -> granted_to o ck ->
  lock_type (sle_lock ck) <> lock_type (sle_lock e0) ->
  range_ok la -> lock_type la = lock_type (sle_lock ck) ->
  (forall b, in_range la b <-> in_range (sle_lock ck) b /\ ~ in_range (sle_lock ex) b) ->
  merging n (head rest) (set_locks (<[a := with_lock (fun _ => la) ck]>) w).
Proof.
  intros Hl HI Hadr Hmem Hn Hax Hck Hg Ht Hok Hty Hla.
  assert (Hal : a ∈ done ++ a :: rest) by (rewrite elem_of_app, elem_of_cons; tauto).
  set (w' := set_locks _ w).
  assert (Hw' : inv (w_locks w') done (a :: rest) ex).
  { apply merge_inv_shrink; try done; [intros b; by rewrite Hla; intros [? _]|].
    intros b Hb. rewrite Hla.
    destruct (decide (lock_start (sle_lock ex) <= b <= lock_end (sle_lock ex))) as [Hd|Hd];
      [right; left; exact Hd|left; split; [done|exact Hd]]. }
  apply (merging_skip n w' done a rest ex); try done.
  - intros a' e' He'. simpl in *. destruct (decide (a' = a)) as [->|Hne]; [by eapply Hadr|].
    rewrite lookup_insert_ne in He' by done. by eapply Hadr.
  - assert (Hnd : NoDup (done ++ a :: rest)) by apply (mi_live _ _ _ _ _ _ _ _ _ HI).
    apply NoDup_app in Hnd as (_ & _ & [Ha _]%NoDup_cons).
    assert (rounds (w_locks w') (lock_start (sle_lock ex)) rest <=
            rounds (w_locks w) (lock_start (sle_lock ex)) rest)%nat.
    { apply (rounds_mono _ _ _ _ x ex); [|exact (mi_new _ _ _ _ _ _ _ _ _ Hw')|done|done].
      intros a' Ha' _. simpl. rewrite lookup_insert_ne; [done|]. by intros ->. }
    assert (weight (w_locks w') (lock_start (sle_lock ex)) a <=
            weight (w_locks w) (lock_start (sle_lock ex)) a)%nat.
    { unfold weight. simpl. rewrite lookup_insert_eq, Hck. simpl.
      pose proof (lock_end_bounds la Hok).
      assert (in_range la (lock_start la)) as [[? _] _]%Hla by (split; lia).
      destruct (Z.ltb_spec (lock_start la) (lock_start (sle_lock ex))),
        (Z.ltb_spec (lock_start (sle_lock ck)) (lock_start (sle_lock ex))); lia. }
    simpl in *. unfold rounds in *. lia.
  - intros e b _ He _ _. simpl in He. rewrite lookup_insert_eq in He. injection He as <-. simpl.
    by rewrite Hla; intros [_ ?].
Qed.

(** A round that splits a lock around the new one, with the new entry [r] for the
    right part. *)
Lemma merging_split n w w' done a rest ex ck la er :
  w_lists w h = done ++ a :: rest -> inv (w_locks w) done (a :: rest) ex ->
  addresses_ok w -> memory_ok w' ->
  (rounds (w_locks w) (lock_start (sle_lock ex)) (a :: rest) <= S n)%nat ->
  a <> x -> w_locks w !! a = Some ck -> granted_to o ck ->
  lock_type (sle_lock ck) <> lock_type (sle_lock e0) ->
  lock_start (sle_lock ck) < lock_start (sle_lock ex) ->
  range_ok la -> lock_type la = lock_type (sle_lock ck) ->
  (forall b, in_range la b <-> in_range (sle_lock ck) b /\ b < lock_start (sle_lock ex)) ->
  live er -> granted_to o er -> lock_type (sle_lock er) = lock_type (sle_lock ck) ->
  lock_end (sle_lock er) < UINT64_MAX ->
  (forall b, in_range (sle_lock er) b <-> in_range (sle_lock ck) b /\ lock_end (sle_lock ex) < b) ->
  w_locks w' = <[a := with_lock (fun _ => la) ck]> (<[w_next w := er]> (w_locks w)) ->
  w_lists w' h = (done ++ a :: rest) ++ [w_next w] -> w_next w' = Pos.succ (w_next w) ->
  merging n (head rest) w'.
Proof.
  intros Hl HI Hadr Hmem Hn Hax Hck Hg Ht Hlt Hok Hty Hla Hlive Hger Htyr Hendr Hler Hm' Hl' Hnext.
  set (r := w_next w) in *.
  assert (Hfresh : w_locks w !! r = None).
  { destruct (w_locks w !! r) as [e|] eqn:E; [|done]. apply Hadr in E. subst r. lia. }
  assert (Hra : r <> a) by congruence.
  assert (Hrx : r <> x) by (pose proof (mi_new _ _ _ _ _ _ _ _ _ HI); congruence).
  assert (Hal : a ∈ done ++ a :: rest) by (rewrite elem_of_app, elem_of_cons; tauto).
  assert (H1 : inv (<[r := er]> (w_locks w)) done (a :: rest ++ [r]) ex).
  { apply (merge_inv_piece x e0 o m0 L0 _ done (a :: rest)); try done.
    intros b [Hb _]%Hler. rewrite Htyr. by eapply held_in. }
  assert (Hal' : a ∈ done ++ a :: rest ++ [r]) by (rewrite elem_of_app, elem_of_cons; tauto).
  assert (H2 : inv (w_locks w') done (a :: rest ++ [r]) ex).
  { rewrite Hm'. apply merge_inv_shrink; try done.
    - by rewrite lookup_insert_ne.
    - intros b. rewrite Hla. by intros [? _].
    - intros b Hb. rewrite Hla. destruct (decide (b < lock_start (sle_lock ex))); [by left|].
      destruct (decide (lock_end (sle_lock ex) < b)); right; [right|left; split; lia].
      exists r, er. rewrite lookup_insert_eq, !elem_of_glist_del, !elem_of_app, elem_of_cons,
        elem_of_app, list_elem_of_singleton.
      split_and!; try done; [tauto|by apply Hler]. }
  assert (H3 : inv (w_locks w') (done ++ [a]) (rest ++ [r]) ex).
  { apply merge_inv_skip; [done|]. intros e b _ He _ _. rewrite Hm', lookup_insert_eq in He.
    injection He as <-. simpl. intros [_ ?]%Hla [? _]. lia. }
  assert (Hadr' : addresses_ok w').
  { intros a' e' He'. rewrite Hnext. rewrite Hm' in He'.
    destruct (decide (a' = a)) as [->|]; [apply Hadr in Hck; subst r; lia|].
    rewrite lookup_insert_ne in He' by done. destruct (decide (a' = r)) as [->|]; [subst r; lia|].
    rewrite lookup_insert_ne in He' by done. apply Hadr in He'. subst r. lia. }
  assert (Hrounds : (rounds (w_locks w') (lock_start (sle_lock ex)) rest + 2 <= S n)%nat).
  { simpl in Hn. unfold rounds, weight at 1 in Hn. rewrite Hck in Hn.
    replace (_ <? _) with true in Hn by (symmetry; by apply Z.ltb_lt).
    fold (rounds (w_locks w) (lock_start (sle_lock ex)) rest) in Hn.
    pose proof (rounds_mono (w_locks w) (w_locks w') (lock_start (sle_lock ex))
      (lock_start (sle_lock ex)) x ex rest) as Hmono.
    enough (rounds (w_locks w') (lock_start (sle_lock ex)) rest <=
            rounds (w_locks w) (lock_start (sle_lock ex)) rest)%nat by lia.
    apply Hmono; [|exact (mi_new _ _ _ _ _ _ _ _ _ H2)|done|done].
    destruct (mi_live _ _ _ _ _ _ _ _ _ HI) as [Hnd Hall].
    apply NoDup_app in Hnd as (_ & _ & [Ha _]%NoDup_cons).
    intros a' Ha' _. rewrite Hm', !lookup_insert_ne; [done| |by intros ->].
    intros ->. destruct (Hall a') as (? & ? & _); [rewrite elem_of_app, elem_of_cons; tauto|].
    congruence. }
  destruct rest as [|b rest].
  - exists ((done ++ [a]) ++ [r]), [], ex. split_and!; try done.
    + rewrite Hl'. simpl. by rewrite app_nil_r.
    + apply merge_inv_skip; [done|]. intros e b _ He _ _. rewrite Hm', lookup_insert_ne,
        lookup_insert_eq in He by done. injection He as <-. intros [_ ?]%Hler [_ ?]. lia.
    + simpl. lia.
  - exists (done ++ [a]), ((b :: rest) ++ [r]), ex. split_and!; try done.
    + rewrite Hl'. by rewrite <- !app_assoc.
    + unfold rounds in *. rewrite sum_list_with_app.
      assert (weight (w_locks w') (lock_start (sle_lock ex)) r = 1%nat).
      { unfold weight. rewrite Hm', lookup_insert_ne, lookup_insert_eq by done.
        destruct (Z.ltb_spec (lock_start (sle_lock er)) (lock_start (sle_lock ex))); [|done].
        destruct Hlive as (_ & Hokr & _). pose proof (lock_end_bounds _ Hokr).
        assert (in_range (sle_lock er) (lock_start (sle_lock er))) as [_ ?]%Hler by (split; lia).
        pose proof (mi_new_live _ _ _ _ _ _ _ _ _ HI) as (_ & Hokx & _).
        pose proof (lock_end_bounds _ Hokx). lia. }
      simpl in Hrounds |- *. lia.
Qed.

Lemma different_not_granted ex ck :
  granted_to o ex -> different_owners (sle_owner ck) (sle_owner ex) = true -> ~ granted_to o ck.
Proof.
  intros (_ & o1 & Ho1 & Hs1) Hd (_ & o2 & Ho2 & Hs2). rewrite Ho1, Ho2 in Hd.
  assert (same_owner o2 o1) as Hs by (etrans; [done|by symmetry]).
  unfold same_owner in Hs. congruence.
Qed.

Lemma same_granted ex ck :
  granted_to o ex -> different_owners (sle_owner ck) (sle_owner ex) = false ->
  sle_blocked ck = STATE_NON_BLOCKING -> granted_to o ck.
Proof.
  intros (_ & o1 & Ho1 & Hs1) Hd Hb. split; [done|]. rewrite Ho1 in Hd.
  destruct (sle_owner ck) as [o2|]; [|done]. exists o2. split; [done|by etrans].
Qed.

(** The second branch of [merge_check]. *)
Lemma merging_cut n w done a rest ex ck :
  w_lists w h = done ++ a :: rest -> inv (w_locks w) done (a :: rest) ex ->
  addresses_ok w -> memory_ok w ->
  (rounds (w_locks w) (lock_start (sle_lock ex)) (a :: rest) <= S n)%nat ->
  a <> x -> w_locks w !! a = Some ck -> granted_to o ck ->
  lock_type (sle_lock ck) <> lock_type (sle_lock e0) ->
  let cs := lock_start (sle_lock ck) in let ce := lock_end (sle_lock ck) in
  let s := lock_start (sle_lock ex) in let e := lock_end (sle_lock ex) in
  s <= ce + 1 -> cs <= e + 1 -> e < ce \/ cs < s ->
  wp (right ← (if (e <? ce) && (cs <? s) then
                 dup ← state_lock_entry_t_dup a;
                 match dup with
                 | Some r => add_tail (file_lock_list entry) r;; mret (Some r)
                 | None => mret None
                 end
               else mret (Some a));
      match right with
      | None => mret tt
      | Some r =>
          when (e <? ce) (upd_lock r (with_lock (fun l =>
            with_length (u64 (ce - e)) (with_start (u64 (e + 1)) l))));;
          check ← get_lock a;
          when (lock_start (sle_lock check) <? s) (upd_lock a (with_lock
            (with_length (u64 (s - lock_start (sle_lock check))))))
      end) (fun _ w' => merging n (head rest) w') w.
Proof.
  intros Hl HI Hadr Hmem Hn Hax Hck Hg Ht cs ce s e Hnear1 Hnear2 Hpart.
  assert (Hal : a ∈ done ++ a :: rest) by (rewrite elem_of_app, elem_of_cons; tauto).
  destruct (proj2 (mi_live _ _ _ _ _ _ _ _ _ HI) a Hal) as (? & ? & (Href & Hokc & Hown)).
  simplify_eq. pose proof (mi_new_live _ _ _ _ _ _ _ _ _ HI) as (_ & Hokx & _).
  pose proof (mi_ends _ _ _ _ _ _ _ _ _ HI a ck Hal Hck Hg) as Hendc.
  pose proof (mi_new_end _ _ _ _ _ _ _ _ _ HI) as Hendx.
  pose proof (lock_end_bounds _ Hokx) as Hbx. pose proof (lock_end_bounds _ Hokc) as Hbc.
  assert (Hpos : 0 <= cs /\ 0 <= s) by (destruct Hokx as [? _], Hokc as [? _]; lia).
  fold cs ce s e in Hendc, Hendx, Hbx, Hbc. rewrite (u64_small (e + 1)) by lia.
  replace (ce - e) with (ce - (e + 1) + 1) by lia.
  assert (Hleft : cs < s -> let la := with_length (u64 (s - cs)) (sle_lock ck) in
    range_ok la /\ lock_start la = cs /\ lock_end la = s - 1).
  { intros Hlt. replace (s - cs) with (s - 1 - cs + 1) by lia.
    rewrite <- (with_start_same (sle_lock ck)). apply set_range_ok; lia. }
  assert (Hright : forall l, e < ce ->
    let la := with_length (u64 (ce - (e + 1) + 1)) (with_start (e + 1) l) in
    range_ok la /\ lock_start la = e + 1 /\ lock_end la = ce).
  { intros l Hlt. apply set_range_ok; lia. }
  destruct (Z.ltb_spec e ce) as [He|He], (Z.ltb_spec cs s) as [Hs|Hs]; cbn [andb when];
    [| | |lia].
  - (* split *)
    destruct Hown as [oc Hown]. apply wp_bind, wp_bind, (wp_dup a ck oc); [done|done| |].
    2: { intros w' Hh. unfold memory_ok in Hmem. destruct (w_choices w) as [|b ch]; [done|].
         apply Forall_cons in Hmem as [-> _]. done. }
    intros w1 Hm1 Hl1 Hn1 Hc1. apply wp_bind, wp_modify, wp_ret.
    set (r := w_next w) in *. assert (Hra : r <> a).
    { intros <-. apply Hadr in Hck. subst r. lia. }
    apply wp_bind. eapply wp_upd_lock; [simpl; rewrite Hm1; apply lookup_insert_eq|].
    apply wp_bind. eapply (wp_deref (fun w => w_locks w !! a)).
    { simpl. rewrite Hm1, !lookup_insert_ne by done. exact Hck. }
    fold cs. replace (cs <? s) with true by (symmetry; by apply Z.ltb_lt). simpl when.
    eapply wp_upd_lock; [simpl; rewrite Hm1, !lookup_insert_ne by done; exact Hck|].
    destruct (Hleft Hs) as (Hla & Hlas & Hlae). destruct (Hright (sle_lock ck) He) as (Hra' & Hras & Hrae).
    eapply (merging_split n w _ done a rest ex ck (with_length (u64 (s - cs)) (sle_lock ck))
      (with_lock (fun l => with_length (u64 (ce - (e + 1) + 1)) (with_start (e + 1) l))
        (mk_lock_entry (sle_export ck) (sle_entry ck) None (Some oc) (sle_state ck)
           (sle_blocked ck) 1 (sle_lock ck) (sle_type ck)))); try done; simpl.
    + unfold memory_ok. simpl. rewrite Hc1. by destruct Hmem.
    + intros b. unfold in_range. rewrite Hlas, Hlae. fold cs ce s. lia.
    + split_and!; [done|exact Hra'|by eexists].
    + by destruct Hg as (? & ? & [= <-]%(eq_trans (eq_sym Hown)) & ?); split; eauto.
    + rewrite Hrae. lia.
    + intros b. unfold in_range. rewrite Hras, Hrae. fold cs ce e. lia.
    + rewrite Hm1, insert_insert_eq. done.
    + rewrite list_update_eq, Hl1 by done. by rewrite Hl.
  - (* right part *)
    apply wp_bind, wp_ret, wp_bind, (wp_upd_lock _ _ ck); [done|].
    apply wp_bind. eapply (wp_deref (fun w => w_locks w !! a)); [simpl; apply lookup_insert_eq|].
    simpl. replace (e + 1 <? s) with false by (symmetry; apply Z.ltb_ge; lia).
    apply wp_ret. destruct (Hright (sle_lock ck) He) as (Hra & Hras & Hrae).
    apply (merging_shrink n w done a rest ex ck); try done.
    intros b. unfold in_range. rewrite Hras, Hrae. fold cs ce s e. lia.
  - (* left part *)
    apply wp_bind, wp_ret, wp_bind, wp_ret.
    apply wp_bind, (wp_deref (fun w => w_locks w !! a) _ _ ck); [done|].
    fold cs. replace (cs <? s) with true by (symmetry; by apply Z.ltb_lt).
    apply (wp_upd_lock _ _ ck); [done|]. destruct (Hleft Hs) as (Hla & Hlas & Hlae).
    apply (merging_shrink n w done a rest ex ck); try done.
    intros b. unfold in_range. rewrite Hlas, Hlae. fold cs ce s e. lia.
Qed.

Lemma merging_step n w done a rest ex :
  w_lists w h = done ++ a :: rest -> inv (w_locks w) done (a :: rest) ex ->
  addresses_ok w -> memory_ok w ->
  (rounds (w_locks w) (lock_start (sle_lock ex)) (a :: rest) <= S n)%nat ->
  wp (merge_check entry x a) (fun _ w' => merging n (head rest) w') w.
Proof.
  intros Hl HI Hadr Hmem Hn. unfold merge_check.
  case_decide as Hax; [by apply wp_ret, (merging_skip n w done a rest ex)|].
  assert (Hal : a ∈ done ++ a :: rest) by (rewrite elem_of_app, elem_of_cons; tauto).
  destruct (proj2 (mi_live _ _ _ _ _ _ _ _ _ HI) a Hal) as (ck & Hck & (_ & Hokc & _)).
  pose proof (mi_new _ _ _ _ _ _ _ _ _ HI) as Hx. pose proof (inv_granted _ _ _ _ HI) as Hgx.
  pose proof (inv_type _ _ _ _ HI) as Htx.
  pose proof (mi_new_live _ _ _ _ _ _ _ _ _ HI) as (_ & Hokx & _).
  pose proof (mi_new_end _ _ _ _ _ _ _ _ _ HI) as Hendx.
  apply wp_bind, (wp_deref (fun w => w_locks w !! a) _ _ ck Hck).
  apply wp_bind, (wp_deref (fun w => w_locks w !! x) _ _ ex Hx).
  assert (Hskip : (granted_to o ck -> lock_type (sle_lock ck) <> lock_type (sle_lock e0) -> forall b,
      in_range (sle_lock ck) b -> ~ in_range (sle_lock ex) b) -> merging n (head rest) w).
  { intros Hs. apply (merging_skip n w done a rest ex); try done. intros e b _ He. simplify_eq. eauto. }
  destruct (different_owners _ _) eqn:Hd.
  { apply wp_ret, Hskip. intros Hg. by destruct (different_not_granted ex ck Hgx Hd). }
  case_bool_decide as Hb; [apply wp_ret, Hskip; by intros [? _]|].
  assert (Hg : granted_to o ck) by (by apply (same_granted ex)).
  pose proof (mi_ends _ _ _ _ _ _ _ _ _ HI a ck Hal Hck Hg) as Hendc.
  pose proof (lock_end_bounds _ Hokx) as Hbx. pose proof (lock_end_bounds _ Hokc) as Hbc.
  assert (Hpos : 0 <= lock_start (sle_lock ck) /\ 0 <= lock_start (sle_lock ex))
    by (destruct Hokx as [? _], Hokc as [? _]; lia).
  destruct (Z.ltb_spec (u64 (lock_end (sle_lock ck) + 1)) (lock_start (sle_lock ex))) as [Hf|Hf];
    rewrite u64_small in Hf by lia.
  { apply wp_ret, Hskip. intros _ _ b [? ?] [? ?]. lia. }
  destruct (Z.ltb_spec (u64 (lock_end (sle_lock ex) + 1)) (lock_start (sle_lock ck))) as [Hf'|Hf'];
    rewrite u64_small in Hf' by lia.
  { apply wp_ret, Hskip. intros _ _ b [? ?] [? ?]. lia. }
  destruct (bool_decide _ && _) eqn:Hcut.
  - apply andb_true_iff in Hcut as [Ht%bool_decide_eq_true Hp]. rewrite Htx in Ht.
    apply orb_true_iff in Hp as [Hp%Z.ltb_lt|Hp%Z.ltb_lt];
      apply (merging_cut n w done a rest ex ck); try done; auto.
  - apply (merging_absorb n w done a rest ex ck); try done.
    + destruct (decide (lock_type (sle_lock ck) = lock_type (sle_lock e0))) as [?|Ht]; [by left|].
      right. rewrite <- Htx in Ht. rewrite bool_decide_eq_true_2 in Hcut by done.
      apply orb_false_iff in Hcut as [?%Z.ltb_ge ?%Z.ltb_ge]. intros b [? ?]. split; lia.
    + destruct (Z.ltb_spec (lock_start (sle_lock ck)) (lock_start (sle_lock ex))); lia.
    + destruct (Z.ltb_spec (lock_end (sle_lock ex)) (lock_end (sle_lock ck))); lia.
    + unfold in_range. intros b.
      destruct (Z.ltb_spec (lock_start (sle_lock ck)) (lock_start (sle_lock ex))),
        (Z.ltb_spec (lock_end (sle_lock ex)) (lock_end (sle_lock ck))); lia.
Qed.

Lemma wp_merge n w :
  merging n (head (w_lists w h)) w -> (n <= 2 * length (w_lists w h))%nat ->
  wp (merge_lock_entry entry x) (fun _ w' => exists k, merging k None w') w.
Proof.
  intros Hinit Hn. unfold merge_lock_entry, glist_for_each_safe. apply wp_bind, wp_gets.
  apply (wp_for_each_safe (fun k node _ => merging k node)) with (n := n); [| |done|done].
  - intros k [] w' Hk. eauto.
  - intros k a _ w' (done & todo & ex & Hl & Hhd & HI & Hadr & Hmem & Hk).
    destruct todo as [|a' rest]; [done|]. injection Hhd as ->.
    destruct k as [|k]; [simpl in Hk; pose proof (weight_pos (w_locks w') (lock_start (sle_lock ex)) a');
      unfold rounds in *; simpl in Hk; lia|].
    exists k. split; [done|]. apply wp_bind.
    eapply wp_mono; [|by apply (merging_step k w' done a' rest ex)].
    intros [] w'' Hm. apply wp_ret. simpl. rewrite Hl, succ_of_app; [done|].
    apply (mi_live _ _ _ _ _ _ _ _ _ HI).
Qed.
End merge_loop.

(** * Theorems *)

Section theorems.
Context {FS : Type} {env : OwnerEnv}.
Implicit Types w : world FS.

(** C18: merging a granted lock gives its owner exactly what it asked for: on
    every byte of the new lock the owner now holds a lock of the new type and of
    no other, on every other byte what it held before, and no other owner's locks
    change.  The locks of the owner end before the last byte of the 64-bit range
    (see below for locks that do not), do not contradict each other, and memory
    suffices for splitting them. *)
Theorem merge_lock_entry_correct entry x o e0 w :
  let h := file_lock_list entry in
  let range := sle_lock e0 in
  live_list (w_locks w) (w_lists w h) -> addresses_ok w -> memory_ok w ->
  w_locks w !! x = Some e0 -> live e0 -> granted_to o e0 ->
  (forall a e, a ∈ x :: w_lists w h -> w_locks w !! a = Some e -> granted_to o e ->
     lock_end (sle_lock e) < UINT64_MAX) ->
  one_type x o (w_locks w) (w_lists w h) ->
  wp (merge_lock_entry entry x) (fun _ w' =>
    let holds' := held (w_locks w') (x :: w_lists w' h) in
    let holds := held (w_locks w) (x :: w_lists w h) in
    live_list (w_locks w') (w_lists w' h) /\
    (forall t b, in_range range b -> holds' o t b <-> t = lock_type range) /\
    (forall t b, ~ in_range range b -> holds' o t b <-> holds o t b) /\
    (forall o' t b, ~ same_owner o' o -> holds' o' t b <-> holds o' t b)) w.
Proof.
  intros h range Hlive Hadr Hmem Hx Hlx Hg Hends Hone.
  eapply wp_mono; [|apply (wp_merge entry x o e0 (w_locks w) (w_lists w h) Hone Hg
    (rounds (w_locks w) (lock_start range) (w_lists w h)))].
  - intros [] w' (k & done & todo & ex & Hl & Hhd & HI & _ & _ & _).
    destruct todo as [|]; [|done]. rewrite app_nil_r in Hl. fold h in Hl. rewrite Hl.
    pose proof (inv_granted _ _ _ _ _ Hg _ _ _ _ HI) as Hgx.
    pose proof (inv_type _ _ _ _ _ _ _ _ _ HI) as Htx. destruct HI. rewrite app_nil_r in *.
    assert (Hnew : forall t b, held (w_locks w') [x] o t b <->
              t = lock_type range /\ in_range (sle_lock ex) b).
    { intros t b. rewrite (held_singleton _ _ ex) by done. by rewrite Htx. }
    assert (Hold : forall t b, held (w_locks w) [x] o t b -> in_range range b).
    { intros t b. rewrite (held_singleton _ _ e0) by done. by intros [_ ?]. }
    split_and!; [done|..].
    + intros t b Hb. rewrite (held_cons _ x done), Hnew. split; [|intros ->; right; auto].
      intros [(a & e & [Hax Ha]%elem_of_glist_del & He & Hge & <- & Hbe)|[? _]]; [|done].
      destruct (decide (lock_type (sle_lock e) = lock_type range)) as [?|Ht]; [done|].
      by destruct (mi_done0 a e b Ha Hax He Hge Ht Hbe).
    + intros t b Hb. rewrite (held_cons _ x done), (held_cons _ x (w_lists w h)), Hnew. split.
      * intros [Hh|[-> Hin]]; left; [by apply mi_mono0|]. by destruct (mi_bounded0 b Hin).
      * intros [Hh|Hh]; [|by apply Hold in Hh]. destruct (mi_keep0 t b Hh Hb) as [?|[? ?]]; auto.
    + intros o' t b Hne. assert (Hng : forall e, granted_to o' e -> ~ granted_to o e).
      { intros e (_ & o1 & Ho1 & Hs1) (_ & o2 & Ho2 & Hs2). simplify_eq. apply Hne.
        etrans; [by symmetry|done]. }
      split; apply held_mono; intros a e Ha He Hge; pose proof (Hng e Hge) as Hn;
        (apply elem_of_cons in Ha as [->|Ha]; [by simplify_eq|]);
        destruct (mi_others0 a e Hn) as [H1 H2]; rewrite elem_of_cons.
      * destruct (H1 (conj Ha He)). auto.
      * destruct (H2 (conj Ha He)). auto.
  - exists [], (w_lists w h), e0. split_and!; try done.
    split; cbn [app]; [done|done|done| | |..].
    + apply (Hends x); [by left|done|done].
    + exists (lock_start range), (lock_length range). destruct e0 as [? ? ? ? ? ? ? lk ?].
      unfold range. simpl. by destruct lk.
    + intros a e Ha. apply Hends. by right.
    + done.
    + done.
    + by left.
    + done.
    + by left.
    + intros a e b Ha. by apply elem_of_nil in Ha.
  - apply rounds_le_length.
Qed.

(** A round whose lock lies "after" the end of a lock that reaches the last byte,
    where the end plus one is zero. *)
Lemma merge_check_eof entry x a e0 e w :
  w_locks w !! x = Some e0 -> w_locks w !! a = Some e -> lock_end (sle_lock e0) = UINT64_MAX ->
  0 < lock_start (sle_lock e) ->
  wp (merge_check entry x a) (fun _ w' => w' = w) w.
Proof.
  intros Hx Ha Heof Hs. unfold merge_check. case_decide; [done|].
  apply wp_bind, (wp_deref (fun w => w_locks w !! a) _ _ e Ha).
  apply wp_bind, (wp_deref (fun w => w_locks w !! x) _ _ e0 Hx).
  rewrite Heof. change (u64 (UINT64_MAX + 1)) with 0. destruct (different_owners _ _); [done|].
  case_bool_decide; [done|]. destruct (u64 _ <? _); [done|].
  replace (0 <? _) with true by (symmetry; by apply Z.ltb_lt). done.
Qed.

(** A lock up to the end of the file (length zero) is not merged at all: the
    code compares positions with the end of the lock plus one, which wraps around
    to zero.  The merge changes nothing, so that an owner that turns a write lock
    into a read lock (or the reverse) keeps both. *)
Theorem merge_to_eof_is_skipped entry x o e0 w :
  let h := file_lock_list entry in
  NoDup (w_lists w h) ->
  w_locks w !! x = Some e0 -> granted_to o e0 -> lock_end (sle_lock e0) = UINT64_MAX ->
  (forall a, a ∈ w_lists w h -> exists e, w_locks w !! a = Some e /\ 0 < lock_start (sle_lock e)) ->
  wp (merge_lock_entry entry x) (fun _ w' => w' = w /\
    forall t b, held (w_locks w) (w_lists w h) o t b -> in_range (sle_lock e0) b ->
      held (w_locks w') (x :: w_lists w' h) o t b /\
      held (w_locks w') (x :: w_lists w' h) o (lock_type (sle_lock e0)) b) w.
Proof.
  intros h Hnd Hx Hg Heof Hall. unfold merge_lock_entry, glist_for_each_safe.
  apply wp_bind, wp_gets. eapply wp_mono; cycle 1.
  - apply (wp_for_each_safe (fun n node _ w' => w' = w /\ exists done todo,
      w_lists w h = done ++ todo /\ node = head todo /\ n = length todo)) with
      (n := length (w_lists w h)) (Q := fun _ w' => w' = w); [by intros ? ? ? [? _]| |unfold h; lia|].
    + intros n a _ w' (-> & done & todo & Hl & Hhd & ->). destruct todo as [|a' rest]; [done|].
      injection Hhd as ->. exists (length rest). split; [done|].
      destruct (Hall a') as (e & He & Hs); [rewrite Hl, elem_of_app, elem_of_cons; tauto|].
      apply wp_bind. eapply wp_mono; [|by apply (merge_check_eof entry x a' e0 e)].
      intros [] w' ->. apply wp_ret. simpl. split; [done|]. exists (done ++ [a']), rest.
      fold h. rewrite Hl, <- app_assoc in *. by rewrite succ_of_app.
    + split; [done|]. by exists [], (w_lists w h).
  - intros [] w' ->. split; [done|]. intros t b Hh Hb. fold h. rewrite (held_cons _ x (w_lists w h)).
    split.
    + destruct Hh as (a & e & Ha & He & Hr). destruct (decide (a = x)) as [->|Hax].
      * right. exists x, e. by rewrite list_elem_of_singleton.
      * left. exists a, e. by rewrite elem_of_glist_del.
    + rewrite held_cons. right. by apply (held_singleton _ _ e0).
Qed.
End theorems.

(** ** Examples *)

Section examples.
#[local] Existing Instance LockExamples.owners.
Import LockExamples.

(** Owner 5 has the bytes 0 to 99 locked for writing and owner 6 bytes 200 to 209;
    owner 5 turns the bytes 20 to 29 into a read lock. *)
Lemma merge_lock_entry_correct_witness :
  let w := locked_file (lock 5 FSAL_LOCK_R 20 10) [lock 5 FSAL_LOCK_W 0 100; lock 6 FSAL_LOCK_W 200 10] in
  wp (merge_lock_entry 1 10) (fun _ w' =>
    let holds := held (w_locks w') (10%positive :: w_lists w' (file_lock_list 1)) in
    holds 5%positive FSAL_LOCK_R 25 /\ ~ holds 5%positive FSAL_LOCK_W 25 /\
    holds 5%positive FSAL_LOCK_W 19 /\ holds 5%positive FSAL_LOCK_W 30 /\
    holds 6%positive FSAL_LOCK_W 200) w.
Proof.
  intros w.
  assert (Hlist : w_lists w (file_lock_list 1) = [11; 12]%positive) by done.
  assert (Hl10 : w_locks w !! 10%positive = Some (lock 5 FSAL_LOCK_R 20 10)) by done.
  assert (Hl11 : w_locks w !! 11%positive = Some (lock 5 FSAL_LOCK_W 0 100)) by done.
  assert (Hl12 : w_locks w !! 12%positive = Some (lock 6 FSAL_LOCK_W 200 10)) by done.
  assert (Hlive : forall o t s n, range_ok (sle_lock (lock o t s n)) -> live (lock o t s n))
    by (intros; split_and!; [done|done|by eexists]).
  assert (Hend : lock_end (sle_lock (lock 5 FSAL_LOCK_R 20 10)) = 29) by done.
  assert (H65 : ~ same_owner 6%positive 5%positive) by (by vm_compute).
  eapply wp_mono; [|apply (merge_lock_entry_correct 1 10 5 (lock 5 FSAL_LOCK_R 20 10) w)].
  - intros [] w' (_ & Hin & Hout & Hother). split_and!.
    + apply Hin; [|done]. unfold in_range. rewrite Hend. simpl. lia.
    + intros H%Hin; [done|]. unfold in_range. rewrite Hend. simpl. lia.
    + apply Hout; [unfold in_range; rewrite Hend; simpl; lia|]. eapply held_intro; [|exact Hl11|split; [done|by eexists]|done|split; by vm_compute].
      rewrite Hlist, !elem_of_cons. auto.
    + apply Hout; [unfold in_range; rewrite Hend; simpl; lia|]. eapply held_intro; [|exact Hl11|split; [done|by eexists]|done|split; by vm_compute].
      rewrite Hlist, !elem_of_cons. auto.
    + apply Hother; [done|]. eapply held_intro; [|exact Hl12|split; [done|by eexists]|done|split; by vm_compute].
      rewrite Hlist, !elem_of_cons. auto.
  - rewrite Hlist. split; [by apply (bool_decide_unpack _)|].
    intros a. rewrite !elem_of_cons, elem_of_nil. intros [->|[->|[]]]; eexists; (split; [done|]);
      apply Hlive; by vm_compute.
  - intros a e. change (w_locks w) with (<[10%positive := lock 5 FSAL_LOCK_R 20 10]>
      (<[11%positive := lock 5 FSAL_LOCK_W 0 100]>
        (<[12%positive := lock 6 FSAL_LOCK_W 200 10]> (∅ : lock_map)))).
    rewrite !lookup_insert_Some, lookup_empty. intros [[<- _]|[_ [[<- _]|[_ [[<- _]|[_ [=]]]]]]]; done.
  - constructor.
  - done.
  - apply Hlive. by vm_compute.
  - split; [done|]. by eexists.
  - intros a e. rewrite Hlist, !elem_of_cons, elem_of_nil.
    intros [->|[->|[->|[]]]]; rewrite ?Hl10, ?Hl11, ?Hl12; intros [= <-] _; by vm_compute.
  - intros t1 t2 b (a1 & e1 & [_ Ha1]%elem_of_glist_del & He1 & Hg1 & <- & _)
      (a2 & e2 & [_ Ha2]%elem_of_glist_del & He2 & Hg2 & <- & _).
    rewrite Hlist, !elem_of_cons, elem_of_nil in Ha1, Ha2.
    destruct Ha1 as [->|[->|[]]], Ha2 as [->|[->|[]]]; rewrite ?Hl11, ?Hl12 in *; by simplify_eq.
Defined.

(** Owner 5 has everything from byte 10 on locked for writing and turns the whole
    file into a read lock: it still has the write lock. *)
Lemma merge_to_eof_is_skipped_witness :
  let w := locked_file (lock 5 FSAL_LOCK_R 0 0) [lock 5 FSAL_LOCK_W 10 0] in
  wp (merge_lock_entry 1 10) (fun _ w' =>
    let holds := held (w_locks w') (10%positive :: w_lists w' (file_lock_list 1)) in
    holds 5%positive FSAL_LOCK_W 50 /\ holds 5%positive FSAL_LOCK_R 50) w.
Proof.
  intros w. assert (Hlist : w_lists w (file_lock_list 1) = [11]%positive) by done.
  assert (Hl11 : w_locks w !! 11%positive = Some (lock 5 FSAL_LOCK_W 10 0)) by done.
  eapply wp_mono; [|apply (merge_to_eof_is_skipped 1 10 5 (lock 5 FSAL_LOCK_R 0 0) w)].
  - intros [] w' (_ & Hboth). apply Hboth; [|split; by vm_compute].
    eapply held_intro; [|exact Hl11|split; [done|by eexists]|done|split; by vm_compute].
    rewrite Hlist, elem_of_cons. auto.
  - rewrite Hlist. by apply (bool_decide_unpack _).
  - done.
  - split; [done|]. by eexists.
  - done.
  - intros a. rewrite Hlist, list_elem_of_singleton. intros ->. rewrite Hl11. by eexists.
Defined.
End examples.
