(* ===== verification/LockSubtract.v ===== *)
(** Correctness of [subtract_lock_from_list]: an unlock takes the range from the
    locks it concerns, byte by byte, and from nothing else; when memory runs out,
    it leaves every lock as it was. *)

From S2P Require Import Prelude Status World Owner LockList LockHeap.

(** What is left of a list without the structures [p]. *)
Definition drop_all (p l : list loc) : list loc := filter (fun a => ~ (a ∈ p)) l.

Lemma elem_of_drop_all p l a : a ∈ drop_all p l <-> ~ (a ∈ p) /\ a ∈ l.
Proof. unfold drop_all. by rewrite list_elem_of_filter. Qed.

Lemma drop_all_nil l : drop_all [] l = l.
Proof.
  unfold drop_all. induction l as [|a l IH]; [done|].
  rewrite filter_cons_True by (apply not_elem_of_nil). by f_equal.
Qed.

Lemma drop_all_snoc p a l : drop_all (p ++ [a]) l = glist_del a (drop_all p l).
Proof.
  unfold drop_all, glist_del. rewrite list_filter_filter. apply list_filter_iff. intros b.
  rewrite elem_of_app, list_elem_of_singleton. tauto.
Qed.

Lemma drop_all_disjoint p l : (forall a, a ∈ p -> a ∉ l) -> drop_all p l = l.
Proof.
  intros Hd. induction l as [|a l IH]; [done|]. unfold drop_all in *.
  rewrite filter_cons_True by (intros Ha; apply (Hd a Ha); by left). f_equal.
  apply IH. intros b Hb Hl. apply (Hd b Hb). by right.
Qed.

Lemma drop_all_sub p l : (forall a, a ∈ l -> a ∈ p) -> drop_all p l = [].
Proof.
  intros Hs. induction l as [|a l IH]; [done|]. unfold drop_all in *.
  rewrite filter_cons_False by (intros Ha; apply Ha, Hs; by left). apply IH.
  intros b Hb. apply Hs. by right.
Qed.

Lemma drop_all_app p l1 l2 : drop_all p (l1 ++ l2) = drop_all p l1 ++ drop_all p l2.
Proof. apply filter_app. Qed.

Lemma drop_all_prefix p l : NoDup (p ++ l) -> drop_all p (p ++ l) = l.
Proof.
  intros (_ & Hd & _)%NoDup_app. rewrite drop_all_app, drop_all_sub by done.
  by apply drop_all_disjoint.
Qed.

Section freeing.
Context {FS : Type} {env : OwnerEnv}.
Implicit Types w : world FS.
Variable I : world FS -> Prop.
Hypothesis HI : bystander I.

(** An entry of an owner that was granted. *)
Definition releasable (m : lock_map) (a : loc) : Prop :=
  exists e, m !! a = Some e /\ is_Some (sle_owner e) /\ sle_blocked e = STATE_NON_BLOCKING.

(** The store after the entries [p] were released. *)
Definition released_all (p : list loc) w w' : Prop :=
  (forall a, a ∉ p -> w_locks w' !! a = w_locks w !! a) /\
  (forall a e, a ∈ p -> w_locks w' !! a = Some e -> is_Some (w_locks w !! a)) /\
  (forall h, link_of h = sle_list -> w_lists w' h = drop_all p (w_lists w h)) /\
  w_next w' = w_next w /\ w_choices w' = w_choices w.

Lemma released_all_nil w : released_all [] w w.
Proof.
  split_and!; try done. intros h _. by rewrite drop_all_nil.
Qed.

Lemma released_all_snoc p a w w1 w2 :
  is_Some (w_locks w !! a) -> released_all p w w1 -> released a w1 w2 ->
  released_all (p ++ [a]) w w2.
Proof.
  intros Ha (H1 & H2 & H3 & H4 & H5) (G1 & _ & G3 & G4 & G5). split_and!; try congruence.
  - intros b [Hb ?%not_elem_of_cons]%not_elem_of_app. rewrite G1 by tauto. by apply H1.
  - intros b e [Hb|Hb%list_elem_of_singleton]%elem_of_app He; [|by subst b].
    destruct (decide (b = a)) as [->|]; [done|]. rewrite G1 in He by done. by eapply H2.
  - intros h Hh. rewrite G3, H3 by done. by rewrite drop_all_snoc.
Qed.

Lemma wp_free_list h (Q : unit -> world FS -> Prop) w :
  link_of h = sle_list -> NoDup (w_lists w h) ->
  (forall a, a ∈ w_lists w h -> releasable (w_locks w) a) -> I w ->
  (forall w', released_all (w_lists w h) w w' -> I w' -> Q tt w') -> wp (free_list h) Q w.
Proof.
  intros Hh Hnd Hall HIw HQ. unfold free_list, glist_for_each_safe. apply wp_bind, wp_gets.
  apply (wp_for_each_safe (fun n node _ w' => exists p todo, w_lists w h = p ++ todo /\
    node = head todo /\ n = length todo /\ released_all p w w' /\ I w')) with (n := length (w_lists w h));
    [| |lia|].
  - intros n [] w' (p & todo & Hl & Hhd & -> & Hr & HIw'). destruct todo; [|done].
    rewrite app_nil_r in Hl. apply HQ; [by rewrite Hl|done].
  - intros n a [] w' (p & todo & Hl & Hhd & -> & Hr & HIw'). destruct todo as [|a' rest]; [done|].
    injection Hhd as ->. exists (length rest). split; [done|].
    assert (Hin : a' ∈ w_lists w h) by (rewrite Hl, elem_of_app, elem_of_cons; tauto).
    rewrite Hl in Hnd. apply NoDup_app in Hnd as (Hp & Hd & Hrest).
    assert (Hp' : a' ∉ p) by (intros Hp'; apply (Hd a' Hp'); by left).
    destruct (Hall a' Hin) as (e & He & Hown & Hbl).
    assert (He' : w_locks w' !! a' = Some e) by (by rewrite (proj1 Hr)).
    apply wp_bind, (wp_keep I); [intros [] w''; by apply (by_remove _ HI _ a' e)|].
    apply (wp_remove a' e); [done|]. intros w'' Hr' HIw''. apply wp_ret. simpl. exists (p ++ [a']), rest.
    rewrite (proj1 (proj2 (proj2 Hr))) by done. rewrite Hl, <- app_assoc.
    split_and!; [done| |done|by eapply released_all_snoc|done].
    rewrite drop_all_prefix; [simpl; by rewrite decide_True|].
    apply NoDup_app. split_and!; done.
  - exists [], (w_lists w h). split_and!; try done. apply released_all_nil.
Qed.
End freeing.

(** * What an unlock concerns *)

Section concerned.
Context {env : OwnerEnv}.

(** The locks an unlock by [owner] (by nobody in particular when null) takes
    bytes from: granted locks of the owner; locks that an NLM client got in its
    incarnation [state] are spared. *)
Definition concerned (owner state : option loc) (e : state_lock_entry_t) : bool :=
  (bool_decide (owner = None) || negb (different_owners (sle_owner e) owner))
  && bool_decide (sle_blocked e = STATE_NON_BLOCKING)
  && negb (bool_decide (state <> None) && match sle_owner e with Some o => is_nlm o | None => false end
           && bool_decide (sle_state e = state)).

Lemma concerned_granted owner state e : concerned owner state e = true -> sle_blocked e = STATE_NON_BLOCKING.
Proof. unfold concerned. by intros [[_ ?%bool_decide_eq_true]%andb_true_iff _]%andb_true_iff. Qed.

Lemma subtracts_concerned {FS} owner state e (w : world FS) :
  live e -> subtracts owner state e w = Ret (concerned owner state e) w.
Proof.
  intros (_ & _ & o & Ho). unfold subtracts, concerned, lock_owner_is_nlm. rewrite Ho.
  assert (Hb : bool_decide (sle_blocked e <> STATE_NON_BLOCKING) =
               negb (bool_decide (sle_blocked e = STATE_NON_BLOCKING))) by apply bool_decide_not.
  rewrite Hb. destruct (bool_decide (sle_blocked e = _)), owner as [ow|]; simpl;
    try destruct (different_owners (Some o) (Some ow)); simpl; try done; by destruct state.
Qed.

(** An entry with everything of [ck] but the range. *)
Definition fragment (ck e : state_lock_entry_t) : Prop :=
  live e /\ sle_owner e = sle_owner ck /\ sle_blocked e = sle_blocked ck /\
  sle_state e = sle_state ck /\ lock_type (sle_lock e) = lock_type (sle_lock ck).

Lemma fragment_concerned owner state ck e :
  fragment ck e -> concerned owner state e = concerned owner state ck.
Proof. intros (_ & Ho & Hb & Hs & _). unfold concerned. by rewrite Ho, Hb, Hs. Qed.

Lemma fragment_granted o ck e : fragment ck e -> granted_to o e <-> granted_to o ck.
Proof. intros (_ & Ho & Hb & _). unfold granted_to. by rewrite Ho, Hb. Qed.

Lemma held_agree m m' l o t b :
  (forall a, a ∈ l -> m !! a = m' !! a) -> held m l o t b <-> held m' l o t b.
Proof.
  intros Hm. split; apply held_mono; intros a e Ha He _; (split; [done|]); by rewrite <- He, Hm.
Qed.

Lemma held_app m l1 l2 o t b :
  held m (l1 ++ l2) o t b <-> held m l1 o t b \/ held m l2 o t b.
Proof.
  unfold held. setoid_rewrite elem_of_app. split.
  - intros (a & e & [Ha|Ha] & ?); [left|right]; by exists a, e.
  - intros [(a & e & ? & ?)|(a & e & ? & ?)]; exists a, e; auto.
Qed.

(** What an entry [a] stood for is held through its fragments, less the bytes
    outside of them. *)
Lemma held_fragments m m' a ck frags P o t b :
  m !! a = Some ck ->
  (forall r, r ∈ frags -> exists e, m' !! r = Some e /\ fragment ck e) ->
  ((exists r e, r ∈ frags /\ m' !! r = Some e /\ in_range (sle_lock e) b) <->
     in_range (sle_lock ck) b /\ P) ->
  held m' frags o t b <-> held m [a] o t b /\ P.
Proof.
  intros Ha Hfr Hby. split.
  - intros (r & e & Hr & He & Hg & Ht & Hb). destruct (Hfr r Hr) as (e' & He' & Hf). simplify_eq.
    destruct (proj1 Hby) as [Hck HP]; [by exists r, e|]. split; [|done].
    eapply held_intro; [by left|done|by apply (fragment_granted _ _ _ Hf)|by destruct Hf as (_ & _ & _ & _ & ->)|done].
  - intros [(a' & e & ->%list_elem_of_singleton & He & Hg & Ht & Hb) HP]. simplify_eq.
    destruct (proj2 Hby) as (r & e' & Hr & He' & Hb'); [done|].
    destruct (Hfr r Hr) as (e'' & He'' & Hf). simplify_eq.
    eapply held_intro; [done|done|by apply (fragment_granted _ _ _ Hf)| |done]. by destruct Hf as (_ & _ & _ & _ & ->).
Qed.
End concerned.

Section splitting.
Context {FS : Type} {env : OwnerEnv}.
Implicit Types w : world FS.
Variable I : world FS -> Prop.
Hypothesis HI : bystander I.

(** The store after the new entry [r] was put on the split list. *)
Definition split_added (r : loc) (e : state_lock_entry_t) w w' : Prop :=
  w_locks w' = <[r := e]> (w_locks w) /\ w_next w' = Pos.succ r /\ w_next w = r /\
  w_choices w' = tail (w_choices w) /\
  forall h, link_of h = sle_list -> w_lists w' h =
    if decide (h = split_lock_list) then w_lists w h ++ [r] else w_lists w h.

Lemma wp_split_off a ck f (Q : bool -> world FS -> Prop) w :
  w_locks w !! a = Some ck -> live ck -> sle_blocked ck = STATE_NON_BLOCKING -> addresses_ok w -> I w ->
  range_ok (f (sle_lock ck)) -> lock_type (f (sle_lock ck)) = lock_type (sle_lock ck) ->
  NoDup (w_lists w split_lock_list) ->
  (forall b, b ∈ w_lists w split_lock_list -> releasable (w_locks w) b) ->
  (forall e w', fragment ck e -> sle_lock e = f (sle_lock ck) ->
     split_added (w_next w) e w w' -> I w' -> Q true w') ->
  (forall w', released_all (w_lists w split_lock_list) (set_choices tail w) w' ->
     ~ memory_ok w -> I w' -> Q false w') ->
  wp (split_off a f) Q w.
Proof.
  intros Ha (Href & Hok & o & Ho) Hbl Hadr HIw Hokf Htf Hnd Hall Htrue Hfalse. unfold split_off.
  apply wp_bind, (wp_keep I); [intros r w1; by apply (by_dup _ HI _ a ck)|].
  apply (wp_dup a ck o); [done|done| |].
  - intros w1 Hm1 Hl1 Hn1 Hc1 HI1.
    assert (Hra : w_next w <> a) by (intros <-; apply Hadr in Ha; lia).
    apply wp_bind. eapply wp_upd_lock; [rewrite Hm1; apply lookup_insert_eq|].
    apply wp_bind, wp_modify, wp_ret. eapply Htrue; [| |split_and!; try done|].
    5: { apply (by_lists _ HI). eapply (by_range _ HI); [done|rewrite Hm1; apply lookup_insert_eq|done]. }
    4: { intros h Hh. simpl. unfold list_update. destruct (decide (h = split_lock_list)) as [->|].
         - by rewrite Hl1.
         - by rewrite Hl1. }
    3: { simpl. by rewrite Hm1, insert_insert_eq. }
    + split_and!; try done. split; [done|]. split; [done|]. by exists o.
    + done.
  - intros w1 Hh Hm1 Hl1 Hn1 Hc1 HI1.
    apply wp_bind, (wp_free_list I HI); [done|by rewrite (Hl1 split_lock_list eq_refl)| |done|].
    { intros b. rewrite (Hl1 split_lock_list eq_refl), Hm1. auto. }
    intros w2 (H1 & H2 & H3 & H4 & H5) HI2. apply wp_ret, Hfalse; [| |done].
    + rewrite (Hl1 split_lock_list eq_refl) in *. split_and!; simpl; try congruence.
      * intros b Hb. rewrite H1 by done. by rewrite Hm1.
      * intros b e Hb He. rewrite <- Hm1. by eapply H2.
      * intros h Hlh. rewrite H3 by done. by rewrite Hl1.
    + unfold memory_ok. destruct (w_choices w) as [|c cs]; [done|]. injection Hh as ->.
      intros [? _]%Forall_cons. done.
Qed.
End splitting.

(** * The loop of [subtract_lock_from_list] *)

Section subtract.
Context {FS : Type} {env : OwnerEnv}.
Implicit Types w : world FS.

(** The list, what is subtracted from it for whom, and the store at the start. *)
Variables (h : list_head) (owner state : option loc) (lk : fsal_lock_param_t) (w0 : world FS).
Abbreviation L0 := (w_lists w0 h).
Abbreviation m0 := (w_locks w0).
Abbreviation taken := (concerned owner state).

Variable I : world FS -> Prop.
Hypothesis HBy : bystander I.
Abbreviation elsewhere := (LockHeap.elsewhere h).

Hypothesis Hh : link_of h = sle_list.
Hypothesis Hhs : h <> split_lock_list.
Hypothesis Hhr : h <> remove_list.
Hypothesis Hlive : live_list m0 L0.
Hypothesis Hothers : forall h' a, elsewhere h' -> a ∈ w_lists w0 h' ->
  ~ (a ∈ L0) /\ is_Some (m0 !! a).
Hypothesis Hlk : range_ok lk.

(** No lock is lost or changed: [l] is still on the list, the rest of it on the
    list of locks to remove. *)
Record sub_base (l : list loc) w : Prop := {
  sb_list : w_lists w h = l;
  sb_perm : l ++ w_lists w remove_list ≡ₚ L0;
  sb_same : forall a e, m0 !! a = Some e -> w_locks w !! a = Some e;
  sb_addr : addresses_ok w;
  sb_others : forall h', elsewhere h' -> w_lists w h' = w_lists w0 h';
  sb_inv : I w
}.

(** In the loop, with [done] visited and kept and [todo] not yet visited: what is
    on the split list are the bytes of the removed locks outside the range. *)
Record sub_inv (done todo : list loc) w : Prop := {
  si_base : sub_base (done ++ todo) w;
  si_nodup : NoDup (w_lists w split_lock_list);
  si_split : forall a, a ∈ w_lists w split_lock_list -> m0 !! a = None /\
    exists e, w_locks w !! a = Some e /\ live e /\ taken e = true;
  si_bytes : forall o t b, held (w_locks w) (w_lists w split_lock_list) o t b <->
    held m0 (w_lists w remove_list) o t b /\ ~ in_range lk b;
  si_removed : forall a e, a ∈ w_lists w remove_list -> m0 !! a = Some e -> taken e = true;
  si_done : forall a e b, a ∈ done -> m0 !! a = Some e -> taken e = true ->
    in_range (sle_lock e) b -> ~ in_range lk b;
  si_mem : memory_ok w0 -> memory_ok w
}.

Lemma sub_base_in l w a : sub_base l w -> a ∈ l -> a ∈ L0.
Proof. intros HB Ha. rewrite <- (sb_perm _ _ HB), elem_of_app. by left. Qed.

Lemma sub_base_nodup l w : sub_base l w -> NoDup (l ++ w_lists w remove_list).
Proof. intros HB. rewrite (sb_perm _ _ HB). apply Hlive. Qed.

Lemma sub_base_entry l w a :
  sub_base l w -> a ∈ l -> exists e, m0 !! a = Some e /\ w_locks w !! a = Some e /\ live e.
Proof.
  intros HB Ha. destruct (proj2 Hlive a) as (e & He & Hl); [by eapply sub_base_in|].
  exists e. split_and!; [done|by eapply sb_same|done].
Qed.

(** A lock that is kept. *)
Lemma sub_inv_keep done a rest w :
  sub_inv done (a :: rest) w ->
  (forall e b, m0 !! a = Some e -> taken e = true -> in_range (sle_lock e) b -> ~ in_range lk b) ->
  sub_inv (done ++ [a]) rest w.
Proof.
  intros HI Hk. destruct HI. split; try done; [by rewrite <- app_assoc|].
  intros a' e b [Ha|Ha%list_elem_of_singleton]%elem_of_app; [by apply si_done0|]. subst a'. apply Hk.
Qed.

(** A lock [a] that is replaced by its fragments outside the range. *)
Lemma sub_inv_take done a rest ck (frags : list loc) w w' :
  sub_inv done (a :: rest) w -> m0 !! a = Some ck -> taken ck = true ->
  (forall b e, w_locks w !! b = Some e -> w_locks w' !! b = Some e) ->
  w_lists w' h = done ++ rest -> w_lists w' remove_list = w_lists w remove_list ++ [a] ->
  w_lists w' split_lock_list = w_lists w split_lock_list ++ frags ->
  (forall h', elsewhere h' -> w_lists w' h' = w_lists w h') ->
  NoDup frags -> (forall r, r ∈ frags -> w_locks w !! r = None /\
    exists e, w_locks w' !! r = Some e /\ fragment ck e) ->
  (forall b, (exists r e, r ∈ frags /\ w_locks w' !! r = Some e /\ in_range (sle_lock e) b) <->
     in_range (sle_lock ck) b /\ ~ in_range lk b) ->
  addresses_ok w' -> (memory_ok w -> memory_ok w') -> I w' ->
  sub_inv done rest w'.
Proof.
  intros HI Ha Htk Hsub Hlh Hlr Hls Hlo Hnd Hfr Hby Hadr Hmem HI'. destruct HI. destruct si_base0.
  assert (Hold : forall b, b ∈ w_lists w split_lock_list -> w_locks w' !! b = w_locks w !! b).
  { intros b Hb. destruct (si_split0 b Hb) as (_ & e & He & _). rewrite He. by apply Hsub. }
  split.
  - split; try done.
    + rewrite Hlr, <- sb_perm0. rewrite !app_assoc. rewrite <- (Permutation_middle done rest a).
      rewrite (Permutation_app_comm _ [a]). done.
    + intros b e He. auto.
    + intros h' He. rewrite Hlo by done. auto.
  - rewrite Hls. apply NoDup_app. split_and!; [done| |done]. intros b Hb Hf.
    destruct (si_split0 b Hb) as (_ & e & He & _), (Hfr b Hf) as (Hn & _). congruence.
  - intros b. rewrite Hls, elem_of_app. intros [Hb|Hb].
    + destruct (si_split0 b Hb) as (? & e & He & ?). split; [done|]. exists e. auto.
    + destruct (Hfr b Hb) as (Hn & e & He & Hf). split.
      { destruct (m0 !! b) as [e'|] eqn:E; [|done]. apply sb_same0 in E. congruence. }
      exists e. split_and!; [done|apply Hf|by rewrite (fragment_concerned _ _ _ _ Hf)].
  - intros o t b. rewrite Hls, Hlr, !held_app.
    rewrite (held_fragments m0 (w_locks w') a ck frags (~ in_range lk b)); [|done| |done].
    2: { intros r Hr. by apply Hfr. }
    rewrite (held_agree _ (w_locks w)) by done. rewrite si_bytes0. tauto.
  - intros b e. rewrite Hlr, elem_of_app, list_elem_of_singleton. intros [?| ->] He; [eauto|congruence].
  - done.
  - auto.
Qed.

(** The store while a lock [ck] is being split, [wi] being the store before:
    the fragments so far cover the bytes [B]. *)
Record splitting (ck : state_lock_entry_t) (frags : list loc) (B : Z -> Prop) (wi w : world FS) : Prop := {
  sp_locks : forall b e, w_locks wi !! b = Some e -> w_locks w !! b = Some e;
  sp_lists : forall h', link_of h' = sle_list -> w_lists w h' =
    if decide (h' = split_lock_list) then w_lists wi h' ++ frags else w_lists wi h';
  sp_nodup : NoDup frags;
  sp_frags : forall r, r ∈ frags -> w_locks wi !! r = None /\
    exists e, w_locks w !! r = Some e /\ fragment ck e;
  sp_bytes : forall b,
    (exists r e, r ∈ frags /\ w_locks w !! r = Some e /\ in_range (sle_lock e) b) <-> B b;
  sp_addr : addresses_ok w;
  sp_mem : memory_ok wi -> memory_ok w;
  sp_inv : I w
}.

Lemma splitting_start ck w : addresses_ok w -> I w -> splitting ck [] (fun _ => False) w w.
Proof.
  intros Hadr HIw. split; try done.
  - intros h' _. rewrite app_nil_r. by destruct (decide _).
  - by apply NoDup_nil.
  - by intros r ?%elem_of_nil.
  - intros b. split; [|done]. by intros (r & e & ?%elem_of_nil & _).
Qed.

Lemma memory_ok_tail w w' : w_choices w' = tail (w_choices w) -> memory_ok w -> memory_ok w'.
Proof. unfold memory_ok. intros ->. destruct (w_choices w); [done|]. by intros [_ ?]%Forall_cons. Qed.

Lemma splitting_add ck frags B wi w e w' :
  splitting ck frags B wi w -> fragment ck e -> split_added (w_next w) e w w' -> I w' ->
  splitting ck (frags ++ [w_next w]) (fun b => B b \/ in_range (sle_lock e) b) wi w'.
Proof.
  intros [Hlk' Hls Hnd Hfr Hby Hadr Hmem _] Hf (Hm & Hn & _ & Hc & Hl) HI'.
  assert (Hnew : w_locks w !! w_next w = None).
  { destruct (w_locks w !! w_next w) as [e'|] eqn:E; [|done]. apply Hadr in E. lia. }
  assert (Hold : forall b e', w_locks w !! b = Some e' -> w_locks w' !! b = Some e').
  { intros b e' He. rewrite Hm, lookup_insert_ne; [done|]. congruence. }
  split; auto.
  - intros h' Hh'. rewrite Hl, Hls by done. destruct (decide _); by rewrite <- ?app_assoc.
  - apply NoDup_app. split_and!; [done| |apply NoDup_singleton].
    intros b Hb ->%list_elem_of_singleton. destruct (Hfr _ Hb) as (_ & e' & He' & _). congruence.
  - intros r [Hr| ->%list_elem_of_singleton]%elem_of_app.
    + destruct (Hfr r Hr) as (? & e' & ? & ?). split; [done|]. exists e'. auto.
    + split; [|exists e; by rewrite Hm, lookup_insert_eq].
      destruct (w_locks wi !! w_next w) as [e'|] eqn:E; [|done]. apply Hlk' in E. congruence.
  - intros b. rewrite <- Hby. split.
    + intros (r & e' & [Hr| ->%list_elem_of_singleton]%elem_of_app & He & Hb).
      * left. exists r, e'. destruct (Hfr r Hr) as (_ & e2 & He2 & _).
        pose proof (Hold _ _ He2). split_and!; congruence.
      * right. rewrite Hm, lookup_insert_eq in He. congruence.
    + intros [(r & e' & Hr & He & Hb)|Hb].
      * exists r, e'. rewrite elem_of_app. auto.
      * exists (w_next w), e. rewrite elem_of_app, list_elem_of_singleton, Hm, lookup_insert_eq. auto.
  - intros b e'. rewrite Hm, Hn. destruct (decide (b = w_next w)) as [->|Hne]; [lia|].
    rewrite lookup_insert_ne by done. intros He%Hadr. lia.
  - intros Hmi. by eapply memory_ok_tail, Hmem.
Qed.

(** What is on the split list is new. *)
Lemma splitting_new done todo ck frags B wi w b :
  sub_inv done todo wi -> splitting ck frags B wi w ->
  taken ck = true -> b ∈ w_lists w split_lock_list -> m0 !! b = None /\ releasable (w_locks w) b.
Proof.
  intros [HB _ Hsp _ _ _ _] [Hsub Hls _ Hfr _ _ _ _] Htk. rewrite Hls, decide_True, elem_of_app by done.
  intros [Hb|Hb].
  - destruct (Hsp b Hb) as (? & e & He & (_ & _ & o & Ho) & Ht). split; [done|]. exists e.
    rewrite Ho. apply concerned_granted in Ht. eauto.
  - destruct (Hfr b Hb) as (Hn & e & He & (_ & _ & o & Ho) & _ & Hbl & _).
    split; [|exists e; rewrite Ho, Hbl; apply concerned_granted in Htk; by eauto].
    destruct (m0 !! b) as [e'|] eqn:E; [|done]. apply (sb_same _ _ HB) in E. congruence.
Qed.

Lemma splitting_nodup done todo ck frags B wi w :
  sub_inv done todo wi -> splitting ck frags B wi w -> NoDup (w_lists w split_lock_list).
Proof.
  intros [_ Hnd Hsp _ _ _ _] [_ Hls Hndf Hfr _ _ _ _]. rewrite Hls, decide_True by done.
  apply NoDup_app. split_and!; [done| |done]. intros b Hb Hf.
  destruct (Hsp b Hb) as (_ & e & He & _), (Hfr b Hf) as (Hn & _). congruence.
Qed.

(** When memory runs out, the fragments go and the locks stay. *)
Lemma splitting_abort done todo ck frags B wi w w' :
  sub_inv done todo wi -> splitting ck frags B wi w -> taken ck = true ->
  released_all (w_lists w split_lock_list) (set_choices tail w) w' -> I w' ->
  sub_base (done ++ todo) w'.
Proof.
  intros HI HS Htk (Hm & Hm' & Hl & Hn & _) HI'. pose proof (si_base _ _ _ HI) as HB.
  assert (Hkeep : forall h', link_of h' = sle_list -> h' <> split_lock_list ->
    (forall a, a ∈ w_lists wi h' -> is_Some (m0 !! a)) -> w_lists w' h' = w_lists wi h').
  { intros h' Hh' Hne Hold. rewrite Hl by done. simpl. rewrite (sp_lists _ _ _ _ _ HS h') by done.
    rewrite decide_False by done. apply drop_all_disjoint. intros a Ha Ha'.
    destruct (splitting_new _ _ _ _ _ _ _ _ HI HS Htk Ha) as [Hno _], (Hold a Ha') as [? ?]. congruence. }
  assert (HL0 : forall a, a ∈ L0 -> is_Some (m0 !! a)).
  { intros a Ha. destruct (proj2 Hlive a Ha) as (e & He & _). by exists e. }
  split.
  - rewrite Hkeep; [by apply (sb_list _ _ HB)|done|done|].
    rewrite (sb_list _ _ HB). intros a Ha. by eapply HL0, sub_base_in.
  - rewrite Hkeep; [by apply (sb_perm _ _ HB)|done|done|].
    intros a Ha. apply HL0. rewrite <- (sb_perm _ _ HB), elem_of_app. by right.
  - intros a e He. rewrite Hm; [by apply (sp_locks _ _ _ _ _ HS), (sb_same _ _ HB)|].
    intros Ha. destruct (splitting_new _ _ _ _ _ _ _ _ HI HS Htk Ha). congruence.
  - intros a e He. rewrite Hn. simpl. destruct (decide (a ∈ w_lists w split_lock_list)) as [Ha|Ha].
    + destruct (Hm' a e Ha He) as [e' He']. by eapply (sp_addr _ _ _ _ _ HS).
    + rewrite Hm in He by done. by eapply (sp_addr _ _ _ _ _ HS).
  - intros h' He. rewrite Hkeep; [by apply (sb_others _ _ HB)|by apply He|apply He|].
    rewrite (sb_others _ _ HB) by done. intros a Ha. by apply (Hothers h' a He Ha).
  - done.
Qed.

Lemma wp_splitting done todo a ck frags B f (Q : bool -> world FS -> Prop) wi w :
  sub_inv done todo wi -> splitting ck frags B wi w -> m0 !! a = Some ck -> live ck -> taken ck = true ->
  range_ok (f (sle_lock ck)) -> lock_type (f (sle_lock ck)) = lock_type (sle_lock ck) ->
  (forall frags' w', splitting ck frags' (fun b => B b \/ in_range (f (sle_lock ck)) b) wi w' ->
     Q true w') ->
  (forall w', sub_base (done ++ todo) w' -> ~ memory_ok w0 -> Q false w') ->
  wp (split_off a f) Q w.
Proof.
  intros HI HS Ha Hck Htk Hokf Htf Htrue Hfalse. pose proof (si_base _ _ _ HI) as HB.
  apply (wp_split_off I HBy a ck f); try done.
  - by apply (sp_locks _ _ _ _ _ HS), (sb_same _ _ HB).
  - by eapply concerned_granted.
  - apply (sp_addr _ _ _ _ _ HS).
  - apply (sp_inv _ _ _ _ _ HS).
  - by eapply splitting_nodup.
  - intros b Hb. by eapply splitting_new.
  - intros e w' Hf He Hadd HI'. eapply Htrue. rewrite <- He. by eapply splitting_add.
  - intros w' Hr Hmem HI'. apply Hfalse; [by eapply splitting_abort|].
    intros Hm0. by apply Hmem, (sp_mem _ _ _ _ _ HS), (si_mem _ _ _ HI).
Qed.

(** The entry is replaced by its fragments. *)
Lemma wp_move done a rest ck frags (Q : unit -> world FS -> Prop) wi w :
  sub_inv done (a :: rest) wi -> m0 !! a = Some ck -> taken ck = true ->
  splitting ck frags (fun b => in_range (sle_lock ck) b /\ ~ in_range lk b) wi w ->
  (forall w', sub_inv done rest w' -> Q tt w') -> wp (move_to_remove_list a) Q w.
Proof.
  intros HI Ha Htk HS HQ. pose proof (si_base _ _ _ HI) as HB.
  pose proof (sub_base_nodup _ _ HB) as Hnd.
  assert (Hoff : forall h', link_of h' = sle_list -> h' <> h -> a ∉ w_lists w h').
  { intros h' Hh' Hne Hin. destruct (decide (h' = split_lock_list)) as [->|Hns].
    { destruct (splitting_new _ _ _ _ _ _ _ _ HI HS Htk Hin). congruence. }
    rewrite (sp_lists _ _ _ _ _ HS), decide_False in Hin by done.
    destruct (decide (h' = remove_list)) as [->|Hnr].
    - apply NoDup_app in Hnd as (_ & Hd & _). apply (Hd a); [|done].
      rewrite elem_of_app, elem_of_cons. tauto.
    - assert (He : elsewhere h') by done. rewrite (sb_others _ _ HB) in Hin by done.
      destruct (Hothers h' a He Hin) as [Hno _]. apply Hno. eapply sub_base_in; [done|].
      rewrite elem_of_app, elem_of_cons. tauto. }
  assert (Hlh : glist_del a (w_lists w h) = done ++ rest).
  { rewrite (sp_lists _ _ _ _ _ HS), decide_False, (sb_list _ _ HB) by done.
    apply NoDup_app in Hnd as (Hnd & _ & _). by apply glist_del_middle. }
  apply wp_bind, wp_modify, wp_modify, HQ. destruct HS as [Hsub Hls Hndf Hfr Hby Hadr Hmem HIs].
  eapply (sub_inv_take done a rest ck frags wi); try done; simpl; unfold list_update.
  - by rewrite decide_False, decide_True.
  - rewrite decide_True by done. rewrite decide_True by done. rewrite glist_del_notin by auto.
    unfold glist_add_tail. f_equal. by rewrite Hls, decide_False.
  - rewrite decide_False by done. rewrite decide_True by done. rewrite glist_del_notin by auto.
    by rewrite Hls, decide_True.
  - intros h' (Hl' & ? & ? & ?). rewrite decide_False by done. rewrite decide_True by done.
    rewrite glist_del_notin by auto. by rewrite Hls, decide_False.
  - by do 2 apply (by_lists _ HBy).
Qed.

Lemma splitting_iff ck frags B B' wi w :
  splitting ck frags B wi w -> (forall b, B b <-> B' b) -> splitting ck frags B' wi w.
Proof. intros [] HB. split; try done. intros b. by rewrite <- HB. Qed.

(** The left and the right remainder of a lock, as the code writes them. *)
Lemma left_part ck start :
  range_ok ck -> lock_start ck < start <= lock_end ck ->
  let l := with_length (u64 (start - lock_start ck)) ck in
  range_ok l /\ lock_start l = lock_start ck /\ lock_end l = start - 1.
Proof.
  intros Hck Hs. pose proof (lock_end_bounds _ Hck). destruct Hck as (? & _ & _).
  pose proof (set_range_ok ck (lock_start ck) (start - 1)) as Hr. simpl in *.
  replace (start - 1 - lock_start ck + 1) with (start - lock_start ck) in Hr by lia.
  apply Hr; lia.
Qed.

Lemma right_part ck stop :
  range_ok ck -> 0 <= stop < lock_end ck ->
  let l := with_length (u64 (lock_end ck - stop)) (with_start (u64 (stop + 1)) ck) in
  range_ok l /\ lock_start l = stop + 1 /\ lock_end l = lock_end ck.
Proof.
  intros Hck Hs. pose proof (lock_end_bounds _ Hck).
  pose proof (set_range_ok ck (stop + 1) (lock_end ck)) as Hr. simpl in *.
  rewrite (u64_small (stop + 1)) by lia.
  replace (lock_end ck - (stop + 1) + 1) with (lock_end ck - stop) in Hr by lia.
  apply Hr; lia.
Qed.

Lemma remainder_bytes ck k b :
  range_ok ck -> range_ok k -> lock_start ck <= lock_end k -> lock_start k <= lock_end ck ->
  ((False \/ (lock_start ck <? lock_start k) = true /\
     in_range (with_length (u64 (lock_start k - lock_start ck)) ck) b) \/
   (lock_end k <? lock_end ck) = true /\
     in_range (with_length (u64 (lock_end ck - lock_end k))
                 (with_start (u64 (lock_end k + 1)) ck)) b) <->
  in_range ck b /\ ~ in_range k b.
Proof.
  intros Hck Hk H1 H2. pose proof (lock_end_bounds _ Hck). pose proof (lock_end_bounds _ Hk).
  assert (0 <= lock_start k) by apply Hk.
  pose proof (left_part ck (lock_start k) Hck) as HL.
  pose proof (right_part ck (lock_end k) Hck) as HR. cbv zeta in HL, HR. unfold in_range.
  rewrite !Z.ltb_lt.
  set (l := with_length (u64 (lock_start k - lock_start ck)) ck) in *.
  set (r := with_length _ (with_start _ ck)) in *. clearbody l r.
  destruct (Z.lt_ge_cases (lock_start ck) (lock_start k)), (Z.lt_ge_cases (lock_end k) (lock_end ck));
    try (destruct HL as (_ & HL1 & HL2); [lia|]); try (destruct HR as (_ & HR1 & HR2); [lia|]);
    lia.
Qed.

(** A remainder that is split off when there is one. *)
Lemma wp_part done todo a ck frags B (c : bool) f (Q : bool -> world FS -> Prop) wi w :
  sub_inv done todo wi -> splitting ck frags B wi w -> m0 !! a = Some ck -> live ck -> taken ck = true ->
  (c = true -> range_ok (f (sle_lock ck)) /\ lock_type (f (sle_lock ck)) = lock_type (sle_lock ck)) ->
  (forall frags' w', splitting ck frags'
     (fun b => B b \/ c = true /\ in_range (f (sle_lock ck)) b) wi w' -> Q true w') ->
  (forall w', sub_base (done ++ todo) w' -> ~ memory_ok w0 -> Q false w') ->
  wp (if c then split_off a f else mret true) Q w.
Proof.
  intros HI HS Ha Hl Htk Hf Htrue Hfalse. destruct c.
  - destruct (Hf eq_refl). eapply wp_splitting; [exact HI|exact HS|done..| |done].
    intros frags' w' HS'. eapply Htrue, splitting_iff; [exact HS'|]. intros b. simpl. tauto.
  - eapply wp_ret, Htrue, splitting_iff; [exact HS|]. intros b. simpl. intuition done.
Qed.

(** How one round can end. *)
Definition round_post (done : list loc) (a : loc) (rest : list loc) (r : state_status_t * bool) w :=
  match r with
  | (STATE_SUCCESS, removed) => if removed then sub_inv done rest w else sub_inv (done ++ [a]) rest w
  | (status, removed) => status = STATE_MALLOC_ERROR /\ removed = false /\ ~ memory_ok w0 /\
                         sub_base (done ++ a :: rest) w
  end.

Lemma wp_subtract_entry done a rest ck w :
  sub_inv done (a :: rest) w -> m0 !! a = Some ck -> taken ck = true ->
  wp (subtract_lock_from_entry a lk) (round_post done a rest) w.
Proof.
  intros HI Ha Htk. pose proof (si_base _ _ _ HI) as HB.
  destruct (sub_base_entry _ _ a HB) as (e & He & Hw & Hl); [rewrite elem_of_app, elem_of_cons; tauto|].
  simplify_eq. pose proof Hl as (_ & Hck & _).
  pose proof (lock_end_bounds _ Hck) as Hce. pose proof (lock_end_bounds _ Hlk) as Hle.
  assert (Hk0 : 0 <= lock_start lk) by apply Hlk.
  unfold subtract_lock_from_entry. apply wp_bind, (wp_deref (fun w => w_locks w !! a) _ _ ck Hw).
  set (cs := lock_start (sle_lock ck)) in *. set (ce := lock_end (sle_lock ck)) in *.
  set (ks := lock_start lk) in *. set (ke := lock_end lk) in *.
  assert (Hin : forall b, in_range (sle_lock ck) b <-> cs <= b <= ce) by done.
  assert (Hink : forall b, in_range lk b <-> ks <= b <= ke) by done.
  destruct (Z.ltb_spec ke cs).
  { apply wp_ret. simpl. apply sub_inv_keep; [done|]. intros e b He' _. simplify_eq.
    rewrite Hin, Hink. lia. }
  destruct (Z.ltb_spec ce ks).
  { apply wp_ret. simpl. apply sub_inv_keep; [done|]. intros e b He' _. simplify_eq.
    rewrite Hin, Hink. lia. }
  pose proof (splitting_start ck w (sb_addr _ _ HB) (sb_inv _ _ HB)) as HS.
  destruct ((ks <=? cs) && (ce <=? ke)) eqn:Efull.
  { apply wp_bind. eapply (wp_move _ _ _ _ _ _ _ _ HI Ha Htk).
    - eapply splitting_iff; [exact HS|]. intros b. rewrite Hin, Hink.
      apply andb_true_iff in Efull as [?%Z.leb_le ?%Z.leb_le]. lia.
    - intros w' HI'. by apply wp_ret. }
  apply wp_bind, (wp_part _ _ _ _ _ _ _ _ _ _ _ HI HS Ha Hl Htk).
  { intros Hc%Z.ltb_lt. split; [|done]. by apply left_part. }
  2: { intros w' HB' Hm. by apply wp_ret. }
  intros fr1 w1 HS1. simpl. apply wp_bind, (wp_part _ _ _ _ _ _ _ _ _ _ _ HI HS1 Ha Hl Htk).
  { intros Hc%Z.ltb_lt. split; [|done]. apply right_part; [done|]. fold ce. lia. }
  2: { intros w' HB' Hm. by apply wp_ret. }
  intros fr2 w2 HS2. simpl. apply wp_bind, (wp_move _ _ _ _ fr2 _ _ _ HI Ha Htk).
  - eapply splitting_iff; [exact HS2|]. intros b. by apply remainder_bytes.
  - intros w' HI'. by apply wp_ret.
Qed.

(** ** The whole loop *)

(** Held through entries with the property [P]. *)
Definition held_if (P : state_lock_entry_t -> bool) (m : lock_map) (l : list loc)
    (o : loc) (t : fsal_lock_t) (b : Z) : Prop :=
  exists a e, a ∈ l /\ m !! a = Some e /\ P e = true /\ granted_to o e /\
              lock_type (sle_lock e) = t /\ in_range (sle_lock e) b.

(** What [subtract_lock_from_list] promises.  On success the concerned locks lose
    the bytes of the range and nothing else, and the flag says whether the list
    changed; without memory the list holds what it held, perhaps in another
    order. *)
Definition subtracted (r : state_status_t * bool) w : Prop :=
  (forall a e, m0 !! a = Some e -> ~ (a ∈ L0) -> w_locks w !! a = Some e) /\
  (forall h', elsewhere h' -> w_lists w h' = w_lists w0 h') /\
  addresses_ok w /\ I w /\
  match r with
  | (STATE_SUCCESS, removed) =>
      live_list (w_locks w) (w_lists w h) /\
      (removed = false <-> w_lists w h ≡ₚ L0) /\
      (forall o t b, held_if taken (w_locks w) (w_lists w h) o t b <->
         held_if taken m0 L0 o t b /\ ~ in_range lk b) /\
      (forall a e, taken e = false ->
         (a ∈ w_lists w h /\ w_locks w !! a = Some e) <-> (a ∈ L0 /\ m0 !! a = Some e)) /\
      (forall a, a ∈ w_lists w h -> a ∈ L0 \/ m0 !! a = None) /\
      (memory_ok w0 -> memory_ok w)
  | (status, _) =>
      status = STATE_MALLOC_ERROR /\ ~ memory_ok w0 /\ w_lists w h ≡ₚ L0 /\
      (forall a, a ∈ L0 -> w_locks w !! a = m0 !! a)
  end.

Lemma sub_inv_start w :
  w_locks w = m0 -> w_lists w h = L0 -> w_lists w split_lock_list = [] ->
  w_lists w remove_list = [] -> (forall h', elsewhere h' -> w_lists w h' = w_lists w0 h') ->
  addresses_ok w -> (memory_ok w0 -> memory_ok w) -> I w -> sub_inv [] L0 w.
Proof.
  intros Hm Hl Hs Hr Ho Hadr Hmem HIw. split; [split| | | | | |]; simpl; try done.
  - by rewrite Hr, app_nil_r.
  - by rewrite Hm.
  - rewrite Hs. apply NoDup_nil. done.
  - rewrite Hs. by intros a ?%elem_of_nil.
  - intros o t b. rewrite Hs, Hr. split; [|intros [H _]; revert H];
      by intros (a & e & ?%elem_of_nil & _).
  - rewrite Hr. by intros a e ?%elem_of_nil.
  - by intros a e b ?%elem_of_nil.
Qed.

(** What the loop over the list leaves to the code after it. *)
Definition loop_post (r : state_status_t * bool) w : Prop :=
  match r with
  | (STATE_SUCCESS, removed) => exists kept, sub_inv kept [] w /\
      (removed = false <-> length kept = length L0)
  | (status, _) => status = STATE_MALLOC_ERROR /\ ~ memory_ok w0 /\ exists l, sub_base l w
  end.

Lemma wp_subtract_loop w :
  sub_inv [] L0 w ->
  wp (glist_for_each_safe h (STATE_SUCCESS, false) (fun a acc =>
    found ← get_lock a;
    takes ← subtracts owner state found;
    if negb takes then mret (true, acc)
    else
      '(status, removed_one) ← subtract_lock_from_entry a lk;
      mret (bool_decide (status = STATE_SUCCESS), (status, snd acc || removed_one)))) loop_post w.
Proof.
  intros HI. unfold glist_for_each_safe. apply wp_bind, wp_gets.
  pose proof (sb_list _ _ (si_base _ _ _ HI)) as HL. simpl in HL.
  apply (wp_for_each_safe (fun n node acc w' => exists done todo, sub_inv done todo w' /\
    node = head todo /\ n = length todo /\ acc.1 = STATE_SUCCESS /\
    (acc.2 = false <-> length (done ++ todo) = length L0))) with (n := length L0).
  - intros n [status removed] w' (done & todo & HI' & Hhd & -> & Hst & Hrm). simpl in Hst. subst status.
    destruct todo; [|done]. exists done. rewrite app_nil_r in Hrm. done.
  - intros n a [status removed] w' (done & todo & HI' & Hhd & -> & Hst & Hrm). simpl in Hst. subst status.
    destruct todo as [|a' rest]; [done|]. injection Hhd as ->. exists (length rest). split; [done|].
    pose proof (si_base _ _ _ HI') as HB.
    destruct (sub_base_entry _ _ a' HB) as (e & He & Hw & Hl);
      [rewrite elem_of_app, elem_of_cons; tauto|].
    assert (Hsucc : succ_of a' (w_lists w' h) = head rest).
    { rewrite (sb_list _ _ HB). apply succ_of_app. pose proof (sub_base_nodup _ _ HB) as Hnd.
      by apply NoDup_app in Hnd as (? & _ & _). }
    apply wp_bind, (wp_deref (fun w => w_locks w !! a') _ _ e Hw).
    apply wp_bind. eapply wp_intro; [by apply subtracts_concerned|].
    destruct (taken e) eqn:Etk; simpl.
    2: { apply wp_ret. simpl. exists (done ++ [a']), rest. rewrite Hsucc, <- app_assoc.
         split_and!; try done. apply sub_inv_keep; [done|]. intros e' b He' Htk. congruence. }
    apply wp_bind. eapply wp_mono; [|by eapply wp_subtract_entry].
    intros [status removed_one] w'' Hpost. apply wp_ret. simpl. rewrite Hsucc.
    assert (Hlen : (length (done ++ a' :: rest) <= length L0)%nat).
    { rewrite <- (sb_perm _ _ HB), !length_app. lia. }
    rewrite length_app in Hrm, Hlen. simpl in Hrm, Hlen.
    destruct status; try (destruct Hpost as (? & _ & ? & ?); done || (simpl; eauto)).
    destruct removed_one; simpl in Hpost |- *.
    + exists done, rest. rewrite orb_true_r, length_app. split_and!; try done. lia.
    + exists (done ++ [a']), rest. rewrite orb_false_r, !length_app. split_and!; try done. simpl. rewrite Hrm. lia.
  - rewrite HL. lia.
  - exists [], L0. rewrite HL. done.
Qed.

(** *** Success: the removed locks go, their fragments come onto the list *)

Lemma kept_entries kept w a :
  sub_inv kept [] w -> a ∈ kept -> exists e, m0 !! a = Some e /\ w_locks w !! a = Some e /\ live e.
Proof.
  intros HI Ha. eapply sub_base_entry; [apply (si_base _ _ _ HI)|]. by rewrite app_nil_r.
Qed.

Lemma kept_or_removed kept w a :
  sub_inv kept [] w -> a ∈ L0 <-> a ∈ kept \/ a ∈ w_lists w remove_list.
Proof.
  intros HI. pose proof (sb_perm _ _ (si_base _ _ _ HI)) as Hp. rewrite app_nil_r in Hp.
  by rewrite <- Hp, elem_of_app.
Qed.

(** The store with the list put together again. *)
Definition rejoined (kept : list loc) w w' : Prop :=
  (forall a, a ∉ w_lists w remove_list -> w_locks w' !! a = w_locks w !! a) /\
  w_lists w' h = kept ++ w_lists w split_lock_list.

Lemma rejoined_entry kept w w' a :
  sub_inv kept [] w -> rejoined kept w w' -> a ∈ w_lists w' h -> exists e,
    w_locks w' !! a = Some e /\ live e /\
    (a ∈ kept /\ m0 !! a = Some e \/
     a ∈ w_lists w split_lock_list /\ w_locks w !! a = Some e /\ taken e = true).
Proof.
  intros HI [Hm Hl]. rewrite Hl, elem_of_app. pose proof (sub_base_nodup _ _ (si_base _ _ _ HI)) as Hnd.
  rewrite app_nil_r in Hnd. apply NoDup_app in Hnd as (_ & Hd & _). intros [Ha|Ha].
  - destruct (kept_entries _ _ _ HI Ha) as (e & He & Hw & Hlv). exists e. rewrite Hm by auto. auto.
  - destruct (si_split _ _ _ HI a Ha) as (Hno & e & He & Hlv & Htk). exists e.
    rewrite Hm; [tauto|]. intros Hr.
    assert (a ∈ L0) as Hin by (rewrite (kept_or_removed _ _ _ HI); auto).
    destruct (proj2 Hlive a Hin) as (? & ? & _). congruence.
Qed.

Lemma rejoined_live kept w w' :
  sub_inv kept [] w -> rejoined kept w w' -> live_list (w_locks w') (w_lists w' h).
Proof.
  intros HI HR. split.
  - rewrite (proj2 HR). pose proof (sub_base_nodup _ _ (si_base _ _ _ HI)) as Hnd.
    rewrite app_nil_r in Hnd. apply NoDup_app in Hnd as (? & _ & _).
    apply NoDup_app. split_and!; [done| |by apply si_nodup with kept []].
    intros a Ha Hs. destruct (kept_entries _ _ _ HI Ha) as (e & He & _).
    destruct (si_split _ _ _ HI a Hs) as [Hno _]. congruence.
  - intros a Ha. destruct (rejoined_entry _ _ _ _ HI HR Ha) as (e & ? & ? & _). eauto.
Qed.

Lemma rejoined_bytes kept w w' o t b :
  sub_inv kept [] w -> rejoined kept w w' ->
  held_if taken (w_locks w') (w_lists w' h) o t b <-> held_if taken m0 L0 o t b /\ ~ in_range lk b.
Proof.
  intros HI HR. split.
  - intros (a & e & Ha & He & Htk & Hg & <- & Hb).
    destruct (rejoined_entry _ _ _ _ HI HR Ha) as (e' & He' & _ & Hcase). rewrite He in He'; injection He' as <-.
    destruct Hcase as [[Hk Hm]|(Hs & Hw & _)].
    + split; [|by apply (si_done _ _ _ HI a e)]. exists a, e. split_and!; try done.
      by rewrite (kept_or_removed _ _ _ HI); auto.
    + destruct (proj1 (si_bytes _ _ _ HI o (lock_type (sle_lock e)) b)) as [Hh0 Hn]; [by exists a, e|].
      split; [|done]. destruct Hh0 as (a0 & e0 & Ha0 & He0 & ?). exists a0, e0. split_and!; try tauto.
      * by rewrite (kept_or_removed _ _ _ HI); auto.
      * by eapply (si_removed _ _ _ HI).
  - intros [(a & e & Ha & He & Htk & Hg & Ht & Hb) Hn]. destruct HR as [Hm Hl].
    apply (kept_or_removed _ _ _ HI) in Ha as [Hk|Hr].
    + destruct (kept_entries _ _ _ HI Hk) as (e' & He' & Hw & _). simplify_eq.
      assert (Hin : a ∈ w_lists w' h) by (rewrite Hl, elem_of_app; by left).
      destruct (rejoined_entry kept w w' a HI) as (e2 & ? & _ & [[_ ?]|(Hs & _)]); [done|done| |].
      * exists a, e2. simplify_eq. done.
      * destruct (si_split _ _ _ HI a Hs). congruence.
    + destruct (proj2 (si_bytes _ _ _ HI o t b)) as (a' & e' & Ha' & He' & Hrest).
      { split; [by exists a, e|done]. }
      assert (Hin : a' ∈ w_lists w' h) by (rewrite Hl, elem_of_app; by right).
      destruct (rejoined_entry kept w w' a' HI) as (e2 & ? & _ & [[? ?]|(_ & ? & ?)]); [done|done| |].
      * destruct (si_split _ _ _ HI a' Ha'). congruence.
      * exists a', e2. simplify_eq. done.
Qed.

Lemma rejoined_spared kept w w' a e :
  sub_inv kept [] w -> rejoined kept w w' -> taken e = false ->
  (a ∈ w_lists w' h /\ w_locks w' !! a = Some e) <-> (a ∈ L0 /\ m0 !! a = Some e).
Proof.
  intros HI HR Htk. split.
  - intros [Ha He]. destruct (rejoined_entry _ _ _ _ HI HR Ha) as (e' & He' & _ & Hcase). simplify_eq.
    destruct Hcase as [[Hk ?]|(_ & _ & ?)]; [|congruence].
    split; [|done]. by rewrite (kept_or_removed _ _ _ HI); auto.
  - intros [Ha He]. apply (kept_or_removed _ _ _ HI) in Ha as [Hk|Hr].
    + assert (Hin : a ∈ w_lists w' h) by (rewrite (proj2 HR), elem_of_app; by left).
      split; [done|]. destruct (rejoined_entry _ _ _ _ HI HR Hin) as (e' & He' & _ & [[_ ?]|(Hs & _)]).
      * congruence.
      * destruct (si_split _ _ _ HI a Hs). congruence.
    + pose proof (si_removed _ _ _ HI a e Hr He). congruence.
Qed.

Lemma rejoined_flag kept w w' removed :
  sub_inv kept [] w -> rejoined kept w w' -> (removed = false <-> length kept = length L0) ->
  (removed = false <-> w_lists w' h ≡ₚ L0).
Proof.
  intros HI HR ->. pose proof (sb_perm _ _ (si_base _ _ _ HI)) as Hp. rewrite app_nil_r in Hp.
  rewrite (proj2 HR). split; intros Hlen.
  - assert (Hr : w_lists w remove_list = []).
    { apply length_zero_iff_nil. rewrite <- Hp, length_app in Hlen. lia. }
    rewrite Hr, app_nil_r in Hp. rewrite <- Hp.
    destruct (w_lists w split_lock_list) as [|a l] eqn:Hs; [by rewrite app_nil_r|].
    destruct (si_split _ _ _ HI a) as (_ & e & He & (_ & Hok & o & Ho) & Htk); [rewrite Hs; by left|].
    apply lock_end_bounds in Hok. apply concerned_granted in Htk as Hb.
    destruct (proj1 (si_bytes _ _ _ HI o (lock_type (sle_lock e)) (lock_start (sle_lock e))))
      as [(a' & ? & Ha' & _) _].
    + exists a, e. rewrite Hs. split; [by left|]. split; [done|].
      split; [by split; [|exists o]|]. split; [done|]. unfold in_range. lia.
    + rewrite Hr in Ha'. by apply elem_of_nil in Ha'.
  - destruct (w_lists w remove_list) as [|a l] eqn:Hr; [by rewrite <- Hp, app_nil_r|]. exfalso.
    assert (Ha : a ∈ w_lists w remove_list) by (rewrite Hr; by left).
    assert (Hin : a ∈ L0) by (rewrite (kept_or_removed _ _ _ HI); auto).
    pose proof (sub_base_nodup _ _ (si_base _ _ _ HI)) as Hnd.
    rewrite app_nil_r in Hnd. apply NoDup_app in Hnd as (_ & Hd & _).
    rewrite <- Hlen, elem_of_app in Hin. destruct Hin as [Hk|Hs]; [by apply (Hd a)|].
    destruct (si_split _ _ _ HI a Hs) as [Hno _].
    destruct (proj2 Hlive a) as (? & ? & _); [|congruence]. rewrite (kept_or_removed _ _ _ HI). auto.
Qed.

Lemma wp_rejoin kept removed w :
  sub_inv kept [] w -> (removed = false <-> length kept = length L0) ->
  wp (free_list remove_list;; add_list_tail h split_lock_list)
    (fun _ => subtracted (STATE_SUCCESS, removed)) w.
Proof.
  intros HI Hrm. pose proof (si_base _ _ _ HI) as HB. pose proof (sub_base_nodup _ _ HB) as Hnd.
  pose proof (sb_list _ _ HB) as HL. rewrite app_nil_r in Hnd, HL.
  apply NoDup_app in Hnd as (_ & Hd & Hndr).
  assert (Hin : forall a, a ∈ w_lists w remove_list -> exists e, m0 !! a = Some e).
  { intros a Ha. destruct (proj2 Hlive a) as (e & He & _); [|by exists e].
    rewrite (kept_or_removed _ _ _ HI). auto. }
  apply wp_bind, (wp_free_list I HBy); [done|done| |apply (sb_inv _ _ HB)|].
  { intros a Ha. destruct (proj2 Hlive a) as (e & He & (_ & _ & o & Ho)).
    - rewrite (kept_or_removed _ _ _ HI). auto.
    - exists e. rewrite Ho. split_and!; [by apply (sb_same _ _ HB)|by eexists|].
      by eapply concerned_granted, (si_removed _ _ _ HI). }
  intros w1 (Hm1 & Hm1' & Hl1 & Hn1 & Hc1) HI1. apply wp_modify. set (w2 := set_lists _ _).
  assert (HR : rejoined kept w w2).
  { split; [done|]. simpl. unfold list_update. rewrite decide_False by done. rewrite decide_True by done.
    rewrite !Hl1, HL by done. f_equal; apply drop_all_disjoint.
    - intros a Ha Hk. by apply (Hd a).
    - intros a Ha Hs. destruct (si_split _ _ _ HI a Hs) as [Hno _], (Hin a Ha). congruence. }
  split_and!.
  - intros a e He Hno. simpl. rewrite Hm1; [by apply (sb_same _ _ HB)|].
    intros Ha. apply Hno. rewrite (kept_or_removed _ _ _ HI). auto.
  - intros h' Hel. pose proof Hel as (Hh' & ? & ? & ?). simpl.
    rewrite !list_update_ne, Hl1, (sb_others _ _ HB h' Hel) by done.
    apply drop_all_disjoint. intros a Ha Ha'. destruct (Hothers h' a Hel Ha') as [Hno _].
    apply Hno. rewrite (kept_or_removed _ _ _ HI). auto.
  - intros a e. simpl. rewrite Hn1. intros He.
    destruct (decide (a ∈ w_lists w remove_list)) as [Ha|Ha].
    + destruct (Hm1' a e Ha He) as [? ?]. by eapply (sb_addr _ _ HB).
    + rewrite Hm1 in He by done. by eapply (sb_addr _ _ HB).
  - by apply (by_lists _ HBy).
  - by eapply rejoined_live.
  - by eapply rejoined_flag.
  - intros o t b. by eapply rejoined_bytes.
  - intros a e. by eapply rejoined_spared.
  - intros a Ha. destruct (rejoined_entry _ _ _ _ HI HR Ha) as (e & _ & _ & [[Hk _]|(Hs & _)]).
    + left. rewrite (kept_or_removed _ _ _ HI). by left.
    + right. by destruct (si_split _ _ _ HI a Hs).
  - intros Hm0. unfold memory_ok. simpl. rewrite Hc1. by apply (si_mem _ _ _ HI).
Qed.

(** *** No memory: the removed locks go back on the list *)

Lemma wp_restore l removed w :
  sub_base l w -> ~ memory_ok w0 ->
  wp (glist_for_each_safe remove_list tt (fun a _ =>
       unlink sle_list a;; add_tail h a;; mret (true, tt)))
    (fun _ => subtracted (STATE_MALLOC_ERROR, removed)) w.
Proof.
  intros HB Hmem. unfold glist_for_each_safe. apply wp_bind, wp_gets.
  apply (wp_for_each_safe (fun n node _ w' => exists p todo, w_lists w remove_list = p ++ todo /\
    node = head todo /\ n = length todo /\ I w' /\ w_locks w' = w_locks w /\ w_next w' = w_next w /\
    w_lists w' h = l ++ p /\ w_lists w' remove_list = todo /\
    (forall h', elsewhere h' -> w_lists w' h' = w_lists w0 h')))
    with (n := length (w_lists w remove_list)); [| |lia|].
  - intros n [] w' (p & todo & Hr & Hhd & -> & HIw' & Hm & Hn & Hl & _ & Ho). destruct todo; [|done].
    rewrite app_nil_r in Hr. split_and!; try done.
    + intros a e He _. rewrite Hm. by apply (sb_same _ _ HB).
    + intros a e. rewrite Hm, Hn. apply (sb_addr _ _ HB).
    + rewrite Hl, <- Hr. apply (sb_perm _ _ HB).
    + intros a Ha. destruct (proj2 Hlive a Ha) as (e & He & _). rewrite Hm, He. by apply (sb_same _ _ HB).
  - intros n a [] w' (p & todo & Hr & Hhd & -> & HIw' & Hm & Hn & Hl & Hrl & Ho).
    destruct todo as [|a' rest]; [done|]. injection Hhd as ->. exists (length rest). split; [done|].
    pose proof (sub_base_nodup _ _ HB) as Hnd. rewrite Hr in Hnd.
    rewrite app_assoc in Hnd. pose proof Hnd as (_ & Hd & Hnd2)%NoDup_app.
    apply wp_bind, wp_modify, wp_bind, wp_modify, wp_ret. simpl. exists (p ++ [a']), rest.
    split_and!; try done.
    + by rewrite <- app_assoc.
    + rewrite Hrl. by apply (succ_of_app [] a' rest).
    + by do 2 apply (by_lists _ HBy).
    + rewrite list_update_eq, decide_True, Hl by done. unfold glist_add_tail.
      rewrite glist_del_notin; [by rewrite <- app_assoc|]. intros Ha. apply (Hd a' Ha). by left.
    + rewrite list_update_ne, decide_True, Hrl by done. by apply (glist_del_middle a' []).
    + intros h' Hel. pose proof Hel as (Hh' & ? & ? & ?).
      rewrite list_update_ne, decide_True, Ho by done. apply glist_del_notin. intros Ha.
      destruct (Hothers h' a' Hel Ha) as [Hno _]. apply Hno.
      rewrite <- (sb_perm _ _ HB), Hr, app_assoc, elem_of_app. right. by left.
  - exists [], (w_lists w remove_list). rewrite app_nil_r. destruct HB. split_and!; done.
Qed.
End subtract.

Lemma wp_subtract {FS} {env : OwnerEnv} (I : world FS -> Prop) (HBy : bystander I) (h : list_head)
    (owner state : option loc) (lk : fsal_lock_param_t) (w : world FS) :
  link_of h = sle_list -> h <> split_lock_list -> h <> remove_list ->
  live_list (w_locks w) (w_lists w h) ->
  (forall h' a, elsewhere h h' -> a ∈ w_lists w h' ->
     ~ (a ∈ w_lists w h) /\ is_Some (w_locks w !! a)) ->
  range_ok lk -> addresses_ok w -> I w ->
  wp (subtract_lock_from_list owner state lk h) (subtracted h owner state lk w I) w.
Proof.
  intros Hh Hhs Hhr Hlive Hothers Hlk Hadr HIw. unfold subtract_lock_from_list.
  apply wp_bind, wp_modify, wp_bind, wp_modify, wp_bind.
  eapply wp_mono; [|apply (wp_subtract_loop h owner state lk w I HBy Hh Hhs Hhr Hlive Hothers Hlk)].
  - intros [status removed] w1 Hloop. apply wp_bind.
    eapply (wp_mono _ (fun _ => subtracted h owner state lk w I (status, removed)));
      [intros [] w2 Hpost; by apply wp_ret|].
    destruct (decide (status = STATE_SUCCESS)) as [->|Hne].
    + destruct Hloop as (kept & HK & Hrm). by apply (wp_rejoin h owner state lk w I) with kept.
    + assert (Hfail : status = STATE_MALLOC_ERROR /\ ~ memory_ok w /\ exists l, sub_base h w I l w1)
        by (destruct status; done).
      destruct Hfail as (-> & Hmem & l & HB). by apply (wp_restore h owner state lk w I) with l.
  - apply sub_inv_start; try done; cbn [w_lists set_lists];
      rewrite ?list_update_ne by done; rewrite ?list_update_ne, ?list_update_eq by done; try done.
    + intros h' (? & ? & ? & ?). by rewrite !list_update_ne.
    + by do 2 apply (by_lists _ HBy).
Qed.

(** C19: [subtract_lock_from_list] takes a range from a list of locks and always
    ends.  With memory it succeeds: of the granted locks it is asked to take from,
    each owner keeps, with the same type, exactly the bytes outside the range, every
    other lock stays on the list as it is, the entries on the list are well-formed
    again, and the flag it returns says whether an entry was replaced.  Without
    memory it fails and the list has the same entries, unchanged.  Entries of other
    lists are not touched in either case. *)
Theorem subtract_lock_from_list_correct {FS} {env : OwnerEnv} (h : list_head)
    (owner state : option loc) (lk : fsal_lock_param_t) (w : world FS) :
  link_of h = sle_list -> h <> split_lock_list -> h <> remove_list ->
  live_list (w_locks w) (w_lists w h) ->
  (forall h' a, elsewhere h h' -> a ∈ w_lists w h' ->
     ~ (a ∈ w_lists w h) /\ is_Some (w_locks w !! a)) ->
  range_ok lk -> addresses_ok w ->
  wp (subtract_lock_from_list owner state lk h) (subtracted h owner state lk w (fun _ => True)) w.
Proof. intros. apply wp_subtract; try done. Qed.

Section examples.
#[local] Existing Instance LockExamples.owners.
Import LockExamples.

(** Owner 5 has the bytes 0 to 99 locked for writing, owner 6 the bytes 10 to 19
    for reading; owner 5 unlocks the bytes 20 to 29. *)
Lemma subtract_lock_from_list_correct_witness :
  let w := locked_file (lock 5 FSAL_LOCK_R 0 1) [lock 5 FSAL_LOCK_W 0 100; lock 6 FSAL_LOCK_R 10 20] in
  let range := mk_lock_param FSAL_POSIX_LOCK FSAL_LOCK_W 20 10 false in
  let h := file_lock_list 1 in
  wp (subtract_lock_from_list (Some 5%positive) None range h) (fun r w' =>
    r.1 = STATE_SUCCESS /\
    let holds := held_if (concerned (Some 5%positive) None) (w_locks w') (w_lists w' h) in
    ~ holds 5%positive FSAL_LOCK_W 25 /\ holds 5%positive FSAL_LOCK_W 30 /\
    w_locks w' !! 12%positive = Some (lock 6 FSAL_LOCK_R 10 20)) w.
Proof.
  intros w range h.
  assert (Hlist : w_lists w h = [11; 12]%positive) by done.
  assert (Hl11 : w_locks w !! 11%positive = Some (lock 5 FSAL_LOCK_W 0 100)) by done.
  assert (Hl12 : w_locks w !! 12%positive = Some (lock 6 FSAL_LOCK_R 10 20)) by done.
  assert (Hlive : forall o t s n, range_ok (sle_lock (lock o t s n)) -> live (lock o t s n))
    by (intros; split_and!; [done|done|by eexists]).
  eapply wp_mono; [|apply (subtract_lock_from_list_correct h (Some 5%positive) None range w)]; try done.
  - intros [status removed] w' (_ & _ & _ & _ & Hcase).
    assert (Hmem : memory_ok w) by constructor.
    destruct status; try by (destruct Hcase as (_ & Hn & _)).
    destruct Hcase as (_ & _ & Hbytes & Hspared & _). cbv zeta. split_and!; [done|..].
    + intros [_ Hn]%Hbytes. apply Hn. split; by vm_compute.
    + apply Hbytes. split; [|intros [_ Hend]; by vm_compute in Hend].
      exists 11%positive, (lock 5 FSAL_LOCK_W 0 100). rewrite Hlist, elem_of_cons.
      split; [by left|]. split; [done|]. split; [by vm_compute|].
      split; [split; [done|by exists 5%positive]|]. split; [done|]. split; by vm_compute.
    + apply (Hspared 12%positive (lock 6 FSAL_LOCK_R 10 20)); [by vm_compute|].
      rewrite Hlist, !elem_of_cons. auto.
  - rewrite Hlist. split; [by apply (bool_decide_unpack _)|].
    intros a. rewrite !elem_of_cons, elem_of_nil. intros [->|[->|[]]]; eexists; (split; [done|]);
      apply Hlive; by vm_compute.
  - intros h' a (_ & Hne & _). simpl. rewrite list_update_ne by done. by intros ?%elem_of_nil.
  - intros a e He. assert (Hall : map_Forall (fun a _ => (a < w_next w)%positive) (w_locks w))
      by by apply (bool_decide_unpack _).
    by apply (Hall a e He).
Defined.
End examples.
