(* ===== verification/LockCalm.v ===== *)
(** [merge_lock_entry] under all circumstances, also without memory and for locks
    that reach the end of the file: it ends, it gives the owner no byte the owner
    did not have or ask for, and it leaves everything of other owners alone. *)

From S2P Require Import Prelude Status World Owner LockList LockHeap LockMerge.

Section calm.
Context {FS : Type} {env : OwnerEnv}.
Implicit Types w : world FS.

(** The file, the new lock, its owner, and the store at the start. *)
Variables (entry x o : loc) (e0 : state_lock_entry_t) (w0 : world FS).
Abbreviation h := (file_lock_list entry).
Abbreviation L0 := (w_lists w0 h).
Abbreviation m0 := (w_locks w0).

Hypothesis Hg0 : granted_to o e0.
Hypothesis Hadr0 : addresses_ok w0.
Hypothesis Hothers : forall h' a, elsewhere h h' -> a ∈ w_lists w0 h' ->
  ~ (a ∈ L0) /\ is_Some (m0 !! a).
(** Some property of the rest of the store. *)
Variable I : world FS -> Prop.
Hypothesis HI : bystander I.

Record calm w : Prop := {
  ca_live : live_list (w_locks w) (w_lists w h);
  ca_new : exists ex, w_locks w !! x = Some ex /\ live ex /\ reranged e0 ex;
  ca_others : forall a e, ~ granted_to o e ->
    (a ∈ w_lists w h /\ w_locks w !! a = Some e) <-> (a ∈ L0 /\ m0 !! a = Some e);
  ca_mono : forall t b, held (w_locks w) (x :: w_lists w h) o t b -> held m0 (x :: L0) o t b;
  ca_frame : forall a e, m0 !! a = Some e -> ~ (a ∈ L0) -> a <> x -> w_locks w !! a = Some e;
  ca_in : forall a, a ∈ w_lists w h -> a ∈ L0 \/ m0 !! a = None;
  ca_self : x ∈ w_lists w h <-> x ∈ L0;
  ca_lists : forall h', elsewhere h h' -> w_lists w h' = w_lists w0 h';
  ca_inv : I w;
  ca_addr : addresses_ok w;
  ca_next : (w_next w0 <= w_next w)%positive;
  ca_mem : memory_ok w0 -> memory_ok w;
  ca_grow : forall ex b, w_locks w !! x = Some ex -> in_range (sle_lock e0) b -> in_range (sle_lock ex) b
}.

Lemma calm_new_granted w ex : calm w -> w_locks w !! x = Some ex -> granted_to o ex.
Proof. intros [_ (e & He & _ & s & n & ->) _ _ _ _ _ _ _ _ _ _ _] Hx. simplify_eq. done. Qed.

Lemma calm_not_listed w a h' : calm w -> elsewhere h h' ->
  a ∈ w_lists w h -> ~ (a ∈ w_lists w h').
Proof.
  intros HC Hh' Ha. rewrite (ca_lists _ HC) by done. intros Hin.
  destruct (Hothers h' a Hh' Hin) as [Hno [e He]].
  destruct (ca_in _ HC a Ha) as [?|?]; [done|congruence].
Qed.

(** A lock of the owner is merged into the new one. *)
Lemma calm_absorb w a ck ex ex' w' :
  calm w -> a ∈ w_lists w h -> a <> x -> w_locks w !! a = Some ck -> granted_to o ck ->
  w_locks w !! x = Some ex -> reranged ex ex' -> range_ok (sle_lock ex') ->
  (forall b, in_range (sle_lock ex') b -> in_range (sle_lock ex) b \/
     (in_range (sle_lock ck) b /\ lock_type (sle_lock ck) = lock_type (sle_lock e0))) ->
  (forall b, in_range (sle_lock ex) b -> in_range (sle_lock ex') b) ->
  released a (set_locks (<[x := ex']>) w) w' -> I w' -> calm w'.
Proof.
  intros HC Ha Hax Hck Hg Hx (s & n & Hex') Hok Hsub Hsup (Hoff & _ & Hwo & Hnext & Hch) HI'.
  pose proof (calm_new_granted _ _ HC Hx) as Hgx.
  assert (Hnotin := fun h' => calm_not_listed w a h' HC).
  destruct HC as [[Hnd Hall] (ex0 & Hx0 & Hlx & s0 & n0 & Hr) Hoth Hmono Hfr Hin Hself Hls HI0 Hadr Hnx Hmem Hgrow].
  rewrite Hx in Hx0. injection Hx0 as <-. simpl in Hoff, Hnext, Hch.
  assert (Hty' : lock_type (sle_lock ex') = lock_type (sle_lock ex)) by (by rewrite Hex').
  assert (Hty0 : lock_type (sle_lock ex) = lock_type (sle_lock e0)) by (by rewrite Hr).
  assert (Hgx' : granted_to o ex') by (by rewrite Hex').
  assert (Hr' : reranged e0 ex') by (exists s, n; by rewrite Hex', Hr).
  assert (Hlx' : live ex') by (destruct Hlx as (? & _ & ?); rewrite Hex' in *; by split_and!).
  clear Hex' Hr.
  assert (Hxw : w_locks w' !! x = Some ex') by (rewrite Hoff by done; apply lookup_insert_eq).
  assert (Hold : forall a', a' <> a -> a' <> x -> w_locks w' !! a' = w_locks w !! a').
  { intros a' ? ?. rewrite Hoff by done. by rewrite lookup_insert_ne. }
  assert (Hl : w_lists w' h = glist_del a (w_lists w h)) by (by rewrite Hwo).
  split.
  - rewrite Hl. split; [by apply glist_del_nodup|]. intros a' [? Ha']%elem_of_glist_del.
    destruct (decide (a' = x)) as [->|]; [by exists ex'|]. rewrite Hold by done. auto.
  - by exists ex'.
  - intros a' e Hng. rewrite <- Hoth, Hl, elem_of_glist_del by done. split.
    + intros [[? ?] He]. destruct (decide (a' = x)) as [->|]; [by simplify_eq|].
      rewrite Hold in He by done. done.
    + intros [? He]. assert (a' <> a) by congruence. assert (a' <> x) by congruence.
      by rewrite Hold.
  - intros t b (a' & e & Ha' & He & Hge & Ht & Hb). apply Hmono.
    apply elem_of_cons in Ha' as [->|Ha'].
    + simplify_eq. destruct (Hsub b Hb) as [Hb'|[Hb' Hty]].
      * eapply held_intro; [left|exact Hx|done|congruence|done].
      * eapply held_intro; [right; exact Ha|exact Hck|done|congruence|done].
    + rewrite Hl in Ha'. apply elem_of_glist_del in Ha' as [? Ha'].
      destruct (decide (a' = x)) as [->|Hx'].
      * simplify_eq. destruct (Hsub b Hb) as [Hb'|[Hb' Hty]].
        -- eapply held_intro; [left|exact Hx|done|congruence|done].
        -- eapply held_intro; [right; exact Ha|exact Hck|done|congruence|done].
      * rewrite Hold in He by done. by eapply held_intro; [right|..].
  - intros a' e He Hno Hx'. rewrite Hold; [by apply Hfr|intros ->|done].
    destruct (Hin a Ha) as [?|?]; [done|congruence].
  - intros a'. rewrite Hl. intros [_ ?]%elem_of_glist_del. auto.
  - rewrite Hl, elem_of_glist_del, <- Hself. split; [by intros [_ ?]|by split].
  - intros h' Hh'. rewrite Hwo by apply Hh'. simpl. rewrite <- Hls by done.
    apply glist_del_notin. auto.
  - done.
  - intros a' e He. rewrite Hnext. destruct (decide (a' = a)) as [->|]; [by eapply Hadr|].
    destruct (decide (a' = x)) as [->|]; [by eapply Hadr|]. rewrite Hold in He by done. by eapply Hadr.
  - by rewrite Hnext.
  - intros Hm. unfold memory_ok. rewrite Hch. by apply Hmem.
  - intros ex1 b Hex1 Hb. simplify_eq. eauto.
Qed.

(** A lock of the owner gets smaller. *)
Lemma calm_shrink w a ck la :
  calm w -> a ∈ w_lists w h -> a <> x -> w_locks w !! a = Some ck -> granted_to o ck ->
  range_ok la -> lock_type la = lock_type (sle_lock ck) ->
  (forall b, in_range la b -> in_range (sle_lock ck) b) ->
  calm (set_locks (<[a := with_lock (fun _ => la) ck]>) w).
Proof.
  intros HC Ha Hax Hck Hg Hok Hty Hsub.
  destruct HC as [[Hnd Hall] (ex & Hx & Hlx & Hr) Hoth Hmono Hfr Hin Hself Hls HI0 Hadr Hnx Hmem Hgrow].
  assert (Hg' : granted_to o (with_lock (fun _ => la) ck)) by done.
  split; try done; simpl.
  - split; [done|]. intros a' Ha'. destruct (decide (a' = a)) as [->|].
    + rewrite lookup_insert_eq. destruct (Hall a Ha) as (? & ? & (Href & _ & Hown)). simplify_eq.
      eexists. split; [done|]. by split_and!.
    + rewrite lookup_insert_ne by done. auto.
  - exists ex. by rewrite lookup_insert_ne.
  - intros a' e Hng. rewrite <- Hoth by done. destruct (decide (a' = a)) as [->|].
    + rewrite lookup_insert_eq. split; intros [_ ?]; simplify_eq; done.
    + by rewrite lookup_insert_ne.
  - intros t b (a' & e & Ha' & He & Hge & Ht & Hb). apply Hmono.
    destruct (decide (a' = a)) as [->|].
    + rewrite lookup_insert_eq in He. simplify_eq. simpl in *.
      eapply held_intro; [right; exact Ha|exact Hck|done|by rewrite <- Hty|by apply Hsub].
    + rewrite lookup_insert_ne in He by done. by exists a', e.
  - intros a' e He Hno Hx'. rewrite lookup_insert_ne; [by apply Hfr|].
    intros <-. destruct (Hin a Ha); [done|congruence].
  - by apply (by_range _ HI); [..|apply Hg].
  - intros a' e. simpl. destruct (decide (a' = a)) as [->|].
    + intros _. by eapply Hadr.
    + rewrite lookup_insert_ne by done. apply Hadr.
  - intros ex1 b. rewrite lookup_insert_ne by done. eauto.
Qed.

(** A part of a lock of the owner becomes an entry of its own. *)
Lemma calm_piece w a ck er w' :
  calm w -> a ∈ w_lists w h -> w_locks w !! a = Some ck -> live er -> granted_to o er ->
  granted_to o ck -> lock_type (sle_lock er) = lock_type (sle_lock ck) ->
  (forall b, in_range (sle_lock er) b -> in_range (sle_lock ck) b) ->
  w_locks w' = <[w_next w := er]> (w_locks w) -> w_next w' = Pos.succ (w_next w) ->
  (forall h', link_of h' = sle_list -> w_lists w' h' =
     if decide (h' = h) then w_lists w h ++ [w_next w] else w_lists w h') ->
  w_choices w' = tail (w_choices w) -> I w' -> calm w'.
Proof.
  intros HC Ha Hck Hle Hger Hg Hty Hsub Hm Hn Hl Hch HI'.
  destruct HC as [[Hnd Hall] (ex & Hx & Hlx & Hr) Hoth Hmono Hfr Hin Hself Hls HI0 Hadr Hnx Hmem Hgrow].
  set (r := w_next w) in *.
  assert (Hfresh : w_locks w !! r = None).
  { destruct (w_locks w !! r) as [e|] eqn:E; [|done]. apply Hadr in E. subst r. lia. }
  assert (Hlh : w_lists w' h = w_lists w h ++ [r]) by (by rewrite Hl, decide_True).
  assert (Hrl : r ∉ w_lists w h). { intros (e & ? & _)%Hall. congruence. }
  assert (Hold : forall a', a' <> r -> w_locks w' !! a' = w_locks w !! a').
  { intros a' ?. by rewrite Hm, lookup_insert_ne. }
  split.
  - rewrite Hlh. split.
    + apply NoDup_app. split_and!; [done| |apply NoDup_singleton]. by intros ? ? ->%list_elem_of_singleton.
    + intros a' [Ha'| ->%list_elem_of_singleton]%elem_of_app.
      * rewrite Hold by congruence. auto.
      * exists er. by rewrite Hm, lookup_insert_eq.
  - exists ex. rewrite Hold by congruence. auto.
  - intros a' e Hng. rewrite <- Hoth, Hlh, elem_of_app, list_elem_of_singleton by done.
    destruct (decide (a' = r)) as [->|].
    + rewrite Hm, lookup_insert_eq. split; [by intros [_ [= <-]]|by intros [? _]].
    + rewrite Hold by done. tauto.
  - intros t b (a' & e & Ha' & He & Hge & Ht & Hb). apply Hmono.
    destruct (decide (a' = r)) as [->|Hne].
    + rewrite Hm, lookup_insert_eq in He. simplify_eq.
      eapply held_intro; [right; exact Ha|exact Hck|done|by symmetry|by apply Hsub].
    + rewrite Hold in He by done. exists a', e. split; [|done].
      rewrite Hlh, elem_of_cons, elem_of_app, list_elem_of_singleton in Ha'.
      rewrite elem_of_cons. tauto.
  - intros a' e He Hno Hx'. pose proof (Hfr _ _ He Hno Hx'). rewrite Hold; [done|]. congruence.
  - intros a'. rewrite Hlh, elem_of_app, list_elem_of_singleton. intros [?| ->]; [auto|]. right.
    destruct (m0 !! r) as [e|] eqn:E; [|done]. apply Hadr0 in E. subst r. lia.
  - rewrite Hlh, elem_of_app, list_elem_of_singleton, <- Hself. split; [|by left].
    intros [?|Heq]; [done|]. congruence.
  - intros h' Hh'. rewrite Hl, decide_False by apply Hh'. auto.
  - done.
  - intros a' e. rewrite Hm, Hn. destruct (decide (a' = r)) as [->|Hne]; [subst r; lia|].
    rewrite lookup_insert_ne by done. intros He%Hadr. subst r. lia.
  - rewrite Hn. subst r. lia.
  - intros Hm0. specialize (Hmem Hm0). unfold memory_ok in *. rewrite Hch.
    by destruct (w_choices w); [|apply Forall_cons in Hmem as [_ ?]].
  - intros ex1 b. rewrite Hold by congruence. eauto.
Qed.

(** ** The loop *)

Definition steady (n : nat) (node : option loc) w : Prop := exists done todo ex,
  w_lists w h = done ++ todo /\ node = head todo /\ calm w /\ w_locks w !! x = Some ex /\
  (rounds (w_locks w) (lock_start (sle_lock ex)) todo <= n)%nat.

(** The rounds that are left after one that did not add to the list. *)
Lemma rounds_next m m' s ex' a rest n :
  (rounds m s (a :: rest) <= S n)%nat -> NoDup (a :: rest) ->
  (forall a', a' <> a -> a' <> x -> m' !! a' = m !! a') -> m' !! x = Some ex' ->
  lock_start (sle_lock ex') <= s ->
  (rounds m' (lock_start (sle_lock ex')) rest + weight m s a <= S n)%nat.
Proof.
  intros Hn [Ha _]%NoDup_cons Hoff Hx Hs.
  pose proof (rounds_mono m m' s (lock_start (sle_lock ex')) x ex' rest) as Hmono.
  assert (rounds m' (lock_start (sle_lock ex')) rest <= rounds m s rest)%nat.
  { apply Hmono; [|done|done|done]. intros a' Ha' Hx'. apply Hoff; [|done]. by intros ->. }
  unfold rounds in *. simpl in Hn. lia.
Qed.

Lemma steady_skip n w done a rest ex :
  w_lists w h = done ++ a :: rest -> calm w -> w_locks w !! x = Some ex ->
  (rounds (w_locks w) (lock_start (sle_lock ex)) (a :: rest) <= S n)%nat ->
  steady n (head rest) w.
Proof.
  intros Hl HC Hx Hn. exists (done ++ [a]), rest, ex. split_and!; try done.
  - by rewrite Hl, <- app_assoc.
  - simpl in Hn. pose proof (weight_pos (w_locks w) (lock_start (sle_lock ex)) a). unfold rounds in *. lia.
Qed.

Lemma steady_absorb n w done a rest ex ck (start end_ : Z) :
  w_lists w h = done ++ a :: rest -> calm w -> w_locks w !! x = Some ex ->
  (rounds (w_locks w) (lock_start (sle_lock ex)) (a :: rest) <= S n)%nat ->
  a <> x -> w_locks w !! a = Some ck -> granted_to o ck -> range_ok (sle_lock ck) ->
  0 <= start <= lock_start (sle_lock ex) -> start <= end_ <= UINT64_MAX -> lock_end (sle_lock ex) <= end_ ->
  (forall b, start <= b <= end_ -> in_range (sle_lock ex) b \/
     (in_range (sle_lock ck) b /\ lock_type (sle_lock ck) = lock_type (sle_lock e0))) ->
  wp (upd_lock x (with_lock (fun l => with_length (u64 (end_ - start + 1)) (with_start start l)));;
      remove_from_locklist a) (fun _ w' => steady n (head rest) w') w.
Proof.
  intros Hl HC Hx Hn Hax Hck Hg Hokc Hst Hen Hge Hcov.
  destruct (set_range_ok (sle_lock ex) start end_ ltac:(lia) ltac:(lia)) as (Hok' & Hst' & Hen').
  apply wp_bind, (wp_upd_lock _ _ ex _ _ Hx). cbv beta.
  set (ex' := with_lock _ ex).
  assert (Hxa : w_locks (set_locks (<[x := ex']>) w) !! a = Some ck) by (simpl; by rewrite lookup_insert_ne).
  apply (wp_keep I).
  { intros [] w'. apply (by_remove _ HI _ a ck); [|done| |apply Hg].
    - apply (by_range _ HI); [by apply ca_inv|done|]. by apply (calm_new_granted w ex).
    - destruct Hg as (_ & o' & -> & _). by eexists. }
  apply (wp_remove a ck); [done|]. intros w' Hrel HI'.
  assert (Hin : a ∈ w_lists w h) by (rewrite Hl, elem_of_app, elem_of_cons; tauto).
  assert (HC' : calm w').
  { eapply (calm_absorb w a ck ex ex'); try done.
    - by exists start, (u64 (end_ - start + 1)).
    - intros b Hb. apply Hcov. destruct Hb as [Hb1 Hb2].
      change (sle_lock ex') with (with_length (u64 (end_ - start + 1)) (with_start start (sle_lock ex))) in Hb1, Hb2.
      lia.
    - intros b. unfold in_range.
      change (sle_lock ex') with (with_length (u64 (end_ - start + 1)) (with_start start (sle_lock ex))). lia. }
  pose proof (proj1 (ca_live _ HC)) as Hnd. rewrite Hl in Hnd.
  destruct Hrel as (Hoff & _ & Hwo & _). simpl in Hoff.
  exists done, rest, ex'. split_and!; try done.
  - rewrite Hwo by done. simpl. rewrite Hl. by apply glist_del_middle.
  - rewrite Hoff by done. apply lookup_insert_eq.
  - apply NoDup_app in Hnd as (_ & _ & Hnd).
    pose proof (weight_pos (w_locks w) (lock_start (sle_lock ex)) a).
    enough (rounds (w_locks w') (lock_start (sle_lock ex')) rest +
            weight (w_locks w) (lock_start (sle_lock ex)) a <= S n)%nat by lia.
    apply rounds_next; try done.
    + intros a' ? ?. rewrite Hoff by done. by rewrite lookup_insert_ne.
    + rewrite Hoff by done. apply lookup_insert_eq.
    + simpl. lia.
Qed.

Lemma steady_shrink n w done a rest ex ck la :
  w_lists w h = done ++ a :: rest -> calm w -> w_locks w !! x = Some ex ->
  (rounds (w_locks w) (lock_start (sle_lock ex)) (a :: rest) <= S n)%nat ->
  a <> x -> w_locks w !! a = Some ck -> granted_to o ck ->
  range_ok la -> lock_type la = lock_type (sle_lock ck) ->
  (forall b, in_range la b -> in_range (sle_lock ck) b) ->
  steady n (head rest) (set_locks (<[a := with_lock (fun _ => la) ck]>) w).
Proof.
  intros Hl HC Hx Hn Hax Hck Hg Hok Hty Hsub.
  assert (Hin : a ∈ w_lists w h) by (rewrite Hl, elem_of_app, elem_of_cons; tauto).
  pose proof (proj1 (ca_live _ HC)) as Hnd. rewrite Hl in Hnd.
  exists (done ++ [a]), rest, ex. split_and!; try done.
  - simpl. by rewrite Hl, <- app_assoc.
  - by apply calm_shrink.
  - simpl. by rewrite lookup_insert_ne.
  - apply NoDup_app in Hnd as (_ & _ & Hnd).
    pose proof (weight_pos (w_locks w) (lock_start (sle_lock ex)) a).
    enough (rounds (<[a := with_lock (fun _ => la) ck]> (w_locks w)) (lock_start (sle_lock ex)) rest +
            weight (w_locks w) (lock_start (sle_lock ex)) a <= S n)%nat by (simpl; lia).
    apply rounds_next; try done.
    + intros a' ? ?. by rewrite lookup_insert_ne.
    + by rewrite lookup_insert_ne.
Qed.

(** The new entry [r] is visited, unless [a] was the last of the list. *)
Lemma steady_split n w w' done a rest ex ck la r :
  w_lists w h = done ++ a :: rest -> calm w -> calm w' -> w_locks w !! x = Some ex ->
  (rounds (w_locks w) (lock_start (sle_lock ex)) (a :: rest) <= S n)%nat ->
  a <> x -> w_locks w !! a = Some ck -> lock_start (sle_lock ck) < lock_start (sle_lock ex) ->
  w_lists w' h = (done ++ a :: rest) ++ [r] ->
  (forall a', a' <> a -> a' <> x -> a' <> r -> w_locks w' !! a' = w_locks w !! a') ->
  w_locks w' !! x = Some ex -> w_locks w' !! r = Some la ->
  lock_start (sle_lock ex) <= lock_start (sle_lock la) ->
  steady n (head rest) w'.
Proof.
  intros Hl HC HC' Hx Hn Hax Hck Hlt Hl' Hoff Hx' Hr Hge.
  assert (Hrounds : (rounds (w_locks w') (lock_start (sle_lock ex)) rest + 2 <= S n)%nat).
  { pose proof (proj1 (ca_live _ HC)) as Hnd. rewrite Hl in Hnd.
    pose proof (proj1 (ca_live _ HC')) as Hnd'. rewrite Hl' in Hnd'.
    apply NoDup_app in Hnd as (_ & _ & [Ha Hnd]%NoDup_cons). apply NoDup_app in Hnd' as (_ & Hd & _).
    simpl in Hn. unfold rounds, weight at 1 in Hn. rewrite Hck in Hn.
    replace (_ <? _) with true in Hn by (symmetry; by apply Z.ltb_lt).
    fold (rounds (w_locks w) (lock_start (sle_lock ex)) rest) in Hn.
    enough (rounds (w_locks w') (lock_start (sle_lock ex)) rest <=
            rounds (w_locks w) (lock_start (sle_lock ex)) rest)%nat by lia.
    apply (rounds_mono _ _ _ _ x ex); [|done|done|done]. intros a' Ha' Hax'.
    apply Hoff; [by intros ->|done|]. intros ->.
    apply (Hd r); [rewrite elem_of_app, elem_of_cons; tauto|by left]. }
  destruct rest as [|b rest].
  - exists ((done ++ [a]) ++ [r]), [], ex. split_and!; try done; [|simpl; lia].
    rewrite Hl'. by rewrite app_nil_r.
  - exists (done ++ [a]), ((b :: rest) ++ [r]), ex. split_and!; try done.
    + rewrite Hl'. by rewrite <- !app_assoc.
    + unfold rounds in *. rewrite sum_list_with_app.
      assert (weight (w_locks w') (lock_start (sle_lock ex)) r = 1%nat).
      { unfold weight. rewrite Hr. by destruct (Z.ltb_spec (lock_start (sle_lock la)) (lock_start (sle_lock ex))); [lia|]. }
      simpl in Hrounds |- *. lia.
Qed.

(** The second branch of [merge_check]: the parts of the lock left and right of
    the new lock. *)
Lemma steady_cut n w done a rest ex ck :
  w_lists w h = done ++ a :: rest -> calm w -> w_locks w !! x = Some ex ->
  (rounds (w_locks w) (lock_start (sle_lock ex)) (a :: rest) <= S n)%nat ->
  a <> x -> w_locks w !! a = Some ck -> live ck -> granted_to o ck -> range_ok (sle_lock ex) ->
  let cs := lock_start (sle_lock ck) in let ce := lock_end (sle_lock ck) in
  let s := lock_start (sle_lock ex) in let e := lock_end (sle_lock ex) in
  s <= ce + 1 -> cs <= e + 1 -> e < ce \/ cs < s ->
  wp (right ← (if (e <? ce) && (cs <? s) then
                 dup ← state_lock_entry_t_dup a;
                 match dup with
                 | Some r => add_tail (file_lock_list entry) r;; mret (Some r)
                 | None => mret None
                 end
               else mret (Some a));
      match right with
      | None => mret tt
      | Some r =>
          when (e <? ce) (upd_lock r (with_lock (fun l =>
            with_length (u64 (ce - e)) (with_start (u64 (e + 1)) l))));;
          check ← get_lock a;
          when (lock_start (sle_lock check) <? s) (upd_lock a (with_lock
            (with_length (u64 (s - lock_start (sle_lock check))))))
      end) (fun _ w' => steady n (head rest) w') w.
Proof.
  intros Hl HC Hx Hn Hax Hck Hlck Hg Hokx cs ce s e Hnear1 Hnear2 Hpart.
  pose proof Hlck as (_ & Hokc & oc & Hoc).
  assert (Hin : a ∈ w_lists w h) by (rewrite Hl, elem_of_app, elem_of_cons; tauto).
  pose proof (lock_end_bounds _ Hokx) as Hbx. pose proof (lock_end_bounds _ Hokc) as Hbc.
  assert (Hpos : 0 <= cs /\ 0 <= s) by (destruct Hokx as [? _], Hokc as [? _]; lia).
  fold cs ce in Hbc. fold s e in Hbx.
  assert (Hleft : cs < s -> let la := with_length (u64 (s - cs)) (sle_lock ck) in
    range_ok la /\ lock_start la = cs /\ lock_end la = s - 1).
  { intros Hlt. replace (s - cs) with (s - 1 - cs + 1) by lia.
    rewrite <- (with_start_same (sle_lock ck)). apply set_range_ok; lia. }
  assert (Hright : forall l, e < ce ->
    let la := with_length (u64 (ce - e)) (with_start (u64 (e + 1)) l) in
    range_ok la /\ lock_start la = e + 1 /\ lock_end la = ce).
  { intros l Hlt. rewrite (u64_small (e + 1)) by lia.
    replace (ce - e) with (ce - (e + 1) + 1) by lia. apply set_range_ok; lia. }
  destruct (Z.ltb_spec e ce) as [He|He], (Z.ltb_spec cs s) as [Hs|Hs]; cbn [andb when];
    [| | |lia].
  - destruct (Hleft Hs) as (Hla & Hlas & Hlae). destruct (Hright (sle_lock ck) He) as (Hra & Hras & Hrae).
    apply wp_bind, wp_bind, (wp_keep I).
    { intros r w1. apply (by_dup _ HI _ a ck); [by apply ca_inv|done|apply Hg]. }
    apply (wp_dup a ck oc); [done|done| |].
    + intros w1 Hm1 Hl1 Hn1 Hc1 HI1. apply wp_bind, wp_modify, wp_ret.
      set (r := w_next w) in *.
      assert (Hra' : r <> a) by (intros <-; apply (ca_addr _ HC) in Hck; subst r; lia).
      assert (Hrx : r <> x) by (intros <-; apply (ca_addr _ HC) in Hx; subst r; lia).
      apply wp_bind. eapply wp_upd_lock; [simpl; rewrite Hm1; apply lookup_insert_eq|].
      set (w2 := set_locks _ _). set (er := with_lock _ (mk_lock_entry _ _ _ _ _ _ _ _ _)) in w2.
      assert (HC2 : calm w2).
      { apply (calm_piece w a ck er w2); try done.
        - split; [done|]. split; [exact Hra|by eexists].
        - destruct Hg as (? & o' & ? & ?). split; [done|]. by exists oc; simplify_eq.
        - intros b. unfold in_range. simpl sle_lock. rewrite Hras, Hrae. fold cs ce. lia.
        - simpl. rewrite Hm1, insert_insert_eq. done.
        - intros h' Hh'. simpl. destruct (decide (h' = h)) as [->|].
          + by rewrite list_update_eq, Hl1.
          + by rewrite list_update_ne, Hl1.
        - eapply (by_range _ HI); [by apply (by_lists _ HI)| |].
          + simpl. rewrite Hm1. apply lookup_insert_eq.
          + apply Hg. }
      assert (Hm2 : w_locks w2 = <[r := er]> (w_locks w)) by (simpl; by rewrite Hm1, insert_insert_eq).
      assert (Hl2 : w_lists w2 h = (done ++ a :: rest) ++ [r]).
      { simpl. rewrite list_update_eq, Hl1 by done. by rewrite Hl. }
      assert (Hers : lock_start (sle_lock er) = e + 1) by exact Hras.
      clearbody w2 er.
      assert (Hck2 : w_locks w2 !! a = Some ck) by (by rewrite Hm2, lookup_insert_ne).
      apply wp_bind, (wp_deref (fun w => w_locks w !! a) _ _ ck Hck2).
      fold cs. replace (cs <? s) with true by (symmetry; by apply Z.ltb_lt). simpl when.
      apply (wp_upd_lock _ _ ck); [done|].
      apply (steady_split n w _ done a rest ex ck er r); try done; simpl.
      * apply (calm_shrink w2 a ck (with_length (u64 (s - cs)) (sle_lock ck))); try done.
        -- rewrite Hl2, elem_of_app, <- Hl. by left.
        -- intros b. unfold in_range. rewrite Hlas, Hlae. fold cs ce. lia.
      * intros a' ? ? ?. rewrite lookup_insert_ne, Hm2, lookup_insert_ne by done. done.
      * by rewrite lookup_insert_ne, Hm2, lookup_insert_ne.
      * by rewrite lookup_insert_ne, Hm2, lookup_insert_eq.
      * rewrite Hers. lia.
    + intros w1 _ Hm1 Hl1 Hn1 Hc1 HI1. apply wp_ret, wp_ret.
      apply (steady_skip n w1 done a rest ex); [by rewrite Hl1| |by rewrite Hm1|by rewrite Hm1].
      destruct HC. split; rewrite ?Hm1, ?(Hl1 h), ?Hn1 by done; try done.
      * intros h' Hh'. rewrite Hl1; [auto|apply Hh'].
      * intros a' e'. rewrite Hm1, Hn1. apply ca_addr0.
      * intros Hm0. specialize (ca_mem0 Hm0). unfold memory_ok in *. rewrite Hc1.
        by destruct (w_choices w); [|apply Forall_cons in ca_mem0 as [_ ?]].
  - apply wp_bind, wp_ret, wp_bind, (wp_upd_lock _ _ ck); [done|].
    apply wp_bind. eapply (wp_deref (fun w => w_locks w !! a)); [simpl; apply lookup_insert_eq|].
    destruct (Hright (sle_lock ck) He) as (Hra & Hras & Hrae).
    simpl sle_lock. rewrite Hras. replace (e + 1 <? s) with false by (symmetry; apply Z.ltb_ge; lia).
    apply wp_ret. apply (steady_shrink n w done a rest ex ck); try done.
    intros b. unfold in_range. rewrite Hras, Hrae. fold cs ce. lia.
  - apply wp_bind, wp_ret, wp_bind, wp_ret.
    apply wp_bind, (wp_deref (fun w => w_locks w !! a) _ _ ck); [done|].
    fold cs. replace (cs <? s) with true by (symmetry; by apply Z.ltb_lt).
    apply (wp_upd_lock _ _ ck); [done|]. destruct (Hleft Hs) as (Hla & Hlas & Hlae).
    apply (steady_shrink n w done a rest ex ck); try done.
    intros b. unfold in_range. rewrite Hlas, Hlae. fold cs ce. lia.
Qed.

Lemma near_enough s ce : 0 <= s <= UINT64_MAX -> ce <= UINT64_MAX -> 0 <= ce -> s <= u64 (ce + 1) -> s <= ce + 1.
Proof.
  intros Hs Hce Hce0 Hn. destruct (decide (ce = UINT64_MAX)) as [->|]; [lia|].
  rewrite u64_small in Hn by lia. done.
Qed.

Lemma steady_step n w done a rest ex :
  w_lists w h = done ++ a :: rest -> calm w -> w_locks w !! x = Some ex ->
  (rounds (w_locks w) (lock_start (sle_lock ex)) (a :: rest) <= S n)%nat ->
  wp (merge_check entry x a) (fun _ w' => steady n (head rest) w') w.
Proof.
  intros Hl HC Hx Hn. unfold merge_check.
  assert (Hskip : steady n (head rest) w) by (by eapply steady_skip).
  case_decide as Hax; [by apply wp_ret|].
  assert (Hin : a ∈ w_lists w h) by (rewrite Hl, elem_of_app, elem_of_cons; tauto).
  destruct (proj2 (ca_live _ HC) a Hin) as (ck & Hck & Hlck). pose proof Hlck as (_ & Hokc & _).
  pose proof (calm_new_granted _ _ HC Hx) as Hgx.
  assert (Hokx : range_ok (sle_lock ex) /\ lock_type (sle_lock ex) = lock_type (sle_lock e0)).
  { destruct (ca_new _ HC) as (ex1 & ? & (_ & ? & _) & s & k & Hr). simplify_eq. done. }
  destruct Hokx as [Hokx Htx].
  apply wp_bind, (wp_deref (fun w => w_locks w !! a) _ _ ck Hck).
  apply wp_bind, (wp_deref (fun w => w_locks w !! x) _ _ ex Hx).
  destruct (different_owners _ _) eqn:Hd; [by apply wp_ret|].
  case_bool_decide as Hb; [by apply wp_ret|].
  assert (Hg : granted_to o ck) by (by apply (same_granted o ex)).
  pose proof (lock_end_bounds _ Hokx) as Hbx. pose proof (lock_end_bounds _ Hokc) as Hbc.
  assert (Hpos : 0 <= lock_start (sle_lock ck) /\ 0 <= lock_start (sle_lock ex))
    by (destruct Hokx as [? _], Hokc as [? _]; lia).
  destruct (Z.ltb_spec (u64 (lock_end (sle_lock ck) + 1)) (lock_start (sle_lock ex))) as [Hf|Hf];
    [by apply wp_ret|]. apply near_enough in Hf; [|lia..].
  destruct (Z.ltb_spec (u64 (lock_end (sle_lock ex) + 1)) (lock_start (sle_lock ck))) as [Hf'|Hf'];
    [by apply wp_ret|]. apply near_enough in Hf'; [|lia..].
  destruct (bool_decide _ && _) eqn:Hcut.
  - apply andb_true_iff in Hcut as [_ Hp]. apply orb_true_iff in Hp.
    rewrite !Z.ltb_lt in Hp. by apply (steady_cut n w done a rest ex ck).
  - assert (Hty : lock_type (sle_lock ck) = lock_type (sle_lock e0) \/
      lock_start (sle_lock ex) <= lock_start (sle_lock ck) /\ lock_end (sle_lock ck) <= lock_end (sle_lock ex)).
    { rewrite <- Htx. apply andb_false_iff in Hcut as [Ht%bool_decide_eq_false|Ht].
      - left. by apply dec_stable.
      - right. apply orb_false_iff in Ht as [?%Z.ltb_ge ?%Z.ltb_ge]. done. }
    clear Hcut. apply (steady_absorb n w done a rest ex ck); try done;
      destruct (Z.ltb_spec (lock_start (sle_lock ck)) (lock_start (sle_lock ex))),
        (Z.ltb_spec (lock_end (sle_lock ex)) (lock_end (sle_lock ck))); try lia;
      intros b Hb'; unfold in_range; destruct Hty as [Hty|?]; try (left; lia);
      (destruct (decide (lock_start (sle_lock ex) <= b <= lock_end (sle_lock ex)));
         [by left|right; split; [lia|done]]).
Qed.

Lemma wp_calm w :
  w_locks w = m0 -> w_lists w h = L0 -> calm w ->
  wp (merge_lock_entry entry x) (fun _ w' => calm w') w.
Proof.
  intros Hm HL HC. unfold merge_lock_entry, glist_for_each_safe. apply wp_bind, wp_gets.
  destruct (ca_new _ HC) as (ex & Hx & _).
  apply (wp_for_each_safe (fun k node _ => steady k node)) with
    (n := rounds (w_locks w) (lock_start (sle_lock ex)) (w_lists w h)).
  - intros k [] w' (done & todo & ex' & _ & _ & HC' & _). done.
  - intros k a _ w' (done & todo & ex' & Hl & Hhd & HC' & Hx' & Hk).
    destruct todo as [|a' rest]; [done|]. injection Hhd as ->.
    destruct k as [|k]; [simpl in Hk; pose proof (weight_pos (w_locks w') (lock_start (sle_lock ex')) a');
      unfold rounds in *; simpl in Hk; lia|].
    exists k. split; [done|]. apply wp_bind.
    eapply wp_mono; [|by apply (steady_step k w' done a' rest ex')].
    intros [] w'' Hs. apply wp_ret. simpl. rewrite Hl, succ_of_app; [done|].
    rewrite <- Hl. apply (ca_live _ HC').
  - apply rounds_le_length.
  - by exists [], (w_lists w h), ex.
Qed.
End calm.
