(* ===== verification/LockOps.v ===== *)
(** Requests of the lock manager (SAL/state_lock.c): test, lock, unlock and
    cancel, and the grant of blocked locks to NLM clients with its cookies
    ([nlm_granted_callback] and [nlm4_Granted_Res] of Protocols/NLM).

    Output parameters are part of the result.  The statistics of delegations are
    not modelled. *)

From S2P Require Import Prelude Status World Owner CacheEntry LockList.

(** What does not change while the server runs: the owner the code reports for
    locks it knows nothing about, the FSAL export behind an export, the time of
    the start in grant cookies, and the file handle in the block data of an NLM
    request. *)
Class LockEnv := {
  unknown_owner : loc;
  exp_fsal_export : loc -> loc;
  gc_seconds : Z;
  gc_microseconds : Z;
  sbd_nlm_fh : loc -> list Z
}.

(** The two enumerations have the same values. *)
Definition fsal_sle_type_of (t : lock_type_t) : fsal_sle_type :=
  match t with POSIX_LOCK => FSAL_POSIX_LOCK | LEASE_LOCK => FSAL_LEASE_LOCK end.

Section lock_ops.
Context {FS : Type} `{!FsalOps FS} {env : OwnerEnv} {lenv : LockEnv}.
Abbreviation M := (M (world FS)).
Variable fds_hard_limit : Z.

(** * Calls of the FSAL *)

Definition call_lock_op (entry : loc) (owner : option loc) (op : fsal_lock_op_t)
    (lock : fsal_lock_param_t) : M (fsal_errors_t * fsal_lock_param_t) := fun w =>
  let '(err, conflict, fs) := obj_lock_op (w_fs w) entry owner op lock in
  Ret (err, conflict) (set_fs (fun _ => fs) w).

(** [op_ctx->export], which the code follows. *)
Definition ctx_export : M loc :=
  e ← gets w_export; match e with Some a => mret a | None => undef end.
Definition supports (o : fsal_fsinfo_options_t) : M bool :=
  fe ← gets w_fsal_export; mret (fs_supports fe o).

(** One entry of the list of ranges to unlock; the accumulator is [status]. *)
Definition unlock_range (entry found_entry : loc) (status : state_status_t)
    : M (bool * state_status_t) :=
  found ← get_lock found_entry;
  '(major, _) ← call_lock_op entry None FSAL_OP_UNLOCK (sle_lock found);
  when (bool_decide (major = ERR_FSAL_STALE)) (cache_inode_kill_entry entry);;
  remove_from_locklist found_entry;;
  let t_status := state_error_convert major in
  mret (true, if decide (t_status = STATE_SUCCESS) then status else t_status).

Definition do_unlock_no_owner (entry : loc) (lock : fsal_lock_param_t) (sle_type : lock_type_t)
    : M state_status_t :=
  export ← ctx_export;
  unlock_entry ← create_state_lock_entry entry export STATE_NON_BLOCKING unknown_owner None lock sle_type;
  match unlock_entry with
  | None => mret STATE_MALLOC_ERROR
  | Some a =>
      init_list fsal_unlock_list;;
      add_tail fsal_unlock_list a;;
      status ← subtract_list_from_list fsal_unlock_list (file_lock_list entry);
      glist_for_each_safe fsal_unlock_list status (unlock_range entry)
  end.

(** The status, and the owner and the lock of a conflict for callers that pass
    pointers for them ([report]).  The caller's lock is given its [lock_sle_type]
    here; for a lock inside an entry see [do_entry_lock_op]. *)
Definition do_lock_op (entry : loc) (lock_op : fsal_lock_op_t) (owner : option loc)
    (lock : fsal_lock_param_t) (report overlap : bool) (sle_type : lock_type_t)
    : M (state_status_t * option (loc * fsal_lock_param_t)) :=
  let lock := with_sle_type (fsal_sle_type_of sle_type) lock in
  lock_support ← supports fso_lock_support;
  async_block ← supports fso_lock_support_async_block;
  owners ← supports fso_lock_support_owner;
  if negb lock_support
     || (negb async_block && bool_decide (lock_op = FSAL_OP_CANCEL))
     || (negb async_block && overlap)
     || (negb owners && overlap)
  then mret (STATE_SUCCESS, None)
  else
    '(status, conflicting_lock) ←
      (if owners || bool_decide (lock_op <> FSAL_OP_UNLOCK) then
         let lock_op := if bool_decide (lock_op = FSAL_OP_LOCKB) && negb async_block
                        then FSAL_OP_LOCK else lock_op in
         '(major, conflict) ← call_lock_op entry (if owners then owner else None) lock_op lock;
         let status := state_error_convert major in
         mret (if bool_decide (status = STATE_LOCK_BLOCKED) && bool_decide (lock_op <> FSAL_OP_LOCKB)
               then STATE_FSAL_ERROR else status, conflict)
       else
         match owner with
         | None => undef
         | Some o =>
             status ← (if decide (so_type (owner_of o) = STATE_LOCK_OWNER_9P) then mret STATE_SUCCESS
                       else do_unlock_no_owner entry lock sle_type);
             mret (status, lock)
         end);
    if bool_decide (status = STATE_LOCK_CONFLICT) && report then
      ref_add (so_refcount unknown_owner) 1;;
      mret (status, Some (unknown_owner, conflicting_lock))
    else mret (status, None).

(** The operation on the lock of an entry, where [lock_sle_type] is set in place. *)
Definition do_entry_lock_op (entry : loc) (lock_op : fsal_lock_op_t) (lock_entry : loc)
    : M state_status_t :=
  upd_lock lock_entry (with_lock (with_sle_type (fsal_sle_type_of POSIX_LOCK)));;
  e ← get_lock lock_entry;
  '(status, _) ← do_lock_op entry lock_op (sle_owner e) (sle_lock e) false false POSIX_LOCK;
  mret status.

(** * Cookies *)

Definition free_cookie (cookie_entry : loc) (unblock : bool) : M unit :=
  c ← get_cookie cookie_entry;
  when unblock (
    e ← get_lock (sce_lock_entry c);
    match sle_block_data e with
    | Some b => upd_block b (with_cookie None)
    | None => mret tt
    end;;
    lock_entry_dec_ref (sce_lock_entry c));;
  modify (set_cookies (delete cookie_entry)).

(** Asking the FSAL for a lock that is being granted. *)
Definition grant_lock_op (entry lock_entry : loc) (b : state_block_data_t) : M state_status_t :=
  match sbd_grant_type b with
  | STATE_GRANT_NONE => mret STATE_INCONSISTENT_ENTRY
  | STATE_GRANT_FSAL_AVAILABLE => do_entry_lock_op entry FSAL_OP_LOCKB lock_entry
  | STATE_GRANT_INTERNAL => do_entry_lock_op entry FSAL_OP_LOCK lock_entry
  | STATE_GRANT_FSAL => mret STATE_SUCCESS
  end.

(** The status and the new cookie.  The table refuses a cookie it has; it can
    also run out of memory. *)
Definition state_add_grant_cookie (entry : loc) (cookie : list Z) (lock_entry : loc)
    : M (state_status_t * option loc) :=
  e ← get_lock lock_entry;
  match sle_block_data e with
  | None => mret (STATE_INCONSISTENT_ENTRY, None)
  | Some block =>
      if bool_decide (cookie = []) then mret (STATE_INCONSISTENT_ENTRY, None)
      else
        ok ← choose;
        ok' ← (if (ok : bool) then choose else mret false);
        if negb ok' then mret (STATE_MALLOC_ERROR, None)
        else
          hash_entry ← fresh;
          table ← gets w_ht_lock_cookies;
          inserted ← (if bool_decide (table !! cookie = None) then choose else mret false);
          if negb inserted then mret (STATE_HASH_TABLE_ERROR, None)
          else
            modify (set_cookies (<[hash_entry := mk_cookie_entry entry lock_entry cookie]>));;
            modify (set_ht_lock_cookies (<[cookie := hash_entry]>));;
            lock_entry_inc_ref lock_entry;;
            upd_block block (with_cookie (Some hash_entry));;
            b ← get_block block;
            status ← grant_lock_op entry lock_entry b;
            if decide (status = STATE_SUCCESS) then mret (status, Some hash_entry)
            else free_cookie hash_entry false;; mret (status, None)
  end.

Definition state_cancel_grant (cookie_entry : loc) : M state_status_t :=
  c ← get_cookie cookie_entry;
  status ← do_entry_lock_op (sce_entry c) FSAL_OP_UNLOCK (sce_lock_entry c);
  free_cookie cookie_entry true;;
  mret status.

(** The cookie is taken out of the table. *)
Definition state_find_grant (cookie : list Z) : M (state_status_t * option loc) :=
  table ← gets w_ht_lock_cookies;
  match table !! cookie with
  | None => mret (STATE_BAD_COOKIE, None)
  | Some c => modify (set_ht_lock_cookies (delete cookie));; mret (STATE_SUCCESS, Some c)
  end.

(** * Granting *)

(** A [granted_cookie], as the list of its three words: the time the server
    started and a counter. *)
Definition next_granted_cookie : M (list Z) :=
  modify (set_next_cookie (fun n => u64 (n + 1)));;
  n ← gets w_next_cookie;
  mret [gc_seconds; gc_microseconds; n].

Definition state_async_schedule (job : async_job) : M state_status_t :=
  ok ← choose;
  if (ok : bool) then modify (set_async (fun q => q ++ [job]));; mret STATE_SUCCESS
  else mret STATE_SIGNAL_ERROR.

(** Copying a name allocates memory unless it is empty. *)
Definition netobj_alloc (name : list Z) : M bool :=
  if bool_decide (name = []) then mret true else choose.

(** Filling in the arguments of the GRANTED message: the file handle [fh] of the
    request, the owner's name, the cookie and the caller's name. *)
Definition fill_grant_args (fh owner cookie : list Z) : M bool :=
  a ← netobj_alloc fh;
  if negb a then mret false
  else
    b ← netobj_alloc owner;
    if negb b then mret false
    else
      c ← netobj_alloc cookie;
      if negb c then mret false else choose.

Definition nlm_granted_callback (entry lock_entry : loc) : M state_status_t :=
  e ← get_lock lock_entry;
  match sle_owner e, sle_block_data e with
  | Some owner, Some block =>
      let client := so_client (owner_of owner) in
      arg ← choose;
      if negb arg then mret STATE_MALLOC_ERROR
      else
        cookie ← next_granted_cookie;
        '(status, cookie_entry) ← state_add_grant_cookie entry cookie lock_entry;
        match cookie_entry with
        | None => mret status
        | Some c =>
            ref_add (slc_refcount client) 1;;
            get_block block;;
            filled ← fill_grant_args (sbd_nlm_fh block) (so_owner_val (owner_of owner)) cookie;
            status ← (if (filled : bool) then state_async_schedule (job_grant_msg c)
                      else mret STATE_MALLOC_ERROR);
            if decide (status = STATE_SUCCESS) then mret status
            else
              ref_add (slc_refcount client) (-1);;
              state_cancel_grant c;;
              mret status
        end
  | _, _ => undef
  end.

(** The root context of an export: [op_ctx] while the body runs. *)
Definition root_context {A} (export : loc) (body : M A) : M A :=
  saved ← gets w_export;
  saved_fsal ← gets w_fsal_export;
  modify (set_export (fun _ => Some export));;
  modify (set_fsal_export (fun _ => exp_fsal_export export));;
  r ← body;
  modify (set_export (fun _ => saved));;
  modify (set_fsal_export (fun _ => saved_fsal));;
  mret r.

Definition try_to_grant_lock (lock_entry : loc) : M unit :=
  e ← get_lock lock_entry;
  match sle_block_data e with
  | Some block =>
      if decide (sle_blocked e = STATE_CANCELED) then remove_from_locklist lock_entry
      else
        upd_lock lock_entry (with_blocked STATE_GRANTING);;
        b ← get_block block;
        when (bool_decide (sbd_grant_type b = STATE_GRANT_NONE))
          (upd_block block (with_grant_type STATE_GRANT_INTERNAL));;
        ref_add (exp_refcount (sle_export e)) 1;;
        status ← root_context (sle_export e) (nlm_granted_callback (sle_entry e) lock_entry);
        ref_add (exp_refcount (sle_export e)) (-1);;
        if decide (status = STATE_LOCK_BLOCKED) then upd_lock lock_entry (with_blocked (sle_blocked e))
        else if decide (status = STATE_SUCCESS) then mret tt
        else remove_from_locklist lock_entry
  | None => remove_from_locklist lock_entry
  end.

Definition grant_blocked_locks (entry : loc) : M unit :=
  export ← ctx_export;
  if fs_supports (exp_fsal_export export) fso_lock_support_async_block then mret tt
  else
    glist_for_each_safe (file_lock_list entry) tt (fun a _ =>
      found ← get_lock a;
      if bool_decide (sle_blocked found <> STATE_NLM_BLOCKING)
         && bool_decide (sle_blocked found <> STATE_NFSV4_BLOCKING)
      then mret (true, tt)
      else
        conflict ← get_overlapping_entry entry (sle_owner found) (sle_lock found);
        match conflict with
        | Some _ => mret (true, tt)
        | None => try_to_grant_lock a;; mret (true, tt)
        end).

(** The cookie of a blocked lock, taken out of the table and freed with the
    block; [false] when another thread has it. *)
Definition take_cookie (cookie : loc) : M bool :=
  c ← get_cookie cookie;
  '(status, found) ← state_find_grant (sce_cookie c);
  match found with
  | Some c => free_cookie c true;; mret true
  | None => mret false
  end.

Definition grant_blocked_lock_immediate (entry lock_entry : loc) : M unit :=
  e ← get_lock lock_entry;
  mine ← match sle_block_data e with
         | None => mret true
         | Some block =>
             b ← get_block block;
             match sbd_blocked_cookie b with
             | Some cookie => take_cookie cookie
             | None =>
                 modify (set_blocks (delete block));;
                 upd_lock lock_entry (with_block_data None);;
                 mret true
             end
         end;
  when mine (
    upd_lock lock_entry (with_blocked STATE_NON_BLOCKING);;
    merge_lock_entry entry lock_entry;;
    grant_blocked_locks entry).

(** The pin that the first lock of a file takes is given back with the last. *)
Definition unpin_if_empty (entry : loc) : M unit :=
  l ← list_of (file_lock_list entry);
  when (glist_empty l) (cache_inode_dec_pin_ref entry false).
Definition pin_if_empty (entry : loc) : M unit :=
  l ← list_of (file_lock_list entry);
  when (glist_empty l) (cache_inode_inc_pin_ref entry;; mret tt).

Definition state_complete_grant (cookie_entry : loc) : M unit :=
  c ← get_cookie cookie_entry;
  let lock_entry := sce_lock_entry c in
  let entry := sce_entry c in
  e ← get_lock lock_entry;
  when (bool_decide (sle_blocked e = STATE_GRANTING)) (
    upd_lock lock_entry (with_blocked STATE_NON_BLOCKING);;
    merge_lock_entry entry lock_entry;;
    grant_blocked_locks entry);;
  free_cookie cookie_entry true;;
  unpin_if_empty entry.

Definition process_blocked_lock_upcall (block_data : loc) : M unit :=
  b ← get_block block_data;
  match sbd_lock_entry b with
  | None => undef
  | Some lock_entry =>
      e ← get_lock lock_entry;
      try_to_grant_lock lock_entry;;
      unpin_if_empty (sle_entry e)
  end.

(** * Cancelling *)

(** [true] when the FSAL could not cancel and the entry stays. *)
Definition cancel_cookie (entry lock_entry : loc) : M bool :=
  e ← get_lock lock_entry;
  cookie ← match sle_block_data e with
           | None => mret None
           | Some block => b ← get_block block; mret (sbd_blocked_cookie b)
           end;
  match cookie with
  | Some c => take_cookie c;; mret false
  | None =>
      status ← do_entry_lock_op entry FSAL_OP_CANCEL lock_entry;
      mret (bool_decide (status <> STATE_SUCCESS))
  end.

Definition cancel_blocked_lock (entry lock_entry : loc) : M unit :=
  upd_lock lock_entry (with_blocked STATE_CANCELED);;
  stays ← cancel_cookie entry lock_entry;
  if (stays : bool) then mret tt else remove_from_locklist lock_entry.

Definition overlaps (l1 l2 : fsal_lock_param_t) : bool :=
  (lock_start l2 <=? lock_end l1) && (lock_start l1 <=? lock_end l2).

Definition cancel_blocked_locks_range (entry : loc) (owner state : option loc)
    (lock : fsal_lock_param_t) : M unit :=
  glist_for_each_safe (file_lock_list entry) tt (fun a _ =>
    found ← get_lock a;
    if bool_decide (owner <> None) && different_owners (sle_owner found) owner then mret (true, tt)
    else
      nlm ← (if decide (state = None) then mret false else lock_owner_is_nlm found);
      if nlm && bool_decide (sle_state found = state) then mret (true, tt)
      else if decide (sle_blocked found = STATE_NON_BLOCKING) then mret (true, tt)
      else
        when (overlaps (sle_lock found) lock) (cancel_blocked_lock entry a);;
        mret (true, tt)).

Definition state_release_grant (cookie_entry : loc) : M state_status_t :=
  c ← get_cookie cookie_entry;
  let lock_entry := sce_lock_entry c in
  let entry := sce_entry c in
  e ← get_lock lock_entry;
  status ← (if decide (sle_blocked e = STATE_GRANTING) then
              upd_lock lock_entry (with_blocked STATE_CANCELED);;
              status ← do_entry_lock_op entry FSAL_OP_UNLOCK lock_entry;
              when (bool_decide (status = STATE_SUCCESS)) (remove_from_locklist lock_entry);;
              mret status
            else mret STATE_SUCCESS);
  free_cookie cookie_entry true;;
  grant_blocked_locks entry;;
  unpin_if_empty entry;;
  mret status.

(** The client's answer to a GRANTED message; [granted] is its status. *)
Definition nlm4_Granted_Res (cookie : list Z) (granted : bool) : M unit :=
  '(_, found) ← state_find_grant cookie;
  match found with
  | None => mret tt
  | Some cookie_entry =>
      c ← get_cookie cookie_entry;
      e ← get_lock (sce_lock_entry c);
      if decide (sle_block_data e = None) then mret tt
      else
        modify (set_export (fun _ => Some (sle_export e)));;
        ref_add (exp_refcount (sle_export e)) 1;;
        modify (set_fsal_export (fun _ => exp_fsal_export (sle_export e)));;
        if granted then state_complete_grant cookie_entry
        else state_release_grant cookie_entry;; mret tt
  end.

(** * Requests *)

(** What [copy_conflict] reports, with its reference to the owner. *)
Definition copy_conflict (found_entry : loc) : M (option (loc * fsal_lock_param_t)) :=
  found ← get_lock found_entry;
  match sle_owner found with
  | Some o => ref_add (so_refcount o) 1;; mret (Some (o, sle_lock found))
  | None => undef
  end.

Definition state_test (entry owner : loc) (lock : fsal_lock_param_t)
    : M (state_status_t * option (loc * fsal_lock_param_t)) :=
  pinned ← cache_inode_inc_pin_ref entry;
  if decide (pinned <> CACHE_INODE_SUCCESS)
  then mret (cache_inode_status_to_state_status pinned, None)
  else
    opened ← cache_inode_open fds_hard_limit entry FSAL_O_READ 0;
    if decide (opened <> CACHE_INODE_SUCCESS) then
      cache_inode_dec_pin_ref entry false;;
      mret (cache_inode_status_to_state_status opened, None)
    else
      found ← get_overlapping_entry entry (Some owner) lock;
      r ← match found with
          | Some a => conflict ← copy_conflict a; mret (STATE_LOCK_CONFLICT, conflict)
          | None => do_lock_op entry FSAL_OP_LOCKT (Some owner) lock true false POSIX_LOCK
          end;
      cache_inode_dec_pin_ref entry false;;
      mret r.

(** The first loop of [state_lock], for a request that may block: the status to
    return, if any. *)
Fixpoint scan_blocked (l : list loc) (owner : loc) (blocking : state_blocking_t)
    (lock : fsal_lock_param_t) : M (option state_status_t) :=
  match l with
  | [] => mret None
  | a :: l =>
      found ← get_lock a;
      if different_owners (sle_owner found) (Some owner) then scan_blocked l owner blocking lock
      else
        export ← ctx_export;
        if bool_decide (sle_export found <> export) then mret (Some STATE_INVALID_ARGUMENT)
        else if bool_decide (sle_blocked found <> blocking) then scan_blocked l owner blocking lock
        else if different_lock (sle_lock found) lock then scan_blocked l owner blocking lock
        else mret (Some STATE_LOCK_BLOCKED)
  end.

(** How the second loop of [state_lock] ends: a lock of the owner through another
    export, a conflict, a lock the owner has that contains the request, or
    neither, with the overlap hint. *)
Inductive scan_result : Set :=
| scan_export
| scan_conflict (a : loc)
| scan_existing (a : loc)
| scan_free (overlap : bool).

(** Two delegations of one client; owners that are gone cannot be looked at. *)
Definition same_client_lease (found : state_lock_entry_t) (owner : loc)
    (lock : fsal_lock_param_t) : M bool :=
  if bool_decide (sle_type found = LEASE_LOCK) && bool_decide (lock_sle_type lock = FSAL_LEASE_LOCK)
  then match sle_owner found with
       | Some o => mret (so_clientid (owner_of owner) =? so_clientid (owner_of o))
       | None => undef
       end
  else mret false.

(** The request conflicts with the entry, blocked or not. *)
Definition lock_conflicts (found : state_lock_entry_t) (owner : loc) (lock : fsal_lock_param_t) : bool :=
  overlaps (sle_lock found) lock
  && (bool_decide (lock_type (sle_lock found) = FSAL_LOCK_W)
      || bool_decide (lock_type lock = FSAL_LOCK_W))
  && different_owners (sle_owner found) (Some owner).

(** The entry contains the request and is granted or about to be. *)
Definition lock_contains (found : state_lock_entry_t) (lock : fsal_lock_param_t) : bool :=
  (lock_end lock <=? lock_end (sle_lock found))
  && (lock_start (sle_lock found) <=? lock_start lock)
  && bool_decide (lock_type (sle_lock found) = lock_type lock)
  && (bool_decide (sle_blocked found = STATE_NON_BLOCKING)
      || bool_decide (sle_blocked found = STATE_GRANTING)).

Fixpoint scan_locks (l : list loc) (owner : loc) (lock : fsal_lock_param_t) (overlap : bool)
    : M scan_result :=
  match l with
  | [] => mret (scan_free overlap)
  | a :: l =>
      found ← get_lock a;
      lease ← same_client_lease found owner lock;
      if (lease : bool) then scan_locks l owner lock overlap
      else
        export ← ctx_export;
        if bool_decide (sle_export found <> export)
           && negb (different_owners (sle_owner found) (Some owner)) then mret scan_export
        else if lock_conflicts found owner lock then mret (scan_conflict a)
        else if lock_contains found lock then
          if negb (different_owners (sle_owner found) (Some owner)) then mret (scan_existing a)
          else scan_locks l owner lock true
        else scan_locks l owner lock overlap
  end.

(** The early exits of [state_lock] release the pin. *)
Definition unpin_return {A} (entry : loc) (r : A) : M A :=
  cache_inode_dec_pin_ref entry false;; mret r.

(** The end of [state_lock], from the decision how to proceed: [conflict] is the
    one found in the lock list, [overlap] the hint for the FSAL. *)
Definition acquire_lock (entry owner : loc) (state : option loc) (blocking : state_blocking_t)
    (block_data : option loc) (lock : fsal_lock_param_t) (sle_type : lock_type_t)
    (conflict : option (loc * fsal_lock_param_t)) (overlap : bool)
    : M (state_status_t * option (loc * fsal_lock_param_t)) :=
  let allow := bool_decide (conflict = None) in
  async_block ← supports fso_lock_support_async_block;
  if negb (async_block && bool_decide (blocking = STATE_NLM_BLOCKING))
     && negb (allow || bool_decide (blocking = STATE_NLM_BLOCKING))
  then unpin_return entry (STATE_LOCK_CONFLICT, conflict)
  else
    let lock_op := if async_block && bool_decide (blocking = STATE_NLM_BLOCKING)
                   then FSAL_OP_LOCKB else FSAL_OP_LOCK in
    export ← ctx_export;
    new ← create_state_lock_entry entry export STATE_NON_BLOCKING owner state lock sle_type;
    match new with
    | None => unpin_return entry (STATE_MALLOC_ERROR, conflict)
    | Some found_entry =>
        '(status, fsal_conflict) ←
          (if allow || async_block
           then do_lock_op entry lock_op (Some owner) lock allow overlap sle_type
           else mret (STATE_LOCK_BLOCKED, None));
        let conflict := if allow then fsal_conflict else conflict in
        match status with
        | STATE_SUCCESS =>
            match sle_type with
            | LEASE_LOCK => add_tail (file_deleg_list entry) found_entry
            | POSIX_LOCK =>
                merge_lock_entry entry found_entry;;
                pin_if_empty entry;;
                add_tail (file_lock_list entry) found_entry;;
                grant_blocked_locks entry
            end
        | STATE_LOCK_BLOCKED =>
            match block_data with
            | None => undef
            | Some b =>
                upd_lock found_entry (fun e => with_blocked blocking (with_block_data (Some b) e));;
                upd_block b (with_lock_entry (Some found_entry));;
                pin_if_empty entry;;
                add_tail (file_lock_list entry) found_entry
            end
        | _ => remove_from_locklist found_entry
        end;;
        cache_inode_dec_pin_ref entry false;;
        when (bool_decide (status = STATE_LOCK_BLOCKED)) match block_data with
          | Some b => add_tail state_blocked_locks b
          | None => mret tt
          end;;
        mret (status, conflict)
    end.

(** The part of [state_lock] that runs with the file pinned and open. *)
Definition lock_pinned (entry owner : loc) (state : option loc) (blocking : state_blocking_t)
    (block_data : option loc) (lock : fsal_lock_param_t) (sle_type : lock_type_t)
    : M (state_status_t * option (loc * fsal_lock_param_t)) :=
  l ← list_of (file_lock_list entry);
  early ← (if decide (blocking = STATE_NON_BLOCKING) then mret None
           else scan_blocked l owner blocking lock);
  match early with
  | Some status => unpin_return entry (status, None)
  | None =>
      r ← scan_locks l owner lock false;
      match r with
      | scan_export => unpin_return entry (STATE_INVALID_ARGUMENT, None)
      | scan_existing a =>
          found ← get_lock a;
          when (bool_decide (sle_blocked found = STATE_GRANTING)) (grant_blocked_lock_immediate entry a);;
          unpin_return entry (STATE_SUCCESS, None)
      | scan_conflict a =>
          conflict ← copy_conflict a;
          acquire_lock entry owner state blocking block_data lock sle_type conflict true
      | scan_free overlap => acquire_lock entry owner state blocking block_data lock sle_type None overlap
      end
  end.

Definition state_lock (entry owner : loc) (state : option loc) (blocking : state_blocking_t)
    (block_data : option loc) (lock : fsal_lock_param_t) (sle_type : lock_type_t)
    : M (state_status_t * option (loc * fsal_lock_param_t)) :=
  pinned ← cache_inode_inc_pin_ref entry;
  if decide (pinned <> CACHE_INODE_SUCCESS)
  then mret (cache_inode_status_to_state_status pinned, None)
  else
    reopen ← supports fso_reopen_method;
    let openflags := if bool_decide (lock_type lock = FSAL_LOCK_R) && reopen
                     then FSAL_O_READ else FSAL_O_RDWR in
    opened ← cache_inode_open fds_hard_limit entry openflags
               (if lock_reclaim lock then CACHE_INODE_FLAG_RECLAIM else 0);
    if decide (opened <> CACHE_INODE_SUCCESS)
    then unpin_return entry (cache_inode_status_to_state_status opened, None)
    else lock_pinned entry owner state blocking block_data lock sle_type.

(** A delegation in hand takes the first branch, whatever the lock list holds. *)
Definition unlock_is_noop (entry owner : loc) (state : option loc) : M bool :=
  deleg ← match state with
          | Some st => s ← get_st st; mret (bool_decide (state_type s = STATE_TYPE_DELEG))
          | None => mret false
          end;
  if (deleg : bool) then
    l ← list_of (file_deleg_list entry);
    if glist_empty l then mret true
    else subtract_deleg_from_list (Some owner) (file_deleg_list entry);; mret false
  else
    l ← list_of (file_lock_list entry); mret (glist_empty l).

Definition state_unlock (entry owner : loc) (state : option loc) (lock : fsal_lock_param_t)
    (sle_type : lock_type_t) : M state_status_t :=
  pinned ← cache_inode_inc_pin_ref entry;
  if decide (pinned <> CACHE_INODE_SUCCESS) then mret (cache_inode_status_to_state_status pinned)
  else
    e ← get_file entry;
    if decide (ce_type e <> REGULAR_FILE) then mret STATE_BAD_TYPE
    else
      noop ← unlock_is_noop entry owner state;
      if (noop : bool) then unpin_return entry STATE_SUCCESS
      else
        cancel_blocked_locks_range entry (Some owner) state lock;;
        '(status, _) ← subtract_lock_from_list (Some owner) state lock (file_lock_list entry);
        unpin_if_empty entry;;
        if decide (status <> STATE_SUCCESS) then unpin_return entry status
        else
          '(status, _) ← do_lock_op entry FSAL_OP_UNLOCK (Some owner) lock false false sle_type;
          grant_blocked_locks entry;;
          unpin_return entry status.

(** The first blocked lock of the owner that is the one to cancel. *)
Fixpoint find_blocked (l : list loc) (owner : loc) (lock : fsal_lock_param_t) : M (option loc) :=
  match l with
  | [] => mret None
  | a :: l =>
      found ← get_lock a;
      if different_owners (sle_owner found) (Some owner)
         || bool_decide (sle_blocked found = STATE_NON_BLOCKING)
         || different_lock (sle_lock found) lock
      then find_blocked l owner lock else mret (Some a)
  end.

Definition state_cancel (entry owner : loc) (lock : fsal_lock_param_t) : M state_status_t :=
  e ← get_file entry;
  if decide (ce_type e <> REGULAR_FILE) then mret STATE_BAD_TYPE
  else
    pinned ← cache_inode_inc_pin_ref entry;
    if decide (pinned <> CACHE_INODE_SUCCESS) then mret (cache_inode_status_to_state_status pinned)
    else
      l ← list_of (file_lock_list entry);
      if glist_empty l then unpin_return entry STATE_SUCCESS
      else
        found ← find_blocked l owner lock;
        match found with
        | Some a => cancel_blocked_lock entry a;; grant_blocked_locks entry
        | None => mret tt
        end;;
        unpin_if_empty entry;;
        unpin_return entry STATE_SUCCESS.

Definition state_lock_wipe (entry : loc) : M unit :=
  l ← list_of (file_lock_list entry);
  if glist_empty l then mret tt
  else free_list (file_lock_list entry);; cache_inode_dec_pin_ref entry false.
End lock_ops.
