(* ===== verification/LockLedger.v ===== *)
(** The ledger of the lock manager: how lock entries, the block data of waiting
    requests and the cookies of grants refer to each other, and that creating,
    releasing, granting and cancelling keep the books.

    The ledger is what makes the lock manager memory-safe: every pointer it
    follows leads to a live structure, and the reference count of a lock entry
    is the number of its holders, the lock lists and the grant cookie. *)

From S2P Require Import Prelude Status World Owner CacheEntry LockList LockHeap LockOps.

Abbreviation block_map := (gmap loc state_block_data_t).
Abbreviation cookie_map := (gmap loc state_cookie_entry_t).

(** The cookie of the grant that is under way for an entry. *)
Definition attached (bl : block_map) (e : state_lock_entry_t) : option loc :=
  b ← sle_block_data e; d ← bl !! b; sbd_blocked_cookie d.

Definition holders (bl : block_map) (e : state_lock_entry_t) : Z :=
  match sle_owner e with Some _ => 1 | None => 0 end
  + match attached bl e with Some _ => 1 | None => 0 end.

(** A request that waits in the lock list. *)
Definition waiting (e : state_lock_entry_t) : Prop :=
  sle_blocked e = STATE_NLM_BLOCKING \/ sle_blocked e = STATE_NFSV4_BLOCKING.

Lemma attached_some bl e c :
  attached bl e = Some c <->
  exists b d, sle_block_data e = Some b /\ bl !! b = Some d /\ sbd_blocked_cookie d = Some c.
Proof.
  unfold attached. destruct (sle_block_data e) as [b|]; simpl.
  - destruct (bl !! b) as [d|] eqn:E; simpl.
    + split; [by exists b, d|]. intros (b' & d' & [= <-] & Hd & ?). congruence.
    + split; [done|]. intros (b' & d' & [= <-] & Hd & _). congruence.
  - split; [done|]. by intros (b & d & ? & _).
Qed.

(** [attached] looks at one block only. *)
Lemma attached_agree bl bl' e e' :
  sle_block_data e' = sle_block_data e ->
  (forall b, sle_block_data e = Some b -> bl' !! b = bl !! b) -> attached bl' e' = attached bl e.
Proof.
  unfold attached. intros -> Hb. destruct (sle_block_data e) as [b|]; simpl; [|done]. by rewrite Hb.
Qed.

(** * Entries, blocks and cookies *)

(** Entry [a] and its block data, among the entries [m]. *)
Record entry_ok (m : lock_map) (bl : block_map) (ck : cookie_map) (a : loc)
    (e : state_lock_entry_t) : Prop := {
  eo_block : forall b, sle_block_data e = Some b -> is_Some (bl !! b);
  eo_own : forall a' e' b, m !! a' = Some e' -> sle_block_data e = Some b ->
    sle_block_data e' = Some b -> a' = a;
  eo_attached : forall c, attached bl e = Some c -> exists d, ck !! c = Some d /\ sce_lock_entry d = a;
  eo_refs : sle_ref_count e = holders bl e;
  eo_waiting : waiting e -> attached bl e = None
}.

Record linked (m : lock_map) (bl : block_map) (ck : cookie_map) : Prop := {
  ln_entry : forall a e, m !! a = Some e -> entry_ok m bl ck a e;
  ln_cookie : forall c d, ck !! c = Some d -> exists e,
    m !! sce_lock_entry d = Some e /\ attached bl e = Some c
}.

(** A change that concerns one entry, its block and its cookie only. *)
Lemma linked_change m m' bl bl' ck ck' a :
  linked m bl ck ->
  (forall a', a' <> a -> m' !! a' = m !! a') ->
  (forall a' e' b, a' <> a -> m !! a' = Some e' -> sle_block_data e' = Some b -> bl' !! b = bl !! b) ->
  (forall c d, sce_lock_entry d <> a -> ck' !! c = Some d <-> ck !! c = Some d) ->
  (forall e, m' !! a = Some e -> entry_ok m' bl' ck' a e) ->
  (forall c d, ck' !! c = Some d -> sce_lock_entry d = a -> exists e,
     m' !! a = Some e /\ attached bl' e = Some c) ->
  linked m' bl' ck'.
Proof.
  intros [Hen Hco] Hm Hbl Hck Ha Hca.
  assert (Hag : forall a' e', a' <> a -> m !! a' = Some e' -> attached bl' e' = attached bl e').
  { intros a' e' Hne He'. apply attached_agree; eauto. }
  split.
  - intros a' e He. destruct (decide (a' = a)) as [->|Hne]; [by apply Ha|].
    pose proof He as He'. rewrite Hm in He' by done. destruct (Hen a' e He'). split.
    + intros b Hb. rewrite (Hbl a' e) by done. eauto.
    + intros a'' e'' b He'' Hb Hb''. destruct (decide (a'' = a)) as [->|].
      * symmetry. by eapply (eo_own _ _ _ _ _ (Ha e'' He'')).
      * rewrite Hm in He'' by done. eauto.
    + intros c. rewrite (Hag a') by done. intros Hc. destruct (eo_attached0 c Hc) as (d & Hd & Hda).
      exists d. split; [apply Hck; [congruence|done]|done].
    + rewrite eo_refs0. unfold holders. by rewrite (Hag a').
    + rewrite (Hag a') by done. done.
  - intros c d Hd. destruct (decide (sce_lock_entry d = a)) as [Heq|Hne].
    + rewrite Heq. eauto.
    + apply Hck in Hd; [|done]. destruct (Hco c d Hd) as (e & He & Hat). exists e.
      rewrite Hm by done. split; [done|]. by rewrite (Hag (sce_lock_entry d)).
Qed.

Lemma linked_own m bl ck a1 a2 e1 e2 b :
  linked m bl ck -> m !! a1 = Some e1 -> m !! a2 = Some e2 -> sle_block_data e1 = Some b ->
  sle_block_data e2 = Some b -> a2 = a1.
Proof. intros HL H1 H2 Hb1 Hb2. by eapply (eo_own _ _ _ _ _ (ln_entry _ _ _ HL a1 e1 H1)). Qed.

(** The entry of a cookie is the one it is attached to. *)
Lemma linked_cookie_entry m bl ck a e c :
  linked m bl ck -> m !! a = Some e -> attached bl e = Some c ->
  forall c' d, ck !! c' = Some d -> sce_lock_entry d = a <-> c' = c.
Proof.
  intros HL Ha Hat c' d Hd. split.
  - intros Heq. destruct (ln_cookie _ _ _ HL c' d Hd) as (e' & He' & Hat'). congruence.
  - intros ->. destruct (eo_attached _ _ _ _ _ (ln_entry _ _ _ HL a e Ha) c Hat) as (d' & ? & ?). congruence.
Qed.

Lemma linked_no_cookie m bl ck a e :
  linked m bl ck -> m !! a = Some e -> attached bl e = None ->
  forall c d, ck !! c = Some d -> sce_lock_entry d <> a.
Proof.
  intros HL Ha Hat c d Hd Heq. destruct (ln_cookie _ _ _ HL c d Hd) as (e' & He' & Hat'). congruence.
Qed.

(** Block data changes, but not its cookie. *)
Lemma linked_blocks m bl bl' ck :
  linked m bl ck -> (forall b, sbd_blocked_cookie <$> bl' !! b = sbd_blocked_cookie <$> bl !! b) -> linked m bl' ck.
Proof.
  intros [Hen Hco] Hb.
  assert (Hat : forall e, attached bl' e = attached bl e).
  { intros e. unfold attached. destruct (sle_block_data e) as [b|]; simpl; [|done]. specialize (Hb b).
    destruct (bl' !! b), (bl !! b); simpl in *; congruence. }
  split.
  - intros a e He. destruct (Hen a e He). split; rewrite ?Hat; try done.
    + intros b Hbe. specialize (Hb b). destruct (eo_block0 b Hbe) as [d Hd]. rewrite Hd in Hb.
      destruct (bl' !! b); [by eexists|done].
    + unfold holders. by rewrite Hat.
  - intros c d Hd. destruct (Hco c d Hd) as (e & ? & ?). exists e. by rewrite Hat.
Qed.

(** ** Changes of one entry *)

(** An entry changes, keeping its block data and its number of holders. *)
Lemma linked_update m bl ck a e e' :
  linked m bl ck -> m !! a = Some e -> sle_block_data e' = sle_block_data e ->
  sle_ref_count e' - holders bl e' = sle_ref_count e - holders bl e ->
  (waiting e' -> attached bl e = None) -> linked (<[a := e']> m) bl ck.
Proof.
  intros HL Ha Hb Hr Hw. assert (Hat : attached bl e' = attached bl e) by (by apply attached_agree).
  pose proof (ln_entry _ _ _ HL a e Ha) as [].
  eapply (linked_change m _ bl _ ck _ a); try done.
  - intros a' Hne. by rewrite lookup_insert_ne.
  - intros e1. rewrite lookup_insert_eq. intros [= <-]. split; rewrite ?Hb, ?Hat; try done.
    + intros a' e1 b. destruct (decide (a' = a)) as [->|]; [done|]. rewrite lookup_insert_ne by done. eauto.
    + lia.
  - intros c d Hd Heq. destruct (ln_cookie _ _ _ HL c d Hd) as (e1 & He1 & Hat1).
    exists e'. rewrite lookup_insert_eq. split; [done|]. congruence.
Qed.

(** A new entry without block data. *)
Lemma linked_create m bl ck a e :
  linked m bl ck -> m !! a = None -> sle_block_data e = None -> is_Some (sle_owner e) ->
  sle_ref_count e = 1 -> linked (<[a := e]> m) bl ck.
Proof.
  intros HL Ha Hb [o Ho] Hr. assert (Hat : attached bl e = None) by (unfold attached; by rewrite Hb).
  eapply (linked_change m _ bl _ ck _ a); try done.
  - intros a' Hne. by rewrite lookup_insert_ne.
  - intros e1. rewrite lookup_insert_eq. intros [= <-]. split; rewrite ?Hb, ?Hat; try done.
    unfold holders. by rewrite Ho, Hat.
  - intros c d Hd Heq. destruct (ln_cookie _ _ _ HL c d Hd) as (e1 & He1 & _). congruence.
Qed.

(** What dropping a reference does to the entry (as it is then, [e]) and its
    block data. *)
Definition drop_ref (a : loc) (e : state_lock_entry_t) (m m' : lock_map) (bl bl' : block_map) : Prop :=
  (sle_ref_count e = 1 /\ m' = delete a m /\
   (forall b, bl' !! b = bl !! b \/ (sle_block_data e = Some b /\ bl' !! b = None))) \/
  (sle_ref_count e <> 1 /\ m' = <[a := with_ref_count (fun n => n - 1) e]> m /\ bl' = bl).

Lemma drop_ref_blocks a e m m' bl bl' b : drop_ref a e m m' bl bl' -> is_Some (bl' !! b) -> is_Some (bl !! b).
Proof.
  intros [(_ & _ & Hbl)|(_ & _ & ->)]; [|done]. destruct (Hbl b) as [->|[_ ->]]; [done|]. by intros [].
Qed.

(** The lists give up an entry. *)
Lemma linked_remove m m' bl bl' ck a e :
  linked m bl ck -> m !! a = Some e -> is_Some (sle_owner e) ->
  drop_ref a (with_owner None e) m m' bl bl' -> linked m' bl' ck.
Proof.
  intros HL Ha [o Ho] Hd. pose proof (eo_refs _ _ _ _ _ (ln_entry _ _ _ HL a e Ha)) as Href.
  unfold holders in Href. rewrite Ho in Href. destruct Hd as [(Hr & -> & Hbl)|(Hr & -> & ->)]; simpl in Hr.
  - assert (Hat : attached bl e = None) by (destruct (attached bl e); [lia|done]).
    eapply (linked_change m _ bl _ ck _ a); try done.
    + intros a' Hne. by rewrite lookup_delete_ne.
    + intros a' e' b Hne He' Hb'. destruct (Hbl b) as [?|[Hb _]]; [done|]. destruct Hne.
      by eapply (linked_own m bl ck a a').
    + intros e'. by rewrite lookup_delete_eq.
    + intros c d Hd Heq. by destruct (linked_no_cookie _ _ _ _ _ HL Ha Hat c d Hd).
  - eapply linked_update; [done|done|done| |].
    + unfold holders. change (attached bl (with_ref_count _ _)) with (attached bl e).
      rewrite Ho. simpl. lia.
    + intros Hw. by apply (eo_waiting _ _ _ _ _ (ln_entry _ _ _ HL a e Ha)).
Qed.

(** An entry gets block data that nobody has. *)
Lemma linked_block m bl ck a e e' b bd :
  linked m bl ck -> m !! a = Some e -> sle_block_data e = None -> sle_block_data e' = Some b ->
  sle_owner e' = sle_owner e -> sle_ref_count e' = sle_ref_count e -> bl !! b = Some bd ->
  sbd_blocked_cookie bd = None -> (forall a' e1, m !! a' = Some e1 -> sle_block_data e1 <> Some b) ->
  linked (<[a := e']> m) bl ck.
Proof.
  intros HL Ha Hn Hb Ho Hr Hbd Hck Hfree.
  assert (Hat : attached bl e = None) by (unfold attached; by rewrite Hn).
  assert (Hat' : attached bl e' = None) by (unfold attached; rewrite Hb; simpl; by rewrite Hbd).
  pose proof (eo_refs _ _ _ _ _ (ln_entry _ _ _ HL a e Ha)) as Href. unfold holders in Href. rewrite Hat in Href.
  eapply (linked_change m _ bl _ ck _ a); try done.
  - intros a' Hne. by rewrite lookup_insert_ne.
  - intros e1. rewrite lookup_insert_eq. intros [= <-]. split; rewrite ?Hat'; try done.
    + intros b' Hb'. assert (b' = b) as -> by congruence. by eexists.
    + intros a' e1 b'. destruct (decide (a' = a)) as [->|]; [done|]. rewrite lookup_insert_ne by done.
      intros He1 Hb' Hb1. destruct (Hfree a' e1 He1). congruence.
    + unfold holders. rewrite Hat', Ho. lia.
  - intros c d Hd Heq. by destruct (linked_no_cookie _ _ _ _ _ HL Ha Hat c d Hd).
Qed.

(** An entry loses its block data, which is freed. *)
Lemma linked_unblock m bl ck a e b :
  linked m bl ck -> m !! a = Some e -> sle_block_data e = Some b -> attached bl e = None ->
  linked (<[a := with_block_data None e]> m) (delete b bl) ck.
Proof.
  intros HL Ha Hb Hat. pose proof (ln_entry _ _ _ HL a e Ha) as [_ _ _ Href _].
  eapply (linked_change m _ bl _ ck _ a); try done.
  - intros a' Hne. by rewrite lookup_insert_ne.
  - intros a' e' b' Hne He' Hb'. apply lookup_delete_ne. intros <-. apply Hne. by eapply (linked_own m bl ck a a').
  - intros e1. rewrite lookup_insert_eq. intros [= <-]. split; try done.
    unfold holders in *. simpl. by rewrite Hat in Href.
  - intros c d Hd Heq. by destruct (linked_no_cookie _ _ _ _ _ HL Ha Hat c d Hd).
Qed.

(** A grant is over: the cookie goes and with it its reference. *)
Lemma linked_uncookie m m' bl bl' ck c d e b bd :
  linked m bl ck -> ck !! c = Some d -> m !! sce_lock_entry d = Some e ->
  sle_block_data e = Some b -> bl !! b = Some bd ->
  drop_ref (sce_lock_entry d) e m m' (<[b := with_cookie None bd]> bl) bl' ->
  linked m' bl' (delete c ck).
Proof.
  intros HL Hc He Hb Hbd Hd. set (a := sce_lock_entry d) in *.
  destruct (ln_cookie _ _ _ HL c d Hc) as (e1 & He1 & Hat). fold a in He1. simplify_eq.
  pose proof (ln_entry _ _ _ HL a e He) as Hok. pose proof (eo_refs _ _ _ _ _ Hok) as Href.
  unfold holders in Href. rewrite Hat in Href.
  assert (Hother : forall a' e' b', a' <> a -> m !! a' = Some e' -> sle_block_data e' = Some b' -> b' <> b).
  { intros a' e' b' Hne He' Hb' ->. apply Hne. by eapply (linked_own m bl ck a a'). }
  eapply (linked_change m _ bl _ ck _ a); try done.
  - intros a' Hne. destruct Hd as [(_ & -> & _)|(_ & -> & _)];
      [by rewrite lookup_delete_ne|by rewrite lookup_insert_ne].
  - intros a' e' b' Hne He' Hb'. pose proof (Hother a' e' b' Hne He' Hb').
    destruct Hd as [(_ & _ & Hbl)|(_ & _ & ->)].
    + destruct (Hbl b') as [->|[? _]]; [by rewrite lookup_insert_ne|congruence].
    + by rewrite lookup_insert_ne.
  - intros c' d' Hd'. rewrite lookup_delete_Some. split; [by intros [_ ?]|].
    intros Hc'. split; [|done]. intros <-. apply Hd'. by assert (d' = d) as -> by congruence.
  - intros e' He'. destruct Hd as [(_ & -> & _)|(Hr & -> & ->)]; [by rewrite lookup_delete_eq in He'|].
    rewrite lookup_insert_eq in He'. injection He' as <-. set (e' := with_ref_count _ e).
    assert (Hat' : attached (<[b := with_cookie None bd]> bl) e' = None).
    { unfold attached. simpl. rewrite Hb. simpl. by rewrite lookup_insert_eq. }
    split; rewrite ?Hat'; try done; simpl.
    + intros b' Hb'. assert (b' = b) as -> by congruence. rewrite lookup_insert_eq. eauto.
    + intros a' e1 b'. destruct (decide (a' = a)) as [->|]; [done|].
      rewrite lookup_insert_ne by done. intros He1' Hb' Hb1. destruct (Hother a' e1 b'); try done. congruence.
    + unfold holders. rewrite Hat'. simpl. lia.
  - intros c' d' Hc' Heq. apply lookup_delete_Some in Hc' as [Hne Hc'].
    apply (linked_cookie_entry _ _ _ _ _ _ HL He Hat c' d' Hc') in Heq. congruence.
Qed.

(** A grant begins: a new cookie with its reference. *)
Lemma linked_cookie m bl ck c d e b bd :
  linked m bl ck -> ck !! c = None -> m !! sce_lock_entry d = Some e ->
  sle_block_data e = Some b -> bl !! b = Some bd -> sbd_blocked_cookie bd = None -> ~ waiting e ->
  linked (<[sce_lock_entry d := with_ref_count (fun n => n + 1) e]> m)
    (<[b := with_cookie (Some c) bd]> bl) (<[c := d]> ck).
Proof.
  intros HL Hc He Hb Hbd Hno Hw. set (a := sce_lock_entry d) in *.
  assert (Hat : attached bl e = None) by (unfold attached; by rewrite Hb; simpl; rewrite Hbd).
  pose proof (ln_entry _ _ _ HL a e He) as Hok. pose proof (eo_refs _ _ _ _ _ Hok) as Href.
  unfold holders in Href. rewrite Hat in Href. set (e' := with_ref_count _ e).
  assert (Hat' : attached (<[b := with_cookie (Some c) bd]> bl) e' = Some c).
  { unfold attached. simpl. rewrite Hb. simpl. by rewrite lookup_insert_eq. }
  assert (Hother : forall a' e' b', a' <> a -> m !! a' = Some e' -> sle_block_data e' = Some b' -> b' <> b).
  { intros a' e1 b' Hne He' Hb' ->. apply Hne. by eapply (linked_own m bl ck a a'). }
  eapply (linked_change m _ bl _ ck _ a); try done.
  - intros a' Hne. by rewrite lookup_insert_ne.
  - intros a' e1 b' Hne He1 Hb'. rewrite lookup_insert_ne; [done|]. intros <-. by eapply Hother.
  - intros c' d' Hd'. destruct (decide (c' = c)) as [->|]; [|by rewrite lookup_insert_ne].
    rewrite lookup_insert_eq, Hc. split; [|done]. by intros [= <-].
  - intros e1. rewrite lookup_insert_eq. intros [= <-]. split; rewrite ?Hat'; simpl.
    + intros b' Hb'. assert (b' = b) as -> by congruence. rewrite lookup_insert_eq. eauto.
    + intros a' e1 b'. destruct (decide (a' = a)) as [->|]; [done|].
      rewrite lookup_insert_ne by done. intros He1' Hb' Hb1. destruct (Hother a' e1 b'); try done. congruence.
    + intros c' [= <-]. exists d. by rewrite lookup_insert_eq.
    + unfold holders. rewrite Hat'. simpl. lia.
    + intros Hw'. by destruct Hw.
  - intros c' d' Hc' Heq. exists e'. rewrite lookup_insert_eq. split; [done|].
    destruct (decide (c' = c)) as [->|Hne]; [done|]. rewrite lookup_insert_ne in Hc' by done.
    by destruct (linked_no_cookie _ _ _ _ _ HL He Hat c' d' Hc').
Qed.

(** * The table of cookies *)

Section index.
Context {lenv : LockEnv}.

(** A key of the table leads to the cookie with that key, if it is still there:
    [state_cancel_grant] frees a cookie that is in the table. *)
Definition grant_key (n : Z) : list Z := [gc_seconds; gc_microseconds; n].

Record indexed (ck : cookie_map) (ht : gmap (list Z) loc) (nx : loc) (nc : Z) : Prop := {
  ix_table : forall k c, ht !! k = Some c -> (c < nx)%positive /\ (exists n, k = grant_key n /\ n <= nc) /\
    forall c' d, ck !! c' = Some d -> sce_cookie d = k <-> c' = c;
  ix_cookie : forall c d, ck !! c = Some d -> (c < nx)%positive /\
    exists n, sce_cookie d = grant_key n /\ n <= nc
}.

Lemma indexed_mono ck ht nx nx' nc nc' :
  indexed ck ht nx nc -> (nx <= nx')%positive -> nc <= nc' -> indexed ck ht nx' nc'.
Proof.
  intros [Ht Hc] Hnx Hnc. split.
  - intros k c Hk. destruct (Ht k c Hk) as (? & (n & ? & ?) & ?). split; [lia|]. split; [|done].
    exists n. split; [done|lia].
  - intros c d Hd. destruct (Hc c d Hd) as (? & n & ? & ?). split; [lia|]. exists n. split; [done|lia].
Qed.

(** A key is looked up and taken out. *)
Lemma indexed_find ck ht nx nc k : indexed ck ht nx nc -> indexed ck (delete k ht) nx nc.
Proof. intros [Ht Hc]. split; [|done]. intros k' c [_ ?]%lookup_delete_Some. auto. Qed.

Lemma indexed_found ck ht nx nc c c' d :
  indexed ck ht nx nc -> ck !! c = Some d -> ht !! sce_cookie d = Some c' -> c' = c.
Proof. intros [Ht _] Hc Hk. destruct (Ht _ _ Hk) as (_ & _ & Hiff). symmetry. by apply (Hiff c d Hc). Qed.

(** A cookie is freed. *)
Lemma indexed_free ck ht nx nc c : indexed ck ht nx nc -> indexed (delete c ck) ht nx nc.
Proof.
  intros [Ht Hc]. split.
  - intros k c' Hk. destruct (Ht k c' Hk) as (? & ? & Hiff). split; [done|]. split; [done|].
    intros c1 d [_ ?]%lookup_delete_Some. auto.
  - intros c' d [_ ?]%lookup_delete_Some. auto.
Qed.

(** The next cookie enters the table. *)
Lemma indexed_add ck ht nx nc n a entry :
  indexed ck ht nx nc -> nc < n ->
  ht !! grant_key n = None /\ ck !! nx = None /\
  indexed (<[nx := mk_cookie_entry entry a (grant_key n)]> ck) (<[grant_key n := nx]> ht) (Pos.succ nx) n.
Proof.
  intros [Ht Hc] Hn.
  assert (Hnew : ck !! nx = None).
  { destruct (ck !! nx) as [d|] eqn:E; [|done]. destruct (Hc _ _ E). lia. }
  assert (Hkey : forall c d, ck !! c = Some d -> sce_cookie d <> grant_key n).
  { intros c d Hd Heq. destruct (Hc c d Hd) as (_ & n' & Hk & ?). rewrite Hk in Heq.
    injection Heq as ?. lia. }
  assert (Hold : ht !! grant_key n = None).
  { destruct (ht !! grant_key n) as [c|] eqn:E; [|done].
    destruct (Ht _ _ E) as (_ & (n' & [= ?] & ?) & _). lia. }
  split; [done|]. split; [done|]. split.
  - intros k c. destruct (decide (k = grant_key n)) as [->|Hk].
    + rewrite lookup_insert_eq. intros [= <-]. split; [lia|]. split; [exists n; split; [done|lia]|].
      intros c' d. destruct (decide (c' = nx)) as [->|]; [rewrite lookup_insert_eq; by intros [= <-]|].
      rewrite lookup_insert_ne by done. intros Hd. split; [|done]. by intros ?%(Hkey c').
    + rewrite lookup_insert_ne by done. intros Hkc. destruct (Ht k c Hkc) as (? & (n' & ? & ?) & Hiff).
      split; [lia|]. split; [exists n'; split; [done|lia]|].
      intros c' d. destruct (decide (c' = nx)) as [->|]; [|rewrite lookup_insert_ne by done; auto].
      rewrite lookup_insert_eq. intros [= <-]. simpl. split; [by intros <-|lia].
  - intros c d. destruct (decide (c = nx)) as [->|].
    + rewrite lookup_insert_eq. intros [= <-]. split; [lia|]. exists n. split; [done|lia].
    + rewrite lookup_insert_ne by done. intros Hd. destruct (Hc c d Hd) as (? & n' & ? & ?).
      split; [lia|]. exists n'. split; [done|lia].
Qed.
End index.

(** * The ledger of a store *)

Section books.
Context {FS : Type} {env : OwnerEnv} {lenv : LockEnv}.
Implicit Types w : world FS.

Record books w : Prop := {
  bk_linked : linked (w_locks w) (w_blocks w) (w_cookies w);
  bk_indexed : indexed (w_cookies w) (w_ht_lock_cookies w) (w_next w) (w_next_cookie w);
  bk_addr : addresses_ok w;
  bk_blocks : forall b, is_Some (w_blocks w !! b) -> (b < w_next w)%positive
}.

Lemma addresses_insert w a e e' a' e1 :
  addresses_ok w -> w_locks w !! a = Some e -> <[a := e']> (w_locks w) !! a' = Some e1 -> (a' < w_next w)%positive.
Proof.
  intros HA Ha. destruct (decide (a' = a)) as [->|]; [intros _; by eapply HA|].
  rewrite lookup_insert_ne by done. apply HA.
Qed.

(** What the ledger is about. *)
Definition ledger_view w :=
  (w_locks w, w_blocks w, w_cookies w, w_ht_lock_cookies w, w_next w, w_next_cookie w).

Lemma books_view w w' : ledger_view w' = ledger_view w -> books w -> books w'.
Proof.
  intros [= Hm Hb Hc Ht Hn Hk] [HL HX HA HK].
  split; rewrite ?Hm, ?Hb, ?Hc, ?Ht, ?Hn, ?Hk; [done|done| |done].
  intros a e. rewrite Hm, Hn. apply HA.
Qed.

(** The views of the store that releasing an entry changes. *)
Definition lock_view w := (w_locks w, w_blocks w).
Definition index_view w := (w_cookies w, w_ht_lock_cookies w, w_next w, w_next_cookie w).

Lemma preserves_ref_add {B} (π : world FS -> B) r d :
  (forall f w, π (set_refs f w) = π w) -> preserves π (ref_add r d).
Proof. intros H. by apply preserves_modify. Qed.

Lemma preserves_add_tail {B} (π : world FS -> B) h a :
  (forall f w, π (set_lists f w) = π w) -> preserves π (add_tail h a).
Proof. intros H. by apply preserves_modify. Qed.

Lemma preserves_unlink {B} (π : world FS -> B) k a :
  (forall f w, π (set_lists f w) = π w) -> preserves π (unlink k a).
Proof. intros H. by apply preserves_modify. Qed.

Lemma preserves_upd_lock {B} (π : world FS -> B) a f :
  (forall f w, π (set_locks f w) = π w) -> preserves π (upd_lock a f).
Proof. intros H. apply preserves_bind; [apply preserves_deref|]. intros e. by apply preserves_modify. Qed.

Lemma preserves_choose {B} (π : world FS -> B) :
  (forall f w, π (set_choices f w) = π w) -> preserves π choose.
Proof.
  intros H w a w'. unfold choose. destruct (w_choices w); intros [= _ <-]; [done|apply H].
Qed.

Hint Resolve preserves_ref_add preserves_add_tail preserves_unlink preserves_upd_lock
  preserves_choose : preserves.

Lemma preserves_create {B} (π : world FS -> B) entry export blocked owner state lock ty :
  (forall f w, π (set_refs f w) = π w) -> (forall f w, π (set_lists f w) = π w) ->
  (forall f w, π (set_locks f w) = π w) -> (forall f w, π (set_choices f w) = π w) ->
  (forall f w, π (set_next f w) = π w) ->
  preserves π (create_state_lock_entry entry export blocked owner state lock ty).
Proof.
  intros Hr Hl Hm Hc Hn. unfold create_state_lock_entry. preserves_go.
  intros ? ? ? [= _ <-]. apply Hn.
Qed.

Lemma preserves_dec_ref {B} (π : world FS -> B) a :
  (forall f w, π (set_lists f w) = π w) -> (forall f w, π (set_locks f w) = π w) ->
  (forall f w, π (set_blocks f w) = π w) -> preserves π (lock_entry_dec_ref a).
Proof. intros Hl Hm Hb. unfold lock_entry_dec_ref, get_lock. preserves_go. Qed.

Hint Resolve preserves_create preserves_dec_ref : preserves.

Lemma preserves_remove {B} (π : world FS -> B) a :
  (forall f w, π (set_lists f w) = π w) -> (forall f w, π (set_locks f w) = π w) ->
  (forall f w, π (set_blocks f w) = π w) -> (forall f w, π (set_refs f w) = π w) ->
  preserves π (remove_from_locklist a).
Proof. intros Hl Hm Hb Hr. unfold remove_from_locklist, get_lock. preserves_go. Qed.

Lemma preserves_dup {B} (π : world FS -> B) a :
  (forall f w, π (set_refs f w) = π w) -> (forall f w, π (set_lists f w) = π w) ->
  (forall f w, π (set_locks f w) = π w) -> (forall f w, π (set_choices f w) = π w) ->
  (forall f w, π (set_next f w) = π w) -> preserves π (state_lock_entry_t_dup a).
Proof. intros. unfold state_lock_entry_t_dup, get_lock. preserves_go. Qed.

(** What happens to the entry. *)
Lemma dec_ref_exact a e w w' :
  w_locks w !! a = Some e -> lock_entry_dec_ref a w = Ret tt w' ->
  drop_ref a e (w_locks w) (w_locks w') (w_blocks w) (w_blocks w').
Proof.
  intros Ha. unfold lock_entry_dec_ref, upd_lock, get_lock, mbind, M_bind, deref. rewrite Ha. simpl.
  rewrite lookup_insert_eq. simpl. destruct (Z.eqb_spec (sle_ref_count e - 1) 0) as [Hr|Hr].
  - destruct (sle_block_data e) as [b|] eqn:Hb; intros [= <-]; left; simpl;
      (split; [lia|]; split; [by rewrite delete_insert_eq|]); intros b'; [|by left].
    destruct (decide (b' = b)) as [->|]; [right; by rewrite lookup_delete_eq|left; by apply lookup_delete_ne].
  - intros [= <-]. right. split; [lia|done].
Qed.

(** It ends, and does nothing else. *)
Lemma wp_dec_ref_exact {B} (π : world FS -> B) a e (Q : unit -> world FS -> Prop) w :
  w_locks w !! a = Some e ->
  (forall f w, π (set_lists f w) = π w) -> (forall f w, π (set_locks f w) = π w) ->
  (forall f w, π (set_blocks f w) = π w) ->
  (forall w', drop_ref a e (w_locks w) (w_locks w') (w_blocks w) (w_blocks w') -> π w' = π w ->
     lists_agree w w' -> Q tt w') ->
  wp (lock_entry_dec_ref a) Q w.
Proof.
  intros Ha Hl Hm Hb HQ. assert (Hrun : exists w', lock_entry_dec_ref a w = Ret tt w' /\ lists_agree w w').
  { unfold lock_entry_dec_ref, upd_lock, get_lock, mbind, M_bind, deref. rewrite Ha. simpl.
    rewrite lookup_insert_eq. simpl. destruct (_ =? 0); [destruct (sle_block_data e)|];
      (eexists; split; [done|]; intros h Hh; simpl; rewrite ?decide_False by congruence; done). }
  destruct Hrun as (w' & Hrun & Hag). eapply wp_intro; [exact Hrun|]. apply HQ; [|..|done].
  - by apply dec_ref_exact.
  - revert Hrun. by apply preserves_dec_ref.
Qed.

Lemma remove_exact a e w w' :
  w_locks w !! a = Some e -> remove_from_locklist a w = Ret tt w' ->
  drop_ref a (with_owner None e) (w_locks w) (w_locks w') (w_blocks w) (w_blocks w').
Proof.
  intros Ha. unfold remove_from_locklist.
  intros (e1 & w1 & H1 & H2)%bind_ret_inv. unfold get_lock, deref in H1. rewrite Ha in H1.
  injection H1 as <- <-. apply bind_ret_inv in H2 as (u & w1 & H1 & H2).
  assert (Hv : lock_view w1 = lock_view w).
  { match type of H1 with ?m _ = _ =>
      assert (Hp : preserves lock_view m) by (destruct (sle_owner e); preserves_go) end.
    by apply Hp in H1. }
  injection Hv as Hm Hb. clear H1.
  apply bind_ret_inv in H2 as (u1 & w2 & H1 & H2). unfold upd_lock, mbind, M_bind, get_lock, deref in H1.
  rewrite Hm, Ha in H1. injection H1 as _ <-.
  apply bind_ret_inv in H2 as (u2 & w3 & H1 & H2). injection H1 as _ <-.
  apply (dec_ref_exact a (with_owner None e)) in H2; [|simpl; apply lookup_insert_eq].
  simpl in H2. rewrite Hm, Hb in H2. destruct H2 as [(Hr & Hd & Hbl)|(Hr & Hd & Hbl)].
  - left. split; [done|]. split; [|done]. by rewrite Hd, delete_insert_eq.
  - right. split; [done|]. split; [|done]. by rewrite Hd, insert_insert_eq.
Qed.

(** ** The ledger is a bystander of merging and subtracting *)

Lemma books_remove w a e w' :
  books w -> w_locks w !! a = Some e -> is_Some (sle_owner e) ->
  remove_from_locklist a w = Ret tt w' -> books w'.
Proof.
  intros [HL HX HA HK] Ha Ho Hrun. pose proof (remove_exact a e w w' Ha Hrun) as Hd.
  apply (preserves_remove index_view) in Hrun; [|done..]. injection Hrun as Hc Ht Hn Hk.
  split; rewrite ?Hc, ?Ht, ?Hn, ?Hk; [by eapply linked_remove|done| |].
  - intros a' e'. rewrite Hn. destruct Hd as [(_ & -> & _)|(_ & -> & _)]; [|by eapply addresses_insert].
    intros [_ ?]%lookup_delete_Some. by eapply HA.
  - intros b Hb. apply HK. by eapply drop_ref_blocks.
Qed.

(** A new entry, or none. *)
Lemma create_exact entry export blocked owner state lock ty w r w' :
  create_state_lock_entry entry export blocked owner state lock ty w = Ret r w' ->
  (r = Some (w_next w) /\ w_next w' = Pos.succ (w_next w) /\
   w_locks w' = <[w_next w := mk_lock_entry export entry None (Some owner) state blocked 1 lock ty]>
                  (w_locks w)) \/
  (r = None /\ w_next w' = w_next w /\ w_locks w' = w_locks w).
Proof.
  intros Hrun. pose proof (wp_create entry export blocked owner state lock ty
    (fun r w' => (r = Some (w_next w) /\ w_next w' = Pos.succ (w_next w) /\
      w_locks w' = <[w_next w := mk_lock_entry export entry None (Some owner) state blocked 1 lock ty]>
                  (w_locks w)) \/
      (r = None /\ w_next w' = w_next w /\ w_locks w' = w_locks w)) w) as Hwp.
  unfold wp in Hwp. rewrite Hrun in Hwp. apply Hwp; intros; [left|right]; done.
Qed.

Lemma books_create entry export blocked owner state lock ty w r w' :
  books w -> create_state_lock_entry entry export blocked owner state lock ty w = Ret r w' -> books w'.
Proof.
  intros [HL HX HA HK] Hrun. pose proof (create_exact _ _ _ _ _ _ _ _ _ _ Hrun) as Hex.
  apply (preserves_create (fun w => (w_blocks w, w_cookies w, w_ht_lock_cookies w, w_next_cookie w)))
    in Hrun; [|done..]. injection Hrun as Hb Hc Ht Hk.
  assert (Hnew : w_locks w !! w_next w = None).
  { destruct (w_locks w !! w_next w) as [e|] eqn:E; [|done]. apply HA in E. lia. }
  destruct Hex as [(_ & Hn & Hm)|(_ & Hn & Hm)]; split; rewrite ?Hb, ?Hc, ?Ht, ?Hn, ?Hk, ?Hm; try done.
  - by apply linked_create.
  - eapply indexed_mono; [done|lia|lia].
  - intros a e. rewrite Hm, Hn. destruct (decide (a = w_next w)) as [->|]; [lia|].
    rewrite lookup_insert_ne by done. intros He%HA. lia.
  - intros b Hb'%HK. lia.
  - intros a e. rewrite Hm, Hn. apply HA.
Qed.

Lemma books_bystander : bystander books.
Proof.
  split.
  - intros w f HB. by apply (books_view w).
  - intros w a e f [HL HX HA HK] Ha _. split; simpl; [|done| |done].
    + eapply linked_update; [done|done|done|done|].
      intros Hw. by apply (eo_waiting _ _ _ _ _ (ln_entry _ _ _ HL a e Ha)).
    + intros a' e'. by eapply addresses_insert.
  - intros w a e r w' HB Ha _. unfold state_lock_entry_t_dup.
    intros (e1 & w1 & H1 & H2)%bind_ret_inv. unfold get_lock, deref in H1. rewrite Ha in H1.
    injection H1 as <- <-. destruct (sle_owner e); [|done]. by eapply books_create.
  - intros w a e w' HB Ha Ho _. by apply (books_remove w a e).
Qed.
End books.
