(* ===== verification/LockTable.v ===== *)
(** The lock table: the invariant of the lock manager for file systems that leave
    locking to the server (as FSAL_KURMA does), and that every request keeps it.

    The invariant says that the lists hold live entries, that the ledger of
    entries, block data and cookies is in order, and that no two owners hold
    conflicting locks on a byte of a file. *)

From S2P Require Import Prelude Status World Owner CacheEntry LockList LockHeap LockMerge LockSubtract LockCalm LockOps LockLedger.

(** * Operations on cache entries do not concern the locks *)

Section file_rules.
Context {FS : Type} `{!FsalOps FS}.
Implicit Types w : world FS.

(** Everything of the store but cache entries, descriptors and the FSAL. *)
Definition lock_part w :=
  (w_locks w, w_blocks w, w_cookies w, w_ht_lock_cookies w, w_next w, w_next_cookie w, w_lists w,
   w_choices w, w_export w, w_fsal_export w, w_states w).

(** The operation ends, given that [entry] is a cache entry, and leaves the lock
    part of the store alone. *)
Definition file_op {A} (entry : loc) (m : M (world FS) A) : Prop :=
  forall w, is_Some (w_files w !! entry) -> exists a w',
    m w = Ret a w' /\ dom (w_files w') = dom (w_files w) /\ lock_part w' = lock_part w.

Lemma file_op_ret {A} entry (a : A) : file_op entry (mret a).
Proof. intros w _. by eexists _, _. Qed.

Lemma file_op_bind {A B} entry (m : M (world FS) A) (k : A -> M (world FS) B) :
  file_op entry m -> (forall a, file_op entry (k a)) -> file_op entry (m ≫= k).
Proof.
  intros Hm Hk w Hw. destruct (Hm w Hw) as (a & w1 & H1 & D1 & L1).
  destruct (Hk a w1) as (b & w2 & H2 & D2 & L2).
  { apply elem_of_dom. rewrite D1. by apply elem_of_dom. }
  exists b, w2. unfold mbind, M_bind. rewrite H1. split; [done|]. split; [by rewrite D2|by rewrite L2].
Qed.

Lemma file_op_when entry b (m : M (world FS) unit) : file_op entry m -> file_op entry (when b m).
Proof. destruct b; [done|]. intros _. apply file_op_ret. Qed.

Lemma file_op_get entry : file_op entry (get_file entry).
Proof. intros w [e He]. exists e, w. unfold get_file, deref. by rewrite He. Qed.

Lemma file_op_upd entry f : file_op entry (upd_file entry f).
Proof.
  intros w [e He]. eexists tt, _. unfold upd_file, get_file, deref, mbind, M_bind. rewrite He.
  split; [done|]. split; [|done]. simpl. rewrite dom_insert_L.
  assert (entry ∈ dom (w_files w)) by (apply elem_of_dom; eauto).
  apply set_eq. intros a. rewrite elem_of_union, elem_of_singleton. split; [by intros [->|?]|by right].
Qed.

Lemma file_op_gets {A} entry (f : world FS -> A) : file_op entry (gets f).
Proof. intros w _. by eexists _, _. Qed.

Lemma file_op_fs {A} entry (f : FS -> A * FS) :
  file_op entry (fun w => let '(a, fs) := f (w_fs w) in Ret a (set_fs (fun _ => fs) w)).
Proof. intros w _. destruct (f (w_fs w)) as [a fs]. by eexists _, _. Qed.

Lemma file_op_count entry f : file_op entry (modify (set_open_fd_count f)).
Proof. intros w _. by eexists _, _. Qed.

Lemma file_op_fds entry limit : file_op entry (cache_inode_lru_fds_available limit).
Proof.
  intros w _. unfold cache_inode_lru_fds_available. destruct (_ && _); by eexists _, _.
Qed.

End file_rules.

(** Proves a [file_op] goal by following the program. *)
Ltac file_op_step :=
  lazymatch goal with
  | |- file_op _ (mbind _ _) => apply file_op_bind; [|intros ?]
  | |- file_op _ (mret _) => apply file_op_ret
  | |- file_op _ (when _ _) => apply file_op_when
  | |- file_op _ (get_file _) => apply file_op_get
  | |- file_op _ (upd_file _ _) => apply file_op_upd
  | |- file_op _ (gets _) => apply file_op_gets
  | |- file_op _ (call_status _) => apply file_op_gets
  | |- file_op _ (call_open _ _) => apply (file_op_fs _ (fun fs => obj_open fs _ _))
  | |- file_op _ (call_reopen _ _) => apply (file_op_fs _ (fun fs => obj_reopen fs _ _))
  | |- file_op _ (call_close _) => apply (file_op_fs _ (fun fs => obj_close fs _))
  | |- file_op _ atomic_inc_open_fd_count => apply file_op_count
  | |- file_op _ atomic_dec_open_fd_count => apply file_op_count
  | |- file_op _ (cache_inode_lru_fds_available _) => apply file_op_fds
  | |- file_op _ (if ?b then _ else _) => destruct b
  | |- file_op _ (match ?x with _ => _ end) => destruct x
  | |- file_op _ (let '_ := ?x in _) => destruct x
  end.

Section file_ops.
Context {FS : Type} `{!FsalOps FS}.
Implicit Types w : world FS.

Lemma file_op_kill entry : file_op (FS := FS) entry (cache_inode_kill_entry entry).
Proof. unfold cache_inode_kill_entry, cih_remove_checked, cache_inode_lru_cleanup_push. repeat file_op_step. Qed.

Lemma file_op_inc_pin entry : file_op (FS := FS) entry (cache_inode_inc_pin_ref entry).
Proof. unfold cache_inode_inc_pin_ref, cond_pin_entry. repeat file_op_step. Qed.

Lemma file_op_dec_pin entry closefile : file_op (FS := FS) entry (cache_inode_dec_pin_ref entry closefile).
Proof.
  unfold cache_inode_dec_pin_ref, cache_inode_close, close_descriptor, is_open, cache_inode_is_pinned.
  repeat (file_op_step || apply file_op_kill).
Qed.

Lemma file_op_open limit entry openflags flags : file_op (FS := FS) entry (cache_inode_open limit entry openflags flags).
Proof.
  unfold cache_inode_open, open_prepare. repeat (file_op_step || apply file_op_kill).
Qed.

Lemma file_op_adjust entry : file_op (FS := FS) entry (cache_inode_adjust_openflags entry).
Proof. unfold cache_inode_adjust_openflags. repeat file_op_step. Qed.

Lemma wp_file_op {A} entry (m : M (world FS) A) (Q : A -> world FS -> Prop) w :
  file_op entry m -> is_Some (w_files w !! entry) ->
  (forall a w', dom (w_files w') = dom (w_files w) -> lock_part w' = lock_part w -> Q a w') -> wp m Q w.
Proof. intros Hm Hw HQ. destruct (Hm w Hw) as (a & w' & H1 & H2 & H3). eapply wp_intro; eauto. Qed.
End file_ops.

(** * The invariant *)

Section table.
Context {FS : Type} `{!FsalOps FS} {env : OwnerEnv} {lenv : LockEnv}.
Implicit Types w : world FS.

Abbreviation locks_of w f := (w_lists w (file_lock_list f)).

(** Granted, or about to be: the client may already know. *)
Definition active (e : state_lock_entry_t) : Prop :=
  sle_blocked e = STATE_NON_BLOCKING \/ sle_blocked e = STATE_GRANTING.

(** Two active locks of different owners that have a byte in common, one of them
    exclusive. *)
Definition clash (e1 e2 : state_lock_entry_t) (b : Z) : Prop :=
  active e1 /\ active e2 /\ in_range (sle_lock e1) b /\ in_range (sle_lock e2) b /\
  (lock_type (sle_lock e1) = FSAL_LOCK_W \/ lock_type (sle_lock e2) = FSAL_LOCK_W) /\
  different_owners (sle_owner e1) (sle_owner e2) = true.

Definition conflict_free (m : lock_map) (l : list loc) : Prop :=
  forall a1 a2 e1 e2 b, a1 ∈ l -> a2 ∈ l -> m !! a1 = Some e1 -> m !! a2 = Some e2 -> ~ clash e1 e2 b.

(** No delegations are out. *)
Definition no_leases w : Prop := forall a e, w_locks w !! a = Some e -> sle_type e = POSIX_LOCK.

(** [X] are entries of file [f] that are not on its list yet. *)
Record table (f : loc) (X : list loc) w : Prop := {
  tb_books : books w;
  tb_posix : no_leases w;
  tb_live : forall g, live_list (w_locks w) (locks_of w g);
  tb_extra : forall a, a ∈ X -> (exists e, w_locks w !! a = Some e /\ live e) /\
    forall h', elsewhere (file_lock_list f) h' -> ~ (a ∈ w_lists w h');
  tb_entry : forall g a e, a ∈ locks_of w g -> w_locks w !! a = Some e ->
    sle_blocked e <> STATE_NON_BLOCKING -> sle_entry e = g;
  tb_free : forall g, conflict_free (w_locks w) ((if decide (g = f) then X else []) ++ locks_of w g);
  tb_others : forall g h' a, elsewhere (file_lock_list g) h' -> a ∈ w_lists w h' ->
    ~ (a ∈ locks_of w g) /\ exists e, w_locks w !! a = Some e /\ is_Some (sle_owner e);
  tb_files : forall g, locks_of w g <> [] -> is_Some (w_files w !! g);
  tb_granting : forall a e, w_locks w !! a = Some e -> sle_blocked e = STATE_GRANTING ->
    a ∈ locks_of w (sle_entry e);
  tb_grants : forall c d, w_cookies w !! c = Some d -> is_Some (w_files w !! sce_entry d) /\
    forall e, w_locks w !! sce_lock_entry d = Some e -> sle_blocked e = STATE_GRANTING ->
      sle_entry e = sce_entry d
}.

Definition lock_table w : Prop := table 1%positive [] w.

Lemma table_others f X w g h' a :
  table f X w -> elsewhere (file_lock_list g) h' -> a ∈ w_lists w h' ->
  ~ (a ∈ locks_of w g) /\ is_Some (w_locks w !! a).
Proof. intros HT Hh' Ha. destruct (tb_others _ _ _ HT g h' a Hh' Ha) as [? (? & ? & _)]. eauto. Qed.

Lemma table_nil f g w : table f [] w -> table g [] w.
Proof.
  intros []. split; try done.
  - by intros a ?%elem_of_nil.
  - intros k. specialize (tb_free0 k). by destruct (decide (k = f)), (decide (k = g)).
Qed.

(** Another ledger for the same entries. *)
Lemma table_books f X w w' :
  table f X w -> books w' -> w_locks w' = w_locks w -> lists_agree w w' ->
  dom (w_files w) ⊆ dom (w_files w') ->
  (forall c d, w_cookies w' !! c = Some d -> w_cookies w !! c = Some d) -> table f X w'.
Proof.
  intros [] HB Hm Hl Hd Hc.
  assert (Hf : forall g, is_Some (w_files w !! g) -> is_Some (w_files w' !! g)).
  { intros g. rewrite <- !elem_of_dom. apply Hd. }
  assert (Hlf : forall g, locks_of w' g = locks_of w g) by (intros g; by apply Hl).
  split; rewrite ?Hm; try done.
  - intros a e. rewrite Hm. apply tb_posix0.
  - intros g. by rewrite Hlf.
  - intros a Ha. destruct (tb_extra0 a Ha) as [? Hno]. split; [done|]. intros h' Hh'. rewrite Hl by apply Hh'. auto.
  - intros g a e. rewrite Hlf. apply tb_entry0.
  - intros g. rewrite Hlf. apply tb_free0.
  - intros g h' a Hh'. rewrite Hl, Hlf by apply Hh'. by apply tb_others0.
  - intros g. rewrite Hlf. auto.
  - intros a e. rewrite Hlf. apply tb_granting0.
  - intros c d Hcd%Hc. destruct (tb_grants0 c d Hcd) as [? ?]. split; auto.
Qed.

(** The table is about the ledger, the lists and the set of files. *)
Lemma table_view f X w w' :
  table f X w -> ledger_view w' = ledger_view w -> lists_agree w w' ->
  dom (w_files w) ⊆ dom (w_files w') -> table f X w'.
Proof.
  intros HT HV Hl Hd. pose proof HV as [= Hm Hb Hc Ht Hn Hk].
  apply (table_books f X w); try done; [|by rewrite Hc].
  apply (books_view w); [done|apply HT].
Qed.

Lemma table_part f X w w' :
  table f X w -> lock_part w' = lock_part w -> dom (w_files w') = dom (w_files w) -> table f X w'.
Proof.
  intros HT [= Hm Hb Hc Ht Hn Hk Hl _ _ _ _] Hd. apply (table_view f X w); [done| | |by rewrite Hd].
  - unfold ledger_view. by rewrite Hm, Hb, Hc, Ht, Hn, Hk.
  - intros h _. by rewrite Hl.
Qed.

(** A change that concerns file [f] and its extra entries only. *)
Lemma table_step f X X' w w' :
  table f X w -> books w' -> no_leases w' ->
  (forall h', elsewhere (file_lock_list f) h' -> w_lists w' h' = w_lists w h') ->
  (forall a e, w_locks w !! a = Some e -> ~ (a ∈ locks_of w f) -> ~ (a ∈ X) -> w_locks w' !! a = Some e) ->
  (forall a, a ∈ X' ++ locks_of w' f -> a ∈ X ++ locks_of w f \/ w_locks w !! a = None) ->
  live_list (w_locks w') (locks_of w' f) ->
  (forall a, a ∈ X' -> exists e, w_locks w' !! a = Some e /\ live e) ->
  (forall a e, a ∈ locks_of w' f -> w_locks w' !! a = Some e -> sle_blocked e <> STATE_NON_BLOCKING ->
     sle_entry e = f) ->
  conflict_free (w_locks w') (X' ++ locks_of w' f) ->
  dom (w_files w') = dom (w_files w) -> (locks_of w' f <> [] -> is_Some (w_files w !! f)) ->
  (forall a e, w_locks w' !! a = Some e -> sle_blocked e = STATE_GRANTING -> a ∈ locks_of w' (sle_entry e)) ->
  (forall c d, w_cookies w' !! c = Some d -> is_Some (w_files w !! sce_entry d) /\
     forall e, w_locks w' !! sce_lock_entry d = Some e -> sle_blocked e = STATE_GRANTING ->
       sle_entry e = sce_entry d) ->
  table f X' w'.
Proof.
  intros HT HB HNL Hl Hm Hnew Hlive Hx Hent Hfree Hdom Hfile Hgr Hgs.
  assert (Hdom' : forall g, is_Some (w_files w !! g) -> is_Some (w_files w' !! g)).
  { intros g. rewrite <- !elem_of_dom. by rewrite Hdom. }
  assert (Helse : forall g, g <> f -> elsewhere (file_lock_list f) (file_lock_list g)) by (intros g Hg; split_and!; [done|congruence|done|done]).
  assert (Hlg : forall g, g <> f -> locks_of w' g = locks_of w g) by (intros g Hg; apply Hl; auto).
  (* entries elsewhere are neither on the list of the file nor extra *)
  assert (Hkeep : forall h' a, elsewhere (file_lock_list f) h' -> a ∈ w_lists w h' ->
    ~ (a ∈ X ++ locks_of w f) /\ exists e, w_locks w !! a = Some e /\ w_locks w' !! a = Some e).
  { intros h' a Hh' Ha. destruct (tb_others _ _ _ HT f h' a Hh' Ha) as [Hno (e & He & _)].
    assert (~ (a ∈ X)). { intros Hin. by apply (proj2 (tb_extra _ _ _ HT a Hin) h'). }
    split; [rewrite elem_of_app; tauto|]. exists e. eauto. }
  split; try done.
  - intros g. destruct (decide (g = f)) as [->|Hg]; [done|]. rewrite Hlg by done.
    destruct (tb_live _ _ _ HT g) as [Hnd Hall]. split; [done|]. intros a Ha.
    destruct (Hkeep _ a (Helse g Hg) Ha) as (_ & e & He & He'). destruct (Hall a Ha) as (? & ? & ?).
    exists e. simplify_eq. done.
  - intros a Ha. split; [auto|]. intros h' Hh' Hin. rewrite Hl in Hin by done.
    destruct (Hkeep h' a Hh' Hin) as (Hno & e & He & _).
    destruct (Hnew a) as [?|?]; [rewrite elem_of_app; by left|done|congruence].
  - intros g a e Ha He Hne. destruct (decide (g = f)) as [->|Hg]; [by apply (Hent a)|].
    rewrite Hlg in Ha by done. destruct (Hkeep _ a (Helse g Hg) Ha) as (_ & e1 & He1 & He1').
    assert (e1 = e) as -> by congruence. by apply (tb_entry _ _ _ HT g a e).
  - intros g. destruct (decide (g = f)) as [->|Hg]; [done|].
    simpl. rewrite Hlg by done. intros a1 a2 e1 e2 b Ha1 Ha2 He1 He2.
    destruct (Hkeep _ a1 (Helse g Hg) Ha1) as (_ & e1' & H1 & H1').
    destruct (Hkeep _ a2 (Helse g Hg) Ha2) as (_ & e2' & H2 & H2').
    assert (e1' = e1) as -> by congruence. assert (e2' = e2) as -> by congruence.
    pose proof (tb_free _ _ _ HT g) as Hcf. rewrite decide_False in Hcf by done. by apply (Hcf a1 a2 e1 e2 b).
  - intros g h' a Hh' Ha. destruct (decide (h' = file_lock_list f)) as [->|Hne].
    + assert (Hg : g <> f) by (destruct Hh' as (_ & Hne & _); congruence).
      rewrite Hlg by done. split; [|destruct (proj2 Hlive a Ha) as (? & ? & _ & _ & ? & ?); eauto].
      intros Hin. destruct (Hkeep _ a (Helse g Hg) Hin) as (Hno & e & He & _).
      destruct (Hnew a) as [?|?]; [rewrite elem_of_app; by right|done|congruence].
    + assert (Hh'f : elsewhere (file_lock_list f) h') by (destruct Hh' as (? & ? & ? & ?); done).
      rewrite Hl in Ha by done. destruct (Hkeep h' a Hh'f Ha) as (Hno & e & He & He').
      split; [|destruct (tb_others _ _ _ HT f h' a Hh'f Ha) as [_ (e1 & ? & ?)]; simplify_eq; eauto].
      destruct (decide (g = f)) as [->|Hg].
      * intros Hin. destruct (Hnew a) as [?|?]; [rewrite elem_of_app; by right|done|congruence].
      * rewrite Hlg by done. by apply (tb_others _ _ _ HT g h' a).
  - intros g Hg. destruct (decide (g = f)) as [->|Hne]; [auto|]. rewrite Hlg in Hg by done.
    apply Hdom'. by apply (tb_files _ _ _ HT).
  - intros c d Hc. destruct (Hgs c d Hc). split; [auto|done].
Qed.

(** ** What merging and subtracting leave alone *)

Definition other_view w :=
  (w_fs w, w_open_fd_count w, w_caching_fds w, w_files w, w_cookies w, w_ht_lock_cookies w,
   w_nlm_shares w, w_states w, w_next_cookie w, w_export w, w_fsal_export w, w_async w).

(** The ledger is kept, waiting requests and grants under way stay as they are,
    and nothing but lock entries changes. *)
Record quiet (w0 w : world FS) : Prop := {
  qu_books : books w;
  qu_posix : no_leases w;
  qu_pending : forall a e, w_locks w !! a = Some e -> sle_blocked e <> STATE_NON_BLOCKING ->
    w_locks w0 !! a = Some e;
  qu_view : other_view w = other_view w0
}.

Lemma quiet_refl w : books w -> no_leases w -> quiet w w.
Proof. done. Qed.

(** No entry is of a new kind. *)
Lemma no_leases_insert w a e e' : no_leases w -> w_locks w !! a = Some e -> sle_type e' = sle_type e ->
  forall a1 e1, <[a := e']> (w_locks w) !! a1 = Some e1 -> sle_type e1 = POSIX_LOCK.
Proof.
  intros HN Ha Heq a1 e1. destruct (decide (a1 = a)) as [->|].
  - rewrite lookup_insert_eq. intros [= <-]. rewrite Heq. by eapply HN.
  - rewrite lookup_insert_ne by done. apply HN.
Qed.

Lemma no_leases_remove w w' a e :
  no_leases w -> w_locks w !! a = Some e -> remove_from_locklist a w = Ret tt w' -> no_leases w'.
Proof.
  intros HN Ha Hrun a' e'. destruct (remove_exact _ _ _ _ Ha Hrun) as [(_ & -> & _)|(_ & -> & _)].
  - intros [_ ?]%lookup_delete_Some. by eapply HN.
  - by apply (no_leases_insert w a e).
Qed.

Lemma quiet_bystander w0 : bystander (quiet w0).
Proof.
  split.
  - intros w f [HB HN HP HV]. split; [by apply (by_lists _ books_bystander)|done|done|done].
  - intros w a e f [HB HN HP HV] Ha Hbl. split; [by apply (by_range _ books_bystander)| | |done].
    + intros a' e'. by apply (no_leases_insert w a e).
    + intros a' e'. simpl. destruct (decide (a' = a)) as [->|].
      * rewrite lookup_insert_eq. by intros [= <-].
      * rewrite lookup_insert_ne by done. apply HP.
  - intros w a e r w' [HB HN HP HV] Ha Hbl Hrun.
    assert (Hex : w_locks w' = w_locks w \/ exists e', w_locks w' = <[w_next w := e']> (w_locks w) /\
      sle_blocked e' = STATE_NON_BLOCKING /\ sle_type e' = sle_type e).
    { pose proof Hrun as Hrun'. unfold state_lock_entry_t_dup in Hrun'.
      apply bind_ret_inv in Hrun' as (e1 & w1 & H1 & H2). unfold get_lock, deref in H1. rewrite Ha in H1.
      injection H1 as <- <-. destruct (sle_owner e) as [o|]; [|done].
      apply create_exact in H2 as [(_ & _ & ->)|(_ & _ & ->)]; [right; by eexists|by left]. }
    split.
    + by eapply (by_dup _ books_bystander).
    + intros a' e'. destruct Hex as [->|(e1 & -> & _ & Ht)]; [apply HN|].
      destruct (decide (a' = w_next w)) as [->|]; [rewrite lookup_insert_eq; intros [= <-]|].
      * rewrite Ht. by eapply HN.
      * rewrite lookup_insert_ne by done. apply HN.
    + intros a' e'. destruct Hex as [->|(e1 & -> & Hb & _)]; [apply HP|].
      destruct (decide (a' = w_next w)) as [->|]; [rewrite lookup_insert_eq; by intros [= <-]|].
      rewrite lookup_insert_ne by done. apply HP.
    + rewrite <- HV. revert Hrun. by apply (preserves_dup other_view).
  - intros w a e w' [HB HN HP HV] Ha Ho Hbl Hrun. split.
    + by apply (books_remove w a e).
    + by apply (no_leases_remove w w' a e).
    + intros a' e'. destruct (remove_exact _ _ _ _ Ha Hrun) as [(_ & -> & _)|(_ & -> & _)].
      * intros [_ ?]%lookup_delete_Some. auto.
      * destruct (decide (a' = a)) as [->|]; [rewrite lookup_insert_eq; by intros [= <-]|].
        rewrite lookup_insert_ne by done. apply HP.
    + rewrite <- HV. revert Hrun. by apply (preserves_remove other_view).
Qed.

(** ** Merging *)

Lemma different_owners_sym o1 o2 : different_owners o1 o2 = different_owners o2 o1.
Proof.
  destruct o1 as [a1|], o2 as [a2|]; try done.
  destruct (different_owners (Some a1) (Some a2)) eqn:E1, (different_owners (Some a2) (Some a1)) eqn:E2;
    try done; [assert (same_owner a1 a2) by (by symmetry)|assert (same_owner a2 a1) by (by symmetry)];
    unfold same_owner in *; congruence.
Qed.

Lemma clash_sym e1 e2 b : clash e1 e2 b -> clash e2 e1 b.
Proof.
  intros (? & ? & ? & ? & Ht & ?). split_and!; try done; [tauto|]. by rewrite different_owners_sym.
Qed.

(** Granted to one owner: the same conflicts. *)
Lemma granted_different o e1 e2 x :
  granted_to o e1 -> granted_to o e2 -> different_owners (sle_owner e1) x = different_owners (sle_owner e2) x.
Proof.
  intros (_ & o1 & -> & H1) (_ & o2 & -> & H2). destruct x as [x|]; [|done].
  assert (H12 : same_owner o1 o2) by (etrans; [done|by symmetry]).
  destruct (different_owners (Some o1) (Some x)) eqn:E1, (different_owners (Some o2) (Some x)) eqn:E2; try done.
  - assert (same_owner o1 x) by (etrans; done). unfold same_owner in *. congruence.
  - assert (same_owner o2 x) by (etrans; [by symmetry|done]). unfold same_owner in *. congruence.
Qed.

(** Locks of an owner may move within the bytes the owner holds. *)
Lemma conflict_free_moved o m m' l l' :
  conflict_free m l ->
  (forall a e, ~ granted_to o e -> a ∈ l' -> m' !! a = Some e -> a ∈ l /\ m !! a = Some e) ->
  (forall t b, held m' l' o t b -> held m l o t b) ->
  conflict_free m' l'.
Proof.
  intros Hcf Hother Hheld.
  assert (Hback : forall a e b, a ∈ l' -> m' !! a = Some e -> in_range (sle_lock e) b -> exists a0 e0,
    a0 ∈ l /\ m !! a0 = Some e0 /\ in_range (sle_lock e0) b /\ (active e -> active e0) /\
    lock_type (sle_lock e0) = lock_type (sle_lock e) /\
    forall x, different_owners (sle_owner e0) x = different_owners (sle_owner e) x).
  { intros a e b Ha He Hb. destruct (decide (sle_blocked e = STATE_NON_BLOCKING)) as [Hnb|Hnb].
    - destruct (different_owners (sle_owner e) (Some o)) eqn:Hd.
      + destruct (Hother a e) as [? ?]; [|done|done|by exists a, e].
        intros Hg%granted_to_dec; [congruence|done].
      + assert (Hg : granted_to o e) by (by apply granted_to_dec).
        destruct (Hheld (lock_type (sle_lock e)) b) as (a0 & e0 & ? & ? & Hg0 & ? & ?); [by exists a, e|].
        exists a0, e0. split_and!; try done; [intros _; left; apply Hg0|].
        intros x. by apply (granted_different o).
    - destruct (Hother a e) as [? ?]; [by intros [? _]|done|done|by exists a, e]. }
  intros a1 a2 e1 e2 b Ha1 Ha2 He1 He2 (Hact1 & Hact2 & Hb1 & Hb2 & Ht & Hd).
  destruct (Hback a1 e1 b) as (a1' & e1' & H1 & H1' & Hr1 & Hc1 & Ht1 & Hd1); try done.
  destruct (Hback a2 e2 b) as (a2' & e2' & H2 & H2' & Hr2 & Hc2 & Ht2 & Hd2); try done.
  apply (Hcf a1' a2' e1' e2' b); try done. split_and!; auto.
  - by rewrite Ht1, Ht2.
  - by rewrite Hd1, different_owners_sym, Hd2, different_owners_sym.
Qed.

(** A granted entry [x] of the file, on its list or not, is merged. *)
Lemma wp_merge_table f x e0 (Q : unit -> world FS -> Prop) w :
  table f [x] w -> w_locks w !! x = Some e0 -> sle_blocked e0 = STATE_NON_BLOCKING ->
  is_Some (w_files w !! f) ->
  (forall w' ex, table f [x] w' -> w_locks w' !! x = Some ex -> reranged e0 ex ->
     (forall b, in_range (sle_lock e0) b -> in_range (sle_lock ex) b) -> quiet w w' ->
     (forall a, ~ (a ∈ locks_of w f) -> a <> x -> w_locks w !! a <> None -> ~ (a ∈ locks_of w' f)) ->
     (x ∈ locks_of w' f <-> x ∈ locks_of w f) ->
     (forall o a e, sle_owner e0 = Some o -> ~ granted_to o e ->
        (a ∈ locks_of w' f /\ w_locks w' !! a = Some e) <-> (a ∈ locks_of w f /\ w_locks w !! a = Some e)) ->
     Q tt w') ->
  wp (merge_lock_entry f x) Q w.
Proof.
  intros HT Hx Hnb Hf HQ.
  destruct (tb_extra _ _ _ HT x) as [(e & He & Hlx) Hxl]; [by left|]. simplify_eq.
  pose proof Hlx as (_ & _ & o & Ho).
  assert (Hg : granted_to o e0) by (split; [done|by exists o]).
  pose proof (bk_addr _ (tb_books _ _ _ HT)) as Hadr.
  eapply wp_mono; [|apply (wp_calm f x o e0 w Hg Hadr (fun h' a => table_others _ _ _ f h' a HT) (quiet w) (quiet_bystander w) w); try done].
  2: { split; try done; [apply (tb_live _ _ _ HT)| |by left|apply quiet_refl; apply HT|
         intros ex b Hex; by simplify_eq].
       exists e0. split_and!; [done|apply Hlx..|]. exists (lock_start (sle_lock e0)), (lock_length (sle_lock e0)).
       destruct e0 as [? ? ? ? ? ? ? [] ?]. done. }
  intros [] w' HC. destruct HC as [Hlive (ex & Hex & Hlex & Hr) Hoth Hmono Hfr Hin Hself Hls HI Hadr' Hnx Hmem Hgrow].
  assert (Hnbx : sle_blocked ex = STATE_NON_BLOCKING) by (by destruct Hr as (? & ? & ->)).
  pose proof HI as [HB HN HP HV]. injection HV as HVfs HVfd HVca HVfi HVck HVht HVsh HVst HVnc HVex HVfe HVas.
  assert (Hpend : forall a e, a ∈ locks_of w f -> w_locks w !! a = Some e ->
    sle_blocked e <> STATE_NON_BLOCKING -> a ∈ locks_of w' f /\ w_locks w' !! a = Some e).
  { intros a e Ha He Hne. apply Hoth; [|done]. by intros [? _]. }
  apply (HQ w' ex); try done.
  - apply (table_step f [x] [x] w); try done.
    + intros a e He Hnl Hnx'. apply Hfr; try done. intros ->. apply Hnx'. by left.
    + intros a [?| ?]%elem_of_app; [left; rewrite elem_of_app; by left|].
      destruct (Hin a) as [?|?]; [done|left; rewrite elem_of_app; by right|by right].
    + intros a ->%list_elem_of_singleton. by exists ex.
    + intros a e Ha He Hne. destruct (proj1 (Hoth a e (fun Hg' => Hne (proj1 Hg'))) (conj Ha He)).
      by apply (tb_entry _ _ _ HT f a e).
    + pose proof (tb_free _ _ _ HT f) as Hcf. rewrite decide_True in Hcf by done.
      apply (conflict_free_moved o (w_locks w) _ (x :: locks_of w f)); [done| |done].
      intros a e Hng Ha He. apply elem_of_cons in Ha as [->|Ha].
      * destruct Hng. assert (e = ex) as -> by congruence. destruct Hr as (? & ? & ->). done.
      * destruct (proj1 (Hoth a e Hng) (conj Ha He)). rewrite elem_of_cons. auto.
    + by rewrite HVfi.
    + intros a e He Hgr. pose proof (HP a e He ltac:(congruence)) as He0.
      pose proof (tb_granting _ _ _ HT a e He0 Hgr) as Ha0.
      destruct (decide (sle_entry e = f)) as [Heq|Hne].
      * rewrite Heq in *. apply (Hpend a e); try done. congruence.
      * rewrite Hls; [done|]. split_and!; try done. congruence.
    + intros c d. rewrite HVck. intros Hd. destruct (tb_grants _ _ _ HT c d Hd) as [? Hgs]. split; [done|].
      intros e He Hgr. apply Hgs; [|done]. apply HP; [done|congruence].
  - intros b. by apply Hgrow.
  - intros a Hno Hax Hm Ha. destruct (Hin a Ha); done.
  - intros o' a e Ho'. simplify_eq. apply Hoth.
Qed.

(** ** Subtracting *)

Lemma wp_subtract_table f owner state lk (Q : state_status_t * bool -> world FS -> Prop) w :
  table f [] w -> range_ok lk -> is_Some (w_files w !! f) ->
  (forall r w', table f [] w' -> quiet w w' ->
     subtracted (file_lock_list f) (Some owner) state lk w (quiet w) r w' -> Q r w') ->
  wp (subtract_lock_from_list (Some owner) state lk (file_lock_list f)) Q w.
Proof.
  intros HT Hlk Hf HQ. pose proof (tb_books _ _ _ HT) as HB0.
  eapply wp_mono; [|apply (wp_subtract (quiet w) (quiet_bystander w) (file_lock_list f) (Some owner) state lk w);
    try done; [apply (tb_live _ _ _ HT)|intros h' a; apply (table_others _ _ _ f h' a HT)|apply (bk_addr _ HB0)|apply quiet_refl; apply HT]].
  intros [status removed] w' Hsub. pose proof Hsub as (Hfr & Hls & Hadr & HI & Hcase).
  pose proof HI as [HB HN HP HV]. injection HV as HVfs HVfd HVca HVfi HVck HVht HVsh HVst HVnc HVex HVfe HVas.
  pose proof (tb_free _ _ _ HT f) as Hcf. rewrite decide_True in Hcf by done. simpl in Hcf.
  assert (Hfile : live_list (w_locks w') (locks_of w' f) /\ conflict_free (w_locks w') (locks_of w' f) /\
    (forall a, a ∈ locks_of w' f -> a ∈ locks_of w f \/ w_locks w !! a = None) /\
    (forall a e, a ∈ locks_of w f -> w_locks w !! a = Some e -> sle_blocked e <> STATE_NON_BLOCKING ->
       a ∈ locks_of w' f /\ w_locks w' !! a = Some e)).
  { destruct (decide (status = STATE_SUCCESS)) as [->|Hne].
    - destruct Hcase as (Hlive & _ & Hheld & Hspare & Hnew & _). split_and!; try done.
      + apply (conflict_free_moved owner (w_locks w) _ (locks_of w f)); [done| |].
        * intros a e Hng Ha He. apply Hspare; [|done]. unfold concerned. simpl.
          destruct (different_owners (sle_owner e) (Some owner)) eqn:Hd; [done|].
          rewrite bool_decide_eq_false_2; [done|]. intros Hnb. by apply Hng, granted_to_dec.
        * intros t b (a & e & Ha & He & Hg & Ht & Hb).
          destruct (concerned (Some owner) state e) eqn:Etk.
          -- destruct (proj1 (Hheld owner t b)) as [(a0 & e0 & ? & ? & _ & ?) _]; [by exists a, e|].
             by exists a0, e0.
          -- destruct (proj1 (Hspare a e Etk) (conj Ha He)). by exists a, e.
      + intros a e Ha He Hnb. apply Hspare; [|done]. unfold concerned.
        rewrite (bool_decide_eq_false_2 (sle_blocked e = _)) by done. by rewrite andb_false_r.
    - assert (Hfail : locks_of w' f ≡ₚ locks_of w f /\
        forall a, a ∈ locks_of w f -> w_locks w' !! a = w_locks w !! a)
        by (destruct status; try done; by destruct Hcase as (_ & _ & ? & ?)).
      destruct Hfail as [Hperm Hsame]. destruct (tb_live _ _ _ HT f) as [Hnd Hall].
      split_and!; [split| | |].
      + by rewrite Hperm.
      + intros a. rewrite Hperm. intros Ha. rewrite Hsame by done. auto.
      + intros a1 a2 e1 e2 b. rewrite Hperm. intros Ha1 Ha2. rewrite !Hsame by done. by apply Hcf.
      + intros a. rewrite Hperm. by left.
      + intros a e Ha He _. rewrite Hperm, Hsame by done. done. }
  destruct Hfile as (Hlive & Hcf' & Hnew & Hpend). apply HQ; try done.
  apply (table_step f [] [] w); try done.
  - intros a e He Hno _. by apply Hfr.
  - by intros a ?%elem_of_nil.
  - intros a e Ha He Hne. pose proof (HP a e He Hne) as He0.
    destruct (Hnew a Ha) as [Ha0|?]; [|congruence]. by apply (tb_entry _ _ _ HT f a e).
  - by rewrite HVfi.
  - intros a e He Hgr. pose proof (HP a e He ltac:(congruence)) as He0.
    pose proof (tb_granting _ _ _ HT a e He0 Hgr) as Ha0. destruct (decide (sle_entry e = f)) as [Heq|Hne].
    + rewrite Heq in *. apply (Hpend a e); try done. congruence.
    + rewrite Hls; [done|]. split_and!; try done. congruence.
  - intros c d. rewrite HVck. intros Hd. destruct (tb_grants _ _ _ HT c d Hd) as [? Hgs]. split; [done|].
    intros e He Hgr. apply Hgs; [|done]. apply HP; [done|congruence].
Qed.
End table.
