(* ===== verification/LockGrant.v ===== *)
(** Blocked locks (SAL/state_lock.c): granting them to NLM clients, with the
    cookies of the grants, and cancelling them.

    The file systems are those without locks of their own, as Kurma is: the lock
    manager alone decides. *)

From S2P Require Import Prelude Status World Owner CacheEntry LockList LockHeap LockMerge LockSubtract LockCalm LockOps LockLedger LockTable.

(** The file system knows nothing about locks, on any of its exports. *)
Class ServerLocks (FS : Type) `{!FsalOps FS} : Prop := {
  no_lock_support : forall fe, fs_supports fe fso_lock_support = false;
  no_async_block : forall fe, fs_supports fe fso_lock_support_async_block = false
}.

Section changes.
Context {FS : Type} `{!FsalOps FS} {env : OwnerEnv} {lenv : LockEnv}.
Implicit Types w : world FS.

Abbreviation locks_of w f := (w_lists w (file_lock_list f)).

(** * Changes of one entry *)

(** The entries of a file, with those that are not on its list yet. *)
Definition entries_of f X w g : list loc := (if decide (g = f) then X else []) ++ locks_of w g.

Lemma table_clash f X w g a1 a2 e1 e2 b :
  table f X w -> a1 ∈ entries_of f X w g -> a2 ∈ entries_of f X w g -> w_locks w !! a1 = Some e1 ->
  w_locks w !! a2 = Some e2 -> ~ clash e1 e2 b.
Proof. intros HT H1 H2 He1 He2. by apply (tb_free _ _ _ HT g a1 a2 e1 e2 b). Qed.

Lemma table_live f X w g a e :
  table f X w -> a ∈ entries_of f X w g -> w_locks w !! a = Some e -> live e.
Proof.
  intros HT Ha He. unfold entries_of in Ha. apply elem_of_app in Ha as [Ha|Ha].
  - destruct (decide (g = f)); [|by apply elem_of_nil in Ha].
    destruct (tb_extra _ _ _ HT a Ha) as [(e1 & ? & ?) _]. by simplify_eq.
  - destruct (proj2 (tb_live _ _ _ HT g) a Ha) as (e1 & ? & ?). by simplify_eq.
Qed.

Lemma clash_self o e1 e2 b : sle_owner e1 = Some o -> sle_owner e2 = Some o -> ~ clash e1 e2 b.
Proof.
  intros H1 H2 (_ & _ & _ & _ & _ & Hd). rewrite H1, H2 in Hd.
  assert (same_owner o o) by done. unfold same_owner in *. congruence.
Qed.

(** What an entry says about waiting and granting may change as follows. *)
Record succeeds (e e' : state_lock_entry_t) : Prop := {
  sc_block : sle_block_data e' = sle_block_data e;
  sc_owner : sle_owner e' = sle_owner e;
  sc_refs : sle_ref_count e' = sle_ref_count e;
  sc_entry : sle_entry e' = sle_entry e;
  sc_type : sle_type e' = sle_type e;
  sc_range : range_ok (sle_lock e) -> range_ok (sle_lock e');
  sc_pending : sle_blocked e' <> STATE_NON_BLOCKING -> sle_blocked e <> STATE_NON_BLOCKING;
  sc_waiting : waiting e' -> waiting e
}.

Lemma succeeds_live e e' : succeeds e e' -> live e -> live e'.
Proof. intros [_ Ho Hr _ _ Hk _ _] (H1 & H2 & o & H3). split; [lia|]. split; [auto|]. exists o. congruence. Qed.

Lemma table_change f X w a e e' :
  table f X w -> w_locks w !! a = Some e -> succeeds e e' ->
  (sle_blocked e' = STATE_GRANTING ->
     a ∈ locks_of w (sle_entry e) /\ (sle_blocked e = STATE_GRANTING \/ waiting e)) ->
  (forall g a' e1 b, a' <> a -> a ∈ entries_of f X w g -> a' ∈ entries_of f X w g ->
     w_locks w !! a' = Some e1 -> ~ clash e' e1 b) ->
  table f X (set_locks (<[a := e']>) w).
Proof.
  intros HT Ha Hs Hgr Hcl. pose proof HT as [HB HN Hlive Hx Hent Hfree Hoth Hfiles Hgting Hgrants].
  pose proof HB as [HL HX HA HK].
  assert (Hlook : forall a' e1, <[a := e']> (w_locks w) !! a' = Some e1 ->
    exists e2, w_locks w !! a' = Some e2 /\ ((a' = a /\ e2 = e /\ e1 = e') \/ (a' <> a /\ e2 = e1))).
  { intros a' e1. destruct (decide (a' = a)) as [->|]; [rewrite lookup_insert_eq; intros [= <-]|
      rewrite lookup_insert_ne by done]; eauto 10. }
  assert (Hlv : forall a' e1, w_locks w !! a' = Some e1 -> live e1 ->
    exists e2, <[a := e']> (w_locks w) !! a' = Some e2 /\ live e2).
  { intros a' e1 He1 Hl1. destruct (decide (a' = a)) as [->|].
    - simplify_eq. exists e'. rewrite lookup_insert_eq. split; [done|by apply (succeeds_live e)].
    - exists e1. by rewrite lookup_insert_ne. }
  split; try done; simpl.
  - split; simpl; [|done| |done].
    + destruct Hs. eapply linked_update; try done.
      * unfold holders. rewrite sc_owner0, (attached_agree _ (w_blocks w) e e') by done. lia.
      * intros Hw. apply (eo_waiting _ _ _ _ _ (ln_entry _ _ _ HL a e Ha)). auto.
    + intros a' e1 (e2 & ? & _)%Hlook. by eapply HA.
  - intros a' e1 (e2 & He2 & [(-> & -> & ->)|(_ & ->)])%Hlook; [|by eapply HN].
    rewrite (sc_type _ _ Hs). by eapply HN.
  - intros g. destruct (Hlive g) as [Hnd Hall]. split; [done|].
    intros a' Ha'. destruct (Hall a' Ha') as (? & ? & ?). eauto.
  - intros a' Ha'. destruct (Hx a' Ha') as [(? & ? & ?) ?]. split; [eauto|done].
  - intros g a' e1 Ha' (e2 & He2 & [(-> & -> & ->)|(_ & ->)])%Hlook Hnb; [|by eapply Hent].
    rewrite (sc_entry _ _ Hs). apply (Hent g a e); [done..|]. by apply (sc_pending _ _ Hs).
  - intros g a1 a2 e1 e2 b Ha1 Ha2 (e1' & He1 & C1)%Hlook (e2' & He2 & C2)%Hlook.
    destruct C1 as [(-> & -> & ->)|(Hn1 & ->)], C2 as [(-> & -> & ->)|(Hn2 & ->)].
    + destruct (table_live f X w g a e HT Ha1 Ha) as (_ & _ & o & Ho).
      rewrite <- (sc_owner _ _ Hs) in Ho. by apply (clash_self o).
    + by apply (Hcl g a2).
    + intros Hc%clash_sym. revert Hc. by apply (Hcl g a1).
    + by apply (Hfree g a1 a2).
  - intros g h' a' Hh' Ha'. destruct (Hoth g h' a' Hh' Ha') as [? (e1 & He1 & Ho1)]. split; [done|].
    destruct (decide (a' = a)) as [->|]; [rewrite lookup_insert_eq|rewrite lookup_insert_ne by done; eauto].
    simplify_eq. exists e'. split; [done|]. by rewrite (sc_owner _ _ Hs).
  - intros a' e1 (e2 & He2 & [(-> & -> & ->)|(_ & ->)])%Hlook Hg; [|by eapply Hgting].
    rewrite (sc_entry _ _ Hs). by apply Hgr.
  - intros c d Hcd. destruct (Hgrants c d Hcd) as [? Hg]. split; [done|].
    intros e1 (e2 & He2 & [(Hd & -> & ->)|(_ & ->)])%Hlook Hg1; [|by apply Hg].
    rewrite (sc_entry _ _ Hs). destruct (Hgr Hg1) as [_ [?|Hw]]; [by apply Hg|].
    destruct (linked_no_cookie _ _ _ _ _ HL Ha (eo_waiting _ _ _ _ _ (ln_entry _ _ _ HL a e Ha) Hw) c d Hcd Hd).
Qed.

(** The entry is no more granted than it was. *)
Lemma table_settle f X w a e e' :
  table f X w -> w_locks w !! a = Some e -> succeeds e e' ->
  (sle_blocked e' = STATE_GRANTING -> sle_blocked e = STATE_GRANTING) -> (active e' -> active e) ->
  lock_type (sle_lock e') = lock_type (sle_lock e) ->
  (forall b, in_range (sle_lock e') b -> in_range (sle_lock e) b) ->
  table f X (set_locks (<[a := e']>) w).
Proof.
  intros HT Ha Hs Hgr Hact Hty Hr. apply (table_change f X w a e e'); try done.
  - intros Hg. split; [|auto]. apply (tb_granting _ _ _ HT a e Ha). auto.
  - intros g a' e1 b Hne Hin Hin' He1 (H1 & H2 & H3 & H4 & H5 & H6).
    apply (table_clash f X w g a a' e e1 b HT); try done.
    split_and!; auto; [by rewrite <- Hty|by rewrite <- (sc_owner _ _ Hs)].
Qed.

(** Only the reference count and the block data are others. *)
Definition recounted (e e' : state_lock_entry_t) : Prop :=
  exists n b, e' = with_ref_count (fun _ => n) (with_block_data b e).

#[global] Instance recounted_refl : Reflexive recounted.
Proof. intros []. by eexists _, _. Qed.

(** A change of the ledger around entry [a]. *)
Lemma table_touch f X w w' a e :
  table f X w -> books w' -> w_locks w !! a = Some e ->
  (forall a', a' <> a -> w_locks w' !! a' = w_locks w !! a') ->
  (exists e', w_locks w' !! a = Some e' /\ recounted e e') \/
    (sle_owner e = None /\ w_locks w' !! a = None) ->
  lists_agree w w' -> dom (w_files w) ⊆ dom (w_files w') ->
  (forall c d, w_cookies w' !! c = Some d -> w_cookies w !! c = Some d \/
     (is_Some (w_files w !! sce_entry d) /\ sce_lock_entry d = a /\ sle_entry e = sce_entry d)) ->
  table f X w'.
Proof.
  intros HT HB Ha Hoff Hself Hl Hdom Hck.
  assert (Hlook : forall a1 e1, w_locks w' !! a1 = Some e1 -> exists e2, w_locks w !! a1 = Some e2 /\ recounted e2 e1).
  { intros a1 e1 He1. destruct (decide (a1 = a)) as [->|]; [|rewrite Hoff in He1 by done; by exists e1].
    exists e. split; [done|]. destruct Hself as [(e' & ? & ?)|[_ ?]]; [|congruence].
    by assert (e' = e1) as <- by congruence. }
  assert (Hback : forall a1 e1, w_locks w !! a1 = Some e1 -> is_Some (sle_owner e1) -> exists e2,
    w_locks w' !! a1 = Some e2 /\ recounted e1 e2).
  { intros a1 e1 He1 [o Ho]. destruct (decide (a1 = a)) as [->|]; [|rewrite Hoff by done; by exists e1].
    assert (e1 = e) as -> by congruence. destruct Hself as [?|[? _]]; [done|congruence]. }
  assert (Hlive : forall a1 e1, w_locks w !! a1 = Some e1 -> live e1 -> exists e2, w_locks w' !! a1 = Some e2 /\ live e2).
  { intros a1 e1 He1 (Hr & Hk & o & Ho). destruct (Hback a1 e1 He1 ltac:(eauto)) as (e2 & He2 & n & b & ->).
    eexists. split; [exact He2|].
    pose proof (eo_refs _ _ _ _ _ (ln_entry _ _ _ (bk_linked _ HB) _ _ He2)) as Hrc.
    unfold holders in Hrc. simpl in Hrc. rewrite Ho in Hrc. split; simpl; [|split; [done|by exists o]].
    destruct (attached _ _); lia. }
  pose proof HT as [HB0 HN Hlv Hx Hent Hfree Hoth Hfiles Hgting Hgrants].
  assert (Hdom' : forall g, is_Some (w_files w !! g) -> is_Some (w_files w' !! g)).
  { intros g. rewrite <- !elem_of_dom. apply Hdom. }
  assert (Hlf : forall g, locks_of w' g = locks_of w g) by (intros g; by apply Hl).
  split; try done.
  - intros a1 e1 (e2 & He2 & n & b & ->)%Hlook. by apply (HN a1 e2).
  - intros g. rewrite Hlf. destruct (Hlv g) as [? Hall]. split; [done|]. intros a1 Ha1.
    destruct (Hall a1 Ha1) as (? & ? & ?). eauto.
  - intros a1 Ha1. destruct (Hx a1 Ha1) as [(? & ? & ?) Hno]. split; [eauto|].
    intros h' Hh'. rewrite Hl by apply Hh'. auto.
  - intros g a1 e1. rewrite Hlf. intros Ha1 (e2 & He2 & n & b & ->)%Hlook. by apply (Hent g a1 e2).
  - intros g a1 a2 e1 e2 b. rewrite Hlf. intros Ha1 Ha2 (e1' & He1 & n1 & b1 & ->)%Hlook (e2' & He2 & n2 & b2 & ->)%Hlook.
    by apply (Hfree g a1 a2 e1' e2' b).
  - intros g h' a1 Hh'. rewrite Hl, Hlf by apply Hh'. intros Ha1.
    destruct (Hoth g h' a1 Hh' Ha1) as [? (e1 & He1 & Ho1)]. split; [done|].
    destruct (Hback a1 e1 He1 Ho1) as (e2 & He2 & n & b & ->). by eexists.
  - intros g. rewrite Hlf. auto.
  - intros a1 e1 (e2 & He2 & n & b & ->)%Hlook. rewrite Hlf. by apply (Hgting a1 e2).
  - intros c d [Hc|(Hf & Hd & He)]%Hck.
    + destruct (Hgrants c d Hc) as [? Hg]. split; [auto|]. intros e1 (e2 & He2 & n & b & ->)%Hlook. by apply (Hg e2).
    + split; [auto|]. rewrite Hd. intros e1 (e2 & He2 & n & b & ->)%Hlook _.
      by assert (e2 = e) as -> by congruence.
Qed.

(** * Cookies *)

Definition rest_view w :=
  (w_fs w, w_open_fd_count w, w_caching_fds w, w_files w, w_ht_lock_cookies w, w_nlm_shares w,
   w_states w, w_next w, w_choices w, w_next_cookie w, w_export w, w_fsal_export w, w_async w).

(** The grant of cookie [c], with the data [d], is over. *)
Record uncookied (c : loc) (d : state_cookie_entry_t) w w' : Prop := {
  un_cookies : w_cookies w' = delete c (w_cookies w);
  un_lists : lists_agree w w';
  un_view : rest_view w' = rest_view w;
  un_others : forall a, a <> sce_lock_entry d -> w_locks w' !! a = w_locks w !! a;
  un_entry : forall e, w_locks w !! sce_lock_entry d = Some e -> is_Some (sle_owner e) ->
    w_locks w' !! sce_lock_entry d = Some (with_ref_count (fun n => n - 1) e);
  un_back : forall e', w_locks w' !! sce_lock_entry d = Some e' -> exists e,
    w_locks w !! sce_lock_entry d = Some e /\ e' = with_ref_count (fun n => n - 1) e /\ is_Some (sle_owner e);
  un_attached : forall e, w_locks w' !! sce_lock_entry d = Some e -> attached (w_blocks w') e = None
}.

Lemma wp_free_cookie f X c d (Q : unit -> world FS -> Prop) w :
  table f X w -> w_cookies w !! c = Some d ->
  (forall w', table f X w' -> uncookied c d w w' -> Q tt w') -> wp (free_cookie c true) Q w.
Proof.
  intros HT Hc HQ. pose proof (tb_books _ _ _ HT) as [HL HX HA HK]. set (a := sce_lock_entry d).
  destruct (ln_cookie _ _ _ HL c d Hc) as (e & He & Hat). fold a in He.
  pose proof Hat as (b & bd & Hb & Hbd & _)%attached_some.
  pose proof (eo_refs _ _ _ _ _ (ln_entry _ _ _ HL a e He)) as Hrefs. unfold holders in Hrefs. rewrite Hat in Hrefs.
  unfold free_cookie. apply wp_bind, (wp_deref (fun w => w_cookies w !! c) _ _ d Hc), wp_bind.
  simpl when. fold a. apply wp_bind, (wp_deref (fun w => w_locks w !! a) _ _ e He). rewrite Hb.
  apply wp_bind, wp_bind, (wp_deref (fun w => w_blocks w !! b) _ _ bd Hbd), wp_modify.
  apply (wp_dec_ref_exact (fun w => (w_cookies w, rest_view w)) a e); try done.
  intros w1 Hd [Hck Hv]%pair_equal_spec Hl. simpl in Hd. apply wp_modify.
  assert (HL' : linked (w_locks w1) (w_blocks w1) (delete c (w_cookies w))) by (by eapply linked_uncookie).
  assert (Hother : forall a', a' <> a -> w_locks w1 !! a' = w_locks w !! a').
  { intros a' Hne. destruct Hd as [(_ & -> & _)|(_ & -> & _)]; [by rewrite lookup_delete_ne|by rewrite lookup_insert_ne]. }
  assert (Hself : (w_locks w1 !! a = Some (with_ref_count (fun n => n - 1) e) /\ is_Some (sle_owner e)) \/
    (sle_owner e = None /\ w_locks w1 !! a = None)).
  { destruct Hd as [(Hr & -> & _)|(Hr & -> & _)]; [right; rewrite lookup_delete_eq|left; rewrite lookup_insert_eq].
    - destruct (sle_owner e); [lia|done].
    - split; [done|]. destruct (sle_owner e); [by eexists|lia]. }
  pose proof Hv as [= _ _ _ Hfi Hht _ _ Hnx _ Hnc _ _ _].
  apply HQ.
  - apply (table_touch f X w _ a e); try done; simpl; rewrite ?Hck, ?Hfi.
    + split; simpl; rewrite ?Hck, ?Hht, ?Hnx, ?Hnc; [done|by apply indexed_free| |].
      * intros a' e'. simpl. rewrite Hnx. destruct (decide (a' = a)) as [->|]; [intros _; by eapply HA|].
        rewrite Hother by done. apply HA.
      * intros b' Hb'. apply HK. apply (drop_ref_blocks _ _ _ _ _ _ _ Hd) in Hb'.
        destruct (decide (b' = b)) as [->|]; [by rewrite Hbd|by rewrite lookup_insert_ne in Hb'].
    + destruct Hself as [[? _]|?]; [left|by right]. eexists. split; [done|].
      exists (sle_ref_count e - 1), (sle_block_data e). by destruct e.
    + done.
    + intros c' d' [_ ?]%lookup_delete_Some. by left.
  - split; simpl; try done.
    + by rewrite Hck.
    + intros e1 He1 [o Ho]. fold a in He1 |- *. simplify_eq. destruct Hself as [[? _]|[? _]]; [done|congruence].
    + intros e1 He1. fold a in He1 |- *. exists e. split; [done|]. destruct Hself as [[? ?]|[_ ?]]; [|congruence].
      split; [congruence|done].
    + intros e1 He1. fold a in He1. destruct (attached (w_blocks w1) e1) as [c'|] eqn:Hat'; [|done].
      destruct (eo_attached _ _ _ _ _ (ln_entry _ _ _ HL' a e1 He1) c' Hat') as (d' & [Hne Hd']%lookup_delete_Some & Heq).
      destruct Hne. symmetry. by apply (linked_cookie_entry _ _ _ _ _ _ HL He Hat c' d' Hd').
Qed.

Lemma table_find f X w k : table f X w -> table f X (set_ht_lock_cookies (delete k) w).
Proof.
  intros HT. pose proof (tb_books _ _ _ HT) as [HL HX HA HK]. apply (table_books f X w); try done.
  split; [done|by apply indexed_find|done|done].
Qed.

(** Another thread may have taken the cookie out of the table. *)
Lemma wp_take_cookie f X c d (Q : bool -> world FS -> Prop) w :
  table f X w -> w_cookies w !! c = Some d ->
  (forall w', w_ht_lock_cookies w !! sce_cookie d = Some c -> table f X w' ->
     uncookied c d (set_ht_lock_cookies (delete (sce_cookie d)) w) w' -> Q true w') ->
  (w_ht_lock_cookies w !! sce_cookie d = None -> Q false w) ->
  wp (take_cookie c) Q w.
Proof.
  intros HT Hc Hmine Hother. pose proof (tb_books _ _ _ HT) as [HL HX HA HK].
  unfold take_cookie, state_find_grant.
  apply wp_bind, (wp_deref (fun w => w_cookies w !! c) _ _ d Hc), wp_bind, wp_bind, wp_gets.
  destruct (w_ht_lock_cookies w !! sce_cookie d) as [c'|] eqn:Hk; [|by apply wp_ret, wp_ret, Hother].
  assert (c' = c) as -> by (by eapply indexed_found).
  apply wp_bind, wp_modify, wp_ret, wp_bind. eapply (wp_free_cookie f X); [by apply table_find|done|].
  intros w' HT' Hun. by apply wp_ret, Hmine.
Qed.

(** * Releasing *)

(** An entry is given up by the lists; if it is about to be granted, its grant is
    over. *)
Lemma wp_remove_table f a e (Q : unit -> world FS -> Prop) w :
  table f [] w -> w_locks w !! a = Some e -> is_Some (sle_owner e) ->
  (sle_blocked e = STATE_GRANTING -> attached (w_blocks w) e = None) ->
  (forall w', table f [] w' -> released a w w' ->
     drop_ref a (with_owner None e) (w_locks w) (w_locks w') (w_blocks w) (w_blocks w') ->
     other_view w' = other_view w -> Q tt w') ->
  wp (remove_from_locklist a) Q w.
Proof.
  intros HT Ha Ho Hgr HQ.
  apply (wp_keep (fun w' => remove_from_locklist a w = Ret tt w')); [by intros []|].
  apply (wp_remove a e); [done|]. intros w' Hrel Hrun.
  pose proof (remove_exact a e w w' Ha Hrun) as Hd.
  pose proof HT as [HB HN Hlv _ Hent Hfree Hoth Hfiles Hgting Hgrants].
  pose proof (books_remove w a e w' HB Ha Ho Hrun) as HB'. pose proof (no_leases_remove w w' a e HN Ha Hrun) as HN'.
  assert (HV : other_view w' = other_view w) by (revert Hrun; by apply (preserves_remove other_view)).
  pose proof HV as [= _ _ _ Hfi Hck _ _ _ _ _ _ _]. pose proof Hrel as (Hoff & _ & Hl & _).
  apply HQ; try done.
  assert (Hself : forall e', w_locks w' !! a = Some e' -> sle_blocked e' = sle_blocked e /\
    sle_entry e' = sle_entry e /\ sle_blocked e <> STATE_GRANTING).
  { intros e' He'. destruct Hd as [(Hr & Hm & _)|(Hr & Hm & _)]; rewrite Hm in He'; [by rewrite lookup_delete_eq in He'|].
    rewrite lookup_insert_eq in He'. simplify_eq. split_and!; try done. intros Hg. apply Hr. simpl.
    pose proof (eo_refs _ _ _ _ _ (ln_entry _ _ _ (bk_linked _ HB) a e Ha)) as Hrc. unfold holders in Hrc.
    rewrite (Hgr Hg) in Hrc. destruct Ho as [o Ho]. rewrite Ho in Hrc. lia. }
  assert (Hlg : forall g, locks_of w' g = glist_del a (locks_of w g)) by (intros g; by apply Hl).
  split; try done; rewrite ?Hfi, ?Hck.
  - intros g. rewrite Hlg. destruct (Hlv g) as [Hnd Hall]. split; [by apply glist_del_nodup|].
    intros a' [Hne Ha']%elem_of_glist_del. rewrite Hoff by done. auto.
  - by intros a' ?%elem_of_nil.
  - intros g a' e'. rewrite Hlg. intros [Hne Ha']%elem_of_glist_del. rewrite Hoff by done. by apply Hent.
  - intros g a1 a2 e1 e2 b. assert (Hnil : (if decide (g = f) then [] else []) = ([] : list loc)) by (by destruct (decide (g = f))).
    rewrite Hlg, Hnil. simpl. intros [? Ha1]%elem_of_glist_del [? Ha2]%elem_of_glist_del. rewrite !Hoff by done.
    apply (Hfree g); rewrite Hnil; done.
  - intros g h' a' Hh'. rewrite Hl, Hlg by apply Hh'. intros [Hne Ha']%elem_of_glist_del.
    destruct (Hoth g h' a' Hh' Ha') as [Hno ?]. rewrite Hoff by done. split; [|done]. by intros [_ ?]%elem_of_glist_del.
  - intros g Hg. apply Hfiles. intros Heq. apply Hg. by rewrite Hlg, Heq.
  - intros a' e' He' Hg. destruct (decide (a' = a)) as [->|Hne].
    + destruct (Hself e' He') as (? & ? & Hno). congruence.
    + rewrite Hoff in He' by done. rewrite Hlg, elem_of_glist_del. split; [done|by apply Hgting].
  - intros c d Hcd. destruct (Hgrants c d Hcd) as [? Hg]. split; [done|]. intros e1 He1 Hg1.
    destruct (decide (sce_lock_entry d = a)) as [Heq|Hne].
    + rewrite Heq in He1. destruct (Hself e1 He1) as (? & ? & Hno). congruence.
    + rewrite Hoff in He1 by done. by apply Hg.
Qed.
End changes.

Section grants.
Context {FS : Type} `{!FsalOps FS} {HSL : ServerLocks FS} {env : OwnerEnv} {lenv : LockEnv}.
Implicit Types w : world FS.

Abbreviation locks_of w f := (w_lists w (file_lock_list f)).

(** * The file system agrees to everything *)

Lemma wp_do_lock_op entry op owner lock report overlap ty
    (Q : state_status_t * option (loc * fsal_lock_param_t) -> world FS -> Prop) w :
  Q (STATE_SUCCESS, None) w -> wp (do_lock_op entry op owner lock report overlap ty) Q w.
Proof.
  intros HQ. unfold do_lock_op, supports.
  do 3 (apply wp_bind, wp_bind, wp_gets, wp_ret). by rewrite no_lock_support.
Qed.

Definition retagged (e : state_lock_entry_t) : state_lock_entry_t :=
  with_lock (with_sle_type (fsal_sle_type_of POSIX_LOCK)) e.

Lemma wp_entry_lock_op f X entry op a e (Q : state_status_t -> world FS -> Prop) w :
  table f X w -> w_locks w !! a = Some e ->
  (table f X (set_locks (<[a := retagged e]>) w) ->
   Q STATE_SUCCESS (set_locks (<[a := retagged e]>) w)) ->
  wp (do_entry_lock_op entry op a) Q w.
Proof.
  intros HT Ha HQ. unfold do_entry_lock_op. apply wp_bind, (wp_upd_lock _ _ e _ _ Ha).
  apply wp_bind. eapply (wp_deref (fun w => w_locks w !! a)); [apply lookup_insert_eq|].
  apply wp_bind, wp_do_lock_op, wp_ret, HQ. by apply (table_settle f X w a e).
Qed.

(** * Operations that concern neither entries nor cookies *)

Definition still_view w :=
  (w_locks w, w_blocks w, w_cookies w, w_ht_lock_cookies w, w_next w, w_next_cookie w, w_lists w,
   w_files w, w_export w, w_fsal_export w, w_states w).

Definition idle {A} (m : M (world FS) A) : Prop :=
  forall w, exists r w', m w = Ret r w' /\ still_view w' = still_view w /\ w_async w ⊆ w_async w'.

Lemma idle_ret {A} (a : A) : idle (mret a).
Proof. intros w. by eexists _, _. Qed.

Lemma idle_bind {A B} (m : M (world FS) A) (k : A -> M (world FS) B) :
  idle m -> (forall a, idle (k a)) -> idle (m ≫= k).
Proof.
  intros Hm Hk w. destruct (Hm w) as (r & w1 & H1 & V1 & A1). destruct (Hk r w1) as (r2 & w2 & H2 & V2 & A2).
  exists r2, w2. unfold mbind, M_bind. rewrite H1. split; [done|]. split; [congruence|]. by etrans.
Qed.

Lemma idle_choose : idle choose.
Proof. intros w. unfold choose. destruct (w_choices w); by eexists _, _. Qed.

Lemma idle_ref_add r d : idle (ref_add r d).
Proof. intros w. by eexists _, _. Qed.

Lemma idle_fill fh owner cookie : idle (fill_grant_args fh owner cookie).
Proof.
  assert (Hn : forall name, idle (netobj_alloc name)).
  { intros name. unfold netobj_alloc. destruct (bool_decide _); [apply idle_ret|apply idle_choose]. }
  unfold fill_grant_args. do 3 (apply idle_bind; [apply Hn|]; intros [|]; [|apply idle_ret]).
  apply idle_choose.
Qed.

Lemma wp_idle {A} f X (m : M (world FS) A) (Q : A -> world FS -> Prop) w :
  idle m -> table f X w ->
  (forall a w', table f X w' -> still_view w' = still_view w -> w_async w ⊆ w_async w' -> Q a w') -> wp m Q w.
Proof.
  intros Hm HT HQ. destruct (Hm w) as (a & w' & H1 & H2 & H3). eapply wp_intro; [exact H1|]. apply HQ; try done.
  injection H2 as Hmm Hb Hc Hh Hn Hk Hl Hf _ _ _. apply (table_view f X w); [done| | |by rewrite Hf].
  - unfold ledger_view. by rewrite Hmm, Hb, Hc, Hh, Hn, Hk.
  - intros h _. by rewrite Hl.
Qed.

Lemma wp_schedule f X job (Q : state_status_t -> world FS -> Prop) w :
  table f X w ->
  (forall status w', status <> STATE_LOCK_BLOCKED -> table f X w' -> still_view w' = still_view w ->
     w_async w ⊆ w_async w' -> (status = STATE_SUCCESS -> job ∈ w_async w') -> Q status w') ->
  wp (state_async_schedule job) Q w.
Proof.
  intros HT HQ. unfold state_async_schedule.
  apply wp_bind, (wp_idle f X); [apply idle_choose|done|]. intros [|] w1 HT1 V1 A1.
  - apply wp_bind, wp_modify, wp_ret, HQ; try done.
    + by apply (table_view f X w1).
    + simpl. intros j Hj. rewrite elem_of_app. left. auto.
    + intros _. simpl. rewrite elem_of_app, list_elem_of_singleton. by right.
  - by apply wp_ret, HQ.
Qed.

(** * The cookie of a grant *)

(** Being granted, an entry gets another reference count and lock kind. *)
Definition grantee (e e' : state_lock_entry_t) : Prop :=
  exists n t, e' = with_ref_count (fun _ => n) (with_lock (with_sle_type t) e).

#[global] Instance grantee_refl : Reflexive grantee.
Proof. intros [? ? ? ? ? ? n [t ? ? ? ?] ?]. by exists n, t. Qed.

#[global] Instance grantee_trans : Transitive grantee.
Proof. intros e1 e2 e3 (n1 & t1 & ->) (n2 & t2 & ->). by exists n2, t2. Qed.

(** What a step of the grant of entry [a] leaves alone. *)
Record grant_step (a : loc) w w' : Prop := {
  gs_locks : forall a', a' <> a -> w_locks w' !! a' = w_locks w !! a';
  gs_entry : forall e, w_locks w !! a = Some e -> exists e', w_locks w' !! a = Some e' /\ grantee e e';
  gs_cookies : w_cookies w ⊆ w_cookies w';
  gs_lists : lists_agree w w';
  gs_files : w_files w' = w_files w;
  gs_async : w_async w ⊆ w_async w'
}.

#[global] Instance grant_step_trans a : Transitive (grant_step a).
Proof.
  intros w1 w2 w3 [L1 E1 C1 S1 F1 A1] [L2 E2 C2 S2 F2 A2]. split.
  - intros a' Hne. by rewrite L2, L1.
  - intros e He. destruct (E1 e He) as (e1 & He1 & G1). destruct (E2 e1 He1) as (e2 & He2 & G2).
    exists e2. split; [done|by etrans].
  - by etrans.
  - intros h Hh. by rewrite S2, S1.
  - congruence.
  - by etrans.
Qed.

Lemma grant_step_still a w w' : still_view w' = still_view w -> w_async w ⊆ w_async w' -> grant_step a w w'.
Proof.
  intros [= Hm Hb Hc Hh Hn Hk Hl Hf _ _ _] Hj. split; rewrite ?Hm, ?Hc; try done.
  - intros e He. by exists e.
  - intros h _. by rewrite Hl.
Qed.

Lemma grantee_retag e : grantee e (retagged e).
Proof. exists (sle_ref_count e), FSAL_POSIX_LOCK. by destruct e. Qed.

Lemma grant_step_retag a e w :
  w_locks w !! a = Some e -> grant_step a w (set_locks (<[a := retagged e]>) w).
Proof.
  intros Ha. split; simpl; try done.
  - intros a' Hne. by rewrite lookup_insert_ne.
  - intros e1 He1. assert (e1 = e) as -> by congruence. exists (retagged e). rewrite lookup_insert_eq. split; [done|apply grantee_retag].
Qed.

Lemma wp_upd_block b bd g (Q : unit -> world FS -> Prop) w :
  w_blocks w !! b = Some bd -> Q tt (set_blocks (<[b := g bd]>) w) -> wp (upd_block b g) Q w.
Proof.
  intros Hb HQ. unfold upd_block.
  apply wp_bind, (wp_deref (fun w => w_blocks w !! b) _ _ bd Hb), wp_modify, HQ.
Qed.

(** A fresh address is taken. *)
Lemma table_fresh f X w : table f X w -> table f X (set_next Pos.succ w).
Proof.
  intros HT. pose proof (tb_books _ _ _ HT) as [HL HX HA HK]. apply (table_books f X w); try done.
  split; [done|eapply indexed_mono; [done|simpl; lia|done]| |].
  - intros a e He%HA. simpl. lia.
  - intros b Hb%HK. simpl. lia.
Qed.

Lemma table_cookie f w a e b bd n w' :
  table f [] w -> w_locks w !! a = Some e -> ~ waiting e -> sle_block_data e = Some b ->
  w_blocks w !! b = Some bd -> sbd_blocked_cookie bd = None -> is_Some (w_files w !! sle_entry e) ->
  indexed (w_cookies w) (w_ht_lock_cookies w) (w_next w) (n - 1) ->
  let c := w_next w in let d := mk_cookie_entry (sle_entry e) a (grant_key n) in
  w_locks w' = <[a := with_ref_count (fun n => n + 1) e]> (w_locks w) ->
  w_blocks w' = <[b := with_cookie (Some c) bd]> (w_blocks w) ->
  w_cookies w' = <[c := d]> (w_cookies w) -> w_ht_lock_cookies w' = <[grant_key n := c]> (w_ht_lock_cookies w) ->
  w_next w' = Pos.succ c -> w_next_cookie w' = n -> lists_agree w w' -> w_files w' = w_files w ->
  table f [] w'.
Proof.
  intros HT Ha Hw Hb Hbd Hno Hf HX c d Hm Hbl Hc Hht Hnx Hnc Hl Hfi.
  destruct (indexed_add _ _ _ _ n a (sle_entry e) HX ltac:(lia)) as (Hk & Hcn & HX').
  pose proof (tb_books _ _ _ HT) as [HL _ HA HK]. apply (table_touch f [] w w' a e); try done.
  - split; rewrite ?Hm, ?Hbl, ?Hc, ?Hht, ?Hnx, ?Hnc; [|done| |].
    + by apply (linked_cookie _ _ _ c d e b bd).
    + intros a' e'. rewrite Hm, Hnx. intros He'. enough (a' < c)%positive by lia.
      by eapply addresses_insert.
    + intros b' Hb'. enough (b' < c)%positive by lia. apply HK.
      destruct (decide (b' = b)) as [->|]; [by rewrite Hbd|by rewrite lookup_insert_ne in Hb'].
  - intros a' Hne. by rewrite Hm, lookup_insert_ne.
  - left. eexists. rewrite Hm, lookup_insert_eq. split; [done|].
    exists (sle_ref_count e + 1), (sle_block_data e). by destruct e.
  - by rewrite Hfi.
  - intros c' d'. rewrite Hc. destruct (decide (c' = c)) as [->|].
    + rewrite lookup_insert_eq. intros [= <-]. by right.
    + rewrite lookup_insert_ne by done. by left.
Qed.

(** Adding the cookie with the next key: it can fail, leaving things as they are. *)
Lemma wp_add_cookie f a e b bd n (Q : state_status_t * option loc -> world FS -> Prop) w :
  table f [] w -> w_locks w !! a = Some e -> ~ waiting e -> sle_block_data e = Some b ->
  w_blocks w !! b = Some bd -> sbd_blocked_cookie bd = None -> sbd_grant_type bd <> STATE_GRANT_NONE ->
  is_Some (w_files w !! sle_entry e) ->
  w_next_cookie w = n -> indexed (w_cookies w) (w_ht_lock_cookies w) (w_next w) (n - 1) ->
  (forall status w', status <> STATE_SUCCESS -> status <> STATE_LOCK_BLOCKED -> table f [] w' ->
     grant_step a w w' -> w_locks w' = w_locks w -> w_blocks w' = w_blocks w ->
     w_next_cookie w' = n -> Q (status, None) w') ->
  (forall c d e' w', table f [] w' -> grant_step a w w' -> w_cookies w !! c = None -> w_cookies w' !! c = Some d ->
     sce_lock_entry d = a -> w_cookies w' = <[c := d]> (w_cookies w) -> w_locks w' !! a = Some e' ->
     attached (w_blocks w') e' = Some c -> w_next_cookie w' = n -> Q (STATE_SUCCESS, Some c) w') ->
  wp (state_add_grant_cookie (sle_entry e) (grant_key n) a) Q w.
Proof.
  intros HT Ha Hw Hb Hbd Hno Hty Hf Hn HX Hfail Hok. unfold state_add_grant_cookie.
  apply wp_bind, (wp_deref (fun w => w_locks w !! a) _ _ e Ha). rewrite Hb.
  case_bool_decide; [done|].
  apply wp_bind, (wp_idle f []); [apply idle_choose|done|]. intros ok w1 HT1 V1 A1.
  apply wp_bind, (wp_idle f []); [destruct ok; [apply idle_choose|apply idle_ret]|done|]. intros ok' w2 HT2 V2 A2.
  assert (V : still_view w2 = still_view w) by congruence.
  assert (A : w_async w ⊆ w_async w2) by (by etrans). clear V1 V2 A1 A2 HT1 w1.
  destruct ok'; cbn [negb]; [|apply wp_ret; apply Hfail; try done; [by apply grant_step_still|injection V; congruence..]].
  injection V as Hm Hbl Hc Hht Hnx Hnc Hl Hfi _ _ _.
  apply wp_bind. eapply wp_intro; [reflexivity|]. apply table_fresh in HT2. set (c := w_next w2) in *.
  apply wp_bind, wp_gets.
  destruct (indexed_add _ _ _ _ n a (sle_entry e) HX ltac:(lia)) as (Hk & Hcn & _).
  rewrite bool_decide_eq_true_2 by (simpl; by rewrite Hht).
  apply wp_bind, (wp_idle f []); [apply idle_choose|exact HT2|]. clear HT2. intros ok2 w3 HT3 V3 A3.
  injection V3 as Hm3 Hbl3 Hc3 Hht3 Hnx3 Hnc3 Hl3 Hfi3 _ _ _.
  assert (HG : grant_step a w w3).
  { split; rewrite ?Hm3, ?Hm, ?Hc3, ?Hc; try done.
    - intros e1 He1. by exists e1.
    - intros h _. by rewrite Hl3, Hl.
    - by rewrite Hfi3.
    - by etrans. }
  destruct ok2; cbn [negb]; [|apply wp_ret; apply Hfail; try done; congruence].
  apply wp_bind, wp_modify, wp_bind, wp_modify, wp_bind.
  apply (wp_upd_lock _ _ e); [simpl; congruence|].
  apply wp_bind, (wp_upd_block _ bd); [simpl; congruence|].
  set (w4 := set_blocks _ _). set (d := mk_cookie_entry (sle_entry e) a (grant_key n)) in w4.
  set (e1 := with_ref_count (fun n => n + 1) e) in w4.
  assert (H4 : table f [] w4 /\ grant_step a w w4 /\ w_cookies w4 = <[c := d]> (w_cookies w) /\
    w_locks w4 !! a = Some e1 /\ w_blocks w4 !! b = Some (with_cookie (Some c) bd) /\ w_next_cookie w4 = n).
  { assert (Hcw : c = w_next w) by done.
    split_and!; [|split|..]; simpl; rewrite ?Hm3, ?Hm, ?Hbl3, ?Hbl, ?Hc3, ?Hc, ?Hht3, ?Hht, ?Hcw; try done.
    - apply (table_cookie f w a e b bd n); try done; simpl; try congruence.
      + by rewrite Hm3, Hm.
      + by rewrite Hc3, Hc, Hcw.
      + by rewrite Hnx3, <- Hcw.
      + apply HG.
    - intros a' Hne. by rewrite lookup_insert_ne.
    - intros e2 He2. simplify_eq. exists e1. rewrite lookup_insert_eq. split; [done|].
      exists (sle_ref_count e + 1), (lock_sle_type (sle_lock e)). by destruct e as [? ? ? ? ? ? ? [] ?].
    - by apply insert_subseteq.
    - apply HG.
    - apply HG.
    - apply HG.
    - by rewrite lookup_insert_eq.
    - by rewrite lookup_insert_eq.
    - congruence. }
  destruct H4 as (HT4 & HG4 & Hc4 & Ha4 & Hb4 & Hn4). clearbody w4. clear HT3 HG A3.
  apply wp_bind, (wp_deref (fun w => w_blocks w !! b) _ _ _ Hb4).
  assert (Hdone : forall e' w5, table f [] w5 -> grant_step a w4 w5 -> w_locks w5 !! a = Some e' -> grantee e1 e' ->
    w_blocks w5 = w_blocks w4 -> w_cookies w5 = w_cookies w4 -> w_next_cookie w5 = n ->
    wp (if decide (STATE_SUCCESS = STATE_SUCCESS) then mret (STATE_SUCCESS, Some c)
        else free_cookie c false;; mret (STATE_SUCCESS, None)) Q w5).
  { intros e' w5 HT5 HG5 Ha5 (k & t & ->) Hb5 Hc5 Hn5. apply wp_ret.
    apply (Hok c d (with_ref_count (fun _ => k) (with_lock (with_sle_type t) e1)) w5); try done; try congruence.
    - by etrans.
    - rewrite Hc5, Hc4. apply lookup_insert_eq.
    - unfold attached. simpl. rewrite Hb. simpl. by rewrite Hb5, Hb4. }
  unfold grant_lock_op. simpl. apply wp_bind.
  destruct (sbd_grant_type bd); [done|..|apply (wp_ret STATE_SUCCESS), (Hdone e1); try done; by apply grant_step_still|];
    (apply (wp_entry_lock_op f [] _ _ a e1); [done|done|]; intros HT5; apply (Hdone (retagged e1)); try done;
     [by apply grant_step_retag|simpl; apply lookup_insert_eq|apply grantee_retag]).
Qed.

Lemma table_counter f X w g :
  table f X w -> w_next_cookie w <= g (w_next_cookie w) -> table f X (set_next_cookie g w).
Proof.
  intros HT Hn. pose proof (tb_books _ _ _ HT) as [HL HX HA HK]. apply (table_books f X w); try done.
  split; [done|eapply indexed_mono; [done|done|done]|done|done].
Qed.

(** The grant that failed after all: its cookie is freed. *)
Lemma wp_cancel_grant f X c d e (Q : state_status_t -> world FS -> Prop) w0 w :
  table f X w -> grant_step (sce_lock_entry d) w0 w -> w_cookies w !! c = Some d -> w_cookies w0 !! c = None ->
  w_locks w !! sce_lock_entry d = Some e -> is_Some (sle_owner e) ->
  (forall w' e', table f X w' -> grant_step (sce_lock_entry d) w0 w' ->
     w_locks w' !! sce_lock_entry d = Some e' -> attached (w_blocks w') e' = None ->
     w_next_cookie w' = w_next_cookie w -> Q STATE_SUCCESS w') ->
  wp (state_cancel_grant c) Q w.
Proof.
  intros HT HG Hc Hc0 He Ho HQ. unfold state_cancel_grant.
  apply wp_bind, (wp_deref (fun w => w_cookies w !! c) _ _ d Hc), wp_bind.
  apply (wp_entry_lock_op f X _ _ (sce_lock_entry d) e); [done|done|]. intros HT1.
  assert (HG1 : grant_step (sce_lock_entry d) w0 (set_locks (<[sce_lock_entry d := retagged e]>) w))
    by (etrans; [done|by apply grant_step_retag]).
  assert (He1 : w_locks (set_locks (<[sce_lock_entry d := retagged e]>) w) !! sce_lock_entry d = Some (retagged e))
    by (simpl; apply lookup_insert_eq).
  apply wp_bind, (wp_free_cookie f X c d); [done|done|]. intros w2 HT2 [Uc Ul Uv Uo Ue _ Ua].
  specialize (Ue _ He1 Ho). injection Uv as _ _ _ Hfi _ _ _ _ _ Hnc _ _ Has.
  apply wp_ret, (HQ w2 (with_ref_count (fun n => n - 1) (retagged e)) HT2); [|done|by apply Ua|done].
  destruct HG1 as [G1 G2 G3 G4 G5 G6]. split.
  - intros a' Hne. by rewrite Uo, G1.
  - intros e0 He0. destruct (G2 e0 He0) as (e1 & ? & Hg1). simplify_eq. eexists. split; [done|]. etrans; [done|].
    exists (sle_ref_count e - 1), FSAL_POSIX_LOCK. by destruct e.
  - rewrite Uc. apply map_subseteq_spec. intros c' d' Hc'. rewrite lookup_delete_ne by congruence.
    by apply (lookup_weaken _ _ _ _ Hc').
  - intros h Hh. rewrite Ul, G4; done.
  - by rewrite Hfi.
  - by rewrite Has.
Qed.

Lemma wp_callback f a e b bd o (Q : state_status_t -> world FS -> Prop) w :
  table f [] w -> w_locks w !! a = Some e -> sle_blocked e = STATE_GRANTING -> sle_block_data e = Some b ->
  w_blocks w !! b = Some bd -> sbd_blocked_cookie bd = None -> sbd_grant_type bd <> STATE_GRANT_NONE ->
  sle_owner e = Some o -> is_Some (w_files w !! sle_entry e) -> 0 <= w_next_cookie w < UINT64_MAX ->
  (forall status w' e', status <> STATE_LOCK_BLOCKED -> table f [] w' -> grant_step a w w' ->
     0 <= w_next_cookie w' <= w_next_cookie w + 1 -> w_locks w' !! a = Some e' ->
     (status <> STATE_SUCCESS -> attached (w_blocks w') e' = None) ->
     (status = STATE_SUCCESS -> exists c, attached (w_blocks w') e' = Some c /\ job_grant_msg c ∈ w_async w') ->
     Q status w') ->
  wp (nlm_granted_callback (sle_entry e) a) Q w.
Proof.
  intros HT Ha Hgr Hb Hbd Hno Hty Ho Hf Hn HQ. unfold nlm_granted_callback.
  assert (Hat : attached (w_blocks w) e = None) by (unfold attached; rewrite Hb; simpl; by rewrite Hbd).
  apply wp_bind, (wp_deref (fun w => w_locks w !! a) _ _ e Ha). rewrite Ho, Hb.
  apply wp_bind, (wp_idle f []); [apply idle_choose|done|]. intros ok w1 HT1 V1 A1.
  pose proof (grant_step_still a w w1 V1 A1) as HG1. injection V1 as Hm Hbl Hc Hht Hnx Hnc Hl Hfi _ _ _.
  destruct ok; cbn [negb].
  2: { apply wp_ret. apply (HQ _ w1 e); try done; [lia|by rewrite Hm|by rewrite Hbl]. }
  unfold next_granted_cookie. apply wp_bind, wp_bind, wp_modify, wp_bind, wp_gets, wp_ret. cbn [w_next_cookie set_next_cookie].
  assert (Hu : u64 (w_next_cookie w1 + 1) = w_next_cookie w1 + 1) by (apply u64_small; lia).
  set (n := w_next_cookie w1 + 1) in *. rewrite Hu.
  assert (HX : indexed (w_cookies w1) (w_ht_lock_cookies w1) (w_next w1) (n - 1)).
  { replace (n - 1) with (w_next_cookie w1) by lia. apply (tb_books _ _ _ HT1). }
  apply (table_counter _ _ _ (fun n => u64 (n + 1))) in HT1; [|cbv beta; fold n; lia]. set (w2 := set_next_cookie _ w1) in *.
  assert (Hn2 : w_next_cookie w2 = n) by done.
  assert (HG2 : grant_step a w w2) by (destruct HG1; by split).
  assert (Hnw : ~ waiting e) by (intros [?|?]; congruence).
  apply wp_bind, (wp_add_cookie f a e b bd n); try done; try (simpl; congruence).
  { intros status w3 Hs Hb3 HT3 HG3 Hm3 Hbl3 Hn3. apply wp_ret. apply (HQ _ w3 e); try done; try (simpl in *; congruence).
    - by etrans.
    - lia. }
  intros c d e3 w3 HT3 HG3 Hc2 Hc3 Hd Hck3 Ha3 Hat3 Hn3. clearbody w2.
  apply wp_bind, (wp_idle f []); [apply idle_ref_add|done|]. intros [] w4 HT4 V4 A4.
  assert (HGe : grant_step a w w3) by (by etrans). destruct (gs_entry _ _ _ HGe e Ha) as (e3' & He3' & Hg3).
  assert (e3' = e3) as -> by congruence. clear He3'.
  assert (Hb3 : sle_block_data e3 = Some b) by (by destruct Hg3 as (? & ? & ->)).
  assert (Ho3 : is_Some (sle_owner e3)) by (destruct Hg3 as (? & ? & ->); by exists o).
  pose proof Hat3 as (b3 & bd3 & Hb3' & Hbd3 & _)%attached_some. assert (b3 = b) as -> by congruence.
  assert (G4 : grant_step a w3 w4) by (by apply grant_step_still).
  injection V4 as Hm4 Hbl4 Hc4 _ _ Hn4 _ _ _ _ _.
  apply wp_bind. eapply (wp_deref (fun w => w_blocks w !! b)); [by rewrite Hbl4|].
  apply wp_bind, (wp_idle f []); [apply idle_fill|done|]. intros filled w5 HT5 V5 A5.
  assert (G5 : grant_step a w3 w5) by (etrans; [done|by apply grant_step_still]).
  injection V5 as Hm5 Hbl5 Hc5 _ _ Hn5 _ _ _ _ _.
  assert (Hsched : wp (if filled then state_async_schedule (job_grant_msg c) else mret STATE_MALLOC_ERROR)
    (fun status w6 => status <> STATE_LOCK_BLOCKED /\ table f [] w6 /\ grant_step a w3 w6 /\
       w_locks w6 = w_locks w3 /\ w_blocks w6 = w_blocks w3 /\ w_cookies w6 = w_cookies w3 /\
       w_next_cookie w6 = w_next_cookie w3 /\ (status = STATE_SUCCESS -> job_grant_msg c ∈ w_async w6)) w5).
  { destruct filled; [|apply wp_ret; split_and!; try done; congruence].
    apply (wp_schedule f []); [done|]. intros status w6 Hs HT6 V6 A6 Hj.
    pose proof (grant_step_still a _ _ V6 A6). injection V6 as ? ? ? _ _ ? _ _ _ _ _.
    split_and!; try done; try congruence. by etrans. }
  apply wp_bind. eapply wp_mono; [|exact Hsched].
  intros status w6 (Hs & HT6 & G6 & Hm6 & Hbl6 & Hc6 & Hn6 & Hj).
  assert (HG6 : grant_step a w w6) by (by etrans). case_decide as Hst.
  - apply wp_ret. apply (HQ _ w6 e3); try done; [lia|congruence|]. intros _. exists c. split; [congruence|auto].
  - apply wp_bind, (wp_idle f []); [apply idle_ref_add|done|]. intros [] w7 HT7 V7 A7.
    assert (HG7 : grant_step a w w7) by (etrans; [done|by apply grant_step_still]).
    injection V7 as Hm7 Hbl7 Hc7 _ _ Hn7 _ _ _ _ _. subst a.
    apply wp_bind, (wp_cancel_grant f [] c d e3 _ w w7); try done; try congruence.
    { destruct (w_cookies w !! c) as [d0|] eqn:Ec; [|done].
      pose proof (lookup_weaken _ _ _ _ Ec (gs_cookies _ _ _ HG2)). congruence. }
    intros w8 e8 HT8 HG8 He8 Hat8 Hn8. apply wp_ret. apply (HQ _ w8 e8); try done. lia.
Qed.

(** * The counter of cookies *)

(** There is a cookie for every waiting request. *)
Definition room w : Prop :=
  0 <= w_next_cookie w /\
  forall l, NoDup l -> (forall a, a ∈ l -> exists e, w_locks w !! a = Some e /\ waiting e) ->
    w_next_cookie w + Z.of_nat (length l) <= UINT64_MAX.

Lemma room_same w w' :
  room w -> w_next_cookie w' = w_next_cookie w ->
  (forall a e, w_locks w' !! a = Some e -> waiting e -> exists e0, w_locks w !! a = Some e0 /\ waiting e0) ->
  room w'.
Proof.
  intros [H0 Hr] Hn Hw. split; [lia|]. rewrite Hn. intros l Hnd Hl. apply Hr; [done|].
  intros a (e & ? & ?)%Hl. eauto.
Qed.

Lemma room_grant w w' a e :
  room w -> w_locks w !! a = Some e -> waiting e -> 0 <= w_next_cookie w' <= w_next_cookie w + 1 ->
  (forall a' e', w_locks w' !! a' = Some e' -> waiting e' -> a' <> a /\ w_locks w !! a' = Some e') -> room w'.
Proof.
  intros [H0 Hr] Ha Hw Hn Hwait. split; [lia|]. intros l Hnd Hl.
  specialize (Hr (a :: l)). simpl in Hr. enough (w_next_cookie w + Z.of_nat (S (length l)) <= UINT64_MAX) by lia.
  apply Hr.
  - constructor; [|done]. intros (e' & He' & Hw')%Hl. by destruct (Hwait a e' He' Hw').
  - intros a' [->|Ha']%elem_of_cons; [eauto|]. destruct (Hl a' Ha') as (e' & He' & Hw').
    destruct (Hwait a' e' He' Hw'). eauto.
Qed.

(** * Granting blocked locks *)

(** From waiting to being granted. *)
Definition promoted (e e' : state_lock_entry_t) : Prop := grantee (with_blocked STATE_GRANTING e) e'.

Lemma promoted_not_waiting e e' : promoted e e' -> ~ waiting e'.
Proof. intros (n & t & ->) [?|?]; done. Qed.

Record granted w w' : Prop := {
  gr_kept : forall a e, w_locks w !! a = Some e -> ~ waiting e -> w_locks w' !! a = Some e;
  gr_old : forall a e, w_locks w' !! a = Some e -> w_locks w !! a = Some e \/
    exists e0, w_locks w !! a = Some e0 /\ waiting e0 /\ promoted e0 e;
  gr_lists : forall h a, link_of h = sle_list ->
    (a ∈ w_lists w' h -> a ∈ w_lists w h) /\
    (a ∈ w_lists w h -> a ∈ w_lists w' h \/ w_locks w' !! a = None);
  gr_cookies : w_cookies w ⊆ w_cookies w';
  gr_files : w_files w' = w_files w;
  gr_export : w_export w' = w_export w;
  gr_async : w_async w ⊆ w_async w'
}.

#[global] Instance granted_refl : Reflexive granted.
Proof. intros w. split; try done; eauto. Qed.

#[global] Instance granted_trans : Transitive granted.
Proof.
  intros w1 w2 w3 [K1 O1 L1 C1 F1 E1 A1] [K2 O2 L2 C2 F2 E2 A2]. split; try congruence; try (by etrans); eauto.
  - intros a e [He|(e0 & He0 & Hw & Hp)]%O2; [auto|].
    destruct (O1 a e0 He0) as [?|(e1 & ? & ? & Hp1)]; [eauto|]. by destruct (promoted_not_waiting _ _ Hp1).
  - intros h a Hh. destruct (L1 h a Hh) as [P1 P2], (L2 h a Hh) as [P3 P4]. split; [auto|].
    intros [?|Hn]%P2; [auto|]. right. destruct (w_locks w3 !! a) as [e|] eqn:E; [|done].
    destruct (O2 a e E) as [?|(e0 & ? & _)]; congruence.
Qed.

Lemma listed_once f X w g a : table f X w -> a ∈ locks_of w f -> a ∈ locks_of w g -> g = f.
Proof.
  intros HT Hf Hg. destruct (decide (g = f)) as [|Hne]; [done|].
  destruct (tb_others _ _ _ HT f (file_lock_list g) a) as [? _]; try done. split_and!; try done. congruence.
Qed.

(** A lock that conflicts with nothing active can become active. *)
Lemma clash_conflicts e e' b :
  clash (with_blocked STATE_GRANTING e) e' b -> conflicts_with (sle_owner e) (sle_lock e) e' = true.
Proof.
  intros (_ & Hact & [H1 H2] & [H3 H4] & Ht & Hd). simpl in *. unfold conflicts_with.
  rewrite !bool_decide_eq_false_2 by (destruct Hact; congruence). simpl.
  rewrite !andb_true_iff, orb_true_iff, !bool_decide_eq_true, !Z.leb_le. rewrite different_owners_sym, Hd.
  split_and!; try lia; tauto.
Qed.

Lemma table_grant f w a e :
  table f [] w -> a ∈ locks_of w f -> w_locks w !! a = Some e -> waiting e ->
  (forall a' e', a' ∈ locks_of w f -> w_locks w !! a' = Some e' ->
     conflicts_with (sle_owner e) (sle_lock e) e' = false) ->
  table f [] (set_locks (<[a := with_blocked STATE_GRANTING e]>) w).
Proof.
  intros HT Hin Ha Hw Hno. assert (Hent : sle_entry e = f).
  { apply (tb_entry _ _ _ HT f a e); try done. intros ?. destruct Hw; congruence. }
  apply (table_change f [] w a e); try done.
  - split; try done. intros _ ?. destruct Hw; congruence.
  - intros _. rewrite Hent. auto.
  - intros g a' e1 b Hne Hg Hg' He1 Hc.
    assert (Hnil : entries_of f [] w g = locks_of w g) by (unfold entries_of; by destruct (decide (g = f))).
    rewrite Hnil in Hg, Hg'. assert (g = f) as -> by (by apply (listed_once f [] w g a)).
    apply clash_conflicts in Hc. rewrite (Hno a') in Hc; done.
Qed.

Lemma table_grant_type f X w b bd t :
  table f X w -> w_blocks w !! b = Some bd -> table f X (set_blocks (<[b := with_grant_type t bd]>) w).
Proof.
  intros HT Hb. pose proof (tb_books _ _ _ HT) as [HL HX HA HK]. apply (table_books f X w); try done.
  split; [|done|done|]; simpl.
  - eapply linked_blocks; [done|]. intros b'.
    destruct (decide (b' = b)) as [->|]; [by rewrite lookup_insert_eq, Hb|by rewrite lookup_insert_ne].
  - intros b'. destruct (decide (b' = b)) as [->|]; [intros _; apply HK; by rewrite Hb|].
    rewrite lookup_insert_ne by done. apply HK.
Qed.

(** An entry whose grant is over is freed when it is given up. *)
Lemma wp_give_up f a e (Q : unit -> world FS -> Prop) w :
  table f [] w -> w_locks w !! a = Some e -> is_Some (sle_owner e) -> attached (w_blocks w) e = None ->
  (forall w', table f [] w' -> w_locks w' = delete a (w_locks w) -> lists_without a w w' ->
     other_view w' = other_view w -> Q tt w') ->
  wp (remove_from_locklist a) Q w.
Proof.
  intros HT Ha [o Ho] Hat HQ. apply (wp_remove_table f a e); try done.
  intros w' HT' (_ & _ & Hl & _) Hd HV. apply HQ; try done.
  destruct Hd as [(_ & ? & _)|(Hr & _)]; [done|]. destruct Hr. simpl.
  pose proof (eo_refs _ _ _ _ _ (ln_entry _ _ _ (bk_linked _ (tb_books _ _ _ HT)) a e Ha)) as Hrc.
  unfold holders in Hrc. by rewrite Ho, Hat in Hrc.
Qed.

(** The outcome for a waiting entry [a]: it is being granted and the client is
    told, or it is gone. *)
Definition grant_outcome (a : loc) e w w' : Prop :=
  (lists_agree w w' /\ exists e' c, w_locks w' !! a = Some e' /\ promoted e e' /\
     attached (w_blocks w') e' = Some c /\ job_grant_msg c ∈ w_async w') \/
  (lists_without a w w' /\ w_locks w' !! a = None).

(** Nothing but [a] is concerned. *)
Definition beside (a : loc) w w' : Prop :=
  (forall a', a' <> a -> w_locks w' !! a' = w_locks w !! a') /\ w_cookies w ⊆ w_cookies w' /\
  w_files w' = w_files w /\ w_export w' = w_export w /\ w_async w ⊆ w_async w'.

Lemma granted_outcome a e w w' :
  w_locks w !! a = Some e -> waiting e -> beside a w w' -> grant_outcome a e w w' -> granted w w'.
Proof.
  intros Ha Hw (Hoff & Hc & Hf & Hx & Hs) Hout.
  assert (Hself : forall e', w_locks w' !! a = Some e' -> promoted e e').
  { intros e' He'. destruct Hout as [(_ & e2 & c & ? & ? & _)|[_ ?]]; [|congruence].
    by assert (e2 = e') as <- by congruence. }
  split; try done.
  - intros a' e' He' Hnw. rewrite Hoff; [done|]. intros ->. congruence.
  - intros a' e' He'. destruct (decide (a' = a)) as [->|]; [right; eauto|left; by rewrite <- Hoff].
  - intros h a' Hh. destruct Hout as [[Hl _]|[Hl Hn]].
    + rewrite Hl by done. auto.
    + rewrite Hl, elem_of_glist_del by done. destruct (decide (a' = a)) as [->|]; tauto.
Qed.

Lemma room_outcome a e w w' :
  w_locks w !! a = Some e -> waiting e -> beside a w w' -> grant_outcome a e w w' -> room w ->
  0 <= w_next_cookie w' <= w_next_cookie w + 1 -> room w'.
Proof.
  intros Ha Hw (Hoff & _) Hout Hroom Hn. apply (room_grant w w' a e); try done. intros a' e' He' Hw'.
  enough (a' <> a) by (split; [done|by rewrite <- Hoff]). intros ->.
  destruct Hout as [(_ & e2 & c & He2 & Hp & _)|[_ ?]]; [|congruence].
  apply (promoted_not_waiting e e2 Hp). by assert (e2 = e') as -> by congruence.
Qed.

(** A grant that failed. *)
Lemma wp_grant_failed f a e e1 (Q : unit -> world FS -> Prop) w w1 :
  w_locks w !! a = Some e -> waiting e -> room w -> table f [] w1 -> beside a w w1 -> lists_agree w w1 ->
  0 <= w_next_cookie w1 <= w_next_cookie w + 1 -> w_locks w1 !! a = Some e1 -> is_Some (sle_owner e1) ->
  attached (w_blocks w1) e1 = None ->
  (forall w', table f [] w' -> granted w w' -> room w' -> grant_outcome a e w w' -> Q tt w') ->
  wp (remove_from_locklist a) Q w1.
Proof.
  intros Ha Hw Hroom HT1 (Hoff & Hc & Hf & Hx & Hs) Hl Hn Ha1 Ho Hat HQ.
  apply (wp_give_up f a e1); try done. intros w2 HT2 Hm Hl2 HV. injection HV as _ _ _ Hfi Hck _ _ _ Hnc Hex _ Has.
  assert (Hout : grant_outcome a e w w2).
  { right. split; [|rewrite Hm; apply lookup_delete_eq]. intros h Hh. by rewrite Hl2, Hl. }
  assert (Hb : beside a w w2).
  { split_and!; rewrite ?Hck, ?Hfi, ?Hex, ?Has; try done. intros a' Hne. by rewrite Hm, lookup_delete_ne, Hoff. }
  apply HQ; try done; [by apply (granted_outcome a e)|]. apply (room_outcome a e w); try done. lia.
Qed.

Lemma wp_root_context {A} export (body : M (world FS) A) (Q : A -> world FS -> Prop) w :
  wp body (fun r w' => Q r (set_fsal_export (fun _ => w_fsal_export w) (set_export (fun _ => w_export w) w')))
    (set_fsal_export (fun _ => exp_fsal_export export) (set_export (fun _ => Some export) w)) ->
  wp (root_context export body) Q w.
Proof.
  intros Hb. unfold root_context. do 2 (apply wp_bind, wp_gets). do 2 apply wp_bind, wp_modify.
  apply wp_bind. eapply wp_mono; [|exact Hb]. intros r w' HQ. by apply wp_bind, wp_modify, wp_bind, wp_modify, wp_ret.
Qed.

Lemma wp_try_to_grant f a e (Q : unit -> world FS -> Prop) w :
  table f [] w -> a ∈ locks_of w f -> w_locks w !! a = Some e -> waiting e ->
  (forall a' e', a' ∈ locks_of w f -> w_locks w !! a' = Some e' ->
     conflicts_with (sle_owner e) (sle_lock e) e' = false) ->
  room w ->
  (forall w', table f [] w' -> granted w w' -> room w' -> grant_outcome a e w w' -> Q tt w') ->
  wp (try_to_grant_lock a) Q w.
Proof.
  intros HT Hin Ha Hw Hno Hroom HQ.
  destruct (proj2 (tb_live _ _ _ HT f) a Hin) as (e1 & He1 & Hlive). assert (e1 = e) as -> by congruence.
  pose proof (ln_entry _ _ _ (bk_linked _ (tb_books _ _ _ HT)) a e Ha) as Hok.
  pose proof (eo_waiting _ _ _ _ _ Hok Hw) as Hat. pose proof Hlive as (_ & _ & o & Ho).
  assert (Hf : is_Some (w_files w !! f)).
  { apply (tb_files _ _ _ HT). intros Heq. rewrite Heq in Hin. by apply elem_of_nil in Hin. }
  assert (Hent : sle_entry e = f) by (apply (tb_entry _ _ _ HT f a e); try done; intros ?; destruct Hw; congruence).
  assert (Hn : 0 <= w_next_cookie w < UINT64_MAX).
  { destruct Hroom as [? Hr]. specialize (Hr [a]). simpl in Hr.
    enough (w_next_cookie w + 1 <= UINT64_MAX) by lia. apply Hr; [apply NoDup_singleton|].
    intros a' ->%list_elem_of_singleton. eauto. }
  unfold try_to_grant_lock. apply wp_bind, (wp_deref (fun w => w_locks w !! a) _ _ e Ha).
  destruct (sle_block_data e) as [b|] eqn:Hb.
  2: { apply (wp_grant_failed f a e e Q w w); try done. lia. }
  rewrite decide_False by (destruct Hw; congruence).
  apply wp_bind, (wp_upd_lock _ _ e); [done|]. pose proof (table_grant f w a e HT Hin Ha Hw Hno) as HT1.
  set (eg := with_blocked STATE_GRANTING e) in *. set (w1 := set_locks _ w) in *.
  assert (Ha1 : w_locks w1 !! a = Some eg) by (simpl; apply lookup_insert_eq).
  assert (Hb1 : beside a w w1) by (split_and!; try done; intros a' Hne; simpl; by rewrite lookup_insert_ne).
  destruct (eo_block _ _ _ _ _ Hok b Hb) as [bd Hbd].
  assert (Hcn : sbd_blocked_cookie bd = None) by (unfold attached in Hat; rewrite Hb in Hat; simpl in Hat; by rewrite Hbd in Hat).
  apply wp_bind, (wp_deref (fun w => w_blocks w !! b) _ w1 bd Hbd), wp_bind.
  assert (Hty : wp (when (bool_decide (sbd_grant_type bd = STATE_GRANT_NONE))
      (upd_block b (with_grant_type STATE_GRANT_INTERNAL)))
    (fun _ w2 => table f [] w2 /\ beside a w w2 /\ lists_agree w w2 /\ w_locks w2 !! a = Some eg /\
       w_next_cookie w2 = w_next_cookie w /\ exists bd2, w_blocks w2 !! b = Some bd2 /\
       sbd_blocked_cookie bd2 = None /\ sbd_grant_type bd2 <> STATE_GRANT_NONE) w1).
  { case_bool_decide as Ht; simpl; [|by apply wp_ret; split_and!; [..|by exists bd]].
    apply (wp_upd_block _ bd); [done|]. split_and!; try done; [by apply table_grant_type|].
    eexists. simpl. rewrite lookup_insert_eq. done. }
  eapply wp_mono; [|exact Hty]. clear Hty HT1 Ha1 Hb1. clearbody w1.
  intros [] w2 (HT2 & Hb2 & Hl2 & Ha2 & Hn2 & bd2 & Hbd2 & Hck2 & Hgt2).
  apply wp_bind, (wp_idle f []); [apply idle_ref_add|done|]. intros [] w3 HT3 V3 A3.
  injection V3 as Hm3 Hbl3 Hc3 _ _ Hn3 Hl3 Hf3 Hx3 _ _.
  apply wp_bind, wp_root_context. set (w4 := set_fsal_export _ _).
  assert (HT4 : table f [] w4) by (by apply (table_view f [] w3)).
  change (sle_entry e) with (sle_entry eg).
  apply (wp_callback f a eg b bd2 o); simpl; try done; try congruence; try lia.
  { simpl. destruct Hb2 as (_ & _ & Hf2 & _). by rewrite Hf3, Hf2, Hent. }
  intros status w5 e5 Hst HT5 [G1 G2 G3 G4 G5 G6] Hn5 Ha5 Hbad Hgood.
  destruct (G2 eg ltac:(simpl; by rewrite Hm3)) as (e5' & He5' & Hg5). assert (e5' = e5) as -> by congruence.
  destruct Hb2 as (Hoff2 & Hcs2 & Hf2 & Hx2 & Has2).
  set (w6 := set_fsal_export _ _). assert (HT6 : table f [] w6) by (by apply (table_view f [] w5)).
  assert (Hb6 : beside a w w6 /\ lists_agree w w6 /\ w_blocks w6 = w_blocks w5 /\ w_locks w6 = w_locks w5 /\
    w_async w6 = w_async w5 /\ w_next_cookie w6 = w_next_cookie w5).
  { simpl in G1, G3, G4, G5, G6. split_and!; try done; [split_and!|]; simpl.
    - intros a' Hne. rewrite G1, Hm3, Hoff2; done.
    - rewrite Hc3 in G3. by etrans.
    - congruence.
    - congruence.
    - etrans; [done|]. by etrans.
    - intros h Hh. simpl. rewrite G4, <- Hl2 by done. simpl. by rewrite Hl3. }
  destruct Hb6 as (Hb6 & Hl6 & Hbl6 & Hm6 & Has6 & Hn6). clearbody w6. simpl in Hn5.
  apply wp_bind, (wp_idle f []); [apply idle_ref_add|done|]. intros [] w7 HT7 V7 A7.
  injection V7 as Hm7 Hbl7 Hc7 _ _ Hn7 Hl7 Hf7 Hx7 _ _.
  assert (Hb7 : beside a w w7).
  { destruct Hb6 as (? & ? & ? & ? & ?). split_and!; try congruence; [|by rewrite Hc7|by etrans].
    intros a' Hne. rewrite Hm7. auto. }
  assert (Hl7' : lists_agree w w7) by (intros h Hh; by rewrite Hl7, Hl6).
  rewrite decide_False by done. case_decide as Hs.
  - apply wp_ret. assert (Hout : grant_outcome a e w w7).
    { left. split; [done|]. destruct (Hgood Hs) as (c & Hc & Hj). exists e5, c.
      rewrite Hm7, Hm6, Hbl7, Hbl6. split_and!; try done. apply A7. by rewrite Has6. }
    apply HQ; try done; [by apply (granted_outcome a e)|]. apply (room_outcome a e w); try done. lia.
  - apply (wp_grant_failed f a e e5 Q w w7); try done; try congruence; try lia.
    + destruct Hg5 as (? & ? & ->). by exists o.
    + rewrite Hbl7, Hbl6. auto.
Qed.

(** A lock that keeps a request waiting. *)
Definition blocked_by (e : state_lock_entry_t) w f : Prop :=
  exists a' e', a' ∈ locks_of w f /\ w_locks w !! a' = Some e' /\
    conflicts_with (sle_owner e) (sle_lock e) e' = true.

(** Whoever still waits has a reason to. *)
Definition settled (l : list loc) w f : Prop :=
  forall a e, a ∈ l -> w_locks w !! a = Some e -> waiting e -> blocked_by e w f.

Lemma wp_overlapping f X g owner lock (Q : option loc -> world FS -> Prop) w :
  table f X w ->
  (forall a' e', a' ∈ locks_of w g -> w_locks w !! a' = Some e' -> conflicts_with owner lock e' = true -> Q (Some a') w) ->
  ((forall a' e', a' ∈ locks_of w g -> w_locks w !! a' = Some e' -> conflicts_with owner lock e' = false) -> Q None w) ->
  wp (get_overlapping_entry g owner lock) Q w.
Proof.
  intros HT Hs Hn. unfold get_overlapping_entry. apply wp_bind, wp_gets.
  assert (Hall := proj2 (tb_live _ _ _ HT g)). revert Hs Hn Hall.
  induction (locks_of w g) as [|a l IH]; simpl; intros Hs Hn Hall.
  - apply wp_ret, Hn. by intros a' e' ?%elem_of_nil.
  - destruct (Hall a) as (e & He & _); [by left|].
    apply wp_bind, (wp_deref (fun w => w_locks w !! a) _ _ e He).
    destruct (conflicts_with owner lock e) eqn:Hc; [apply wp_ret; apply (Hs a e); [by left|done|done]|].
    apply IH.
    + intros a' e' ?. apply Hs. by right.
    + intros Hnone. apply Hn. intros a' e' [->|?]%elem_of_cons He'; [congruence|by eapply Hnone].
    + intros a' ?. apply Hall. by right.
Qed.

Lemma conflict_not_waiting owner lock e : conflicts_with owner lock e = true -> ~ waiting e.
Proof. unfold conflicts_with. intros Hc [Hw|Hw]; rewrite Hw in Hc; done. Qed.

Lemma blocked_by_granted e w w' f : granted w w' -> blocked_by e w f -> blocked_by e w' f.
Proof.
  intros HG (a' & e' & Ha' & He' & Hc). pose proof (gr_kept _ _ HG a' e' He' (conflict_not_waiting _ _ _ Hc)) as Hk.
  exists a', e'. split_and!; try done. destruct (proj2 (gr_lists _ _ HG (file_lock_list f) a' eq_refl) Ha'); [done|congruence].
Qed.

Lemma settled_granted l w w' f : granted w w' -> settled l w f -> settled l w' f.
Proof.
  intros HG Hs a e Ha He Hw. apply (blocked_by_granted e w); [done|]. apply (Hs a e); try done.
  destruct (gr_old _ _ HG a e He) as [?|(e0 & _ & _ & Hp)]; [done|]. by destruct (promoted_not_waiting _ _ Hp).
Qed.

Lemma wp_grant_blocked f (Q : unit -> world FS -> Prop) w :
  table f [] w -> room w -> is_Some (w_export w) ->
  (forall w', table f [] w' -> granted w w' -> room w' -> settled (locks_of w' f) w' f -> Q tt w') ->
  wp (grant_blocked_locks f) Q w.
Proof.
  intros HT Hroom [x Hx] HQ. unfold grant_blocked_locks, ctx_export.
  apply wp_bind, wp_bind, wp_gets. rewrite Hx. apply wp_ret. rewrite no_async_block.
  unfold glist_for_each_safe. apply wp_bind, wp_gets.
  apply (wp_for_each_safe (fun n node _ w' => exists done todo, locks_of w' f = done ++ todo /\ node = head todo /\
    (length todo <= n)%nat /\ table f [] w' /\ granted w w' /\ room w' /\ settled done w' f)) with
    (n := length (locks_of w f)); [| |lia|].
  - intros n [] w' (done & todo & Hl & Hhd & _ & HT' & HG & Hr & Hs). destruct todo; [|done].
    apply HQ; try done. by rewrite Hl, app_nil_r.
  - intros n a [] w' (done & todo & Hl & Hhd & Hn & HT' & HG & Hr & Hs). destruct todo as [|a0 rest]; [done|].
    injection Hhd as <-. destruct n as [|n]; [simpl in Hn; lia|]. exists n. split; [done|]. simpl in Hn.
    destruct (tb_live _ _ _ HT' f) as [Hnd Hall]. rewrite Hl in Hnd. rewrite Hl, succ_of_app by done.
    assert (Hin : a ∈ locks_of w' f) by (rewrite Hl, elem_of_app, elem_of_cons; tauto).
    destruct (Hall a Hin) as (e & He & _).
    assert (Hskip : (waiting e -> blocked_by e w' f) -> exists done' todo', locks_of w' f = done' ++ todo' /\
      head rest = head todo' /\ (length todo' <= n)%nat /\ table f [] w' /\ granted w w' /\ room w' /\ settled done' w' f).
    { intros Hb. exists (done ++ [a]), rest. split_and!; try done; [by rewrite Hl, <- app_assoc|lia|].
      intros a' e' [?| ->%list_elem_of_singleton]%elem_of_app He' Hw'; [by apply (Hs a')|].
      assert (e' = e) as -> by congruence. auto. }
    apply wp_bind, (wp_deref (fun w => w_locks w !! a) _ _ e He).
    destruct (_ && _) eqn:Hb.
    + apply wp_ret. simpl. apply Hskip. apply andb_true_iff in Hb as [?%bool_decide_eq_true ?%bool_decide_eq_true].
      by intros [?|?].
    + assert (Hw : waiting e).
      { apply andb_false_iff in Hb as [Hb|Hb]; apply bool_decide_eq_false in Hb; apply dec_stable in Hb;
          [by left|by right]. }
      apply wp_bind, (wp_overlapping f []); [done|..].
      * intros a' e' Ha' He' Hc. apply wp_ret. simpl. apply Hskip. intros _. by exists a', e'.
      * intros Hno. apply wp_bind, (wp_try_to_grant f a e); try done.
        intros w2 HT2 HG2 Hr2 Hout. apply wp_ret. simpl. assert (granted w w2) by (by etrans).
        pose proof (settled_granted done w' w2 f HG2 Hs) as Hs2. destruct Hout as [[Hl2 (e2 & c & He2 & Hp & _)]|[Hl2 Hgone]].
        -- exists (done ++ [a]), rest. split_and!; try done; [by rewrite Hl2, Hl, <- app_assoc|lia|].
           intros a' e' [?| ->%list_elem_of_singleton]%elem_of_app He' Hw'; [by apply (Hs2 a')|].
           assert (e' = e2) as -> by congruence. by destruct (promoted_not_waiting e e2 Hp).
        -- exists done, rest. split_and!; try done; [|lia]. rewrite Hl2, Hl by done. by apply glist_del_middle.
  - exists [], (locks_of w f). split_and!; try done. intros a e ?%elem_of_nil. done.
Qed.

(** * Cancelling *)

(** What is canceled is off the lists; another thread may still have its cookie. *)
Record canceled (a : loc) w w' : Prop := {
  cl_locks : forall a', a' <> a -> w_locks w' !! a' = w_locks w !! a';
  cl_entry : forall e', w_locks w' !! a = Some e' -> sle_owner e' = None /\ sle_blocked e' = STATE_CANCELED;
  cl_lists : lists_without a w w';
  cl_view : (w_files w', w_states w', w_export w', w_next_cookie w', w_choices w') =
            (w_files w, w_states w, w_export w, w_next_cookie w, w_choices w)
}.

Lemma wp_cancel_cookie f entry a e (Q : bool -> world FS -> Prop) w :
  table f [] w -> w_locks w !! a = Some e -> is_Some (sle_owner e) ->
  (forall w' e', table f [] w' -> w_locks w' !! a = Some e' -> sle_owner e' = sle_owner e ->
     sle_blocked e' = sle_blocked e -> (forall a', a' <> a -> w_locks w' !! a' = w_locks w !! a') ->
     lists_agree w w' -> (w_files w', w_states w', w_export w', w_next_cookie w', w_choices w') =
       (w_files w, w_states w, w_export w, w_next_cookie w, w_choices w) -> Q false w') ->
  wp (cancel_cookie entry a) Q w.
Proof.
  intros HT Ha Ho HQ. unfold cancel_cookie. apply wp_bind, (wp_deref (fun w => w_locks w !! a) _ _ e Ha).
  pose proof (ln_entry _ _ _ (bk_linked _ (tb_books _ _ _ HT)) a e Ha) as Hok.
  assert (Hck : wp (match sle_block_data e with
      | Some block => b ← get_block block; mret (sbd_blocked_cookie b) | None => mret None end)
    (fun c w' => c = attached (w_blocks w) e /\ w' = w) w).
  { unfold attached. destruct (sle_block_data e) as [b|] eqn:Hb; [|by apply wp_ret].
    destruct (eo_block _ _ _ _ _ Hok b Hb) as [bd Hbd].
    apply wp_bind, (wp_deref (fun w => w_blocks w !! b) _ _ bd Hbd), wp_ret. simpl. by rewrite Hbd. }
  apply wp_bind. eapply wp_mono; [|exact Hck]. intros c ? [-> ->].
  destruct (attached (w_blocks w) e) as [c|] eqn:Hat.
  - destruct (eo_attached _ _ _ _ _ Hok c Hat) as (d & Hd & Heq).
    apply wp_bind, (wp_take_cookie f [] c d); [done|done|..].
    + intros w' _ HT' [Uc Ul Uv Uo Ue _ _]. rewrite Heq in Uo, Ue. specialize (Ue e Ha Ho). simpl in *.
      injection Uv as _ _ _ Hfi _ _ Hst _ Hch Hnc Hex _ _.
      apply wp_ret, (HQ w' (with_ref_count (fun n => n - 1) e)); try done. congruence.
    + intros _. apply wp_ret. by apply (HQ w e).
  - apply wp_bind, (wp_entry_lock_op f [] entry _ a e); [done|done|]. intros HT'. apply wp_ret.
    rewrite bool_decide_eq_false_2 by (by intros []).
    apply (HQ _ (retagged e)); try done; simpl; [apply lookup_insert_eq|]. intros a' Hne. by rewrite lookup_insert_ne.
Qed.

Lemma wp_cancel_blocked f entry a e (Q : unit -> world FS -> Prop) w :
  table f [] w -> w_locks w !! a = Some e -> is_Some (sle_owner e) -> sle_blocked e <> STATE_NON_BLOCKING ->
  (forall w', table f [] w' -> canceled a w w' -> Q tt w') -> wp (cancel_blocked_lock entry a) Q w.
Proof.
  intros HT Ha Ho Hnb HQ. unfold cancel_blocked_lock. apply wp_bind, (wp_upd_lock _ _ e); [done|].
  set (e1 := with_blocked STATE_CANCELED e). set (w1 := set_locks _ w).
  assert (HT1 : table f [] w1).
  { apply (table_settle f [] w a e); try done; [|by intros [?|?]]. split; try done. by intros [?|?]. }
  assert (Ha1 : w_locks w1 !! a = Some e1) by (simpl; apply lookup_insert_eq).
  assert (Hoff : forall a', a' <> a -> w_locks w1 !! a' = w_locks w !! a') by (intros a' Hne; simpl; by rewrite lookup_insert_ne).
  assert (Hl1 : lists_agree w w1) by done.
  assert (HV : (w_files w1, w_states w1, w_export w1, w_next_cookie w1, w_choices w1) = (w_files w, w_states w, w_export w, w_next_cookie w, w_choices w)) by done.
  clearbody w1. apply wp_bind, (wp_cancel_cookie f entry a e1); try done.
  intros w2 e2 HT2 Ha2 Ho2 Hb2 Hoff2 Hl2 HV2.
  apply (wp_remove_table f a e2); try done; [by rewrite Ho2|intros Hg; simpl in Hb2; congruence|].
  intros w3 HT3 (Hoff3 & Hnone & Hl3 & _ & Hch3) Hd HV3. apply HQ; [done|]. split.
  - intros a' Hne. by rewrite Hoff3, Hoff2, Hoff.
  - intros e' He'. split; [auto|]. destruct Hd as [(_ & Hm & _)|(_ & Hm & _)]; rewrite Hm in He'.
    + by rewrite lookup_delete_eq in He'.
    + rewrite lookup_insert_eq in He'. by injection He' as <-.
  - intros h Hh. by rewrite Hl3, Hl2, Hl1.
  - injection HV3 as _ _ _ ? _ _ _ ? ? ? _ _. injection HV2 as ? ? ? ? ?. injection HV as ? ? ? ? ?. congruence.
Qed.

(** What [cancel_blocked_locks_range] cancels. *)
Definition revoked (owner state : option loc) (lock : fsal_lock_param_t) (e : state_lock_entry_t) : bool :=
  negb (bool_decide (owner <> None) && different_owners (sle_owner e) owner)
  && negb ((if decide (state = None) then false else default false (is_nlm <$> sle_owner e))
           && bool_decide (sle_state e = state))
  && bool_decide (sle_blocked e <> STATE_NON_BLOCKING) && overlaps (sle_lock e) lock.

(** The entries of [P] are withdrawn, the others are left alone. *)
Record withdrawn (P : state_lock_entry_t -> bool) w w' : Prop := {
  wd_kept : forall a e, w_locks w !! a = Some e -> P e = false -> w_locks w' !! a = Some e /\
    forall h, link_of h = sle_list -> a ∈ w_lists w h -> a ∈ w_lists w' h;
  wd_old : forall a e, w_locks w' !! a = Some e -> w_locks w !! a = Some e \/
    (sle_owner e = None /\ sle_blocked e = STATE_CANCELED);
  wd_lists : forall h a, link_of h = sle_list -> a ∈ w_lists w' h -> a ∈ w_lists w h;
  wd_view : (w_files w', w_states w', w_export w', w_next_cookie w', w_choices w') =
            (w_files w, w_states w, w_export w, w_next_cookie w, w_choices w)
}.

#[global] Instance withdrawn_refl P : Reflexive (withdrawn P).
Proof. intros w. split; try done; eauto. Qed.

#[global] Instance withdrawn_trans P : Transitive (withdrawn P).
Proof.
  intros w1 w2 w3 [K1 O1 L1 V1] [K2 O2 L2 V2]. split.
  - intros a e He Hp. destruct (K1 a e He Hp) as [He2 Hl1]. destruct (K2 a e He2 Hp) as [He3 Hl2]. split; auto.
  - intros a e [?|?]%O2; [auto|by right].
  - eauto.
  - congruence.
Qed.

Lemma canceled_withdrawn P a e w w' :
  w_locks w !! a = Some e -> P e = true -> canceled a w w' -> withdrawn P w w'.
Proof.
  intros Ha Hp [Hoff He Hl HV]. split; [| | |done].
  - intros a' e' Ha' Hp'. assert (a' <> a) by congruence. rewrite Hoff by done. split; [done|].
    intros h Hh Hin. rewrite Hl, elem_of_glist_del; done.
  - intros a' e' Ha'. destruct (decide (a' = a)) as [->|]; [right; auto|left; by rewrite <- Hoff].
  - intros h a' Hh. rewrite Hl by done. by intros [_ ?]%elem_of_glist_del.
Qed.

Lemma room_withdrawn P w w' : withdrawn P w w' -> room w -> room w'.
Proof.
  intros [_ O _ V] Hr. injection V as _ _ _ Hn _. apply (room_same w); try done.
  intros a e [?|[_ Hc]]%O Hw; [eauto|]. destruct Hw; congruence.
Qed.

Lemma wp_cancel_range f owner state lock (Q : unit -> world FS -> Prop) w :
  table f [] w ->
  (forall w', table f [] w' -> withdrawn (revoked owner state lock) w w' ->
     (forall a e, a ∈ locks_of w' f -> w_locks w' !! a = Some e -> revoked owner state lock e = false) -> Q tt w') ->
  wp (cancel_blocked_locks_range f owner state lock) Q w.
Proof.
  intros HT HQ. unfold cancel_blocked_locks_range, glist_for_each_safe. apply wp_bind, wp_gets.
  set (P := revoked owner state lock) in *.
  apply (wp_for_each_safe (fun n node _ w' => exists done todo, locks_of w' f = done ++ todo /\ node = head todo /\
    (length todo <= n)%nat /\ table f [] w' /\ withdrawn P w w' /\
    (forall a e, a ∈ done -> w_locks w' !! a = Some e -> P e = false))) with
    (n := length (locks_of w f)); [| |lia|].
  - intros n [] w' (done & todo & Hl & Hhd & _ & HT' & HG & Hs). destruct todo; [|done].
    apply HQ; try done. by rewrite Hl, app_nil_r.
  - intros n a [] w' (done & todo & Hl & Hhd & Hn & HT' & HG & Hs). destruct todo as [|a0 rest]; [done|].
    injection Hhd as <-. destruct n as [|n]; [simpl in Hn; lia|]. exists n. split; [done|]. simpl in Hn.
    destruct (tb_live _ _ _ HT' f) as [Hnd Hall]. rewrite Hl in Hnd. rewrite Hl, succ_of_app by done.
    assert (Hin : a ∈ locks_of w' f) by (rewrite Hl, elem_of_app, elem_of_cons; tauto).
    destruct (Hall a Hin) as (e & He & _ & _ & o & Ho).
    assert (Hskip : P e = false -> exists done' todo', locks_of w' f = done' ++ todo' /\
      head rest = head todo' /\ (length todo' <= n)%nat /\ table f [] w' /\ withdrawn P w w' /\
      (forall a e, a ∈ done' -> w_locks w' !! a = Some e -> P e = false)).
    { intros Hp. exists (done ++ [a]), rest. split_and!; try done; [by rewrite Hl, <- app_assoc|lia|].
      intros a' e' [?| ->%list_elem_of_singleton]%elem_of_app He'; [by apply (Hs a')|]. congruence. }
    apply wp_bind, (wp_deref (fun w => w_locks w !! a) _ _ e He).
    assert (HP : P e = negb (bool_decide (owner <> None) && different_owners (Some o) owner)
      && negb ((if decide (state = None) then false else is_nlm o) && bool_decide (sle_state e = state))
      && bool_decide (sle_blocked e <> STATE_NON_BLOCKING) && overlaps (sle_lock e) lock)
      by (unfold P, revoked; by rewrite Ho).
    rewrite Ho. destruct (bool_decide (owner <> None) && _); cbn [negb andb] in HP; [by apply wp_ret, Hskip|].
    apply wp_bind. unfold lock_owner_is_nlm. rewrite Ho.
    assert (Hnlm : wp (if decide (state = None) then mret false else mret (is_nlm o))
      (fun nlm w1 => nlm = (if decide (state = None) then false else is_nlm o) /\ w1 = w') w')
      by (by destruct (decide (state = None))).
    eapply wp_mono; [|exact Hnlm]. intros nlm ? [-> ->].
    destruct (_ && bool_decide (sle_state e = state)); cbn [negb andb] in HP; [by apply wp_ret, Hskip|].
    destruct (decide (sle_blocked e = STATE_NON_BLOCKING)) as [Hnb|Hnb]; [rewrite Hnb in HP; by apply wp_ret, Hskip|].
    rewrite bool_decide_eq_true_2 in HP by done. cbn [andb] in HP. apply wp_bind, wp_when; intros Hov.
    + apply (wp_cancel_blocked f f a e); try done. intros w2 HT2 HC. apply wp_ret. simpl.
      pose proof (canceled_withdrawn P a e w' w2 He ltac:(congruence) HC) as HW.
      exists done, rest. split_and!; try done; [|lia|by etrans|].
      * rewrite (cl_lists _ _ _ HC), Hl by done. by apply glist_del_middle.
      * intros a' e' Ha' He'. apply (Hs a'); [done|]. rewrite <- (cl_locks _ _ _ HC); [done|].
        intros ->. apply NoDup_app in Hnd as (_ & Hd & _). apply (Hd a Ha'). by left.
    + apply wp_ret, Hskip. congruence.
  - exists [], (locks_of w f). split_and!; try done. by intros a e ?%elem_of_nil.
Qed.
End grants.
