(* ===== verification/LockRequest.v ===== *)
(** The requests of the lock manager (SAL/state_lock.c) for file systems without
    locks of their own: [state_lock], [state_unlock], [state_cancel],
    [state_test] and the client's answer to a grant keep the lock table, and do
    what they promise. *)

From S2P Require Import Prelude Status World Owner CacheEntry LockList LockHeap LockMerge LockSubtract LockCalm LockOps LockLedger LockTable LockGrant.

Section requests.
Context {FS : Type} `{!FsalOps FS} {HSL : ServerLocks FS} {env : OwnerEnv} {lenv : LockEnv}.
Variable fds_hard_limit : Z.
Implicit Types w : world FS.

Abbreviation locks_of w f := (w_lists w (file_lock_list f)).

(** The store is in order, and a request on file [f] has its context. *)
Record request_ok (f : loc) w : Prop := {
  rq_table : lock_table w;
  rq_room : room w;
  rq_export : is_Some (w_export w);
  rq_file : is_Some (w_files w !! f)
}.

Lemma request_table f w : request_ok f w -> table f [] w.
Proof. intros [HT _ _ _]. by apply (table_nil 1). Qed.

(** The same granted locks are on the list. *)
Definition same_grants f w w' : Prop :=
  forall a e, sle_blocked e = STATE_NON_BLOCKING ->
    (a ∈ locks_of w' f /\ w_locks w' !! a = Some e) <-> (a ∈ locks_of w f /\ w_locks w !! a = Some e).

#[global] Instance same_grants_refl f : Reflexive (same_grants f).
Proof. done. Qed.

#[global] Instance same_grants_trans f : Transitive (same_grants f).
Proof. intros w1 w2 w3 H1 H2 a e He. etrans; [by apply H2|by apply H1]. Qed.

Lemma same_grants_granted f w w' : granted w w' -> same_grants f w w'.
Proof.
  intros HG a e Hnb. assert (Hnw : ~ waiting e) by (intros [?|?]; congruence).
  destruct (gr_lists _ _ HG (file_lock_list f) a eq_refl) as [Hl1 Hl2]. split; intros [Ha He].
  - split; [auto|]. destruct (gr_old _ _ HG a e He) as [?|(e0 & _ & _ & n & t & ->)]; [done|]. by simpl in Hnb.
  - pose proof (gr_kept _ _ HG a e He Hnw). split; [|done]. destruct (Hl2 Ha); [done|congruence].
Qed.

Lemma same_grants_withdrawn f P w w' :
  (forall e, P e = true -> sle_blocked e <> STATE_NON_BLOCKING) -> withdrawn P w w' -> same_grants f w w'.
Proof.
  intros HP [K O L _] a e Hnb. split; intros [Ha He].
  - split; [by apply (L (file_lock_list f))|]. destruct (O a e He) as [?|[_ ?]]; [done|congruence].
  - destruct (K a e He) as [? Hl]; [destruct (P e) eqn:E; [by destruct (HP e E)|done]|]. split; [auto|done].
Qed.

(** A part of the store that operations on the cache entry leave alone. *)
Lemma same_grants_part f w w' : lock_part w' = lock_part w -> same_grants f w w'.
Proof. intros [= Hm _ _ _ _ _ Hl _ _ _ _] a e _. by rewrite Hm, Hl. Qed.

Lemma held_grants P f w w' o t b :
  same_grants f w w' ->
  held_if P (w_locks w') (locks_of w' f) o t b <-> held_if P (w_locks w) (locks_of w f) o t b.
Proof.
  intros Hs. split; intros (a & e & Ha & He & Hp & Hg & ?); exists a, e.
  - by destruct (proj1 (Hs a e (proj1 Hg)) (conj Ha He)).
  - by destruct (proj2 (Hs a e (proj1 Hg)) (conj Ha He)).
Qed.

(** * Pinning *)

Lemma wp_pin f ce (Q : cache_inode_status_t -> world FS -> Prop) w :
  w_files w !! f = Some ce ->
  (ce_qid ce = LRU_ENTRY_CLEANUP -> Q CACHE_INODE_DEAD_ENTRY w) ->
  (forall w' ce', ce_qid ce <> LRU_ENTRY_CLEANUP -> w_files w' !! f = Some ce' -> ce_type ce' = ce_type ce ->
     dom (w_files w') = dom (w_files w) -> lock_part w' = lock_part w -> open_part w' = open_part w ->
     Q CACHE_INODE_SUCCESS w') ->
  wp (cache_inode_inc_pin_ref f) Q w.
Proof.
  intros Hf Hdead Hok. unfold cache_inode_inc_pin_ref. apply wp_bind, (wp_deref (fun w => w_files w !! f) _ _ ce Hf).
  case_decide as Hq; [by apply wp_ret, Hdead|]. unfold cond_pin_entry.
  assert (Hpin : wp (e ← get_file f; if decide (ce_qid e = LRU_ENTRY_PINNED) then mret tt
      else upd_file f (with_qid LRU_ENTRY_PINNED))
    (fun _ w' => exists ce', w_files w' !! f = Some ce' /\ ce_type ce' = ce_type ce /\
       dom (w_files w') = dom (w_files w) /\ lock_part w' = lock_part w /\ open_part w' = open_part w) w).
  { apply wp_bind, (wp_deref (fun w => w_files w !! f) _ _ ce Hf). case_decide; [by apply wp_ret; exists ce|].
    apply (wp_upd_file f ce); [done|]. exists (with_qid LRU_ENTRY_PINNED ce). simpl. rewrite lookup_insert_eq.
    split_and!; try done. apply dom_insert_lookup_L; eauto. }
  apply wp_bind. eapply wp_mono; [|exact Hpin]. intros [] w1 (ce1 & Hf1 & Ht1 & Hd1 & Hp1 & Ho1).
  apply wp_bind, (wp_upd_file f ce1); [done|]. apply wp_ret.
  apply (Hok _ (with_pin_refcnt (fun n => n + 1) ce1)); try done; simpl; [apply lookup_insert_eq|].
  rewrite <- Hd1. apply dom_insert_lookup_L; eauto.
Qed.

(** An operation on the cache entry, under the table. *)
Lemma wp_file_table {A} f X (m : M (world FS) A) (Q : A -> world FS -> Prop) w :
  file_op f m -> table f X w -> is_Some (w_files w !! f) ->
  (forall a w', table f X w' -> is_Some (w_files w' !! f) -> lock_part w' = lock_part w ->
     dom (w_files w') = dom (w_files w) -> Q a w') -> wp m Q w.
Proof.
  intros Hm HT Hf HQ. apply (wp_file_op f); [done|done|]. intros a w' Hd Hp. apply HQ; try done.
  - by apply (table_part f X w).
  - apply elem_of_dom. rewrite Hd. by apply elem_of_dom.
Qed.

(** Opening the file has the outcome that the store says. *)
Lemma pinned_access f fl ce ce1 w w1 :
  w_files w !! f = Some ce -> ce_qid ce <> LRU_ENTRY_CLEANUP -> w_files w1 !! f = Some ce1 -> ce_type ce1 = ce_type ce ->
  lock_part w1 = lock_part w -> open_part w1 = open_part w ->
  access_error fds_hard_limit f fl w = open_error fds_hard_limit f fl w1.
Proof.
  intros Hf Hq Hf1 Ht [= _ _ _ _ _ _ _ _ _ Hx _] Ho. unfold access_error. rewrite decide_False by (rewrite Hf; simpl; congruence).
  symmetry. apply open_error_same; [rewrite Hf, Hf1; simpl; congruence|done|done].
Qed.

Lemma dead_access f fl ce w :
  w_files w !! f = Some ce -> ce_qid ce = LRU_ENTRY_CLEANUP ->
  access_error fds_hard_limit f fl w = Some CACHE_INODE_DEAD_ENTRY.
Proof. intros Hf Hq. unfold access_error. by rewrite decide_True by (rewrite Hf; simpl; congruence). Qed.

Lemma wp_open_table f X fl flags (Q : cache_inode_status_t -> world FS -> Prop) w :
  table f X w -> is_Some (w_files w !! f) ->
  (forall w', table f X w' -> is_Some (w_files w' !! f) -> lock_part w' = lock_part w ->
     Q (default CACHE_INODE_SUCCESS (open_error fds_hard_limit f fl w)) w') ->
  wp (cache_inode_open fds_hard_limit f fl flags) Q w.
Proof.
  intros HT Hf HQ. eapply wp_mono; [|apply wp_and; [by apply wp_open_exact|]].
  2: { apply (wp_file_table f X _ (fun _ w' => table f X w' /\ is_Some (w_files w' !! f) /\ lock_part w' = lock_part w));
         [apply file_op_open|done|done|done]. }
  intros st w' [-> (? & ? & ?)]. by apply HQ.
Qed.

Lemma open_error_failed f fl w err : open_error fds_hard_limit f fl w = Some err -> err <> CACHE_INODE_SUCCESS.
Proof.
  intros H ->. revert H. assert (Ho : forall fs, fsal_open_error fs f fl <> Some CACHE_INODE_SUCCESS).
  { intros fs. unfold fsal_open_error. cbv zeta. case_decide; [done|]. by intros [= ?%cache_inode_error_convert_err]. }
  unfold open_error, fsal_mode_error. case_decide; [|done]. destruct (_ && _); [done|]. cbv zeta.
  destruct (_ =? _); [apply Ho|]. destruct (_ && _); [done|]. case_decide as Hr; [by destruct (_ =? _); [apply Ho|]|].
  intros [= ?%cache_inode_error_convert_err]; [done|]. intros ?. by apply Hr; left.
Qed.

Lemma access_error_failed f fl w err : access_error fds_hard_limit f fl w = Some err -> err <> CACHE_INODE_SUCCESS.
Proof. unfold access_error. case_decide; [by intros [= <-]|apply open_error_failed]. Qed.

Lemma wp_unpin_return {A} f X (r : A) (Q : A -> world FS -> Prop) w :
  table f X w -> is_Some (w_files w !! f) ->
  (forall w', table f X w' -> is_Some (w_files w' !! f) -> lock_part w' = lock_part w -> Q r w') ->
  wp (unpin_return f r) Q w.
Proof.
  intros HT Hf HQ. apply wp_bind, (wp_file_table f X); [apply file_op_dec_pin|done|done|].
  intros [] w' ? ? ? _. by apply wp_ret, HQ.
Qed.

Lemma file_op_unpin_if_empty f : file_op (FS := FS) f (unpin_if_empty f).
Proof. apply file_op_bind; [apply file_op_gets|]. intros l. apply file_op_when, file_op_dec_pin. Qed.

Lemma file_op_pin_if_empty f : file_op (FS := FS) f (pin_if_empty f).
Proof.
  apply file_op_bind; [apply file_op_gets|]. intros l. apply file_op_when, file_op_bind; [apply file_op_inc_pin|].
  intros _. apply file_op_ret.
Qed.

(** * Unlocking *)

Lemma room_part w w' : lock_part w' = lock_part w -> room w -> room w'.
Proof. intros [= Hm _ _ _ _ Hn _ _ _ _ _] Hr. apply (room_same w); try done. intros a e. rewrite Hm. eauto. Qed.

Lemma room_quiet w w' : quiet w w' -> room w -> room w'.
Proof.
  intros [_ _ HP HV] Hr. injection HV as _ _ _ _ _ _ _ _ Hn _ _ _. apply (room_same w); try done.
  intros a e He Hw. exists e. split; [|done]. apply HP; [done|]. destruct Hw; congruence.
Qed.

Lemma revoked_pending owner state lock e :
  revoked owner state lock e = true -> sle_blocked e <> STATE_NON_BLOCKING.
Proof. unfold revoked. by intros [[_ ?%bool_decide_eq_true]%andb_true_iff _]%andb_true_iff. Qed.

Lemma revoked_promoted owner state lock e0 e :
  waiting e0 -> promoted e0 e -> revoked owner state lock e = revoked owner state lock e0.
Proof.
  intros Hw (n & t & ->). unfold revoked.
  by rewrite (bool_decide_eq_true_2 (sle_blocked e0 <> _)) by (destruct Hw; congruence).
Qed.

(** The state that comes with an unlock is one of a lock or of an open file. *)
Definition lock_state_ok (state : option loc) w : Prop :=
  forall st, state = Some st -> exists s, w_states w !! st = Some s /\ state_type s <> STATE_TYPE_DELEG.

Lemma wp_unlock_noop f owner state (Q : bool -> world FS -> Prop) w :
  lock_state_ok state w -> Q (glist_empty (locks_of w f)) w -> wp (unlock_is_noop f owner state) Q w.
Proof.
  intros Hst HQ. unfold unlock_is_noop. apply wp_bind.
  assert (Hd : wp (match state with
      | Some st => s ← get_st st; mret (bool_decide (state_type s = STATE_TYPE_DELEG)) | None => mret false end)
    (fun d w' => d = false /\ w' = w) w).
  { destruct state as [st|]; [|by apply wp_ret]. destruct (Hst st eq_refl) as (s & Hs & Hne).
    apply wp_bind, (wp_deref (fun w => w_states w !! st) _ _ s Hs), wp_ret. by rewrite bool_decide_eq_false_2. }
  eapply wp_mono; [|exact Hd]. intros d ? [-> ->]. by apply wp_bind, wp_gets, wp_ret.
Qed.

(** What the owner holds of the range is gone, the rest is as it was, its waiting
    requests for the range are gone, and nobody waits without a reason. *)
Definition unlocked f owner state (lock : fsal_lock_param_t) w w' : Prop :=
  let mine := concerned (Some owner) state in
  (forall o t b, held_if mine (w_locks w') (locks_of w' f) o t b <->
     held_if mine (w_locks w) (locks_of w f) o t b /\ ~ in_range lock b) /\
  (forall a e, sle_blocked e = STATE_NON_BLOCKING -> mine e = false ->
     (a ∈ locks_of w' f /\ w_locks w' !! a = Some e) <-> (a ∈ locks_of w f /\ w_locks w !! a = Some e)) /\
  (forall a e, a ∈ locks_of w' f -> w_locks w' !! a = Some e -> revoked (Some owner) state lock e = false) /\
  settled (locks_of w' f) w' f.

Lemma not_concerned owner state e : sle_blocked e <> STATE_NON_BLOCKING -> concerned owner state e = false.
Proof. destruct (concerned owner state e) eqn:E; [|done]. by intros []; eapply concerned_granted. Qed.

(** The steps of a successful unlock put together. *)
Lemma unlocked_steps f owner state lock w w1 w2 w3 removed w4 :
  withdrawn (revoked (Some owner) state lock) w w1 ->
  (forall a e, a ∈ locks_of w1 f -> w_locks w1 !! a = Some e -> revoked (Some owner) state lock e = false) ->
  subtracted (file_lock_list f) (Some owner) state lock w1 (quiet w1) (STATE_SUCCESS, removed) w2 ->
  lock_part w3 = lock_part w2 -> granted w3 w4 -> settled (locks_of w4 f) w4 f ->
  unlocked f owner state lock w w4.
Proof.
  intros HW Hrev (_ & _ & _ & HI & _ & _ & Hheld & Hspare & _) Hp3 HG Hset.
  assert (S1 : same_grants f w w1) by (eapply same_grants_withdrawn; [apply revoked_pending|done]).
  assert (S4 : same_grants f w2 w4) by (etrans; [by apply same_grants_part|by apply same_grants_granted]).
  split_and!; [..|done].
  - intros o t b. rewrite (held_grants _ f w2 w4 o t b S4), Hheld, (held_grants _ f w w1 o t b S1). done.
  - intros a e Hnb Hmine. rewrite (S4 a e Hnb), (Hspare a e Hmine). by apply S1.
  - intros a e Ha He. assert (Ha3 : a ∈ locks_of w3 f) by (by apply (gr_lists _ _ HG)).
    assert (Hback : forall e0, w_locks w3 !! a = Some e0 -> revoked (Some owner) state lock e0 = false).
    { intros e0 He0. injection Hp3 as Hm _ _ _ _ _ Hl _ _ _ _. rewrite Hm in He0. rewrite Hl in Ha3.
      destruct (decide (sle_blocked e0 = STATE_NON_BLOCKING)) as [Hnb|Hnb].
      - destruct (revoked _ _ _ e0) eqn:E; [by destruct (revoked_pending _ _ _ _ E)|done].
      - destruct (proj1 (Hspare a e0 (not_concerned _ _ _ Hnb)) (conj Ha3 He0)). by apply (Hrev a). }
    destruct (gr_old _ _ HG a e He) as [?|(e0 & ? & ? & Hpr)]; [auto|]. rewrite (revoked_promoted _ _ _ e0) by done. auto.
Qed.

(** Operations on the cache entry before and after. *)
Lemma unlocked_start f owner state lock w0 w w' :
  lock_part w = lock_part w0 -> unlocked f owner state lock w w' -> unlocked f owner state lock w0 w'.
Proof. intros [= Hm _ _ _ _ _ Hl _ _ _ _]. unfold unlocked. by rewrite Hm, Hl. Qed.

Lemma unlocked_part f owner state lock w w1 w' :
  unlocked f owner state lock w w1 -> lock_part w' = lock_part w1 -> unlocked f owner state lock w w'.
Proof.
  intros HU [= Hm _ _ _ _ _ Hl _ _ _ _]. unfold unlocked, settled, blocked_by in *. by rewrite Hm, Hl.
Qed.

(** An unlock with nothing locked. *)
Lemma unlocked_empty f owner state lock w w' :
  lock_part w' = lock_part w -> locks_of w f = [] -> unlocked f owner state lock w w'.
Proof.
  intros [= Hm _ _ _ _ _ Hl _ _ _ _] He. unfold unlocked, held_if, settled. rewrite Hm, Hl, He. split_and!.
  - intros o t b. split; [by intros (? & ? & ?%elem_of_nil & _)|by intros [(? & ? & ?%elem_of_nil & _) _]].
  - done.
  - by intros ? ? ?%elem_of_nil.
  - by intros ? ? ?%elem_of_nil.
Qed.

(** What [state_unlock] promises, [w] being the store at the start. *)
Definition unlock_post f owner state (lock : fsal_lock_param_t) w (status : state_status_t) w' : Prop :=
  lock_table w' /\
  (if decide (status = STATE_SUCCESS) then unlocked f owner state lock w w' else same_grants f w w') /\
  (memory_ok w -> (forall ce, w_files w !! f = Some ce -> ce_type ce = REGULAR_FILE /\
     ce_qid ce <> LRU_ENTRY_CLEANUP) -> status = STATE_SUCCESS).

(** From the store with the file pinned. *)
Lemma wp_unlock_pinned f owner state lock ty (Q : state_status_t -> world FS -> Prop) w0 w :
  table f [] w -> room w -> is_Some (w_export w) -> is_Some (w_files w !! f) -> range_ok lock ->
  lock_part w = lock_part w0 ->
  (forall status w', lock_table w' ->
     (if decide (status = STATE_SUCCESS) then unlocked f owner state lock w0 w' else same_grants f w0 w') ->
     (memory_ok w0 -> status = STATE_SUCCESS) -> Q status w') ->
  wp (cancel_blocked_locks_range f (Some owner) state lock;;
      '(status, _) ← subtract_lock_from_list (Some owner) state lock (file_lock_list f);
      unpin_if_empty f;;
      if decide (status <> STATE_SUCCESS) then unpin_return f status
      else
        '(status, _) ← do_lock_op f FSAL_OP_UNLOCK (Some owner) lock false false ty;
        grant_blocked_locks f;;
        unpin_return f status) Q w.
Proof.
  intros HT Hroom Hexp Hf Hlk Hp0 HQ. apply wp_bind, (wp_cancel_range f); [done|]. intros w1 HT1 HW Hrev.
  pose proof (wd_view _ _ _ HW) as [= Hf1 _ Hx1 _ Hc1].
  apply wp_bind, (wp_subtract_table f); [done|done|by rewrite Hf1|]. intros [status removed] w2 HT2 Hq Hsub.
  pose proof (qu_view _ _ Hq) as [= _ _ _ Hf2 _ _ _ _ _ Hx2 _ _].
  apply wp_bind, (wp_file_table f []); [apply file_op_unpin_if_empty|done|by rewrite Hf2, Hf1|].
  intros [] w3 HT3 Hf3 Hp3 _.
  assert (S2 : same_grants f w0 w1).
  { etrans; [by apply same_grants_part|]. eapply same_grants_withdrawn; [apply revoked_pending|done]. }
  assert (Hmem : memory_ok w0 -> memory_ok w1).
  { unfold memory_ok. injection Hp0 as _ _ _ _ _ _ _ Hch _ _ _. by rewrite Hc1, Hch. }
  case_decide as Hst.
  - apply (wp_unpin_return f []); [done|done|]. intros w4 HT4 _ Hp4.
    assert (Hfail : same_grants f w1 w2 /\ ~ memory_ok w1).
    { destruct Hsub as (_ & _ & _ & _ & Hcase). destruct status; try done; destruct Hcase as (_ & Hm & Hperm & Hsame);
        (split; [|done]; intros a e _; rewrite Hperm; split; intros [Ha He]; (split; [done|]);
         [by rewrite <- Hsame|by rewrite Hsame]). }
    destruct Hfail as [S3 Hm]. apply HQ; [by apply (table_nil f)| |by intros ?%Hmem].
    rewrite decide_False by done. etrans; [exact S2|]. etrans; [exact S3|]. apply same_grants_part. congruence.
  - subst status. apply wp_bind, wp_do_lock_op. apply wp_bind, (wp_grant_blocked f); [done|..].
    + apply (room_part w2); [done|]. apply (room_quiet w1); [done|]. by eapply room_withdrawn.
    + injection Hp3 as _ _ _ _ _ _ _ _ Hx3 _ _. by rewrite Hx3, Hx2, Hx1.
    + intros w4 HT4 HG4 _ Hset. apply (wp_unpin_return f []); [done|by rewrite (gr_files _ _ HG4)|].
      intros w5 HT5 _ Hp5. apply HQ; [by apply (table_nil f)| |done]. rewrite decide_True by done.
      apply (unlocked_part f owner state lock w0 w4); [|done].
      apply (unlocked_start f owner state lock w0 w); [done|].
      by apply (unlocked_steps f owner state lock w w1 w2 w3 removed).
Qed.

Lemma wp_state_unlock f owner state lock ty w :
  request_ok f w -> range_ok lock -> lock_state_ok state w ->
  wp (state_unlock f owner state lock ty) (unlock_post f owner state lock w) w.
Proof.
  intros Hrq Hlk Hst. pose proof (request_table f w Hrq) as HT. destruct Hrq as [HL Hroom Hexp [ce Hf]].
  unfold state_unlock. apply wp_bind, (wp_pin f ce); [done|..].
  - intros Hq. rewrite decide_True by done. apply wp_ret. split; [done|]. split; [done|].
    intros _ Hall. by destruct (Hall ce Hf).
  - intros w1 ce1 Hq Hf1 Ht1 Hd1 Hp1 _. rewrite decide_False by (by intros []).
    pose proof (table_part f [] w w1 HT Hp1 Hd1) as HT1.
    apply wp_bind, (wp_deref (fun w => w_files w !! f) _ _ ce1 Hf1). case_decide as Hty.
    { apply wp_ret. split; [by apply (table_nil f)|]. split; [by apply same_grants_part|].
      intros _ Hall. destruct (Hall ce Hf). congruence. }
    apply wp_bind, wp_unlock_noop.
    { intros st Heq. destruct (Hst st Heq) as (s & ? & ?). exists s. injection Hp1 as _ _ _ _ _ _ _ _ _ _ ->. done. }
    unfold glist_empty. case_bool_decide as Hl.
    + apply (wp_unpin_return f []); [done|by eexists|]. intros w2 HT2 _ Hp2. split; [by apply (table_nil f)|].
      split; [|done]. rewrite decide_True by done. apply unlocked_empty; [congruence|].
      injection Hp1 as _ _ _ _ _ _ HLw _ _ _ _. by rewrite <- HLw.
    + apply (wp_unlock_pinned f owner state lock ty _ w w1); try done.
      * by apply (room_part w).
      * injection Hp1 as _ _ _ _ _ _ _ _ -> _ _. done.
      * intros status w' HL' Hcase Hmem. split; [done|]. split; [done|]. by intros ? _; apply Hmem.
Qed.

(** * Cancelling *)

(** The request that [state_cancel] looks for. *)
Definition wanted owner (lock : fsal_lock_param_t) (e : state_lock_entry_t) : bool :=
  negb (different_owners (sle_owner e) (Some owner) || bool_decide (sle_blocked e = STATE_NON_BLOCKING)
        || different_lock (sle_lock e) lock).

Lemma wp_find_blocked f X owner lock (Q : option loc -> world FS -> Prop) w :
  table f X w ->
  (forall l1 a l2 e, locks_of w f = l1 ++ a :: l2 -> w_locks w !! a = Some e -> wanted owner lock e = true ->
     (forall a' e', a' ∈ l1 -> w_locks w !! a' = Some e' -> wanted owner lock e' = false) -> Q (Some a) w) ->
  ((forall a e, a ∈ locks_of w f -> w_locks w !! a = Some e -> wanted owner lock e = false) -> Q None w) ->
  wp (find_blocked (locks_of w f) owner lock) Q w.
Proof.
  intros HT Hs Hn. assert (Hall := proj2 (tb_live _ _ _ HT f)).
  cut (forall l1 l2, locks_of w f = l1 ++ l2 ->
    (forall a' e', a' ∈ l1 -> w_locks w !! a' = Some e' -> wanted owner lock e' = false) ->
    wp (find_blocked l2 owner lock) Q w).
  { intros Hgo. apply (Hgo [] (locks_of w f)); [done|]. by intros a e ?%elem_of_nil. }
  intros l1 l2. revert l1. induction l2 as [|a l2 IH]; intros l1 Hl Hno; simpl.
  - apply wp_ret, Hn. rewrite Hl, app_nil_r. done.
  - destruct (Hall a) as (e & He & _); [rewrite Hl, elem_of_app, elem_of_cons; tauto|].
    apply wp_bind, (wp_deref (fun w => w_locks w !! a) _ _ e He).
    destruct (_ || _) eqn:Hw.
    + apply (IH (l1 ++ [a])); [by rewrite Hl, <- app_assoc|].
      intros a' e' [?| ->%list_elem_of_singleton]%elem_of_app He'; [by apply (Hno a')|].
      assert (e' = e) as -> by congruence. unfold wanted. by rewrite Hw.
    + apply wp_ret. apply (Hs l1 a l2 e); try done. unfold wanted. by rewrite Hw.
Qed.

(** The first request that matches is off the list, and nobody waits without a
    reason. *)
Definition cancelled_request f owner lock w w' : Prop :=
  forall l1 a l2 e, locks_of w f = l1 ++ a :: l2 -> w_locks w !! a = Some e -> wanted owner lock e = true ->
    (forall a' e', a' ∈ l1 -> w_locks w !! a' = Some e' -> wanted owner lock e' = false) ->
    ~ (a ∈ locks_of w' f) /\ settled (locks_of w' f) w' f.

Lemma first_unique (P : loc -> Prop) (l1 l1' l2 l2' : list loc) a a' :
  l1 ++ a :: l2 = l1' ++ a' :: l2' -> P a -> P a' -> (forall x, x ∈ l1 -> ~ P x) -> (forall x, x ∈ l1' -> ~ P x) ->
  a = a'.
Proof.
  revert l1'. induction l1 as [|x l1 IH]; intros [|x' l1'] Heq Ha Ha' H1 H2; simplify_eq/=; try done.
  - by destruct (H2 x'); [left|].
  - by destruct (H1 a'); [left|].
  - apply (IH l1'); try done; intros y Hy; [apply H1|apply H2]; by right.
Qed.

Definition cancel_post f owner lock w (status : state_status_t) w' : Prop :=
  lock_table w' /\ same_grants f w w' /\
  (status = STATE_SUCCESS -> cancelled_request f owner lock w w') /\
  ((forall ce, w_files w !! f = Some ce -> ce_type ce = REGULAR_FILE /\ ce_qid ce <> LRU_ENTRY_CLEANUP) ->
   status = STATE_SUCCESS).

Lemma wp_state_cancel f owner lock w :
  request_ok f w -> wp (state_cancel f owner lock) (cancel_post f owner lock w) w.
Proof.
  intros Hrq. pose proof (request_table f w Hrq) as HT. destruct Hrq as [HL Hroom Hexp [ce Hf]].
  unfold state_cancel. apply wp_bind, (wp_deref (fun w => w_files w !! f) _ _ ce Hf). case_decide as Hty.
  { apply wp_ret. split; [done|]. split; [done|]. split; [done|]. intros Hall. by destruct (Hall ce Hf). }
  apply wp_bind, (wp_pin f ce); [done|..].
  - intros Hq. rewrite decide_True by done. apply wp_ret. split; [done|]. split; [done|]. split; [done|].
    intros Hall. by destruct (Hall ce Hf).
  - intros w1 ce1 Hq Hf1 Ht1 Hd1 Hp1 _. rewrite decide_False by (by intros []).
    pose proof (table_part f [] w w1 HT Hp1 Hd1) as HT1. pose proof (room_part w w1 Hp1 Hroom) as Hroom1.
    pose proof (same_grants_part f w w1 Hp1) as S1.
    injection Hp1 as Hm1 _ _ _ _ _ Hl1 _ Hx1 _ _. apply wp_bind, wp_gets. unfold glist_empty. case_bool_decide as Hemp.
    { apply (wp_unpin_return f []); [done|by eexists|]. intros w2 HT2 _ Hp2. split; [by apply (table_nil f)|].
      split; [etrans; [done|by apply same_grants_part]|]. split; [|done]. intros _ l1 a l2 e Hl. exfalso.
      rewrite Hl1, Hl in Hemp. by destruct l1. }
    assert (Hend : forall w2, table f [] w2 -> is_Some (w_files w2 !! f) -> same_grants f w1 w2 ->
      cancelled_request f owner lock w w2 ->
      wp (unpin_if_empty f;; unpin_return f STATE_SUCCESS) (cancel_post f owner lock w) w2).
    { intros w2 HT2 Hf2 S2 Hc2. apply wp_bind, (wp_file_table f []); [apply file_op_unpin_if_empty|done|done|].
      intros [] w3 HT3 Hf3 Hp3 _. apply (wp_unpin_return f []); [done|done|]. intros w4 HT4 _ Hp4.
      split; [by apply (table_nil f)|].
      split; [etrans; [done|]; etrans; [done|]; apply same_grants_part; congruence|].
      split; [|done]. intros _. rewrite Hp3 in Hp4. injection Hp4 as Hm4 _ _ _ _ _ Hl4 _ _ _ _.
      intros l1 a l2 e ? ? ? ?. destruct (Hc2 l1 a l2 e) as [? ?]; try done.
      unfold settled, blocked_by. by rewrite Hl4, Hm4. }
    apply wp_bind, (wp_find_blocked f []); [done|..].
    + intros l1 a l2 e Hl He Hw Hno. apply wp_bind.
      assert (Hin : a ∈ locks_of w1 f) by (rewrite Hl, elem_of_app, elem_of_cons; tauto).
      destruct (proj2 (tb_live _ _ _ HT1 f) a Hin) as (e' & He' & _ & _ & o & Ho). assert (e' = e) as -> by congruence.
      assert (Hnb : sle_blocked e <> STATE_NON_BLOCKING).
      { intros Hnb. unfold wanted in Hw. rewrite Hnb in Hw. by destruct (different_owners _ _). }
      apply wp_bind, (wp_cancel_blocked f f a e); try done. intros w2 HT2 HC.
      pose proof (canceled_withdrawn (fun e' => bool_decide (sle_blocked e' <> STATE_NON_BLOCKING)) a e w1 w2 He
        ltac:(by apply bool_decide_eq_true_2) HC) as HW.
      pose proof (wd_view _ _ _ HW) as [= Hf2 _ Hx2 _ _].
      apply (wp_grant_blocked f); [done|by eapply room_withdrawn|by rewrite Hx2, Hx1|].
      intros w3 HT3 HG3 _ Hset. apply Hend; [done|by rewrite (gr_files _ _ HG3), Hf2|..].
      * etrans; [|by apply same_grants_granted]. eapply same_grants_withdrawn; [|done].
        intros e0. by apply bool_decide_eq_true_1.
      * intros l1' a' l2' e' Hl' He0 Hw' Hno'. rewrite <- Hl1 in Hl'. rewrite <- Hm1 in He0, Hno'. split; [|done].
        rewrite Hl' in Hl. assert (a' = a) as ->.
        { apply (first_unique (fun x => exists ex, w_locks w1 !! x = Some ex /\ wanted owner lock ex = true) l1' l1 l2' l2);
            try done; [by exists e'|by exists e|..]; intros x Hx (ex & Hex & Hwx);
            [rewrite (Hno' x ex) in Hwx|rewrite (Hno x ex) in Hwx]; done. }
        intros Hin'. apply (gr_lists _ _ HG3) in Hin'; [|done].
        rewrite (cl_lists _ _ _ HC) in Hin' by done. by apply elem_of_glist_del in Hin' as [? _].
    + intros Hnone. apply wp_bind, wp_ret. apply Hend; [done|by eexists|done|].
      intros l1 a l2 e Hl He Hw _. rewrite <- Hl1 in Hl. rewrite <- Hm1 in He. rewrite (Hnone a e) in Hw; try done.
      rewrite Hl, elem_of_app, elem_of_cons. tauto.
Qed.

(** * Testing *)

Lemma wp_copy_conflict f X a e o (Q : option (loc * fsal_lock_param_t) -> world FS -> Prop) w :
  table f X w -> w_locks w !! a = Some e -> sle_owner e = Some o ->
  (forall w', table f X w' -> still_view w' = still_view w -> w_choices w' = w_choices w -> Q (Some (o, sle_lock e)) w') ->
  wp (copy_conflict a) Q w.
Proof.
  intros HT Ha Ho HQ. unfold copy_conflict. apply wp_bind, (wp_deref (fun w => w_locks w !! a) _ _ e Ha).
  rewrite Ho. apply wp_bind, wp_modify, wp_ret, HQ; [by apply (table_view f X w)|done|done].
Qed.

(** The answer to a test: the file cannot be used, or a lock that conflicts, or
    none does. *)
Definition test_post f owner lock w (r : state_status_t * option (loc * fsal_lock_param_t)) w' : Prop :=
  lock_table w' /\ w_locks w' = w_locks w /\ w_lists w' = w_lists w /\
  match access_error fds_hard_limit f FSAL_O_READ w with
  | Some err => r = (cache_inode_status_to_state_status err, None)
  | None =>
      (r = (STATE_SUCCESS, None) /\ forall a e, a ∈ locks_of w f -> w_locks w !! a = Some e ->
         conflicts_with (Some owner) lock e = false) \/
      (exists a e o, a ∈ locks_of w f /\ w_locks w !! a = Some e /\ sle_owner e = Some o /\
         conflicts_with (Some owner) lock e = true /\ r = (STATE_LOCK_CONFLICT, Some (o, sle_lock e)))
  end.

Lemma wp_state_test f owner lock w :
  request_ok f w -> wp (state_test fds_hard_limit f owner lock) (test_post f owner lock w) w.
Proof.
  intros Hrq. pose proof (request_table f w Hrq) as HT. destruct Hrq as [HL Hroom Hexp [ce Hf]].
  unfold state_test, test_post. apply wp_bind, (wp_pin f ce); [done|..].
  { intros Hq. rewrite decide_True by done. apply wp_ret. by rewrite (dead_access f _ ce w). }
  intros w1 ce1 Hq Hf1 Ht1 Hd1 Hp1 Ho1. rewrite decide_False by (by intros []).
  pose proof (table_part f [] w w1 HT Hp1 Hd1) as HT1. rewrite (pinned_access f _ ce ce1 w w1) by done.
  apply wp_bind, (wp_open_table f []); [done|by eexists|]. intros w2 HT2 Hf2 Hp2.
  pose proof (open_error_failed f FSAL_O_READ w1) as Herr. set (opened := open_error _ _ _ w1) in *. clearbody opened.
  rewrite Hp1 in Hp2. clear HT1 Hp1 Ho1 Hf1 Ht1 Hd1 w1.
  injection Hp2 as Hm2 _ _ _ _ _ Hl2 _ _ _ _. destruct opened as [err|]; simpl.
  { rewrite decide_True by auto. apply wp_bind, (wp_file_table f []); [apply file_op_dec_pin|done|done|]. intros [] w3 HT3 _ Hp3 _.
    injection Hp3 as Hm3 _ _ _ _ _ Hl3 _ _ _ _.
    apply wp_ret. split_and!; try congruence. by apply (table_nil f). }
  assert (Hend : forall r w3, table f [] w3 -> is_Some (w_files w3 !! f) -> w_locks w3 = w_locks w ->
    w_lists w3 = w_lists w ->
    (r = (STATE_SUCCESS, None) /\ forall a e, a ∈ locks_of w f -> w_locks w !! a = Some e ->
        conflicts_with (Some owner) lock e = false) \/
    (exists a e o, a ∈ locks_of w f /\ w_locks w !! a = Some e /\ sle_owner e = Some o /\
        conflicts_with (Some owner) lock e = true /\ r = (STATE_LOCK_CONFLICT, Some (o, sle_lock e))) ->
    wp (cache_inode_dec_pin_ref f false;; mret r) (fun r w' => lock_table w' /\ w_locks w' = w_locks w /\ w_lists w' = w_lists w /\
      ((r = (STATE_SUCCESS, None) /\ forall a e, a ∈ locks_of w f -> w_locks w !! a = Some e ->
          conflicts_with (Some owner) lock e = false) \/
       (exists a e o, a ∈ locks_of w f /\ w_locks w !! a = Some e /\ sle_owner e = Some o /\
          conflicts_with (Some owner) lock e = true /\ r = (STATE_LOCK_CONFLICT, Some (o, sle_lock e))))) w3).
  { intros r w3 HT3 Hf3 Hm3 Hl3 Hr. apply wp_bind, (wp_file_table f []); [apply file_op_dec_pin|done|done|].
    intros [] w4 HT4 _ Hp4 _. injection Hp4 as Hm4 _ _ _ _ _ Hl4 _ _ _ _.
    apply wp_ret. split_and!; try congruence. by apply (table_nil f). }
  apply wp_bind, (wp_overlapping f []); [done|..].
  - intros a e Ha He Hc. destruct (proj2 (tb_live _ _ _ HT2 f) a Ha) as (e' & He' & _ & _ & o & Hoe).
    assert (e' = e) as -> by congruence. apply wp_bind, wp_bind, (wp_copy_conflict f [] a e o); [done|done|done|].
    intros w3 HT3 [= Hm3 _ _ _ _ _ Hl3 Hf3 _ _ _] _. apply wp_ret. apply Hend; try congruence.
    right. exists a, e, o. rewrite <- Hl2, <- Hm2. done.
  - intros Hnone. apply wp_bind, wp_do_lock_op. apply Hend; try done. left. split; [done|].
    intros a e. rewrite <- Hl2, <- Hm2. apply Hnone.
Qed.

(** * Entries that are not on the list yet *)

Lemma table_drop f X w : table f X w -> table f [] w.
Proof.
  intros []. split; try done; [by intros a ?%elem_of_nil|].
  intros g a1 a2 e1 e2 b Ha1 Ha2. specialize (tb_free g). destruct (decide (g = f)); [|by apply tb_free].
  apply tb_free; rewrite elem_of_app; by right.
Qed.

Lemma table_extra f w x e :
  table f [] w -> w_locks w !! x = Some e -> live e ->
  (forall h', elsewhere (file_lock_list f) h' -> ~ (x ∈ w_lists w h')) ->
  (forall a1 e1 b, a1 ∈ locks_of w f -> w_locks w !! a1 = Some e1 -> ~ clash e e1 b) -> table f [x] w.
Proof.
  intros HT Hx Hl Hno Hcl. destruct HT. split; try done.
  - intros a ->%list_elem_of_singleton. split; [by exists e|done].
  - intros g a1 a2 e1 e2 b. specialize (tb_free g). destruct (decide (g = f)) as [->|]; [|apply tb_free].
    rewrite !elem_of_app, !list_elem_of_singleton. intros [->|Ha1] [->|Ha2] He1 He2.
    + destruct Hl as (_ & _ & o & Ho). apply (clash_self o); congruence.
    + assert (e1 = e) as -> by congruence. by apply (Hcl a2).
    + assert (e2 = e) as -> by congruence. intros Hc%clash_sym. revert Hc. by apply (Hcl a1).
    + by apply (tb_free a1 a2).
Qed.

Lemma table_listed f w x : table f [] w -> x ∈ locks_of w f -> table f [x] w.
Proof.
  intros HT Hin. destruct (proj2 (tb_live _ _ _ HT f) x Hin) as (e & He & Hl).
  apply (table_extra f w x e); try done.
  - intros h' Hh' Hx. by destruct (tb_others _ _ _ HT f h' x Hh' Hx).
  - intros a1 e1 b Ha1 He1. pose proof (tb_free _ _ _ HT f) as Hcf. rewrite decide_True in Hcf by done.
    by apply (Hcf x a1).
Qed.

(** ** What a request of owner [o] leaves alone *)

Definition others_same f (o : loc) w w' : Prop :=
  forall a e, sle_blocked e = STATE_NON_BLOCKING -> ~ granted_to o e ->
    (a ∈ locks_of w' f /\ w_locks w' !! a = Some e) <-> (a ∈ locks_of w f /\ w_locks w !! a = Some e).

#[global] Instance others_same_trans f o : Transitive (others_same f o).
Proof. intros w1 w2 w3 H1 H2 a e Hb Hg. etrans; [by apply H2|by apply H1]. Qed.

Lemma others_same_grants f o w w' : same_grants f w w' -> others_same f o w w'.
Proof. intros Hs a e Hb _. by apply Hs. Qed.

Lemma others_same_owner f o1 o2 w w' : same_owner o1 o2 -> others_same f o1 w w' -> others_same f o2 w w'.
Proof. intros Hs Ho a e Hb Hg. apply Ho; [done|]. intros Hg1. apply Hg. by eapply granted_to_same. Qed.

(** * The client's answer to a grant *)

(** A lock that is being granted is taken over by its owner. *)
Lemma wp_take_over f a e o (Q : unit -> world FS -> Prop) w :
  table f [] w -> room w -> is_Some (w_export w) -> is_Some (w_files w !! f) ->
  a ∈ locks_of w f -> w_locks w !! a = Some e -> sle_blocked e = STATE_GRANTING -> sle_owner e = Some o ->
  (forall w' ex, table f [] w' -> room w' -> w_locks w' !! a = Some ex -> a ∈ locks_of w' f -> granted_to o ex ->
     lock_type (sle_lock ex) = lock_type (sle_lock e) ->
     (forall b, in_range (sle_lock e) b -> in_range (sle_lock ex) b) -> w_cookies w ⊆ w_cookies w' ->
     w_files w' = w_files w -> settled (locks_of w' f) w' f -> others_same f o w w' -> Q tt w') ->
  wp (upd_lock a (with_blocked STATE_NON_BLOCKING);; merge_lock_entry f a;; grant_blocked_locks f) Q w.
Proof.
  intros HT Hroom Hexp Hf Hin Ha Hgr Ho HQ. apply wp_bind, (wp_upd_lock _ _ e); [done|].
  set (e1 := with_blocked STATE_NON_BLOCKING e). set (w1 := set_locks _ w).
  assert (HT1 : table f [] w1).
  { apply (table_settle f [] w a e); try done.
    - split; try done. by intros [?|?].
    - intros _. by right. }
  assert (Ha1 : w_locks w1 !! a = Some e1) by (simpl; apply lookup_insert_eq).
  assert (Hroom1 : room w1).
  { apply (room_same w); try done. intros a' e'. simpl. destruct (decide (a' = a)) as [->|].
    - rewrite lookup_insert_eq. intros [= <-] [?|?]; done.
    - rewrite lookup_insert_ne by done. eauto. }
  assert (S1 : forall a' e', ~ granted_to o e' -> sle_blocked e' = STATE_NON_BLOCKING ->
    (a' ∈ locks_of w1 f /\ w_locks w1 !! a' = Some e') <-> (a' ∈ locks_of w f /\ w_locks w !! a' = Some e')).
  { intros a' e' Hng Hnb'. simpl. destruct (decide (a' = a)) as [->|]; [|by rewrite lookup_insert_ne].
    rewrite lookup_insert_eq. split; intros [_ ?]; [|congruence]. simplify_eq. destruct Hng. split; [done|]. by exists o. }
  assert (Hin1 : a ∈ locks_of w1 f) by done. assert (Hx1 : is_Some (w_export w1)) by done.
  assert (Hc1 : w_cookies w1 = w_cookies w) by done. assert (Hf1 : w_files w1 = w_files w) by done. clearbody w1.
  apply wp_bind, (wp_merge_table f a e1); try done; [by apply table_listed|by rewrite Hf1|].
  intros w2 ex HT2 Hex (s & n & Hr) Hgrow Hq _ Hself Hoth. pose proof (qu_view _ _ Hq) as [= _ _ _ Hf2 Hc2 _ _ _ _ Hx2 _ _].
  apply (wp_grant_blocked f); [by eapply table_drop|by apply (room_quiet w1)|by rewrite Hx2|].
  intros w3 HT3 HG3 Hroom3 Hset.
  assert (Hnb : sle_blocked ex = STATE_NON_BLOCKING) by (by rewrite Hr).
  pose proof (same_grants_granted f w2 w3 HG3 a ex Hnb) as Hs.
  destruct (proj2 Hs) as [Hin3 Hex3]; [by rewrite Hself|].
  apply (HQ w3 ex); try done.
  - split; [done|]. exists o. split; [by rewrite Hr|done].
  - by rewrite Hr.
  - rewrite <- Hc1, <- Hc2. apply HG3.
  - rewrite (gr_files _ _ HG3). congruence.
  - intros a' e' Hb Hng. rewrite (same_grants_granted f w2 w3 HG3 a' e' Hb), (Hoth o a' e' Ho Hng). by apply S1.
Qed.

(** The lock [e] of cookie [c], with the data [d], was being granted: now the owner
    has it, or it is gone. *)
Definition answered (granted : bool) (c : loc) (d : state_cookie_entry_t) (e : state_lock_entry_t) w w' : Prop :=
  let f := sce_entry d in
  settled (locks_of w' f) w' f /\
  if granted then w_cookies w' !! c = None /\ forall o b, sle_owner e = Some o -> in_range (sle_lock e) b ->
    held (w_locks w') (locks_of w' f) o (lock_type (sle_lock e)) b
  else w_locks w' !! sce_lock_entry d = None /\ same_grants f w w'.

(** The cookie is freed and the file perhaps unpinned. *)
Lemma wp_free_unpin f c d (Q : unit -> world FS -> Prop) w :
  table f [] w -> w_cookies w !! c = Some d -> is_Some (w_files w !! f) ->
  (forall w', lock_table w' -> w_cookies w' !! c = None -> w_lists w' (file_lock_list f) = locks_of w f ->
     (forall a, a <> sce_lock_entry d -> w_locks w' !! a = w_locks w !! a) ->
     (forall e, w_locks w !! sce_lock_entry d = Some e -> is_Some (sle_owner e) ->
        w_locks w' !! sce_lock_entry d = Some (with_ref_count (fun n => n - 1) e)) -> Q tt w') ->
  wp (free_cookie c true;; unpin_if_empty f) Q w.
Proof.
  intros HT Hc Hf HQ. apply wp_bind, (wp_free_cookie f [] c d); [done|done|]. intros w1 HT1 [Uc Ul Uv Uo Ue _ _].
  injection Uv as _ _ _ Hf1 _ _ _ _ _ _ _ _ _.
  apply (wp_file_table f []); [apply file_op_unpin_if_empty|done|by rewrite Hf1|]. intros [] w2 HT2 _ Hp2 _.
  injection Hp2 as Hm2 _ Hc2 _ _ _ Hl2 _ _ _ _. apply HQ.
  - by apply (table_nil f).
  - rewrite Hc2, Uc. apply lookup_delete_eq.
  - rewrite Hl2. by apply Ul.
  - by rewrite Hm2.
  - by rewrite Hm2.
Qed.

Lemma wp_complete_grant c d e (Q : unit -> world FS -> Prop) w :
  lock_table w -> room w -> is_Some (w_export w) -> w_cookies w !! c = Some d ->
  w_locks w !! sce_lock_entry d = Some e ->
  (forall w', lock_table w' -> (sle_blocked e = STATE_GRANTING -> answered true c d e w w') -> Q tt w') ->
  wp (state_complete_grant c) Q w.
Proof.
  intros HL Hroom Hexp Hc He HQ. set (f := sce_entry d). set (a := sce_lock_entry d) in *.
  assert (HT : table f [] w) by (by apply (table_nil 1)). destruct (tb_grants _ _ _ HT c d Hc) as [Hf Hent].
  unfold state_complete_grant. apply wp_bind, (wp_deref (fun w => w_cookies w !! c) _ _ d Hc).
  apply wp_bind, (wp_deref (fun w => w_locks w !! a) _ _ e He), wp_bind, wp_when.
  2: { intros Hng%bool_decide_eq_false. apply (wp_free_unpin f c d); [done|done|done|].
       intros w' HL' _ _ _ _. apply HQ; [done|]. congruence. }
  intros Hg%bool_decide_eq_true. pose proof (tb_granting _ _ _ HT a e He Hg) as Hin. rewrite (Hent e He Hg) in Hin.
  destruct (proj2 (tb_live _ _ _ HT f) a Hin) as (e' & He' & _ & _ & o & Ho). assert (e' = e) as -> by congruence.
  apply (wp_take_over f a e o); try done. intros w1 ex HT1 _ Hex Hin1 Hgx Hty Hr Hck Hf1 Hset _.
  apply (wp_free_unpin f c d); [done|by apply (lookup_weaken _ _ _ _ Hc)|by rewrite Hf1|].
  intros w2 HL2 Hc2 Hl2 Hoff Hself. fold a in Hoff, Hself. apply HQ; [done|]. intros _. split_and!; [|done|].
  - (* the entry only lost a reference *)
    assert (Hbk : forall a' e', w_locks w2 !! a' = Some e' -> waiting e' -> w_locks w1 !! a' = Some e').
    { intros a' e' Ha' Hw. destruct (decide (a' = a)) as [->|]; [|by rewrite <- Hoff].
      rewrite (Hself ex Hex) in Ha'; [|by destruct Hgx as (_ & o' & -> & _)]. injection Ha' as <-.
      destruct Hgx as [Hnb _], Hw; simpl in *; congruence. }
    fold f. rewrite Hl2. intros a' e' Ha' He1 Hw. destruct (Hset a' e' Ha' (Hbk a' e' He1 Hw) Hw) as (a1 & e1 & Ha1 & He1' & Hc1).
    destruct (decide (a1 = a)) as [->|].
    + exists a, (with_ref_count (fun n => n - 1) ex). rewrite Hl2. split_and!; [done|apply Hself; [done|]|].
      * by destruct Hgx as (_ & o' & -> & _).
      * by assert (e1 = ex) as -> by congruence.
    + exists a1, e1. by rewrite Hl2, Hoff.
  - intros o' b Ho' Hb. assert (o' = o) as -> by congruence. fold f. rewrite Hl2.
    exists a, (with_ref_count (fun n => n - 1) ex). split_and!; try done; [|auto].
    apply Hself; [done|]. by destruct Hgx as (_ & o' & -> & _).
Qed.

(** The entry of a grant that the client refuses is given up. *)
Lemma wp_give_back f c d e (Q : state_status_t -> world FS -> Prop) w :
  table f [] w -> w_cookies w !! c = Some d -> w_locks w !! sce_lock_entry d = Some e ->
  sle_blocked e = STATE_GRANTING -> is_Some (sle_owner e) ->
  (forall w', table f [] w' -> (forall a, a <> sce_lock_entry d -> w_locks w' !! a = w_locks w !! a) ->
     (forall e', w_locks w' !! sce_lock_entry d = Some e' -> sle_owner e' = None) ->
     lists_without (sce_lock_entry d) w w' -> other_view w' = other_view w -> Q STATE_SUCCESS w') ->
  wp (upd_lock (sce_lock_entry d) (with_blocked STATE_CANCELED);;
      status ← do_entry_lock_op (sce_entry d) FSAL_OP_UNLOCK (sce_lock_entry d);
      when (bool_decide (status = STATE_SUCCESS)) (remove_from_locklist (sce_lock_entry d));;
      mret status) Q w.
Proof.
  intros HT Hc He Hg Ho HQ. set (a := sce_lock_entry d) in *.
  apply wp_bind, (wp_upd_lock _ _ e); [done|]. set (e1 := with_blocked STATE_CANCELED e).
  assert (HT1 : table f [] (set_locks (<[a := e1]>) w)).
  { apply (table_settle f [] w a e); try done; [|by intros [?|?]]. split; try done; [intros _; congruence|by intros [?|?]]. }
  apply wp_bind, (wp_entry_lock_op f [] _ _ a e1); [done|simpl; apply lookup_insert_eq|]. intros HT2.
  set (w2 := set_locks (<[a := retagged e1]>) _) in *. assert (Ha2 : w_locks w2 !! a = Some (retagged e1)) by (simpl; apply lookup_insert_eq).
  assert (Hoff2 : forall a', a' <> a -> w_locks w2 !! a' = w_locks w !! a').
  { intros a' Hne. simpl. by rewrite !lookup_insert_ne. }
  assert (Hl2 : lists_agree w w2) by done. assert (HV2 : other_view w2 = other_view w) by done. clearbody w2.
  apply wp_bind. rewrite bool_decide_eq_true_2 by done. simpl when.
  apply (wp_remove_table f a (retagged e1)); try done. intros w3 HT3 (Hoff3 & Hnone & Hl3 & _) _ HV3.
  apply wp_ret, HQ; try done.
  - intros a' Hne. by rewrite Hoff3, Hoff2.
  - intros h Hh. by rewrite Hl3, Hl2.
  - congruence.
Qed.

Lemma wp_release_grant c d e (Q : state_status_t -> world FS -> Prop) w :
  lock_table w -> room w -> is_Some (w_export w) -> w_cookies w !! c = Some d ->
  w_locks w !! sce_lock_entry d = Some e ->
  (forall w', lock_table w' -> (sle_blocked e = STATE_GRANTING -> answered false c d e w w') -> Q STATE_SUCCESS w') ->
  wp (state_release_grant c) Q w.
Proof.
  intros HL Hroom Hexp Hc He HQ. set (f := sce_entry d). set (a := sce_lock_entry d) in *.
  assert (HT : table f [] w) by (by apply (table_nil 1)). destruct (tb_grants _ _ _ HT c d Hc) as [Hf Hent].
  unfold state_release_grant. apply wp_bind, (wp_deref (fun w => w_cookies w !! c) _ _ d Hc).
  apply wp_bind, (wp_deref (fun w => w_locks w !! a) _ _ e He). cbv zeta. fold f a.
  (* the rest, once the entry has been dealt with *)
  assert (Hrest : forall w1, table f [] w1 -> (forall a', a' <> a -> w_locks w1 !! a' = w_locks w !! a') ->
    (forall e', w_locks w1 !! a = Some e' -> is_Some (sle_owner e') -> w_locks w !! a = Some e') ->
    other_view w1 = other_view w ->
    (sle_blocked e = STATE_GRANTING -> (forall e', w_locks w1 !! a = Some e' -> sle_owner e' = None) /\ same_grants f w w1) ->
    wp (free_cookie c true;; grant_blocked_locks f;; unpin_if_empty f;; mret STATE_SUCCESS) Q w1).
  { intros w1 HT1 Hoff1 Hself1 HV1 Hcase. injection HV1 as _ _ _ Hf1 Hc1 _ _ _ Hn1 Hx1 _ _.
    apply wp_bind, (wp_free_cookie f [] c d); [done|by rewrite Hc1|]. intros w2 HT2 [_ Ul Uv Uo Ue Ub _].
    injection Uv as _ _ _ Hf2 _ _ _ _ _ Hn2 Hx2 _ _. fold a in Uo, Ub, Ue.
    apply wp_bind, (wp_grant_blocked f); [done| |by rewrite Hx2, Hx1|].
    { apply (room_same w); [done|congruence|]. intros a' e' He' Hw. destruct (decide (a' = a)) as [->|].
      - destruct (Ub e' He') as (e1 & He1 & -> & Ho1). exists e1. split; [auto|done].
      - rewrite Uo, Hoff1 in He'; [eauto|done|done]. }
    intros w3 HT3 HG3 _ Hset. apply wp_bind, (wp_file_table f []); [apply file_op_unpin_if_empty|done| |].
    { by rewrite (gr_files _ _ HG3), Hf2, Hf1. }
    intros [] w4 HT4 _ Hp4 _. pose proof (same_grants_part f w3 w4 Hp4) as S4.
    injection Hp4 as Hm4 _ _ _ _ _ Hl4 _ _ _ _.
    apply wp_ret, HQ; [by apply (table_nil f)|]. intros Hg. destruct (Hcase Hg) as [Hno Hsame]. split_and!; fold f a.
    - unfold settled, blocked_by. by rewrite Hm4, Hl4.
    - rewrite Hm4. destruct (w_locks w3 !! a) as [e3|] eqn:E3; [|done].
      assert (Hex : exists e2, w_locks w2 !! a = Some e2) by (destruct (gr_old _ _ HG3 a e3 E3) as [?|(e2 & ? & _)]; eauto).
      destruct Hex as [e2 He2]. destruct (Ub e2 He2) as (e1 & He1 & _ & [o Ho]). rewrite (Hno e1 He1) in Ho. done.
    - etrans; [exact Hsame|]. etrans; [|exact S4]. etrans; [|by apply same_grants_granted].
      intros a' e' Hnb. destruct (decide (a' = a)) as [->|]; [|by rewrite Uo, Ul].
      split; intros [Ha' He']; exfalso.
      + destruct (Ub e' He') as (e1 & He1 & _ & [o Ho]). rewrite (Hno e1 He1) in Ho. done.
      + destruct (proj2 (tb_live _ _ _ HT1 f) a Ha') as (e1 & He1 & _ & _ & o & Ho). rewrite (Hno e1 He1) in Ho. done. }
  apply wp_bind. case_decide as Hg; [|apply wp_ret; by apply (Hrest w)].
  pose proof (tb_granting _ _ _ HT a e He Hg) as Hin. rewrite (Hent e He Hg) in Hin.
  destruct (proj2 (tb_live _ _ _ HT f) a Hin) as (e' & He' & _ & _ & o & Ho). assert (e' = e) as -> by congruence.
  apply (wp_give_back f c d e); try done. fold a. intros w1 HT1 Hoff1 Hnone1 Hl1 HV1. apply Hrest; try done.
  - intros e1 He1 [o1 Ho1]. rewrite (Hnone1 e1 He1) in Ho1. done.
  - intros _. split; [done|]. intros a' e' Hnb. rewrite Hl1, elem_of_glist_del by done.
    destruct (decide (a' = a)) as [->|]; [|rewrite Hoff1 by done; tauto].
    split; [by intros [[? _] _]|]. intros [_ ?]. congruence.
Qed.

(** * All of it *)

(** A cookie the server knows is the cookie of a grant.  [state_cancel_grant]
    breaks this. *)
Definition cookie_valid (cookie : list Z) w : Prop :=
  forall c, w_ht_lock_cookies w !! cookie = Some c -> is_Some (w_cookies w !! c).

Definition answer_post (cookie : list Z) (granted : bool) w w' : Prop :=
  lock_table w' /\ forall c d e, w_ht_lock_cookies w !! cookie = Some c -> w_cookies w !! c = Some d ->
    w_locks w !! sce_lock_entry d = Some e -> sle_blocked e = STATE_GRANTING -> answered granted c d e w w'.

Lemma wp_Granted_Res cookie granted w :
  lock_table w -> room w -> cookie_valid cookie w ->
  wp (nlm4_Granted_Res cookie granted) (fun _ => answer_post cookie granted w) w.
Proof.
  intros HL Hroom Hv. unfold nlm4_Granted_Res, state_find_grant. apply wp_bind, wp_bind, wp_gets.
  destruct (w_ht_lock_cookies w !! cookie) as [c|] eqn:Hk; [|apply wp_ret, wp_ret; split; [done|congruence]].
  apply wp_bind, wp_modify, wp_ret. destruct (Hv c Hk) as [d Hd].
  destruct (ln_cookie _ _ _ (bk_linked _ (tb_books _ _ _ HL)) c d Hd) as (e & He & (b & bd & Hb & _)%attached_some).
  apply (table_find 1 [] w cookie) in HL. set (w0 := set_ht_lock_cookies _ w) in *.
  apply wp_bind, (wp_deref (fun w => w_cookies w !! c) _ w0 d Hd).
  apply wp_bind, (wp_deref (fun w => w_locks w !! sce_lock_entry d) _ w0 e He). rewrite decide_False by congruence.
  apply wp_bind, wp_modify, wp_bind, (wp_idle 1 []); [apply idle_ref_add|by eapply table_view|].
  intros [] w1 HT1 HV1 _. apply wp_bind, wp_modify. set (w2 := set_fsal_export _ w1).
  assert (HL2 : lock_table w2) by (by apply (table_view 1 [] w1)).
  injection HV1 as Hm1 Hb1 Hc1 _ _ Hn1 Hl1 _ Hx1 _ _.
  assert (Hroom2 : room w2) by (apply (room_same w); [done|done|]; intros a' e'; simpl; rewrite Hm1; eauto).
  assert (Hs2 : forall f, same_grants f w w2) by (intros f a' e' _; simpl; by rewrite Hm1, Hl1).
  assert (Hx2 : is_Some (w_export w2)) by (simpl; by rewrite Hx1).
  assert (Hc2 : w_cookies w2 !! c = Some d) by (simpl; by rewrite Hc1).
  assert (He2 : w_locks w2 !! sce_lock_entry d = Some e) by (simpl; by rewrite Hm1). clearbody w2.
  assert (Hend : forall w3, lock_table w3 -> (sle_blocked e = STATE_GRANTING -> answered granted c d e w2 w3) ->
    answer_post cookie granted w w3).
  { intros w3 HL3 Ha. split; [done|]. intros c' d' e' Hk' Hd' He' Hg. assert (c' = c) as -> by congruence.
    assert (d' = d) as -> by congruence. assert (e' = e) as -> by congruence. destruct (Ha Hg) as [Hset Hcase].
    split; [done|]. destruct granted; [done|]. destruct Hcase as [? ?]. split; [done|etrans; [apply Hs2|done]]. }
  destruct granted.
  - apply (wp_complete_grant c d e); try done.
  - apply wp_bind, (wp_release_grant c d e); try done.
Qed.
End requests.
