(* ===== verification/LockAcquire.v ===== *)
(** [state_lock] (SAL/state_lock.c) for file systems without locks of their own:
    what a request for a lock promises, on every branch. *)

From S2P Require Import Prelude Status World Owner CacheEntry LockList LockHeap LockMerge LockSubtract LockCalm LockOps LockLedger LockTable LockGrant LockRequest.

Section acquire.
Context {FS : Type} `{!FsalOps FS} {HSL : ServerLocks FS} {env : OwnerEnv} {lenv : LockEnv}.
Variable fds_hard_limit : Z.
Implicit Types w : world FS.

Abbreviation locks_of w f := (w_lists w (file_lock_list f)).

(** No lock entry and no list of them changed. *)
Definition unchanged w w' : Prop := w_locks w' = w_locks w /\ lists_agree w w'.

#[global] Instance unchanged_trans : Transitive unchanged.
Proof. intros w1 w2 w3 [H1 L1] [H2 L2]. split; [congruence|]. intros h Hh. by rewrite L2, L1. Qed.

Lemma unchanged_part w w' : lock_part w' = lock_part w -> unchanged w w'.
Proof. intros [= Hm _ _ _ _ _ Hl _ _ _ _]. split; [done|]. intros h _. by rewrite Hl. Qed.

Lemma unchanged_grants f w w' : unchanged w w' -> same_grants f w w'.
Proof. intros [Hm Hl] a e _. by rewrite Hm, Hl. Qed.

(** * Looking through the list *)

Definition mine (owner : loc) (e : state_lock_entry_t) : Prop :=
  different_owners (sle_owner e) (Some owner) = false.

(** A lock of the owner that it got through another export than [x]. *)
Definition foreign (owner x : loc) (e : state_lock_entry_t) : Prop := sle_export e <> x /\ mine owner e.

(** A lock of the owner that contains the request, granted or about to be. *)
Definition existing (owner : loc) (lock : fsal_lock_param_t) (e : state_lock_entry_t) : Prop :=
  mine owner e /\ lock_contains e lock = true.

Lemma wp_ctx_export x (Q : loc -> world FS -> Prop) w : w_export w = Some x -> Q x w -> wp ctx_export Q w.
Proof. intros Hx HQ. unfold ctx_export. apply wp_bind, wp_gets. rewrite Hx. by apply wp_ret. Qed.

Lemma wp_scan_blocked x l owner blocking lock (Q : option state_status_t -> world FS -> Prop) w :
  w_export w = Some x -> (forall a, a ∈ l -> is_Some (w_locks w !! a)) ->
  (forall a e, a ∈ l -> w_locks w !! a = Some e -> foreign owner x e -> Q (Some STATE_INVALID_ARGUMENT) w) ->
  (forall a e, a ∈ l -> w_locks w !! a = Some e -> mine owner e -> sle_blocked e = blocking ->
     different_lock (sle_lock e) lock = false -> Q (Some STATE_LOCK_BLOCKED) w) ->
  Q None w -> wp (scan_blocked l owner blocking lock) Q w.
Proof.
  intros Hx Hall Hfor Hblk Hnone. induction l as [|a l IH]; simpl; [by apply wp_ret|].
  assert (Hrest : wp (scan_blocked l owner blocking lock) Q w).
  { apply IH.
    - intros a' ?. apply Hall. by right.
    - intros a' e ?. apply (Hfor a' e). by right.
    - intros a' e ?. apply (Hblk a' e). by right. }
  destruct (Hall a) as [e He]; [by left|]. apply wp_bind, (wp_deref (fun w => w_locks w !! a) _ _ e He).
  destruct (different_owners _ _) eqn:Hd; [done|]. apply wp_bind, (wp_ctx_export x); [done|].
  case_bool_decide as H1; [apply wp_ret; apply (Hfor a e); [by left|done|done]|].
  case_bool_decide as H2; [done|]. destruct (different_lock _ _) eqn:Hl; [done|].
  apply wp_ret. apply (Hblk a e); try done. by left.
Qed.

Lemma wp_scan_locks x l owner lock ov (Q : scan_result -> world FS -> Prop) w :
  w_export w = Some x ->
  (forall a, a ∈ l -> exists e, w_locks w !! a = Some e /\ sle_type e = POSIX_LOCK) ->
  (forall a e, a ∈ l -> w_locks w !! a = Some e -> foreign owner x e -> Q scan_export w) ->
  (forall a e, a ∈ l -> w_locks w !! a = Some e -> lock_conflicts e owner lock = true -> Q (scan_conflict a) w) ->
  (forall a e, a ∈ l -> w_locks w !! a = Some e -> existing owner lock e -> Q (scan_existing a) w) ->
  (forall ov', (forall a e, a ∈ l -> w_locks w !! a = Some e -> lock_conflicts e owner lock = false) ->
     Q (scan_free ov') w) ->
  wp (scan_locks l owner lock ov) Q w.
Proof.
  intros Hx Hall Hfor Hcon Hex Hfree. revert ov Hfree.
  induction l as [|a l IH]; intros ov Hfree; simpl.
  { apply wp_ret, Hfree. by intros a e ?%elem_of_nil. }
  destruct (Hall a) as (e & He & Hty); [by left|].
  apply wp_bind, (wp_deref (fun w => w_locks w !! a) _ _ e He).
  assert (Hrest : lock_conflicts e owner lock = false -> forall ov', wp (scan_locks l owner lock ov') Q w).
  { intros Hno ov'. apply IH.
    - intros a' ?. apply Hall. by right.
    - intros a' e' ?. apply (Hfor a' e'). by right.
    - intros a' e' ?. apply (Hcon a' e'). by right.
    - intros a' e' ?. apply (Hex a' e'). by right.
    - intros ov'' Hl. apply Hfree. intros a' e' [->|?]%elem_of_cons He'; [congruence|by apply (Hl a')]. }
  apply wp_bind. unfold same_client_lease. rewrite Hty. simpl. apply wp_ret, wp_bind, (wp_ctx_export x); [done|].
  destruct (bool_decide (sle_export e <> x) && _) eqn:H1.
  { apply andb_true_iff in H1 as [H1%bool_decide_eq_true H2%negb_true_iff]. apply wp_ret. apply (Hfor a e); [by left|done|done]. }
  destruct (lock_conflicts e owner lock) eqn:H2; [apply wp_ret; apply (Hcon a e); [by left|done|done]|].
  specialize (Hrest eq_refl). destruct (lock_contains e lock) eqn:H3; [|done].
  destruct (different_owners (sle_owner e) (Some owner)) eqn:H4; simpl; [done|].
  apply wp_ret. apply (Hex a e); [by left|done|done].
Qed.

(** * A lock that is being granted is asked for again *)

(** An active lock of owner [o], at least as large as [lk]. *)
Definition has_lock f (o : loc) (lk : fsal_lock_param_t) w : Prop :=
  exists a ex, a ∈ locks_of w f /\ w_locks w !! a = Some ex /\ active ex /\ mine o ex /\
    lock_type (sle_lock ex) = lock_type lk /\
    forall b, in_range lk b -> in_range (sle_lock ex) b.

Lemma granted_mine o e : granted_to o e -> mine o e.
Proof. intros [Hb Hg]. unfold mine. by apply granted_to_dec. Qed.

Lemma wp_immediate f a e o (Q : unit -> world FS -> Prop) w :
  table f [] w -> room w -> is_Some (w_export w) -> is_Some (w_files w !! f) ->
  a ∈ locks_of w f -> w_locks w !! a = Some e -> sle_blocked e = STATE_GRANTING -> sle_owner e = Some o ->
  (forall w', table f [] w' -> has_lock f o (sle_lock e) w' -> others_same f o w w' -> w_files w' = w_files w -> Q tt w') ->
  wp (grant_blocked_lock_immediate f a) Q w.
Proof.
  intros HT Hroom Hexp Hf Hin Ha Hgr Ho HQ. unfold grant_blocked_lock_immediate.
  pose proof (ln_entry _ _ _ (bk_linked _ (tb_books _ _ _ HT)) a e Ha) as Hok.
  apply wp_bind, (wp_deref (fun w => w_locks w !! a) _ _ e Ha), wp_bind.
  (* the end, from a store in which the entry has been recounted *)
  assert (Hend : forall w1 e1, table f [] w1 -> room w1 -> w_export w1 = w_export w -> w_files w1 = w_files w ->
    w_lists w1 (file_lock_list f) = locks_of w f -> w_locks w1 !! a = Some e1 -> recounted e e1 ->
    (forall a', a' <> a -> w_locks w1 !! a' = w_locks w !! a') ->
    wp (when true (upd_lock a (with_blocked STATE_NON_BLOCKING);; merge_lock_entry f a;; grant_blocked_locks f)) Q w1).
  { intros w1 e1 HT1 Hroom1 Hx1 Hf1 Hl1 Ha1 (n & b & ->) Hoff1. simpl when.
    apply (wp_take_over f a (with_ref_count (fun _ => n) (with_block_data b e)) o); try done;
      [by rewrite Hx1|by rewrite Hf1|by rewrite Hl1|].
    intros w2 ex HT2 _ Hex Hin2 Hgx Hty Hr _ Hf2 _ Hoth. apply HQ; try done; try congruence.
    - exists a, ex. split_and!; try done; [left; apply Hgx|by apply granted_mine].
    - etrans; [|exact Hoth]. intros a' e' Hb' Hng. rewrite Hl1.
      destruct (decide (a' = a)) as [->|]; [|by rewrite Hoff1].
      split; intros [_ He']; exfalso; [rewrite Ha1 in He'; injection He' as <-; simpl in Hb'|]; congruence. }
  destruct (sle_block_data e) as [b|] eqn:Hb; [|apply wp_ret; by apply (Hend w e)].
  destruct (eo_block _ _ _ _ _ Hok b Hb) as [bd Hbd]. apply wp_bind, (wp_deref (fun w => w_blocks w !! b) _ _ bd Hbd).
  assert (Hat : attached (w_blocks w) e = sbd_blocked_cookie bd) by (unfold attached; rewrite Hb; simpl; by rewrite Hbd).
  assert (Hroom' : forall w1 e1, w_locks w1 !! a = Some e1 -> recounted e e1 -> w_next_cookie w1 = w_next_cookie w ->
    (forall a', a' <> a -> w_locks w1 !! a' = w_locks w !! a') -> room w1).
  { intros w1 e1 Ha1 (n & b' & ->) Hn Hoff. apply (room_same w); try done. intros a' e' He' Hw.
    destruct (decide (a' = a)) as [->|]; [|rewrite Hoff in He'; eauto].
    rewrite Ha1 in He'. injection He' as <-. destruct Hw; simpl in *; congruence. }
  destruct (sbd_blocked_cookie bd) as [c|] eqn:Hck.
  - destruct (eo_attached _ _ _ _ _ Hok c Hat) as (d & Hd & Heq). apply (wp_take_cookie f [] c d); [done|done|..].
    + intros w1 _ HT1 [_ Ul Uv Uo Ue _ _]. rewrite Heq in Uo, Ue. specialize (Ue e Ha ltac:(by eexists)). simpl in *.
      injection Uv as _ _ _ Hf1 _ _ _ _ _ Hn1 Hx1 _ _.
      assert (Hrc : recounted e (with_ref_count (fun n => n - 1) e)) by (by exists (sle_ref_count e - 1), (Some b); destruct e; simpl in *; subst).
      apply (Hend w1 (with_ref_count (fun n => n - 1) e)); try done; [by eapply Hroom'|]. by apply Ul.
    + intros _. apply wp_ret, HQ; try done. exists a, e. split_and!; try done; [by right|].
      unfold mine. rewrite Ho. assert (same_owner o o) by done. done.
  - apply wp_bind, wp_modify, wp_bind, (wp_upd_lock _ _ e); [done|]. apply wp_ret.
    set (w1 := set_locks _ _). assert (Ha1 : w_locks w1 !! a = Some (with_block_data None e)) by (simpl; apply lookup_insert_eq).
    assert (Hrc : recounted e (with_block_data None e)) by (by exists (sle_ref_count e), None; destruct e).
    assert (Hoff : forall a', a' <> a -> w_locks w1 !! a' = w_locks w !! a') by (intros a' Hne; simpl; by rewrite lookup_insert_ne).
    apply (Hend w1 (with_block_data None e)); try done; [|by eapply Hroom'].
    pose proof (tb_books _ _ _ HT) as [HL HX HA HK]. apply (table_touch f [] w w1 a e); try done; [|left; eauto|by left].
    split; simpl; [by apply linked_unblock|done| |].
    + intros a' e'. by eapply addresses_insert.
    + intros b' [bd' [_ Hb']%lookup_delete_Some]. apply HK. by eexists.
Qed.

(** * New entries *)

(** On no list of locks. *)
Definition unlisted (x : loc) w : Prop :=
  forall h, link_of h = sle_list -> h <> split_lock_list -> h <> remove_list -> ~ (x ∈ w_lists w h).

Lemma fresh_unlisted f X w x : table f X w -> w_locks w !! x = None -> unlisted x w.
Proof.
  intros HT Hx h Hh Hs Hr Hin.
  assert (Hsome : is_Some (w_locks w !! x)); [|rewrite Hx in Hsome; by destruct Hsome].
  destruct (decide (h = file_lock_list f)) as [->|].
  - destruct (proj2 (tb_live _ _ _ HT f) x Hin) as (e & ? & _). eauto.
  - by apply (table_others f X w f h).
Qed.

Lemma unlisted_agree x w w' : lists_agree w w' -> unlisted x w -> unlisted x w'.
Proof. intros Hl Hu h Hh ? ?. rewrite Hl by done. by apply Hu. Qed.

(** An entry on no list changes or is new. *)
Lemma table_put f w w' x e :
  table f [] w -> books w' -> unlisted x w -> w_locks w' = <[x := e]> (w_locks w) ->
  sle_type e = POSIX_LOCK -> sle_blocked e <> STATE_GRANTING -> lists_agree w w' ->
  w_files w' = w_files w -> w_cookies w' = w_cookies w -> table f [] w'.
Proof.
  intros HT HB Hu Hm Hty Hng Hl Hfi Hck. pose proof HT as [_ HN Hlv _ Hent Hfree Hoth Hfiles Hgting Hgrants].
  assert (Hlg : forall g, locks_of w' g = locks_of w g) by (intros g; by apply Hl).
  assert (Hoff : forall a, a <> x -> w_locks w' !! a = w_locks w !! a) by (intros a Hne; by rewrite Hm, lookup_insert_ne).
  assert (Hx : w_locks w' !! x = Some e) by (rewrite Hm; apply lookup_insert_eq).
  assert (Hne : forall g a, a ∈ locks_of w g -> a <> x) by (intros g a Ha ->; by apply (Hu (file_lock_list g))).
  split; try done; rewrite ?Hfi, ?Hck.
  - intros a e1 He1. destruct (decide (a = x)) as [->|]; [congruence|]. rewrite Hoff in He1 by done. by eapply HN.
  - intros g. rewrite Hlg. destruct (Hlv g) as [Hnd Hall]. split; [done|]. intros a Ha.
    rewrite Hoff by (by apply (Hne g)). auto.
  - by intros a ?%elem_of_nil.
  - intros g a e1. rewrite Hlg. intros Ha. rewrite Hoff by (by apply (Hne g)). by apply Hent.
  - intros g a1 a2 e1 e2 b. assert (Hnil : (if decide (g = f) then [] else []) = ([] : list loc)) by (by destruct (decide (g = f))).
    rewrite Hlg, Hnil. simpl. intros Ha1 Ha2. rewrite !Hoff by (by apply (Hne g)). apply (Hfree g); by rewrite Hnil.
  - intros g h' a Hh'. rewrite Hl, Hlg by apply Hh'. intros Ha. rewrite Hoff; [by apply (Hoth g h' a)|].
    intros ->. destruct Hh' as (? & ? & ? & ?). by apply (Hu h').
  - intros g. rewrite Hlg. apply Hfiles.
  - intros a e1 He1 Hg. destruct (decide (a = x)) as [->|]; [congruence|]. rewrite Hoff in He1 by done. rewrite Hlg. auto.
  - intros c d Hcd. destruct (Hgrants c d Hcd) as [? Hg]. split; [done|]. intros e1 He1 Hg1.
    destruct (decide (sce_lock_entry d = x)) as [Heq|]; [rewrite Heq in He1; congruence|].
    rewrite Hoff in He1 by done. by apply Hg.
Qed.

(** [memory_ok] for the one allocation. *)
Lemma wp_create_table f export owner state lock (Q : option loc -> world FS -> Prop) w :
  table f [] w -> range_ok lock ->
  (forall x w', let e := mk_lock_entry export f None (Some owner) state STATE_NON_BLOCKING 1 lock POSIX_LOCK in
     table f [] w' -> unlisted x w' -> w_locks w !! x = None -> w_locks w' = <[x := e]> (w_locks w) -> live e ->
     lists_agree w w' -> w_blocks w' = w_blocks w -> other_view w' = other_view w -> Q (Some x) w') ->
  (forall w', ~ memory_ok w -> table f [] w' -> w_locks w' = w_locks w -> lists_agree w w' ->
     other_view w' = other_view w -> Q None w') ->
  wp (create_state_lock_entry f export STATE_NON_BLOCKING owner state lock POSIX_LOCK) Q w.
Proof.
  intros HT Hlk Hok Hfail. pose proof (tb_books _ _ _ HT) as HB.
  apply (wp_keep (fun w' => books w' /\ w_blocks w' = w_blocks w /\ other_view w' = other_view w)).
  { intros r w' Hrun. split; [by eapply books_create|]. apply pair_equal_spec. revert Hrun.
    by apply (preserves_create (fun w => (w_blocks w, other_view w))). }
  assert (Hfresh : w_locks w !! w_next w = None).
  { destruct (w_locks w !! w_next w) as [e|] eqn:E; [|done]. apply (bk_addr _ HB) in E. lia. }
  pose proof (fresh_unlisted f [] w _ HT Hfresh) as Hu. apply wp_create.
  - intros w' Hm Hl _ _ (HB' & Hbl & HV). pose proof HV as [= _ _ _ Hfi Hck _ _ _ _ _ _ _].
    apply Hok; try done; [|by eapply unlisted_agree|by split_and!; [..|by eexists]].
    by apply (table_put f w w' (w_next w) (mk_lock_entry export f None (Some owner) state STATE_NON_BLOCKING 1 lock POSIX_LOCK)).
  - intros w' Hch Hm Hl _ _ (HB' & Hbl & HV). pose proof HV as [= _ _ _ Hfi Hck _ _ _ _ _ _ _]. apply Hfail; try done.
    + unfold memory_ok. destruct (w_choices w); [done|]. simpl in Hch. injection Hch as ->. by intros [? _]%Forall_cons.
    + apply (table_books f [] w); try done; [by rewrite Hfi|by rewrite Hck].
Qed.

(** The entry goes on the list of its file. *)
Lemma table_append f w x e :
  table f [x] w -> w_locks w !! x = Some e -> ~ (x ∈ locks_of w f) -> sle_entry e = f ->
  is_Some (w_files w !! f) ->
  table f [] (set_lists (list_update (file_lock_list f) (fun l => glist_add_tail l x)) w).
Proof.
  intros HT Hx Hno Hent Hf. set (w' := set_lists _ w).
  assert (Hl : locks_of w' f = locks_of w f ++ [x]) by (simpl; by rewrite list_update_eq).
  destruct (tb_extra _ _ _ HT x) as [(e1 & He1 & Hle) Hxl]; [by left|]. assert (e1 = e) as -> by congruence.
  destruct (tb_live _ _ _ HT f) as [Hnd Hall].
  assert (HB : books w') by (apply (books_view w); [done|apply HT]).
  assert (Hmono : forall g a, a ∈ locks_of w g -> a ∈ locks_of w' g).
  { intros g a Ha. destruct (decide (g = f)) as [->|]; [rewrite Hl, elem_of_app; by left|].
    simpl. rewrite list_update_ne by congruence. done. }
  apply (table_step f [x] [] w w'); try done; try (apply HT).
  - intros h' (? & Hne & _). simpl. by rewrite list_update_ne.
  - intros a. rewrite app_nil_l, Hl. intros Ha. left. revert Ha. rewrite !elem_of_app. tauto.
  - rewrite Hl. split.
    + apply NoDup_app. split_and!; [done| |apply NoDup_singleton]. by intros a Ha ->%list_elem_of_singleton.
    + intros a [?| ->%list_elem_of_singleton]%elem_of_app; [auto|by exists e].
  - by intros a ?%elem_of_nil.
  - intros a e' Ha He' Hnb. rewrite Hl in Ha. apply elem_of_app in Ha as [Ha| ->%list_elem_of_singleton].
    + by apply (tb_entry _ _ _ HT f a e').
    + by assert (e' = e) as -> by (simpl in *; congruence).
  - intros a1 a2 e1 e2 b. rewrite app_nil_l, Hl. intros Ha1 Ha2.
    pose proof (tb_free _ _ _ HT f) as Hcf. rewrite decide_True in Hcf by done.
    apply (Hcf a1 a2 e1 e2 b); revert Ha1 Ha2; rewrite !elem_of_app; tauto.
  - intros a e' He' Hg. apply Hmono. by apply (tb_granting _ _ _ HT a e').
Qed.

(** * Granting a request *)

(** A lock that conflicts with nothing on the list. *)
Lemma no_conflict_no_clash x f owner state lock e1 b :
  lock_conflicts e1 owner lock = false ->
  ~ clash (mk_lock_entry x f None (Some owner) state STATE_NON_BLOCKING 1 lock POSIX_LOCK) e1 b.
Proof.
  intros Hno (_ & _ & [H1 H2] & [H3 H4] & Ht & Hd). simpl in *. unfold lock_conflicts, overlaps in Hno.
  rewrite different_owners_sym, Hd, andb_true_r in Hno. apply andb_false_iff in Hno as [Hno|Hno].
  - apply andb_false_iff in Hno as [Hno%Z.leb_gt|Hno%Z.leb_gt]; lia.
  - apply orb_false_iff in Hno as [?%bool_decide_eq_false ?%bool_decide_eq_false]. tauto.
Qed.

(** A new granted lock, off the list, is put on it. *)
Lemma wp_enter f x e o (Q : unit -> world FS -> Prop) w :
  table f [x] w -> room w -> is_Some (w_export w) -> is_Some (w_files w !! f) ->
  w_locks w !! x = Some e -> ~ (x ∈ locks_of w f) -> sle_blocked e = STATE_NON_BLOCKING -> sle_entry e = f ->
  sle_owner e = Some o ->
  (forall w', table f [] w' -> is_Some (w_files w' !! f) -> has_lock f o (sle_lock e) w' -> others_same f o w w' ->
     settled (locks_of w' f) w' f -> Q tt w') ->
  wp (merge_lock_entry f x;; pin_if_empty f;; add_tail (file_lock_list f) x;; grant_blocked_locks f) Q w.
Proof.
  intros HT Hroom Hexp Hf Hx Hno Hnb Hent Ho HQ. apply wp_bind, (wp_merge_table f x e); try done.
  intros w1 ex HT1 Hex (s & n & Hr) Hgrow Hq _ Hself Hoth. pose proof (qu_view _ _ Hq) as [= _ _ _ Hf1 _ _ _ _ _ Hx1 _ _].
  apply wp_bind, (wp_file_table f [x]); [apply file_op_pin_if_empty|done|by rewrite Hf1|]. intros [] w2 HT2 Hf2 Hp2 _.
  pose proof (room_part w1 w2 Hp2 (room_quiet w w1 Hq Hroom)) as Hroom2.
  injection Hp2 as Hm2 _ _ _ _ _ Hl2 _ Hx2 _ _.
  assert (Hno2 : ~ (x ∈ locks_of w2 f)) by (by rewrite Hl2, Hself).
  assert (Hex2 : w_locks w2 !! x = Some ex) by (by rewrite Hm2).
  apply wp_bind, wp_modify. set (w3 := set_lists _ w2).
  assert (HT3 : table f [] w3) by (apply (table_append f w2 x ex); try done; by rewrite Hr).
  assert (Hl3 : locks_of w3 f = locks_of w1 f ++ [x]) by (simpl; by rewrite list_update_eq, Hl2).
  assert (Hroom3 : room w3) by (apply (room_same w2); [done|done|]; eauto).
  assert (Hm3 : w_locks w3 = w_locks w1) by done. assert (Hf3 : is_Some (w_files w3 !! f)) by done.
  assert (Hx3 : is_Some (w_export w3)) by (simpl; by rewrite Hx2, Hx1). clearbody w3.
  apply (wp_grant_blocked f); [done|done|done|]. intros w4 HT4 HG4 _ Hset.
  assert (Hnbx : sle_blocked ex = STATE_NON_BLOCKING) by (by rewrite Hr).
  assert (Hgx : granted_to o ex) by (split; [done|]; exists o; split; [by rewrite Hr|done]).
  pose proof (same_grants_granted f w3 w4 HG4) as S4.
  apply HQ; try done; [by rewrite (gr_files _ _ HG4)|..].
  - destruct (proj2 (S4 x ex Hnbx)) as [Hin4 Hex4].
    { rewrite Hl3, Hm3, elem_of_app, list_elem_of_singleton. auto. }
    exists x, ex. split_and!; try done; [by left|by apply granted_mine|by rewrite Hr].
  - intros a e' Hb Hng. rewrite (S4 a e' Hb), <- (Hoth o a e' Ho Hng), Hl3, Hm3, elem_of_app, list_elem_of_singleton.
    split; [|tauto]. intros [[?| ->] He']; [done|]. destruct Hng. by assert (e' = ex) as -> by congruence.
Qed.

(** * A request that waits *)

(** Block data as [nlm4_Lock] allocates it: it belongs to no entry. *)
Definition fresh_block (b : loc) w : Prop :=
  exists bd, w_blocks w !! b = Some bd /\ sbd_blocked_cookie bd = None /\
    forall a e, w_locks w !! a = Some e -> sle_block_data e <> Some b.

(** The new entry [x] gets its block data and goes on the list. *)
Lemma wp_wait f x e b blocking (Q : unit -> world FS -> Prop) w :
  table f [] w -> w_locks w !! x = Some e -> unlisted x w -> live e -> sle_block_data e = None ->
  sle_entry e = f -> fresh_block b w -> blocking = STATE_NLM_BLOCKING \/ blocking = STATE_NFSV4_BLOCKING ->
  is_Some (w_files w !! f) ->
  (forall w', let e' := with_blocked blocking (with_block_data (Some b) e) in
     table f [] w' -> is_Some (w_files w' !! f) -> w_locks w' = <[x := e']> (w_locks w) ->
     locks_of w' f = locks_of w f ++ [x] -> Q tt w') ->
  wp (upd_lock x (fun e => with_blocked blocking (with_block_data (Some b) e));;
      upd_block b (with_lock_entry (Some x));; pin_if_empty f;; add_tail (file_lock_list f) x) Q w.
Proof.
  intros HT Hx Hu Hl Hbn Hent (bd & Hbd & Hck & Hfree) Hblk Hf HQ. set (e' := with_blocked blocking (with_block_data (Some b) e)).
  apply wp_bind, (wp_upd_lock _ _ e); [done|]. apply wp_bind, (wp_upd_block _ bd); [done|]. set (w1 := set_blocks _ _).
  assert (HB1 : books w1).
  { pose proof (tb_books _ _ _ HT) as [HL HX HA HK]. split; simpl; [|done| |].
    - eapply linked_blocks; [by apply (linked_block _ (w_blocks w) _ x e e' b bd)|].
      intros b'. destruct (decide (b' = b)) as [->|]; [by rewrite lookup_insert_eq, Hbd|by rewrite lookup_insert_ne].
    - intros a' e1. by apply (addresses_insert w x e).
    - intros b'. destruct (decide (b' = b)) as [->|]; [intros _; apply HK; by rewrite Hbd|].
      rewrite lookup_insert_ne by done. apply HK. }
  assert (HT1 : table f [] w1).
  { apply (table_put f w w1 x e'); try done; [by apply (tb_posix _ _ _ HT x e)|]. by destruct Hblk as [-> | ->]. }
  assert (Hx1 : w_locks w1 !! x = Some e') by (simpl; apply lookup_insert_eq).
  assert (Hm1 : w_locks w1 = <[x := e']> (w_locks w)) by done. assert (Hl1 : locks_of w1 f = locks_of w f) by done.
  assert (Hu1 : unlisted x w1) by done. assert (Hf1 : is_Some (w_files w1 !! f)) by done. clearbody w1.
  apply wp_bind, (wp_file_table f []); [apply file_op_pin_if_empty|done|done|]. intros [] w2 HT2 Hf2 Hp2 _.
  injection Hp2 as Hm2 _ _ _ _ _ Hl2 _ _ _ _.
  apply wp_modify, HQ; [|done|simpl; by rewrite Hm2, Hm1|simpl; by rewrite list_update_eq, Hl2, Hl1].
  assert (Hx2 : w_locks w2 !! x = Some e') by congruence.
  assert (Hu2 : forall h', elsewhere (file_lock_list f) h' -> ~ (x ∈ w_lists w2 h')).
  { intros h' (? & ? & ? & ?). rewrite Hl2. by apply Hu1. }
  apply (table_append f w2 x e'); try done; [|rewrite Hl2; by apply Hu1].
  apply (table_extra f w2 x e'); try done.
  intros a1 e1 b1 _ _ ([?|?] & _); destruct Hblk as [-> | ->]; done.
Qed.

(** * The end of [state_lock] *)

Lemma has_lock_part f o lk w w' : lock_part w' = lock_part w -> has_lock f o lk w -> has_lock f o lk w'.
Proof. intros [= Hm _ _ _ _ _ Hl _ _ _ _]. unfold has_lock. by rewrite Hm, Hl. Qed.

Lemma wp_acquire_free f x owner state blocking block lock ov
    (Q : state_status_t * option (loc * fsal_lock_param_t) -> world FS -> Prop) w :
  table f [] w -> room w -> w_export w = Some x -> is_Some (w_files w !! f) -> range_ok lock ->
  (forall a e, a ∈ locks_of w f -> w_locks w !! a = Some e -> lock_conflicts e owner lock = false) ->
  (forall w', table f [] w' -> has_lock f owner lock w' -> others_same f owner w w' -> Q (STATE_SUCCESS, None) w') ->
  (forall w', ~ memory_ok w -> table f [] w' -> unchanged w w' -> Q (STATE_MALLOC_ERROR, None) w') ->
  wp (acquire_lock f owner state blocking block lock POSIX_LOCK None ov) Q w.
Proof.
  intros HT Hroom Hx Hf Hlk Hno Hok Hfail. unfold acquire_lock, supports. cbv zeta.
  apply wp_bind, wp_bind, wp_gets, wp_ret. rewrite no_async_block. simpl.
  apply wp_bind, (wp_ctx_export x); [done|]. apply wp_bind, (wp_create_table f); [done|done|..].
  2: { intros w' Hmem HT' Hm Hl [= _ _ _ Hfi _ _ _ _ _ _ _ _]. apply (wp_unpin_return f []); [done|by rewrite Hfi|].
       intros w2 HT2 _ Hp2. apply Hfail; [done|done|]. etrans; [by split|by apply unchanged_part]. }
  intros a w1 e1 HT1 Hu Hnew Hm1 Hle Hl1 Hb1 [= _ _ _ Hfi _ _ _ _ Hn1 Hx1 _ _].
  assert (Ha1 : w_locks w1 !! a = Some e1) by (rewrite Hm1; apply lookup_insert_eq).
  apply wp_bind, wp_do_lock_op.
  assert (Hroom1 : room w1).
  { apply (room_same w); [done|done|]. intros a' e'. rewrite Hm1. destruct (decide (a' = a)) as [->|].
    - rewrite lookup_insert_eq. intros [= <-] [?|?]; done.
    - rewrite lookup_insert_ne by done. eauto. }
  assert (Hne : forall a', a' ∈ locks_of w f -> a' <> a).
  { intros a' Ha' ->. by apply (fresh_unlisted f [] w a HT Hnew (file_lock_list f)). }
  assert (HTx : table f [a] w1).
  { apply (table_extra f w1 a e1); try done; [intros h' (? & ? & ? & ?); by apply Hu|].
    intros a' e' b Ha'. rewrite Hl1 in Ha' by done. rewrite Hm1, lookup_insert_ne by (apply not_eq_sym; auto).
    intros He'. apply no_conflict_no_clash. by apply (Hno a'). }
  apply wp_bind, (wp_enter f a e1 owner); try done; [by rewrite Hx1, Hx|by rewrite Hfi|by apply Hu|].
  intros w2 HT2 Hf2 Hh2 Ho2 _. apply wp_bind, (wp_file_table f []); [apply file_op_dec_pin|done|done|].
  intros [] w3 HT3 _ Hp3 _. apply wp_bind, wp_ret, wp_ret. apply Hok; [done|by eapply has_lock_part|].
  etrans; [|etrans; [exact Ho2|by apply others_same_grants, same_grants_part]].
  intros a' e' Hb' Hng. rewrite Hl1 by done. destruct (decide (a' = a)) as [->|].
  - split; intros [Hin' _]; [by destruct (Hne a)|]. by destruct (Hne a).
  - by rewrite Hm1, lookup_insert_ne.
Qed.

Lemma wp_acquire_conflict f x owner state blocking block lock conflict ov
    (Q : state_status_t * option (loc * fsal_lock_param_t) -> world FS -> Prop) w :
  table f [] w -> w_export w = Some x -> is_Some (w_files w !! f) -> range_ok lock ->
  (blocking = STATE_NLM_BLOCKING -> exists b, block = Some b /\ fresh_block b w) ->
  (forall w', blocking <> STATE_NLM_BLOCKING -> table f [] w' -> unchanged w w' ->
     Q (STATE_LOCK_CONFLICT, Some conflict) w') ->
  (forall w' a e, blocking = STATE_NLM_BLOCKING ->
     table f [] w' -> same_grants f w w' -> locks_of w' f = locks_of w f ++ [a] ->
     w_locks w' !! a = Some e -> sle_blocked e = blocking -> mine owner e -> sle_lock e = lock ->
     Q (STATE_LOCK_BLOCKED, Some conflict) w') ->
  (forall w', ~ memory_ok w -> table f [] w' -> unchanged w w' -> Q (STATE_MALLOC_ERROR, Some conflict) w') ->
  wp (acquire_lock f owner state blocking block lock POSIX_LOCK (Some conflict) ov) Q w.
Proof.
  intros HT Hx Hf Hlk Hblk Hcon Hwait Hfail. unfold acquire_lock, supports. cbv zeta.
  apply wp_bind, wp_bind, wp_gets, wp_ret. rewrite no_async_block. simpl.
  case_bool_decide as Hb; simpl.
  2: { apply (wp_unpin_return f []); [done|done|]. intros w' HT' _ Hp'. apply Hcon; [done|done|by apply unchanged_part]. }
  destruct (Hblk Hb) as (b & -> & Hfresh).
  apply wp_bind, (wp_ctx_export x); [done|]. apply wp_bind, (wp_create_table f); [done|done|..].
  2: { intros w' Hmem HT' Hm Hl [= _ _ _ Hfi _ _ _ _ _ _ _ _]. apply (wp_unpin_return f []); [done|by rewrite Hfi|].
       intros w2 HT2 _ Hp2. apply Hfail; [done|done|]. etrans; [by split|by apply unchanged_part]. }
  intros a w1 e1 HT1 Hu Hnew Hm1 Hle Hl1 Hb1 [= _ _ _ Hfi _ _ _ _ Hn1 Hx1 _ _].
  assert (Ha1 : w_locks w1 !! a = Some e1) by (rewrite Hm1; apply lookup_insert_eq).
  apply wp_bind, wp_ret, wp_bind, (wp_wait f a e1 b blocking); try done; [|by left|by rewrite Hfi|].
  { destruct Hfresh as (bd & Hbd & Hck & Hfree). exists bd. rewrite Hb1. split_and!; try done.
    intros a' e'. rewrite Hm1. destruct (decide (a' = a)) as [->|]; [rewrite lookup_insert_eq; by intros [= <-]|].
    rewrite lookup_insert_ne by done. apply Hfree. }
  intros w2 e2 HT2 Hf2 Hm2 Hl2. apply wp_bind, (wp_file_table f []); [apply file_op_dec_pin|done|done|].
  intros [] w3 HT3 _ Hp3 _. injection Hp3 as Hm3 _ _ _ _ _ Hl3 _ _ _ _. apply wp_bind, wp_modify, wp_ret.
  set (w4 := set_lists _ w3).
  assert (Hne : forall a', a' ∈ locks_of w f -> a' <> a).
  { intros a' Ha' ->. by apply (fresh_unlisted f [] w a HT Hnew (file_lock_list f)). }
  assert (Hl4 : locks_of w4 f = locks_of w f ++ [a]).
  { simpl. rewrite list_update_ne by done. by rewrite Hl3, Hl2, Hl1. }
  assert (Hm4 : w_locks w4 = <[a := e2]> (<[a := e1]> (w_locks w))) by (simpl; congruence).
  apply (Hwait w4 a e2); try done.
  - apply (table_view f [] w3); try done. intros h Hh. simpl. rewrite list_update_ne; [done|]. by intros ->.
  - intros a' e' Hnb. rewrite Hl4, Hm4, elem_of_app, list_elem_of_singleton. destruct (decide (a' = a)) as [->|Hn].
    + rewrite lookup_insert_eq. split; [|by intros [Hin _]; destruct (Hne a Hin)]. intros [_ [= <-]]. simpl in Hnb. congruence.
    + rewrite !lookup_insert_ne by done. tauto.
  - rewrite Hm4. apply lookup_insert_eq.
  - unfold mine. simpl. assert (same_owner owner owner) by done. done.
Qed.

(** * Requests for a lock *)

(** What the answer to a request means: with success the owner has the lock and
    the other owners have what they had; a conflict is one; who is blocked waits
    on the list; with any other status nothing changes. *)
Definition lock_post f owner blocking (lock : fsal_lock_param_t) w
    (r : state_status_t * option (loc * fsal_lock_param_t)) w' : Prop :=
  lock_table w' /\
  match r.1 with
  | STATE_SUCCESS => has_lock f owner lock w' /\ others_same f owner w w'
  | STATE_LOCK_CONFLICT => unchanged w w' /\ exists a e o, a ∈ locks_of w f /\
      w_locks w !! a = Some e /\ sle_owner e = Some o /\ lock_conflicts e owner lock = true /\
      r.2 = Some (o, sle_lock e)
  | STATE_LOCK_BLOCKED => blocking <> STATE_NON_BLOCKING /\ same_grants f w w' /\ exists a e, a ∈ locks_of w' f /\
      w_locks w' !! a = Some e /\ sle_blocked e = blocking /\ mine owner e /\
      different_lock (sle_lock e) lock = false
  | _ => unchanged w w'
  end.

(** What else than the locks of others decides a request: memory, and a lock that the
    owner got through another export. *)
Definition decided f x owner blocking w (status : state_status_t) : Prop :=
  status = STATE_SUCCESS \/ (status = STATE_LOCK_CONFLICT /\ blocking <> STATE_NLM_BLOCKING) \/
  status = STATE_LOCK_BLOCKED \/ (status = STATE_MALLOC_ERROR /\ ~ memory_ok w) \/
  (status = STATE_INVALID_ARGUMENT /\ exists a e, a ∈ locks_of w f /\ w_locks w !! a = Some e /\ foreign owner x e).

Lemma has_lock_same f o1 o2 lk w : same_owner o1 o2 -> has_lock f o1 lk w -> has_lock f o2 lk w.
Proof.
  intros Hs (a & e & Ha & He & Hact & Hm & Ht & Hr). exists a, e. split_and!; try done. unfold mine in *.
  destruct (sle_owner e) as [o|]; [|done]. assert (Ho1 : same_owner o o1) by done.
  assert (Ho2 : same_owner o o2) by (by etrans). done.
Qed.

Lemma existing_has f owner lock w a e :
  a ∈ locks_of w f -> w_locks w !! a = Some e -> existing owner lock e -> has_lock f owner lock w.
Proof.
  intros Ha He [Hm Hc]. unfold lock_contains in Hc. rewrite !andb_true_iff, orb_true_iff, !bool_decide_eq_true, !Z.leb_le in Hc.
  destruct Hc as [[[H1 H2] H3] H4]. exists a, e. split_and!; try done. unfold in_range. lia.
Qed.

Lemma different_lock_refl lk : different_lock lk lk = false.
Proof. unfold different_lock. rewrite bool_decide_eq_false_2 by tauto. by rewrite !Z.eqb_refl. Qed.

Definition lock_done f x owner blocking lock w r w' : Prop :=
  lock_post f owner blocking lock w r w' /\ decided f x owner blocking w r.1.

Lemma wp_found_conflict f x owner state blocking block lock a e w :
  table f [] w -> w_export w = Some x -> is_Some (w_files w !! f) -> range_ok lock ->
  (blocking = STATE_NLM_BLOCKING -> exists b, block = Some b /\ fresh_block b w) ->
  a ∈ locks_of w f -> w_locks w !! a = Some e -> lock_conflicts e owner lock = true ->
  wp (conflict ← copy_conflict a; acquire_lock f owner state blocking block lock POSIX_LOCK conflict true)
    (lock_done f x owner blocking lock w) w.
Proof.
  intros HT Hx Hf Hlk Hblk Ha He Hc. destruct (proj2 (tb_live _ _ _ HT f) a Ha) as (e' & He' & _ & _ & o & Ho).
  assert (e' = e) as -> by congruence.
  apply wp_bind, (wp_copy_conflict f [] a e o); [done|done|done|]. intros w1 HT1 HV1 Hch.
  injection HV1 as Hm1 Hb1 _ _ _ _ Hl1 Hf1 Hx1 _ _.
  assert (U1 : unchanged w w1) by (split; [done|]; intros h _; by rewrite Hl1).
  apply (wp_acquire_conflict f x); try done; [by rewrite Hx1|by rewrite Hf1|..].
  - intros Hb. destruct (Hblk Hb) as (b & -> & bd & Hbd). exists b. split; [done|]. exists bd. by rewrite Hb1, Hm1.
  - intros w2 Hnb HT2 U2. split; [|by right; left]. split; [by apply (table_nil f)|]. split; [by etrans|]. by exists a, e, o.
  - intros w2 a2 e2 Hnlm HT2 S2 Hl2 He2 Hb2 Hmi Hlk2. split; [|by right; right; left]. split; [by apply (table_nil f)|].
    split; [by rewrite Hnlm|]. split; [etrans; [by apply unchanged_grants|done]|]. exists a2, e2. rewrite Hl2, elem_of_app, list_elem_of_singleton.
    split_and!; try done; [by right|]. rewrite Hlk2. apply different_lock_refl.
  - intros w2 Hmem HT2 S2. split; [split; [by apply (table_nil f)|]; simpl; by etrans|].
    right; right; right; left. split; [done|]. unfold memory_ok in *. by rewrite <- Hch.
Qed.

Lemma wp_found_existing f x owner blocking lock a e w :
  table f [] w -> room w -> w_export w = Some x -> is_Some (w_files w !! f) ->
  a ∈ locks_of w f -> w_locks w !! a = Some e -> existing owner lock e ->
  wp (found ← get_lock a;
      when (bool_decide (sle_blocked found = STATE_GRANTING)) (grant_blocked_lock_immediate f a);;
      unpin_return f (STATE_SUCCESS, None)) (lock_done f x owner blocking lock w) w.
Proof.
  intros HT Hroom Hx Hf Ha He Hex. apply wp_bind, (wp_deref (fun w => w_locks w !! a) _ _ e He), wp_bind.
  assert (Hend : forall w1, table f [] w1 -> is_Some (w_files w1 !! f) -> has_lock f owner lock w1 ->
    others_same f owner w w1 -> wp (unpin_return f (STATE_SUCCESS, None)) (lock_done f x owner blocking lock w) w1).
  { intros w1 HT1 Hf1 Hh1 Ho1. apply (wp_unpin_return f []); [done|done|]. intros w2 HT2 _ Hp2.
    split; [|by left]. split; [by apply (table_nil f)|]. split; [by eapply has_lock_part|].
    etrans; [exact Ho1|by apply others_same_grants, same_grants_part]. }
  apply wp_when; [intros Hg%bool_decide_eq_true|].
  - destruct (proj2 (tb_live _ _ _ HT f) a Ha) as (e' & He' & _ & _ & o & Ho). assert (e' = e) as -> by congruence.
    assert (Hso : same_owner o owner) by (destruct Hex as [Hm _]; unfold mine in Hm; by rewrite Ho in Hm).
    apply (wp_immediate f a e o); try done. intros w1 HT1 Hh1 Ho1 Hf1.
    apply Hend; [done|by rewrite Hf1| |by apply (others_same_owner f o)].
    apply (has_lock_same f o owner) in Hh1; [|done]. destruct Hh1 as (a1 & e1 & Ha1 & He1 & Hact & Hm & Ht & Hr).
    destruct Hex as [_ Hc]. unfold lock_contains in Hc.
    rewrite !andb_true_iff, !bool_decide_eq_true, !Z.leb_le in Hc. destruct Hc as [[[H1 H2] H3] _].
    exists a1, e1. split_and!; try done; [congruence|]. intros b Hb. apply Hr. unfold in_range in *. lia.
  - intros _. apply Hend; try done. by eapply existing_has.
Qed.

Lemma lock_done_part f x owner blocking lock w w0 r w' :
  lock_part w = lock_part w0 -> lock_done f x owner blocking lock w r w' -> lock_done f x owner blocking lock w0 r w'.
Proof.
  intros [= Hm _ _ _ _ _ Hl Hch _ _ _]. unfold lock_done, lock_post, decided, others_same, same_grants, unchanged, lists_agree, memory_ok.
  by rewrite Hm, Hl, Hch.
Qed.

Lemma wp_lock_pinned f x owner state blocking block lock w :
  table f [] w -> room w -> w_export w = Some x -> is_Some (w_files w !! f) -> range_ok lock ->
  (blocking = STATE_NLM_BLOCKING -> exists b, block = Some b /\ fresh_block b w) ->
  wp (lock_pinned f owner state blocking block lock POSIX_LOCK) (lock_done f x owner blocking lock w) w.
Proof.
  intros HT Hroom Hx Hf Hlk Hblk. destruct (tb_live _ _ _ HT f) as [Hnd Hall].
  (* a request that is refused or waits already *)
  assert (Hearly : forall status, decided f x owner blocking w status ->
    (forall w', unchanged w w' -> lock_table w' -> lock_part w' = lock_part w -> lock_post f owner blocking lock w (status, None) w') ->
    wp (unpin_return f (status, None)) (lock_done f x owner blocking lock w) w).
  { intros status Hng Hp. apply (wp_unpin_return f []); [done|done|]. intros w' HT' _ Hp'.
    split; [|done]. apply Hp; [by apply unchanged_part|by apply (table_nil f)|done]. }
  assert (Hforeign : forall a e, a ∈ locks_of w f -> w_locks w !! a = Some e -> foreign owner x e ->
    wp (unpin_return f (STATE_INVALID_ARGUMENT, None)) (lock_done f x owner blocking lock w) w).
  { intros a e Ha He Hfo. apply Hearly; [|by intros w' ? ? ?].
    do 4 right. split; [done|]. by exists a, e. }
  unfold lock_pinned. apply wp_bind, wp_gets, wp_bind.
  assert (Hfirst : wp (if decide (blocking = STATE_NON_BLOCKING) then mret None
      else scan_blocked (locks_of w f) owner blocking lock)
    (fun early w' => w' = w /\ match early with
       | Some status => wp (unpin_return f (status, None)) (lock_done f x owner blocking lock w) w
       | None => True end) w).
  { case_decide as Hnb; [by apply wp_ret|]. apply (wp_scan_blocked x); [done| |..].
    - intros a Ha. destruct (Hall a Ha) as (e & ? & _). eauto.
    - intros a e ? ? ?. split; [done|by eapply Hforeign].
    - intros a e Ha He Hm Hb Hd. split; [done|]. apply Hearly; [by right; right; left|].
      intros w' Hs HL [= Hm' _ _ _ _ _ Hl' _ _ _ _]. split; [done|]. split; [done|]. split; [by apply unchanged_grants|]. exists a, e. by rewrite Hl', Hm'.
    - done. }
  eapply wp_mono; [|exact Hfirst]. intros early ? [-> Hearly']. destruct early as [status|]; [done|].
  apply wp_bind, (wp_scan_locks x); [done|..].
  - intros a Ha. destruct (Hall a Ha) as (e & He & _). exists e. split; [done|]. by apply (tb_posix _ _ _ HT a).
  - done.
  - intros a e ? ? ?. by apply (wp_found_conflict f x owner state blocking block lock a e).
  - intros a e ? ? ?. by apply (wp_found_existing f x owner blocking lock a e).
  - intros ov Hno. apply (wp_acquire_free f x); try done.
    + intros w' HT' Hh Ho. split; [|by left]. split; [by apply (table_nil f)|done].
    + intros w' Hmem HT' Hs. split; [split; [by apply (table_nil f)|done]|]. by right; right; right; left.
Qed.

(** A failure to pin or open the file. *)
Lemma lock_post_error f owner blocking lock w err w' :
  err <> CACHE_INODE_SUCCESS -> lock_table w' -> unchanged w w' ->
  lock_post f owner blocking lock w (cache_inode_status_to_state_status err, None) w'.
Proof. intros Hne HL Hs. split; [done|]. destruct err; try done. Qed.

(** A lock that an owner has keeps the others from what it covers. *)
Lemma held_excludes f o lk w w' a e :
  lock_table w' -> range_ok lk -> has_lock f o lk w' -> others_same f o w w' ->
  a ∈ locks_of w f -> w_locks w !! a = Some e -> sle_blocked e = STATE_NON_BLOCKING ->
  lock_conflicts e o lk = true -> False.
Proof.
  intros HL Hlk (a' & ex & Ha' & He' & Hact & Hm & Ht & Hr) Ho Ha He Hb Hc.
  unfold lock_conflicts, overlaps in Hc. rewrite !andb_true_iff, orb_true_iff, !bool_decide_eq_true, !Z.leb_le in Hc.
  destruct Hc as [[[Hs1 Hs2] Hty] Hd].
  assert (Hng : ~ granted_to o e) by (intros Hg%granted_mine; unfold mine in Hg; congruence).
  destruct (proj2 (Ho a e Hb Hng) (conj Ha He)) as [Ha1 He1].
  destruct (proj2 (tb_live _ _ _ HL f) a Ha1) as (e0 & He0 & _ & Hre & oe & Hoe). assert (e0 = e) as -> by congruence.
  assert (Hle : forall l, range_ok l -> lock_start l <= lock_end l).
  { intros l Hl. rewrite (lock_end_eq l Hl). destruct Hl as (? & ? & ?). destruct (Z.eqb_spec (lock_length l) 0); lia. }
  pose proof (Hle _ Hre). pose proof (Hle _ Hlk).
  assert (Hin : in_range lk (Z.max (lock_start (sle_lock e)) (lock_start lk))) by (unfold in_range; lia).
  eapply (tb_free _ _ _ HL f a a' e ex); [rewrite elem_of_app; by right|rewrite elem_of_app; by right|done|done|].
  split_and!; [by left|done| |by apply Hr, Hin|rewrite Ht; tauto|]; [unfold in_range; lia|].
  destruct (different_owners (sle_owner e) (sle_owner ex)) eqn:E; [done|exfalso].
  unfold mine in Hm. rewrite Hoe in *. destruct (sle_owner ex) as [o2|]; [|done].
  assert (Hso : same_owner oe o) by (transitivity o2; [exact E|exact Hm]). unfold same_owner in Hso. congruence.
Qed.

(** The mode in which the file of a request is opened. *)
Definition lock_openflags (lock : fsal_lock_param_t) w : Z :=
  if bool_decide (lock_type lock = FSAL_LOCK_R) && fs_supports (w_fsal_export w) fso_reopen_method
  then FSAL_O_READ else FSAL_O_RDWR.

(** A request for a file that cannot be pinned or opened has that error. *)
Definition lock_answer f x owner blocking lock w (r : state_status_t * option (loc * fsal_lock_param_t)) w' : Prop :=
  lock_post f owner blocking lock w r w' /\
  match access_error fds_hard_limit f (lock_openflags lock w) w with
  | Some err => r = (cache_inode_status_to_state_status err, None)
  | None => decided f x owner blocking w r.1
  end.

Lemma wp_state_lock f x owner state blocking block lock w :
  request_ok f w -> w_export w = Some x -> range_ok lock ->
  (blocking = STATE_NLM_BLOCKING -> exists b, block = Some b /\ fresh_block b w) ->
  wp (state_lock fds_hard_limit f owner state blocking block lock POSIX_LOCK)
    (lock_answer f x owner blocking lock w) w.
Proof.
  intros Hrq Hx Hlk Hblk. pose proof (request_table f w Hrq) as HT. destruct Hrq as [HL Hroom Hexp [ce Hf]].
  unfold state_lock, lock_answer. apply wp_bind, (wp_pin f ce); [done|..].
  { intros Hq. rewrite decide_True by done. apply wp_ret. rewrite (dead_access fds_hard_limit f _ ce w) by done.
    split; [by apply lock_post_error|done]. }
  intros w1 ce1 Hq Hf1 Ht1 Hd1 Hp1 Ho1. rewrite decide_False by (by intros []).
  pose proof (table_part f [] w w1 HT Hp1 Hd1) as HT1. apply wp_bind, wp_bind, wp_gets, wp_ret. cbv zeta.
  assert (Hfl : lock_openflags lock w = if bool_decide (lock_type lock = FSAL_LOCK_R) && fs_supports (w_fsal_export w1) fso_reopen_method
    then FSAL_O_READ else FSAL_O_RDWR) by (unfold lock_openflags; by injection Hp1 as _ _ _ _ _ _ _ _ _ -> _).
  rewrite <- Hfl. rewrite (pinned_access fds_hard_limit f _ ce ce1 w w1) by done. clear Hfl.
  apply wp_bind, (wp_open_table fds_hard_limit f []); [done|by eexists|]. intros w2 HT2 Hf2 Hp2. rewrite Hp1 in Hp2.
  pose proof (open_error_failed fds_hard_limit f (lock_openflags lock w) w1) as Herr.
  set (opened := open_error _ _ _ w1) in *. clearbody opened. destruct opened as [err|]; cbn [default].
  { rewrite decide_True by auto. apply (wp_unpin_return f []); [done|done|]. intros w3 HT3 _ Hp3. split; [|done].
    apply lock_post_error; [auto|by apply (table_nil f)|]. apply unchanged_part. congruence. }
  rewrite decide_False by (by intros []). eapply wp_mono; [|apply (wp_lock_pinned f x); try done].
  - intros r w' Hd. by apply (lock_done_part f x owner blocking lock w2 w r w' Hp2).
  - by apply (room_part w).
  - by injection Hp2 as _ _ _ _ _ _ _ _ -> _ _.
  - intros Hb. destruct (Hblk Hb) as (b & -> & bd & Hbd). exists b. split; [done|]. exists bd.
    injection Hp2 as -> -> _ _ _ _ _ _ _ _ _. done.
Qed.
End acquire.
