(* ===== verification/Share.v ===== *)
(** Share reservations (SAL/state_share.c): the counters of a file's access and
    deny modes, the opens of NFSv4 and the shares of NLM.

    Locks of the code are not modelled.  The owner argument that the code passes
    down to the FSAL call, which ignores it, is left out. *)

From S2P Require Import Prelude Status World Owner CacheEntry LockList LockHeap LockOps LockLedger LockTable LockRequest LockAcquire.

(** * Constants *)

Definition OPEN4_SHARE_ACCESS_NONE : Z := 0.
Definition OPEN4_SHARE_ACCESS_READ : Z := 1.
Definition OPEN4_SHARE_ACCESS_WRITE : Z := 2.
Definition OPEN4_SHARE_DENY_NONE : Z := 0.
Definition OPEN4_SHARE_DENY_READ : Z := 1.
Definition OPEN4_SHARE_DENY_WRITE : Z := 2.
Definition fsa_R : Z := 1.

(** Field assignments. *)
Definition with_modes (access deny : Z) (s : state_share_t) : state_share_t :=
  mk_state_share access deny (share_access_prev s) (share_deny_prev s).
Definition with_prev (access deny : Z) (s : state_share_t) : state_share_t :=
  mk_state_share (share_access s) (share_deny s) access deny.

Section share.
Context {FS : Type} `{!FsalOps FS} {env : OwnerEnv}.
Abbreviation M := (M (world FS)).
Variable fds_hard_limit : Z.

(** * The counters of a file *)

(** How much a counter changes: a comparison of two tests. *)
Definition share_inc (new old bit : Z) : Z := Z.b2z (bit_set new bit) - Z.b2z (bit_set old bit).

Definition counted (old_access old_deny new_access new_deny : Z) (v4 : bool) (s : cache_inode_share_t)
    : cache_inode_share_t :=
  let deny_write_inc := share_inc new_deny old_deny OPEN4_SHARE_DENY_WRITE in
  mk_share
    (u32 (share_access_read s + share_inc new_access old_access OPEN4_SHARE_ACCESS_READ))
    (u32 (share_access_write s + share_inc new_access old_access OPEN4_SHARE_ACCESS_WRITE))
    (u32 (share_deny_read s + share_inc new_deny old_deny OPEN4_SHARE_DENY_READ))
    (u32 (share_deny_write s + deny_write_inc))
    (if v4 then u32 (share_deny_write_v4 s + deny_write_inc) else share_deny_write_v4 s).

Definition state_share_update_counter (entry : loc) (old_access old_deny new_access new_deny : Z)
    (v4 : bool) : M unit :=
  upd_file entry (fun e => with_share (counted old_access old_deny new_access new_deny v4 (ce_share e)) e).

Definition state_share_get_share_access (entry : loc) : M Z :=
  e ← get_file entry;
  mret (Z.lor (if 0 <? share_access_read (ce_share e) then OPEN4_SHARE_ACCESS_READ else 0)
              (if 0 <? share_access_write (ce_share e) then OPEN4_SHARE_ACCESS_WRITE else 0)).

Definition state_share_get_share_deny (entry : loc) : M Z :=
  e ← get_file entry;
  mret (Z.lor (if 0 <? share_deny_read (ce_share e) then OPEN4_SHARE_DENY_READ else 0)
              (if 0 <? share_deny_write (ce_share e) then OPEN4_SHARE_DENY_WRITE else 0)).

Definition state_share_check_conflict (entry : loc) (access deny : Z) : M state_status_t :=
  e ← get_file entry;
  let s := ce_share e in
  if bit_set access OPEN4_SHARE_ACCESS_READ && (0 <? share_deny_read s) then mret STATE_STATE_CONFLICT
  else if bit_set access OPEN4_SHARE_ACCESS_WRITE && (0 <? share_deny_write s) then mret STATE_STATE_CONFLICT
  else if bit_set deny OPEN4_SHARE_DENY_READ && (0 <? share_access_read s) then mret STATE_STATE_CONFLICT
  else if bit_set deny OPEN4_SHARE_DENY_WRITE && (0 <? share_access_write s) then mret STATE_STATE_CONFLICT
  else mret STATE_SUCCESS.

(** * Telling the FSAL *)

Definition call_share_op (entry : loc) (param : fsal_share_param_t) : M fsal_errors_t := fun w =>
  let '(err, fs) := obj_share_op (w_fs w) entry param in Ret err (set_fs (fun _ => fs) w).

Definition do_share_op (entry : loc) (param : fsal_share_param_t) : M state_status_t :=
  support ← supports fso_share_support;
  if negb support then mret STATE_SUCCESS
  else
    major ← call_share_op entry param;
    when (bool_decide (major = ERR_FSAL_STALE)) (cache_inode_kill_entry entry);;
    mret (state_error_convert major).

(** What every operation does to the counters: when the union of all modes
    changes the FSAL is told, and when it refuses the counters are put back. *)
Definition update_share (entry : loc) (old_access old_deny new_access new_deny : Z) (reclaim : bool)
    : M state_status_t :=
  old_entry_access ← state_share_get_share_access entry;
  old_entry_deny ← state_share_get_share_deny entry;
  state_share_update_counter entry old_access old_deny new_access new_deny true;;
  new_entry_access ← state_share_get_share_access entry;
  new_entry_deny ← state_share_get_share_deny entry;
  if negb (new_entry_access =? old_entry_access) || negb (new_entry_deny =? old_entry_deny) then
    status ← do_share_op entry (mk_share_param new_entry_access new_entry_deny reclaim);
    when (bool_decide (status <> STATE_SUCCESS))
      (state_share_update_counter entry new_access new_deny old_access old_deny true);;
    mret status
  else mret STATE_SUCCESS.

(** * Opens of NFSv4 *)

(** [1 << n], defined for the bits of an [int]. *)
Definition shift_one (n : Z) : M Z := if (0 <=? n) && (n <? 31) then mret (Z.shiftl 1 n) else undef.

(** The modes that a state has seen, for OPEN_DOWNGRADE. *)
Definition state_share_set_prev (state : loc) (access deny : Z) : M unit :=
  a ← shift_one access;
  d ← shift_one deny;
  upd_st state (with_state_share (fun s =>
    with_prev (Z.lor (share_access_prev s) a) (Z.lor (share_deny_prev s) d) s)).

Definition state_share_check_prev (state : loc) (access deny : Z) : M state_status_t :=
  s ← get_st state;
  a ← shift_one access;
  d ← shift_one deny;
  if negb (bit_set (share_access_prev (state_share s)) a) then mret STATE_STATE_ERROR
  else if negb (bit_set (share_deny_prev (state_share s)) d) then mret STATE_STATE_ERROR
  else mret STATE_SUCCESS.

Definition state_share_add (entry state : loc) (reclaim : bool) : M state_status_t :=
  s ← get_st state;
  let access := share_access (state_share s) in
  let deny := share_deny (state_share s) in
  conflict ← state_share_check_conflict entry access deny;
  if decide (conflict <> STATE_SUCCESS) then mret STATE_STATE_CONFLICT
  else
    status ← update_share entry OPEN4_SHARE_ACCESS_NONE OPEN4_SHARE_DENY_NONE access deny reclaim;
    if decide (status <> STATE_SUCCESS) then mret status
    else state_share_set_prev state access deny;; mret STATE_SUCCESS.

Definition state_share_remove (entry state : loc) : M state_status_t :=
  s ← get_st state;
  status ← update_share entry (share_access (state_share s)) (share_deny (state_share s))
             OPEN4_SHARE_ACCESS_NONE OPEN4_SHARE_DENY_NONE false;
  if decide (status <> STATE_SUCCESS) then mret status
  else cache_inode_adjust_openflags entry;; mret STATE_SUCCESS.

Definition state_share_upgrade (entry : loc) (access deny : Z) (state : loc) (reclaim : bool)
    : M state_status_t :=
  conflict ← state_share_check_conflict entry access deny;
  if decide (conflict <> STATE_SUCCESS) then mret STATE_STATE_CONFLICT
  else
    s ← get_st state;
    let old_access := share_access (state_share s) in
    let old_deny := share_deny (state_share s) in
    let new_access := Z.lor access old_access in
    let new_deny := Z.lor deny old_deny in
    status ← update_share entry old_access old_deny new_access new_deny reclaim;
    if decide (status <> STATE_SUCCESS) then mret status
    else
      upd_st state (with_state_share (with_modes new_access new_deny));;
      state_share_set_prev state access deny;;
      mret STATE_SUCCESS.

Definition state_share_downgrade (entry : loc) (access deny : Z) (state : loc) : M state_status_t :=
  s ← get_st state;
  status ← update_share entry (share_access (state_share s)) (share_deny (state_share s)) access deny false;
  if decide (status <> STATE_SUCCESS) then mret status
  else
    upd_st state (with_state_share (with_modes access deny));;
    cache_inode_adjust_openflags entry;;
    mret STATE_SUCCESS.

(** * Input and output without an open *)

Definition state_share_anonymous_io_start (entry : loc) (access : Z) : M state_status_t :=
  status ← state_share_check_conflict entry access 0;
  when (bool_decide (status = STATE_SUCCESS))
    (state_share_update_counter entry OPEN4_SHARE_ACCESS_NONE OPEN4_SHARE_DENY_NONE access
       OPEN4_SHARE_DENY_NONE false);;
  mret status.

Definition state_share_anonymous_io_done (entry : loc) (access : Z) : M unit :=
  state_share_update_counter entry access OPEN4_SHARE_DENY_NONE OPEN4_SHARE_ACCESS_NONE
    OPEN4_SHARE_DENY_NONE false.

(** * Shares of NLM *)

(** The share goes off its lists and is freed; the last one of a file gives back
    the pin.  [owner] is the owner the code has at hand. *)
Definition drop_nlm_share (entry nlm_share owner : loc) (closefile : bool) : M unit :=
  unlink sns_share_per_export nlm_share;;
  unlink sns_share_per_file nlm_share;;
  l ← list_of (file_nlm_share_list entry);
  when (glist_empty l) (cache_inode_dec_pin_ref entry closefile);;
  unlink sns_share_per_client nlm_share;;
  ref_add (ssc_refcount (nsm_client owner)) (-1);;
  unlink sns_share_per_owner nlm_share;;
  ref_add (so_refcount owner) (-1);;
  modify (set_nlm_shares (delete nlm_share)).

(** The early exits release the pin and may close the file. *)
Definition unpin_close {A} (entry : loc) (r : A) : M A := cache_inode_dec_pin_ref entry true;; mret r.

(** A new share on its lists. *)
Definition link_nlm_share (entry nlm_share owner export : loc) : M unit :=
  ref_add (so_refcount owner) 1;;
  add_tail (so_nlm_shares owner) nlm_share;;
  ref_add (so_refcount owner) (-1);;
  ref_add (ssc_refcount (nsm_client owner)) 1;;
  add_tail (ssc_share_list (nsm_client owner)) nlm_share;;
  l ← list_of (file_nlm_share_list entry);
  when (glist_empty l) (cache_inode_inc_pin_ref entry;; mret tt);;
  add_tail (file_nlm_share_list entry) nlm_share;;
  add_tail (exp_nlm_share_list export) nlm_share.

Definition state_nlm_share (entry : loc) (access deny : Z) (owner : loc) (reclaim : bool)
    : M state_status_t :=
  pinned ← cache_inode_inc_pin_ref entry;
  if decide (pinned <> CACHE_INODE_SUCCESS) then mret (cache_inode_status_to_state_status pinned)
  else
    reopen ← supports fso_reopen_method;
    let openflags := if (access =? fsa_R) && reopen then FSAL_O_READ else FSAL_O_RDWR in
    let openflags := if reclaim then Z.lor openflags FSAL_O_RECLAIM else openflags in
    opened ← cache_inode_open fds_hard_limit entry openflags 0;
    if decide (opened <> CACHE_INODE_SUCCESS)
    then unpin_close entry (cache_inode_status_to_state_status opened)
    else
      conflict ← state_share_check_conflict entry access deny;
      if decide (conflict <> STATE_SUCCESS) then unpin_close entry conflict
      else
        ok ← choose;
        if negb ok then unpin_close entry STATE_MALLOC_ERROR
        else
          nlm_share ← fresh;
          export ← ctx_export;
          modify (set_nlm_shares (<[nlm_share := mk_nlm_share owner entry export access deny]>));;
          link_nlm_share entry nlm_share owner export;;
          status ← update_share entry OPEN4_SHARE_ACCESS_NONE OPEN4_SHARE_DENY_NONE access deny reclaim;
          when (bool_decide (status <> STATE_SUCCESS)) (drop_nlm_share entry nlm_share owner true);;
          unpin_close entry status.

(** The shares that an unshare takes: of the owner, through the export of the
    request, and with these modes unless any will do. *)
Definition unshares (owner : loc) (export : option loc) (access deny : Z) (s : state_nlm_share_t) : bool :=
  negb (different_owners (Some owner) (Some (sns_owner s)))
  && negb (bool_decide (export <> None) && bool_decide (export <> Some (sns_export s)))
  && negb (negb (access =? OPEN4_SHARE_ACCESS_NONE)
           && (negb (sns_access s =? access) || negb (sns_deny s =? deny))).

Definition state_nlm_unshare (entry : loc) (access deny : Z) (owner : loc) : M state_status_t :=
  pinned ← cache_inode_inc_pin_ref entry;
  if decide (pinned <> CACHE_INODE_SUCCESS) then mret (cache_inode_status_to_state_status pinned)
  else
    status ← glist_for_each_safe (file_nlm_share_list entry) STATE_SUCCESS (fun a status =>
      s ← get_nlm_share a;
      export ← gets w_export;
      if negb (unshares owner export access deny s) then mret (true, status)
      else
        status ← update_share entry (sns_access s) (sns_deny s) OPEN4_SHARE_ACCESS_NONE
                   OPEN4_SHARE_DENY_NONE false;
        if decide (status <> STATE_SUCCESS) then mret (false, status)
        else drop_nlm_share entry a owner true;; mret (true, status));
    unpin_close entry status.

Definition state_share_wipe (entry : loc) : M unit :=
  glist_for_each_safe (file_nlm_share_list entry) tt (fun a _ =>
    s ← get_nlm_share a;
    drop_nlm_share entry a (sns_owner s) false;;
    mret (true, tt)).
End share.

(** * Counting reservations *)

(** A reservation: an access mode and a deny mode. *)
Abbreviation rsv := (Z * Z)%type.

Definition reads (r : rsv) : bool := bit_set r.1 OPEN4_SHARE_ACCESS_READ.
Definition writes (r : rsv) : bool := bit_set r.1 OPEN4_SHARE_ACCESS_WRITE.
Definition denies_read (r : rsv) : bool := bit_set r.2 OPEN4_SHARE_DENY_READ.
Definition denies_write (r : rsv) : bool := bit_set r.2 OPEN4_SHARE_DENY_WRITE.

Fixpoint cnt (p : rsv -> bool) (R : list rsv) : Z :=
  match R with [] => 0 | r :: R => Z.b2z (p r) + cnt p R end.

(** The counters of a file on which the reservations [R] are held. *)
Definition counters (R : list rsv) : cache_inode_share_t :=
  mk_share (u32 (cnt reads R)) (u32 (cnt writes R)) (u32 (cnt denies_read R)) (u32 (cnt denies_write R))
    (u32 (cnt denies_write R)).

(** One denies what the other has. *)
Definition clashes (r1 r2 : rsv) : bool :=
  (reads r1 && denies_read r2) || (writes r1 && denies_write r2)
  || (denies_read r1 && reads r2) || (denies_write r1 && writes r2).

Fixpoint coherent (R : list rsv) : Prop :=
  match R with [] => True | r :: R => Forall (fun r' => clashes r r' = false) R /\ coherent R end.

Lemma cnt_perm p R R' : R ≡ₚ R' -> cnt p R = cnt p R'.
Proof. induction 1; simpl; lia. Qed.

Lemma cnt_bounds p R : 0 <= cnt p R <= Z.of_nat (length R).
Proof. induction R as [|r R IH]; simpl; [lia|]. destruct (p r); simpl; lia. Qed.

Lemma cnt_existsb p R : (0 <? cnt p R) = existsb p R.
Proof.
  induction R as [|r R IH]; [done|]. simpl. pose proof (cnt_bounds p R). rewrite <- IH. destruct (p r); simpl; [|done].
  apply Z.ltb_lt. lia.
Qed.

Lemma counters_perm R R' : R ≡ₚ R' -> counters R = counters R'.
Proof. intros HP. unfold counters. by rewrite !(cnt_perm _ R R' HP). Qed.

Lemma counters_none R : counters ((OPEN4_SHARE_ACCESS_NONE, OPEN4_SHARE_DENY_NONE) :: R) = counters R.
Proof. done. Qed.

Lemma counters_change r r' R : counted r.1 r.2 r'.1 r'.2 true (counters (r :: R)) = counters (r' :: R).
Proof.
  unfold counted, counters, share_inc, reads, writes, denies_read, denies_write. simpl. rewrite !u32_add_l.
  f_equal; f_equal; lia.
Qed.

Lemma clashes_sym r1 r2 : clashes r1 r2 = clashes r2 r1.
Proof.
  unfold clashes. destruct (reads r1), (reads r2), (writes r1), (writes r2), (denies_read r1), (denies_read r2),
    (denies_write r1), (denies_write r2); done.
Qed.

Lemma coherent_perm R R' : R ≡ₚ R' -> coherent R -> coherent R'.
Proof.
  induction 1 as [|r R R' HP IH|r1 r2 R|R1 R2 R3 _ IH1 _ IH2]; simpl; try done.
  - intros [Hr HR]. split; [by rewrite <- HP|auto].
  - intros [[H21 H2]%Forall_cons [H1 HR]]. split; [|done]. constructor; [by rewrite clashes_sym|done].
  - auto.
Qed.

Lemma no_clash r R : existsb (clashes r) R = false <-> Forall (fun r' => clashes r r' = false) R.
Proof.
  induction R as [|r' R IH]; simpl; [by split|]. rewrite orb_false_iff, IH, Forall_cons. done.
Qed.

(** The test of the counters is the test of the reservations. *)
Lemma existsb_clash r R :
  existsb (clashes r) R = (reads r && existsb denies_read R) || (writes r && existsb denies_write R)
    || (denies_read r && existsb reads R) || (denies_write r && existsb writes R).
Proof.
  induction R as [|r' R IH]; simpl; [by destruct (reads r), (writes r), (denies_read r), (denies_write r)|].
  rewrite IH. unfold clashes.
  destruct (reads r), (writes r), (denies_read r), (denies_write r), (reads r'), (writes r'), (denies_read r'),
    (denies_write r'), (existsb denies_read R), (existsb denies_write R), (existsb reads R), (existsb writes R); done.
Qed.

(** * The operations on the counters *)

Section counters.
Context {FS : Type} `{!FsalOps FS} {env : OwnerEnv}.
Implicit Types w : world FS.

Definition share_of (f : loc) w : option cache_inode_share_t := ce_share <$> w_files w !! f.

(** The reservations [R] are held on file [f]. *)
Definition tally (f : loc) (R : list rsv) w : Prop := share_of f w = Some (counters R).

(** Everything else that concerns shares. *)
Definition share_rest w :=
  (w_nlm_shares w, w_states w, w_lists w, w_refs w, w_choices w, w_next w, w_export w, w_fsal_export w).
Definition share_view w := (ce_share <$> w_files w, share_rest w).

(** Only the counters of [f] changed. *)
Definition beside (f : loc) w w' : Prop :=
  share_rest w' = share_rest w /\ forall g, g <> f -> share_of g w' = share_of g w.

#[global] Instance beside_refl f : Reflexive (beside f).
Proof. done. Qed.
#[global] Instance beside_trans f : Transitive (beside f).
Proof. intros w1 w2 w3 [H1 G1] [H2 G2]. split; [congruence|]. intros g Hg. by rewrite G2, G1. Qed.

Lemma tally_perm f R R' w : R ≡ₚ R' -> tally f R w -> tally f R' w.
Proof. unfold tally. by intros <-%counters_perm. Qed.

Lemma share_view_of w w' g : share_view w' = share_view w -> share_of g w' = share_of g w.
Proof.
  intros [= Hf _]. unfold share_of. rewrite <- !lookup_fmap. by rewrite Hf.
Qed.

Lemma share_view_beside f w w' : share_view w' = share_view w -> beside f w w'.
Proof. intros HV. split; [by injection HV as _ ? ? ? ? ? ? ? ?; unfold share_rest; congruence|]. intros g _. by apply share_view_of. Qed.

Lemma tally_view f R w w' : share_view w' = share_view w -> tally f R w -> tally f R w'.
Proof. unfold tally. intros HV. by rewrite (share_view_of w w'). Qed.

Lemma tally_file f R w : tally f R w -> exists ce, w_files w !! f = Some ce /\ ce_share ce = counters R.
Proof. unfold tally, share_of. destruct (w_files w !! f) as [ce|]; [|done]. intros [= <-]. by exists ce. Qed.

(** Operations on cache entries that do not touch the counters. *)
Lemma preserves_upd_file a g :
  (forall e, ce_share (g e) = ce_share e) -> preserves share_view (upd_file (FS := FS) a g).
Proof.
  intros Hg w r w'. unfold upd_file. intros (e & w1 & H1 & H2)%bind_ret_inv. unfold get_file, deref in H1.
  destruct (w_files w !! a) as [e'|] eqn:E; [|done]. injection H1 as <- <-. injection H2 as _ <-.
  unfold share_view. f_equal. simpl. rewrite fmap_insert, Hg. apply insert_id. by rewrite lookup_fmap, E.
Qed.

Lemma preserves_fs {A} (g : FS -> A * FS) :
  preserves share_view (fun w => let '(a, fs) := g (w_fs w) in Ret a (set_fs (fun _ => fs) w)).
Proof. intros w r w'. destruct (g (w_fs w)). by intros [= _ <-]. Qed.

Lemma preserves_fds limit : preserves share_view (cache_inode_lru_fds_available (FS := FS) limit).
Proof. intros w r w'. unfold cache_inode_lru_fds_available. destruct (_ && _); by intros [= _ <-]. Qed.
End counters.

Ltac share_frame :=
  repeat first [preserves_step
    |apply preserves_upd_file; done
    |apply preserves_fds
    |apply preserves_deref
    |apply preserves_gets
    |apply (preserves_fs (fun fs => obj_open fs _ _))
    |apply (preserves_fs (fun fs => obj_reopen fs _ _))
    |apply (preserves_fs (fun fs => obj_close fs _))
    |apply preserves_modify; done
    |match goal with |- preserves _ (match ?x with _ => _ end) => destruct x end].

Section operations.
Context {FS : Type} `{!FsalOps FS} {env : OwnerEnv}.
Implicit Types w : world FS.

Lemma frame_kill entry : preserves share_view (cache_inode_kill_entry (FS := FS) entry).
Proof. unfold cache_inode_kill_entry, cih_remove_checked, cache_inode_lru_cleanup_push. share_frame. Qed.

Lemma frame_inc_pin entry : preserves share_view (cache_inode_inc_pin_ref (FS := FS) entry).
Proof. unfold cache_inode_inc_pin_ref, cond_pin_entry. share_frame. Qed.

Lemma frame_dec_pin entry closefile : preserves share_view (cache_inode_dec_pin_ref (FS := FS) entry closefile).
Proof.
  unfold cache_inode_dec_pin_ref, cache_inode_close, close_descriptor, is_open, cache_inode_is_pinned, atomic_dec_open_fd_count.
  repeat (share_frame || apply frame_kill).
Qed.

Lemma frame_open limit entry openflags flags :
  preserves share_view (cache_inode_open (FS := FS) limit entry openflags flags).
Proof.
  unfold cache_inode_open, open_prepare, atomic_inc_open_fd_count, atomic_dec_open_fd_count.
  repeat (share_frame || apply frame_kill).
Qed.

Lemma frame_adjust entry : preserves share_view (cache_inode_adjust_openflags (FS := FS) entry).
Proof. unfold cache_inode_adjust_openflags. share_frame. Qed.

(** Such an operation, on the file of a tally. *)
Lemma wp_cache_op {A} f R (m : M (world FS) A) (Q : A -> world FS -> Prop) w :
  file_op f m -> preserves share_view m -> tally f R w ->
  (forall a w', share_view w' = share_view w -> tally f R w' -> Q a w') -> wp m Q w.
Proof.
  intros Hm Hp HT HQ. destruct (tally_file f R w HT) as (ce & Hf & _).
  destruct (Hm w) as (a & w' & Hrun & _); [by eexists|]. eapply wp_intro; [exact Hrun|].
  pose proof (Hp w a w' Hrun) as HV. apply HQ; [done|by eapply tally_view].
Qed.

Lemma wp_update_counter f r r' R (Q : unit -> world FS -> Prop) w :
  tally f (r :: R) w -> (forall w', tally f (r' :: R) w' -> beside f w w' -> Q tt w') ->
  wp (state_share_update_counter f r.1 r.2 r'.1 r'.2 true) Q w.
Proof.
  intros HT HQ. destruct (tally_file _ _ _ HT) as (ce & Hf & Hs). unfold state_share_update_counter, upd_file.
  apply wp_bind, (wp_deref (fun w => w_files w !! f) _ _ ce Hf), wp_modify, HQ.
  - unfold tally, share_of. simpl. rewrite lookup_insert_eq. simpl. by rewrite Hs, counters_change.
  - split; [done|]. intros g Hg. unfold share_of. simpl. by rewrite lookup_insert_ne.
Qed.

(** The number of reservations fits the counters. *)
Definition fits (R : list rsv) : Prop := Z.of_nat (length R) <= UINT32_MAX.

Lemma counter_pos p R : fits R -> (0 <? u32 (cnt p R)) = existsb p R.
Proof.
  intros Hfit. unfold fits in Hfit. pose proof (cnt_bounds p R). rewrite u32_small by lia. apply cnt_existsb.
Qed.

Lemma wp_check f r R (Q : state_status_t -> world FS -> Prop) w :
  tally f R w -> fits R ->
  Q (if existsb (clashes r) R then STATE_STATE_CONFLICT else STATE_SUCCESS) w ->
  wp (state_share_check_conflict f r.1 r.2) Q w.
Proof.
  intros HT Hfit HQ. destruct (tally_file _ _ _ HT) as (ce & Hf & Hs). unfold state_share_check_conflict.
  apply wp_bind, (wp_deref (fun w => w_files w !! f) _ _ ce Hf). rewrite Hs. unfold counters. cbn [share_access_read
    share_access_write share_deny_read share_deny_write]. rewrite !counter_pos by done. rewrite existsb_clash in HQ.
  fold (reads r) (writes r) (denies_read r) (denies_write r).
  destruct (reads r && _); [by apply wp_ret|]. destruct (writes r && _); [by apply wp_ret|].
  destruct (denies_read r && _); [by apply wp_ret|]. destruct (denies_write r && _); by apply wp_ret.
Qed.

Lemma wp_union_access f R (Q : Z -> world FS -> Prop) w :
  tally f R w -> (forall z, Q z w) -> wp (state_share_get_share_access f) Q w.
Proof.
  intros HT HQ. destruct (tally_file _ _ _ HT) as (ce & Hf & _).
  by apply wp_bind, (wp_deref (fun w => w_files w !! f) _ _ ce Hf), wp_ret.
Qed.

Lemma wp_union_deny f R (Q : Z -> world FS -> Prop) w :
  tally f R w -> (forall z, Q z w) -> wp (state_share_get_share_deny f) Q w.
Proof.
  intros HT HQ. destruct (tally_file _ _ _ HT) as (ce & Hf & _).
  by apply wp_bind, (wp_deref (fun w => w_files w !! f) _ _ ce Hf), wp_ret.
Qed.

(** The FSAL has reservations of its own. *)
Definition fsal_shares w : bool := fs_supports (w_fsal_export w) fso_share_support.

Lemma wp_share_op f R param (Q : state_status_t -> world FS -> Prop) w :
  tally f R w ->
  (forall status w', share_view w' = share_view w -> tally f R w' -> (fsal_shares w = false -> status = STATE_SUCCESS) ->
     Q status w') ->
  wp (do_share_op f param) Q w.
Proof.
  intros HT HQ. unfold do_share_op, supports. apply wp_bind, wp_bind, wp_gets, wp_ret. fold (fsal_shares w).
  destruct (fsal_shares w) eqn:Hsup; simpl; [|by apply wp_ret, HQ].
  apply wp_bind. unfold call_share_op, wp. destruct (obj_share_op (w_fs w) f param) as [major fs].
  set (w1 := set_fs _ w). assert (HT1 : tally f R w1) by (by apply (tally_view f R w)).
  assert (HV1 : share_view w1 = share_view w) by done. clearbody w1.
  change (wp (when (bool_decide (major = ERR_FSAL_STALE)) (cache_inode_kill_entry f);; mret (state_error_convert major)) Q w1).
  apply wp_bind, (wp_cache_op f R); [apply file_op_when, file_op_kill|apply preserves_when, frame_kill|done|].
  intros [] w2 HV2 HT2. apply wp_ret, HQ; [congruence|done|done].
Qed.

(** The reservation [r] becomes [r'], unless the FSAL refuses. *)
Lemma wp_update_share f r r' R reclaim (Q : state_status_t -> world FS -> Prop) w :
  tally f (r :: R) w ->
  (forall status w', beside f w w' -> tally f ((if decide (status = STATE_SUCCESS) then r' else r) :: R) w' ->
     (fsal_shares w = false -> status = STATE_SUCCESS) -> Q status w') ->
  wp (update_share f r.1 r.2 r'.1 r'.2 reclaim) Q w.
Proof.
  intros HT HQ. unfold update_share. apply wp_bind, (wp_union_access f (r :: R)); [done|]. intros oa.
  apply wp_bind, (wp_union_deny f (r :: R)); [done|]. intros od.
  apply wp_bind, (wp_update_counter f r r' R); [done|]. intros w1 HT1 HB1.
  apply wp_bind, (wp_union_access f (r' :: R)); [done|]. intros na.
  apply wp_bind, (wp_union_deny f (r' :: R)); [done|]. intros nd.
  destruct (_ || _); [|by apply wp_ret, HQ; [|rewrite decide_True|]].
  apply wp_bind, (wp_share_op f (r' :: R)); [done|]. intros status w2 HV2 HT2 Hs.
  assert (HB2 : beside f w w2) by (etrans; [exact HB1|by apply share_view_beside]).
  assert (Hsup : fsal_shares w = false -> status = STATE_SUCCESS).
  { intros Hsup. apply Hs. unfold fsal_shares in *. by destruct HB1 as [[= _ _ _ _ _ _ _ ->] _]. }
  apply wp_bind, wp_when.
  - intros Hne%bool_decide_eq_true. apply (wp_update_counter f r' r R); [done|]. intros w3 HT3 HB3.
    apply wp_ret, HQ; [by etrans|by rewrite decide_False|done].
  - intros Heq%bool_decide_eq_false%dec_stable. apply wp_ret, HQ; [done|by rewrite decide_True|done].
Qed.
End operations.

(** * Opens as reservations

    The abstract state of a file is the reservation of each open state, with the
    reservations [R] of others (NLM shares and anonymous input and output). *)

Inductive share_call : Set :=
| call_add (state : loc) (reclaim : bool)
| call_remove (state : loc)
| call_upgrade (state : loc) (r : rsv) (reclaim : bool)
| call_downgrade (state : loc) (r : rsv).

Definition join (r1 r2 : rsv) : rsv := (Z.lor r1.1 r2.1, Z.lor r1.2 r2.2).
Definition values (A : gmap loc rsv) : list rsv := (map_to_list A).*2.
Definition modes (s : state_t) : rsv := (share_access (state_share s), share_deny (state_share s)).
Definition modes_ok (r : rsv) : Prop := 0 <= r.1 <= 3 /\ 0 <= r.2 <= 3.

(** The modes of [r1] are among those of [r2]. *)
Definition within (r1 r2 : rsv) : Prop := Z.land r1.1 r2.1 = r1.1 /\ Z.land r1.2 r2.2 = r1.2.

(** What a call promises, [r0] being the modes of its state. *)
Definition abstract_share (c : share_call) (r0 : rsv) (A : gmap loc rsv) (R : list rsv)
    : state_status_t * gmap loc rsv :=
  match c with
  | call_add st _ =>
      if existsb (clashes r0) (values A ++ R) then (STATE_STATE_CONFLICT, A) else (STATE_SUCCESS, <[st := r0]> A)
  | call_remove st => (STATE_SUCCESS, delete st A)
  | call_upgrade st r _ =>
      if existsb (clashes r) (values A ++ R) then (STATE_STATE_CONFLICT, A)
      else (STATE_SUCCESS, <[st := join r r0]> A)
  | call_downgrade st r => (STATE_SUCCESS, <[st := r]> A)
  end.

Lemma values_insert st r A : A !! st = None -> values (<[st := r]> A) ≡ₚ r :: values A.
Proof. intros Hst. unfold values. by rewrite map_to_list_insert. Qed.

Lemma values_delete st r A : A !! st = Some r -> values A ≡ₚ r :: values (delete st A).
Proof. intros Hst. unfold values. by rewrite <- (map_to_list_delete A st r Hst). Qed.

Lemma values_update st r A : values (<[st := r]> A) ≡ₚ r :: values (delete st A).
Proof. rewrite <- insert_delete_eq. apply values_insert, lookup_delete_eq. Qed.

Lemma bit_within a b m : Z.land a b = a -> bit_set a m = true -> bit_set b m = true.
Proof.
  unfold bit_set. rewrite !negb_true_iff, !Z.eqb_neq. intros Hab Hm Hb. apply Hm. rewrite <- Hab.
  by rewrite <- Z.land_assoc, Hb, Z.land_0_r.
Qed.

Lemma clashes_within r1 r2 r : within r1 r2 -> clashes r2 r = false -> clashes r1 r = false.
Proof.
  intros [Ha Hd]. unfold clashes. rewrite !orb_false_iff, !andb_false_iff.
  assert (Hm : forall p : rsv -> bool, (p r1 = true -> p r2 = true) -> p r2 = false -> p r1 = false).
  { intros p Hp H2. destruct (p r1); [|done]. by rewrite Hp in H2. }
  assert (Hr := Hm reads (bit_within _ _ _ Ha)). assert (Hw := Hm writes (bit_within _ _ _ Ha)).
  assert (Hdr := Hm denies_read (bit_within _ _ _ Hd)). assert (Hdw := Hm denies_write (bit_within _ _ _ Hd)).
  tauto.
Qed.

Lemma clashes_join r1 r2 r : clashes r1 r = false -> clashes r2 r = false -> clashes (join r1 r2) r = false.
Proof.
  unfold clashes, join, reads, writes, denies_read, denies_write. cbn [fst snd].
  rewrite !bit_set_lor. rewrite !orb_false_iff, !andb_false_iff, !orb_false_iff. tauto.
Qed.

Section opens.
Context {FS : Type} `{!FsalOps FS} {env : OwnerEnv}.
Implicit Types w : world FS.

Definition run_share (f : loc) (c : share_call) : M (world FS) state_status_t :=
  match c with
  | call_add st reclaim => state_share_add f st reclaim
  | call_remove st => state_share_remove f st
  | call_upgrade st r reclaim => state_share_upgrade f r.1 r.2 st reclaim
  | call_downgrade st r => state_share_downgrade f r.1 r.2 st
  end.

Definition state_of (c : share_call) : loc :=
  match c with call_add st _ | call_remove st | call_upgrade st _ _ | call_downgrade st _ => st end.

(** The store holds the abstract state. *)
Record holds (f : loc) (A : gmap loc rsv) (R : list rsv) w : Prop := {
  hs_tally : tally f (values A ++ R) w;
  hs_coherent : coherent (values A ++ R);
  hs_fits : fits (values A ++ R);
  hs_states : forall st r, A !! st = Some r -> exists s, w_states w !! st = Some s /\ modes s = r
}.

(** A state is added once, with room for one more reservation; the others have
    been; a downgrade takes modes away. *)
Definition call_valid (c : share_call) (r0 : rsv) (A : gmap loc rsv) (R : list rsv) : Prop :=
  match c with
  | call_add st _ => A !! st = None /\ modes_ok r0 /\ fits (r0 :: values A ++ R)
  | call_remove st => A !! st = Some r0
  | call_upgrade st r _ => A !! st = Some r0 /\ modes_ok r
  | call_downgrade st r => A !! st = Some r0 /\ within r r0
  end.

Lemma wp_set_prev st s r (Q : unit -> world FS -> Prop) w :
  w_states w !! st = Some s -> modes_ok r ->
  (forall s', modes s' = modes s -> Q tt (set_states (<[st := s']>) w)) -> wp (state_share_set_prev st r.1 r.2) Q w.
Proof.
  intros Hs [Ha Hd] HQ. unfold state_share_set_prev, shift_one, upd_st.
  assert ((0 <=? r.1) && (r.1 <? 31) = true) as -> by lia. assert ((0 <=? r.2) && (r.2 <? 31) = true) as -> by lia.
  apply wp_bind, wp_ret, wp_bind, wp_ret, wp_bind, (wp_deref (fun w => w_states w !! st) _ _ s Hs), wp_modify. by apply HQ.
Qed.

(** The reservation of state [st] is now [r], as its record says. *)
Lemma holds_put f A A0 R w w' st r s :
  coherent (values A ++ R) -> fits (values A ++ R) -> tally f (values A ++ R) w' ->
  (forall st' r', st' <> st -> A !! st' = Some r' -> A0 !! st' = Some r') -> holds f A0 R w ->
  A !! st = Some r -> modes s = r -> w_states w' = <[st := s]> (w_states w) -> holds f A R w'.
Proof.
  intros Hco Hfit HT HA H0 Hst Hm Hw. split; [done|done|done|]. intros st' r' Hr'. rewrite Hw.
  destruct (decide (st' = st)) as [->|Hne]; [rewrite lookup_insert_eq; exists s; split; [done|congruence]|].
  rewrite lookup_insert_ne by done. apply (hs_states _ _ _ _ H0). by apply HA.
Qed.

(** Nothing of it changed. *)
Lemma holds_same f A R w w' : holds f A R w -> tally f (values A ++ R) w' -> w_states w' = w_states w -> holds f A R w'.
Proof. intros [] HT Hst. split; [done|done|done|]. by rewrite Hst. Qed.

Lemma beside_states f w w' : beside f w w' -> w_states w' = w_states w.
Proof. by intros [[= _ -> _ _ _ _ _ _] _]. Qed.

(** The outcome of a call: the promised one, or an error of an FSAL with
    reservations of its own. *)
Definition refined (f : loc) (c : share_call) (r0 : rsv) (A : gmap loc rsv) (R : list rsv) w
    (status : state_status_t) w' : Prop :=
  (status = (abstract_share c r0 A R).1 /\ holds f (abstract_share c r0 A R).2 R w') \/
  (fsal_shares w = true /\ status <> STATE_SUCCESS /\ holds f A R w').

Lemma wp_share_add f st reclaim s A R w :
  holds f A R w -> w_states w !! st = Some s -> call_valid (call_add st reclaim) (modes s) A R ->
  wp (state_share_add f st reclaim) (refined f (call_add st reclaim) (modes s) A R w) w.
Proof.
  intros HH Hs (Hnew & Hmo & Hfit). unfold state_share_add.
  apply wp_bind, (wp_deref (fun w => w_states w !! st) _ _ s Hs). cbv zeta.
  apply wp_bind, (wp_check f (modes s) (values A ++ R)); [apply HH|apply HH|].
  destruct (existsb _ _) eqn:Hcl; simpl.
  { apply wp_ret. left. simpl. by rewrite Hcl. }
  apply wp_bind, (wp_update_share f (OPEN4_SHARE_ACCESS_NONE, OPEN4_SHARE_DENY_NONE) (modes s) (values A ++ R)).
  { unfold tally. rewrite counters_none. apply HH. }
  intros status w1 HB HT Hsup. pose proof (beside_states f w w1 HB) as Hst1. case_decide as Hstat.
  - subst status. rewrite decide_False by (by intros []). apply wp_bind, (wp_set_prev st s (modes s)); [by rewrite Hst1|done|].
    intros s' Hm'. apply wp_ret. left. simpl. rewrite Hcl. split; [done|]. cbn [snd].
    assert (HP : values (<[st := modes s]> A) ++ R ≡ₚ modes s :: values A ++ R) by (by rewrite values_insert).
    apply (holds_put f _ A R w _ st (modes s) s'); try done.
    + apply (coherent_perm (modes s :: values A ++ R)); [done|]. split; [by apply no_clash|apply HH].
    + unfold fits. by rewrite (Permutation_length HP).
    + by apply (tally_perm f (modes s :: values A ++ R)).
    + intros st' r' Hne. by rewrite lookup_insert_ne.
    + apply lookup_insert_eq.
    + simpl. by rewrite Hst1.
  - rewrite decide_True by done. apply wp_ret. right. split; [by destruct (fsal_shares w); [|destruct Hstat; auto]|].
    split; [done|]. apply (holds_same f A R w); [done| |done]. unfold tally in *. by rewrite counters_none in HT.
Qed.

(** The list of reservations with that of [st] first. *)
Lemma values_front st r0 A R : A !! st = Some r0 -> values A ++ R ≡ₚ r0 :: values (delete st A) ++ R.
Proof. intros Hst. by rewrite (values_delete st r0 A Hst). Qed.

(** The update of a reservation that is held. *)
Lemma wp_update_held f st r0 r' A R reclaim (Q : state_status_t -> world FS -> Prop) w :
  holds f A R w -> A !! st = Some r0 ->
  (forall w', beside f w w' -> tally f (r' :: values (delete st A) ++ R) w' -> Q STATE_SUCCESS w') ->
  (forall status w', fsal_shares w = true -> status <> STATE_SUCCESS -> holds f A R w' -> Q status w') ->
  wp (update_share f r0.1 r0.2 r'.1 r'.2 reclaim) Q w.
Proof.
  intros HH Hst Hok Hfail. pose proof (values_front st r0 A R Hst) as HP.
  apply (wp_update_share f r0 r' (values (delete st A) ++ R)); [by apply (tally_perm f _ _ w HP), HH|].
  intros status w' HB HT Hsup. case_decide as Hs; [subst status; by apply Hok|].
  apply Hfail; [by destruct (fsal_shares w); [|destruct Hs; auto]|done|].
  apply (holds_same f A R w); [done|by apply (tally_perm f (r0 :: values (delete st A) ++ R))|by apply (beside_states f)].
Qed.

(** ... and becomes the record of the state. *)
Lemma holds_update f st r0 r' A R w w' s :
  holds f A R w -> A !! st = Some r0 -> Forall (fun r => clashes r' r = false) (values (delete st A) ++ R) ->
  tally f (r' :: values (delete st A) ++ R) w' -> modes s = r' -> w_states w' = <[st := s]> (w_states w) ->
  holds f (<[st := r']> A) R w'.
Proof.
  intros HH Hst Hno HT Hm Hw. pose proof (values_front st r0 A R Hst) as HP.
  assert (HP' : values (<[st := r']> A) ++ R ≡ₚ r' :: values (delete st A) ++ R) by (by rewrite values_update).
  pose proof (coherent_perm _ _ HP (hs_coherent _ _ _ _ HH)) as [_ Hco].
  apply (holds_put f _ A R w _ st r' s); try done.
  - by apply (coherent_perm (r' :: values (delete st A) ++ R)).
  - pose proof (hs_fits _ _ _ _ HH) as Hfit. unfold fits in *. rewrite (Permutation_length HP) in Hfit. by rewrite (Permutation_length HP').
  - by apply (tally_perm f (r' :: values (delete st A) ++ R)).
  - intros st' r1 Hne. by rewrite lookup_insert_ne.
  - apply lookup_insert_eq.
Qed.

Lemma held_no_clash f st r0 A R w :
  holds f A R w -> A !! st = Some r0 -> Forall (fun r => clashes r0 r = false) (values (delete st A) ++ R).
Proof. intros HH Hst. by destruct (coherent_perm _ _ (values_front st r0 A R Hst) (hs_coherent _ _ _ _ HH)). Qed.

Lemma wp_share_remove f st s A R w :
  holds f A R w -> w_states w !! st = Some s -> A !! st = Some (modes s) ->
  wp (state_share_remove f st) (refined f (call_remove st) (modes s) A R w) w.
Proof.
  intros HH Hs Hst. unfold state_share_remove. apply wp_bind, (wp_deref (fun w => w_states w !! st) _ _ s Hs).
  apply wp_bind, (wp_update_held f st (modes s) (OPEN4_SHARE_ACCESS_NONE, OPEN4_SHARE_DENY_NONE) A R); [done|done|..].
  2: { intros status w' Hsup Hne HH'. rewrite decide_True by done. apply wp_ret. by right. }
  intros w1 HB HT. rewrite decide_False by (by intros []). unfold tally in HT. rewrite counters_none in HT.
  apply wp_bind, (wp_cache_op f (values (delete st A) ++ R)); [apply file_op_adjust|apply frame_adjust|done|].
  intros [] w2 HV2 HT2. apply wp_ret. left. split; [done|]. simpl.
  pose proof (values_front st (modes s) A R Hst) as HP.
  pose proof (coherent_perm _ _ HP (hs_coherent _ _ _ _ HH)) as [_ Hco]. split; [done|done|..].
  - pose proof (hs_fits _ _ _ _ HH) as Hfit. unfold fits in *. rewrite (Permutation_length HP) in Hfit. simpl in Hfit. lia.
  - intros st' r' [Hne Hr']%lookup_delete_Some. injection HV2 as _ _ Hst2 _ _ _ _ _ _.
    rewrite Hst2, (beside_states f w w1 HB). by apply (hs_states _ _ _ _ HH).
Qed.

Lemma wp_share_downgrade f st r s A R w :
  holds f A R w -> w_states w !! st = Some s -> A !! st = Some (modes s) -> within r (modes s) ->
  wp (state_share_downgrade f r.1 r.2 st) (refined f (call_downgrade st r) (modes s) A R w) w.
Proof.
  intros HH Hs Hst Hin. unfold state_share_downgrade. apply wp_bind, (wp_deref (fun w => w_states w !! st) _ _ s Hs).
  apply wp_bind, (wp_update_held f st (modes s) r A R); [done|done|..].
  2: { intros status w' Hsup Hne HH'. rewrite decide_True by done. apply wp_ret. by right. }
  intros w1 HB HT. rewrite decide_False by (by intros []). pose proof (beside_states f w w1 HB) as Hst1.
  apply wp_bind. unfold upd_st. apply wp_bind, (wp_deref (fun w => w_states w !! st) _ w1 s); [by rewrite Hst1|].
  apply wp_modify. set (s' := with_state_share _ s). set (w2 := set_states _ w1).
  assert (HT2 : tally f (r :: values (delete st A) ++ R) w2) by exact HT.
  assert (Hst2 : w_states w2 = <[st := s']> (w_states w)) by (simpl; by rewrite Hst1). clearbody w2.
  apply wp_bind, (wp_cache_op f (r :: values (delete st A) ++ R)); [apply file_op_adjust|apply frame_adjust|done|].
  intros [] w3 HV3 HT3. apply wp_ret. left. split; [done|]. simpl.
  apply (holds_update f st (modes s) r A R w w3 s'); try done.
  - eapply Forall_impl; [by eapply held_no_clash|]. intros r1. by apply clashes_within.
  - by destruct r.
  - injection HV3 as _ _ -> _ _ _ _ _ _. done.
Qed.

Lemma wp_share_upgrade f st r reclaim s A R w :
  holds f A R w -> w_states w !! st = Some s -> A !! st = Some (modes s) -> modes_ok r ->
  wp (state_share_upgrade f r.1 r.2 st reclaim) (refined f (call_upgrade st r reclaim) (modes s) A R w) w.
Proof.
  intros HH Hs Hst Hmo. unfold state_share_upgrade.
  apply wp_bind, (wp_check f r (values A ++ R)); [apply HH|apply HH|]. destruct (existsb _ _) eqn:Hcl.
  { rewrite decide_True by done. apply wp_ret. left. simpl. by rewrite Hcl. }
  rewrite decide_False by (by intros []). apply wp_bind, (wp_deref (fun w => w_states w !! st) _ _ s Hs). cbv zeta.
  apply wp_bind, (wp_update_held f st (modes s) (join r (modes s)) A R); [done|done|..].
  2: { intros status w' Hsup Hne HH'. rewrite decide_True by done. apply wp_ret. by right. }
  intros w1 HB HT. rewrite decide_False by (by intros []). pose proof (beside_states f w w1 HB) as Hst1.
  apply wp_bind. unfold upd_st. apply wp_bind, (wp_deref (fun w => w_states w !! st) _ w1 s); [by rewrite Hst1|].
  apply wp_modify. set (s' := with_state_share _ s). set (w2 := set_states _ w1).
  apply wp_bind, (wp_set_prev st s' r); [simpl; apply lookup_insert_eq|done|]. intros s2 Hm2. apply wp_ret. left. simpl.
  rewrite Hcl. split; [done|]. cbn [snd]. apply (holds_update f st (modes s) _ A R w _ s2); try done.
  - apply no_clash in Hcl. rewrite (values_front st (modes s) A R Hst) in Hcl. apply Forall_cons in Hcl as [_ Hcl].
    pose proof (held_no_clash f st (modes s) A R w HH Hst) as Hheld. rewrite Forall_forall in *.
    intros r1 Hr1. by apply clashes_join; [apply Hcl|apply Hheld].
  - simpl. by rewrite Hst1, insert_insert_eq.
Qed.

(** C28: opening, closing, upgrading and downgrading implement reservations: the
    counters of a file always are the numbers of its reservations with each mode,
    no two reservations deny each other's access, a call is refused exactly when
    its modes clash with a reservation on the file, and otherwise changes the
    reservation of its state only; an FSAL with reservations of its own can refuse
    a call, which then changes nothing. *)
Theorem share_calls_refine f c s A R w :
  holds f A R w -> w_states w !! state_of c = Some s -> call_valid c (modes s) A R ->
  wp (run_share f c) (refined f c (modes s) A R w) w.
Proof.
  intros HH Hs Hv. destruct c as [st reclaim|st|st r reclaim|st r]; simpl in *.
  - by apply wp_share_add.
  - by apply wp_share_remove.
  - by apply wp_share_upgrade; try apply Hv.
  - by apply wp_share_downgrade; try apply Hv.
Qed.
End opens.

(** * NLM shares as reservations *)

Section nlm_shares.
Context {FS : Type} `{!FsalOps FS} {env : OwnerEnv}.
Variable fds_hard_limit : Z.
Implicit Types w : world FS.

Abbreviation shares_on w f := (w_lists w (file_nlm_share_list f)).

Definition rsv_of (s : state_nlm_share_t) : rsv := (sns_access s, sns_deny s).
Definition nlm_rsv (m : gmap loc state_nlm_share_t) (a : loc) : rsv := from_option rsv_of (0, 0) (m !! a).
Definition nlm_rsvs f w : list rsv := nlm_rsv (w_nlm_shares w) <$> shares_on w f.

(** The counters of file [f] count its NLM shares and the reservations [O] of
    others, and none denies another. *)
Record nlm_held (f : loc) (O : list rsv) w : Prop := {
  nh_nodup : NoDup (shares_on w f);
  nh_live : forall a, a ∈ shares_on w f -> is_Some (w_nlm_shares w !! a);
  nh_addr : forall a, is_Some (w_nlm_shares w !! a) -> (a < w_next w)%positive;
  nh_tally : tally f (nlm_rsvs f w ++ O) w;
  nh_coherent : coherent (nlm_rsvs f w ++ O);
  nh_fits : fits (nlm_rsvs f w ++ O)
}.

(** A step that is not about the shares of [f]. *)
Lemma nlm_held_view f O w w' :
  nlm_held f O w -> share_view w' = share_view w -> nlm_held f O w'.
Proof.
  intros [] HV. pose proof (tally_view f _ w w' HV nh_tally0) as HT.
  injection HV as _ Hs _ Hl _ _ Hn _ _. split; unfold nlm_rsvs in *; rewrite ?Hs, ?Hl, ?Hn; done.
Qed.

(** Everything but the counters, the lists, the references and the shares. *)
Definition share_kept w := (w_states w, w_choices w, w_export w, w_fsal_export w).

(** A share is taken off the file. *)
Lemma wp_drop_nlm_share f a owner closefile R (Q : unit -> world FS -> Prop) w :
  tally f R w ->
  (forall w', tally f R w' -> shares_on w' f = glist_del a (shares_on w f) ->
     w_nlm_shares w' = delete a (w_nlm_shares w) -> w_next w' = w_next w -> share_kept w' = share_kept w -> Q tt w') ->
  wp (drop_nlm_share f a owner closefile) Q w.
Proof.
  intros HT HQ. unfold drop_nlm_share. do 2 apply wp_bind, wp_modify. apply wp_bind, wp_gets. set (w1 := set_lists _ _).
  assert (HT1 : tally f R w1) by exact HT.
  assert (Hl1 : shares_on w1 f = glist_del a (shares_on w f)) by done.
  assert (Hk1 : (w_nlm_shares w1, w_next w1, share_kept w1) = (w_nlm_shares w, w_next w, share_kept w)) by done.
  clearbody w1. apply wp_bind, (wp_cache_op f R); [apply file_op_when, file_op_dec_pin|apply preserves_when, frame_dec_pin|done|].
  intros [] w2 HV2 HT2. injection HV2 as _ Hs2 Hst2 Hl2 _ Hc2 Hn2 Hx2 Hfx2. unfold share_kept in *.
  injection Hk1 as Hs1 Hn1 Hst1 Hc1 Hx1 Hfx1. do 4 (apply wp_bind, wp_modify). apply wp_modify, HQ; [exact HT2|simpl; congruence..].
Qed.

(** A new share on its lists. *)
Lemma wp_link_nlm_share f a owner export R (Q : unit -> world FS -> Prop) w :
  tally f R w ->
  (forall w', tally f R w' -> shares_on w' f = shares_on w f ++ [a] ->
     w_nlm_shares w' = w_nlm_shares w -> w_next w' = w_next w -> share_kept w' = share_kept w -> Q tt w') ->
  wp (link_nlm_share f a owner export) Q w.
Proof.
  intros HT HQ. unfold link_nlm_share. do 5 apply wp_bind, wp_modify. apply wp_bind, wp_gets. set (w1 := set_lists _ _).
  assert (HT1 : tally f R w1) by exact HT.
  assert (Hl1 : shares_on w1 f = shares_on w f) by done.
  assert (Hk1 : (w_nlm_shares w1, w_next w1, share_kept w1) = (w_nlm_shares w, w_next w, share_kept w)) by done.
  clearbody w1. apply wp_bind, (wp_cache_op f R); [|..|done|].
  { apply file_op_when, file_op_bind; [apply file_op_inc_pin|intros _; apply file_op_ret]. }
  { apply preserves_when, preserves_bind; [apply frame_inc_pin|intros _; apply preserves_ret]. }
  intros [] w2 HV2 HT2. injection HV2 as _ Hs2 Hst2 Hl2 _ Hc2 Hn2 Hx2 Hfx2. unfold share_kept in *.
  injection Hk1 as Hs1 Hn1 Hst1 Hc1 Hx1 Hfx1. apply wp_bind, wp_modify, wp_modify, HQ; [exact HT2| |simpl; congruence..].
  simpl. rewrite list_update_ne, list_update_eq by done. unfold glist_add_tail. congruence.
Qed.

(** The reservations of the shares, one of them put first. *)
Lemma rsvs_front m a l : NoDup l -> a ∈ l -> nlm_rsv m <$> l ≡ₚ nlm_rsv m a :: (nlm_rsv m <$> glist_del a l).
Proof.
  intros Hnd Ha. change (nlm_rsv m a :: (nlm_rsv m <$> glist_del a l)) with (nlm_rsv m <$> (a :: glist_del a l)).
  apply fmap_Permutation. apply elem_of_Permutation in Ha as [l' HP]. rewrite HP in Hnd.
  apply NoDup_cons in Hnd as [Hno _]. rewrite HP at 1. constructor. symmetry.
  assert (HD : glist_del a l ≡ₚ glist_del a (a :: l')) by (unfold glist_del; by rewrite HP).
  rewrite HD. unfold glist_del. rewrite filter_cons_False by tauto. fold (glist_del a l'). by rewrite glist_del_notin.
Qed.

(** The shares and their reservations are those of [w]. *)
Definition same_shares f w w' : Prop := shares_on w' f = shares_on w f /\ w_nlm_shares w' = w_nlm_shares w.

Lemma nlm_held_same f O w w' :
  nlm_held f O w -> same_shares f w w' -> tally f (nlm_rsvs f w ++ O) w' -> (w_next w <= w_next w')%positive ->
  nlm_held f O w'.
Proof.
  intros [] [Hl Hs] HT Hn. split; unfold nlm_rsvs in *; rewrite ?Hs, ?Hl; try done.
  intros a Ha. specialize (nh_addr0 a Ha). lia.
Qed.

(** The answer to an NLM share: the share is on the file, and what it asks for
    clashed with nothing; or nothing changed.  [denied] is the error of the file: with
    it the request has that error; without, with memory and an FSAL without
    reservations, the request is granted when it clashes with nothing, and refused when
    it does. *)
Definition share_post f O access deny owner w (denied : option cache_inode_status_t) (status : state_status_t) w' : Prop :=
  let r := (access, deny) in
  nlm_held f O w' /\
  (if decide (status = STATE_SUCCESS) then
     existsb (clashes r) (nlm_rsvs f w ++ O) = false /\ exists x export, w_export w = Some export /\
       w_nlm_shares w !! x = None /\ shares_on w' f = shares_on w f ++ [x] /\
       w_nlm_shares w' = <[x := mk_nlm_share owner f export access deny]> (w_nlm_shares w)
   else same_shares f w w') /\
  match denied with
  | Some err => status = cache_inode_status_to_state_status err
  | None => memory_ok w -> fsal_shares w = false ->
      status = if existsb (clashes r) (nlm_rsvs f w ++ O) then STATE_STATE_CONFLICT else STATE_SUCCESS
  end.

(** The early exits. *)
Lemma wp_share_refused f O access deny owner w denied status w1 :
  nlm_held f O w -> nlm_held f O w1 -> same_shares f w w1 -> status <> STATE_SUCCESS ->
  match denied with
  | Some err => status = cache_inode_status_to_state_status err
  | None => memory_ok w -> fsal_shares w = false ->
      status = if existsb (clashes (access, deny)) (nlm_rsvs f w ++ O) then STATE_STATE_CONFLICT else STATE_SUCCESS
  end ->
  wp (unpin_close f status) (share_post f O access deny owner w denied) w1.
Proof.
  intros HN HN1 [Hl Hs] Hne Hwhy. unfold unpin_close.
  apply wp_bind, (wp_cache_op f (nlm_rsvs f w1 ++ O)); [apply file_op_dec_pin|apply frame_dec_pin|apply HN1|].
  intros [] w2 HV2 HT2. apply wp_ret. split; [by eapply (nlm_held_view f O w1)|]. rewrite decide_False by done.
  split; [|done]. injection HV2 as _ Hs2 _ Hl2 _ _ _ _ _. split; congruence.
Qed.

(** The reservations with that of a new share at the end of the list. *)
Lemma rsvs_new m x l O : (nlm_rsv m <$> l ++ [x]) ++ O ≡ₚ nlm_rsv m x :: (nlm_rsv m <$> l) ++ O.
Proof. rewrite fmap_app. simpl. by rewrite <- app_assoc, Permutation_middle. Qed.

Lemma nlm_rsv_insert_ne m x s (l : list loc) : x ∉ l -> nlm_rsv (<[x := s]> m) <$> l = nlm_rsv m <$> l.
Proof.
  intros Hx. apply list_fmap_ext. intros i a Ha%list_elem_of_lookup_2. unfold nlm_rsv. rewrite lookup_insert_ne; [done|].
  by intros ->.
Qed.

(** The new share joins those held. *)
Lemma nlm_held_new f O w w' x s :
  nlm_held f O w -> w_nlm_shares w !! x = None -> (x < w_next w')%positive -> (w_next w <= w_next w')%positive ->
  Forall (fun r => clashes (rsv_of s) r = false) (nlm_rsvs f w ++ O) -> fits (rsv_of s :: nlm_rsvs f w ++ O) ->
  shares_on w' f = shares_on w f ++ [x] -> w_nlm_shares w' = <[x := s]> (w_nlm_shares w) ->
  tally f (rsv_of s :: nlm_rsvs f w ++ O) w' -> nlm_held f O w'.
Proof.
  intros [] Hx Hlt Hle Hno Hfit Hl Hs HT.
  assert (Hnew : x ∉ shares_on w f) by (intros [? ?]%nh_live0; congruence).
  assert (HP : nlm_rsvs f w' ++ O ≡ₚ rsv_of s :: nlm_rsvs f w ++ O).
  { unfold nlm_rsvs. rewrite Hl, Hs, rsvs_new, nlm_rsv_insert_ne by done. unfold nlm_rsv at 1. by rewrite lookup_insert_eq. }
  split.
  - rewrite Hl. apply NoDup_app. split; [done|]. split; [|apply NoDup_singleton].
    by intros a Ha ->%list_elem_of_singleton.
  - rewrite Hl, Hs. intros a [Ha| ->%list_elem_of_singleton]%elem_of_app; [|by rewrite lookup_insert_eq].
    rewrite lookup_insert_is_Some. destruct (decide (x = a)); auto.
  - rewrite Hs. intros a [->|[_ Ha]]%lookup_insert_is_Some; [done|]. specialize (nh_addr0 a Ha). lia.
  - by eapply tally_perm.
  - by eapply coherent_perm; [symmetry; exact HP|].
  - unfold fits. by rewrite (Permutation_length HP).
Qed.

(** The share from its allocation on, the request having clashed with nothing. *)
Lemma wp_share_entered f O access deny owner export reclaim w w1 :
  nlm_held f O w -> w_export w = Some export -> fits ((access, deny) :: nlm_rsvs f w ++ O) ->
  existsb (clashes (access, deny)) (nlm_rsvs f w ++ O) = false ->
  tally f (nlm_rsvs f w ++ O) w1 -> same_shares f w w1 -> w_next w1 = w_next w -> w_export w1 = Some export ->
  w_fsal_export w1 = w_fsal_export w ->
  wp (nlm_share ← fresh;
      export ← ctx_export;
      modify (set_nlm_shares (<[nlm_share := mk_nlm_share owner f export access deny]>));;
      link_nlm_share f nlm_share owner export;;
      status ← update_share f OPEN4_SHARE_ACCESS_NONE OPEN4_SHARE_DENY_NONE access deny reclaim;
      when (bool_decide (status <> STATE_SUCCESS)) (drop_nlm_share f nlm_share owner true);;
      unpin_close f status) (share_post f O access deny owner w None) w1.
Proof.
  intros HN Hx Hfit Hcl HT [Hl Hs] Hn Hx1 Hfx. apply wp_bind. unfold fresh, wp at 1. set (x := w_next w1).
  set (w2 := set_next _ w1). set (s := mk_nlm_share owner f export access deny). pose proof (nh_addr _ _ _ HN) as Haddr.
  assert (Hnew : w_nlm_shares w !! x = None).
  { apply eq_None_not_Some. intros Hsome%Haddr. subst x. lia. }
  assert (Hnl : x ∉ shares_on w f) by (intros [? ?]%(nh_live _ _ _ HN); congruence).
  assert (Hn2 : w_next w2 = Pos.succ x) by done.
  apply wp_bind, (wp_ctx_export export); [done|]. apply wp_bind, wp_modify. fold s. set (w3 := set_nlm_shares _ w2).
  assert (HT3 : tally f (nlm_rsvs f w ++ O) w3) by exact HT.
  assert (Hl3 : shares_on w3 f = shares_on w f) by exact Hl.
  assert (Hs3 : w_nlm_shares w3 = <[x := s]> (w_nlm_shares w)) by (simpl; by rewrite Hs).
  assert (Hk3 : fsal_shares w3 = fsal_shares w) by (unfold fsal_shares; simpl; by rewrite Hfx).
  assert (Hn3 : w_next w3 = Pos.succ x) by exact Hn2. clearbody w3.
  apply wp_bind, (wp_link_nlm_share f x owner export (nlm_rsvs f w ++ O)); [done|]. intros w4 HT4 Hl4 Hs4 Hn4 Hk4.
  apply wp_bind, (wp_update_share f (OPEN4_SHARE_ACCESS_NONE, OPEN4_SHARE_DENY_NONE) (access, deny) (nlm_rsvs f w ++ O));
    [unfold tally; by rewrite counters_none|].
  intros status w5 HB HT5 Hsup. assert (Hf4 : fsal_shares w4 = fsal_shares w).
  { rewrite <- Hk3. unfold fsal_shares. by injection Hk4 as _ _ _ ->. }
  destruct HB as [[= Hs5 _ Hl5 _ _ Hn5 _ _] _]. case_decide as Hst.
  - subst status. rewrite bool_decide_eq_false_2 by (by intros []). apply wp_bind, wp_ret.
    assert (HN5 : nlm_held f O w5).
    { apply (nlm_held_new f O w w5 x s); try done; try congruence; [rewrite Hn5, Hn4, Hn3; lia|subst x; rewrite Hn5, Hn4, Hn3, Hn; lia|by apply no_clash]. }
    unfold unpin_close. apply wp_bind, (wp_cache_op f (nlm_rsvs f w5 ++ O)); [apply file_op_dec_pin|apply frame_dec_pin|apply HN5|].
    intros [] w6 HV6 HT6. apply wp_ret. split; [by eapply (nlm_held_view f O w5)|]. rewrite decide_True by done.
    injection HV6 as _ Hs6 _ Hl6 _ _ _ _ _. split; [|by rewrite Hcl]. split; [done|]. exists x, export. split_and!; [congruence..|]. fold s. congruence.
  - rewrite bool_decide_eq_true_2 by done. unfold tally in HT5. rewrite counters_none in HT5.
    apply wp_bind, (wp_drop_nlm_share f x owner true (nlm_rsvs f w ++ O)); [exact HT5|]. intros w6 HT6 Hl6 Hs6 Hn6 _.
    assert (Hsame : same_shares f w w6).
    { split; [rewrite Hl6, Hl5, Hl4, Hl3; by rewrite glist_del_middle, app_nil_r; [|apply NoDup_app; split_and!; [apply HN|by intros a Ha ->%list_elem_of_singleton|apply NoDup_singleton]]|]. rewrite Hs6, Hs5, Hs4, Hs3. by apply delete_insert_id. }
    apply wp_share_refused; try done; [|simpl; intros _ Hf; destruct Hst; apply Hsup; congruence].
    apply (nlm_held_same f O w); try done. rewrite Hn6, Hn5, Hn4, Hn3. lia.
Qed.

(** The mode in which the file of a share is opened. *)
Definition share_openflags (access : Z) (reclaim : bool) w : Z :=
  let openflags := if (access =? fsa_R) && fs_supports (w_fsal_export w) fso_reopen_method
                   then FSAL_O_READ else FSAL_O_RDWR in
  if reclaim then Z.lor openflags FSAL_O_RECLAIM else openflags.

Lemma wp_open_share f R fl flags (Q : cache_inode_status_t -> world FS -> Prop) w :
  tally f R w -> (forall w', share_view w' = share_view w -> tally f R w' ->
    Q (default CACHE_INODE_SUCCESS (open_error fds_hard_limit f fl w)) w') ->
  wp (cache_inode_open fds_hard_limit f fl flags) Q w.
Proof.
  intros HT HQ. destruct (tally_file f R w HT) as (ce & Hf & _).
  eapply wp_mono; [|apply wp_and; [apply wp_open_exact; by eexists|]].
  2: { apply (wp_cache_op f R _ (fun _ w' => share_view w' = share_view w /\ tally f R w'));
         [apply file_op_open|apply frame_open|done|done]. }
  intros st w' [-> [? ?]]. by apply HQ.
Qed.

(** The cached file is opened and closed on the way. *)
Lemma wp_state_nlm_share f O access deny owner export reclaim w :
  nlm_held f O w -> w_export w = Some export -> fits ((access, deny) :: nlm_rsvs f w ++ O) ->
  wp (state_nlm_share fds_hard_limit f access deny owner reclaim)
    (share_post f O access deny owner w (access_error fds_hard_limit f (share_openflags access reclaim w) w)) w.
Proof.
  intros HN Hx Hfit. unfold state_nlm_share. set (R := nlm_rsvs f w ++ O) in *.
  destruct (tally_file f R w (nh_tally _ _ _ HN)) as (ce & Hf & _).
  assert (HS : forall w', share_view w' = share_view w -> nlm_held f O w' /\ same_shares f w w').
  { intros w' HV. split; [by eapply (nlm_held_view f O w)|]. injection HV as _ Hs _ Hl _ _ _ _ _. split; congruence. }
  apply wp_bind. eapply wp_mono; [|apply wp_and; [apply (wp_pin f ce (fun pinned w1 =>
    (pinned = CACHE_INODE_DEAD_ENTRY /\ access_error fds_hard_limit f (share_openflags access reclaim w) w = Some CACHE_INODE_DEAD_ENTRY) \/
    (pinned = CACHE_INODE_SUCCESS /\ w_fsal_export w1 = w_fsal_export w /\
     forall fl, access_error fds_hard_limit f fl w = open_error fds_hard_limit f fl w1))); [done|..]|]].
  2: { intros Hq. left. split; [done|]. by apply (dead_access fds_hard_limit f _ ce w). }
  2: { intros w1 ce1 Hq Hf1 Ht1 _ Hp1 Ho1. right. split; [done|]. split; [by injection Hp1|].
       intros fl. by apply (pinned_access fds_hard_limit f fl ce ce1 w w1). }
  2: { apply (wp_cache_op f R _ (fun _ w1 => share_view w1 = share_view w /\ tally f R w1));
         [apply file_op_inc_pin|apply frame_inc_pin|apply HN|done]. }
  intros pinned w1 [[[-> ->]|(-> & Hfe & Hacc)] [HV1 HT1]].
  { rewrite decide_True by done. apply wp_ret. destruct (HS w1 HV1) as [HN1 Hsame]. split; [done|]. by rewrite decide_False. }
  rewrite decide_False by (by intros []). unfold supports. apply wp_bind, wp_bind, wp_gets, wp_ret. cbv zeta. rewrite Hfe.
  fold (share_openflags access reclaim w). rewrite Hacc. clear Hacc.
  apply wp_bind, (wp_open_share f R); [done|]. intros w2 HV2 HT2.
  pose proof (open_error_failed fds_hard_limit f (share_openflags access reclaim w) w1) as Herr.
  assert (HV : share_view w2 = share_view w) by congruence. destruct (HS w2 HV) as [HN2 Hsame].
  destruct (open_error _ _ _ w1) as [err|]; cbn [default].
  { specialize (Herr err eq_refl). rewrite decide_True by done.
    apply wp_share_refused; [done|done|done|by apply cache_inode_status_to_state_status_err|done]. }
  rewrite decide_False by (by intros []).
  apply wp_bind, (wp_check f (access, deny) R); [done|apply HN|]. destruct (existsb _ R) eqn:Hcl.
  { rewrite decide_True by done. apply wp_share_refused; try done. intros _ _. fold R. by rewrite Hcl. }
  rewrite decide_False by (by intros []). apply wp_bind, wp_choose.
  injection HV as _ _ _ _ _ Hch Hn Hex Hfx. destruct (head (w_choices w2)) as [[]|] eqn:Hh; simpl.
  1, 3: apply wp_share_entered with export; try done; simpl; congruence.
  apply wp_share_refused; try done.
  { apply (nlm_held_same f O w); [done|done|exact HT2|simpl; rewrite Hn; lia]. }
  intros Hm. unfold memory_ok in Hm. rewrite Hch in Hh. destruct (w_choices w); [done|]. injection Hh as ->.
  by apply Forall_cons in Hm as [? _].
Qed.

Section unshare.
Variables (f : loc) (O : list rsv) (access deny : Z) (owner : loc) (w : world FS).

(** The shares that the request is about. *)
Definition taken (a : loc) : Prop :=
  from_option (unshares owner (w_export w) access deny) false (w_nlm_shares w !! a) = true.
#[local] Instance taken_dec a : Decision (taken a).
Proof. unfold taken. apply _. Defined.

(** Of the shares [gone ++ todo] on the file, those of [gone] have been dealt with. *)
Record unshared (gone todo : list loc) w' : Prop := {
  us_held : nlm_held f O w';
  us_all : shares_on w f = gone ++ todo;
  us_list : shares_on w' f = filter (fun a => ~ taken a) gone ++ todo;
  us_mem : forall a, w_nlm_shares w' !! a = if decide (a ∈ gone /\ taken a) then None else w_nlm_shares w !! a;
  us_ctx : w_export w' = w_export w /\ w_fsal_export w' = w_fsal_export w
}.

(** All shares that match are taken and nothing else; an FSAL that refuses stops
    the work at that share. *)
Definition unshare_post (status : state_status_t) w' : Prop :=
  (exists gone todo, unshared gone todo w' /\ (status = STATE_SUCCESS -> todo = [])) /\
  (fsal_shares w = false ->
     status = if decide (ce_qid <$> w_files w !! f = Some LRU_ENTRY_CLEANUP) then STATE_DEAD_ENTRY else STATE_SUCCESS).

Lemma unshared_view gone todo w1 w2 :
  unshared gone todo w1 -> share_view w2 = share_view w1 -> unshared gone todo w2.
Proof.
  intros [] HV. pose proof (nlm_held_view f O w1 w2 us_held0 HV). injection HV as _ Hs _ Hl _ _ _ Hx Hfx.
  split; try done; rewrite ?Hl, ?Hs, ?Hx, ?Hfx; done.
Qed.

Lemma unshared_keep gone a todo w1 : unshared gone (a :: todo) w1 -> ~ taken a -> unshared (gone ++ [a]) todo w1.
Proof.
  intros [] Ha. split; [done|by rewrite <- app_assoc| |intros b; rewrite us_mem0|done].
  - by rewrite us_list0, filter_app, filter_cons_True, filter_nil, <- app_assoc.
  - apply decide_ext. rewrite elem_of_app, list_elem_of_singleton. clear - Ha. split; [tauto|].
    by intros [[?| ->] ?].
Qed.

(** The next share is as it was. *)
Lemma unshared_next gone a todo w1 s :
  unshared gone (a :: todo) w1 -> NoDup (shares_on w f) -> w_nlm_shares w1 !! a = Some s -> w_nlm_shares w !! a = Some s.
Proof.
  intros [] Hnd. rewrite us_mem0, decide_False; [done|]. intros [Ha _]. rewrite us_all0 in Hnd.
  apply NoDup_app in Hnd as (_ & Hdis & _). apply (Hdis a Ha). left.
Qed.
End unshare.

(** One of the shares goes. *)
Lemma nlm_held_drop f O w w' a :
  nlm_held f O w -> a ∈ shares_on w f -> shares_on w' f = glist_del a (shares_on w f) ->
  w_nlm_shares w' = delete a (w_nlm_shares w) -> w_next w' = w_next w ->
  tally f ((nlm_rsv (w_nlm_shares w) <$> glist_del a (shares_on w f)) ++ O) w' -> nlm_held f O w'.
Proof.
  intros [] Ha Hl Hs Hn HT. pose proof (rsvs_front (w_nlm_shares w) a (shares_on w f) nh_nodup0 Ha) as HP.
  assert (Hr : nlm_rsvs f w' = nlm_rsv (w_nlm_shares w) <$> glist_del a (shares_on w f)).
  { unfold nlm_rsvs. rewrite Hl, Hs. apply list_fmap_ext. intros i b Hb%list_elem_of_lookup_2.
    apply elem_of_glist_del in Hb as [Hne _]. unfold nlm_rsv. by rewrite lookup_delete_ne. }
  assert (HPO : nlm_rsvs f w ++ O ≡ₚ nlm_rsv (w_nlm_shares w) a :: nlm_rsvs f w' ++ O) by (unfold nlm_rsvs at 1; by rewrite HP, Hr).
  split.
  - rewrite Hl. by apply glist_del_nodup.
  - rewrite Hl, Hs. intros b [Hne Hb]%elem_of_glist_del. rewrite lookup_delete_ne by done. auto.
  - rewrite Hs, Hn. intros b [? [_ Hb]%lookup_delete_Some]. apply nh_addr0. by eexists.
  - by rewrite Hr.
  - by destruct (coherent_perm _ _ HPO nh_coherent0).
  - unfold fits in *. rewrite (Permutation_length HPO) in nh_fits0. simpl in nh_fits0. lia.
Qed.

(** One round of the loop, at a share that is taken. *)
Lemma unshared_take f O access deny owner w w1 w2 gone a todo :
  unshared f O access deny owner w gone (a :: todo) w1 -> taken access deny owner w a ->
  nlm_held f O w2 -> shares_on w2 f = glist_del a (shares_on w1 f) -> w_nlm_shares w2 = delete a (w_nlm_shares w1) ->
  w_export w2 = w_export w1 -> w_fsal_export w2 = w_fsal_export w1 ->
  unshared f O access deny owner w (gone ++ [a]) todo w2.
Proof.
  intros [] Ha HN Hl Hs Hx Hfx. pose proof (nh_nodup _ _ _ us_held0) as Hnd. rewrite us_list0 in Hnd, Hl.
  split; [done|by rewrite <- app_assoc| | |by rewrite Hx, Hfx].
  - rewrite Hl, glist_del_middle, filter_app, filter_cons_False, filter_nil, app_nil_r by (done || tauto). done.
  - intros b. rewrite Hs. destruct (decide (b = a)) as [->|Hne].
    + rewrite lookup_delete_eq, decide_True; [done|]. rewrite elem_of_app, list_elem_of_singleton. tauto.
    + rewrite lookup_delete_ne, us_mem0 by done. apply decide_ext. rewrite elem_of_app, list_elem_of_singleton. tauto.
Qed.

Lemma wp_unshare_round f O access deny owner w n gone a todo w1 (P : state_status_t -> world FS -> Prop) :
  let U := unshared f O access deny owner w in
  NoDup (shares_on w f) -> U gone (a :: todo) w1 -> (length todo <= n)%nat ->
  (forall status w', status <> STATE_SUCCESS -> fsal_shares w = true -> U gone (a :: todo) w' -> P status w') ->
  wp (s ← get_nlm_share a;
      export ← gets w_export;
      if negb (unshares owner export access deny s) then mret (true, STATE_SUCCESS)
      else
        status ← update_share f (sns_access s) (sns_deny s) OPEN4_SHARE_ACCESS_NONE OPEN4_SHARE_DENY_NONE false;
        if decide (status <> STATE_SUCCESS) then mret (false, status)
        else drop_nlm_share f a owner true;; mret (true, status))
     (fun r w' => if r.1 : bool then exists gone' todo', U gone' todo' w' /\ succ_of a (shares_on w1 f) = head todo' /\
                    (length todo' <= n)%nat /\ r.2 = STATE_SUCCESS
                  else P r.2 w') w1.
Proof.
  intros U Hnd HU Hn HP. pose proof (us_held _ _ _ _ _ _ _ _ _ HU) as HN. pose proof (us_list _ _ _ _ _ _ _ _ _ HU) as Hl.
  pose proof (nh_nodup _ _ _ HN) as Hnd1. assert (Ha : a ∈ shares_on w1 f) by (rewrite Hl, elem_of_app, elem_of_cons; tauto).
  assert (Hsucc : succ_of a (shares_on w1 f) = head todo) by (rewrite Hl in Hnd1 |- *; by apply succ_of_app).
  destruct (nh_live _ _ _ HN a Ha) as [s Hs]. pose proof (unshared_next _ _ _ _ _ _ _ _ _ _ _ HU Hnd Hs) as Hs0.
  apply wp_bind, (wp_deref (fun w => w_nlm_shares w !! a) _ _ s Hs), wp_bind, wp_gets.
  destruct (us_ctx _ _ _ _ _ _ _ _ _ HU) as [Hx Hfx]. rewrite Hx.
  assert (Ht : taken access deny owner w a <-> unshares owner (w_export w) access deny s = true)
    by (unfold taken; by rewrite Hs0).
  destruct (unshares _ _ _ _ s) eqn:Hm; simpl.
  2: { apply wp_ret. exists (gone ++ [a]), todo. split_and!; try done. apply unshared_keep; [done|]. by rewrite Ht. }
  set (R := (nlm_rsv (w_nlm_shares w1) <$> glist_del a (shares_on w1 f)) ++ O).
  assert (HPR : nlm_rsvs f w1 ++ O ≡ₚ rsv_of s :: R).
  { unfold nlm_rsvs, R. rewrite (rsvs_front _ a _ Hnd1 Ha). unfold nlm_rsv at 1. by rewrite Hs. }
  apply wp_bind, (wp_update_share f (rsv_of s) (OPEN4_SHARE_ACCESS_NONE, OPEN4_SHARE_DENY_NONE) R);
    [by apply (tally_perm f _ _ w1 HPR), HN|].
  intros status w2 HB HT Hsup. pose proof HB as [[= Hs2 _ Hl2 _ _ Hn2 Hx2 Hfx2] _]. case_decide as Hst.
  - subst status. rewrite decide_False by (by intros []). unfold tally in HT. rewrite counters_none in HT.
    apply wp_bind, (wp_drop_nlm_share f a owner true R); [exact HT|]. intros w3 HT3 Hl3 Hs3 Hn3 [= _ _ Hx3 Hfx3].
    apply wp_ret. exists (gone ++ [a]), todo. split_and!; try done.
    apply (unshared_take f O access deny owner w w1); try congruence; try done; [by apply Ht|].
    apply (nlm_held_drop f O w1 w3 a); try done; congruence.
  - rewrite decide_True by done. apply wp_ret, HP; [done| |].
    + destruct (fsal_shares w) eqn:Hf; [done|]. destruct Hst. apply Hsup. unfold fsal_shares in *. by rewrite Hfx.
    + assert (HT' : tally f (nlm_rsvs f w1 ++ O) w2) by (by eapply tally_perm).
      destruct HU. split; rewrite ?Hl2, ?Hs2, ?Hx2, ?Hfx2; try done.
      apply (nlm_held_same f O w1); [done|split; congruence|done|rewrite Hn2; lia].
Qed.

Lemma wp_state_nlm_unshare f O access deny owner w :
  nlm_held f O w ->
  wp (state_nlm_unshare f access deny owner) (unshare_post f O access deny owner w) w.
Proof.
  intros HN. unfold state_nlm_unshare. set (U := unshared f O access deny owner w).
  assert (HU : U [] (shares_on w f) w).
  { by split. }
  destruct (tally_file f _ w (nh_tally _ _ _ HN)) as (ce & Hf & _). unfold unshare_post. rewrite Hf. simpl.
  apply wp_bind. eapply wp_mono; [|apply wp_and; [apply (wp_pin f ce (fun pinned _ =>
    pinned = if decide (Some (ce_qid ce) = Some LRU_ENTRY_CLEANUP) then CACHE_INODE_DEAD_ENTRY else CACHE_INODE_SUCCESS)); [done|..]|]].
  2: { intros Hq. by rewrite decide_True by congruence. }
  2: { intros w1 ce1 Hq _ _ _ _ _. by rewrite decide_False by congruence. }
  2: { apply (wp_cache_op f (nlm_rsvs f w ++ O) _ (fun _ w1 => share_view w1 = share_view w));
         [apply file_op_inc_pin|apply frame_inc_pin|apply HN|done]. }
  intros pinned w1 [-> HV1]. pose proof (unshared_view f O access deny owner w _ _ w w1 HU HV1) as HU1.
  destruct (decide (Some (ce_qid ce) = Some LRU_ENTRY_CLEANUP)) as [Hq|Hq].
  { rewrite decide_True by done. apply wp_ret. split; [|done]. by exists [], (shares_on w f). }
  rewrite decide_False by (by intros []).
  apply wp_bind. unfold glist_for_each_safe. apply wp_bind, wp_gets.
  set (P := fun status w' => (exists gone todo, U gone todo w' /\ (status = STATE_SUCCESS -> todo = [])) /\
              (fsal_shares w = false -> status = STATE_SUCCESS)).
  apply wp_mono with P.
  { intros status w2 [(gone & todo & HU2 & Hs) Hfs]. unfold unpin_close. pose proof (us_held _ _ _ _ _ _ _ _ _ HU2) as HN2.
    apply wp_bind, (wp_cache_op f (nlm_rsvs f w2 ++ O)); [apply file_op_dec_pin|apply frame_dec_pin|apply HN2|].
    intros [] w3 HV3 _. apply wp_ret. split; [|by auto]. exists gone, todo. split; [by eapply unshared_view|done]. }
  assert (Hl1 : shares_on w1 f = shares_on w f) by (by injection HV1 as _ _ _ -> _ _ _ _ _).
  apply (wp_for_each_safe (fun n node status w' => exists gone todo, U gone todo w' /\ node = head todo /\
    (length todo <= n)%nat /\ status = STATE_SUCCESS)) with (n := length (shares_on w f)); [| |simpl; rewrite Hl1; lia|].
  - intros n status w' (gone & [|] & HU' & Hhd & _ & ->); [|done]. split; [by exists gone, []|done].
  - intros n a status w' (gone & [|a' todo] & HU' & Hhd & Hn & ->); [done|]. injection Hhd as <-.
    destruct n as [|n]; [simpl in Hn; lia|]. exists n. split; [done|]. simpl in Hn.
    apply (wp_unshare_round f O access deny owner w n gone a todo w' P); try done; [apply HN|lia|].
    intros status w2 Hne Hfs HU2. split; [by exists gone, (a :: todo)|congruence].
  - exists [], (shares_on w f). by rewrite Hl1.
Qed.
End nlm_shares.
