(* ===== verification/Release.v ===== *)
(** Releasing everything of an owner or an export (SAL/state_lock.c, SAL/state_share.c),
    and the references on cache entries that these loops take for each call and give
    back (cache_inode/cache_inode_lru.c).

    The last reference of an entry that is being destroyed takes its locks and shares
    with it.  The states that NFSv4 opens have on the entry, the places where exports
    point to it and the FSAL's own data are not modelled. *)

From S2P Require Import Prelude Status World Owner CacheEntry LockList LockHeap LockOps LockRequest Share.

Section release.
Context {FS : Type} `{!FsalOps FS} {env : OwnerEnv} {lenv : LockEnv}.
Abbreviation M := (M (world FS)).

(** * References on cache entries *)

(** An extra reference ([LRU_FLAG_NONE]) does not move the entry in its queue. *)
Definition cache_inode_lru_ref (entry : loc) : M unit := upd_file entry (with_refcnt (fun n => n + 1)).

Definition state_wipe_file (entry : loc) : M unit :=
  e ← get_file entry;
  if decide (ce_type e <> REGULAR_FILE) then mret tt
  else state_lock_wipe entry;; state_share_wipe entry.

Definition cache_inode_lru_clean (entry : loc) : M unit :=
  opened ← is_open entry;
  when opened (cache_inode_close entry (Z.lor CACHE_INODE_FLAG_REALLYCLOSE CACHE_INODE_FLAG_NOT_PINNED);; mret tt).

Definition cache_inode_lru_unref (entry : loc) : M unit :=
  upd_file entry (with_refcnt (fun n => n - 1));;
  e ← get_file entry;
  when (ce_refcnt e =? 0) (
    when (bool_decide (ce_qid e = LRU_ENTRY_CLEANUP)) (state_wipe_file entry);;
    cache_inode_lru_clean entry;;
    modify (set_files (delete entry))).

Definition cache_inode_put (entry : loc) : M unit := cache_inode_lru_unref entry.

(** * The loops *)

Definition STATE_ERR_MAX : Z := 100.

(** The range of the whole file; the code leaves the other fields alone. *)
Definition whole_file : fsal_lock_param_t := mk_lock_param FSAL_POSIX_LOCK FSAL_LOCK_R 0 0 false.

(** A reference that keeps the entry while its list is not locked. *)
Definition rotate (h : list_head) (k : glist_link) (a : loc) : M unit :=
  lock_entry_inc_ref a;; unlink k a;; add_tail h a;; lock_entry_dec_ref a.

Fixpoint owner_unlock_loop (fuel : nat) (owner : loc) (state : option loc) (errcnt : Z)
    (status : state_status_t) : M state_status_t :=
  if STATE_ERR_MAX <=? errcnt then mret status
  else
    match fuel with
    | O => stuck
    | S fuel =>
        l ← list_of (so_lock_list owner);
        match head l with
        | None => mret status
        | Some a =>
            found ← get_lock a;
            if bool_decide (sle_state found <> state) then mret status
            else
              rotate (so_lock_list owner) sle_owner_locks a;;
              modify (set_export (fun _ => Some (sle_export found)));;
              modify (set_fsal_export (fun _ => exp_fsal_export (sle_export found)));;
              cache_inode_lru_ref (sle_entry found);;
              status ← state_unlock (sle_entry found) owner state whole_file POSIX_LOCK;
              cache_inode_lru_unref (sle_entry found);;
              owner_unlock_loop fuel owner state
                (if state_unlock_err_ok status then errcnt else errcnt + 1) status
        end
    end.

Definition state_owner_unlock_all (fuel : nat) (owner : loc) (state : option loc) : M state_status_t :=
  saved_export ← gets w_export;
  status ← owner_unlock_loop fuel owner state 0 STATE_SUCCESS;
  modify (set_export (fun _ => saved_export));;
  match saved_export with
  | Some e => modify (set_fsal_export (fun _ => exp_fsal_export e))
  | None => mret tt
  end;;
  mret status.

Fixpoint export_unlock_loop (fuel : nat) (export : loc) (errcnt : Z) : M unit :=
  if STATE_ERR_MAX <=? errcnt then mret tt
  else
    match fuel with
    | O => stuck
    | S fuel =>
        l ← list_of (exp_lock_list export);
        match head l with
        | None => mret tt
        | Some a =>
            found ← get_lock a;
            rotate (exp_lock_list export) sle_export_locks a;;
            match sle_owner found with
            | None => undef
            | Some owner =>
                cache_inode_lru_ref (sle_entry found);;
                status ← state_unlock (sle_entry found) owner (sle_state found) whole_file (sle_type found);
                cache_inode_put (sle_entry found);;
                export_unlock_loop fuel export
                  (if state_unlock_err_ok status then errcnt else errcnt + 1)
            end
        end
    end.

Definition state_export_unlock_all (fuel : nat) : M unit :=
  export ← ctx_export; export_unlock_loop fuel export 0.

Fixpoint export_unshare_loop (fuel : nat) (export : loc) (errcnt : Z) : M unit :=
  if STATE_ERR_MAX <=? errcnt then mret tt
  else
    match fuel with
    | O => stuck
    | S fuel =>
        l ← list_of (exp_nlm_share_list export);
        match head l with
        | None => mret tt
        | Some a =>
            s ← get_nlm_share a;
            ref_add (so_refcount (sns_owner s)) 1;;
            cache_inode_lru_ref (sns_entry s);;
            status ← state_nlm_unshare (sns_entry s) OPEN4_SHARE_ACCESS_NONE OPEN4_SHARE_DENY_NONE
                       (sns_owner s);
            ref_add (so_refcount (sns_owner s)) (-1);;
            cache_inode_put (sns_entry s);;
            export_unshare_loop fuel export (if state_unlock_err_ok status then errcnt else errcnt + 1)
        end
    end.

Definition state_export_unshare_all (fuel : nat) : M unit :=
  export ← ctx_export; export_unshare_loop fuel export 0.
End release.

(** * Dead cache entries *)

Section dead_entries.
Context {FS : Type} `{!FsalOps FS} {env : OwnerEnv} {lenv : LockEnv}.
Implicit Types w : world FS.

(** The owner has locks under the state, all of them on files whose cache entries
    are being destroyed but still have a reference. *)
Definition all_dead (owner : loc) (state : option loc) w : Prop :=
  w_lists w (so_lock_list owner) <> [] /\
  forall a, a ∈ w_lists w (so_lock_list owner) -> exists e ce,
    w_locks w !! a = Some e /\ sle_state e = state /\ 1 <= sle_ref_count e /\
    w_files w !! sle_entry e = Some ce /\ ce_qid ce = LRU_ENTRY_CLEANUP /\ 1 <= ce_refcnt ce.

Lemma unlock_dead w f owner state lock ty ce :
  w_files w !! f = Some ce -> ce_qid ce = LRU_ENTRY_CLEANUP ->
  state_unlock f owner state lock ty w = Ret STATE_DEAD_ENTRY w.
Proof.
  intros Hf Hq. unfold state_unlock, cache_inode_inc_pin_ref, get_file, deref, mbind, M_bind. rewrite Hf.
  by rewrite decide_True.
Qed.

Lemma rotate_dead owner state a w :
  all_dead owner state w -> a ∈ w_lists w (so_lock_list owner) ->
  wp (rotate (so_lock_list owner) sle_owner_locks a) (fun _ w' => all_dead owner state w' /\ w_files w' = w_files w) w.
Proof.
  intros [Hne Hall] Ha. destruct (Hall a Ha) as (e & ce & He & Hst & Href & Hf & Hq & Hr).
  unfold rotate, lock_entry_inc_ref, lock_entry_dec_ref.
  apply wp_bind, (wp_upd_lock _ _ e); [done|]. do 2 apply wp_bind, wp_modify. set (w1 := set_lists _ _).
  set (e1 := with_ref_count (fun n => n + 1) e).
  assert (He1 : w_locks w1 !! a = Some e1) by (simpl; apply lookup_insert_eq).
  apply wp_bind, (wp_upd_lock _ _ e1); [done|]. set (e2 := with_ref_count _ e1). set (w2 := set_locks _ w1).
  assert (He2 : w_locks w2 !! a = Some e2) by (simpl; apply lookup_insert_eq).
  apply wp_bind, (wp_deref (fun w => w_locks w !! a) _ w2 e2 He2).
  destruct (sle_ref_count e2 =? 0) eqn:E; [simpl in E; lia|]. apply wp_ret.
  assert (Hl : w_lists w2 (so_lock_list owner) = glist_del a (w_lists w (so_lock_list owner)) ++ [a]).
  { simpl. unfold list_update. by rewrite !decide_True. }
  split; [|done]. split; [rewrite Hl; by destruct (glist_del _ _)|]. intros a' Ha'. destruct (decide (a' = a)) as [->|Hn].
  - exists e2, ce. split_and!; try done. simpl. lia.
  - rewrite Hl, elem_of_app, elem_of_glist_del, list_elem_of_singleton in Ha'. destruct Ha' as [[_ Ha']|?]; [|done].
    destruct (Hall a' Ha') as (e' & ce' & ? & ?). exists e', ce'. simpl. by rewrite !lookup_insert_ne.
Qed.

(** A reference that is taken and given back leaves the others. *)
Lemma ref_dead owner state f ce w :
  all_dead owner state w -> w_files w !! f = Some ce -> 1 <= ce_refcnt ce ->
  let w1 := set_files <[f := with_refcnt (fun n => n + 1) ce]> w in
  cache_inode_lru_ref f w = Ret tt w1 /\
  exists w2, cache_inode_lru_unref f w1 = Ret tt w2 /\ all_dead owner state w2.
Proof.
  intros [Hne Hall] Hf Hr w1. unfold cache_inode_lru_ref, cache_inode_lru_unref, upd_file, get_file, deref, modify, mbind, M_bind.
  rewrite Hf. split; [done|]. simpl. rewrite lookup_insert_eq. simpl. rewrite lookup_insert_eq. simpl.
  rewrite (proj2 (Z.eqb_neq _ _)) by lia. eexists. split; [done|]. split; [done|]. intros a Ha.
  destruct (Hall a Ha) as (e & ce' & He & Hst & Href & Hf' & Hq & Hr'). destruct (decide (sle_entry e = f)) as [<-|Hn].
  - assert (ce' = ce) as -> by congruence. exists e, (with_refcnt (fun n => n - 1) (with_refcnt (fun n => n + 1) ce)).
    split_and!; try done; [apply lookup_insert_eq|simpl; lia].
  - exists e, ce'. split_and!; try done. simpl. by rewrite !lookup_insert_ne.
Qed.

(** C40: [state_owner_unlock_all] does not end while the owner's locks under the
    state are on files whose cache entries are being destroyed and someone else keeps a
    reference to each of them: [state_unlock] fails for them without removing the
    lock, the error is one that [state_unlock_err_ok] accepts and so is not counted,
    and the loop takes the next lock, again and again, whatever the fuel. *)
Theorem owner_unlock_dead_entry_spins fuel owner state w :
  all_dead owner state w -> state_owner_unlock_all fuel owner state w = Stuck.
Proof.
  intros Hd. assert (Hloop : forall status, owner_unlock_loop fuel owner state 0 status w = Stuck).
  { revert w Hd. induction fuel as [|fuel IH]; intros w Hd status; [done|].
    pose proof Hd as [Hne Hall]. destruct (w_lists w (so_lock_list owner)) as [|a l] eqn:Hl; [done|].
    destruct (Hall a) as (e & ce & He & Hst & _ & Hf & Hq & Hr); [by left|].
    assert (Hrot : wp (rotate (so_lock_list owner) sle_owner_locks a)
      (fun _ w' => all_dead owner state w' /\ w_files w' = w_files w) w) by (apply rotate_dead; [done|rewrite Hl; by left]).
    unfold wp in Hrot. simpl. unfold list_of, gets, get_lock, deref, modify, mbind, M_bind. rewrite Hl. simpl. rewrite He.
    rewrite bool_decide_eq_false_2 by (by intros []). destruct (rotate _ _ _ w) as [[] w1| | |]; try done.
    destruct Hrot as [Hd1 Hf1]. set (w2 := set_fsal_export _ _).
    destruct (ref_dead owner state (sle_entry e) ce w2) as (-> & w4 & Hu & Hd4); [done|by simpl; rewrite Hf1|done|].
    rewrite (unlock_dead _ (sle_entry e) owner state _ _ (with_refcnt (fun n => n + 1) ce)); [|apply lookup_insert_eq|done].
    rewrite Hu. by apply IH. }
  unfold state_owner_unlock_all, gets, mbind, M_bind. by rewrite Hloop.
Qed.
End dead_entries.
