(* ===== verification/Nlm.v ===== *)
(** The NLM server (Protocols/NLM): the handlers of LOCK, UNLOCK, CANCEL and TEST
    over the lock manager, and the sending of a GRANTED message.  The answers of
    the handlers are related to the lock table on every branch.

    What the lookups of [nlm_process_parameters] find (the cache
    entry, the clients and the owner) comes with the call; the reference on the
    cache entry, taken and given back by each call, is not modelled. *)

From S2P Require Import Prelude Status World Owner CacheEntry LockList LockHeap LockMerge LockSubtract LockCalm LockOps LockLedger LockTable LockGrant LockRequest LockAcquire.

(** * Arguments and results *)

Inductive care_t : Set := CARE_NOT | CARE_ALWAYS | CARE_NO_MONITOR | CARE_MONITOR.

#[global] Instance care_t_eq_dec : EqDecision care_t.
Proof. solve_decision. Defined.

(** The part of [nlm4_lock] that does not name the file or the owner. *)
Record nlm4_lock : Set := mk_nlm4_lock { l_offset : Z; l_len : Z }.

(** [nlm4_lockargs]: [nl_state] is the 32-bit state number of the client. *)
Record nlm4_lockargs : Set := mk_nlm4_lockargs {
  nl_cookie : list Z;
  nl_block : bool;
  nl_exclusive : bool;
  nl_alock : nlm4_lock;
  nl_reclaim : bool;
  nl_state : Z
}.

(** [nlm4_unlockargs], [nlm4_cancargs] and [nlm4_testargs]; an unlock has no
    [na_exclusive]. *)
Record nlm4_args : Set := mk_nlm4_args {
  na_cookie : list Z;
  na_exclusive : bool;
  na_alock : nlm4_lock
}.

Record nlm4_holder : Set := mk_holder {
  h_exclusive : bool;
  h_svid : Z;
  h_oh : list Z;
  h_offset : Z;
  h_len : Z
}.

(** What [nfs3_FhandleToCache], [get_nsm_client], [get_nlm_client] and
    [get_nlm_owner] return for the call. *)
Record nlm_lookup : Set := mk_lookup {
  lk_entry : option loc;
  lk_nsm_client : option loc;
  lk_nlm_client : option loc;
  lk_owner : option loc
}.

(** The output parameters of [nlm_process_parameters]. *)
Record nlm_params : Set := mk_params {
  np_entry : loc;
  np_nsm_client : loc;
  np_nlm_client : loc;
  np_owner : loc;
  np_block_data : option loc;
  np_lock : fsal_lock_param_t
}.

Abbreviation nlm_result := (nlm4_stats * option nlm4_holder)%type.

Section nlm.
Context {FS : Type} `{!FsalOps FS} {env : OwnerEnv} {lenv : LockEnv}.
Abbreviation M := (M (world FS)).
Variable fds_hard_limit : Z.

(** * Parameters *)

Definition not_found (care : care_t) : nlm4_stats :=
  if bool_decide (care <> CARE_NOT) then NLM4_DENIED_NOLOCKS else NLM4_GRANTED.

(** A lookup that finds its object takes a reference. *)
Definition take_ref (r : ref_name) : M unit := ref_add r 1.
Definition dec_ref (r : ref_name) : M unit := ref_add r (-1).

(** The block data of a request, without memory none. *)
Definition alloc_block_data (want : bool) : M (option loc) :=
  if want then
    ok ← choose;
    if (ok : bool) then
      b ← fresh;
      modify (set_blocks (<[b := mk_block_data STATE_GRANT_NONE None None]>));;
      mret (Some b)
    else mret None
  else mret None.

Definition with_reclaim (reclaim : bool) (l : fsal_lock_param_t) : fsal_lock_param_t :=
  mk_lock_param (lock_sle_type l) (lock_type l) (lock_start l) (lock_length l) reclaim.

(** [plock] is the caller's variable, of which the type and the range are set. *)
Definition fill_plock (exclusive : bool) (alock : nlm4_lock) (plock : fsal_lock_param_t)
    : fsal_lock_param_t :=
  mk_lock_param (lock_sle_type plock) (if exclusive then FSAL_LOCK_W else FSAL_LOCK_R)
    (l_offset alock) (l_len alock) (lock_reclaim plock).

(** An error is a status to present to the client. *)
Definition nlm_process_parameters (found : nlm_lookup) (exclusive : bool) (alock : nlm4_lock)
    (plock : fsal_lock_param_t) (care : care_t) (block_data : bool) : M (nlm4_stats + nlm_params) :=
  match lk_entry found with
  | None => mret (inl NLM4_STALE_FH)
  | Some entry =>
      match lk_nsm_client found with
      | None => mret (inl (not_found care))
      | Some nsm =>
          take_ref (ssc_refcount nsm);;
          match lk_nlm_client found with
          | None => dec_ref (ssc_refcount nsm);; mret (inl (not_found care))
          | Some nlm =>
              take_ref (slc_refcount nlm);;
              match lk_owner found with
              | None =>
                  dec_ref (ssc_refcount nsm);; dec_ref (slc_refcount nlm);;
                  mret (inl (not_found care))
              | Some owner =>
                  take_ref (so_refcount owner);;
                  bdat ← alloc_block_data block_data;
                  mret (inr (mk_params entry nsm nlm owner bdat (fill_plock exclusive alock plock)))
              end
          end
      end
  end.

(** The references of the parameters, at the end of a handler. *)
Definition put_params (p : nlm_params) : M unit :=
  dec_ref (ssc_refcount (np_nsm_client p));;
  dec_ref (slc_refcount (np_nlm_client p));;
  dec_ref (so_refcount (np_owner p)).

(** [nlm_process_conflict] with the owner and the lock that the state layer found
    (without one, the caller's variables have no value yet); the name is left out
    without memory. *)
Definition nlm_process_conflict (conflict : option (loc * fsal_lock_param_t)) : M (option nlm4_holder) :=
  match conflict with
  | None => undef
  | Some (holder, lock) =>
      let o := owner_of holder in
      named ← netobj_alloc (so_owner_val o);
      dec_ref (so_refcount holder);;
      mret (Some (mk_holder (bool_decide (lock_type lock = FSAL_LOCK_W))
        (if decide (so_type o = STATE_LOCK_OWNER_NLM) then so_nlm_svid o else 0)
        (if (named : bool) then so_owner_val o else []) (lock_start lock) (lock_length lock)))
  end.

(** * Handlers *)

(** The cast of a state number to a pointer. *)
Definition state_ptr (n : Z) : option loc :=
  if u64 n =? 0 then None else Some (Z.to_pos (u64 n)).

(** [grace] is [nfs_in_grace()], [in_fsal_grace] is [fsal_grace()]; [monitor] is
    false for the unmonitored procedure; [lock] is the stack variable. *)
Definition nlm4_Lock (grace in_fsal_grace monitor : bool) (found : nlm_lookup) (arg : nlm4_lockargs)
    (lock : fsal_lock_param_t) : M nlm_result :=
  export ← gets w_export;
  if decide (export = None) then mret (NLM4_STALE_FH, None)
  else
    copied ← netobj_alloc (nl_cookie arg);
    if negb copied then mret (NLM4_FAILED, None)
    else if negb in_fsal_grace && ((grace && negb (nl_reclaim arg)) || (negb grace && nl_reclaim arg))
    then mret (NLM4_DENIED_GRACE_PERIOD, None)
    else
      let lock := with_reclaim (nl_reclaim arg) lock in
      rc ← nlm_process_parameters found (nl_exclusive arg) (nl_alock arg) lock
             (if monitor then CARE_MONITOR else CARE_NO_MONITOR) true;
      match rc with
      | inl stat => mret (stat, None)
      | inr p =>
          '(status, conflict) ←
            state_lock fds_hard_limit (np_entry p) (np_owner p) (state_ptr (nl_state arg))
              (if nl_block arg then STATE_NLM_BLOCKING else STATE_NON_BLOCKING)
              (np_block_data p) (np_lock p) POSIX_LOCK;
          if decide (status = STATE_SUCCESS) then put_params p;; mret (NLM4_GRANTED, None)
          else
            holder ← (if decide (status = STATE_LOCK_CONFLICT) then nlm_process_conflict conflict
                      else mret None);
            match np_block_data p with
            | Some b => when (bool_decide (status <> STATE_LOCK_BLOCKED)) (modify (set_blocks (delete b)))
            | None => mret tt
            end;;
            if decide (status = STATE_IN_GRACE) then mret (NLM4_DENIED_GRACE_PERIOD, holder)
            else put_params p;; mret (nlm_convert_state_error status, holder)
      end.

(** The frame that UNLOCK, CANCEL and TEST have in common: the checks, the
    parameters, the request [body] and the release of the references. *)
Definition nlm4_request (grace : bool) (found : nlm_lookup) (arg : nlm4_args) (exclusive : bool)
    (care : care_t) (lock : fsal_lock_param_t) (body : nlm_params -> M nlm_result) : M nlm_result :=
  export ← gets w_export;
  if decide (export = None) then mret (NLM4_STALE_FH, None)
  else
    copied ← netobj_alloc (na_cookie arg);
    if negb copied then mret (NLM4_FAILED, None)
    else if grace then mret (NLM4_DENIED_GRACE_PERIOD, None)
    else
      rc ← nlm_process_parameters found exclusive (na_alock arg) lock care false;
      match rc with
      | inl stat => mret (stat, None)
      | inr p => r ← body p; put_params p;; mret r
      end.

Definition nlm4_Unlock (grace : bool) (found : nlm_lookup) (arg : nlm4_args) (lock : fsal_lock_param_t)
    : M nlm_result :=
  nlm4_request grace found arg false CARE_NOT lock (fun p =>
    status ← state_unlock (np_entry p) (np_owner p) None (np_lock p) POSIX_LOCK;
    mret (nlm_convert_state_error status, None)).

Definition nlm4_Cancel (grace : bool) (found : nlm_lookup) (arg : nlm4_args) (lock : fsal_lock_param_t)
    : M nlm_result :=
  nlm4_request grace found arg (na_exclusive arg) CARE_NOT lock (fun p =>
    status ← state_cancel (np_entry p) (np_owner p) (np_lock p);
    mret (nlm_convert_state_error status, None)).

Definition nlm4_Test (grace : bool) (found : nlm_lookup) (arg : nlm4_args) (lock : fsal_lock_param_t)
    : M nlm_result :=
  nlm4_request grace found arg (na_exclusive arg) CARE_NO_MONITOR lock (fun p =>
    '(status, conflict) ← state_test fds_hard_limit (np_entry p) (np_owner p) (np_lock p);
    holder ← (if decide (status = STATE_LOCK_CONFLICT) then nlm_process_conflict conflict else mret None);
    mret (nlm_convert_state_error status, holder)).

(** Sending the GRANTED message with [cookie] to [client]; [sent] is the outcome of
    the RPC.  A lock whose message cannot be sent is released. *)
Definition nlm4_send_grant_msg (client : loc) (cookie : list Z) (sent : bool) : M unit :=
  dec_ref (slc_refcount client);;
  if sent then mret tt
  else
    '(_, found) ← state_find_grant cookie;
    match found with
    | None => mret tt
    | Some cookie_entry =>
        c ← get_cookie cookie_entry;
        e ← get_lock (sce_lock_entry c);
        if decide (sle_block_data e = None) then mret tt
        else
          ref_add (exp_refcount (sle_export e)) 1;;
          root_context (sle_export e) (state_release_grant cookie_entry);;
          ref_add (exp_refcount (sle_export e)) (-1)
    end.
End nlm.

(** * Preparing a request *)

Section prepare.
Context {FS : Type} `{!FsalOps FS} {HSL : ServerLocks FS} {env : OwnerEnv} {lenv : LockEnv}.
Variable fds_hard_limit : Z.
Implicit Types w : world FS.

Abbreviation locks_of w f := (w_lists w (file_lock_list f)).

(** Block data that belongs to no entry comes and goes. *)
Lemma linked_spare m bl bl' ck :
  linked m bl ck ->
  (forall a e b, m !! a = Some e -> sle_block_data e = Some b -> bl' !! b = bl !! b) -> linked m bl' ck.
Proof.
  intros [Hen Hco] Hb.
  assert (Hat : forall a e, m !! a = Some e -> attached bl' e = attached bl e).
  { intros a e He. apply attached_agree; eauto. }
  split.
  - intros a e He. destruct (Hen a e He). split; unfold holders; rewrite ?(Hat a e He); try done.
    intros b Hbe. rewrite (Hb a e b He Hbe). auto.
  - intros c d Hd. destruct (Hco c d Hd) as (e & He & Hc). exists e. by rewrite (Hat _ e He).
Qed.

Lemma table_spare f X w bl :
  table f X w -> (forall a e b, w_locks w !! a = Some e -> sle_block_data e = Some b -> bl !! b = w_blocks w !! b) ->
  (forall b, is_Some (bl !! b) -> (b < w_next w)%positive) -> table f X (set_blocks (fun _ => bl) w).
Proof.
  intros HT Hb Hn. apply (table_books f X w); try done. destruct (tb_books _ _ _ HT) as [HL HX HA _].
  split; try done. by apply (linked_spare _ (w_blocks w)).
Qed.

Definition prepared w w' : Prop :=
  (w_locks w', w_lists w', w_cookies w', w_ht_lock_cookies w', w_next_cookie w', w_files w', w_export w',
   w_fsal_export w', w_states w') =
  (w_locks w, w_lists w, w_cookies w, w_ht_lock_cookies w, w_next_cookie w, w_files w, w_export w,
   w_fsal_export w, w_states w) /\ (memory_ok w -> memory_ok w') /\ open_part w' = open_part w.

#[global] Instance prepared_refl : Reflexive prepared.
Proof. done. Qed.
#[global] Instance prepared_trans : Transitive prepared.
Proof. intros w1 w2 w3 (H1 & M1 & O1) (H2 & M2 & O2). split_and!; [congruence|auto|congruence]. Qed.

Lemma prepared_unchanged w w' : prepared w w' -> unchanged w w'.
Proof. intros [[= Hm Hl _ _ _ _ _ _ _] _]. split; [done|]. intros h _. by rewrite Hl. Qed.

Lemma prepared_room w w' : prepared w w' -> room w -> room w'.
Proof. intros [[= Hm _ _ _ Hn _ _ _ _] _] Hr. apply (room_same w); [done|done|]. rewrite Hm. eauto. Qed.

Lemma prepared_request f w w' :
  prepared w w' -> lock_table w' -> room w -> is_Some (w_export w) -> is_Some (w_files w !! f) -> request_ok f w'.
Proof.
  intros Hp HL Hr Hx Hf. pose proof (prepared_room w w' Hp Hr). destruct Hp as [[= _ _ _ _ _ Hff Hxx _ _] _].
  split; [done|done|by rewrite Hxx|by rewrite Hff].
Qed.

Lemma wp_prep_choose (Q : bool -> world FS -> Prop) w :
  lock_table w ->
  (forall b w', lock_table w' -> prepared w w' -> w_next w' = w_next w -> w_blocks w' = w_blocks w ->
     (memory_ok w -> b = true) -> Q b w') ->
  wp choose Q w.
Proof.
  intros HL HQ. apply wp_choose. apply HQ; try done.
  - by apply (table_view 1 [] w).
  - split; [done|]. split; [|done]. unfold memory_ok. simpl. by destruct (w_choices w) as [|b bs]; [|intros [_ ?]%Forall_cons].
  - unfold memory_ok. by destruct (w_choices w) as [|b bs]; [|intros [? _]%Forall_cons].
Qed.

Lemma wp_prep_netobj name (Q : bool -> world FS -> Prop) w :
  lock_table w ->
  (forall b w', lock_table w' -> prepared w w' -> (memory_ok w -> b = true) -> Q b w') ->
  wp (netobj_alloc name) Q w.
Proof.
  intros HL HQ. unfold netobj_alloc. case_bool_decide; [by apply wp_ret, HQ|]. apply wp_prep_choose; auto.
Qed.

Lemma wp_prep_ref r d (Q : unit -> world FS -> Prop) w :
  lock_table w -> (forall w', lock_table w' -> prepared w w' -> Q tt w') -> wp (ref_add r d) Q w.
Proof. intros HL HQ. apply wp_modify, HQ; [by apply (table_view 1 [] w)|done]. Qed.

Lemma wp_alloc_block want (Q : option loc -> world FS -> Prop) w :
  lock_table w ->
  (forall r w', lock_table w' -> prepared w w' ->
     match r with Some b => fresh_block b w' | None => want = true -> ~ memory_ok w end -> Q r w') ->
  wp (alloc_block_data want) Q w.
Proof.
  intros HL HQ. unfold alloc_block_data. destruct want; [|by apply wp_ret, HQ].
  apply wp_bind, wp_prep_choose; [done|]. intros ok w1 HL1 Hp1 _ _ Hok. destruct ok.
  2: { apply wp_ret, HQ; [done|done|]. by intros _ ?%Hok. }
  apply wp_bind. eapply wp_intro; [reflexivity|]. apply wp_bind, wp_modify, wp_ret.
  destruct (tb_books _ _ _ HL1) as [HLn HX HA HK].
  assert (Hno : forall a e, w_locks w1 !! a = Some e -> sle_block_data e <> Some (w_next w1)).
  { intros a e He Hb. destruct (eo_block _ _ _ _ _ (ln_entry _ _ _ HLn a e He) _ Hb) as [bd Hbd].
    specialize (HK (w_next w1) ltac:(by eexists)). lia. }
  apply HQ.
  - assert (HLs : lock_table (set_next Pos.succ w1)).
    { apply (table_books 1 [] w1); try done. split; try done; simpl.
      - by eapply indexed_mono; [|apply Pos.lt_le_incl, Pos.lt_succ_diag_r|].
      - intros a e He. simpl in *. specialize (HA a e He). lia.
      - intros b Hb. specialize (HK b Hb). lia. }
    apply (table_spare 1 [] (set_next Pos.succ w1)); simpl; [done|..].
    + intros a e b He Hb. rewrite lookup_insert_ne; [done|]. intros <-. by destruct (Hno a e He).
    + intros b. destruct (decide (b = w_next w1)) as [->|]; [lia|]. rewrite lookup_insert_ne by done.
      intros Hb. specialize (HK b Hb). lia.
  - etrans; [exact Hp1|]. done.
  - eexists. simpl. rewrite lookup_insert_eq. split_and!; [done|done|]. apply Hno.
Qed.

(** The lookups of a call, and what they have in common with the store. *)
Definition found_all (found : nlm_lookup) (f o : loc) : Prop :=
  exists nsm nlm, found = mk_lookup (Some f) (Some nsm) (Some nlm) (Some o).
Definition found_ok (found : nlm_lookup) w : Prop :=
  forall f, lk_entry found = Some f -> is_Some (w_files w !! f).

Lemma wp_params found exclusive alock plock care want (Q : nlm4_stats + nlm_params -> world FS -> Prop) w :
  lock_table w ->
  (forall stat w', lock_table w' -> prepared w w' -> (forall f o, ~ found_all found f o) ->
     stat = NLM4_STALE_FH \/ stat = not_found care -> Q (inl stat) w') ->
  (forall p w', lock_table w' -> prepared w w' -> found_all found (np_entry p) (np_owner p) ->
     np_lock p = fill_plock exclusive alock plock ->
     match np_block_data p with Some b => fresh_block b w' | None => want = true -> ~ memory_ok w end ->
     Q (inr p) w') ->
  wp (nlm_process_parameters found exclusive alock plock care want) Q w.
Proof.
  intros HL Herr Hok. unfold nlm_process_parameters, take_ref, dec_ref.
  destruct found as [[f|] [nsm|] [nlm|] [o|]]; simpl;
    repeat first [apply wp_ret, Herr; [done|by repeat (etrans; [eassumption|])|by intros ? ? (? & ? & ?)|by tauto]
      |apply wp_bind, wp_prep_ref; [done|]; intros ?w ?HL ?Hp].
  apply wp_bind, wp_alloc_block; [done|]. intros r w' HL' Hp' Hr. apply wp_ret, Hok; simpl; try done.
  - by repeat (etrans; [eassumption|]).
  - by exists nsm, nlm.
  - destruct r; [done|]. intros Hw Hm. apply (Hr Hw). destruct Hp as (_ & ? & _), Hp0 as (_ & ? & _), Hp1 as (_ & ? & _). auto.
Qed.

Lemma wp_put_params p (Q : unit -> world FS -> Prop) w :
  lock_table w -> (forall w', lock_table w' -> prepared w w' -> Q tt w') -> wp (put_params p) Q w.
Proof.
  intros HL HQ. unfold put_params, dec_ref. do 2 (apply wp_bind, wp_prep_ref; [done|]; intros ?w ?HL ?Hp).
  apply wp_prep_ref; [done|]. intros w' HL' Hp'. apply HQ; [done|]. etrans; [done|]. by etrans.
Qed.

(** The conflict that a client is told of. *)
Definition told (o : loc) (lk : fsal_lock_param_t) (h : nlm4_holder) : Prop :=
  h_exclusive h = bool_decide (lock_type lk = FSAL_LOCK_W) /\ h_offset h = lock_start lk /\
  h_len h = lock_length lk /\
  h_svid h = (if decide (so_type (owner_of o) = STATE_LOCK_OWNER_NLM) then so_nlm_svid (owner_of o) else 0) /\
  (h_oh h = so_owner_val (owner_of o) \/ h_oh h = []).

Lemma wp_conflict o lk (Q : option nlm4_holder -> world FS -> Prop) w :
  lock_table w -> (forall h w', lock_table w' -> prepared w w' -> told o lk h -> Q (Some h) w') ->
  wp (nlm_process_conflict (Some (o, lk))) Q w.
Proof.
  intros HL HQ. unfold nlm_process_conflict, dec_ref. apply wp_bind, wp_prep_netobj; [done|]. intros b w1 HL1 Hp1 _.
  apply wp_bind, wp_prep_ref; [done|]. intros w2 HL2 Hp2. apply wp_ret, HQ; [done|by etrans|].
  split_and!; try done. simpl. destruct b; auto.
Qed.
End prepare.

(** * LOCK *)

Section lock_handler.
Context {FS : Type} `{!FsalOps FS} {HSL : ServerLocks FS} {env : OwnerEnv} {lenv : LockEnv}.
Variable fds_hard_limit : Z.
Implicit Types w : world FS.

Abbreviation locks_of w f := (w_lists w (file_lock_list f)).

(** The lock that a call asks for. *)
Definition asked (arg : nlm4_lockargs) (lock : fsal_lock_param_t) : fsal_lock_param_t :=
  fill_plock (nl_exclusive arg) (nl_alock arg) (with_reclaim (nl_reclaim arg) lock).
Definition blocking_of (arg : nlm4_lockargs) : state_blocking_t :=
  if nl_block arg then STATE_NLM_BLOCKING else STATE_NON_BLOCKING.

(** The grace period admits reclaims only, and only it does. *)
Definition admitted (grace in_fsal_grace reclaim : bool) : bool := in_fsal_grace || eqb grace reclaim.

Definition Lock_stat (status : state_status_t) : nlm4_stats :=
  if decide (status = STATE_IN_GRACE) then NLM4_DENIED_GRACE_PERIOD else nlm_convert_state_error status.

Definition Lock_result found arg lock w (r : nlm_result) w' : Prop :=
  let lk := asked arg lock in
  lock_table w' /\
  match r.1 with
  | NLM4_GRANTED => exists f o, found_all found f o /\ has_lock f o lk w' /\ others_same f o w w'
  | NLM4_BLOCKED => nl_block arg = true /\ exists f o a e, found_all found f o /\ same_grants f w w' /\
      a ∈ locks_of w' f /\ w_locks w' !! a = Some e /\ sle_blocked e = STATE_NLM_BLOCKING /\ mine o e /\
      different_lock (sle_lock e) lk = false
  | NLM4_DENIED => unchanged w w' /\ exists f o, found_all found f o /\
      ((r.2 = None /\ is_Some (access_error fds_hard_limit f (lock_openflags lk w) w)) \/
       exists a e o' h, a ∈ locks_of w f /\ w_locks w !! a = Some e /\ sle_owner e = Some o' /\
         lock_conflicts e o lk = true /\ r.2 = Some h /\ told o' (sle_lock e) h)
  | _ => unchanged w w'
  end.

(** Another owner's lock, granted or waited for, conflicts with the request. *)
Definition in_conflict f o lk w (granted : bool) : Prop :=
  exists a e, a ∈ locks_of w f /\ w_locks w !! a = Some e /\ lock_conflicts e o lk = true /\
    (granted = true -> sle_blocked e = STATE_NON_BLOCKING).

(** What a call that the grace period admits gets.  The file can fail to be pinned or
    opened, and then that error is the answer.  Otherwise, with memory and no lock of the
    owner through another export, the locks decide: without a conflict the lock is
    granted (or, when the call may wait, an older request of the same kind still
    waits); with a granted lock in conflict the call is denied, and told the holder, or
    waits if it may. *)
Definition Lock_decision grace in_fsal_grace found arg lock w (r : nlm_result) : Prop :=
  let lk := asked arg lock in
  forall f o x, found_all found f o -> w_export w = Some x -> memory_ok w ->
    admitted grace in_fsal_grace (nl_reclaim arg) = true ->
    match access_error fds_hard_limit f (lock_openflags lk w) w with
    | Some err => r = (Lock_stat (cache_inode_status_to_state_status err), None)
    | None =>
        (forall a e, a ∈ locks_of w f -> w_locks w !! a = Some e -> ~ foreign o x e) ->
        (~ in_conflict f o lk w false -> r.1 = NLM4_GRANTED \/ (nl_block arg = true /\ r.1 = NLM4_BLOCKED)) /\
        (in_conflict f o lk w true ->
           if nl_block arg then r.1 = NLM4_BLOCKED else r.1 = NLM4_DENIED /\ is_Some r.2)
    end.

(** [state_lock] has answered so. *)
Lemma decision_of f x o arg lock w w' (status : state_status_t) (conflict : option (loc * fsal_lock_param_t))
    (holder : option nlm4_holder) :
  let lk := asked arg lock in let bl := blocking_of arg in
  range_ok lk -> memory_ok w -> lock_post f o bl lk w (status, conflict) w' -> decided f x o bl w status ->
  (status = STATE_LOCK_CONFLICT -> is_Some holder) ->
  (forall a e, a ∈ locks_of w f -> w_locks w !! a = Some e -> ~ foreign o x e) ->
  let r := (Lock_stat status, holder) in
  (~ in_conflict f o lk w false -> r.1 = NLM4_GRANTED \/ (nl_block arg = true /\ r.1 = NLM4_BLOCKED)) /\
  (in_conflict f o lk w true -> if nl_block arg then r.1 = NLM4_BLOCKED else r.1 = NLM4_DENIED /\ is_Some r.2).
Proof.
  intros lk bl Hrange Hmem Hpost Hdec Hh Hfor r. subst r bl. unfold blocking_of in *.
  destruct Hdec as [->|[[-> Hnb]|[->|[[-> Hm]|[-> (a & e & Ha & He & Hf)]]]]].
  - split; [by left|]. intros (a & e & Ha & He & Hc & Hb). destruct Hpost as (HL & Hhas & Ho).
    by destruct (held_excludes f o lk w w' a e HL Hrange Hhas Ho Ha He (Hb eq_refl) Hc).
  - destruct Hpost as (_ & _ & a & e & o' & Ha & He & _ & Hc & _). destruct (nl_block arg); [done|]. split.
    + intros Hno. destruct Hno. by exists a, e.
    + intros _. split; [done|]. by apply Hh.
  - destruct Hpost as (_ & Hbl & _). destruct (nl_block arg); [|done]. split; [by right|done].
  - done.
  - by destruct (Hfor a e Ha He).
Qed.

Lemma lock_post_prepared f o bl lk w w1 r w2 w3 :
  prepared w w1 -> lock_post f o bl lk w1 r w2 -> prepared w2 w3 -> lock_table w3 -> lock_post f o bl lk w r w3.
Proof.
  intros [[= Hm1 Hl1 _ _ _ _ _ _ _] _] [_ Hp] [[= Hm3 Hl3 _ _ _ _ _ _ _] _] HL. split; [done|]. revert Hp.
  unfold has_lock, others_same, same_grants, unchanged, lists_agree. by rewrite Hm1, Hl1, Hm3, Hl3.
Qed.

Lemma prepared_access f lk w w1 :
  prepared w w1 -> access_error fds_hard_limit f (lock_openflags lk w1) w1 = access_error fds_hard_limit f (lock_openflags lk w) w.
Proof.
  intros ([= _ _ _ _ _ Hf _ Hx _] & _ & Ho). unfold lock_openflags. rewrite Hx. by apply access_error_same.
Qed.

Lemma prepared_decided f x o bl w w1 status :
  prepared w w1 -> decided f x o bl w1 status -> decided f x o bl w status.
Proof.
  intros ([= Hm Hl _ _ _ _ _ _ _] & Hmem & _). unfold decided. rewrite Hm, Hl. tauto.
Qed.

(** The block data that was not used is freed. *)
Lemma wp_release_block (p : nlm_params) status (Q : unit -> world FS -> Prop) w :
  lock_table w ->
  (forall a e, status <> STATE_LOCK_BLOCKED -> w_locks w !! a = Some e -> np_block_data p <> None ->
     sle_block_data e <> np_block_data p) ->
  (forall w', lock_table w' -> prepared w w' -> Q tt w') ->
  wp (match np_block_data p with
      | Some b => when (bool_decide (status <> STATE_LOCK_BLOCKED)) (modify (set_blocks (delete b)))
      | None => mret tt
      end) Q w.
Proof.
  intros HL Hno HQ. destruct (np_block_data p) as [b|]; [|by apply wp_ret, HQ].
  apply wp_when; [|by intros _; apply HQ]. intros Hne%bool_decide_eq_true. apply wp_modify, HQ; [|done].
  apply (table_spare 1 [] w); [done|..].
  - intros a e b' He Hb. rewrite lookup_delete_ne; [done|]. intros <-. by apply (Hno a e).
  - intros b' Hb'. apply (bk_blocks _ (tb_books _ _ _ HL)). destruct (decide (b' = b)) as [->|].
    + rewrite lookup_delete_eq in Hb'. by destruct Hb'.
    + by rewrite lookup_delete_ne in Hb'.
Qed.

(** The conflict that goes into the answer. *)
Definition answers (status : state_status_t) (conflict : option (loc * fsal_lock_param_t))
    (holder : option nlm4_holder) : Prop :=
  (status = STATE_LOCK_CONFLICT -> exists o lk h, conflict = Some (o, lk) /\ holder = Some h /\ told o lk h) /\
  (status <> STATE_LOCK_CONFLICT -> holder = None).

(** The answer that goes with what [state_lock] said. *)
Lemma lock_post_result found arg lock f o w status conflict holder w' :
  found_all found f o -> lock_post f o (blocking_of arg) (asked arg lock) w (status, conflict) w' ->
  status <> STATE_SUCCESS -> answers status conflict holder ->
  (status = STATE_STATE_CONFLICT -> is_Some (access_error fds_hard_limit f (lock_openflags (asked arg lock) w) w)) ->
  Lock_result found arg lock w (Lock_stat status, holder) w'.
Proof.
  intros Hf [HL Hp] Hns [Hc Hn] Hsc. split; [done|].
  assert (Hun : status <> STATE_LOCK_BLOCKED -> unchanged w w') by (intros ?; destruct status; try done; apply Hp).
  destruct (decide (status = STATE_LOCK_CONFLICT)) as [->|Hnc].
  - destruct (Hc eq_refl) as (o' & lk & h & -> & -> & Ht). destruct Hp as (? & a & e & o1 & ? & ? & ? & ? & [= -> ->]).
    split; [done|]. exists f, o. split; [done|]. right. by exists a, e, o1, h.
  - rewrite (Hn Hnc). destruct (decide (status = STATE_LOCK_BLOCKED)) as [->|Hnb].
    + destruct Hp as (Hbl & Hs & a & e & ? & ? & Hb & ? & ?). unfold blocking_of in *.
      destruct (nl_block arg) eqn:E; [|done]. split; [done|]. by exists f, o, a, e.
    + specialize (Hun Hnb). unfold Lock_stat. destruct status; try done. split; [done|]. exists f, o. split; [done|]. left. auto.
Qed.

Lemma Lock_unchanged found arg lock w w' stat :
  lock_table w' -> prepared w w' -> stat <> NLM4_GRANTED -> stat <> NLM4_BLOCKED -> stat <> NLM4_DENIED ->
  Lock_result found arg lock w (stat, None) w'.
Proof. intros HL Hp%prepared_unchanged ? ? ?. split; [done|]. by destruct stat. Qed.

Lemma wp_holder f o bl lk w status conflict (Q : option nlm4_holder -> world FS -> Prop) w' :
  lock_post f o bl lk w (status, conflict) w' ->
  (forall holder w2, lock_table w2 -> prepared w' w2 -> answers status conflict holder -> Q holder w2) ->
  wp (if decide (status = STATE_LOCK_CONFLICT) then nlm_process_conflict conflict else mret None) Q w'.
Proof.
  intros [HL Hp] HQ. case_decide as Hc; [|by apply wp_ret, HQ]. subst status.
  destruct Hp as (_ & a & e & o' & _ & _ & _ & _ & Hr). simpl in Hr. rewrite Hr. apply wp_conflict; [done|].
  intros h w2 HL2 Hp2 Ht. apply HQ; try done. split; [|done]. intros _. by exists o', (sle_lock e), h.
Qed.

(** From the store in which the parameters are there. *)
Lemma wp_Lock_body grace fg found arg lock (p : nlm_params) w w1 :
  lock_table w1 -> prepared w w1 -> room w -> found_ok found w -> is_Some (w_export w) ->
  range_ok (asked arg lock) -> (nl_block arg = true -> memory_ok w) ->
  found_all found (np_entry p) (np_owner p) -> np_lock p = asked arg lock ->
  match np_block_data p with Some b => fresh_block b w1 | None => ~ memory_ok w end ->
  wp ('(status, conflict) ←
        state_lock fds_hard_limit (np_entry p) (np_owner p) (state_ptr (nl_state arg))
          (if nl_block arg then STATE_NLM_BLOCKING else STATE_NON_BLOCKING)
          (np_block_data p) (np_lock p) POSIX_LOCK;
      if decide (status = STATE_SUCCESS) then put_params p;; mret (NLM4_GRANTED, None)
      else
        holder ← (if decide (status = STATE_LOCK_CONFLICT) then nlm_process_conflict conflict
                  else mret None);
        match np_block_data p with
        | Some b => when (bool_decide (status <> STATE_LOCK_BLOCKED)) (modify (set_blocks (delete b)))
        | None => mret tt
        end;;
        if decide (status = STATE_IN_GRACE) then mret (NLM4_DENIED_GRACE_PERIOD, holder)
        else put_params p;; mret (nlm_convert_state_error status, holder))
    (fun r w' => Lock_result found arg lock w r w' /\ Lock_decision grace fg found arg lock w r) w1.
Proof.
  intros HL1 Hp1 Hroom Hfok [x Hx] Hrange Hmem Hfound Hlk Hblk. rewrite Hlk.
  set (f := np_entry p) in *. set (o := np_owner p) in *.
  assert (Hrq : request_ok f w1).
  { apply (prepared_request f w w1); try done. destruct Hfound as (nsm & nlm & ->). by apply Hfok. }
  assert (Hx1 : w_export w1 = Some x) by (by destruct Hp1 as [[= _ _ _ _ _ _ -> _ _] _]).
  apply wp_bind. eapply wp_mono; [|apply (wp_state_lock fds_hard_limit f x o _ (blocking_of arg)); try done].
  2: { unfold blocking_of. destruct (nl_block arg); [|done]. intros _. destruct (np_block_data p) as [b|]; [eauto|].
       by destruct Hblk; auto. }
  intros [status conflict] w2 [Hpost Hg]. pose proof Hpost as [HL2 _]. rewrite (prepared_access f (asked arg lock) w w1) in Hg by done.
  assert (Hdec : forall holder w3, prepared w2 w3 -> lock_table w3 -> answers status conflict holder ->
    Lock_decision grace fg found arg lock w (Lock_stat status, holder)).
  { intros holder w3 Hp3 HL3 [Hc Hn] f' o' x' (? & ? & Hf') Hx' Hm _. destruct Hfound as (? & ? & ->).
    injection Hf' as <- _ _ <-. assert (x' = x) as -> by congruence. destruct (access_error _ _ _ _) as [err|].
    - injection Hg as -> ->. rewrite Hn; [done|]. by destruct err.
    - apply (decision_of f x o arg lock w w3 status conflict holder); try done.
      + by apply (lock_post_prepared f o _ _ w w1 _ w2 w3).
      + by apply (prepared_decided f x o _ w w1).
      + intros Hs. destruct (Hc Hs) as (? & ? & h & _ & -> & _). by eexists. }
  case_decide as Hs.
  { subst status. apply wp_bind, wp_put_params; [done|]. intros w3 HL3 Hp3. apply wp_ret. split; [|by apply (Hdec None w3)].
    split; [done|]. exists f, o. split; [done|]. by apply (lock_post_prepared f o _ _ w w1 _ w2 w3 Hp1 Hpost). }
  assert (Hun : status <> STATE_LOCK_BLOCKED -> unchanged w1 w2).
  { intros Hnb. destruct Hpost as [_ Hpost]. destruct status; try done; apply Hpost. }
  assert (Hend : forall holder w3 w4, lock_table w4 -> prepared w2 w3 -> prepared w3 w4 -> answers status conflict holder ->
    Lock_result found arg lock w (Lock_stat status, holder) w4 /\
    Lock_decision grace fg found arg lock w (Lock_stat status, holder)).
  { intros holder w3 w4 HL4 Hp3 Hp4 Hc. assert (Hp24 : prepared w2 w4) by (by etrans). split; [|by apply (Hdec holder w4)].
    eapply (lock_post_result found arg lock f o); try done; [by apply (lock_post_prepared f o _ _ w w1 _ w2 w4)|].
    intros ->. destruct (access_error _ _ _ _); [by eexists|]. exfalso. destruct Hg as [?|[[]|[?|[[]|[]]]]]; done. }
  apply wp_bind. eapply wp_holder; [exact Hpost|]. intros holder w3 HL3 Hp3 Hc.
  apply wp_bind, wp_release_block; [done|..].
  { intros a e Hnb He Hsome Hb. destruct (Hun Hnb) as [Hm _]. destruct Hp3 as [[= Hm3 _ _ _ _ _ _ _ _] _].
    rewrite Hm3, Hm in He. destruct (np_block_data p) as [b|]; [|done]. destruct Hblk as (bd & _ & _ & Hno). by apply (Hno a e He). }
  intros w4 HL4 Hp4. unfold Lock_stat in Hend. case_decide as Hgr; [by apply wp_ret, (Hend holder w3 w4)|].
  apply wp_bind, wp_put_params; [done|]. intros w5 HL5 Hp5. apply wp_ret, (Hend holder w3 w5); try done. by etrans.
Qed.

Lemma wp_nlm4_Lock grace fg monitor found arg lock w :
  lock_table w -> room w -> found_ok found w -> range_ok (asked arg lock) -> (nl_block arg = true -> memory_ok w) ->
  wp (nlm4_Lock fds_hard_limit grace fg monitor found arg lock)
    (fun r w' => Lock_result found arg lock w r w' /\ Lock_decision grace fg found arg lock w r) w.
Proof.
  intros HL Hroom Hfok Hrange Hmem. unfold nlm4_Lock. apply wp_bind, wp_gets. case_decide as Hx.
  { apply wp_ret. split; [by apply Lock_unchanged|]. intros f o x _ Hx'. congruence. }
  assert (Hx' : is_Some (w_export w)) by (destruct (w_export w); [by eexists|done]).
  apply wp_bind, wp_prep_netobj; [done|]. intros copied w1 HL1 Hp1 Hc. destruct copied; simpl.
  2: { apply wp_ret. split; [by apply Lock_unchanged|]. intros f o x _ _ Hm. by specialize (Hc Hm). }
  destruct (_ && _) eqn:Hgr.
  { apply wp_ret. split; [by apply Lock_unchanged|]. intros f o x _ _ _ Ha. exfalso. unfold admitted in Ha.
    by destruct fg, grace, (nl_reclaim arg). }
  apply wp_bind, wp_params; [done|..].
  - intros stat w2 HL2 Hp2 Hno Hstat. apply wp_ret. split.
    + apply Lock_unchanged; [done|by etrans|..]; destruct monitor, Hstat as [-> | ->]; done.
    + intros f o x Hf. by destruct (Hno f o).
  - intros p w2 HL2 Hp2 Hf Hlk Hb. apply (wp_Lock_body grace fg found arg lock p w w2); try done; [by etrans|].
    destruct (np_block_data p); [done|]. intros Hm. apply Hb; [done|]. by apply (proj1 (proj2 Hp1)).
Qed.
End lock_handler.

(** * UNLOCK, CANCEL and TEST *)

Section handlers.
Context {FS : Type} `{!FsalOps FS} {HSL : ServerLocks FS} {env : OwnerEnv} {lenv : LockEnv}.
Variable fds_hard_limit : Z.
Implicit Types w : world FS.

Abbreviation locks_of w f := (w_lists w (file_lock_list f)).

(** The call comes to nothing before it gets to the lock manager. *)
Definition refused (grace : bool) found w : Prop :=
  w_export w = None \/ ~ memory_ok w \/ grace = true \/ forall f o, ~ found_all found f o.

Lemma wp_request grace found arg exclusive care lock body (Q : nlm_result -> world FS -> Prop) w :
  lock_table w -> room w -> found_ok found w ->
  (forall stat w', lock_table w' -> prepared w w' -> refused grace found w ->
     (stat = NLM4_GRANTED -> care = CARE_NOT /\ forall f o, ~ found_all found f o) -> Q (stat, None) w') ->
  (forall p w1, request_ok (np_entry p) w1 -> prepared w w1 -> lk_entry found = Some (np_entry p) ->
     found_all found (np_entry p) (np_owner p) -> np_lock p = fill_plock exclusive (na_alock arg) lock ->
     wp (body p) (fun r w2 => lock_table w2 /\ forall w3, lock_table w3 -> prepared w2 w3 -> Q r w3) w1) ->
  wp (nlm4_request grace found arg exclusive care lock body) Q w.
Proof.
  intros HL Hroom Hfok Hno Hok. unfold nlm4_request. apply wp_bind, wp_gets. case_decide as Hx.
  { by apply wp_ret, Hno; [..|left|]. }
  apply wp_bind, wp_prep_netobj; [done|]. intros copied w1 HL1 Hp1 Hc. destruct copied; simpl.
  2: { apply wp_ret, Hno; [done|done| |done]. right; left. by intros ?%Hc. }
  destruct grace; [by apply wp_ret, Hno; [..|unfold refused; tauto|]|].
  apply wp_bind, wp_params; [done|..].
  - intros stat w2 HL2 Hp2 Hnf Hstat. apply wp_ret, Hno; [done|by etrans|unfold refused; tauto|].
    intros ->. destruct Hstat as [?|Hstat]; [done|]. unfold not_found in Hstat. by case_bool_decide as Hcare; [|destruct care; try done; destruct Hcare].
  - intros p w2 HL2 Hp2 Hf Hlk _. assert (Hp : prepared w w2) by (by etrans).
    assert (Hent : lk_entry found = Some (np_entry p)) by (by destruct Hf as (? & ? & ->)).
    apply wp_bind. eapply wp_mono; [|apply (Hok p w2); try done].
    + intros r w3 [HL3 Hr]. apply wp_bind, wp_put_params; [done|]. intros w4 HL4 Hp4. by apply wp_ret, Hr.
    + apply (prepared_request _ w); try done; [|by apply Hfok]. destruct (w_export w); [by eexists|done].
Qed.

Lemma not_refused grace found f o w :
  refused grace found w -> found_all found f o -> is_Some (w_export w) -> memory_ok w -> grace = false -> False.
Proof. intros [?|[?|[?|Hno]]] Hf [x Hx] Hm Hg; [congruence|done|congruence|by destruct (Hno f o)]. Qed.

(** ** UNLOCK *)

Definition regular f w : Prop :=
  forall ce, w_files w !! f = Some ce -> ce_type ce = REGULAR_FILE /\ ce_qid ce <> LRU_ENTRY_CLEANUP.

Definition Unlock_result grace found arg lock w (r : nlm_result) w' : Prop :=
  let lk := fill_plock false (na_alock arg) lock in
  lock_table w' /\
  match r.1 with
  | NLM4_GRANTED => ((forall f o, ~ found_all found f o) /\ unchanged w w') \/
      exists f o, found_all found f o /\ unlocked f o None lk w w'
  | _ => forall f, lk_entry found = Some f -> same_grants f w w'
  end /\
  (forall f o, found_all found f o -> is_Some (w_export w) -> memory_ok w -> grace = false -> regular f w ->
     r.1 = NLM4_GRANTED).

Lemma unlock_post_prepared f o lk w w1 status w2 w3 :
  prepared w w1 -> unlock_post f o None lk w1 status w2 -> prepared w2 w3 -> lock_table w3 ->
  unlock_post f o None lk w status w3.
Proof.
  intros ([= Hm1 Hl1 _ _ _ Hf1 _ _ _] & Hmem & _) (_ & Hp & Hs) [[= Hm3 Hl3 _ _ _ _ _ _ _] _] HL. split; [done|].
  revert Hp Hs. unfold unlocked, settled, blocked_by, same_grants. rewrite Hm1, Hl1, Hm3, Hl3, Hf1.
  intros Hp Hs. split; [done|]. auto.
Qed.

Lemma wp_nlm4_Unlock grace found arg lock w :
  lock_table w -> room w -> found_ok found w -> range_ok (fill_plock false (na_alock arg) lock) ->
  wp (nlm4_Unlock grace found arg lock) (Unlock_result grace found arg lock w) w.
Proof.
  intros HL Hroom Hfok Hrange. unfold nlm4_Unlock. apply wp_request; [done|done|done|..].
  - intros stat w1 HL1 Hp1 Href Hst. pose proof (prepared_unchanged w w1 Hp1) as Hun. split; [done|]. split.
    + simpl. destruct stat; try (intros f _; by apply unchanged_grants). left. split; [by apply Hst|done].
    + intros f o Hf Hx Hm Hg _. by destruct (not_refused grace found f o w).
  - intros p w1 Hrq Hp1 Hent Hf Hlk. rewrite Hlk. set (f := np_entry p) in *. set (o := np_owner p) in *.
    apply wp_bind. eapply wp_mono; [|by apply wp_state_unlock; [..|by intros ?]]. intros status w2 Hpost. pose proof Hpost as [HL2 _]. apply wp_ret. split; [done|]. intros w3 HL3 Hp3.
    destruct (unlock_post_prepared f o _ w w1 status w2 w3 Hp1 Hpost Hp3 HL3) as (_ & Hcase & Hall). split; [done|]. split.
    + case_decide as Hs; [subst status; right; by exists f, o|]. simpl.
      assert (Hsg : forall f', lk_entry found = Some f' -> same_grants f' w w3) by (intros f' Hf'; by assert (f' = f) as -> by congruence).
      by destruct status.
    + intros f' o' (? & ? & Hf') _ Hm _ Hreg. destruct Hf as (? & ? & ->). injection Hf' as <- _ _ <-. by rewrite (Hall Hm Hreg).
Qed.

(** ** CANCEL *)

Definition Cancel_result grace found arg lock w (r : nlm_result) w' : Prop :=
  let lk := fill_plock (na_exclusive arg) (na_alock arg) lock in
  lock_table w' /\ (forall f, lk_entry found = Some f -> same_grants f w w') /\
  (forall f o, found_all found f o -> r.1 = NLM4_GRANTED -> cancelled_request f o lk w w') /\
  (forall f o, found_all found f o -> is_Some (w_export w) -> memory_ok w -> grace = false -> regular f w ->
     r.1 = NLM4_GRANTED).

Lemma cancel_post_prepared f o lk w w1 status w2 w3 :
  prepared w w1 -> cancel_post f o lk w1 status w2 -> prepared w2 w3 -> lock_table w3 ->
  cancel_post f o lk w status w3.
Proof.
  intros ([= Hm1 Hl1 _ _ _ Hf1 _ _ _] & Hmem & _) (_ & Hp) [[= Hm3 Hl3 _ _ _ _ _ _ _] _] HL. split; [done|].
  revert Hp. unfold cancelled_request, settled, blocked_by, same_grants. by rewrite Hm1, Hl1, Hm3, Hl3, Hf1.
Qed.

Lemma wp_nlm4_Cancel grace found arg lock w :
  lock_table w -> room w -> found_ok found w ->
  wp (nlm4_Cancel grace found arg lock) (Cancel_result grace found arg lock w) w.
Proof.
  intros HL Hroom Hfok. unfold nlm4_Cancel. apply wp_request; [done|done|done|..].
  - intros stat w1 HL1 Hp1 Href Hst. pose proof (prepared_unchanged w w1 Hp1) as Hun. split; [done|]. split_and!.
    + intros f _. by apply unchanged_grants.
    + intros f o Hf Hg. by destruct (proj2 (Hst Hg) f o).
    + intros f o Hf Hx Hm Hg _. by destruct (not_refused grace found f o w).
  - intros p w1 Hrq Hp1 Hent Hf Hlk. rewrite Hlk. set (f := np_entry p) in *. set (o := np_owner p) in *.
    apply wp_bind. eapply wp_mono; [|by apply wp_state_cancel]. intros status w2 Hpost. pose proof Hpost as [HL2 _].
    apply wp_ret. split; [done|]. intros w3 HL3 Hp3.
    destruct (cancel_post_prepared f o _ w w1 status w2 w3 Hp1 Hpost Hp3 HL3) as (_ & Hs & Hc & Hall). split_and!; [done|..].
    + intros f' Hf'. by assert (f' = f) as -> by congruence.
    + intros f' o' (? & ? & Hf') Hg. destruct Hf as (? & ? & ->). injection Hf' as <- _ _ <-. apply Hc. by destruct status.
    + intros f' o' (? & ? & Hf') _ _ _ Hreg. destruct Hf as (? & ? & ->). injection Hf' as <- _ _ <-. by rewrite (Hall Hreg).
Qed.

(** ** TEST *)

(** Nothing changes.  A file that cannot be pinned or opened has that error; otherwise
    the answer is that the lock could be had, exactly when no lock conflicts, or a
    conflict. *)
Definition Test_result grace found arg lock w (r : nlm_result) w' : Prop :=
  let lk := fill_plock (na_exclusive arg) (na_alock arg) lock in
  lock_table w' /\ unchanged w w' /\
  (r.1 = NLM4_GRANTED -> exists f o, found_all found f o /\ forall a e, a ∈ locks_of w f ->
     w_locks w !! a = Some e -> conflicts_with (Some o) lk e = false) /\
  (forall h, r.2 = Some h -> r.1 = NLM4_DENIED /\ exists f o a e o', found_all found f o /\ a ∈ locks_of w f /\
     w_locks w !! a = Some e /\ sle_owner e = Some o' /\ conflicts_with (Some o) lk e = true /\ told o' (sle_lock e) h) /\
  (forall f o, found_all found f o -> is_Some (w_export w) -> memory_ok w -> grace = false ->
     match access_error fds_hard_limit f FSAL_O_READ w with
     | Some err => r = (nlm_convert_state_error (cache_inode_status_to_state_status err), None)
     | None =>
         ((forall a e, a ∈ locks_of w f -> w_locks w !! a = Some e -> conflicts_with (Some o) lk e = false) ->
            r = (NLM4_GRANTED, None)) /\
         ((exists a e, a ∈ locks_of w f /\ w_locks w !! a = Some e /\ conflicts_with (Some o) lk e = true) ->
            r.1 = NLM4_DENIED /\ is_Some r.2)
     end).

Lemma wp_nlm4_Test grace found arg lock w :
  lock_table w -> room w -> found_ok found w ->
  wp (nlm4_Test fds_hard_limit grace found arg lock) (Test_result grace found arg lock w) w.
Proof.
  intros HL Hroom Hfok. unfold nlm4_Test. apply wp_request; [done|done|done|..].
  - intros stat w1 HL1 Hp1 Href Hst. split_and!; [done|by apply prepared_unchanged|by intros [? _]%Hst|done|].
    intros f o Hf Hx Hm Hg. by destruct (not_refused grace found f o w).
  - intros p w1 Hrq Hp1 Hent Hf Hlk. rewrite Hlk. set (f := np_entry p) in *. set (o := np_owner p) in *.
    set (lk := fill_plock _ _ _). apply wp_bind. eapply wp_mono; [|by apply wp_state_test].
    intros [status conflict] w2 (HL2 & Hm2 & Hl2 & Hcase).
    assert (Hend : forall w3, lock_table w3 -> prepared w2 w3 -> unchanged w w3).
    { intros w3 _ Hp3. etrans; [by apply prepared_unchanged|]. etrans; [|by apply prepared_unchanged].
      split; [done|]. intros h _. by rewrite Hl2. }
    rewrite (access_error_same _ f FSAL_O_READ w w1) in Hcase by (destruct Hp1 as ([= ? ? ? ? ? ? ? ? ?] & _ & ?); done).
    destruct Hp1 as [[= Hm1 Hl1 _ _ _ _ _ _ _] _]. rewrite Hm1, Hl1 in Hcase.
    assert (Hsame : forall f' o', found_all found f' o' -> f' = f /\ o' = o).
    { intros f' o' (? & ? & Hf'). destruct Hf as (? & ? & ->). by injection Hf' as <- _ _ <-. }
    destruct (access_error _ _ _ _) as [err|] eqn:Hacc.
    { injection Hcase as -> ->. assert (Hne : err <> CACHE_INODE_SUCCESS) by (by eapply access_error_failed).
      rewrite decide_False by (by destruct err). apply wp_bind, wp_ret, wp_ret. split; [done|]. intros w3 HL3 Hp3.
      split_and!; [done|by apply Hend| |done|]; simpl; [by destruct err|].
      intros f' o' [-> ->]%Hsame _ _ _. by rewrite Hacc. }
    destruct Hcase as [[[= -> ->] Hfree]|(a & e & o' & Ha & He & Ho & Hc & [= -> ->])].
    + rewrite decide_False by done. apply wp_bind, wp_ret, wp_ret. split; [done|]. intros w3 HL3 Hp3.
      split_and!; [done|by apply Hend| |done|]; [intros _; by exists f, o|].
      intros f' o' [-> ->]%Hsame _ _ _. rewrite Hacc. split; [done|]. intros (a & e & Ha & He & Hc).
      pose proof (eq_trans (eq_sym Hc) (Hfree a e Ha He)). done.
    + rewrite decide_True by done. apply wp_bind, wp_conflict; [done|]. intros h w3 HL3 Hp3 Ht. apply wp_ret.
      split; [done|]. intros w4 HL4 Hp4. split_and!; [done|by apply Hend; [|etrans]|done| |].
      * intros h' [= <-]. split; [done|]. by exists f, o, a, e, o'.
      * intros f' o1 [-> ->]%Hsame _ _ _. rewrite Hacc. split; [|by eauto]. intros Hno.
        pose proof (eq_trans (eq_sym Hc) (Hno a e Ha He)). done.
Qed.
End handlers.
