(* ===== verification/NlmServer.v ===== *)
(** The NLM server as a whole: what each handler answers, and what holds of a
    server that runs any sequence of calls.

    A call runs with the lock state of its file locked, so calls are the steps of
    a relation between stores; [reachable] is the closure of the steps from a
    server without locks.  Runs of the server on concrete calls show where the
    code does not keep its promises. *)

From S2P Require Import Prelude Status World Owner CacheEntry LockList LockHeap LockMerge LockSubtract LockCalm LockOps LockLedger LockTable LockGrant LockRequest LockAcquire Release Nlm.

(** * The server *)

(** A call of a client, or the asynchronous thread sending a GRANTED message, with
    what the code finds out before it gets to the lock state. *)
Inductive nlm_call : Set :=
| call_Lock (grace in_fsal_grace monitor : bool) (found : nlm_lookup) (arg : nlm4_lockargs)
    (lock : fsal_lock_param_t)
| call_Unlock (grace : bool) (found : nlm_lookup) (arg : nlm4_args) (lock : fsal_lock_param_t)
| call_Cancel (grace : bool) (found : nlm_lookup) (arg : nlm4_args) (lock : fsal_lock_param_t)
| call_Test (grace : bool) (found : nlm_lookup) (arg : nlm4_args) (lock : fsal_lock_param_t)
| call_Granted_Res (cookie : list Z) (granted : bool)
| call_send_grant_msg (client : loc) (cookie : list Z) (sent : bool).

Section server.
Context {FS : Type} `{!FsalOps FS} {env : OwnerEnv} {lenv : LockEnv}.
Variable fds_hard_limit : Z.
Implicit Types w : world FS.

Definition call_body (c : nlm_call) : M (world FS) unit :=
  match c with
  | call_Lock grace fg monitor found arg lock =>
      nlm4_Lock fds_hard_limit grace fg monitor found arg lock;; mret tt
  | call_Unlock grace found arg lock => nlm4_Unlock grace found arg lock;; mret tt
  | call_Cancel grace found arg lock => nlm4_Cancel grace found arg lock;; mret tt
  | call_Test grace found arg lock => nlm4_Test fds_hard_limit grace found arg lock;; mret tt
  | call_Granted_Res cookie granted => nlm4_Granted_Res cookie granted
  | call_send_grant_msg client cookie sent => nlm4_send_grant_msg client cookie sent
  end.

(** The call runs in the context of the export of its file handle, if there is
    one. *)
Definition run_call (export : option loc) (c : nlm_call) : M (world FS) unit :=
  modify (set_export (fun _ => export));;
  when (bool_decide (export <> None))
    (modify (set_fsal_export (fun fe => from_option exp_fsal_export fe export)));;
  call_body c.

(** What the server relies on: cookies are left, the file of the call is in the
    cache, a range does not go over 64 bits, block data for a request that may
    block could be allocated, and an answer is not to a grant that was given up. *)
Definition call_ok (c : nlm_call) w : Prop :=
  room w /\
  match c with
  | call_Lock _ _ _ found arg lock =>
      found_ok found w /\ range_ok (asked arg lock) /\ (nl_block arg = true -> memory_ok w)
  | call_Unlock _ found arg lock => found_ok found w /\ range_ok (fill_plock false (na_alock arg) lock)
  | call_Cancel _ found _ _ | call_Test _ found _ _ => found_ok found w
  | call_Granted_Res cookie _ | call_send_grant_msg _ cookie _ => cookie_valid cookie w
  end.

(** Nothing is locked. *)
Definition initial w : Prop :=
  w_locks w = ∅ /\ w_blocks w = ∅ /\ w_cookies w = ∅ /\ w_ht_lock_cookies w = ∅ /\ forall h, w_lists w h = [].

Inductive reachable : world FS -> Prop :=
| reach_init w : initial w -> reachable w
| reach_step export c w w' : reachable w -> call_ok c w -> run_call export c w = Ret tt w' -> reachable w'.

Lemma initial_table w : initial w -> lock_table w.
Proof.
  intros (Hm & Hb & Hc & Hh & Hl). split; rewrite ?Hm; try done.
  - split; rewrite ?Hm, ?Hb, ?Hc, ?Hh; [by split|by split| |].
    + intros a e. by rewrite Hm.
    + intros b. rewrite lookup_empty. by intros [].
  - intros a e. by rewrite Hm.
  - intros g. rewrite Hl. split; [apply NoDup_nil_2|]. by intros a ?%elem_of_nil.
  - by intros a ?%elem_of_nil.
  - intros g h' a _. rewrite Hl. by intros ?%elem_of_nil.
  - intros g. by rewrite Hl.
  - intros c d. by rewrite Hc.
Qed.
End server.

Section safety.
Context {FS : Type} `{!FsalOps FS} {HSL : ServerLocks FS} {env : OwnerEnv} {lenv : LockEnv}.
Variable fds_hard_limit : Z.
Implicit Types w : world FS.

Lemma wp_send_grant_msg client cookie sent w :
  lock_table w -> room w -> cookie_valid cookie w ->
  wp (nlm4_send_grant_msg client cookie sent) (fun _ => lock_table) w.
Proof.
  intros HL Hroom Hv. unfold nlm4_send_grant_msg, dec_ref. apply wp_bind, wp_prep_ref; [done|]. intros w1 HL1 Hp1.
  destruct sent; [by apply wp_ret|]. pose proof (prepared_room w w1 Hp1 Hroom) as Hroom1.
  destruct Hp1 as [[= Hm1 _ Hc1 Hh1 _ _ _ _ _] _]. unfold state_find_grant. apply wp_bind, wp_bind, wp_gets.
  rewrite Hh1. destruct (w_ht_lock_cookies w !! cookie) as [c|] eqn:Hk; [|by apply wp_ret, wp_ret].
  apply wp_bind, wp_modify, wp_ret. destruct (Hv c Hk) as [d Hd]. rewrite <- Hc1 in Hd.
  destruct (ln_cookie _ _ _ (bk_linked _ (tb_books _ _ _ HL1)) c d Hd) as (e & He & (b & bd & Hb & _)%attached_some).
  apply (table_find 1 [] w1 cookie) in HL1. set (w2 := set_ht_lock_cookies _ w1) in *.
  apply wp_bind, (wp_deref (fun w => w_cookies w !! c) _ w2 d Hd).
  apply wp_bind, (wp_deref (fun w => w_locks w !! sce_lock_entry d) _ w2 e He). rewrite decide_False by congruence.
  assert (room w2 /\ w_cookies w2 !! c = Some d /\ w_locks w2 !! sce_lock_entry d = Some e) as (Hroom2 & Hd2 & He2) by done.
  clearbody w2. apply wp_bind, wp_prep_ref; [done|]. intros w3 HL3 Hp3.
  pose proof (prepared_room w2 w3 Hp3 Hroom2) as Hroom3. destruct Hp3 as [[= Hm3 _ Hc3 _ _ _ _ _ _] _].
  apply wp_bind, wp_root_context. set (w4 := set_fsal_export _ _).
  assert (lock_table w4) by (by apply (table_view 1 [] w3)).
  apply (wp_release_grant c d e); [done|done|by eexists|by simpl; rewrite Hc3|by simpl; rewrite Hm3|].
  intros w5 HL5 _. set (w6 := set_fsal_export _ (set_export _ w5)).
  assert (HL6 : lock_table w6) by (by apply (table_view 1 [] w5)). by apply wp_prep_ref.
Qed.

Lemma wp_run_call export c w :
  lock_table w -> call_ok c w -> wp (run_call fds_hard_limit export c) (fun _ => lock_table) w.
Proof.
  intros HL [Hroom Hok]. unfold run_call. apply wp_bind, wp_modify, wp_bind.
  assert (Hgo : forall w1, lock_table w1 -> (w_files w1, w_locks w1, w_choices w1, w_cookies w1, w_ht_lock_cookies w1,
      w_next_cookie w1) = (w_files w, w_locks w, w_choices w, w_cookies w, w_ht_lock_cookies w, w_next_cookie w) ->
    wp (call_body fds_hard_limit c) (fun _ => lock_table) w1).
  { intros w1 HL1 [= Hf Hm Hch Hc Hh Hn].
    assert (Hroom1 : room w1) by (apply (room_same w); [done|done|]; rewrite Hm; eauto).
    unfold found_ok, memory_ok, cookie_valid in Hok. rewrite <- Hf, <- Hch, <- Hc, <- Hh in Hok.
    destruct c as [? ? ? found arg lock|? found arg lock|? found arg lock|? found arg lock|cookie granted|client cookie sent]; simpl.
    - apply wp_bind. eapply wp_mono; [|by apply wp_nlm4_Lock; intuition]. intros r w2 [[? _] _]. by apply wp_ret.
    - apply wp_bind. eapply wp_mono; [|by apply wp_nlm4_Unlock; intuition]. intros r w2 [? _]. by apply wp_ret.
    - apply wp_bind. eapply wp_mono; [|by apply wp_nlm4_Cancel]. intros r w2 [? _]. by apply wp_ret.
    - apply wp_bind. eapply wp_mono; [|by apply wp_nlm4_Test]. intros r w2 [? _]. by apply wp_ret.
    - eapply wp_mono; [|by apply wp_Granted_Res]. by intros r w2 [? _].
    - by apply wp_send_grant_msg. }
  apply wp_when; intros _; [apply wp_modify|]; apply Hgo; try done; by apply (table_view 1 [] w).
Qed.

Lemma reachable_table w : reachable fds_hard_limit w -> lock_table w.
Proof.
  induction 1 as [w Hi|export c w w' _ IH Hok Hrun]; [by apply initial_table|].
  pose proof (wp_run_call export c w IH Hok) as Hwp. unfold wp in Hwp. by rewrite Hrun in Hwp.
Qed.

(** C3: whatever sequence of LOCK, UNLOCK, CANCEL and TEST calls, answers to
    GRANTED messages and failures to send one the server has run, in any
    interleaving, no two owners have (or are being granted) locks on a common byte
    of a file of which one is exclusive, and the next call runs to its end: it
    follows no dangling pointer and no loop goes on forever.  It holds for calls
    that are [call_ok]: the file is in the cache, a range does not go over 64 bits, a
    request that may block finds memory for its block data, an answer is not to a
    grant that was given up, and the counter of cookies does not go round; what
    happens otherwise is in [nlm_wrapped_range_shared], [nlm_lock_without_block_data]
    and [canceled_grant_dangles]. *)
Theorem nlm_server_safe w :
  reachable fds_hard_limit w ->
  (forall f a1 a2 e1 e2 b, a1 ∈ w_lists w (file_lock_list f) -> a2 ∈ w_lists w (file_lock_list f) ->
     w_locks w !! a1 = Some e1 -> w_locks w !! a2 = Some e2 -> ~ clash e1 e2 b) /\
  (forall export c, call_ok c w -> exists w', run_call fds_hard_limit export c w = Ret tt w').
Proof.
  intros HL%reachable_table. split.
  - intros f a1 a2 e1 e2 b Ha1 Ha2. apply (table_nil 1 f) in HL. pose proof (tb_free _ _ _ HL f) as Hcf.
    rewrite decide_True in Hcf by done. by apply (Hcf a1 a2).
  - intros export c Hok. pose proof (wp_run_call export c w HL Hok) as Hwp. unfold wp in Hwp.
    destruct (run_call _ _ _ w) as [[] w'| | |]; try done. by exists w'.
Qed.


(** C17: [nlm4_Unlock] keeps the lock table.  GRANTED means that the owner holds no
    byte of the range, holds what it held outside it, has no request waiting for
    it, that the locks of others are as they were, and that whoever still waits on
    the file conflicts with a lock; otherwise the granted locks are as they were.
    With memory, the unlock of a regular file in the cache succeeds. *)
Theorem nlm4_Unlock_correct grace found arg lock w :
  lock_table w -> room w -> found_ok found w -> range_ok (fill_plock false (na_alock arg) lock) ->
  wp (nlm4_Unlock grace found arg lock) (Unlock_result grace found arg lock w) w.
Proof. apply wp_nlm4_Unlock. Qed.

(** C26: [nlm4_Cancel] keeps the lock table and the granted locks; GRANTED means
    that the first waiting request of the owner for exactly that lock is off the
    list, and that whoever still waits conflicts with a lock. *)
Theorem nlm4_Cancel_correct grace found arg lock w :
  lock_table w -> room w -> found_ok found w ->
  wp (nlm4_Cancel grace found arg lock) (Cancel_result grace found arg lock w) w.
Proof. apply wp_nlm4_Cancel. Qed.


(** C20: [nlm4_Granted_Res] keeps the lock table.  When the client accepts the lock
    that is being granted under the cookie, its owner holds every byte of it and
    the cookie is freed; when it does not, the entry is gone and the granted locks
    are as they were; in both cases whoever still waits conflicts with a lock. *)
Theorem nlm4_Granted_Res_correct cookie granted w :
  lock_table w -> room w -> cookie_valid cookie w ->
  wp (nlm4_Granted_Res cookie granted) (fun _ => answer_post cookie granted w) w.
Proof. apply wp_Granted_Res. Qed.
End safety.

(** * Concrete runs *)

(** An FSAL without locks whose files are open, and NLM owners that differ in
    their process number, all of one client. *)
Module NlmExamples.
Definition fsal : FsalOps unit := {|
  fs_supports _ _ := false;
  obj_lock_op fs _ _ _ param := (ERR_FSAL_NOTSUPP, param, fs);
  obj_share_op fs _ _ := (ERR_FSAL_NOTSUPP, fs);
  obj_status _ _ := FSAL_O_RDWR;
  obj_open fs _ _ := (ERR_FSAL_NO_ERROR, fs);
  obj_reopen fs _ _ := (ERR_FSAL_NO_ERROR, fs);
  obj_close fs _ := (ERR_FSAL_NO_ERROR, fs)
|}.

Definition server_locks : @ServerLocks unit fsal.
Proof. split; done. Defined.

Definition owners : OwnerEnv := {|
  owner_of a := mk_owner STATE_LOCK_OWNER_NLM [Z.pos a] 0 None 3 (Z.pos a) 0;
  nlm_client_of _ := mk_nlm_client 2 0 (AF_INET 0 0) [];
  nsm_client_of _ := mk_nsm_client (AF_INET 0 0) [];
  nsm_use_caller_name := false
|}.

Definition lock_env : LockEnv := {|
  unknown_owner := 9%positive;
  exp_fsal_export _ := 8%positive;
  gc_seconds := 7;
  gc_microseconds := 0;
  sbd_nlm_fh _ := [1]
|}.

(** One regular file, 1, and nothing locked; addresses from 10 on are free. *)
Definition start : world unit :=
  mk_world tt 0 false {[1%positive := mk_cache_entry REGULAR_FILE LRU_ENTRY_L1 1 0 true 1 (mk_share 0 0 0 0 0)]}
    ∅ ∅ ∅ ∅ ∅ ∅ (fun _ => []) (fun _ => 0) 10 [] 0 None 8 [].

Definition junk : fsal_lock_param_t := mk_lock_param FSAL_POSIX_LOCK FSAL_NO_LOCK 0 0 false.
Definition found (owner : loc) : nlm_lookup := mk_lookup (Some 1%positive) (Some 2%positive) (Some 3%positive) (Some owner).
Definition lock_args (block : bool) (offset len : Z) : nlm4_lockargs :=
  mk_nlm4_lockargs [] block true (mk_nlm4_lock offset len) false 7.
Definition args (offset len : Z) : nlm4_args := mk_nlm4_args [] true (mk_nlm4_lock offset len).

(** The store after a call through export 4, and after several. *)
Definition lock_call (owner : loc) (block : bool) (offset len : Z) : nlm_call :=
  call_Lock false false true (found owner) (lock_args block offset len) junk.
Definition unlock_call (owner : loc) (offset len : Z) : nlm_call :=
  call_Unlock false (found owner) (args offset len) junk.

#[export] Existing Instances fsal server_locks owners lock_env.

Definition after (w : world unit) (c : nlm_call) : world unit :=
  match run_call 100 (Some 4%positive) c w with Ret _ w' => w' | _ => w end.
Definition run (cs : list nlm_call) : world unit := foldl after start cs.
End NlmExamples.

Section runs.
Import NlmExamples.

(** There are cookies enough when there are more than locks. *)
Lemma room_small (w : world unit) :
  0 <= w_next_cookie w -> w_next_cookie w + Z.of_nat (size (w_locks w)) <= UINT64_MAX -> room w.
Proof.
  intros H0 Hs. split; [done|]. intros l Hnd Hl.
  assert (Hle : (length l <= size (w_locks w))%nat); [|lia].
  rewrite <- (size_dom (D := gset loc)), <- (size_list_to_set (C := gset loc) l Hnd). apply subseteq_size.
  intros a. rewrite elem_of_list_to_set, elem_of_dom. intros (e & ? & _)%Hl. by eexists.
Qed.

Lemma start_reachable : reachable 100 start.
Proof. apply reach_init. done. Qed.

Lemma after_reachable w c :
  reachable 100 w -> call_ok c w -> reachable 100 (after w c).
Proof.
  intros Hr Hok. apply (reach_step 100 (Some 4%positive) c w); try done. unfold after.
  pose proof (wp_run_call 100 (Some 4%positive) c w) as Hwp. unfold wp in Hwp.
  destruct (run_call _ _ _ w) as [[] w'| | |]; try done; exfalso; apply Hwp; try done; by eapply reachable_table.
Qed.

Lemma reachable_request w :
  reachable 100 w -> lock_table (set_export (fun _ => Some 4%positive) w).
Proof. intros Hr%reachable_table. by apply (table_view 1 [] w). Qed.

(** Owner 5 has bytes 0 to 99; owner 6 waits for bytes 50 to 59; it is being granted
    them after owner 5 unlocked. *)
Definition held_world : world unit := after start (lock_call 5 false 0 100).
Definition waiting_world : world unit := after held_world (lock_call 6 true 50 10).
Definition granting_world : world unit := after waiting_world (unlock_call 5 0 0).

Ltac run_ok :=
  cbv beta iota delta [call_ok lock_call unlock_call];
  repeat match goal with
  | |- _ /\ _ => split
  | |- room _ => apply room_small; vm_compute; congruence
  | |- found_ok _ _ => intros ? [= <-]; vm_compute; by eexists
  | |- range_ok _ => vm_compute; intuition congruence
  | |- _ = true -> memory_ok _ => intros _; vm_compute; constructor
  end.

Lemma held_reachable : reachable 100 held_world.
Proof. apply after_reachable; [apply start_reachable|]. run_ok. Qed.

Lemma waiting_reachable : reachable 100 waiting_world.
Proof. apply after_reachable; [apply held_reachable|]. run_ok. Qed.

Lemma granting_reachable : reachable 100 granting_world.
Proof. apply after_reachable; [apply waiting_reachable|]. run_ok. Qed.

(** After owner 5 unlocked, the grant to owner 6 is under way and any answer can be
    processed. *)
Lemma nlm_server_safe_witness :
  reachable 100 granting_world /\
  exists w', run_call 100 None (call_Granted_Res [7; 0; 1] true) granting_world = Ret tt w'.
Proof.
  split; [apply granting_reachable|]. apply (nlm_server_safe 100 granting_world granting_reachable).
  split; [run_ok|]. intros c Hc. vm_compute in Hc. injection Hc as <-. vm_compute. by eexists.
Defined.


(** Owner 5 unlocks bytes 40 to 49. *)
Lemma nlm4_Unlock_correct_witness :
  let w := set_export (fun _ => Some 4%positive) held_world in
  lock_table w /\ wp (nlm4_Unlock false (found 5) (args 40 10) junk)
    (fun r w' => Unlock_result false (found 5) (args 40 10) junk w r w') w.
Proof.
  intros w. pose proof (reachable_request _ held_reachable) as HL. split; [exact HL|].
  apply nlm4_Unlock_correct; [exact HL|run_ok..].
Defined.

(** Owner 6 gives up its request. *)
Lemma nlm4_Cancel_correct_witness :
  let w := set_export (fun _ => Some 4%positive) waiting_world in
  lock_table w /\ wp (nlm4_Cancel false (found 6) (args 50 10) junk)
    (fun r w' => Cancel_result false (found 6) (args 50 10) junk w r w') w.
Proof.
  intros w. pose proof (reachable_request _ waiting_reachable) as HL. split; [exact HL|].
  apply nlm4_Cancel_correct; [exact HL|run_ok..].
Defined.


(** The client of owner 6 accepts the lock. *)
Lemma nlm4_Granted_Res_correct_witness :
  let w := granting_world in
  lock_table w /\ wp (nlm4_Granted_Res [7; 0; 1] true) (fun _ => answer_post [7; 0; 1] true w) w.
Proof.
  intros w. pose proof (reachable_table 100 _ granting_reachable) as HL. split; [exact HL|].
  apply nlm4_Granted_Res_correct; [exact HL|run_ok|].
  intros c Hc. vm_compute in Hc. injection Hc as <-. vm_compute. by eexists.
Defined.

(** The cache entry of the file on which owner 5 has its lock is being destroyed, and a
    request still refers to it. *)
Lemma owner_unlock_dead_entry_spins_witness :
  let w := set_files (alter (with_qid LRU_ENTRY_CLEANUP) 1%positive) held_world in
  w_lists w (so_lock_list 5) = [11%positive] /\ state_owner_unlock_all 1000 5 (Some 7%positive) w = Stuck.
Proof.
  intros w. assert (Hl : w_lists w (so_lock_list 5) = [11%positive]) by (vm_compute; reflexivity).
  split; [exact Hl|]. apply owner_unlock_dead_entry_spins. split; rewrite Hl; [congruence|].
  intros a ->%list_elem_of_singleton. eexists _, _.
  split; [vm_compute; reflexivity|]. split; [reflexivity|]. split; [vm_compute; congruence|].
  split; [vm_compute; reflexivity|]. split; [reflexivity|vm_compute; congruence].
Defined.

(** ** Where the code does not keep its promises *)

(** without memory for its block data, a request that may block and conflicts
    makes the server follow a null pointer ([state_lock] writes to the block data of
    a request it puts on the list), where the comment in [nlm_process_parameters]
    promises that the lock then does not block. *)
Theorem nlm_lock_without_block_data :
  run_call 100 (Some 4%positive) (lock_call 6 true 50 10) (set_choices (fun _ => [false]) held_world) = Undef.
Proof. vm_compute. reflexivity. Qed.

(** A grant whose GRANTED message cannot be queued is given up, but its cookie,
    freed, stays in the table: when a client then answers with that cookie the
    server follows a dangling pointer. *)
Theorem canceled_grant_dangles :
  let w := after (set_choices (fun _ => [true; true; true; true; true; true; true; true; false]) waiting_world)
             (unlock_call 5 0 0) in
  w_ht_lock_cookies w !! [7; 0; 1] = Some 14%positive /\ w_cookies w = ∅ /\
  run_call 100 None (call_Granted_Res [7; 0; 1] true) w = Undef.
Proof. vm_compute. done. Qed.

(** A range whose end goes over 64 bits conflicts with nothing: two owners get
    an exclusive lock on the same range, from byte 10 to an end that wraps to 4. *)
Theorem nlm_wrapped_range_shared :
  let grant o := nlm4_Lock 100 false false true (found o) (lock_args false 10 (2 ^ 64 - 5)) junk in
  exists w a1 a2 e1 e2,
    (r1 ← grant 5%positive; r2 ← grant 6%positive; mret (r1.1, r2.1)) (set_export (fun _ => Some 4%positive) start)
      = Ret (NLM4_GRANTED, NLM4_GRANTED) w /\
    w_lists w (file_lock_list 1) = [a1; a2] /\ w_locks w !! a1 = Some e1 /\ w_locks w !! a2 = Some e2 /\
    sle_owner e1 = Some 5%positive /\ sle_owner e2 = Some 6%positive /\
    sle_blocked e1 = STATE_NON_BLOCKING /\ sle_blocked e2 = STATE_NON_BLOCKING /\ sle_lock e1 = sle_lock e2 /\
    lock_type (sle_lock e1) = FSAL_LOCK_W.
Proof. eexists _, _, _, _, _. split; [vm_compute; reflexivity|]. vm_compute. done. Qed.

(** the block data of a request that is granted at once is never freed: after
    a lock and the unlock of everything no lock is left, and the block data is. *)
Theorem granted_lock_leaks_block_data :
  let w := run [lock_call 5 false 0 100; unlock_call 5 0 0] in
  w_locks w = ∅ /\ w_blocks w !! 10%positive = Some (mk_block_data STATE_GRANT_NONE None None).
Proof. vm_compute. done. Qed.

(** a request that has to wait leaves a reference on the owner it waits for
    behind: after everybody gave everything up, owner 5 still has one. *)
Theorem blocked_lock_leaks_holder :
  let w := run [lock_call 5 false 0 100; lock_call 6 true 50 10;
                call_Cancel false (found 6) (args 50 10) junk; unlock_call 5 0 0] in
  w_locks w = ∅ /\ w_refs w (so_refcount 5) = 1 /\ w_refs w (so_refcount 6) = 0.
Proof. vm_compute. done. Qed.
End runs.
