(* ===== verification/NlmShare.v ===== *)
(** The share reservations of NLM (Protocols/NLM/nlm_Share.c, nlm_Unshare.c and
    [nlm_process_share_parms] of nlm_util.c): the handlers over the reservations
    of Share.v, what they answer, and runs on a small server.

    As in Nlm.v the results of the lookups come with the call and the reference on
    the cache entry is not modelled. *)

From S2P Require Import Prelude Status World Owner CacheEntry LockList LockHeap LockOps LockLedger LockTable LockAcquire Share Nlm NlmServer.

(** [nlm4_shareargs] without the parts that name the file and the owner. *)
Record nlm4_shareargs : Set := mk_nlm4_shareargs {
  ns_cookie : list Z;
  ns_access : Z;
  ns_mode : Z;
  ns_reclaim : bool
}.

(** The output parameters of [nlm_process_share_parms]. *)
Record share_parms : Set := mk_share_parms {
  sp_entry : loc;
  sp_nsm_client : loc;
  sp_nlm_client : loc;
  sp_owner : loc
}.

Section nlm_share.
Context {FS : Type} `{!FsalOps FS} {env : OwnerEnv}.
Abbreviation M := (M (world FS)).
Variable fds_hard_limit : Z.

Definition nlm_process_share_parms (found : nlm_lookup) (care : care_t) : M (nlm4_stats + share_parms) :=
  match lk_entry found with
  | None => mret (inl NLM4_STALE_FH)
  | Some entry =>
      match lk_nsm_client found with
      | None => mret (inl (not_found care))
      | Some nsm =>
          take_ref (ssc_refcount nsm);;
          match lk_nlm_client found with
          | None => dec_ref (ssc_refcount nsm);; mret (inl (not_found care))
          | Some nlm =>
              take_ref (slc_refcount nlm);;
              match lk_owner found with
              | None =>
                  dec_ref (ssc_refcount nsm);; dec_ref (slc_refcount nlm);;
                  mret (inl (not_found care))
              | Some owner =>
                  take_ref (so_refcount owner);;
                  mret (inr (mk_share_parms entry nsm nlm owner))
              end
          end
      end
  end.

(** The references of the parameters, at the end of a handler. *)
Definition put_parms (p : share_parms) : M unit :=
  dec_ref (ssc_refcount (sp_nsm_client p));;
  dec_ref (slc_refcount (sp_nlm_client p));;
  dec_ref (so_refcount (sp_owner p)).

(** [grace] is [nfs_in_grace()], [in_fsal_grace] is [fsal_grace()].  It is [grace],
    not the flag of the request, that goes down as the reclaim flag. *)
Definition nlm4_Share (grace in_fsal_grace : bool) (found : nlm_lookup) (arg : nlm4_shareargs) : M nlm4_stats :=
  export ← gets w_export;
  if decide (export = None) then mret NLM4_STALE_FH
  else
    copied ← netobj_alloc (ns_cookie arg);
    if negb copied then mret NLM4_FAILED
    else if negb in_fsal_grace && ((grace && negb (ns_reclaim arg)) || (negb grace && ns_reclaim arg))
    then mret NLM4_DENIED_GRACE_PERIOD
    else
      rc ← nlm_process_share_parms found CARE_NO_MONITOR;
      match rc with
      | inl stat => mret stat
      | inr p =>
          status ← state_nlm_share fds_hard_limit (sp_entry p) (ns_access arg) (ns_mode arg) (sp_owner p) grace;
          put_parms p;;
          mret (if decide (status <> STATE_SUCCESS) then nlm_convert_state_error status else NLM4_GRANTED)
      end.

Definition nlm4_Unshare (grace : bool) (found : nlm_lookup) (arg : nlm4_shareargs) : M nlm4_stats :=
  export ← gets w_export;
  if decide (export = None) then mret NLM4_STALE_FH
  else
    copied ← netobj_alloc (ns_cookie arg);
    if negb copied then mret NLM4_FAILED
    else if (grace && negb (ns_reclaim arg)) || (negb grace && ns_reclaim arg)
    then mret NLM4_DENIED_GRACE_PERIOD
    else
      rc ← nlm_process_share_parms found CARE_NOT;
      match rc with
      | inl stat => mret stat
      | inr p =>
          status ← state_nlm_unshare (sp_entry p) (ns_access arg) (ns_mode arg) (sp_owner p);
          put_parms p;;
          mret (if decide (status <> STATE_SUCCESS) then nlm_convert_state_error status else NLM4_GRANTED)
      end.
End nlm_share.

(** * What the handlers answer *)

Section answers.
Context {FS : Type} `{!FsalOps FS} {env : OwnerEnv}.
Variable fds_hard_limit : Z.
Implicit Types w : world FS.

Abbreviation shares_on w f := (w_lists w (file_nlm_share_list f)).

(** Steps that only touch reference counts and the supply of memory. *)
Definition idle_view w := (w_files w, w_nlm_shares w, w_lists w, w_next w, w_export w, w_fsal_export w).
Definition idles w w' : Prop :=
  idle_view w' = idle_view w /\ (memory_ok w -> memory_ok w') /\ open_part w' = open_part w.

#[local] Instance idles_refl : Reflexive idles.
Proof. done. Qed.
#[local] Instance idles_trans : Transitive idles.
Proof. intros w1 w2 w3 (H1 & M1 & O1) (H2 & M2 & O2). split_and!; [congruence|auto|congruence]. Qed.

Lemma idles_same f w w' : idles w w' -> same_shares f w w'.
Proof. intros [[= _ Hs Hl _ _ _] _]. split; congruence. Qed.

Lemma idles_held f O w w' : idles w w' -> nlm_held f O w -> nlm_held f O w'.
Proof.
  intros HI HN. apply (nlm_held_same f O w); [done|by apply idles_same| |].
  - destruct HI as [[= Hf _ _ _ _ _] _]. unfold tally, share_of. rewrite Hf. apply HN.
  - destruct HI as [[= _ _ _ Hn _ _] _]. rewrite Hn. done.
Qed.

Lemma wp_idle_netobj name (Q : bool -> world FS -> Prop) w :
  (forall b w', idles w w' -> (memory_ok w -> b = true) -> Q b w') -> wp (netobj_alloc name) Q w.
Proof.
  intros HQ. unfold netobj_alloc. case_bool_decide; [by apply wp_ret, HQ|]. apply wp_choose, HQ.
  - split; [done|]. split; [|done]. unfold memory_ok. simpl. by destruct (w_choices w) as [|b bs]; [|intros [_ ?]%Forall_cons].
  - unfold memory_ok. by destruct (w_choices w) as [|b bs]; [|intros [? _]%Forall_cons].
Qed.

Lemma wp_idle_ref r d (Q : unit -> world FS -> Prop) w : (forall w', idles w w' -> Q tt w') -> wp (ref_add r d) Q w.
Proof. intros HQ. by apply wp_modify, HQ. Qed.

Ltac idle_refs := repeat (first [apply wp_bind, wp_idle_ref|apply wp_idle_ref]; intros ? ?).

Lemma wp_put_parms p (Q : unit -> world FS -> Prop) w : (forall w', idles w w' -> Q tt w') -> wp (put_parms p) Q w.
Proof. intros HQ. unfold put_parms, dec_ref. idle_refs. apply HQ. by do 2 etrans. Qed.

Lemma wp_share_parms found care (Q : nlm4_stats + share_parms -> world FS -> Prop) w :
  (forall stat w', idles w w' -> (forall f o, ~ found_all found f o) -> (stat = NLM4_GRANTED -> care = CARE_NOT) -> Q (inl stat) w') ->
  (forall p w', idles w w' -> found_all found (sp_entry p) (sp_owner p) -> Q (inr p) w') ->
  wp (nlm_process_share_parms found care) Q w.
Proof.
  intros Hno Hok. unfold nlm_process_share_parms, take_ref, dec_ref, not_found, found_all in *. destruct found as [[e|] [nsm|] [nlm|] [o|]]; simpl in *.
  all: idle_refs; apply wp_ret; first [apply Hok|apply Hno]; try (by repeat (etrans; [eassumption|])).
  all: try (by intros f o' (? & ? & [=])); try done; try by destruct care.
  by exists nsm, nlm.
Qed.

(** A share is admitted in the grace period when it is a reclaim, and only then. *)
Definition admitted (grace reclaim : bool) : Prop := grace = reclaim.

Lemma admitted_test grace reclaim :
  (grace && negb reclaim) || (negb grace && reclaim) = false <-> admitted grace reclaim.
Proof. by destruct grace, reclaim. Qed.

(** The answer to SHARE. *)
Definition Share_result f O (o : loc) (grace in_fsal_grace : bool) (arg : nlm4_shareargs) w (stat : nlm4_stats) w' : Prop :=
  let r := (ns_access arg, ns_mode arg) in
  nlm_held f O w' /\
  (if decide (stat = NLM4_GRANTED) then
     existsb (clashes r) (nlm_rsvs f w ++ O) = false /\ (in_fsal_grace = true \/ admitted grace (ns_reclaim arg)) /\
     exists x export, w_export w = Some export /\ w_nlm_shares w !! x = None /\ shares_on w' f = shares_on w f ++ [x] /\
       w_nlm_shares w' = <[x := mk_nlm_share o f export (ns_access arg) (ns_mode arg)]> (w_nlm_shares w)
   else same_shares f w w') /\
  (memory_ok w -> is_Some (w_export w) -> in_fsal_grace = true \/ admitted grace (ns_reclaim arg) ->
   match access_error fds_hard_limit f (share_openflags (ns_access arg) grace w) w with
   | Some err => stat = nlm_convert_state_error (cache_inode_status_to_state_status err)
   | None => fsal_shares w = false ->
       stat = if existsb (clashes r) (nlm_rsvs f w ++ O) then NLM4_DENIED else NLM4_GRANTED
   end).

Lemma convert_granted status :
  (if decide (status <> STATE_SUCCESS) then nlm_convert_state_error status else NLM4_GRANTED) = nlm_convert_state_error status.
Proof. by destruct status. Qed.

Lemma convert_granted_iff status : nlm_convert_state_error status = NLM4_GRANTED <-> status = STATE_SUCCESS.
Proof. by destruct status. Qed.

(** A request that is refused before the state layer sees it. *)
Lemma share_turned_away f O o grace in_fsal_grace arg w w' stat :
  nlm_held f O w -> idles w w' -> stat <> NLM4_GRANTED ->
  (memory_ok w -> is_Some (w_export w) -> in_fsal_grace = true \/ admitted grace (ns_reclaim arg) -> False) ->
  Share_result f O o grace in_fsal_grace arg w stat w'.
Proof.
  intros HN HI Hs Hwhy. split; [by apply (idles_held f O w)|]. rewrite decide_False by done.
  split; [by apply idles_same|]. intros Hm Hx Ha. by destruct Hwhy.
Qed.

(** C30: NLM_SHARE: the request is granted only when no other reservation on the
    file, of NLM or of an open, denies its access or has the access that it
    denies, and it is then entered with its modes; every other answer leaves the
    reservations as they were.  And the answer is decided: with memory, a request that
    may be made now gets the error of the file when that cannot be pinned or opened;
    otherwise, with an FSAL without reservations of its own, it is granted when it
    clashes with nothing and denied when it clashes.  The number of reservations on
    the file fits 32 bits. *)
Theorem nlm4_Share_correct f O o grace in_fsal_grace found arg w :
  nlm_held f O w -> found_all found f o -> fits ((ns_access arg, ns_mode arg) :: nlm_rsvs f w ++ O) ->
  wp (nlm4_Share fds_hard_limit grace in_fsal_grace found arg) (Share_result f O o grace in_fsal_grace arg w) w.
Proof.
  intros HN Hfound Hfit. unfold nlm4_Share. apply wp_bind, wp_gets. case_decide as Hx.
  { apply wp_ret, share_turned_away; try done. rewrite Hx. by intros _ [? ?]. }
  apply wp_bind, wp_idle_netobj. intros b w1 HI1 Hb. destruct b; simpl.
  2: { apply wp_ret, share_turned_away; try done. intros Hm. by specialize (Hb Hm). }
  destruct (negb in_fsal_grace && _) eqn:Hg.
  { apply wp_ret, share_turned_away; try done. apply andb_true_iff in Hg as [Hf Hg]. intros _ _ [->|Ha]; [done|].
    apply admitted_test in Ha. congruence. }
  assert (Ha : in_fsal_grace = true \/ admitted grace (ns_reclaim arg)).
  { destruct in_fsal_grace; [by left|right]. by apply admitted_test. }
  apply wp_bind, wp_share_parms.
  { intros stat w2 _ Hno _. by destruct (Hno f o). }
  intros p w2 HI2 Hp. destruct Hfound as (nsm & nlm & ->), Hp as (? & ? & [= -> -> -> ->]).
  assert (HI : idles w w2) by by etrans. pose proof HI as ([= Hff Hss Hll Hnn Hxx Hfx] & Hmm & Hoo).
  assert (Hacc : forall fl, access_error fds_hard_limit (sp_entry p) fl w2 = access_error fds_hard_limit (sp_entry p) fl w)
    by (intros fl; by apply access_error_same).
  assert (Hfl : share_openflags (ns_access arg) grace w2 = share_openflags (ns_access arg) grace w)
    by (unfold share_openflags; by rewrite Hfx).
  destruct (w_export w) as [e|] eqn:Hwx; [|done].
  assert (Hr : nlm_rsvs (sp_entry p) w2 = nlm_rsvs (sp_entry p) w) by (unfold nlm_rsvs; by rewrite Hss, Hll).
  apply wp_bind. eapply wp_mono; [|apply (wp_state_nlm_share fds_hard_limit _ O _ _ _ e)].
  2: apply (idles_held _ O w); [by etrans|done]. 2: done. 2: by rewrite Hr.
  intros status w3 (HN3 & Hres & Hfree). apply wp_bind, wp_put_parms. intros w4 HI4. apply wp_ret. rewrite convert_granted.
  split; [by apply (idles_held _ O w3)|]. rewrite Hr in Hres, Hfree. pose proof HI4 as [[= _ Hs4 Hl4 _ _ _] _]. split.
  - destruct (decide (status = STATE_SUCCESS)) as [Hst|Hst].
    + rewrite decide_True by (by apply convert_granted_iff). rewrite Hss, Hll in Hres. rewrite Hs4, Hl4.
      destruct Hres as (Hcl & y & x' & Hx' & Hy). split_and!; [done|done|]. exists y, x'. split; [congruence|exact Hy].
    + rewrite decide_False by (by rewrite convert_granted_iff). destruct Hres as [Hl3 Hs3]. split; congruence.
  - intros Hm _ _. rewrite Hfl, Hacc in Hfree. destruct (access_error _ _ _ w); [by rewrite Hfree|]. intros Hfs.
    unfold fsal_shares in *. rewrite Hfx in Hfree. rewrite (Hfree (Hmm Hm) Hfs). by destruct (existsb _ _).
Qed.

(** The answer to UNSHARE. *)
Definition Unshare_result f O (o : loc) (grace : bool) (arg : nlm4_shareargs) w (stat : nlm4_stats) w' : Prop :=
  (exists gone todo, unshared f O (ns_access arg) (ns_mode arg) o w gone todo w' /\ (stat = NLM4_GRANTED -> todo = [])) /\
  (memory_ok w -> fsal_shares w = false -> is_Some (w_export w) -> admitted grace (ns_reclaim arg) ->
     stat = if decide (ce_qid <$> w_files w !! f = Some LRU_ENTRY_CLEANUP) then NLM4_FAILED else NLM4_GRANTED).

Lemma unshared_idles f O access deny o w0 w w1 w' gone todo :
  idles w0 w -> idles w1 w' -> unshared f O access deny o w gone todo w1 -> unshared f O access deny o w0 gone todo w'.
Proof.
  intros [[= _ Hs Hl _ Hx Hfx] _] HI1 []. pose proof HI1 as [[= _ Hs1 Hl1 _ Hx1 Hfx1] _].
  assert (Ht : forall a, taken access deny o w a <-> taken access deny o w0 a) by (intros a; unfold taken; by rewrite Hs, Hx).
  split; [by apply (idles_held f O w1)|by rewrite <- Hl| | |destruct us_ctx; split; congruence].
  - rewrite Hl1, us_list. f_equal. apply list_filter_iff. intros a. by rewrite Ht.
  - intros a. rewrite Hs1, us_mem, Hs. apply decide_ext. by rewrite Ht.
Qed.

Lemma unshare_turned_away f O o grace arg w w' stat :
  nlm_held f O w -> idles w w' -> stat <> NLM4_GRANTED ->
  (memory_ok w -> is_Some (w_export w) -> admitted grace (ns_reclaim arg) -> False) -> Unshare_result f O o grace arg w stat w'.
Proof.
  intros HN HI Hs Hwhy. split; [|intros Hm _ Hx Ha; by destruct Hwhy]. exists [], (shares_on w f). split; [|done].
  by apply (unshared_idles _ _ _ _ _ w w w w').
Qed.

(** C31: NLM_UNSHARE: it takes off the file exactly the shares of the owner that
    were made through the export of the request with the modes given, or with any
    modes when the access given is none, and keeps the counters of the file those
    of the reservations left; when the answer is not GRANTED a part of the
    matching shares may be left; with memory, and an FSAL without reservations of
    its own, a request that may be made now is granted, or fails when the cache entry
    of the file is being destroyed. *)
Theorem nlm4_Unshare_correct f O o grace found arg w :
  nlm_held f O w -> found_all found f o ->
  wp (nlm4_Unshare grace found arg) (Unshare_result f O o grace arg w) w.
Proof.
  intros HN Hfound. unfold nlm4_Unshare. apply wp_bind, wp_gets. case_decide as Hx.
  { apply wp_ret, unshare_turned_away; try done. rewrite Hx. by intros _ [? ?]. }
  apply wp_bind, wp_idle_netobj. intros b w1 HI1 Hb. destruct b; simpl.
  2: { apply wp_ret, unshare_turned_away; try done. intros Hm. by specialize (Hb Hm). }
  destruct (_ || _) eqn:Hg.
  { apply wp_ret, unshare_turned_away; try done. intros _ _ Ha%admitted_test. congruence. }
  apply wp_bind, wp_share_parms.
  { intros stat w2 _ Hno _. by destruct (Hno f o). }
  intros p w2 HI2 Hp. destruct Hfound as (nsm & nlm & ->), Hp as (? & ? & [= -> -> -> ->]).
  assert (HI : idles w w2) by by etrans. apply wp_bind. eapply wp_mono; [|apply wp_state_nlm_unshare, (idles_held _ _ w); [exact HI|exact HN]].
  intros status w3 [(gone & todo & HU & Htodo) Hfree]. apply wp_bind, wp_put_parms. intros w4 HI4. apply wp_ret.
  rewrite convert_granted. split.
  - exists gone, todo. rewrite convert_granted_iff. split; [by apply (unshared_idles _ _ _ _ _ w w2 w3 w4)|done].
  - intros _ Hfs _ _. destruct HI as [[= Hff _ _ _ _ Hfx] _]. unfold fsal_shares in *.
    rewrite Hfx, Hff in Hfree. rewrite (Hfree Hfs). by case_decide.
Qed.

(** An unshare of an owner that nobody knows has nothing to do. *)
Lemma wp_Unshare_unknown f grace found arg w :
  (forall f o, ~ found_all found f o) -> wp (nlm4_Unshare grace found arg) (fun _ w' => same_shares f w w') w.
Proof.
  intros Hno. unfold nlm4_Unshare. apply wp_bind, wp_gets. case_decide; [by apply wp_ret|].
  apply wp_bind, wp_idle_netobj. intros b w1 HI1 _. destruct b; simpl; [|by apply wp_ret, idles_same].
  destruct (_ || _); [by apply wp_ret, idles_same|]. apply wp_bind, wp_share_parms.
  - intros stat w2 HI2 _ _. apply wp_ret, idles_same. by etrans.
  - intros p w2 _ []%Hno.
Qed.
End answers.

(** * Runs *)

Module ShareExamples.
Import NlmExamples.

(** A request for access [access] that denies [deny]. *)
Definition share_args (access deny : Z) : nlm4_shareargs := mk_nlm4_shareargs [1] access deny false.

Definition after_share (w : world unit) (owner : loc) (access deny : Z) : nlm4_stats * world unit :=
  match nlm4_Share 100 false false (found owner) (share_args access deny) w with
  | Ret r w' => (r, w') | _ => (NLM4_FAILED, w) end.
Definition after_unshare (w : world unit) (owner : loc) (access deny : Z) : nlm4_stats * world unit :=
  match nlm4_Unshare false (found owner) (share_args access deny) w with
  | Ret r w' => (r, w') | _ => (NLM4_FAILED, w) end.

Definition opened : world unit := set_export (fun _ => Some 4%positive) start.

(** Owner 5 reads and denies writing. *)
Definition shared : world unit := (after_share opened 5 1 2).2.
End ShareExamples.

Section share_runs.
Import NlmExamples ShareExamples.

Lemma opened_held : nlm_held 1 [] opened.
Proof.
  split.
  - apply NoDup_nil_2.
  - by intros a []%not_elem_of_nil.
  - by intros a [? ?].
  - done.
  - done.
  - done.
Qed.

(** Owner 5 shares the file, and then takes the share back. *)
Lemma nlm4_Share_correct_witness :
  nlm_held 1 [] opened /\
  wp (nlm4_Share 100 false false (found 5) (share_args 1 2)) (fun stat w' => stat = NLM4_GRANTED /\
    exists x, w_lists w' (file_nlm_share_list 1) = [x]) opened.
Proof.
  split; [exact opened_held|].
  eapply wp_mono; [|apply (nlm4_Share_correct 100 1 [] 5 false false (found 5) (share_args 1 2) opened);
    [exact opened_held|by eexists _, _|done]].
  intros stat w' (_ & Hres & Hdec).
  assert (Hstat : stat = NLM4_GRANTED).
  { assert (Hacc : access_error 100 1 (share_openflags 1 false opened) opened = None) by (vm_compute; reflexivity).
    specialize (Hdec ltac:(apply Forall_nil_2) ltac:(by eexists) ltac:(by right)).
    unfold share_args in Hdec. cbn [ns_access ns_mode] in Hdec. rewrite Hacc in Hdec. by apply Hdec. }
  split; [done|]. rewrite decide_True in Hres by done. destruct Hres as (_ & _ & x & e & _ & _ & Hl & _). by exists x.
Defined.

Definition shared_share : loc := 10.

Lemma shared_held : nlm_held 1 [] shared.
Proof.
  split.
  - vm_compute. apply NoDup_singleton.
  - intros a Ha. vm_compute in Ha. apply list_elem_of_singleton in Ha as ->. vm_compute. by eexists.
  - intros a [s Hs]. destruct (decide (a = shared_share)) as [->|Hne]; [vm_compute; reflexivity|].
    assert (Hd : dom (w_nlm_shares shared) = {[shared_share]}) by (vm_compute; reflexivity).
    apply elem_of_dom_2 in Hs. rewrite Hd in Hs. by apply elem_of_singleton in Hs.
  - vm_compute. reflexivity.
  - vm_compute. auto.
  - vm_compute. congruence.
Qed.

Lemma nlm4_Unshare_correct_witness :
  nlm_held 1 [] shared /\
  wp (nlm4_Unshare false (found 5) (share_args 0 0)) (Unshare_result 1 [] 5 false (share_args 0 0) shared) shared.
Proof.
  split; [exact shared_held|]. apply nlm4_Unshare_correct; [exact shared_held|by eexists _, _].
Defined.

(** An open for reading, state 20, is added and then upgraded to writing. *)
Definition open_state : state_t := mk_state STATE_TYPE_SHARE 1 (mk_state_share 1 0 0 0).
Definition opening : world unit := set_states (fun _ => {[20%positive := open_state]}) opened.

Lemma share_calls_refine_witness :
  holds 1 ∅ [] opening /\
  wp (run_share 1 (call_add 20 false)) (refined 1 (call_add 20 false) (modes open_state) ∅ [] opening) opening.
Proof.
  assert (HH : holds 1 ∅ [] opening) by (split; [vm_compute; reflexivity|done|done|by intros st r Hst]).
  split; [exact HH|]. apply share_calls_refine; [exact HH|vm_compute; reflexivity|].
  split; [done|]. split; [split; simpl; lia|done].
Defined.

(** a share that is granted takes no reference on its owner, but the unshare
    that removes it gives one back: after the two calls the file and the lists are
    as before, and the owner has one reference less than before. *)
Theorem share_loses_owner_reference :
  let w := opened in let '(granted, w1) := after_share w 5 1 2 in let '(removed, w2) := after_unshare w1 5 1 2 in
  granted = NLM4_GRANTED /\ removed = NLM4_GRANTED /\
  w_lists w2 (file_nlm_share_list 1) = w_lists w (file_nlm_share_list 1) /\ share_of 1 w2 = share_of 1 w /\
  w_refs w1 (so_refcount 5) = w_refs w (so_refcount 5) /\ w_refs w2 (so_refcount 5) = w_refs w (so_refcount 5) - 1.
Proof. vm_compute. auto 10. Qed.
End share_runs.
