(* ===== verification/KurmaAttrs.v ===== *)
(** Attributes of the Kurma FSAL.

    FSAL/FSAL_KURMA/kurma.c converts between the attribute list of the FSAL API
    ([struct attrlist]) and the Thrift structure [ObjectAttributes] of the Kurma
    middleware; handle.c merges what the middleware returns into the attributes
    cached in a handle.  A Thrift field that is not set is [None]; an [assert]
    that fails is [fatal]. *)

From S2P Require Import Prelude Status World.

Record timespec : Set := mk_timespec { tv_sec : Z; tv_nsec : Z }.

Definition file_type_code (t : object_file_type_t) : Z :=
  match t with
  | NO_FILE_TYPE => 0 | REGULAR_FILE => 1 | CHARACTER_FILE => 2 | BLOCK_FILE => 3
  | SYMBOLIC_LINK => 4 | SOCKET_FILE => 5 | FIFO_FILE => 6 | DIRECTORY => 7
  | EXTENDED_ATTR => 8
  end.

(** ** Attribute masks *)

Definition ATTR_TYPE : Z := 0x2.
Definition ATTR_SIZE : Z := 0x4.
Definition ATTR_FSID : Z := 0x8.
Definition ATTR_FILEID : Z := 0x40.
Definition ATTR_MODE : Z := 0x80.
Definition ATTR_NUMLINKS : Z := 0x100.
Definition ATTR_OWNER : Z := 0x200.
Definition ATTR_GROUP : Z := 0x400.
Definition ATTR_RAWDEV : Z := 0x800.
Definition ATTR_ATIME : Z := 0x1000.
Definition ATTR_CREATION : Z := 0x2000.
Definition ATTR_CTIME : Z := 0x4000.
Definition ATTR_MTIME : Z := 0x8000.
Definition ATTR_SPACEUSED : Z := 0x10000.
Definition ATTR_CHGTIME : Z := 0x40000.

Definition FSAL_TEST_MASK (mask c : Z) : bool := bit_set mask c.
Definition FSAL_SET_MASK (mask c : Z) : Z := Z.lor mask c.

Record attrlist : Set := mk_attrlist {
  mask : Z;
  type : object_file_type_t;
  filesize : Z;
  fsid : Z * Z;
  fileid : Z;
  mode : Z;
  numlinks : Z;
  owner : Z;
  group : Z;
  rawdev : Z * Z;
  atime : timespec;
  creation : timespec;
  ctime : timespec;
  mtime : timespec;
  chgtime : timespec;
  spaceused : Z;
  expire_time_attr : Z;
  hints : Z
}.

(** [ObjectAttributes] of secnfs/proto/Namespace.thrift (the access-control
    list and [datasize] are not used by the FSAL). *)
Record ObjectAttributes : Set := mk_oattrs {
  k_filesize : option Z;
  k_owner_id : option Z;
  k_group_id : option Z;
  k_mode : option Z;
  k_nlinks : option Z;
  k_create_time : option Z;
  k_access_time : option Z;
  k_modify_time : option Z;
  k_change_time : option Z;
  k_nblocks : option Z;
  k_block_shift : option Z;
  k_rawdev : option Z;
  k_hints : option Z;
  k_remote_change_time : option Z
}.

Definition KURMA_HINT_SYMLINK : Z := 1.
Definition KURMA_HINT_HAS_SNAPSHOTS : Z := 2.

Definition time0 : timespec := mk_timespec 0 0.
(** [struct attrlist attrs = {0}]. *)
Definition attrs0 : attrlist :=
  mk_attrlist 0 NO_FILE_TYPE 0 (0, 0) 0 0 0 0 0 (0, 0) time0 time0 time0 time0 time0 0 0 0.

(** ** Times *)

Definition INT64_MAX : Z := 2 ^ 63 - 1.
Definition UTIME_NOW : Z := 2 ^ 30 - 1.
Definition UTIME_OMIT : Z := 2 ^ 30 - 2.

Definition millisecond_to_timespec (ms : Z) : timespec :=
  mk_timespec (Z.quot ms 1000) (Z.rem ms 1000 * 1000 * 1000).

(** Assignments to the fields of an attribute list. *)
Definition set_mask (x : Z) (a : attrlist) : attrlist :=
  mk_attrlist x (type a) (filesize a) (fsid a) (fileid a) (mode a) (numlinks a) (owner a)
    (group a) (rawdev a) (atime a) (creation a) (ctime a) (mtime a) (chgtime a) (spaceused a)
    (expire_time_attr a) (hints a).
Definition set_type (x : object_file_type_t) (a : attrlist) : attrlist :=
  mk_attrlist (mask a) x (filesize a) (fsid a) (fileid a) (mode a) (numlinks a) (owner a)
    (group a) (rawdev a) (atime a) (creation a) (ctime a) (mtime a) (chgtime a) (spaceused a)
    (expire_time_attr a) (hints a).
Definition set_filesize (x : Z) (a : attrlist) : attrlist :=
  mk_attrlist (mask a) (type a) x (fsid a) (fileid a) (mode a) (numlinks a) (owner a) (group a)
    (rawdev a) (atime a) (creation a) (ctime a) (mtime a) (chgtime a) (spaceused a)
    (expire_time_attr a) (hints a).
Definition set_mode (x : Z) (a : attrlist) : attrlist :=
  mk_attrlist (mask a) (type a) (filesize a) (fsid a) (fileid a) x (numlinks a) (owner a)
    (group a) (rawdev a) (atime a) (creation a) (ctime a) (mtime a) (chgtime a) (spaceused a)
    (expire_time_attr a) (hints a).
Definition set_numlinks (x : Z) (a : attrlist) : attrlist :=
  mk_attrlist (mask a) (type a) (filesize a) (fsid a) (fileid a) (mode a) x (owner a) (group a)
    (rawdev a) (atime a) (creation a) (ctime a) (mtime a) (chgtime a) (spaceused a)
    (expire_time_attr a) (hints a).
Definition set_owner (x : Z) (a : attrlist) : attrlist :=
  mk_attrlist (mask a) (type a) (filesize a) (fsid a) (fileid a) (mode a) (numlinks a) x
    (group a) (rawdev a) (atime a) (creation a) (ctime a) (mtime a) (chgtime a) (spaceused a)
    (expire_time_attr a) (hints a).
Definition set_group (x : Z) (a : attrlist) : attrlist :=
  mk_attrlist (mask a) (type a) (filesize a) (fsid a) (fileid a) (mode a) (numlinks a)
    (owner a) x (rawdev a) (atime a) (creation a) (ctime a) (mtime a) (chgtime a) (spaceused a)
    (expire_time_attr a) (hints a).
Definition set_rawdev (x : Z * Z) (a : attrlist) : attrlist :=
  mk_attrlist (mask a) (type a) (filesize a) (fsid a) (fileid a) (mode a) (numlinks a)
    (owner a) (group a) x (atime a) (creation a) (ctime a) (mtime a) (chgtime a) (spaceused a)
    (expire_time_attr a) (hints a).
Definition set_atime (x : timespec) (a : attrlist) : attrlist :=
  mk_attrlist (mask a) (type a) (filesize a) (fsid a) (fileid a) (mode a) (numlinks a)
    (owner a) (group a) (rawdev a) x (creation a) (ctime a) (mtime a) (chgtime a) (spaceused a)
    (expire_time_attr a) (hints a).
Definition set_creation (x : timespec) (a : attrlist) : attrlist :=
  mk_attrlist (mask a) (type a) (filesize a) (fsid a) (fileid a) (mode a) (numlinks a)
    (owner a) (group a) (rawdev a) (atime a) x (ctime a) (mtime a) (chgtime a) (spaceused a)
    (expire_time_attr a) (hints a).
Definition set_ctime (x : timespec) (a : attrlist) : attrlist :=
  mk_attrlist (mask a) (type a) (filesize a) (fsid a) (fileid a) (mode a) (numlinks a)
    (owner a) (group a) (rawdev a) (atime a) (creation a) x (mtime a) (chgtime a) (spaceused a)
    (expire_time_attr a) (hints a).
Definition set_mtime (x : timespec) (a : attrlist) : attrlist :=
  mk_attrlist (mask a) (type a) (filesize a) (fsid a) (fileid a) (mode a) (numlinks a)
    (owner a) (group a) (rawdev a) (atime a) (creation a) (ctime a) x (chgtime a) (spaceused a)
    (expire_time_attr a) (hints a).
Definition set_chgtime (x : timespec) (a : attrlist) : attrlist :=
  mk_attrlist (mask a) (type a) (filesize a) (fsid a) (fileid a) (mode a) (numlinks a)
    (owner a) (group a) (rawdev a) (atime a) (creation a) (ctime a) (mtime a) x (spaceused a)
    (expire_time_attr a) (hints a).
Definition set_spaceused (x : Z) (a : attrlist) : attrlist :=
  mk_attrlist (mask a) (type a) (filesize a) (fsid a) (fileid a) (mode a) (numlinks a)
    (owner a) (group a) (rawdev a) (atime a) (creation a) (ctime a) (mtime a) (chgtime a) x
    (expire_time_attr a) (hints a).
Definition set_hints (x : Z) (a : attrlist) : attrlist :=
  mk_attrlist (mask a) (type a) (filesize a) (fsid a) (fileid a) (mode a) (numlinks a)
    (owner a) (group a) (rawdev a) (atime a) (creation a) (ctime a) (mtime a) (chgtime a)
    (spaceused a) (expire_time_attr a) x.

(** ** Conversions *)

(** One [if (k_attrs->__isset_f) { FSAL_SET_MASK(..); attrs->f = ..; }] block. *)
Definition if_set {A} (x : option A) (c : Z) (f : A -> attrlist -> attrlist) (a : attrlist)
    : attrlist :=
  match x with
  | Some v => f v (set_mask (FSAL_SET_MASK (mask a) c) a)
  | None => a
  end.

Section conversions.
Context {W : Type}.

Definition assert_that (b : bool) : M W unit := if b then mret tt else fatal.

(** [1 << n] on a C [int]. *)
Definition int_shift1 (n : Z) : M W Z :=
  if (0 <=? n) && (n <=? 30) then mret (Z.shiftl 1 n) else undef.

(** Arithmetic on [int64_t]: an overflow is undefined. *)
Definition int64 (x : Z) : M W Z :=
  if (- 2 ^ 63 <=? x) && (x <=? INT64_MAX) then mret x else undef.

(** [timespec_to_ms]: [None] is the [false] of [UTIME_OMIT]; [now] is the
    current time. *)
Definition timespec_to_ms (now tm : timespec) : M W (option Z) :=
  if tv_nsec tm =? UTIME_OMIT then mret None
  else
    let mytm := if tv_nsec tm =? UTIME_NOW then now else tm in
    ms ← int64 (tv_sec mytm * 1000);
    ms ← int64 (ms + Z.quot (tv_nsec mytm) 1000000);
    mret (Some ms).

(** [fsal_attrs_to_kurma]: what a create, mkdir or setattrs request carries.
    Every [g_object_set] sets one property and its [__isset] flag; integers are
    read as the property's type.  The structure starts empty. *)
Definition fsal_attrs_to_kurma (now : timespec) (attrs : attrlist) : M W ObjectAttributes :=
  let on c (x : Z) : option Z := if FSAL_TEST_MASK (mask attrs) c then Some x else None in
  let on_time c tm := if FSAL_TEST_MASK (mask attrs) c then timespec_to_ms now tm else mret None in
  let owner_id :=
    match on ATTR_GROUP (i32 (group attrs)) with
    | Some g => Some g          (* the second g_object_set names owner_id again *)
    | None => on ATTR_OWNER (i32 (owner attrs))
    end in
  assert_that (negb (FSAL_TEST_MASK (mask attrs) ATTR_SIZE) || (filesize attrs <=? INT64_MAX));;
  access_time ← on_time ATTR_ATIME (atime attrs);
  modify_time ← on_time ATTR_MTIME (mtime attrs);
  change_time ← on_time ATTR_CTIME (ctime attrs);
  mret (mk_oattrs
    (on ATTR_SIZE (filesize attrs)) owner_id None (on ATTR_MODE (i32 (mode attrs)))
    (on ATTR_NUMLINKS (i32 (numlinks attrs))) (on ATTR_CREATION (tv_sec (creation attrs)))
    access_time modify_time change_time None None
    (on ATTR_RAWDEV (fst (rawdev attrs))) (Some (hints attrs)) None).

Definition nonneg (x : option Z) : bool := match x with Some v => 0 <=? v | None => true end.

Definition kurma_attrs_to_fsal (k : ObjectAttributes) (attrs : attrlist) : M W attrlist :=
  let a :=
    if bit_set (default 0 (k_hints k)) KURMA_HINT_SYMLINK then
      set_hints (default 0 (k_hints k))
        (set_type SYMBOLIC_LINK (set_mask (FSAL_SET_MASK (mask attrs) ATTR_TYPE) attrs))
    else attrs in
  let a := set_mask 0 a in
  assert_that (nonneg (k_filesize k));;
  let a := if_set (k_filesize k) ATTR_SIZE set_filesize a in
  let a := if_set (k_owner_id k) ATTR_OWNER (fun v => set_owner (u64 v)) a in
  let a := if_set (k_group_id k) ATTR_GROUP (fun v => set_group (u64 v)) a in
  assert_that (nonneg (k_mode k));;
  let a := if_set (k_mode k) ATTR_MODE set_mode a in
  assert_that (nonneg (k_nlinks k));;
  let a := if_set (k_nlinks k) ATTR_NUMLINKS set_numlinks a in
  let on_time x c set := if_set x c (fun ms => set (millisecond_to_timespec ms)) in
  let a := on_time (k_create_time k) ATTR_CREATION set_creation a in
  let a := on_time (k_access_time k) ATTR_ATIME set_atime a in
  let a := on_time (k_modify_time k) ATTR_MTIME set_mtime a in
  let a := on_time (k_change_time k) ATTR_CTIME set_ctime a in
  let a := on_time (k_remote_change_time k) ATTR_CHGTIME set_chgtime a in
  a ← match k_nblocks k, k_block_shift k with
      | Some n, Some s =>
          unit ← int_shift1 s;
          mret (if_set (Some (u64 (unit * n))) ATTR_SPACEUSED set_spaceused a)
      | _, _ => mret a
      end;
  let a := if_set (k_rawdev k) ATTR_RAWDEV (fun v => set_rawdev (u64 v, 0)) a in
  mret (set_hints (default 0 (k_hints k)) a).
End conversions.

(** One block of [set_attrs_override]: the attribute [c] of [attrs], if set. *)
Definition copy_attr (attrs : attrlist) (c : Z) (f : attrlist -> attrlist) (a : attrlist)
    : attrlist :=
  if FSAL_TEST_MASK (mask attrs) c then f (set_mask (FSAL_SET_MASK (mask a) c) a) else a.

(** [set_attrs_override] on the attributes of a handle, and the object type of
    the handle itself.  The type is taken when the {e type} has the bit
    [ATTR_TYPE], as the code is written. *)
Definition set_attrs_override (hdl : object_file_type_t * attrlist) (attrs : attrlist)
    : object_file_type_t * attrlist :=
  let copy := copy_attr attrs in
  let '(htype, a) := hdl in
  let '(htype, a) :=
    if bit_set (hints attrs) KURMA_HINT_SYMLINK
    then (SYMBOLIC_LINK, set_type SYMBOLIC_LINK a) else (htype, a) in
  let '(htype, a) :=
    if FSAL_TEST_MASK (file_type_code (type attrs)) ATTR_TYPE
    then (type attrs, set_type (type attrs) (set_mask (FSAL_SET_MASK (mask a) ATTR_TYPE) a))
    else (htype, a) in
  let a := copy ATTR_SIZE (set_filesize (filesize attrs)) a in
  let a := copy ATTR_OWNER (set_owner (owner attrs)) a in
  let a := copy ATTR_GROUP (set_group (group attrs)) a in
  let a := copy ATTR_MODE (set_mode (mode attrs)) a in
  let a := copy ATTR_NUMLINKS (set_numlinks (numlinks attrs)) a in
  let a := copy ATTR_CREATION (set_creation (creation attrs)) a in
  let a := copy ATTR_ATIME (set_atime (atime attrs)) a in
  let a := copy ATTR_MTIME (set_mtime (mtime attrs)) a in
  let a := copy ATTR_CTIME (set_ctime (ctime attrs)) a in
  let a := copy ATTR_CHGTIME (set_chgtime (chgtime attrs)) a in
  let a := copy ATTR_SPACEUSED (set_spaceused (spaceused attrs)) a in
  let a := copy ATTR_RAWDEV (set_rawdev (rawdev attrs)) a in
  (htype, a).

#[global] Arguments set_attrs_override : simpl never.

(** * Properties *)

Section if_set_lemmas.
Context {A B : Type} (π : attrlist -> B).
Context (x : option A) (c : Z) (f : A -> attrlist -> attrlist) (a : attrlist).

Lemma if_set_other :
  (forall v a, π (f v a) = π a) -> (forall m a, π (set_mask m a) = π a) ->
  π (if_set x c f a) = π a.
Proof. intros Hf Hm. destruct x; simpl; [by rewrite Hf, Hm|done]. Qed.
End if_set_lemmas.

Lemma if_set_mask {A} (x : option A) c f a :
  (forall v a, mask (f v a) = mask a) ->
  mask (if_set x c f a) = Z.lor (mask a) (if x is Some _ then c else 0).
Proof. intros Hf. destruct x; simpl; [by rewrite Hf|by rewrite Z.lor_0_r]. Qed.

Lemma i32_small x : 0 <= x < 2 ^ 31 -> i32 x = x.
Proof.
  intros. unfold i32. rewrite u32_small by (unfold UINT32_MAX; lia).
  by rewrite decide_True by lia.
Qed.

(** The milliseconds of a time, and that they fit. *)
Definition ms_of (now tm : timespec) : option Z :=
  if tv_nsec tm =? UTIME_OMIT then None
  else
    let t := if tv_nsec tm =? UTIME_NOW then now else tm in
    Some (tv_sec t * 1000 + Z.quot (tv_nsec t) 1000000).

Definition time_fits (now tm : timespec) : Prop :=
  let t := if tv_nsec tm =? UTIME_NOW then now else tm in
  0 <= tv_sec t /\ 0 <= tv_nsec t < 1000000000 /\ tv_sec t * 1000 + 999 <= INT64_MAX.

Lemma wp_timespec_to_ms {W} now tm (Q : option Z -> W -> Prop) w :
  tv_nsec tm = UTIME_OMIT \/ time_fits now tm -> Q (ms_of now tm) w -> wp (timespec_to_ms now tm) Q w.
Proof.
  intros Hf HQ. unfold timespec_to_ms, ms_of in *. destruct (Z.eqb_spec (tv_nsec tm) UTIME_OMIT); [by apply wp_ret|].
  destruct Hf as [?|(H1 & H2 & H3)]; [done|]. set (t := if tv_nsec tm =? UTIME_NOW then now else tm) in *.
  assert (0 <= Z.quot (tv_nsec t) 1000000 <= 999).
  { rewrite Z.quot_div_nonneg by lia. split; [apply Z.div_pos; lia|]. apply Z.lt_succ_r, Z.div_lt_upper_bound; lia. }
  assert (Hi : forall x (P : Z -> W -> Prop), 0 <= x <= INT64_MAX -> P x w -> wp (int64 x) P w).
  { intros x P Hx HP. unfold int64. rewrite (proj2 (andb_true_iff _ _)) by lia. by apply wp_ret. }
  apply wp_bind, Hi; [lia|]. apply wp_bind, Hi; [lia|]. by apply wp_ret.
Qed.

(** What a request carries when its size and its times fit. *)
Lemma wp_fsal_attrs_to_kurma {W} now a (Q : ObjectAttributes -> W -> Prop) w :
  (FSAL_TEST_MASK (mask a) ATTR_SIZE = true -> filesize a <= INT64_MAX) ->
  (forall c tm, (c, tm) ∈ [(ATTR_ATIME, atime a); (ATTR_MTIME, mtime a); (ATTR_CTIME, ctime a)] ->
     FSAL_TEST_MASK (mask a) c = true -> tv_nsec tm = UTIME_OMIT \/ time_fits now tm) ->
  (let on {A} c (x : option A) := if FSAL_TEST_MASK (mask a) c then x else None in
   Q (mk_oattrs (on ATTR_SIZE (Some (filesize a)))
        (if FSAL_TEST_MASK (mask a) ATTR_GROUP then Some (i32 (group a)) else on ATTR_OWNER (Some (i32 (owner a)))) None
        (on ATTR_MODE (Some (i32 (mode a)))) (on ATTR_NUMLINKS (Some (i32 (numlinks a))))
        (on ATTR_CREATION (Some (tv_sec (creation a)))) (on ATTR_ATIME (ms_of now (atime a)))
        (on ATTR_MTIME (ms_of now (mtime a))) (on ATTR_CTIME (ms_of now (ctime a))) None None
        (on ATTR_RAWDEV (Some (fst (rawdev a)))) (Some (hints a)) None) w) ->
  wp (fsal_attrs_to_kurma now a) Q w.
Proof.
  intros Hsz Ht HQ. unfold fsal_attrs_to_kurma.
  assert (Hon : forall c tm (P : option Z -> W -> Prop),
    (c, tm) ∈ [(ATTR_ATIME, atime a); (ATTR_MTIME, mtime a); (ATTR_CTIME, ctime a)] ->
    P (if FSAL_TEST_MASK (mask a) c then ms_of now tm else None) w ->
    wp (if FSAL_TEST_MASK (mask a) c then timespec_to_ms now tm else mret None) P w).
  { intros c tm P Hin HP. specialize (Ht c tm Hin).
    destruct (FSAL_TEST_MASK (mask a) c); [by apply wp_timespec_to_ms; auto|by apply wp_ret]. }
  apply wp_bind. replace (_ || _) with true
    by (symmetry; apply orb_true_iff; destruct (FSAL_TEST_MASK (mask a) ATTR_SIZE); [right; apply Z.leb_le; auto|by left]).
  apply wp_ret. apply wp_bind, Hon; [set_solver|]. apply wp_bind, Hon; [set_solver|].
  apply wp_bind, Hon; [set_solver|]. apply wp_ret. by destruct (FSAL_TEST_MASK (mask a) ATTR_GROUP).
Qed.

(** A time the protocol carries exactly: whole milliseconds in 64 bits, not one of
    the two special values of [utimensat]. *)
Definition ms_time (t : timespec) : Prop :=
  0 <= tv_sec t /\ tv_sec t * 1000 + 999 <= INT64_MAX /\
  exists m, 0 <= m < 1000 /\ tv_nsec t = m * 1000000.

Lemma ms_time_roundtrip now t :
  ms_time t -> time_fits now t /\ exists ms, ms_of now t = Some ms /\ millisecond_to_timespec ms = t.
Proof.
  destruct t as [s n]. intros (Hs & Hmax & m & Hm & Hn). simpl in Hs, Hn, Hmax. subst n. unfold time_fits, ms_of; simpl.
  destruct (Z.eqb_spec (m * 1000000) UTIME_OMIT) as [E|_]; [unfold UTIME_OMIT in E; lia|].
  destruct (Z.eqb_spec (m * 1000000) UTIME_NOW) as [E|_]; [unfold UTIME_NOW in E; lia|].
  simpl. split; [lia|]. eexists. split; [done|]. rewrite Z.quot_mul by lia. unfold millisecond_to_timespec.
  rewrite Z.quot_div_nonneg, Z.rem_mod_nonneg by lia.
  rewrite Z.div_add_l, Z.div_small, Z.add_0_r by lia.
  rewrite (Z.add_comm (s * 1000)), Z_mod_plus_full, Z.mod_small by lia.
  f_equal. lia.
Qed.

(** The attributes a request can carry unchanged. *)
Record sendable (a : attrlist) : Prop := {
  send_size : 0 <= filesize a <= INT64_MAX;
  send_owner : 0 <= owner a < 2 ^ 31;
  send_mode : 0 <= mode a < 2 ^ 31;
  send_numlinks : 0 <= numlinks a < 2 ^ 31;
  send_rawdev : 0 <= fst (rawdev a) <= INT64_MAX;
  send_atime : ms_time (atime a);
  send_mtime : ms_time (mtime a);
  send_ctime : ms_time (ctime a)
}.

(** [a'] carries the value of [a] for every attribute of [c] in [a]'s mask. *)
Definition carried {B} (c : Z) (π : attrlist -> B) (a a' : attrlist) : Prop :=
  FSAL_TEST_MASK (mask a') c = FSAL_TEST_MASK (mask a) c /\
  (FSAL_TEST_MASK (mask a) c = true -> π a' = π a).

Lemma nonneg_if (b : bool) x : 0 <= x -> nonneg (if b then Some x else None) = true.
Proof. intros. destruct b; simpl; [lia|done]. Qed.

Lemma if_Some_if {A} (b : bool) (x : A) (c : Z) :
  (if (if b then Some x else None) is Some _ then c else 0) = (if b then c else 0).
Proof. by destruct b. Qed.

(** Solves one [carried] goal: the mask bits by distributing the test over the
    chain, the value by skipping the blocks of the other attributes. *)
Ltac solve_carried :=
  split;
  [ unfold FSAL_TEST_MASK in *; simpl; repeat (rewrite if_set_mask by done); simpl;
    rewrite ?if_Some_if, ?bit_set_lor, ?bit_set_if;
    match goal with |- _ = ?b => destruct b end; simpl; rewrite ?andb_false_r; done
  | intros Hbit; simpl;
    repeat match goal with
    | |- context [if_set (if FSAL_TEST_MASK ?m ?c then _ else _)] =>
        rewrite (if_set_other _ _ c) by done
    end; rewrite ?Hbit; simpl; rewrite ?u64_small by (unfold UINT64_MAX, INT64_MAX in *; lia);
    auto ].

(** C35: what a setattrs, create or mkdir request says is what the middleware
    is told: converting an attribute list to the wire form and back gives, for
    size, owner, mode, link count, the access, modification and change times and
    the major device number, the value that was asked for, marked as set exactly
    when it was set.  It holds for requests that do not set the group, with sizes
    and device numbers below 2^63, owner, mode and link count below 2^31, and times
    of whole milliseconds that fit 64 bits and are not the current time. *)
Theorem kurma_attrs_roundtrip now a w :
  sendable a ->
  FSAL_TEST_MASK (mask a) ATTR_GROUP = false ->
  wp (W := unit) (k ← fsal_attrs_to_kurma now a; kurma_attrs_to_fsal k attrs0) (fun a' _ =>
    carried ATTR_SIZE filesize a a' /\ carried ATTR_OWNER owner a a' /\
    carried ATTR_MODE mode a a' /\ carried ATTR_NUMLINKS numlinks a a' /\
    carried ATTR_ATIME atime a a' /\ carried ATTR_MTIME mtime a a' /\
    carried ATTR_CTIME ctime a a' /\
    carried ATTR_RAWDEV (fun a => fst (rawdev a)) a a') w.
Proof.
  intros [Hsz Ho Hm Hn Hr Ha Hmt Hc] Hg.
  apply (ms_time_roundtrip now) in Ha as (Ha & ta & Hta & Ha'), Hmt as (Hmt & tm & Htm & Hmt'), Hc as (Hc & tc & Htc & Hc').
  apply wp_bind, wp_fsal_attrs_to_kurma; [intros; lia| |].
  { intros c t. rewrite !elem_of_cons, elem_of_nil. intros [[= _ ->]|[[= _ ->]|[[= _ ->]|[]]]] _; by right. }
  rewrite Hg, Hta, Htm, Htc. unfold kurma_attrs_to_fsal. simpl. rewrite !i32_small by lia.
  rewrite !nonneg_if by lia. wp_steps. rewrite <- ?Ha', <- ?Hmt', <- ?Hc'.
  repeat split_and; solve_carried.
Qed.

Lemma kurma_attrs_roundtrip_witness :
  exists a, sendable a /\ FSAL_TEST_MASK (mask a) ATTR_GROUP = false /\
    wp (W := unit) (k ← fsal_attrs_to_kurma time0 a; kurma_attrs_to_fsal k attrs0)
      (fun a' _ => carried ATTR_MODE mode a a' /\ mode a' = 420 /\ filesize a' = 4096) tt.
Proof.
  set (a := mk_attrlist (ATTR_SIZE + ATTR_MODE + ATTR_MTIME) NO_FILE_TYPE 4096 (0, 0) 0 420
              0 0 0 (0, 0) time0 time0 time0 (mk_timespec 77 5000000) time0 0 0 0).
  assert (Hs : sendable a).
  { split; unfold INT64_MAX; simpl; try lia; (split; [simpl; lia|]);
      (split; [unfold INT64_MAX; simpl; lia|]); [exists 0 | exists 5 | exists 0]; simpl; lia. }
  exists a. split; [done|]. split; [done|].
  pose proof (kurma_attrs_roundtrip time0 a tt Hs eq_refl) as H.
  eapply wp_mono; [|exact H]. intros a' [] (Hsz & _ & Hm & _). split; [exact Hm|]. split.
  - by rewrite (proj2 Hm).
  - by rewrite (proj2 Hsz).
Defined.

(** A request that sets the group sends it as the owner: whatever the
    request says about the owner, the middleware is asked to change the owner to
    the new group id, and is not told of any group. *)
Theorem kurma_chgrp_sends_owner now a w :
  0 <= filesize a <= INT64_MAX ->
  FSAL_TEST_MASK (mask a) ATTR_GROUP = true ->
  (forall c tm, (c, tm) ∈ [(ATTR_ATIME, atime a); (ATTR_MTIME, mtime a); (ATTR_CTIME, ctime a)] ->
     FSAL_TEST_MASK (mask a) c = true -> tv_nsec tm = UTIME_OMIT \/ time_fits now tm) ->
  wp (W := unit) (fsal_attrs_to_kurma now a) (fun k _ =>
    k_owner_id k = Some (i32 (group a)) /\ k_group_id k = None) w.
Proof.
  intros Hs Hg Ht. apply wp_fsal_attrs_to_kurma; [intros; lia|done|]. by rewrite Hg.
Qed.

Lemma kurma_chgrp_sends_owner_witness :
  exists a, group a = 100 /\ owner a = 1 /\
    wp (W := unit) (fsal_attrs_to_kurma time0 a) (fun k _ =>
      k_owner_id k = Some 100 /\ k_group_id k = None) tt.
Proof.
  exists (set_mask ATTR_GROUP (set_group 100 (set_owner 1 attrs0))).
  split; [done|]. split; [done|].
  apply (kurma_chgrp_sends_owner time0 (set_mask ATTR_GROUP (set_group 100 (set_owner 1 attrs0))) tt);
    [unfold INT64_MAX; simpl; lia|done|].
  intros c t. rewrite !elem_of_cons, elem_of_nil. by intros [[= -> _]|[[= -> _]|[[= -> _]|[]]]].
Defined.

Lemma copy_attr_other {B} (π : attrlist -> B) attrs c f a :
  (forall a, π (f a) = π a) -> (forall m a, π (set_mask m a) = π a) ->
  π (copy_attr attrs c f a) = π a.
Proof. intros Hf Hm. unfold copy_attr. case_match; [by rewrite Hf, Hm|done]. Qed.

(** The merge keeps the cached size unless the reply carries one. *)
Lemma override_filesize h a :
  filesize (snd (set_attrs_override h a)) =
  if FSAL_TEST_MASK (mask a) ATTR_SIZE then filesize a else filesize (snd h).
Proof.
  destruct h as [ht ha]. unfold set_attrs_override.
  destruct (bit_set _ KURMA_HINT_SYMLINK), (FSAL_TEST_MASK (file_type_code _) _); simpl;
    do 11 rewrite copy_attr_other by done; unfold copy_attr; by case_match.
Qed.
