(* ===== verification/KurmaIO.v ===== *)
(** File input and output of the Kurma FSAL.

    FSAL/FSAL_KURMA/file.c and the RPC wrappers of kurma.c: open, close, read,
    write and status of a file, with the alignment of requests to the block
    size of the middleware (a write that is not aligned first reads the blocks
    at its two ends).  The middleware is reached through a generated Thrift
    client, which is the class [KurmaService]; [KurmaFileServer] states what the
    middleware promises for reads and writes. *)

From stdpp Require Import strings.
From S2P Require Import Prelude Status World CacheEntry KurmaAttrs.

#[local] Open Scope Z_scope.

(** ** Status codes *)

Definition KURMA_OKAY : Z := 0.
Definition KURMA_INVALID : Z := 1.
Definition KURMA_CONN_ERR : Z := 2.
Definition KURMA_RPC_ERR : Z := 3.
Definition KURMA_IO_ERR : Z := 4.
Definition KURMA_ERROR_SESSION_NOT_EXIST : Z := 10001.
Definition KURMA_ERROR_OBJECTID_INVALID : Z := 10002.
Definition KURMA_ERROR_OBJECT_NOT_FOUND : Z := 10003.
Definition KURMA_ERROR_ZOOKEEPER_ERROR : Z := 10004.
Definition KURMA_ERROR_DIRECTORY_NOT_EMPTY : Z := 10005.
Definition KURMA_ERROR_PERMISSION_DENIED : Z := 10006.
Definition KURMA_ERROR_SERVER_ERROR : Z := 10007.
Definition KURMA_ERROR_FILE_ALREADY_EXISTS : Z := 10008.
Definition KURMA_ERROR_INVALID_OPERATION : Z := 10009.
Definition KURMA_ERROR_NOT_DIRECTORY : Z := 10010.

Definition kurma_to_fsal_status (st : Z) : fsal_errors_t :=
  if st =? KURMA_OKAY then ERR_FSAL_NO_ERROR
  else if st =? KURMA_ERROR_OBJECT_NOT_FOUND then ERR_FSAL_NOENT
  else if st =? KURMA_ERROR_OBJECTID_INVALID then ERR_FSAL_STALE
  else if st =? KURMA_ERROR_DIRECTORY_NOT_EMPTY then ERR_FSAL_NOTEMPTY
  else if st =? KURMA_ERROR_PERMISSION_DENIED then ERR_FSAL_PERM
  else if st =? KURMA_ERROR_SERVER_ERROR then ERR_FSAL_FAULT
  else if st =? KURMA_ERROR_FILE_ALREADY_EXISTS then ERR_FSAL_EXIST
  else if st =? KURMA_ERROR_INVALID_OPERATION then ERR_FSAL_INVAL
  else if st =? KURMA_ERROR_NOT_DIRECTORY then ERR_FSAL_NOTDIR
  else ERR_FSAL_IO.

(** ** Objects *)

Record ObjectID : Set := mk_oid {
  id1 : Z; id2 : Z; creator : Z; oid_type : Z; oid_flags : Z
}.

#[global] Instance ObjectID_eq_dec : EqDecision ObjectID.
Proof. solve_decision. Defined.

Record DirEntry : Set := mk_dirent { dent_name : string; dent_oid : ObjectID }.

(** The reply to a request; an optional field that is not set is [None]. *)
Record KurmaResult : Set := mk_result {
  errcode : Z;
  new_attrs : ObjectAttributes;
  kr_oid : option ObjectID;
  file_data : option (list Z);
  dir_data : list DirEntry;
  kr_snapshot_id : Z;
  kr_snapshot_time : Z
}.

(** The requests; [None] is a request for which the client call itself fails. *)
Class KurmaService (S : Type) := {
  kurma_service_if_open : ObjectID -> Z -> S -> option KurmaResult * S;
  kurma_service_if_close : ObjectID -> S -> option KurmaResult * S;
  kurma_service_if_read : ObjectID -> Z -> Z -> S -> option KurmaResult * S;
  kurma_service_if_write : ObjectID -> Z -> list Z -> S -> option KurmaResult * S;
  kurma_service_if_lookup : ObjectID -> string -> S -> option KurmaResult * S;
  kurma_service_if_create : ObjectID -> string -> ObjectAttributes -> S -> option KurmaResult * S;
  kurma_service_if_mkdir : ObjectID -> string -> ObjectAttributes -> S -> option KurmaResult * S;
  kurma_service_if_getattrs : ObjectID -> S -> option KurmaResult * S;
  kurma_service_if_setattrs : ObjectID -> ObjectAttributes -> S -> option KurmaResult * S;
  kurma_service_if_rename :
    ObjectID -> string -> ObjectID -> string -> S -> option KurmaResult * S;
  kurma_service_if_unlink : ObjectID -> string -> S -> option KurmaResult * S;
  kurma_service_if_take_snapshot : ObjectID -> string -> S -> option KurmaResult * S;
  kurma_service_if_lookup_snapshot :
    ObjectID -> option string -> Z -> S -> option KurmaResult * S;
  kurma_service_if_restore_snapshot : ObjectID -> string -> Z -> S -> option KurmaResult * S;
  kurma_service_if_delete_snapshot : ObjectID -> string -> S -> option KurmaResult * S
}.

Definition SNAPSHOT_NONE : Z := 0.
Definition SNAPSHOT_DIR : Z := 1.

(** [struct kurma_fsal_obj_handle] (its [obj_handle] contributes the type and
    the attributes). *)
Record kurma_fsal_obj_handle : Set := mk_khdl {
  kh_type : object_file_type_t;
  kh_attributes : attrlist;
  opaque : list Z;
  block_shift : Z;
  oid : ObjectID;
  openflags : Z;
  parent : option loc;
  name : string;
  snapshot_id : Z;
  snapshot_count : Z;
  attrs_timestamp : Z
}.

Definition is_snapshot_dir (snapshot_id : Z) : bool := snapshot_id =? SNAPSHOT_DIR.
Definition is_snapshot_obj (snapshot_id : Z) : bool := negb (snapshot_id =? SNAPSHOT_NONE).
Definition is_snapshot_file (snapshot_id : Z) : bool :=
  negb (snapshot_id =? SNAPSHOT_NONE) && negb (snapshot_id =? SNAPSHOT_DIR).

Definition get_filesize (h : kurma_fsal_obj_handle) : Z := filesize (kh_attributes h).

(** The state of the FSAL: the middleware, the handles, the clock, the outcomes
    of the coming allocations and [trywrlock]s (success when the list is empty),
    the object this thread deleted last, the invalidation up-calls made so far,
    the credentials of the caller and the next inode number. *)
Record kworld (S : Type) : Type := mk_kworld {
  k_srv : S;
  k_hdls : gmap loc kurma_fsal_obj_handle;
  k_next : loc;
  k_now : timespec;
  k_choices : list bool;
  k_deleted : Z * Z * Z;
  k_invalidated : list (list Z * Z);
  k_caller : Z * Z;
  k_inode_number : Z;
  k_snapshot_enabled : bool
}.
Arguments mk_kworld {S}.
Arguments k_srv {S} _.
Arguments k_hdls {S} _.
Arguments k_next {S} _.
Arguments k_now {S} _.
Arguments k_choices {S} _.
Arguments k_deleted {S} _.
Arguments k_invalidated {S} _.
Arguments k_caller {S} _.
Arguments k_inode_number {S} _.
Arguments k_snapshot_enabled {S} _.

Section kworld_setters.
Context {S : Type}.
Implicit Types w : kworld S.

Definition kset_srv (x : S) w : kworld S :=
  mk_kworld x (k_hdls w) (k_next w) (k_now w) (k_choices w) (k_deleted w) (k_invalidated w)
    (k_caller w) (k_inode_number w) (k_snapshot_enabled w).
Definition kset_hdls (x : gmap loc kurma_fsal_obj_handle) w : kworld S :=
  mk_kworld (k_srv w) x (k_next w) (k_now w) (k_choices w) (k_deleted w) (k_invalidated w)
    (k_caller w) (k_inode_number w) (k_snapshot_enabled w).
Definition kset_next (x : loc) w : kworld S :=
  mk_kworld (k_srv w) (k_hdls w) x (k_now w) (k_choices w) (k_deleted w) (k_invalidated w)
    (k_caller w) (k_inode_number w) (k_snapshot_enabled w).
Definition kset_choices (x : list bool) w : kworld S :=
  mk_kworld (k_srv w) (k_hdls w) (k_next w) (k_now w) x (k_deleted w) (k_invalidated w)
    (k_caller w) (k_inode_number w) (k_snapshot_enabled w).
Definition kset_deleted (x : Z * Z * Z) w : kworld S :=
  mk_kworld (k_srv w) (k_hdls w) (k_next w) (k_now w) (k_choices w) x (k_invalidated w)
    (k_caller w) (k_inode_number w) (k_snapshot_enabled w).
Definition kset_invalidated (x : list (list Z * Z)) w : kworld S :=
  mk_kworld (k_srv w) (k_hdls w) (k_next w) (k_now w) (k_choices w) (k_deleted w) x
    (k_caller w) (k_inode_number w) (k_snapshot_enabled w).
Definition kset_inode_number (x : Z) w : kworld S :=
  mk_kworld (k_srv w) (k_hdls w) (k_next w) (k_now w) (k_choices w) (k_deleted w)
    (k_invalidated w) (k_caller w) x (k_snapshot_enabled w).
End kworld_setters.

(** Assignments to the fields of a handle. *)
Definition with_type (x : object_file_type_t) (h : kurma_fsal_obj_handle) : kurma_fsal_obj_handle :=
  mk_khdl x (kh_attributes h) (opaque h) (block_shift h) (oid h) (openflags h) (parent h)
    (name h) (snapshot_id h) (snapshot_count h) (attrs_timestamp h).
Definition with_attributes (x : attrlist) (h : kurma_fsal_obj_handle) : kurma_fsal_obj_handle :=
  mk_khdl (kh_type h) x (opaque h) (block_shift h) (oid h) (openflags h) (parent h) (name h)
    (snapshot_id h) (snapshot_count h) (attrs_timestamp h).
Definition with_block_shift (x : Z) (h : kurma_fsal_obj_handle) : kurma_fsal_obj_handle :=
  mk_khdl (kh_type h) (kh_attributes h) (opaque h) x (oid h) (openflags h) (parent h) (name h)
    (snapshot_id h) (snapshot_count h) (attrs_timestamp h).
Definition with_openflags (x : Z) (h : kurma_fsal_obj_handle) : kurma_fsal_obj_handle :=
  mk_khdl (kh_type h) (kh_attributes h) (opaque h) (block_shift h) (oid h) x (parent h)
    (name h) (snapshot_id h) (snapshot_count h) (attrs_timestamp h).
Definition with_snapshot_id (x : Z) (h : kurma_fsal_obj_handle) : kurma_fsal_obj_handle :=
  mk_khdl (kh_type h) (kh_attributes h) (opaque h) (block_shift h) (oid h) (openflags h)
    (parent h) (name h) x (snapshot_count h) (attrs_timestamp h).
Definition with_snapshot_count (x : Z) (h : kurma_fsal_obj_handle) : kurma_fsal_obj_handle :=
  mk_khdl (kh_type h) (kh_attributes h) (opaque h) (block_shift h) (oid h) (openflags h)
    (parent h) (name h) (snapshot_id h) x (attrs_timestamp h).
Definition with_attrs_timestamp (x : Z) (h : kurma_fsal_obj_handle) : kurma_fsal_obj_handle :=
  mk_khdl (kh_type h) (kh_attributes h) (opaque h) (block_shift h) (oid h) (openflags h)
    (parent h) (name h) (snapshot_id h) (snapshot_count h) x.

(** ** Memory and alignment helpers *)

Definition zlen {A} (l : list A) : Z := Z.of_nat (length l).

Section buffers.
Context {W : Type}.

(** [memcpy(buf + off, data, n)] and [memcpy] out of a buffer; outside of the
    buffer they are undefined. *)
Definition blit (buf : list Z) (off : Z) (data : list Z) : M W (list Z) :=
  if (0 <=? off) && (off + zlen data <=? zlen buf) then
    mret (take (Z.to_nat off) buf ++ data ++ drop (Z.to_nat off + length data) buf)
  else undef.
Definition slice (buf : list Z) (off n : Z) : M W (list Z) :=
  if (0 <=? off) && (0 <=? n) && (off + n <=? zlen buf) then
    mret (take (Z.to_nat n) (drop (Z.to_nat off) buf))
  else undef.

Definition is_pow2_mask (alignment : Z) : bool := Z.land alignment (alignment - 1) =? 0.

Definition is_aligned (n alignment : Z) : M W bool :=
  assert_that (is_pow2_mask alignment);; mret (Z.land n (alignment - 1) =? 0).
Definition round_down (n alignment : Z) : M W Z :=
  assert_that (is_pow2_mask alignment);; mret (Z.ldiff n (u64 (alignment - 1))).
Definition round_up (n alignment : Z) : M W Z :=
  assert_that (is_pow2_mask alignment);;
  mret (Z.ldiff (u64 (n + alignment - 1)) (u64 (alignment - 1))).
Definition get_block_count (n block_shift : Z) : M W Z :=
  unit ← int_shift1 block_shift;
  mret (Z.shiftr (u64 (n + unit - 1)) block_shift).
End buffers.

(** The first block shift of a new file: the smallest that holds the write,
    between 64 KiB and 1 MiB. *)
Fixpoint shift_loop (fuel : nat) (s buffer_size : Z) : Z :=
  match fuel with
  | O => s
  | Datatypes.S fuel => if Z.shiftl 1 s <? buffer_size then shift_loop fuel (s + 1) buffer_size else s
  end.
Definition initial_block_shift (buffer_size : Z) : Z :=
  if buffer_size <=? Z.shiftl 1 16 then 16
  else if Z.shiftl 1 20 <? buffer_size then 20
  else shift_loop 31 0 buffer_size.

(** Conversion of an unsigned 64-bit value to [int64_t]. *)
Definition i64 (x : Z) : Z := if decide (u64 x < 2 ^ 63) then u64 x else u64 x - 2 ^ 64.

Section kurma_io.
Context {S : Type} `{!KurmaService S}.
Abbreviation M := (M (kworld S)).

(** The bytes a fresh allocation happens to contain. *)
Variable uninit : nat -> Z.

Definition get_hdl (h : loc) : M kurma_fsal_obj_handle := deref (fun w => k_hdls w !! h).
Definition upd_hdl (h : loc) (f : kurma_fsal_obj_handle -> kurma_fsal_obj_handle) : M unit :=
  e ← get_hdl h; modify (fun w => kset_hdls (<[h := f e]> (k_hdls w)) w).

Definition kchoose : M bool := fun w =>
  match k_choices w with
  | [] => Ret true w
  | b :: bs => Ret b (kset_choices bs w)
  end.

(** [gsh_malloc]: null, or a buffer with unspecified contents. *)
Definition gsh_malloc (n : Z) : M (option (list Z)) :=
  ok ← kchoose; mret (if (ok : bool) then Some (map uninit (seq 0 (Z.to_nat n))) else None).

(** A request to the middleware: its reply, if the call succeeded. *)
Definition call (request : S -> option KurmaResult * S) : M (option KurmaResult) := fun w =>
  let '(r, s) := request (k_srv w) in Ret r (kset_srv s w).

Definition kurma_result_to_fsal_attrs (r : KurmaResult) (attrs : attrlist) : M attrlist :=
  kurma_attrs_to_fsal (new_attrs r) attrs.

Definition kurma_result_to_chgtime (r : KurmaResult) : timespec :=
  match k_remote_change_time (new_attrs r) with
  | Some ns => mk_timespec (u64 ns / 1000000000) (u64 ns mod 1000000000)
  | None => time0
  end.

Definition kurma_try_update_attributes (h : loc) (attrs : attrlist) : M unit :=
  got ← kchoose;
  when got (
    now ← gets k_now;
    upd_hdl h (fun e =>
      let '(t, a) := set_attrs_override (kh_type e, kh_attributes e) attrs in
      with_attrs_timestamp (tv_sec now) (with_type t (with_attributes a e)))).

(** ** RPC wrappers of kurma.c *)

(** The time written on success only; the caller's variable is [chgtime]. *)
Definition rpc_open (o : ObjectID) (flags : Z) (chgtime : timespec) (attrs : attrlist)
    : M (Z * timespec * attrlist) :=
  r ← call (kurma_service_if_open o flags);
  match r with
  | None => mret (KURMA_RPC_ERR, chgtime, attrs)
  | Some r =>
      if errcode r =? 0 then
        a ← kurma_result_to_fsal_attrs r attrs;
        mret (errcode r, kurma_result_to_chgtime r, a)
      else mret (errcode r, chgtime, attrs)
  end.

Definition rpc_close (o : ObjectID) (attrs : attrlist) : M (Z * attrlist) :=
  r ← call (kurma_service_if_close o);
  match r with
  | None => mret (KURMA_RPC_ERR, attrs)
  | Some r =>
      if errcode r =? 0 then
        a ← kurma_result_to_fsal_attrs r attrs; mret (errcode r, a)
      else mret (errcode r, attrs)
  end.

(** The second half of [rpc_read]: how many bytes the reply carries, copied to
    the caller's buffer; [filesize] is a C [int]. *)
Definition read_reply (r : KurmaResult) (offset buffer_size : Z) (buffer : list Z)
    (attrs : option attrlist) : M (Z * list Z * Z * bool * option attrlist) :=
  match k_filesize (new_attrs r) with
  | None => fatal
  | Some size =>
      let filesize := i32 size in
      if filesize <=? offset then mret (errcode r, buffer, 0, true, attrs)
      else
        match file_data r with
        | None => fatal
        | Some data =>
            let read_amount := zlen data in
            buffer' ← blit buffer 0 data;
            assert_that (read_amount <=? buffer_size);;
            mret (errcode r, buffer', read_amount,
                  u64 (offset + read_amount) =? u64 filesize, attrs)
        end
  end.

(** [attrs] is [None] when the caller passes a null pointer.  The result is the
    status, the caller's buffer, [*read_amount], [*end_of_file] and [*attrs]. *)
Definition rpc_read (o : ObjectID) (offset buffer_size : Z) (buffer : list Z)
    (read_amount : Z) (end_of_file : bool) (shift : Z) (attrs : option attrlist)
    : M (Z * list Z * Z * bool * option attrlist) :=
  let offset := i64 offset in
  assert_that (negb (shift =? 0));;
  block_size ← int_shift1 shift;
  a1 ← is_aligned (u64 offset) block_size; assert_that a1;;
  a2 ← is_aligned buffer_size block_size; assert_that a2;;
  r ← call (kurma_service_if_read o offset (i32 buffer_size));
  match r with
  | None => mret (KURMA_RPC_ERR, buffer, read_amount, end_of_file, attrs)
  | Some r =>
      if negb (errcode r =? 0) then mret (errcode r, buffer, 0, end_of_file, attrs)
      else
        attrs' ← match attrs with
                 | Some a => a' ← kurma_result_to_fsal_attrs r a; mret (Some a')
                 | None => mret None
                 end;
        read_reply r offset buffer_size buffer attrs'
  end.

(** The result is the status, [*write_amount], [*block_shift] and [*attrs]. *)
Definition rpc_write (o : ObjectID) (offset buffer_size : Z) (buffer : list Z)
    (write_amount shift : Z) (attrs : attrlist) : M (Z * Z * Z * attrlist) :=
  let offset := i64 offset in
  data ← slice buffer 0 buffer_size;
  assert_that (negb (shift =? 0));;
  block_size ← int_shift1 shift;
  a1 ← is_aligned (u64 offset) block_size; assert_that a1;;
  r ← call (kurma_service_if_write o offset data);
  match r with
  | None => mret (KURMA_RPC_ERR, write_amount, shift, attrs)
  | Some r =>
      if errcode r =? 0 then
        a ← kurma_result_to_fsal_attrs r attrs;
        mret (errcode r, buffer_size, u32 (default 0 (k_block_shift (new_attrs r))), a)
      else mret (errcode r, 0, shift, attrs)
  end.

(** ** Operations of file.c *)

(** When [rpc_open] fails, the change time assigned to the handle is whatever
    the stack variable held ([chgtime0]). *)
Definition kurma_open (h : loc) (flags : Z) (chgtime0 : timespec) : M fsal_errors_t :=
  khdl ← get_hdl h;
  if is_snapshot_obj (snapshot_id khdl) then mret ERR_FSAL_PERM
  else
    '(st, chg, attrs) ← rpc_open (oid khdl) flags chgtime0 attrs0;
    when (st =? KURMA_OKAY) (
      upd_hdl h (with_openflags flags);;
      kurma_try_update_attributes h attrs);;
    upd_hdl h (fun e => with_attributes (set_chgtime chg (kh_attributes e)) e);;
    mret (kurma_to_fsal_status st).

Definition kurma_status (h : loc) : M Z := khdl ← get_hdl h; mret (openflags khdl).

Definition kurma_close (h : loc) : M fsal_errors_t :=
  khdl ← get_hdl h;
  if is_snapshot_obj (snapshot_id khdl) then mret ERR_FSAL_PERM
  else
    '(st, attrs) ← rpc_close (oid khdl) attrs0;
    when (st =? KURMA_OKAY) (
      upd_hdl h (with_openflags FSAL_O_CLOSED);;
      kurma_try_update_attributes h attrs);;
    mret (kurma_to_fsal_status st).

Definition kurma_commit (h : loc) (offset len : Z) : M fsal_errors_t := mret ERR_FSAL_NOTSUPP.
Definition kurma_lock_op (h : loc) (owner : option loc) (op : fsal_lock_op_t)
    (request_lock : fsal_lock_param_t) : M fsal_errors_t := mret ERR_FSAL_NOTSUPP.

(** The adjustment of [*read_amount] and [*end_of_file] after an aligned read. *)
Definition adjust_read (offset buffer_size offset_align amount : Z) (eof : bool)
    : M (Z * bool) :=
  if u64 (offset_align + amount) <=? offset then assert_that eof;; mret (0, eof)
  else if u64 (offset_align + amount) <=? u64 (offset + buffer_size) then
    mret (u64 (amount - u64 (offset - offset_align)), eof)
  else mret (buffer_size, false).

(** The result is the status, the caller's buffer, [*read_amount] and
    [*end_of_file].  With no block shift the code jumps over the initialisation
    of the variables its exit path reads. *)
Definition kurma_read (h : loc) (offset buffer_size : Z) (buffer : list Z)
    (read_amount : Z) (end_of_file : bool) : M (fsal_errors_t * list Z * Z * bool) :=
  khdl ← get_hdl h;
  if is_snapshot_obj (snapshot_id khdl) then mret (ERR_FSAL_PERM, buffer, read_amount, end_of_file)
  else if get_filesize khdl <=? offset then mret (ERR_FSAL_NO_ERROR, buffer, 0, true)
  else if block_shift khdl =? 0 then undef
  else
    block_size ← int_shift1 (block_shift khdl);
    offset_align ← round_down offset block_size;
    end_align ← round_up (u64 (offset + buffer_size)) block_size;
    let offset_moved := u64 (offset - offset_align) in
    let size_align := u64 (end_align - offset_align) in
    let align := (offset =? offset_align) && (buffer_size =? size_align) in
    mem ← (if align then mret (Some buffer) else gsh_malloc size_align);
    match mem with
    | None => mret (ERR_FSAL_NOMEM, buffer, read_amount, end_of_file)
    | Some buffer_align =>
        '(st, buffer_align, amount, eof, attrs) ←
          rpc_read (oid khdl) offset_align size_align buffer_align read_amount end_of_file
            (block_shift khdl) (Some attrs0);
        if negb (st =? KURMA_OKAY) then
          mret (kurma_to_fsal_status st, if align then buffer_align else buffer, amount, eof)
        else
          kurma_try_update_attributes h (default attrs0 attrs);;
          '(amount, eof) ← adjust_read offset buffer_size offset_align amount eof;
          buffer' ← (if align then mret buffer_align
                     else data ← slice buffer_align offset_moved amount; blit buffer 0 data);
          mret (kurma_to_fsal_status st, buffer', amount, eof)
    end.

(** Preparing the last and the middle blocks of a write over several blocks;
    [inl] is a failed read, [inr] gives the buffer and the number of bytes to
    write. *)
Definition prepare_rest (o : ObjectID) (offset_align offset_moved buffer_size : Z)
    (buffer buf : list Z) (read_amount : Z) (eof : bool) (blk_cnt block_size shift : Z)
    : M (Z + list Z * Z) :=
  let tail_offset := u64 (u64 (blk_cnt - 1) * block_size) in
  tail ← (if negb eof then
            old_tail ← slice buf tail_offset block_size;
            '(st, new_tail, read_amount, eof, _) ←
              rpc_read o (u64 (offset_align + tail_offset)) block_size old_tail
                read_amount eof shift None;
            if negb (st =? KURMA_OKAY) then mret (inl st)
            else
              buf ← blit buf tail_offset new_tail;
              assert_that (eof || (read_amount =? block_size));;
              mret (inr (buf, Z.max (tail_offset + read_amount) (offset_moved + buffer_size)))
          else mret (inr (buf, offset_moved + buffer_size)));
  match tail with
  | inl st => mret (inl st)
  | inr (buf, size) =>
      last ← slice buffer (tail_offset - offset_moved)
               (offset_moved + buffer_size - tail_offset);
      buf ← blit buf tail_offset last;
      buf ← (if 2 <? blk_cnt then
               middle ← slice buffer (block_size - offset_moved) ((blk_cnt - 2) * block_size);
               blit buf block_size middle
             else mret buf);
      mret (inr (buf, size))
  end.

(** The preparation of the buffer of a write that is not aligned: the first and
    the last block are read, the caller's bytes are copied over them. *)
Definition prepare_write (o : ObjectID) (offset_align offset_moved buffer_size : Z)
    (buffer buffer_align : list Z) (size_align block_size shift : Z) : M (Z + list Z * Z) :=
  blk_cnt ← get_block_count size_align shift;
  '(st, buf, read_amount, eof, _) ←
    rpc_read o offset_align block_size buffer_align 0 false shift None;
  if negb (st =? KURMA_OKAY) then mret (inl st)
  else
    buf ← (if read_amount <? offset_moved then
             assert_that eof;;
             blit buf read_amount (replicate (Z.to_nat (offset_moved - read_amount)) 0)
           else mret buf);
    first ← slice buffer 0 (if blk_cnt =? 1 then buffer_size else block_size - offset_moved);
    buf ← blit buf offset_moved first;
    if blk_cnt =? 1 then
      mret (inr (buf, Z.max read_amount (offset_moved + buffer_size)))
    else
      prepare_rest o offset_align offset_moved buffer_size buffer buf read_amount eof
        blk_cnt block_size shift.

(** The adjustment of [*write_amount] after a write that was not aligned. *)
Definition adjust_written (offset buffer_size offset_align amount : Z) : Z :=
  if u64 (offset_align + amount) <=? offset then 0
  else if u64 (offset_align + amount) <=? u64 (offset + buffer_size) then
    u64 (amount - u64 (offset - offset_align))
  else buffer_size.

(** The last part of [kurma_write]: the request itself, and what is recorded
    of its reply. *)
Definition write_out (h : loc) (khdl : kurma_fsal_obj_handle)
    (offset buffer_size offset_align : Z) (align : bool) (buffer_align : list Z)
    (size_align shift write_amount : Z) (fsal_stable : bool) : M (fsal_errors_t * Z * bool) :=
  '(st, amount, new_shift, attrs) ←
    rpc_write (oid khdl) offset_align size_align buffer_align write_amount shift attrs0;
  when (st =? KURMA_OKAY) (
    kurma_try_update_attributes h attrs;;
    when (block_shift khdl =? 0) (upd_hdl h (with_block_shift new_shift)));;
  mret (kurma_to_fsal_status st,
        if align then amount else adjust_written offset buffer_size offset_align amount,
        if st =? KURMA_OKAY then true else fsal_stable).

(** The result is the status, [*write_amount] and [*fsal_stable]. *)
Definition kurma_write (h : loc) (offset buffer_size : Z) (buffer : list Z)
    (write_amount : Z) (fsal_stable : bool) : M (fsal_errors_t * Z * bool) :=
  khdl ← get_hdl h;
  if is_snapshot_obj (snapshot_id khdl) then mret (ERR_FSAL_PERM, write_amount, fsal_stable)
  else if buffer_size =? 0 then mret (ERR_FSAL_NO_ERROR, write_amount, fsal_stable)
  else
    let shift :=
      if negb (block_shift khdl =? 0) then block_shift khdl
      else initial_block_shift buffer_size in
    block_size ← int_shift1 shift;
    offset_align ← round_down offset block_size;
    end_align ← round_up (u64 (offset + buffer_size)) block_size;
    let offset_moved := u64 (offset - offset_align) in
    let size_align := u64 (end_align - offset_align) in
    let align := (offset =? offset_align) && (buffer_size =? size_align) in
    mem ← (if align then mret (Some buffer) else gsh_malloc size_align);
    match mem with
    | None => mret (ERR_FSAL_NOMEM, write_amount, fsal_stable)
    | Some buffer_align =>
        prepared ← (if align then mret (inr (buffer, size_align))
                    else prepare_write (oid khdl) offset_align offset_moved buffer_size buffer
                           buffer_align size_align block_size shift);
        match prepared with
        | inl st => mret (kurma_to_fsal_status st, write_amount, fsal_stable)
        | inr (buffer_align, size_align) =>
            write_out h khdl offset buffer_size offset_align align buffer_align size_align
              shift write_amount fsal_stable
        end
    end.
End kurma_io.
