(* ===== verification/KurmaFile.v ===== *)
(** Correctness of reads and writes of the Kurma FSAL.

    The middleware is specified by [KurmaFileServer]: it stores the bytes of
    each file in blocks, answers a read with the bytes that exist, and a write
    replaces whole blocks: it must start at a block, fills a hole before it with
    zeros, and may lose the rest of a last block it does not fill.  The theorems
    show that this is invisible behind [kurma_read] and [kurma_write], which read
    the first and the last block before they write: the caller gets the bytes
    asked for, and a write changes exactly the bytes written.  They need the
    cached block shift to be the middleware's (a first write chooses it) and the
    file to be smaller than 2 GiB, and the last theorems show what
    happens to larger ones, whose size is truncated to an [int]. *)

From stdpp Require Import strings.
From S2P Require Import Prelude Status World CacheEntry KurmaAttrs KurmaIO.

#[local] Open Scope Z_scope.

(** ** The specification of the middleware *)

(** The file [d] after the bytes [b] were written at [off]. *)
Definition pwrite (d : list Z) (off : nat) (b : list Z) : list Z :=
  take off (d ++ replicate (off - length d) 0) ++ b ++ drop (off + length b) d.

(** The file [d'] after a middleware with blocks of [B] bytes has stored [b] at
    [off]: it replaces whole blocks, so of a last block that [b] does not fill the
    bytes after [b] can be anything.  ([FileHandler.write] and
    [_breakBufferIntoBlocks] of the middleware.) *)
Definition block_written (B : Z) (d : list Z) (off : Z) (b d' : list Z) : Prop :=
  length d' = length (pwrite d (Z.to_nat off) b) /\
  forall i, Z.of_nat i < off + Z.of_nat (length b) \/
      (off + Z.of_nat (length b) + B - 1) / B * B <= Z.of_nat i ->
    d' !! i = pwrite d (Z.to_nat off) b !! i.

(** Attributes the middleware may send. *)
Definition attrs_wf (k : ObjectAttributes) : Prop :=
  nonneg (k_filesize k) = true /\ nonneg (k_mode k) = true /\ nonneg (k_nlinks k) = true /\
  match k_block_shift k with Some s => 0 <= s <= 30 | None => True end.

Class KurmaFileServer (S : Type) `{!KurmaService S} := {
  contents : S -> ObjectID -> option (list Z);
  shift_of : S -> ObjectID -> Z;
  (** [reliable s]: from now on every aligned request is answered with success. *)
  reliable : S -> Prop;
  read_law s o d off len r s' :
    contents s o = Some d -> 0 <= off -> 0 <= len ->
    kurma_service_if_read o off len s = (r, s') ->
    (forall o', contents s' o' = contents s o' /\ shift_of s' o' = shift_of s o') /\
    (reliable s -> (2 ^ shift_of s o | off) -> (2 ^ shift_of s o | len) ->
      reliable s' /\ exists r', r = Some r' /\ errcode r' = 0) /\
    (forall r', r = Some r' -> errcode r' = 0 ->
      attrs_wf (new_attrs r') /\ k_filesize (new_attrs r') = Some (zlen d) /\
      file_data r' = Some (take (Z.to_nat len) (drop (Z.to_nat off) d)));
  write_law s o d off b r s' :
    contents s o = Some d -> 0 <= off ->
    kurma_service_if_write o off b s = (r, s') ->
    (reliable s -> (2 ^ shift_of s o | off) ->
      reliable s' /\ exists r', r = Some r' /\ errcode r' = 0) /\
    (forall r', r = Some r' -> errcode r' = 0 ->
      attrs_wf (new_attrs r') /\ (forall o', o' <> o -> contents s' o' = contents s o') /\
      (d = [] \/ (2 ^ shift_of s o | off) ->
        exists d', contents s' o = Some d' /\ block_written (2 ^ shift_of s o) d off b d' /\
          k_filesize (new_attrs r') = Some (zlen d')))
}.

(** ** Bytes *)

Lemma pwrite_length d off b : length (pwrite d off b) = (length d `max` (off + length b))%nat.
Proof. unfold pwrite. rewrite !length_app, length_take, length_app, length_replicate, length_drop. lia. Qed.

Lemma lookup_pwrite d off b i :
  pwrite d off b !! i =
  if decide (i < off)%nat then (if decide (i < length d)%nat then d !! i else Some 0)
  else if decide (i < off + length b)%nat then b !! (i - off)%nat else d !! i.
Proof.
  unfold pwrite.
  assert (Hl : length (take off (d ++ replicate (off - length d) 0)) = off).
  { rewrite length_take, length_app, length_replicate. lia. }
  destruct (decide (i < off)%nat).
  - rewrite lookup_app_l, lookup_take_lt by lia. destruct (decide (i < length d)%nat).
    + by rewrite lookup_app_l.
    + rewrite lookup_app_r by lia. apply lookup_replicate_2. lia.
  - rewrite lookup_app_r, Hl by lia. destruct (decide (i < off + length b)%nat).
    + rewrite lookup_app_l by lia. done.
    + rewrite lookup_app_r by lia. rewrite lookup_drop. f_equal. lia.
Qed.

(** What was stored is what was asked for when it goes to the end of a block or of the file. *)
Lemma block_written_exact B d off b d' :
  0 <= off -> block_written B d off b d' -> zlen d <= off + zlen b \/ 0 < B /\ (B | off + zlen b) ->
  d' = pwrite d (Z.to_nat off) b.
Proof.
  unfold zlen. intros Hoff [Hlen Hb] Hend. apply list_eq. intros i.
  destruct (decide (Z.of_nat i < off + Z.of_nat (length b))); [apply Hb; by left|].
  destruct Hend as [Hend|[HB [q Hq]]].
  - rewrite pwrite_length in Hlen. rewrite !lookup_ge_None_2; [done|rewrite pwrite_length; lia|lia].
  - apply Hb. right. rewrite Hq. replace (q * B + B - 1) with (q * B + (B - 1)) by lia.
    rewrite Z.div_add_l, (Z.div_small (B - 1)) by lia. lia.
Qed.

(** A buffer after a copy into it. *)
Definition patch (buf : list Z) (off : nat) (data : list Z) : list Z :=
  take off buf ++ data ++ drop (off + length data) buf.

Lemma patch_length buf off data :
  (off + length data <= length buf)%nat -> length (patch buf off data) = length buf.
Proof. intros. unfold patch. rewrite !length_app, length_take, length_drop. lia. Qed.

Lemma lookup_patch buf off data i :
  (off + length data <= length buf)%nat ->
  patch buf off data !! i =
  if decide (off <= i < off + length data)%nat then data !! (i - off)%nat else buf !! i.
Proof.
  intros. unfold patch. destruct (decide (off <= i < off + length data)%nat).
  - rewrite lookup_app_r by (rewrite length_take; lia). rewrite length_take.
    rewrite lookup_app_l by lia. f_equal. lia.
  - destruct (decide (i < off)%nat).
    + rewrite lookup_app_l by (rewrite length_take; lia). by rewrite lookup_take_lt.
    + rewrite lookup_app_r by (rewrite length_take; lia). rewrite length_take.
      rewrite lookup_app_r by lia. rewrite lookup_drop. f_equal. lia.
Qed.

(** Overwriting the aligned range with its own contents, patched, is the write
    that was asked for. *)
Lemma pwrite_patched d a off b size :
  (a <= off)%nat -> (off + length b <= a + size)%nat -> b <> [] ->
  pwrite d a (take size (pwrite (drop a d) (off - a) b)) = pwrite d off b.
Proof.
  intros Ha Hs Hb. assert (0 < length b)%nat by (destruct b; [done|simpl; lia]).
  apply list_eq. intros i.
  rewrite !lookup_pwrite, length_take, pwrite_length, length_drop.
  repeat case_decide; try lia; try done.
  all: rewrite ?lookup_take_lt by lia.
  all: rewrite ?lookup_pwrite, ?length_drop.
  all: repeat case_decide; try lia; try done.
  all: rewrite ?lookup_drop; try (f_equal; lia).
Qed.

Ltac zlia := unfold zlen in *; lia.

(** ** The buffer of an unaligned write

    [v] is the file, [a] the aligned offset, [B] the block size, [mv] the
    distance of the write from the aligned offset, [b] the bytes to write and
    [mem] the buffer of the aligned size. *)

Section prepared_buffer.
Context (v b mem : list Z) (a B mv : nat).
Context (Hmv : (mv < B)%nat) (Hmem : (B <= length mem)%nat).

(** The first block: what was read, and zeros up to the write. *)
Definition first_read : list Z := take B (drop a v).
Definition first_block : list Z :=
  let b1 := first_read ++ drop (length first_read) mem in
  if decide (length first_read < mv)%nat
  then patch b1 (length first_read) (replicate (mv - length first_read) 0) else b1.

Lemma first_read_length : length first_read = (B `min` (length v - a))%nat.
Proof. unfold first_read. by rewrite length_take, length_drop. Qed.

Lemma first_block_length : length first_block = length mem.
Proof.
  unfold first_block. pose proof first_read_length.
  destruct (decide _); rewrite ?patch_length; rewrite ?length_app, ?length_drop, ?length_replicate; lia.
Qed.

Lemma lookup_first_block i :
  (i < mv \/ i < length first_read)%nat ->
  first_block !! i = if decide (i < length v - a)%nat then v !! (a + i)%nat else Some 0.
Proof.
  intros Hi. pose proof first_read_length. unfold first_block.
  assert (Hr : forall j, (j < length first_read)%nat -> first_read !! j = v !! (a + j)%nat).
  { intros j Hj. unfold first_read. by rewrite lookup_take_lt, lookup_drop by lia. }
  destruct (decide (length first_read < mv)%nat).
  - rewrite lookup_patch by (rewrite length_app, length_drop, length_replicate; lia).
    rewrite length_replicate. case_decide.
    + rewrite lookup_replicate_2 by lia. by rewrite decide_False by lia.
    + rewrite lookup_app_l, Hr by lia. by rewrite decide_True by lia.
  - rewrite lookup_app_l, Hr by lia. by rewrite decide_True by lia.
Qed.

(** The write fits the first block. *)
Lemma single_block_prepared :
  length mem = B -> (mv + length b <= B)%nat -> b <> [] ->
  take (length first_read `max` (mv + length b)) (patch first_block mv b) =
  take B (pwrite (drop a v) mv b).
Proof.
  intros HB Hb Hne. assert (0 < length b)%nat by (destruct b; [done|simpl; lia]).
  pose proof first_read_length. pose proof first_block_length.
  apply list_eq. intros i. rewrite !lookup_take.
  case_decide as Hi; case_decide as Hi2; try lia.
  - rewrite lookup_patch, lookup_pwrite, length_drop by lia. repeat case_decide; try lia; try done.
    all: rewrite lookup_first_block by lia; rewrite ?decide_True, ?decide_False by lia.
    all: by rewrite ?lookup_drop.
  - symmetry. apply lookup_ge_None_2. rewrite pwrite_length, length_drop. lia.
  - done.
Qed.

(** The write ends in the block at [T]: [b4] is the buffer with the old bytes of
    the last block, over which the last and the middle part are copied. *)
Context (T : nat) (HT : (B <= T < mv + length b)%nat) (Hend : (mv + length b <= T + B)%nat).
Context (Hlen : length mem = (T + B)%nat).

Definition with_first : list Z := patch first_block mv (take (B - mv) b).
Definition with_rest (b4 : list Z) : list Z :=
  let b5 := patch b4 T (take (mv + length b - T) (drop (T - mv) b)) in
  if decide (B < T)%nat then patch b5 B (take (T - B) (drop (B - mv) b)) else b5.

Lemma with_first_length : length with_first = length mem.
Proof.
  unfold with_first. rewrite patch_length; rewrite first_block_length; [done|].
  rewrite length_take. lia.
Qed.

Lemma lookup_with_first i :
  (i < T)%nat ->
  with_first !! i = if decide (mv <= i < B)%nat then b !! (i - mv)%nat else first_block !! i.
Proof.
  intros Hi. unfold with_first.
  rewrite lookup_patch by (rewrite first_block_length, length_take; lia).
  rewrite length_take. repeat case_decide; try lia; try done. by rewrite lookup_take_lt by lia.
Qed.

Lemma lookup_with_rest b4 i :
  length b4 = length mem ->
  with_rest b4 !! i =
  if decide (T <= i < mv + length b \/ B <= i < T)%nat then b !! (i - mv)%nat else b4 !! i.
Proof.
  intros H4. unfold with_rest.
  set (b5 := patch b4 T _).
  assert (H5 : length b5 = length mem).
  { subst b5. rewrite patch_length; [done|]. rewrite length_take, length_drop. lia. }
  assert (Hl5 : b5 !! i = if decide (T <= i < mv + length b)%nat then b !! (i - mv)%nat else b4 !! i).
  { subst b5. rewrite lookup_patch by (rewrite length_take, length_drop; lia).
    rewrite length_take, length_drop. repeat case_decide; try lia; try done.
    rewrite lookup_take_lt, lookup_drop by lia. f_equal. lia. }
  destruct (decide (B < T)%nat).
  - rewrite lookup_patch by (rewrite length_take, length_drop; lia).
    rewrite length_take, length_drop, Hl5. repeat case_decide; try lia; try done.
    rewrite lookup_take_lt, lookup_drop by lia. f_equal. lia.
  - rewrite Hl5. repeat case_decide; try lia; done.
Qed.

Lemma with_rest_length b4 : length b4 = length mem -> length (with_rest b4) = length mem.
Proof.
  intros H4. unfold with_rest.
  assert (H5 : length (patch b4 T (take (mv + length b - T) (drop (T - mv) b))) = length mem).
  { rewrite patch_length; [done|]. rewrite length_take, length_drop. lia. }
  destruct (decide _); [|done]. rewrite patch_length; [done|].
  rewrite length_take, length_drop. lia.
Qed.

Lemma multi_block_prepared b4 sz :
  length b4 = length mem ->
  (forall i, (i < T)%nat -> b4 !! i = with_first !! i) ->
  (forall i, (mv + length b <= i < sz)%nat -> b4 !! i = v !! (a + i)%nat) ->
  sz = ((T + B) `min` ((length v - a) `max` (mv + length b)))%nat ->
  take sz (with_rest b4) = take (T + B) (pwrite (drop a v) mv b).
Proof.
  intros H4 Hpre Hpost Hsz. apply list_eq. intros i. rewrite !lookup_take.
  case_decide as Hi; case_decide as Hi2; try lia.
  - rewrite lookup_with_rest, lookup_pwrite, length_drop by done.
    repeat case_decide; try lia; try done.
    + rewrite Hpre, lookup_with_first, decide_False, lookup_first_block, decide_True by lia.
      by rewrite lookup_drop.
    + by rewrite Hpre, lookup_with_first, decide_False, lookup_first_block, decide_False by lia.
    + rewrite Hpre, lookup_with_first, decide_True by lia. done.
    + rewrite Hpost by lia. by rewrite lookup_drop.
  - symmetry. apply lookup_ge_None_2. rewrite pwrite_length, length_drop. lia.
  - done.
Qed.
End prepared_buffer.

(** ** Alignment *)

Section alignment.
Context {W : Type} (k : Z) (Hk : 0 <= k <= 30).
Implicit Types (w : W).

Lemma pow_shift_pos : 0 < 2 ^ k <= 2 ^ 30.
Proof. split; [lia|]. apply Z.pow_le_mono_r; lia. Qed.

Lemma ldiff_pow2 n : Z.ldiff n (u64 (2 ^ k - 1)) = n / 2 ^ k * 2 ^ k.
Proof.
  pose proof pow_shift_pos. rewrite u64_small by (unfold UINT64_MAX; lia).
  replace (2 ^ k - 1) with (Z.ones k) by (rewrite Z.ones_equiv; lia).
  by rewrite Z.ldiff_ones_r, Z.shiftl_mul_pow2, Z.shiftr_div_pow2 by lia.
Qed.

Lemma pow2_mask : is_pow2_mask (2 ^ k) = true.
Proof.
  unfold is_pow2_mask. apply Z.eqb_eq.
  replace (2 ^ k - 1) with (Z.ones k) by (rewrite Z.ones_equiv; lia).
  rewrite Z.land_ones by lia. apply Z.mod_same. lia.
Qed.

Lemma wp_int_shift1 (Q : Z -> W -> Prop) w : Q (2 ^ k) w -> wp (int_shift1 k) Q w.
Proof.
  intros HQ. unfold int_shift1. replace (_ && _) with true by (symmetry; lia).
  apply wp_ret. by rewrite Z.shiftl_1_l.
Qed.

Lemma wp_round_down n (Q : Z -> W -> Prop) w :
  Q (n / 2 ^ k * 2 ^ k) w -> wp (round_down n (2 ^ k)) Q w.
Proof. intros. unfold round_down. rewrite pow2_mask. simpl. wp_steps. by rewrite ldiff_pow2. Qed.

Lemma wp_round_up n (Q : Z -> W -> Prop) w :
  0 <= n -> n + 2 ^ k <= UINT64_MAX ->
  Q ((n + 2 ^ k - 1) / 2 ^ k * 2 ^ k) w -> wp (round_up n (2 ^ k)) Q w.
Proof.
  intros. unfold round_up. rewrite pow2_mask. simpl. wp_steps. pose proof pow_shift_pos.
  rewrite ldiff_pow2, u64_small by lia. done.
Qed.

Lemma wp_is_aligned n (Q : bool -> W -> Prop) w :
  Q (n mod 2 ^ k =? 0) w -> wp (is_aligned n (2 ^ k)) Q w.
Proof.
  intros. unfold is_aligned. rewrite pow2_mask. simpl. wp_steps.
  replace (2 ^ k - 1) with (Z.ones k) by (rewrite Z.ones_equiv; lia).
  by rewrite Z.land_ones by lia.
Qed.

Lemma wp_get_block_count n (Q : Z -> W -> Prop) w :
  0 <= n -> n + 2 ^ k <= UINT64_MAX ->
  Q ((n + 2 ^ k - 1) / 2 ^ k) w -> wp (get_block_count n k) Q w.
Proof.
  intros. unfold get_block_count. apply wp_bind, wp_int_shift1. apply wp_ret.
  pose proof pow_shift_pos. by rewrite Z.shiftr_div_pow2, u64_small by lia.
Qed.
End alignment.

Lemma wp_assert {W} (b : bool) (Q : unit -> W -> Prop) w : b = true -> Q tt w -> wp (assert_that b) Q w.
Proof. by intros ->. Qed.

Lemma i64_small x : 0 <= x < 2 ^ 63 -> i64 x = x.
Proof.
  intros. unfold i64. rewrite u64_small by (unfold UINT64_MAX; lia).
  by rewrite decide_True by lia.
Qed.

(** ** The building blocks *)

Section buffers.
Context {W : Type}.
Implicit Types (w : W).

Lemma wp_blit buf off data (Q : list Z -> W -> Prop) w :
  0 <= off -> off + zlen data <= zlen buf ->
  Q (take (Z.to_nat off) buf ++ data ++ drop (Z.to_nat off + length data) buf) w ->
  wp (blit buf off data) Q w.
Proof. intros. unfold blit. by replace (_ && _) with true by (symmetry; lia). Qed.

Lemma wp_slice buf off n (Q : list Z -> W -> Prop) w :
  0 <= off -> 0 <= n -> off + n <= zlen buf ->
  Q (take (Z.to_nat n) (drop (Z.to_nat off) buf)) w ->
  wp (slice buf off n) Q w.
Proof. intros. unfold slice. by replace (_ && _ && _) with true by (symmetry; lia). Qed.

Lemma wp_attrs_to_fsal k a (Q : attrlist -> W -> Prop) w :
  attrs_wf k ->
  (forall a', (forall n, k_filesize k = Some n ->
                 FSAL_TEST_MASK (mask a') ATTR_SIZE = true /\ filesize a' = n) ->
    Q a' w) ->
  wp (kurma_attrs_to_fsal k a) Q w.
Proof.
  intros (Hf & Hm & Hn & Hb) HQ. unfold kurma_attrs_to_fsal.
  rewrite Hf, Hm, Hn. simpl. do 3 (apply wp_bind; simpl; apply wp_ret).
  set (a1 := if_set (k_remote_change_time k) _ _ _).
  assert (Ha1 : forall n, k_filesize k = Some n ->
                  FSAL_TEST_MASK (mask a1) ATTR_SIZE = true /\ filesize a1 = n).
  { intros n E. unfold FSAL_TEST_MASK. subst a1. rewrite E. split.
    - do 9 rewrite if_set_mask by done. simpl. rewrite !bit_set_lor. done.
    - by do 9 rewrite if_set_other by done. }
  clearbody a1. apply wp_bind.
  assert (Hfin : forall a2, (forall n, k_filesize k = Some n ->
                  FSAL_TEST_MASK (mask a2) ATTR_SIZE = true /\ filesize a2 = n) ->
    Q (set_hints (default 0 (k_hints k))
         (if_set (k_rawdev k) ATTR_RAWDEV (fun v => set_rawdev (u64 v, 0)) a2)) w).
  { intros a2 H2. apply HQ. intros n E. destruct (H2 n E) as [? <-]. simpl. split.
    - unfold FSAL_TEST_MASK in *. rewrite if_set_mask, bit_set_lor by done. by apply orb_true_iff; left.
    - by rewrite if_set_other. }
  destruct (k_nblocks k) as [nb|], (k_block_shift k) as [s|]; try (wp_steps; by apply Hfin).
  apply wp_bind, wp_int_shift1; [done|]. wp_steps. apply Hfin. intros n E.
  destruct (Ha1 n E). split; [|done]. unfold FSAL_TEST_MASK in *. simpl.
  rewrite bit_set_lor. by apply orb_true_iff; left.
Qed.
End buffers.

Lemma i32_wrap x : 2 ^ 31 <= x < 2 ^ 32 -> i32 x = x - 2 ^ 32.
Proof.
  intros. unfold i32. rewrite u32_small by (unfold UINT32_MAX; lia).
  by rewrite decide_False by lia.
Qed.

(** What the FSAL sees of a file: all of it, or nothing when the size does not
    fit an [int] (the theorem below covers sizes up to 4 GiB). *)
Definition visible (d : list Z) : list Z := if decide (zlen d < 2 ^ 31) then d else [].

(** ** The first block size of a file *)

Lemma shift_loop_spec fuel s n :
  0 <= s -> 20 - s < Z.of_nat fuel -> n <= 2 ^ 20 -> s <= 20 ->
  s <= shift_loop fuel s n <= 20 /\ n <= 2 ^ shift_loop fuel s n /\
  (forall t, s <= t < shift_loop fuel s n -> 2 ^ t < n).
Proof.
  revert s. induction fuel as [|fuel IH]; intros s Hs Hf Hn H20; [lia|]. simpl.
  rewrite Z.shiftl_1_l. destruct (Z.ltb_spec (2 ^ s) n) as [Hlt|Hge].
  - assert (s <> 20) by (intros ->; lia).
    destruct (IH (s + 1)) as (H1 & H2 & H3); [lia..|]. split_and!; [lia|lia|done|].
    intros t Ht. destruct (decide (t = s)) as [->|]; [done|]. apply H3. lia.
  - split_and!; lia.
Qed.

Lemma initial_block_shift_range n : 16 <= initial_block_shift n <= 20.
Proof.
  unfold initial_block_shift. rewrite !Z.shiftl_1_l.
  destruct (Z.leb_spec n (2 ^ 16)) as [H16|H16]; [lia|].
  destruct (Z.ltb_spec (2 ^ 20) n) as [H20|H20]; [lia|].
  destruct (shift_loop_spec 31 0 n) as (H1 & H2 & _); [lia..|].
  destruct (Z.le_gt_cases 16 (shift_loop 31 0 n)); [lia|].
  assert (2 ^ shift_loop 31 0 n <= 2 ^ 16) by (apply Z.pow_le_mono_r; lia). lia.
Qed.

(** C38: the block size chosen at the first write of a file is between 64 KiB
    and 1 MiB, and within these bounds it is the smallest power of two that
    holds the write. *)
Theorem initial_block_shift_minimal n :
  16 <= initial_block_shift n <= 20 /\
  (n <= 2 ^ 20 -> n <= 2 ^ initial_block_shift n) /\
  (forall t, 16 <= t < initial_block_shift n -> 2 ^ t < n).
Proof.
  split; [apply initial_block_shift_range|]. pose proof (initial_block_shift_range n) as Hr.
  unfold initial_block_shift in *. rewrite !Z.shiftl_1_l in *.
  destruct (Z.leb_spec n (2 ^ 16)) as [H16|H16]; [split; lia|].
  destruct (Z.ltb_spec (2 ^ 20) n) as [H20|H20].
  - split; [lia|]. intros t Ht.
    assert (2 ^ t <= 2 ^ 20) by (apply Z.pow_le_mono_r; lia). lia.
  - destruct (shift_loop_spec 31 0 n) as (H1 & H2 & H3); [lia..|].
    split; [lia|]. intros t Ht. apply H3. lia.
Qed.

Section file_io.
Context {S : Type} `{!KurmaService S} `{!KurmaFileServer S}.
Variable uninit : nat -> Z.
Implicit Types (w : kworld S).

(** The two states differ at most in the middleware, which holds the same files. *)
Definition same_but_srv (w w' : kworld S) : Prop :=
  w' = kset_srv (k_srv w') w /\
  forall o, contents (k_srv w') o = contents (k_srv w) o /\
            shift_of (k_srv w') o = shift_of (k_srv w) o.

Lemma wp_call req (Q : option KurmaResult -> kworld S -> Prop) w :
  (forall r s', req (k_srv w) = (r, s') -> Q r (kset_srv s' w)) -> wp (call req) Q w.
Proof. unfold wp, call. destruct (req (k_srv w)). auto. Qed.

(** The alignment checks of the RPC wrappers. *)
Lemma wp_check_aligned {A} shift n (m : M (kworld S) A) Q w :
  0 <= shift <= 30 -> (2 ^ shift | n) -> wp m Q w ->
  wp (a ← is_aligned n (2 ^ shift); assert_that a;; m) Q w.
Proof.
  intros Hs Hd Hm. apply wp_bind, wp_is_aligned; [done|]. apply wp_bind, wp_assert; [|done].
  apply Z.eqb_eq, Z.mod_divide; [lia|done].
Qed.

Lemma same_but_srv_call w s' :
  (forall o, contents s' o = contents (k_srv w) o /\ shift_of s' o = shift_of (k_srv w) o) ->
  same_but_srv w (kset_srv s' w).
Proof. done. Qed.

Lemma wp_read_reply r d off len buf attrs w (Q : _ -> kworld S -> Prop) :
  k_filesize (new_attrs r) = Some (zlen d) ->
  file_data r = Some (take (Z.to_nat len) (drop (Z.to_nat off) d)) ->
  zlen d < 2 ^ 32 -> 0 <= off < 2 ^ 62 -> 0 < len < 2 ^ 31 -> len <= zlen buf ->
  (let data := take (Z.to_nat len) (drop (Z.to_nat off) (visible d)) in
   Q (errcode r, data ++ drop (length data) buf, zlen data,
      zlen (visible d) <=? off + zlen data, attrs) w) ->
  wp (read_reply r off len buf attrs) Q w.
Proof.
  intros Hfs Hdata Hsz Hoff Hlen Hbuf HQ. unfold read_reply. rewrite Hfs, Hdata.
  unfold visible in HQ. destruct (decide (zlen d < 2 ^ 31)) as [Hsm|Hbig].
  2: { rewrite i32_wrap by lia. rewrite drop_nil, take_nil in HQ. simpl in HQ.
       destruct (Z.leb_spec (zlen d - 2 ^ 32) off); [|lia].
       apply wp_ret. rewrite drop_0 in HQ.
       by replace (zlen [] <=? off + zlen []) with true in HQ by (unfold zlen; simpl; lia). }
  rewrite i32_small by (unfold zlen in *; lia).
  set (data := take _ _) in *.
  assert (Hdl : zlen data = Z.max 0 (Z.min len (zlen d - off))).
  { subst data. unfold zlen in *. rewrite length_take, length_drop. lia. }
  destruct (Z.leb_spec (zlen d) off) as [Hend|Hin]; simpl in HQ.
  - destruct data; [|unfold zlen in *; simpl in *; lia]. simpl in *. rewrite drop_0 in HQ.
    apply wp_ret. by replace (zlen d <=? off + zlen []) with true in HQ
      by (symmetry; apply Z.leb_le; unfold zlen in *; simpl; lia).
  - apply wp_bind, wp_blit; [lia|lia|]. apply wp_bind, wp_assert; [lia|]. apply wp_ret.
    rewrite !u64_small by (unfold UINT64_MAX; lia).
    replace (off + zlen data =? zlen d) with (zlen d <=? off + zlen data) by lia. done.
Qed.

Lemma wp_rpc_read o d off len buf ra0 eof0 shift attrs w :
  contents (k_srv w) o = Some d -> zlen d < 2 ^ 32 ->
  1 <= shift <= 30 -> 0 <= off < 2 ^ 62 -> (2 ^ shift | off) ->
  0 < len < 2 ^ 31 -> (2 ^ shift | len) -> len <= zlen buf ->
  wp (rpc_read o off len buf ra0 eof0 shift attrs) (fun '(st, buf', ra, eof, attrs') w' =>
    same_but_srv w w' /\
    (reliable (k_srv w) -> shift_of (k_srv w) o = shift ->
      reliable (k_srv w') /\ st = KURMA_OKAY) /\
    (st = KURMA_OKAY ->
      let data := take (Z.to_nat len) (drop (Z.to_nat off) (visible d)) in
      buf' = data ++ drop (length data) buf /\ ra = zlen data /\
      eof = (zlen (visible d) <=? off + zlen data))) w.
Proof.
  intros Hd Hsz Hsh Hoff Hoffa Hlen Hlena Hbuf. unfold rpc_read.
  rewrite i64_small, (u64_small off), (i32_small len) by (unfold UINT64_MAX; lia).
  apply wp_bind, wp_assert; [lia|]. apply wp_bind, wp_int_shift1; [lia|].
  apply wp_check_aligned; [lia|done|]. apply wp_check_aligned; [lia|done|].
  apply wp_bind, wp_call. intros r s' Hcall.
  destruct (read_law _ _ _ _ _ _ _ Hd (proj1 Hoff) (Z.lt_le_incl _ _ (proj1 Hlen)) Hcall)
    as (Hsame & Hrel & Hok).
  assert (Hrel' : reliable (k_srv w) -> shift_of (k_srv w) o = shift ->
            reliable s' /\ exists r', r = Some r' /\ errcode r' = 0).
  { intros ? <-. by apply Hrel. }
  destruct r as [r|].
  2: { wp_steps. split_and!; [done| |done]. intros Hr1 Hr2.
       by destruct (Hrel' Hr1 Hr2) as (? & ? & ? & ?). }
  destruct (Z.eqb_spec (errcode r) 0) as [Hz|Hz]; simpl.
  2: { wp_steps. split_and!; [done| |done]. intros Hr1 Hr2.
       destruct (Hrel' Hr1 Hr2) as (? & ? & [= <-] & ?). done. }
  destruct (Hok r eq_refl Hz) as (Hwf & Hfs & Hdata).
  apply wp_bind. destruct attrs as [a|].
  - apply wp_bind, wp_attrs_to_fsal; [done|]. intros a' _. wp_steps.
    eapply wp_read_reply; [done..|]. simpl. split_and!; try done. intros Hr1 Hr2.
    by destruct (Hrel' Hr1 Hr2).
  - wp_steps. eapply wp_read_reply; [done..|]. simpl. split_and!; try done. intros Hr1 Hr2.
    by destruct (Hrel' Hr1 Hr2).
Qed.

Lemma wp_get_hdl h e (Q : _ -> kworld S -> Prop) w :
  k_hdls w !! h = Some e -> Q e w -> wp (get_hdl h) Q w.
Proof. apply (wp_deref (fun w => k_hdls w !! h)). Qed.

Lemma wp_upd_hdl h e f (Q : _ -> kworld S -> Prop) w :
  k_hdls w !! h = Some e -> Q tt (kset_hdls (<[h := f e]> (k_hdls w)) w) ->
  wp (upd_hdl h f) Q w.
Proof. intros. apply wp_bind. by eapply wp_get_hdl. Qed.

(** Merging returned attributes into a handle changes only that handle's
    cached attributes. *)
Definition same_but_attrs (h : loc) (w w' : kworld S) : Prop :=
  k_srv w' = k_srv w /\
  (forall h', h' <> h -> k_hdls w' !! h' = k_hdls w !! h') /\
  match k_hdls w !! h with
  | Some e => exists t a ts, k_hdls w' !! h =
      Some (with_attrs_timestamp ts (with_type t (with_attributes a e)))
  | None => True
  end.

Lemma wp_try_update h e a (Q : unit -> kworld S -> Prop) w :
  k_hdls w !! h = Some e ->
  (forall w', same_but_attrs h w w' -> Q tt w') ->
  wp (kurma_try_update_attributes h a) Q w.
Proof.
  intros He HQ. unfold kurma_try_update_attributes. apply wp_bind. unfold wp, kchoose.
  assert (Hgo : forall b w1, k_srv w1 = k_srv w -> k_hdls w1 = k_hdls w ->
    wp (when b (now ← gets k_now; upd_hdl h (fun e =>
      let '(t, a) := set_attrs_override (kh_type e, kh_attributes e) a in
      with_attrs_timestamp (tv_sec now) (with_type t (with_attributes a e))))) Q w1).
  { intros b w1 Hs Hh. apply wp_when; intros _.
    - apply wp_bind, wp_gets. apply (wp_upd_hdl h e); [by rewrite Hh|].
      apply HQ. destruct (set_attrs_override _ _) as [t a']. rewrite Hh.
      split; [done|]. rewrite He. split; simpl.
      + intros. by apply lookup_insert_ne.
      + do 3 eexists. apply lookup_insert_eq.
    - apply HQ. split; [done|]. rewrite Hh, He. split; [done|].
      exists (kh_type e), (kh_attributes e), (attrs_timestamp e). by destruct e. }
  destruct (k_choices w) as [|b bs]; by apply Hgo.
Qed.

(** The pieces of an aligned request. *)
Lemma align_facts k off n :
  0 <= k <= 20 -> 0 <= off < 2 ^ 61 -> 0 < n <= 2 ^ 30 ->
  let A := off / 2 ^ k * 2 ^ k in
  let E := (off + n + 2 ^ k - 1) / 2 ^ k * 2 ^ k in
  0 <= A <= off /\ off < A + 2 ^ k /\ off + n <= E < off + n + 2 ^ k /\
  (2 ^ k | A) /\ (2 ^ k | E - A) /\ 0 < E - A < 2 ^ 31.
Proof.
  intros Hk Ho Hn A E.
  assert (Hp : 0 < 2 ^ k <= 2 ^ 20) by (split; [lia|]; apply Z.pow_le_mono_r; lia).
  pose proof (Z.mul_div_le off (2 ^ k)) as H1. pose proof (Z.mul_succ_div_gt off (2 ^ k)) as H2.
  pose proof (Z.mul_div_le (off + n + 2 ^ k - 1) (2 ^ k)) as H3.
  pose proof (Z.mul_succ_div_gt (off + n + 2 ^ k - 1) (2 ^ k)) as H4.
  pose proof (Z.div_pos off (2 ^ k)).
  assert (HA : A = 2 ^ k * (off / 2 ^ k)) by (unfold A; lia).
  assert (HE : E = 2 ^ k * ((off + n + 2 ^ k - 1) / 2 ^ k)) by (unfold E; lia).
  repeat split; try nia.
  - apply Z.divide_factor_r.
  - apply Z.divide_sub_r; apply Z.divide_factor_r.
Qed.

(** [L] is the size of the file, [A] the aligned start, [size] the aligned length. *)
Lemma wp_adjust_read off n A size L (Q : Z * bool -> kworld S -> Prop) w :
  0 <= A <= off -> off < 2 ^ 61 -> 0 < n <= 2 ^ 30 -> off + n <= A + size -> 0 <= L ->
  0 < size < 2 ^ 31 ->
  let amount := Z.max 0 (Z.min size (L - A)) in
  let m := Z.max 0 (Z.min n (L - off)) in
  Q (m, L <=? off + m) w ->
  wp (adjust_read off n A amount (L <=? A + amount)) Q w.
Proof.
  intros HA Hoff Hn Hsize HL Hs amount m HQ. unfold adjust_read.
  assert (UINT64_MAX = 2 ^ 64 - 1) by done.
  rewrite !u64_small by lia. rewrite (u64_small (off - A)) by lia.
  destruct (Z.leb_spec (A + amount) off).
  - apply wp_bind, wp_assert; [lia|]. apply wp_ret.
    replace m with 0 in HQ by lia.
    by replace (L <=? A + amount) with (L <=? off + 0) by lia.
  - destruct (Z.leb_spec (A + amount) (off + n)); apply wp_ret.
    + rewrite u64_small by lia. replace (amount - (off - A)) with m by lia.
      by replace (L <=? A + amount) with (L <=? off + m) by lia.
    + replace m with n in HQ by lia. by replace (L <=? off + n) with false in HQ by lia.
Qed.

Lemma zlen_slice (v : list Z) a n :
  0 <= a -> 0 <= n ->
  zlen (take (Z.to_nat n) (drop (Z.to_nat a) v)) = Z.max 0 (Z.min n (zlen v - a)).
Proof. intros. unfold zlen. rewrite length_take, length_drop. lia. Qed.

(** The caller's part of an aligned block: dropping the bytes before the
    requested offset leaves the requested bytes. *)
Lemma slice_of_aligned (v junk : list Z) A size off n :
  0 <= A <= off -> 0 < n -> off + n <= A + size ->
  let D := take (Z.to_nat size) (drop (Z.to_nat A) v) in
  let data := take (Z.to_nat n) (drop (Z.to_nat off) v) in
  take (length data) (drop (Z.to_nat (off - A)) (D ++ drop (length D) junk)) = data.
Proof.
  intros HA Hn Hsize D data.
  assert (Hm : Z.of_nat (length data) = Z.max 0 (Z.min n (zlen v - off))) by (apply zlen_slice; lia).
  assert (HD : Z.of_nat (length D) = Z.max 0 (Z.min size (zlen v - A))) by (apply zlen_slice; lia).
  destruct (decide (length data = 0)%nat) as [E|E].
  { rewrite E. simpl. symmetry. by apply nil_length_inv. }
  rewrite drop_app_le by lia. rewrite take_app_le by (rewrite length_drop; lia).
  unfold D. rewrite skipn_firstn_comm, drop_drop, take_take.
  replace (Z.to_nat A + Z.to_nat (off - A))%nat with (Z.to_nat off) by lia.
  rewrite Nat.min_l by lia. unfold data. by rewrite length_take, <- take_take, firstn_all.
Qed.

(** The buffer of a request: the caller's, or a fresh one of the aligned size. *)
Lemma wp_request_buffer (align : bool) buf size w :
  0 <= size -> (align = true -> zlen buf = size) ->
  wp (if align then mret (Some buf) else gsh_malloc uninit size) (fun mem w' =>
    k_srv w' = k_srv w /\ k_hdls w' = k_hdls w /\
    (k_choices w = [] -> mem <> None) /\
    match mem with
    | Some m => zlen m = size /\ (align = true -> m = buf)
    | None => True
    end) w.
Proof.
  intros Hs Ha. destruct align; [wp_steps; split_and!; by auto|].
  unfold gsh_malloc, kchoose. apply wp_bind. unfold wp.
  assert (Hl : zlen (map uninit (seq 0 (Z.to_nat size))) = size).
  { unfold zlen. rewrite length_map, length_seq. lia. }
  destruct (k_choices w) as [|[] bs]; simpl; done.
Qed.

Lemma kurma_to_fsal_status_ok st :
  kurma_to_fsal_status st = ERR_FSAL_NO_ERROR <-> st = KURMA_OKAY.
Proof.
  unfold kurma_to_fsal_status. split; [|by intros ->]. intros H.
  repeat case_match; try done; lia.
Qed.

Lemma wp_kurma_read h e d off n buf ra0 eof0 w :
  k_hdls w !! h = Some e -> snapshot_id e = SNAPSHOT_NONE ->
  contents (k_srv w) (oid e) = Some d -> zlen d < 2 ^ 32 -> get_filesize e = zlen d ->
  1 <= block_shift e <= 20 -> 0 <= off < 2 ^ 61 -> 0 < n <= 2 ^ 30 -> zlen buf = n ->
  wp (kurma_read uninit h off n buf ra0 eof0) (fun '(err, buf', ra, eof) w' =>
    (forall o, contents (k_srv w') o = contents (k_srv w) o) /\
    (reliable (k_srv w) -> shift_of (k_srv w) (oid e) = block_shift e -> k_choices w = [] ->
      err = ERR_FSAL_NO_ERROR) /\
    (err = ERR_FSAL_NO_ERROR ->
      let data := take (Z.to_nat n) (drop (Z.to_nat off) (visible d)) in
      buf' = data ++ drop (length data) buf /\ ra = zlen data /\
      eof = (zlen (visible d) <=? off + zlen data))) w.
Proof.
  intros He Hsn Hd Hsz Hcache Hk Hoff Hn Hbuf. set (k := block_shift e) in *.
  destruct (align_facts k off n ltac:(lia) Hoff Hn) as (HA & HA2 & HE & HdA & HdE & HsE).
  unfold kurma_read. apply wp_bind. eapply wp_get_hdl; [done|]. rewrite Hsn, Hcache. simpl.
  destruct (Z.leb_spec (zlen d) off) as [Hpast|Hin].
  { wp_steps. split_and!; [done|done|]. intros _.
    assert (zlen (visible d) <= off) by (unfold visible; destruct (decide _); unfold zlen in *; simpl; lia).
    rewrite (drop_ge (visible d)), take_nil by (unfold zlen in *; lia). simpl. rewrite drop_0.
    split_and!; try done. symmetry. apply Z.leb_le. change (zlen (@nil Z)) with 0. lia. }
  fold k. replace (k =? 0) with false by lia.
  apply wp_bind, wp_int_shift1; [lia|]. apply wp_bind, wp_round_down; [lia|].
  assert (Hp : 0 < 2 ^ k <= 2 ^ 20) by (split; [lia|]; apply Z.pow_le_mono_r; lia).
  assert (UINT64_MAX = 2 ^ 64 - 1) by done.
  rewrite (u64_small (off + n)) by lia.
  apply wp_bind, wp_round_up; [lia..|].
  set (A := off / 2 ^ k * 2 ^ k) in *. set (E := (off + n + 2 ^ k - 1) / 2 ^ k * 2 ^ k) in *.
  rewrite !u64_small by lia. set (align := _ && _).
  apply wp_bind. eapply wp_mono; [|apply wp_request_buffer].
  2: lia. 2: { subst align. intros [_ ?]%andb_true_iff. lia. }
  intros mem w1 (Hs1 & Hh1 & Hmem & Hm). destruct mem as [m|].
  2: { wp_steps. by rewrite Hs1; split_and!; [|intros ? ? ?%Hmem|]. }
  destruct Hm as [Hml Hma]. apply wp_bind. eapply wp_mono; [|eapply (wp_rpc_read _ d)];
    rewrite ?Hs1; [|done|done|lia|lia|done|lia|done|lia].
  intros [[[[st buf'] ra] eof] attrs] w2 ((Hw2 & Hc2) & Hrel & Hok).
  destruct (Z.eqb_spec st KURMA_OKAY) as [->|Hst]; simpl.
  2: { wp_steps. split_and!.
       - intros o. rewrite (proj1 (Hc2 o)). by rewrite Hs1.
       - intros Hr1 Hr2 _. by destruct (Hrel Hr1 Hr2).
       - by intros ?%kurma_to_fsal_status_ok. }
  destruct (Hok eq_refl) as (-> & -> & ->). apply wp_bind. eapply wp_try_update.
  { rewrite Hw2. simpl. by rewrite Hh1. }
  intros w3 (Hs3 & _). apply wp_bind. rewrite zlen_slice by lia.
  eapply wp_adjust_read; [lia..|unfold zlen; lia|lia|].
  rewrite <- (zlen_slice (visible d) off n) by lia. apply wp_bind.
  pose proof (slice_of_aligned (visible d) m A (E - A) off n HA (proj1 Hn) ltac:(lia)) as Hslice.
  set (data := take (Z.to_nat n) (drop (Z.to_nat off) (visible d))) in *.
  assert (Hdl : zlen data = Z.max 0 (Z.min n (zlen (visible d) - off))) by (apply zlen_slice; lia).
  eapply (wp_mono _ (fun b w' => b = data ++ drop (length data) buf /\ w' = w3)).
  { intros b w' [-> ->]. apply wp_ret. rewrite Hs3, Hw2. simpl. split_and!; try done.
    intros o. rewrite (proj1 (Hc2 o)). by rewrite Hs1. }
  destruct align eqn:Hal.
  - subst align. apply andb_true_iff in Hal as [HoA HnA].
    apply wp_ret. split; [|done]. rewrite (Hma eq_refl). subst data.
    replace A with off by lia. by replace (E - off) with n by lia.
  - apply wp_bind, wp_slice; [lia|lia| |].
    { unfold zlen in *. rewrite length_app, length_drop. lia. }
    unfold zlen. rewrite Nat2Z.id. rewrite Hslice.
    apply wp_blit; [lia|unfold zlen in *; lia|done].
Qed.

(** What preparing a buffer promises: the bytes to write are the file from the
    aligned offset on, patched with the caller's bytes. *)
Definition prepared (d : list Z) (A moved size k : Z) (buf : list Z) (o : ObjectID)
    (w : kworld S) (r : Z + list Z * Z) (w' : kworld S) : Prop :=
  same_but_srv w w' /\
  (reliable (k_srv w) -> shift_of (k_srv w) o = k ->
    reliable (k_srv w') /\ exists p, r = inr p) /\
  match r with
  | inl st => st <> KURMA_OKAY
  | inr (b, sz) =>
      let target := take (Z.to_nat size)
                      (pwrite (drop (Z.to_nat A) (visible d)) (Z.to_nat moved) buf) in
      sz = zlen target /\ sz <= zlen b /\ take (Z.to_nat sz) b = target
  end.

Lemma same_but_srv_refl w : same_but_srv w w.
Proof. split; [by destruct w|done]. Qed.

Lemma same_but_srv_trans w1 w2 w3 :
  same_but_srv w1 w2 -> same_but_srv w2 w3 -> same_but_srv w1 w3.
Proof.
  intros [H1 C1] [H2 C2]. split.
  - by rewrite H2, H1.
  - intros o. destruct (C1 o), (C2 o). split; congruence.
Qed.

(** The last copies of [prepare_rest]: [b4] holds the old bytes of the last block. *)
Lemma prepare_last_copies d A B T mv cnt (buf mem b4 : list Z) sz
    (Q : Z + list Z * Z -> kworld S -> Prop) w :
  0 <= mv < B -> B <= T < mv + zlen buf -> mv + zlen buf <= T + B -> zlen mem = T + B ->
  T = (cnt - 1) * B -> 0 <= A -> 2 <= cnt ->
  zlen b4 = zlen mem ->
  (forall i, (i < Z.to_nat T)%nat -> b4 !! i =
     with_first (visible d) buf mem (Z.to_nat A) (Z.to_nat B) (Z.to_nat mv) !! i) ->
  (forall i, mv + zlen buf <= Z.of_nat i < sz -> b4 !! i = visible d !! (Z.to_nat A + i)%nat) ->
  sz = Z.min (T + B) (Z.max (zlen (visible d) - A) (mv + zlen buf)) ->
  (forall b, let target := take (Z.to_nat (T + B))
                     (pwrite (drop (Z.to_nat A) (visible d)) (Z.to_nat mv) buf) in
     sz = zlen target -> sz <= zlen b -> take (Z.to_nat sz) b = target -> Q (inr (b, sz)) w) ->
  wp (last ← slice buf (T - mv) (mv + zlen buf - T);
      b ← blit b4 T last;
      b ← (if 2 <? cnt then
             middle ← slice buf (B - mv) ((cnt - 2) * B); blit b B middle
           else mret b);
      mret (inr (b, sz))) Q w.
Proof.
  intros Hmv HT Hend Hmem HTc HA Hcnt H4 Hpre Hpost Hsz HQ.
  pose proof (multi_block_prepared (visible d) buf mem (Z.to_nat A) (Z.to_nat B) (Z.to_nat mv)
    ltac:(lia) ltac:(zlia) (Z.to_nat T) ltac:(zlia)
    ltac:(zlia) ltac:(zlia) b4 (Z.to_nat sz)
    ltac:(zlia) Hpre ltac:(intros; apply Hpost; unfold zlen in *; lia)
    ltac:(zlia)) as Hprep.
  pose proof (with_rest_length buf mem (Z.to_nat B) (Z.to_nat mv) ltac:(lia)
    ltac:(zlia) (Z.to_nat T)
    ltac:(zlia) ltac:(zlia) ltac:(zlia) b4
    ltac:(zlia)) as Hlen.
  apply wp_bind, wp_slice; [lia..|]. set (last := take _ _).
  assert (Hl : zlen last = mv + zlen buf - T) by (subst last; rewrite zlen_slice; lia).
  apply wp_bind, wp_blit; [lia..|]. fold (patch b4 (Z.to_nat T) last).
  assert (H5 : zlen (patch b4 (Z.to_nat T) last) = zlen mem).
  { unfold zlen in *. rewrite patch_length; lia. }
  apply wp_bind. unfold with_rest in Hprep, Hlen.
  replace (take _ (drop (Z.to_nat T - Z.to_nat mv) buf)) with last in Hprep, Hlen
    by (subst last; unfold zlen; f_equal; [|f_equal]; lia).
  assert (Hfin : forall b, take (Z.to_nat sz) b = take (Z.to_nat T + Z.to_nat B)
      (pwrite (drop (Z.to_nat A) (visible d)) (Z.to_nat mv) buf) -> length b = length mem ->
      Q (inr (b, sz)) w).
  { intros b Hb Hbl. apply HQ; rewrite ?Z2Nat.inj_add by lia; [|unfold zlen in *; lia|done].
    unfold zlen in *. rewrite length_take, pwrite_length, length_drop. lia. }
  destruct (Z.ltb_spec 2 cnt) as [H2|H2].
  - rewrite decide_True in Hprep, Hlen by nia. apply wp_bind, wp_slice; [nia..|].
    set (middle := take _ _).
    assert (Hm : zlen middle = (cnt - 2) * B) by (subst middle; rewrite zlen_slice; nia).
    apply wp_blit; [lia|nia|]. apply wp_ret, Hfin; rewrite <- ?Hprep, <- ?Hlen; clear Hprep Hlen;
      unfold patch; subst middle; repeat (f_equal; try nia).
  - rewrite decide_False in Hprep, Hlen by nia. by apply wp_ret, wp_ret, Hfin.
Qed.

Lemma wp_prepare_rest o d A mv buf mem k cnt w :
  contents (k_srv w) o = Some d -> zlen d < 2 ^ 32 ->
  1 <= k <= 20 -> 0 <= A < 2 ^ 61 -> (2 ^ k | A) -> 0 <= mv < 2 ^ k ->
  2 <= cnt -> cnt * 2 ^ k < 2 ^ 31 -> zlen mem = cnt * 2 ^ k ->
  (cnt - 1) * 2 ^ k < mv + zlen buf <= cnt * 2 ^ k ->
  let v := visible d in
  let ra := zlen (first_read v (Z.to_nat A) (Z.to_nat (2 ^ k))) in
  let b3 := with_first v buf mem (Z.to_nat A) (Z.to_nat (2 ^ k)) (Z.to_nat mv) in
  wp (prepare_rest o A mv (zlen buf) buf b3 ra (zlen v <=? A + ra) cnt (2 ^ k) k)
    (prepared d A mv (cnt * 2 ^ k) k buf o w) w.
Proof.
  intros Hd Hsz Hk HA HdA Hmv Hcnt Hmax Hmem Hn v ra b3.
  assert (Hp : 0 < 2 ^ k <= 2 ^ 20) by (split; [lia|]; apply Z.pow_le_mono_r; lia).
  set (B := 2 ^ k) in *. set (T := (cnt - 1) * B) in *.
  assert (HT : T + B = cnt * B) by (unfold T; nia).
  assert (HBT : B <= T) by (unfold T; nia).
  assert (UINT64_MAX = 2 ^ 64 - 1) by done.
  assert (Hra : ra = Z.max 0 (Z.min B (zlen v - A))).
  { subst ra. unfold zlen. rewrite first_read_length. lia. }
  assert (Hb3 : zlen b3 = zlen mem).
  { unfold zlen, b3. rewrite with_first_length with (T := Z.to_nat T); zlia. }
  unfold prepare_rest. rewrite (u64_small (cnt - 1)) by nia. fold T. rewrite u64_small by lia.
  rewrite <- HT. apply wp_bind. destruct (Z.leb_spec (zlen v) (A + ra)) as [Heof|Hneof]; simpl.
  - apply wp_ret. apply (prepare_last_copies d A B T mv cnt buf mem b3 (mv + zlen buf));
      try lia; try done.
    + fold v. lia.
    + intros b target H1 H2 H3. split_and!; [apply same_but_srv_refl|by eauto|].
      subst target. by rewrite HT in *.
  - apply wp_bind, wp_slice; [lia..|]. set (old := take _ _).
    assert (Hold : zlen old = B) by (subst old; rewrite zlen_slice; lia).
    rewrite u64_small by lia.
    apply wp_bind. eapply wp_mono; [|eapply (wp_rpc_read o d)]; [|done|done|lia|lia| |lia| |lia].
    2: { apply Z.divide_add_r; [done|]. apply Z.divide_factor_r. }
    2: { apply Z.divide_refl. }
    intros [[[[st b'] ra'] eof'] ?] w1 (Hw1 & Hrel & Hok). fold B v in Hok.
    destruct (Z.eqb_spec st KURMA_OKAY) as [->|Hst]; simpl.
    2: { apply wp_ret, wp_ret. split_and!; [done| |done]. intros Hr1 Hr2.
         by destruct (Hrel Hr1 Hr2). }
    destruct (Hok eq_refl) as (-> & -> & ->). clear Hok.
    clearbody old. set (D2 := take (Z.to_nat B) (drop _ v)) in *.
    assert (HD2 : zlen D2 = Z.max 0 (Z.min B (zlen v - (A + T)))) by (apply zlen_slice; lia).
    set (tl := D2 ++ drop (length D2) old).
    assert (Htl : zlen tl = B).
    { unfold tl, zlen in *. rewrite length_app, length_drop. lia. }
    apply wp_bind, wp_blit; [lia..|]. fold (patch b3 (Z.to_nat T) tl).
    apply wp_bind, wp_assert; [lia|]. apply wp_ret.
    apply (prepare_last_copies d A B T mv cnt buf mem _ (Z.max (T + zlen D2) (mv + zlen buf)));
      try lia; try done.
    + unfold zlen in *. rewrite patch_length; lia.
    + intros i Hi. fold v b3. rewrite lookup_patch by zlia. by rewrite decide_False by lia.
    + intros i Hi. fold v. rewrite lookup_patch by zlia. rewrite decide_True by zlia.
      unfold tl. rewrite lookup_app_l by zlia. unfold D2.
      rewrite lookup_take_lt, lookup_drop by zlia. f_equal. zlia.
    + fold v. lia.
    + intros b target H1 H2 H3. split_and!; [done| |subst target; by rewrite HT in *].
      intros Hr1 Hr2. destruct (Hrel Hr1 Hr2). eauto.
Qed.

(** The bytes before the write in its first block. *)
Lemma wp_fill_gap (v mem : list Z) A mv B w (Q : list Z -> kworld S -> Prop) :
  0 <= A -> 0 <= mv < B -> B <= zlen mem ->
  let D := first_read v (Z.to_nat A) (Z.to_nat B) in
  Q (first_block v mem (Z.to_nat A) (Z.to_nat B) (Z.to_nat mv)) w ->
  wp (if zlen D <? mv then
        assert_that (zlen v <=? A + zlen D);;
        blit (D ++ drop (length D) mem) (zlen D) (replicate (Z.to_nat (mv - zlen D)) 0)
      else mret (D ++ drop (length D) mem)) Q w.
Proof.
  intros HA Hmv Hmem D HQ.
  assert (HD : zlen D = Z.max 0 (Z.min B (zlen v - A))) by (apply zlen_slice; lia).
  unfold first_block in HQ. fold D in HQ. destruct (Z.ltb_spec (zlen D) mv).
  - rewrite decide_True in HQ by zlia. apply wp_bind, wp_assert; [lia|].
    assert (Hr : zlen (replicate (Z.to_nat (mv - zlen D)) 0) = mv - zlen D).
    { unfold zlen at 1. rewrite length_replicate. zlia. }
    apply wp_blit; [zlia| |].
    { rewrite Hr. unfold zlen in *. rewrite length_app, length_drop. lia. }
    unfold zlen. rewrite Nat2Z.id. fold (patch (D ++ drop (length D) mem) (length D)
      (replicate (Z.to_nat (mv - Z.of_nat (length D))) 0)).
    by replace (Z.to_nat (mv - Z.of_nat (length D))) with (Z.to_nat mv - length D)%nat by zlia.
  - rewrite decide_False in HQ by zlia. by apply wp_ret.
Qed.

Lemma wp_prepare_write o d A mv buf mem k cnt w :
  contents (k_srv w) o = Some d -> zlen d < 2 ^ 32 ->
  1 <= k <= 20 -> 0 <= A < 2 ^ 61 -> (2 ^ k | A) -> 0 <= mv < 2 ^ k -> buf <> [] ->
  1 <= cnt -> cnt * 2 ^ k < 2 ^ 31 -> zlen mem = cnt * 2 ^ k ->
  (cnt - 1) * 2 ^ k < mv + zlen buf <= cnt * 2 ^ k ->
  wp (prepare_write o A mv (zlen buf) buf mem (cnt * 2 ^ k) (2 ^ k) k)
    (prepared d A mv (cnt * 2 ^ k) k buf o w) w.
Proof.
  intros Hd Hsz Hk HA HdA Hmv Hne Hcnt Hmax Hmem Hn.
  assert (Hp : 0 < 2 ^ k <= 2 ^ 20) by (split; [lia|]; apply Z.pow_le_mono_r; lia).
  set (B := 2 ^ k) in *. assert (HBm : B <= zlen mem) by nia.
  unfold prepare_write. apply wp_bind, wp_get_block_count; [lia|nia| |].
  { unfold UINT64_MAX. lia. }
  fold B. replace ((cnt * B + B - 1) / B) with cnt
    by (apply Z.div_unique with (B - 1); nia).
  apply wp_bind. eapply wp_mono; [|eapply (wp_rpc_read o d)]; [|done|done|lia|lia|done|lia| |lia].
  2: { apply Z.divide_refl. }
  intros [[[[st b1] ra] eof] ?] w1 (Hw1 & Hrel & Hok).
  destruct (Z.eqb_spec st KURMA_OKAY) as [->|Hst]; simpl.
  2: { apply wp_ret. split_and!; [done| |done]. intros Hr1 Hr2. by destruct (Hrel Hr1 Hr2). }
  destruct (Hok eq_refl) as (-> & -> & ->). clear Hok. fold B.
  set (v := visible d). fold (first_read v (Z.to_nat A) (Z.to_nat B)).
  apply wp_bind, wp_fill_gap; [lia..|].
  set (fb := first_block v mem (Z.to_nat A) (Z.to_nat B) (Z.to_nat mv)).
  assert (Hfb : zlen fb = zlen mem) by (unfold zlen, fb; rewrite first_block_length; zlia).
  assert (Hdec : cnt = 1 \/ 2 <= cnt) by lia. destruct Hdec as [->|Hc2].
  - rewrite Z.eqb_refl. apply wp_bind, wp_slice; [lia|zlia|lia|]. rewrite drop_0.
    rewrite (firstn_all2 buf) by zlia.
    apply wp_bind, wp_blit; [lia..|]. fold (patch fb (Z.to_nat mv) buf).
    pose proof (single_block_prepared v buf mem (Z.to_nat A) (Z.to_nat B) (Z.to_nat mv)
      ltac:(lia) ltac:(zlia) ltac:(zlia) ltac:(zlia) Hne) as Hprep.
    pose proof (first_read_length v (Z.to_nat A) (Z.to_nat B)) as Hfr.
    apply wp_ret. split_and!; [done|intros Hr1 Hr2; destruct (Hrel Hr1 Hr2); eauto|].
    assert (Hpl : length (patch fb (Z.to_nat mv) buf) = length mem) by (rewrite patch_length; zlia).
    fold v. rewrite Z.mul_1_l. rewrite <- Hprep.
    split_and!; [|zlia|f_equal; zlia]. unfold zlen. rewrite length_take. fold fb. zlia.
  - replace (cnt =? 1) with false by lia.
    apply wp_bind, wp_slice; [lia|lia|nia|]. rewrite drop_0.
    apply wp_bind, wp_blit; [lia| |].
    { rewrite Hfb. unfold zlen at 1. rewrite length_take. nia. }
    replace (Z.to_nat (B - mv)) with (Z.to_nat B - Z.to_nat mv)%nat by lia.
    fold (patch fb (Z.to_nat mv) (take (Z.to_nat B - Z.to_nat mv) buf)).
    fold (with_first v buf mem (Z.to_nat A) (Z.to_nat B) (Z.to_nat mv)).
    eapply wp_mono; [|apply (wp_prepare_rest o d A mv buf mem k cnt); try done].
    + intros r w2 (Hw2 & Hrel2 & Hr). split_and!; [by eapply same_but_srv_trans| |done].
      intros Hr1 Hr2. destruct (Hrel Hr1 Hr2). apply Hrel2; [done|].
      by rewrite (proj2 (proj2 Hw1 o)).
    + by rewrite (proj1 (proj2 Hw1 o)).
Qed.

Lemma wp_rpc_write o d off len buf wa0 k attrs w :
  contents (k_srv w) o = Some d -> 1 <= k <= 30 -> 0 <= off < 2 ^ 62 -> (2 ^ k | off) ->
  0 <= len <= zlen buf ->
  wp (rpc_write o off len buf wa0 k attrs) (fun '(st, wa, shift', attrs') w' =>
    k_hdls w' = k_hdls w /\
    (reliable (k_srv w) -> shift_of (k_srv w) o = k -> st = KURMA_OKAY) /\
    (st = KURMA_OKAY -> wa = len /\
      (forall o', o' <> o -> contents (k_srv w') o' = contents (k_srv w) o') /\
      (d = [] \/ shift_of (k_srv w) o = k -> exists d', contents (k_srv w') o = Some d' /\
        block_written (2 ^ shift_of (k_srv w) o) d off (take (Z.to_nat len) buf) d'))) w.
Proof.
  intros Hd Hk Hoff Hdiv Hlen. unfold rpc_write.
  rewrite i64_small, (u64_small off) by (unfold UINT64_MAX; lia).
  apply wp_bind, wp_slice; [lia..|]. rewrite drop_0.
  apply wp_bind, wp_assert; [lia|]. apply wp_bind, wp_int_shift1; [lia|].
  apply wp_check_aligned; [lia|done|].
  apply wp_bind, wp_call. intros r s' Hcall.
  destruct (write_law _ _ _ _ _ _ _ Hd (proj1 Hoff) Hcall) as (Hrel & Hok).
  assert (Hrel' : reliable (k_srv w) -> shift_of (k_srv w) o = k ->
            exists r', r = Some r' /\ errcode r' = 0).
  { intros ? <-. by apply Hrel. }
  destruct r as [r|].
  2: { wp_steps. split_and!; [done| |done]. intros Hr1 Hr2.
       by destruct (Hrel' Hr1 Hr2) as (? & ? & ?). }
  destruct (Z.eqb_spec (errcode r) 0) as [Hz|Hz].
  - destruct (Hok r eq_refl Hz) as (Hwf & Ho & Hc).
    apply wp_bind, wp_attrs_to_fsal; [done|]. intros a' _. wp_steps. split_and!; try done.
    intros _. split_and!; try done. intros Hsh. destruct Hc as (d' & ? & ? & _); [|by exists d'].
    destruct Hsh as [?| ->]; [by left|by right].
  - wp_steps. split_and!; [done| |done]. intros Hr1 Hr2.
    by destruct (Hrel' Hr1 Hr2) as (? & [= <-] & ?).
Qed.

(** What an unaligned write stores: the aligned range, patched. *)
Definition stored (d : list Z) (k off : Z) (buf : list Z) : list Z :=
  let n := zlen buf in
  let A := off / 2 ^ k * 2 ^ k in
  let E := (off + n + 2 ^ k - 1) / 2 ^ k * 2 ^ k in
  if (off =? A) && (n =? E - A) then pwrite d (Z.to_nat off) buf
  else pwrite d (Z.to_nat A)
         (take (Z.to_nat (E - A))
            (pwrite (drop (Z.to_nat A) (visible d)) (Z.to_nat (off - A)) buf)).

(** [d'] is what a middleware with blocks of [B] bytes holds after that. *)
Definition stored_as (B : Z) (d : list Z) (k off : Z) (buf d' : list Z) : Prop :=
  let A := off / 2 ^ k * 2 ^ k in
  exists b, pwrite d (Z.to_nat A) b = stored d k off buf /\ off + zlen buf <= A + zlen b /\
    (zlen (visible d) <= A + zlen b \/ (2 ^ k | A + zlen b)) /\ block_written B d A b d'.

Definition chosen_shift (e : kurma_fsal_obj_handle) (n : Z) : Z :=
  if negb (block_shift e =? 0) then block_shift e else initial_block_shift n.

Lemma adjust_written_all off n A sz :
  0 <= A <= off -> off < 2 ^ 61 -> 0 < n <= 2 ^ 30 -> off + n <= A + sz -> sz < 2 ^ 31 ->
  adjust_written off n A sz = n.
Proof.
  intros. unfold adjust_written. assert (UINT64_MAX = 2 ^ 64 - 1) by done.
  rewrite !u64_small by lia. rewrite (u64_small (off - A)) by lia.
  repeat case_match; try lia. rewrite u64_small by lia. lia.
Qed.

Lemma wp_write_out h e d off n A (align : bool) b sz k wa0 st0 w :
  k_hdls w !! h = Some e -> contents (k_srv w) (oid e) = Some d ->
  1 <= k <= 20 -> 0 <= A <= off -> off < 2 ^ 61 -> (2 ^ k | A) -> 0 < n <= 2 ^ 30 ->
  off + n <= A + sz -> 0 <= sz < 2 ^ 31 -> sz <= zlen b -> (align = true -> sz = n) ->
  wp (write_out h e off n A align b sz k wa0 st0) (fun '(err, wa, stable) w' =>
    (reliable (k_srv w) -> shift_of (k_srv w) (oid e) = k -> err = ERR_FSAL_NO_ERROR) /\
    (err = ERR_FSAL_NO_ERROR ->
      wa = n /\ stable = true /\
      (forall o', o' <> oid e -> contents (k_srv w') o' = contents (k_srv w) o') /\
      (d = [] \/ shift_of (k_srv w) (oid e) = k -> exists d', contents (k_srv w') (oid e) = Some d' /\
        block_written (2 ^ shift_of (k_srv w) (oid e)) d A (take (Z.to_nat sz) b) d'))) w.
Proof.
  intros He Hd Hk HA Hoff HdA Hn Hend Hsz Hb Hal. unfold write_out. apply wp_bind.
  eapply wp_mono; [|apply (wp_rpc_write (oid e) d)]; [|done|lia|lia|done|lia].
  intros [[[st wa] shift'] attrs'] w1 (Hh & Hrel & Hok).
  destruct (Z.eqb_spec st KURMA_OKAY) as [->|Hst]; simpl.
  2: { wp_steps. split; [intros Hr1 Hr2; by destruct Hst; auto|].
       by intros ?%kurma_to_fsal_status_ok. }
  destruct (Hok eq_refl) as (-> & Ho & Hc). apply wp_bind, wp_bind.
  eapply wp_try_update; [by rewrite Hh|]. intros w2 (Hs2 & _ & Hh2). rewrite Hh, He in Hh2.
  destruct Hh2 as (t & a & ts & Hh2).
  assert (Hwa : (if align then sz else adjust_written off n A sz) = n).
  { destruct align; [by apply Hal|]. by apply adjust_written_all; lia. }
  apply wp_when; intros _; [eapply wp_upd_hdl; [done|]|]; wp_steps; rewrite Hs2, Hwa; done.
Qed.

(** The bytes handed to the middleware, aligned or prepared. *)
Lemma wp_prepared_any d k off buf m (align : bool) o w :
  contents (k_srv w) o = Some d -> zlen d < 2 ^ 32 ->
  1 <= k <= 20 -> 0 <= off < 2 ^ 61 -> 0 < zlen buf <= 2 ^ 30 ->
  let A := off / 2 ^ k * 2 ^ k in
  let E := (off + zlen buf + 2 ^ k - 1) / 2 ^ k * 2 ^ k in
  align = (off =? A) && (zlen buf =? E - A) -> zlen m = E - A ->
  wp (if align then mret (inr (buf, E - A))
      else prepare_write o A (off - A) (zlen buf) buf m (E - A) (2 ^ k) k) (fun r w' =>
    same_but_srv w w' /\
    (reliable (k_srv w) -> shift_of (k_srv w) o = k ->
      reliable (k_srv w') /\ exists p, r = inr p) /\
    match r with
    | inl st => st <> KURMA_OKAY
    | inr (b, sz) =>
        off + zlen buf <= A + sz /\ 0 <= sz < 2 ^ 31 /\ sz <= zlen b /\
        (align = true -> sz = zlen buf) /\ (zlen (visible d) <= A + sz \/ A + sz = E) /\
        pwrite d (Z.to_nat A) (take (Z.to_nat sz) b) = stored d k off buf
    end) w.
Proof.
  intros Hd Hsz Hk Hoff Hn A E Hal Hm.
  destruct (align_facts k off (zlen buf) ltac:(lia) Hoff Hn) as (HA & HA2 & HE & HdA & HdE & HsE).
  fold A in HA, HA2, HdA, HdE, HsE. fold E in HE, HdE, HsE.
  unfold stored. fold A E. rewrite <- Hal. destruct align.
  - symmetry in Hal. apply andb_true_iff in Hal as [H1 H2]. apply wp_ret.
    split_and!; try lia; [apply same_but_srv_refl|by eauto|].
    rewrite firstn_all2 by zlia. f_equal. lia.
  - destruct HdE as [cnt Hcnt]. rewrite Hcnt in *. eapply wp_mono; [|apply (wp_prepare_write o d)].
    + intros r w' (Hs & Hrel & Hr). split_and!; [done|done|]. destruct r as [|[b sz]]; [done|].
      destruct Hr as (Hsz' & Hb & Htk). rewrite Htk. split_and!; try done.
      all: rewrite Hsz'; unfold zlen; rewrite length_take, pwrite_length, length_drop; zlia.
    + done. + done. + lia. + lia. + done. + lia.
    + intros ->. unfold zlen in Hn. simpl in Hn. lia.
    + nia. + lia. + lia. + split; [|lia].
      assert (E = A + cnt * 2 ^ k) by lia. nia.
Qed.

Lemma wp_kurma_write h e d off buf wa0 st0 w :
  k_hdls w !! h = Some e -> snapshot_id e = SNAPSHOT_NONE ->
  contents (k_srv w) (oid e) = Some d -> zlen d < 2 ^ 32 ->
  0 <= block_shift e <= 20 -> 0 <= off < 2 ^ 61 -> 0 < zlen buf <= 2 ^ 30 ->
  let k := chosen_shift e (zlen buf) in
  wp (kurma_write uninit h off (zlen buf) buf wa0 st0) (fun '(err, wa, stable) w' =>
    (reliable (k_srv w) -> shift_of (k_srv w) (oid e) = k -> k_choices w = [] ->
      err = ERR_FSAL_NO_ERROR) /\
    (err = ERR_FSAL_NO_ERROR ->
      wa = zlen buf /\ stable = true /\
      (forall o', o' <> oid e -> contents (k_srv w') o' = contents (k_srv w) o') /\
      (d = [] \/ shift_of (k_srv w) (oid e) = k -> exists d', contents (k_srv w') (oid e) = Some d' /\
        stored_as (2 ^ shift_of (k_srv w) (oid e)) d k off buf d'))) w.
Proof.
  intros He Hsn Hd Hsz Hbs Hoff Hn k.
  assert (Hk : 1 <= k <= 20).
  { unfold k, chosen_shift. pose proof (initial_block_shift_range (zlen buf)).
    destruct (Z.eqb_spec (block_shift e) 0); simpl; lia. }
  destruct (align_facts k off (zlen buf) ltac:(lia) Hoff Hn) as (HA & HA2 & HE & HdA & HdE & HsE).
  unfold kurma_write. apply wp_bind. eapply wp_get_hdl; [done|]. rewrite Hsn. simpl.
  replace (zlen buf =? 0) with false by lia. fold (chosen_shift e (zlen buf)). fold k.
  apply wp_bind, wp_int_shift1; [lia|]. apply wp_bind, wp_round_down; [lia|].
  assert (Hp : 0 < 2 ^ k <= 2 ^ 20) by (split; [lia|]; apply Z.pow_le_mono_r; lia).
  assert (UINT64_MAX = 2 ^ 64 - 1) by done.
  rewrite (u64_small (off + zlen buf)) by lia. apply wp_bind, wp_round_up; [lia..|].
  unfold stored_as, stored. set (A := off / 2 ^ k * 2 ^ k) in *.
  set (E := (off + zlen buf + 2 ^ k - 1) / 2 ^ k * 2 ^ k) in *.
  rewrite !u64_small by lia. set (align := _ && _).
  apply wp_bind. eapply wp_mono; [|apply wp_request_buffer].
  2: lia. 2: { subst align. intros [_ ?]%andb_true_iff. lia. }
  intros mem w1 (Hs1 & Hh1 & Hmem & Hm). destruct mem as [m|].
  2: { wp_steps. by split; [intros ? ? ?%Hmem|]. }
  destruct Hm as [Hml Hma]. apply wp_bind.
  eapply wp_mono; [|apply (wp_prepared_any d k off buf m align (oid e) w1); try done; try lia];
    [|by rewrite Hs1].
  intros r w2 ((Hw2 & Hc2) & Hrel & Hr). rewrite Hs1 in Hrel. destruct r as [st|[b sz]].
  - apply wp_ret. split; [|by intros ?%kurma_to_fsal_status_ok].
    intros Hr1 Hr2 _. by destruct (Hrel Hr1 Hr2) as (_ & ? & ?).
  - destruct Hr as (Hend & Hsz' & Hb & Hal & Htail & Hst).
    assert (Hb' : zlen (take (Z.to_nat sz) b) = sz) by (unfold zlen in *; rewrite length_take; lia).
    eapply wp_mono; [|apply (wp_write_out h e d)]; try done; try lia.
    + intros [[err wa] stable] w3 (Hrel3 & Hok). unfold stored in Hst. fold A E in Hst.
      split.
      * intros Hr1 Hr2 _. destruct (Hrel Hr1 Hr2). apply Hrel3; [done|].
        by rewrite (proj2 (Hc2 (oid e))), Hs1.
      * intros Herr. destruct (Hok Herr) as (-> & -> & Ho & Hc).
        rewrite (proj2 (Hc2 (oid e))), Hs1 in Hc. split_and!; try done.
        { intros o' Ho'. by rewrite Ho, (proj1 (Hc2 o')), Hs1. }
        intros Hsh. destruct (Hc Hsh) as (d' & Hd' & Hbw). exists d'. split; [done|].
        exists (take (Z.to_nat sz) b). rewrite Hb'. split_and!; try done.
        destruct Htail as [?|Ht]; [by left|right]. change (A + sz = E) in Ht. rewrite Ht.
        by apply Z.divide_factor_r.
    + rewrite Hw2. simpl. by rewrite Hh1.
    + by rewrite (proj1 (Hc2 (oid e))), Hs1.
Qed.

Lemma visible_small d : zlen d < 2 ^ 31 -> visible d = d.
Proof. intros. unfold visible. by rewrite decide_True. Qed.

Lemma visible_large d : 2 ^ 31 <= zlen d -> visible d = [].
Proof. intros. unfold visible. by rewrite decide_False by lia. Qed.

Lemma stored_small d k off buf :
  zlen d < 2 ^ 31 -> 1 <= k <= 20 -> 0 <= off < 2 ^ 61 -> 0 < zlen buf <= 2 ^ 30 ->
  stored d k off buf = pwrite d (Z.to_nat off) buf.
Proof.
  intros Hd Hk Hoff Hn. unfold stored.
  destruct (align_facts k off (zlen buf) ltac:(lia) Hoff Hn) as (HA & HA2 & HE & _).
  destruct (_ && _); [done|]. rewrite visible_small by done.
  rewrite <- (pwrite_patched d (Z.to_nat (off / 2 ^ k * 2 ^ k)) (Z.to_nat off) buf
    (Z.to_nat ((off + zlen buf + 2 ^ k - 1) / 2 ^ k * 2 ^ k - off / 2 ^ k * 2 ^ k))).
  - do 3 f_equal. lia.
  - lia.
  - zlia.
  - intros ->. unfold zlen in Hn. simpl in Hn. lia.
Qed.

Lemma stored_as_small B d k off buf d' :
  zlen d < 2 ^ 31 -> 1 <= k <= 20 -> 0 <= off < 2 ^ 61 -> 0 < zlen buf <= 2 ^ 30 ->
  d = [] \/ B = 2 ^ k -> stored_as B d k off buf d' -> d' = pwrite d (Z.to_nat off) buf.
Proof.
  intros Hd Hk Hoff Hn HB (b & Hb & Hend & Htail & Hbw). rewrite visible_small in Htail by done.
  destruct (align_facts k off (zlen buf) ltac:(lia) Hoff Hn) as (HA & _).
  rewrite <- (stored_small d k), <- Hb by done. apply (block_written_exact B); [lia|done|].
  destruct HB as [->| ->]; [left; unfold zlen in *; simpl in *; lia|].
  destruct Htail; [by left|right]. split; [lia|done].
Qed.

(** C1: a write through the Kurma FSAL of a non-empty buffer of at most 1 GiB to
    a file smaller than 2 GiB whose cached block shift is the middleware's (or
    that is empty), at any offset below 2^61 and any alignment, returns; when it
    reports success the file the middleware then stores, which replaces whole
    blocks, is exactly the old one with those bytes written at that offset (zeros
    in a hole before it, everything else as it was, other files untouched), the
    full count and stable storage are reported; and it succeeds whenever the
    middleware answers and memory is available. *)
Theorem kurma_write_correct h e d off buf wa0 st0 w :
  k_hdls w !! h = Some e -> snapshot_id e = SNAPSHOT_NONE ->
  contents (k_srv w) (oid e) = Some d -> zlen d < 2 ^ 31 ->
  0 <= block_shift e <= 20 -> 0 <= off < 2 ^ 61 -> 0 < zlen buf <= 2 ^ 30 ->
  d = [] \/ shift_of (k_srv w) (oid e) = chosen_shift e (zlen buf) ->
  wp (kurma_write uninit h off (zlen buf) buf wa0 st0) (fun '(err, wa, stable) w' =>
    (reliable (k_srv w) -> shift_of (k_srv w) (oid e) = chosen_shift e (zlen buf) ->
      k_choices w = [] -> err = ERR_FSAL_NO_ERROR) /\
    (err = ERR_FSAL_NO_ERROR ->
      wa = zlen buf /\ stable = true /\
      contents (k_srv w') (oid e) = Some (pwrite d (Z.to_nat off) buf) /\
      forall o', o' <> oid e -> contents (k_srv w') o' = contents (k_srv w) o')) w.
Proof.
  intros He Hsn Hd Hsz Hbs Hoff Hn Hsh.
  assert (Hk : 1 <= chosen_shift e (zlen buf) <= 20).
  { unfold chosen_shift. pose proof (initial_block_shift_range (zlen buf)).
    destruct (Z.eqb_spec (block_shift e) 0); simpl; lia. }
  eapply wp_mono; [|apply (wp_kurma_write h e d)]; try done; try lia.
  intros [[err wa] st] w' (Hrel & Hok). split; [done|]. intros Herr.
  destruct (Hok Herr) as (-> & -> & Ho & Hc). destruct (Hc Hsh) as (d' & Hd' & Hst).
  apply stored_as_small in Hst as ->; try done. destruct Hsh as [?| ->]; [by left|by right].
Qed.

(** C2: a read through the Kurma FSAL of at most 1 GiB of a file smaller than
    2 GiB whose cached size is right and whose block shift is known, at any offset
    below 2^61 and any alignment, returns without changing any file; it succeeds whenever the middleware answers, the block shift is the
    middleware's and memory is available; on success the
    caller's buffer starts with exactly the bytes of the file at that offset (as
    many as exist), the rest of the buffer is as it was, the count is their
    number, and end-of-file is reported exactly when the read reaches the end. *)
Theorem kurma_read_correct h e d off n buf ra0 eof0 w :
  k_hdls w !! h = Some e -> snapshot_id e = SNAPSHOT_NONE ->
  contents (k_srv w) (oid e) = Some d -> zlen d < 2 ^ 31 -> get_filesize e = zlen d ->
  1 <= block_shift e <= 20 -> 0 <= off < 2 ^ 61 -> 0 < n <= 2 ^ 30 -> zlen buf = n ->
  wp (kurma_read uninit h off n buf ra0 eof0) (fun '(err, buf', ra, eof) w' =>
    (forall o, contents (k_srv w') o = contents (k_srv w) o) /\
    (reliable (k_srv w) -> shift_of (k_srv w) (oid e) = block_shift e -> k_choices w = [] ->
      err = ERR_FSAL_NO_ERROR) /\
    (err = ERR_FSAL_NO_ERROR ->
      let data := take (Z.to_nat n) (drop (Z.to_nat off) d) in
      buf' = data ++ drop (length data) buf /\ ra = zlen data /\
      eof = (zlen d <=? off + zlen data))) w.
Proof.
  intros He Hsn Hd Hsz Hc Hk Hoff Hn Hb. rewrite <- (visible_small d) by done.
  apply wp_kurma_read; done || lia || (by rewrite ?visible_small by done).
Qed.

(** The size of the file is kept in an [int]: a file of 2 GiB to 4 GiB reads
    as empty.  Every successful read of it, also of bytes that exist, returns no
    bytes and reports the end of the file. *)
Theorem kurma_read_2gib_is_empty h e d off n buf ra0 eof0 w :
  k_hdls w !! h = Some e -> snapshot_id e = SNAPSHOT_NONE ->
  contents (k_srv w) (oid e) = Some d -> 2 ^ 31 <= zlen d < 2 ^ 32 -> get_filesize e = zlen d ->
  1 <= block_shift e <= 20 -> 0 <= off < 2 ^ 61 -> 0 < n <= 2 ^ 30 -> zlen buf = n ->
  wp (kurma_read uninit h off n buf ra0 eof0) (fun '(err, buf', ra, eof) _ =>
    err = ERR_FSAL_NO_ERROR -> buf' = buf /\ ra = 0 /\ eof = true) w.
Proof.
  intros He Hsn Hd Hsz Hc Hk Hoff Hn Hb.
  eapply wp_mono; [|apply (wp_kurma_read h e d)]; try done; try lia.
  intros [[[err buf'] ra] eof] w' (_ & _ & Hok) Herr. specialize (Hok Herr).
  rewrite visible_large, drop_nil, take_nil in Hok by lia. simpl in Hok. rewrite drop_0 in Hok.
  destruct Hok as (-> & -> & ->). split_and!; [done..|]. apply Z.leb_le. zlia.
Qed.

(** and an unaligned write to such a file destroys data: on success the
    bytes between the start of the block and the write are zero. *)
Theorem kurma_write_2gib_zeroes h e d off buf wa0 st0 w :
  k_hdls w !! h = Some e -> snapshot_id e = SNAPSHOT_NONE ->
  contents (k_srv w) (oid e) = Some d -> 2 ^ 31 <= zlen d < 2 ^ 32 ->
  1 <= block_shift e <= 20 -> 0 <= off < 2 ^ 61 -> 0 < zlen buf <= 2 ^ 30 ->
  shift_of (k_srv w) (oid e) = block_shift e ->
  wp (kurma_write uninit h off (zlen buf) buf wa0 st0) (fun '(err, _, _) w' =>
    err = ERR_FSAL_NO_ERROR ->
    exists d', contents (k_srv w') (oid e) = Some d' /\
      forall i, off / 2 ^ block_shift e * 2 ^ block_shift e <= Z.of_nat i < off ->
        d' !! i = Some 0) w.
Proof.
  intros He Hsn Hd Hsz Hk Hoff Hn Hsh.
  eapply wp_mono; [|apply (wp_kurma_write h e d)]; try done; try lia.
  intros [[err wa] st] w' (_ & Hok) Herr. destruct (Hok Herr) as (_ & _ & _ & Hc).
  unfold stored_as, chosen_shift in Hc. replace (block_shift e =? 0) with false in Hc by lia.
  cbn [negb] in Hc. cbv zeta in Hc.
  destruct Hc as (d' & Hd' & b & Hb & Hend & _ & _ & Hbw); [by right|].
  exists d'. split; [done|]. intros i Hi. rewrite Hbw by (left; unfold zlen in *; simpl in *; lia).
  rewrite Hb. unfold stored. set (k := block_shift e) in *.
  destruct (align_facts k off (zlen buf) ltac:(lia) Hoff Hn) as (HA & HA2 & HE & _).
  rewrite visible_large, drop_nil by lia.
  replace (off =? _) with false by lia. simpl.
  rewrite lookup_pwrite, decide_False, length_take, pwrite_length by lia. simpl.
  rewrite decide_True by zlia. rewrite lookup_take_lt, lookup_pwrite by zlia.
  by rewrite decide_True, decide_False by (simpl; lia).
Qed.
End file_io.

(** ** A middleware with one file

    The smallest server that keeps its promises: it stores one file and answers
    every request for it; requests the theorems say nothing about fail.
    Like the middleware it replaces whole blocks: bytes of the last block written
    that the request does not give become zero. *)

Module RefServer.
Definition o0 : ObjectID := mk_oid 7 9 1 1 0.
Definition not_found : KurmaResult :=
  mk_result KURMA_ERROR_OBJECT_NOT_FOUND
    (mk_oattrs None None None None None None None None None None None None None None)
    None None [] 0 0.
Definition reply (s : list Z) (data : option (list Z)) : KurmaResult :=
  mk_result 0
    (mk_oattrs (Some (zlen s)) None None (Some 420) (Some 1) None None None None None (Some 16)
       None None None)
    (Some o0) data [] 0 0.

(** The file after [b] at [off]: the rest of its last block zeroed. *)
Definition put_blocks (s : list Z) (off : Z) (b : list Z) : list Z :=
  let e := off + zlen b in
  let n := Z.min ((e + 2 ^ 16 - 1) / 2 ^ 16 * 2 ^ 16) (zlen s) - e in
  pwrite s (Z.to_nat off) (b ++ replicate (Z.to_nat n) 0).

Lemma put_blocks_written s off b : 0 <= off -> block_written (2 ^ 16) s off b (put_blocks s off b).
Proof.
  intros Hoff. unfold put_blocks. set (e := off + zlen b).
  set (r := (e + 2 ^ 16 - 1) / 2 ^ 16 * 2 ^ 16).
  assert (He : e = off + Z.of_nat (length b)) by done.
  split; [rewrite !pwrite_length, length_app, length_replicate; unfold zlen; lia|].
  rewrite <- He. fold r. assert (e <= r).
  { pose proof (Z.div_mod (e + 2 ^ 16 - 1) (2 ^ 16) ltac:(lia)).
    pose proof (Z.mod_pos_bound (e + 2 ^ 16 - 1) (2 ^ 16) ltac:(lia)). unfold r. lia. }
  intros i Hi. rewrite !lookup_pwrite, length_app, length_replicate.
  unfold zlen. repeat case_decide; try done; try lia.
  by rewrite lookup_app_l by lia.
Qed.

#[export] Instance ref_service : KurmaService (list Z) := {
  kurma_service_if_open o _ s := (Some (if decide (o = o0) then reply s None else not_found), s);
  kurma_service_if_close o s := (Some (if decide (o = o0) then reply s None else not_found), s);
  kurma_service_if_read o off len s :=
    (Some (if decide (o = o0)
           then reply s (Some (take (Z.to_nat len) (drop (Z.to_nat off) s))) else not_found), s);
  kurma_service_if_write o off b s :=
    if decide (o = o0)
    then let s' := put_blocks s off b in (Some (reply s' None), s')
    else (Some not_found, s);
  kurma_service_if_lookup _ _ s := (None, s);
  kurma_service_if_create _ _ _ s := (None, s);
  kurma_service_if_mkdir _ _ _ s := (None, s);
  kurma_service_if_getattrs o s := (Some (if decide (o = o0) then reply s None else not_found), s);
  kurma_service_if_setattrs _ _ s := (Some not_found, s);
  kurma_service_if_rename _ _ _ _ s := (None, s);
  kurma_service_if_unlink _ _ s := (None, s);
  kurma_service_if_take_snapshot _ _ s := (None, s);
  kurma_service_if_lookup_snapshot _ _ _ s := (None, s);
  kurma_service_if_restore_snapshot _ _ _ s := (None, s);
  kurma_service_if_delete_snapshot _ _ s := (None, s)
}.

Lemma reply_wf s data : attrs_wf (new_attrs (reply s data)).
Proof. split_and!; simpl; [apply Z.leb_le; zlia|done|done|lia]. Qed.

#[export, program] Instance ref_server : KurmaFileServer (list Z) := {
  contents s o := if decide (o = o0) then Some s else None;
  shift_of _ _ := 16;
  reliable _ := True
}.
Next Obligation.
  intros s o d off len r s'. simpl. destruct (decide (o = o0)); [|done].
  intros [= <-] Hoff Hlen [= <- <-].
  split_and!; [done|eauto|]. intros r' [= <-] _. split_and!; [apply reply_wf|done|done].
Qed.
Next Obligation.
  intros s o d off b r s'. simpl. destruct (decide (o = o0)) as [->|]; [|done].
  intros [= <-] Hoff [= <- <-].
  split; [eauto|]. intros r' [= <-] _. split_and!; [apply reply_wf| |].
  { intros o' Ho. by rewrite !decide_False. }
  intros _. exists (put_blocks s off b). split_and!; [done|by apply put_blocks_written|done].
Qed.

(** A state with one handle on the file [d]. *)
Definition hdl (d : list Z) : kurma_fsal_obj_handle :=
  mk_khdl REGULAR_FILE (set_filesize (zlen d) attrs0) [] 16 o0 FSAL_O_CLOSED None "f"%string 0 0 0.
Definition world_of (d : list Z) : kworld (list Z) :=
  mk_kworld d {[ 1%positive := hdl d ]} 2 time0 [] (0, 0, 0) [] (0, 0) 1 true.

Lemma list_of_length n : 0 <= n -> exists d : list Z, zlen d = n.
Proof. intros. exists (replicate (Z.to_nat n) 7). unfold zlen. rewrite length_replicate. lia. Qed.
End RefServer.

Section witnesses.
Import RefServer.

Lemma kurma_write_correct_witness :
  wp (kurma_write (fun _ => 5) 1 1 2 [8; 9] 0 false) (fun '(err, wa, _) w' =>
    err = ERR_FSAL_NO_ERROR /\ wa = 2 /\
    contents (k_srv w') o0 = Some [1; 8; 9; 4; 5]) (world_of [1; 2; 3; 4; 5]).
Proof.
  eapply wp_mono; [|apply (kurma_write_correct (fun _ => 5) 1 (hdl [1; 2; 3; 4; 5])
    [1; 2; 3; 4; 5] 1 [8; 9] 0 false (world_of [1; 2; 3; 4; 5])); vm_compute; intuition congruence].
  intros [[err wa] st] w' [Hrel Hok].
  assert (Herr : err = ERR_FSAL_NO_ERROR) by (by apply Hrel).
  destruct (Hok Herr) as (-> & _ & Hc & _). split_and!; [done|done|exact Hc].
Defined.

Lemma kurma_read_correct_witness :
  wp (kurma_read (fun _ => 5) 1 1 4 [9; 9; 9; 9] 0 false) (fun '(err, buf, ra, eof) _ =>
    err = ERR_FSAL_NO_ERROR /\ buf = [2; 3; 9; 9] /\ ra = 2 /\ eof = true) (world_of [1; 2; 3]).
Proof.
  eapply wp_mono; [|apply (kurma_read_correct (fun _ => 5) 1 (hdl [1; 2; 3]) [1; 2; 3] 1 4
    [9; 9; 9; 9] 0 false (world_of [1; 2; 3])); vm_compute; intuition congruence].
  intros [[[err buf] ra] eof] w' (_ & Hrel & Hok).
  assert (Herr : err = ERR_FSAL_NO_ERROR) by (by apply Hrel).
  destruct (Hok Herr) as (-> & -> & ->). done.
Defined.

Lemma kurma_read_2gib_is_empty_witness :
  exists d, zlen d = 2 ^ 31 /\
  wp (kurma_read (fun _ => 5) 1 0 1 [9] 0 false) (fun '(err, buf, ra, eof) _ =>
    err = ERR_FSAL_NO_ERROR -> buf = [9] /\ ra = 0 /\ eof = true) (world_of d).
Proof.
  destruct (list_of_length (2 ^ 31)) as [d Hd]; [lia|]. exists d. split; [done|].
  apply (kurma_read_2gib_is_empty (fun _ => 5) 1 (hdl d) d 0 1 [9] 0 false (world_of d));
    try done; rewrite ?Hd; simpl; lia.
Defined.

Lemma kurma_write_2gib_zeroes_witness :
  exists d, zlen d = 2 ^ 31 /\
  wp (kurma_write (fun _ => 5) 1 5 1 [9] 0 false) (fun '(err, _, _) w' =>
    err = ERR_FSAL_NO_ERROR ->
    exists d', contents (k_srv w') o0 = Some d' /\
      forall i, 0 <= Z.of_nat i < 5 -> d' !! i = Some 0) (world_of d).
Proof.
  destruct (list_of_length (2 ^ 31)) as [d Hd]; [lia|]. exists d. split; [done|].
  apply (kurma_write_2gib_zeroes (fun _ => 5) 1 (hdl d) d 5 [9] 0 false (world_of d));
    try done; rewrite ?Hd; simpl; lia.
Defined.
End witnesses.
