(* ===== verification/KurmaFsal.v ===== *)
(** The Kurma FSAL behind the FSAL interface.

    [FsalOps] is instantiated with the operations of FSAL_KURMA (and the default
    methods for what it does not provide), and the laws the open-file code of
    the inode cache relies on are proved for it, so the theorems on
    [cache_inode_open] and [cache_inode_close] apply to this server.  The static
    file-system information of FSAL_KURMA/main.c says which features exist. *)

From stdpp Require Import strings.
From S2P Require Import Prelude Status World CacheEntry LockGrant KurmaAttrs KurmaIO KurmaFile.

(** ** Static information *)

(** The flags of [struct fsal_staticfsinfo_t]. *)
Record fsal_staticfsinfo_t : Set := mk_fsinfo {
  no_trunc : bool; chown_restricted : bool; case_insensitive : bool; case_preserving : bool;
  link_support : bool; symlink_support : bool; lock_support : bool; lock_support_owner : bool;
  lock_support_async_block : bool; named_attr : bool; unique_handles : bool; cansettime : bool;
  homogenous : bool; auth_exportpath_xdev : bool; delegations : bool;
  accesscheck_support : bool; share_support : bool; share_support_owner : bool;
  pnfs_file : bool; reopen_method : bool
}.

Definition fsal_supports (info : fsal_staticfsinfo_t) (option : fsal_fsinfo_options_t) : bool :=
  match option with
  | fso_no_trunc => no_trunc info
  | fso_chown_restricted => chown_restricted info
  | fso_case_insensitive => case_insensitive info
  | fso_case_preserving => case_preserving info
  | fso_link_support => link_support info
  | fso_symlink_support => symlink_support info
  | fso_lock_support => lock_support info
  | fso_lock_support_owner => lock_support_owner info
  | fso_lock_support_async_block => lock_support_async_block info
  | fso_named_attr => named_attr info
  | fso_unique_handles => unique_handles info
  | fso_cansettime => cansettime info
  | fso_homogenous => homogenous info
  | fso_auth_exportpath_xdev => auth_exportpath_xdev info
  | fso_delegations => delegations info
  | fso_accesscheck_support => accesscheck_support info
  | fso_share_support => share_support info
  | fso_share_support_owner => share_support_owner info
  | fso_pnfs_ds_supported => pnfs_file info
  | fso_reopen_method => reopen_method info
  end.

(** [default_posix_info] of FSAL_KURMA; members it does not name are zero. *)
Definition default_posix_info : fsal_staticfsinfo_t :=
  mk_fsinfo true true false true false false false false false false true true true false
    false false false false false false.

(** ** The instance *)

Section kurma_fsal.
Context {S : Type} `{!KurmaService S} `{!KurmaFileServer S}.

(** The stack variable [kurma_open] may leave unset, and a call's result as a
    value of the interface. *)
Variable chgtime0 : timespec.

Definition as_call (w : kworld S) (r : outcome (kworld S) fsal_errors_t)
    : fsal_errors_t * kworld S :=
  match r with Ret err w' => (err, w') | _ => (ERR_FSAL_SERVERFAULT, w) end.

(** The open flags of a handle. *)
Definition flags_of (w : kworld S) (h : loc) : Z :=
  from_option openflags FSAL_O_CLOSED (k_hdls w !! h).

#[export] Instance kurma_fsal_ops : FsalOps (kworld S) := {
  fs_supports _ option := fsal_supports default_posix_info option;
  obj_lock_op w _ _ _ param := (ERR_FSAL_NOTSUPP, param, w);
  obj_share_op w _ _ := (ERR_FSAL_NOTSUPP, w);
  obj_status w h := flags_of w h;
  obj_open w h flags := as_call w (kurma_open h flags chgtime0 w);
  obj_reopen w _ _ := (ERR_FSAL_NOTSUPP, w);
  obj_close w h := as_call w (kurma_close h w)
}.

(** Kurma leaves locks to the server: the lock-manager theorems apply. *)
#[export] Instance kurma_server_locks : ServerLocks (kworld S).
Proof. by split. Qed.

Lemma preserves_call {B} (π : kworld S -> B) req :
  (forall s w, π (kset_srv s w) = π w) -> preserves π (call req).
Proof. intros Hs w r w'. unfold call. destruct (req (k_srv w)). intros [= _ <-]. apply Hs. Qed.

Lemma preserves_kchoose {B} (π : kworld S -> B) :
  (forall c w, π (kset_choices c w) = π w) -> preserves π kchoose.
Proof.
  intros Hs w r w'. unfold kchoose. destruct (k_choices w); intros [= _ <-]; [done|apply Hs].
Qed.

Lemma preserves_attrs_to_fsal {W B} (π : W -> B) k a : preserves π (kurma_attrs_to_fsal k a).
Proof. unfold kurma_attrs_to_fsal, assert_that, int_shift1. preserves_go. Qed.

Lemma preserves_rpc_open o fl t a : preserves (B := gmap loc _) k_hdls (rpc_open o fl t a).
Proof.
  unfold rpc_open, kurma_result_to_fsal_attrs. preserves_go; auto using preserves_call, preserves_attrs_to_fsal.
Qed.

Lemma preserves_rpc_close o a : preserves (B := gmap loc _) k_hdls (rpc_close o a).
Proof.
  unfold rpc_close, kurma_result_to_fsal_attrs. preserves_go; auto using preserves_call, preserves_attrs_to_fsal.
Qed.

(** Updating a handle without touching its flags touches no flags. *)
Lemma preserves_upd_hdl h f h' :
  (forall e, openflags (f e) = openflags e) -> preserves (fun w => flags_of w h') (upd_hdl h f).
Proof.
  intros Hf w r w'. unfold upd_hdl. intros (e & w1 & H1 & H2)%bind_ret_inv.
  unfold get_hdl, deref in H1. destruct (k_hdls w !! h) as [e'|] eqn:E; [|done].
  injection H1 as <- <-. injection H2 as _ <-. unfold flags_of; simpl.
  destruct (decide (h' = h)) as [->|Hne].
  - rewrite lookup_insert_eq, E. simpl. apply Hf.
  - by rewrite lookup_insert_ne.
Qed.

Lemma preserves_try_update h a h' :
  preserves (fun w => flags_of w h') (kurma_try_update_attributes h a).
Proof.
  unfold kurma_try_update_attributes. preserves_go.
  - by apply preserves_kchoose.
  - apply preserves_upd_hdl. intros e. by destruct (set_attrs_override _ _).
Qed.

Lemma get_hdl_run h (w : kworld S) (e : kurma_fsal_obj_handle) w' :
  get_hdl h w = Ret e w' -> w' = w /\ k_hdls w !! h = Some e.
Proof.
  unfold get_hdl, deref. destruct (k_hdls w !! h); [|done]. by intros [= <- <-].
Qed.

Lemma set_flags_run h fl w r w' h' :
  upd_hdl h (with_openflags fl) w = Ret r w' ->
  flags_of w' h' = if decide (h' = h) then fl else flags_of w h'.
Proof.
  unfold upd_hdl. intros (e & w1 & H1 & H2)%bind_ret_inv.
  unfold get_hdl, deref in H1. destruct (k_hdls w !! h) as [e'|] eqn:E; [|done].
  injection H1 as <- <-. injection H2 as _ <-. unfold flags_of; simpl.
  destruct (decide (h' = h)) as [->|Hne]; [by rewrite lookup_insert_eq|by rewrite lookup_insert_ne].
Qed.

(** The flags recorded when a call with status [st] succeeds. *)
Lemma record_flags_run h fl st attrs w r w' h' :
  when (st =? KURMA_OKAY) (upd_hdl h (with_openflags fl);;
    kurma_try_update_attributes h attrs) w = Ret r w' ->
  flags_of w' h' =
    if decide (h' = h /\ kurma_to_fsal_status st = ERR_FSAL_NO_ERROR) then fl else flags_of w h'.
Proof.
  destruct (Z.eqb_spec st KURMA_OKAY) as [->|Hst]; simpl.
  - intros (? & w1 & H1 & H2)%bind_ret_inv. apply preserves_try_update with (h' := h') in H2.
    rewrite H2. rewrite (set_flags_run _ _ _ _ _ h' H1). repeat case_decide; intuition congruence.
  - intros [= _ <-]. rewrite decide_False; [done|]. by intros [_ ?%kurma_to_fsal_status_ok].
Qed.

Lemma kurma_open_flags h fl w err w' h' :
  kurma_open h fl chgtime0 w = Ret err w' ->
  flags_of w' h' =
    if decide (h' = h /\ err = ERR_FSAL_NO_ERROR) then fl else flags_of w h'.
Proof.
  unfold kurma_open. intros (e & w1 & H1 & H2)%bind_ret_inv.
  apply get_hdl_run in H1 as [-> He].
  destruct (is_snapshot_obj _); [injection H2 as <- <-; by rewrite decide_False by intuition congruence|].
  apply bind_ret_inv in H2 as ([[st chg] attrs] & w2 & H2 & H3).
  apply preserves_rpc_open in H2.
  apply bind_ret_inv in H3 as (? & w3 & H3 & H4). apply record_flags_run with (h' := h') in H3.
  apply bind_ret_inv in H4 as (? & w4 & H4 & H5). injection H5 as <- <-.
  apply preserves_upd_hdl with (h' := h') in H4; [|done]. rewrite H4, H3.
  unfold flags_of. by rewrite H2.
Qed.

Lemma kurma_close_flags h w err w' h' :
  kurma_close h w = Ret err w' ->
  flags_of w' h' =
    if decide (h' = h /\ err = ERR_FSAL_NO_ERROR) then FSAL_O_CLOSED else flags_of w h'.
Proof.
  unfold kurma_close. intros (e & w1 & H1 & H2)%bind_ret_inv.
  apply get_hdl_run in H1 as [-> He].
  destruct (is_snapshot_obj _); [injection H2 as <- <-; by rewrite decide_False by intuition congruence|].
  apply bind_ret_inv in H2 as ([st attrs] & w2 & H2 & H3). apply preserves_rpc_close in H2.
  apply bind_ret_inv in H3 as (? & w3 & H3 & H4). apply record_flags_run with (h' := h') in H3.
  injection H4 as <- <-. rewrite H3. unfold flags_of. by rewrite H2.
Qed.

Lemma kurma_close_not_opened h w err w' :
  kurma_close h w = Ret err w' -> err <> ERR_FSAL_NOT_OPENED.
Proof.
  unfold kurma_close. intros (e & w1 & H1 & H2)%bind_ret_inv.
  destruct (is_snapshot_obj _); [by injection H2 as <- <-|].
  apply bind_ret_inv in H2 as ([st attrs] & w2 & H2 & H3).
  apply bind_ret_inv in H3 as (? & w3 & H3 & H4). injection H4 as <- <-.
  unfold kurma_to_fsal_status. repeat case_match; done.
Qed.

(** The Kurma FSAL keeps the promises the inode cache relies on. *)
#[export] Instance kurma_open_laws : FsalOpenLaws.
Proof.
  split.
  - intros w h fl err w'. simpl. unfold as_call. intros H.
    assert (Hf : forall h', flags_of w' h' =
      if decide (h' = h /\ err = ERR_FSAL_NO_ERROR) then fl else flags_of w h').
    { intros h'. destruct (kurma_open h fl chgtime0 w) eqn:E; simplify_eq.
      1: by apply kurma_open_flags. all: by rewrite decide_False by intuition congruence. }
    split; [rewrite Hf; repeat case_decide; intuition congruence|].
    intros h' Hne. rewrite Hf. by rewrite decide_False by intuition congruence.
  - intros w h fl err w' [= <- <-]. by split_and!.
  - intros w h err w'. simpl. unfold as_call. intros H.
    assert (Hf : forall h', flags_of w' h' =
      if decide (h' = h /\ err = ERR_FSAL_NO_ERROR) then FSAL_O_CLOSED else flags_of w h').
    { intros h'. destruct (kurma_close h w) eqn:E; simplify_eq.
      1: by apply kurma_close_flags. all: by rewrite decide_False by intuition congruence. }
    split_and!; [rewrite Hf; repeat case_decide; intuition congruence| |].
    + intros ->. destruct (kurma_close h w) eqn:E; simplify_eq.
      by apply kurma_close_not_opened in E.
    + intros h' Hne. rewrite Hf. by rewrite decide_False by intuition congruence.
Qed.
End kurma_fsal.

(** ** The theorems on open files, for this FSAL *)

Section witnesses.
Import RefServer.
#[local] Existing Instance kurma_fsal_ops.
#[local] Existing Instance kurma_open_laws.

Definition one_file : world (kworld (list Z)) :=
  initial_world (world_of [1; 2; 3]) {[ 1%positive := regular_file ]}.

Lemma cache_inode_open_correct_witness :
  wp (@cache_inode_open _ (kurma_fsal_ops time0) 10 1 FSAL_O_READ 0) (fun st w' =>
    @fd_accounted _ (kurma_fsal_ops time0) w' /\ st = CACHE_INODE_SUCCESS) one_file.
Proof.
  pose proof (@cache_inode_open_correct _ (kurma_fsal_ops time0) 10 (kurma_open_laws time0)
    1 FSAL_O_READ 0 one_file) as H.
  eapply wp_intro; [vm_compute; reflexivity|].
  split; [|done]. apply wp_elim in H as (st & w' & H1 & H2 & _).
  - vm_compute in H1. injection H1 as <- <-. exact H2.
  - vm_compute. done.
  - vm_compute. done.
  - done.
Defined.

(** The file is open. *)
Definition open_file : world (kworld (list Z)) :=
  match @cache_inode_open _ (kurma_fsal_ops time0) 10 1 FSAL_O_READ 0 one_file with Ret _ w => w | _ => one_file end.

Lemma fd_count_tracks_open_files_witness :
  @obj_status _ (kurma_fsal_ops time0) (w_fs open_file) 1 = FSAL_O_READ /\
  wp (@cache_inode_close _ (kurma_fsal_ops time0) 1 CACHE_INODE_FLAG_REALLYCLOSE) (fun st w' =>
    @fd_accounted _ (kurma_fsal_ops time0) w' /\ st = CACHE_INODE_SUCCESS /\
    @obj_status _ (kurma_fsal_ops time0) (w_fs w') 1 = FSAL_O_CLOSED) open_file.
Proof.
  split; [by vm_compute|].
  destruct (w_files open_file !! 1%positive) as [e|] eqn:He; [|by vm_compute in He].
  destruct (@fd_count_tracks_open_files _ (kurma_fsal_ops time0) (kurma_open_laws time0)
    1 e true CACHE_INODE_FLAG_REALLYCLOSE open_file) as (H & _); [done|by vm_compute|].
  apply wp_elim in H as (st & w' & H1 & H2 & H3). eapply wp_intro; [exact H1|].
  assert (st = CACHE_INODE_SUCCESS) as -> by (vm_compute in H1; by injection H1 as <- <-).
  split_and!; [exact H2|done|]. apply H3; [done| |done]. vm_compute in He. by injection He as <-.
Defined.
End witnesses.
