(* ===== verification/KurmaHandle.v ===== *)
(** Handles and directory operations of the Kurma FSAL.

    FSAL/FSAL_KURMA/handle.c and the remaining RPC wrappers of kurma.c: the wire
    form of a handle, its recovery, lookup, create, mkdir, rename, unlink,
    attributes and snapshots.  Two handles exist for a file with snapshots: the
    file and its snapshot directory, told apart by [snapshot_id]. *)

From stdpp Require Import strings.
From S2P Require Import Prelude Status World CacheEntry KurmaAttrs KurmaIO KurmaFile.

#[local] Open Scope Z_scope.

(** ** The wire form

    Little-endian integers of the widths of the Thrift structure [ObjectID]:
    two 64-bit halves of the id, a 16-bit creator, a byte of type and of flags;
    then the 32-bit snapshot id. *)

(** The value of a signed integer of the width of the bytes. *)
Definition le_signed (bs : list Z) : Z :=
  let x := le_value bs in
  let m := 2 ^ (8 * zlen bs) in
  if x <? m / 2 then x else x - m.

Definition V4_FH_OPAQUE_SIZE : nat := 122.

Definition package_kurma_handle (o : ObjectID) (snapshot_id : Z) : list Z :=
  le_bytes 8 (id1 o) ++ le_bytes 8 (id2 o) ++ le_bytes 2 (creator o)
  ++ le_bytes 1 (oid_type o) ++ le_bytes 1 (oid_flags o) ++ le_bytes 4 snapshot_id.

Definition extract_kurma_handle (buf : list Z) : ObjectID * Z :=
  (mk_oid (le_signed (take 8 buf)) (le_signed (take 8 (drop 8 buf)))
     (le_signed (take 2 (drop 16 buf))) (le_signed (take 1 (drop 18 buf)))
     (le_signed (take 1 (drop 19 buf))),
   le_signed (take 4 (drop 20 buf))).

(** A zeroed buffer of the handle size, after packaging into it. *)
Definition opaque_of (o : ObjectID) (snapshot_id : Z) : list Z :=
  package_kurma_handle o snapshot_id ++ replicate (V4_FH_OPAQUE_SIZE - 24) 0.

(** ** Names of snapshot directories *)

Definition SNAPSHOT_DIR_PREFIX : string := "._KURMA_SNAPSHOTS_".
Definition SNAPSHOT_DIR_PREFIX_LEN : nat := String.length SNAPSHOT_DIR_PREFIX.
Definition NAME_MAX : nat := 255.

Definition get_snapshot_filename (dirname : string) : string :=
  String.substring SNAPSHOT_DIR_PREFIX_LEN (String.length dirname - SNAPSHOT_DIR_PREFIX_LEN) dirname.
Definition is_snapshot_dirname (name : string) : bool :=
  (SNAPSHOT_DIR_PREFIX_LEN <? String.length name)%nat && String.prefix SNAPSHOT_DIR_PREFIX name.

Definition is_same_file (o1 o2 : ObjectID) : bool :=
  (id1 o1 =? id1 o2) && (id2 o1 =? id2 o2) && (creator o1 =? creator o2).

Definition file_type_of_code (c : Z) : object_file_type_t :=
  if c =? 1 then REGULAR_FILE else if c =? 2 then CHARACTER_FILE
  else if c =? 3 then BLOCK_FILE else if c =? 4 then SYMBOLIC_LINK
  else if c =? 5 then SOCKET_FILE else if c =? 6 then FIFO_FILE
  else if c =? 7 then DIRECTORY else if c =? 8 then EXTENDED_ATTR else NO_FILE_TYPE.
Definition extract_object_type (o : ObjectID) : object_file_type_t :=
  file_type_of_code (oid_type o).

Definition KURMA_ATTRS_EXPIRE_SEC : Z := 5.
Definition CACHE_INODE_INVALIDATE_ATTRS : Z := 0x01.
Definition CACHE_INODE_INVALIDATE_CONTENT : Z := 0x02.

Section handles.
Context {S : Type} `{!KurmaService S}.
Abbreviation M := (M (kworld S)).

(** [strcpy(buf, PREFIX); strcat(buf, name)] into a buffer of [NAME_MAX] bytes. *)
Definition get_snapshot_dirname (filename : string) : M string :=
  if (SNAPSHOT_DIR_PREFIX_LEN + String.length filename + 1 <=? NAME_MAX)%nat
  then mret (SNAPSHOT_DIR_PREFIX +:+ filename) else undef.

(** ** Allocation *)

Definition set_default_attrs (t : object_file_type_t) : M attrlist := fun w =>
  let a := mk_attrlist
    (Z.lor ATTR_TYPE (Z.lor ATTR_SIZE (Z.lor ATTR_FSID (Z.lor ATTR_FILEID (Z.lor ATTR_MODE
      (Z.lor ATTR_NUMLINKS (Z.lor ATTR_OWNER (Z.lor ATTR_GROUP (Z.lor ATTR_ATIME
      (Z.lor ATTR_CTIME (Z.lor ATTR_MTIME (Z.lor ATTR_SPACEUSED ATTR_RAWDEV))))))))))))
    t 0 (0, 0) (k_inode_number w) 493 2 (fst (k_caller w)) (snd (k_caller w)) (0, 0)
    (k_now w) time0 (k_now w) (k_now w) time0 0 KURMA_ATTRS_EXPIRE_SEC 0 in
  Ret a (kset_inode_number (u64 (k_inode_number w + 1)) w).

Definition new_hdl (e : kurma_fsal_obj_handle) : M loc := fun w =>
  Ret (k_next w)
    (kset_next (Pos.succ (k_next w)) (kset_hdls (<[k_next w := e]> (k_hdls w)) w)).

(** [alloc_handle]: [None] when the allocation of the handle or of its name
    fails. *)
Definition alloc_handle (par : option loc) (nm : string) (o : ObjectID)
    (attrs : option attrlist) (snap : Z) : M (option loc) :=
  ok1 ← kchoose;
  if negb ok1 then mret None
  else
    ok2 ← kchoose;
    if negb ok2 then mret None
    else
      a0 ← set_default_attrs (extract_object_type o);
      let '(t, a) := match attrs with
                     | Some a => set_attrs_override (extract_object_type o, a0) a
                     | None => (extract_object_type o, a0)
                     end in
      h ← new_hdl (mk_khdl t a (opaque_of o snap) 0 o FSAL_O_CLOSED par nm snap 0 0);
      mret (Some h).

Definition handle_is (h : loc) (t : object_file_type_t) : M bool :=
  e ← get_hdl h; mret (bool_decide (kh_type e = t)).

Definition set_snapshot_dir_attrs (h : loc) : M unit :=
  upd_hdl h (fun e =>
    let a := kh_attributes e in
    let a := set_mask (FSAL_SET_MASK (mask a) (Z.lor ATTR_TYPE ATTR_MODE)) a in
    let a := set_mode (Z.lor (mode a) 73) (set_type DIRECTORY a) in   (* S_IXUSR|GRP|OTH *)
    with_snapshot_id SNAPSHOT_DIR (with_type DIRECTORY (with_attributes a e))).

(** The up-call that tells the inode cache to drop what it knows of an object. *)
Definition invalidate (key : list Z) (what : Z) : M unit := fun w =>
  Ret tt (kset_invalidated (k_invalidated w ++ [(key, what)]) w).
Definition invalidate_dir_contents (dir : loc) : M unit :=
  e ← get_hdl dir;
  invalidate (opaque e) (Z.lor CACHE_INODE_INVALIDATE_ATTRS CACHE_INODE_INVALIDATE_CONTENT).

(** The key is built in a stack buffer of which only the first bytes are
    written; the rest is whatever the stack held. *)
Definition invalidate_object_attributes (stack : list Z) (o : ObjectID) (snap : Z) : M unit :=
  invalidate (package_kurma_handle o snap ++ drop 24 stack) CACHE_INODE_INVALIDATE_ATTRS.

(** ** RPC wrappers

    Every wrapper returns the status and the caller's attributes, overwritten
    when the request succeeded. *)

Definition set_root_oid : ObjectID := mk_oid 0 1 0 0 0.

(** The new attributes and the further results of [rpc_lookup]. *)
Definition rpc_lookup (dir_oid : option ObjectID) (path : string)
    (attrs : option attrlist) : M (Z * option ObjectID * option attrlist * Z) :=
  r ← call (kurma_service_if_lookup (default set_root_oid dir_oid) path);
  match r with
  | None => mret (KURMA_RPC_ERR, None, attrs, 0)
  | Some r =>
      if errcode r =? 0 then
        match dir_data r with
        | [dentry] =>
            a ← match attrs with
                | Some a =>
                    a ← kurma_result_to_fsal_attrs r a;
                    mret (Some (set_type (extract_object_type (dent_oid dentry)) a))
                | None => mret None
                end;
            mret (errcode r, Some (dent_oid dentry), a, default 0 (k_block_shift (new_attrs r)))
        | _ => fatal
        end
      else mret (errcode r, None, attrs, 0)
  end.

(** Wrappers whose only result is the status and the attributes. *)
Definition rpc_attrs (req : S -> option KurmaResult * S) (attrs : attrlist)
    : M (Z * attrlist * option KurmaResult) :=
  r ← call req;
  match r with
  | None => mret (KURMA_RPC_ERR, attrs, None)
  | Some r =>
      if errcode r =? 0 then
        a ← kurma_result_to_fsal_attrs r attrs; mret (errcode r, a, Some r)
      else mret (errcode r, attrs, Some r)
  end.

Definition rpc_getattrs (o : ObjectID) (attrs : attrlist) (shift : Z) : M (Z * attrlist * Z) :=
  '(st, a, r) ← rpc_attrs (kurma_service_if_getattrs o) attrs;
  mret (st, a, match r with
               | Some r => if errcode r =? 0 then default 0 (k_block_shift (new_attrs r)) else shift
               | None => shift
               end).

Definition rpc_setattrs (o : ObjectID) (attrs : attrlist) : M (Z * attrlist) :=
  now ← gets k_now;
  k ← fsal_attrs_to_kurma now attrs;
  '(st, a, _) ← rpc_attrs (kurma_service_if_setattrs o k) attrs; mret (st, a).

(** [rpc_create] and [rpc_mkdir]: the new object must be in the reply. *)
Definition rpc_make (req : ObjectAttributes -> S -> option KurmaResult * S) (attrs : attrlist)
    : M (Z * attrlist * option ObjectID) :=
  now ← gets k_now;
  k ← fsal_attrs_to_kurma now attrs;
  r ← call (req k);
  match r with
  | None => mret (KURMA_RPC_ERR, attrs, None)
  | Some r =>
      if errcode r =? 0 then
        match kr_oid r with
        | None => fatal
        | Some o => a ← kurma_result_to_fsal_attrs r attrs; mret (errcode r, a, Some o)
        end
      else mret (errcode r, attrs, None)
  end.
Definition rpc_create (dir : ObjectID) (nm : string) (attrs : attrlist) :=
  rpc_make (kurma_service_if_create dir nm) attrs.
Definition rpc_mkdir (dir : ObjectID) (nm : string) (attrs : attrlist) :=
  rpc_make (kurma_service_if_mkdir dir nm) attrs.

Definition rpc_rename (src : ObjectID) (sn : string) (dst : ObjectID) (dn : string)
    (attrs : attrlist) : M (Z * attrlist) :=
  '(st, a, _) ← rpc_attrs (kurma_service_if_rename src sn dst dn) attrs; mret (st, a).

(** The object that was removed is copied out of the reply. *)
Definition rpc_unlink (dir : ObjectID) (nm : string) (attrs : attrlist)
    : M (Z * attrlist * option ObjectID) :=
  '(st, a, r) ← rpc_attrs (kurma_service_if_unlink dir nm) attrs;
  match r with
  | Some r =>
      if errcode r =? 0 then
        match kr_oid r with
        | Some o => mret (st, a, Some o)
        | None => undef
        end
      else mret (st, a, None)
  | None => mret (st, a, None)
  end.

Definition rpc_delete_snapshot (o : ObjectID) (nm : string) (attrs : attrlist)
    : M (Z * attrlist) :=
  '(st, a, _) ← rpc_attrs (kurma_service_if_delete_snapshot o nm) attrs; mret (st, a).

(** The snapshot's time replaces the change time; the id is the snapshot's. *)
Definition rpc_snapshot (req : S -> option KurmaResult * S) (snap : Z) (attrs : attrlist)
    : M (Z * attrlist * Z) :=
  '(st, a, r) ← rpc_attrs req attrs;
  mret (match r with
        | Some r =>
            if errcode r =? 0
            then (st, set_ctime (millisecond_to_timespec (kr_snapshot_time r)) a, kr_snapshot_id r)
            else (st, a, snap)
        | None => (st, a, snap)
        end).
Definition rpc_take_snapshot (o : ObjectID) (nm : string) (snap : Z) (attrs : attrlist) :=
  rpc_snapshot (kurma_service_if_take_snapshot o nm) snap attrs.
Definition rpc_lookup_snapshot (o : ObjectID) (nm : option string) (snap : Z)
    (attrs : attrlist) :=
  rpc_snapshot (kurma_service_if_lookup_snapshot o nm snap) snap attrs.
Definition rpc_restore_snapshot (o : ObjectID) (nm : string) (attrs : attrlist)
    : M (Z * attrlist) :=
  '(st, a, _) ← rpc_attrs (kurma_service_if_restore_snapshot o nm 0) attrs; mret (st, a).

(** ** Lookup *)

(** The request of [kurma_lookup]: status, object, attributes, snapshot id and
    block shift of the name. *)
Definition lookup_request (dir_e : kurma_fsal_obj_handle) (nm : string)
    : M (Z * option ObjectID * attrlist * Z * Z) :=
  if is_snapshot_dir (snapshot_id dir_e) then
    if bool_decide (nm = "..") then
      match parent dir_e with
      | Some p => pe ← get_hdl p; mret (KURMA_OKAY, Some (oid pe), kh_attributes pe, 0, 0)
      | None => undef
      end
    else if bool_decide (nm = ".") then
      mret (KURMA_OKAY, Some (oid dir_e), kh_attributes dir_e, SNAPSHOT_DIR, 0)
    else
      '(st, a, snap) ← rpc_lookup_snapshot (oid dir_e) (Some nm) 0 attrs0;
      mret (st, if st =? KURMA_OKAY then Some (oid dir_e) else None, a, snap, 0)
  else
    let '(real_name, a, snap) :=
      if is_snapshot_dirname nm
      then (get_snapshot_filename nm,
            set_type DIRECTORY (set_mask (FSAL_SET_MASK 0 ATTR_TYPE) attrs0), SNAPSHOT_DIR)
      else (nm, attrs0, 0) in
    '(st, o, a', shift) ← rpc_lookup (Some (oid dir_e)) real_name (Some a);
    mret (st, o, default a a', snap, shift).

Definition kurma_lookup (dir : loc) (nm : string) : M (fsal_errors_t * option loc) :=
  isdir ← handle_is dir DIRECTORY;
  if negb isdir then mret (ERR_FSAL_NOTDIR, None)
  else
    dir_e ← get_hdl dir;
    let par := if bool_decide (nm = ".") then parent dir_e
               else if bool_decide (nm = "..") then None else Some dir in
    '(st, o, attrs, snap, shift) ← lookup_request dir_e nm;
    match o with
    | None => mret (kurma_to_fsal_status st, None)
    | Some o =>
        if negb (st =? KURMA_OKAY) then mret (kurma_to_fsal_status st, None)
        else
          kh ← alloc_handle par nm o (Some attrs) snap;
          match kh with
          | None => mret (ERR_FSAL_NOMEM, None)
          | Some h =>
              kurma_try_update_attributes h attrs;;
              upd_hdl h (with_block_shift (u32 shift));;
              when (is_snapshot_dirname nm) (
                set_snapshot_dir_attrs h;;
                upd_hdl h (with_snapshot_count
                  (if bit_set (hints attrs) KURMA_HINT_HAS_SNAPSHOTS then -1 else 0)));;
              mret (ERR_FSAL_NO_ERROR, Some h)
          end
    end.

(** ** Creation *)

Definition kurma_create (dir : loc) (nm : string) (attrs : attrlist)
    : M (fsal_errors_t * attrlist * option loc) :=
  isdir ← handle_is dir DIRECTORY;
  if negb isdir then mret (ERR_FSAL_NOTDIR, attrs, None)
  else
    dir_e ← get_hdl dir;
    '(st, attrs, o, snap) ←
      (if is_snapshot_dir (snapshot_id dir_e) then
         '(st, a, snap) ← rpc_take_snapshot (oid dir_e) nm 0 attrs;
         mret (st, a, Some (oid dir_e), snap)
       else
         '(st, a, o) ← rpc_create (oid dir_e) nm attrs; mret (st, a, o, 0));
    match o with
    | Some o =>
        if negb (st =? KURMA_OKAY) then mret (kurma_to_fsal_status st, attrs, None)
        else
          kh ← alloc_handle (Some dir) nm o (Some attrs) snap;
          match kh with
          | None => mret (ERR_FSAL_NOMEM, attrs, None)
          | Some h =>
              kurma_try_update_attributes h attrs;;
              (if is_snapshot_dir (snapshot_id dir_e) then
                 upd_hdl dir (fun e => with_snapshot_count (snapshot_count e + 1) e)
               else when (bool_decide (extract_object_type o = REGULAR_FILE))
                      (invalidate_dir_contents dir));;
              mret (ERR_FSAL_NO_ERROR, attrs, Some h)
          end
    | None => mret (kurma_to_fsal_status st, attrs, None)
    end.

Definition kurma_makedir (dir : loc) (nm : string) (attrs : attrlist)
    : M (fsal_errors_t * attrlist * option loc) :=
  isdir ← handle_is dir DIRECTORY;
  if negb isdir then mret (ERR_FSAL_NOTDIR, attrs, None)
  else
    dir_e ← get_hdl dir;
    if is_snapshot_obj (snapshot_id dir_e) then mret (ERR_FSAL_PERM, attrs, None)
    else
      '(st, attrs, o) ← rpc_mkdir (oid dir_e) nm attrs;
      match o with
      | Some o =>
          kh ← alloc_handle (Some dir) nm o (Some attrs) 0;
          match kh with
          | None => mret (ERR_FSAL_NOMEM, attrs, None)
          | Some h =>
              kurma_try_update_attributes h attrs;; mret (ERR_FSAL_NO_ERROR, attrs, Some h)
          end
      | None => mret (kurma_to_fsal_status st, attrs, None)
      end.

Definition kurma_makenode (dir : loc) (nm : string) : M fsal_errors_t := mret ERR_FSAL_NOTSUPP.
Definition kurma_link (h destdir : loc) (nm : string) : M fsal_errors_t := mret ERR_FSAL_NOTSUPP.

(** ** Rename, restore and unlink *)

Definition kurma_restore_snapshot (stack : list Z) (src : loc) (old_name : string)
    (dst : loc) (new_name : string) : M fsal_errors_t :=
  src_e ← get_hdl src;
  dst_e ← get_hdl dst;
  '(st, o, attrs, _) ← rpc_lookup (Some (oid dst_e)) new_name (Some attrs0);
  match o with
  | None => mret (kurma_to_fsal_status st)
  | Some o =>
      if negb (st =? KURMA_OKAY) then mret (kurma_to_fsal_status st)
      else if negb (is_same_file (oid src_e) o) then mret ERR_FSAL_INVAL
      else
        '(st, _) ← rpc_restore_snapshot o old_name (default attrs0 attrs);
        if negb (st =? KURMA_OKAY) then mret (kurma_to_fsal_status st)
        else
          invalidate_object_attributes stack o 0;;
          invalidate_dir_contents src;;
          mret ERR_FSAL_EXIST
  end.

Definition kurma_rename (stack : list Z) (olddir : loc) (old_name : string) (newdir : loc)
    (new_name : string) : M fsal_errors_t :=
  src_e ← get_hdl olddir;
  dst_e ← get_hdl newdir;
  if is_snapshot_dir (snapshot_id src_e) then
    kurma_restore_snapshot stack olddir old_name newdir new_name
  else
    '(st, attrs) ← rpc_rename (oid src_e) old_name (oid dst_e) new_name attrs0;
    kurma_try_update_attributes newdir attrs;;
    mret (kurma_to_fsal_status st).

Definition kurma_unlink (dir : loc) (nm : string) : M fsal_errors_t :=
  dir_e ← get_hdl dir;
  if is_snapshot_dirname nm then mret ERR_FSAL_NO_ERROR
  else
    '(st, attrs, o) ←
      (if is_snapshot_dir (snapshot_id dir_e) then
         '(st, a) ← rpc_delete_snapshot (oid dir_e) nm attrs0; mret (st, a, None)
       else rpc_unlink (oid dir_e) nm attrs0);
    if negb (st =? KURMA_OKAY) then mret (kurma_to_fsal_status st)
    else
      match o with
      | Some o => modify (kset_deleted (id1 o, id2 o, creator o))
      | None => mret tt
      end;;
      kurma_try_update_attributes dir attrs;;
      enabled ← gets k_snapshot_enabled;
      when enabled (
        if is_snapshot_dir (snapshot_id dir_e) then
          upd_hdl dir (fun e => with_snapshot_count (snapshot_count e - 1) e)
        else match o with
             | Some o => when (bool_decide (extract_object_type o = REGULAR_FILE))
                           (invalidate_dir_contents dir)
             | None => mret tt
             end);;
      mret (kurma_to_fsal_status st).

(** ** Attributes *)

Definition was_deleted (o : ObjectID) (d : Z * Z * Z) : bool :=
  (id1 o =? fst (fst d)) && (id2 o =? snd (fst d)) && (creator o =? snd d).

(** The request of [kurma_getattrs]; the snapshot id is written through. *)
Definition getattrs_request (h : loc) : M (Z * attrlist * Z) :=
  e ← get_hdl h;
  if is_snapshot_obj (snapshot_id e) && negb (bool_decide (kh_type e = DIRECTORY)) then
    '(st, a, snap) ← rpc_lookup_snapshot (oid e) None (snapshot_id e) attrs0;
    upd_hdl h (with_snapshot_id snap);;
    mret (st, a, 0)
  else rpc_getattrs (oid e) attrs0 0.

Definition kurma_getattrs (h : loc) : M fsal_errors_t :=
  e ← get_hdl h;
  now ← gets k_now;
  deleted ← gets k_deleted;
  if tv_sec now - attrs_timestamp e <=? KURMA_ATTRS_EXPIRE_SEC then mret ERR_FSAL_NO_ERROR
  else if was_deleted (oid e) deleted then
    mret (kurma_to_fsal_status KURMA_ERROR_OBJECT_NOT_FOUND)
  else
    '(st, attrs, shift) ← getattrs_request h;
    when (st =? KURMA_OKAY) (
      upd_hdl h (fun e =>
        let '(t, a) := set_attrs_override (kh_type e, kh_attributes e) attrs in
        with_block_shift (u32 shift)
          (with_type t (with_attributes a (with_attrs_timestamp (tv_sec now) e))));;
      e ← get_hdl h;
      when (is_snapshot_dir (snapshot_id e)) (
        set_snapshot_dir_attrs h;; upd_hdl h (with_snapshot_count (-1))));;
    mret (kurma_to_fsal_status st).

(** The caller's attribute list is updated with the reply on success, and merged
    into the handle on every path. *)
Definition kurma_setattrs (h : loc) (attrs : attrlist) : M (fsal_errors_t * attrlist) :=
  e ← get_hdl h;
  if is_snapshot_obj (snapshot_id e) then mret (ERR_FSAL_PERM, attrs)
  else
    '(st, attrs) ← rpc_setattrs (oid e) attrs;
    when (st =? KURMA_OKAY) (
      upd_hdl h (fun e =>
        let '(t, a) := set_attrs_override (kh_type e, kh_attributes e) attrs in
        with_type t (with_attributes a e)));;
    kurma_try_update_attributes h attrs;;
    mret (kurma_to_fsal_status st, attrs).

(** ** Wire handles *)

Inductive fsal_digesttype_t : Set := FSAL_DIGEST_NFSV3 | FSAL_DIGEST_NFSV4.

Definition handle_digest (h : loc) (t : fsal_digesttype_t) (len : nat)
    : M (fsal_errors_t * list Z) :=
  e ← get_hdl h;
  match t with
  | FSAL_DIGEST_NFSV3 | FSAL_DIGEST_NFSV4 =>
      if (len <? V4_FH_OPAQUE_SIZE)%nat then mret (ERR_FSAL_TOOSMALL, [])
      else mret (ERR_FSAL_NO_ERROR, opaque e)
  end.

Definition handle_to_key (h : loc) : M (list Z) := e ← get_hdl h; mret (opaque e).

(** The first handle of the list with the given opaque part. *)
Fixpoint find_handle (desc : list Z) (l : list (loc * kurma_fsal_obj_handle)) : option loc :=
  match l with
  | [] => None
  | (h, e) :: l => if bool_decide (opaque e = desc) then Some h else find_handle desc l
  end.

Definition kurma_create_handle (desc : list Z) : M (fsal_errors_t * option loc) :=
  if negb (length desc =? V4_FH_OPAQUE_SIZE)%nat then mret (ERR_FSAL_BADHANDLE, None)
  else
    hdls ← gets k_hdls;
    match find_handle desc (map_to_list hdls) with
    | Some h => mret (ERR_FSAL_NO_ERROR, Some h)
    | None =>
        let '(o, snap) := extract_kurma_handle desc in
        kh ← alloc_handle None "RECOVERED_HANDLE" o None 0;
        match kh with
        | None => mret (ERR_FSAL_NOMEM, None)
        | Some h => mret (ERR_FSAL_NO_ERROR, Some h)
        end
    end.
End handles.

(** * Properties *)

(** ** Round trip of the wire form *)

Lemma le_signed_bytes n x :
  (0 < n)%nat -> - 2 ^ (8 * Z.of_nat n - 1) <= x < 2 ^ (8 * Z.of_nat n - 1) ->
  le_signed (le_bytes n x) = x.
Proof.
  intros Hn Hx. unfold le_signed, zlen. rewrite le_bytes_length, le_value_bytes.
  change 256 with (2 ^ 8). rewrite <- Z.pow_mul_r by lia.
  replace (8 * Z.of_nat n) with (Z.succ (8 * Z.of_nat n - 1)) by lia.
  rewrite Z.pow_succ_r by lia. set (m := 2 ^ (8 * Z.of_nat n - 1)) in *.
  assert (0 < m) by (subst m; lia).
  rewrite (Z.mul_comm 2 m), Z.div_mul by lia.
  destruct (decide (0 <= x)).
  - rewrite Z.mod_small by lia. by destruct (Z.ltb_spec x m); [|lia].
  - rewrite <- (Z.mod_unique x (m * 2) (-1) (x + m * 2)) by lia.
    destruct (Z.ltb_spec (x + m * 2) m); lia.
Qed.

Record oid_wf (o : ObjectID) : Prop := {
  wf_id1 : - 2 ^ 63 <= id1 o < 2 ^ 63;
  wf_id2 : - 2 ^ 63 <= id2 o < 2 ^ 63;
  wf_creator : - 2 ^ 15 <= creator o < 2 ^ 15;
  wf_type : - 2 ^ 7 <= oid_type o < 2 ^ 7;
  wf_flags : - 2 ^ 7 <= oid_flags o < 2 ^ 7
}.

Lemma opaque_length o s : length (opaque_of o s) = V4_FH_OPAQUE_SIZE.
Proof.
  unfold opaque_of, package_kurma_handle. rewrite !length_app, !le_bytes_length, length_replicate.
  done.
Qed.

Lemma take_le n x l : take n (le_bytes n x ++ l) = le_bytes n x.
Proof. apply take_app_length'. by rewrite le_bytes_length. Qed.

Lemma drop_le n x k l : drop (n + k) (le_bytes n x ++ l) = drop k l.
Proof. rewrite <- drop_drop. f_equal. apply drop_app_length'. by rewrite le_bytes_length. Qed.

Lemma extract_opaque o s :
  oid_wf o -> - 2 ^ 31 <= s < 2 ^ 31 -> extract_kurma_handle (opaque_of o s) = (o, s).
Proof.
  intros [H1 H2 H3 H4 H5] Hs. unfold extract_kurma_handle, opaque_of, package_kurma_handle.
  rewrite <- !app_assoc.
  change (drop 8) with (@drop Z (8 + 0)). change (drop 16) with (@drop Z (8 + (8 + 0))).
  change (drop 18) with (@drop Z (8 + (8 + (2 + 0)))).
  change (drop 19) with (@drop Z (8 + (8 + (2 + (1 + 0))))).
  change (drop 20) with (@drop Z (8 + (8 + (2 + (1 + (1 + 0)))))).
  rewrite !drop_le, !drop_0, !take_le, !le_signed_bytes by (simpl; lia). by destruct o.
Qed.

(** C33: the wire form of a handle identifies the object: extracting what was
    packaged gives back the object id and the snapshot id, so two objects never
    share a handle. *)
Theorem kurma_handle_roundtrip o s :
  oid_wf o -> - 2 ^ 31 <= s < 2 ^ 31 ->
  extract_kurma_handle (opaque_of o s) = (o, s) /\
  length (opaque_of o s) = V4_FH_OPAQUE_SIZE /\
  forall o' s', oid_wf o' -> - 2 ^ 31 <= s' < 2 ^ 31 ->
    opaque_of o' s' = opaque_of o s -> o' = o /\ s' = s.
Proof.
  intros Ho Hs. split_and!; [by apply extract_opaque|apply opaque_length|].
  intros o' s' Ho' Hs' E. apply (f_equal extract_kurma_handle) in E.
  rewrite !extract_opaque in E by done. by simplify_eq.
Qed.

Lemma kurma_handle_roundtrip_witness :
  extract_kurma_handle (opaque_of (mk_oid (-5) 77 3 7 0) 12) = (mk_oid (-5) 77 3 7 0, 12).
Proof. apply (kurma_handle_roundtrip (mk_oid (-5) 77 3 7 0) 12); [split; simpl; lia|lia]. Defined.

Section handle_theorems.
Context {S : Type} `{!KurmaService S}.
Implicit Types (w : kworld S).

(** Every handle carries the wire form of its object. *)
Definition handles_ok (w : kworld S) : Prop :=
  forall h e, k_hdls w !! h = Some e ->
    oid_wf (oid e) /\ exists s, - 2 ^ 31 <= s < 2 ^ 31 /\ opaque e = opaque_of (oid e) s.

Lemma wp_kchoose (Q : bool -> kworld S -> Prop) w :
  (forall b w', (k_choices w = [] -> b = true /\ w' = w) ->
    k_hdls w' = k_hdls w -> k_next w' = k_next w -> k_srv w' = k_srv w -> Q b w') ->
  wp kchoose Q w.
Proof. intros HQ. unfold wp, kchoose. destruct (k_choices w) eqn:E; apply HQ; done. Qed.

Lemma wp_alloc_handle par nm o attrs snap (Q : option loc -> kworld S -> Prop) w :
  (k_choices w <> [] -> forall w', Q None w') ->
  (forall e w', oid e = o -> snapshot_id e = snap -> opaque e = opaque_of o snap ->
    k_hdls w' = <[k_next w := e]> (k_hdls w) -> k_srv w' = k_srv w -> Q (Some (k_next w)) w') ->
  wp (alloc_handle par nm o attrs snap) Q w.
Proof.
  intros HN HS. unfold alloc_handle. apply wp_bind, wp_kchoose. intros b1 w1 Hb1 Hh1 Hn1 Hs1.
  destruct b1; simpl; [|apply wp_ret, HN; intros E; by destruct (Hb1 E)].
  apply wp_bind, wp_kchoose. intros b2 w2 Hb2 Hh2 Hn2 Hs2.
  destruct b2; simpl.
  2: { apply wp_ret, HN. intros E. destruct (Hb1 E) as [_ ->]. by destruct (Hb2 E). }
  apply wp_bind. unfold wp at 1, set_default_attrs at 1.
  set (w3 := kset_inode_number _ _).
  destruct (match attrs with Some _ => _ | None => _ end) as [t a].
  apply wp_bind. unfold wp at 1, new_hdl. apply wp_ret.
  replace (k_next w3) with (k_next w) by (subst w3; simpl; congruence).
  apply (HS (mk_khdl t a (opaque_of o snap) 0 o FSAL_O_CLOSED par nm snap 0 0)); simpl; congruence.
Qed.

Lemma find_handle_some desc l h :
  find_handle desc l = Some h -> exists e, (h, e) ∈ l /\ opaque e = desc.
Proof.
  induction l as [|[h' e] l IH]; [done|]. simpl. case_bool_decide as E.
  - intros [= ->]. exists e. split; [left|done].
  - intros (e' & ? & ?)%IH. exists e'. split; [by right|done].
Qed.

(** C32: a handle off the wire is resolved to a handle with the object id it was
    made for: an existing one, or a new one; for a file that is not a snapshot the
    wire form of the result is the one received, so handles survive the loss of
    the in-memory object.  Of a handle of a snapshot that is no longer in memory the
    snapshot id is lost, see [kurma_recovered_snapshot_is_live_file]. *)
Theorem kurma_create_handle_correct o snap w :
  oid_wf o -> - 2 ^ 31 <= snap < 2 ^ 31 -> handles_ok w ->
  wp (kurma_create_handle (opaque_of o snap)) (fun '(err, r) w' =>
    (k_choices w = [] -> err = ERR_FSAL_NO_ERROR) /\
    (err = ERR_FSAL_NO_ERROR -> exists h e, r = Some h /\ k_hdls w' !! h = Some e /\
      oid e = o /\ (snap = SNAPSHOT_NONE -> opaque e = opaque_of o snap))) w.
Proof.
  intros Ho Hsn Hok. unfold kurma_create_handle. rewrite opaque_length, Nat.eqb_refl. cbn [negb].
  apply wp_bind, wp_gets. destruct (find_handle _ _) as [h|] eqn:Hf.
  - apply find_handle_some in Hf as (e & He & Hop). apply elem_of_map_to_list in He.
    wp_steps. split; [done|]. intros _. exists h, e. split_and!; try done.
    destruct (Hok _ _ He) as (Hwf & s & Hs & Hops). rewrite Hops in Hop.
    apply (f_equal extract_kurma_handle) in Hop. rewrite !extract_opaque in Hop by done.
    by simplify_eq.
  - rewrite extract_opaque by done. apply wp_bind, wp_alloc_handle.
    + intros Hc w'. by wp_steps.
    + intros e w' He Hs Hop Hh _. wp_steps. split; [done|]. intros _.
      exists (k_next w), e. rewrite Hh, lookup_insert_eq. split_and!; try done.
      by intros ->.
Qed.

(** The snapshot id is dropped when a handle is recovered: the handle of a
    snapshot (or of a snapshot directory) that is no longer in memory comes back
    as a handle of the live file, with another wire form, and is no longer
    protected by the checks for snapshots. *)
Theorem kurma_recovered_snapshot_is_live_file o snap w :
  oid_wf o -> - 2 ^ 31 <= snap < 2 ^ 31 -> snap <> SNAPSHOT_NONE -> k_choices w = [] ->
  (forall h e, k_hdls w !! h = Some e -> opaque e <> opaque_of o snap) ->
  wp (kurma_create_handle (opaque_of o snap)) (fun '(err, r) w' =>
    err = ERR_FSAL_NO_ERROR /\ exists h e, r = Some h /\ k_hdls w' !! h = Some e /\
      oid e = o /\ is_snapshot_obj (snapshot_id e) = false /\ opaque e <> opaque_of o snap) w.
Proof.
  intros Ho Hsn Hne Hc Hnone. unfold kurma_create_handle. rewrite opaque_length, Nat.eqb_refl. cbn [negb].
  apply wp_bind, wp_gets. destruct (find_handle _ _) as [h|] eqn:Hf.
  { apply find_handle_some in Hf as (e & He & Hop). apply elem_of_map_to_list in He.
    by destruct (Hnone h e). }
  rewrite extract_opaque by done. apply wp_bind, wp_alloc_handle; [done|].
  intros e w' He Hs Hop Hh _. wp_steps. split; [done|].
  exists (k_next w), e. rewrite Hh, lookup_insert_eq, Hs. split_and!; try done.
  rewrite Hop. intros E. apply (f_equal extract_kurma_handle) in E.
  rewrite !extract_opaque in E by done || lia. by simplify_eq.
Qed.

(** C34: on a handle of a snapshot or of a snapshot directory, open, close, read,
    write, setattrs and mkdir are refused, without a request to the middleware or
    any change of state.  Rename, unlink and create are not among them: they act on
    snapshots. *)
Theorem kurma_snapshots_protected uninit h e w :
  k_hdls w !! h = Some e -> is_snapshot_obj (snapshot_id e) = true ->
  (forall fl t, kurma_open h fl t w = Ret ERR_FSAL_PERM w) /\
  kurma_close h w = Ret ERR_FSAL_PERM w /\
  (forall off n buf ra eof, kurma_read uninit h off n buf ra eof w =
     Ret (ERR_FSAL_PERM, buf, ra, eof) w) /\
  (forall off n buf wa st, kurma_write uninit h off n buf wa st w =
     Ret (ERR_FSAL_PERM, wa, st) w) /\
  (forall attrs, kurma_setattrs h attrs w = Ret (ERR_FSAL_PERM, attrs) w) /\
  (forall nm attrs, exists err, err <> ERR_FSAL_NO_ERROR /\
     kurma_makedir h nm attrs w = Ret (err, attrs, None) w).
Proof.
  intros He Hs.
  assert (Hg : get_hdl h w = Ret e w) by (unfold get_hdl, deref; by rewrite He).
  split_and!; intros;
    unfold kurma_open, kurma_close, kurma_read, kurma_write, kurma_setattrs, kurma_makedir,
      handle_is, mbind, M_bind; rewrite Hg; rewrite ?Hs; try done.
  simpl. case_bool_decide; simpl; [|by exists ERR_FSAL_NOTDIR].
  rewrite Hg, Hs. by exists ERR_FSAL_PERM.
Qed.

(** a setattrs that the middleware refuses still changes what the server
    shows: the call fails, but the size that was asked for is merged into the
    cached attributes of the handle. *)
Theorem kurma_setattrs_failure_is_cached h e attrs r s' w :
  k_hdls w !! h = Some e -> is_snapshot_obj (snapshot_id e) = false -> k_choices w = [] ->
  mask attrs = ATTR_SIZE -> 0 <= filesize attrs <= INT64_MAX ->
  (forall k, kurma_service_if_setattrs (oid e) k (k_srv w) = (Some r, s')) -> errcode r <> 0 ->
  wp (kurma_setattrs h attrs) (fun '(err, _) w' =>
    err <> ERR_FSAL_NO_ERROR /\
    get_filesize <$> k_hdls w' !! h = Some (filesize attrs)) w.
Proof.
  intros He Hs Hc Hm Hsz Hsrv Herr. unfold kurma_setattrs, rpc_setattrs, rpc_attrs.
  apply wp_bind, (wp_get_hdl h e); [done|]. rewrite Hs.
  apply wp_bind, wp_bind, wp_gets. apply wp_bind, wp_fsal_attrs_to_kurma; [lia| |].
  { intros c t. rewrite !elem_of_cons, elem_of_nil, Hm. by intros [[= -> _]|[[= -> _]|[[= -> _]|[]]]]. }
  apply wp_bind, wp_bind, wp_call. intros r' s'' Hcall. rewrite Hsrv in Hcall.
  injection Hcall as <- <-. destruct (Z.eqb_spec (errcode r) 0) as [|_]; [done|].
  apply wp_ret, wp_ret. destruct (Z.eqb_spec (errcode r) KURMA_OKAY) as [|_]; [done|].
  apply wp_bind, wp_ret, wp_bind. unfold kurma_try_update_attributes, kchoose.
  apply wp_bind. unfold wp at 1. simpl. rewrite Hc.
  apply wp_bind, wp_gets. eapply wp_upd_hdl; [done|]. apply wp_ret. split.
  - by intros ?%kurma_to_fsal_status_ok.
  - simpl. rewrite lookup_insert_eq. simpl.
    destruct (set_attrs_override _ _) as [t a] eqn:Ho. unfold get_filesize; simpl.
    f_equal. change a with (snd (t, a)). rewrite <- Ho, override_filesize. by rewrite Hm.
Qed.
End handle_theorems.

Section handle_witnesses.
Import RefServer.

Lemma kurma_create_handle_correct_witness :
  wp (kurma_create_handle (opaque_of o0 0)) (fun '(err, r) w' =>
    err = ERR_FSAL_NO_ERROR /\ exists h e, r = Some h /\ k_hdls w' !! h = Some e /\ oid e = o0)
    (kset_hdls ∅ (world_of [])).
Proof.
  eapply wp_mono; [|apply (kurma_create_handle_correct o0 0 (kset_hdls ∅ (world_of [])))].
  - intros [err r] w' [H1 H2]. assert (Herr : err = ERR_FSAL_NO_ERROR) by (by apply H1).
    split; [done|]. destruct (H2 Herr) as (h & e & ? & ? & ? & _). by exists h, e.
  - split; simpl; lia.
  - lia.
  - intros h e He. done.
Defined.

Lemma kurma_recovered_snapshot_is_live_file_witness :
  wp (kurma_create_handle (opaque_of o0 5)) (fun '(err, r) w' =>
    err = ERR_FSAL_NO_ERROR /\ exists h e, r = Some h /\ k_hdls w' !! h = Some e /\
      oid e = o0 /\ is_snapshot_obj (snapshot_id e) = false /\ opaque e <> opaque_of o0 5)
    (kset_hdls ∅ (world_of [])).
Proof.
  by apply (kurma_recovered_snapshot_is_live_file o0 5 (kset_hdls ∅ (world_of []))).
Defined.

Definition snapshot_world : kworld (list Z) :=
  kset_hdls {[ 1%positive := with_snapshot_id 5 (hdl []) ]} (world_of []).

Lemma kurma_snapshots_protected_witness :
  kurma_write (fun _ => 0) 1 0 1 [7] 0 false snapshot_world =
    Ret (ERR_FSAL_PERM, 0, false) snapshot_world.
Proof.
  apply (kurma_snapshots_protected (fun _ => 0) 1 (with_snapshot_id 5 (hdl [])) snapshot_world);
    done.
Defined.

Lemma kurma_setattrs_failure_is_cached_witness :
  wp (kurma_setattrs 1 (set_mask ATTR_SIZE (set_filesize 100 attrs0))) (fun '(err, _) w' =>
    err <> ERR_FSAL_NO_ERROR /\ get_filesize <$> k_hdls w' !! 1%positive = Some 100)
    (world_of [1; 2]).
Proof.
  apply (kurma_setattrs_failure_is_cached 1 (hdl [1; 2])
    (set_mask ATTR_SIZE (set_filesize 100 attrs0)) not_found [1; 2] (world_of [1; 2]));
    try done; simpl; unfold INT64_MAX; lia.
Defined.
End handle_witnesses.
