(* ===== verification/Utf8.v ===== *)
(** The filter for names that come over the wire (Protocols/NFS/nfs_proto_tools.c,
    [path_filter] and [nfs4_utf8string2dynamic]), and that it accepts exactly the encodings
    of RFC 3629. *)

From S2P Require Import Prelude Status.

(** * The code *)

Definition UTF8_SCAN_NONE : Z := 0.
Definition UTF8_SCAN_NOSLASH : Z := 1.
Definition UTF8_SCAN_NODOT : Z := 2.
Definition UTF8_SCAN_CKUTF8 : Z := 4.
Definition UTF8_SCAN_ALL : Z := 7.

Definition SLASH : Z := 47.
Definition DOT : Z := 46.

(** The first character is a dot: the name is a dot or two.  [None] is a read past the
    buffer, here and below. *)
Definition only_dots (np : list Z) : option bool :=
  match np with
  | [] => None
  | b :: np =>
      if b =? 0 then Some true
      else if b =? DOT then match np with [] => None | b' :: _ => Some (b' =? 0) end
      else Some false
  end.

(** The loop, from the pointer [np] on. *)
Fixpoint path_scan (scan : Z) (first : bool) (np : list Z) {struct np} : option nfsstat4 :=
  match np with
  | [] => None
  | c :: np =>
      if c =? 0 then Some NFS4_OK
      else if c <? 0x80 then
        if (c =? SLASH) && bit_set scan UTF8_SCAN_NOSLASH then Some NFS4ERR_BADCHAR
        else if first && (c =? DOT) && bit_set scan UTF8_SCAN_NODOT then
          match only_dots np with
          | None => None
          | Some true => Some NFS4ERR_BADNAME
          | Some false => path_scan scan false np
          end
        else path_scan scan false np
      else if bit_set scan UTF8_SCAN_CKUTF8 then
        if Z.land c 0xe0 =? 0xc0 then
          match np with
          | [] => None
          | b :: np =>
              if negb (Z.land b 0xc0 =? 0x80) || (Z.land c 0xfe =? 0xc0) then Some NFS4ERR_INVAL
              else path_scan scan false np
          end
        else if Z.land c 0xf0 =? 0xe0 then
          match np with
          | [] => None
          | b :: np =>
              if negb (Z.land b 0xc0 =? 0x80) then Some NFS4ERR_INVAL
              else
                match np with
                | [] => None
                | b' :: np =>
                    if negb (Z.land b' 0xc0 =? 0x80)
                       || (c =? 0xe0) && (Z.land b 0xe0 =? 0x80)
                       || (c =? 0xed) && (Z.land b 0xe0 =? 0xa0)
                       || (c =? 0xef) && (b =? 0xbf) && (Z.land b' 0xfe =? 0xbe)
                    then Some NFS4ERR_INVAL
                    else path_scan scan false np
                end
          end
        else if Z.land c 0xf8 =? 0xf0 then
          match np with
          | [] => None
          | b :: np =>
              if negb (Z.land b 0xc0 =? 0x80) then Some NFS4ERR_INVAL
              else
                match np with
                | [] => None
                | b' :: np =>
                    if negb (Z.land b' 0xc0 =? 0x80) then Some NFS4ERR_INVAL
                    else
                      match np with
                      | [] => None
                      | b'' :: np =>
                          if negb (Z.land b'' 0xc0 =? 0x80)
                             || (c =? 0xf0) && (Z.land b 0xf0 =? 0x80)
                             || (c =? 0xf4) && (0x8f <? b)
                             || (0xf4 <? c)
                          then Some NFS4ERR_INVAL
                          else path_scan scan false np
                      end
                end
          end
        else Some NFS4ERR_INVAL
      else path_scan scan false np
  end.

Definition path_filter (name : list Z) (scan : Z) : option nfsstat4 := path_scan scan true name.

Definition MAXNAMLEN : Z := 255.

(** The characters of a C string. *)
Fixpoint c_string (s : list Z) : list Z :=
  match s with [] => [] | c :: s => if c =? 0 then [] else c :: c_string s end.

(** The name that the caller gets is the C string in the buffer.  [memory]: whether the
    buffer can be allocated. *)
Definition nfs4_utf8string2dynamic (input : option (list Z)) (scan : Z) (memory : bool) : option (nfsstat4 + list Z) :=
  match input with
  | None => Some (inl NFS4ERR_INVAL)
  | Some val =>
      if Z.of_nat (length val) =? 0 then Some (inl NFS4ERR_INVAL)
      else if MAXNAMLEN <? Z.of_nat (length val) then Some (inl NFS4ERR_NAMETOOLONG)
      else if negb memory then Some (inl NFS4ERR_SERVERFAULT)
      else
        let name := val ++ [0] in
        match (if scan =? UTF8_SCAN_NONE then Some NFS4_OK else path_filter name scan) with
        | None => None
        | Some status => if decide (status = NFS4_OK) then Some (inr (c_string name)) else Some (inl status)
        end
  end.

(** * What the encoding is *)

(** The characters that are let through: Unicode without surrogates, U+FFFE and U+FFFF. *)
Definition scalar (u : Z) : Prop :=
  0 < u <= 0x10ffff /\ ~ (0xd800 <= u <= 0xdfff) /\ u <> 0xfffe /\ u <> 0xffff.

(** RFC 3629, section 3. *)
Definition utf8_encode (u : Z) : list Z :=
  if u <? 0x80 then [u]
  else if u <? 0x800 then [0xc0 + u / 64; 0x80 + u mod 64]
  else if u <? 0x10000 then [0xe0 + u / 4096; 0x80 + (u / 64) mod 64; 0x80 + u mod 64]
  else [0xf0 + u / 262144; 0x80 + (u / 4096) mod 64; 0x80 + (u / 64) mod 64; 0x80 + u mod 64].

Inductive utf8 : list Z -> Prop :=
| utf8_nil : utf8 []
| utf8_cons u l : scalar u -> utf8 l -> utf8 (utf8_encode u ++ l).

(** * The tests on bits are ranges *)

Definition byte (c : Z) : Prop := 0 < c < 256.

Lemma byte_eq (f g : Z -> bool) :
  forallb (fun c => eqb (f c) (g c)) (seqZ 0 256) = true -> forall c, byte c -> f c = g c.
Proof.
  intros HP c Hc. rewrite forallb_forall in HP. apply eqb_prop, HP. apply list_elem_of_In. rewrite elem_of_seqZ. unfold byte in Hc. lia.
Qed.

(** The bits of a mask are a range of bytes. *)
Definition masked (m v lo hi : Z) : Prop := forall c, byte c -> (Z.land c m =? v) = (lo <=? c) && (c <? hi).

Lemma masked_check m v lo hi :
  forallb (fun c => eqb (Z.land c m =? v) ((lo <=? c) && (c <? hi))) (seqZ 0 256) = true -> masked m v lo hi.
Proof. intros H. exact (byte_eq _ _ H). Qed.

Lemma lead2_range : masked 0xe0 0xc0 0xc0 0xe0.
Proof. by apply masked_check. Qed.
Lemma lead3_range : masked 0xf0 0xe0 0xe0 0xf0.
Proof. by apply masked_check. Qed.
Lemma lead4_range : masked 0xf8 0xf0 0xf0 0xf8.
Proof. by apply masked_check. Qed.
Lemma cont_range : masked 0xc0 0x80 0x80 0xc0.
Proof. by apply masked_check. Qed.
Lemma overlong2_range : masked 0xfe 0xc0 0xc0 0xc2.
Proof. by apply masked_check. Qed.
Lemma overlong3_range : masked 0xe0 0x80 0x80 0xa0.
Proof. by apply masked_check. Qed.
Lemma surrogate_range : masked 0xe0 0xa0 0xa0 0xc0.
Proof. by apply masked_check. Qed.
Lemma nonchar_range : masked 0xfe 0xbe 0xbe 0xc0.
Proof. by apply masked_check. Qed.
Lemma overlong4_range : masked 0xf0 0x80 0x80 0x90.
Proof. by apply masked_check. Qed.

(** * The first character *)

#[local] Ltac Zify.zify_post_hook ::= Z.to_euclidean_division_equations.

(** The four forms of a character, by its value. *)
Lemma utf8_cases c l :
  utf8 (c :: l) <-> exists u l', scalar u /\ utf8 l' /\ c :: l = utf8_encode u ++ l'.
Proof.
  split.
  - intros H. inversion H as [|u l' Hu Hl E]. by exists u, l'.
  - intros (u & l' & Hu & Hl & ->). by constructor.
Qed.

Ltac encode_cases u :=
  unfold utf8_encode in *; destruct (Z.ltb_spec u 0x80); [|destruct (Z.ltb_spec u 0x800); [|destruct (Z.ltb_spec u 0x10000)]].

Lemma utf8_head1 c l : 0 < c < 0x80 -> utf8 (c :: l) <-> utf8 l.
Proof.
  intros Hc. rewrite utf8_cases. split.
  - intros (u & l' & Hu & Hl & E). unfold scalar in Hu. encode_cases u; simplify_eq/=; try done; lia.
  - intros Hl. exists c, l. split_and!; [unfold scalar; lia|done|]. unfold utf8_encode. by destruct (Z.ltb_spec c 0x80); [|lia].
Qed.

Definition cont (b : Z) : Prop := 0x80 <= b < 0xc0.

Lemma utf8_head2 c l : 0xc0 <= c < 0xe0 ->
  utf8 (c :: l) <-> exists b l', l = b :: l' /\ cont b /\ 0xc2 <= c /\ utf8 l'.
Proof.
  intros Hc. rewrite utf8_cases. unfold cont. split.
  - intros (u & l' & Hu & Hl & E). unfold scalar in Hu. encode_cases u; simplify_eq/=; try lia. eexists _, _. split_and!; [done|lia..|done].
  - intros (b & l' & -> & Hb & Hc' & Hl). exists ((c - 0xc0) * 64 + (b - 0x80)), l'. split_and!; [unfold scalar; lia|done|].
    set (u := _ + _). assert (0x80 <= u < 0x800) by (unfold u; lia). encode_cases u; try lia. simpl. f_equal; [|f_equal]; unfold u; lia.
Qed.

Lemma utf8_head3 c l : 0xe0 <= c < 0xf0 ->
  utf8 (c :: l) <-> exists b b' l', l = b :: b' :: l' /\ cont b /\ cont b' /\
    (c = 0xe0 -> 0xa0 <= b) /\ (c = 0xed -> b < 0xa0) /\ (c = 0xef -> b = 0xbf -> b' < 0xbe) /\ utf8 l'.
Proof.
  intros Hc. rewrite utf8_cases. unfold cont. split.
  - intros (u & l' & Hu & Hl & E). unfold scalar in Hu. encode_cases u; simplify_eq/=; try lia. eexists _, _, _. split_and!; [done|lia..|done].
  - intros (b & b' & l' & -> & Hb & Hb' & H1 & H2 & H3 & Hl). exists ((c - 0xe0) * 4096 + (b - 0x80) * 64 + (b' - 0x80)), l'. 
    set (u := _ + _). assert (0x800 <= u < 0x10000) by (unfold u; lia). split_and!; [unfold scalar; lia|done|].
    encode_cases u; try lia. simpl. f_equal; [|f_equal; [|f_equal]]; unfold u; lia.
Qed.

Lemma utf8_head4 c l : 0xf0 <= c < 0xf8 ->
  utf8 (c :: l) <-> exists b b' b'' l', l = b :: b' :: b'' :: l' /\ cont b /\ cont b' /\ cont b'' /\
    (c = 0xf0 -> 0x90 <= b) /\ (c = 0xf4 -> b <= 0x8f) /\ c <= 0xf4 /\ utf8 l'.
Proof.
  intros Hc. rewrite utf8_cases. unfold cont. split.
  - intros (u & l' & Hu & Hl & E). unfold scalar in Hu. encode_cases u; simplify_eq/=; try lia. eexists _, _, _, _. split_and!; [done|lia..|done].
  - intros (b & b' & b'' & l' & -> & Hb & Hb' & Hb'' & H1 & H2 & H3 & Hl).
    exists ((c - 0xf0) * 262144 + (b - 0x80) * 4096 + (b' - 0x80) * 64 + (b'' - 0x80)), l'. 
    set (u := _ + _). assert (0x10000 <= u <= 0x10ffff) by (unfold u; lia). split_and!; [unfold scalar; lia|done|].
    encode_cases u; try lia. simpl. f_equal; [|f_equal; [|f_equal; [|f_equal]]]; unfold u; lia.
Qed.

Lemma utf8_head_bad c l : cont c \/ 0xf8 <= c -> ~ utf8 (c :: l).
Proof.
  intros Hc (u & l' & Hu & Hl & E)%utf8_cases. unfold scalar in Hu. unfold cont in Hc. encode_cases u; simplify_eq/=; lia.
Qed.

(** * The filter *)

(** What the filter lets through, from some point of the name on. *)
Definition good_rest (scan : Z) (first : bool) (name : list Z) : Prop :=
  (bit_set scan UTF8_SCAN_CKUTF8 = true -> utf8 name) /\
  (bit_set scan UTF8_SCAN_NOSLASH = true -> SLASH ∉ name) /\
  (first = true -> bit_set scan UTF8_SCAN_NODOT = true -> name <> [DOT] /\ name <> [DOT; DOT]).

Lemma good_rest_skip scan first c pre l :
  Forall (fun b => 0x80 <= b) (c :: pre) -> (bit_set scan UTF8_SCAN_CKUTF8 = true -> utf8 (c :: pre ++ l) <-> utf8 l) ->
  good_rest scan first (c :: pre ++ l) <-> good_rest scan false l.
Proof.
  intros Hpre Hu. unfold good_rest. assert (Hs : SLASH ∈ c :: pre ++ l <-> SLASH ∈ l).
  { change (c :: pre ++ l) with ((c :: pre) ++ l). rewrite elem_of_app. split; [intros [H|H]; [|done]|by right].
    rewrite Forall_forall in Hpre. specialize (Hpre _ H). unfold SLASH in Hpre. lia. }
  apply Forall_cons in Hpre as [Hc _]. rewrite Hs. split; intros (H1 & H2 & H3); (split_and!; [tauto|tauto|]); [done|].
  intros _ _. unfold DOT. split; intros [= ? ?]; lia.
Qed.

Lemma good_rest_bad scan first name : bit_set scan UTF8_SCAN_CKUTF8 = true -> ~ utf8 name -> ~ good_rest scan first name.
Proof. intros Hck Hn (H & _ & _). auto. Qed.

(** The outcome of the loop: it stays within the string, and accepts what is good. *)
Definition scans (scan : Z) (first : bool) (name : list Z) (r : option nfsstat4) : Prop :=
  exists st, r = Some st /\ (st = NFS4_OK <-> good_rest scan first name).

Lemma scans_bad scan first name st :
  bit_set scan UTF8_SCAN_CKUTF8 = true -> ~ utf8 name -> st <> NFS4_OK -> scans scan first name (Some st).
Proof. intros Hck Hn Hst. exists st. split; [done|]. split; [done|]. intros H. by apply (good_rest_bad scan first name) in H. Qed.

Lemma scans_skip scan first c pre l r :
  Forall (fun b => 0x80 <= b) (c :: pre) -> (bit_set scan UTF8_SCAN_CKUTF8 = true -> utf8 (c :: pre ++ l) <-> utf8 l) ->
  scans scan false l r -> scans scan first (c :: pre ++ l) r.
Proof. intros Hpre Hu (st & -> & Hst). exists st. split; [done|]. by rewrite Hst, (good_rest_skip scan first c pre l). Qed.

Lemma scan_lead2 scan first c l rest :
  bit_set scan UTF8_SCAN_CKUTF8 = true -> 0xc0 <= c < 0xe0 -> Forall byte l ->
  (forall l', (length l' < length l)%nat -> Forall byte l' -> scans scan false l' (path_scan scan false (l' ++ 0 :: rest))) ->
  scans scan first (c :: l)
    (match l ++ 0 :: rest with
     | [] => None
     | b :: np => if negb (Z.land b 0xc0 =? 0x80) || (Z.land c 0xfe =? 0xc0) then Some NFS4ERR_INVAL else path_scan scan false np
     end).
Proof.
  intros Hck Hc Hl IH. rewrite (overlong2_range c) by (unfold byte; lia). destruct l as [|b l]; simpl.
  - apply scans_bad; [done| |done]. rewrite utf8_head2 by done. by intros (? & ? & ? & _).
  - apply Forall_cons in Hl as [Hb Hl]. rewrite (cont_range b) by done.
    destruct (Z.leb_spec 0x80 b), (Z.ltb_spec b 0xc0), (Z.leb_spec 0xc0 c), (Z.ltb_spec c 0xc2); simpl; try lia;
      try (apply scans_bad; [done| |done]; rewrite utf8_head2 by done; unfold cont; intros (? & ? & [= <- <-] & ? & ? & _); lia).
    apply (scans_skip scan first c [b] l); [repeat constructor; lia| |apply IH; [simpl; lia|done]].
    intros _. rewrite utf8_head2 by done. simpl. unfold cont. split; [by intros (? & ? & [= <- <-] & ? & ? & ?)|]. intros. exists b, l. split_and!; [done|lia..|done].
Qed.

Lemma scan_lead3 scan first c l rest :
  bit_set scan UTF8_SCAN_CKUTF8 = true -> 0xe0 <= c < 0xf0 -> Forall byte l ->
  (forall l', (length l' < length l)%nat -> Forall byte l' -> scans scan false l' (path_scan scan false (l' ++ 0 :: rest))) ->
  scans scan first (c :: l)
    (match l ++ 0 :: rest with
     | [] => None
     | b :: np =>
         if negb (Z.land b 0xc0 =? 0x80) then Some NFS4ERR_INVAL
         else
           match np with
           | [] => None
           | b' :: np =>
               if negb (Z.land b' 0xc0 =? 0x80) || (c =? 0xe0) && (Z.land b 0xe0 =? 0x80) || (c =? 0xed) && (Z.land b 0xe0 =? 0xa0)
                  || (c =? 0xef) && (b =? 0xbf) && (Z.land b' 0xfe =? 0xbe)
               then Some NFS4ERR_INVAL else path_scan scan false np
           end
     end).
Proof.
  intros Hck Hc Hl IH. destruct l as [|b l]; simpl.
  { apply scans_bad; [done| |done]. rewrite utf8_head3 by done. by intros (? & ? & ? & ? & _). }
  apply Forall_cons in Hl as [Hb Hl]. rewrite (cont_range b) by done.
  destruct (Z.leb_spec 0x80 b), (Z.ltb_spec b 0xc0); simpl;
    try (apply scans_bad; [done| |done]; rewrite utf8_head3 by done; unfold cont; intros (? & ? & ? & [= <- E] & ? & _); lia).
  destruct l as [|b' l]; simpl.
  { apply scans_bad; [done| |done]. rewrite utf8_head3 by done. by intros (? & ? & ? & ? & _). }
  apply Forall_cons in Hl as [Hb' Hl]. rewrite (cont_range b'), (overlong3_range b), (surrogate_range b), (nonchar_range b') by done.
  match goal with |- context [if ?t then _ else _] => destruct t eqn:Ht end.
  - apply scans_bad; [done| |done]. rewrite utf8_head3 by done. unfold cont.
    intros (? & ? & ? & [= <- <- E] & ? & ? & ? & ? & ? & _). rewrite !orb_true_iff, !andb_true_iff, negb_true_iff, !Z.eqb_eq, !Z.leb_le, !Z.ltb_lt in Ht.
    rewrite andb_false_iff, Z.leb_gt, Z.ltb_ge in Ht. lia.
  - rewrite !orb_false_iff, !andb_false_iff, negb_false_iff, andb_true_iff, !Z.eqb_neq, !Z.leb_gt, !Z.ltb_ge, Z.leb_le, Z.ltb_lt in Ht.
    apply (scans_skip scan first c [b; b'] l); [repeat constructor; lia| |apply IH; [simpl; lia|done]].
    intros _. rewrite utf8_head3 by done. simpl. unfold cont. split; [by intros (? & ? & ? & [= <- <- <-] & ? & ? & ? & ? & ? & ?)|].
    intros. exists b, b', l. split_and!; [done|lia..|done].
Qed.

Lemma scan_lead4 scan first c l rest :
  bit_set scan UTF8_SCAN_CKUTF8 = true -> 0xf0 <= c < 0xf8 -> Forall byte l ->
  (forall l', (length l' < length l)%nat -> Forall byte l' -> scans scan false l' (path_scan scan false (l' ++ 0 :: rest))) ->
  scans scan first (c :: l)
    (match l ++ 0 :: rest with
     | [] => None
     | b :: np =>
         if negb (Z.land b 0xc0 =? 0x80) then Some NFS4ERR_INVAL
         else
           match np with
           | [] => None
           | b' :: np =>
               if negb (Z.land b' 0xc0 =? 0x80) then Some NFS4ERR_INVAL
               else
                 match np with
                 | [] => None
                 | b'' :: np =>
                     if negb (Z.land b'' 0xc0 =? 0x80) || (c =? 0xf0) && (Z.land b 0xf0 =? 0x80) || (c =? 0xf4) && (0x8f <? b) || (0xf4 <? c)
                     then Some NFS4ERR_INVAL else path_scan scan false np
                 end
           end
     end).
Proof.
  intros Hck Hc Hl IH. destruct l as [|b l]; simpl.
  { apply scans_bad; [done| |done]. rewrite utf8_head4 by done. by intros (? & ? & ? & ? & ? & _). }
  apply Forall_cons in Hl as [Hb Hl]. rewrite (cont_range b) by done.
  destruct (Z.leb_spec 0x80 b), (Z.ltb_spec b 0xc0); simpl;
    try (apply scans_bad; [done| |done]; rewrite utf8_head4 by done; unfold cont; intros (? & ? & ? & ? & [= <- E] & ? & _); lia).
  destruct l as [|b' l]; simpl.
  { apply scans_bad; [done| |done]. rewrite utf8_head4 by done. by intros (? & ? & ? & ? & ? & _). }
  apply Forall_cons in Hl as [Hb' Hl]. rewrite (cont_range b') by done.
  destruct (Z.leb_spec 0x80 b'), (Z.ltb_spec b' 0xc0); simpl;
    try (apply scans_bad; [done| |done]; rewrite utf8_head4 by done; unfold cont; intros (? & ? & ? & ? & [= <- <- E] & ? & ? & _); lia).
  destruct l as [|b'' l]; simpl.
  { apply scans_bad; [done| |done]. rewrite utf8_head4 by done. by intros (? & ? & ? & ? & ? & _). }
  apply Forall_cons in Hl as [Hb'' Hl]. rewrite (cont_range b''), (overlong4_range b) by done.
  match goal with |- context [if ?t then _ else _] => destruct t eqn:Ht end.
  - apply scans_bad; [done| |done]. rewrite utf8_head4 by done. unfold cont.
    intros (? & ? & ? & ? & [= <- <- <- E] & ? & ? & ? & ? & ? & ? & _).
    rewrite !orb_true_iff, !andb_true_iff, negb_true_iff, andb_false_iff, !Z.eqb_eq, !Z.leb_le, Z.leb_gt, Z.ltb_ge, !Z.ltb_lt in Ht. lia.
  - rewrite !orb_false_iff, !andb_false_iff, negb_false_iff, andb_true_iff, !Z.eqb_neq, !Z.leb_gt, !Z.ltb_ge, Z.leb_le, Z.ltb_lt in Ht.
    apply (scans_skip scan first c [b; b'; b''] l); [repeat constructor; lia| |apply IH; [simpl; lia|done]].
    intros _. rewrite utf8_head4 by done. simpl. unfold cont. split; [by intros (? & ? & ? & ? & [= <- <- <- <-] & ? & ? & ? & ? & ? & ? & ?)|].
    intros. exists b, b', b'', l. split_and!; [done|lia..|done].
Qed.

Lemma only_dots_string l rest :
  Forall byte l -> only_dots (l ++ 0 :: rest) = Some (bool_decide (l = [] \/ l = [DOT])).
Proof.
  intros Hl. assert (Hnz : forall b l', l = b :: l' -> (b =? 0) = false /\ Forall byte l').
  { intros b l' ->. apply Forall_cons in Hl as [Hb Hl]. split; [|done]. unfold byte in Hb. by destruct (Z.eqb_spec b 0); [lia|]. }
  unfold only_dots. destruct l as [|b l]; cbn [app]; [by rewrite bool_decide_true by auto|].
  destruct (Hnz b l eq_refl) as [-> Hl']. destruct (Z.eqb_spec b DOT) as [->|Hd]; [|by rewrite bool_decide_false by (intros [?|?]; congruence)].
  destruct l as [|b' l]; cbn [app]; [by rewrite bool_decide_true by auto|]. apply Forall_cons in Hl' as [Hb' _]. unfold byte in Hb'.
  destruct (Z.eqb_spec b' 0); [lia|]. by rewrite bool_decide_false by (intros [?|?]; congruence).
Qed.

Lemma scan_ascii scan first c l rest :
  0 < c < 0x80 -> Forall byte l -> scans scan false l (path_scan scan false (l ++ 0 :: rest)) ->
  scans scan first (c :: l)
    (if (c =? SLASH) && bit_set scan UTF8_SCAN_NOSLASH then Some NFS4ERR_BADCHAR
     else if first && (c =? DOT) && bit_set scan UTF8_SCAN_NODOT then
       match only_dots (l ++ 0 :: rest) with
       | None => None
       | Some true => Some NFS4ERR_BADNAME
       | Some false => path_scan scan false (l ++ 0 :: rest)
       end
     else path_scan scan false (l ++ 0 :: rest)).
Proof.
  intros Hc Hl (st & Hst & HIH). rewrite only_dots_string, Hst by done.
  assert (Hgood : (c = SLASH -> bit_set scan UTF8_SCAN_NOSLASH = false) ->
            (first = true -> c = DOT -> bit_set scan UTF8_SCAN_NODOT = true -> l <> [] /\ l <> [DOT]) ->
            good_rest scan first (c :: l) <-> good_rest scan false l).
  { intros H1 H2. unfold good_rest. rewrite utf8_head1, not_elem_of_cons by done. split; intros (G1 & G2 & G3); (split_and!; [done| |]).
    - intros Hs. by apply G2.
    - done.
    - intros Hs. split; [intros <-; by rewrite H1 in Hs|by apply G2].
    - intros Hf Hd. split; intros [= -> ->]; by destruct (H2 Hf eq_refl Hd). }
  destruct (Z.eqb_spec c SLASH) as [Hs|Hs]; [destruct (bit_set scan UTF8_SCAN_NOSLASH) eqn:Hn|]; simpl.
  { exists NFS4ERR_BADCHAR. split; [done|]. split; [done|]. intros (_ & G & _). exfalso. apply (G Hn). rewrite Hs. left. }
  { assert (first && (c =? DOT) && bit_set scan UTF8_SCAN_NODOT = false) as -> by (subst c; by rewrite andb_false_r). exists st. split; [done|]. rewrite Hgood; [done|done|]. intros _ Hd. by subst c. }
  destruct first, (Z.eqb_spec c DOT) as [Hd|Hd], (bit_set scan UTF8_SCAN_NODOT) eqn:Hn; simpl;
    try (exists st; split; [done|]; rewrite Hgood; [done|done|intros; congruence]).
  case_bool_decide as Hdots.
  - exists NFS4ERR_BADNAME. split; [done|]. split; [done|]. intros (_ & _ & G). destruct (G eq_refl Hn) as [G1 G2]. subst c. by destruct Hdots as [-> | ->].
  - exists st. split; [done|]. rewrite Hgood; [done|done|]. intros _ _ _. split; intros ->; apply Hdots; auto.
Qed.

Lemma path_scan_exact scan first name rest :
  Forall byte name -> scans scan first name (path_scan scan first (name ++ 0 :: rest)).
Proof.
  remember (length name) as n eqn:Hn. revert first name Hn. induction (lt_wf n) as [n _ IH]. intros first name -> Hb. destruct name as [|c l].
  { exists NFS4_OK. split; [done|]. unfold good_rest. split; [intros _|done]. split_and!; [constructor|by intros _ []%not_elem_of_nil|done]. }
  apply Forall_cons in Hb as [Hc Hl]. unfold byte in Hc.
  assert (IHl : forall l', (length l' < S (length l))%nat -> Forall byte l' -> scans scan false l' (path_scan scan false (l' ++ 0 :: rest)))
    by (intros l' Hl' Hbl; by apply (IH (length l'))).
  cbn [app path_scan]. destruct (Z.eqb_spec c 0); [lia|]. destruct (Z.ltb_spec c 0x80); [apply scan_ascii; [lia|done|apply IHl; [lia|done]]|].
  destruct (bit_set scan UTF8_SCAN_CKUTF8) eqn:Hck.
  2: { apply (scans_skip scan first c [] l); [repeat constructor; lia|congruence|apply IHl; [simpl; lia|done]]. }
  rewrite (lead2_range c), (lead3_range c), (lead4_range c) by done.
  assert (IHl' : forall l', (length l' < length l)%nat -> Forall byte l' -> scans scan false l' (path_scan scan false (l' ++ 0 :: rest))) by (intros; apply IHl; [lia|done]).
  destruct (Z.leb_spec 0xc0 c), (Z.ltb_spec c 0xe0); cbn [andb]; try lia; [by apply scan_lead2| |];
    destruct (Z.leb_spec 0xe0 c), (Z.ltb_spec c 0xf0); cbn [andb]; try lia; try (by apply scan_lead3);
    destruct (Z.leb_spec 0xf0 c), (Z.ltb_spec c 0xf8); cbn [andb]; try lia; try (by apply scan_lead4);
    (apply scans_bad; [done|apply utf8_head_bad; unfold cont; lia|done]).
Qed.

Lemma c_string_split val :
  Forall (fun c => 0 <= c < 256) val -> exists rest, val ++ [0] = c_string (val ++ [0]) ++ 0 :: rest /\ Forall byte (c_string (val ++ [0])).
Proof.
  induction 1 as [|c l Hc Hl (rest & IH1 & IH2)]; [by exists []|]. cbn [app c_string]. destruct (Z.eqb_spec c 0) as [->|Hn]; [by exists (l ++ [0])|].
  exists rest. split; [by rewrite <- app_comm_cons, <- IH1|]. constructor; [unfold byte; lia|done].
Qed.

Lemma c_string_whole val : 0 ∉ val -> c_string (val ++ [0]) = val.
Proof.
  induction val as [|c l IH]; [done|]. intros [Hc Hl]%not_elem_of_cons. cbn [app c_string]. destruct (Z.eqb_spec c 0); [congruence|]. by rewrite IH.
Qed.

(** The scan ends in the buffer. *)
Lemma utf8string2dynamic_ends val scan memory :
  Forall (fun c => 0 <= c < 256) val -> is_Some (nfs4_utf8string2dynamic (Some val) scan memory).
Proof.
  intros Hval. unfold nfs4_utf8string2dynamic. repeat (case_match; [by eexists|]). destruct (c_string_split val Hval) as (rest & Hs & Hb).
  destruct (scan =? _); [by eexists|]. unfold path_filter. destruct (path_scan_exact scan true (c_string (val ++ [0])) rest Hb) as (st & Hst & _).
  rewrite <- Hs in Hst. rewrite Hst. case_match; by eexists.
Qed.

(** * Theorems *)

(** C39: The name of a file that comes over the wire is accepted exactly when it has 1 to 255
    bytes and, up to its first NUL, is an encoding of RFC 3629 (of characters other than surrogates, U+FFFE and
    U+FFFF) without a slash that is neither a dot nor two.  The scan never leaves the buffer. *)
Theorem utf8string2dynamic_exact val name
    (Hval : Forall (fun c => 0 <= c < 256) val) :
  exists r, nfs4_utf8string2dynamic (Some val) UTF8_SCAN_ALL true = Some r /\
    (r = inr name <-> (1 <= length val <= 255)%nat /\ name = c_string (val ++ [0]) /\
                      utf8 name /\ (SLASH ∉ name) /\ name <> [DOT] /\ name <> [DOT; DOT]).
Proof.
  unfold nfs4_utf8string2dynamic, MAXNAMLEN. destruct (Z.eqb_spec (Z.of_nat (length val)) 0).
  { eexists. split; [done|]. split; [done|]. intros (? & _). lia. }
  destruct (Z.ltb_spec 255 (Z.of_nat (length val))). { eexists. split; [done|]. split; [done|]. intros (? & _). lia. }
  cbn [negb]. change (UTF8_SCAN_ALL =? UTF8_SCAN_NONE) with false. cbv iota zeta.
  destruct (c_string_split val Hval) as (rest & Hs & Hb). unfold path_filter.
  destruct (path_scan_exact UTF8_SCAN_ALL true (c_string (val ++ [0])) rest Hb) as (st & Hst & HG). rewrite <- Hs in Hst. rewrite Hst.
  unfold good_rest in HG. change (bit_set UTF8_SCAN_ALL UTF8_SCAN_CKUTF8) with true in HG. change (bit_set UTF8_SCAN_ALL UTF8_SCAN_NOSLASH) with true in HG.
  change (bit_set UTF8_SCAN_ALL UTF8_SCAN_NODOT) with true in HG. destruct (decide (st = NFS4_OK)) as [Hok|Hno]; eexists; (split; [done|]).
  - apply HG in Hok as (G1 & G2 & G3). split; [intros [= <-]|by intros (_ & -> & _)]. destruct (G3 eq_refl eq_refl). split_and!; try done; [lia..|auto|auto].
  - split; [done|]. intros (_ & -> & G1 & G2 & G3 & G4). exfalso. by apply Hno, HG.
Qed.

(** An umlaut is accepted, an overlong slash is not. *)
Lemma utf8string2dynamic_exact_witness :
  Forall (fun c => 0 <= c < 256) [0xc3; 0xa4] /\
  (exists r, nfs4_utf8string2dynamic (Some [0xc3; 0xa4]) UTF8_SCAN_ALL true = Some r /\ r = inr [0xc3; 0xa4]) /\
  (exists r, nfs4_utf8string2dynamic (Some [0xc0; 0xaf]) UTF8_SCAN_ALL true = Some r /\ r <> inr [0xc0; 0xaf]).
Proof.
  assert (H1 : Forall (fun c => 0 <= c < 256) [0xc3; 0xa4]) by (repeat constructor; lia).
  assert (H2 : Forall (fun c => 0 <= c < 256) [0xc0; 0xaf]) by (repeat constructor; lia). split_and!; [done| |].
  - destruct (utf8string2dynamic_exact [0xc3; 0xa4] [0xc3; 0xa4] H1) as (r & Hr & HG). exists r. split; [done|]. apply HG.
    split_and!; [simpl; lia..|done| |rewrite !elem_of_cons, elem_of_nil; unfold SLASH; lia|done|done]. apply (utf8_cons 0xe4 []); [unfold scalar; lia|constructor].
  - destruct (utf8string2dynamic_exact [0xc0; 0xaf] [0xc0; 0xaf] H2) as (r & Hr & HG). exists r. split; [done|]. intros Hr'. apply HG in Hr' as (_ & _ & Hu & _).
    apply utf8_head2 in Hu as (b & l & _ & _ & ? & _); lia.
Defined.

(** A name with a NUL in it is accepted and cut there. *)
Example name_cut_at_nul : nfs4_utf8string2dynamic (Some [97; 0; SLASH]) UTF8_SCAN_ALL true = Some (inr [97]).
Proof. done. Qed.
