(* ===== verification/Client.v ===== *)
(** Client ids, leases and sessions of NFSv4 (SAL/nfs4_clientid.c, nfs4_lease.c,
    nfs41_session_id.c): the records of clients, the tables they are found in, and
    the operations on them.

    Hash tables are maps; an insertion can fail for want of memory.  Mutexes are not
    modelled: an operation runs with the mutex of the client record held.  Verifiers
    (8 bytes) and session ids (two 8-byte words) are the integers with those bytes.
    What an owner of locks or opens has is the business of the lock manager: here an
    owner is an address on a list of its client, and whether its last reference goes
    when its states are released is a choice of the environment.  The recovery
    directory of the server is not modelled. *)

From S2P Require Import Prelude Status World Owner.

(** * Data *)

Inductive nfs_clientid_confirm_state_t : Set :=
| CONFIRMED_CLIENT_ID
| UNCONFIRMED_CLIENT_ID
| EXPIRED_CLIENT_ID.

#[global] Instance confirm_state_eq_dec : EqDecision nfs_clientid_confirm_state_t.
Proof. solve_decision. Defined.

(** [nfs_client_cred_t]: the credentials of AUTH_UNIX, or the bytes of another
    flavour and how many of them count. *)
Inductive auth_union : Set :=
| auth_unix (aup_uid aup_gid aup_time : Z)
| auth_bytes (bytes : list Z).

Record nfs_client_cred_t : Set := mk_cred {
  flavor : Z;
  cred_length : Z;
  cred_auth : auth_union
}.

Definition AUTH_UNIX : Z := 1.

(** [clientaddr4]: two C strings, as their characters before the terminator. *)
Record clientaddr4 : Set := mk_clientaddr { r_netid : list Z; r_addr : list Z }.

(** The kinds of transport. *)
Inductive nc_type : Set :=
| NC_ERR | NC_TCP | NC_TCP6 | NC_RDMA | NC_RDMA6 | NC_SCTP | NC_SCTP6 | NC_UDP | NC_UDP6.

(** The names in [netid_nc_table]: -, tcp, tcp6, rdma, rdma6, sctp, sctp6, udp, udp6. *)
Definition netid_of (nc : nc_type) : list Z :=
  match nc with
  | NC_ERR => [45]
  | NC_TCP => [116; 99; 112]
  | NC_TCP6 => [116; 99; 112; 54]
  | NC_RDMA => [114; 100; 109; 97]
  | NC_RDMA6 => [114; 100; 109; 97; 54]
  | NC_SCTP => [115; 99; 116; 112]
  | NC_SCTP6 => [115; 99; 116; 112; 54]
  | NC_UDP => [117; 100; 112]
  | NC_UDP6 => [117; 100; 112; 54]
  end.

(** [strncmp] with the name of a transport and its length finds no difference. *)
Definition netid_matches (netid : list Z) (nc : nc_type) : bool :=
  bool_decide (take (length (netid_of nc)) netid = netid_of nc).

Definition nfs_netid_to_nc (netid : list Z) : nc_type :=
  if netid_matches netid NC_TCP then NC_TCP
  else if netid_matches netid NC_TCP6 then NC_TCP6
  else if netid_matches netid NC_UDP then NC_UDP
  else if netid_matches netid NC_UDP6 then NC_UDP6
  else if netid_matches netid NC_RDMA then NC_RDMA
  else if netid_matches netid NC_RDMA6 then NC_RDMA6
  else if netid_matches netid NC_SCTP then NC_SCTP
  else if netid_matches netid NC_SCTP6 then NC_SCTP6
  else NC_ERR.

(** [strmaxcpy] copies a string that fits the buffer; [strlcpy] copies what fits. *)
Definition strmaxcpy (src : list Z) (dest_size : Z) : option (list Z) :=
  if dest_size <=? Z.of_nat (length src) then None else Some src.
Definition strlcpy (src : list Z) (size : Z) : list Z := take (Z.to_nat (size - 1)) src.

(** The callback of an NFSv4.0 client: [cb_addr.nc] and the rest; the decoded socket
    address is a function of the transport and the string. *)
Record cb_v40_t : Set := mk_cb_v40 {
  cb_nc : nc_type;
  cb_callback_ident : Z;
  cb_client_r_addr : list Z;
  cb_program : Z
}.

(** The union [cid_cb]; a new record has all bytes zero. *)
Inductive cid_cb_t : Set :=
| cb_zero
| cb_v40 (cb : cb_v40_t)
| cb_v41 (cb_session_list : list loc).

(** The result of one operation: which one, its status, and the numbers of its reply. *)
Record nfs_resop : Set := mk_nfs_resop { nr_resop : Z; nr_status : nfsstat4; nr_body : list Z }.

(** [COMPOUND4res_extended]: the status, the tag, the results and whether the reply is kept
    in a cache. *)
Record compound_res : Set := mk_compound_res {
  res_status : nfsstat4;
  res_tag : list Z;
  res_ops : list nfs_resop;
  res_cached : bool
}.
Definition zero_res : compound_res := mk_compound_res NFS4_OK [] [] false.

Record slot_cache : Set := mk_slot_cache { cached_result : compound_res; cache_used : bool }.

Record nfs41_session_slot_t : Set := mk_slot { slot_sequence : Z; slot_cached : slot_cache }.
Definition zero_slot : nfs41_session_slot_t := mk_slot 0 (mk_slot_cache zero_res false).

Definition NFS41_NB_SLOTS : nat := 64.
Definition SOCK_NAME_MAX : Z := 128.

(** The transport and the address of the callback; the buffer of the address has
    [SOCK_NAME_MAX + 1] bytes, but this copies into [SOCK_NAME_MAX] of them. *)
Definition nfs_set_client_location (addr4 : clientaddr4) (cb : cb_v40_t) : cb_v40_t :=
  mk_cb_v40 (nfs_netid_to_nc (r_netid addr4)) (cb_callback_ident cb)
    (strlcpy (r_addr addr4) SOCK_NAME_MAX) (cb_program cb).

(** What identifies a client record in its table: the hash (which covers the
    address of the server) and the fields that are compared. *)
Abbreviation record_key := (Z * list Z * Z)%type.

(** [nfs_client_id_t].  [cid_states] is the list of states of the owner [cid_owner] that
    stands for the client itself.  The reference counts of this and of the two next structures are int32_t in the code
    and have no bound here; [client_server_safe] bounds them by the number of calls. *)
Record nfs_client_id_t : Set := mk_client_id {
  cid_clientid : Z;
  cid_verifier : Z;
  cid_incoming_verifier : Z;
  cid_last_renew : Z;
  cid_confirmed : nfs_clientid_confirm_state_t;
  cid_credential : nfs_client_cred_t;
  cid_client_addr : sockaddr_t;
  cid_client_record : loc;
  cid_openowners : list loc;
  cid_lockowners : list loc;
  cid_cb : cid_cb_t;
  cb_chan_down : bool;
  cid_create_session_slot : slot_cache;
  cid_create_session_sequence : Z;
  cid_states : list loc;
  cid_refcount : Z;
  cid_lease_reservations : Z;
  cid_minorversion : Z
}.

Definition with_cid_verifier (v : Z) (x : nfs_client_id_t) : nfs_client_id_t :=
  mk_client_id (cid_clientid x) v (cid_incoming_verifier x) (cid_last_renew x) (cid_confirmed x)
    (cid_credential x) (cid_client_addr x) (cid_client_record x) (cid_openowners x) (cid_lockowners x)
    (cid_cb x) (cb_chan_down x) (cid_create_session_slot x) (cid_create_session_sequence x)
    (cid_states x) (cid_refcount x) (cid_lease_reservations x) (cid_minorversion x).
Definition with_cid_incoming_verifier (v : Z) (x : nfs_client_id_t) : nfs_client_id_t :=
  mk_client_id (cid_clientid x) (cid_verifier x) v (cid_last_renew x) (cid_confirmed x)
    (cid_credential x) (cid_client_addr x) (cid_client_record x) (cid_openowners x) (cid_lockowners x)
    (cid_cb x) (cb_chan_down x) (cid_create_session_slot x) (cid_create_session_sequence x)
    (cid_states x) (cid_refcount x) (cid_lease_reservations x) (cid_minorversion x).
Definition with_cid_last_renew (v : Z) (x : nfs_client_id_t) : nfs_client_id_t :=
  mk_client_id (cid_clientid x) (cid_verifier x) (cid_incoming_verifier x) v (cid_confirmed x)
    (cid_credential x) (cid_client_addr x) (cid_client_record x) (cid_openowners x) (cid_lockowners x)
    (cid_cb x) (cb_chan_down x) (cid_create_session_slot x) (cid_create_session_sequence x)
    (cid_states x) (cid_refcount x) (cid_lease_reservations x) (cid_minorversion x).
Definition with_cid_confirmed (v : nfs_clientid_confirm_state_t) (x : nfs_client_id_t) : nfs_client_id_t :=
  mk_client_id (cid_clientid x) (cid_verifier x) (cid_incoming_verifier x) (cid_last_renew x) v
    (cid_credential x) (cid_client_addr x) (cid_client_record x) (cid_openowners x) (cid_lockowners x)
    (cid_cb x) (cb_chan_down x) (cid_create_session_slot x) (cid_create_session_sequence x)
    (cid_states x) (cid_refcount x) (cid_lease_reservations x) (cid_minorversion x).
Definition with_cid_openowners (v : list loc) (x : nfs_client_id_t) : nfs_client_id_t :=
  mk_client_id (cid_clientid x) (cid_verifier x) (cid_incoming_verifier x) (cid_last_renew x)
    (cid_confirmed x) (cid_credential x) (cid_client_addr x) (cid_client_record x) v (cid_lockowners x)
    (cid_cb x) (cb_chan_down x) (cid_create_session_slot x) (cid_create_session_sequence x)
    (cid_states x) (cid_refcount x) (cid_lease_reservations x) (cid_minorversion x).
Definition with_cid_lockowners (v : list loc) (x : nfs_client_id_t) : nfs_client_id_t :=
  mk_client_id (cid_clientid x) (cid_verifier x) (cid_incoming_verifier x) (cid_last_renew x)
    (cid_confirmed x) (cid_credential x) (cid_client_addr x) (cid_client_record x) (cid_openowners x) v
    (cid_cb x) (cb_chan_down x) (cid_create_session_slot x) (cid_create_session_sequence x)
    (cid_states x) (cid_refcount x) (cid_lease_reservations x) (cid_minorversion x).
Definition with_cid_cb (v : cid_cb_t) (x : nfs_client_id_t) : nfs_client_id_t :=
  mk_client_id (cid_clientid x) (cid_verifier x) (cid_incoming_verifier x) (cid_last_renew x)
    (cid_confirmed x) (cid_credential x) (cid_client_addr x) (cid_client_record x) (cid_openowners x)
    (cid_lockowners x) v (cb_chan_down x) (cid_create_session_slot x) (cid_create_session_sequence x)
    (cid_states x) (cid_refcount x) (cid_lease_reservations x) (cid_minorversion x).
Definition with_cb_chan_down (v : bool) (x : nfs_client_id_t) : nfs_client_id_t :=
  mk_client_id (cid_clientid x) (cid_verifier x) (cid_incoming_verifier x) (cid_last_renew x)
    (cid_confirmed x) (cid_credential x) (cid_client_addr x) (cid_client_record x) (cid_openowners x)
    (cid_lockowners x) (cid_cb x) v (cid_create_session_slot x) (cid_create_session_sequence x)
    (cid_states x) (cid_refcount x) (cid_lease_reservations x) (cid_minorversion x).
Definition with_cid_create_session_slot (v : slot_cache) (x : nfs_client_id_t) : nfs_client_id_t :=
  mk_client_id (cid_clientid x) (cid_verifier x) (cid_incoming_verifier x) (cid_last_renew x)
    (cid_confirmed x) (cid_credential x) (cid_client_addr x) (cid_client_record x) (cid_openowners x)
    (cid_lockowners x) (cid_cb x) (cb_chan_down x) v (cid_create_session_sequence x) (cid_states x)
    (cid_refcount x) (cid_lease_reservations x) (cid_minorversion x).
Definition with_cid_create_session_sequence (v : Z) (x : nfs_client_id_t) : nfs_client_id_t :=
  mk_client_id (cid_clientid x) (cid_verifier x) (cid_incoming_verifier x) (cid_last_renew x)
    (cid_confirmed x) (cid_credential x) (cid_client_addr x) (cid_client_record x) (cid_openowners x)
    (cid_lockowners x) (cid_cb x) (cb_chan_down x) (cid_create_session_slot x) v (cid_states x)
    (cid_refcount x) (cid_lease_reservations x) (cid_minorversion x).
Definition with_cid_refcount (v : Z) (x : nfs_client_id_t) : nfs_client_id_t :=
  mk_client_id (cid_clientid x) (cid_verifier x) (cid_incoming_verifier x) (cid_last_renew x)
    (cid_confirmed x) (cid_credential x) (cid_client_addr x) (cid_client_record x) (cid_openowners x)
    (cid_lockowners x) (cid_cb x) (cb_chan_down x) (cid_create_session_slot x)
    (cid_create_session_sequence x) (cid_states x) v (cid_lease_reservations x) (cid_minorversion x).
Definition with_cid_lease_reservations (v : Z) (x : nfs_client_id_t) : nfs_client_id_t :=
  mk_client_id (cid_clientid x) (cid_verifier x) (cid_incoming_verifier x) (cid_last_renew x)
    (cid_confirmed x) (cid_credential x) (cid_client_addr x) (cid_client_record x) (cid_openowners x)
    (cid_lockowners x) (cid_cb x) (cb_chan_down x) (cid_create_session_slot x)
    (cid_create_session_sequence x) (cid_states x) (cid_refcount x) v (cid_minorversion x).

Record nfs_client_record_t : Set := mk_client_record {
  cr_refcount : Z;
  cr_confirmed_rec : option loc;
  cr_unconfirmed_rec : option loc;
  cr_server_addr : Z;
  cr_pnfs_flags : Z;
  cr_client_val : list Z
}.

Definition with_cr_refcount (v : Z) (x : nfs_client_record_t) : nfs_client_record_t :=
  mk_client_record v (cr_confirmed_rec x) (cr_unconfirmed_rec x) (cr_server_addr x) (cr_pnfs_flags x)
    (cr_client_val x).
Definition with_cr_confirmed_rec (v : option loc) (x : nfs_client_record_t) : nfs_client_record_t :=
  mk_client_record (cr_refcount x) v (cr_unconfirmed_rec x) (cr_server_addr x) (cr_pnfs_flags x)
    (cr_client_val x).
Definition with_cr_unconfirmed_rec (v : option loc) (x : nfs_client_record_t) : nfs_client_record_t :=
  mk_client_record (cr_refcount x) (cr_confirmed_rec x) v (cr_server_addr x) (cr_pnfs_flags x)
    (cr_client_val x).

Record nfs41_session_t : Set := mk_session {
  session_id : Z * Z;
  s_refcount : Z;
  s_clientid : Z;
  clientid_record : loc;
  s_xprt_addr : sockaddr_t;
  ca_maxrequests : Z;
  ca_maxoperations : Z;
  s_slots : list nfs41_session_slot_t
}.

Definition with_s_refcount (v : Z) (x : nfs41_session_t) : nfs41_session_t :=
  mk_session (session_id x) v (s_clientid x) (clientid_record x) (s_xprt_addr x) (ca_maxrequests x)
    (ca_maxoperations x) (s_slots x).
Definition with_s_slots (v : list nfs41_session_slot_t) (x : nfs41_session_t) : nfs41_session_t :=
  mk_session (session_id x) (s_refcount x) (s_clientid x) (clientid_record x) (s_xprt_addr x)
    (ca_maxrequests x) (ca_maxoperations x) v.

(** The store: what is allocated, the hash tables, the counters, the supply of addresses,
    the outcome of the next allocations, the fate of the next owners that are let go, and
    the time. *)
Record cworld : Set := mk_cworld {
  cw_ids : gmap loc nfs_client_id_t;
  cw_records : gmap loc nfs_client_record_t;
  cw_sessions : gmap loc nfs41_session_t;
  ht_confirmed_client_id : gmap Z loc;
  ht_unconfirmed_client_id : gmap Z loc;
  ht_client_record : gmap record_key loc;
  ht_session_id : gmap (Z * Z) loc;
  clientid_counter : Z;
  clientid_verifier : Z;
  global_sequence : Z;
  cw_next : loc;
  cw_choices : list bool;
  cw_last_refs : list bool;
  cw_time : Z
}.

Definition upd_cw_ids (g : gmap loc nfs_client_id_t -> gmap loc nfs_client_id_t) (w : cworld) : cworld :=
  mk_cworld (g (cw_ids w)) (cw_records w) (cw_sessions w) (ht_confirmed_client_id w)
    (ht_unconfirmed_client_id w) (ht_client_record w) (ht_session_id w) (clientid_counter w)
    (clientid_verifier w) (global_sequence w) (cw_next w) (cw_choices w) (cw_last_refs w) (cw_time w).
Definition upd_cw_records (g : gmap loc nfs_client_record_t -> gmap loc nfs_client_record_t) (w : cworld) : cworld :=
  mk_cworld (cw_ids w) (g (cw_records w)) (cw_sessions w) (ht_confirmed_client_id w)
    (ht_unconfirmed_client_id w) (ht_client_record w) (ht_session_id w) (clientid_counter w)
    (clientid_verifier w) (global_sequence w) (cw_next w) (cw_choices w) (cw_last_refs w) (cw_time w).
Definition upd_cw_sessions (g : gmap loc nfs41_session_t -> gmap loc nfs41_session_t) (w : cworld) : cworld :=
  mk_cworld (cw_ids w) (cw_records w) (g (cw_sessions w)) (ht_confirmed_client_id w)
    (ht_unconfirmed_client_id w) (ht_client_record w) (ht_session_id w) (clientid_counter w)
    (clientid_verifier w) (global_sequence w) (cw_next w) (cw_choices w) (cw_last_refs w) (cw_time w).
Definition upd_ht_confirmed_client_id (g : gmap Z loc -> gmap Z loc) (w : cworld) : cworld :=
  mk_cworld (cw_ids w) (cw_records w) (cw_sessions w) (g (ht_confirmed_client_id w))
    (ht_unconfirmed_client_id w) (ht_client_record w) (ht_session_id w) (clientid_counter w)
    (clientid_verifier w) (global_sequence w) (cw_next w) (cw_choices w) (cw_last_refs w) (cw_time w).
Definition upd_ht_unconfirmed_client_id (g : gmap Z loc -> gmap Z loc) (w : cworld) : cworld :=
  mk_cworld (cw_ids w) (cw_records w) (cw_sessions w) (ht_confirmed_client_id w)
    (g (ht_unconfirmed_client_id w)) (ht_client_record w) (ht_session_id w) (clientid_counter w)
    (clientid_verifier w) (global_sequence w) (cw_next w) (cw_choices w) (cw_last_refs w) (cw_time w).
Definition upd_ht_client_record (g : gmap record_key loc -> gmap record_key loc) (w : cworld) : cworld :=
  mk_cworld (cw_ids w) (cw_records w) (cw_sessions w) (ht_confirmed_client_id w)
    (ht_unconfirmed_client_id w) (g (ht_client_record w)) (ht_session_id w) (clientid_counter w)
    (clientid_verifier w) (global_sequence w) (cw_next w) (cw_choices w) (cw_last_refs w) (cw_time w).
Definition upd_ht_session_id (g : gmap (Z * Z) loc -> gmap (Z * Z) loc) (w : cworld) : cworld :=
  mk_cworld (cw_ids w) (cw_records w) (cw_sessions w) (ht_confirmed_client_id w)
    (ht_unconfirmed_client_id w) (ht_client_record w) (g (ht_session_id w)) (clientid_counter w)
    (clientid_verifier w) (global_sequence w) (cw_next w) (cw_choices w) (cw_last_refs w) (cw_time w).
Definition upd_clientid_counter (g : Z -> Z) (w : cworld) : cworld :=
  mk_cworld (cw_ids w) (cw_records w) (cw_sessions w) (ht_confirmed_client_id w)
    (ht_unconfirmed_client_id w) (ht_client_record w) (ht_session_id w) (g (clientid_counter w))
    (clientid_verifier w) (global_sequence w) (cw_next w) (cw_choices w) (cw_last_refs w) (cw_time w).
Definition upd_clientid_verifier (g : Z -> Z) (w : cworld) : cworld :=
  mk_cworld (cw_ids w) (cw_records w) (cw_sessions w) (ht_confirmed_client_id w)
    (ht_unconfirmed_client_id w) (ht_client_record w) (ht_session_id w) (clientid_counter w)
    (g (clientid_verifier w)) (global_sequence w) (cw_next w) (cw_choices w) (cw_last_refs w)
    (cw_time w).
Definition upd_global_sequence (g : Z -> Z) (w : cworld) : cworld :=
  mk_cworld (cw_ids w) (cw_records w) (cw_sessions w) (ht_confirmed_client_id w)
    (ht_unconfirmed_client_id w) (ht_client_record w) (ht_session_id w) (clientid_counter w)
    (clientid_verifier w) (g (global_sequence w)) (cw_next w) (cw_choices w) (cw_last_refs w)
    (cw_time w).
Definition upd_cw_next (g : loc -> loc) (w : cworld) : cworld :=
  mk_cworld (cw_ids w) (cw_records w) (cw_sessions w) (ht_confirmed_client_id w)
    (ht_unconfirmed_client_id w) (ht_client_record w) (ht_session_id w) (clientid_counter w)
    (clientid_verifier w) (global_sequence w) (g (cw_next w)) (cw_choices w) (cw_last_refs w)
    (cw_time w).
Definition upd_cw_choices (g : list bool -> list bool) (w : cworld) : cworld :=
  mk_cworld (cw_ids w) (cw_records w) (cw_sessions w) (ht_confirmed_client_id w)
    (ht_unconfirmed_client_id w) (ht_client_record w) (ht_session_id w) (clientid_counter w)
    (clientid_verifier w) (global_sequence w) (cw_next w) (g (cw_choices w)) (cw_last_refs w)
    (cw_time w).
Definition upd_cw_last_refs (g : list bool -> list bool) (w : cworld) : cworld :=
  mk_cworld (cw_ids w) (cw_records w) (cw_sessions w) (ht_confirmed_client_id w)
    (ht_unconfirmed_client_id w) (ht_client_record w) (ht_session_id w) (clientid_counter w)
    (clientid_verifier w) (global_sequence w) (cw_next w) (cw_choices w) (g (cw_last_refs w))
    (cw_time w).
Definition upd_cw_time (g : Z -> Z) (w : cworld) : cworld :=
  mk_cworld (cw_ids w) (cw_records w) (cw_sessions w) (ht_confirmed_client_id w)
    (ht_unconfirmed_client_id w) (ht_client_record w) (ht_session_id w) (clientid_counter w)
    (clientid_verifier w) (global_sequence w) (cw_next w) (cw_choices w) (cw_last_refs w)
    (g (cw_time w)).

(** What the code takes from elsewhere: the start time of the server, the
    configuration, [gethostname], the hash function of SAL/city.c, and the open owner
    that a lock owner belongs to. *)
Class ClientEnv := {
  ServerEpoch : Z;
  lease_lifetime : Z;
  allow_delegations : bool;
  gethostname_ok : bool;
  CityHash64WithSeed : list Z -> Z -> Z;
  so_related_owner : loc -> option loc
}.

Section client.
Context {env : ClientEnv}.
Abbreviation M := (M cworld).

(** * The store *)

Definition cchoose : M bool := fun w =>
  match cw_choices w with
  | [] => Ret true w
  | b :: bs => Ret b (upd_cw_choices (fun _ => bs) w)
  end.
(** Whether the next owner that is let go has no other references. *)
Definition last_reference : M bool := fun w =>
  match cw_last_refs w with
  | [] => Ret true w
  | b :: bs => Ret b (upd_cw_last_refs (fun _ => bs) w)
  end.
Definition cfresh : M loc := fun w => Ret (cw_next w) (upd_cw_next Pos.succ w).
Definition now : M Z := gets cw_time.

Definition get_cid (a : loc) : M nfs_client_id_t := deref (fun w => cw_ids w !! a).
Definition get_rec (a : loc) : M nfs_client_record_t := deref (fun w => cw_records w !! a).
Definition get_sess (a : loc) : M nfs41_session_t := deref (fun w => cw_sessions w !! a).

Definition set_cid (a : loc) (f : nfs_client_id_t -> nfs_client_id_t) : M unit :=
  c ← get_cid a; modify (upd_cw_ids (<[a := f c]>)).
Definition set_rec (a : loc) (f : nfs_client_record_t -> nfs_client_record_t) : M unit :=
  r ← get_rec a; modify (upd_cw_records (<[a := f r]>)).
Definition set_sess (a : loc) (f : nfs41_session_t -> nfs41_session_t) : M unit :=
  s ← get_sess a; modify (upd_cw_sessions (<[a := f s]>)).

(** * Credentials *)

Definition aup_ids (c : nfs_client_cred_t) : Z * Z :=
  match cred_auth c with auth_unix uid gid _ => (uid, gid) | auth_bytes _ => (0, 0) end.
Definition auth_memory (c : nfs_client_cred_t) : list Z :=
  match cred_auth c with auth_unix _ _ _ => [] | auth_bytes bytes => bytes end.

(** Of other flavours than AUTH_UNIX the first [cred_length] bytes are compared. *)
Definition nfs_compare_clientcred (cred1 cred2 : nfs_client_cred_t) : bool :=
  if negb (flavor cred1 =? flavor cred2) then false
  else if flavor cred1 =? AUTH_UNIX then
    if negb ((aup_ids cred1).1 =? (aup_ids cred2).1) then false
    else if negb ((aup_ids cred1).2 =? (aup_ids cred2).2) then false
    else true
  else
    let n := Z.to_nat (cred_length cred1) in
    bool_decide (take n (auth_memory cred1) = take n (auth_memory cred2)).

(** * Leases (nfs4_lease.c) *)

Definition _valid_lease (c : nfs_client_id_t) (t : Z) : Z :=
  if decide (cid_confirmed c = EXPIRED_CLIENT_ID) then 0
  else if negb (cid_lease_reservations c =? 0) then lease_lifetime
  else if t <? cid_last_renew c + lease_lifetime then cid_last_renew c + lease_lifetime - t
  else 0.

Definition valid_lease (clientid : loc) : M bool :=
  c ← get_cid clientid; t ← now; mret (negb (_valid_lease c t =? 0)).

Definition reserve_lease (clientid : loc) : M bool :=
  valid ← valid_lease clientid;
  when valid (set_cid clientid (fun c => with_cid_lease_reservations (cid_lease_reservations c + 1) c));;
  mret valid.

Definition update_lease (clientid : loc) : M unit :=
  set_cid clientid (fun c => with_cid_lease_reservations (cid_lease_reservations c - 1) c);;
  c ← get_cid clientid;
  t ← now;
  when (cid_lease_reservations c =? 0) (set_cid clientid (with_cid_last_renew t)).

(** * References *)

Definition inc_client_id_ref (clientid : loc) : M unit :=
  set_cid clientid (fun c => with_cid_refcount (cid_refcount c + 1) c).

Definition inc_client_record_ref (record : loc) : M unit :=
  set_rec record (fun r => with_cr_refcount (cr_refcount r + 1) r).

(** [client_record_value_hash]: the seed is the flags and the address of the
    server. *)
Definition client_record_value_hash (val : list Z) (pnfs_flags server_addr : Z) : Z :=
  CityHash64WithSeed val (Z.lor (u64 (Z.shiftl pnfs_flags 32)) server_addr).

Definition key_of (val : list Z) (pnfs_flags server_addr : Z) : record_key :=
  (client_record_value_hash val pnfs_flags server_addr, val, pnfs_flags).
Definition record_key_of (r : nfs_client_record_t) : record_key :=
  key_of (cr_client_val r) (cr_pnfs_flags r) (cr_server_addr r).

(** A record that is not in the table is left alone. *)
Definition dec_client_record_ref (record : loc) : M unit :=
  set_rec record (fun r => with_cr_refcount (cr_refcount r - 1) r);;
  r ← get_rec record;
  if 0 <? cr_refcount r then mret tt
  else
    ht ← gets ht_client_record;
    match ht !! record_key_of r with
    | None => mret tt
    | Some old_value =>
        modify (upd_ht_client_record (delete (record_key_of r)));;
        modify (upd_cw_records (delete old_value))
    end.

(** [glist_del] of the link of a session: off the list of its client. *)
Definition unlink_session (clientid session : loc) : M unit :=
  c ← get_cid clientid;
  match cid_cb c with
  | cb_v41 l => set_cid clientid (with_cid_cb (cb_v41 (glist_del session l)))
  | _ => undef
  end.

(** [dec] is [dec_client_id_ref], which frees the client with its last reference. *)
Definition drop_session (dec : loc -> M unit) (session : loc) : M unit :=
  s ← get_sess session;
  unlink_session (clientid_record s) session;;
  dec (clientid_record s);;
  modify (upd_cw_sessions (delete session)).

Definition dec_session_ref_with (dec : loc -> M unit) (session : loc) : M unit :=
  set_sess session (fun s => with_s_refcount (s_refcount s - 1) s);;
  s ← get_sess session;
  when (s_refcount s =? 0) (drop_session dec session).

Definition nfs41_Session_Del_with (dec : loc -> M unit) (sessionid : Z * Z) : M bool :=
  ht ← gets ht_session_id;
  match ht !! sessionid with
  | None => mret false
  | Some session =>
      modify (upd_ht_session_id (delete sessionid));;
      dec_session_ref_with dec session;;
      mret true
  end.

(** The sessions of a client, one after the other; the list can lose the one at hand. *)
Fixpoint for_sessions (l : list loc) (body : loc -> M unit) : M unit :=
  match l with [] => mret tt | a :: l => body a;; for_sessions l body end.

Definition session_list (c : nfs_client_id_t) : M (list loc) :=
  match cid_cb c with cb_v41 l => mret l | _ => undef end.

Definition free_client_id (dec : loc -> M unit) (clientid : loc) : M unit :=
  c ← get_cid clientid;
  if negb (cid_refcount c =? 0) then fatal
  else
    dec_client_record_ref (cid_client_record c);;
    when (0 <? cid_minorversion c) (
      l ← session_list c;
      for_sessions l (fun session =>
        s ← get_sess session; nfs41_Session_Del_with dec (session_id s);; mret tt));;
    modify (upd_cw_ids (delete clientid)).

(** The sessions that a client still has when it is freed would each drop a
    reference on it in turn; [depth] bounds this. *)
Fixpoint dec_client_id_ref_at (depth : nat) (clientid : loc) : M unit :=
  set_cid clientid (fun c => with_cid_refcount (cid_refcount c - 1) c);;
  c ← get_cid clientid;
  if 0 <? cid_refcount c then mret tt
  else if decide (cid_confirmed c = EXPIRED_CLIENT_ID)
  then free_client_id (match depth with O => fun _ => stuck | S depth => dec_client_id_ref_at depth end) clientid
  else fatal.

Definition dec_client_id_ref : loc -> M unit := dec_client_id_ref_at 1.
Definition dec_session_ref : loc -> M unit := dec_session_ref_with dec_client_id_ref.
Definition nfs41_Session_Del : Z * Z -> M bool := nfs41_Session_Del_with dec_client_id_ref.

(** * Owners of a client *)

(** [init_nfs4_owner] and [free_nfs4_owner], as far as they concern the client; the
    lists of open owners and lock owners share their links. *)
Definition init_nfs4_owner (clientid owner : loc) (open_owner : bool) : M unit :=
  inc_client_id_ref clientid;;
  set_cid clientid (fun c =>
    if open_owner then with_cid_openowners (cid_openowners c ++ [owner]) c
    else with_cid_lockowners (cid_lockowners c ++ [owner]) c).

Definition free_nfs4_owner (clientid owner : loc) : M unit :=
  set_cid clientid (fun c => with_cid_openowners (glist_del owner (cid_openowners c))
                               (with_cid_lockowners (glist_del owner (cid_lockowners c)) c));;
  dec_client_id_ref clientid.

(** A lock owner that goes lets its open owner go, which may be the last reference on it;
    an open owner that nothing refers to is on no list. *)
Definition free_related_owner (clientid owner : loc) : M unit :=
  match so_related_owner owner with
  | None => mret tt
  | Some open_owner =>
      last ← last_reference;
      c ← get_cid clientid;
      when (last && bool_decide (open_owner ∈ cid_openowners c)) (free_nfs4_owner clientid open_owner)
  end.

(** A lock owner goes, with its locks and states, when nothing else refers to it. *)
Fixpoint release_lockowners (clientid : loc) (owners : list loc) : M unit :=
  match owners with
  | [] => mret tt
  | owner :: owners =>
      last ← last_reference;
      when last (free_related_owner clientid owner;; free_nfs4_owner clientid owner);;
      release_lockowners clientid owners
  end.

Definition client_id_has_nfs41_sessions (clientid : loc) : M bool :=
  c ← get_cid clientid;
  if 0 <? cid_minorversion c then l ← session_list c; mret (negb (glist_empty l)) else mret false.

Definition client_id_has_state (clientid : loc) : M bool :=
  c ← get_cid clientid;
  mret (negb (glist_empty (cid_openowners c) || glist_empty (cid_states c))).

(** * Client ids *)

Definition epoch_low : Z := Z.land ServerEpoch 0xFFFFFFFF.

Definition new_clientid : M Z :=
  modify (upd_clientid_counter (fun n => u32 (n + 1)));;
  newid ← gets clientid_counter;
  mret (u64 (newid + u64 (Z.shiftl epoch_low 32))).

Definition new_clientid_verifier : M Z :=
  modify (upd_clientid_verifier (fun n => u64 (n + 1)));; gets clientid_verifier.

(** [clientid] 0 asks for a new one. *)
Definition create_client_id (clientid : Z) (client_record : loc) (client_addr : sockaddr_t)
    (credential : nfs_client_cred_t) (minorversion : Z) : M (option loc) :=
  ok ← cchoose;
  if negb ok then mret None
  else
    client_rec ← cfresh;
    clientid ← (if clientid =? 0 then new_clientid else mret clientid);
    t ← now;
    modify (upd_cw_ids (<[client_rec :=
      mk_client_id clientid 0 0 t UNCONFIRMED_CLIENT_ID credential client_addr client_record [] []
        cb_zero false (mk_slot_cache zero_res false) 0 [] 0 0 minorversion]>));;
    inc_client_record_ref client_record;;
    mret (Some client_rec).

(** [hashtable_test_and_set] without overwriting. *)
Definition test_and_set (table : cworld -> gmap Z loc) (upd : (gmap Z loc -> gmap Z loc) -> cworld -> cworld)
    (key : Z) (val : loc) : M bool :=
  ht ← gets table;
  match ht !! key with
  | Some _ => mret false
  | None => ok ← cchoose; when ok (modify (upd (<[key := val]>)));; mret ok
  end.

Definition nfs_client_id_insert (clientid : loc) : M clientid_status_t :=
  c ← get_cid clientid;
  ok ← test_and_set ht_unconfirmed_client_id upd_ht_unconfirmed_client_id (cid_clientid c) clientid;
  if negb ok then free_client_id dec_client_id_ref clientid;; mret CLIENT_ID_INSERT_MALLOC_ERROR
  else
    inc_client_id_ref clientid;;
    set_rec (cid_client_record c) (with_cr_unconfirmed_rec (Some clientid));;
    mret CLIENT_ID_SUCCESS.

Definition remove_confirmed_client_id (clientid : loc) : M bool :=
  c ← get_cid clientid;
  ht ← gets ht_confirmed_client_id;
  match ht !! cid_clientid c with
  | None => mret false
  | Some _ =>
      modify (upd_ht_confirmed_client_id (delete (cid_clientid c)));;
      set_rec (cid_client_record c) (with_cr_confirmed_rec None);;
      set_cid clientid (with_cid_confirmed EXPIRED_CLIENT_ID);;
      dec_client_id_ref clientid;;
      mret true
  end.

Definition remove_unconfirmed_client_id (clientid : loc) : M bool :=
  c ← get_cid clientid;
  ht ← gets ht_unconfirmed_client_id;
  match ht !! cid_clientid c with
  | None => mret false
  | Some _ =>
      modify (upd_ht_unconfirmed_client_id (delete (cid_clientid c)));;
      set_rec (cid_client_record c) (with_cr_unconfirmed_rec None);;
      set_cid clientid (with_cid_confirmed EXPIRED_CLIENT_ID);;
      dec_client_id_ref clientid;;
      mret true
  end.

Definition nfs_client_id_confirm (clientid : loc) : M clientid_status_t :=
  c ← get_cid clientid;
  set_rec (cid_client_record c) (with_cr_unconfirmed_rec None);;
  ht ← gets ht_unconfirmed_client_id;
  match ht !! cid_clientid c with
  | None => mret CLIENT_ID_INVALID_ARGUMENT
  | Some old_value =>
      modify (upd_ht_unconfirmed_client_id (delete (cid_clientid c)));;
      set_cid clientid (with_cid_confirmed CONFIRMED_CLIENT_ID);;
      ok ← test_and_set ht_confirmed_client_id upd_ht_confirmed_client_id (cid_clientid c) old_value;
      if negb ok then
        set_cid clientid (with_cid_confirmed EXPIRED_CLIENT_ID);;
        dec_client_id_ref clientid;;
        mret CLIENT_ID_INSERT_MALLOC_ERROR
      else
        set_rec (cid_client_record c) (with_cr_confirmed_rec (Some clientid));;
        mret CLIENT_ID_SUCCESS
  end.

(** One session of a client that expires. *)
Definition expire_session (session : loc) : M unit :=
  s ← get_sess session;
  ht ← gets ht_session_id;
  match ht !! session_id s with
  | None => mret tt
  | Some old_value =>
      modify (upd_ht_session_id (delete (session_id s)));;
      dec_session_ref old_value
  end.

(** A record that is already expired is left alone.  The open owners lose their states and
    stay on the list: the reference that is taken on each of them is not released. *)
Definition nfs_client_id_expire (clientid : loc) : M bool :=
  c ← get_cid clientid;
  if decide (cid_confirmed c = EXPIRED_CLIENT_ID) then mret false
  else
    let confirmed := bool_decide (cid_confirmed c = CONFIRMED_CLIENT_ID) in
    set_cid clientid (with_cid_confirmed EXPIRED_CLIENT_ID);;
    r ← get_rec (cid_client_record c);
    when (bool_decide (cr_confirmed_rec r = Some clientid))
      (set_rec (cid_client_record c) (with_cr_confirmed_rec None));;
    when (bool_decide (cr_unconfirmed_rec r = Some clientid))
      (set_rec (cid_client_record c) (with_cr_unconfirmed_rec None));;
    ht ← gets (if confirmed then ht_confirmed_client_id else ht_unconfirmed_client_id);
    if decide (ht !! cid_clientid c = None) then fatal
    else
      modify ((if confirmed then upd_ht_confirmed_client_id else upd_ht_unconfirmed_client_id)
                (delete (cid_clientid c)));;
      release_lockowners clientid (cid_lockowners c);;
      c ← get_cid clientid;
      when (0 <? cid_minorversion c) (l ← session_list c; for_sessions l expire_session);;
      dec_client_id_ref clientid;;
      mret true.

Definition nfs_client_id_get (table : cworld -> gmap Z loc) (clientid : Z)
    : M (clientid_status_t * option loc) :=
  if negb (Z.shiftr clientid 32 =? epoch_low) then mret (CLIENT_ID_STALE, None)
  else
    ht ← gets table;
    match ht !! clientid with
    | Some a => inc_client_id_ref a;; mret (CLIENT_ID_SUCCESS, Some a)
    | None => mret (CLIENT_ID_EXPIRED, None)
    end.

Definition nfs_client_id_get_unconfirmed : Z -> M (clientid_status_t * option loc) :=
  nfs_client_id_get ht_unconfirmed_client_id.
Definition nfs_client_id_get_confirmed : Z -> M (clientid_status_t * option loc) :=
  nfs_client_id_get ht_confirmed_client_id.

(** Errors of the table other than a missing key end the server. *)
Definition get_client_record (value : list Z) (pnfs_flags server_addr : Z) : M (option loc) :=
  ok ← cchoose;
  if negb ok then mret None
  else
    record ← cfresh;
    ht ← gets ht_client_record;
    let key := key_of value pnfs_flags server_addr in
    match ht !! key with
    | Some found => inc_client_record_ref found;; mret (Some found)
    | None =>
        ok ← cchoose;
        if negb ok then fatal
        else
          modify (upd_cw_records (<[record := mk_client_record 1 None None server_addr pnfs_flags value]>));;
          modify (upd_ht_client_record (<[key := record]>));;
          mret (Some record)
    end.

(** * Sessions (nfs41_session_id.c) *)

Definition nfs41_Build_sessionid (clientid : Z) : M (Z * Z) :=
  modify (upd_global_sequence (fun n => u64 (n + 1)));; seq ← gets global_sequence; mret (clientid, seq).

Definition inc_session_ref (session : loc) : M unit :=
  set_sess session (fun s => with_s_refcount (s_refcount s + 1) s).

Definition nfs41_Session_Set (session : loc) : M bool :=
  s ← get_sess session;
  ht ← gets ht_session_id;
  match ht !! session_id s with
  | Some _ => mret false
  | None => ok ← cchoose; when ok (modify (upd_ht_session_id (<[session_id s := session]>)));; mret ok
  end.

Definition nfs41_Session_Get_Pointer (sessionid : Z * Z) : M (option loc) :=
  ht ← gets ht_session_id;
  match ht !! sessionid with
  | None => mret None
  | Some session => inc_session_ref session;; mret (Some session)
  end.
End client.
