(* ===== verification/ClientInv.v ===== *)
(** The invariant of the client store: the tables, the records and the sessions
    point to each other, and every structure has at least the references that are
    held on it.  The primitive operations keep it.

    An operation holds references of its own while it runs: [X] lists those on
    client ids, [XR] those on client records, [XS] those on sessions.  [B] are the
    client ids that are allocated but in no table and have no references: new ones, and
    those about to be freed. *)

From S2P Require Import Prelude Status World Owner Client.

(** * The parts of the invariant *)

(** How often [a] is in a list. *)
Fixpoint occ (a : loc) (X : list loc) : Z :=
  match X with [] => 0 | b :: X => Z.b2z (bool_decide (b = a)) + occ a X end.

Definition sessions_of (c : nfs_client_id_t) : list loc :=
  match cid_cb c with cb_v41 l => l | _ => [] end.
Definition owners_of (c : nfs_client_id_t) : list loc := cid_openowners c ++ cid_lockowners c.

(** The references that tables, sessions and owners have on a client id. *)
Definition hashed (c : nfs_client_id_t) : Z := if decide (cid_confirmed c = EXPIRED_CLIENT_ID) then 0 else 1.
Definition needs (c : nfs_client_id_t) : Z :=
  hashed c + Z.of_nat (length (sessions_of c)) + Z.of_nat (length (owners_of c)).

(** The number of client ids of a record. *)
Definition ids_of (ids : gmap loc nfs_client_id_t) (p : loc) : Z :=
  Z.of_nat (size (filter (fun x => cid_client_record x.2 = p) ids)).

(** The member of the union is that of the minor version. *)
Definition cb_ok (c : nfs_client_id_t) : Prop :=
  match cid_cb c with cb_v40 _ => cid_minorversion c = 0 | cb_v41 _ => 0 < cid_minorversion c | cb_zero => False end.

Record newborn (c : nfs_client_id_t) : Prop := {
  nb_state : cid_confirmed c <> CONFIRMED_CLIENT_ID;
  nb_refs : cid_refcount c = 0;
  nb_sessions : sessions_of c = [];
  nb_owners : owners_of c = []
}.

Record tables_ok {env : ClientEnv} (B : list loc) (ids : gmap loc nfs_client_id_t) (conf unconf : gmap Z loc) : Prop := {
  to_conf : forall k a, conf !! k = Some a ->
    exists c, ids !! a = Some c /\ cid_clientid c = k /\ cid_confirmed c = CONFIRMED_CLIENT_ID;
  to_unconf : forall k a, unconf !! k = Some a ->
    exists c, ids !! a = Some c /\ cid_clientid c = k /\ cid_confirmed c = UNCONFIRMED_CLIENT_ID /\ a ∉ B;
  to_ids : forall a c, ids !! a = Some c -> a ∉ B ->
    match cid_confirmed c with
    | CONFIRMED_CLIENT_ID => conf !! cid_clientid c = Some a
    | UNCONFIRMED_CLIENT_ID => unconf !! cid_clientid c = Some a
    | EXPIRED_CLIENT_ID => True
    end;
  to_epoch : forall a c, ids !! a = Some c -> Z.shiftr (cid_clientid c) 32 = epoch_low
}.

Record refs_ok (B X : list loc) (ids : gmap loc nfs_client_id_t) : Prop := {
  rf_refs : forall a c, ids !! a = Some c -> a ∉ B -> needs c + occ a X <= cid_refcount c /\ 1 <= cid_refcount c;
  rf_held : forall a, a ∈ X -> (a ∉ B) /\ is_Some (ids !! a);
  rf_new : forall a, a ∈ B -> exists c, ids !! a = Some c /\ newborn c;
  rf_owners : forall a c, ids !! a = Some c -> NoDup (owners_of c);
  rf_cb : forall a c, ids !! a = Some c -> a ∉ B -> cb_ok c
}.

Record records_ok {env : ClientEnv} (B XR : list loc) (ids : gmap loc nfs_client_id_t)
    (recs : gmap loc nfs_client_record_t) (htr : gmap record_key loc) : Prop := {
  ro_id : forall a c, ids !! a = Some c -> exists r, recs !! cid_client_record c = Some r /\
    (cid_confirmed c = CONFIRMED_CLIENT_ID -> cr_confirmed_rec r = Some a) /\
    (cid_confirmed c = UNCONFIRMED_CLIENT_ID -> a ∉ B -> cr_unconfirmed_rec r = Some a) /\
    (cid_minorversion c = 0 <-> cr_pnfs_flags r = 0);
  ro_conf : forall p r a, recs !! p = Some r -> cr_confirmed_rec r = Some a ->
    exists c, ids !! a = Some c /\ cid_confirmed c = CONFIRMED_CLIENT_ID /\ cid_client_record c = p;
  ro_unconf : forall p r a, recs !! p = Some r -> cr_unconfirmed_rec r = Some a ->
    exists c, ids !! a = Some c /\ cid_confirmed c = UNCONFIRMED_CLIENT_ID /\ cid_client_record c = p /\ a ∉ B;
  ro_key : forall p r, recs !! p = Some r -> htr !! record_key_of r = Some p;
  ro_htr : forall k p, htr !! k = Some p -> exists r, recs !! p = Some r /\ record_key_of r = k;
  ro_refs : forall p r, recs !! p = Some r -> ids_of ids p + occ p XR <= cr_refcount r /\ 1 <= cr_refcount r;
  ro_held : forall p, p ∈ XR -> is_Some (recs !! p)
}.

Record sessions_ok (XS : list loc) (ids : gmap loc nfs_client_id_t) (ss : gmap loc nfs41_session_t)
    (hts : gmap (Z * Z) loc) : Prop := {
  so_owner : forall a x, ss !! a = Some x -> exists c, ids !! clientid_record x = Some c /\ a ∈ sessions_of c;
  so_list : forall b c a, ids !! b = Some c -> a ∈ sessions_of c -> exists x, ss !! a = Some x /\ clientid_record x = b;
  so_nodup : forall b c, ids !! b = Some c -> NoDup (sessions_of c);
  so_ids : forall a b x y, ss !! a = Some x -> ss !! b = Some y -> session_id x = session_id y -> a = b;
  so_hts : forall k a, hts !! k = Some a -> exists x, ss !! a = Some x /\ session_id x = k;
  so_refs : forall a x, ss !! a = Some x ->
    (if decide (hts !! session_id x = Some a) then 1 else 0) + occ a XS <= s_refcount x /\ 1 <= s_refcount x;
  so_held : forall a, a ∈ XS -> is_Some (ss !! a)
}.

(** The sessions that are not about to be freed. *)
Definition live (ss : gmap loc nfs41_session_t) : gmap loc nfs41_session_t :=
  filter (fun x => s_refcount x.2 <> 0) ss.

Record addresses_ok w : Prop := {
  ad_ids : forall a, is_Some (cw_ids w !! a) -> (a < cw_next w)%positive;
  ad_records : forall a, is_Some (cw_records w !! a) -> (a < cw_next w)%positive;
  ad_sessions : forall a, is_Some (cw_sessions w !! a) -> (a < cw_next w)%positive
}.

Section invariant.
Context {env : ClientEnv}.
Implicit Types (w : cworld) (ids : gmap loc nfs_client_id_t).

Record cinv (B X XR XS : list loc) w : Prop := {
  ci_tables : tables_ok B (cw_ids w) (ht_confirmed_client_id w) (ht_unconfirmed_client_id w);
  ci_refs : refs_ok B X (cw_ids w);
  ci_records : records_ok B XR (cw_ids w) (cw_records w) (ht_client_record w);
  ci_sessions : sessions_ok XS (cw_ids w) (live (cw_sessions w)) (ht_session_id w);
  ci_sequence : forall a x, live (cw_sessions w) !! a = Some x -> (session_id x).2 <= global_sequence w;
  ci_addresses : addresses_ok w
}.

(** * Counting *)

Lemma occ_nonneg a X : 0 <= occ a X.
Proof. induction X; simpl; [lia|]. destruct (bool_decide _); simpl; lia. Qed.

Lemma occ_elem a X : a ∈ X -> 1 <= occ a X.
Proof.
  induction X as [|b X IH]; [by intros []%not_elem_of_nil|]. simpl. pose proof (occ_nonneg a X).
  rewrite elem_of_cons. intros [->|Ha%IH]; [rewrite bool_decide_true by done; simpl; lia|].
  destruct (bool_decide _); simpl; lia.
Qed.

Lemma occ_notin a X : a ∉ X -> occ a X = 0.
Proof.
  induction X as [|b X IH]; [done|]. intros [H1 H2]%not_elem_of_cons. simpl. rewrite bool_decide_false by done. by rewrite IH.
Qed.

Lemma ids_of_insert ids a c c' p :
  ids !! a = Some c -> cid_client_record c' = cid_client_record c -> ids_of (<[a := c']> ids) p = ids_of ids p.
Proof.
  intros Ha Hr. unfold ids_of. f_equal. destruct (decide (cid_client_record c = p)) as [Hp|Hp].
  - rewrite map_filter_insert_True by (simpl; congruence). rewrite map_size_insert_Some; [done|].
    exists c. apply map_lookup_filter_Some. done.
  - rewrite map_filter_insert_False by (simpl; congruence). f_equal. rewrite map_filter_delete.
    apply delete_id. apply map_lookup_filter_None. right. intros x Hx. simpl. congruence.
Qed.

Lemma ids_of_delete ids a c p :
  ids !! a = Some c ->
  ids_of (delete a ids) p = ids_of ids p - Z.b2z (bool_decide (cid_client_record c = p)).
Proof.
  intros Ha. unfold ids_of. rewrite map_filter_delete. case_bool_decide as Hp; simpl.
  - assert (Hin : filter (fun x => cid_client_record x.2 = p) ids !! a = Some c) by (by apply map_lookup_filter_Some).
    rewrite map_size_delete_Some by (by eexists).
    assert (size (filter (fun x => cid_client_record x.2 = p) ids) <> 0%nat); [|lia].
    intros Hz%map_size_empty_inv. rewrite Hz in Hin. done.
  - rewrite delete_id; [lia|]. apply map_lookup_filter_None. right. intros x Hx. simpl. congruence.
Qed.

Lemma ids_of_new ids a c p :
  ids !! a = None ->
  ids_of (<[a := c]> ids) p = ids_of ids p + Z.b2z (bool_decide (cid_client_record c = p)).
Proof.
  intros Ha. unfold ids_of. case_bool_decide as Hp; simpl.
  - rewrite map_filter_insert_True by done. rewrite map_size_insert_None; [lia|].
    apply map_lookup_filter_None. by left.
  - rewrite map_filter_insert_False by done. rewrite delete_id by done. lia.
Qed.

Lemma ids_of_pos ids a c : ids !! a = Some c -> 1 <= ids_of ids (cid_client_record c).
Proof.
  intros Ha. pose proof (ids_of_delete ids a c (cid_client_record c) Ha) as Hd. rewrite bool_decide_true in Hd by done.
  simpl in Hd. unfold ids_of in *. lia.
Qed.

(** * Changes of one client id *)

(** What the tables and the records depend on. *)
Definition alike (c c' : nfs_client_id_t) : Prop :=
  cid_clientid c' = cid_clientid c /\ cid_confirmed c' = cid_confirmed c /\
  cid_client_record c' = cid_client_record c /\ cid_minorversion c' = cid_minorversion c.

(** After a change of one client id something still holds of some. *)
Lemma live_ids (P : nfs_client_id_t -> Prop) ids a c c' b :
  ids !! a = Some c -> (P c -> P c') -> (exists d, ids !! b = Some d /\ P d) -> exists d, <[a := c']> ids !! b = Some d /\ P d.
Proof.
  intros Ha HP (d & Hd & Hp). destruct (decide (a = b)) as [<-|Hne].
  - rewrite lookup_insert_eq. exists c'. split; [done|]. apply HP. by replace c with d by congruence.
  - rewrite lookup_insert_ne by done. by exists d.
Qed.

Lemma tables_alike B ids conf unconf a c c' :
  tables_ok B ids conf unconf -> ids !! a = Some c -> alike c c' -> tables_ok B (<[a := c']> ids) conf unconf.
Proof.
  intros [Hc Hu Hi He] Ha (E1 & E2 & _). split.
  - intros k b Hk. apply (live_ids _ ids a c c'); [done|by rewrite E1, E2|by apply Hc].
  - intros k b Hk. apply (live_ids _ ids a c c'); [done|by rewrite E1, E2|by apply Hu].
  - intros b d [[<- <-]|[_ Hb]]%lookup_insert_Some; [|by apply Hi]. rewrite E1, E2. by apply Hi.
  - intros b d [[<- <-]|[_ Hb]]%lookup_insert_Some; [|by apply (He b)]. rewrite E1. by apply (He a).
Qed.

Lemma records_alike B XR ids recs htr a c c' :
  records_ok B XR ids recs htr -> ids !! a = Some c -> alike c c' -> records_ok B XR (<[a := c']> ids) recs htr.
Proof.
  intros [Hi Hc Hu Hk Hh Hr Hx] Ha (_ & E2 & E3 & E4). split; try done.
  - intros b d [[<- <-]|[_ Hb]]%lookup_insert_Some; [|by apply Hi]. rewrite E2, E3, E4. by apply Hi.
  - intros p r b Hp Hb. apply (live_ids _ ids a c c'); [done|by rewrite E2, E3|by eapply Hc].
  - intros p r b Hp Hb. apply (live_ids _ ids a c c'); [done|by rewrite E2, E3|by eapply Hu].
  - intros p r Hp. rewrite (ids_of_insert _ _ c) by done. by apply Hr.
Qed.

Lemma sessions_alike XS ids ss hts a c c' :
  sessions_ok XS ids ss hts -> ids !! a = Some c -> sessions_of c' = sessions_of c -> sessions_ok XS (<[a := c']> ids) ss hts.
Proof.
  intros [Ho Hl Hn Hi Hh Hr Hx] Ha E5. split; try done.
  - intros b x Hb. apply (live_ids _ ids a c c'); [done|by rewrite E5|by apply Ho].
  - intros b d e [[<- <-]|[_ Hb]]%lookup_insert_Some; [|by apply Hl]. rewrite E5. by apply Hl.
  - intros b d [[<- <-]|[_ Hb]]%lookup_insert_Some; [|by eapply Hn]. rewrite E5. by eapply Hn.
Qed.

Lemma refs_change B X X' ids a c c' :
  refs_ok B X ids -> ids !! a = Some c -> a ∉ B -> (forall b, b <> a -> occ b X' <= occ b X) -> (forall b, b ∈ X' -> b = a \/ b ∈ X) ->
  needs c' + occ a X' <= cid_refcount c' -> 1 <= cid_refcount c' -> NoDup (owners_of c') -> cb_ok c' ->
  refs_ok B X' (<[a := c']> ids).
Proof.
  intros [Hr Hh Hn Ho Hc] Ha HB Hle Hin Hneed Hpos Hnd Hcb. split.
  - intros b d [[<- <-]|[Hne Hb]]%lookup_insert_Some HbB; [done|]. destruct (Hr b d Hb HbB).
    assert (occ b X' <= occ b X) by (by apply Hle). lia.
  - intros b Hb. rewrite lookup_insert_is_Some'. destruct (Hin b Hb) as [->|HbX]; [by split; [|left]|].
    destruct (Hh b HbX). split; [done|by right].
  - intros b Hb. destruct (decide (a = b)) as [<-|Hne]; [done|]. rewrite lookup_insert_ne by done. by apply Hn.
  - intros b d [[<- <-]|[_ Hb]]%lookup_insert_Some; [done|by eapply Ho].
  - intros b d [[<- <-]|[_ Hb]]%lookup_insert_Some; [done|by apply Hc].
Qed.

(** Fewer references are held. *)
Lemma refs_fewer B X X' ids :
  refs_ok B X ids -> (forall b, occ b X' <= occ b X) -> (forall b, b ∈ X' -> b ∈ X) -> refs_ok B X' ids.
Proof.
  intros [Hr Hh Hn Ho Hc] Hle Hin. split; try done; [|auto]. intros a c Ha HB. destruct (Hr a c Ha HB).
  specialize (Hle a). lia.
Qed.

Definition set_ids (ids : gmap loc nfs_client_id_t) w : cworld := upd_cw_ids (fun _ => ids) w.

Lemma addresses_set w a c c' :
  addresses_ok w -> cw_ids w !! a = Some c -> addresses_ok (set_ids (<[a := c']> (cw_ids w)) w).
Proof.
  intros [Hi Hr Hs] Ha. split; try done. simpl. intros b [->|[_ Hb]]%lookup_insert_is_Some; [|by apply Hi].
  apply Hi. by eexists.
Qed.

(** The reference count, the lists of owners and the lease of a client id change. *)
Lemma cinv_alike B X X' XR XS w a c c' :
  cinv B X XR XS w -> cw_ids w !! a = Some c -> a ∉ B -> alike c c' -> sessions_of c' = sessions_of c ->
  cb_ok c' -> NoDup (owners_of c') -> (forall b, b <> a -> occ b X' <= occ b X) -> (forall b, b ∈ X' -> b = a \/ b ∈ X) ->
  needs c' + occ a X' <= cid_refcount c' -> 1 <= cid_refcount c' ->
  cinv B X' XR XS (set_ids (<[a := c']> (cw_ids w)) w).
Proof.
  intros [] Ha HB HA HSe Hcb Hnd Hle Hin Hneed Hpos. split; simpl.
  - by eapply tables_alike.
  - by eapply refs_change.
  - by eapply records_alike.
  - by eapply sessions_alike.
  - done.
  - by eapply addresses_set.
Qed.

(** * The end of a client id *)

(** [B'] is [B] without [a]. *)
Definition without (a : loc) (B B' : list loc) : Prop := forall b, b ∈ B' <-> b ∈ B /\ b <> a.

Lemma without_del a B : without a B (glist_del a B).
Proof. intros b. rewrite elem_of_glist_del. tauto. Qed.

Lemma without_notin a B : a ∉ B -> without a B B.
Proof. intros Ha b. split; [|tauto]. intros Hb. split; [done|]. by intros ->. Qed.

Lemma tables_delete B B' ids conf unconf a c :
  tables_ok B ids conf unconf -> ids !! a = Some c -> without a B B' ->
  cid_confirmed c = EXPIRED_CLIENT_ID \/ (cid_confirmed c = UNCONFIRMED_CLIENT_ID /\ a ∈ B) ->
  tables_ok B' (delete a ids) conf unconf.
Proof.
  intros [Hc Hu Hi He] Ha HB Hst. split.
  - intros k b Hk. destruct (Hc k b Hk) as (d & Hd & Hdk & Hds). exists d. rewrite lookup_delete_ne; [done|].
    intros <-. assert (d = c) as -> by congruence. destruct Hst as [?|[? _]]; congruence.
  - intros k b Hk. destruct (Hu k b Hk) as (d & Hd & Hdk & Hds & HdB). exists d. rewrite lookup_delete_ne.
    + split_and!; try done. intros Hb%HB. tauto.
    + intros <-. assert (d = c) as -> by congruence. destruct Hst as [?|[_ ?]]; [congruence|done].
  - intros b d [Hne Hb]%lookup_delete_Some HbB. apply Hi; [done|]. intros HbB'. by apply HbB, (HB b).
  - intros b d [_ Hb]%lookup_delete_Some. by apply (He b).
Qed.

Lemma refs_delete B B' X ids a c :
  refs_ok B X ids -> ids !! a = Some c -> without a B B' -> a ∉ X -> refs_ok B' X (delete a ids).
Proof.
  intros [Hr Hh Hn Ho Hc] Ha HB HX.
  assert (HBn : forall b, b <> a -> b ∉ B' -> b ∉ B) by (intros b Hne HbB' HbB; by apply HbB', (HB b)).
  split.
  - intros b d [Hne Hb]%lookup_delete_Some HbB. apply Hr; [done|]. by apply HBn.
  - intros b Hb. destruct (Hh b Hb) as [HbB Hs]. rewrite lookup_delete_ne by (by intros ->).
    split; [intros HbB'%HB; tauto|done].
  - intros b [Hb Hne]%HB. rewrite lookup_delete_ne by done. by apply Hn.
  - intros b d [_ Hb]%lookup_delete_Some. by eapply Ho.
  - intros b d [Hne Hb]%lookup_delete_Some HbB. apply (Hc b); [done|by apply HBn].
Qed.

Lemma sessions_delete XS ids ss hts a c :
  sessions_ok XS ids ss hts -> ids !! a = Some c -> sessions_of c = [] -> sessions_ok XS (delete a ids) ss hts.
Proof.
  intros [Ho Hl Hn Hi Hh Hr Hx] Ha Hs. split; try done.
  - intros b x Hb. destruct (Ho b x Hb) as (d & Hd & Hbd). exists d. rewrite lookup_delete_ne; [done|].
    intros Heq. rewrite <- Heq in Hd. assert (d = c) as -> by congruence. rewrite Hs in Hbd. by apply not_elem_of_nil in Hbd.
  - intros b d e [_ Hb]%lookup_delete_Some. by eapply Hl.
  - intros b d [_ Hb]%lookup_delete_Some. by eapply Hn.
Qed.

(** Its reference on the record is then held by the operation. *)
Lemma records_delete B B' XR ids recs htr a c :
  records_ok B XR ids recs htr -> ids !! a = Some c -> without a B B' ->
  cid_confirmed c = EXPIRED_CLIENT_ID \/ (cid_confirmed c = UNCONFIRMED_CLIENT_ID /\ a ∈ B) ->
  records_ok B' (cid_client_record c :: XR) (delete a ids) recs htr.
Proof.
  intros [Hi Hc Hu Hk Hh Hr Hx] Ha HB Hst. split; try done.
  - intros b d [Hne Hb]%lookup_delete_Some. destruct (Hi b d Hb) as (r & Hrec & H1 & H2 & H3). exists r.
    split_and!; [done|done| |done]. intros Hs HbB'. apply H2; [done|]. intros HbB. by apply HbB', (HB b).
  - intros p r b Hp Hb. destruct (Hc p r b Hp Hb) as (d & Hd & Hds & Hdp). exists d. rewrite lookup_delete_ne; [done|].
    intros <-. assert (d = c) as -> by congruence. destruct Hst as [?|[? _]]; congruence.
  - intros p r b Hp Hb. destruct (Hu p r b Hp Hb) as (d & Hd & Hds & Hdp & HbB). exists d. rewrite lookup_delete_ne.
    + split_and!; try done. intros Hb'%HB. tauto.
    + intros <-. assert (d = c) as -> by congruence. destruct Hst as [?|[_ ?]]; [congruence|done].
  - intros p r Hp. rewrite (ids_of_delete ids a c p Ha). simpl. destruct (Hr p r Hp). lia.
  - intros p [->|Hp]%elem_of_cons; [|by apply Hx]. destruct (Hi a c Ha) as (r & Hrec & _). by exists r.
Qed.

(** * References on records *)

(** What releasing a reference on a record leaves. *)
Definition drop_record (p : loc) (r : nfs_client_record_t) w : cworld :=
  let r' := with_cr_refcount (cr_refcount r - 1) r in
  let w := upd_cw_records (<[p := r']>) w in
  if 0 <? cr_refcount r' then w
  else upd_cw_records (delete p) (upd_ht_client_record (delete (record_key_of r')) w).

Lemma wp_dec_record p r (Q : unit -> cworld -> Prop) w :
  cw_records w !! p = Some r -> ht_client_record w !! record_key_of r = Some p -> Q tt (drop_record p r w) ->
  wp (dec_client_record_ref p) Q w.
Proof.
  intros Hp Hk HQ. unfold dec_client_record_ref, set_rec.
  apply wp_bind, wp_bind, (wp_deref (fun w => cw_records w !! p) _ _ r Hp), wp_modify. set (r' := with_cr_refcount _ r).
  apply wp_bind, (wp_deref (fun w => cw_records w !! p) _ _ r'); [simpl; apply lookup_insert_eq|].
  unfold drop_record in HQ. fold r' in HQ. destruct (0 <? cr_refcount r'); [by apply wp_ret|].
  apply wp_bind, wp_gets. change (record_key_of r') with (record_key_of r). simpl. rewrite Hk.
  apply wp_bind, wp_modify, wp_modify. exact HQ.
Qed.

(** A change of the reference count of a record. *)
Lemma records_count B XR XR' ids recs htr p r n :
  records_ok B XR ids recs htr -> recs !! p = Some r -> (forall q, q <> p -> occ q XR' <= occ q XR) ->
  (forall q, q ∈ XR' -> q = p \/ q ∈ XR) -> ids_of ids p + occ p XR' <= n -> 1 <= n ->
  records_ok B XR' ids (<[p := with_cr_refcount n r]> recs) htr.
Proof.
  intros [Hi Hc Hu Hk Hh Hr Hx] Hp Hle Hin Hneed Hpos. split.
  - intros a c Ha. destruct (Hi a c Ha) as (r0 & Hr0 & H0). destruct (decide (p = cid_client_record c)) as [->|Hne].
    + exists (with_cr_refcount n r). rewrite lookup_insert_eq. split; [done|]. by replace r with r0 by congruence.
    + exists r0. by rewrite lookup_insert_ne.
  - intros q r0 a [[<- <-]|[_ Hq]]%lookup_insert_Some; [|by eapply Hc]. by apply (Hc p r).
  - intros q r0 a [[<- <-]|[_ Hq]]%lookup_insert_Some; [|by eapply Hu]. by apply (Hu p r).
  - intros q r0 [[<- <-]|[_ Hq]]%lookup_insert_Some; [|by apply Hk]. by apply (Hk p r).
  - intros k q Hq. destruct (Hh k q Hq) as (r0 & Hr0 & Hk0). destruct (decide (p = q)) as [->|Hne].
    + exists (with_cr_refcount n r). rewrite lookup_insert_eq. split; [done|]. by replace r with r0 by congruence.
    + exists r0. by rewrite lookup_insert_ne.
  - intros q r0 [[<- <-]|[Hne Hq]]%lookup_insert_Some; [done|]. destruct (Hr q r0 Hq).
    assert (occ q XR' <= occ q XR) by (by apply Hle). lia.
  - intros q Hq. rewrite lookup_insert_is_Some'. destruct (Hin q Hq) as [->|]; [by left|right; auto].
Qed.

(** A record without client ids that nobody holds goes. *)
Lemma records_gone B XR ids recs htr p r :
  records_ok B XR ids recs htr -> recs !! p = Some r -> ids_of ids p <= 0 -> p ∉ XR ->
  records_ok B XR ids (delete p recs) (delete (record_key_of r) htr).
Proof.
  intros [Hi Hc Hu Hk Hh Hr Hx] Hp Hno HX.
  assert (Hid : forall a c, ids !! a = Some c -> cid_client_record c <> p).
  { intros a c Ha <-. pose proof (ids_of_pos ids a c Ha). lia. }
  split.
  - intros a c Ha. rewrite lookup_delete_ne by (intros Heq; by apply (Hid a c Ha)). by apply Hi.
  - intros q r0 a [_ Hq]%lookup_delete_Some. by apply Hc.
  - intros q r0 a [_ Hq]%lookup_delete_Some. by apply Hu.
  - intros q r0 [Hne Hq]%lookup_delete_Some. rewrite lookup_delete_ne; [by apply Hk|]. intros Heq.
    apply Hne. pose proof (Hk p r Hp) as H1. rewrite Heq, (Hk q r0 Hq) in H1. congruence.
  - intros k q [Hne Hq]%lookup_delete_Some. destruct (Hh k q Hq) as (r0 & Hr0 & <-). exists r0.
    rewrite lookup_delete_ne; [done|]. intros ->. apply Hne. congruence.
  - intros q r0 [_ Hq]%lookup_delete_Some. by apply Hr.
  - intros q Hq. rewrite lookup_delete_ne by (by intros ->). by apply Hx.
Qed.

Lemma records_drop B XR ids recs htr p r :
  records_ok B (p :: XR) ids recs htr -> recs !! p = Some r ->
  let r' := with_cr_refcount (cr_refcount r - 1) r in
  if 0 <? cr_refcount r' then records_ok B XR ids (<[p := r']> recs) htr
  else records_ok B XR ids (delete p (<[p := r']> recs)) (delete (record_key_of r') htr).
Proof.
  intros HR Hp r'. pose proof (ro_refs _ _ _ _ _ HR p r Hp) as [Hneed _]. simpl in Hneed.
  rewrite bool_decide_true in Hneed by done. simpl in Hneed. pose proof (occ_nonneg p XR).
  assert (Hid : 0 <= ids_of ids p) by (unfold ids_of; lia).
  destruct (Z.ltb_spec 0 (cr_refcount r')) as [Hpos|Hz]; unfold r' in *; simpl in *.
  - apply (records_count B (p :: XR)); try done; [|by intros q Hq; right; right|lia|lia].
    intros q Hq. simpl. rewrite bool_decide_false by done. simpl. lia.
  - rewrite delete_insert_eq. apply (records_gone B XR _ _ _ p r); [|done|lia|intros Hin%occ_elem; lia].
    destruct HR as [Hi Hc Hu Hk Hh Hr Hx]. split; try done; [|by intros q Hq; apply Hx; right].
    intros q r0 Hq. destruct (Hr q r0 Hq) as [Hn ?]. simpl in Hn. destruct (bool_decide _); simpl in Hn; lia.
Qed.

(** * What a client sees of the store *)

(** A client id as SETCLIENTID and SETCLIENTID_CONFIRM know it. *)
Record aid : Set := mk_aid {
  ai_clientid : Z;
  ai_credential : nfs_client_cred_t;
  ai_addr : sockaddr_t;
  ai_incoming : Z;
  ai_verifier : Z;
  ai_cb : option cb_v40_t
}.

Definition aid_of (c : nfs_client_id_t) : aid :=
  mk_aid (cid_clientid c) (cid_credential c) (cid_client_addr c) (cid_incoming_verifier c) (cid_verifier c)
    (match cid_cb c with cb_v40 cb => Some cb | _ => None end).

(** The confirmed and the unconfirmed client id of each client. *)
Definition view w (k : record_key) : option aid * option aid :=
  match ht_client_record w !! k ≫= fun p => cw_records w !! p with
  | Some r => (cr_confirmed_rec r ≫= (fun a => aid_of <$> cw_ids w !! a), cr_unconfirmed_rec r ≫= (fun a => aid_of <$> cw_ids w !! a))
  | None => (None, None)
  end.

Definition ident (c : nfs_client_id_t) :=
  (aid_of c, cid_confirmed c, cid_client_record c, cid_minorversion c, cid_create_session_sequence c,
   (cid_create_session_slot c, cid_last_renew c, cid_lease_reservations c)).

(** The records that were allocated before are of the same clients. *)
Definition old_keys w w' : Prop :=
  (cw_next w <= cw_next w')%positive /\
  forall p r', cw_records w' !! p = Some r' -> (p < cw_next w)%positive ->
    exists r, cw_records w !! p = Some r /\ record_key_of r' = record_key_of r.

Lemma old_keys_same w w' : cw_records w' = cw_records w -> (cw_next w <= cw_next w')%positive -> old_keys w w'.
Proof. intros E Hn. split; [done|]. intros p r Hp _. exists r. by rewrite <- E. Qed.

Lemma old_keys_insert w w' p r r' :
  cw_records w' = <[p := r']> (cw_records w) -> cw_records w !! p = Some r -> record_key_of r' = record_key_of r ->
  (cw_next w <= cw_next w')%positive -> old_keys w w'.
Proof.
  intros E Hp Hk Hn. split; [done|]. intros q r0 Hq _. rewrite E in Hq.
  apply lookup_insert_Some in Hq as [[<- <-]|[_ Hq]]; [by exists r|by exists r0].
Qed.

Lemma old_keys_trans w1 w2 w3 : old_keys w1 w2 -> old_keys w2 w3 -> old_keys w1 w3.
Proof.
  intros [N1 K1] [N2 K2]. split; [lia|]. intros p r3 Hp Hlt. destruct (K2 p r3 Hp) as (r2 & Hr2 & E2); [lia|].
  destruct (K1 p r2 Hr2 Hlt) as (r1 & Hr1 & E1). exists r1. split; [done|congruence].
Qed.

(** Client ids other than those of [S] are in the tables as before. *)
Definition same_tables (S : list loc) w w' : Prop :=
  forall k a, a ∉ S ->
    (ht_confirmed_client_id w' !! k = Some a <-> ht_confirmed_client_id w !! k = Some a) /\
    (ht_unconfirmed_client_id w' !! k = Some a <-> ht_unconfirmed_client_id w !! k = Some a).

(** Client ids other than those of [S] are what they were, or gone. *)
Definition keeps (S : list loc) w w' : Prop :=
  old_keys w w' /\ same_tables S w w' /\
  forall a c', cw_ids w' !! a = Some c' -> a ∉ S -> exists c, cw_ids w !! a = Some c /\ ident c' = ident c.

Lemma keeps_same S w w' : cw_ids w' = cw_ids w -> old_keys w w' -> same_tables S w w' -> keeps S w w'.
Proof. intros E HK HT. split; [done|]. split; [done|]. intros a c Ha _. exists c. by rewrite <- E. Qed.

Lemma keeps_trans S1 S2 S w1 w2 w3 :
  (forall a, a ∈ S1 \/ a ∈ S2 -> a ∈ S) -> keeps S1 w1 w2 -> keeps S2 w2 w3 -> keeps S w1 w3.
Proof.
  intros HS (K1 & T1 & I1) (K2 & T2 & I2). split; [by apply (old_keys_trans w1 w2 w3)|]. split.
  { intros k a Hn. destruct (T1 k a) as [A1 B1]; [auto|]. destruct (T2 k a) as [A2 B2]; [auto|]. by rewrite A2, A1, B2, B1. }
  intros a c3 H3 Hn. destruct (I2 a c3 H3) as (c2 & H2 & E2); [auto|]. destruct (I1 a c2 H2) as (c1 & H1 & E1); [auto|].
  exists c1. split; [done|congruence].
Qed.

(** The counters and the time. *)
Definition environment w := (clientid_counter w, clientid_verifier w, global_sequence w, cw_time w).

(** No allocation fails any more. *)
Definition plenty w : Prop := cw_choices w = [].

(** Nothing that a client sees changes. *)
Definition quiet w w' : Prop :=
  keeps [] w w' /\ (forall k, view w' k = view w k) /\ environment w' = environment w /\
  (plenty w -> plenty w').

#[global] Instance quiet_refl : Reflexive quiet.
Proof. intros w. split_and!; try done. by apply keeps_same; [|apply old_keys_same|]. Qed.
#[global] Instance quiet_trans : Transitive quiet.
Proof.
  intros w1 w2 w3 (K1 & V1 & E1 & N1) (K2 & V2 & E2 & N2). split_and!; [|by intros k; rewrite V2|congruence|auto].
  apply (keeps_trans [] [] [] w1 w2 w3); tauto.
Qed.

Lemma view_ids w ids :
  (forall a, aid_of <$> ids !! a = aid_of <$> cw_ids w !! a) -> forall k, view (set_ids ids w) k = view w k.
Proof.
  intros Heq k. unfold view. simpl. destruct (ht_client_record w !! k ≫= _) as [r|]; [|done].
  f_equal; [destruct (cr_confirmed_rec r)|destruct (cr_unconfirmed_rec r)]; simpl; auto.
Qed.

Lemma quiet_set_id w a c c' :
  cw_ids w !! a = Some c -> ident c' = ident c -> quiet w (set_ids (<[a := c']> (cw_ids w)) w).
Proof.
  intros Ha Hid. split_and!; try done.
  - split; [by apply old_keys_same|]. split; [done|]. intros b d Hb _. simpl in Hb. apply lookup_insert_Some in Hb as [[<- <-]|[_ Hb]]; [by exists c|by exists d].
  - apply view_ids. intros b. destruct (decide (a = b)) as [<-|Hne]; [|by rewrite lookup_insert_ne].
    rewrite lookup_insert_eq, Ha. simpl. f_equal. exact (f_equal (fun t => t.1.1.1.1.1) Hid).
Qed.

(** A client id that no record points to goes. *)
Lemma quiet_delete_id w a :
  (forall p r, cw_records w !! p = Some r -> cr_confirmed_rec r <> Some a /\ cr_unconfirmed_rec r <> Some a) ->
  quiet w (set_ids (delete a (cw_ids w)) w).
Proof.
  intros Hno. split_and!; try done.
  - split; [by apply old_keys_same|]. split; [done|]. intros b d Hb _. simpl in Hb. apply lookup_delete_Some in Hb as [_ Hb]. by exists d.
  - intros k. unfold view. simpl. destruct (ht_client_record w !! k ≫= _) as [r|] eqn:Hk; [|done].
    apply bind_Some in Hk as (p & _ & Hp). destruct (Hno p r Hp) as [H1 H2].
    f_equal; [destruct (cr_confirmed_rec r) as [b|]|destruct (cr_unconfirmed_rec r) as [b|]]; simpl; try done;
      rewrite lookup_delete_ne by congruence; done.
Qed.

(** Releasing a reference on a record shows nothing. *)
Lemma quiet_drop_record B XR w p r :
  records_ok B (p :: XR) (cw_ids w) (cw_records w) (ht_client_record w) -> cw_records w !! p = Some r ->
  quiet w (drop_record p r w).
Proof.
  intros HR Hp. unfold drop_record. set (r' := with_cr_refcount _ r). pose proof (ro_key _ _ _ _ _ HR p r Hp) as Hk.
  pose proof (ro_refs _ _ _ _ _ HR p r Hp) as [Hneed _]. simpl in Hneed. rewrite bool_decide_true in Hneed by done.
  pose proof (occ_nonneg p XR). destruct (Z.ltb_spec 0 (cr_refcount r')) as [Hpos|Hz].
  - split_and!; try done; [by apply keeps_same; [|apply (old_keys_insert w _ p r r')|]|]. intros k. unfold view. simpl.
    destruct (ht_client_record w !! k) as [q|]; [|done]. simpl.
    destruct (decide (p = q)) as [<-|Hne]; [by rewrite lookup_insert_eq, Hp|by rewrite lookup_insert_ne].
  - split_and!; try done.
    { apply keeps_same; [done| |done]. split; [done|]. intros q r0 Hq _. simpl in Hq. rewrite delete_insert_eq in Hq.
      apply lookup_delete_Some in Hq as [_ Hq]. by exists r0. }
    intros k. unfold view. simpl.
    change (record_key_of r') with (record_key_of r). destruct (decide (record_key_of r = k)) as [<-|Hne].
    + rewrite lookup_delete_eq, Hk. simpl. rewrite Hp. simpl in Hz.
      destruct (cr_confirmed_rec r) as [a|] eqn:Hc.
      { destruct (ro_conf _ _ _ _ _ HR p r a Hp Hc) as (c & Ha & _ & <-). pose proof (ids_of_pos _ a c Ha). simpl in *. lia. }
      destruct (cr_unconfirmed_rec r) as [a|] eqn:Hu; [|done].
      destruct (ro_unconf _ _ _ _ _ HR p r a Hp Hu) as (c & Ha & _ & <- & _). pose proof (ids_of_pos _ a c Ha). simpl in *. lia.
    + rewrite lookup_delete_ne by done. destruct (ht_client_record w !! k) as [q|] eqn:Hq; [|done]. simpl.
      rewrite delete_insert_eq, lookup_delete_ne; [done|]. intros <-. apply Hne.
      destruct (ro_htr _ _ _ _ _ HR k p Hq) as (r0 & Hr0 & <-). congruence.
Qed.

(** * Taking and releasing references *)

Lemma wp_get_cid a c (Q : nfs_client_id_t -> cworld -> Prop) w :
  cw_ids w !! a = Some c -> Q c w -> wp (get_cid a) Q w.
Proof. intros Ha HQ. by apply (wp_deref (fun w => cw_ids w !! a) _ _ c Ha). Qed.

Lemma wp_get_rec p r (Q : nfs_client_record_t -> cworld -> Prop) w :
  cw_records w !! p = Some r -> Q r w -> wp (get_rec p) Q w.
Proof. intros Ha HQ. by apply (wp_deref (fun w => cw_records w !! p) _ _ r Ha). Qed.

Lemma wp_set_cid a c f (Q : unit -> cworld -> Prop) w :
  cw_ids w !! a = Some c -> Q tt (set_ids (<[a := f c]> (cw_ids w)) w) -> wp (set_cid a f) Q w.
Proof. intros Ha HQ. unfold set_cid. by apply wp_bind, (wp_get_cid a c), wp_modify. Qed.

Lemma wp_set_rec p r f (Q : unit -> cworld -> Prop) w :
  cw_records w !! p = Some r -> Q tt (upd_cw_records (<[p := f r]>) w) -> wp (set_rec p f) Q w.
Proof. intros Ha HQ. unfold set_rec. by apply wp_bind, (wp_get_rec p r), wp_modify. Qed.

Lemma held_id B X XR XS w a : cinv B X XR XS w -> a ∈ X -> exists c, cw_ids w !! a = Some c /\ a ∉ B.
Proof. intros HI Ha. destruct (rf_held _ _ _ (ci_refs _ _ _ _ _ HI) a Ha) as [HB [c Hc]]. by exists c. Qed.

Lemma held_rec B X XR XS w p : cinv B X XR XS w -> p ∈ XR -> exists r, cw_records w !! p = Some r.
Proof. intros HI Hp. apply (ro_held _ _ _ _ _ (ci_records _ _ _ _ _ HI) p Hp). Qed.

Lemma cinv_inc B X XR XS w a c :
  cinv B X XR XS w -> cw_ids w !! a = Some c -> a ∉ B ->
  cinv B (a :: X) XR XS (set_ids (<[a := with_cid_refcount (cid_refcount c + 1) c]> (cw_ids w)) w).
Proof.
  intros HI Ha HB. set (c' := with_cid_refcount _ c).
  pose proof (ci_refs _ _ _ _ _ HI) as HR. destruct (rf_refs _ _ _ HR a c Ha HB) as [Hneed Hpos].
  apply (cinv_alike B X (a :: X) XR XS w a c c'); try done.
  - by apply (rf_cb _ _ _ HR a c).
  - by apply (rf_owners _ _ _ HR a c).
  - intros b Hb. simpl. rewrite bool_decide_false by done. simpl. lia.
  - by intros b [->|]%elem_of_cons; [left|right].
  - simpl. rewrite bool_decide_true by done. change (needs c') with (needs c). simpl. lia.
  - simpl. lia.
Qed.

Lemma wp_inc_id_eq B X XR XS a c (Q : unit -> cworld -> Prop) w :
  cinv B X XR XS w -> cw_ids w !! a = Some c -> a ∉ B ->
  (forall w', cinv B (a :: X) XR XS w' -> quiet w w' -> cw_ids w' = <[a := with_cid_refcount (cid_refcount c + 1) c]> (cw_ids w) ->
     Q tt w') -> wp (inc_client_id_ref a) Q w.
Proof.
  intros HI Ha HB HQ. unfold inc_client_id_ref. apply (wp_set_cid a c); [done|]. apply HQ; [by apply cinv_inc|by apply (quiet_set_id w a c)|done].
Qed.

Lemma wp_inc_id B X XR XS a c (Q : unit -> cworld -> Prop) w :
  cinv B X XR XS w -> cw_ids w !! a = Some c -> a ∉ B ->
  (forall w', cinv B (a :: X) XR XS w' -> quiet w w' -> Q tt w') -> wp (inc_client_id_ref a) Q w.
Proof. intros HI Ha HB HQ. apply (wp_inc_id_eq B X XR XS a c); auto. Qed.

(** The end of a client id that nothing refers to. *)
Lemma cinv_free B B' X XR XS w a c r :
  cinv B X XR XS w -> cw_ids w !! a = Some c -> a ∉ X -> sessions_of c = [] -> without a B B' ->
  cid_confirmed c = EXPIRED_CLIENT_ID \/ (cid_confirmed c = UNCONFIRMED_CLIENT_ID /\ a ∈ B) ->
  cw_records w !! cid_client_record c = Some r ->
  let w' := set_ids (delete a (cw_ids w)) (drop_record (cid_client_record c) r w) in
  cinv B' X XR XS w' /\ quiet w w'.
Proof.
  intros HI Ha HX Hs HB Hst Hp w'. pose proof HI as [HT HR HRec HS HSq HA]. set (p := cid_client_record c) in *.
  pose proof (records_delete B B' XR _ _ _ a c HRec Ha HB Hst) as HRd. fold p in HRd.
  pose proof (records_drop B' XR _ _ _ p r HRd Hp) as HRd'. cbv zeta in HRd'.
  split.
  - unfold w', drop_record. destruct (0 <? _); (split; simpl; [by eapply tables_delete|by eapply refs_delete|done|by eapply sessions_delete|done|]).
    + destruct HA as [H1 H2 H3]. split; simpl; [|intros b [->|[_ Hb]]%lookup_insert_is_Some; [|by apply H2]|done].
      * intros b [d [_ Hd]%lookup_delete_Some]. apply H1. by eexists.
      * apply H2. by eexists.
    + destruct HA as [H1 H2 H3]. split; simpl; [| |done].
      * intros b [d [_ Hd]%lookup_delete_Some]. apply H1. by eexists.
      * intros b [d Hd]. rewrite delete_insert_eq in Hd. apply lookup_delete_Some in Hd as [_ Hd]. apply H2. by eexists.
  - set (w1 := set_ids (delete a (cw_ids w)) w). etrans; [apply (quiet_delete_id w a)|].
    + intros q r0 Hq. split; intros Heq.
      * destruct (ro_conf _ _ _ _ _ HRec q r0 a Hq Heq) as (d & Hd & Hds & _). assert (d = c) as -> by congruence.
        destruct Hst as [?|[? _]]; congruence.
      * destruct (ro_unconf _ _ _ _ _ HRec q r0 a Hq Heq) as (d & Hd & Hds & _ & HdB). assert (d = c) as -> by congruence.
        destruct Hst as [?|[_ ?]]; [congruence|done].
    + fold w1. replace w' with (drop_record p r w1) by (unfold w', drop_record; by destruct (0 <? _)).
      by apply (quiet_drop_record B' XR w1 p r).
Qed.

(** Neither sessions nor owners are touched. *)
Definition frame w w' : Prop :=
  cw_sessions w' = cw_sessions w /\ ht_session_id w' = ht_session_id w /\
  forall b d', cw_ids w' !! b = Some d' -> exists d, cw_ids w !! b = Some d /\ (cid_openowners d', cid_lockowners d') = (cid_openowners d, cid_lockowners d).

#[local] Instance frame_trans : Transitive frame.
Proof.
  intros w1 w2 w3 (S1 & H1 & K1) (S2 & H2 & K2). split_and!; [congruence..|]. intros b d3 H3.
  destruct (K2 b d3 H3) as (d2 & Hd2 & E2). destruct (K1 b d2 Hd2) as (d1 & Hd1 & E1). exists d1. split; congruence.
Qed.

(** Freeing a client id that has no sessions. *)
Lemma wp_free B B' X XR XS dec a c (Q : unit -> cworld -> Prop) w :
  cinv B X XR XS w -> cw_ids w !! a = Some c -> a ∉ X -> cid_refcount c = 0 -> sessions_of c = [] ->
  (0 < cid_minorversion c -> exists l, cid_cb c = cb_v41 l) -> without a B B' ->
  cid_confirmed c = EXPIRED_CLIENT_ID \/ (cid_confirmed c = UNCONFIRMED_CLIENT_ID /\ a ∈ B) ->
  (forall w', cinv B' X XR XS w' -> quiet w w' -> frame w w' -> Q tt w') -> wp (free_client_id dec a) Q w.
Proof.
  intros HI Ha HX Hz Hs Hcb HB Hst HQ. unfold free_client_id. apply wp_bind, (wp_get_cid a c); [done|]. rewrite Hz. simpl.
  destruct (ro_id _ _ _ _ _ (ci_records _ _ _ _ _ HI) a c Ha) as (r & Hp & _).
  pose proof (ro_key _ _ _ _ _ (ci_records _ _ _ _ _ HI) _ r Hp) as Hk.
  apply wp_bind, (wp_dec_record _ r); [done|done|].
  destruct (cinv_free B B' X XR XS w a c r) as [HI' HQ']; try done.
  assert (HS : frame w (set_ids (delete a (cw_ids w)) (drop_record (cid_client_record c) r w))).
  { unfold drop_record. destruct (0 <? _); (split_and!; [done..|]); intros b d Hd; simpl in Hd;
      apply lookup_delete_Some in Hd as [_ Hd]; by exists d. }
  assert (Hids : cw_ids (drop_record (cid_client_record c) r w) = cw_ids w) by (unfold drop_record; by destruct (0 <? _)).
  apply wp_bind, wp_when; intros Hv.
  - unfold session_list, sessions_of in *. apply Z.ltb_lt in Hv. destruct (Hcb Hv) as [l Hl]. rewrite Hl in Hs |- *. simpl in Hs. subst l.
    apply wp_bind, wp_ret, wp_ret, wp_modify. unfold set_ids in *. simpl. rewrite <- Hids in HI', HQ', HS. by apply HQ.
  - apply wp_modify. unfold set_ids in *. rewrite <- Hids in HI', HQ', HS. by apply HQ.
Qed.

(** The last reference on an expired client id goes. *)
Lemma cinv_dying B X XR XS w a c c' :
  cinv B (a :: X) XR XS w -> cw_ids w !! a = Some c -> a ∉ X -> alike c c' -> sessions_of c' = sessions_of c ->
  cid_confirmed c = EXPIRED_CLIENT_ID -> newborn c' -> cinv (a :: B) X XR XS (set_ids (<[a := c']> (cw_ids w)) w).
Proof.
  intros [HT HR HRec HS HSq HA] Ha HX HAl HSe He Hnew. pose proof HAl as (E1 & E2 & E3 & E4). split; simpl.
  - pose proof (tables_alike _ _ _ _ a c c' HT Ha HAl) as [Hc Hu Hi Hep]. split; [done| | |done].
    + intros k b Hk. destruct (Hu k b Hk) as (d & Hd & Hdk & Hds & HdB). exists d. split_and!; try done.
      intros [->|]%elem_of_cons; [|done]. rewrite lookup_insert_eq in Hd. congruence.
    + intros b d Hb HbB. apply Hi; [done|]. intros HB. apply HbB. by right.
  - destruct HR as [Hr Hh Hn Ho Hc]. split.
    + intros b d [[<- <-]|[Hne Hb]]%lookup_insert_Some HbB; [by destruct HbB; left|].
      destruct (Hr b d Hb) as [Hneed ?]; [intros HB; apply HbB; by right|]. simpl in Hneed. rewrite bool_decide_false in Hneed by done.
      simpl in Hneed. lia.
    + intros b Hb. destruct (Hh b) as [HB Hs]; [by right|]. rewrite lookup_insert_is_Some'. split; [|by right].
      intros [->|]%elem_of_cons; done.
    + intros b [->|Hb]%elem_of_cons; [rewrite lookup_insert_eq; by exists c'|].
      destruct (decide (a = b)) as [<-|Hne]; [rewrite lookup_insert_eq; by exists c'|]. rewrite lookup_insert_ne by done. by apply Hn.
    + intros b d [[<- <-]|[_ Hb]]%lookup_insert_Some; [|by eapply Ho]. rewrite (nb_owners _ Hnew). apply NoDup_nil_2.
    + intros b d [[<- <-]|[Hne Hb]]%lookup_insert_Some HbB; [by destruct HbB; left|].
      apply (Hc b); [done|]. intros HB. apply HbB. by right.
  - pose proof (records_alike _ _ _ _ _ a c c' HRec Ha HAl) as [Hi Hc Hu Hk Hh Hr Hx]. split; try done.
    + intros b d Hb. destruct (Hi b d Hb) as (r & Hp & H1 & H2 & H3). exists r. split_and!; try done.
      intros Hs HbB. apply H2; [done|]. intros HB. apply HbB. by right.
    + intros p r b Hp Hb. destruct (Hu p r b Hp Hb) as (d & Hd & Hds & Hdp & HdB). exists d. split_and!; try done.
      intros [->|]%elem_of_cons; [|done]. rewrite lookup_insert_eq in Hd. congruence.
  - by eapply sessions_alike.
  - done.
  - by eapply addresses_set.
Qed.

Lemma needs_nonneg c : 0 <= hashed c /\ hashed c <= needs c /\ Z.of_nat (length (sessions_of c)) <= needs c.
Proof. unfold needs, hashed. case_decide; lia. Qed.

Lemma wp_dec_id_at depth B X XR XS a (Q : unit -> cworld -> Prop) w :
  cinv B (a :: X) XR XS w -> (forall w', cinv B X XR XS w' -> quiet w w' -> frame w w' -> Q tt w') ->
  wp (dec_client_id_ref_at depth a) Q w.
Proof.
  intros HI HQ. destruct (held_id _ _ _ _ _ a HI) as (c & Ha & HB); [left|].
  pose proof (ci_refs _ _ _ _ _ HI) as HR. destruct (rf_refs _ _ _ HR a c Ha HB) as [Hneed Hpos].
  simpl in Hneed. rewrite bool_decide_true in Hneed by done. simpl in Hneed. pose proof (occ_nonneg a X).
  pose proof (rf_cb _ _ _ HR a c Ha HB) as Hcb. pose proof (rf_owners _ _ _ HR a c Ha) as Hnd.
  assert (Hle : forall b, b <> a -> occ b X <= occ b (a :: X)).
  { intros b Hb. simpl. rewrite bool_decide_false by done. simpl. lia. }
  pose proof (needs_nonneg c) as (Hh & Hhn & Hsn).
  assert (Hgo : wp (set_cid a (fun c => with_cid_refcount (cid_refcount c - 1) c);;
            c ← get_cid a;
            if 0 <? cid_refcount c then mret tt
            else if decide (cid_confirmed c = EXPIRED_CLIENT_ID)
            then free_client_id (match depth with O => fun _ => stuck | S depth => dec_client_id_ref_at depth end) a
            else fatal) Q w).
  2: { by destruct depth. }
  apply wp_bind, (wp_set_cid a c); [done|]. set (c' := with_cid_refcount (cid_refcount c - 1) c).
  apply wp_bind, (wp_get_cid a c'); [simpl; apply lookup_insert_eq|]. set (w1 := set_ids _ w).
  assert (Hf : frame w w1).
  { split_and!; [done..|]. intros b d Hb. simpl in Hb. apply lookup_insert_Some in Hb as [[<- <-]|[_ Hb]]; [by exists c|by exists d]. }
  destruct (Z.ltb_spec 0 (cid_refcount c')) as [Hp|Hz].
  - apply wp_ret, HQ; [|by apply (quiet_set_id w a c)|exact Hf].
    apply (cinv_alike B (a :: X) X XR XS w a c c'); try done.
    + by intros b Hb; right; right.
    + change (needs c') with (needs c). simpl in *. lia.
    + simpl in *. lia.
  - simpl in Hz. assert (Hr : cid_refcount c' = 0) by (simpl; lia).
    assert (He : cid_confirmed c' = EXPIRED_CLIENT_ID).
    { simpl. unfold hashed in *. case_decide; [done|lia]. }
    rewrite decide_True by done. assert (Hs : sessions_of c' = []).
    { change (sessions_of c') with (sessions_of c). apply length_zero_iff_nil. lia. }
    assert (HX : a ∉ X) by (intros Hin%occ_elem; lia). apply length_zero_iff_nil in Hs as Hs0.
    assert (Hown : owners_of c' = []).
    { change (owners_of c') with (owners_of c). apply length_zero_iff_nil. unfold needs in *. lia. }
    apply (wp_free (a :: B) B X XR XS _ a c').
    + apply (cinv_dying B X XR XS w a c c'); try done. split; try done. simpl in He. simpl. congruence.
    + apply lookup_insert_eq.
    + done.
    + done.
    + done.
    + intros Hv. unfold cb_ok in Hcb. simpl in *. destruct (cid_cb c); [done|lia|by eexists].
    + intros b. rewrite elem_of_cons. split; [|tauto]. intros Hb. split; [by right|]. by intros ->.
    + by left.
    + intros w' HI' HQ' HS'. apply HQ; [done| |by etrans]. etrans; [|done]. by apply (quiet_set_id w a c).
Qed.

Lemma wp_dec_id_frame B X XR XS a (Q : unit -> cworld -> Prop) w :
  cinv B (a :: X) XR XS w -> (forall w', cinv B X XR XS w' -> quiet w w' -> frame w w' -> Q tt w') ->
  wp (dec_client_id_ref a) Q w.
Proof. exact (wp_dec_id_at 1 B X XR XS a Q w). Qed.

Lemma wp_dec_id B X XR XS a (Q : unit -> cworld -> Prop) w :
  cinv B (a :: X) XR XS w -> (forall w', cinv B X XR XS w' -> quiet w w' -> Q tt w') -> wp (dec_client_id_ref a) Q w.
Proof. intros HI HQ. apply (wp_dec_id_frame B X XR XS); auto. Qed.

Lemma wp_inc_rec B X XR XS p r (Q : unit -> cworld -> Prop) w :
  cinv B X XR XS w -> cw_records w !! p = Some r ->
  (forall w', cinv B X (p :: XR) XS w' -> quiet w w' -> cw_ids w' = cw_ids w ->
     cw_records w' = <[p := with_cr_refcount (cr_refcount r + 1) r]> (cw_records w) -> Q tt w') -> wp (inc_client_record_ref p) Q w.
Proof.
  intros [HT HR HRec HS HSq HA] Hp HQ. unfold inc_client_record_ref. apply (wp_set_rec p r); [done|].
  destruct (ro_refs _ _ _ _ _ HRec p r Hp) as [Hneed Hpos]. apply HQ; [|split_and!; try done|done|done].
  - split; try done; simpl.
    + apply (records_count B XR); try done; [|by intros q [->|]%elem_of_cons; [left|right]|simpl; rewrite bool_decide_true by done; simpl; lia|lia].
      intros q Hq. simpl. rewrite bool_decide_false by done. simpl. lia.
    + destruct HA as [H1 H2 H3]. split; try done. simpl. intros b [->|[_ Hb]]%lookup_insert_is_Some; [|by apply H2]. apply H2. by eexists.
  - by apply keeps_same; [|apply (old_keys_insert w _ p r (with_cr_refcount (cr_refcount r + 1) r))|].
  - intros k. unfold view. simpl. destruct (ht_client_record w !! k) as [q|]; [|done]. simpl.
    destruct (decide (p = q)) as [<-|Hne]; [by rewrite lookup_insert_eq, Hp|by rewrite lookup_insert_ne].
Qed.

Lemma wp_dec_rec B X XR XS p (Q : unit -> cworld -> Prop) w :
  cinv B X (p :: XR) XS w -> (forall w', cinv B X XR XS w' -> quiet w w' -> Q tt w') -> wp (dec_client_record_ref p) Q w.
Proof.
  intros HI HQ. destruct (held_rec _ _ _ _ _ p HI) as [r Hp]; [left|]. destruct HI as [HT HR HRec HS HSq HA].
  pose proof (ro_key _ _ _ _ _ HRec p r Hp) as Hk. apply (wp_dec_record p r); [done|done|].
  apply HQ; [|by apply (quiet_drop_record B XR)].
  pose proof (records_drop B XR _ _ _ p r HRec Hp) as HRd. cbv zeta in HRd. unfold drop_record.
  destruct HA as [H1 H2 H3]. destruct (0 <? _); (split; try done; split; try done); simpl.
  - intros b [->|[_ Hb]]%lookup_insert_is_Some; [|by apply H2]. apply H2. by eexists.
  - intros b [d Hd]. rewrite delete_insert_eq in Hd. apply lookup_delete_Some in Hd as [_ Hd]. apply H2. by eexists.
Qed.

(** A client that is in a table is alive, and so is its record. *)
Lemma conf_live B X XR XS w k a :
  cinv B X XR XS w -> ht_confirmed_client_id w !! k = Some a ->
  exists c r, cw_ids w !! a = Some c /\ (a ∉ B) /\ cid_clientid c = k /\ cid_confirmed c = CONFIRMED_CLIENT_ID /\
    cw_records w !! cid_client_record c = Some r /\ cr_confirmed_rec r = Some a.
Proof.
  intros [HT HR HRec HS HSq HA] Hk. destruct (to_conf _ _ _ _ HT k a Hk) as (c & Hc & Hck & Hcs).
  destruct (ro_id _ _ _ _ _ HRec a c Hc) as (r & Hp & H1 & _). exists c, r. split_and!; auto.
  intros HB. destruct (rf_new _ _ _ HR a HB) as (d & Hd & [Hn _ _ _]). congruence.
Qed.

Lemma unconf_live B X XR XS w k a :
  cinv B X XR XS w -> ht_unconfirmed_client_id w !! k = Some a ->
  exists c r, cw_ids w !! a = Some c /\ (a ∉ B) /\ cid_clientid c = k /\ cid_confirmed c = UNCONFIRMED_CLIENT_ID /\
    cw_records w !! cid_client_record c = Some r /\ cr_unconfirmed_rec r = Some a.
Proof.
  intros [HT HR HRec HS HSq HA] Hk. destruct (to_unconf _ _ _ _ HT k a Hk) as (c & Hc & Hck & Hcs & HB).
  destruct (ro_id _ _ _ _ _ HRec a c Hc) as (r & Hp & _ & H2 & _). exists c, r. split_and!; auto.
Qed.

(** What the view of a client says of its record. *)
Lemma view_record B X XR XS w p r :
  cinv B X XR XS w -> cw_records w !! p = Some r ->
  view w (record_key_of r) =
    (cr_confirmed_rec r ≫= (fun a => aid_of <$> cw_ids w !! a), cr_unconfirmed_rec r ≫= (fun a => aid_of <$> cw_ids w !! a)).
Proof. intros HI Hp. unfold view. by rewrite (ro_key _ _ _ _ _ (ci_records _ _ _ _ _ HI) p r Hp); simpl; rewrite Hp. Qed.
End invariant.
