(* ===== verification/ClientStep.v ===== *)
(** The operations on client ids, client records and sessions (SAL/nfs4_clientid.c,
    nfs41_session_id.c) keep the invariant of the store: references, sessions and
    owners, the tables, expiry. *)

From S2P Require Import Prelude Status World Owner Client ClientInv.

Section steps.
Context {env : ClientEnv}.
Implicit Types (w : cworld) (ids : gmap loc nfs_client_id_t) (ss : gmap loc nfs41_session_t).

(** Client ids and client records do not change. *)
Lemma quiet_same w w' :
  cw_ids w' = cw_ids w -> cw_records w' = cw_records w -> ht_client_record w' = ht_client_record w ->
  environment w' = environment w -> (plenty w -> plenty w') -> (cw_next w <= cw_next w')%positive ->
  ht_confirmed_client_id w' = ht_confirmed_client_id w -> ht_unconfirmed_client_id w' = ht_unconfirmed_client_id w -> quiet w w'.
Proof.
  intros H1 H2 H3 H4 H5 H6 H7 H8. split_and!; [|intros k; unfold view; by rewrite H1, H2, H3|done|done].
  apply keeps_same; [done|by apply old_keys_same|]. intros k a _. by rewrite H7, H8.
Qed.

(** * Sessions *)

Lemma live_Some ss a x : live ss !! a = Some x <-> ss !! a = Some x /\ s_refcount x <> 0.
Proof. unfold live. apply map_lookup_filter_Some. Qed.

Lemma live_insert ss a x : s_refcount x <> 0 -> live (<[a := x]> ss) = <[a := x]> (live ss).
Proof. intros Hx. unfold live. by apply map_filter_insert_True. Qed.

Lemma live_insert_zero ss a x : s_refcount x = 0 -> live (<[a := x]> ss) = delete a (live ss).
Proof. intros Hx. unfold live. rewrite map_filter_insert_False, map_filter_delete; [done|]. simpl. tauto. Qed.

Lemma live_delete ss a : live (delete a ss) = delete a (live ss).
Proof. apply map_filter_delete. Qed.

(** A change of a session that stays the session of its client. *)
Lemma sessions_set XS XS' ids ss hts a x x' :
  sessions_ok XS ids ss hts -> ss !! a = Some x -> session_id x' = session_id x -> clientid_record x' = clientid_record x ->
  (forall b, b <> a -> occ b XS' <= occ b XS) -> (forall b, b ∈ XS' -> b = a \/ b ∈ XS) ->
  (if decide (hts !! session_id x = Some a) then 1 else 0) + occ a XS' <= s_refcount x' -> 1 <= s_refcount x' ->
  sessions_ok XS' ids (<[a := x']> ss) hts.
Proof.
  intros [Ho Hl Hn Hi Hh Hr Hx] Ha Hid Hrec Hle Hin Hneed Hpos.
  assert (Hlk : forall b y, <[a := x']> ss !! b = Some y ->
            exists z, ss !! b = Some z /\ session_id y = session_id z /\ clientid_record y = clientid_record z).
  { intros b y [[<- <-]|[_ Hb]]%lookup_insert_Some; [by exists x|by exists y]. }
  assert (Hlk' : forall b z, ss !! b = Some z -> exists y, <[a := x']> ss !! b = Some y /\
                   session_id y = session_id z /\ clientid_record y = clientid_record z).
  { intros b z Hb. destruct (decide (a = b)) as [<-|Hne].
    - exists x'. rewrite lookup_insert_eq. by replace z with x by congruence.
    - exists z. by rewrite lookup_insert_ne. }
  split; try done.
  - intros b y Hb. destruct (Hlk b y Hb) as (z & Hz & _ & ->). by apply (Ho b).
  - intros b c e Hb He. destruct (Hl b c e Hb He) as (z & Hz & <-). destruct (Hlk' e z Hz) as (y & Hy & _ & ?). by exists y.
  - intros b b' y y' Hb Hb' Heq. destruct (Hlk b y Hb) as (z & Hz & Ez & _). destruct (Hlk b' y' Hb') as (z' & Hz' & Ez' & _).
    apply (Hi b b' z z'); congruence.
  - intros k b Hk. destruct (Hh k b Hk) as (z & Hz & <-). destruct (Hlk' b z Hz) as (y & Hy & ? & _). by exists y.
  - intros b y [[<- <-]|[Hne Hb]]%lookup_insert_Some; [by rewrite Hid|]. destruct (Hr b y Hb).
    assert (occ b XS' <= occ b XS) by (by apply Hle). lia.
  - intros b Hb. rewrite lookup_insert_is_Some'. destruct (Hin b Hb) as [->|]; [by left|right; auto].
Qed.

(** A change of the reference count of a session. *)
Lemma sessions_count XS XS' ids ss hts a x n :
  sessions_ok XS ids ss hts -> ss !! a = Some x -> (forall b, b <> a -> occ b XS' <= occ b XS) ->
  (forall b, b ∈ XS' -> b = a \/ b ∈ XS) ->
  (if decide (hts !! session_id x = Some a) then 1 else 0) + occ a XS' <= n -> 1 <= n ->
  sessions_ok XS' ids (<[a := with_s_refcount n x]> ss) hts.
Proof. intros. by apply (sessions_set XS _ _ _ _ _ x). Qed.

(** A session leaves the table; its reference is then held by the operation. *)
Lemma sessions_unhash XS ids ss hts k a :
  sessions_ok XS ids ss hts -> hts !! k = Some a -> sessions_ok (a :: XS) ids ss (delete k hts).
Proof.
  intros [Ho Hl Hn Hi Hh Hr Hx] Hk. destruct (Hh k a Hk) as (x & Ha & Hid). split; try done.
  - intros k' b [_ Hb]%lookup_delete_Some. by apply Hh.
  - intros b y Hb. destruct (Hr b y Hb) as [Hneed ?]. split; [|done]. simpl. case_bool_decide as Hab; simpl.
    + subst b. assert (y = x) as -> by congruence. rewrite Hid, lookup_delete_eq, decide_False by done.
      rewrite Hid, decide_True in Hneed by done. lia.
    + destruct (decide (delete k hts !! session_id y = Some b)) as [[_ Hy]%lookup_delete_Some|]; [|case_decide; lia].
      rewrite decide_True in Hneed by done. lia.
  - intros b [->|Hb]%elem_of_cons; [by exists x|auto].
Qed.

(** The last reference on a session goes, and the session off the list of its client. *)
Lemma sessions_unlink XS ids ss hts a x c c' :
  sessions_ok (a :: XS) ids ss hts -> ss !! a = Some x -> s_refcount x <= 1 -> ids !! clientid_record x = Some c ->
  sessions_of c' = glist_del a (sessions_of c) ->
  sessions_ok XS (<[clientid_record x := c']> ids) (delete a ss) hts.
Proof.
  intros [Ho Hl Hn Hi Hh Hr Hx] Ha Hle Hc Hc'. destruct (Hr a x Ha) as [Hneed _]. simpl in Hneed.
  rewrite bool_decide_true in Hneed by done. simpl in Hneed. pose proof (occ_nonneg a XS).
  assert (HXS : a ∉ XS) by (intros Hin%occ_elem; destruct (decide _); lia). split.
  - intros b y [Hne Hb]%lookup_delete_Some. apply (live_ids _ ids (clientid_record x) c c'); [done| |by apply Ho].
    rewrite Hc', elem_of_glist_del. split; [auto|done].
  - intros b d e [[<- <-]|[Hne Hb]]%lookup_insert_Some He.
    + rewrite Hc' in He. apply elem_of_glist_del in He as [Hea He]. rewrite lookup_delete_ne by done. by apply (Hl _ c).
    + destruct (Hl b d e Hb He) as (y & Hy & Hyb). exists y. rewrite lookup_delete_ne; [done|]. intros ->. congruence.
  - intros b d [[<- <-]|[_ Hb]]%lookup_insert_Some; [|by eapply Hn]. rewrite Hc'. apply glist_del_nodup. by eapply Hn.
  - intros b b' y y' [_ Hb]%lookup_delete_Some [_ Hb']%lookup_delete_Some. by apply Hi.
  - intros k b Hk. destruct (Hh k b Hk) as (y & Hy & Hyk). exists y. rewrite lookup_delete_ne; [done|]. intros <-.
    assert (y = x) as -> by congruence. rewrite Hyk, decide_True in Hneed by done. lia.
  - intros b y [Hne Hb]%lookup_delete_Some. destruct (Hr b y Hb) as [Hb' ?]. simpl in Hb'.
    rewrite bool_decide_false in Hb' by done. simpl in Hb'. done.
  - intros b Hb. rewrite lookup_delete_ne by (by intros ->). apply Hx. by right.
Qed.

Lemma glist_del_length (a : loc) l : NoDup l -> a ∈ l -> Z.of_nat (length (glist_del a l)) = Z.of_nat (length l) - 1.
Proof.
  intros Hnd (l1 & l2 & ->)%list_elem_of_split. rewrite glist_del_middle by done. rewrite !length_app. simpl. lia.
Qed.

(** A client and its sessions change. *)
Lemma cinv_relink B X X' XR XS XS' w b c c' ss' :
  cinv B X XR XS w -> cw_ids w !! b = Some c -> b ∉ B -> alike c c' -> cb_ok c' -> owners_of c' = owners_of c ->
  (forall a, a <> b -> occ a X' <= occ a X) -> (forall a, a ∈ X' -> a = b \/ a ∈ X) ->
  needs c' + occ b X' <= cid_refcount c' -> 1 <= cid_refcount c' ->
  sessions_ok XS' (<[b := c']> (cw_ids w)) (live ss') (ht_session_id w) ->
  (forall a x, live ss' !! a = Some x -> (session_id x).2 <= global_sequence w) ->
  (forall a, is_Some (ss' !! a) -> (a < cw_next w)%positive) ->
  cinv B X' XR XS' (upd_cw_sessions (fun _ => ss') (set_ids (<[b := c']> (cw_ids w)) w)).
Proof.
  intros [HT HR HRec HS HSq HA] Hb HB HAl Hcb Hown Hle Hin Hneed Hpos HS' HSq' Had. split; simpl; try done.
  - by eapply tables_alike.
  - eapply refs_change; try done. rewrite Hown. by eapply (rf_owners _ _ _ HR b).
  - by eapply records_alike.
  - pose proof (addresses_set w b c c' HA Hb) as [H1 H2 H3]. by split.
Qed.

Lemma wp_get_sess a x (Q : nfs41_session_t -> cworld -> Prop) w :
  cw_sessions w !! a = Some x -> Q x w -> wp (get_sess a) Q w.
Proof. intros Ha HQ. by apply (wp_deref (fun w => cw_sessions w !! a) _ _ x Ha). Qed.

Lemma wp_set_sess a x f (Q : unit -> cworld -> Prop) w :
  cw_sessions w !! a = Some x -> Q tt (upd_cw_sessions (<[a := f x]>) w) -> wp (set_sess a f) Q w.
Proof. intros Ha HQ. unfold set_sess. by apply wp_bind, (wp_get_sess a x), wp_modify. Qed.

(** The part of the store that is not about sessions stays. *)
Lemma cinv_sessions B X XR XS XS' w ss' hts' :
  cinv B X XR XS w -> sessions_ok XS' (cw_ids w) (live ss') hts' ->
  (forall a x, live ss' !! a = Some x -> (session_id x).2 <= global_sequence w) ->
  (forall a, is_Some (ss' !! a) -> (a < cw_next w)%positive) ->
  cinv B X XR XS' (upd_ht_session_id (fun _ => hts') (upd_cw_sessions (fun _ => ss') w)).
Proof. intros [HT HR HRec HS HSq HA] HS' HSq' Had. split; simpl; try done. destruct HA as [H1 H2 H3]. by split. Qed.

Lemma sessions_addresses w a x :
  addresses_ok w -> is_Some (cw_sessions w !! a) -> forall b, is_Some (<[a := x]> (cw_sessions w) !! b) -> (b < cw_next w)%positive.
Proof. intros HA Ha b [->|[_ Hb]]%lookup_insert_is_Some; by apply (ad_sessions w). Qed.

Lemma held_session B X XR XS w a :
  cinv B X XR XS w -> a ∈ XS -> exists x, live (cw_sessions w) !! a = Some x /\ cw_sessions w !! a = Some x.
Proof.
  intros HI Ha. destruct (so_held _ _ _ _ (ci_sessions _ _ _ _ _ HI) a Ha) as [x Hx]. exists x. split; [done|].
  by apply live_Some in Hx as [? _].
Qed.

Lemma wp_inc_session B X XR XS a x (Q : unit -> cworld -> Prop) w :
  cinv B X XR XS w -> live (cw_sessions w) !! a = Some x ->
  (forall w', cinv B X XR (a :: XS) w' -> quiet w w' -> Q tt w') -> wp (inc_session_ref a) Q w.
Proof.
  intros HI Hx HQ. pose proof (proj1 (live_Some _ _ _) Hx) as [Ha Hz]. unfold inc_session_ref.
  apply (wp_set_sess a x); [done|]. destruct (so_refs _ _ _ _ (ci_sessions _ _ _ _ _ HI) a x Hx) as [Hneed Hpos].
  apply HQ; [|by apply quiet_same]. set (x' := with_s_refcount _ x).
  refine (cinv_sessions B X XR XS (a :: XS) w (<[a := x']> (cw_sessions w)) (ht_session_id w) HI _ _ _).
  - rewrite live_insert by (simpl; lia). apply (sessions_count XS); [apply HI|done| | |simpl; rewrite bool_decide_true by done; simpl; lia|lia].
    + intros b Hb. simpl. rewrite bool_decide_false by done. simpl. lia.
    + by intros b [->|]%elem_of_cons; [left|right].
  - rewrite live_insert by (simpl; lia). intros b y [[<- <-]|[_ Hb]]%lookup_insert_Some; [by apply (ci_sequence _ _ _ _ _ HI a x)|by apply (ci_sequence _ _ _ _ _ HI b)].
  - apply sessions_addresses; [apply HI|by eexists].
Qed.

Lemma wp_unlink_session b c l a (Q : unit -> cworld -> Prop) w :
  cw_ids w !! b = Some c -> cid_cb c = cb_v41 l ->
  Q tt (set_ids (<[b := with_cid_cb (cb_v41 (glist_del a l)) c]> (cw_ids w)) w) -> wp (unlink_session b a) Q w.
Proof. intros Hb Hl HQ. unfold unlink_session. apply wp_bind, (wp_get_cid b c); [done|]. rewrite Hl. by apply (wp_set_cid b c). Qed.

Lemma sessions_of_cb c a : a ∈ sessions_of c -> cid_cb c = cb_v41 (sessions_of c).
Proof. unfold sessions_of. destruct (cid_cb c); [by intros []%not_elem_of_nil..|done]. Qed.

(** Other sessions than [a] stay. *)
Definition other_sessions a w w' : Prop :=
  forall d, d <> a -> live (cw_sessions w') !! d = live (cw_sessions w) !! d.

(** The last reference on a session is released. *)
Lemma wp_drop_session B X XR XS a x (Q : unit -> cworld -> Prop) w :
  cinv B X XR (a :: XS) w -> live (cw_sessions w) !! a = Some x -> s_refcount x = 1 ->
  (forall w', cinv B X XR XS w' -> quiet w w' -> other_sessions a w w' -> Q tt w') ->
  wp (drop_session dec_client_id_ref a) Q (upd_cw_sessions (<[a := with_s_refcount 0 x]>) w).
Proof.
  intros HI Hx H1 HQ. pose proof (ci_sessions _ _ _ _ _ HI) as HS. set (x' := with_s_refcount 0 x).
  destruct (so_owner _ _ _ _ HS a x Hx) as (c & Hc & Hin). set (b := clientid_record x) in *.
  pose proof (sessions_of_cb c a Hin) as Hcb. set (l := sessions_of c) in *.
  assert (HB : b ∉ B).
  { intros HB. destruct (rf_new _ _ _ (ci_refs _ _ _ _ _ HI) b HB) as (d & Hd & [_ _ Hn _]).
    assert (d = c) as -> by congruence. fold l in Hn. rewrite Hn in Hin. by apply not_elem_of_nil in Hin. }
  destruct (rf_refs _ _ _ (ci_refs _ _ _ _ _ HI) b c Hc HB) as [Hneed Hpos].
  unfold drop_session. apply wp_bind, (wp_get_sess a x'); [simpl; apply lookup_insert_eq|].
  apply wp_bind, (wp_unlink_session b c l); [done|done|]. set (c' := with_cid_cb _ c). set (ss' := <[a := x']> (cw_sessions w)).
  assert (HI' : cinv B (b :: X) XR XS (upd_cw_sessions (fun _ => ss') (set_ids (<[b := c']> (cw_ids w)) w))).
  { apply (cinv_relink B X (b :: X) XR (a :: XS) XS w b c c' ss'); try done.
    - pose proof (rf_cb _ _ _ (ci_refs _ _ _ _ _ HI) b c Hc HB) as Hok. unfold cb_ok in *. rewrite Hcb in Hok. done.
    - intros d Hd. simpl. rewrite bool_decide_false by done. simpl. lia.
    - by intros d [->|]%elem_of_cons; [left|right].
    - simpl. rewrite bool_decide_true by done. unfold needs in *. change (hashed c') with (hashed c).
      change (owners_of c') with (owners_of c). change (sessions_of c') with (glist_del a l). fold l in Hneed.
      rewrite (glist_del_length a l) by (done || by eapply (so_nodup _ _ _ _ HS b)). simpl. lia.
    - unfold ss'. rewrite live_insert_zero by done. by apply (sessions_unlink XS _ _ _ a x c c'); [| |lia| |].
    - unfold ss'. rewrite live_insert_zero by done. intros d y [_ Hd]%lookup_delete_Some. by eapply (ci_sequence _ _ _ _ _ HI).
    - apply sessions_addresses; [apply HI|]. apply live_Some in Hx as [Hx _]. by eexists. }
  apply wp_bind. change (clientid_record x') with b. set (w1 := upd_cw_sessions _ (set_ids _ w)) in HI'.
  match goal with |- wp _ _ ?v => assert (v = w1) as -> by reflexivity end.
  apply (wp_dec_id_frame B X XR XS b _ w1); [done|]. intros w2 HI2 HQ2 (HS2 & HH2 & _). apply wp_modify, HQ.
  - assert (Hl2 : live (delete a (cw_sessions w2)) = live (cw_sessions w2)).
    { rewrite live_delete, HS2. simpl. unfold ss'. rewrite live_insert_zero by done. by rewrite delete_delete_eq. }
    refine (cinv_sessions B X XR XS XS w2 (delete a (cw_sessions w2)) (ht_session_id w2) HI2 _ _ _).
    + exact (eq_ind_r (fun ss => sessions_ok XS (cw_ids w2) ss (ht_session_id w2)) (ci_sessions _ _ _ _ _ HI2) Hl2).
    + intros d y Hd. apply (ci_sequence _ _ _ _ _ HI2 d). exact (eq_trans (f_equal (fun ss => ss !! d) (eq_sym Hl2)) Hd).
    + intros d [y [_ Hy]%lookup_delete_Some]. apply (ad_sessions w2); [apply HI2|by eexists].
  - etrans; [apply (quiet_set_id w b c c' Hc)|].
    { unfold ident, aid_of. simpl. by rewrite Hcb. }
    etrans; [|etrans; [exact HQ2|by apply quiet_same]]. by apply quiet_same.
  - intros d Hd. simpl. rewrite HS2, live_delete. simpl. unfold ss'. rewrite live_insert_zero by done.
    by rewrite delete_delete_eq, lookup_delete_ne.
Qed.

Lemma wp_dec_session B X XR XS a (Q : unit -> cworld -> Prop) w :
  cinv B X XR (a :: XS) w -> (forall w', cinv B X XR XS w' -> quiet w w' -> other_sessions a w w' -> Q tt w') ->
  wp (dec_session_ref a) Q w.
Proof.
  intros HI HQ. destruct (held_session _ _ _ _ _ a HI) as (x & Hx & Ha); [left|].
  destruct (so_refs _ _ _ _ (ci_sessions _ _ _ _ _ HI) a x Hx) as [Hneed Hpos]. simpl in Hneed.
  rewrite bool_decide_true in Hneed by done. simpl in Hneed. pose proof (occ_nonneg a XS).
  unfold dec_session_ref, dec_session_ref_with. apply wp_bind, (wp_set_sess a x); [done|]. set (x' := with_s_refcount _ x).
  apply wp_bind, (wp_get_sess a x'); [simpl; apply lookup_insert_eq|]. apply wp_when; intros Hz; simpl in Hz.
  - apply Z.eqb_eq in Hz. assert (Hx' : x' = with_s_refcount 0 x) by (unfold x'; f_equal; lia). rewrite Hx'.
    apply (wp_drop_session B X XR XS a x); [done|done|lia|done].
  - apply Z.eqb_neq in Hz. apply HQ; [|by apply quiet_same|intros d Hd; simpl; by rewrite live_insert, lookup_insert_ne by (done || simpl; lia)].
    refine (cinv_sessions B X XR (a :: XS) XS w (<[a := x']> (cw_sessions w)) (ht_session_id w) HI _ _ _).
    + rewrite live_insert by (simpl; lia). apply (sessions_count (a :: XS)); [apply HI|done| | |lia|lia].
      * intros b Hb. simpl. rewrite bool_decide_false by done. simpl. lia.
      * intros b Hb. right. by right.
    + rewrite live_insert by (simpl; lia). intros b y [[<- <-]|[_ Hb]]%lookup_insert_Some; [by apply (ci_sequence _ _ _ _ _ HI a x)|by apply (ci_sequence _ _ _ _ _ HI b)].
    + apply sessions_addresses; [apply HI|by eexists].
Qed.

(** A session leaves the table. *)
Lemma wp_unhash_session B X XR XS k a (Q : unit -> cworld -> Prop) w :
  cinv B X XR XS w -> ht_session_id w !! k = Some a ->
  (forall w', cinv B X XR XS w' -> quiet w w' -> other_sessions a w w' -> Q tt w') ->
  wp (dec_session_ref a) Q (upd_ht_session_id (delete k) w).
Proof.
  intros HI Hk HQ. apply (wp_dec_session B X XR XS).
  - refine (cinv_sessions B X XR XS (a :: XS) w (cw_sessions w) (delete k (ht_session_id w)) HI _ _ _); [|apply HI..].
    apply sessions_unhash; [apply HI|done].
  - intros w' HI' HQ' HO. apply HQ; [done| |done]. etrans; [|done]. by apply quiet_same.
Qed.

Lemma wp_Session_Del B X XR XS k (Q : bool -> cworld -> Prop) w :
  cinv B X XR XS w ->
  (forall w', cinv B X XR XS w' -> quiet w w' -> Q (bool_decide (is_Some (ht_session_id w !! k))) w') ->
  wp (nfs41_Session_Del k) Q w.
Proof.
  intros HI HQ. unfold nfs41_Session_Del, nfs41_Session_Del_with. apply wp_bind, wp_gets.
  destruct (ht_session_id w !! k) as [a|] eqn:Hk; [|by apply wp_ret, (HQ w)].
  apply wp_bind, wp_modify, wp_bind. apply (wp_unhash_session B X XR XS k a); [done|done|].
  intros w' HI' HQ' _. by apply wp_ret, (HQ w').
Qed.

(** The sessions of a client that expires go, one after the other. *)
Lemma wp_expire_sessions B X XR XS l (Q : unit -> cworld -> Prop) : forall w,
  cinv B X XR XS w -> NoDup l -> (forall a, a ∈ l -> is_Some (live (cw_sessions w) !! a)) ->
  (forall w', cinv B X XR XS w' -> quiet w w' -> Q tt w') -> wp (for_sessions l expire_session) Q w.
Proof.
  induction l as [|a l IH]; intros w HI Hnd Hl HQ; simpl; [by apply wp_ret, HQ|].
  apply NoDup_cons in Hnd as [Hal Hnd]. destruct (Hl a) as [x Hx]; [left|].
  pose proof (proj1 (live_Some _ _ _) Hx) as [Ha _]. apply wp_bind. unfold expire_session.
  apply wp_bind, (wp_get_sess a x); [done|]. apply wp_bind, wp_gets.
  assert (Hgo : forall w', cinv B X XR XS w' -> quiet w w' -> other_sessions a w w' -> wp (for_sessions l expire_session) Q w').
  { intros w' HI' HQ' HO. apply IH; [done|done| |].
    - intros d Hd. rewrite HO by (by intros ->). apply Hl. by right.
    - intros w2 HI2 HQ2. apply HQ; [done|]. by etrans. }
  destruct (ht_session_id w !! session_id x) as [b|] eqn:Hk; [|by apply wp_ret, Hgo].
  destruct (so_hts _ _ _ _ (ci_sessions _ _ _ _ _ HI) _ b Hk) as (y & Hy & Hid).
  assert (b = a) as -> by (by apply (so_ids _ _ _ _ (ci_sessions _ _ _ _ _ HI) b a y x)).
  apply wp_bind, wp_modify. by apply (wp_unhash_session B X XR XS (session_id x) a).
Qed.

(** * Owners *)

Lemma owners_glist_del c o :
  owners_of (with_cid_openowners (glist_del o (cid_openowners c)) (with_cid_lockowners (glist_del o (cid_lockowners c)) c))
  = glist_del o (owners_of c).
Proof. unfold owners_of. simpl. by rewrite glist_del_app. Qed.

Lemma wp_free_owner B X XR XS a c o (Q : unit -> cworld -> Prop) w :
  cinv B X XR XS w -> cw_ids w !! a = Some c -> a ∉ B -> o ∈ owners_of c ->
  (forall w', cinv B X XR XS w' -> quiet w w' ->
     (a ∈ X -> exists c', cw_ids w' !! a = Some c' /\ cid_openowners c' = glist_del o (cid_openowners c) /\
                  cid_lockowners c' = glist_del o (cid_lockowners c)) -> Q tt w') ->
  wp (free_nfs4_owner a o) Q w.
Proof.
  intros HI Ha HB Ho HQ. pose proof (ci_refs _ _ _ _ _ HI) as HR. destruct (rf_refs _ _ _ HR a c Ha HB) as [Hneed Hpos].
  pose proof (rf_owners _ _ _ HR a c Ha) as Hnd. unfold free_nfs4_owner. apply wp_bind, (wp_set_cid a c); [done|].
  set (c' := with_cid_openowners _ _). pose proof (owners_glist_del c o) as Hown. fold c' in Hown.
  set (w1 := set_ids _ w).
  assert (HI1 : cinv B (a :: X) XR XS w1).
  { apply (cinv_alike B X (a :: X) XR XS w a c c'); try done.
    - by apply (rf_cb _ _ _ HR a c).
    - rewrite Hown. by apply glist_del_nodup.
    - intros d Hd. simpl. rewrite bool_decide_false by done. simpl. lia.
    - by intros d [->|]%elem_of_cons; [left|right].
    - simpl. rewrite bool_decide_true by done. unfold needs in *. rewrite Hown.
      change (hashed c') with (hashed c). change (sessions_of c') with (sessions_of c).
      rewrite glist_del_length by done. simpl. lia. }
  apply (wp_dec_id_frame B X XR XS); [done|]. intros w2 HI2 HQ2 (_ & _ & HF). apply HQ; [done|etrans; [by apply (quiet_set_id w a c c')|done]|].
  intros HX. destruct (held_id _ _ _ _ _ a HI2 HX) as (d & Hd & _). destruct (HF a d Hd) as (d1 & Hd1 & Ed). exists d.
  split; [done|]. simpl in Hd1. rewrite lookup_insert_eq in Hd1. injection Hd1 as <-. by injection Ed as -> ->.
Qed.

(** The owners of a client that expires are let go. *)
Lemma wp_last_reference B X XR XS (Q : bool -> cworld -> Prop) w :
  cinv B X XR XS w -> (forall w' b, cinv B X XR XS w' -> quiet w w' -> cw_ids w' = cw_ids w -> Q b w') -> wp last_reference Q w.
Proof.
  intros HI HQ. unfold last_reference, wp. destruct (cw_last_refs w) as [|b bs]; [by apply HQ|].
  apply HQ; [|by apply quiet_same|done]. destruct HI as [HT HR HRec HS HSq HA]. split; try done. by destruct HA.
Qed.

Lemma wp_free_related B X XR XS a c o (Q : unit -> cworld -> Prop) w :
  cinv B X XR XS w -> a ∈ X -> cw_ids w !! a = Some c ->
  (forall w' c', cinv B X XR XS w' -> quiet w w' -> cw_ids w' !! a = Some c' -> cid_lockowners c' = cid_lockowners c -> Q tt w') ->
  wp (free_related_owner a o) Q w.
Proof.
  intros HI HX Ha HQ. unfold free_related_owner. destruct (so_related_owner o) as [o'|]; [|by eapply wp_ret, HQ].
  apply wp_bind, (wp_last_reference B X XR XS); [done|]. intros w1 b HI1 HQ1 Hids. rewrite <- Hids in Ha.
  apply wp_bind, (wp_get_cid a c); [done|]. apply wp_when; [intros [_ Ho]%andb_prop|intros _; by eapply HQ].
  apply bool_decide_eq_true in Ho. destruct (held_id _ _ _ _ _ a HI1 HX) as (? & _ & HB).
  apply (wp_free_owner B X XR XS a c o'); [done|done|done|unfold owners_of; rewrite elem_of_app; by left|].
  intros w2 HI2 HQ2 Hc. destruct (Hc HX) as (c2 & Ha2 & _ & Hl). eapply HQ; [done|by etrans|done|]. rewrite Hl. apply glist_del_notin.
  intros Hin. pose proof (rf_owners _ _ _ (ci_refs _ _ _ _ _ HI1) a c Ha) as (_ & Hd & _)%NoDup_app. by apply (Hd o').
Qed.

Lemma wp_release_lockowners B X XR XS a l (Q : unit -> cworld -> Prop) : forall w c,
  cinv B X XR XS w -> a ∈ X -> cw_ids w !! a = Some c -> NoDup l -> (forall o, o ∈ l -> o ∈ cid_lockowners c) ->
  (forall w', cinv B X XR XS w' -> quiet w w' -> Q tt w') -> wp (release_lockowners a l) Q w.
Proof.
  induction l as [|o l IH]; intros w c HI HX Ha Hnd Hl HQ; simpl; [by apply wp_ret, HQ|].
  apply NoDup_cons in Hnd as [Hol Hnd]. apply wp_bind, (wp_last_reference B X XR XS); [done|]. intros w1 b HI1 HQ1 Hids. rewrite <- Hids in Ha.
  apply wp_bind, wp_when; intros _.
  - apply wp_bind, (wp_free_related B X XR XS a c); [done|done|done|]. intros w2 c2 HI2 HQ2 Ha2 Hl2.
    destruct (held_id _ _ _ _ _ a HI2 HX) as (? & _ & HB).
    apply (wp_free_owner B X XR XS a c2 o); [done|done|done|unfold owners_of; rewrite elem_of_app, Hl2; right; apply Hl; left|].
    intros w3 HI3 HQ3 Hc. destruct (Hc HX) as (c3 & Ha3 & _ & Hl3). apply (IH w3 c3); [done|done|done|done| |].
    + intros o' Ho'. rewrite Hl3, Hl2, elem_of_glist_del. split; [by intros ->|]. apply Hl. by right.
    + intros w4 HI4 HQ4. apply HQ; [done|]. etrans; [done|]. etrans; [done|]. by etrans.
  - apply (IH w1 c); [done|done|done|done|intros o' Ho'; apply Hl; by right|]. intros w3 HI3 HQ3. apply HQ; [done|]. by etrans.
Qed.

(** * Out of a table *)

Definition cleared (confirmed : bool) (r : nfs_client_record_t) : nfs_client_record_t :=
  if confirmed then with_cr_confirmed_rec None r else with_cr_unconfirmed_rec None r.

Definition is_confirmed (c : nfs_client_id_t) : bool := bool_decide (cid_confirmed c = CONFIRMED_CLIENT_ID).

(** What a client id leaves in the store when it goes out of its table and off its
    record. *)
Definition detach (a : loc) (c : nfs_client_id_t) (r : nfs_client_record_t) w : cworld :=
  set_ids (<[a := with_cid_confirmed EXPIRED_CLIENT_ID c]> (cw_ids w))
    (upd_cw_records (<[cid_client_record c := cleared (is_confirmed c) r]>)
      ((if is_confirmed c then upd_ht_confirmed_client_id else upd_ht_unconfirmed_client_id)
         (delete (cid_clientid c)) w)).

(** A client id changes its table.  What the tables say of others stays. *)
Lemma tables_rehash B B' ids conf unconf conf' unconf' a c c' :
  tables_ok B ids conf unconf -> ids !! a = Some c -> cid_clientid c' = cid_clientid c ->
  (forall b, b <> a -> b ∈ B' <-> b ∈ B) -> (forall k b, b <> a -> conf' !! k = Some b <-> conf !! k = Some b) ->
  (forall k b, b <> a -> unconf' !! k = Some b <-> unconf !! k = Some b) ->
  (forall k, conf' !! k = Some a <-> k = cid_clientid c' /\ cid_confirmed c' = CONFIRMED_CLIENT_ID) ->
  (forall k, unconf' !! k = Some a <-> k = cid_clientid c' /\ cid_confirmed c' = UNCONFIRMED_CLIENT_ID /\ a ∉ B') ->
  tables_ok B' (<[a := c']> ids) conf' unconf'.
Proof.
  intros [Hc Hu Hi He] Ha Ek HB Hc1 Hu1 Hc2 Hu2. split.
  - intros k b Hk. destruct (decide (a = b)) as [<-|Hne].
    + apply Hc2 in Hk as [-> Hs]. exists c'. by rewrite lookup_insert_eq.
    + rewrite lookup_insert_ne by done. apply Hc. by apply Hc1.
  - intros k b Hk. destruct (decide (a = b)) as [<-|Hne].
    + apply Hu2 in Hk as (-> & Hs & ?). exists c'. by rewrite lookup_insert_eq.
    + rewrite lookup_insert_ne by done. destruct (Hu k b) as (d & Hd); [by apply Hu1|]. exists d. by rewrite HB.
  - intros b d [[<- <-]|[Hne Hb]]%lookup_insert_Some HbB.
    + destruct (cid_confirmed c') eqn:Hs; [by apply Hc2|by apply Hu2|done].
    + rewrite HB in HbB by done. specialize (Hi b d Hb HbB).
      destruct (cid_confirmed d); [by apply Hc1|by apply Hu1|done].
  - intros b d [[<- <-]|[_ Hb]]%lookup_insert_Some; [|by apply (He b)]. rewrite Ek. by apply (He a).
Qed.

(** A record changes what it says of one client id. *)
Definition repointed (a : loc) (c' : nfs_client_id_t) (B' : list loc) (r r' : nfs_client_record_t) : Prop :=
  record_key_of r' = record_key_of r /\ cr_refcount r' = cr_refcount r /\ cr_pnfs_flags r' = cr_pnfs_flags r /\
  (forall b, b <> a -> cr_confirmed_rec r' = Some b <-> cr_confirmed_rec r = Some b) /\
  (forall b, b <> a -> cr_unconfirmed_rec r' = Some b <-> cr_unconfirmed_rec r = Some b) /\
  (cr_confirmed_rec r' = Some a <-> cid_confirmed c' = CONFIRMED_CLIENT_ID) /\
  (cr_unconfirmed_rec r' = Some a <-> cid_confirmed c' = UNCONFIRMED_CLIENT_ID /\ a ∉ B').

Lemma records_repoint B B' XR ids recs htr a c c' r r' :
  records_ok B XR ids recs htr -> ids !! a = Some c -> recs !! cid_client_record c = Some r ->
  cid_client_record c' = cid_client_record c -> cid_minorversion c' = cid_minorversion c ->
  (forall b, b <> a -> b ∈ B' <-> b ∈ B) -> repointed a c' B' r r' ->
  records_ok B' XR (<[a := c']> ids) (<[cid_client_record c := r']> recs) htr.
Proof.
  intros [Hi Hc Hu Hk Hh Hr Hx] Ha Hp Ep Ev HB (Ek & En & Ef & Hoc & Hou & Hac & Hau). set (p := cid_client_record c) in *.
  split.
  - intros b d [[<- <-]|[Hba Hb]]%lookup_insert_Some.
    { destruct (Hi a c Ha) as (r0 & Hr0 & _ & _ & Hf). assert (r0 = r) as -> by (unfold p in *; congruence).
      exists r'. rewrite Ep, lookup_insert_eq, Ev, Ef. split_and!; [done|by apply Hac| |done]. intros. by apply Hau. }
    destruct (Hi b d Hb) as (r0 & Hr0 & H1 & H2 & H3). destruct (decide (p = cid_client_record d)) as [Hpd|Hpd].
    + rewrite <- Hpd in *. assert (r0 = r) as -> by congruence. exists r'. rewrite lookup_insert_eq, Ef, (HB b) by done.
      split_and!; try done; intros; [apply Hoc|apply Hou]; auto.
    + exists r0. rewrite lookup_insert_ne, (HB b) by done. done.
  - intros q r0 b Hq Hb. destruct (decide (a = b)) as [<-|Hne].
    + rewrite lookup_insert_eq. exists c'. split; [done|]. apply lookup_insert_Some in Hq as [[<- <-]|[Hqp Hq]]; [by apply Hac in Hb|].
      destruct (Hc q r0 a Hq Hb) as (d & Hd & _ & Hdq). unfold p in Hqp. congruence.
    + rewrite lookup_insert_ne by done. apply lookup_insert_Some in Hq as [[<- <-]|[Hqp Hq]]; [|by apply (Hc q r0)].
      apply (Hc p r); [done|]. by apply Hoc.
  - intros q r0 b Hq Hb. destruct (decide (a = b)) as [<-|Hne].
    + rewrite lookup_insert_eq. exists c'. split; [done|]. apply lookup_insert_Some in Hq as [[<- <-]|[Hqp Hq]].
      { apply Hau in Hb as [? ?]. done. }
      destruct (Hu q r0 a Hq Hb) as (d & Hd & _ & Hdq & _). unfold p in Hqp. congruence.
    + rewrite lookup_insert_ne by done. apply lookup_insert_Some in Hq as [[<- <-]|[Hqp Hq]].
      * destruct (Hu p r b) as (d & Hd); [done|by apply Hou|]. exists d. by rewrite HB.
      * destruct (Hu q r0 b) as (d & Hd); [done..|]. exists d. by rewrite HB.
  - intros q r0 [[<- <-]|[_ Hq]]%lookup_insert_Some; [|by apply Hk]. rewrite Ek. by apply Hk.
  - intros k q Hq. destruct (Hh k q Hq) as (r0 & Hr0 & Hk0). destruct (decide (p = q)) as [<-|Hpq].
    + exists r'. rewrite lookup_insert_eq, Ek. split; [done|congruence].
    + exists r0. by rewrite lookup_insert_ne.
  - intros q r0 Hq. rewrite (ids_of_insert _ _ c) by done. apply lookup_insert_Some in Hq as [[<- <-]|[_ Hq]]; [|by apply Hr].
    rewrite En. by apply Hr.
  - intros q Hq. rewrite lookup_insert_is_Some'. right. by apply Hx.
Qed.

(** The view of the client changes, that of others stays. *)
Definition upd_view (k : record_key) (v : option aid * option aid) (V : record_key -> option aid * option aid) (k' : record_key) :=
  if decide (k' = k) then v else V k'.

Lemma view_repoint B XR w w' a c c' p r r' :
  records_ok B XR (cw_ids w) (cw_records w) (ht_client_record w) -> cw_ids w !! a = Some c ->
  cid_client_record c = p -> cw_records w !! p = Some r ->
  record_key_of r' = record_key_of r -> cw_ids w' = <[a := c']> (cw_ids w) -> cw_records w' = <[p := r']> (cw_records w) ->
  ht_client_record w' = ht_client_record w -> forall k,
  view w' k = upd_view (record_key_of r)
                (cr_confirmed_rec r' ≫= (fun b => aid_of <$> <[a := c']> (cw_ids w) !! b),
                 cr_unconfirmed_rec r' ≫= (fun b => aid_of <$> <[a := c']> (cw_ids w) !! b)) (view w) k.
Proof.
  intros HRec Ha Hcp Hp Ek Ei Er Eh k. unfold upd_view, view. rewrite Ei, Er, Eh. case_decide as Hk.
  - subst k. rewrite (ro_key _ _ _ _ _ HRec p r Hp). simpl. by rewrite lookup_insert_eq.
  - destruct (ht_client_record w !! k) as [q|] eqn:Hq; [|done]. simpl.
    destruct (ro_htr _ _ _ _ _ HRec k q Hq) as (r0 & Hr0 & Hk0). rewrite lookup_insert_ne by (intros ->; congruence).
    rewrite Hr0. f_equal.
    + destruct (cr_confirmed_rec r0) as [b|] eqn:Hb; [|done]. simpl. destruct (ro_conf _ _ _ _ _ HRec q r0 b Hr0 Hb) as (d & Hd & _ & Hdq).
      rewrite lookup_insert_ne; [done|]. intros ->. assert (d = c) as -> by congruence. congruence.
    + destruct (cr_unconfirmed_rec r0) as [b|] eqn:Hb; [|done]. simpl. destruct (ro_unconf _ _ _ _ _ HRec q r0 b Hr0 Hb) as (d & Hd & _ & Hdq & _).
      rewrite lookup_insert_ne; [done|]. intros ->. assert (d = c) as -> by congruence. congruence.
Qed.

(** Client ids other than those of [S] stay, and the view becomes [V]. *)
Definition changes (S : list loc) (V : record_key -> option aid * option aid) w w' : Prop :=
  keeps S w w' /\ (forall k, view w' k = V k) /\ environment w' = environment w /\ (plenty w -> plenty w').

Lemma changes_quiet S V w1 w2 w3 : changes S V w1 w2 -> quiet w2 w3 -> changes S V w1 w3.
Proof.
  intros (K1 & V1 & E1 & N1) (K2 & V2 & E2 & N2). split_and!; [|by intros k; rewrite V2|congruence|auto].
  apply (keeps_trans S [] S w1 w2 w3); [|done|done]. by intros a [?|[]%not_elem_of_nil].
Qed.

Lemma quiet_changes S V w1 w2 w3 : quiet w1 w2 -> changes S V w2 w3 -> changes S V w1 w3.
Proof.
  intros (K1 & V1 & E1 & N1) (K2 & V2 & E2 & N2). split_and!; [|done|congruence|auto].
  apply (keeps_trans [] S S w1 w2 w3); [|done|done]. by intros a [[]%not_elem_of_nil|?].
Qed.

Lemma keeps_insert w w' a c : cw_ids w' = <[a := c]> (cw_ids w) -> old_keys w w' -> same_tables [a] w w' -> keeps [a] w w'.
Proof.
  intros E HK HT. split; [done|]. split; [done|]. intros b d Hb Hn. rewrite E in Hb. apply lookup_insert_Some in Hb as [[-> _]|[_ Hb]]; [by destruct Hn; left|by exists d].
Qed.

Lemma aids_insert ids a c c' b : ids !! a = Some c -> aid_of c' = aid_of c -> aid_of <$> <[a := c']> ids !! b = aid_of <$> ids !! b.
Proof. intros Ha E. destruct (decide (a = b)) as [<-|Hne]; [by rewrite lookup_insert_eq, Ha; simpl; rewrite E|by rewrite lookup_insert_ne]. Qed.

(** A client id with its references, its owners and its sessions as before enters or
    leaves a table; [B'] is the new [B]. *)
Lemma cinv_rehash B B' X X' XR XS w a c c' r r' conf' unconf' :
  cinv B X XR XS w -> cw_ids w !! a = Some c -> cw_records w !! cid_client_record c = Some r ->
  cid_client_record c' = cid_client_record c -> cid_minorversion c' = cid_minorversion c -> sessions_of c' = sessions_of c ->
  tables_ok B' (<[a := c']> (cw_ids w)) conf' unconf' -> refs_ok B' X' (<[a := c']> (cw_ids w)) ->
  (forall b, b <> a -> b ∈ B' <-> b ∈ B) -> repointed a c' B' r r' ->
  cinv B' X' XR XS
    (upd_ht_confirmed_client_id (fun _ => conf') (upd_ht_unconfirmed_client_id (fun _ => unconf')
      (upd_cw_records (<[cid_client_record c := r']>) (set_ids (<[a := c']> (cw_ids w)) w)))).
Proof.
  intros [HT HR HRec HS HSq HA] Ha Hp Ep Ev Es HT' HR' HB Hre. split; simpl; try done.
  - by eapply records_repoint.
  - by eapply sessions_alike.
  - pose proof (addresses_set w a c c' HA Ha) as [H1 H2 H3]. split; try done. simpl.
    intros b [<-|[_ Hb]]%lookup_insert_is_Some; [|by apply H2]. apply H2. by eexists.
Qed.

Lemma delete_others (t : gmap Z loc) k a k' b : t !! k = Some a -> b <> a -> delete k t !! k' = Some b <-> t !! k' = Some b.
Proof. intros Hk Hb. rewrite lookup_delete_Some. split; [tauto|]. intros Hk'. split; [|done]. intros ->. congruence. Qed.

Lemma cinv_detach B X XR XS w a c r :
  cinv B X XR XS w -> cw_ids w !! a = Some c -> a ∉ B -> cw_records w !! cid_client_record c = Some r ->
  cid_confirmed c <> EXPIRED_CLIENT_ID -> cinv B (a :: X) XR XS (detach a c r w).
Proof.
  intros HI Ha HB Hp Hne. pose proof HI as [HT HR HRec HS HSq HA]. set (c' := with_cid_confirmed EXPIRED_CLIENT_ID c).
  destruct (ro_id _ _ _ _ _ HRec a c Ha) as (r0 & Hr0 & H1 & H2 & _). assert (r0 = r) as -> by congruence.
  pose proof (to_ids _ _ _ _ HT a c Ha HB) as Hta.
  set (conf' := if is_confirmed c then delete (cid_clientid c) (ht_confirmed_client_id w) else ht_confirmed_client_id w).
  set (unconf' := if is_confirmed c then ht_unconfirmed_client_id w else delete (cid_clientid c) (ht_unconfirmed_client_id w)).
  assert (E : detach a c r w = upd_ht_confirmed_client_id (fun _ => conf') (upd_ht_unconfirmed_client_id (fun _ => unconf')
      (upd_cw_records (<[cid_client_record c := cleared (is_confirmed c) r]>) (set_ids (<[a := c']> (cw_ids w)) w)))).
  { unfold detach, conf', unconf'. by destruct (is_confirmed c). }
  rewrite E. apply (cinv_rehash B B X (a :: X) XR XS w a c c' r); try done.
  - apply (tables_rehash B B _ (ht_confirmed_client_id w) (ht_unconfirmed_client_id w) conf' unconf' a c c'); try done.
    + intros k b Hb. unfold conf', is_confirmed. case_bool_decide as Hs; [|done]. rewrite Hs in Hta. by apply (delete_others _ _ a).
    + intros k b Hb. unfold unconf', is_confirmed. case_bool_decide as Hs; [done|]. apply (delete_others _ _ a); [|done]. by destruct (cid_confirmed c).
    + intros k. split; [|by intros [_ ?]]. intros Hk. unfold conf', is_confirmed in Hk. case_bool_decide as Hs.
      * apply lookup_delete_Some in Hk as [Hck Hk]. destruct (to_conf _ _ _ _ HT k a Hk) as (d & Hd & ? & _). congruence.
      * destruct (to_conf _ _ _ _ HT k a Hk) as (d & Hd & ? & ?). congruence.
    + intros k. split; [|by intros (_ & ? & _)]. intros Hk. unfold unconf', is_confirmed in Hk. case_bool_decide as Hs.
      * destruct (to_unconf _ _ _ _ HT k a Hk) as (d & Hd & ? & ? & _). congruence.
      * apply lookup_delete_Some in Hk as [Hck Hk]. destruct (to_unconf _ _ _ _ HT k a Hk) as (d & Hd & ? & _). congruence.
  - destruct (rf_refs _ _ _ HR a c Ha HB) as [Hneed Hpos]. apply (refs_change B X (a :: X) _ a c c'); try done.
    + intros d Hd. simpl. rewrite bool_decide_false by done. simpl. lia.
    + by intros d [->|]%elem_of_cons; [left|right].
    + simpl. rewrite bool_decide_true by done. unfold needs, hashed in *. rewrite decide_False in Hneed by done.
      rewrite decide_True by done. change (owners_of c') with (owners_of c). change (sessions_of c') with (sessions_of c). simpl. lia.
    + by apply (rf_owners _ _ _ HR a c).
    + by apply (rf_cb _ _ _ HR a c).
  - unfold repointed, cleared, is_confirmed. assert (Hu : cid_confirmed c <> CONFIRMED_CLIENT_ID -> cr_unconfirmed_rec r = Some a).
    { intros Hs. apply H2; [by destruct (cid_confirmed c)|done]. }
    case_bool_decide as Hs; simpl; split_and!; try done.
    + intros b Hb. rewrite (H1 Hs). split; congruence.
    + split; [|by intros [? _]]. intros Hun. destruct (ro_unconf _ _ _ _ _ HRec _ r a Hp Hun) as (d & Hd & ? & _). congruence.
    + intros b Hb. rewrite (Hu Hs). split; congruence.
    + split; [|done]. intros Hun. destruct (ro_conf _ _ _ _ _ HRec _ r a Hp Hun) as (d & Hd & ? & _). congruence.
    + split; [done|by intros [? _]].
Qed.

(** What is left of the view of the client. *)
Definition erased (confirmed : bool) (v : option aid * option aid) : option aid * option aid :=
  if confirmed then (None, v.2) else (v.1, None).

Lemma changes_detach B X XR XS w a c r :
  cinv B X XR XS w -> cw_ids w !! a = Some c -> a ∉ B -> cw_records w !! cid_client_record c = Some r ->
  cid_confirmed c <> EXPIRED_CLIENT_ID ->
  changes [a] (upd_view (record_key_of r) (erased (is_confirmed c) (view w (record_key_of r))) (view w)) w (detach a c r w).
Proof.
  intros HI Ha HB Hp Hne. set (c' := with_cid_confirmed EXPIRED_CLIENT_ID c). split_and!.
  - apply (keeps_insert w _ a c'); [unfold detach; by destruct (is_confirmed c)| |].
    2: { pose proof (to_ids _ _ _ _ (ci_tables _ _ _ _ _ HI) a c Ha HB) as Ht. intros k b Hb%not_elem_of_cons. unfold detach, is_confirmed.
         destruct (cid_confirmed c); [| |done]; simpl; (split; [|done]) || (split; [done|]); apply (delete_others _ _ a); tauto. }
    apply (old_keys_insert w _ (cid_client_record c) r (cleared (is_confirmed c) r)); try done; unfold detach, cleared; by destruct (is_confirmed c).
  - intros k. rewrite (view_repoint B XR w (detach a c r w) a c c' _ r (cleared (is_confirmed c) r) (ci_records _ _ _ _ _ HI) Ha eq_refl Hp);
      try (unfold detach, cleared; by destruct (is_confirmed c)).
    unfold upd_view. case_decide; [|done]. rewrite (view_record B X XR XS w _ r HI Hp). unfold cleared, erased.
    destruct (is_confirmed c); simpl; f_equal.
    + destruct (cr_unconfirmed_rec r); simpl; [|done]. by apply (aids_insert _ a c c').
    + destruct (cr_confirmed_rec r); simpl; [|done]. by apply (aids_insert _ a c c').
  - unfold detach. by destruct (is_confirmed c).
  - unfold detach. by destruct (is_confirmed c).
Qed.

Lemma wp_remove_unconfirmed B X XR XS a c r (Q : bool -> cworld -> Prop) w :
  cinv B X XR XS w -> cw_ids w !! a = Some c -> a ∉ B -> cid_confirmed c = UNCONFIRMED_CLIENT_ID ->
  cw_records w !! cid_client_record c = Some r ->
  (forall w', cinv B X XR XS w' ->
     changes [a] (upd_view (record_key_of r) (erased false (view w (record_key_of r))) (view w)) w w' -> Q true w') ->
  wp (remove_unconfirmed_client_id a) Q w.
Proof.
  intros HI Ha HB Hs Hp HQ. pose proof (to_ids _ _ _ _ (ci_tables _ _ _ _ _ HI) a c Ha HB) as Ht. rewrite Hs in Ht.
  assert (Hn : is_confirmed c = false) by (unfold is_confirmed; rewrite Hs; done).
  pose proof (cinv_detach B X XR XS w a c r HI Ha HB Hp ltac:(congruence)) as HI1.
  pose proof (changes_detach B X XR XS w a c r HI Ha HB Hp ltac:(congruence)) as HC. rewrite Hn in HC.
  unfold remove_unconfirmed_client_id. apply wp_bind, (wp_get_cid a c); [done|]. apply wp_bind, wp_gets. rewrite Ht.
  apply wp_bind, wp_modify, wp_bind, (wp_set_rec _ r); [done|]. apply wp_bind, (wp_set_cid a c); [done|]. apply wp_bind.
  match goal with |- wp _ _ ?v => assert (v = detach a c r w) as -> by (unfold detach; by rewrite Hn) end.
  apply (wp_dec_id B X XR XS); [done|]. intros w' HI' HQ'. apply wp_ret, HQ; [done|]. by eapply changes_quiet.
Qed.

Lemma wp_remove_confirmed B X XR XS a c r (Q : bool -> cworld -> Prop) w :
  cinv B X XR XS w -> cw_ids w !! a = Some c -> a ∉ B -> cid_confirmed c = CONFIRMED_CLIENT_ID ->
  cw_records w !! cid_client_record c = Some r ->
  (forall w', cinv B X XR XS w' ->
     changes [a] (upd_view (record_key_of r) (erased true (view w (record_key_of r))) (view w)) w w' -> Q true w') ->
  wp (remove_confirmed_client_id a) Q w.
Proof.
  intros HI Ha HB Hs Hp HQ. pose proof (to_ids _ _ _ _ (ci_tables _ _ _ _ _ HI) a c Ha HB) as Ht. rewrite Hs in Ht.
  assert (Hn : is_confirmed c = true) by (unfold is_confirmed; rewrite Hs; done).
  pose proof (cinv_detach B X XR XS w a c r HI Ha HB Hp ltac:(congruence)) as HI1.
  pose proof (changes_detach B X XR XS w a c r HI Ha HB Hp ltac:(congruence)) as HC. rewrite Hn in HC.
  unfold remove_confirmed_client_id. apply wp_bind, (wp_get_cid a c); [done|]. apply wp_bind, wp_gets. rewrite Ht.
  apply wp_bind, wp_modify, wp_bind, (wp_set_rec _ r); [done|]. apply wp_bind, (wp_set_cid a c); [done|]. apply wp_bind.
  match goal with |- wp _ _ ?v => assert (v = detach a c r w) as -> by (unfold detach; by rewrite Hn) end.
  apply (wp_dec_id B X XR XS); [done|]. intros w' HI' HQ'. apply wp_ret, HQ; [done|]. by eapply changes_quiet.
Qed.

(** * Expiry *)

(** After the client id has left its table. *)
Definition expire_rest (clientid : loc) (lockowners : list loc) : M cworld bool :=
  release_lockowners clientid lockowners;;
  c ← get_cid clientid;
  when (0 <? cid_minorversion c) (l ← session_list c; for_sessions l expire_session);;
  dec_client_id_ref clientid;;
  mret true.

Lemma wp_expire_rest B X XR XS a c (Q : bool -> cworld -> Prop) w :
  cinv B (a :: X) XR XS w -> cw_ids w !! a = Some c -> (forall w', cinv B X XR XS w' -> quiet w w' -> Q true w') ->
  wp (expire_rest a (cid_lockowners c)) Q w.
Proof.
  intros HI Ha HQ. destruct (held_id _ _ _ _ _ a HI) as (_ & _ & HB); [left|]. unfold expire_rest.
  pose proof (rf_owners _ _ _ (ci_refs _ _ _ _ _ HI) a c Ha) as [_ [_ Hnd]]%NoDup_app. apply wp_bind.
  apply (wp_release_lockowners B (a :: X) XR XS a (cid_lockowners c) _ w c); [done|left|done|done|done|].
  intros w2 HI2 HQ2. destruct (held_id _ _ _ _ _ a HI2) as (c2 & Ha2 & _); [left|]. apply wp_bind, (wp_get_cid a c2); [done|].
  pose proof (rf_cb _ _ _ (ci_refs _ _ _ _ _ HI2) a c2 Ha2 HB) as Hcb.
  assert (Hgo : forall w3, cinv B (a :: X) XR XS w3 -> quiet w2 w3 -> wp (dec_client_id_ref a;; mret true) Q w3).
  { intros w3 HI3 HQ3. apply wp_bind, (wp_dec_id B X XR XS); [done|]. intros w4 HI4 HQ4. apply wp_ret, HQ; [done|].
    etrans; [done|]. by etrans. }
  apply wp_bind, wp_when; intros Hv; [|by apply Hgo]. unfold session_list. unfold cb_ok in Hcb. apply Z.ltb_lt in Hv.
  destruct (cid_cb c2) as [|cb|l] eqn:Hl; [done|lia|]. apply wp_bind, wp_ret. assert (Hl2 : sessions_of c2 = l) by (unfold sessions_of; by rewrite Hl).
  apply (wp_expire_sessions B (a :: X) XR XS l); [done| | |done].
  - rewrite <- Hl2. by apply (so_nodup _ _ _ _ (ci_sessions _ _ _ _ _ HI2) a).
  - intros s Hin. rewrite <- Hl2 in Hin. destruct (so_list _ _ _ _ (ci_sessions _ _ _ _ _ HI2) a c2 s Ha2 Hin) as (x & Hx & _). by exists x.
Qed.

Lemma wp_expire B X XR XS a c r (Q : bool -> cworld -> Prop) w :
  cinv B X XR XS w -> cw_ids w !! a = Some c -> a ∉ B -> cid_confirmed c <> EXPIRED_CLIENT_ID ->
  cw_records w !! cid_client_record c = Some r ->
  (forall w', cinv B X XR XS w' ->
     changes [a] (upd_view (record_key_of r) (erased (is_confirmed c) (view w (record_key_of r))) (view w)) w w' ->
     (forall c', cw_ids w' !! a = Some c' -> cid_confirmed c' = EXPIRED_CLIENT_ID) -> Q true w') ->
  wp (nfs_client_id_expire a) Q w.
Proof.
  intros HI Ha HB Hs Hp HQ. pose proof (to_ids _ _ _ _ (ci_tables _ _ _ _ _ HI) a c Ha HB) as Ht.
  pose proof (cinv_detach B X XR XS w a c r HI Ha HB Hp Hs) as HI1.
  pose proof (changes_detach B X XR XS w a c r HI Ha HB Hp ltac:(congruence)) as HC.
  pose proof (ci_records _ _ _ _ _ HI) as HRec. destruct (ro_id _ _ _ _ _ HRec a c Ha) as (r0 & Hr0 & H1 & H2 & _).
  assert (r0 = r) as -> by congruence.
  set (p := cid_client_record c) in *. fold p in HI1.
  assert (Hrest : forall v, v = detach a c r w -> wp (expire_rest a (cid_lockowners c)) Q v).
  { intros v ->. apply (wp_expire_rest B X XR XS a (with_cid_confirmed EXPIRED_CLIENT_ID c)); [done| |].
    - unfold detach. simpl. apply lookup_insert_eq.
    - intros w' HI' HQ'. apply HQ; [done|by eapply changes_quiet|]. intros c' Ha'. destruct HQ' as ((_ & _ & HK) & _).
      destruct (HK a c' Ha' (not_elem_of_nil _)) as (d & Hd & Hi). unfold detach in Hd. simpl in Hd. rewrite lookup_insert_eq in Hd.
      pose proof (f_equal (fun t => t.1.1.1.1.2) Hi) as Hs'. simpl in Hs'. rewrite Hs'. by injection Hd as <-. }
  assert (Hun : cid_confirmed c = CONFIRMED_CLIENT_ID -> bool_decide (cr_unconfirmed_rec r = Some a) = false).
  { intros Hc. apply bool_decide_false. intros Hun. destruct (ro_unconf _ _ _ _ _ HRec p r a Hp Hun) as (d & Hd & ? & _). congruence. }
  assert (Hcn : cid_confirmed c = UNCONFIRMED_CLIENT_ID -> bool_decide (cr_confirmed_rec r = Some a) = false).
  { intros Hc. apply bool_decide_false. intros Hun'. destruct (ro_conf _ _ _ _ _ HRec p r a Hp Hun') as (d & Hd & ? & _). congruence. }
  unfold nfs_client_id_expire. apply wp_bind, (wp_get_cid a c); [done|]. rewrite decide_False by done. fold (is_confirmed c). fold p.
  apply wp_bind, (wp_set_cid a c); [done|]. apply wp_bind, (wp_get_rec p r); [done|].
  unfold detach, is_confirmed in Hrest |- *. destruct (cid_confirmed c) eqn:Hc; [| |done].
  - rewrite (bool_decide_true (cr_confirmed_rec r = Some a)), (Hun eq_refl) by auto.
    apply wp_bind, (wp_set_rec p r); [done|]. apply wp_bind, wp_ret, wp_bind, wp_gets. simpl.
    rewrite Ht, decide_False by done. apply wp_bind, wp_modify, Hrest. done.
  - rewrite (bool_decide_true (cr_unconfirmed_rec r = Some a)), (Hcn eq_refl) by auto.
    apply wp_bind, wp_ret, wp_bind, (wp_set_rec p r); [done|]. apply wp_bind, wp_gets. simpl.
    rewrite Ht, decide_False by done. apply wp_bind, wp_modify, Hrest. done.
Qed.
End steps.
