(* ===== verification/ClientEnter.v ===== *)
(** Client ids and client records (SAL/nfs4_clientid.c) that are looked up, allocated,
    put into a table and confirmed: each operation keeps the invariant of the store
    and changes what clients see of it as it should. *)

From S2P Require Import Prelude Status World Owner Client ClientInv ClientStep.

Section enter.
Context {env : ClientEnv}.
Implicit Types (w : cworld) (ids : gmap loc nfs_client_id_t).

(** * Choices, counters, lookups *)

(** The tables and what they point to are the same. *)
Definition same_store w w' : Prop :=
  cw_ids w' = cw_ids w /\ cw_records w' = cw_records w /\ cw_sessions w' = cw_sessions w /\
  ht_confirmed_client_id w' = ht_confirmed_client_id w /\ ht_unconfirmed_client_id w' = ht_unconfirmed_client_id w /\
  ht_client_record w' = ht_client_record w /\ ht_session_id w' = ht_session_id w.

Lemma cinv_same B X XR XS w w' :
  cinv B X XR XS w -> same_store w w' -> (cw_next w <= cw_next w')%positive -> global_sequence w <= global_sequence w' ->
  cinv B X XR XS w'.
Proof.
  intros [HT HR HRec HS HSq [H1 H2 H3]] (E1 & E2 & E3 & E4 & E5 & E6 & E7) Hn Hg.
  split; [by rewrite E1, E4, E5|by rewrite E1|by rewrite E1, E2, E6|by rewrite E1, E3, E7| |].
  - intros a x. rewrite E3. intros Ha%HSq. lia.
  - split; intros a; [rewrite E1|rewrite E2|rewrite E3]; intros Ha; [specialize (H1 a Ha)|specialize (H2 a Ha)|specialize (H3 a Ha)]; lia.
Qed.

Lemma wp_cchoose (Q : bool -> cworld -> Prop) w :
  (forall w' b, same_store w w' -> environment w' = environment w -> cw_next w' = cw_next w -> (plenty w -> b = true /\ plenty w') ->
     Q b w') -> wp cchoose Q w.
Proof.
  intros HQ. unfold cchoose, wp. destruct (cw_choices w) as [|b bs] eqn:Hc; [by apply HQ|]. apply HQ; try done.
  unfold plenty. rewrite Hc. done.
Qed.

Lemma wp_cchoose_true (Q : bool -> cworld -> Prop) w :
  (forall bs, cw_choices w <> false :: bs) ->
  (forall w', same_store w w' -> environment w' = environment w -> cw_next w' = cw_next w -> (plenty w -> plenty w') -> Q true w') ->
  wp cchoose Q w.
Proof.
  intros Hne HQ. unfold cchoose, wp. destruct (cw_choices w) as [|[] bs] eqn:Hc; [by apply HQ| |by destruct (Hne bs)].
  apply HQ; try done. unfold plenty. by rewrite Hc.
Qed.

Lemma wp_cfresh (Q : loc -> cworld -> Prop) w : Q (cw_next w) (upd_cw_next Pos.succ w) -> wp cfresh Q w.
Proof. done. Qed.

Lemma wp_get_confirmed B X XR XS k (Q : _ -> cworld -> Prop) w :
  cinv B X XR XS w ->
  (Z.shiftr k 32 <> epoch_low -> Q (CLIENT_ID_STALE, None) w) ->
  (Z.shiftr k 32 = epoch_low -> ht_confirmed_client_id w !! k = None -> Q (CLIENT_ID_EXPIRED, None) w) ->
  (forall a w', ht_confirmed_client_id w !! k = Some a -> cinv B (a :: X) XR XS w' -> quiet w w' ->
     Q (CLIENT_ID_SUCCESS, Some a) w') ->
  wp (nfs_client_id_get_confirmed k) Q w.
Proof.
  intros HI H1 H2 H3. unfold nfs_client_id_get_confirmed, nfs_client_id_get.
  destruct (Z.eqb_spec (Z.shiftr k 32) epoch_low) as [He|He]; simpl; [|by apply wp_ret, H1]. apply wp_bind, wp_gets.
  destruct (ht_confirmed_client_id w !! k) as [a|] eqn:Hk; [|by apply wp_ret, H2].
  destruct (conf_live _ _ _ _ _ _ _ HI Hk) as (c & r & Ha & HB & _).
  apply wp_bind, (wp_inc_id B X XR XS a c); [done..|]. intros w' HI' HQ'. by apply wp_ret, H3.
Qed.

Lemma wp_get_unconfirmed B X XR XS k (Q : _ -> cworld -> Prop) w :
  cinv B X XR XS w ->
  (Z.shiftr k 32 <> epoch_low -> Q (CLIENT_ID_STALE, None) w) ->
  (Z.shiftr k 32 = epoch_low -> ht_unconfirmed_client_id w !! k = None -> Q (CLIENT_ID_EXPIRED, None) w) ->
  (forall a w', ht_unconfirmed_client_id w !! k = Some a -> cinv B (a :: X) XR XS w' -> quiet w w' ->
     Q (CLIENT_ID_SUCCESS, Some a) w') ->
  wp (nfs_client_id_get_unconfirmed k) Q w.
Proof.
  intros HI H1 H2 H3. unfold nfs_client_id_get_unconfirmed, nfs_client_id_get.
  destruct (Z.eqb_spec (Z.shiftr k 32) epoch_low) as [He|He]; simpl; [|by apply wp_ret, H1]. apply wp_bind, wp_gets.
  destruct (ht_unconfirmed_client_id w !! k) as [a|] eqn:Hk; [|by apply wp_ret, H2].
  destruct (unconf_live _ _ _ _ _ _ _ HI Hk) as (c & r & Ha & HB & _).
  apply wp_bind, (wp_inc_id B X XR XS a c); [done..|]. intros w' HI' HQ'. by apply wp_ret, H3.
Qed.

(** * Client records *)

(** A new record enters its table. *)
Lemma records_new B XR ids recs htr p r :
  records_ok B XR ids recs htr -> recs !! p = None -> htr !! record_key_of r = None -> cr_refcount r = 1 ->
  cr_confirmed_rec r = None -> cr_unconfirmed_rec r = None ->
  records_ok B (p :: XR) ids (<[p := r]> recs) (<[record_key_of r := p]> htr).
Proof.
  intros [Hi Hc Hu Hk Hh Hr Hx] Hp Hkn Hn Hco Hun.
  assert (Hold : forall q r0, recs !! q = Some r0 -> q <> p) by (intros q r0 Hq ->; congruence).
  split.
  - intros a c Ha. destruct (Hi a c Ha) as (r0 & Hr0 & Hrest). exists r0. rewrite lookup_insert_ne; [done|].
    intros Heq. by apply (Hold _ _ Hr0).
  - intros q r0 a [[<- <-]|[_ Hq]]%lookup_insert_Some; [congruence|by apply Hc].
  - intros q r0 a [[<- <-]|[_ Hq]]%lookup_insert_Some; [congruence|by apply Hu].
  - intros q r0 [[<- <-]|[_ Hq]]%lookup_insert_Some; [by rewrite lookup_insert_eq|].
    pose proof (Hk q r0 Hq) as Hkq. rewrite lookup_insert_ne; [done|]. congruence.
  - intros k q [[<- <-]|[_ Hq]]%lookup_insert_Some; [exists r; by rewrite lookup_insert_eq|].
    destruct (Hh k q Hq) as (r0 & Hr0 & Hk0). exists r0. rewrite lookup_insert_ne; [done|]. intros Heq. by apply (Hold _ _ Hr0).
  - intros q r0 [[<- <-]|[Hne Hq]]%lookup_insert_Some.
    + assert (Hids : ids_of ids p = 0).
      { unfold ids_of. destruct (decide (filter (fun x => cid_client_record x.2 = p) ids = ∅)) as [->|Hne];
          [done|]. apply map_choose in Hne as (a & c & [Ha Hcp]%map_lookup_filter_Some). simpl in Hcp.
        destruct (Hi a c Ha) as (r0 & Hr0 & _). rewrite Hcp in Hr0. congruence. }
      rewrite Hids, Hn. simpl. rewrite bool_decide_true by done.
      rewrite occ_notin; [simpl; lia|]. intros Hin. destruct (Hx p Hin). congruence.
    + simpl. rewrite bool_decide_false by done. simpl. by apply Hr.
  - intros q [->|Hq]%elem_of_cons; rewrite lookup_insert_is_Some'; [by left|right; auto].
Qed.

(** The record of a client that the tables do not have yet. *)
Lemma cinv_new_record B X XR XS w p val flags addr :
  cinv B X XR XS w -> ht_client_record w !! key_of val flags addr = None -> cw_records w !! p = None -> (p < cw_next w)%positive ->
  let r := mk_client_record 1 None None addr flags val in
  let w' := upd_ht_client_record (<[key_of val flags addr := p]>) (upd_cw_records (<[p := r]>) w) in
  cinv B X (p :: XR) XS w' /\ (forall w0, quiet w0 w -> (cw_next w0 <= p)%positive -> quiet w0 w').
Proof.
  intros [HT HR HRec HS HSq HA] Hk Hp Hn r w'.
  split; [split; try done; simpl|intros w0 ([[Hn0 HK0] HI0] & HV0 & HE0 & HP0) Hle; split_and!; try done].
  - exact (records_new B XR _ _ _ p r HRec Hp Hk eq_refl eq_refl eq_refl).
  - destruct HA as [H1 H2 H3]. split; simpl; try done. by intros a [<-|[_ Ha%H2]]%lookup_insert_is_Some.
  - split; [split; [done|]|done]. intros q r0 Hq Hlt. simpl in Hq. apply lookup_insert_Some in Hq as [[<- _]|[_ Hq]]; [lia|by apply HK0].
  - intros k. rewrite <- HV0. unfold view. simpl. destruct (decide (key_of val flags addr = k)) as [<-|Hne].
    + rewrite lookup_insert_eq, Hk. simpl. by rewrite lookup_insert_eq.
    + rewrite lookup_insert_ne by done. destruct (ht_client_record w !! k) as [q|] eqn:Hq; [|done]. simpl.
      destruct (ro_htr _ _ _ _ _ HRec k q Hq) as (r0 & Hr0 & _). rewrite lookup_insert_ne; [done|]. intros <-. congruence.
Qed.

Lemma fresh_record w : addresses_ok w -> cw_records w !! cw_next w = None.
Proof.
  intros HA. destruct (cw_records w !! cw_next w) eqn:Hp; [|done].
  assert (cw_next w < cw_next w)%positive by (apply (ad_records w HA); by eexists). lia.
Qed.

Lemma wp_get_client_record B X XR XS val flags addr (Q : option loc -> cworld -> Prop) w :
  cinv B X XR XS w -> get_client_record val flags addr w <> Fatal ->
  (forall w', ~ plenty w -> cinv B X XR XS w' -> quiet w w' -> Q None w') ->
  (forall p r w', cinv B X (p :: XR) XS w' -> quiet w w' -> cw_records w' !! p = Some r ->
     record_key_of r = key_of val flags addr -> cr_pnfs_flags r = flags -> Q (Some p) w') ->
  wp (get_client_record val flags addr) Q w.
Proof.
  intros HI HF H1 H2. set (k := key_of val flags addr) in *.
  assert (Hgo : forall w1, same_store w w1 -> environment w1 = environment w -> cw_next w1 = cw_next w -> (plenty w -> plenty w1) ->
    (ht_client_record w !! k = None -> forall bs, cw_choices w1 <> false :: bs) ->
    wp (record ← cfresh; ht ← gets ht_client_record;
        match ht !! k with
        | Some found => inc_client_record_ref found;; mret (Some found)
        | None => ok ← cchoose; if negb ok then fatal else
            modify (upd_cw_records (<[record := mk_client_record 1 None None addr flags val]>));;
            modify (upd_ht_client_record (<[k := record]>));; mret (Some record)
        end) Q w1).
  { intros w1 HSt HE Hn Hpl Hnf. assert (HI1 : cinv B X XR XS w1).
    { apply (cinv_same _ _ _ _ w); [done|done|lia|]. pose proof (f_equal (fun t => t.1.2) HE) as Hg. simpl in Hg. lia. }
    pose proof HSt as (E1 & E2 & E3 & E4 & E5 & E6 & E7). assert (HQ1 : quiet w w1) by (apply quiet_same; try done; simpl; lia).
    apply wp_bind, wp_cfresh, wp_bind, wp_gets. simpl.
    set (w2 := upd_cw_next Pos.succ w1). assert (HI2 : cinv B X XR XS w2) by (by apply (cinv_same _ _ _ _ w1); [| |simpl; lia|]).
    assert (HQ2 : quiet w w2) by (etrans; [done|apply quiet_same; try done; simpl; lia]).
    destruct (ht_client_record w1 !! k) as [p|] eqn:Hk.
    - destruct (ro_htr _ _ _ _ _ (ci_records _ _ _ _ _ HI1) k p Hk) as (r & Hp & Hkr).
      apply wp_bind, (wp_inc_rec B X XR XS p r); [done|done|]. intros w3 HI3 HQ3 _ Hr3.
      apply wp_ret, (H2 p (with_cr_refcount (cr_refcount r + 1) r)); [done|by etrans|by rewrite Hr3, lookup_insert_eq|done|].
      unfold k in Hkr. exact (f_equal snd Hkr).
    - rewrite E6 in Hk. specialize (Hnf Hk). apply wp_bind, wp_cchoose_true; [exact Hnf|]. intros w3 HSt3 HE3 Hn3 Hpl3. simpl.
      apply wp_bind, wp_modify, wp_bind, wp_modify, wp_ret. pose proof HSt3 as (F1 & F2 & F3 & F4 & F5 & F6 & F7).
      assert (HI3 : cinv B X XR XS w3).
      { apply (cinv_same _ _ _ _ w2); [done|done|lia|]. pose proof (f_equal (fun t => t.1.2) HE3) as Hg. simpl in Hg. simpl. lia. }
      destruct (cinv_new_record B X XR XS w3 (cw_next w1) val flags addr HI3) as [HI4 HQ4].
      { rewrite F6. simpl. by rewrite E6. }
      { rewrite F2. exact (fresh_record w1 (ci_addresses _ _ _ _ _ HI1)). }
      { rewrite Hn3. simpl. lia. }
      eapply (H2 _ _ _ HI4); [|simpl; apply lookup_insert_eq|done|done].
      apply HQ4; [|rewrite Hn; done]. etrans; [exact HQ2|]. apply quiet_same; try done. rewrite Hn3. done. }
  unfold get_client_record in HF |- *. fold k in HF |- *. apply wp_bind. unfold mbind, M_bind in HF.
  unfold cchoose, wp in HF |- *. destruct (cw_choices w) as [|[] bs] eqn:Hc; simpl in HF |- *.
  - apply Hgo; try done. intros _ bs. by rewrite Hc.
  - apply Hgo; try done; [unfold plenty; by rewrite Hc|]. intros Hk bs' Hbs. simpl in Hbs. apply HF. rewrite Hk, Hbs. done.
  - apply H1; [unfold plenty; by rewrite Hc| |].
    + by apply (cinv_same _ _ _ _ w).
    + apply quiet_same; try done. unfold plenty. by rewrite Hc.
Qed.

(** * New client ids *)

(** The client id with a number of the counter. *)
Definition numbered (n : Z) : Z := u64 (n + u64 (Z.shiftl epoch_low 32)).

Lemma epoch_low_range : 0 <= epoch_low < 2 ^ 32.
Proof. unfold epoch_low. change 0xFFFFFFFF with (Z.ones 32). rewrite Z.land_ones by lia. apply Z.mod_pos_bound. lia. Qed.

Lemma numbered_eq n : 0 <= n < 2 ^ 32 -> numbered n = n + epoch_low * 2 ^ 32.
Proof.
  intros Hn. pose proof epoch_low_range. unfold numbered. rewrite Z.shiftl_mul_pow2 by lia.
  unfold u64. rewrite (Z.mod_small (epoch_low * 2 ^ 32)) by lia. apply Z.mod_small. lia.
Qed.

Lemma numbered_epoch n : 0 <= n < 2 ^ 32 -> Z.shiftr (numbered n) 32 = epoch_low.
Proof.
  intros Hn. rewrite numbered_eq by done. rewrite Z.shiftr_div_pow2 by lia.
  rewrite Z.div_add by lia. rewrite Z.div_small by lia. lia.
Qed.

Definition next_number w : Z := u32 (clientid_counter w + 1).

Lemma wp_new_clientid (Q : Z -> cworld -> Prop) w :
  Q (numbered (next_number w)) (upd_clientid_counter (fun n => u32 (n + 1)) w) -> wp new_clientid Q w.
Proof. intros HQ. unfold new_clientid. apply wp_bind, wp_modify, wp_bind, wp_gets, wp_ret. exact HQ. Qed.

Lemma wp_new_clientid_verifier (Q : Z -> cworld -> Prop) w :
  Q (u64 (clientid_verifier w + 1)) (upd_clientid_verifier (fun n => u64 (n + 1)) w) -> wp new_clientid_verifier Q w.
Proof. intros HQ. unfold new_clientid_verifier. apply wp_bind, wp_modify, wp_gets. exact HQ. Qed.

Lemma tables_new B ids conf unconf a c :
  tables_ok B ids conf unconf -> ids !! a = None -> Z.shiftr (cid_clientid c) 32 = epoch_low ->
  tables_ok (a :: B) (<[a := c]> ids) conf unconf.
Proof.
  intros [Hc Hu Hi He] Ha Hep. split.
  - intros k b Hk. destruct (Hc k b Hk) as (d & Hd & ?). exists d. rewrite lookup_insert_ne; [done|]. congruence.
  - intros k b Hk. destruct (Hu k b Hk) as (d & Hd & ? & ? & HB). exists d. assert (b <> a) by congruence.
    rewrite lookup_insert_ne by done. split_and!; try done. by intros [?|?]%elem_of_cons.
  - intros b d [[<- <-]|[Hne Hb]]%lookup_insert_Some HbB; [by destruct HbB; left|]. apply Hi; [done|]. intros HB. apply HbB. by right.
  - intros b d [[<- <-]|[_ Hb]]%lookup_insert_Some; [done|by apply (He b)].
Qed.

Lemma refs_new B X ids a c : refs_ok B X ids -> ids !! a = None -> newborn c -> refs_ok (a :: B) X (<[a := c]> ids).
Proof.
  intros [Hr Hh Hn Ho Hc] Ha Hnew. split.
  - intros b d [[<- <-]|[Hne Hb]]%lookup_insert_Some HbB; [by destruct HbB; left|]. apply Hr; [done|]. intros HB. apply HbB. by right.
  - intros b Hb. destruct (Hh b Hb) as [HB Hs]. rewrite lookup_insert_is_Some'. split; [|by right].
    intros [->|]%elem_of_cons; [|done]. destruct Hs. congruence.
  - intros b [->|Hb]%elem_of_cons; [exists c; by rewrite lookup_insert_eq|]. destruct (Hn b Hb) as (d & Hd & ?).
    exists d. rewrite lookup_insert_ne; [done|]. congruence.
  - intros b d [[<- <-]|[_ Hb]]%lookup_insert_Some; [rewrite (nb_owners _ Hnew); apply NoDup_nil_2|by apply (Ho b)].
  - intros b d [[<- <-]|[Hne Hb]]%lookup_insert_Some HbB; [by destruct HbB; left|]. apply (Hc b); [done|]. intros HB. apply HbB. by right.
Qed.

Lemma records_born B XR ids recs htr a c r :
  records_ok B XR ids recs htr -> ids !! a = None -> recs !! cid_client_record c = Some r ->
  cid_confirmed c = UNCONFIRMED_CLIENT_ID -> (cid_minorversion c = 0 <-> cr_pnfs_flags r = 0) ->
  records_ok (a :: B) XR (<[a := c]> ids) (<[cid_client_record c := with_cr_refcount (cr_refcount r + 1) r]> recs) htr.
Proof.
  intros HR Ha Hp Hs Hv. set (p := cid_client_record c) in *. destruct (ro_refs _ _ _ _ _ HR p r Hp) as [Hneed Hpos].
  assert (HRB : records_ok B XR ids (<[p := with_cr_refcount (cr_refcount r + 1) r]> recs) htr).
  { apply (records_count B XR); try done; [auto|lia|lia]. }
  assert (Hp' : <[p := with_cr_refcount (cr_refcount r + 1) r]> recs !! p = Some (with_cr_refcount (cr_refcount r + 1) r)) by apply lookup_insert_eq.
  destruct HRB as [Hi Hc Hu Hk Hh Hr Hx]. split; try done.
  - intros b d [[<- <-]|[Hne Hb]]%lookup_insert_Some.
    + exists (with_cr_refcount (cr_refcount r + 1) r). fold p. rewrite Hp'. split_and!; [done|congruence| |done].
      intros _ HB. destruct HB. left.
    + destruct (Hi b d Hb) as (r0 & Hr0 & H1 & H2 & H3). exists r0. split_and!; try done. intros Hd HB. apply H2; [done|].
      intros HB'. apply HB. by right.
  - intros q r0 b Hq Hb. destruct (Hc q r0 b Hq Hb) as (d & Hd & ?). exists d. rewrite lookup_insert_ne; [done|]. congruence.
  - intros q r0 b Hq Hb. destruct (Hu q r0 b Hq Hb) as (d & Hd & ? & ? & HB). exists d. assert (b <> a) by congruence.
    rewrite lookup_insert_ne by done. split_and!; try done. by intros [?|?]%elem_of_cons.
  - intros q r0 Hq. rewrite ids_of_new by done. fold p. apply lookup_insert_Some in Hq as [[<- <-]|[Hne Hq]].
    + rewrite bool_decide_true by done. simpl. lia.
    + rewrite bool_decide_false by done. simpl. destruct (ro_refs _ _ _ _ _ HR q r0 Hq). lia.
Qed.

Lemma sessions_born XS ids ss hts a c :
  sessions_ok XS ids ss hts -> ids !! a = None -> sessions_of c = [] -> sessions_ok XS (<[a := c]> ids) ss hts.
Proof.
  intros [Ho Hl Hn Hi Hh Hr Hx] Ha Hs. split; try done.
  - intros b x Hb. destruct (Ho b x Hb) as (d & Hd & ?). exists d. rewrite lookup_insert_ne; [done|]. congruence.
  - intros b d e [[<- <-]|[_ Hb]]%lookup_insert_Some; [rewrite Hs; by intros []%not_elem_of_nil|by apply Hl].
  - intros b d [[<- <-]|[_ Hb]]%lookup_insert_Some; [rewrite Hs; apply NoDup_nil_2|by apply (Hn b)].
Qed.

(** A client id as it is allocated. *)
Definition fresh_client (id : Z) (p : loc) (addr : sockaddr_t) (cred : nfs_client_cred_t) (v t : Z) : nfs_client_id_t :=
  mk_client_id id 0 0 t UNCONFIRMED_CLIENT_ID cred addr p [] [] cb_zero false (mk_slot_cache zero_res false) 0 [] 0 0 v.

(** The numbers that the next client id gets and leaves. *)
Definition id_or_next (id : Z) w : Z := if id =? 0 then numbered (next_number w) else id.
Definition counter_after (id : Z) w : Z := if id =? 0 then next_number w else clientid_counter w.

(** [a] was allocated and is [c]; clients do not see it yet. *)
Record born (a : loc) (c : nfs_client_id_t) (n : Z) w w' : Prop := {
  bo_fresh : cw_ids w !! a = None;
  bo_ids : cw_ids w' = <[a := c]> (cw_ids w);
  bo_keys : old_keys w w';
  bo_tables : ht_confirmed_client_id w' = ht_confirmed_client_id w /\ ht_unconfirmed_client_id w' = ht_unconfirmed_client_id w;
  bo_view : forall k, view w' k = view w k;
  bo_env : environment w' = (n, clientid_verifier w, global_sequence w, cw_time w);
  bo_plenty : plenty w -> plenty w'
}.

Lemma view_born B XR w w' a c p r n :
  records_ok B XR (cw_ids w) (cw_records w) (ht_client_record w) -> cw_ids w !! a = None -> cw_records w !! p = Some r ->
  cw_ids w' = <[a := c]> (cw_ids w) -> cw_records w' = <[p := with_cr_refcount n r]> (cw_records w) ->
  ht_client_record w' = ht_client_record w -> forall k, view w' k = view w k.
Proof.
  intros HRec Ha Hp Ei Er Eh k. unfold view. rewrite Ei, Er, Eh. destruct (ht_client_record w !! k) as [q|] eqn:Hq; [|done]. simpl.
  destruct (ro_htr _ _ _ _ _ HRec k q Hq) as (r0 & Hr0 & _). rewrite Hr0.
  assert (Hlk : forall b, (cr_confirmed_rec r0 = Some b \/ cr_unconfirmed_rec r0 = Some b) -> <[a := c]> (cw_ids w) !! b = cw_ids w !! b).
  { intros b [Hb|Hb].
    - destruct (ro_conf _ _ _ _ _ HRec q r0 b Hr0 Hb) as (d & Hd & _). apply lookup_insert_ne. congruence.
    - destruct (ro_unconf _ _ _ _ _ HRec q r0 b Hr0 Hb) as (d & Hd & _). apply lookup_insert_ne. congruence. }
  assert (Hgo : (cr_confirmed_rec r0 ≫= (fun b => aid_of <$> <[a := c]> (cw_ids w) !! b), cr_unconfirmed_rec r0 ≫= (fun b => aid_of <$> <[a := c]> (cw_ids w) !! b))
     = (cr_confirmed_rec r0 ≫= (fun b => aid_of <$> cw_ids w !! b), cr_unconfirmed_rec r0 ≫= (fun b => aid_of <$> cw_ids w !! b))).
  { f_equal; [destruct (cr_confirmed_rec r0)|destruct (cr_unconfirmed_rec r0)]; simpl; try done; by rewrite Hlk by auto. }
  destruct (decide (p = q)) as [<-|Hne]; [|by rewrite lookup_insert_ne, Hr0]. rewrite lookup_insert_eq. simpl.
  assert (r0 = r) as -> by congruence. exact Hgo.
Qed.

Lemma counter_same w n : clientid_counter w = n -> upd_clientid_counter (fun _ => n) w = w.
Proof. intros <-. by destruct w. Qed.

Lemma wp_create_id B X XR XS id p r addr cred v (Q : option loc -> cworld -> Prop) w :
  cinv B X XR XS w -> cw_records w !! p = Some r -> (v = 0 <-> cr_pnfs_flags r = 0) ->
  (id <> 0 -> Z.shiftr id 32 = epoch_low) ->
  (forall w', ~ plenty w -> cinv B X XR XS w' -> quiet w w' -> Q None w') ->
  (forall a w', a ∉ B -> a ∉ X -> cinv (a :: B) X XR XS w' ->
     born a (fresh_client (id_or_next id w) p addr cred v (cw_time w)) (counter_after id w) w w' -> Q (Some a) w') ->
  wp (create_client_id id p addr cred v) Q w.
Proof.
  intros HI Hp Hv Hid H1 H2. unfold create_client_id. apply wp_bind, wp_cchoose. intros w1 b HSt HE Hn Hpl.
  pose proof (f_equal (fun t => t.1.2) HE) as Hg. pose proof HSt as (E1 & E2 & E3 & E4 & E5 & E6 & E7). simpl in Hg.
  assert (HI1 : cinv B X XR XS w1) by (apply (cinv_same _ _ _ _ w); [done|done|lia|lia]).
  destruct b; simpl; [|apply wp_ret, H1; [intros Hw; by destruct (Hpl Hw)|done|apply quiet_same; try done; [intros Hw; by destruct (Hpl Hw)|lia]]].
  apply wp_bind, wp_cfresh. set (a := cw_next w1).
  set (idw := fun w0 : cworld => upd_clientid_counter (fun _ => counter_after id w) w0).
  assert (Hnum : wp (if id =? 0 then new_clientid else mret id)
            (fun i w2 => i = id_or_next id w /\ w2 = idw (upd_cw_next Pos.succ w1)) (upd_cw_next Pos.succ w1)).
  { pose proof (f_equal (fun t => t.1.1.1) HE) as Hc. simpl in Hc. unfold idw, counter_after, id_or_next, next_number.
    destruct (id =? 0); [apply wp_new_clientid; rewrite <- Hc; by split|].
    apply wp_ret. split; [done|]. symmetry. by apply counter_same. }
  apply wp_bind. eapply wp_mono; [|exact Hnum]. intros i w2 [-> ->]. apply wp_bind, wp_gets, wp_bind, wp_modify, wp_bind.
  apply (wp_set_rec p r); [simpl; by rewrite E2|]. apply wp_ret.
  assert (Ht : cw_time (idw (upd_cw_next Pos.succ w1)) = cw_time w) by exact (f_equal (fun t => t.2) HE). rewrite Ht.
  set (c := mk_client_id _ _ _ _ _ _ _ _ _ _ _ _ _ _ _ _ _ _). change c with (fresh_client (id_or_next id w) p addr cred v (cw_time w)) in *.
  assert (Ha : cw_ids w !! a = None).
  { destruct (cw_ids w !! a) eqn:Ha; [|done]. assert (a < cw_next w)%positive by (apply (ad_ids w (ci_addresses _ _ _ _ _ HI)); by eexists).
    unfold a in *. rewrite Hn in *. lia. }
  pose proof HI as [HT HR HRec HS HSq HA]. apply (H2 a); [| |split|split]; simpl; rewrite ?E1, ?E2, ?E3, ?E4, ?E5, ?E6, ?E7; try done.
  - intros HB. destruct (rf_new _ _ _ HR a HB) as (d & Hd & _). congruence.
  - intros HX. destruct (rf_held _ _ _ HR a HX) as [_ [d Hd]]. congruence.
  - apply tables_new; [done|done|]. simpl. unfold id_or_next. destruct (Z.eqb_spec id 0); [|by apply Hid].
    apply numbered_epoch. unfold next_number. pose proof (u32_range (clientid_counter w + 1)) as Hr. unfold UINT32_MAX in Hr. lia.
  - by apply refs_new.
  - by apply (records_born B XR _ _ _ a (fresh_client (id_or_next id w) p addr cred v (cw_time w)) r).
  - by apply sessions_born.
  - rewrite Hg. done.
  - destruct HA as [A1 A2 A3]. split; simpl; rewrite ?E1, ?E2, ?E3; intros d; unfold a; rewrite Hn.
    + intros [<-|[_ Hd%A1]]%lookup_insert_is_Some; lia.
    + intros [<-|[_ Hd%A2]]%lookup_insert_is_Some; [|lia]. assert (p < cw_next w)%positive by (apply A2; by eexists). lia.
    + intros Hd%A3. lia.
  - apply (old_keys_insert w _ p r (with_cr_refcount (cr_refcount r + 1) r)); [simpl; by rewrite E2|done|done|simpl; rewrite Hn; lia].
  - apply (view_born B XR w _ a (fresh_client (id_or_next id w) p addr cred v (cw_time w)) p r (cr_refcount r + 1));
      simpl; rewrite ?E1, ?E2, ?E6; done.
  - pose proof (f_equal (fun t => t.1.1.2) HE) as Hv'. unfold environment. simpl in *. congruence.
  - intros Hw. by destruct (Hpl Hw).
Qed.

(** * Into the table of unconfirmed client ids *)

(** Nothing points to a client id of [B]. *)
Lemma unpointed B X XR XS w a : cinv B X XR XS w -> a ∈ B -> forall p r, cw_records w !! p = Some r ->
  cr_confirmed_rec r <> Some a /\ cr_unconfirmed_rec r <> Some a.
Proof.
  intros HI HB p r Hp. destruct (rf_new _ _ _ (ci_refs _ _ _ _ _ HI) a HB) as (c & Ha & [Hn _ _ _]). split; intros Heq.
  - destruct (ro_conf _ _ _ _ _ (ci_records _ _ _ _ _ HI) p r a Hp Heq) as (d & Hd & ? & _). congruence.
  - by destruct (ro_unconf _ _ _ _ _ (ci_records _ _ _ _ _ HI) p r a Hp Heq) as (d & Hd & _ & _ & HdB).
Qed.

Lemma view_unpointed w a c :
  (forall p r, cw_records w !! p = Some r -> cr_confirmed_rec r <> Some a /\ cr_unconfirmed_rec r <> Some a) ->
  forall k, view (set_ids (<[a := c]> (cw_ids w)) w) k = view w k.
Proof.
  intros Hno k. unfold view. simpl. destruct (ht_client_record w !! k ≫= _) as [r|] eqn:Hk; [|done].
  apply bind_Some in Hk as (p & _ & Hp). destruct (Hno p r Hp) as [H1 H2].
  f_equal; [destruct (cr_confirmed_rec r) as [b|]|destruct (cr_unconfirmed_rec r) as [b|]]; simpl; try done;
    rewrite lookup_insert_ne by congruence; done.
Qed.

Lemma cinv_set_born B X XR XS w a c c' :
  cinv B X XR XS w -> a ∈ B -> cw_ids w !! a = Some c -> newborn c' -> alike c c' ->
  cinv B X XR XS (set_ids (<[a := c']> (cw_ids w)) w).
Proof.
  intros [HT HR HRec HS HSq HA] HB Ha Hnew HAl. pose proof (rf_new _ _ _ HR a HB) as (d & Hd & Hnd).
  assert (d = c) as -> by congruence. split; simpl.
  - by eapply tables_alike.
  - destruct HR as [Hr Hh Hn Ho Hc]. split.
    + intros b d [[<- <-]|[Hne Hb]]%lookup_insert_Some HbB; [done|by apply Hr].
    + intros b Hb. rewrite lookup_insert_is_Some'. destruct (Hh b Hb). split; [done|by right].
    + intros b Hb. destruct (decide (a = b)) as [<-|Hne]; [exists c'; by rewrite lookup_insert_eq|]. rewrite lookup_insert_ne by done. by apply Hn.
    + intros b d [[<- <-]|[_ Hb]]%lookup_insert_Some; [rewrite (nb_owners _ Hnew); apply NoDup_nil_2|by apply (Ho b)].
    + intros b d [[<- <-]|[_ Hb]]%lookup_insert_Some HbB; [done|by apply (Hc b)].
  - by eapply records_alike.
  - eapply sessions_alike; [done|done|]. by rewrite (nb_sessions _ Hnew), (nb_sessions _ Hnd).
  - done.
  - by eapply addresses_set.
Qed.

Lemma wp_set_born B X XR XS a c f n (Q : unit -> cworld -> Prop) w w1 :
  cinv (a :: B) X XR XS w1 -> born a c n w w1 -> newborn (f c) -> alike c (f c) ->
  (forall w2, cinv (a :: B) X XR XS w2 -> born a (f c) n w w2 -> Q tt w2) -> wp (set_cid a f) Q w1.
Proof.
  intros HI [Hf Hi HK HT Hv He Hp] Hnew HAl HQ. assert (Ha : cw_ids w1 !! a = Some c) by (by rewrite Hi, lookup_insert_eq).
  apply (wp_set_cid a c); [done|]. apply HQ.
  - apply (cinv_set_born (a :: B) X XR XS w1 a c); [done|left|done..].
  - split; try done; [simpl; by rewrite Hi, insert_insert_eq|]. intros k. rewrite <- Hv. apply view_unpointed.
    apply (unpointed (a :: B) X XR XS); [done|left].
Qed.

(** As [changes], with a new value of the counter of client ids. *)
Definition becomes (S : list loc) (V : record_key -> option aid * option aid) (n : Z) w w' : Prop :=
  keeps S w w' /\ (forall k, view w' k = V k) /\
  environment w' = (n, clientid_verifier w, global_sequence w, cw_time w) /\ (plenty w -> plenty w').

Lemma becomes_quiet S V n w1 w2 w3 : becomes S V n w1 w2 -> quiet w2 w3 -> becomes S V n w1 w3.
Proof.
  intros (K1 & V1 & E1 & N1) (K2 & V2 & E2 & N2). split_and!; [|by intros k; rewrite V2|congruence|auto].
  apply (keeps_trans S [] S w1 w2 w3); [|done|done]. by intros a [?|[]%not_elem_of_nil].
Qed.

Lemma born_becomes a c n w w' : born a c n w w' -> becomes [a] (view w) n w w'.
Proof.
  intros [Hf Hi Hk [Hc Hu] Hv He Hp]. split_and!; try done. apply (keeps_insert w w' a c); [done|done|]. intros k b _. by rewrite Hc, Hu.
Qed.

(** The record of a client without an unconfirmed client id. *)
Lemma no_unconfirmed B X XR XS w p r :
  cinv B X XR XS w -> cw_records w !! p = Some r -> (view w (record_key_of r)).2 = None -> cr_unconfirmed_rec r = None.
Proof.
  intros HI Hp. rewrite (view_record _ _ _ _ _ _ _ HI Hp). simpl. destruct (cr_unconfirmed_rec r) as [b|] eqn:Hb; [|done].
  destruct (ro_unconf _ _ _ _ _ (ci_records _ _ _ _ _ HI) p r b Hp Hb) as (d & Hd & _). simpl. by rewrite Hd.
Qed.

Lemma no_confirmed B X XR XS w p r :
  cinv B X XR XS w -> cw_records w !! p = Some r -> (view w (record_key_of r)).1 = None -> cr_confirmed_rec r = None.
Proof.
  intros HI Hp. rewrite (view_record _ _ _ _ _ _ _ HI Hp). simpl. destruct (cr_confirmed_rec r) as [b|] eqn:Hb; [|done].
  destruct (ro_conf _ _ _ _ _ (ci_records _ _ _ _ _ HI) p r b Hp Hb) as (d & Hd & _). simpl. by rewrite Hd.
Qed.

Lemma insert_others (t : gmap Z loc) k a k' b : t !! k = None -> b <> a -> <[k := a]> t !! k' = Some b <-> t !! k' = Some b.
Proof. intros Hk Hb. rewrite lookup_insert_Some. split; [intros [[_ ->]|[_ ?]]; done|]. intros Hk'. right. split; [|done]. intros ->. congruence. Qed.

Lemma cinv_insert B X XR XS w a c r :
  cinv (a :: B) X XR XS w -> a ∉ B -> a ∉ X -> cw_ids w !! a = Some c -> cw_records w !! cid_client_record c = Some r ->
  cid_confirmed c = UNCONFIRMED_CLIENT_ID -> cb_ok c -> cr_unconfirmed_rec r = None ->
  ht_unconfirmed_client_id w !! cid_clientid c = None ->
  cinv B X XR XS
    (upd_ht_confirmed_client_id (fun _ => ht_confirmed_client_id w)
      (upd_ht_unconfirmed_client_id (fun _ => <[cid_clientid c := a]> (ht_unconfirmed_client_id w))
        (upd_cw_records (<[cid_client_record c := with_cr_unconfirmed_rec (Some a) r]>)
          (set_ids (<[a := with_cid_refcount 1 c]> (cw_ids w)) w)))).
Proof.
  intros HI HB HX Ha Hp Hs Hcb Hun Ht. pose proof HI as [HT HR HRec HS HSq HA]. set (c' := with_cid_refcount 1 c).
  destruct (rf_new _ _ _ HR a) as (d & Hd & [_ Hz Hse How]); [left|]. assert (d = c) as -> by congruence.
  assert (HBB : forall b, b <> a -> b ∈ B <-> b ∈ a :: B) by (intros b Hb; rewrite elem_of_cons; tauto).
  apply (cinv_rehash (a :: B) B X X XR XS w a c c' r); try done.
  - apply (tables_rehash (a :: B) B _ (ht_confirmed_client_id w) (ht_unconfirmed_client_id w) _ _ a c c'); try done.
    + intros k b Hb. by apply insert_others.
    + intros k. split; [|simpl; intros [_ ?]; congruence]. intros Hk. destruct (to_conf _ _ _ _ HT k a Hk) as (e & He & _ & ?). congruence.
    + intros k. simpl. rewrite lookup_insert_Some. split; [|intros (-> & _ & _); by left].
      intros [[<- _]|[_ Hk]]; [done|]. destruct (to_unconf _ _ _ _ HT k a Hk) as (e & _ & _ & _ & HaB). destruct HaB. left.
  - destruct HR as [Hr Hh Hn Ho Hc]. split.
    + intros b e [[<- <-]|[Hne Hb]]%lookup_insert_Some HbB; [|apply Hr; [done|by rewrite <- HBB]].
      unfold needs, hashed. change (owners_of c') with (owners_of c). change (sessions_of c') with (sessions_of c). rewrite Hse, How, occ_notin by done.
      simpl. rewrite decide_False by congruence. lia.
    + intros b Hb. destruct (Hh b Hb) as [HbB Hsb]. split; [|rewrite lookup_insert_is_Some'; by right]. intros HbB'. apply HbB. by right.
    + intros b Hb. destruct (Hn b) as (e & He & ?); [by right|]. exists e. rewrite lookup_insert_ne; [done|]. by intros ->.
    + intros b e [[<- <-]|[_ Hb]]%lookup_insert_Some; [|by apply (Ho b)]. change (owners_of c') with (owners_of c). rewrite How. apply NoDup_nil_2.
    + intros b e [[<- <-]|[Hne Hb]]%lookup_insert_Some HbB; [done|]. apply (Hc b); [done|by rewrite <- HBB].
  - unfold repointed. simpl. split_and!; try done.
    + intros b Hb. rewrite Hun. split; congruence.
    + split; [|congruence]. intros Hco. by destruct (unpointed _ _ _ _ _ a HI (list_elem_of_here _ _) _ r Hp) as [? _].
Qed.

Lemma wp_test_and_set table upd k a (Q : bool -> cworld -> Prop) w :
  (is_Some (table w !! k) -> Q false w) ->
  (forall w' b, table w !! k = None -> same_store w w' -> environment w' = environment w -> cw_next w' = cw_next w ->
     (plenty w -> b = true /\ plenty w') -> Q b (if b then upd (<[k := a]>) w' else w')) ->
  wp (test_and_set table upd k a) Q w.
Proof.
  intros H1 H2. unfold test_and_set. apply wp_bind, wp_gets. destruct (table w !! k) as [d|] eqn:Hk; [by apply wp_ret, H1|].
  apply wp_bind, wp_cchoose. intros w' b HSt HE Hn Hpl. specialize (H2 w' b eq_refl HSt HE Hn Hpl).
  apply wp_bind. destruct b; simpl; [apply wp_modify|]; by apply wp_ret.
Qed.

(** The view with an unconfirmed client id for the client [k]. *)
Definition with_unconfirmed (k : record_key) (u : option aid) (V : record_key -> option aid * option aid) :=
  upd_view k ((V k).1, u) V.

Lemma wp_insert B X XR XS a c r n (Q : clientid_status_t -> cworld -> Prop) w w1 :
  cinv (a :: B) X XR XS w1 -> born a c n w w1 -> a ∉ B -> a ∉ X -> newborn c -> cid_confirmed c = UNCONFIRMED_CLIENT_ID ->
  cb_ok c -> cw_records w1 !! cid_client_record c = Some r -> (view w (record_key_of r)).2 = None ->
  (forall w2, ~ plenty w \/ is_Some (ht_unconfirmed_client_id w1 !! cid_clientid c) -> cinv B X XR XS w2 ->
     becomes [a] (view w) n w w2 -> Q CLIENT_ID_INSERT_MALLOC_ERROR w2) ->
  (forall w2, cinv B X XR XS w2 -> becomes [a] (with_unconfirmed (record_key_of r) (Some (aid_of c)) (view w)) n w w2 ->
     ident <$> cw_ids w2 !! a = Some (ident c) -> Q CLIENT_ID_SUCCESS w2) ->
  wp (nfs_client_id_insert a) Q w1.
Proof.
  intros HI HBo HB HX Hnew Hs Hcb Hp Hv H1 H2. pose proof HBo as [Hf Hi HK [HTc HTu] Hview He Hpl].
  assert (Ha : cw_ids w1 !! a = Some c) by (by rewrite Hi, lookup_insert_eq).
  pose proof (no_unconfirmed _ _ _ _ _ _ _ HI Hp ltac:(by rewrite Hview)) as Hun.
  unfold nfs_client_id_insert. apply wp_bind, (wp_get_cid a c); [done|].
  assert (Hfail : forall v, cinv (a :: B) X XR XS v -> quiet w1 v -> cw_ids v = cw_ids w1 ->
     ~ plenty w \/ is_Some (ht_unconfirmed_client_id w1 !! cid_clientid c) ->
     wp (free_client_id dec_client_id_ref a;; mret CLIENT_ID_INSERT_MALLOC_ERROR) Q v).
  { intros v HIv HQv Hids Hwhy. apply wp_bind, (wp_free (a :: B) B X XR XS _ a c); try apply Hnew; try done.
    - by rewrite Hids.
    - intros Hmv. unfold cb_ok in Hcb. destruct (cid_cb c); [done|lia|by eexists].
    - intros b. rewrite elem_of_cons. split; [|tauto]. intros Hb. split; [by right|]. by intros ->.
    - right. split; [done|left].
    - intros w2 HI2 HQ2 _. apply wp_ret, H1; [done|done|]. eapply becomes_quiet; [eapply becomes_quiet|]; [by apply (born_becomes a c)|done|done]. }
  apply wp_bind, wp_test_and_set; [intros Hin; apply Hfail; [done|done|done|by right]|].
  intros w2 [] Ht HSt HE Hn Hpl2; simpl.
  - pose proof HSt as (E1 & E2 & E3 & E4 & E5 & E6 & E7).
    unfold inc_client_id_ref. apply wp_bind, (wp_set_cid a c); [simpl; by rewrite E1|].
    apply wp_bind, (wp_set_rec _ r); [simpl; by rewrite E2|]. apply wp_ret.
    assert (Hc1 : with_cid_refcount (cid_refcount c + 1) c = with_cid_refcount 1 c) by (by rewrite (nb_refs _ Hnew)). rewrite Hc1. clear Hc1.
    set (c' := with_cid_refcount 1 c). set (r' := with_cr_unconfirmed_rec (Some a) r).
    pose proof (cinv_insert B X XR XS w1 a c r HI HB HX Ha Hp Hs Hcb Hun Ht) as HI3.
    pose proof (f_equal (fun t => t.1.2) HE) as Hg. simpl in Hg. apply H2; [|split_and!|]; simpl.
    + eapply cinv_same; [exact HI3|by split_and!; simpl; rewrite ?E1, ?E2, ?E3, ?E4, ?E5, ?E6, ?E7|simpl; lia|simpl; lia].
    + apply (keeps_insert w _ a c'); [simpl; by rewrite E1, Hi, insert_insert_eq| |].
      2: { intros k b [Hb _]%not_elem_of_cons. simpl. rewrite E4, E5, HTc, <- HTu. split; [done|]. by apply insert_others. }
      eapply (old_keys_trans w w1); [done|]. apply (old_keys_insert w1 _ (cid_client_record c) r r'); [simpl; by rewrite E2|done|done|simpl; lia].
    + intros k. rewrite (view_repoint (a :: B) XR w1 _ a c c' (cid_client_record c) r r' (ci_records _ _ _ _ _ HI) Ha eq_refl Hp eq_refl);
        [|simpl; by rewrite ?E1, ?E2, ?E6..].
      unfold with_unconfirmed, upd_view. rewrite Hview. case_decide; [|done]. subst k. simpl. rewrite lookup_insert_eq. f_equal.
      rewrite <- Hview, (view_record _ _ _ _ _ _ _ HI Hp). simpl.
      destruct (cr_confirmed_rec r) as [b|]; simpl; [|done]. by apply (aids_insert _ a c).
    + transitivity (environment w2); [done|congruence].
    + intros Hw. apply Hpl2. by apply Hpl.
    + by rewrite lookup_insert_eq.
  - assert (Hnp : ~ plenty w) by (intros Hw; by destruct (Hpl2 (Hpl Hw))).
    pose proof HSt as (E1 & E2 & E3 & E4 & E5 & E6 & E7). pose proof (f_equal (fun t => t.1.2) HE) as Hg. simpl in Hg.
    apply Hfail; [|apply quiet_same; try done; [intros Hw; by destruct (Hpl2 Hw)|lia]|done|by left].
    apply (cinv_same _ _ _ _ w1); [done|done|lia|lia].
Qed.

(** * Into the table of confirmed client ids *)

Lemma cinv_confirm B X XR XS w a c r :
  cinv B X XR XS w -> a ∉ B -> cw_ids w !! a = Some c -> cw_records w !! cid_client_record c = Some r ->
  cid_confirmed c = UNCONFIRMED_CLIENT_ID -> cr_confirmed_rec r = None ->
  ht_confirmed_client_id w !! cid_clientid c = None ->
  cinv B X XR XS
    (upd_ht_confirmed_client_id (fun _ => <[cid_clientid c := a]> (ht_confirmed_client_id w))
      (upd_ht_unconfirmed_client_id (fun _ => delete (cid_clientid c) (ht_unconfirmed_client_id w))
        (upd_cw_records (<[cid_client_record c := with_cr_confirmed_rec (Some a) (with_cr_unconfirmed_rec None r)]>)
          (set_ids (<[a := with_cid_confirmed CONFIRMED_CLIENT_ID c]> (cw_ids w)) w)))).
Proof.
  intros HI HB Ha Hp Hs Hco Ht. pose proof HI as [HT HR HRec HS HSq HA]. set (c' := with_cid_confirmed CONFIRMED_CLIENT_ID c).
  pose proof (to_ids _ _ _ _ HT a c Ha HB) as Hta. rewrite Hs in Hta.
  destruct (ro_id _ _ _ _ _ HRec a c Ha) as (r0 & Hr0 & _ & Hun & _). assert (r0 = r) as -> by congruence.
  apply (cinv_rehash B B X X XR XS w a c c' r); try done.
  - apply (tables_rehash B B _ (ht_confirmed_client_id w) (ht_unconfirmed_client_id w) _ _ a c c'); try done.
    + intros k b Hb. by apply insert_others.
    + intros k b Hb. by apply (delete_others _ _ a).
    + intros k. simpl. rewrite lookup_insert_Some. split; [|intros [-> _]; by left].
      intros [[<- _]|[_ Hk]]; [done|]. destruct (to_conf _ _ _ _ HT k a Hk) as (e & He & _ & ?). congruence.
    + intros k. split; [|by intros (_ & ? & _)]. intros [Hne Hk]%lookup_delete_Some.
      destruct (to_unconf _ _ _ _ HT k a Hk) as (e & He & ? & _). congruence.
  - destruct (rf_refs _ _ _ HR a c Ha HB) as [Hneed Hpos]. apply (refs_change B X X _ a c c'); try done.
    + by right.
    + unfold needs, hashed in *. rewrite decide_False in Hneed by congruence. rewrite decide_False by (simpl; congruence).
      change (owners_of c') with (owners_of c). change (sessions_of c') with (sessions_of c). done.
    + by apply (rf_owners _ _ _ HR a c).
    + by apply (rf_cb _ _ _ HR a c).
  - unfold repointed. simpl. split_and!; try done.
    + intros b Hb. rewrite Hco. split; congruence.
    + intros b Hb. rewrite (Hun Hs HB). split; congruence.
    + split; [done|by intros [? _]].
Qed.

Lemma wp_confirm B X XR XS a c r (Q : clientid_status_t -> cworld -> Prop) w :
  cinv B X XR XS w -> a ∉ B -> cw_ids w !! a = Some c -> cw_records w !! cid_client_record c = Some r ->
  cid_confirmed c = UNCONFIRMED_CLIENT_ID -> (view w (record_key_of r)).1 = None ->
  (forall w', ~ plenty w \/ is_Some (ht_confirmed_client_id w !! cid_clientid c) -> cinv B X XR XS w' ->
     changes [a] (upd_view (record_key_of r) (None, None) (view w)) w w' -> Q CLIENT_ID_INSERT_MALLOC_ERROR w') ->
  (forall w', ht_confirmed_client_id w !! cid_clientid c = None -> cinv B X XR XS w' ->
     changes [a] (upd_view (record_key_of r) (Some (aid_of c), None) (view w)) w w' ->
     cw_ids w' = <[a := with_cid_confirmed CONFIRMED_CLIENT_ID c]> (cw_ids w) -> Q CLIENT_ID_SUCCESS w') ->
  wp (nfs_client_id_confirm a) Q w.
Proof.
  intros HI HB Ha Hp Hs Hv H1 H2. pose proof (no_confirmed _ _ _ _ _ _ _ HI Hp Hv) as Hco.
  pose proof (to_ids _ _ _ _ (ci_tables _ _ _ _ _ HI) a c Ha HB) as Hta. rewrite Hs in Hta.
  assert (Hn : is_confirmed c = false) by (unfold is_confirmed; rewrite Hs; done).
  pose proof (cinv_detach B X XR XS w a c r HI Ha HB Hp ltac:(congruence)) as HI1.
  pose proof (changes_detach B X XR XS w a c r HI Ha HB Hp ltac:(congruence)) as HC. rewrite Hn in HC. unfold erased in HC. rewrite Hv in HC.
  unfold nfs_client_id_confirm. apply wp_bind, (wp_get_cid a c); [done|]. apply wp_bind, (wp_set_rec _ r); [done|].
  apply wp_bind, wp_gets. simpl. rewrite Hta. apply wp_bind, wp_modify, wp_bind, (wp_set_cid a c); [done|].
  match goal with |- wp _ _ ?v => set (w1 := v) end.
  assert (Hfail : forall v, same_store w1 v -> environment v = environment w1 -> cw_next v = cw_next w1 -> (plenty w -> plenty v) ->
     ~ plenty w \/ is_Some (ht_confirmed_client_id w !! cid_clientid c) ->
     wp (set_cid a (with_cid_confirmed EXPIRED_CLIENT_ID);; dec_client_id_ref a;; mret CLIENT_ID_INSERT_MALLOC_ERROR) Q v).
  { intros v (E1 & E2 & E3 & E4 & E5 & E6 & E7) HE Hnx Hpl Hwhy. pose proof (f_equal (fun t => t.1.2) HE) as Hg. simpl in Hg.
    apply wp_bind, (wp_set_cid a (with_cid_confirmed CONFIRMED_CLIENT_ID c)); [rewrite E1; simpl; apply lookup_insert_eq|].
    assert (HSt : same_store (detach a c r w) (set_ids (<[a := with_cid_confirmed EXPIRED_CLIENT_ID (with_cid_confirmed CONFIRMED_CLIENT_ID c)]> (cw_ids v)) v)).
    { unfold detach. rewrite Hn. split_and!; simpl; rewrite ?E1, ?E2, ?E3, ?E4, ?E5, ?E6, ?E7; try done. simpl. by rewrite insert_insert_eq. }
    assert (HQd : quiet (detach a c r w) (set_ids (<[a := with_cid_confirmed EXPIRED_CLIENT_ID (with_cid_confirmed CONFIRMED_CLIENT_ID c)]> (cw_ids v)) v)).
    { destruct HSt as (F1 & F2 & _ & F4 & F5 & F6 & _). apply quiet_same; try done; unfold detach; rewrite Hn; [done|done|simpl; rewrite Hnx; done]. }
    apply wp_bind, (wp_dec_id B X XR XS).
    - apply (cinv_same _ _ _ _ (detach a c r w)); [done|done| |]; unfold detach; rewrite Hn; simpl; lia || (rewrite Hnx; simpl; lia).
    - intros w3 HI3 HQ3. apply wp_ret, H1; [done|done|]. eapply changes_quiet; [exact HC|]. by etrans. }
  apply wp_bind, wp_test_and_set; [intros Hin; apply Hfail; try done; by right|].
  intros w2 [] Ht HSt HE Hnx Hpl; simpl; [|apply Hfail; try done; [intros Hw; by destruct (Hpl Hw)|left; intros Hw; by destruct (Hpl Hw)]].
  pose proof HSt as (E1 & E2 & E3 & E4 & E5 & E6 & E7). pose proof (f_equal (fun t => t.1.2) HE) as Hg. simpl in Hg.
  apply wp_bind, (wp_set_rec _ (with_cr_unconfirmed_rec None r)); [simpl; rewrite E2; simpl; apply lookup_insert_eq|]. apply wp_ret.
  pose proof (cinv_confirm B X XR XS w a c r HI HB Ha Hp Hs Hco Ht) as HI2.
  assert (Hids : cw_ids w2 = <[a := with_cid_confirmed CONFIRMED_CLIENT_ID c]> (cw_ids w)) by done.
  assert (Hrecs : <[cid_client_record c := with_cr_confirmed_rec (Some a) (with_cr_unconfirmed_rec None r)]> (cw_records w2)
                  = <[cid_client_record c := with_cr_confirmed_rec (Some a) (with_cr_unconfirmed_rec None r)]> (cw_records w)).
  { rewrite E2. simpl. by rewrite insert_insert_eq. }
  apply H2; [done| |split_and!|]; simpl.
  - eapply cinv_same; [exact HI2| | |]; [split_and!; simpl; rewrite ?Hids, ?Hrecs, ?E3, ?E4, ?E5, ?E6, ?E7; try done|simpl; rewrite Hnx; simpl; lia|simpl; lia].
  - apply (keeps_insert w _ a (with_cid_confirmed CONFIRMED_CLIENT_ID c)); [done| |].
    2: { intros k b [Hb _]%not_elem_of_cons. simpl. rewrite E4, E5. simpl. split; [by apply insert_others|by apply (delete_others _ _ a)]. }
    apply (old_keys_insert w _ (cid_client_record c) r (with_cr_confirmed_rec (Some a) (with_cr_unconfirmed_rec None r))); [done|done|done|].
    simpl. rewrite Hnx. done.
  - intros k. rewrite (view_repoint B XR w _ a c (with_cid_confirmed CONFIRMED_CLIENT_ID c) (cid_client_record c) r
      (with_cr_confirmed_rec (Some a) (with_cr_unconfirmed_rec None r)) (ci_records _ _ _ _ _ HI) Ha eq_refl Hp eq_refl); [|done|done|done].
    unfold upd_view. case_decide; [|done]. simpl. by rewrite lookup_insert_eq.
  - exact HE.
  - intros Hw. by destruct (Hpl Hw).
  - done.
Qed.
End enter.
