(* ===== verification/ClientOps.v ===== *)
(** The operations of NFSv4 on clients and sessions (Protocols/NFS: nfs4_op_setclientid.c,
    nfs4_op_setclientid_confirm.c, nfs4_op_renew.c, nfs4_op_exchange_id.c,
    nfs4_op_create_session.c, nfs4_op_destroy_session.c, nfs4_op_destroy_clientid.c) and
    the reaper (MainNFSD/nfs_reaper_thread.c). *)

From stdpp Require Import sorting.
From S2P Require Import Prelude Status World Owner Client.

(** The part of [compound_data_t] that these operations use: the minor version, the
    credentials, the addresses of the client and of the server side of its
    connection, and the position of the operation in the compound. *)
Record compound_data : Set := mk_data {
  minorversion : Z;
  credential : nfs_client_cred_t;
  xprt_addr : sockaddr_t;
  server_raddr : Z;
  oppos : Z
}.

Section ops.
Context {env : ClientEnv}.
Abbreviation M := (M cworld).

(** * SETCLIENTID *)

Record SETCLIENTID4args : Set := mk_setclientid {
  sa_id : list Z;
  sa_verifier : Z;
  sa_cb_program : Z;
  sa_cb_location : clientaddr4;
  sa_callback_ident : Z
}.

(** The client id and the verifier for the confirmation, or who uses the id. *)
Inductive SETCLIENTID4res : Set :=
| setclientid_ok (clientid confirm : Z)
| setclientid_inuse (client_using : clientaddr4)
| setclientid_error (status : nfsstat4).

(** The principal of a record is that of the request. *)
Definition same_principal (c : nfs_client_id_t) (data : compound_data) : bool :=
  nfs_compare_clientcred (cid_credential c) (credential data)
  && cmp_sockaddr (cid_client_addr c) (xprt_addr data) true.

(** The address that is reported for a client id in use, read from the union; the copy
    of the string is taken to succeed. *)
Definition client_using (c : nfs_client_id_t) : M clientaddr4 :=
  match cid_cb c with
  | cb_v40 cb => mret (mk_clientaddr (netid_of (cb_nc cb)) (cb_client_r_addr cb))
  | _ => undef
  end.

(** From the removal of an unconfirmed record on. *)
Definition setclientid_new (arg : SETCLIENTID4args) (data : compound_data) (client_record : loc)
    (clientid verifier : Z) : M SETCLIENTID4res :=
  r ← get_rec client_record;
  match cr_unconfirmed_rec r with
  | Some unconf => remove_unconfirmed_client_id unconf;; mret tt
  | None => mret tt
  end;;
  unconf ← create_client_id clientid client_record (xprt_addr data) (credential data) 0;
  match unconf with
  | None => mret (setclientid_error NFS4ERR_RESOURCE)
  | Some unconf =>
      match strmaxcpy (r_addr (sa_cb_location arg)) (SOCK_NAME_MAX + 1) with
      | None => mret (setclientid_error NFS4ERR_INVAL)
      | Some r_addr =>
        set_cid unconf (with_cid_cb (cb_v40 (nfs_set_client_location (sa_cb_location arg)
          (mk_cb_v40 NC_ERR (sa_callback_ident arg) r_addr (sa_cb_program arg)))));;
        set_cid unconf (with_cid_incoming_verifier (sa_verifier arg));;
        set_cid unconf (with_cid_verifier verifier);;
        rc ← nfs_client_id_insert unconf;
        if decide (rc <> CLIENT_ID_SUCCESS) then mret (setclientid_error (clientid_error_to_nfsstat rc))
        else mret (setclientid_ok clientid verifier)
      end
  end.

(** The cases of RFC 3530bis, 15.35.5, that the comments number. *)
Definition setclientid_record (arg : SETCLIENTID4args) (data : compound_data) (client_record : loc)
    : M SETCLIENTID4res :=
  r ← get_rec client_record;
  match cr_confirmed_rec r with
  | Some conf =>
      inc_client_id_ref conf;;
      c ← get_cid conf;
      if negb (same_principal c data) then
        addr ← client_using c;
        dec_client_id_ref conf;;
        mret (setclientid_inuse addr)
      else
        clientid ← (if sa_verifier arg =? cid_incoming_verifier c then mret (cid_clientid c) else new_clientid);
        verifier ← new_clientid_verifier;
        dec_client_id_ref conf;;
        setclientid_new arg data client_record clientid verifier
  | None =>
      clientid ← new_clientid;
      verifier ← new_clientid_verifier;
      setclientid_new arg data client_record clientid verifier
  end.

Definition nfs4_op_setclientid (arg : SETCLIENTID4args) (data : compound_data) : M SETCLIENTID4res :=
  if 0 <? minorversion data then mret (setclientid_error NFS4ERR_NOTSUPP)
  else
    client_record ← get_client_record (sa_id arg) 0 0;
    match client_record with
    | None => mret (setclientid_error NFS4ERR_SERVERFAULT)
    | Some client_record =>
        res ← setclientid_record arg data client_record;
        dec_client_record_ref client_record;;
        mret res
    end.

(** * SETCLIENTID_CONFIRM *)

(** [down]: the callback path was tested and does not work. *)
Definition set_cb_chan (clientid : loc) (down : bool) : M unit :=
  set_cid clientid (with_cb_chan_down (allow_delegations && down)).

(** A confirmed record with the id of the request was found. *)
Definition confirm_again (data : compound_data) (confirm : Z) (conf : loc) : M nfsstat4 :=
  c ← get_cid conf;
  let status :=
    if negb (same_principal c data) then NFS4ERR_CLID_INUSE
    else if cid_verifier c =? confirm then NFS4_OK
    else NFS4ERR_CLID_INUSE in
  dec_client_id_ref conf;;
  mret status.

(** The confirmed record takes over what the unconfirmed one has; the members of the
    union are those of NFSv4.0. *)
Definition confirm_update (unconf conf : loc) (down : bool) : M nfsstat4 :=
  u ← get_cid unconf;
  match cid_cb u with
  | cb_v40 cb => set_cid conf (with_cid_cb (cb_v40 cb))
  | _ => undef
  end;;
  set_cid conf (with_cid_verifier (cid_verifier u));;
  remove_unconfirmed_client_id unconf;;
  dec_client_id_ref unconf;;
  set_cb_chan conf down;;
  dec_client_id_ref conf;;
  mret NFS4_OK.

Definition confirm_new (unconf : loc) (down : bool) : M nfsstat4 :=
  rc ← nfs_client_id_confirm unconf;
  if decide (rc <> CLIENT_ID_SUCCESS) then
    dec_client_id_ref unconf;; mret (clientid_error_to_nfsstat rc)
  else
    set_cb_chan unconf down;;
    dec_client_id_ref unconf;;
    mret NFS4_OK.

(** The unconfirmed record becomes the confirmed one; another one expires. *)
Definition confirm_record (unconf client_record : loc) (clientid : Z) (down : bool) : M nfsstat4 :=
  r ← get_rec client_record;
  match cr_confirmed_rec r with
  | None => confirm_new unconf down
  | Some conf =>
      inc_client_id_ref conf;;
      c ← get_cid conf;
      if negb (cid_clientid c =? clientid) then
        nfs_client_id_expire conf;;
        dec_client_id_ref conf;;
        confirm_new unconf down
      else confirm_update unconf conf down
  end.

Definition confirm_found (data : compound_data) (clientid confirm : Z) (unconf client_record : loc)
    (down : bool) : M nfsstat4 :=
  u ← get_cid unconf;
  if negb (same_principal u data) then dec_client_id_ref unconf;; mret NFS4ERR_CLID_INUSE
  else if bool_decide (cid_confirmed u = CONFIRMED_CLIENT_ID) && (cid_verifier u =? confirm)
  then dec_client_id_ref unconf;; mret NFS4_OK
  else if bool_decide (cid_confirmed u <> UNCONFIRMED_CLIENT_ID)
  then dec_client_id_ref unconf;; mret NFS4ERR_STALE_CLIENTID
  else confirm_record unconf client_record clientid down.

(** The record of the client is held while [body] runs. *)
Definition with_record (client_record : loc) (body : M nfsstat4) : M nfsstat4 :=
  inc_client_record_ref client_record;;
  status ← body;
  dec_client_record_ref client_record;;
  mret status.

Definition nfs4_op_setclientid_confirm (clientid confirm : Z) (data : compound_data) (down : bool) : M nfsstat4 :=
  if 0 <? minorversion data then mret NFS4ERR_NOTSUPP
  else
    '(_, unconf) ← nfs_client_id_get_unconfirmed clientid;
    match unconf with
    | Some unconf =>
        u ← get_cid unconf;
        with_record (cid_client_record u)
          (confirm_found data clientid confirm unconf (cid_client_record u) down)
    | None =>
        '(rc, conf) ← nfs_client_id_get_confirmed clientid;
        match conf with
        | None => mret (clientid_error_to_nfsstat rc)
        | Some conf =>
            c ← get_cid conf;
            with_record (cid_client_record c) (confirm_again data confirm conf)
        end
    end.

(** * RENEW *)

Definition nfs4_op_renew (clientid : Z) (data : compound_data) : M nfsstat4 :=
  if 0 <? minorversion data then mret NFS4ERR_NOTSUPP
  else
    '(rc, found) ← nfs_client_id_get_confirmed clientid;
    match found with
    | None => mret (clientid_error_to_nfsstat rc)
    | Some a =>
        valid ← reserve_lease a;
        status ← (if (valid : bool) then
                    update_lease a;;
                    c ← get_cid a;
                    mret (if allow_delegations && cb_chan_down c then NFS4ERR_CB_PATH_DOWN else NFS4_OK)
                  else mret NFS4ERR_EXPIRED);
        dec_client_id_ref a;;
        mret status
    end.

(** * EXCHANGE_ID *)

Definition EXCHGID4_FLAG_USE_NON_PNFS : Z := 0x00010000.
Definition EXCHGID4_FLAG_USE_PNFS_MDS : Z := 0x00020000.
Definition EXCHGID4_FLAG_USE_PNFS_DS : Z := 0x00040000.
Definition EXCHGID4_FLAG_MASK_PNFS : Z := 0x00070000.
Definition EXCHGID4_FLAG_UPD_CONFIRMED_REC_A : Z := 0x40000000.
Definition EXCHGID4_FLAG_CONFIRMED_R : Z := 0x80000000.

(** All flags a client may send. *)
Definition EXCHGID4_FLAGS : Z :=
  Z.lor 0x00000103 (Z.lor EXCHGID4_FLAG_MASK_PNFS (Z.lor EXCHGID4_FLAG_UPD_CONFIRMED_REC_A EXCHGID4_FLAG_CONFIRMED_R)).

Record EXCHANGE_ID4args : Set := mk_exchange_id {
  eia_ownerid : list Z;
  eia_verifier : Z;
  eia_flags : Z
}.

(** The client id, the sequence number for CREATE_SESSION and the flags. *)
Inductive EXCHANGE_ID4res : Set :=
| exchange_id_ok (clientid sequenceid flags : Z)
| exchange_id_error (status : nfsstat4).

Definition exchange_id_reply (client_record unconf : loc) (flags : Z) : M EXCHANGE_ID4res :=
  c ← get_cid unconf;
  r ← get_rec client_record;
  mret (exchange_id_ok (cid_clientid c) (cid_create_session_sequence c) (Z.lor flags (cr_pnfs_flags r))).

(** From the removal of an unconfirmed record on. *)
Definition exchange_id_new (arg : EXCHANGE_ID4args) (data : compound_data) (client_record : loc)
    : M EXCHANGE_ID4res :=
  r ← get_rec client_record;
  match cr_unconfirmed_rec r with
  | Some unconf => remove_unconfirmed_client_id unconf;; mret tt
  | None => mret tt
  end;;
  unconf ← create_client_id 0 client_record (xprt_addr data) (credential data) (minorversion data);
  match unconf with
  | None => mret (exchange_id_error NFS4ERR_RESOURCE)
  | Some unconf =>
      set_cid unconf (with_cid_create_session_sequence 1);;
      set_cid unconf (with_cid_cb (cb_v41 []));;
      set_cid unconf (with_cid_incoming_verifier (eia_verifier arg));;
      if negb gethostname_ok then
        free_client_id dec_client_id_ref unconf;; mret (exchange_id_error NFS4ERR_SERVERFAULT)
      else
        rc ← nfs_client_id_insert unconf;
        if decide (rc <> CLIENT_ID_SUCCESS) then mret (exchange_id_error (clientid_error_to_nfsstat rc))
        else exchange_id_reply client_record unconf 0
  end.

(** The cases of RFC 5661, 18.35.4, that the comments number.  A confirmed record that
    stays keeps the reference that was taken on it in cases 2 and 5. *)
Definition exchange_id_record (arg : EXCHANGE_ID4args) (data : compound_data) (client_record : loc)
    : M EXCHANGE_ID4res :=
  let update := bit_set (eia_flags arg) EXCHGID4_FLAG_UPD_CONFIRMED_REC_A in
  r ← get_rec client_record;
  match cr_confirmed_rec r with
  | Some conf =>
      inc_client_id_ref conf;;
      c ← get_cid conf;
      if negb update then
        if negb (nfs_compare_clientcred (cid_credential c) (credential data)) then
          valid ← valid_lease conf;
          has_state ← (if (valid : bool) then client_id_has_state conf else mret false);
          if negb has_state then
            nfs_client_id_expire conf;;
            dec_client_id_ref conf;;
            exchange_id_new arg data client_record
          else dec_client_id_ref conf;; mret (exchange_id_error NFS4ERR_CLID_INUSE)
        else if eia_verifier arg =? cid_incoming_verifier c
        then exchange_id_reply client_record conf EXCHGID4_FLAG_CONFIRMED_R
        else exchange_id_new arg data client_record
      else
        let status :=
          if eia_verifier arg =? cid_incoming_verifier c then
            if negb (same_principal c data) then NFS4ERR_PERM else NFS4ERR_NOTSUPP
          else NFS4ERR_NOT_SAME in
        dec_client_id_ref conf;;
        mret (exchange_id_error status)
  | None =>
      if update then mret (exchange_id_error NFS4ERR_NOENT)
      else exchange_id_new arg data client_record
  end.

Definition pnfs_flags_of (flags : Z) : Z :=
  let pnfs_flags := Z.land flags EXCHGID4_FLAG_MASK_PNFS in
  if pnfs_flags =? 0 then Z.lor EXCHGID4_FLAG_USE_PNFS_MDS EXCHGID4_FLAG_USE_PNFS_DS else pnfs_flags.

Definition nfs4_op_exchange_id (arg : EXCHANGE_ID4args) (data : compound_data) : M EXCHANGE_ID4res :=
  if minorversion data =? 0 then mret (exchange_id_error NFS4ERR_INVAL)
  else if negb (Z.land (eia_flags arg) (Z.lnot EXCHGID4_FLAGS) =? 0) then mret (exchange_id_error NFS4ERR_INVAL)
  else
    client_record ← get_client_record (eia_ownerid arg) (pnfs_flags_of (eia_flags arg)) (server_raddr data);
    match client_record with
    | None => mret (exchange_id_error NFS4ERR_SERVERFAULT)
    | Some client_record =>
        res ← exchange_id_record arg data client_record;
        dec_client_record_ref client_record;;
        mret res
    end.

(** * CREATE_SESSION *)

Definition CREATE_SESSION4_FLAGS : Z := 0x7.

Record CREATE_SESSION4args : Set := mk_create_session {
  csa_clientid : Z;
  csa_sequence : Z;
  csa_flags : Z;
  csa_maxoperations : Z
}.

(** The session and the sequence number, or that the reply kept from the last time is to be used. *)
Inductive CREATE_SESSION4res : Set :=
| create_session_ok (session : Z * Z) (sequence : Z)
| create_session_replay
| create_session_error (status : nfsstat4).

(** A confirmed record takes the session: it is the one of the session, or the new
    one. *)
Definition create_session_done (conf session : loc) (sequence : Z) : M CREATE_SESSION4res :=
  t ← now;
  set_cid conf (fun c => with_cid_create_session_sequence (u32 (cid_create_session_sequence c + 1)) c);;
  set_cid conf (with_cid_last_renew t);;
  dec_client_id_ref conf;;
  s ← get_sess session;
  dec_session_ref session;;
  mret (create_session_ok (session_id s) sequence).

Definition create_session_confirm (unconf session : loc) (sequence : Z) : M CREATE_SESSION4res :=
  rc ← nfs_client_id_confirm unconf;
  if decide (rc <> CLIENT_ID_SUCCESS) then
    s ← get_sess session;
    nfs41_Session_Del (session_id s);;
    dec_client_id_ref unconf;;
    mret (create_session_error (clientid_error_to_nfsstat rc))
  else create_session_done unconf session sequence.

(** The session is in the table; the confirmed record of the client is [conf], looked
    up for an unconfirmed one. *)
Definition create_session_attach (clientid : Z) (unconf conf : option loc) (client_record session : loc)
    (sequence : Z) : M CREATE_SESSION4res :=
  conf ← match conf with
         | Some conf => mret (Some conf)
         | None =>
             r ← get_rec client_record;
             match cr_confirmed_rec r with
             | Some conf => inc_client_id_ref conf;; mret (Some conf)
             | None => mret None
             end
         end;
  conf ← match conf with
         | Some conf =>
             c ← get_cid conf;
             if negb (cid_clientid c =? clientid) then
               nfs_client_id_expire conf;; dec_client_id_ref conf;; mret None
             else mret (Some conf)
         | None => mret None
         end;
  match conf, unconf with
  | Some conf, Some unconf =>
      remove_unconfirmed_client_id unconf;;
      dec_client_id_ref unconf;;
      create_session_done conf session sequence
  | Some conf, None => create_session_done conf session sequence
  | None, Some unconf => create_session_confirm unconf session sequence
  | None, None => undef
  end.

(** The session is put on the list of the client and into the table.  With the result
    comes the client whose slot has or is to keep the reply of the compound, if that has been decided. *)
Definition create_session_new (arg : CREATE_SESSION4args) (data : compound_data) (found : loc)
    (unconf conf : option loc) (client_record : loc) : M (CREATE_SESSION4res * option loc) :=
  ok ← cchoose;
  if negb ok then dec_client_id_ref found;; mret (create_session_error NFS4ERR_SERVERFAULT, None)
  else
    session ← cfresh;
    inc_client_id_ref found;;
    f ← get_cid found;
    l ← session_list f;
    set_cid found (with_cid_cb (cb_v41 (session :: l)));;
    id ← nfs41_Build_sessionid (csa_clientid arg);
    modify (upd_cw_sessions (<[session :=
      mk_session id 2 (csa_clientid arg) found (xprt_addr data) (Z.of_nat NFS41_NB_SLOTS) (csa_maxoperations arg)
        (replicate NFS41_NB_SLOTS zero_slot)]>));;
    set_cid found (fun f => with_cid_create_session_slot
                              (mk_slot_cache (cached_result (cid_create_session_slot f)) true) f);;
    ok ← nfs41_Session_Set session;
    if negb ok then
      unlink_session found session;;
      dec_client_id_ref found;;
      dec_client_id_ref found;;
      modify (upd_cw_sessions (delete session));;
      mret (create_session_error NFS4ERR_SERVERFAULT, Some found)
    else
      res ← create_session_attach (csa_clientid arg) unconf conf client_record session (csa_sequence arg);
      mret (res, Some found).

(** [found] is the unconfirmed or the confirmed record of the client id. *)
Definition create_session_found (arg : CREATE_SESSION4args) (data : compound_data) (found : loc)
    (unconf conf : option loc) (client_record : loc) : M (CREATE_SESSION4res * option loc) :=
  f ← get_cid found;
  if (oppos data =? 0) && (u32 (csa_sequence arg + 1) =? cid_create_session_sequence f)
     && cache_used (cid_create_session_slot f) then
    dec_client_id_ref found;; mret (create_session_replay, Some found)
  else if (oppos data =? 0) && negb (csa_sequence arg =? cid_create_session_sequence f) then
    dec_client_id_ref found;; mret (create_session_error NFS4ERR_SEQ_MISORDERED, None)
  else if negb (nfs_compare_clientcred (cid_credential f) (credential data)) then
    dec_client_id_ref found;; mret (create_session_error NFS4ERR_CLID_INUSE, None)
  else if negb (Z.land (csa_flags arg) (Z.lnot CREATE_SESSION4_FLAGS) =? 0) then
    dec_client_id_ref found;; mret (create_session_error NFS4ERR_INVAL, None)
  else create_session_new arg data found unconf conf client_record.

Definition nfs4_op_create_session (arg : CREATE_SESSION4args) (data : compound_data)
    : M (CREATE_SESSION4res * option loc) :=
  if minorversion data =? 0 then mret (create_session_error NFS4ERR_INVAL, None)
  else
    '(_, unconf) ← nfs_client_id_get_unconfirmed (csa_clientid arg);
    '(rc, conf) ← match unconf with
                  | Some _ => mret (CLIENT_ID_SUCCESS, None)
                  | None => nfs_client_id_get_confirmed (csa_clientid arg)
                  end;
    match match unconf with Some u => Some u | None => conf end with
    | None =>
        mret (create_session_error (clientid_error_to_nfsstat
          (if decide (rc = CLIENT_ID_EXPIRED) then CLIENT_ID_STALE else rc)), None)
    | Some found =>
        f ← get_cid found;
        inc_client_record_ref (cid_client_record f);;
        res ← create_session_found arg data found unconf conf (cid_client_record f);
        dec_client_record_ref (cid_client_record f);;
        mret res
    end.

(** * DESTROY_SESSION and DESTROY_CLIENTID *)

(** A connection that is not of the session keeps the reference on it. *)
Definition nfs4_op_destroy_session (sessionid : Z * Z) (data : compound_data) : M nfsstat4 :=
  if minorversion data =? 0 then mret NFS4ERR_INVAL
  else
    found ← nfs41_Session_Get_Pointer sessionid;
    match found with
    | None => mret NFS4ERR_BADSESSION
    | Some session =>
        s ← get_sess session;
        if negb (cmp_sockaddr (xprt_addr data) (s_xprt_addr s) false) then mret NFS4ERR_CONN_NOT_BOUND_TO_SESSION
        else
          deleted ← nfs41_Session_Del sessionid;
          dec_session_ref session;;
          mret (if (deleted : bool) then NFS4_OK else NFS4ERR_BADSESSION)
    end.

(** Nothing takes the reference on the client record that is released at the end, and
    the one on the client that the lookup took stays. *)
Definition destroy_clientid_record (found client_record : loc) : M nfsstat4 :=
  r ← get_rec client_record;
  status ←
    (if bool_decide (cr_confirmed_rec r = None) && bool_decide (cr_unconfirmed_rec r = None) then mret NFS4_OK
     else
       busy ← client_id_has_nfs41_sessions found;
       if (busy : bool) then mret NFS4ERR_CLIENTID_BUSY
       else
         match cr_confirmed_rec r with
         | Some conf => remove_confirmed_client_id conf;; mret tt
         | None => mret tt
         end;;
         match cr_unconfirmed_rec r with
         | Some unconf => remove_unconfirmed_client_id unconf;; mret tt
         | None => mret tt
         end;;
         mret NFS4_OK);
  dec_client_record_ref client_record;;
  mret status.

Definition nfs4_op_destroy_clientid (clientid : Z) (data : compound_data) : M nfsstat4 :=
  if minorversion data <? 1 then mret NFS4ERR_NOTSUPP
  else
    '(_, conf) ← nfs_client_id_get_confirmed clientid;
    found ← match conf with
            | Some conf => mret (Some conf)
            | None =>
                '(_, unconf) ← nfs_client_id_get_unconfirmed clientid;
                '(_, conf) ← nfs_client_id_get_confirmed clientid;
                mret (match conf with Some conf => Some conf | None => unconf end)
            end;
    match found with
    | None => mret NFS4ERR_STALE_CLIENTID
    | Some found => f ← get_cid found; destroy_clientid_record found (cid_client_record f)
    end.

(** * The reaper *)

(** One client of a table, as the reaper passes it: the result of
    [nfs_client_id_expire], which starts the bucket over again. *)
Definition reap_client (clientid : loc) : M bool :=
  valid ← valid_lease clientid;
  if (valid : bool) then mret false
  else
    inc_client_id_ref clientid;;
    c ← get_cid clientid;
    inc_client_record_ref (cid_client_record c);;
    rc ← nfs_client_id_expire clientid;
    dec_client_id_ref clientid;;
    dec_client_record_ref (cid_client_record c);;
    mret rc.

Definition PRIME_STATE : Z := 17.

Definition client_id_value_hash_func (clientid : Z) : Z := u32 clientid mod PRIME_STATE.

(** The order of the tree, by [client_id_rbt_hash_func]. *)
Definition rbt_before (x y : Z * loc) : Prop := x.1 <= y.1.
#[global] Instance rbt_before_dec : RelDecision rbt_before.
Proof. intros x y. unfold rbt_before. apply _. Defined.

(** The clients of a bucket. *)
Definition bucket (ht : gmap Z loc) (i : Z) : list (Z * loc) :=
  merge_sort rbt_before (filter (fun x => client_id_value_hash_func x.1 = i) (map_to_list ht)).

(** The clients up to one that expires, and whether there is one. *)
Fixpoint reap_loop (l : list (Z * loc)) : M (Z * bool) :=
  match l with
  | [] => mret (0, false)
  | (_, clientid) :: l =>
      rc ← reap_client clientid;
      if (rc : bool) then mret (1, true) else '(n, again) ← reap_loop l; mret (n + 1, again)
  end.

(** [fuel]: how often the bucket may start over again. *)
Fixpoint reap_bucket (fuel : nat) (table : cworld -> gmap Z loc) (i count : Z) : M Z :=
  match fuel with
  | O => stuck
  | S fuel =>
      ht ← gets table;
      '(n, again) ← reap_loop (bucket ht i);
      if (again : bool) then reap_bucket fuel table i (count + n) else mret (count + n)
  end.

(** The buckets from [i] on, [n] of them. *)
Fixpoint reap_buckets (fuel : nat) (table : cworld -> gmap Z loc) (i : Z) (n : nat) (count : Z) : M Z :=
  match n with
  | O => mret count
  | S n => count ← reap_bucket fuel table i count; reap_buckets fuel table (i + 1) n count
  end.

Definition reap_hash_table (fuel : nat) (table : cworld -> gmap Z loc) : M Z :=
  reap_buckets fuel table 0 (Z.to_nat PRIME_STATE) 0.

(** [reaper_run], without the clean-up of the recovery directory. *)
Definition reaper_run (fuel : nat) : M Z :=
  n ← reap_hash_table fuel ht_confirmed_client_id;
  m ← reap_hash_table fuel ht_unconfirmed_client_id;
  mret (n + m).
End ops.
