(* ===== verification/ClientFrame.v ===== *)
(** What no operation on clients touches: a session keeps its client, its number and its
    slots for as long as it is there. *)

From stdpp Require Import sorting.
From S2P Require Import Prelude Status World Owner Client ClientOps.

(** What of a session does not change, and that addresses are given out once. *)
Definition fixed (x : nfs41_session_t) : loc * (Z * Z) * list nfs41_session_slot_t * (Z * Z) :=
  (clientid_record x, session_id x, s_slots x, (ca_maxrequests x, ca_maxoperations x)).

(** A session that nobody has used. *)
Definition unused (x : nfs41_session_t) : Prop :=
  s_slots x = replicate NFS41_NB_SLOTS zero_slot /\ ca_maxrequests x = Z.of_nat NFS41_NB_SLOTS.

(** A session of [ss'] is one of [ss], or an unused one at an address from [n] on. *)
Definition same_sessions (n : loc) (ss ss' : gmap loc nfs41_session_t) : Prop :=
  forall s x', ss' !! s = Some x' ->
    (exists x, ss !! s = Some x /\ fixed x' = fixed x) \/ ((n <= s)%positive /\ unused x').

Lemma same_sessions_trans n1 n2 ss1 ss2 ss3 :
  (n1 <= n2)%positive -> same_sessions n1 ss1 ss2 -> same_sessions n2 ss2 ss3 -> same_sessions n1 ss1 ss3.
Proof.
  intros Hn H12 H23 s x3 H3. destruct (H23 s x3 H3) as [(x2 & H2 & E2)|[Hs Hu]]; [|right; split; [lia|done]].
  destruct (H12 s x2 H2) as [(x1 & H1 & E1)|[Hs [U1 U2]]]; [left; exists x1; split; [done|congruence]|right]. split; [done|].
  unfold fixed in E2. injection E2 as _ _ E3 E4 _. split; congruence.
Qed.

(** A client keeps the reply to its last CREATE_SESSION; a new one has none. *)
Definition kept_reply (c : nfs_client_id_t) : compound_res := cached_result (cid_create_session_slot c).

Definition same_replies (n : loc) (ids ids' : gmap loc nfs_client_id_t) : Prop :=
  forall a c', ids' !! a = Some c' ->
    (exists c, ids !! a = Some c /\ kept_reply c' = kept_reply c) \/ ((n <= a)%positive /\ kept_reply c' = zero_res).

Lemma same_replies_trans n1 n2 ids1 ids2 ids3 :
  (n1 <= n2)%positive -> same_replies n1 ids1 ids2 -> same_replies n2 ids2 ids3 -> same_replies n1 ids1 ids3.
Proof.
  intros Hn H12 H23 a c3 H3. destruct (H23 a c3 H3) as [(c2 & H2 & E2)|[Hs Hu]]; [|right; split; [lia|done]].
  destruct (H12 a c2 H2) as [(c1 & H1 & E1)|[Hs Hu]]; [left; exists c1; split; [done|congruence]|right; split; [done|congruence]].
Qed.

Definition steady_from (n : loc) (w w' : cworld) : Prop :=
  (cw_next w <= cw_next w')%positive /\ same_sessions n (cw_sessions w) (cw_sessions w') /\ same_replies n (cw_ids w) (cw_ids w').
Definition steady (w w' : cworld) : Prop := steady_from (cw_next w) w w'.

#[global] Instance steady_refl : Reflexive steady.
Proof. intros w. split_and!; [lia|intros s x Hs; left; by exists x|intros a c Ha; left; by exists c]. Qed.

Lemma steady_from_trans n1 n2 w1 w2 w3 : (n1 <= n2)%positive -> steady_from n1 w1 w2 -> steady_from n2 w2 w3 -> steady_from n1 w1 w3.
Proof.
  intros Hn (N1 & S1 & R1) (N2 & S2 & R2). split_and!; [lia|by apply (same_sessions_trans _ n2 _ (cw_sessions w2))|by apply (same_replies_trans _ n2 _ (cw_ids w2))].
Qed.

#[global] Instance steady_trans : Transitive steady.
Proof. intros w1 w2 w3 H1 H2. apply (steady_from_trans _ (cw_next w2) _ w2); [apply H1|done|done]. Qed.

Lemma steady_old w w' s x' :
  steady w w' -> cw_sessions w' !! s = Some x' -> (s < cw_next w)%positive -> exists x, cw_sessions w !! s = Some x /\ fixed x' = fixed x.
Proof. intros (_ & HS & _) Hs Hlt. destruct (HS s x' Hs) as [?|[? _]]; [done|lia]. Qed.

(** A computation is steady when its runs are. *)
Definition frames {A} (m : M cworld A) : Prop := forall w a w', m w = Ret a w' -> steady w w'.

(** A steady computation gives one more thing to know of where it ends. *)
Lemma wp_steady {A} (m : M cworld A) (Q : A -> cworld -> Prop) w :
  frames m -> wp m (fun a w' => steady w w' -> Q a w') w -> wp m Q w.
Proof. intros Hm. unfold wp. destruct (m w) as [a w'| | |] eqn:E; auto. intros HQ. apply HQ. by apply (Hm w a w'). Qed.

Create HintDb frames.

Lemma frames_ret {A} (a : A) : frames (mret a).
Proof. intros w a' w' [= _ <-]. reflexivity. Qed.
Lemma frames_undef {A} : frames (undef (A := A)).
Proof. by intros w a w'. Qed.
Lemma frames_fatal {A} : frames (fatal (A := A)).
Proof. by intros w a w'. Qed.
Lemma frames_stuck {A} : frames (stuck (A := A)).
Proof. by intros w a w'. Qed.
Lemma frames_gets {A} (f : cworld -> A) : frames (gets f).
Proof. intros w a w' [= _ <-]. reflexivity. Qed.
Lemma frames_deref {A} (f : cworld -> option A) : frames (deref f).
Proof. intros w a w'. unfold deref. destruct (f w); [|done]. intros [= _ <-]. reflexivity. Qed.
Lemma frames_bind {A C} (m : M cworld A) (k : A -> M cworld C) : frames m -> (forall a, frames (k a)) -> frames (m ≫= k).
Proof.
  intros Hm Hk w c w'. unfold mbind, M_bind. destruct (m w) as [a w1| | |] eqn:E; try done. intros H. etrans; [by eapply Hm|by eapply Hk].
Qed.
Lemma frames_modify (f : cworld -> cworld) : (forall w, steady w (f w)) -> frames (modify f).
Proof. intros Hf w a w' [= _ <-]. apply Hf. Qed.
Lemma frames_when b (m : M cworld unit) : frames m -> frames (when b m).
Proof. intros Hm. destruct b; [done|apply frames_ret]. Qed.

(** Updates that leave the sessions and the clients alone. *)
Lemma steady_same w w' : cw_sessions w' = cw_sessions w -> cw_ids w' = cw_ids w -> (cw_next w <= cw_next w')%positive -> steady w w'.
Proof.
  intros HS HI HN. split_and!; [done|intros s x Hs; rewrite HS in Hs; left; by exists x|intros a c Ha; rewrite HI in Ha; left; by exists c].
Qed.

#[export] Hint Resolve frames_ret frames_undef frames_fatal frames_stuck frames_gets frames_deref frames_bind frames_modify frames_when : frames.

(** Takes a computation apart down to its parts. *)
Ltac framing :=
  repeat first
    [ progress intros
    | solve [eauto with frames nocore]
    | match goal with
      | |- frames (mbind _ _) => apply frames_bind
      | |- frames (when _ _) => apply frames_when
      | |- frames (modify _) => apply frames_modify; intros; repeat case_match; by apply steady_same
      | |- frames (match _ with _ => _ end) => case_match
      end
    | progress cbv zeta ].

Section frames.
Context {env : ClientEnv}.

Lemma frames_cchoose : frames cchoose.
Proof. intros w a w'. unfold cchoose. destruct (cw_choices w); intros [= _ <-]; by apply steady_same. Qed.
Lemma frames_last_reference : frames last_reference.
Proof. intros w a w'. unfold last_reference. destruct (cw_last_refs w); intros [= _ <-]; by apply steady_same. Qed.
Lemma frames_cfresh : frames cfresh.
Proof. intros w a w' [= _ <-]. apply steady_same; [done|done|simpl; lia]. Qed.
Lemma frames_set_cid a f : (forall c, kept_reply (f c) = kept_reply c) -> frames (set_cid a f).
Proof.
  intros Hf w u w'. unfold set_cid, get_cid, mbind, M_bind, deref, modify. destruct (cw_ids w !! a) as [c|] eqn:Ha; [|done]. intros [= _ <-].
  split_and!; [simpl; lia|intros s x Hs; left; by exists x|]. simpl. intros b d Hb. left. destruct (decide (a = b)) as [<-|Hn].
  - rewrite lookup_insert_eq in Hb. injection Hb as <-. exists c. by rewrite Hf.
  - rewrite lookup_insert_ne in Hb by done. by exists d.
Qed.
Lemma frames_set_rec a f : frames (set_rec a f).
Proof. unfold set_rec, get_rec. framing. Qed.

Lemma steady_delete s w : steady w (upd_cw_sessions (delete s) w).
Proof. split_and!; [simpl; lia| |intros a c Ha; left; by exists c]. simpl. intros t x [_ Ht]%lookup_delete_Some. left. by exists x. Qed.

Lemma steady_delete_id a w : steady w (upd_cw_ids (delete a) w).
Proof. split_and!; [simpl; lia|intros s x Hs; left; by exists x|]. simpl. intros b c [_ Hb]%lookup_delete_Some. left. by exists c. Qed.

Lemma frames_set_sess s f : (forall x, fixed (f x) = fixed x) -> frames (set_sess s f).
Proof.
  intros Hf w u w'. unfold set_sess, get_sess, mbind, M_bind, deref, modify. destruct (cw_sessions w !! s) as [x|] eqn:Hs; [|done]. intros [= _ <-].
  split_and!; [simpl; lia| |intros a c Ha; left; by exists c]. simpl. intros t y Ht. left. destruct (decide (s = t)) as [<-|Hn].
  - rewrite lookup_insert_eq in Ht. injection Ht as <-. exists x. by rewrite Hf.
  - rewrite lookup_insert_ne in Ht by done. by exists y.
Qed.
End frames.

#[export] Hint Resolve frames_cchoose frames_last_reference frames_cfresh frames_set_rec steady_delete steady_delete_id : frames.
#[export] Hint Extern 1 (frames (set_cid _ _)) => apply frames_set_cid; intros; repeat case_match; reflexivity : frames.

Section operations.
Context {env : ClientEnv}.

Lemma frames_inc_id a : frames (inc_client_id_ref a).
Proof. by apply frames_set_cid. Qed.
Lemma frames_inc_rec a : frames (inc_client_record_ref a).
Proof. apply frames_set_rec. Qed.
Lemma frames_dec_rec a : frames (dec_client_record_ref a).
Proof. unfold dec_client_record_ref, get_rec. framing. Qed.
Lemma frames_unlink a s : frames (unlink_session a s).
Proof. unfold unlink_session, get_cid. framing. Qed.
Lemma frames_session_list c : frames (session_list c).
Proof. unfold session_list. framing. Qed.

Section dec.
Variable dec : loc -> M cworld unit.
Hypothesis Hdec : forall a, frames (dec a).

Lemma frames_dec_session_with s : frames (dec_session_ref_with dec s).
Proof.
  unfold dec_session_ref_with, drop_session, get_sess. apply frames_bind; [by apply frames_set_sess|]. intros _.
  apply frames_bind; [framing|]. intros x. apply frames_when. apply frames_bind; [framing|]. intros y.
  apply frames_bind; [apply frames_unlink|]. intros _. apply frames_bind; [done|]. intros _. apply frames_modify, steady_delete.
Qed.

Lemma frames_Session_Del_with k : frames (nfs41_Session_Del_with dec k).
Proof. unfold nfs41_Session_Del_with. pose proof frames_dec_session_with. framing. Qed.

Lemma frames_for_sessions l body : (forall s, frames (body s)) -> frames (for_sessions l body).
Proof. intros Hb. induction l as [|s l IH]; simpl; framing. Qed.

Lemma frames_free_client_id a : frames (free_client_id dec a).
Proof.
  unfold free_client_id, get_cid, get_sess. pose proof frames_Session_Del_with. pose proof frames_dec_rec. pose proof frames_session_list. framing.
  apply frames_for_sessions. framing.
Qed.
End dec.

Lemma frames_dec_id_at n : forall a, frames (dec_client_id_ref_at n a).
Proof.
  induction n as [|n IH]; intros a; simpl; unfold get_cid; framing; by apply frames_free_client_id.
Qed.
Lemma frames_dec_id a : frames (dec_client_id_ref a).
Proof. apply frames_dec_id_at. Qed.
Lemma frames_dec_session s : frames (dec_session_ref s).
Proof. apply frames_dec_session_with, frames_dec_id. Qed.
Lemma frames_Session_Del k : frames (nfs41_Session_Del k).
Proof. apply frames_Session_Del_with, frames_dec_id. Qed.
End operations.

#[export] Hint Resolve frames_inc_id frames_inc_rec frames_dec_rec frames_unlink frames_session_list frames_dec_id frames_dec_session frames_Session_Del : frames.

Section handlers.
Context {env : ClientEnv}.

(** The reading of a structure. *)
Lemma frames_get_cid a : frames (get_cid a).
Proof. apply frames_deref. Qed.
Lemma frames_get_rec a : frames (get_rec a).
Proof. apply frames_deref. Qed.
Lemma frames_get_sess a : frames (get_sess a).
Proof. apply frames_deref. Qed.
#[local] Hint Resolve frames_get_cid frames_get_rec frames_get_sess : frames.

Lemma frames_free_owner a o : frames (free_nfs4_owner a o).
Proof. unfold free_nfs4_owner. framing. Qed.
Lemma frames_init_owner a o b : frames (init_nfs4_owner a o b).
Proof. unfold init_nfs4_owner. framing. Qed.
#[local] Hint Resolve frames_free_owner : frames.
Lemma frames_release_lockowners a l : frames (release_lockowners a l).
Proof. induction l as [|o l IH]; simpl; unfold free_related_owner; framing. Qed.
Lemma frames_valid_lease a : frames (valid_lease a).
Proof. unfold valid_lease, now. framing. Qed.
Lemma frames_reserve_lease a : frames (reserve_lease a).
Proof. unfold reserve_lease, now. framing. Qed.
Lemma frames_update_lease a : frames (update_lease a).
Proof. unfold update_lease, now. framing. Qed.
Lemma frames_new_clientid : frames new_clientid.
Proof. unfold new_clientid. framing. Qed.
Lemma frames_new_clientid_verifier : frames new_clientid_verifier.
Proof. unfold new_clientid_verifier. framing. Qed.
#[local] Hint Resolve frames_release_lockowners frames_valid_lease frames_reserve_lease frames_update_lease frames_new_clientid frames_new_clientid_verifier : frames.

(** What is made at a new address is nothing that was there. *)
Definition frames_from {A} (n : loc) (m : M cworld A) : Prop :=
  forall w a w', (n <= cw_next w)%positive -> m w = Ret a w' -> steady_from n w w'.

Lemma frames_from_of {A} n (m : M cworld A) : frames m -> frames_from n m.
Proof.
  intros Hm w a w' Hn Hrun. destruct (Hm w a w' Hrun) as (HN & HS & HR). split_and!; [done| |].
  - intros s x' Hs. destruct (HS s x' Hs) as [?|[? ?]]; [by left|right; split; [lia|done]].
  - intros b c' Hb. destruct (HR b c' Hb) as [?|[? ?]]; [by left|right; split; [lia|done]].
Qed.

Lemma frames_from_bind {A C} n (m : M cworld A) (k : A -> M cworld C) :
  frames_from n m -> (forall a, frames_from n (k a)) -> frames_from n (m ≫= k).
Proof.
  intros Hm Hk w c w' Hn. unfold mbind, M_bind. destruct (m w) as [a w1| | |] eqn:E; try done. intros Hrun.
  pose proof (Hm w a w1 Hn E) as H1. apply (steady_from_trans n n w w1 w'); [lia|done|]. apply (Hk a w1 c w'); [|done]. destruct H1. lia.
Qed.

Lemma frames_fresh {A} (k : loc -> M cworld A) : (forall s, frames_from s (k s)) -> frames (cfresh ≫= k).
Proof.
  intros Hk w a w' Hrun. unfold mbind, M_bind, cfresh in Hrun. destruct (Hk (cw_next w) (upd_cw_next Pos.succ w) a w') as (HN & HS); [simpl; lia|done|].
  split; [simpl in HN; lia|done].
Qed.

Lemma frames_insert_id n c : kept_reply c = zero_res -> frames_from n (modify (upd_cw_ids (<[n := c]>))).
Proof.
  intros Hc w a w' _ [= _ <-]. split_and!; [simpl; lia|intros s x Hs; left; by exists x|].
  simpl. intros b d [[<- <-]|[_ Hb]]%lookup_insert_Some; [right; split; [lia|done]|left; by exists d].
Qed.

Lemma frames_create_client_id n p addr cred v : frames (create_client_id n p addr cred v).
Proof.
  unfold create_client_id, now. apply frames_bind; [framing|]. intros ok. case_match; [framing|]. apply frames_fresh. intros a.
  repeat (apply frames_from_bind; [|intros]); try (by apply frames_insert_id); apply frames_from_of; framing.
Qed.
Lemma frames_insert a : frames (nfs_client_id_insert a).
Proof.
  unfold nfs_client_id_insert, test_and_set. pose proof (fun b => frames_free_client_id dec_client_id_ref frames_dec_id b). framing.
Qed.
Lemma frames_remove_confirmed a : frames (remove_confirmed_client_id a).
Proof. unfold remove_confirmed_client_id. framing. Qed.
Lemma frames_remove_unconfirmed a : frames (remove_unconfirmed_client_id a).
Proof. unfold remove_unconfirmed_client_id. framing. Qed.
Lemma frames_confirm a : frames (nfs_client_id_confirm a).
Proof. unfold nfs_client_id_confirm, test_and_set. framing. Qed.
Lemma frames_expire a : frames (nfs_client_id_expire a).
Proof.
  unfold nfs_client_id_expire. framing. apply frames_for_sessions. intros s. unfold expire_session. framing.
Qed.
Lemma frames_get_confirmed k : frames (nfs_client_id_get_confirmed k).
Proof. unfold nfs_client_id_get_confirmed, nfs_client_id_get. framing. Qed.
Lemma frames_get_unconfirmed k : frames (nfs_client_id_get_unconfirmed k).
Proof. unfold nfs_client_id_get_unconfirmed, nfs_client_id_get. framing. Qed.
Lemma frames_get_client_record v p s : frames (get_client_record v p s).
Proof. unfold get_client_record. framing. Qed.
#[local] Hint Resolve frames_create_client_id frames_insert frames_remove_confirmed frames_remove_unconfirmed frames_confirm frames_expire frames_get_confirmed frames_get_unconfirmed frames_get_client_record : frames.

Lemma frames_setclientid arg data : frames (nfs4_op_setclientid arg data).
Proof. unfold nfs4_op_setclientid, setclientid_record, setclientid_new, client_using. framing. Qed.
Lemma frames_setclientid_confirm k v data down : frames (nfs4_op_setclientid_confirm k v data down).
Proof.
  unfold nfs4_op_setclientid_confirm, with_record, confirm_found, confirm_record, confirm_again, confirm_update, confirm_new, set_cb_chan. framing.
Qed.
Lemma frames_renew k data : frames (nfs4_op_renew k data).
Proof. unfold nfs4_op_renew. framing. Qed.
Lemma frames_exchange_id arg data : frames (nfs4_op_exchange_id arg data).
Proof.
  unfold nfs4_op_exchange_id, exchange_id_record, exchange_id_new, exchange_id_reply, client_id_has_state.
  pose proof (fun b => frames_free_client_id dec_client_id_ref frames_dec_id b). framing.
Qed.
Lemma frames_destroy_session k data : frames (nfs4_op_destroy_session k data).
Proof.
  unfold nfs4_op_destroy_session, nfs41_Session_Get_Pointer, inc_session_ref.
  pose proof (fun s => frames_set_sess s (fun x => with_s_refcount (s_refcount x + 1) x) (fun x => eq_refl)). framing.
Qed.
Lemma frames_destroy_clientid k data : frames (nfs4_op_destroy_clientid k data).
Proof. unfold nfs4_op_destroy_clientid, destroy_clientid_record, client_id_has_nfs41_sessions. framing. Qed.

Lemma frames_insert_session n x : unused x -> frames_from n (modify (upd_cw_sessions (<[n := x]>))).
Proof.
  intros Hx w a w' _ [= _ <-]. split_and!; [simpl; lia| |intros b c Hb; left; by exists c]. simpl. intros s x' [[<- <-]|[_ Hs]]%lookup_insert_Some; [right; split; [lia|done]|left; by exists x'].
Qed.

Lemma frames_create_session_attach k u c p s q : frames (create_session_attach k u c p s q).
Proof. unfold create_session_attach, create_session_confirm, create_session_done, now. framing. Qed.

Lemma frames_create_session_new arg data a u c p : frames (create_session_new arg data a u c p).
Proof.
  unfold create_session_new. apply frames_bind; [framing|]. intros ok. case_match; [framing|]. apply frames_fresh. intros s.
  repeat (lazymatch goal with |- frames_from _ (mbind _ _) => apply frames_from_bind; [|intros] end);
    try (by apply frames_insert_session; split);
    apply frames_from_of; unfold nfs41_Build_sessionid, nfs41_Session_Set; pose proof (fun s => frames_modify _ (steady_delete s));
    pose proof frames_create_session_attach; framing.
Qed.
#[local] Hint Resolve frames_create_session_new : frames.

Lemma frames_create_session arg data : frames (nfs4_op_create_session arg data).
Proof. unfold nfs4_op_create_session, create_session_found. framing. Qed.

Lemma frames_reap_client a : frames (reap_client a).
Proof. unfold reap_client. framing. Qed.
#[local] Hint Resolve frames_reap_client : frames.
Lemma frames_reaper_run fuel : frames (reaper_run fuel).
Proof.
  assert (Hloop : forall l, frames (reap_loop l)) by (induction l as [|[k a] l IH]; simpl; framing).
  assert (Hb : forall m table i count, frames (reap_bucket m table i count)) by (induction m as [|m IH]; intros; simpl; framing).
  assert (Hbs : forall n m table i count, frames (reap_buckets m table i n count)) by (induction n as [|n IH]; intros; simpl; framing).
  unfold reaper_run, reap_hash_table. framing.
Qed.
End handlers.
