(* ===== verification/ClientSpec.v ===== *)
(** What SETCLIENTID, SETCLIENTID_CONFIRM and the expiry of a client do to the clients,
    as functions and relations on what clients see, and that the operations
    (Protocols/NFS) implement it. *)

From S2P Require Import Prelude Status World Owner Client ClientInv ClientStep ClientEnter ClientOps.

(** * The specification *)

(** The confirmed and the unconfirmed client id of every client. *)
Abbreviation clients := (record_key -> option aid * option aid).

(** Where an allocation fails: for the record of the client, for the client id, for its
    entry in the table. *)
Inductive fault : Set := no_fault | at_record | at_client | at_insert.

Section spec.
Context {env : ClientEnv}.

Definition aid_principal (u : aid) (data : compound_data) : bool :=
  nfs_compare_clientcred (ai_credential u) (credential data) && cmp_sockaddr (ai_addr u) (xprt_addr data) true.

Definition setclientid_key (arg : SETCLIENTID4args) : record_key := key_of (sa_id arg) 0 0.

(** The client id that a client gets, and the counter afterwards: a client that calls
    again with the same verifier keeps its id. *)
Definition spec_number (arg : SETCLIENTID4args) (conf : option aid) (n : Z) : Z * Z :=
  match conf with
  | Some c => if sa_verifier arg =? ai_incoming c then (ai_clientid c, n) else (numbered (u32 (n + 1)), u32 (n + 1))
  | None => (numbered (u32 (n + 1)), u32 (n + 1))
  end.

(** The transport that is recorded: one of the four for IPv4 whose name the network
    identifier begins with, also when it goes on with a 6. *)
Definition spec_transport (netid : list Z) : nc_type :=
  default NC_ERR (List.find (fun nc => bool_decide (netid_of nc `prefix_of` netid)) [NC_TCP; NC_UDP; NC_RDMA; NC_SCTP]).

(** What is recorded for the callbacks: of an address of 128 characters the last is lost. *)
Definition spec_callback (arg : SETCLIENTID4args) : cb_v40_t :=
  mk_cb_v40 (spec_transport (r_netid (sa_cb_location arg))) (sa_callback_ident arg)
    (take 127 (r_addr (sa_cb_location arg))) (sa_cb_program arg).

(** An older unconfirmed client id goes, whatever comes of the new one. *)
Definition spec_new (f : fault) (arg : SETCLIENTID4args) (data : compound_data) (id v : Z) (V : clients)
    : SETCLIENTID4res * clients :=
  let k := setclientid_key arg in
  match f with
  | at_client => (setclientid_error NFS4ERR_RESOURCE, with_unconfirmed k None V)
  | _ =>
      if decide (128 < length (r_addr (sa_cb_location arg)))%nat
      then (setclientid_error NFS4ERR_INVAL, with_unconfirmed k None V)
      else
        match f with
        | at_insert => (setclientid_error NFS4ERR_RESOURCE, with_unconfirmed k None V)
        | _ => (setclientid_ok id v,
                with_unconfirmed k (Some (mk_aid id (credential data) (xprt_addr data) (sa_verifier arg) v
                                            (Some (spec_callback arg)))) V)
        end
  end.

(** SETCLIENTID: the reply, the clients and the two counters. *)
Definition spec_setclientid (f : fault) (arg : SETCLIENTID4args) (data : compound_data) (V : clients) (n v : Z)
    : SETCLIENTID4res * clients * (Z * Z) :=
  if 0 <? minorversion data then (setclientid_error NFS4ERR_NOTSUPP, V, (n, v))
  else
    match f with
    | at_record => (setclientid_error NFS4ERR_SERVERFAULT, V, (n, v))
    | _ =>
        let conf := (V (setclientid_key arg)).1 in
        let num := spec_number arg conf n in
        let v' := u64 (v + 1) in
        match conf with
        | Some c =>
            if aid_principal c data then (spec_new f arg data num.1 v' V, (num.2, v'))
            else
              let addr := match ai_cb c with
                          | Some cb => mk_clientaddr (netid_of (cb_nc cb)) (cb_client_r_addr cb)
                          | None => mk_clientaddr [] []
                          end in
              (setclientid_inuse addr, V, (n, v))
        | None => (spec_new f arg data num.1 v' V, (num.2, v'))
        end
    end.

(** The specification looks at the clients one by one. *)
Lemma spec_new_ext f arg data id v (V V' : clients) :
  (forall k, V k = V' k) ->
  (spec_new f arg data id v V).1 = (spec_new f arg data id v V').1 /\
  (forall k, (spec_new f arg data id v V).2 k = (spec_new f arg data id v V').2 k).
Proof.
  intros HV. unfold spec_new, with_unconfirmed, upd_view. destruct f; try case_decide; simpl; (split; [done|]); intros k; by rewrite !HV.
Qed.

Lemma spec_setclientid_ext f arg data (V V' : clients) n v :
  (forall k, V k = V' k) ->
  let s := spec_setclientid f arg data V n v in
  let s' := spec_setclientid f arg data V' n v in
  s.1.1 = s'.1.1 /\ (forall k, s.1.2 k = s'.1.2 k) /\ s.2 = s'.2.
Proof.
  intros HV. unfold spec_setclientid. rewrite !HV. destruct (0 <? _); [done|].
  pose proof (spec_new_ext f arg data (spec_number arg (V' (setclientid_key arg)).1 n).1 (u64 (v + 1)) V V' HV) as [H1 H2].
  destruct f, (V' (setclientid_key arg)).1 as [c|]; try done; by destruct (aid_principal c data).
Qed.

(** SETCLIENTID leaves every confirmed client id as it is. *)
Lemma spec_setclientid_conf f arg data (V : clients) n v k :
  ((spec_setclientid f arg data V n v).1.2 k).1 = (V k).1.
Proof.
  assert (Hu : forall u, (with_unconfirmed (setclientid_key arg) u V k).1 = (V k).1)
    by (intros u; unfold with_unconfirmed, upd_view; case_decide; by subst).
  assert (Hn : forall id x, ((spec_new f arg data id x V).2 k).1 = (V k).1)
    by (intros id x; unfold spec_new; destruct f; try case_decide; apply Hu).
  unfold spec_setclientid. destruct (0 <? _); [done|]. destruct f; try done; destruct (V (setclientid_key arg)).1 as [c|]; try apply Hn; destruct (aid_principal c data); try done; apply Hn.
Qed.

(** The client id is that of an unconfirmed client id of another client: the counter has
    gone round. *)
Definition number_taken (V : clients) (k : record_key) (id : Z) : Prop :=
  exists k' u, k' <> k /\ (V k').2 = Some u /\ ai_clientid u = id.

(** Which faults there can be. *)
Definition fault_ok (f : fault) (plenty : Prop) (V : clients) (arg : SETCLIENTID4args) (n : Z) : Prop :=
  f = no_fault \/ ~ plenty \/
  (f = at_insert /\ number_taken V (setclientid_key arg) (spec_number arg (V (setclientid_key arg)).1 n).1).
End spec.

Section refine.
Context {env : ClientEnv} (Hepoch : epoch_low <> 0) (Held : list loc).
Implicit Types (w : cworld).

(** The clients and the counters are now [V], [n] and [v]. *)
Definition moves (V : clients) (n v : Z) w w' : Prop :=
  old_keys w w' /\ (forall k, view w' k = V k) /\ environment w' = (n, v, global_sequence w, cw_time w) /\ (plenty w -> plenty w').

Lemma moves_quiet V n v w1 w2 w3 : moves V n v w1 w2 -> quiet w2 w3 -> moves V n v w1 w3.
Proof.
  intros (K1 & V1 & E1 & N1) ([K2 _] & V2 & E2 & N2).
  split_and!; [by apply (old_keys_trans w1 w2 w3)|by intros k; rewrite V2|congruence|auto].
Qed.

Lemma moves_moves V n v V' n' v' w1 w2 w3 : moves V n v w1 w2 -> moves V' n' v' w2 w3 -> moves V' n' v' w1 w3.
Proof.
  intros (K1 & V1 & E1 & N1) (K2 & V2 & E2 & N2). split_and!; [by apply (old_keys_trans w1 w2 w3)|done| |auto]. rewrite E2.
  pose proof (f_equal (fun t => t.1.2) E1) as H1. pose proof (f_equal snd E1) as H2. simpl in *. congruence.
Qed.

Lemma quiet_moves w w' : quiet w w' -> moves (view w) (clientid_counter w) (clientid_verifier w) w w'.
Proof. intros ([K _] & V & E & N). by split_and!. Qed.

Lemma changes_moves S V w w' : changes S V w w' -> moves V (clientid_counter w) (clientid_verifier w) w w'.
Proof. intros ([K _] & HV & E & N). by split_and!. Qed.

Lemma becomes_moves S V n w w' : becomes S V n w w' -> moves V n (clientid_verifier w) w w'.
Proof. intros ([K _] & HV & E & N). by split_and!. Qed.

(** The counters of a store, and a step that starts from there. *)
Lemma moves_counters V n v w w' : moves V n v w w' -> clientid_counter w' = n /\ clientid_verifier w' = v.
Proof. intros (_ & _ & E & _). split; [exact (f_equal (fun t => t.1.1.1) E)|exact (f_equal (fun t => t.1.1.2) E)]. Qed.

Lemma held_key B X XR XS w w' p r :
  cinv B X XR XS w' -> p ∈ XR -> cw_records w !! p = Some r -> addresses_ok w -> old_keys w w' ->
  exists r', cw_records w' !! p = Some r' /\ record_key_of r' = record_key_of r.
Proof.
  intros HI Hin Hp HA [Hn HK]. destruct (held_rec _ _ _ _ _ p HI Hin) as [r' Hr']. exists r'. split; [done|].
  destruct (HK p r' Hr') as (r0 & Hr0 & ->); [apply (ad_records w HA); by eexists|]. congruence.
Qed.

(** An id in the table of unconfirmed client ids is one that clients see. *)
Lemma unconf_view B X XR XS w k a :
  cinv B X XR XS w -> ht_unconfirmed_client_id w !! k = Some a ->
  exists key c, cw_ids w !! a = Some c /\ (view w key).2 = Some (aid_of c) /\ cid_clientid c = k.
Proof.
  intros HI Hk. destruct (unconf_live _ _ _ _ _ _ _ HI Hk) as (c & r & Ha & _ & Hck & _ & Hp & Hu).
  exists (record_key_of r), c. rewrite (view_record _ _ _ _ _ _ _ HI Hp). simpl. rewrite Hu. simpl. by rewrite Ha.
Qed.

Lemma conf_view B X XR XS w k a :
  cinv B X XR XS w -> ht_confirmed_client_id w !! k = Some a ->
  exists key c, cw_ids w !! a = Some c /\ (view w key).1 = Some (aid_of c) /\ cid_clientid c = k.
Proof.
  intros HI Hk. destruct (conf_live _ _ _ _ _ _ _ HI Hk) as (c & r & Ha & _ & Hck & _ & Hp & Hu).
  exists (record_key_of r), c. rewrite (view_record _ _ _ _ _ _ _ HI Hp). simpl. rewrite Hu. simpl. by rewrite Ha.
Qed.

(** What clients see is in the tables. *)
Lemma view_conf B X XR XS w key u :
  cinv B X XR XS w -> (view w key).1 = Some u ->
  exists a c, ht_confirmed_client_id w !! ai_clientid u = Some a /\ cw_ids w !! a = Some c /\ aid_of c = u.
Proof.
  intros HI Hu. pose proof (ci_records _ _ _ _ _ HI) as HRec. unfold view in Hu.
  destruct (ht_client_record w !! key ≫= _) as [r|] eqn:Hr; [|done]. apply bind_Some in Hr as (p & _ & Hp). simpl in Hu.
  apply bind_Some in Hu as (a & Ha & Hu). destruct (ro_conf _ _ _ _ _ HRec p r a Hp Ha) as (c & Hc & Hs & _). rewrite Hc in Hu. simpl in Hu.
  exists a, c. assert (aid_of c = u) as <- by congruence. split_and!; try done.
  assert (HB : a ∉ B).
  { intros HB. destruct (rf_new _ _ _ (ci_refs _ _ _ _ _ HI) a HB) as (d & Hd & [Hn _ _ _]). congruence. }
  pose proof (to_ids _ _ _ _ (ci_tables _ _ _ _ _ HI) a c Hc HB) as Ht. by rewrite Hs in Ht.
Qed.

Lemma view_unconf B X XR XS w key u :
  cinv B X XR XS w -> (view w key).2 = Some u ->
  exists a c, ht_unconfirmed_client_id w !! ai_clientid u = Some a /\ cw_ids w !! a = Some c /\ aid_of c = u.
Proof.
  intros HI Hu. pose proof (ci_records _ _ _ _ _ HI) as HRec. unfold view in Hu.
  destruct (ht_client_record w !! key ≫= _) as [r|] eqn:Hr; [|done]. apply bind_Some in Hr as (p & _ & Hp). simpl in Hu.
  apply bind_Some in Hu as (a & Ha & Hu). destruct (ro_unconf _ _ _ _ _ HRec p r a Hp Ha) as (c & Hc & Hs & _ & HB). rewrite Hc in Hu. simpl in Hu.
  exists a, c. assert (aid_of c = u) as <- by congruence. split_and!; try done.
  pose proof (to_ids _ _ _ _ (ci_tables _ _ _ _ _ HI) a c Hc HB) as Ht. by rewrite Hs in Ht.
Qed.

(** The unconfirmed client id of a record is removed. *)
Lemma wp_remove_old B p r (Q : unit -> cworld -> Prop) w :
  cinv B [] [p] Held w -> cw_records w !! p = Some r ->
  (forall w', cinv B [] [p] Held w' ->
     moves (with_unconfirmed (record_key_of r) None (view w)) (clientid_counter w) (clientid_verifier w) w w' -> Q tt w') ->
  wp (match cr_unconfirmed_rec r with Some unconf => remove_unconfirmed_client_id unconf;; mret tt | None => mret tt end) Q w.
Proof.
  intros HI Hp HQ. destruct (cr_unconfirmed_rec r) as [u|] eqn:Hu.
  - destruct (ro_unconf _ _ _ _ _ (ci_records _ _ _ _ _ HI) p r u Hp Hu) as (c & Ha & Hs & <- & HB).
    apply wp_bind, (wp_remove_unconfirmed B [] [cid_client_record c] Held u c r); try done.
    intros w' HI' HC. apply wp_ret, HQ; [done|]. by eapply changes_moves.
  - apply wp_ret, HQ; [done|]. split_and!; try done; [by apply old_keys_same|]. intros k. unfold with_unconfirmed, upd_view.
    case_decide; [|done]. subst k. rewrite (view_record _ _ _ _ _ _ _ HI Hp). by rewrite Hu.
Qed.

Lemma with_unconfirmed_twice k u u' (V V' : clients) :
  (forall k', V' k' = with_unconfirmed k u V k') -> forall k', with_unconfirmed k u' V' k' = with_unconfirmed k u' V k'.
Proof.
  intros HV k'. unfold with_unconfirmed, upd_view in *. rewrite !HV, (decide_True _ _ (eq_refl k)).
  destruct (decide (k' = k)); done.
Qed.

(** The transport of the code is that of the specification: a test for a name with a 6
    comes after one that succeeds for it. *)
Lemma netid_to_nc_transport netid : nfs_netid_to_nc netid = spec_transport netid.
Proof.
  assert (Hm : forall nc, netid_matches netid nc = bool_decide (netid_of nc `prefix_of` netid)).
  { intros nc. unfold netid_matches. apply bool_decide_ext. split.
    - intros <-. apply prefix_take.
    - intros [l ->]. by rewrite take_app_length. }
  assert (H6 : forall nc nc', netid_of nc `prefix_of` netid_of nc' ->
    netid_matches netid nc = false -> netid_matches netid nc' = false).
  { intros nc nc' Hp. rewrite !Hm, !bool_decide_eq_false. intros Hn ?. apply Hn. by etrans. }
  unfold nfs_netid_to_nc, spec_transport. cbn [List.find]. rewrite <- !Hm.
  destruct (netid_matches netid NC_TCP) eqn:Ht; [done|]. rewrite (H6 NC_TCP NC_TCP6) by (done || by eexists).
  destruct (netid_matches netid NC_UDP) eqn:Hu; [done|]. rewrite (H6 NC_UDP NC_UDP6) by (done || by eexists).
  destruct (netid_matches netid NC_RDMA) eqn:Hr; [done|]. rewrite (H6 NC_RDMA NC_RDMA6) by (done || by eexists).
  destruct (netid_matches netid NC_SCTP) eqn:Hs; [done|]. by rewrite (H6 NC_SCTP NC_SCTP6) by (done || by eexists).
Qed.

Lemma client_location_spec arg r_addr :
  nfs_set_client_location (sa_cb_location arg) (mk_cb_v40 NC_ERR (sa_callback_ident arg) r_addr (sa_cb_program arg)) =
  spec_callback arg.
Proof. unfold nfs_set_client_location, spec_callback. by rewrite netid_to_nc_transport. Qed.

(** From the removal of an unconfirmed client id on. *)
Lemma wp_setclientid_new B p r arg data id v (Q : SETCLIENTID4res -> cworld -> Prop) w :
  cinv B [] [p] Held w -> cw_records w !! p = Some r -> record_key_of r = setclientid_key arg -> Z.shiftr id 32 = epoch_low ->
  (forall f res w' B', f <> at_record -> (f = no_fault \/ ~ plenty w \/ (f = at_insert /\ number_taken (view w) (setclientid_key arg) id)) ->
     cinv B' [] [p] Held w' -> res = (spec_new f arg data id v (view w)).1 ->
     moves (spec_new f arg data id v (view w)).2 (clientid_counter w) (clientid_verifier w) w w' -> Q res w') ->
  wp (setclientid_new arg data p id v) Q w.
Proof.
  intros HI Hp Hk Hid HQ. assert (Hne : id <> 0) by (intros ->; done). set (k := setclientid_key arg) in *.
  assert (Hflags : cr_pnfs_flags r = 0) by exact (f_equal snd Hk).
  unfold setclientid_new. apply wp_bind, (wp_get_rec p r); [done|]. apply wp_bind, (wp_remove_old B p r); [done|done|].
  intros w1 HI1 HM1. destruct (held_key _ _ _ _ w w1 p r HI1 ltac:(left) Hp (ci_addresses _ _ _ _ _ HI) (proj1 HM1)) as (r1 & Hp1 & Hk1).
  rewrite Hk in *.
  apply wp_bind, (wp_create_id B [] [p] Held id p r1); [done|done| |done| |].
  { rewrite <- Hflags. pose proof (f_equal snd Hk1) as Hf1. simpl in Hf1. rewrite Hf1. split; [|done]. intros _. done. }
  - intros w2 Hpl HI2 HQ2. apply wp_ret, (HQ at_client _ _ B); [done| |done|done|].
    + right. left. intros Hw. apply Hpl. by apply HM1.
    + by eapply moves_quiet.
  - intros a w2 HaB HaX HI2 HB2. unfold id_or_next, counter_after in HB2. rewrite (proj2 (Z.eqb_neq id 0)) in HB2 by done.
    unfold spec_new in HQ. fold k in HQ. unfold strmaxcpy, SOCK_NAME_MAX.
    case_decide as Hlong; [rewrite (proj2 (Z.leb_le _ _)) by lia|rewrite (proj2 (Z.leb_gt _ _)) by lia].
    { apply wp_ret, (HQ no_fault _ _ (a :: B)); [done|by left|done|done|]. eapply moves_moves; [exact HM1|].
      destruct (moves_counters _ _ _ _ _ HM1) as [<- <-]. destruct HM1 as (_ & HV1 & _). destruct HB2 as [_ _ HK _ HV HE HP]. split_and!; try done.
      intros k'. by rewrite HV, HV1. }
    rewrite client_location_spec. apply wp_bind, (wp_set_born B [] [p] Held a _ _ _ _ w1 w2 HI2 HB2); [done|done|]. intros w3 HI3 HB3.
    apply wp_bind, (wp_set_born B [] [p] Held a _ _ _ _ w1 w3 HI3 HB3); [done|done|]. intros w4 HI4 HB4.
    apply wp_bind, (wp_set_born B [] [p] Held a _ _ _ _ w1 w4 HI4 HB4); [done|done|]. intros w5 HI5 HB5.
    destruct (held_key _ _ _ _ w1 w5 p r1 HI5 ltac:(left) Hp1 (ci_addresses _ _ _ _ _ HI1) (bo_keys _ _ _ _ _ HB5)) as (r5 & Hp5 & Hk5).
    rewrite Hk1 in Hk5. pose proof HM1 as (_ & HV1 & _ & HPl1).
    assert (Hnone : (view w1 (record_key_of r5)).2 = None).
    { rewrite HV1, Hk5. unfold with_unconfirmed, upd_view. by rewrite decide_True. }
    apply wp_bind. eapply (wp_insert B [] [p] Held a _ r5 _ _ w1 w5 HI5 HB5); try done.
    + intros w6 Hwhy HI6 HB6. rewrite decide_True by done. apply wp_ret, (HQ at_insert _ _ B); [done| |done|done|].
      * right. destruct Hwhy as [Hpl|[b Hb]]; [left; auto|]. right. split; [done|].
        destruct (unconf_view _ _ _ _ _ _ _ HI5 Hb) as (k' & c' & _ & Hv' & Hc'). rewrite (bo_view _ _ _ _ _ HB5), HV1 in Hv'.
        unfold with_unconfirmed, upd_view in Hv'. case_decide as Hkk; [done|]. exists k', (aid_of c'). done.
      * eapply moves_moves; [exact HM1|]. destruct (moves_counters _ _ _ _ _ HM1) as [<- <-]. apply becomes_moves in HB6.
        destruct HB6 as (? & HV6 & ? & ?). split_and!; try done. intros k'. by rewrite HV6, HV1.
    + intros w6 HI6 HB6 _. rewrite decide_False by tauto. apply wp_ret, (HQ no_fault _ _ B); [done|by left|done|done|].
      eapply moves_moves; [exact HM1|]. destruct (moves_counters _ _ _ _ _ HM1) as [<- <-]. apply becomes_moves in HB6.
      destruct HB6 as (? & HV6 & ? & ?). split_and!; try done. intros k'. rewrite HV6, Hk5. by rewrite (with_unconfirmed_twice k None _ (view w) (view w1) HV1).
Qed.

(** The numbers for a new client id are drawn. *)
Lemma cinv_counters B X XR XS w n v :
  cinv B X XR XS w ->
  let w' := upd_clientid_verifier (fun _ => v) (upd_clientid_counter (fun _ => n) w) in
  cinv B X XR XS w' /\ moves (view w) n v w w'.
Proof. intros HI w'. split; [by apply (cinv_same _ _ _ _ w)|]. split_and!; try done. by apply old_keys_same. Qed.

Lemma wp_numbers B X XR XS (same : bool) id (Q : Z -> Z -> cworld -> Prop) w :
  cinv B X XR XS w ->
  (let n := if same then clientid_counter w else next_number w in
   let id' := if same then id else numbered (next_number w) in
   let v := u64 (clientid_verifier w + 1) in
   forall w', cinv B X XR XS w' -> moves (view w) n v w w' -> Q id' v w') ->
  wp (if same then mret id else new_clientid) (fun i w1 => wp new_clientid_verifier (Q i) w1) w.
Proof.
  intros HI HQ. destruct same; simpl in HQ.
  - apply wp_ret, wp_new_clientid_verifier. destruct (cinv_counters B X XR XS w (clientid_counter w) (u64 (clientid_verifier w + 1)) HI) as [H1 H2].
    rewrite (counter_same w _ eq_refl) in H1, H2. by apply HQ.
  - apply wp_new_clientid, wp_new_clientid_verifier. simpl.
    destruct (cinv_counters B X XR XS w (next_number w) (u64 (clientid_verifier w + 1)) HI) as [H1 H2]. by apply HQ.
Qed.

Lemma next_epoch w : Z.shiftr (numbered (next_number w)) 32 = epoch_low.
Proof. apply numbered_epoch. unfold next_number. pose proof (u32_range (clientid_counter w + 1)) as Hr. unfold UINT32_MAX in Hr. lia. Qed.

(** The outcome that the specification allows for [w]. *)
Definition setclientid_post (arg : SETCLIENTID4args) (data : compound_data) w (res : SETCLIENTID4res) w' : Prop :=
  exists f, fault_ok f (plenty w) (view w) arg (clientid_counter w) /\
    let s := spec_setclientid f arg data (view w) (clientid_counter w) (clientid_verifier w) in
    res = s.1.1 /\ moves s.1.2 s.2.1 s.2.2 w w'.

Lemma wp_setclientid_record B p r arg data w :
  cinv B [] [p] Held w -> cw_records w !! p = Some r -> record_key_of r = setclientid_key arg -> (0 <? minorversion data) = false ->
  wp (setclientid_record arg data p) (fun res w' => (exists B', cinv B' [] [p] Held w') /\ setclientid_post arg data w res w') w.
Proof.
  intros HI Hp Hk Hmv. set (k := setclientid_key arg) in *. unfold setclientid_record. apply wp_bind, (wp_get_rec p r); [done|].
  pose proof (view_record _ _ _ _ _ _ _ HI Hp) as Hview. rewrite Hk in Hview.
  assert (Hflags : cr_pnfs_flags r = 0) by exact (f_equal snd Hk).
  assert (Hnew : forall id n v w1, cinv B [] [p] Held w1 -> moves (view w) n v w w1 -> Z.shiftr id 32 = epoch_low ->
     spec_number arg (view w k).1 (clientid_counter w) = (id, n) -> v = u64 (clientid_verifier w + 1) ->
     match (view w k).1 with Some c => aid_principal c data = true | None => True end ->
     wp (setclientid_new arg data p id v) (fun res w' => (exists B', cinv B' [] [p] Held w') /\ setclientid_post arg data w res w') w1).
  { intros id n v w1 HI1 HM1 Hid Hnum Hv Hpr.
    destruct (held_key _ _ _ _ w w1 p r HI1 ltac:(left) Hp (ci_addresses _ _ _ _ _ HI) (proj1 HM1)) as (r1 & Hp1 & Hk1).
    apply (wp_setclientid_new B p r1); [done|done|by rewrite Hk1|done|]. intros f res w' B' Hf Hfok HI' Hres HM. split; [by exists B'|].
    destruct (moves_counters _ _ _ _ _ HM1) as [En Ev]. rewrite En, Ev in HM. pose proof HM1 as (_ & HV1 & _ & HP1).
    exists f. split.
    - unfold fault_ok. fold k. rewrite Hnum. simpl. destruct Hfok as [?|[?|[? (k' & u & H1 & H2 & H3)]]]; [by left|right; left; auto|].
      right. right. split; [done|]. exists k', u. by rewrite <- HV1.
    - unfold spec_setclientid. rewrite Hmv. fold k. rewrite Hnum. cbn [fst snd].
      assert (Hgo : res = (spec_new f arg data id v (view w)).1 /\ moves (spec_new f arg data id v (view w)).2 n v w w').
      { destruct (spec_new_ext f arg data id v (view w1) (view w) HV1) as [HE1 HE2]. rewrite <- HE1. split; [done|]. eapply moves_moves; [exact HM1|]. destruct HM as (? & HV & ? & ?). split_and!; try done.
        intros k'. by rewrite HV, HE2. }
      rewrite <- Hv. destruct (view w k).1 as [c|]; rewrite ?Hpr; destruct f; try (by destruct Hf); exact Hgo. }
  destruct (cr_confirmed_rec r) as [conf|] eqn:Hconf.
  - destruct (ro_conf _ _ _ _ _ (ci_records _ _ _ _ _ HI) p r conf Hp Hconf) as (c & Ha & Hs & Hcp).
    assert (HB : conf ∉ B).
    { intros HB. destruct (rf_new _ _ _ (ci_refs _ _ _ _ _ HI) conf HB) as (d & Hd & [Hn _ _ _]). congruence. }
    simpl in Hview. rewrite Ha in Hview. simpl in Hview.
    apply wp_bind, (wp_inc_id B [] [p] Held conf c); [done|done|done|]. intros w1 HI1 HQ1.
    destruct (held_id _ _ _ _ _ conf HI1) as (c1 & Ha1 & _); [left|]. pose proof HQ1 as ((_ & _ & HK1) & _).
    destruct (HK1 conf c1 Ha1) as (c' & Ha' & Hident); [apply not_elem_of_nil|]. assert (c' = c) as -> by congruence.
    assert (Haid : aid_of c1 = aid_of c) by exact (f_equal (fun t => t.1.1.1.1.1) Hident). rewrite <- Haid in Hview.
    apply wp_bind, (wp_get_cid conf c1); [done|]. change (same_principal c1 data) with (aid_principal (aid_of c1) data).
    destruct (aid_principal (aid_of c1) data) eqn:Hpr; simpl.
    + pose proof (wp_numbers B [conf] [p] Held (sa_verifier arg =? cid_incoming_verifier c1) (cid_clientid c1)
        (fun id v w2 => wp (dec_client_id_ref conf;; setclientid_new arg data p id v)
           (fun res w' => (exists B', cinv B' [] [p] Held w') /\ setclientid_post arg data w res w') w2) w1 HI1) as Hnum.
      apply wp_bind. eapply wp_mono; [|apply Hnum]; [intros i w2 Hw2; by apply wp_bind|]. clear Hnum. cbv zeta. intros w2 HI2 HM2.
      apply wp_bind, (wp_dec_id B [] [p] Held); [done|]. intros w3 HI3 HQ3.
      pose proof HQ1 as (_ & HV1 & HE1 & _). pose proof (f_equal (fun t => t.1.1.1) HE1) as En.
      pose proof (f_equal (fun t => t.1.1.2) HE1) as Ev. unfold next_number in *. simpl in En, Ev. rewrite En, Ev in *.
      eapply Hnew; [done| | | |done|by rewrite Hview].
      * eapply moves_quiet; [|exact HQ3]. eapply moves_moves; [by apply quiet_moves|].
        destruct HM2 as (? & HV2 & HE2 & ?). split_and!; [done| |exact HE2|done]. intros k'. by rewrite HV2.
      * destruct (sa_verifier arg =? _); [by apply (to_epoch _ _ _ _ (ci_tables _ _ _ _ _ HI1) conf)|apply next_epoch].
      * rewrite Hview. unfold spec_number. change (ai_incoming (aid_of c1)) with (cid_incoming_verifier c1). simpl.
        by destruct (sa_verifier arg =? cid_incoming_verifier c1).
    + pose proof (rf_cb _ _ _ (ci_refs _ _ _ _ _ HI1) conf c1 Ha1 HB) as Hcb.
      assert (Hmv1 : cid_minorversion c1 = 0).
      { assert (Hm : cid_minorversion c1 = cid_minorversion c) by exact (f_equal (fun t => t.1.1.2) Hident). rewrite Hm.
        destruct (ro_id _ _ _ _ _ (ci_records _ _ _ _ _ HI) conf c Ha) as (r0 & Hr0 & _ & _ & Hf). rewrite Hcp in Hr0.
        apply Hf. congruence. }
      unfold cb_ok in Hcb. unfold client_using. destruct (cid_cb c1) as [|cb|l] eqn:Hl; [done| |lia].
      apply wp_bind, wp_ret, wp_bind, (wp_dec_id B [] [p] Held); [done|]. intros w2 HI2 HQ2. apply wp_ret. split; [by exists B|].
      exists no_fault. split; [by left|]. unfold spec_setclientid. rewrite Hmv. fold k. rewrite Hview. cbn [fst]. rewrite Hpr.
      assert (Hai : ai_cb (aid_of c1) = Some cb) by (unfold aid_of; simpl; by rewrite Hl). rewrite Hai. split; [done|].
      apply quiet_moves. by etrans.
  - apply wp_bind, wp_new_clientid, wp_bind, wp_new_clientid_verifier. simpl in *.
    destruct (cinv_counters B [] [p] Held w (next_number w) (u64 (clientid_verifier w + 1)) HI) as [H1 H2].
    by eapply Hnew; [exact H1|exact H2|apply next_epoch|rewrite Hview|done|rewrite Hview].
Qed.

(** SETCLIENTID does what its specification says. *)
Lemma wp_setclientid B arg data w :
  cinv B [] [] Held w -> get_client_record (sa_id arg) 0 0 w <> Fatal ->
  wp (nfs4_op_setclientid arg data) (fun res w' => (exists B', cinv B' [] [] Held w') /\ setclientid_post arg data w res w') w.
Proof.
  intros HI HF. unfold nfs4_op_setclientid. destruct (0 <? minorversion data) eqn:Hmv.
  { apply wp_ret. split; [by exists B|]. exists no_fault. split; [by left|]. unfold spec_setclientid. rewrite Hmv. simpl.
    split; [done|]. by apply quiet_moves. }
  apply wp_bind, (wp_get_client_record B [] [] Held); [done|done| |].
  - intros w1 Hpl HI1 HQ1. apply wp_ret. split; [by exists B|]. exists at_record. split; [right; by left|].
    unfold spec_setclientid. rewrite Hmv. simpl. split; [done|]. by apply quiet_moves.
  - intros p r w1 HI1 HQ1 Hp Hk _. apply wp_bind. eapply wp_mono; [|by apply (wp_setclientid_record B p r)].
    intros res w2 [[B' HI2] (f & Hf & Hres & HM)]. apply wp_bind, (wp_dec_rec B' [] [] Held); [done|]. intros w3 HI3 HQ3. apply wp_ret.
    split; [by exists B'|]. pose proof HQ1 as (_ & HV1 & HE1 & HP1).
    pose proof (f_equal (fun t => t.1.1.1) HE1) as En. pose proof (f_equal (fun t => t.1.1.2) HE1) as Ev. simpl in En, Ev.
    rewrite En, Ev in *. exists f.
    destruct (spec_setclientid_ext f arg data (view w1) (view w) (clientid_counter w) (clientid_verifier w) HV1) as (E1 & E2 & E3). split.
    + destruct Hf as [?|[?|[? (k & u & H1 & H2 & H3)]]]; [by left|right; left; auto|]. right. right. split; [done|].
      exists k, u. rewrite HV1 in H2, H3. done.
    + cbv zeta in *. rewrite <- E1, <- E3. split; [done|]. eapply moves_quiet; [|exact HQ3].
      eapply moves_moves; [by apply quiet_moves|]. destruct HM as (? & HV & ? & ?). split_and!; try done. intros k. by rewrite HV.
Qed.
End refine.
