(* ===== verification/ClientConfirm.v ===== *)
(** What SETCLIENTID_CONFIRM (Protocols/NFS/nfs4_op_setclientid_confirm.c) does to the
    clients, and that the operation implements it. *)

From S2P Require Import Prelude Status World Owner Client ClientInv ClientStep ClientEnter ClientOps ClientSpec.

Section spec.
Context {env : ClientEnv}.

(** A confirmed client id with the callback and the verifier of the unconfirmed one. *)
Definition take_over (c u : aid) : aid :=
  mk_aid (ai_clientid c) (ai_credential c) (ai_addr c) (ai_incoming c) (ai_verifier u) (ai_cb u).

Definition unconfirmed_as (V : clients) (k : record_key) (clientid : Z) (u : aid) : Prop :=
  (V k).2 = Some u /\ ai_clientid u = clientid.
Definition confirmed_as (V : clients) (k : record_key) (clientid : Z) (c : aid) : Prop :=
  (V k).1 = Some c /\ ai_clientid c = clientid.

(** SETCLIENTID_CONFIRM.  [oom]: an allocation may fail.  Nothing depends on the
    verifier of the request when there is an unconfirmed client id. *)
Inductive confirm_spec (oom : Prop) (V : clients) (clientid confirm : Z) (data : compound_data) : nfsstat4 -> clients -> Prop :=
| cs_notsupp :
    0 < minorversion data -> confirm_spec oom V clientid confirm data NFS4ERR_NOTSUPP V
| cs_stale :
    Z.shiftr clientid 32 <> epoch_low -> confirm_spec oom V clientid confirm data NFS4ERR_STALE_CLIENTID V
| cs_expired :
    (forall k u, ~ unconfirmed_as V k clientid u) -> (forall k c, ~ confirmed_as V k clientid c) ->
    confirm_spec oom V clientid confirm data NFS4ERR_EXPIRED V
| cs_again k c :
    (forall k u, ~ unconfirmed_as V k clientid u) -> confirmed_as V k clientid c ->
    confirm_spec oom V clientid confirm data
      (if aid_principal c data && (ai_verifier c =? confirm) then NFS4_OK else NFS4ERR_CLID_INUSE) V
| cs_principal k u :
    unconfirmed_as V k clientid u -> aid_principal u data = false ->
    confirm_spec oom V clientid confirm data NFS4ERR_CLID_INUSE V
| cs_update k c u :
    unconfirmed_as V k clientid u -> confirmed_as V k clientid c -> aid_principal u data = true ->
    confirm_spec oom V clientid confirm data NFS4_OK (upd_view k (Some (take_over c u), None) V)
| cs_new k u :
    unconfirmed_as V k clientid u -> (forall c, ~ confirmed_as V k clientid c) -> aid_principal u data = true ->
    confirm_spec oom V clientid confirm data NFS4_OK (upd_view k (Some u, None) V)
| cs_fail k u :
    unconfirmed_as V k clientid u -> (forall c, ~ confirmed_as V k clientid c) -> aid_principal u data = true ->
    oom \/ (exists k' c, confirmed_as V k' clientid c) ->
    confirm_spec oom V clientid confirm data NFS4ERR_RESOURCE (upd_view k (None, None) V).
End spec.

Section refine.
Context {env : ClientEnv} (Held : list loc).
Implicit Types (w : cworld).

(** A client id that is held is the one it was. *)
Lemma held_ident B X XR XS S w w' a c :
  cinv B X XR XS w' -> a ∈ X -> keeps S w w' -> a ∉ S -> cw_ids w !! a = Some c ->
  exists c', cw_ids w' !! a = Some c' /\ ident c' = ident c /\ a ∉ B.
Proof.
  intros HI Hin (_ & _ & HK) HS Ha. destruct (held_id _ _ _ _ _ a HI Hin) as (c' & Ha' & HB). exists c'. split_and!; try done.
  destruct (HK a c' Ha' HS) as (d & Hd & ->). congruence.
Qed.

Lemma quiet_keeps w w' : quiet w w' -> keeps [] w w'.
Proof. by intros (? & _). Qed.

Lemma wp_set_cb_chan B X XR XS a c down (Q : unit -> cworld -> Prop) w :
  cinv B X XR XS w -> cw_ids w !! a = Some c -> a ∉ B ->
  (forall w', cinv B X XR XS w' -> quiet w w' -> Q tt w') -> wp (set_cb_chan a down) Q w.
Proof.
  intros HI Ha HB HQ. unfold set_cb_chan. apply (wp_set_cid a c); [done|]. set (c' := with_cb_chan_down _ c).
  pose proof (ci_refs _ _ _ _ _ HI) as HR. destruct (rf_refs _ _ _ HR a c Ha HB). apply HQ.
  - apply (cinv_alike B X X XR XS w a c c'); try done; [by apply (rf_cb _ _ _ HR a c)|by apply (rf_owners _ _ _ HR a c)|by right].
  - by apply (quiet_set_id w a c).
Qed.

(** The confirmed client id of another number expires, or there is none. *)
Lemma wp_confirm_new B p a c r down (Q : nfsstat4 -> cworld -> Prop) w :
  cinv B [a] [p] Held w -> cw_ids w !! a = Some c -> a ∉ B -> cid_confirmed c = UNCONFIRMED_CLIENT_ID ->
  cw_records w !! cid_client_record c = Some r -> (view w (record_key_of r)).1 = None ->
  (forall w', ~ plenty w \/ is_Some (ht_confirmed_client_id w !! cid_clientid c) -> cinv B [] [p] Held w' ->
     moves (upd_view (record_key_of r) (None, None) (view w)) (clientid_counter w) (clientid_verifier w) w w' -> Q NFS4ERR_RESOURCE w') ->
  (forall w', cinv B [] [p] Held w' ->
     moves (upd_view (record_key_of r) (Some (aid_of c), None) (view w)) (clientid_counter w) (clientid_verifier w) w w' -> Q NFS4_OK w') ->
  wp (confirm_new a down) Q w.
Proof.
  intros HI Ha HB Hs Hp Hv H1 H2. unfold confirm_new. apply wp_bind, (wp_confirm B [a] [p] Held a c r); try done.
  - intros w1 Hwhy HI1 HC1. rewrite decide_True by done. apply wp_bind, (wp_dec_id B [] [p] Held); [done|]. intros w2 HI2 HQ2.
    apply wp_ret, H1; [done|done|]. eapply moves_quiet; [by eapply changes_moves|done].
  - intros w1 _ HI1 HC1 Hids. rewrite decide_False by tauto.
    apply wp_bind, (wp_set_cb_chan B [a] [p] Held a (with_cid_confirmed CONFIRMED_CLIENT_ID c)); [done|by rewrite Hids, lookup_insert_eq|done|].
    intros w2 HI2 HQ2. apply wp_bind, (wp_dec_id B [] [p] Held); [done|]. intros w3 HI3 HQ3. apply wp_ret, H2; [done|].
    eapply moves_quiet; [eapply moves_quiet; [by eapply changes_moves|done]|done].
Qed.

Lemma upd_view_twice k v v' (V V' : clients) :
  (forall k', V' k' = upd_view k v' V k') -> forall k', upd_view k v V' k' = upd_view k v V k'.
Proof. intros HV k'. unfold upd_view in *. case_decide as H; [done|]. rewrite HV. by rewrite decide_False. Qed.

Lemma upd_view_eq k v (V : clients) : upd_view k v V k = v.
Proof. unfold upd_view. by rewrite decide_True. Qed.

(** The order of the references that are held does not matter. *)
Lemma cinv_swap B a b X XR XS w : cinv B (a :: b :: X) XR XS w -> cinv B (b :: a :: X) XR XS w.
Proof.
  intros [HT HR HRec HS HSq HA]. split; try done. apply (refs_fewer B (a :: b :: X)); [done|intros d; simpl; lia|].
  intros d. rewrite !elem_of_cons. tauto.
Qed.

(** Fields of a confirmed client id that clients see are set. *)
Lemma wp_set_confirmed B X XR XS a c f r (Q : unit -> cworld -> Prop) w :
  cinv B X XR XS w -> cw_ids w !! a = Some c -> a ∉ B -> cid_confirmed c = CONFIRMED_CLIENT_ID ->
  cw_records w !! cid_client_record c = Some r -> alike c (f c) -> sessions_of (f c) = sessions_of c -> cb_ok (f c) ->
  owners_of (f c) = owners_of c -> cid_refcount (f c) = cid_refcount c ->
  (forall w', cinv B X XR XS w' -> changes [a] (upd_view (record_key_of r) (Some (aid_of (f c)), (view w (record_key_of r)).2) (view w)) w w' ->
     cw_ids w' = <[a := f c]> (cw_ids w) -> cw_records w' = cw_records w -> Q tt w') ->
  wp (set_cid a f) Q w.
Proof.
  intros HI Ha HB Hs Hp HAl Hse Hcb Hown Hrf HQ. apply (wp_set_cid a c); [done|]. pose proof HI as [HT HR HRec HS HSq HA].
  destruct (rf_refs _ _ _ HR a c Ha HB) as [Hneed Hpos]. pose proof HAl as (E1 & E2 & E3 & E4).
  assert (Hneeds : needs (f c) = needs c) by (unfold needs, hashed; by rewrite E2, Hse, Hown). apply HQ; [| |done|done].
  - apply (cinv_alike B X X XR XS w a c (f c)); try done; rewrite ?Hown, ?Hneeds, ?Hrf; try done; [by apply (rf_owners _ _ _ HR a c)|by right].
  - split_and!; try done.
    + apply (keeps_insert w _ a (f c)); [done|by apply old_keys_same|done].
    + intros k. rewrite (view_repoint B XR w _ a c (f c) (cid_client_record c) r r HRec Ha eq_refl Hp eq_refl); [|done|simpl; by rewrite insert_id|done].
      unfold upd_view. case_decide as Hk; [|done]. rewrite (view_record _ _ _ _ _ _ _ HI Hp).
      destruct (ro_id _ _ _ _ _ HRec a c Ha) as (r0 & Hr0 & H1 & _). assert (r0 = r) as -> by congruence. rewrite (H1 Hs). simpl.
      rewrite lookup_insert_eq. f_equal. destruct (cr_unconfirmed_rec r) as [b|] eqn:Hb; [|done]. simpl.
      destruct (ro_unconf _ _ _ _ _ HRec _ r b Hp Hb) as (d & Hd & Hds & _). rewrite lookup_insert_ne; [done|]. intros <-. congruence.
Qed.

Lemma wp_confirm_update B p a u b c r cb down (Q : nfsstat4 -> cworld -> Prop) w :
  cinv B [b; a] [p] Held w -> cw_ids w !! a = Some u -> cid_confirmed u = UNCONFIRMED_CLIENT_ID -> cid_cb u = cb_v40 cb ->
  cw_ids w !! b = Some c -> cid_confirmed c = CONFIRMED_CLIENT_ID -> cid_client_record u = p -> cid_client_record c = p ->
  cw_records w !! p = Some r ->
  (forall w', cinv B [] [p] Held w' ->
     moves (upd_view (record_key_of r) (Some (take_over (aid_of c) (aid_of u)), None) (view w)) (clientid_counter w) (clientid_verifier w) w w' ->
     Q NFS4_OK w') ->
  wp (confirm_update a b down) Q w.
Proof.
  intros HI Ha Hus Hucb Hb Hcs Hup Hcp Hp HQ. assert (Hab : a <> b) by (intros ->; congruence).
  destruct (held_id _ _ _ _ _ a HI) as (? & _ & HaB); [right; left|]. destruct (held_id _ _ _ _ _ b HI) as (? & _ & HbB); [left|].
  pose proof (ci_refs _ _ _ _ _ HI) as HR. assert (Hmv : cid_minorversion c = 0).
  { destruct (ro_id _ _ _ _ _ (ci_records _ _ _ _ _ HI) a u Ha) as (r1 & Hr1 & _ & _ & Hf1). destruct (ro_id _ _ _ _ _ (ci_records _ _ _ _ _ HI) b c Hb) as (r2 & Hr2 & _ & _ & Hf2).
    assert (r2 = r1) as -> by congruence. pose proof (rf_cb _ _ _ HR a u Ha HaB) as Hok. unfold cb_ok in Hok. rewrite Hucb in Hok. tauto. }
  assert (Hnos : sessions_of c = []).
  { pose proof (rf_cb _ _ _ HR b c Hb HbB) as Hok. unfold cb_ok in Hok. unfold sessions_of. destruct (cid_cb c); [done|done|lia]. }
  unfold confirm_update. apply wp_bind, (wp_get_cid a u); [done|]. rewrite Hucb. set (c1 := with_cid_cb (cb_v40 cb) c).
  apply wp_bind, (wp_set_confirmed B [b; a] [p] Held b c _ r); try done; [by rewrite Hcp|].
  intros w1 HI1 HC1 Hids1 Hrecs1. set (c2 := with_cid_verifier (cid_verifier u) c1).
  apply wp_bind, (wp_set_confirmed B [b; a] [p] Held b c1 _ r); try done; [by rewrite Hids1, lookup_insert_eq|by rewrite Hrecs1; simpl; rewrite Hcp|].
  intros w2 HI2 HC2 Hids2 Hrecs2. apply wp_bind, (wp_remove_unconfirmed B [b; a] [p] Held a u r); try done.
  { rewrite Hids2, lookup_insert_ne by done. by rewrite Hids1, lookup_insert_ne. }
  { by rewrite Hrecs2, Hrecs1, Hup. }
  intros w3 HI3 HC3. apply wp_bind, (wp_dec_id B [b] [p] Held); [by apply cinv_swap|]. intros w4 HI4 HQ4.
  destruct (held_ident B [b] [p] Held [a] w2 w4 b c2) as (c4 & Hb4 & _); [done|left|by destruct (changes_quiet _ _ _ _ _ HC3 HQ4)| |by rewrite Hids2, lookup_insert_eq|].
  { rewrite list_elem_of_singleton. congruence. }
  apply wp_bind, (wp_set_cb_chan B [b] [p] Held b c4); [done|done|done|]. intros w5 HI5 HQ5.
  apply wp_bind, (wp_dec_id B [] [p] Held); [done|]. intros w6 HI6 HQ6. apply wp_ret, HQ; [done|].
  eapply moves_quiet; [|exact HQ6]. eapply moves_quiet; [|exact HQ5]. eapply moves_quiet; [|exact HQ4].
  apply changes_moves in HC1, HC2, HC3. destruct (moves_counters _ _ _ _ _ HC1) as [En1 Ev1]. destruct (moves_counters _ _ _ _ _ HC2) as [En2 Ev2].
  eapply moves_moves; [exact HC1|]. eapply moves_moves; [exact HC2|]. rewrite <- En1, <- Ev1, <- En2, <- Ev2.
  pose proof HC1 as (_ & HV1 & _). pose proof HC2 as (_ & HV2 & _). destruct HC3 as (? & HV3 & ? & ?). split_and!; try done.
  intros k'. rewrite HV3, (upd_view_twice _ _ _ _ _ HV2), (upd_view_twice _ _ _ _ _ HV1). rewrite HV2, upd_view_eq.
  unfold take_over, erased, aid_of. simpl. by rewrite Hucb.
Qed.

(** The clients with an unconfirmed 4.1 client id that has the number of their confirmed
    one. *)
Definition same_number (V : clients) (clientid : Z) : Prop :=
  exists k c u, unconfirmed_as V k clientid u /\ confirmed_as V k clientid c /\ ai_cb u = None.

(** The outcome that the specification allows for [w]. *)
Definition confirm_post (clientid confirm : Z) (data : compound_data) w (status : nfsstat4) w' : Prop :=
  exists V, confirm_spec (~ plenty w) (view w) clientid confirm data status V /\
    moves V (clientid_counter w) (clientid_verifier w) w w'.

Lemma ident_fields c c' :
  ident c' = ident c -> aid_of c' = aid_of c /\ cid_confirmed c' = cid_confirmed c /\ cid_client_record c' = cid_client_record c /\
    cid_minorversion c' = cid_minorversion c.
Proof.
  intros H. split_and!; [exact (f_equal (fun t => t.1.1.1.1.1) H)|exact (f_equal (fun t => t.1.1.1.1.2) H)|
    exact (f_equal (fun t => t.1.1.1.2) H)|exact (f_equal (fun t => t.1.1.2) H)].
Qed.

(** From a store that looks the same. *)
Lemma confirm_spec_ext oom oom' (V V' V1 : clients) clientid confirm data st :
  confirm_spec oom V clientid confirm data st V1 -> (forall k, V k = V' k) -> (oom -> oom') ->
  exists V1', confirm_spec oom' V' clientid confirm data st V1' /\ forall k, V1 k = V1' k.
Proof.
  intros HS HV Ho.
  assert (Hun : forall k u, unconfirmed_as V k clientid u <-> unconfirmed_as V' k clientid u) by (intros k u; unfold unconfirmed_as; by rewrite HV).
  assert (Hco : forall k c, confirmed_as V k clientid c <-> confirmed_as V' k clientid c) by (intros k c; unfold confirmed_as; by rewrite HV).
  assert (Hup : forall k v k', upd_view k v V k' = upd_view k v V' k') by (intros k v k'; unfold upd_view; by case_decide).
  destruct HS as [Hm|He|Hnu Hnc|k c Hnu Hc|k u Hu Hp|k c u Hu Hc Hp|k u Hu Hnc Hp|k u Hu Hnc Hp Hwhy].
  - exists V'. split; [by apply cs_notsupp|done].
  - exists V'. split; [by apply cs_stale|done].
  - exists V'. split; [apply cs_expired|done]; [intros k u; rewrite <- Hun; apply Hnu|intros k c; rewrite <- Hco; apply Hnc].
  - exists V'. split; [apply (cs_again _ _ _ _ _ k); [intros k' u; rewrite <- Hun; apply Hnu|by apply Hco]|done].
  - exists V'. split; [apply (cs_principal _ _ _ _ _ k u); [by apply Hun|done]|done].
  - exists (upd_view k (Some (take_over c u), None) V'). split; [apply cs_update; [by apply Hun|by apply Hco|done]|done].
  - exists (upd_view k (Some u, None) V'). split; [apply cs_new; [by apply Hun|intros c; rewrite <- Hco; apply Hnc|done]|done].
  - exists (upd_view k (None, None) V'). split; [apply (cs_fail _ _ _ _ _ k u); [by apply Hun|intros c; rewrite <- Hco; apply Hnc|done|]|done].
    destruct Hwhy as [?|(k' & c & Hc)]; [by left; auto|right]. exists k', c. by apply Hco.
Qed.

Lemma confirm_post_quiet clientid confirm data w1 w2 st w3 w4 :
  quiet w1 w2 -> confirm_post clientid confirm data w2 st w3 -> quiet w3 w4 -> confirm_post clientid confirm data w1 st w4.
Proof.
  intros HQ (V & HS & HM) HQ'. pose proof HQ as (_ & HV & _ & HP).
  destruct (confirm_spec_ext _ (~ plenty w1) _ (view w1) _ _ _ _ _ HS HV) as (V1 & HS1 & HE1); [tauto|]. exists V1. split; [done|].
  eapply moves_quiet; [|exact HQ']. eapply moves_moves; [by apply quiet_moves|].
  destruct (moves_counters _ _ _ _ _ (quiet_moves _ _ HQ)) as [<- <-]. destruct HM as (? & HV1 & ? & ?). split_and!; try done.
  intros k. by rewrite HV1.
Qed.

(** The confirmed client id [b] of another number expires, and [a] takes its place. *)
Lemma wp_confirm_other B p a u b c r clientid confirm data down w :
  cinv B [b; a] [p] Held w -> cw_ids w !! a = Some u -> cid_confirmed u = UNCONFIRMED_CLIENT_ID ->
  cw_ids w !! b = Some c -> cid_confirmed c = CONFIRMED_CLIENT_ID -> cid_client_record u = p -> cid_client_record c = p ->
  cw_records w !! p = Some r -> cid_clientid u = clientid -> cid_clientid c <> clientid -> aid_principal (aid_of u) data = true ->
  view w (record_key_of r) = (Some (aid_of c), Some (aid_of u)) ->
  wp (nfs_client_id_expire b;; dec_client_id_ref b;; confirm_new a down)
    (fun st w' => cinv B [] [p] Held w' /\ confirm_post clientid confirm data w st w') w.
Proof.
  intros HI Ha Hus Hb Hcs Hup Hcp Hp Hid Hcid Hpr Hview. assert (Hab : a <> b) by (intros ->; congruence). set (k := record_key_of r) in *.
  destruct (held_id _ _ _ _ _ b HI) as (? & _ & HbB); [left|]. destruct (held_id _ _ _ _ _ a HI) as (? & _ & HaB); [right; left|].
  assert (Hu : unconfirmed_as (view w) k clientid (aid_of u)) by (split; [by rewrite Hview|done]).
  assert (Hno : forall d, ~ confirmed_as (view w) k clientid d).
  { intros d [Hd Hdid]. rewrite Hview in Hd. simpl in Hd. assert (aid_of c = d) as <- by congruence. done. }
  assert (Hconf : is_confirmed c = true) by (unfold is_confirmed; by rewrite Hcs).
  apply wp_bind, (wp_expire B [b; a] [p] Held b c r); [done|done|done|congruence|by rewrite Hcp|]. intros w1 HI1 HC1 _. rewrite Hconf in HC1. fold k in HC1.
  apply wp_bind, (wp_dec_id B [a] [p] Held); [done|]. intros w2 HI2 HQ2. pose proof (changes_quiet _ _ _ _ _ HC1 HQ2) as HC2.
  pose proof HC2 as (HK2 & HV2 & _ & HP2).
  destruct (held_ident B [a] [p] Held [b] w w2 a u HI2 ltac:(left) HK2 ltac:(rewrite list_elem_of_singleton; congruence) Ha) as (u2 & Ha2 & Hi2 & _).
  apply ident_fields in Hi2 as (Eu & Es & Ep & _).
  destruct (held_key _ _ _ _ w w2 p r HI2 ltac:(left) Hp (ci_addresses _ _ _ _ _ HI) (proj1 HK2)) as (r2 & Hp2 & Hk2). fold k in Hk2.
  assert (Ecid : cid_clientid u2 = clientid) by (rewrite <- Hid; exact (f_equal ai_clientid Eu)).
  pose proof (changes_moves _ _ _ _ HC2) as HM2. destruct (moves_counters _ _ _ _ _ HM2) as [En Ev].
  apply (wp_confirm_new B p a u2 r2); [done|done|done|congruence|by rewrite Ep, Hup|rewrite Hk2, HV2, upd_view_eq; done| |]; rewrite Hk2.
  - intros w3 Hwhy HI3 HM3. split; [done|]. eexists. split.
    + apply (cs_fail _ _ _ _ _ k (aid_of u)); [done|done|done|]. destruct Hwhy as [Hpl|[d Hd]]; [left; auto|]. right.
      destruct (conf_view _ _ _ _ _ _ _ HI2 Hd) as (k' & e & _ & Hk' & He). exists k', (aid_of e). split; [|simpl; congruence].
      rewrite HV2 in Hk'. unfold upd_view in Hk'. by case_decide.
    + eapply moves_moves; [exact HM2|]. rewrite <- En, <- Ev. destruct HM3 as (? & HV3 & ? & ?). split_and!; try done. intros k'.
      rewrite HV3. by apply (upd_view_twice _ _ _ _ _ HV2).
  - intros w3 HI3 HM3. split; [done|]. eexists. split; [by apply (cs_new _ _ _ _ _ k (aid_of u))|].
    eapply moves_moves; [exact HM2|]. rewrite <- En, <- Ev. destruct HM3 as (? & HV3 & ? & ?). split_and!; try done. intros k'.
    rewrite HV3, Eu. by apply (upd_view_twice _ _ _ _ _ HV2).
Qed.

Lemma wp_confirm_record B p a u r clientid confirm data down w :
  cinv B [a] [p] Held w -> cw_ids w !! a = Some u -> cid_confirmed u = UNCONFIRMED_CLIENT_ID -> cid_client_record u = p ->
  cw_records w !! p = Some r -> cid_clientid u = clientid -> aid_principal (aid_of u) data = true -> ~ same_number (view w) clientid ->
  wp (confirm_record a p clientid down) (fun st w' => cinv B [] [p] Held w' /\ confirm_post clientid confirm data w st w') w.
Proof.
  intros HI Ha Hs Hup Hp Hid Hpr Hsame. destruct (held_id _ _ _ _ _ a HI) as (? & _ & HaB); [left|].
  pose proof (ci_records _ _ _ _ _ HI) as HRec. destruct (ro_id _ _ _ _ _ HRec a u Ha) as (r0 & Hr0 & _ & Hun & _). assert (r0 = r) as -> by congruence.
  specialize (Hun Hs HaB). set (k := record_key_of r). pose proof (view_record _ _ _ _ _ _ _ HI Hp) as Hview. fold k in Hview.
  rewrite Hun in Hview. simpl in Hview. rewrite Ha in Hview. simpl in Hview.
  assert (Hu : unconfirmed_as (view w) k clientid (aid_of u)) by (split; [by rewrite Hview|done]).
  unfold confirm_record. apply wp_bind, (wp_get_rec _ r); [done|]. destruct (cr_confirmed_rec r) as [b|] eqn:Hcr.
  - destruct (ro_conf _ _ _ _ _ HRec _ r b Hp Hcr) as (c & Hb & Hcs & Hcp). simpl in Hview. rewrite Hb in Hview. simpl in Hview.
    assert (HbB : b ∉ B).
    { intros HB. destruct (rf_new _ _ _ (ci_refs _ _ _ _ _ HI) b HB) as (d & Hd & [Hn _ _ _]). congruence. }
    apply wp_bind, (wp_inc_id B [a] [p] Held b c); [done|done|done|]. intros w1 HI1 HQ1. pose proof (quiet_keeps _ _ HQ1) as HK1.
    destruct (held_ident _ _ _ _ [] w w1 b c HI1 ltac:(left) HK1 (not_elem_of_nil _) Hb) as (c1 & Hb1 & (Ec & Ecs & Ecp & _)%ident_fields & _).
    destruct (held_ident _ _ _ _ [] w w1 a u HI1 ltac:(right; left) HK1 (not_elem_of_nil _) Ha) as (u1 & Ha1 & (Eu & Eus & Eup & _)%ident_fields & _).
    destruct (held_key _ _ _ _ w w1 p r HI1 ltac:(left) Hp (ci_addresses _ _ _ _ _ HI) (proj1 HK1)) as (r1 & Hp1 & Hk1). fold k in Hk1.
    assert (Ecid : cid_clientid c1 = cid_clientid c) by exact (f_equal ai_clientid Ec).
    assert (Euid : cid_clientid u1 = clientid) by (rewrite <- Hid; exact (f_equal ai_clientid Eu)).
    apply wp_bind, (wp_get_cid b c1); [done|]. rewrite Ecid. pose proof HQ1 as (_ & HV1 & _ & HP1).
    destruct (Z.eqb_spec (cid_clientid c) clientid) as [Hcid|Hcid]; simpl.
    + assert (Hcb : exists cb, cid_cb u1 = cb_v40 cb).
      { destruct (match cid_cb u1 with cb_v40 cb => Some cb | _ => None end) as [cb|] eqn:Hcb.
        - exists cb. by destruct (cid_cb u1); try congruence.
        - destruct Hsame. exists k, (aid_of c), (aid_of u). split_and!; [done|split; [by rewrite Hview|done]|]. by rewrite <- Eu. }
      destruct Hcb as [cb Hcb]. apply (wp_confirm_update B p a u1 b c1 r1 cb); try done; [congruence..|].
      intros w2 HI2 HM2. split; [done|]. apply (confirm_post_quiet _ _ _ w w1 _ w2 w2); [done| |done]. eexists.
      split; [|exact HM2]. rewrite Hk1, Ec, Eu. apply cs_update; [by split; [rewrite HV1, Hview|]|by split; [rewrite HV1, Hview|]|done].
    + eapply wp_mono; [|apply (wp_confirm_other B p a u1 b c1 r1 clientid confirm data down)]; try done; try congruence.
      intros st w2 [HI2 HP2]. split; [done|]. by apply (confirm_post_quiet _ _ _ w w1 _ w2 w2).
  - simpl in Hview. assert (Hno : forall d, ~ confirmed_as (view w) k clientid d) by (intros d [Hd _]; by rewrite Hview in Hd).
    apply (wp_confirm_new B p a u r); try done; [by fold k; rewrite Hview| |]; fold k.
    + intros w1 Hwhy HI1 HM1. split; [done|]. eexists. split; [|exact HM1]. apply (cs_fail _ _ _ _ _ k (aid_of u)); try done.
      destruct Hwhy as [Hpl|[d Hd]]; [by left|]. right. rewrite Hid in Hd. destruct (conf_view _ _ _ _ _ _ _ HI Hd) as (k' & e & _ & Hk' & He).
      exists k', (aid_of e). done.
    + intros w1 HI1 HM1. split; [done|]. eexists. split; [|exact HM1]. by apply cs_new.
Qed.

(** [body] runs with a reference on the record, and gives the others back. *)
Lemma wp_with_record B a p r (body : M cworld nfsstat4) (Q : nfsstat4 -> cworld -> Prop) w :
  cinv B [a] [] Held w -> cw_records w !! p = Some r ->
  (forall w1, cinv B [a] [p] Held w1 -> quiet w w1 -> cw_ids w1 = cw_ids w ->
     wp body (fun st w2 => cinv B [] [p] Held w2 /\ forall w3, quiet w2 w3 -> cinv B [] [] Held w3 -> Q st w3) w1) ->
  wp (with_record p body) Q w.
Proof.
  intros HI Hp Hbody. unfold with_record. apply wp_bind, (wp_inc_rec B [a] [] Held p r); [done|done|]. intros w1 HI1 HQ1 Hids _.
  apply wp_bind. eapply wp_mono; [|by apply Hbody]. intros st w2 [HI2 HQ2].
  apply wp_bind, (wp_dec_rec B [] [] Held); [done|]. intros w3 HI3 HQ3. by apply wp_ret, HQ2.
Qed.

Lemma wp_confirm_found B p a u r clientid confirm data down w :
  cinv B [a] [p] Held w -> cw_ids w !! a = Some u -> cid_confirmed u = UNCONFIRMED_CLIENT_ID -> cid_client_record u = p ->
  cw_records w !! p = Some r -> cid_clientid u = clientid -> ~ same_number (view w) clientid ->
  wp (confirm_found data clientid confirm a p down) (fun st w' => cinv B [] [p] Held w' /\ confirm_post clientid confirm data w st w') w.
Proof.
  intros HI Ha Hs Hup Hp Hid Hsame. unfold confirm_found. apply wp_bind, (wp_get_cid a u); [done|].
  change (same_principal u data) with (aid_principal (aid_of u) data). destruct (aid_principal (aid_of u) data) eqn:Hpr; simpl.
  - rewrite Hs. simpl. by apply (wp_confirm_record B p a u r).
  - apply wp_bind, (wp_dec_id B [] [p] Held); [done|]. intros w1 HI1 HQ1. apply wp_ret. split; [done|]. exists (view w).
    split; [|by apply quiet_moves]. apply (cs_principal _ _ _ _ _ (record_key_of r) (aid_of u)); [|done]. split; [|done].
    destruct (held_id _ _ _ _ _ a HI) as (? & _ & HaB); [left|].
    destruct (ro_id _ _ _ _ _ (ci_records _ _ _ _ _ HI) a u Ha) as (r0 & Hr0 & _ & Hun & _). assert (r0 = r) as -> by congruence.
    rewrite (view_record _ _ _ _ _ _ _ HI Hp), (Hun Hs HaB). simpl. by rewrite Ha.
Qed.

(** A retry: the client id is confirmed already. *)
Lemma wp_confirm_again B clientid confirm data a w w1 :
  cinv B [] [] Held w -> ht_unconfirmed_client_id w !! clientid = None -> ht_confirmed_client_id w !! clientid = Some a ->
  cinv B [a] [] Held w1 -> quiet w w1 ->
  wp (c ← get_cid a; with_record (cid_client_record c) (confirm_again data confirm a))
    (fun st w' => cinv B [] [] Held w' /\ confirm_post clientid confirm data w st w') w1.
Proof.
  intros HI Hun Hk HI1 HQ1. pose proof (quiet_keeps _ _ HQ1) as HK1. destruct (conf_view _ _ _ _ _ _ _ HI Hk) as (k & c & Ha & Hv & Hid).
  destruct (held_ident _ _ _ _ [] w w1 a c HI1 ltac:(left) HK1 (not_elem_of_nil _) Ha) as (c1 & Ha1 & (Ec & Ecs & Ecp & _)%ident_fields & HaB).
  apply wp_bind, (wp_get_cid a c1); [done|].
  destruct (ro_id _ _ _ _ _ (ci_records _ _ _ _ _ HI1) a c1 Ha1) as (r1 & Hr1 & _).
  apply (wp_with_record B a _ r1); [done|done|]. intros w2 HI2 HQ2 Hids2. unfold confirm_again.
  apply wp_bind, (wp_get_cid a c1); [by rewrite Hids2|]. apply wp_bind, (wp_dec_id B [] [cid_client_record c1] Held); [done|]. intros w3 HI3 HQ3. apply wp_ret.
  split; [done|]. intros w4 HQ4 HI4. split; [done|]. exists (view w). split; [|apply quiet_moves; etrans; [done|]; etrans; [done|]; by etrans].
  change (same_principal c1 data) with (aid_principal (aid_of c1) data). rewrite Ec.
  assert (Ev : cid_verifier c1 = ai_verifier (aid_of c)) by exact (f_equal ai_verifier Ec). rewrite Ev.
  replace (if negb (aid_principal (aid_of c) data) then NFS4ERR_CLID_INUSE else if ai_verifier (aid_of c) =? confirm then NFS4_OK else NFS4ERR_CLID_INUSE)
    with (if aid_principal (aid_of c) data && (ai_verifier (aid_of c) =? confirm) then NFS4_OK else NFS4ERR_CLID_INUSE)
    by (by destruct (aid_principal _ _)).
  apply (cs_again _ _ _ _ _ k); [|by split]. intros k' u [Hu1 Hu2].
  destruct (view_unconf _ _ _ _ _ _ _ HI Hu1) as (d & ? & Hd & _). rewrite Hu2 in Hd. congruence.
Qed.

(** SETCLIENTID_CONFIRM does what its specification says. *)
Lemma wp_setclientid_confirm B clientid confirm data down w :
  cinv B [] [] Held w -> ~ same_number (view w) clientid ->
  wp (nfs4_op_setclientid_confirm clientid confirm data down)
    (fun st w' => cinv B [] [] Held w' /\ confirm_post clientid confirm data w st w') w.
Proof.
  intros HI Hsame. unfold nfs4_op_setclientid_confirm. destruct (Z.ltb_spec 0 (minorversion data)) as [Hmv|Hmv].
  { apply wp_ret. split; [done|]. exists (view w). split; [by apply cs_notsupp|by apply quiet_moves]. }
  assert (Hnot : forall st, confirm_spec (~ plenty w) (view w) clientid confirm data st (view w) ->
            cinv B [] [] Held w /\ confirm_post clientid confirm data w st w).
  { intros st HS. split; [done|]. exists (view w). split; [done|by apply quiet_moves]. }
  apply wp_bind, (wp_get_unconfirmed B [] [] Held); [done| | |].
  - intros He. apply wp_bind, (wp_get_confirmed B [] [] Held); [done| |by intros ?|].
    + intros _. by apply wp_ret, Hnot, cs_stale.
    + intros a w1 Hk HI1 HQ1. destruct (conf_live _ _ _ _ _ _ _ HI Hk) as (c & _ & Hc & _ & Hid & _).
      pose proof (to_epoch _ _ _ _ (ci_tables _ _ _ _ _ HI) a c Hc). congruence.
  - intros He Hun. apply wp_bind, (wp_get_confirmed B [] [] Held); [done|by intros ?| |].
    + intros _ Hk. apply wp_ret, Hnot, cs_expired; intros k u [Hu1 Hu2].
      * destruct (view_unconf _ _ _ _ _ _ _ HI Hu1) as (d & ? & Hd & _). rewrite Hu2 in Hd. congruence.
      * destruct (view_conf _ _ _ _ _ _ _ HI Hu1) as (d & ? & Hd & _). rewrite Hu2 in Hd. congruence.
    + intros a w1 Hk HI1 HQ1. by apply (wp_confirm_again B clientid confirm data a w w1).
  - intros a w1 Hk HI1 HQ1. pose proof (quiet_keeps _ _ HQ1) as HK1.
    destruct (unconf_live _ _ _ _ _ _ _ HI Hk) as (u & r & Ha & _ & Hid & Hs & Hp & _).
    destruct (held_ident _ _ _ _ [] w w1 a u HI1 ltac:(left) HK1 (not_elem_of_nil _) Ha) as (u1 & Ha1 & (Eu & Eus & Eup & _)%ident_fields & HaB).
    apply wp_bind, (wp_get_cid a u1); [done|]. destruct (ro_id _ _ _ _ _ (ci_records _ _ _ _ _ HI1) a u1 Ha1) as (r1 & Hr1 & _).
    apply (wp_with_record B a _ r1); [done|done|]. intros w2 HI2 HQ2 Hids2.
    destruct (held_rec _ _ _ _ _ (cid_client_record u1) HI2) as [r2 Hp2]; [left|].
    eapply wp_mono; [|apply (wp_confirm_found B (cid_client_record u1) a u1 r2 clientid confirm data down)]; [|done|by rewrite Hids2|congruence|done|done| |].
    + intros st w3 [HI3 HP3]. split; [done|]. intros w4 HQ4 HI4. split; [done|]. apply (confirm_post_quiet _ _ _ w w2 st w3 w4); [by etrans|done|done].
    + rewrite <- Hid. exact (f_equal ai_clientid Eu).
    + intros (k & c & v & [Hv1 Hv2] & [Hc1 Hc2] & Hcb). apply Hsame. exists k, c, v. destruct HQ1 as (_ & HV1 & _). destruct HQ2 as (_ & HV2 & _).
      rewrite HV2, HV1 in Hv1, Hc1. done.
Qed.
End refine.
