(* ===== verification/ClientLease.v ===== *)
(** Leases: RENEW (Protocols/NFS/nfs4_op_renew.c) and the reaper
    (MainNFSD/nfs_reaper_thread.c), which expires the clients whose lease has run out
    and no others. *)

From stdpp Require Import sorting.
From S2P Require Import Prelude Status World Owner Client ClientInv ClientStep ClientEnter ClientOps ClientSpec ClientConfirm.

Section lease.
Context {env : ClientEnv} (Held : list loc).
Implicit Types (w : cworld).

(** Fields of a client id that others do not depend on are changed. *)
Lemma wp_set_other B X XR XS a c f (Q : unit -> cworld -> Prop) w :
  cinv B X XR XS w -> cw_ids w !! a = Some c -> a ∉ B -> alike c (f c) -> aid_of (f c) = aid_of c ->
  sessions_of (f c) = sessions_of c -> cid_cb (f c) = cid_cb c -> owners_of (f c) = owners_of c -> cid_refcount (f c) = cid_refcount c ->
  (forall w', cinv B X XR XS w' -> changes [a] (view w) w w' -> cw_ids w' = <[a := f c]> (cw_ids w) -> cw_time w' = cw_time w ->
     cw_sessions w' = cw_sessions w -> ht_session_id w' = ht_session_id w -> Q tt w') ->
  wp (set_cid a f) Q w.
Proof.
  intros HI Ha HB HAl Haid Hse Hcb Hown Hrf HQ. apply (wp_set_cid a c); [done|]. pose proof HI as [HT HR HRec HS HSq HA].
  destruct (rf_refs _ _ _ HR a c Ha HB) as [Hneed Hpos]. pose proof HAl as (E1 & E2 & E3 & E4).
  assert (Hneeds : needs (f c) = needs c) by (unfold needs, hashed; by rewrite E2, Hse, Hown). apply HQ; [| |done..].
  - apply (cinv_alike B X X XR XS w a c (f c)); try done; rewrite ?Hown, ?Hneeds, ?Hrf; try done; [|by apply (rf_owners _ _ _ HR a c)|by right].
    pose proof (rf_cb _ _ _ HR a c Ha HB) as Hok. unfold cb_ok in *. by rewrite Hcb, E4.
  - split_and!; try done.
    + apply (keeps_insert w _ a (f c)); [done|by apply old_keys_same|done].
    + apply view_ids. intros b. by apply (aids_insert _ a c).
Qed.

Definition lease_valid (c : nfs_client_id_t) w : bool := negb (_valid_lease c (cw_time w) =? 0).

Lemma wp_valid_lease a c (Q : bool -> cworld -> Prop) w : cw_ids w !! a = Some c -> Q (lease_valid c w) w -> wp (valid_lease a) Q w.
Proof. intros Ha HQ. unfold valid_lease. apply wp_bind, (wp_get_cid a c); [done|]. by apply wp_bind, wp_gets, wp_ret. Qed.

(** A reservation is taken, and given back: then the lease starts anew unless there are
    others. *)
Definition reserved (c : nfs_client_id_t) : nfs_client_id_t := with_cid_lease_reservations (cid_lease_reservations c + 1) c.
Definition renewed (c : nfs_client_id_t) (t : Z) : nfs_client_id_t :=
  let c' := with_cid_lease_reservations (cid_lease_reservations c - 1) c in
  if cid_lease_reservations c' =? 0 then with_cid_last_renew t c' else c'.

Lemma changes_view_trans S (V : clients) w1 w2 w3 : changes S V w1 w2 -> changes S (view w2) w2 w3 -> changes S V w1 w3.
Proof.
  intros (K1 & V1 & E1 & N1) (K2 & V2 & E2 & N2). split_and!; [|by intros k; rewrite V2, V1|congruence|auto].
  apply (keeps_trans S S S w1 w2 w3); [|done|done]. tauto.
Qed.

Lemma wp_update_lease B X XR XS a c (Q : unit -> cworld -> Prop) w :
  cinv B X XR XS w -> cw_ids w !! a = Some c -> a ∉ B ->
  (forall w', cinv B X XR XS w' -> changes [a] (view w) w w' -> cw_ids w' !! a = Some (renewed c (cw_time w)) -> Q tt w') ->
  wp (update_lease a) Q w.
Proof.
  intros HI Ha HB HQ. unfold update_lease. apply wp_bind, (wp_set_other B X XR XS a c); try done.
  intros w2 HI2 HC2 Hids2 Ht2 _ _. set (c2 := with_cid_lease_reservations _ c) in *.
  assert (Ha2 : cw_ids w2 !! a = Some c2) by (by rewrite Hids2, lookup_insert_eq).
  apply wp_bind, (wp_get_cid a c2); [done|]. apply wp_bind, wp_gets. unfold renewed in HQ. fold c2 in HQ.
  apply wp_when; intros Hz; rewrite Hz in HQ; [|by apply HQ].
  apply (wp_set_other B X XR XS a c2); try done. intros w3 HI3 HC3 Hids3 Ht3 _ _. apply HQ; [done|by apply (changes_view_trans _ _ _ w2)|].
  rewrite Hids3, lookup_insert_eq. by rewrite Ht2.
Qed.

(** * RENEW *)

(** A confirmed client id that nobody holds is still there after a quiet step. *)
Lemma confirmed_stays B X XR XS S w w' k a c :
  cinv B X XR XS w' -> keeps S w w' -> a ∉ S -> ht_confirmed_client_id w !! k = Some a -> cw_ids w !! a = Some c ->
  exists c', cw_ids w' !! a = Some c' /\ ident c' = ident c.
Proof.
  intros HI (_ & HT & HK) HS Hk Ha. apply (HT k a) in Hk; [|done]. destruct (to_conf _ _ _ _ (ci_tables _ _ _ _ _ HI) k a Hk) as (c' & Ha' & _).
  exists c'. split; [done|]. destruct (HK a c' Ha' HS) as (d & Hd & ->). congruence.
Qed.

(** What RENEW does to the lease of the client id [a]. *)
Definition renew_post (a : loc) w (st : nfsstat4) w' : Prop :=
  exists c c', cw_ids w !! a = Some c /\ cw_ids w' !! a = Some c' /\
    cid_lease_reservations c' = cid_lease_reservations c /\
    if lease_valid c w then
      st = (if allow_delegations && cb_chan_down c then NFS4ERR_CB_PATH_DOWN else NFS4_OK) /\
      cid_last_renew c' = (if cid_lease_reservations c =? 0 then cw_time w else cid_last_renew c)
    else st = NFS4ERR_EXPIRED /\ cid_last_renew c' = cid_last_renew c.

Lemma ident_lease c c' :
  ident c' = ident c -> cid_last_renew c' = cid_last_renew c /\ cid_lease_reservations c' = cid_lease_reservations c.
Proof. intros H. split; [exact (f_equal (fun t => t.2.1.2) H)|exact (f_equal (fun t => t.2.2) H)]. Qed.

Lemma renewed_lease c t :
  cid_lease_reservations (renewed (reserved c) t) = cid_lease_reservations c /\
  cid_last_renew (renewed (reserved c) t) = (if cid_lease_reservations c =? 0 then t else cid_last_renew c) /\
  cb_chan_down (renewed (reserved c) t) = cb_chan_down c /\ cid_confirmed (renewed (reserved c) t) = cid_confirmed c.
Proof.
  unfold renewed. simpl. replace (cid_lease_reservations c + 1 - 1) with (cid_lease_reservations c) by lia.
  destruct (cid_lease_reservations c =? 0); simpl; split_and!; try done; lia.
Qed.

Lemma wp_renew_found B clientid a c (Q : nfsstat4 -> cworld -> Prop) w w1 :
  cinv B [] [] Held w -> ht_confirmed_client_id w !! clientid = Some a -> cw_ids w !! a = Some c -> a ∉ B ->
  cinv B [a] [] Held w1 -> quiet w w1 -> cw_ids w1 = <[a := with_cid_refcount (cid_refcount c + 1) c]> (cw_ids w) ->
  (forall st w', cinv B [] [] Held w' -> changes [a] (view w) w w' -> renew_post a w st w' -> Q st w') ->
  wp (valid ← reserve_lease a;
      status ← (if (valid : bool) then
                  update_lease a;;
                  c ← get_cid a;
                  mret (if allow_delegations && cb_chan_down c then NFS4ERR_CB_PATH_DOWN else NFS4_OK)
                else mret NFS4ERR_EXPIRED);
      dec_client_id_ref a;;
      mret status) Q w1.
Proof.
  intros HI Hk Ha HB HI1 HQ1 Hids HQ. set (c1 := with_cid_refcount _ c) in *. assert (Ha1 : cw_ids w1 !! a = Some c1) by (by rewrite Hids, lookup_insert_eq).
  assert (Ht1 : cw_time w1 = cw_time w) by (destruct HQ1 as (_ & _ & HE & _); exact (f_equal snd HE)).
  assert (Hv : lease_valid c1 w1 = lease_valid c w) by (unfold lease_valid; by rewrite Ht1).
  assert (HC1 : changes [a] (view w) w w1).
  { destruct HQ1 as (HK1 & HV1 & HE1 & HP1). split_and!; try done. apply (keeps_trans [] [] [a] w w w1); [|apply quiet_refl|done].
    by intros b [[]%not_elem_of_nil|[]%not_elem_of_nil]. }
  assert (Hend : forall st c2 w2, cinv B [a] [] Held w2 -> changes [a] (view w) w w2 -> cw_ids w2 !! a = Some c2 ->
     (forall c3, ident c3 = ident c2 -> cid_lease_reservations c3 = cid_lease_reservations c /\
        if lease_valid c w then
          st = (if allow_delegations && cb_chan_down c then NFS4ERR_CB_PATH_DOWN else NFS4_OK) /\
          cid_last_renew c3 = (if cid_lease_reservations c =? 0 then cw_time w else cid_last_renew c)
        else st = NFS4ERR_EXPIRED /\ cid_last_renew c3 = cid_last_renew c) ->
     cid_confirmed c2 = CONFIRMED_CLIENT_ID -> wp (dec_client_id_ref a;; mret st) Q w2).
  { intros st c2 w2 HI2 HC2 Ha2 Hc2 Hs2. pose proof (to_ids _ _ _ _ (ci_tables _ _ _ _ _ HI2) a c2 Ha2 HB) as Hk2. rewrite Hs2 in Hk2. apply wp_bind, (wp_dec_id B [] [] Held); [done|]. intros w3 HI3 HQ3. apply wp_ret.
    destruct (confirmed_stays _ _ _ _ [] w2 w3 _ a c2 HI3 (quiet_keeps _ _ HQ3) (not_elem_of_nil _) Hk2 Ha2) as (c3 & Ha3 & Hi3).
    apply HQ; [done|by apply (changes_quiet _ _ _ w2)|]. exists c, c3. split_and!; [done|done|by apply Hc2..]. }
  destruct (to_conf _ _ _ _ (ci_tables _ _ _ _ _ HI) clientid a Hk) as (d & Hd & _ & Hcs). assert (d = c) as -> by congruence.
  unfold reserve_lease. apply wp_bind, wp_bind, (wp_valid_lease a c1); [done|]. rewrite Hv. destruct (lease_valid c w) eqn:Hval; simpl.
  - apply wp_bind, (wp_set_other B [a] [] Held a c1); try done. intros w2 HI2 HC2 Hids2 Ht2 _ _. fold (reserved c1) in Hids2. apply wp_ret, wp_bind, wp_bind.
    apply (wp_update_lease B [a] [] Held a (reserved c1)); [done|by rewrite Hids2, lookup_insert_eq|done|]. intros w3 HI3 HC3 Ha3.
    rewrite Ht2, Ht1 in Ha3. destruct (renewed_lease c1 (cw_time w)) as (R1 & R2 & R3 & R4).
    apply wp_bind, (wp_get_cid a _ _ _ Ha3). apply wp_ret. rewrite R3.
    apply (Hend _ (renewed (reserved c1) (cw_time w)) w3); [done| |done| |by rewrite R4].
    + apply (changes_view_trans _ _ _ w2); [|done]. by apply (changes_view_trans _ _ _ w1).
    + intros c4 [L1 L2]%ident_lease. rewrite L1, L2, R1, R2. done.
  - apply wp_bind, wp_ret, wp_ret, wp_bind, wp_ret. apply (Hend _ c1 w1); [done|done|done| |done].
    intros c4 [L1 L2]%ident_lease. rewrite L1, L2. done.
Qed.

Lemma wp_renew B clientid data w :
  cinv B [] [] Held w ->
  wp (nfs4_op_renew clientid data) (fun st w' => cinv B [] [] Held w' /\ (forall k, view w' k = view w k) /\
    if 0 <? minorversion data then st = NFS4ERR_NOTSUPP /\ w' = w
    else match ht_confirmed_client_id w !! clientid with
         | Some a => keeps [a] w w' /\ renew_post a w st w'
         | None => st = (if Z.shiftr clientid 32 =? epoch_low then NFS4ERR_EXPIRED else NFS4ERR_STALE_CLIENTID) /\ w' = w
         end) w.
Proof.
  intros HI. unfold nfs4_op_renew. destruct (0 <? minorversion data); [by apply wp_ret|].
  apply wp_bind. unfold nfs_client_id_get_confirmed, nfs_client_id_get.
  destruct (Z.eqb_spec (Z.shiftr clientid 32) epoch_low) as [He|He]; simpl.
  - apply wp_bind, wp_gets. destruct (ht_confirmed_client_id w !! clientid) as [a|] eqn:Hk; [|by apply wp_ret, wp_ret].
    destruct (conf_live _ _ _ _ _ _ _ HI Hk) as (c & r & Ha & HB & _).
    apply wp_bind, (wp_inc_id_eq B [] [] Held a c); [done|done|done|]. intros w1 HI1 HQ1 Hids1. apply wp_ret.
    apply (wp_renew_found B clientid a c _ w w1); try done. intros st w' HI' HC' HP. pose proof HC' as (HK' & HV' & _). done.
  - apply wp_ret, wp_ret. destruct (ht_confirmed_client_id w !! clientid) as [a|] eqn:Hk; [|done].
    destruct (conf_live _ _ _ _ _ _ _ HI Hk) as (c & r & Ha & HB & Hid & _).
    pose proof (to_epoch _ _ _ _ (ci_tables _ _ _ _ _ HI) a c Ha). congruence.
Qed.

(** * The reaper *)

Definition in_tables w (a : loc) : Prop :=
  exists k, ht_confirmed_client_id w !! k = Some a \/ ht_unconfirmed_client_id w !! k = Some a.

Lemma in_tables_live B X XR XS w a : cinv B X XR XS w -> in_tables w a ->
  exists c r, cw_ids w !! a = Some c /\ (a ∉ B) /\ cid_confirmed c <> EXPIRED_CLIENT_ID /\ cw_records w !! cid_client_record c = Some r.
Proof.
  intros HI [k [Hk|Hk]].
  - destruct (conf_live _ _ _ _ _ _ _ HI Hk) as (c & r & Ha & HB & _ & Hs & Hp & _). exists c, r. split_and!; try done. congruence.
  - destruct (unconf_live _ _ _ _ _ _ _ HI Hk) as (c & r & Ha & HB & _ & Hs & Hp & _). exists c, r. split_and!; try done. congruence.
Qed.

(** Clients whose lease has run out are gone; the others are as before. *)
Definition reaped (S : list loc) w w' : Prop :=
  keeps S w w' /\ cw_time w' = cw_time w /\
  forall a, a ∈ S -> ~ in_tables w' a /\ exists c, cw_ids w !! a = Some c /\ lease_valid c w = false.

Lemma ident_valid c c' w w' : ident c' = ident c -> cw_time w' = cw_time w -> lease_valid c' w' = lease_valid c w.
Proof.
  intros Hi Ht. destruct (ident_lease _ _ Hi) as [L1 L2]. destruct (ident_fields _ _ Hi) as (_ & Es & _).
  unfold lease_valid, _valid_lease. by rewrite Ht, L1, L2, Es.
Qed.

Lemma reaped_refl w : reaped [] w w.
Proof. split_and!; [apply quiet_refl|done|]. by intros a []%not_elem_of_nil. Qed.

Lemma reaped_trans S1 S2 w1 w2 w3 : reaped S1 w1 w2 -> reaped S2 w2 w3 -> reaped (S1 ++ S2) w1 w3.
Proof.
  intros (K1 & T1 & R1) (K2 & T2 & R2). split_and!; [|congruence|].
  - apply (keeps_trans S1 S2 _ w1 w2 w3); [|done|done]. intros a. by rewrite elem_of_app.
  - intros a Ha. destruct (decide (a ∈ S2)) as [H2|H2].
    + destruct (R2 a H2) as (Hn & c2 & Hc2 & Hv2). split; [done|]. destruct (decide (a ∈ S1)) as [H1|H1]; [by apply R1|].
      destruct K1 as (_ & _ & K1). destruct (K1 a c2 Hc2 H1) as (c1 & Hc1 & Hi). exists c1. split; [done|].
      by rewrite <- (ident_valid c1 c2 w1 w2 Hi T1).
    + assert (H1 : a ∈ S1) by (apply elem_of_app in Ha; tauto). destruct (R1 a H1) as [Hn Hc]. split; [|done].
      intros [k Hk]. apply Hn. exists k. destruct K2 as (_ & K2 & _). destruct (K2 k a H2) as [A1 A2]. by rewrite <- A1, <- A2.
Qed.

Lemma wp_reap_client B a c (Q : bool -> cworld -> Prop) w :
  cinv B [] [] Held w -> in_tables w a -> cw_ids w !! a = Some c ->
  (lease_valid c w = true -> Q false w) ->
  (forall w', lease_valid c w = false -> cinv B [] [] Held w' -> reaped [a] w w' -> Q true w') ->
  wp (reap_client a) Q w.
Proof.
  intros HI Hin Ha H1 H2. destruct (in_tables_live _ _ _ _ _ _ HI Hin) as (c0 & r & Ha0 & HB & Hs & Hp). assert (c0 = c) as -> by congruence.
  unfold reap_client. apply wp_bind, (wp_valid_lease a c); [done|]. destruct (lease_valid c w) eqn:Hv; [by apply wp_ret, H1|].
  apply wp_bind, (wp_inc_id_eq B [] [] Held a c); [done|done|done|]. intros w1 HI1 HQ1 Hids1. set (c1 := with_cid_refcount _ c) in *.
  assert (Ha1 : cw_ids w1 !! a = Some c1) by (by rewrite Hids1, lookup_insert_eq). apply wp_bind, (wp_get_cid a c1); [done|].
  destruct (ro_id _ _ _ _ _ (ci_records _ _ _ _ _ HI1) a c1 Ha1) as (r1 & Hr1 & _).
  apply wp_bind, (wp_inc_rec B [a] [] Held _ r1); [done|done|]. intros w2 HI2 HQ2 Hids2 _.
  destruct (ro_id _ _ _ _ _ (ci_records _ _ _ _ _ HI2) a c1 ltac:(by rewrite Hids2)) as (r2 & Hr2 & _).
  apply wp_bind, (wp_expire B [a] [cid_client_record c1] Held a c1 r2); [done|by rewrite Hids2|done|done|done|]. intros w3 HI3 HC3 Hgone.
  apply wp_bind, (wp_dec_id B [] [cid_client_record c1] Held); [done|]. intros w4 HI4 HQ4.
  apply wp_bind, (wp_dec_rec B [] [] Held); [done|]. intros w5 HI5 HQ5. apply wp_ret, H2; [done|done|].
  assert (HQ35 : quiet w3 w5) by (by etrans). assert (HQ02 : quiet w w2) by (by etrans).
  destruct (changes_quiet _ _ _ _ _ (quiet_changes _ _ _ _ _ HQ02 HC3) HQ35) as (HK & _ & HE & _).
  split_and!; [done|exact (f_equal snd HE)|]. intros b ->%list_elem_of_singleton. split; [|by exists c].
  intros Hin5. destruct (in_tables_live _ _ _ _ _ _ HI5 Hin5) as (c5 & _ & Ha5 & _ & Hs5 & _). destruct HQ35 as ((_ & _ & HK35) & _).
  destruct (HK35 a c5 Ha5 (not_elem_of_nil _)) as (c3 & Ha3 & Hi). destruct (ident_fields _ _ Hi) as (_ & Es & _). rewrite (Hgone c3 Ha3) in Es. done.
Qed.

(** A table, of those that the reaper goes through. *)
Definition client_table (table : cworld -> gmap Z loc) : Prop :=
  table = ht_confirmed_client_id \/ table = ht_unconfirmed_client_id.

Lemma table_in table w k a : client_table table -> table w !! k = Some a -> in_tables w a.
Proof. intros [->| ->] Hk; exists k; [by left|by right]. Qed.

(** The clients up to the first whose lease has run out. *)
Lemma wp_reap_loop B l (Q : Z * bool -> cworld -> Prop) w :
  cinv B [] [] Held w -> (forall x, x ∈ l -> in_tables w x.2) ->
  (forall n, (forall x c, x ∈ l -> cw_ids w !! x.2 = Some c -> lease_valid c w = true) -> Q (n, false) w) ->
  (forall n a w', a ∈ l.*2 -> cinv B [] [] Held w' -> reaped [a] w w' -> Q (n, true) w') ->
  wp (reap_loop l) Q w.
Proof.
  intros HI. revert Q. induction l as [|[k a] l IH]; intros Q Hl H1 H2; simpl; [apply wp_ret, H1; by intros x c []%not_elem_of_nil|].
  pose proof (Hl (k, a) (list_elem_of_here _ _)) as Hin. simpl in Hin. destruct (in_tables_live _ _ _ _ _ _ HI Hin) as (c & _ & Ha & _).
  apply wp_bind, (wp_reap_client B a c); [done|done|done| |].
  - intros Hv. apply wp_bind, IH; [intros x Hx; apply Hl; by right| |].
    + intros n Hall. apply wp_ret, H1. intros x d [->|Hx]%elem_of_cons Hd; [simpl in Hd; congruence|by apply (Hall x)].
    + intros n b w' Hb HI' HR. apply wp_ret, (H2 _ b); [by right|done|done].
  - intros w' Hv HI' HR. apply wp_ret, (H2 _ a); [left|done|done].
Qed.


Lemma elem_of_bucket (ht : gmap Z loc) i x : x ∈ bucket ht i <-> ht !! x.1 = Some x.2 /\ client_id_value_hash_func x.1 = i.
Proof.
  unfold bucket. rewrite merge_sort_Permutation, list_elem_of_filter, <- elem_of_map_to_list. destruct x as [k a]. simpl. tauto.
Qed.

Lemma reaped_table table S w w' k a :
  client_table table -> reaped S w w' -> table w' !! k = Some a -> table w !! k = Some a /\ a ∉ S.
Proof.
  intros HT ((_ & HK & _) & _ & HR) Hk. assert (HS : a ∉ S) by (intros Hin; destruct (HR a Hin) as [Hn _]; by apply Hn, (table_in table w' k)).
  split; [|done]. destruct (HK k a HS) as [A1 A2]. destruct HT as [->| ->]; tauto.
Qed.

(** Every client of some buckets of a table has a lease. *)
Definition leased (P : Z -> Prop) (table : cworld -> gmap Z loc) w : Prop :=
  forall k a c, table w !! k = Some a -> P (client_id_value_hash_func k) -> cw_ids w !! a = Some c -> lease_valid c w = true.

Lemma reaped_leased P table S w w' : client_table table -> reaped S w w' -> leased P table w -> leased P table w'.
Proof.
  intros HT HR HL k a c Hk HP Ha. destruct (reaped_table _ _ _ _ _ _ HT HR Hk) as [Hk0 HS]. destruct HR as ((_ & _ & HK) & Ht & _).
  destruct (HK a c Ha HS) as (d & Hd & Hi). rewrite (ident_valid d c w w' Hi Ht). by apply (HL k a).
Qed.

Lemma reaped_smaller table a w w' k :
  client_table table -> reaped [a] w w' -> table w !! k = Some a -> (size (table w') < size (table w))%nat.
Proof.
  intros HT HR Hk. assert (Hsub : table w' ⊆ delete k (table w)).
  { apply map_subseteq_spec. intros k' b Hb. destruct (reaped_table _ _ _ _ _ _ HT HR Hb) as [Hb0 HS%not_elem_of_cons].
    rewrite lookup_delete_ne; [done|]. intros <-. destruct HS. congruence. }
  apply map_subseteq_size in Hsub. rewrite map_size_delete_Some in Hsub by (by eexists).
  assert (size (table w) <> 0%nat); [|lia]. intros Hz%map_size_empty_inv. rewrite Hz in Hk. done.
Qed.

Lemma reaped_size table S w w' : client_table table -> reaped S w w' -> (size (table w') <= size (table w))%nat.
Proof. intros HT HR. apply map_subseteq_size, map_subseteq_spec. intros k a Hk. by destruct (reaped_table _ _ _ _ _ _ HT HR Hk). Qed.

Lemma wp_reap_bucket B table i fuel (Q : Z -> cworld -> Prop) : forall count w,
  client_table table -> cinv B [] [] Held w -> (size (table w) < fuel)%nat ->
  (forall n S w', cinv B [] [] Held w' -> reaped S w w' -> leased (fun j => j = i) table w' -> Q n w') ->
  wp (reap_bucket fuel table i count) Q w.
Proof.
  induction fuel as [|fuel IH]; intros count w HT HI Hsz HQ; [lia|]. simpl. apply wp_bind, wp_gets, wp_bind, (wp_reap_loop B); [done| | |].
  - intros x [Hx _]%elem_of_bucket. by apply (table_in table w x.1).
  - intros n Hall. apply wp_ret, (HQ _ []); [done|apply reaped_refl|]. intros k a c Hk Hi Ha. apply (Hall (k, a)); [|done].
    by apply elem_of_bucket.
  - intros n a w1 Ha HI1 HR1. apply list_elem_of_fmap in Ha as ([k b] & -> & [Hk _]%elem_of_bucket). simpl in *.
    apply IH; [done|done|pose proof (reaped_smaller table b w w1 k HT HR1 Hk); lia|].
    intros m S w2 HI2 HR2 HL2. apply (HQ _ ([b] ++ S)); [done|by apply (reaped_trans _ _ _ w1)|done].
Qed.

Lemma wp_reap_buckets B table fuel n (Q : Z -> cworld -> Prop) : forall i count w,
  client_table table -> cinv B [] [] Held w -> (size (table w) < fuel)%nat -> leased (fun j => 0 <= j < i) table w ->
  (forall m S w', cinv B [] [] Held w' -> reaped S w w' -> leased (fun j => 0 <= j < i + Z.of_nat n) table w' -> Q m w') ->
  wp (reap_buckets fuel table i n count) Q w.
Proof.
  induction n as [|n IH]; intros i count w HT HI Hsz HL HQ; simpl.
  - apply wp_ret, (HQ _ []); [done|apply reaped_refl|]. by rewrite Z.add_0_r.
  - apply wp_bind, (wp_reap_bucket B); [done|done|done|]. intros m S w1 HI1 HR1 HL1.
    apply IH; [done|done|pose proof (reaped_size table S w w1 HT HR1); lia| |].
    + intros k a c Hk Hj Ha. destruct (decide (client_id_value_hash_func k = i)) as [Hi|Hi]; [by apply (HL1 k a)|].
      apply (reaped_leased _ _ _ _ _ HT HR1 HL k a); [done|lia|done].
    + intros m' S' w2 HI2 HR2 HL2. apply (HQ _ (S ++ S')); [done|by apply (reaped_trans _ _ _ w1)|].
      intros k a c Hk Hj Ha. apply (HL2 k a); [done|lia|done].
Qed.

Lemma hash_range k : 0 <= client_id_value_hash_func k < 17.
Proof. unfold client_id_value_hash_func, PRIME_STATE. apply Z.mod_pos_bound. lia. Qed.

Lemma wp_reap_hash_table B table fuel (Q : Z -> cworld -> Prop) w :
  client_table table -> cinv B [] [] Held w -> (size (table w) < fuel)%nat ->
  (forall m S w', cinv B [] [] Held w' -> reaped S w w' -> leased (fun _ => True) table w' -> Q m w') ->
  wp (reap_hash_table fuel table) Q w.
Proof.
  intros HT HI Hsz HQ. unfold reap_hash_table. generalize 0 at 2. intros count.
  apply (wp_reap_buckets B table fuel (Z.to_nat PRIME_STATE) Q 0 count w); [done|done|done|by intros k a c _ [? ?]; lia|]. intros m S w' HI' HR HL.
  apply (HQ _ S); [done|done|]. intros k a c Hk _ Ha. apply (HL k a); [done|apply hash_range|done].
Qed.

Lemma wp_reaper_run B fuel w :
  cinv B [] [] Held w -> (size (ht_confirmed_client_id w) < fuel)%nat /\ (size (ht_unconfirmed_client_id w) < fuel)%nat ->
  wp (reaper_run fuel) (fun _ w' => cinv B [] [] Held w' /\
    (forall a c, in_tables w' a -> cw_ids w' !! a = Some c -> lease_valid c w' = true) /\
    (forall k a c, cw_ids w !! a = Some c -> lease_valid c w = true ->
       (ht_confirmed_client_id w' !! k = Some a <-> ht_confirmed_client_id w !! k = Some a) /\
       (ht_unconfirmed_client_id w' !! k = Some a <-> ht_unconfirmed_client_id w !! k = Some a))) w.
Proof.
  intros HI [Hfuel Hfuel']. assert (HTc : client_table ht_confirmed_client_id) by (by left). assert (HTu : client_table ht_unconfirmed_client_id) by (by right).
  unfold reaper_run. apply wp_bind, (wp_reap_hash_table B); [done|done|done|]. intros n S1 w1 HI1 HR1 HL1.
  apply wp_bind, (wp_reap_hash_table B); [done|done|pose proof (reaped_size _ _ _ _ HTu HR1); lia|]. intros m S2 w2 HI2 HR2 HL2. apply wp_ret.
  split_and!; [done| |].
  - pose proof (reaped_leased _ _ _ _ _ HTc HR2 HL1) as HLc. intros a c [k [Hk|Hk]] Ha; [by apply (HLc k a)|by apply (HL2 k a)].
  - intros k a c Ha Hv. destruct (reaped_trans _ _ _ _ _ HR1 HR2) as ((_ & HK & _) & _ & HR). apply HK. intros Hin.
    destruct (HR a Hin) as (_ & d & Hd & Hdv). congruence.
Qed.
End lease.
