(* ===== verification/ClientSession.v ===== *)
(** EXCHANGE_ID, CREATE_SESSION and DESTROY_SESSION (Protocols/NFS) keep the invariant of
    the client store. *)

From S2P Require Import Prelude Status World Owner Client ClientInv ClientStep ClientEnter ClientOps ClientFrame ClientSpec ClientConfirm ClientLease.

Section session.
Context {env : ClientEnv} (Held : list loc).
Implicit Types (w : cworld).

(** References that are never given back do no harm. *)
Lemma cinv_leak B X XR XS w a : cinv B (a :: X) XR XS w -> cinv B X XR XS w.
Proof.
  intros [HT HR HRec HS HSq HA]. split; try done. apply (refs_fewer B (a :: X)); [done| |by right].
  intros b. simpl. destruct (bool_decide _); simpl; lia.
Qed.

Lemma cinv_leak_session B X XR XS w a : cinv B X XR (a :: XS) w -> cinv B X XR XS w.
Proof.
  intros [HT HR HRec [Ho Hl Hn Hi Hh Hr Hx] HSq HA]. split; try done. split; try done; [|by intros b Hb; apply Hx; right].
  intros b x Hb. destruct (Hr b x Hb) as [Hneed ?]. simpl in Hneed. destruct (bool_decide _); simpl in Hneed; lia.
Qed.

(** * EXCHANGE_ID *)

Lemma wp_exchange_id_new B p r arg data w :
  cinv B [] [p] Held w -> cw_records w !! p = Some r -> cr_pnfs_flags r <> 0 -> 0 < minorversion data ->
  wp (exchange_id_new arg data p) (fun _ w' => exists B', cinv B' [] [p] Held w') w.
Proof.
  intros HI Hp Hflags Hmv. unfold exchange_id_new. apply wp_bind, (wp_get_rec p r); [done|]. apply wp_bind, (wp_remove_old Held B p r); [done|done|].
  intros w1 HI1 HM1. destruct (held_key _ _ _ _ w w1 p r HI1 ltac:(left) Hp (ci_addresses _ _ _ _ _ HI) (proj1 HM1)) as (r1 & Hp1 & Hk1).
  assert (Hf1 : cr_pnfs_flags r1 <> 0) by (rewrite (f_equal snd Hk1 : cr_pnfs_flags r1 = cr_pnfs_flags r); done).
  apply wp_bind, (wp_create_id B [] [p] Held 0 p r1); [done|done|lia|done| |].
  { intros w2 _ HI2 _. apply wp_ret. by exists B. }
  intros a w2 HaB HaX HI2 HB2.
  apply wp_bind, (wp_set_born B [] [p] Held a _ _ _ _ w1 w2 HI2 HB2); [done|done|]. intros w3 HI3 HB3.
  apply wp_bind, (wp_set_born B [] [p] Held a _ _ _ _ w1 w3 HI3 HB3); [done|done|]. intros w4 HI4 HB4.
  apply wp_bind, (wp_set_born B [] [p] Held a _ _ _ _ w1 w4 HI4 HB4); [done|done|]. intros w5 HI5 HB5.
  destruct (held_key _ _ _ _ w1 w5 p r1 HI5 ltac:(left) Hp1 (ci_addresses _ _ _ _ _ HI1) (bo_keys _ _ _ _ _ HB5)) as (r5 & Hp5 & Hk5).
  assert (Hwo : without a (a :: B) B).
  { intros b. rewrite elem_of_cons. split; [|tauto]. intros Hb. split; [by right|]. by intros ->. }
  destruct gethostname_ok; simpl.
  - apply wp_bind. eapply (wp_insert B [] [p] Held a _ r5 _ _ w1 w5 HI5 HB5); try done.
    + rewrite Hk5, Hk1. destruct HM1 as (_ & HV1 & _). rewrite HV1. unfold with_unconfirmed. by rewrite upd_view_eq.
    + intros w6 _ HI6 _. rewrite decide_True by done. apply wp_ret. by exists B.
    + intros w6 HI6 HB6 Hid6. rewrite decide_False by tauto. unfold exchange_id_reply.
      destruct (cw_ids w6 !! a) as [c6|] eqn:Ha6; [|done]. destruct (held_rec _ _ _ _ _ p HI6) as [r6 Hp6]; [left|].
      apply wp_bind, (wp_get_cid a c6); [done|]. apply wp_bind, (wp_get_rec p r6); [done|]. apply wp_ret. by exists B.
  - apply wp_bind. eapply (wp_free (a :: B) B [] [p] Held _ a); [done|rewrite (bo_ids _ _ _ _ _ HB5); apply lookup_insert_eq|done|done|done| |done| |].
    + intros _. by eexists.
    + right. split; [done|left].
    + intros w6 HI6 _ _. apply wp_ret. by exists B.
Qed.

(** The confirmed client id of a record. *)
Lemma conf_of_record B X XR XS w p r conf :
  cinv B X XR XS w -> cw_records w !! p = Some r -> cr_confirmed_rec r = Some conf ->
  exists c, cw_ids w !! conf = Some c /\ cid_confirmed c = CONFIRMED_CLIENT_ID /\ cid_client_record c = p /\ conf ∉ B.
Proof.
  intros HI Hp Hc. destruct (ro_conf _ _ _ _ _ (ci_records _ _ _ _ _ HI) p r conf Hp Hc) as (c & Ha & Hs & Hcp). exists c. split_and!; try done.
  intros HB. destruct (rf_new _ _ _ (ci_refs _ _ _ _ _ HI) conf HB) as (d & Hd & [Hn _ _ _]). congruence.
Qed.

Lemma wp_client_id_has_state a c (Q : bool -> cworld -> Prop) w :
  cw_ids w !! a = Some c -> (forall b, Q b w) -> wp (client_id_has_state a) Q w.
Proof. intros Ha HQ. unfold client_id_has_state. apply wp_bind, (wp_get_cid a c); [done|]. apply wp_ret, HQ. Qed.

Lemma wp_exchange_id_record B p r arg data w :
  cinv B [] [p] Held w -> cw_records w !! p = Some r -> cr_pnfs_flags r <> 0 -> 0 < minorversion data ->
  wp (exchange_id_record arg data p) (fun _ w' => exists B', cinv B' [] [p] Held w') w.
Proof.
  intros HI Hp Hflags Hmv. unfold exchange_id_record. apply wp_bind, (wp_get_rec p r); [done|]. cbv zeta.
  destruct (cr_confirmed_rec r) as [conf|] eqn:Hc.
  2: { destruct (bit_set _ _); [apply wp_ret; by exists B|]. by apply (wp_exchange_id_new B p r). }
  destruct (conf_of_record _ _ _ _ _ _ _ _ HI Hp Hc) as (c & Ha & Hs & Hcp & HB).
  assert (Hnew : forall w', cinv B [] [p] Held w' -> old_keys w w' -> wp (exchange_id_new arg data p) (fun _ w' => exists B', cinv B' [] [p] Held w') w').
  { intros w' HI' HK'. destruct (held_key _ _ _ _ w w' p r HI' ltac:(left) Hp (ci_addresses _ _ _ _ _ HI) HK') as (r' & Hp' & Hk').
    apply (wp_exchange_id_new B p r'); [done|done| |done]. by rewrite (f_equal snd Hk' : cr_pnfs_flags r' = cr_pnfs_flags r). }
  apply wp_bind, (wp_inc_id_eq B [] [p] Held conf c); [done|done|done|]. intros w1 HI1 HQ1 Hids1. set (c1 := with_cid_refcount _ c) in *.
  assert (Ha1 : cw_ids w1 !! conf = Some c1) by (by rewrite Hids1, lookup_insert_eq). pose proof HQ1 as ((HK1 & _) & _).
  destruct (held_key _ _ _ _ w w1 p r HI1 ltac:(left) Hp (ci_addresses _ _ _ _ _ HI) HK1) as (r1 & Hp1 & Hk1).
  apply wp_bind, (wp_get_cid conf c1); [done|].
  assert (Hend : forall res w2, cinv B [conf] [p] Held w2 -> wp (dec_client_id_ref conf;; mret (res : EXCHANGE_ID4res)) (fun _ w' => exists B', cinv B' [] [p] Held w') w2).
  { intros res w2 HI2. apply wp_bind, (wp_dec_id B [] [p] Held); [done|]. intros w3 HI3 _. apply wp_ret. by exists B. }
  destruct (bit_set _ _); simpl; [by apply Hend|]. destruct (nfs_compare_clientcred _ _); simpl.
  - destruct (_ =? _); [|apply Hnew; [by apply (cinv_leak _ _ _ _ _ conf)|done]]. unfold exchange_id_reply.
    apply wp_bind, (wp_get_cid conf c1); [done|]. apply wp_bind, (wp_get_rec p r1); [done|]. apply wp_ret. exists B. by apply (cinv_leak _ _ _ _ _ conf).
  - apply wp_bind, (wp_valid_lease conf c1); [done|].
    assert (Hboth : forall b : bool, wp (if negb b then nfs_client_id_expire conf;; dec_client_id_ref conf;; exchange_id_new arg data p
                                 else dec_client_id_ref conf;; mret (exchange_id_error NFS4ERR_CLID_INUSE))
                       (fun _ w' => exists B', cinv B' [] [p] Held w') w1).
    { intros []; simpl; [by apply Hend|]. apply wp_bind, (wp_expire B [conf] [p] Held conf c1 r1); [done|done|done|by simpl; congruence|by simpl; rewrite Hcp|].
      intros w2 HI2 ((HK2 & _) & _) _. apply wp_bind, (wp_dec_id B [] [p] Held); [done|]. intros w3 HI3 ((HK3 & _) & _). apply Hnew; [done|].
      eapply old_keys_trans; [|exact HK3]. eapply old_keys_trans; done. }
    apply wp_bind. destruct (lease_valid c1 w1); [|by apply wp_ret]. by apply (wp_client_id_has_state conf c1).
Qed.

Lemma pnfs_flags_nonzero flags : pnfs_flags_of flags <> 0.
Proof. unfold pnfs_flags_of. case (Z.eqb_spec (Z.land flags EXCHGID4_FLAG_MASK_PNFS) 0); done. Qed.

Lemma wp_exchange_id B arg data w :
  cinv B [] [] Held w -> 0 <= minorversion data ->
  get_client_record (eia_ownerid arg) (pnfs_flags_of (eia_flags arg)) (server_raddr data) w <> Fatal ->
  wp (nfs4_op_exchange_id arg data) (fun _ w' => exists B', cinv B' [] [] Held w') w.
Proof.
  intros HI Hmv HF. unfold nfs4_op_exchange_id. destruct (Z.eqb_spec (minorversion data) 0); [apply wp_ret; by exists B|].
  destruct (negb _); [apply wp_ret; by exists B|]. apply wp_bind, (wp_get_client_record B [] [] Held); [done|done| |].
  - intros w1 _ HI1 _. apply wp_ret. by exists B.
  - intros p r w1 HI1 _ Hp _ Hf. apply wp_bind. eapply wp_mono; [|apply (wp_exchange_id_record B p r); [done|done| |lia]].
    + intros res w2 [B' HI2]. apply wp_bind, (wp_dec_rec B' [] [] Held); [done|]. intros w3 HI3 _. apply wp_ret. by exists B'.
    + rewrite Hf. apply pnfs_flags_nonzero.
Qed.

(** * New sessions *)

Lemma sessions_new XS ids ss hts s x b c c' :
  sessions_ok XS ids ss hts -> ss !! s = None -> (forall a y, ss !! a = Some y -> session_id y <> session_id x) ->
  clientid_record x = b -> ids !! b = Some c -> sessions_of c' = s :: sessions_of c -> s_refcount x = 2 -> s ∉ XS ->
  sessions_ok (s :: s :: XS) (<[b := c']> ids) (<[s := x]> ss) hts.
Proof.
  intros [Ho Hl Hn Hi Hh Hr Hx] Hs Hid Hb Hc Hc' H2 HXS.
  assert (Hsn : forall d e, ids !! d = Some e -> s ∉ sessions_of e) by (intros d e Hd Hin; destruct (Hl d e s Hd Hin) as (y & Hy & _); congruence).
  split.
  - intros a y [[<- <-]|[Hne Ha]]%lookup_insert_Some; [exists c'; rewrite Hb, lookup_insert_eq, Hc'; split; [done|left]|].
    apply (live_ids _ ids b c c'); [done|rewrite Hc'; by right|by apply Ho].
  - intros d e a [[<- <-]|[Hne Hd]]%lookup_insert_Some Hin.
    + rewrite Hc' in Hin. apply elem_of_cons in Hin as [->|Hin]; [exists x; by rewrite lookup_insert_eq|].
      destruct (Hl b c a Hc Hin) as (y & Hy & ?). exists y. rewrite lookup_insert_ne; [done|]. congruence.
    + destruct (Hl d e a Hd Hin) as (y & Hy & ?). exists y. rewrite lookup_insert_ne; [done|]. congruence.
  - intros d e [[<- <-]|[_ Hd]]%lookup_insert_Some; [|by apply (Hn d)]. rewrite Hc'. apply NoDup_cons. split; [by apply (Hsn b)|by apply (Hn b)].
  - intros a d y z [[<- <-]|[_ Ha]]%lookup_insert_Some [[<- <-]|[_ Hd]]%lookup_insert_Some Heq; try done;
      [by destruct (Hid d z Hd)|by destruct (Hid a y Ha)|by apply (Hi a d y z)].
  - intros k a Hk. destruct (Hh k a Hk) as (y & Hy & ?). exists y. rewrite lookup_insert_ne; [done|]. congruence.
  - intros a y [[<- <-]|[Hne Ha]]%lookup_insert_Some.
    + rewrite decide_False; [|intros Hk; destruct (Hh _ _ Hk) as (y & Hy & _); congruence].
      simpl. rewrite bool_decide_true by done. rewrite occ_notin by done. simpl. lia.
    + simpl. rewrite bool_decide_false by done. simpl. by apply Hr.
  - intros a. rewrite !elem_of_cons, lookup_insert_is_Some'. intros [->|[->|Ha]]; [by left..|right; auto].
Qed.

Lemma sessions_hash XS ids ss hts s x :
  sessions_ok (s :: XS) ids ss hts -> ss !! s = Some x -> hts !! session_id x = None -> sessions_ok XS ids ss (<[session_id x := s]> hts).
Proof.
  intros [Ho Hl Hn Hi Hh Hr Hx] Hs Hk. split; try done.
  - intros k a [[<- <-]|[_ Ha]]%lookup_insert_Some; [by exists x|by apply Hh].
  - intros a y Ha. destruct (Hr a y Ha) as [Hneed ?]. split; [|done]. simpl in Hneed. destruct (decide (s = a)) as [<-|Hne].
    + assert (y = x) as -> by congruence. rewrite lookup_insert_eq, decide_True by done. rewrite bool_decide_true in Hneed by done.
      rewrite Hk, decide_False in Hneed by done. simpl in Hneed. lia.
    + rewrite bool_decide_false in Hneed by done. simpl in Hneed. destruct (decide (<[_ := _]> hts !! _ = _)) as [[[_ ?]|[_ Hy]]%lookup_insert_Some|]; [done| |].
      * by rewrite decide_True in Hneed.
      * destruct (decide (hts !! session_id y = Some a)); lia.
  - intros a Ha. apply Hx. by right.
Qed.

(** What [dec_client_id_ref] does, does not depend on sessions. *)
Definition over (ss : gmap loc nfs41_session_t) w : cworld := upd_cw_sessions (fun _ => ss) w.

Lemma dec_record_over ss p w :
  dec_client_record_ref p (over ss w) = match dec_client_record_ref p w with Ret u w' => Ret u (over ss w') | Undef => Undef | Fatal => Fatal | Stuck => Stuck end.
Proof.
  unfold dec_client_record_ref, set_rec, get_rec, mbind, M_bind, deref, modify, gets, mret. simpl.
  destruct (cw_records w !! p) as [r|]; [|done]. simpl. rewrite lookup_insert_eq. destruct (0 <? _); [done|].
  set (r' := with_cr_refcount _ r). change (ht_client_record (upd_cw_records (<[p := r']>) (over ss w))) with (ht_client_record w).
  change (ht_client_record (upd_cw_records (<[p := r']>) w)) with (ht_client_record w). by destruct (ht_client_record w !! record_key_of r').
Qed.

Lemma dec_id_over ss a c w :
  cw_ids w !! a = Some c -> (cid_refcount c <= 1 -> 0 < cid_minorversion c -> cid_cb c = cb_v41 []) ->
  dec_client_id_ref a (over ss w) = match dec_client_id_ref a w with Ret u w' => Ret u (over ss w') | Undef => Undef | Fatal => Fatal | Stuck => Stuck end.
Proof.
  intros Ha Hcb. unfold dec_client_id_ref. simpl. unfold set_cid, get_cid, mbind, M_bind, deref, modify, mret. simpl. rewrite Ha. simpl.
  rewrite lookup_insert_eq. set (c' := with_cid_refcount _ c). destruct (Z.ltb_spec 0 (cid_refcount c')) as [Hp|Hz]; [done|].
  destruct (decide _); [|done]. unfold free_client_id, get_cid, mbind, M_bind, deref. simpl. rewrite lookup_insert_eq.
  destruct (negb _); [done|]. set (w1 := upd_cw_ids _ w).
  change (upd_cw_ids (<[a := c']>) (over ss w)) with (over ss w1). rewrite dec_record_over.
  destruct (dec_client_record_ref (cid_client_record c') w1) as [u w2| | |]; [|done..]. unfold when.
  destruct (Z.ltb_spec 0 (cid_minorversion c')) as [Hv|Hv]; [|done]. unfold session_list. change (cid_cb c') with (cid_cb c).
  simpl in Hz, Hv. rewrite Hcb by (done || lia). done.
Qed.

Lemma wp_dec_id_over B X XR XS ss a (Q : unit -> cworld -> Prop) w :
  cinv B (a :: X) XR XS w -> (forall w', cinv B X XR XS w' -> quiet w w' -> frame w w' -> Q tt (over ss w')) ->
  wp (dec_client_id_ref a) Q (over ss w).
Proof.
  intros HI HQ. destruct (held_id _ _ _ _ _ a HI) as (c & Ha & HB); [left|].
  pose proof (wp_dec_id_frame B X XR XS a (fun u w' => Q u (over ss w')) w HI HQ) as Hwp. unfold wp in *.
  rewrite (dec_id_over ss a c w Ha); [by destruct (dec_client_id_ref a w)|]. intros H1 Hv.
  destruct (rf_refs _ _ _ (ci_refs _ _ _ _ _ HI) a c Ha HB) as [Hneed _]. simpl in Hneed. rewrite bool_decide_true in Hneed by done. simpl in Hneed.
  pose proof (occ_nonneg a X). pose proof (needs_nonneg c) as (? & ? & ?). pose proof (rf_cb _ _ _ (ci_refs _ _ _ _ _ HI) a c Ha HB) as Hok.
  unfold cb_ok, sessions_of in *. destruct (cid_cb c) as [|cb|l]; [done|lia|]. f_equal. apply length_zero_iff_nil. lia.
Qed.

(** * CREATE_SESSION *)

Definition session_added (a : loc) (c : nfs_client_id_t) (l : list loc) (s : loc) (x : nfs41_session_t) w : cworld :=
  upd_cw_sessions (fun _ => <[s := x]> (cw_sessions w)) (set_ids (<[a := with_cid_cb (cb_v41 (s :: l)) c]> (cw_ids w)) w).

(** A reference on the client becomes that of the session. *)
Lemma cinv_session_added B X XR w a c l s x :
  cinv B (a :: X) XR Held w -> cw_ids w !! a = Some c -> cid_cb c = cb_v41 l -> cw_sessions w !! s = None -> (s < cw_next w)%positive ->
  s_refcount x = 2 -> clientid_record x = a -> (session_id x).2 = global_sequence w ->
  (forall b y, live (cw_sessions w) !! b = Some y -> (session_id y).2 < global_sequence w) ->
  cinv B X XR (s :: s :: Held) (session_added a c l s x w).
Proof.
  intros HI Ha Hl Hs Hn H2 Hrec Hid Hold. destruct (held_id _ _ _ _ _ a HI) as (? & _ & HB); [left|]. set (c' := with_cid_cb (cb_v41 (s :: l)) c).
  destruct (rf_refs _ _ _ (ci_refs _ _ _ _ _ HI) a c Ha HB) as [Hneed Hpos]. simpl in Hneed. rewrite bool_decide_true in Hneed by done. simpl in Hneed.
  pose proof (rf_cb _ _ _ (ci_refs _ _ _ _ _ HI) a c Ha HB) as Hok. assert (Hso : sessions_of c = l) by (unfold sessions_of; by rewrite Hl).
  assert (Hln : live (cw_sessions w) !! s = None) by (destruct (live (cw_sessions w) !! s) eqn:Hls; [apply live_Some in Hls as [? _]; congruence|done]).
  apply (cinv_relink B (a :: X) X XR Held (s :: s :: Held) w a c c'); try done.
  - unfold cb_ok in *. rewrite Hl in Hok. done.
  - intros b Hb. simpl. rewrite bool_decide_false by done. simpl. lia.
  - intros b Hb. right. by right.
  - unfold needs, hashed in *. change (cid_confirmed c') with (cid_confirmed c). change (owners_of c') with (owners_of c).
    change (sessions_of c') with (s :: l). rewrite Hso in Hneed. simpl length. simpl in *. lia.
  - rewrite live_insert by lia. apply (sessions_new Held _ _ _ s x a c c'); try done; [apply HI| |by rewrite Hso|].
    + intros b y Hb Heq. specialize (Hold b y Hb). rewrite Heq in Hold. lia.
    + intros Hin. destruct (so_held _ _ _ _ (ci_sessions _ _ _ _ _ HI) s Hin) as [y Hy]. congruence.
  - rewrite live_insert by lia. intros b y [[<- <-]|[_ Hb]]%lookup_insert_Some; [lia|]. specialize (Hold b y Hb). lia.
  - intros b [<-|[_ Hb]]%lookup_insert_is_Some; [done|]. by apply (ad_sessions w (ci_addresses _ _ _ _ _ HI)).
Qed.

(** A client id that is in a table stays there through quiet steps. *)
Lemma hashed_stays B X XR XS B' X' XR' XS' S w w' a c :
  cinv B X XR XS w -> cw_ids w !! a = Some c -> a ∉ B -> cid_confirmed c <> EXPIRED_CLIENT_ID ->
  cinv B' X' XR' XS' w' -> keeps S w w' -> a ∉ S -> is_Some (cw_ids w' !! a).
Proof.
  intros HI Ha HB Hs HI' (_ & HT & _) HaS. pose proof (to_ids _ _ _ _ (ci_tables _ _ _ _ _ HI) a c Ha HB) as Hk.
  destruct (cid_confirmed c); [|..|done]; apply (HT _ a HaS) in Hk.
  - destruct (to_conf _ _ _ _ (ci_tables _ _ _ _ _ HI') _ a Hk) as (d & Hd & _). by exists d.
  - destruct (to_unconf _ _ _ _ (ci_tables _ _ _ _ _ HI') _ a Hk) as (d & Hd & _). by exists d.
Qed.

(** A session that could not be put into the table goes again. *)
Lemma wp_session_undo {A} B X XR a c l s x (ret : A) (Q : A -> cworld -> Prop) w :
  cinv B (a :: X) XR (s :: s :: Held) w -> cw_ids w !! a = Some c -> cid_cb c = cb_v41 (s :: l) -> live (cw_sessions w) !! s = Some x -> clientid_record x = a ->
  s_refcount x = 2 -> cid_confirmed c <> EXPIRED_CLIENT_ID -> (forall w', cinv B X XR Held w' -> is_Some (cw_ids w' !! a) -> Q ret w') ->
  wp (unlink_session a s;;
      dec_client_id_ref a;;
      dec_client_id_ref a;;
      modify (upd_cw_sessions (delete s));;
      mret ret) Q w.
Proof.
  intros HI Ha Hl Hs Hrec H2 Hex HQ. pose proof (ci_sessions _ _ _ _ _ HI) as HS. destruct (held_id _ _ _ _ _ a HI) as (? & _ & HB); [left|].
  apply wp_bind, (wp_unlink_session a c (s :: l)); [done|done|]. set (c' := with_cid_cb _ c). set (ss := cw_sessions w).
  assert (Hso : sessions_of c = s :: l) by (unfold sessions_of; by rewrite Hl).
  assert (Hin : s ∈ sessions_of c) by (rewrite Hso; left).
  destruct (rf_refs _ _ _ (ci_refs _ _ _ _ _ HI) a c Ha HB) as [Hneed Hpos].
  assert (HI1 : cinv B (a :: a :: X) XR Held (over (delete s ss) (set_ids (<[a := c']> (cw_ids w)) w))).
  { apply (cinv_relink B (a :: X) (a :: a :: X) XR (s :: s :: Held) Held w a c c' (delete s ss)); try done.
    - pose proof (rf_cb _ _ _ (ci_refs _ _ _ _ _ HI) a c Ha HB) as Hok. unfold cb_ok in *. rewrite Hl in Hok. done.
    - intros b Hb. simpl. rewrite !bool_decide_false by done. simpl. lia.
    - intros b. rewrite !elem_of_cons. tauto.
    - unfold needs, hashed in *. change (cid_confirmed c') with (cid_confirmed c). change (owners_of c') with (owners_of c).
      change (sessions_of c') with (glist_del s (s :: l)). rewrite <- Hso. rewrite glist_del_length by (done || by apply (so_nodup _ _ _ _ HS a)).
      simpl in *. rewrite bool_decide_true in Hneed |- * by done. simpl in *. lia.
    - rewrite live_delete. unfold ss. rewrite <- Hrec at 1.
      rewrite <- (delete_insert_eq (live (cw_sessions w)) s (with_s_refcount 1 x)).
      pose proof (sessions_count (s :: s :: Held) (s :: Held) _ _ _ s x 1 HS Hs) as HC.
      apply (sessions_unlink Held (cw_ids w) (<[s := with_s_refcount 1 x]> (live (cw_sessions w))) _ s (with_s_refcount 1 x) c c'); [|apply lookup_insert_eq|done|by rewrite <- Ha; f_equal|].
      + apply HC; [|intros b; rewrite !elem_of_cons; tauto| |lia].
        * intros b Hb. simpl. rewrite !bool_decide_false by done. simpl. lia.
        * destruct (so_refs _ _ _ _ HS s x Hs) as [Hr _]. simpl in Hr |- *. rewrite bool_decide_true in Hr |- * by done. simpl in *. lia.
      + change (sessions_of c') with (glist_del s (s :: l)). by rewrite Hso.
    - rewrite live_delete. intros b y [_ Hb]%lookup_delete_Some. by apply (ci_sequence _ _ _ _ _ HI b).
    - intros b [y [_ Hb]%lookup_delete_Some]. apply (ad_sessions w (ci_addresses _ _ _ _ _ HI)). by eexists. }
  match goal with |- wp _ _ ?v => replace v with (over ss (over (delete s ss) (set_ids (<[a := c']> (cw_ids w)) w))) by done end.
  set (wb := over (delete s ss) _) in *.
  apply wp_bind, (wp_dec_id_over B (a :: X) XR Held); [done|]. intros w2 HI2 HQ2 (HS2 & _).
  apply wp_bind, (wp_dec_id_over B X XR Held); [done|]. intros w3 HI3 HQ3 (HS3 & _). apply wp_bind, wp_modify, wp_ret.
  assert (Hids : is_Some (cw_ids w3 !! a)).
  { apply (hashed_stays B (a :: a :: X) XR Held B X XR Held [] wb w3 a c'); try done; [by simpl; rewrite lookup_insert_eq|apply quiet_keeps; by etrans|apply not_elem_of_nil]. }
  apply HQ; [|done]. apply (cinv_same _ _ _ _ w3); [done| |done|done]. split_and!; try done. simpl. by rewrite HS3, HS2.
Qed.

(** The client id [a], whose slot is to keep the reply, is still there. *)
Definition safe (p a : loc) {A} (_ : A) w' : Prop := (exists B', cinv B' [] [p] Held w') /\ is_Some (cw_ids w' !! a).

Lemma wp_create_session_done B p a c s seq w :
  cinv B [a] [p] (s :: Held) w -> cw_ids w !! a = Some c -> cid_confirmed c = CONFIRMED_CLIENT_ID ->
  wp (create_session_done a s seq) (safe p a) w.
Proof.
  intros HI Ha Hc. destruct (held_id _ _ _ _ _ a HI) as (_ & _ & HB); [left|]. unfold create_session_done. apply wp_bind, wp_gets.
  apply wp_bind, (wp_set_other B [a] [p] (s :: Held) a c); try done. intros w1 HI1 _ Hids1 _ _ _. set (c1 := with_cid_create_session_sequence _ c) in *.
  apply wp_bind, (wp_set_other B [a] [p] (s :: Held) a c1); try done; [by rewrite Hids1, lookup_insert_eq|]. intros w2 HI2 _ Hids2 _ _ _.
  apply wp_bind, (wp_dec_id B [] [p] (s :: Held)); [done|]. intros w3 HI3 HQ3. destruct (held_session _ _ _ _ _ s HI3) as (x & _ & Hx); [left|].
  apply wp_bind, (wp_get_sess s x); [done|]. apply wp_bind, (wp_dec_session B [] [p] Held); [done|]. intros w4 HI4 HQ4 _. apply wp_ret.
  split; [by exists B|]. apply (hashed_stays B [a] [p] (s :: Held) B [] [p] Held [] w2 w4 a (with_cid_last_renew (cw_time w) c1)); try done;
    [by rewrite Hids2, lookup_insert_eq|simpl; congruence|apply quiet_keeps; by etrans|apply not_elem_of_nil].
Qed.

(** A session that is held keeps its client. *)
Lemma session_keeps_client B X XR XS w w' s x :
  steady w w' -> addresses_ok w -> cw_sessions w !! s = Some x -> cinv B X XR XS w' -> s ∈ XS -> is_Some (cw_ids w' !! clientid_record x).
Proof.
  intros HS HA Hs HI' Hin. destruct (held_session _ _ _ _ _ s HI' Hin) as (x' & Hl & Hx').
  destruct (steady_old w w' s x' HS Hx') as (y & Hy & E); [apply (ad_sessions w HA); by eexists|]. assert (y = x) as -> by congruence.
  destruct (so_owner _ _ _ _ (ci_sessions _ _ _ _ _ HI') s x' Hl) as (d & Hd & _). exists d.
  by rewrite <- (f_equal (fun t => t.1.1.1) E : clientid_record x' = clientid_record x).
Qed.

(** When the client id cannot be confirmed, the reference of the call on the session stays. *)
Lemma wp_create_session_confirm B p a u r s x seq w :
  cinv B [a] [p] (s :: Held) w -> cw_ids w !! a = Some u -> cid_confirmed u = UNCONFIRMED_CLIENT_ID -> cid_client_record u = p ->
  cw_records w !! p = Some r -> (view w (record_key_of r)).1 = None -> cw_sessions w !! s = Some x -> clientid_record x = a ->
  wp (create_session_confirm a s seq) (safe p a) w.
Proof.
  intros HI Ha Hs Hup Hp Hv Hx Hxa. destruct (held_id _ _ _ _ _ a HI) as (_ & _ & HB); [left|]. unfold create_session_confirm.
  apply wp_bind, wp_steady; [apply frames_confirm|]. apply (wp_confirm B [a] [p] (s :: Held) a u r); try done; [by rewrite Hup| |].
  - intros w1 _ HI1 _ S1. rewrite decide_True by done. destruct (held_session _ _ _ _ _ s HI1) as (x1 & _ & Hx1); [left|].
    apply wp_bind, (wp_get_sess s x1); [done|]. apply wp_bind, wp_steady; [apply frames_Session_Del|].
    apply (wp_Session_Del B [a] [p] (s :: Held)); [done|]. intros w2 HI2 _ S2.
    apply wp_bind, wp_steady; [apply frames_dec_id|]. apply (wp_dec_id B [] [p] (s :: Held)); [done|]. intros w3 HI3 _ S3. apply wp_ret. split.
    + exists B. by apply (cinv_leak_session _ _ _ _ _ s).
    + rewrite <- Hxa. apply (session_keeps_client B [] [p] (s :: Held) w w3 s x); [|apply HI|done|done|left]. by etrans; [|etrans].
  - intros w1 _ HI1 _ Hids _. rewrite decide_False by tauto. apply (wp_create_session_done B p a (with_cid_confirmed CONFIRMED_CLIENT_ID u)); [done| |done].
    by rewrite Hids, lookup_insert_eq.
Qed.

(** A client id of this number that is confirmed, and one of the same record that is not. *)
Lemma same_number_of B X XR XS w p r a u b c :
  cinv B X XR XS w -> cw_records w !! p = Some r -> cw_ids w !! a = Some u -> cid_client_record u = p -> cid_confirmed u = UNCONFIRMED_CLIENT_ID -> a ∉ B ->
  cw_ids w !! b = Some c -> cr_confirmed_rec r = Some b -> cid_clientid c = cid_clientid u -> sessions_of u <> [] -> same_number (view w) (cid_clientid u).
Proof.
  intros HI Hp Ha Hup Hs HB Hb Hc Hid Hse. exists (record_key_of r), (aid_of c), (aid_of u). unfold unconfirmed_as, confirmed_as.
  destruct (ro_id _ _ _ _ _ (ci_records _ _ _ _ _ HI) a u Ha) as (r' & Hr' & _ & Hun & _). assert (r' = r) as -> by congruence.
  rewrite (view_record _ _ _ _ _ _ _ HI Hp), Hc, (Hun Hs HB). simpl. rewrite Ha, Hb. simpl. split_and!; try done.
  simpl. unfold sessions_of in Hse. by destruct (cid_cb u).
Qed.

(** The session is of an unconfirmed client id, which becomes the confirmed one. *)
Lemma wp_attach_unconf B p a u r s x clientid seq w :
  cinv B [a] [p] (s :: Held) w -> cw_ids w !! a = Some u -> cid_confirmed u = UNCONFIRMED_CLIENT_ID -> cid_client_record u = p ->
  cw_records w !! p = Some r -> cw_sessions w !! s = Some x -> clientid_record x = a -> cid_clientid u = clientid -> sessions_of u <> [] ->
  ~ same_number (view w) clientid -> wp (create_session_attach clientid (Some a) None p s seq) (safe p a) w.
Proof.
  intros HI Ha Hs Hup Hp Hx Hxa Hid Hse Hnum. unfold create_session_attach. apply wp_bind, wp_bind, (wp_get_rec p r); [done|].
  destruct (held_id _ _ _ _ _ a HI) as (_ & _ & HaB0); [left|]. destruct (cr_confirmed_rec r) as [b|] eqn:Hc.
  2: { apply wp_ret, wp_bind, wp_ret. apply (wp_create_session_confirm B p a u r s x); try done. rewrite (view_record _ _ _ _ _ _ _ HI Hp). by rewrite Hc. }
  destruct (conf_of_record _ _ _ _ _ _ _ _ HI Hp Hc) as (c & Hb & Hcs & Hcp & HbB). assert (Hab : a <> b) by (intros ->; congruence).
  assert (Hne : cid_clientid c <> clientid).
  { intros E. apply Hnum. rewrite <- Hid. apply (same_number_of B [a] [p] (s :: Held) w p r a u b c); try done. congruence. }
  apply wp_bind, wp_steady; [apply frames_inc_id|]. apply (wp_inc_id B [a] [p] (s :: Held) b c); [done|done|done|]. intros w1 HI1 HQ1 S1. apply wp_ret, wp_bind.
  pose proof (quiet_keeps _ _ HQ1) as HK1.
  destruct (held_ident _ _ _ _ [] w w1 b c HI1 ltac:(left) HK1 (not_elem_of_nil _) Hb) as (c1 & Hb1 & (Ec & Ecs & Ecp & _)%ident_fields & _).
  destruct (held_ident _ _ _ _ [] w w1 a u HI1 ltac:(right; left) HK1 (not_elem_of_nil _) Ha) as (u1 & Ha1 & (_ & Eus & Eup & _)%ident_fields & HaB).
  destruct (held_rec _ _ _ _ _ p HI1) as [r1 Hp1]; [left|]. apply wp_bind, (wp_get_cid b c1); [done|].
  assert (Eid : cid_clientid c1 = cid_clientid c) by exact (f_equal ai_clientid Ec). destruct (Z.eqb_spec (cid_clientid c1) clientid); [congruence|]. simpl.
  apply wp_bind, wp_steady; [apply frames_expire|].
  apply (wp_expire B [b; a] [p] (s :: Held) b c1 r1); [done|done|done|congruence|congruence|]. intros w2 HI2 HC2 _ S2.
  apply wp_bind, wp_steady; [apply frames_dec_id|]. apply (wp_dec_id B [a] [p] (s :: Held)); [done|]. intros w3 HI3 HQ3 S3. apply wp_ret.
  pose proof (changes_quiet _ _ _ _ _ HC2 HQ3) as (HK3 & HV3 & _).
  destruct (held_ident B [a] [p] (s :: Held) [b] w1 w3 a u1 HI3 ltac:(left) HK3 ltac:(rewrite list_elem_of_singleton; congruence) Ha1) as (u3 & Ha3 & (_ & Es3 & Ep3 & _)%ident_fields & _).
  destruct (held_key _ _ _ _ w1 w3 p r1 HI3 ltac:(left) Hp1 (ci_addresses _ _ _ _ _ HI1) (proj1 HK3)) as (r3 & Hp3 & Hk3).
  destruct (held_session _ _ _ _ _ s HI3) as (x3 & _ & Hx3); [left|].
  assert (S03 : steady w w3) by (by etrans; [|etrans]). destruct (steady_old w w3 s x3 S03 Hx3) as (y & Hy & E); [apply (ad_sessions w (ci_addresses _ _ _ _ _ HI)); by eexists|].
  assert (y = x) as -> by congruence.
  apply (wp_create_session_confirm B p a u3 r3 s x3); [done|done|congruence|congruence|done| |done|].
  - rewrite Hk3, HV3, upd_view_eq. unfold is_confirmed. by rewrite Ecs, Hcs.
  - rewrite <- Hxa. exact (f_equal (fun t => t.1.1.1) E).
Qed.

(** The session is of the confirmed client id itself. *)
Lemma wp_attach_conf B p a c s seq w :
  cinv B [a] [p] (s :: Held) w -> cw_ids w !! a = Some c -> cid_confirmed c = CONFIRMED_CLIENT_ID ->
  wp (create_session_attach (cid_clientid c) None (Some a) p s seq) (safe p a) w.
Proof.
  intros HI Ha Hc. unfold create_session_attach. apply wp_bind, wp_ret, wp_bind, wp_bind, (wp_get_cid a c); [done|].
  rewrite Z.eqb_refl. simpl. apply wp_ret. by apply (wp_create_session_done B p a c).
Qed.

(** How CREATE_SESSION found the client id [a]. *)
Definition found_as (clientid : Z) (a : loc) (c : nfs_client_id_t) (unconf conf : option loc) : Prop :=
  cid_clientid c = clientid /\
  ((unconf = Some a /\ conf = None /\ cid_confirmed c = UNCONFIRMED_CLIENT_ID) \/
   (unconf = None /\ conf = Some a /\ cid_confirmed c = CONFIRMED_CLIENT_ID)).

(** With the result comes a client id that is there, or none; with a retry comes one. *)
Definition slot_live (res : CREATE_SESSION4res * option loc) w' : Prop :=
  (forall a, res.2 = Some a -> is_Some (cw_ids w' !! a)) /\ (res.1 = create_session_replay -> is_Some res.2).

Lemma wp_create_session_attach B p a c s x clientid unconf conf seq w :
  cinv B [a] [p] (s :: Held) w -> cw_ids w !! a = Some c -> cid_client_record c = p -> found_as clientid a c unconf conf ->
  cw_sessions w !! s = Some x -> clientid_record x = a -> sessions_of c <> [] -> ~ same_number (view w) clientid ->
  wp (create_session_attach clientid unconf conf p s seq) (safe p a) w.
Proof.
  intros HI Ha Hcp [<- [(-> & -> & Hs)|(-> & -> & Hs)]] Hx Hxa Hse Hnum; [|by apply (wp_attach_conf B)].
  destruct (held_rec _ _ _ _ _ p HI) as [r Hp]; [left|]. by apply (wp_attach_unconf B p a c r s x).
Qed.

Lemma fresh_session w : addresses_ok w -> cw_sessions w !! cw_next w = None.
Proof.
  intros HA. destruct (cw_sessions w !! cw_next w) eqn:Hp; [|done].
  assert (cw_next w < cw_next w)%positive by (apply (ad_sessions w HA); by eexists). lia.
Qed.

(** The session is on the list of its client; it goes into the table. *)
Lemma wp_session_set B p a c l s x clientid unconf conf seq w :
  cinv B [a] [p] (s :: s :: Held) w -> cw_ids w !! a = Some c -> cid_cb c = cb_v41 (s :: l) -> cid_client_record c = p ->
  live (cw_sessions w) !! s = Some x -> clientid_record x = a -> s_refcount x = 2 ->
  ht_session_id w !! session_id x = None -> found_as clientid a c unconf conf -> ~ same_number (view w) clientid ->
  wp (ok ← nfs41_Session_Set s;
      if negb ok then
        unlink_session a s;;
        dec_client_id_ref a;;
        dec_client_id_ref a;;
        modify (upd_cw_sessions (delete s));;
        mret (create_session_error NFS4ERR_SERVERFAULT, Some a)
      else
        res ← create_session_attach clientid unconf conf p s seq;
        mret (res, Some a)) (fun res w' => (exists B', cinv B' [] [p] Held w') /\ slot_live res w') w.
Proof.
  intros HI Ha Hl Hcp Hs Hrec H2 Hk Hf Hnum. pose proof (proj1 (live_Some _ _ _) Hs) as [Hs' _].
  assert (Hex : cid_confirmed c <> EXPIRED_CLIENT_ID) by (destruct Hf as [_ [(_ & _ & ->)|(_ & _ & ->)]]; done).
  apply wp_bind. unfold nfs41_Session_Set. apply wp_bind, (wp_get_sess s x); [done|]. apply wp_bind, wp_gets. rewrite Hk.
  apply wp_bind, wp_cchoose. intros w1 b HSt HE Hn HV. pose proof HSt as (E1 & E2 & E3 & E4 & E5 & E6 & E7).
  pose proof (f_equal (fun t => t.1.2) HE) as Hg. simpl in Hg.
  assert (HI1 : cinv B [a] [p] (s :: s :: Held) w1) by (apply (cinv_same _ _ _ _ w); [done|done|lia|lia]). apply wp_bind. destruct b; simpl.
  - apply wp_modify, wp_ret. simpl. apply wp_bind.
    assert (Hvw : forall k, view (upd_ht_session_id (<[session_id x := s]>) w1) k = view w k) by (intros k; unfold view; simpl; by rewrite E1, E2, E6).
    eapply wp_mono; [|apply (wp_create_session_attach B p a c s x); [|simpl; by rewrite E1|done|done|simpl; by rewrite E3|done| |]].
    + intros res w2 [HB' Hlive]. apply wp_ret. split; [done|]. split; [by intros b [= <-]|by eexists].
    + refine (cinv_sessions B [a] [p] (s :: s :: Held) (s :: Held) w1 (cw_sessions w1) (<[session_id x := s]> (ht_session_id w1)) HI1 _ _ _); [|apply HI1..].
      apply sessions_hash; [apply HI1|by rewrite E3|by rewrite E7].
    + unfold sessions_of. by rewrite Hl.
    + intros (k & d & u & H1 & H3 & H4). apply Hnum. exists k, d, u. unfold unconfirmed_as, confirmed_as in *. by rewrite Hvw in H1, H3.
  - apply wp_ret. simpl. apply (wp_session_undo B [] [p] a c l s x); try done; [by rewrite E1|by rewrite E3|]. intros w2 HI2 Hids. split; [by exists B|]. by split; [intros b [= <-]|].
Qed.

(** Releasing a record leaves the clients alone. *)
Lemma wp_dec_rec_ids B X XR XS p (Q : unit -> cworld -> Prop) w :
  cinv B X (p :: XR) XS w -> (forall w', cinv B X XR XS w' -> cw_ids w' = cw_ids w -> Q tt w') -> wp (dec_client_record_ref p) Q w.
Proof.
  intros HI HQ. destruct (held_rec _ _ _ _ _ p HI) as [r Hp]; [left|].
  pose proof (ro_key _ _ _ _ _ (ci_records _ _ _ _ _ HI) p r Hp) as Hk.
  eapply wp_mono; [|apply wp_and; [apply (wp_dec_rec B X XR XS p (fun _ w' => cinv B X XR XS w') w HI); auto
                                  |apply (wp_dec_record p r (fun _ w' => w' = drop_record p r w) w Hp Hk); reflexivity]].
  intros [] w' [HI' ->]. apply HQ; [done|]. unfold drop_record. by destruct (0 <? _).
Qed.

Lemma same_number_view w w' n : (forall k, view w' k = view w k) -> same_number (view w') n -> same_number (view w) n.
Proof. intros HV (k & c & u & H1 & H2 & H3). exists k, c, u. unfold unconfirmed_as, confirmed_as in *. by rewrite HV in H1, H2. Qed.

(** What CREATE_SESSION leaves behind, while the record is held. *)
Definition kept (p : loc) (res : CREATE_SESSION4res * option loc) w' : Prop := (exists B', cinv B' [] [p] Held w') /\ slot_live res w'.

Lemma wp_create_session_new B p a c arg data unconf conf w :
  cinv B [a] [p] Held w -> cw_ids w !! a = Some c -> 0 < cid_minorversion c -> cid_client_record c = p ->
  found_as (csa_clientid arg) a c unconf conf -> u64 (global_sequence w + 1) = global_sequence w + 1 -> ~ same_number (view w) (csa_clientid arg) ->
  wp (create_session_new arg data a unconf conf p) (kept p) w.
Proof.
  intros HI Ha Hmv Hcp Hf Hseq Hnum. destruct (held_id _ _ _ _ _ a HI) as (_ & _ & HB); [left|]. unfold create_session_new.
  apply wp_bind, wp_cchoose. intros w1 ok HSt HE Hn _. pose proof HSt as (E1 & E2 & E3 & E4 & E5 & E6 & E7).
  pose proof (f_equal (fun t => t.1.2) HE) as Hg. simpl in Hg.
  assert (HI1 : cinv B [a] [p] Held w1) by (apply (cinv_same _ _ _ _ w); [done|done|lia|lia]).
  destruct ok; simpl; [|apply wp_bind, (wp_dec_id B [] [p] Held); [done|]; intros w2 HI2 _; apply wp_ret; by split; [exists B|]].
  apply wp_bind, wp_cfresh. set (s := cw_next w1). set (w2 := upd_cw_next Pos.succ w1).
  assert (HI2 : cinv B [a] [p] Held w2) by (apply (cinv_same _ _ _ _ w1); [done|done|simpl; lia|done]).
  assert (Ha2 : cw_ids w2 !! a = Some c) by (simpl; by rewrite E1).
  pose proof (cinv_inc B [a] [p] Held w2 a c HI2 Ha2 HB) as HI3. set (c3 := with_cid_refcount _ c) in *. set (w3 := set_ids _ w2) in *.
  unfold inc_client_id_ref. apply wp_bind, (wp_set_cid a c); [done|]. fold c3. fold w3.
  assert (Ha3 : cw_ids w3 !! a = Some c3) by (simpl; apply lookup_insert_eq). apply wp_bind, (wp_get_cid a c3); [done|].
  pose proof (rf_cb _ _ _ (ci_refs _ _ _ _ _ HI3) a c3 Ha3 HB) as Hok. unfold cb_ok in Hok. simpl in Hok. unfold session_list. simpl.
  destruct (cid_cb c) as [|cb|l] eqn:Hl; [done|lia|]. apply wp_bind, wp_ret, wp_bind, (wp_set_cid a c3); [done|].
  unfold nfs41_Build_sessionid. apply wp_bind, wp_bind, wp_modify, wp_bind, wp_gets, wp_ret. apply wp_bind, wp_modify.
  set (w4 := upd_global_sequence (fun n => u64 (n + 1)) w3).
  assert (Hgs : global_sequence w4 = global_sequence w + 1) by (simpl; rewrite Hg; done).
  assert (HI4 : cinv B [a; a] [p] Held w4) by (apply (cinv_same _ _ _ _ w3); [done|done|simpl; lia|rewrite Hgs; simpl; lia]).
  set (x := mk_session _ _ _ _ _ _ _ _).
  match goal with |- wp _ _ ?v => assert (v = session_added a c3 l s x w4) as -> by reflexivity end.
  assert (Hid : (session_id x).2 = global_sequence w4) by reflexivity.
  assert (Hs4 : cw_sessions w4 !! s = None) by exact (fresh_session w1 (ci_addresses _ _ _ _ _ HI1)).
  assert (Hold : forall b y, live (cw_sessions w4) !! b = Some y -> (session_id y).2 < global_sequence w4).
  { intros b y Hb. change (cw_sessions w4) with (cw_sessions w1) in Hb. pose proof (ci_sequence _ _ _ _ _ HI1 b y Hb). rewrite Hgs. lia. }
  pose proof (cinv_session_added B [a] [p] w4 a c3 l s x HI4 Ha3 Hl Hs4 ltac:(simpl; lia) eq_refl eq_refl Hid Hold) as HI5.
  set (w5 := session_added a c3 l s x w4) in *. set (c5 := with_cid_cb (cb_v41 (s :: l)) c3).
  assert (Ha5 : cw_ids w5 !! a = Some c5) by (simpl; apply lookup_insert_eq).
  apply wp_bind, (wp_set_other B [a] [p] (s :: s :: Held) a c5); try done.
  intros w6 HI6 (_ & HV6 & _) Hids6 _ HS6 HH6. set (c6 := with_cid_create_session_slot _ c5) in *.
  assert (HV5 : forall k, view w5 k = view w k).
  { intros k. rewrite <- (view_ids w (cw_ids w5)).
    - unfold view. simpl. by rewrite E2, E6.
    - intros b. simpl. rewrite insert_insert_eq, E1. apply (aids_insert _ a c); [done|]. unfold aid_of. simpl. by rewrite Hl. }
  apply (wp_session_set B p a c6 l s x); try done; [by rewrite Hids6, lookup_insert_eq| | |].
  - rewrite HS6. apply live_Some. split; [simpl; apply lookup_insert_eq|done].
  - rewrite HH6. change (ht_session_id w5) with (ht_session_id w1). destruct (ht_session_id w1 !! session_id x) as [b|] eqn:Hb; [|done].
    destruct (so_hts _ _ _ _ (ci_sessions _ _ _ _ _ HI1) _ b Hb) as (y & Hy & Hyid). specialize (Hold b y Hy). rewrite Hyid, Hid in Hold. lia.
  - intros Hsame. apply Hnum, (same_number_view w w6); [|done]. intros k. by rewrite HV6.
Qed.

(** The client id that a request names is of NFSv4.1. *)
Definition v41_id (clientid : Z) w : Prop :=
  forall a c, ht_unconfirmed_client_id w !! clientid = Some a \/ ht_confirmed_client_id w !! clientid = Some a ->
    cw_ids w !! a = Some c -> 0 < cid_minorversion c.

Lemma wp_create_session_found B p a c arg data unconf conf w :
  cinv B [a] [p] Held w -> cw_ids w !! a = Some c -> 0 < cid_minorversion c -> cid_client_record c = p ->
  found_as (csa_clientid arg) a c unconf conf -> u64 (global_sequence w + 1) = global_sequence w + 1 -> ~ same_number (view w) (csa_clientid arg) ->
  wp (create_session_found arg data a unconf conf p) (kept p) w.
Proof.
  intros HI Ha Hmv Hcp Hf Hseq Hnum. unfold create_session_found. apply wp_bind, (wp_get_cid a c); [done|].
  destruct (held_id _ _ _ _ _ a HI) as (_ & _ & HB); [left|].
  assert (Hend : forall res kept_by, (kept_by = None /\ res <> create_session_replay) \/ kept_by = Some a -> wp (dec_client_id_ref a;; mret (res : CREATE_SESSION4res, kept_by)) (kept p) w).
  { intros res kb Hkb. apply wp_bind, (wp_dec_id B [] [p] Held); [done|]. intros w1 HI1 HQ1. apply wp_ret. split; [by exists B|].
    destruct Hkb as [[-> Hr]| ->]; [done|]. split; [|by eexists]. intros b Hb. injection Hb as <-.
    apply (hashed_stays B [a] [p] Held B [] [p] Held [] w w1 a c); try done; [|by apply quiet_keeps|apply not_elem_of_nil].
    destruct Hf as [_ [(_ & _ & ->)|(_ & _ & ->)]]; done. }
  repeat match goal with |- wp (if ?b then _ else _) _ _ => destruct b; [by apply Hend; first [by right|by left]|] end. by apply (wp_create_session_new B p a c).
Qed.

Lemma wp_create_session_client B a c arg data unconf conf w :
  cinv B [a] [] Held w -> cw_ids w !! a = Some c -> 0 < cid_minorversion c ->
  found_as (csa_clientid arg) a c unconf conf -> u64 (global_sequence w + 1) = global_sequence w + 1 -> ~ same_number (view w) (csa_clientid arg) ->
  wp (f ← get_cid a;
      inc_client_record_ref (cid_client_record f);;
      res ← create_session_found arg data a unconf conf (cid_client_record f);
      dec_client_record_ref (cid_client_record f);;
      mret res) (fun res w' => (exists B', cinv B' [] [] Held w') /\ slot_live res w') w.
Proof.
  intros HI Ha Hmv Hf Hseq Hnum. apply wp_bind, (wp_get_cid a c); [done|].
  destruct (ro_id _ _ _ _ _ (ci_records _ _ _ _ _ HI) a c Ha) as (r & Hp & _).
  apply wp_bind, (wp_inc_rec B [a] [] Held _ r); [done|done|]. intros w1 HI1 HQ1 Hids _. apply wp_bind.
  assert (Hg : global_sequence w1 = global_sequence w) by (destruct HQ1 as (_ & _ & HE & _); exact (f_equal (fun t => t.1.2) HE)).
  eapply wp_mono; [|apply (wp_create_session_found B (cid_client_record c) a c); [done|by rewrite Hids|done|done|done|by rewrite Hg|]].
  - intros res w2 [[B' HI2] Hlive]. apply wp_bind, (wp_dec_rec_ids B' [] [] Held); [done|]. intros w3 HI3 Hids3. apply wp_ret.
    split; [by exists B'|]. split; [|apply Hlive]. intros b Hb. rewrite Hids3. by apply Hlive.
  - intros Hsame. apply Hnum, (same_number_view w w1); [|done]. apply HQ1.
Qed.

Lemma wp_create_session B arg data w :
  cinv B [] [] Held w -> v41_id (csa_clientid arg) w -> u64 (global_sequence w + 1) = global_sequence w + 1 -> ~ same_number (view w) (csa_clientid arg) ->
  wp (nfs4_op_create_session arg data) (fun res w' => (exists B', cinv B' [] [] Held w') /\ slot_live res w') w.
Proof.
  intros HI Hv41 Hseq Hnum. unfold nfs4_op_create_session. destruct (_ =? _); [apply wp_ret; by split; [exists B|]|].
  assert (Hgo : forall a c w1 unconf conf, ht_unconfirmed_client_id w !! csa_clientid arg = Some a \/ ht_confirmed_client_id w !! csa_clientid arg = Some a ->
     cw_ids w !! a = Some c -> cinv B [a] [] Held w1 -> quiet w w1 -> found_as (csa_clientid arg) a c unconf conf ->
     wp (f ← get_cid a;
      inc_client_record_ref (cid_client_record f);;
      res ← create_session_found arg data a unconf conf (cid_client_record f);
      dec_client_record_ref (cid_client_record f);;
      mret res) (fun res w' => (exists B', cinv B' [] [] Held w') /\ slot_live res w') w1).
  { intros a c w1 unconf conf Hk Ha HI1 HQ1 Hf. pose proof HQ1 as (HK1 & HV1 & HE1 & _).
    destruct (held_ident _ _ _ _ [] w w1 a c HI1 ltac:(left) HK1 (not_elem_of_nil _) Ha) as (c1 & Ha1 & (Ec & Ecs & Ecp & Emv)%ident_fields & _).
    assert (Hg : global_sequence w1 = global_sequence w) by exact (f_equal (fun t => t.1.2) HE1).
    assert (Eid : cid_clientid c1 = cid_clientid c) by exact (f_equal ai_clientid Ec).
    apply (wp_create_session_client B a c1); [done|done|rewrite Emv; by apply (Hv41 a)| |by rewrite Hg|].
    - unfold found_as. by rewrite Ecs, Eid.
    - intros Hsame. by apply Hnum, (same_number_view w w1). }
  assert (Hconf : wp (nfs_client_id_get_confirmed (csa_clientid arg)) (fun rc_conf w1 =>
     wp (match rc_conf.2 with
         | None => mret (create_session_error (clientid_error_to_nfsstat (if decide (rc_conf.1 = CLIENT_ID_EXPIRED) then CLIENT_ID_STALE else rc_conf.1)), None)
         | Some found => f ← get_cid found;
             inc_client_record_ref (cid_client_record f);;
             res ← create_session_found arg data found None rc_conf.2 (cid_client_record f);
             dec_client_record_ref (cid_client_record f);;
             mret res
         end) (fun res w' => (exists B', cinv B' [] [] Held w') /\ slot_live res w') w1) w).
  { apply (wp_get_confirmed B [] [] Held); [done|intros _; apply wp_ret; by split; [exists B|]|intros _ _; apply wp_ret; by split; [exists B|]|].
    intros a w1 Hk HI1 HQ1. destruct (conf_live _ _ _ _ _ _ _ HI Hk) as (c & _ & Ha & _ & Hid & Hs & _). apply (Hgo a c); [by right|done|done|done|]. split; [done|by right]. }
  apply wp_bind, (wp_get_unconfirmed B [] [] Held); [done| | |].
  - intros _. apply wp_bind. eapply wp_mono; [|exact Hconf]. by intros [rc [a|]] w1 Hw1.
  - intros _ _. apply wp_bind. eapply wp_mono; [|exact Hconf]. by intros [rc [a|]] w1 Hw1.
  - intros a w1 Hk HI1 HQ1. apply wp_bind, wp_ret. destruct (unconf_live _ _ _ _ _ _ _ HI Hk) as (c & _ & Ha & _ & Hid & Hs & _).
    exact (Hgo a c w1 (Some a) None (or_introl Hk) Ha HI1 HQ1 (conj Hid (or_introl (conj eq_refl (conj eq_refl Hs))))).
Qed.

(** * DESTROY_SESSION *)

Lemma wp_destroy_session B k data w :
  cinv B [] [] Held w -> wp (nfs4_op_destroy_session k data) (fun _ w' => cinv B [] [] Held w') w.
Proof.
  intros HI. unfold nfs4_op_destroy_session. destruct (_ =? _); [by apply wp_ret|]. apply wp_bind. unfold nfs41_Session_Get_Pointer.
  apply wp_bind, wp_gets. destruct (ht_session_id w !! k) as [s|] eqn:Hk; [|by apply wp_ret, wp_ret].
  destruct (so_hts _ _ _ _ (ci_sessions _ _ _ _ _ HI) k s Hk) as (x & Hx & _). apply wp_bind, (wp_inc_session B [] [] Held s x); [done|done|].
  intros w1 HI1 _. apply wp_ret. destruct (held_session _ _ _ _ _ s HI1) as (x1 & _ & Hx1); [left|]. apply wp_bind, (wp_get_sess s x1); [done|].
  destruct (negb _); [apply wp_ret; by apply (cinv_leak_session _ _ _ _ _ s)|].
  apply wp_bind, (wp_Session_Del B [] [] (s :: Held)); [done|]. intros w2 HI2 _. apply wp_bind, (wp_dec_session B [] [] Held); [done|]. intros w3 HI3 _ _. by apply wp_ret.
Qed.

(** * Owners *)

Lemma wp_new_owner B X XR XS a c o b (Q : unit -> cworld -> Prop) w :
  cinv B X XR XS w -> cw_ids w !! a = Some c -> a ∉ B -> o ∉ owners_of c ->
  (forall w', cinv B X XR XS w' -> quiet w w' -> Q tt w') -> wp (init_nfs4_owner a o b) Q w.
Proof.
  intros HI Ha HB Ho HQ. unfold init_nfs4_owner. apply wp_bind, (wp_inc_id_eq B X XR XS a c); [done|done|done|]. intros w1 HI1 HQ1 Hids1.
  set (c1 := with_cid_refcount _ c) in *. apply (wp_set_cid a c1); [by rewrite Hids1, lookup_insert_eq|]. set (c2 := if b then _ else _).
  assert (Ha1 : cw_ids w1 !! a = Some c1) by (by rewrite Hids1, lookup_insert_eq).
  pose proof (ci_refs _ _ _ _ _ HI1) as HR. destruct (rf_refs _ _ _ HR a c1 Ha1 HB) as [Hneed Hpos]. simpl in Hneed. rewrite bool_decide_true in Hneed by done.
  simpl in Hneed. pose proof (rf_owners _ _ _ HR a c1 Ha1) as Hnd. pose proof (rf_cb _ _ _ HR a c1 Ha1 HB) as Hok.
  assert (Hown : owners_of c2 ≡ₚ o :: owners_of c1).
  { unfold c2, owners_of. destruct b; simpl; symmetry; [rewrite <- app_assoc; apply Permutation_middle|rewrite app_assoc; apply Permutation_cons_append]. }
  assert (Hneeds : needs c2 = needs c1 + 1).
  { unfold needs. rewrite Hown. assert (hashed c2 = hashed c1) as -> by (by destruct b). assert (sessions_of c2 = sessions_of c1) as -> by (by destruct b). simpl length. lia. }
  apply HQ.
  - apply (cinv_alike B (a :: X) X XR XS w1 a c1 c2); try done; try (by destruct b).
    + rewrite Hown. apply NoDup_cons. done.
    + intros d Hd. simpl. rewrite bool_decide_false by done. simpl. lia.
    + intros d Hd. right. by right.
    + rewrite Hneeds. assert (cid_refcount c2 = cid_refcount c1) as -> by (by destruct b). simpl in *. lia.
  - etrans; [exact HQ1|]. apply (quiet_set_id w1 a c1); [done|by destruct b].
Qed.
End session.
