(* ===== verification/ClientCounts.v ===== *)
(** How far the reference counts of clients, records and sessions go.

    The counts are of type int32_t in the code, and EXCHANGE_ID takes references that it does not
    give back; the model counts without a bound.  Each handler takes at most a fixed
    number of references, whatever it releases, so that the counts of the model are those of the machine for as
    long as that number times the calls is within 31 bits. *)

From S2P Require Import Prelude Status World Owner Client ClientOps ClientFrame.

Inductive count_kind : Set := a_client | a_record | a_session.
#[global] Instance count_kind_eq_dec : EqDecision count_kind.
Proof. solve_decision. Defined.

(** The count of what is at an address is at most [f] of it. *)
Definition caps (f : count_kind * loc -> Z) (w : cworld) : Prop :=
  (forall a c, cw_ids w !! a = Some c -> cid_refcount c <= f (a_client, a)) /\
  (forall a r, cw_records w !! a = Some r -> cr_refcount r <= f (a_record, a)) /\
  (forall a s, cw_sessions w !! a = Some s -> s_refcount s <= f (a_session, a)).

Definition counts_below (n : Z) (w : cworld) : Prop := caps (fun _ => n) w.

Lemma caps_mono f g w : (forall x, f x <= g x) -> caps f w -> caps g w.
Proof. intros Hfg (H1 & H2 & H3). split_and!; intros a x Hx; (etransitivity; [|apply Hfg]); eauto. Qed.

Lemma caps_same f w w' : cw_ids w' = cw_ids w -> cw_records w' = cw_records w -> cw_sessions w' = cw_sessions w -> caps f w -> caps f w'.
Proof. intros H1 H2 H3. unfold caps. by rewrite H1, H2, H3. Qed.

Lemma caps_less f w w' : cw_ids w' ⊆ cw_ids w -> cw_records w' ⊆ cw_records w -> cw_sessions w' ⊆ cw_sessions w -> caps f w -> caps f w'.
Proof. intros S1 S2 S3 (H1 & H2 & H3). split_and!; intros a x Hx; eauto using lookup_weaken. Qed.

Lemma bind_inv {A C} (m : M cworld A) (c : A -> M cworld C) w b w' :
  (m ≫= c) w = Ret b w' -> exists a w1, m w = Ret a w1 /\ c a w1 = Ret b w'.
Proof. unfold mbind, M_bind. destruct (m w) as [a w1| | |]; try done. by exists a, w1. Qed.

(** A computation that takes no reference, and one that takes at most [k]; what is new has at most two. *)
Definition frugal {A} (m : M cworld A) : Prop := forall f w a w', m w = Ret a w' -> caps f w -> caps f w'.
Definition takes {A} (k : Z) (m : M cworld A) : Prop :=
  forall f w a w', (forall x, 2 <= f x) -> m w = Ret a w' -> caps f w -> caps (fun x => f x + k) w'.

Create HintDb counts.

Section rules.
Context {A C : Type}.
Implicit Types (m : M cworld A) (c : A -> M cworld C).

Lemma frugal_ret (a : A) : frugal (mret a).
Proof. by intros f w a' w' [= _ <-]. Qed.
Lemma frugal_undef : frugal (undef (A := A)).
Proof. by intros f w a w'. Qed.
Lemma frugal_fatal : frugal (fatal (A := A)).
Proof. by intros f w a w'. Qed.
Lemma frugal_stuck : frugal (stuck (A := A)).
Proof. by intros f w a w'. Qed.
Lemma frugal_gets (g : cworld -> A) : frugal (gets g).
Proof. by intros f w a w' [= _ <-]. Qed.
Lemma frugal_deref (g : cworld -> option A) : frugal (deref g).
Proof. intros f w a w'. unfold deref. destruct (g w); [|done]. by intros [= _ <-]. Qed.
Lemma frugal_bind m c : frugal m -> (forall a, frugal (c a)) -> frugal (m ≫= c).
Proof.
  intros Hm Hc f w a w'. unfold mbind, M_bind. destruct (m w) as [b w1| | |] eqn:E; try done. intros Hrun Hw. by eapply Hc, Hm.
Qed.

Lemma takes_frugal k m : 0 <= k -> frugal m -> takes k m.
Proof. intros Hk Hm f w a w' _ Hrun Hw. apply (caps_mono f); [intros x; lia|by eapply Hm]. Qed.
Lemma takes_bind k1 k2 m c : 0 <= k1 -> takes k1 m -> (forall a, takes k2 (c a)) -> takes (k1 + k2) (m ≫= c).
Proof.
  intros H1 Hm Hc f w a w' Hf. unfold mbind, M_bind. destruct (m w) as [b w1| | |] eqn:E; try done. intros Hrun Hw.
  apply (caps_mono (fun x => f x + k1 + k2)); [intros x; lia|]. eapply (Hc b); [|exact Hrun|by eapply Hm]. intros x. specialize (Hf x). lia.
Qed.
(** One more reference, or none. *)
Lemma takes_one k m c : 1 <= k -> takes 1 m -> (forall a, takes (k - 1) (c a)) -> takes k (m ≫= c).
Proof. intros Hk Hm Hc. replace k with (1 + (k - 1)) by lia. by apply takes_bind. Qed.
Lemma takes_none k m c : frugal m -> (forall a, takes k (c a)) -> takes k (m ≫= c).
Proof. intros Hm Hc. apply (takes_bind 0 k); [lia| |done]. by apply takes_frugal. Qed.
Lemma takes_more k k' m : k <= k' -> takes k m -> takes k' m.
Proof. intros Hk Hm f w a w' Hf Hrun Hw. apply (caps_mono (fun x => f x + k)); [intros x; lia|by eapply Hm]. Qed.
End rules.

Lemma takes_then {A C} k (m : M cworld A) (c : A -> M cworld C) : takes 0 m -> (forall a, takes k (c a)) -> takes k (m ≫= c).
Proof. apply (takes_bind 0 k). lia. Qed.
Lemma takes_before {A C} k (m : M cworld A) (c : A -> M cworld C) : 0 <= k -> takes k m -> (forall a, frugal (c a)) -> takes k (m ≫= c).
Proof. intros Hk Hm Hc. replace k with (k + 0) by lia. apply takes_bind; [done..|]. intros a. by apply takes_frugal. Qed.

Lemma frugal_modify (g : cworld -> cworld) : (forall f w, caps f w -> caps f (g w)) -> frugal (modify g).
Proof. intros Hg f w a w' [= _ <-]. apply Hg. Qed.
Lemma frugal_when b (m : M cworld unit) : frugal m -> frugal (when b m).
Proof. intros Hm. destruct b; [done|apply frugal_ret]. Qed.

#[export] Hint Resolve frugal_ret frugal_undef frugal_fatal frugal_stuck frugal_gets frugal_deref frugal_bind frugal_when : counts.

(** Takes a computation that takes no reference apart. *)
Ltac frugality :=
  repeat first
    [ progress intros
    | solve [eauto with counts nocore]
    | match goal with
      | |- frugal (mbind _ _) => apply frugal_bind
      | |- frugal (when _ _) => apply frugal_when
      | |- frugal (modify _) => apply frugal_modify; intros ? ?; repeat case_match; by apply caps_same
      | |- frugal (match _ with _ => _ end) => case_match
      end
    | progress cbv zeta ].

(** Counts the references that a computation takes. *)
Ltac counting :=
  repeat first
    [ progress intros
    | solve [apply takes_frugal; [lia|frugality]]
    | match goal with
      | |- takes _ (mbind _ _) => first [apply takes_none; [solve [frugality]|] | apply takes_one; [lia|solve [eauto with counts nocore]|]; simpl Z.sub | apply takes_then; [solve [eauto with counts nocore]|] ]
      | |- takes _ (mbind _ _) => apply takes_before; [lia| |solve [frugality]]
      | |- takes _ (mbind _ (match ?x with _ => _ end)) => destruct x
      | |- takes _ (match _ with _ => _ end) => case_match
      | |- takes _ _ => solve [eapply takes_more; [|solve [eauto with counts nocore]]; lia]
      end
    | progress cbv zeta ].

(** [f] with [d] more at one place. *)
Definition plus_at (x : count_kind * loc) (d : Z) (f : count_kind * loc -> Z) : count_kind * loc -> Z :=
  fun y => if decide (y = x) then f y + d else f y.

Lemma plus_at_eq x d f : plus_at x d f x = f x + d.
Proof. unfold plus_at. by rewrite decide_True. Qed.
Lemma plus_at_ne x d f y : y <> x -> plus_at x d f y = f y.
Proof. unfold plus_at. intros H. by rewrite decide_False. Qed.
Lemma plus_at_back x d f y : plus_at x (- d) (plus_at x d f) y = f y.
Proof. unfold plus_at. destruct (decide (y = x)); lia. Qed.

Section primitives.
Context {env : ClientEnv}.

Lemma frugal_cchoose : frugal cchoose.
Proof. intros f w a w'. unfold cchoose. destruct (cw_choices w); intros [= _ <-]; by apply caps_same. Qed.
Lemma frugal_last_reference : frugal last_reference.
Proof. intros f w a w'. unfold last_reference. destruct (cw_last_refs w); intros [= _ <-]; by apply caps_same. Qed.
Lemma frugal_cfresh : frugal cfresh.
Proof. intros f w a w' [= _ <-]. by apply caps_same. Qed.

(** A count that changes by [d]. *)
Lemma caps_set_cid d f a g w u w' :
  (forall c, cid_refcount (g c) <= cid_refcount c + d) -> set_cid a g w = Ret u w' -> caps f w -> caps (plus_at (a_client, a) d f) w'.
Proof.
  intros Hg. unfold set_cid, get_cid, mbind, M_bind, deref, modify. destruct (cw_ids w !! a) as [c|] eqn:Ha; [|done]. intros [= _ <-] (H1 & H2 & H3).
  split_and!; simpl; intros b y; [|intros Hy; rewrite plus_at_ne by done; eauto..].
  intros [[<- <-]|[Hne Hb]]%lookup_insert_Some; [rewrite plus_at_eq; specialize (Hg c); specialize (H1 a c Ha); lia|rewrite plus_at_ne by congruence; eauto].
Qed.
Lemma caps_set_rec d f a g w u w' :
  (forall r, cr_refcount (g r) <= cr_refcount r + d) -> set_rec a g w = Ret u w' -> caps f w -> caps (plus_at (a_record, a) d f) w'.
Proof.
  intros Hg. unfold set_rec, get_rec, mbind, M_bind, deref, modify. destruct (cw_records w !! a) as [c|] eqn:Ha; [|done]. intros [= _ <-] (H1 & H2 & H3).
  split_and!; simpl; intros b y; [intros Hy; rewrite plus_at_ne by done; eauto| |intros Hy; rewrite plus_at_ne by done; eauto].
  intros [[<- <-]|[Hne Hb]]%lookup_insert_Some; [rewrite plus_at_eq; specialize (Hg c); specialize (H2 a c Ha); lia|rewrite plus_at_ne by congruence; eauto].
Qed.
Lemma caps_set_sess d f a g w u w' :
  (forall s, s_refcount (g s) <= s_refcount s + d) -> set_sess a g w = Ret u w' -> caps f w -> caps (plus_at (a_session, a) d f) w'.
Proof.
  intros Hg. unfold set_sess, get_sess, mbind, M_bind, deref, modify. destruct (cw_sessions w !! a) as [c|] eqn:Ha; [|done]. intros [= _ <-] (H1 & H2 & H3).
  split_and!; simpl; intros b y; [intros Hy; rewrite plus_at_ne by done; eauto..|].
  intros [[<- <-]|[Hne Hb]]%lookup_insert_Some; [rewrite plus_at_eq; specialize (Hg c); specialize (H3 a c Ha); lia|rewrite plus_at_ne by congruence; eauto].
Qed.

Lemma caps_plus f x d w : 0 <= d -> caps (plus_at x d f) w -> caps (fun y => f y + d) w.
Proof. intros Hd. apply caps_mono. intros y. unfold plus_at. destruct (decide _); lia. Qed.
Lemma caps_minus f x d w : d <= 0 -> caps (plus_at x d f) w -> caps f w.
Proof. intros Hd. apply caps_mono. intros y. unfold plus_at. destruct (decide _); lia. Qed.

Lemma frugal_set_cid a g : (forall c, cid_refcount (g c) <= cid_refcount c) -> frugal (set_cid a g).
Proof. intros Hg f w u w' Hrun Hw. apply (caps_minus f (a_client, a) 0); [lia|]. eapply caps_set_cid; [|done..]. intros c. specialize (Hg c). lia. Qed.
Lemma frugal_set_rec a g : (forall r, cr_refcount (g r) <= cr_refcount r) -> frugal (set_rec a g).
Proof. intros Hg f w u w' Hrun Hw. apply (caps_minus f (a_record, a) 0); [lia|]. eapply caps_set_rec; [|done..]. intros c. specialize (Hg c). lia. Qed.
Lemma frugal_set_sess a g : (forall s, s_refcount (g s) <= s_refcount s) -> frugal (set_sess a g).
Proof. intros Hg f w u w' Hrun Hw. apply (caps_minus f (a_session, a) 0); [lia|]. eapply caps_set_sess; [|done..]. intros c. specialize (Hg c). lia. Qed.

Lemma frugal_delete_id a : frugal (modify (upd_cw_ids (delete a))).
Proof. apply frugal_modify. intros f w. apply caps_less; simpl; [apply delete_subseteq|done..]. Qed.
Lemma frugal_delete_rec a : frugal (modify (upd_cw_records (delete a))).
Proof. apply frugal_modify. intros f w. apply caps_less; simpl; [done|apply delete_subseteq|done]. Qed.
Lemma frugal_delete_sess a : frugal (modify (upd_cw_sessions (delete a))).
Proof. apply frugal_modify. intros f w. apply caps_less; simpl; [done|done|apply delete_subseteq]. Qed.

Lemma takes_inc_id a : takes 1 (inc_client_id_ref a).
Proof. intros f w u w' _ Hrun Hw. apply (caps_plus f (a_client, a)); [lia|]. eapply caps_set_cid; [|exact Hrun|done]. done. Qed.
Lemma takes_inc_rec a : takes 1 (inc_client_record_ref a).
Proof. intros f w u w' _ Hrun Hw. apply (caps_plus f (a_record, a)); [lia|]. eapply caps_set_rec; [|exact Hrun|done]. done. Qed.
Lemma takes_inc_sess a : takes 1 (inc_session_ref a).
Proof. intros f w u w' _ Hrun Hw. apply (caps_plus f (a_session, a)); [lia|]. eapply caps_set_sess; [|exact Hrun|done]. done. Qed.

(** What is new has at most two references. *)
Lemma takes_insert_id a c : cid_refcount c <= 2 -> takes 0 (modify (upd_cw_ids (<[a := c]>))).
Proof.
  intros Hc f w u w' Hf [= _ <-] (H1 & H2 & H3). split_and!; simpl; intros b x; [|intros Hx; rewrite Z.add_0_r; eauto..].
  intros [[<- <-]|[_ Hb]]%lookup_insert_Some; rewrite Z.add_0_r; [etransitivity; [exact Hc|apply Hf]|eauto].
Qed.
Lemma takes_insert_rec a r : cr_refcount r <= 2 -> takes 0 (modify (upd_cw_records (<[a := r]>))).
Proof.
  intros Hc f w u w' Hf [= _ <-] (H1 & H2 & H3). split_and!; simpl; intros b x; [intros Hx; rewrite Z.add_0_r; eauto| |intros Hx; rewrite Z.add_0_r; eauto].
  intros [[<- <-]|[_ Hb]]%lookup_insert_Some; rewrite Z.add_0_r; [etransitivity; [exact Hc|apply Hf]|eauto].
Qed.
Lemma takes_insert_sess a s : s_refcount s <= 2 -> takes 0 (modify (upd_cw_sessions (<[a := s]>))).
Proof.
  intros Hc f w u w' Hf [= _ <-] (H1 & H2 & H3). split_and!; simpl; intros b x; [intros Hx; rewrite Z.add_0_r; eauto..|].
  intros [[<- <-]|[_ Hb]]%lookup_insert_Some; rewrite Z.add_0_r; [etransitivity; [exact Hc|apply Hf]|eauto].
Qed.
End primitives.

#[export] Hint Resolve frugal_cchoose frugal_last_reference frugal_cfresh frugal_delete_id frugal_delete_rec frugal_delete_sess takes_inc_id takes_inc_rec takes_inc_sess : counts.
#[export] Hint Extern 1 (frugal (set_cid _ _)) => apply frugal_set_cid; intros; repeat case_match; simpl; lia : counts.
#[export] Hint Extern 1 (frugal (set_rec _ _)) => apply frugal_set_rec; intros; simpl; lia : counts.
#[export] Hint Extern 1 (frugal (set_sess _ _)) => apply frugal_set_sess; intros; simpl; lia : counts.
#[export] Hint Extern 1 (takes 0 (modify (upd_cw_ids _))) => apply takes_insert_id; simpl; lia : counts.
#[export] Hint Extern 1 (takes 0 (modify (upd_cw_records _))) => apply takes_insert_rec; simpl; lia : counts.
#[export] Hint Extern 1 (takes 0 (modify (upd_cw_sessions _))) => apply takes_insert_sess; simpl; lia : counts.
#[export] Hint Extern 1 (frugal (get_cid _)) => apply frugal_deref : counts.
#[export] Hint Extern 1 (frugal (get_rec _)) => apply frugal_deref : counts.
#[export] Hint Extern 1 (frugal (get_sess _)) => apply frugal_deref : counts.

Section operations.
Context {env : ClientEnv}.

Lemma frugal_dec_rec a : frugal (dec_client_record_ref a).
Proof. unfold dec_client_record_ref. frugality. Qed.
Lemma frugal_unlink a s : frugal (unlink_session a s).
Proof. unfold unlink_session. frugality. Qed.
Lemma frugal_session_list c : frugal (session_list c).
Proof. unfold session_list. frugality. Qed.
#[local] Hint Resolve frugal_dec_rec frugal_unlink frugal_session_list : counts.

Lemma frugal_for_sessions l body : (forall s, frugal (body s)) -> frugal (for_sessions l body).
Proof. intros Hb. induction l as [|s l IH]; simpl; frugality. Qed.

Section dec.
Variable dec : loc -> M cworld unit.
Hypothesis Hdec : forall a, frugal (dec a).

Lemma frugal_dec_session_with s : frugal (dec_session_ref_with dec s).
Proof. unfold dec_session_ref_with, drop_session. frugality. Qed.
Lemma frugal_free_client_id a : frugal (free_client_id dec a).
Proof.
  pose proof frugal_dec_session_with. unfold free_client_id, nfs41_Session_Del_with. frugality. apply frugal_for_sessions. frugality.
Qed.
End dec.

Lemma frugal_dec_id_at n : forall a, frugal (dec_client_id_ref_at n a).
Proof. induction n as [|n IH]; intros a; simpl; frugality; by apply frugal_free_client_id. Qed.
Lemma frugal_dec_id a : frugal (dec_client_id_ref a).
Proof. apply frugal_dec_id_at. Qed.
Lemma frugal_dec_session s : frugal (dec_session_ref s).
Proof. apply frugal_dec_session_with, frugal_dec_id. Qed.
Lemma frugal_free_id a : frugal (free_client_id dec_client_id_ref a).
Proof. apply frugal_free_client_id, frugal_dec_id. Qed.

(** The release of a reference is one less. *)
Lemma caps_dec_id f a w u w' : dec_client_id_ref a w = Ret u w' -> caps f w -> caps (plus_at (a_client, a) (-1) f) w'.
Proof.
  unfold dec_client_id_ref. simpl. unfold mbind at 1, M_bind at 1. destruct (set_cid _ _ w) as [[] w1| | |] eqn:Hset; try done. intros Hrun Hw.
  assert (caps (plus_at (a_client, a) (-1) f) w1) as Hw1 by (eapply caps_set_cid; [|exact Hset|done]; simpl; lia). revert Hrun Hw1. generalize (plus_at (a_client, a) (-1) f). intros g.
  match goal with |- ?m w1 = _ -> _ => assert (frugal m) as Hm; [|by apply Hm] end. frugality. apply frugal_free_client_id. exact (frugal_dec_id_at 0).
Qed.
Lemma caps_dec_rec f a w u w' : dec_client_record_ref a w = Ret u w' -> caps f w -> caps (plus_at (a_record, a) (-1) f) w'.
Proof.
  unfold dec_client_record_ref. unfold mbind at 1, M_bind at 1. destruct (set_rec _ _ w) as [[] w1| | |] eqn:Hset; try done. intros Hrun Hw.
  assert (caps (plus_at (a_record, a) (-1) f) w1) as Hw1 by (eapply caps_set_rec; [|exact Hset|done]; simpl; lia). revert Hrun Hw1. generalize (plus_at (a_record, a) (-1) f). intros g.
  match goal with |- ?m w1 = _ -> _ => assert (frugal m) as Hm; [|by apply Hm] end. frugality.
Qed.
End operations.

#[export] Hint Resolve frugal_dec_rec frugal_unlink frugal_session_list frugal_dec_id frugal_dec_session frugal_free_id : counts.

Section handlers.
Context {env : ClientEnv}.

Lemma frugal_free_owner a o : frugal (free_nfs4_owner a o).
Proof. unfold free_nfs4_owner. frugality. Qed.
Lemma frugal_valid_lease a : frugal (valid_lease a).
Proof. unfold valid_lease, now. frugality. Qed.
Lemma frugal_reserve_lease a : frugal (reserve_lease a).
Proof. unfold reserve_lease, valid_lease, now. frugality. Qed.
Lemma frugal_update_lease a : frugal (update_lease a).
Proof. unfold update_lease, now. frugality. Qed.
Lemma frugal_new_clientid : frugal new_clientid.
Proof. unfold new_clientid. frugality. Qed.
Lemma frugal_new_clientid_verifier : frugal new_clientid_verifier.
Proof. unfold new_clientid_verifier. frugality. Qed.
#[local] Hint Resolve frugal_free_owner frugal_valid_lease frugal_reserve_lease frugal_update_lease frugal_new_clientid frugal_new_clientid_verifier : counts.

Lemma frugal_release_lockowners a l : frugal (release_lockowners a l).
Proof. induction l as [|o l IH]; simpl; unfold free_related_owner; frugality. Qed.
Lemma frugal_remove_confirmed a : frugal (remove_confirmed_client_id a).
Proof. unfold remove_confirmed_client_id. frugality. Qed.
Lemma frugal_remove_unconfirmed a : frugal (remove_unconfirmed_client_id a).
Proof. unfold remove_unconfirmed_client_id. frugality. Qed.
Lemma frugal_confirm a : frugal (nfs_client_id_confirm a).
Proof. unfold nfs_client_id_confirm, test_and_set. frugality. Qed.
Lemma frugal_Session_Del k : frugal (nfs41_Session_Del k).
Proof. pose proof (frugal_dec_session_with _ frugal_dec_id). unfold nfs41_Session_Del, nfs41_Session_Del_with. frugality. Qed.
#[local] Hint Resolve frugal_release_lockowners frugal_remove_confirmed frugal_remove_unconfirmed frugal_confirm frugal_Session_Del : counts.
Lemma frugal_expire a : frugal (nfs_client_id_expire a).
Proof. unfold nfs_client_id_expire. frugality. apply frugal_for_sessions. intros s. unfold expire_session. frugality. Qed.
#[local] Hint Resolve frugal_expire : counts.

Lemma takes_create_client_id n p addr cred v : takes 1 (create_client_id n p addr cred v).
Proof.
  unfold create_client_id, now. counting.
Qed.
Lemma takes_insert a : takes 1 (nfs_client_id_insert a).
Proof. unfold nfs_client_id_insert, test_and_set. counting. Qed.
Lemma takes_get_confirmed k : takes 1 (nfs_client_id_get_confirmed k).
Proof. unfold nfs_client_id_get_confirmed, nfs_client_id_get. counting. Qed.
Lemma takes_get_unconfirmed k : takes 1 (nfs_client_id_get_unconfirmed k).
Proof. unfold nfs_client_id_get_unconfirmed, nfs_client_id_get. counting. Qed.
Lemma takes_get_client_record v p s : takes 1 (get_client_record v p s).
Proof.
  unfold get_client_record. counting.
Qed.
Lemma takes_Session_Get_Pointer k : takes 1 (nfs41_Session_Get_Pointer k).
Proof. unfold nfs41_Session_Get_Pointer. counting. Qed.
#[local] Hint Resolve takes_create_client_id takes_insert takes_get_confirmed takes_get_unconfirmed takes_get_client_record takes_Session_Get_Pointer : counts.

Lemma takes_setclientid arg data : takes 4 (nfs4_op_setclientid arg data).
Proof. unfold nfs4_op_setclientid, setclientid_record, setclientid_new, client_using. counting. Qed.
Lemma takes_setclientid_confirm k v data down : takes 4 (nfs4_op_setclientid_confirm k v data down).
Proof. unfold nfs4_op_setclientid_confirm, with_record, confirm_found, confirm_record, confirm_again, confirm_update, confirm_new, set_cb_chan. counting. Qed.
Lemma takes_renew k data : takes 1 (nfs4_op_renew k data).
Proof. unfold nfs4_op_renew. counting. Qed.
Lemma takes_exchange_id arg data : takes 4 (nfs4_op_exchange_id arg data).
Proof. unfold nfs4_op_exchange_id, exchange_id_record, exchange_id_new, exchange_id_reply, client_id_has_state. counting. Qed.
Lemma takes_destroy_session k data : takes 1 (nfs4_op_destroy_session k data).
Proof. unfold nfs4_op_destroy_session. counting. Qed.
Lemma takes_init_owner a o b : takes 1 (init_nfs4_owner a o b).
Proof. unfold init_nfs4_owner. counting. Qed.

Lemma takes_create_session_attach k u c p s q : takes 1 (create_session_attach k u c p s q).
Proof. unfold create_session_attach, create_session_confirm, create_session_done, now. counting. Qed.
#[local] Hint Resolve takes_create_session_attach : counts.
Lemma takes_create_session_new arg data a u c p : takes 2 (create_session_new arg data a u c p).
Proof.
  unfold create_session_new, nfs41_Build_sessionid, nfs41_Session_Set. counting.
Qed.
Lemma takes_create_session arg data : takes 5 (nfs4_op_create_session arg data).
Proof. pose proof takes_create_session_new. unfold nfs4_op_create_session, create_session_found. counting. Qed.

(** The reaper gives back what it takes. *)
Lemma frugal_reap_client a : frugal (reap_client a).
Proof.
  unfold reap_client. apply frugal_bind; [frugality|]. intros [|]; [frugality|]. intros f w rc w' (u1 & w1 & H1 & (c & w2 & H2 & (u3 & w3 & H3 & (rc' & w4 & H4 & (u5 & w5 & H5 & (u6 & w6 & H6 & H7)%bind_inv)%bind_inv)%bind_inv)%bind_inv)%bind_inv)%bind_inv Hw.
  injection H7 as <- <-. set (x := (a_client, a)). set (y := (a_record, cid_client_record c)).
  assert (caps (plus_at x 1 f) w1) as C1 by (eapply caps_set_cid; [|exact H1|done]; done).
  assert (caps (plus_at x 1 f) w2) as C2 by (by eapply (frugal_deref (fun w => cw_ids w !! a))).
  assert (caps (plus_at y 1 (plus_at x 1 f)) w3) as C3 by (eapply caps_set_rec; [|exact H3|done]; done).
  pose proof (caps_dec_rec _ _ _ _ _ H6 (caps_dec_id _ _ _ _ _ H5 (frugal_expire _ _ _ _ _ H4 C3))) as C6. fold x y in C6.
  revert C6. apply caps_mono. intros z. unfold plus_at. destruct (decide (z = x)), (decide (z = y)); lia.
Qed.

Lemma frugal_reaper_run fuel : frugal (reaper_run fuel).
Proof.
  pose proof frugal_reap_client. assert (Hloop : forall l, frugal (reap_loop l)) by (induction l as [|[k a] l IH]; simpl; frugality).
  assert (Hb : forall m table i count, frugal (reap_bucket m table i count)) by (induction m as [|m IH]; intros; simpl; frugality).
  assert (Hbs : forall n m table i count, frugal (reap_buckets m table i n count)) by (induction n as [|n IH]; intros; simpl; frugality).
  unfold reaper_run, reap_hash_table. frugality.
Qed.
End handlers.

#[export] Hint Resolve takes_setclientid takes_setclientid_confirm takes_renew takes_exchange_id takes_destroy_session takes_init_owner takes_get_confirmed takes_create_session frugal_free_owner frugal_reaper_run : counts.
