(* ===== verification/ClientServer.v ===== *)
(** Any sequence of calls about clients and sessions: SETCLIENTID, SETCLIENTID_CONFIRM,
    RENEW, EXCHANGE_ID, CREATE_SESSION, DESTROY_SESSION, owners that come and go, the reaper,
    and time.  The store stays well formed and nothing dangles.

    DESTROY_CLIENTID is not among the calls: what it does to the store is shown
    separately. *)

From S2P Require Import Prelude Status World Owner Client ClientInv ClientStep ClientEnter ClientOps ClientFrame ClientSpec ClientConfirm ClientLease ClientSession ClientCounts.

Section server.
Context {env : ClientEnv}.
Implicit Types (w : cworld).
Abbreviation M := (M cworld).

Inductive client_call : Set :=
| call_setclientid (arg : SETCLIENTID4args) (data : compound_data)
| call_confirm (clientid confirm : Z) (data : compound_data) (down : bool)
| call_renew (clientid : Z) (data : compound_data)
| call_exchange_id (arg : EXCHANGE_ID4args) (data : compound_data)
| call_create_session (arg : CREATE_SESSION4args) (data : compound_data)
| call_destroy_session (session : Z * Z) (data : compound_data)
| call_new_owner (clientid : Z) (owner : loc) (open_owner : bool)
| call_free_owner (clientid owner : loc)
| call_reaper (fuel : nat)
| call_wait (seconds : Z).

(** OPEN and LOCK look up the client id and make an owner for it; an owner goes when
    its last state does. *)
Definition run_call (call : client_call) : M unit :=
  match call with
  | call_setclientid arg data => nfs4_op_setclientid arg data;; mret tt
  | call_confirm clientid confirm data down => nfs4_op_setclientid_confirm clientid confirm data down;; mret tt
  | call_renew clientid data => nfs4_op_renew clientid data;; mret tt
  | call_exchange_id arg data => nfs4_op_exchange_id arg data;; mret tt
  | call_create_session arg data => nfs4_op_create_session arg data;; mret tt
  | call_destroy_session session data => nfs4_op_destroy_session session data;; mret tt
  | call_new_owner clientid owner open_owner =>
      '(_, found) ← nfs_client_id_get_confirmed clientid;
      match found with
      | None => mret tt
      | Some a => init_nfs4_owner a owner open_owner;; dec_client_id_ref a
      end
  | call_free_owner clientid owner => free_nfs4_owner clientid owner
  | call_reaper fuel => reaper_run fuel;; mret tt
  | call_wait seconds => modify (upd_cw_time (fun t => t + seconds))
  end.

(** When a call can come: there is memory for the entry of a new record, the client ids that the
    counters give have not gone round, CREATE_SESSION is for a client of NFSv4.1, an owner
    is new, or has the state that goes. *)
Definition admissible (call : client_call) w : Prop :=
  match call with
  | call_setclientid arg _ => get_client_record (sa_id arg) 0 0 w <> Fatal
  | call_confirm clientid _ _ _ => ~ same_number (view w) clientid
  | call_exchange_id arg data =>
      0 <= minorversion data /\
      get_client_record (eia_ownerid arg) (pnfs_flags_of (eia_flags arg)) (server_raddr data) w <> Fatal
  | call_create_session arg _ =>
      v41_id (csa_clientid arg) w /\ u64 (global_sequence w + 1) = global_sequence w + 1 /\ ~ same_number (view w) (csa_clientid arg)
  | call_new_owner clientid owner _ =>
      forall a c, ht_confirmed_client_id w !! clientid = Some a -> cw_ids w !! a = Some c -> owner ∉ owners_of c
  | call_free_owner clientid owner => exists c, cw_ids w !! clientid = Some c /\ owner ∈ owners_of c
  | call_reaper fuel => (size (ht_confirmed_client_id w) < fuel)%nat /\ (size (ht_unconfirmed_client_id w) < fuel)%nat
  | _ => True
  end.

Fixpoint run_calls (calls : list client_call) : M unit :=
  match calls with [] => mret tt | call :: calls => run_call call;; run_calls calls end.

(** Each call can come when its turn is. *)
Fixpoint fits (calls : list client_call) w : Prop :=
  match calls with
  | [] => True
  | call :: calls => admissible call w /\ forall w', run_call call w = Ret tt w' -> fits calls w'
  end.

Definition empty_store : cworld := mk_cworld ∅ ∅ ∅ ∅ ∅ ∅ ∅ 0 0 0 1 [] [] 0.

Lemma empty_store_ok : cinv [] [] [] [] empty_store.
Proof. split; try split; try done; simpl; try (intros ? ? ? H; exact (False_rect _ (not_elem_of_nil _ H))); try (by intros ? []%not_elem_of_nil); intros a [x Hx]; done. Qed.

(** The invariant between calls. *)
Definition store_ok w : Prop := exists B, cinv B [] [] [] w.

Lemma wp_client_call call w :
  epoch_low <> 0 -> store_ok w -> admissible call w -> wp (run_call call) (fun _ w' => store_ok w') w.
Proof.
  intros Hep [B HI] Had. destruct call as [arg data|clientid confirm data down|clientid data|arg data|arg data|k data|clientid o b|a o|fuel|dt]; cbn [run_call admissible] in Had |- *.
  - apply wp_bind. eapply wp_mono; [|by apply (wp_setclientid Hep [] B)]. intros res w1 [HB' _]. by apply wp_ret.
  - apply wp_bind. eapply wp_mono; [|by apply (wp_setclientid_confirm [] B)]. intros st w1 [HI1 _]. apply wp_ret. by exists B.
  - apply wp_bind. eapply wp_mono; [|by apply (wp_renew [] B)]. intros st w1 [HI1 _]. apply wp_ret. by exists B.
  - destruct Had as [H1 H2]. apply wp_bind. eapply wp_mono; [|by apply (wp_exchange_id [] B)]. intros res w1 HB'. by apply wp_ret.
  - destruct Had as (H1 & H2 & H3). apply wp_bind. eapply wp_mono; [|by apply (wp_create_session [] B)]. intros res w1 [HB' _]. by apply wp_ret.
  - apply wp_bind. eapply wp_mono; [|by apply (wp_destroy_session [] B)]. intros st w1 HI1. apply wp_ret. by exists B.
  - apply wp_bind. unfold nfs_client_id_get_confirmed, nfs_client_id_get. destruct (negb _); [apply wp_ret, wp_ret; by exists B|].
    apply wp_bind, wp_gets. destruct (ht_confirmed_client_id w !! clientid) as [a|] eqn:Hk; [|apply wp_ret, wp_ret; by exists B].
    destruct (conf_live _ _ _ _ _ _ _ HI Hk) as (c & _ & Ha & HB & _). apply wp_bind, (wp_inc_id_eq B [] [] [] a c); [done|done|done|].
    intros w1 HI1 _ Hids. apply wp_ret, wp_bind. eapply (wp_new_owner B [a] [] [] a); [done|by rewrite Hids, lookup_insert_eq|done|by apply (Had a c)|].
    intros w2 HI2 _. apply (wp_dec_id B [] [] []); [done|]. intros w3 HI3 _. by exists B.
  - destruct Had as (c & Ha & Ho). apply (wp_free_owner B [] [] [] a c o); [done|done| |done|].
    + intros HB. destruct (rf_new _ _ _ (ci_refs _ _ _ _ _ HI) a HB) as (d & Hd & [_ _ _ Hn]). assert (d = c) as -> by congruence.
      rewrite Hn in Ho. by apply not_elem_of_nil in Ho.
    + intros w1 HI1 _ _. by exists B.
  - apply wp_bind. eapply wp_mono; [|by apply (wp_reaper_run [] B)]. intros n w1 [HI1 _]. apply wp_ret. by exists B.
  - apply wp_modify. exists B. by apply (cinv_same _ _ _ _ w).
Qed.

Lemma wp_client_calls calls w :
  epoch_low <> 0 -> store_ok w -> fits calls w -> wp (run_calls calls) (fun _ w' => store_ok w') w.
Proof.
  intros Hep. revert w. induction calls as [|call calls IH]; intros w Hok Hf; simpl; [by apply wp_ret|]. destruct Hf as [Had Hnext].
  apply wp_bind. pose proof (wp_client_call call w Hep Hok Had) as Hwp. apply wp_elim in Hwp as (u & w1 & Hrun & Hok1). destruct u.
  apply (wp_intro _ _ _ tt w1); [done|]. apply IH; [done|]. by apply Hnext.
Qed.

(** What a bind does when its first part is known. *)
Lemma bind_run {A C} (m : M A) (k : A -> M C) w a w' : m w = Ret a w' -> (m ≫= k) w = k a w'.
Proof. intros H. unfold mbind, M_bind. by rewrite H. Qed.

Lemma get_cid_run a c w : cw_ids w !! a = Some c -> get_cid a w = Ret c w.
Proof. intros H. unfold get_cid, deref. by rewrite H. Qed.

Lemma inc_id_run a c w : cw_ids w !! a = Some c -> inc_client_id_ref a w = Ret tt (upd_cw_ids (<[a := with_cid_refcount (cid_refcount c + 1) c]>) w).
Proof. intros H. unfold inc_client_id_ref, set_cid. by rewrite (bind_run (get_cid a) _ w c w (get_cid_run a c w H)). Qed.

Lemma free_record_run p r w :
  cw_records w !! p = Some r -> cr_refcount r = 1 -> ht_client_record w !! record_key_of r = Some p ->
  dec_client_record_ref p w =
    Ret tt (upd_cw_records (delete p) (upd_ht_client_record (delete (record_key_of r))
              (upd_cw_records (<[p := with_cr_refcount (cr_refcount r - 1) r]>) w))).
Proof.
  intros Hr Hone Hk. unfold dec_client_record_ref, set_rec, get_rec, mbind, M_bind, deref, modify, gets. rewrite Hr. simpl.
  rewrite lookup_insert_eq. simpl. rewrite Hone. simpl. unfold record_key_of in *. simpl. by rewrite Hk.
Qed.

(** * Theorems *)

(** C10: SETCLIENTID implements its specification.  From a well-formed store the call
    returns, the store stays well formed, and the reply, the confirmed and the unconfirmed
    client id of every client and both counters are what [spec_setclientid] says: a client
    with the same verifier keeps its id, another principal is told who uses the id, an older
    unconfirmed id goes.  Only an allocation that fails, or a number that another client has after the
    counter has gone round, makes a difference. *)
Theorem setclientid_refines B arg data w
    (Hepoch : epoch_low <> 0) (HI : cinv B [] [] [] w) (Hmem : get_client_record (sa_id arg) 0 0 w <> Fatal) :
  wp (nfs4_op_setclientid arg data) (fun res w' => (exists B', cinv B' [] [] [] w') /\
    exists f, fault_ok f (plenty w) (view w) arg (clientid_counter w) /\
      let s := spec_setclientid f arg data (view w) (clientid_counter w) (clientid_verifier w) in
      res = s.1.1 /\ (forall k, view w' k = s.1.2 k) /\ (clientid_counter w', clientid_verifier w') = s.2) w.
Proof.
  eapply wp_mono; [|by apply (wp_setclientid Hepoch [] B)]. intros res w' [HB' (f & Hf & Hres & HM)]. split; [done|]. exists f. split; [done|].
  cbv zeta in *. split_and!; [done|by apply HM|]. destruct (moves_counters _ _ _ _ _ HM) as [-> ->]. by destruct (spec_setclientid _ _ _ _ _ _).2.
Qed.

(** C11: SETCLIENTID_CONFIRM implements its specification.  The unconfirmed client id
    becomes the confirmed one, or updates it when the numbers are the same; a confirmed client
    id of another number expires with its owners and sessions; a retry is
    recognised; every other client is as before. *)
Theorem setclientid_confirm_refines B clientid confirm data down w
    (HI : cinv B [] [] [] w) (Hnum : ~ same_number (view w) clientid) :
  wp (nfs4_op_setclientid_confirm clientid confirm data down) (fun st w' => cinv B [] [] [] w' /\
    exists V, confirm_spec (~ plenty w) (view w) clientid confirm data st V /\ forall k, view w' k = V k) w.
Proof.
  eapply wp_mono; [|by apply (wp_setclientid_confirm [] B)]. intros st w' [HI' (V & HS & _ & HV & _)]. split; [done|]. by exists V.
Qed.

(** C29: RENEW.  The lease of a confirmed client id that has not run out starts anew (unless an
    operation holds a reservation, which does that at its end); one that has run out stays
    so and the call says so; no other lease changes. *)
Theorem nfs4_op_renew_correct B clientid data w (HI : cinv B [] [] [] w) :
  wp (nfs4_op_renew clientid data) (fun st w' => cinv B [] [] [] w' /\ (forall k, view w' k = view w k) /\
    if 0 <? minorversion data then st = NFS4ERR_NOTSUPP /\ w' = w
    else match ht_confirmed_client_id w !! clientid with
         | Some a => keeps [a] w w' /\ renew_post a w st w'
         | None => st = (if Z.shiftr clientid 32 =? epoch_low then NFS4ERR_EXPIRED else NFS4ERR_STALE_CLIENTID) /\ w' = w
         end) w.
Proof. by apply wp_renew. Qed.

(** C12: The reaper ends, and then no client has a lease that has run out, and every client
    whose lease had not run out is still in its table. *)
Theorem reaper_run_correct B fuel w
    (HI : cinv B [] [] [] w)
    (Hfuel : (size (ht_confirmed_client_id w) < fuel)%nat) (Hfuel' : (size (ht_unconfirmed_client_id w) < fuel)%nat) :
  wp (reaper_run fuel) (fun _ w' => cinv B [] [] [] w' /\
    (forall a c, in_tables w' a -> cw_ids w' !! a = Some c -> lease_valid c w' = true) /\
    (forall k a c, cw_ids w !! a = Some c -> lease_valid c w = true ->
       (ht_confirmed_client_id w' !! k = Some a <-> ht_confirmed_client_id w !! k = Some a) /\
       (ht_unconfirmed_client_id w' !! k = Some a <-> ht_unconfirmed_client_id w !! k = Some a))) w.
Proof. by apply wp_reaper_run. Qed.

(** The references that calls take. *)
Lemma takes_call call : takes 5 (run_call call).
Proof. destruct call; cbn [run_call]; by counting. Qed.

Lemma takes_calls calls : takes (5 * Z.of_nat (length calls)) (run_calls calls).
Proof.
  induction calls as [|call calls IH]; cbn [run_calls length]; [apply takes_frugal; [lia|apply frugal_ret]|].
  replace (5 * Z.of_nat (S (length calls))) with (5 + 5 * Z.of_nat (length calls)) by lia. apply takes_bind; [lia|apply takes_call|done].
Qed.

(** C4: From the empty store any sequence of calls that fit ([fits]) runs to its end: no call uses
    a client id, a record or a session that is gone, none ends the server, and the store
    stays well formed (the tables, the records and the lists point to each other, and every
    structure has the references that are held on it).  What does not fit: CREATE_SESSION for a client id of NFSv4.0
    (see [create_session_on_v40]), a client id or session number that the counters give a second time, no memory
    for the entry of a new record, an owner that is on the list already or one that goes and is not on it; DESTROY_CLIENTID is
    not one of the calls.  The reference counts of the model have no bound; after [n] calls none of them is
    above [2 + 5 n], so that the int32_t of the code does not go round in four hundred million calls. *)
Theorem client_server_safe calls
    (Hepoch : epoch_low <> 0) (Hfits : fits calls empty_store) :
  wp (run_calls calls) (fun _ w' => store_ok w' /\ counts_below (2 + 5 * Z.of_nat (length calls)) w') empty_store.
Proof.
  destruct (proj1 (wp_elim _ _ _) (wp_client_calls calls empty_store Hepoch (ex_intro _ [] empty_store_ok) Hfits)) as (u & w & Hrun & Hok).
  apply (wp_intro _ _ _ u w Hrun). split; [done|]. by apply (takes_calls calls (fun _ => 2) empty_store u w).
Qed.

(** The verifier of a SETCLIENTID_CONFIRM is not looked at when there is an unconfirmed
    client id: any verifier confirms it. *)
Theorem confirm_ignores_verifier B clientid confirm confirm' data down w a
    (HI : cinv B [] [] [] w) (Hun : ht_unconfirmed_client_id w !! clientid = Some a) :
  nfs4_op_setclientid_confirm clientid confirm data down w = nfs4_op_setclientid_confirm clientid confirm' data down w.
Proof.
  destruct (unconf_live _ _ _ _ _ _ _ HI Hun) as (c & r & Ha & HB & Hid & Hs & _).
  pose proof (to_epoch _ _ _ _ (ci_tables _ _ _ _ _ HI) a c Ha) as He. rewrite Hid in He.
  set (c1 := with_cid_refcount (cid_refcount c + 1) c). set (w1 := upd_cw_ids (<[a := c1]>) w).
  assert (Hget : nfs_client_id_get_unconfirmed clientid w = Ret (CLIENT_ID_SUCCESS, Some a) w1).
  { unfold nfs_client_id_get_unconfirmed, nfs_client_id_get. rewrite (proj2 (Z.eqb_eq _ _) He). cbn [negb].
    rewrite (bind_run (gets ht_unconfirmed_client_id) _ w _ w eq_refl), Hun. by rewrite (bind_run _ _ w tt w1 (inc_id_run a c w Ha)). }
  assert (Hc1 : get_cid a w1 = Ret c1 w1) by (apply get_cid_run; simpl; apply lookup_insert_eq).
  unfold nfs4_op_setclientid_confirm. destruct (0 <? _); [done|]. rewrite !(bind_run _ _ _ _ _ Hget), !(bind_run _ _ _ _ _ Hc1).
  unfold with_record. destruct (inc_client_record_ref (cid_client_record c1) w1) as [u w2| | |] eqn:Hinc;
    [|unfold mbind, M_bind; by rewrite Hinc..].
  rewrite !(bind_run _ _ _ _ _ Hinc). assert (Hids : cw_ids w2 = cw_ids w1).
  { unfold inc_client_record_ref, set_rec, get_rec, mbind, M_bind, deref, modify in Hinc. destruct (cw_records w1 !! _); [|done]. by injection Hinc as _ <-. }
  assert (Hc2 : get_cid a w2 = Ret c1 w2) by (apply get_cid_run; rewrite Hids; simpl; apply lookup_insert_eq).
  assert (Hsame : confirm_found data clientid confirm a (cid_client_record c1) down w2 = confirm_found data clientid confirm' a (cid_client_record c1) down w2).
  { unfold confirm_found. rewrite !(bind_run _ _ _ _ _ Hc2). change (cid_confirmed c1) with (cid_confirmed c). rewrite Hs. by destruct (negb _). }
  unfold mbind, M_bind. by rewrite Hsame.
Qed.

(** DESTROY_CLIENTID of a client that has a session and nothing but its client id in its
    record: the call answers that the client is busy, and the record is freed while the
    client id, still confirmed and hashed, points to it. *)
Theorem destroy_clientid_dangles B clientid data w a c r s ss
    (HI : cinv B [] [] [] w) (Hminor : 0 < minorversion data) (Hconf : ht_confirmed_client_id w !! clientid = Some a)
    (Ha : cw_ids w !! a = Some c) (Hsess : cid_cb c = cb_v41 (s :: ss)) (H41 : 0 < cid_minorversion c)
    (Hr : cw_records w !! cid_client_record c = Some r) (Hone : cr_refcount r = 1) :
  exists w' c', nfs4_op_destroy_clientid clientid data w = Ret NFS4ERR_CLIENTID_BUSY w' /\
    ht_confirmed_client_id w' !! clientid = Some a /\ cw_ids w' !! a = Some c' /\
    cid_client_record c' = cid_client_record c /\ cw_records w' !! cid_client_record c = None.
Proof.
  destruct (conf_live _ _ _ _ _ _ _ HI Hconf) as (c0 & r0 & Ha0 & _ & Hid & _ & Hr0 & Hrc). assert (c0 = c) as -> by congruence. assert (r0 = r) as -> by congruence.
  pose proof (to_epoch _ _ _ _ (ci_tables _ _ _ _ _ HI) a c Ha) as He. rewrite Hid in He.
  pose proof (ro_key _ _ _ _ _ (ci_records _ _ _ _ _ HI) _ _ Hr) as Hkey.
  set (c1 := with_cid_refcount (cid_refcount c + 1) c). set (w1 := upd_cw_ids (<[a := c1]>) w).
  assert (Hget : nfs_client_id_get_confirmed clientid w = Ret (CLIENT_ID_SUCCESS, Some a) w1).
  { unfold nfs_client_id_get_confirmed, nfs_client_id_get. rewrite (proj2 (Z.eqb_eq _ _) He). cbn [negb].
    rewrite (bind_run (gets ht_confirmed_client_id) _ w _ w eq_refl), Hconf. by rewrite (bind_run _ _ w tt w1 (inc_id_run a c w Ha)). }
  assert (Hc1 : get_cid a w1 = Ret c1 w1) by (apply get_cid_run; simpl; apply lookup_insert_eq).
  assert (Hr1 : get_rec (cid_client_record c) w1 = Ret r w1) by (unfold get_rec, deref; simpl; by rewrite Hr).
  pose proof (free_record_run _ r w1 Hr Hone Hkey) as Hdec.
  match type of Hdec with _ = Ret _ ?w2 => exists w2, c1 end. split_and!; [|exact Hconf|simpl; apply lookup_insert_eq|done|simpl; apply lookup_delete_eq].
  unfold nfs4_op_destroy_clientid. destruct (Z.ltb_spec (minorversion data) 1); [lia|]. rewrite (bind_run _ _ _ _ _ Hget).
  rewrite (bind_run (mret (Some a)) _ w1 _ w1 eq_refl), (bind_run _ _ _ _ _ Hc1). unfold destroy_clientid_record.
  change (cid_client_record c1) with (cid_client_record c).
  rewrite (bind_run _ _ _ _ _ Hr1), Hrc. rewrite bool_decide_false by done. cbn [andb].
  assert (Hbusy : client_id_has_nfs41_sessions a w1 = Ret true w1).
  { unfold client_id_has_nfs41_sessions. rewrite (bind_run _ _ _ _ _ Hc1). change (cid_minorversion c1) with (cid_minorversion c).
    rewrite (proj2 (Z.ltb_lt _ _) H41). unfold session_list. change (cid_cb c1) with (cid_cb c). by rewrite Hsess. }
  rewrite (bind_run _ _ w1 NFS4ERR_CLIENTID_BUSY w1) by (by rewrite (bind_run _ _ _ _ _ Hbusy)).
  by rewrite (bind_run _ _ _ _ _ Hdec).
Qed.
End server.

(** * Concrete runs *)

Module ClientExamples.

#[local] Instance ex_env : ClientEnv := {|
  ServerEpoch := 5;
  lease_lifetime := 60;
  allow_delegations := false;
  gethostname_ok := true;
  CityHash64WithSeed := fun val seed => Z.of_nat (length val) + seed;
  so_related_owner := fun _ => None
|}.

Definition alice : compound_data := mk_data 0 (mk_cred AUTH_UNIX 0 (auth_unix 100 100 0)) (AF_INET 1 700) 9 0.
Definition alice41 : compound_data := mk_data 1 (mk_cred AUTH_UNIX 0 (auth_unix 100 100 0)) (AF_INET 1 700) 9 0.
Definition mallory41 : compound_data := mk_data 1 (mk_cred AUTH_UNIX 0 (auth_unix 200 200 0)) (AF_INET 2 700) 9 0.

Definition set_arg : SETCLIENTID4args := mk_setclientid [7; 7] 1 1 (mk_clientaddr [116; 99; 112] [49; 48]) 3.
Definition ex_arg : EXCHANGE_ID4args := mk_exchange_id [8] 1 0.
Definition session_arg (id : Z) : CREATE_SESSION4args := mk_create_session id 1 0 16.
Definition first_id : Z := numbered 1.

Definition after (call : client_call) (w : cworld) : cworld :=
  match run_call call w with Ret _ w' => w' | _ => w end.

Lemma fits_cons call calls w : admissible call w -> fits calls (after call w) -> fits (call :: calls) w.
Proof. intros Had Hf. split; [done|]. intros w' Hrun. unfold after in Hf. by rewrite Hrun in Hf. Qed.

(** The store after a first SETCLIENTID. *)
Definition w_set : cworld := after (call_setclientid set_arg alice) empty_store.

Lemma ex_epoch : epoch_low <> 0.
Proof. done. Qed.

Lemma ex_memory : get_client_record (sa_id set_arg) 0 0 empty_store <> Fatal.
Proof. by vm_compute. Qed.

Lemma w_set_moves : exists B, cinv B [] [] [] w_set /\ setclientid_post set_arg alice empty_store (setclientid_ok first_id 1) w_set.
Proof.
  pose proof (wp_setclientid ex_epoch [] [] set_arg alice empty_store empty_store_ok ex_memory) as Hwp. apply wp_elim in Hwp as (res & w' & Hrun & [B HI] & HP).
  assert (w' = w_set) as -> by (unfold w_set, after; cbn [run_call]; unfold mbind, M_bind; by rewrite Hrun).
  exists B. split; [done|]. assert (res = setclientid_ok first_id 1) as <-; [|done].
  assert (Hres : match nfs4_op_setclientid set_arg alice empty_store with Ret r _ => r | _ => setclientid_error NFS4_OK end = setclientid_ok first_id 1) by (by vm_compute).
  by rewrite Hrun in Hres.
Qed.

Lemma w_set_number : ~ same_number (view w_set) first_id.
Proof.
  intros (k & c & u & _ & [Hc _] & _). destruct w_set_moves as (B & _ & f & _ & _ & _ & HV & _). rewrite HV in Hc.
  by rewrite spec_setclientid_conf in Hc.
Qed.

Lemma setclientid_refines_witness :
  epoch_low <> 0 /\ cinv [] [] [] [] empty_store /\ get_client_record (sa_id set_arg) 0 0 empty_store <> Fatal /\
  wp (nfs4_op_setclientid set_arg alice) (fun _ w' => exists B', cinv B' [] [] [] w') empty_store.
Proof.
  split_and!; [exact ex_epoch|exact empty_store_ok|exact ex_memory|].
  eapply wp_mono; [|exact (setclientid_refines [] set_arg alice empty_store ex_epoch empty_store_ok ex_memory)]. by intros res w' [HB' _].
Defined.

Lemma setclientid_confirm_refines_witness :
  exists B, cinv B [] [] [] w_set /\
  wp (nfs4_op_setclientid_confirm first_id 1 alice false) (fun _ w' => cinv B [] [] [] w') w_set.
Proof.
  destruct w_set_moves as (B & HI & _). exists B. split; [done|].
  eapply wp_mono; [|exact (setclientid_confirm_refines B first_id 1 alice false w_set HI w_set_number)]. by intros st w' [HI' _].
Defined.

(** The client is confirmed, and time passes. *)
Definition w_confirmed : cworld := after (call_confirm first_id 1 alice false) w_set.
Definition later (dt : Z) (w : cworld) : cworld := upd_cw_time (fun t => t + dt) w.

Lemma later_ok dt B w : cinv B [] [] [] w -> cinv B [] [] [] (later dt w).
Proof. intros HI. by apply (cinv_same _ _ _ _ w). Qed.

Lemma w_confirmed_ok : exists B, cinv B [] [] [] w_confirmed.
Proof.
  destruct w_set_moves as (B & HI & _). exists B. pose proof (wp_setclientid_confirm [] B first_id 1 alice false w_set HI w_set_number) as Hwp.
  destruct (proj1 (wp_elim _ _ _) Hwp) as (st & w' & Hrun & HI' & _). assert (w' = w_confirmed) as <- by (unfold w_confirmed, after; cbn [run_call]; unfold mbind, M_bind; by rewrite Hrun). done.
Qed.

Definition status_of {A} (o : outcome cworld A) : option A := match o with Ret a _ => Some a | _ => None end.

Lemma renew_runs : status_of (nfs4_op_renew first_id alice (later 10 w_confirmed)) = Some NFS4_OK /\ status_of (nfs4_op_renew first_id alice (later 1000 w_confirmed)) = Some NFS4ERR_EXPIRED.
Proof. by vm_compute. Qed.

(** In time the lease is renewed, too late it is not. *)
Lemma nfs4_op_renew_correct_witness :
  exists B, cinv B [] [] [] w_confirmed /\ wp (nfs4_op_renew first_id alice) (fun st w' => cinv B [] [] [] w' /\ st = NFS4_OK) (later 10 w_confirmed) /\
    wp (nfs4_op_renew first_id alice) (fun st w' => cinv B [] [] [] w' /\ st = NFS4ERR_EXPIRED) (later 1000 w_confirmed).
Proof.
  destruct w_confirmed_ok as (B & HI). destruct renew_runs as [R1 R2]. exists B. split; [done|]. split.
  - destruct (proj1 (wp_elim _ _ _) (nfs4_op_renew_correct B first_id alice (later 10 w_confirmed) (later_ok _ _ _ HI))) as (st & w' & Hrun & HI' & _).
    rewrite Hrun in R1. injection R1 as ->. exact (wp_intro _ _ _ NFS4_OK w' Hrun (conj HI' eq_refl)).
  - destruct (proj1 (wp_elim _ _ _) (nfs4_op_renew_correct B first_id alice (later 1000 w_confirmed) (later_ok _ _ _ HI))) as (st & w' & Hrun & HI' & _).
    rewrite Hrun in R2. injection R2 as ->. exact (wp_intro _ _ _ NFS4ERR_EXPIRED w' Hrun (conj HI' eq_refl)).
Defined.

Lemma w_confirmed_sizes : size (ht_confirmed_client_id (later 1000 w_confirmed)) = 1%nat /\ size (ht_unconfirmed_client_id (later 1000 w_confirmed)) = 0%nat.
Proof. by vm_compute. Qed.

Lemma reaper_empties : match reaper_run 2 (later 1000 w_confirmed) with Ret _ w' => bool_decide (ht_confirmed_client_id w' = ∅) | _ => false end = true.
Proof. by vm_compute. Qed.

(** The client whose lease has run out goes. *)
Lemma reaper_run_correct_witness :
  exists B, cinv B [] [] [] (later 1000 w_confirmed) /\ is_Some (ht_confirmed_client_id (later 1000 w_confirmed) !! first_id) /\
    wp (reaper_run 2) (fun _ w' => cinv B [] [] [] w' /\ ht_confirmed_client_id w' = ∅) (later 1000 w_confirmed).
Proof.
  destruct w_confirmed_ok as (B & HI). destruct w_confirmed_sizes as [H1 H2]. exists B. split; [by apply later_ok|]. split; [by vm_compute; eexists|].
  destruct (proj1 (wp_elim _ _ _) (reaper_run_correct B 2 (later 1000 w_confirmed) (later_ok _ _ _ HI) ltac:(rewrite H1; lia) ltac:(rewrite H2; lia))) as (n & w' & Hrun & HI' & _).
  pose proof reaper_empties as HE. rewrite Hrun in HE. apply bool_decide_eq_true in HE. exact (wp_intro _ _ _ n w' Hrun (conj HI' HE)).
Defined.

Lemma confirm_ignores_verifier_witness :
  exists B a, cinv B [] [] [] w_set /\ ht_unconfirmed_client_id w_set !! first_id = Some a /\
  nfs4_op_setclientid_confirm first_id 1 alice false w_set = nfs4_op_setclientid_confirm first_id 999 alice false w_set.
Proof.
  destruct w_set_moves as (B & HI & _). destruct (ht_unconfirmed_client_id w_set !! first_id) as [a|] eqn:Ha.
  - exists B, a. split_and!; [done|done|]. exact (confirm_ignores_verifier B first_id 1 999 alice false w_set a HI Ha).
  - exfalso. revert Ha. by vm_compute.
Defined.

(** A client of NFSv4.1 gets a session and an open owner, and its lease runs out. *)
Definition ex_calls : list client_call :=
  [call_exchange_id ex_arg alice41; call_create_session (session_arg first_id) alice41; call_new_owner first_id 100 true;
   call_setclientid set_arg alice; call_renew first_id alice; call_wait 100; call_reaper 5].

Definition w_exchanged : cworld := after (call_exchange_id ex_arg alice41) empty_store.
Definition w_session : cworld := after (call_create_session (session_arg first_id) alice41) w_exchanged.
Definition w_owner : cworld := after (call_new_owner first_id 100 true) w_session.

Lemma w_exchanged_v41 : v41_id (csa_clientid (session_arg first_id)) w_exchanged.
Proof.
  intros a c [Ha|Ha] Hc; vm_compute in Ha; [|done]. injection Ha as <-. vm_compute in Hc. by injection Hc as <-.
Qed.

Lemma w_exchanged_number : ~ same_number (view w_exchanged) (csa_clientid (session_arg first_id)).
Proof.
  intros (k & c & u & _ & [Hc _] & _). revert Hc. unfold view. destruct (ht_client_record w_exchanged !! k) as [p|]; [|done]. simpl.
  destruct (cw_records w_exchanged !! p) as [r|] eqn:Hr; [|done]. simpl.
  assert (HF : map_Forall (fun _ r => cr_confirmed_rec r = None) (cw_records w_exchanged)) by (apply (bool_decide_unpack _); by vm_compute).
  by rewrite (HF p r Hr).
Qed.

Lemma w_session_new a c :
  ht_confirmed_client_id w_session !! first_id = Some a -> cw_ids w_session !! a = Some c -> 100%positive ∉ owners_of c.
Proof.
  intros Ha Hc. vm_compute in Ha. injection Ha as <-. vm_compute in Hc. injection Hc as <-. by intros H%elem_of_nil.
Qed.

Lemma ex_fits : fits ex_calls empty_store.
Proof.
  unfold ex_calls. apply fits_cons; [split; by vm_compute|]. apply fits_cons; [split_and!; [exact w_exchanged_v41|by vm_compute|exact w_exchanged_number]|].
  apply fits_cons; [exact w_session_new|]. apply fits_cons; [by vm_compute|]. apply fits_cons; [exact I|]. apply fits_cons; [exact I|].
  apply fits_cons; [split; vm_compute; lia|exact I].
Qed.

Lemma client_server_safe_witness : fits ex_calls empty_store /\ wp (run_calls ex_calls) (fun _ w' => store_ok w' /\ counts_below 37 w') empty_store.
Proof. split; [exact ex_fits|]. exact (client_server_safe ex_calls ex_epoch ex_fits). Defined.

(** What is left of the first client at the end: the numbers of client ids, of records and of
    sessions, and of entries in the tables. *)
Definition census (o : outcome cworld unit) : option (nat * nat * nat * nat * nat) :=
  match o with
  | Ret _ w => Some (size (cw_ids w), size (cw_records w), size (cw_sessions w), size (ht_confirmed_client_id w), size (ht_unconfirmed_client_id w))
  | _ => None
  end.


Lemma w_session_ok : store_ok w_session.
Proof.
  pose proof (wp_client_calls [call_exchange_id ex_arg alice41; call_create_session (session_arg first_id) alice41] empty_store ex_epoch) as Hwp.
  apply wp_elim in Hwp as (u & w & Hrun & Hok).
  - assert (w = w_session) as <-; [|done]. unfold w_session, w_exchanged, after. cbn [run_calls] in Hrun. unfold mbind, M_bind in Hrun.
    destruct (run_call (call_exchange_id ex_arg alice41) empty_store) as [u1 w1| | |]; [|done..].
    destruct (run_call (call_create_session (session_arg first_id) alice41) w1) as [u2 w2| | |]; [|done..]. by injection Hrun.
  - exists []. apply empty_store_ok.
  - apply fits_cons; [split; by vm_compute|]. apply fits_cons; [split_and!; [exact w_exchanged_v41|by vm_compute|exact w_exchanged_number]|done].
Qed.

Lemma destroy_clientid_dangles_witness :
  exists w' p, nfs4_op_destroy_clientid first_id alice41 w_session = Ret NFS4ERR_CLIENTID_BUSY w' /\ cw_records w' !! p = None /\
    ht_confirmed_client_id w' !! first_id = Some 2%positive.
Proof.
  destruct w_session_ok as [B HI].
  destruct (cw_ids w_session !! 2%positive) as [c|] eqn:Ha; [|exfalso; revert Ha; by vm_compute].
  destruct (cw_records w_session !! 1%positive) as [r|] eqn:Hr; [|exfalso; revert Hr; by vm_compute].
  assert (Hcr : (cid_cb <$> cw_ids w_session !! 2%positive, cid_minorversion <$> cw_ids w_session !! 2%positive,
                 cid_client_record <$> cw_ids w_session !! 2%positive, cr_refcount <$> cw_records w_session !! 1%positive)
                = (Some (cb_v41 [3%positive]), Some 1, Some 1%positive, Some 1)) by (by vm_compute).
  rewrite Ha, Hr in Hcr. cbn in Hcr. injection Hcr as Hcb Hmin Hrec Hone.
  assert (Hconf : ht_confirmed_client_id w_session !! first_id = Some 2%positive) by (by vm_compute).
  assert (H41 : 0 < cid_minorversion c) by (rewrite Hmin; lia). rewrite <- Hrec in Hr.
  destruct (destroy_clientid_dangles B first_id alice41 w_session 2%positive c r 3%positive [] HI eq_refl Hconf Ha Hcb H41 Hr Hone)
    as (w' & c' & H1 & H2 & _ & _ & H5).
  exists w', (cid_client_record c). by split_and!.
Defined.

(** The reaper follows the pointer when the lease of that client has run out. *)
Example destroy_then_reap :
  match nfs4_op_destroy_clientid first_id alice41 w_session with
  | Ret st w' => st = NFS4ERR_CLIENTID_BUSY /\ run_calls [call_wait 100; call_reaper 5] w' = Undef
  | _ => False
  end.
Proof. vm_compute. by split. Qed.

(** Another principal that names the same owner ends a client that has an open owner and a lease:
    [client_id_has_state] wants open owners and states at once. *)
Example exchange_id_ends_open_client :
  match nfs4_op_exchange_id ex_arg mallory41 w_owner with
  | Ret (exchange_id_ok _ _ _) w' => size (ht_confirmed_client_id w_owner) = 1%nat /\ size (ht_confirmed_client_id w') = 0%nat
  | _ => False
  end.
Proof. vm_compute. by split. Qed.

(** CREATE_SESSION does not look at the minor version of the client id: on one of NFSv4.0 it
    takes the callback for a list of sessions. *)
Example create_session_on_v40 :
  nfs4_op_create_session (mk_create_session first_id 0 0 16) alice41 w_set = Undef.
Proof. by vm_compute. Qed.

(** The client id and the record of a client that had an open owner stay when its lease has run out:
    the owner keeps its reference on the client id.  Without the owner nothing is left. *)
Example open_owner_keeps_client : census (run_calls ex_calls empty_store) = Some (1, 1, 0, 0, 0)%nat.
Proof. by vm_compute. Qed.

Example no_owner_no_client :
  census (run_calls [call_exchange_id ex_arg alice41; call_create_session (session_arg first_id) alice41; call_wait 100; call_reaper 5] empty_store)
  = Some (0, 0, 0, 0, 0)%nat.
Proof. by vm_compute. Qed.
End ClientExamples.
