(* ===== verification/Compound.v ===== *)
(** The COMPOUND procedure of NFSv4 (Protocols/NFS/nfs4_Compound.c) and SEQUENCE
    (nfs4_op_sequence.c): the table of operations, the checks before an operation runs, the
    slots of a session and the replies kept in them.

    The operations on clients and sessions are those of [ClientOps]; the others are a class
    [CompoundEnv], as is what they work on: [FS] is the state of the server outside the client
    store, [D] what a compound keeps about file handles and exports.  A kept reply is a
    value, not memory: that the reply to a retry shares memory with the slot is not modelled.
    The compounds of a server run one after the other. *)

From S2P Require Import Prelude Status World Owner Utf8 Client ClientOps.

(** * The operations *)

Definition NFS4_OP_RENEW : Z := 30.
Definition NFS4_OP_SETCLIENTID : Z := 35.
Definition NFS4_OP_SETCLIENTID_CONFIRM : Z := 36.
Definition NFS4_OP_RELEASE_LOCKOWNER : Z := 39.
Definition NFS4_OP_BIND_CONN_TO_SESSION : Z := 41.
Definition NFS4_OP_EXCHANGE_ID : Z := 42.
Definition NFS4_OP_CREATE_SESSION : Z := 43.
Definition NFS4_OP_DESTROY_SESSION : Z := 44.
Definition NFS4_OP_SEQUENCE : Z := 53.
Definition NFS4_OP_DESTROY_CLIENTID : Z := 57.
Definition NFS4_OP_WRITE_PLUS : Z := 64.
Definition NFS4_OP_READ_PLUS : Z := 65.
Definition NFS4_OP_IO_ADVISE : Z := 67.
Definition NFS4_OP_ILLEGAL : Z := 10044.

Record SEQUENCE4args : Set := mk_sequence {
  sa_sessionid : Z * Z;
  sa_sequenceid : Z;
  sa_slotid : Z
}.

(** [nfs_argop4]: an operation with its arguments. *)
Inductive nfs_argop4 : Set :=
| oprenew (clientid : Z)
| opsetclientid (arg : SETCLIENTID4args)
| opsetclientid_confirm (clientid confirm : Z)
| opexchange_id (arg : EXCHANGE_ID4args)
| opcreate_session (arg : CREATE_SESSION4args)
| opdestroy_session (dsa_sessionid : Z * Z)
| opsequence (arg : SEQUENCE4args)
| opdestroy_clientid (clientid : Z)
| opother (op : Z) (args : list Z).

Definition argop (op : nfs_argop4) : Z :=
  match op with
  | oprenew _ => NFS4_OP_RENEW
  | opsetclientid _ => NFS4_OP_SETCLIENTID
  | opsetclientid_confirm _ _ => NFS4_OP_SETCLIENTID_CONFIRM
  | opexchange_id _ => NFS4_OP_EXCHANGE_ID
  | opcreate_session _ => NFS4_OP_CREATE_SESSION
  | opdestroy_session _ => NFS4_OP_DESTROY_SESSION
  | opsequence _ => NFS4_OP_SEQUENCE
  | opdestroy_clientid _ => NFS4_OP_DESTROY_CLIENTID
  | opother op _ => op
  end.

(** The operations that have a constructor of their own. *)
Definition named_ops : list Z :=
  [NFS4_OP_RENEW; NFS4_OP_SETCLIENTID; NFS4_OP_SETCLIENTID_CONFIRM; NFS4_OP_EXCHANGE_ID; NFS4_OP_CREATE_SESSION;
   NFS4_OP_DESTROY_SESSION; NFS4_OP_SEQUENCE; NFS4_OP_DESTROY_CLIENTID].

(** What [xdr_nfs_argop4] makes: another number becomes NFS4_OP_ILLEGAL. *)
Definition decoded (op : nfs_argop4) : bool :=
  match op with
  | opother n _ => negb (bool_decide (n ∈ named_ops)) && ((3 <=? n) && (n <=? NFS4_OP_IO_ADVISE) || (n =? NFS4_OP_ILLEGAL))
  | _ => true
  end.

(** * The table *)

Definition EXPORT_OPTION_READ_ACCESS : Z := 0x10.
Definition EXPORT_OPTION_WRITE_ACCESS : Z := 0x20.
Definition EXPORT_OPTION_MD_READ_ACCESS : Z := 0x40.
Definition EXPORT_OPTION_MD_WRITE_ACCESS : Z := 0x80.
Definition EXPORT_OPTION_MODIFY_ACCESS : Z := Z.lor EXPORT_OPTION_WRITE_ACCESS EXPORT_OPTION_MD_WRITE_ACCESS.
Definition EXPORT_OPTION_ACCESS_TYPE : Z :=
  Z.lor (Z.lor EXPORT_OPTION_READ_ACCESS EXPORT_OPTION_WRITE_ACCESS)
        (Z.lor EXPORT_OPTION_MD_WRITE_ACCESS EXPORT_OPTION_MD_READ_ACCESS).

(** Which function an entry has: [nfs4_op_illegal], [nfs4_op_notsupp], or one of its own. *)
Inductive op_function : Set := f_illegal | f_notsupp | f_own.

Record nfs4_op_desc : Set := mk_desc { funct : op_function; exp_perm_flags : Z }.

Definition illegal : nfs4_op_desc := mk_desc f_illegal 0.
Definition notsupp : nfs4_op_desc := mk_desc f_notsupp 0.
Definition unchecked : nfs4_op_desc := mk_desc f_own 0.
Definition data_reads : nfs4_op_desc := mk_desc f_own EXPORT_OPTION_READ_ACCESS.
Definition data_writes : nfs4_op_desc := mk_desc f_own EXPORT_OPTION_WRITE_ACCESS.
Definition md_reads : nfs4_op_desc := mk_desc f_own EXPORT_OPTION_MD_READ_ACCESS.
Definition md_writes : nfs4_op_desc := mk_desc f_own EXPORT_OPTION_MD_WRITE_ACCESS.

Definition optab_v40 : list nfs4_op_desc :=
  [ illegal; illegal; illegal;
    md_reads (* ACCESS *);
    md_reads (* CLOSE *);
    md_writes (* COMMIT *);
    md_writes (* CREATE *);
    unchecked (* DELEGPURGE *);
    md_reads (* DELEGRETURN *);
    md_reads (* GETATTR *);
    unchecked (* GETFH *);
    md_writes (* LINK *);
    md_reads (* LOCK *);
    md_reads (* LOCKT *);
    md_reads (* LOCKU *);
    md_reads (* LOOKUP *);
    md_reads (* LOOKUPP *);
    md_reads (* NVERIFY *);
    md_reads (* OPEN *);
    md_reads (* OPENATTR *);
    unchecked (* OPEN_CONFIRM *);
    md_reads (* OPEN_DOWNGRADE *);
    unchecked (* PUTFH *);
    unchecked (* PUTPUBFH *);
    unchecked (* PUTROOTFH *);
    data_reads (* READ *);
    md_reads (* READDIR *);
    md_reads (* READLINK *);
    md_writes (* REMOVE *);
    md_writes (* RENAME *);
    unchecked (* RENEW *);
    unchecked (* RESTOREFH *);
    unchecked (* SAVEFH *);
    md_reads (* SECINFO *);
    md_writes (* SETATTR *);
    unchecked (* SETCLIENTID *);
    unchecked (* SETCLIENTID_CONFIRM *);
    md_reads (* VERIFY *);
    data_writes (* WRITE *);
    unchecked (* RELEASE_LOCKOWNER *) ].

Definition optab_v41 : list nfs4_op_desc :=
  [ illegal (* BACKCHANNEL_CTL *);
    illegal (* BIND_CONN_TO_SESSION *);
    unchecked (* EXCHANGE_ID *);
    unchecked (* CREATE_SESSION *);
    unchecked (* DESTROY_SESSION *);
    unchecked (* FREE_STATEID *);
    illegal (* GET_DIR_DELEGATION *);
    unchecked (* GETDEVICEINFO *);
    md_reads (* GETDEVICELIST *);
    unchecked (* LAYOUTCOMMIT *);
    md_reads (* LAYOUTGET *);
    unchecked (* LAYOUTRETURN *);
    md_reads (* SECINFO_NO_NAME *);
    unchecked (* SEQUENCE *);
    unchecked (* SET_SSV *);
    unchecked (* TEST_STATEID *);
    mk_desc f_illegal EXPORT_OPTION_MD_READ_ACCESS (* WANT_DELEGATION *);
    unchecked (* DESTROY_CLIENTID *);
    unchecked (* RECLAIM_COMPLETE *) ].

Definition optab_v42 : list nfs4_op_desc :=
  [ notsupp (* COPY *);
    notsupp (* OFFLOAD_ABORT *);
    notsupp (* COPY_NOTIFY *);
    notsupp (* OFFLOAD_REVOKE *);
    notsupp (* OFFLOAD_STATUS *);
    unchecked (* WRITE_PLUS *);
    unchecked (* READ_PLUS *);
    unchecked (* SEEK *);
    unchecked (* IO_ADVISE *) ].

Definition optabv4 : list nfs4_op_desc := optab_v40 ++ optab_v41 ++ optab_v42.

(** The index into the table for an operation. *)
Definition opcode_of (minor opcode : Z) : Z :=
  if minor =? 0 then
    if (NFS4_OP_RELEASE_LOCKOWNER <? opcode) && negb (opcode =? NFS4_OP_READ_PLUS) && negb (opcode =? NFS4_OP_WRITE_PLUS)
    then 0 else opcode
  else if NFS4_OP_IO_ADVISE <? opcode then 0 else opcode.

(** * The state of a compound *)

(** Where the pointer [cached_res] points: a slot of a session, or the slot of a client for
    CREATE_SESSION. *)
Inductive cache_ptr : Set :=
| in_session (session : loc) (slot : nat)
| in_client (clientid : loc).

(** The members of [compound_data_t] that are about sessions. *)
Record cstate : Set := mk_cstate {
  cd_session : option loc;
  use_drc : bool;
  cached_res : option cache_ptr;
  preserved_clientid : option loc
}.

Definition zero_cstate : cstate := mk_cstate None false None None.

(** What the code takes from elsewhere: whether the server is in its grace period, whether
    the back channel of a session is up, the outcome of a test of a callback path; the
    current file handle and the permissions of its export; the operations on files, and the
    end of what a compound holds. *)
Class CompoundEnv (FS D : Type) := {
  nfs_in_grace : FS -> bool;
  session_bc_up : FS -> loc -> bool;
  callback_down : FS -> bool;
  currentFH : D -> list Z;
  export_options : D -> Z;
  op_funct : Z -> list Z -> compound_data -> option loc -> D -> M (cworld * FS) (nfsstat4 * list Z * D);
  data_free : D -> M (cworld * FS) unit
}.

(** An operation on clients, in the server. *)
Definition on_clients {FS A} (m : M cworld A) : M (cworld * FS) A := fun w =>
  match m w.1 with
  | Ret a w' => Ret a (w', w.2)
  | Undef => Undef
  | Fatal => Fatal
  | Stuck => Stuck
  end.

(** The result of an operation: its status and the numbers of its reply. *)
Abbreviation op_result := (nfsstat4 * list Z)%type.

Section sequence.
Context {env : ClientEnv}.

(** * SEQUENCE *)

Definition SEQ4_STATUS_CB_PATH_DOWN : Z := 0x1.
Definition SEQ4_STATUS_RESTART_RECLAIM_NEEDED : Z := 0x100.

Definition get_slot (session : loc) (k : nat) : M cworld nfs41_session_slot_t :=
  x ← get_sess session;
  match s_slots x !! k with Some slot => mret slot | None => undef end.
Definition set_slot (session : loc) (k : nat) (f : nfs41_session_slot_t -> nfs41_session_slot_t) : M cworld unit :=
  slot ← get_slot session k;
  set_sess session (fun x => with_s_slots (<[k := f slot]> (s_slots x)) x).

(** Whether there is a back channel; a client of NFSv4.0 always has one. *)
Definition nfs_rpc_get_chan (up : loc -> bool) (clientid : loc) : M cworld bool :=
  c ← get_cid clientid;
  if cid_minorversion c =? 0 then mret true
  else
    l ← session_list c;
    for_sessions l (fun session => get_sess session;; mret tt);;
    mret (existsb up l).

(** The slot has the number before that of the request. *)
Definition sequence_new (arg : SEQUENCE4args) (cs : cstate) (session : loc) (up : loc -> bool) : M cworld (op_result * cstate) :=
  let k := Z.to_nat (sa_slotid arg) in
  set_slot session k (fun slot => mk_slot (u32 (slot_sequence slot + 1)) (slot_cached slot));;
  slot ← get_slot session k;
  x ← get_sess session;
  chan ← nfs_rpc_get_chan up (clientid_record x);
  set_slot session k (fun slot => mk_slot (slot_sequence slot) (mk_slot_cache (cached_result (slot_cached slot)) true));;
  mret (NFS4_OK, [(sa_sessionid arg).1; (sa_sessionid arg).2; slot_sequence slot; sa_slotid arg;
                  Z.of_nat NFS41_NB_SLOTS - 1; Z.of_nat NFS41_NB_SLOTS - 1;
                  if (chan : bool) then 0 else SEQ4_STATUS_CB_PATH_DOWN],
        mk_cstate (Some session) false (Some (in_session session k)) (preserved_clientid cs)).

(** The session was found, and the lease of its client is reserved. *)
Definition sequence_slot (arg : SEQUENCE4args) (cs : cstate) (session : loc) (up : loc -> bool) : M cworld (op_result * cstate) :=
  x ← get_sess session;
  if ca_maxrequests x <=? sa_slotid arg then dec_session_ref session;; mret (NFS4ERR_BADSLOT, [], cs)
  else
    let k := Z.to_nat (sa_slotid arg) in
    let cs := mk_cstate (cd_session cs) false (cached_res cs) (preserved_clientid cs) in
    slot ← get_slot session k;
    if negb (u32 (slot_sequence slot + 1) =? sa_sequenceid arg) then
      if slot_sequence slot =? sa_sequenceid arg then
        dec_session_ref session;;
        mret (NFS4_OK, [], mk_cstate (cd_session cs) true (Some (in_session session k)) (preserved_clientid cs))
      else dec_session_ref session;; mret (NFS4ERR_SEQ_MISORDERED, [], cs)
    else sequence_new arg cs session up.

(** In the grace period an unknown session is not an error. *)
Definition nfs4_op_sequence (arg : SEQUENCE4args) (data : compound_data) (cs : cstate) (grace : bool) (up : loc -> bool)
    : M cworld (op_result * cstate) :=
  if minorversion data =? 0 then mret (NFS4ERR_INVAL, [], cs)
  else if negb (oppos data =? 0) then mret (NFS4ERR_SEQUENCE_POS, [], cs)
  else
    found ← nfs41_Session_Get_Pointer (sa_sessionid arg);
    match found with
    | None =>
        if grace then
          mret (NFS4_OK, [(sa_sessionid arg).1; (sa_sessionid arg).2; sa_sequenceid arg; sa_slotid arg;
                          Z.of_nat NFS41_NB_SLOTS - 1; sa_slotid arg; SEQ4_STATUS_RESTART_RECLAIM_NEEDED], cs)
        else mret (NFS4ERR_BADSESSION, [], cs)
    | Some session =>
        x ← get_sess session;
        valid ← reserve_lease (clientid_record x);
        if negb valid then dec_session_ref session;; mret (NFS4ERR_EXPIRED, [], cs)
        else sequence_slot arg (mk_cstate (cd_session cs) (use_drc cs) (cached_res cs) (Some (clientid_record x))) session up
    end.

(** * The slots for replies *)

Definition read_cache (p : cache_ptr) : M cworld compound_res :=
  match p with
  | in_session session k => slot ← get_slot session k; mret (cached_result (slot_cached slot))
  | in_client clientid => c ← get_cid clientid; mret (cached_result (cid_create_session_slot c))
  end.

Definition write_cache (p : cache_ptr) (res : compound_res) : M cworld unit :=
  match p with
  | in_session session k =>
      set_slot session k (fun slot => mk_slot (slot_sequence slot) (mk_slot_cache res (cache_used (slot_cached slot))))
  | in_client clientid =>
      set_cid clientid (fun c => with_cid_create_session_slot (mk_slot_cache res (cache_used (cid_create_session_slot c))) c)
  end.

(** * The replies of the operations on clients *)

Definition setclientid_result (res : SETCLIENTID4res) : op_result :=
  match res with
  | setclientid_ok clientid confirm => (NFS4_OK, [clientid; confirm])
  | setclientid_inuse addr => (NFS4ERR_CLID_INUSE, Z.of_nat (length (r_netid addr)) :: r_netid addr ++ r_addr addr)
  | setclientid_error status => (status, [])
  end.

Definition exchange_id_result (res : EXCHANGE_ID4res) : op_result :=
  match res with
  | exchange_id_ok clientid sequenceid flags => (NFS4_OK, [clientid; sequenceid; flags])
  | exchange_id_error status => (status, [])
  end.

(** CREATE_SESSION makes the pointer to the kept reply point to the slot of the client. *)
Definition create_session_result (res : CREATE_SESSION4res * option loc) (cs : cstate) : op_result * cstate :=
  (match res.1 with
   | create_session_ok session sequence => (NFS4_OK, [session.1; session.2; sequence])
   | create_session_replay => (NFS4_OK, [])
   | create_session_error status => (status, [])
   end,
   mk_cstate (cd_session cs) (match res.1 with create_session_replay => true | _ => false end)
     (match res.2 with Some a => Some (in_client a) | None => cached_res cs end) (preserved_clientid cs)).
End sequence.

(** * COMPOUND *)

(** A request: its minor version, tag and operations, the credential, if it is well formed,
    the addresses of the connection, and the file handles and exports to start with. *)
Record compound_args (D : Type) : Type := mk_compound {
  arg_minor : Z;
  arg_tag : list Z;
  arg_ops : list nfs_argop4;
  arg_cred : option nfs_client_cred_t;
  arg_xprt : sockaddr_t;
  arg_server : Z;
  arg_data : D
}.
Arguments mk_compound {D}.
Arguments arg_minor {D}.
Arguments arg_tag {D}.
Arguments arg_ops {D}.
Arguments arg_cred {D}.
Arguments arg_xprt {D}.
Arguments arg_server {D}.
Arguments arg_data {D}.

(** [strncmp] of two strings says that they are equal: it ends with the first NUL. *)
Fixpoint strncmp_equal (s t : list Z) : bool :=
  match s, t with
  | c :: s, d :: t => (c =? d) && ((c =? 0) || strncmp_equal s t)
  | _, _ => true
  end.

Definition session_bytes (id : Z * Z) : list Z := le_bytes 8 id.1 ++ le_bytes 8 id.2.

(** The operations that may be the first of a compound of NFSv4.1. *)
Definition may_be_first (op : Z) : bool :=
  bool_decide (op ∈ [NFS4_OP_ILLEGAL; NFS4_OP_SEQUENCE; NFS4_OP_EXCHANGE_ID; NFS4_OP_CREATE_SESSION;
                     NFS4_OP_DESTROY_SESSION; NFS4_OP_BIND_CONN_TO_SESSION; NFS4_OP_DESTROY_CLIENTID]).

(** The operations that have to be alone when they are the first. *)
Definition alone (op : Z) : bool :=
  bool_decide (op ∈ [NFS4_OP_EXCHANGE_ID; NFS4_OP_CREATE_SESSION; NFS4_OP_DESTROY_CLIENTID; NFS4_OP_DESTROY_SESSION]).

Definition destroys_own_session (ops : list nfs_argop4) : bool :=
  match ops with
  | opsequence arg :: opdestroy_session id :: _ :: _ => strncmp_equal (session_bytes (sa_sessionid arg)) (session_bytes id)
  | _ => false
  end.

(** The rules for the operations of a compound of NFSv4.1. *)
Definition check_ops (ops : list nfs_argop4) : nfsstat4 :=
  match ops with
  | [] => NFS4_OK
  | first :: rest =>
      if negb (may_be_first (argop first)) then NFS4ERR_OP_NOT_IN_SESSION
      else if negb (bool_decide (rest = [])) && alone (argop first) then NFS4ERR_NOT_ONLY_OP
      else if destroys_own_session ops then NFS4ERR_NOT_ONLY_OP
      else NFS4_OK
  end.

Section compound.
Context {FS D : Type} {env : ClientEnv} {cenv : CompoundEnv FS D}.
Abbreviation M := (M (cworld * FS)).

Definition nfs4_Is_Fh_Empty (fh : list Z) : nfsstat4 :=
  if Z.of_nat (length fh) =? 0 then NFS4ERR_NOFILEHANDLE else NFS4_OK.

(** The checks of the file handle and of the export before an operation. *)
Definition check_perms (perm_flags : Z) (d : D) : nfsstat4 :=
  if perm_flags =? 0 then NFS4_OK
  else
    let status := nfs4_Is_Fh_Empty (currentFH d) in
    if decide (status <> NFS4_OK) then status
    else if negb (Z.land (export_options d) perm_flags =? perm_flags) then
      if negb (Z.land perm_flags EXPORT_OPTION_MODIFY_ACCESS =? 0) then NFS4ERR_ROFS else NFS4ERR_ACCESS
    else NFS4_OK.

(** The call of the function of an operation. *)
Definition call_op (op : nfs_argop4) (data : compound_data) (cs : cstate) (d : D) : M (op_result * cstate * D) :=
  match op with
  | oprenew clientid => st ← on_clients (nfs4_op_renew clientid data); mret ((st, []), cs, d)
  | opsetclientid arg => res ← on_clients (nfs4_op_setclientid arg data); mret (setclientid_result res, cs, d)
  | opsetclientid_confirm clientid confirm =>
      down ← gets (fun w => callback_down w.2);
      st ← on_clients (nfs4_op_setclientid_confirm clientid confirm data down); mret ((st, []), cs, d)
  | opexchange_id arg => res ← on_clients (nfs4_op_exchange_id arg data); mret (exchange_id_result res, cs, d)
  | opcreate_session arg =>
      res ← on_clients (nfs4_op_create_session arg data);
      let '(res, cs) := create_session_result res cs in mret (res, cs, d)
  | opdestroy_session id => st ← on_clients (nfs4_op_destroy_session id data); mret ((st, []), cs, d)
  | opsequence arg =>
      fs ← gets (fun w => w.2);
      '(res, cs) ← on_clients (nfs4_op_sequence arg data cs (nfs_in_grace fs) (session_bc_up fs));
      mret (res, cs, d)
  | opdestroy_clientid clientid => st ← on_clients (nfs4_op_destroy_clientid clientid data); mret ((st, []), cs, d)
  | opother n args => '(st, body, d) ← op_funct n args data (cd_session cs) d; mret ((st, body), cs, d)
  end.

(** An operation: its result, and the state of the compound after it. *)
Definition run_op (op : nfs_argop4) (opcode : Z) (data : compound_data) (cs : cstate) (d : D)
    : M (nfs_resop * cstate * D) :=
  match optabv4 !! Z.to_nat opcode with
  | None => undef
  | Some desc =>
      let status := check_perms (Z.land (exp_perm_flags desc) EXPORT_OPTION_ACCESS_TYPE) d in
      if decide (status <> NFS4_OK) then mret (mk_nfs_resop (argop op) status [], cs, d)
      else
        match funct desc with
        | f_illegal => mret (mk_nfs_resop NFS4_OP_ILLEGAL NFS4ERR_OP_ILLEGAL [], cs, d)
        | f_notsupp => mret (mk_nfs_resop (argop op) NFS4ERR_NOTSUPP [], cs, d)
        | f_own =>
            '((st, body), cs, d) ← call_op op data cs d;
            mret (mk_nfs_resop (argop op) st body, cs, d)
        end
  end.

(** A session allows only so many operations. *)
Definition too_many_ops (minor i : Z) (cs : cstate) : M bool :=
  match cd_session cs with
  | Some session =>
      if minor =? 0 then mret false
      else x ← on_clients (get_sess session); mret (ca_maxoperations x =? i)
  | None => mret false
  end.

(** The loop, at position [i] with the results [res] so far: the reply, and the state of the
    compound at its end.  The first error ends it; a retry is answered from its slot. *)
Fixpoint compound_loop (arg : compound_args D) (cred : nfs_client_cred_t) (i : Z) (ops : list nfs_argop4)
    (res : list nfs_resop) (cs : cstate) (d : D) : M (compound_res * cstate * D) :=
  match ops with
  | [] => mret (mk_compound_res NFS4_OK (arg_tag arg) res false, cs, d)
  | op :: ops =>
      let data := mk_data (arg_minor arg) cred (arg_xprt arg) (arg_server arg) i in
      many ← too_many_ops (arg_minor arg) i cs;
      '(r, cs, d) ← (if (many : bool) then mret (mk_nfs_resop (argop op) NFS4ERR_TOO_MANY_OPS [], cs, d)
                     else run_op op (opcode_of (arg_minor arg) (argop op)) data cs d);
      if decide (nr_status r <> NFS4_OK) then mret (mk_compound_res (nr_status r) (arg_tag arg) (res ++ [r]) false, cs, d)
      else if use_drc cs then
        match cached_res cs with
        | Some p => cached ← on_clients (read_cache p); mret (cached, cs, d)
        | None => undef
        end
      else compound_loop arg cred (i + 1) ops (res ++ [r]) cs d
  end.

(** The reply of a compound is kept, unless it was kept before. *)
Definition save_reply (res : compound_res) (cs : cstate) : M compound_res :=
  match cached_res cs with
  | Some p =>
      if use_drc cs then mret res
      else
        let res := mk_compound_res (res_status res) (res_tag res) (res_ops res) true in
        on_clients (write_cache p res);; mret res
  | None => mret res
  end.

Definition compound_data_Free (cs : cstate) (d : D) : M unit :=
  match cd_session cs with Some session => on_clients (dec_session_ref session) | None => mret tt end;;
  data_free d.

(** The end of a compound: its reply is kept, the lease starts anew, what it held goes. *)
Definition compound_end (res : compound_res) (cs : cstate) (d : D) : M compound_res :=
  res ← save_reply res cs;
  match preserved_clientid cs with Some clientid => on_clients (update_lease clientid) | None => mret tt end;;
  compound_data_Free cs d;;
  mret res.

(** The tag of the reply is that of the request, if it is a name. *)
Definition check_tag (tag : list Z) : M (option nfsstat4) :=
  if Z.of_nat (length tag) =? 0 then mret (Some NFS4_OK)
  else
    ok ← on_clients cchoose;
    if negb ok then mret None
    else
      memory ← on_clients cchoose;
      match nfs4_utf8string2dynamic (Some tag) UTF8_SCAN_ALL memory with
      | None => undef
      | Some (inl _) => mret (Some NFS4ERR_INVAL)
      | Some (inr _) => mret (Some NFS4_OK)
      end.

(** The checks of a request: an answer at once, where [None] is a request that is dropped, or the
    credential that its operations run with. *)
Definition compound_error (status : nfsstat4) (tag : list Z) : option compound_res + nfs_client_cred_t :=
  inl (Some (mk_compound_res status tag [] false)).

Definition compound_admit (arg : compound_args D) (tag : option nfsstat4) : M (option compound_res + nfs_client_cred_t) :=
  match tag with
  | None => mret (inl None)
  | Some status =>
      if decide (status <> NFS4_OK) then mret (compound_error status (arg_tag arg))
      else if Z.of_nat (length (arg_ops arg)) =? 0 then mret (compound_error NFS4_OK (arg_tag arg))
      else if 100 <? Z.of_nat (length (arg_ops arg)) then mret (compound_error NFS4ERR_RESOURCE (arg_tag arg))
      else
        match arg_cred arg with
        | None => mret (inl None)
        | Some cred =>
            ok ← on_clients cchoose;
            if negb ok then mret (inl None)
            else
              let status := if 0 <? arg_minor arg then check_ops (arg_ops arg) else NFS4_OK in
              if decide (status <> NFS4_OK) then mret (compound_error status (arg_tag arg)) else mret (inr cred)
        end
  end.

Definition compound_start (arg : compound_args D) : M (option compound_res + nfs_client_cred_t) :=
  if 2 <? arg_minor arg then mret (compound_error NFS4ERR_MINOR_VERS_MISMATCH [])
  else tag ← check_tag (arg_tag arg); compound_admit arg tag.

Definition nfs4_Compound (arg : compound_args D) : M (option compound_res) :=
  start ← compound_start arg;
  match start with
  | inl answer => mret answer
  | inr cred =>
      '(res, cs, d) ← compound_loop arg cred 0 (arg_ops arg) [] zero_cstate (arg_data arg);
      res ← compound_end res cs d;
      mret (Some res)
  end.
End compound.
