(* ===== verification/CompoundSafe.v ===== *)
(** Compounds are safe: whatever requests come that fit ([compound_fits]), no compound follows a pointer to a client, a
    session or a slot that is gone, and the client store stays well formed. *)

From S2P Require Import Prelude Status World Owner Utf8 Client ClientInv ClientStep ClientEnter ClientOps ClientFrame ClientSpec ClientConfirm ClientLease ClientSession ClientServer Compound.

(** * Slots *)

Definition slots_ok (w : cworld) : Prop :=
  forall s x, cw_sessions w !! s = Some x -> length (s_slots x) = NFS41_NB_SLOTS /\ ca_maxrequests x = Z.of_nat NFS41_NB_SLOTS.

Lemma slots_steady w w' : steady w w' -> slots_ok w -> slots_ok w'.
Proof.
  intros (_ & HS & _) HK s x' Hx. destruct (HS s x' Hx) as [(x & Hs & E)|[_ [-> ->]]]; [|by rewrite length_replicate].
  destruct (HK s x Hs) as [H1 H2]. unfold fixed in E. injection E as _ _ -> -> _. done.
Qed.

Lemma slots_count w s x n : slots_ok w -> cw_sessions w !! s = Some x -> slots_ok (upd_cw_sessions (<[s := with_s_refcount n x]>) w).
Proof. intros HK Hs b y Hb. simpl in Hb. apply lookup_insert_Some in Hb as [[<- <-]|[_ Hb]]; [by apply (HK s x)|by apply (HK b)]. Qed.

Section slots.
Context {env : ClientEnv}.
Implicit Types (w : cworld).

Lemma cinv_set_session B X XR XS w s x x' :
  cinv B X XR XS w -> live (cw_sessions w) !! s = Some x -> session_id x' = session_id x -> clientid_record x' = clientid_record x ->
  s_refcount x' = s_refcount x -> cinv B X XR XS (upd_cw_sessions (<[s := x']>) w).
Proof.
  intros HI Hx Hid Hrec Hrc. pose proof (proj1 (live_Some _ _ _) Hx) as [Hs Hz]. destruct (so_refs _ _ _ _ (ci_sessions _ _ _ _ _ HI) s x Hx) as [Hneed Hpos].
  refine (cinv_sessions B X XR XS XS w (<[s := x']> (cw_sessions w)) (ht_session_id w) HI _ _ _).
  - rewrite live_insert by congruence. apply (sessions_set XS _ _ _ _ _ x); rewrite ?Hrc; try done; [apply HI|by right].
  - rewrite live_insert by congruence. intros b y [[<- <-]|[_ Hb]]%lookup_insert_Some; [rewrite Hid; by apply (ci_sequence _ _ _ _ _ HI s x)|by apply (ci_sequence _ _ _ _ _ HI b)].
  - apply sessions_addresses; [apply HI|by eexists].
Qed.

Lemma wp_get_slot s x k slot (Q : nfs41_session_slot_t -> cworld -> Prop) w :
  cw_sessions w !! s = Some x -> s_slots x !! k = Some slot -> Q slot w -> wp (get_slot s k) Q w.
Proof. intros Hs Hk HQ. unfold get_slot. apply wp_bind, (wp_get_sess s x); [done|]. by rewrite Hk. Qed.

(** A session with another value in a slot. *)
Definition with_slot (k : nat) (slot : nfs41_session_slot_t) (x : nfs41_session_t) : nfs41_session_t :=
  with_s_slots (<[k := slot]> (s_slots x)) x.

Lemma wp_set_slot B X XR XS s x k slot f (Q : unit -> cworld -> Prop) w :
  cinv B X XR XS w -> slots_ok w -> live (cw_sessions w) !! s = Some x -> s_slots x !! k = Some slot ->
  (let w' := upd_cw_sessions (<[s := with_slot k (f slot) x]>) w in cinv B X XR XS w' -> slots_ok w' -> Q tt w') -> wp (set_slot s k f) Q w.
Proof.
  intros HI HK Hx Hk HQ. pose proof (proj1 (live_Some _ _ _) Hx) as [Hs _]. unfold set_slot. apply wp_bind, (wp_get_slot s x k slot); [done|done|].
  apply (wp_set_sess s x); [done|]. apply HQ; [by apply (cinv_set_session _ _ _ _ _ s x)|].
  intros b y Hb. simpl in Hb. apply lookup_insert_Some in Hb as [[<- <-]|[_ Hb]]; [|by apply (HK b)]. simpl. rewrite length_insert. by apply (HK s).
Qed.

(** The slot for the reply of a CREATE_SESSION. *)
Lemma cinv_set_reply B X XR XS w a c v :
  cinv B X XR XS w -> cw_ids w !! a = Some c -> cinv B X XR XS (upd_cw_ids (<[a := with_cid_create_session_slot v c]>) w).
Proof.
  intros [HT HR HRec HS HSq HA] Ha. set (c' := with_cid_create_session_slot v c). assert (HAl : alike c c') by done. split; simpl; try done.
  - by eapply tables_alike.
  - destruct HR as [Hr Hh Hn Ho Hc]. split.
    + intros b d [[<- <-]|[_ Hb]]%lookup_insert_Some; [by apply (Hr a c)|by apply Hr].
    + intros b Hb. rewrite lookup_insert_is_Some'. destruct (Hh b Hb). auto.
    + intros b Hb. destruct (Hn b Hb) as (d & Hd & [N1 N2 N3 N4]). destruct (decide (a = b)) as [<-|Hne].
      * exists c'. rewrite lookup_insert_eq. assert (d = c) as -> by congruence. by split.
      * exists d. by rewrite lookup_insert_ne.
    + intros b d [[<- <-]|[_ Hb]]%lookup_insert_Some; [by apply (Ho a c)|by apply (Ho b)].
    + intros b d [[<- <-]|[_ Hb]]%lookup_insert_Some; [by apply (Hc a c)|by apply (Hc b)].
  - by eapply records_alike.
  - by eapply sessions_alike.
  - by eapply addresses_set.
Qed.
End slots.

(** * Sessions in the table *)

Section hashed.
Context {env : ClientEnv}.
Implicit Types (w : cworld).

(** A session that is in the table survives the release of a reference. *)
Lemma wp_dec_hashed B X XR XS s x (Q : unit -> cworld -> Prop) w :
  cinv B X XR (s :: XS) w -> live (cw_sessions w) !! s = Some x -> ht_session_id w !! session_id x = Some s ->
  (let w' := upd_cw_sessions (<[s := with_s_refcount (s_refcount x - 1) x]>) w in cinv B X XR XS w' -> s_refcount x - 1 <> 0 -> Q tt w') -> wp (dec_session_ref s) Q w.
Proof.
  intros HI Hx Hk HQ. pose proof (proj1 (live_Some _ _ _) Hx) as [Hs _]. destruct (so_refs _ _ _ _ (ci_sessions _ _ _ _ _ HI) s x Hx) as [Hneed Hpos].
  rewrite decide_True in Hneed by done. simpl in Hneed. rewrite bool_decide_true in Hneed by done. simpl in Hneed. pose proof (occ_nonneg s XS).
  assert (HI' : wp (dec_session_ref s) (fun _ w' => cinv B X XR XS w') w) by (apply (wp_dec_session B X XR XS); auto).
  unfold dec_session_ref, dec_session_ref_with in *. apply wp_bind, (wp_set_sess s x); [done|].
  apply wp_bind_inv in HI'. apply wp_elim in HI' as (u & w1 & Hrun & HI'). unfold set_sess, get_sess, mbind, M_bind, deref, modify in Hrun. rewrite Hs in Hrun.
  injection Hrun as <- <-. set (w' := upd_cw_sessions _ w) in *. set (x' := with_s_refcount _ x) in *.
  assert (Hx' : get_sess s w' = Ret x' w') by (unfold get_sess, deref; simpl; by rewrite lookup_insert_eq).
  apply wp_bind, (wp_intro _ _ _ x' w'); [done|]. apply wp_bind_inv in HI'. unfold wp at 1 in HI'. rewrite Hx' in HI'.
  assert (Hz : (s_refcount x' =? 0) = false) by (apply Z.eqb_neq; simpl; lia). rewrite Hz in *. apply HQ; [exact HI'|lia].
Qed.

Lemma wp_inc_hashed B X XR XS s x (Q : unit -> cworld -> Prop) w :
  cinv B X XR XS w -> live (cw_sessions w) !! s = Some x ->
  (let w' := upd_cw_sessions (<[s := with_s_refcount (s_refcount x + 1) x]>) w in cinv B X XR (s :: XS) w' -> s_refcount x + 1 <> 0 -> Q tt w') -> wp (inc_session_ref s) Q w.
Proof.
  intros HI Hx HQ. pose proof (proj1 (live_Some _ _ _) Hx) as [Hs _]. destruct (so_refs _ _ _ _ (ci_sessions _ _ _ _ _ HI) s x Hx) as [_ Hpos].
  eapply wp_mono; [|apply wp_and; [apply (wp_inc_session B X XR XS s x (fun _ w' => cinv B X XR (s :: XS) w')); auto
    |apply (wp_set_sess s x _ (fun _ w' => w' = upd_cw_sessions (<[s := with_s_refcount (s_refcount x + 1) x]>) w)); [done|reflexivity]]].
  intros [] w' [HI' ->]. apply HQ; [done|lia].
Qed.

(** The client of a session that is there is no newborn. *)
Lemma session_client B X XR XS w s x :
  cinv B X XR XS w -> live (cw_sessions w) !! s = Some x ->
  exists c, cw_ids w !! clientid_record x = Some c /\ (clientid_record x ∉ B) /\ cid_cb c = cb_v41 (sessions_of c) /\ s ∈ sessions_of c.
Proof.
  intros HI Hx. destruct (so_owner _ _ _ _ (ci_sessions _ _ _ _ _ HI) s x Hx) as (c & Hc & Hin). exists c. split_and!; [done| |by apply (sessions_of_cb c s)|done].
  intros HB. destruct (rf_new _ _ _ (ci_refs _ _ _ _ _ HI) _ HB) as (d & Hd & [_ _ Hn _]). assert (d = c) as -> by congruence.
  rewrite Hn in Hin. by apply not_elem_of_nil in Hin.
Qed.

(** Nothing changes when the back channel is looked for. *)
Lemma wp_get_chan B X XR XS up s x (Q : bool -> cworld -> Prop) w :
  cinv B X XR XS w -> live (cw_sessions w) !! s = Some x -> (forall b, Q b w) -> wp (nfs_rpc_get_chan up (clientid_record x)) Q w.
Proof.
  intros HI Hx HQ. destruct (session_client _ _ _ _ _ s x HI Hx) as (c & Hc & _ & Hcb & _). unfold nfs_rpc_get_chan.
  apply wp_bind, (wp_get_cid _ c); [done|]. destruct (_ =? 0); [by apply wp_ret|]. unfold session_list. rewrite Hcb. apply wp_bind, wp_ret, wp_bind.
  assert (Hall : forall l, (forall t, t ∈ l -> t ∈ sessions_of c) -> wp (for_sessions l (fun t => get_sess t;; mret tt)) (fun _ w' => w' = w) w).
  { induction l as [|t l IH]; intros Hl; simpl; [by apply wp_ret|]. destruct (so_list _ _ _ _ (ci_sessions _ _ _ _ _ HI) _ c t Hc) as (y & Hy & _); [apply Hl; left|].
    apply live_Some in Hy as [Hy _]. apply wp_bind, wp_bind, (wp_get_sess t y), wp_ret, IH; [done|]. intros u Hu. apply Hl. by right. }
  eapply wp_mono; [|by apply Hall]. intros u w' ->. by apply wp_ret.
Qed.
End hashed.

(** * What the other operations promise *)

(** The client store is well formed, with references held on [Held]. *)
Definition store_held {env : ClientEnv} (Held : list loc) (w : cworld) : Prop := exists B, cinv B [] [] Held w.

(** The current file handle and the permissions that an operation of the table needs. *)
Definition permitted {FS D} {cenv : CompoundEnv FS D} (minor n : Z) (d : D) : Prop :=
  forall desc, optabv4 !! Z.to_nat (opcode_of minor n) = Some desc -> check_perms (Z.land (exp_perm_flags desc) EXPORT_OPTION_ACCESS_TYPE) d = NFS4_OK.

(** The operations on files end, keep the client store well formed, do not touch the slots of
    sessions and work on a session that is held; so does the end of a compound. *)
Class CompoundLaws (FS D : Type) {env : ClientEnv} {cenv : CompoundEnv FS D} : Prop := {
  other_safe : forall Held n args data session d (w : cworld * FS),
    store_held Held w.1 -> (forall s, session = Some s -> s ∈ Held) -> permitted (minorversion data) n d ->
    wp (op_funct n args data session d) (fun _ w' => store_held Held w'.1) w;
  other_steady : forall n args data session d (w : cworld * FS) r w', op_funct n args data session d w = Ret r w' -> steady w.1 w'.1;
  free_safe : forall d (w : cworld * FS), store_held [] w.1 -> wp (data_free d) (fun _ w' => store_held [] w'.1) w;
  free_steady : forall d (w : cworld * FS) r w', data_free d w = Ret r w' -> steady w.1 w'.1
}.

Section safety.
Context {FS D : Type} {env : ClientEnv} {cenv : CompoundEnv FS D} {laws : CompoundLaws FS D}.
Implicit Types (w : cworld) (g : cworld * FS) (cs : cstate) (d : D).
Hypothesis Hepoch : epoch_low <> 0.

Lemma wp_on_clients {A} (m : M cworld A) (Q : A -> cworld * FS -> Prop) g :
  wp m (fun a w => Q a (w, g.2)) g.1 -> wp (on_clients m) Q g.
Proof. unfold wp, on_clients. by destruct (m g.1). Qed.

(** An operation on clients that keeps the store and is steady. *)
Lemma wp_client_op {A} (m : M cworld A) (P : A -> cworld -> Prop) (Q : A -> cworld * FS -> Prop) g :
  frames m -> wp m P g.1 -> (forall a w, P a w -> steady g.1 w -> Q a (w, g.2)) -> wp (on_clients m) Q g.
Proof.
  intros Hf Hm HQ. apply wp_on_clients, wp_steady; [done|]. eapply wp_mono; [|done]. intros a w1 H1 H2. by apply HQ.
Qed.

(** ** The states of a compound *)

Definition held cs : list loc := match cd_session cs with Some s => [s] | None => [] end.

Definition ptr_ok (p : cache_ptr) w : Prop :=
  match p with
  | in_session s k => (k < NFS41_NB_SLOTS)%nat /\ is_Some (live (cw_sessions w) !! s)
  | in_client a => is_Some (cw_ids w !! a)
  end.

(** The client of a session that is there. *)
Definition owned (p : loc) w : Prop := exists s x, live (cw_sessions w) !! s = Some x /\ clientid_record x = p.

(** Between two operations. *)
Definition ready cs w : Prop :=
  store_held (held cs) w /\ slots_ok w /\ use_drc cs = false /\
  match cd_session cs with
  | None => cached_res cs = None /\ preserved_clientid cs = None
  | Some s => exists x k, cw_sessions w !! s = Some x /\ preserved_clientid cs = Some (clientid_record x) /\
                cached_res cs = Some (in_session s k) /\ (k < NFS41_NB_SLOTS)%nat
  end.

(** After the last one. *)
Definition over cs w : Prop :=
  store_held (held cs) w /\ slots_ok w /\ (use_drc cs = true -> is_Some (cached_res cs)) /\
  (forall p, preserved_clientid cs = Some p -> owned p w) /\
  (forall ptr, cached_res cs = Some ptr -> ptr_ok ptr w).

Lemma ready_over cs w : ready cs w -> over cs w.
Proof.
  intros ([B HI] & HK & Hu & Hc). split_and!; [by exists B|done|by rewrite Hu| |].
  - intros p Hp. destruct (cd_session cs) as [s|] eqn:Es; [|destruct Hc; congruence]. destruct Hc as (x & k & Hx & Hpr & _).
    assert (p = clientid_record x) as -> by congruence. unfold held in HI. rewrite Es in HI.
    destruct (held_session _ _ _ _ _ s HI) as (y & Hl & Hy); [left|]. exists s, y. split; [done|congruence].
  - intros ptr Hptr. destruct (cd_session cs) as [s|] eqn:Es; [|destruct Hc; congruence]. destruct Hc as (x & k & _ & _ & Hk & Hlt).
    assert (ptr = in_session s k) as -> by congruence. split; [done|]. unfold held in HI. rewrite Es in HI.
    destruct (held_session _ _ _ _ _ s HI) as (y & Hl & _); [left|]. by exists y.
Qed.

(** A steady step that keeps the store keeps a compound ready. *)
Lemma ready_steady cs w w' : ready cs w -> steady w w' -> store_held (held cs) w' -> ready cs w'.
Proof.
  intros ([B HI] & HK & Hu & Hc) HS [B' HI']. split_and!; [by exists B'|by apply (slots_steady w)|done|].
  destruct (cd_session cs) as [s|] eqn:Es; [|done]. destruct Hc as (x & k & Hx & Hpr & Hk). unfold held in HI'. rewrite Es in HI'.
  destruct (held_session _ _ _ _ _ s HI') as (y & _ & Hy); [left|].
  destruct (steady_old w w' s y HS Hy) as (z & Hz & E); [apply (ad_sessions w (ci_addresses _ _ _ _ _ HI)); by eexists|].
  exists y, k. split_and!; [done| |apply Hk..]. assert (z = x) as -> by congruence. by rewrite (f_equal (fun t => t.1.1.1) E : clientid_record y = clientid_record x).
Qed.

(** ** SEQUENCE *)

Lemma wp_reserve_lease B X XR XS p c (Q : bool -> cworld -> Prop) w :
  cinv B X XR XS w -> cw_ids w !! p = Some c -> p ∉ B ->
  (forall w', cinv B X XR XS w' -> cw_sessions w' = cw_sessions w -> ht_session_id w' = ht_session_id w -> Q (lease_valid c w) w') ->
  wp (reserve_lease p) Q w.
Proof.
  intros HI Hc HB HQ. unfold reserve_lease. apply wp_bind, (wp_valid_lease p c); [done|]. apply wp_bind, wp_when; intros _.
  - apply (wp_set_other B X XR XS p c); try done. intros w' HI' _ _ _ H1 H2. apply wp_ret. by apply HQ.
  - apply wp_ret. by apply HQ.
Qed.

(** The end of a SEQUENCE that is not a new request: the session stays in the table. *)
Lemma wp_sequence_end B s x st cs (Q : op_result * cstate -> cworld -> Prop) w :
  cinv B [] [] [s] w -> slots_ok w -> live (cw_sessions w) !! s = Some x -> ht_session_id w !! session_id x = Some s -> cd_session cs = None ->
  (forall p, preserved_clientid cs = Some p -> p = clientid_record x) -> (cached_res cs = None \/ exists k, cached_res cs = Some (in_session s k) /\ (k < NFS41_NB_SLOTS)%nat) ->
  (use_drc cs = true -> is_Some (cached_res cs)) -> (forall w', over cs w' -> Q (st, [], cs) w') -> wp (dec_session_ref s;; mret (st, [], cs)) Q w.
Proof.
  intros HI HK Hx Hk Hs Hp Hc Hu HQ. apply wp_bind, (wp_dec_hashed B [] [] [] s x); [done..|]. intros w' HI' Hz. apply wp_ret, HQ.
  assert (Hl : live (cw_sessions w') !! s = Some (with_s_refcount (s_refcount x - 1) x)) by (apply live_Some; split; [apply lookup_insert_eq|exact Hz]).
  split_and!; [unfold held; rewrite Hs; by exists B| |done| |].
  - apply slots_count; [done|]. by apply live_Some in Hx as [? _].
  - intros p Hp'. rewrite (Hp p Hp'). by eexists _, _.
  - intros ptr Hptr. destruct Hc as [Hc|(k & Hc & Hlt)]; [congruence|]. assert (ptr = in_session s k) as -> by congruence. split; [done|by eexists].
Qed.

(** The session, and the client whose lease is reserved. *)
Lemma wp_sequence_new B arg cs up s x slot (Q : op_result * cstate -> cworld -> Prop) w :
  cinv B [] [] [s] w -> slots_ok w -> live (cw_sessions w) !! s = Some x -> preserved_clientid cs = Some (clientid_record x) ->
  s_slots x !! Z.to_nat (sa_slotid arg) = Some slot -> (forall res w', ready res.2 w' -> Q res w') -> wp (sequence_new arg cs s up) Q w.
Proof.
  intros HI HK Hx Hp Hk HQ. set (k := Z.to_nat (sa_slotid arg)) in *. assert (Hlt : (k < length (s_slots x))%nat) by (by apply lookup_lt_is_Some; eexists).
  pose proof (proj1 (live_Some _ _ _) Hx) as [Hs Hz]. destruct (HK s x Hs) as [Hlen _]. unfold sequence_new.
  apply wp_bind, (wp_set_slot B [] [] [s] s x k slot); [done..|]. set (slot1 := mk_slot _ _). intros w1 HI1 HK1. set (x1 := with_slot k slot1 x).
  assert (Hx1 : live (cw_sessions w1) !! s = Some x1) by (apply live_Some; split; [apply lookup_insert_eq|done]).
  assert (Hs1 : cw_sessions w1 !! s = Some x1) by apply lookup_insert_eq.
  assert (Hk1 : s_slots x1 !! k = Some slot1) by (simpl; by apply list_lookup_insert_eq).
  apply wp_bind, (wp_get_slot s x1 k slot1); [done|done|]. apply wp_bind, (wp_get_sess s x1); [done|].
  apply wp_bind, (wp_get_chan B [] [] [s] up s x1); [done|done|]. intros chan.
  apply wp_bind, (wp_set_slot B [] [] [s] s x1 k slot1); [done..|]. intros w2 HI2 HK2. apply wp_ret, HQ.
  split_and!; [by exists B|done|done|]. exists (with_slot k (mk_slot (slot_sequence slot1) (mk_slot_cache (cached_result (slot_cached slot1)) true)) x1), k.
  split_and!; [apply lookup_insert_eq|done|done|by rewrite <- Hlen].
Qed.

Lemma wp_sequence arg data grace up w :
  store_held [] w -> slots_ok w ->
  wp (nfs4_op_sequence arg data zero_cstate grace up)
     (fun res w' => over res.2 w' /\ (res.1.1 = NFS4_OK -> use_drc res.2 = false -> ready res.2 w')) w.
Proof.
  intros [B HI] HK. assert (Hz : ready zero_cstate w) by (split_and!; [by exists B|done..]). unfold nfs4_op_sequence.
  destruct (_ =? 0); [apply wp_ret; split; [by apply ready_over|done]|]. destruct (negb _); [apply wp_ret; split; [by apply ready_over|done]|].
  apply wp_bind. unfold nfs41_Session_Get_Pointer. apply wp_bind, wp_gets. destruct (ht_session_id w !! sa_sessionid arg) as [s|] eqn:Hk.
  2: { apply wp_ret. destruct grace; apply wp_ret; (split; [by apply ready_over|done]). }
  destruct (so_hts _ _ _ _ (ci_sessions _ _ _ _ _ HI) _ s Hk) as (x0 & Hx0 & Hid). apply wp_bind, (wp_inc_hashed B [] [] [] s x0); [done|done|].
  set (x := with_s_refcount _ x0). intros w1 HI1 Hr1. apply wp_ret. assert (Hs1 : cw_sessions w1 !! s = Some x) by apply lookup_insert_eq.
  assert (Hx1 : live (cw_sessions w1) !! s = Some x) by (by apply live_Some). pose proof (proj1 (live_Some _ _ _) Hx0) as [Hs0 _].
  assert (HK1 : slots_ok w1) by (by apply slots_count).
  apply wp_bind, (wp_get_sess s x); [done|]. destruct (session_client _ _ _ _ _ s x HI1 Hx1) as (c & Hc & HB & _).
  apply wp_bind, (wp_reserve_lease B [] [] [s] (clientid_record x) c); [done..|]. intros w2 HI2 Hses Hht.
  assert (Hx2 : live (cw_sessions w2) !! s = Some x) by (by rewrite Hses). assert (Hk2 : ht_session_id w2 !! session_id x = Some s) by (rewrite Hht; simpl; congruence).
  assert (HK2 : slots_ok w2) by (unfold slots_ok; by rewrite Hses).
  destruct (negb _); [apply (wp_sequence_end B s x); try done; by left|].
  unfold sequence_slot. assert (Hs2 : cw_sessions w2 !! s = Some x) by (by rewrite Hses). apply wp_bind, (wp_get_sess s x); [done|].
  destruct (HK2 s x Hs2) as [Hlen Hmax]. rewrite Hmax. destruct (Z.leb_spec (Z.of_nat NFS41_NB_SLOTS) (sa_slotid arg)) as [Hbig|Hsmall].
  { apply (wp_sequence_end B s x); try done; [by intros p [= <-]|by left]. }
  set (k := Z.to_nat (sa_slotid arg)). assert (Hkl : (k < NFS41_NB_SLOTS)%nat) by (unfold k, NFS41_NB_SLOTS in *; lia).
  destruct (lookup_lt_is_Some_2 (s_slots x) k) as [slot Hslot]; [by rewrite Hlen|]. apply wp_bind, (wp_get_slot s x k slot); [done|done|].
  destruct (negb _).
  { destruct (_ =? _); (apply (wp_sequence_end B s x); try done; [by intros p [= <-]|]); [right; by exists k|by left]. }
  apply (wp_sequence_new B arg _ up s x slot); try done. intros res w' Hr. split; [by apply ready_over|done].
Qed.

(** ** One operation *)

(** A number that no client has. *)
Definition no_client (clientid : Z) w : Prop := ht_confirmed_client_id w !! clientid = None /\ ht_unconfirmed_client_id w !! clientid = None.

Lemma wp_destroy_no_client k data (Q : nfsstat4 -> cworld -> Prop) w :
  no_client k w -> (forall st, Q st w) -> wp (nfs4_op_destroy_clientid k data) Q w.
Proof.
  intros [Hc Hu] HQ. unfold nfs4_op_destroy_clientid, nfs_client_id_get_confirmed, nfs_client_id_get_unconfirmed, nfs_client_id_get. destruct (_ <? 1); [by apply wp_ret|].
  destruct (negb _); [by repeat (first [apply wp_bind|apply wp_ret])|].
  apply wp_bind, wp_bind, wp_gets. rewrite Hc. apply wp_ret, wp_bind, wp_bind, wp_bind, wp_gets. rewrite Hu. apply wp_ret, wp_bind, wp_bind, wp_gets. rewrite Hc. by apply wp_ret, wp_ret, wp_ret.
Qed.

(** When an operation can come, as in [ClientServer.admissible]; DESTROY_CLIENTID is admitted for a number that no
    client has: for the client id of a client with a session it frees the record of the client
    (see [destroy_clientid_dangles]). *)
Definition op_admissible (op : nfs_argop4) (data : compound_data) w : Prop :=
  match op with
  | opsetclientid arg => admissible (call_setclientid arg data) w
  | opsetclientid_confirm clientid confirm => admissible (call_confirm clientid confirm data false) w
  | opexchange_id arg => admissible (call_exchange_id arg data) w
  | opcreate_session arg => admissible (call_create_session arg data) w
  | opdestroy_clientid clientid => no_client clientid w
  | _ => True
  end.

Definition creates_session (op : nfs_argop4) : bool := match op with opcreate_session _ => true | _ => false end.

(** What holds after an operation with status [st]. *)
Definition op_post (op : nfs_argop4) (st : nfsstat4) cs w : Prop :=
  over cs w /\ (st = NFS4_OK -> use_drc cs = false -> creates_session op = false -> ready cs w).

Lemma ready_post op st cs w w' : ready cs w -> steady w w' -> store_held (held cs) w' -> op_post op st cs w'.
Proof. intros HR HS HH. pose proof (ready_steady cs w w' HR HS HH). split; [by apply ready_over|done]. Qed.

Lemma wp_create_op arg data cs d g :
  ready cs g.1 -> admissible (call_create_session arg data) g.1 ->
  wp (call_op (opcreate_session arg) data cs d) (fun r g' => op_post (opcreate_session arg) r.1.1.1 r.1.2 g'.1) g.
Proof.
  intros HR (H1 & H2 & H3). pose proof HR as ([B HI] & _). cbn [call_op]. apply wp_bind.
  eapply wp_client_op; [apply frames_create_session|by apply (wp_create_session (held cs) B)|]. intros [res kb] w' [HH [Hl Hr]] HS. simpl in *.
  apply wp_ret. simpl. destruct (ready_over cs w' (ready_steady cs g.1 w' HR HS HH)) as (HO1 & HO2 & _ & HO4 & HO5). split; [|done].
  split_and!; [done|done| |done|]; simpl.
  - intros Hu. destruct res; try done. destruct (Hr eq_refl) as [a ->]. by eexists.
  - intros ptr. destruct kb as [a|]; [intros [= <-]; by apply Hl|by apply HO5].
Qed.

Lemma wp_call_op op data cs d g :
  ready cs g.1 -> op_admissible op data g.1 -> (oppos data = 0 -> cs = zero_cstate) -> permitted (minorversion data) (argop op) d ->
  wp (call_op op data cs d) (fun r g' => op_post op r.1.1.1 r.1.2 g'.1) g.
Proof.
  intros HR Had Hz Hperm. pose proof HR as ([B HI] & HK & _).
  destruct op as [k|arg|k v|arg|arg|k|arg|k|n args]; cbn [op_admissible] in Had; [| | | |by apply wp_create_op| | | |]; cbn [call_op].
  - apply wp_bind. eapply wp_client_op; [apply frames_renew|by apply (wp_renew (held cs) B)|]. intros st w' [HI' _] HS. apply wp_ret. apply (ready_post _ _ _ g.1); [done..|by exists B].
  - apply wp_bind. eapply wp_client_op; [apply frames_setclientid|by apply (wp_setclientid Hepoch (held cs) B)|]. intros st w' [HI' _] HS. by apply wp_ret, (ready_post _ _ _ g.1).
  - apply wp_bind, wp_gets, wp_bind. eapply wp_client_op; [apply frames_setclientid_confirm|by apply (wp_setclientid_confirm (held cs) B)|].
    intros st w' [HI' _] HS. apply wp_ret. apply (ready_post _ _ _ g.1); [done..|by exists B].
  - destruct Had as [H1 H2]. apply wp_bind. eapply wp_client_op; [apply frames_exchange_id|by apply (wp_exchange_id (held cs) B)|].
    intros st w' HI' HS. by apply wp_ret, (ready_post _ _ _ g.1).
  - apply wp_bind. eapply wp_client_op; [apply frames_destroy_session|by apply (wp_destroy_session (held cs) B)|].
    intros st w' HI' HS. apply wp_ret. apply (ready_post _ _ _ g.1); [done..|by exists B].
  - apply wp_bind, wp_gets, wp_bind. destruct (decide (oppos data = 0)) as [Hp|Hp].
    + rewrite (Hz Hp) in *. apply wp_on_clients. eapply wp_mono; [|apply wp_sequence; [by exists B|done]]. intros [[st body] cs'] w' [HO HRd]. apply wp_ret. by split; auto.
    + apply wp_on_clients. unfold nfs4_op_sequence. pose proof (ready_over _ _ HR). rewrite (proj2 (Z.eqb_neq _ _) Hp). by destruct (_ =? 0); apply wp_ret, wp_ret.
  - apply wp_bind. eapply wp_client_op; [apply frames_destroy_clientid|by apply (wp_destroy_no_client k data (fun _ w' => cinv B [] [] (held cs) w'))|].
    intros st w' HI' HS. apply wp_ret. apply (ready_post _ _ _ g.1); [done..|by exists B].
  - apply wp_bind. assert (Hother : wp (op_funct n args data (cd_session cs) d) (fun _ g' => store_held (held cs) g'.1) g).
    { apply other_safe; [by exists B| |exact Hperm]. intros s Hs. unfold held. rewrite Hs. left. }
    apply wp_elim in Hother as ([[st body] d'] & g' & Hrun & HH). apply (wp_intro _ _ _ (st, body, d') g'); [done|].
    apply wp_ret, (ready_post _ _ _ g.1); [done|by apply (other_steady n args data (cd_session cs) d g (st, body, d') g')|done].
Qed.

Lemma wp_run_op op data cs d g :
  ready cs g.1 -> op_admissible op data g.1 -> (oppos data = 0 -> cs = zero_cstate) ->
  wp (run_op op (opcode_of (minorversion data) (argop op)) data cs d) (fun r g' => op_post op (nr_status r.1.1) r.1.2 g'.1) g.
Proof.
  intros HR Had Hz. unfold run_op. pose proof (ready_over _ _ HR) as HO. destruct (optabv4 !! _) as [desc|] eqn:Hdesc.
  - destruct (decide _) as [|Hok]; [by apply wp_ret|]. apply dec_stable in Hok.
    destruct (funct desc); [by apply wp_ret..|]. apply wp_bind. eapply wp_mono; [|apply wp_call_op; try done; [intros desc' Hdesc'; by replace desc' with desc by congruence]].
    by intros [[[st body] cs'] d'] g' HP.
  - exfalso. assert (Hlt : (Z.to_nat (opcode_of (minorversion data) (argop op)) < length optabv4)%nat); [|apply lookup_lt_is_Some in Hlt as [? ?]; congruence].
    change (length optabv4) with 68%nat. unfold opcode_of, NFS4_OP_RELEASE_LOCKOWNER, NFS4_OP_IO_ADVISE, NFS4_OP_READ_PLUS, NFS4_OP_WRITE_PLUS.
    destruct (minorversion data =? 0); [|destruct (Z.ltb_spec 67 (argop op)); simpl; lia].
    destruct (Z.ltb_spec 39 (argop op)), (Z.eqb_spec (argop op) 65), (Z.eqb_spec (argop op) 64); simpl; lia.
Qed.

(** ** The loop *)

Definition data_at (arg : compound_args D) (cred : nfs_client_cred_t) (i : Z) : compound_data :=
  mk_data (arg_minor arg) cred (arg_xprt arg) (arg_server arg) i.

(** Each operation can come when its turn is, and a CREATE_SESSION is the last. *)
Fixpoint ops_fit (arg : compound_args D) (cred : nfs_client_cred_t) (i : Z) (ops : list nfs_argop4) cs d g : Prop :=
  match ops with
  | [] => True
  | op :: ops =>
      op_admissible op (data_at arg cred i) g.1 /\ (creates_session op = true -> ops = []) /\
      forall r cs' d' g', run_op op (opcode_of (arg_minor arg) (argop op)) (data_at arg cred i) cs d g = Ret (r, cs', d') g' ->
        nr_status r = NFS4_OK -> use_drc cs' = false -> ops_fit arg cred (i + 1) ops cs' d' g'
  end.

Lemma wp_too_many minor i cs (Q : bool -> cworld * FS -> Prop) g :
  ready cs g.1 -> (forall b, Q b g) -> wp (too_many_ops minor i cs) Q g.
Proof.
  intros (_ & _ & _ & Hc) HQ. unfold too_many_ops. destruct (cd_session cs) as [s|]; [|by apply wp_ret].
  destruct (minor =? 0); [by apply wp_ret|]. destruct Hc as (x & k & Hx & _). apply wp_bind, wp_on_clients, (wp_get_sess s x); [done|]. apply wp_ret.
  destruct g. apply HQ.
Qed.

Lemma wp_read_cache p (Q : compound_res -> cworld -> Prop) w : slots_ok w -> ptr_ok p w -> (forall res, Q res w) -> wp (read_cache p) Q w.
Proof.
  intros HK Hp HQ. destruct p as [s k|a]; cbn [read_cache ptr_ok] in *.
  - destruct Hp as [Hk [x Hx]]. apply live_Some in Hx as [Hx _]. destruct (HK s x Hx) as [Hlen _].
    destruct (lookup_lt_is_Some_2 (s_slots x) k) as [slot Hs]; [by rewrite Hlen|]. by apply wp_bind, (wp_get_slot s x k slot), wp_ret.
  - destruct Hp as [c Hc]. by apply wp_bind, (wp_get_cid a c), wp_ret.
Qed.

Lemma wp_loop arg cred ops : forall i res cs d g,
  ready cs g.1 -> (i = 0 -> cs = zero_cstate) -> 0 <= i -> ops_fit arg cred i ops cs d g ->
  wp (compound_loop arg cred i ops res cs d) (fun r g' => over r.1.2 g'.1) g.
Proof.
  induction ops as [|op ops IH]; intros i res cs d g HR Hz Hi Hfit; cbn [compound_loop]; [apply wp_ret; by apply ready_over|].
  destruct Hfit as (Had & Hlast & Hnext). apply wp_bind, wp_too_many; [done|]. intros b. apply wp_bind.
  destruct b; [apply wp_ret; simpl; apply wp_ret; by apply ready_over|].
  pose proof (wp_run_op op (data_at arg cred i) cs d g HR Had Hz) as Hrun. apply wp_elim in Hrun as ([[r cs'] d'] & g' & Hrun & [HO HRd]). simpl in HO, HRd.
  apply (wp_intro _ _ _ (r, cs', d') g'); [exact Hrun|]. simpl. destruct (decide _) as [|Hok]; [by apply wp_ret|]. apply dec_stable in Hok.
  destruct (use_drc cs') eqn:Hu.
  - destruct HO as (HO1 & HO2 & HO3 & HO4 & HO5). destruct (HO3 Hu) as [p Hp]. rewrite Hp. apply wp_bind, wp_on_clients, wp_read_cache; [done|by apply HO5|].
    intros cached. by apply wp_ret.
  - destruct (creates_session op) eqn:Hcr; [rewrite (Hlast eq_refl); by apply wp_ret|]. apply IH; [by apply HRd|lia|lia|by apply (Hnext r)].
Qed.

(** ** The end *)

Lemma wp_write_cache B Held p res (Q : unit -> cworld -> Prop) w :
  cinv B [] [] Held w -> slots_ok w -> ptr_ok p w ->
  (forall w', cinv B [] [] Held w' -> slots_ok w' -> (forall q, owned q w -> owned q w') -> Q tt w') -> wp (write_cache p res) Q w.
Proof.
  intros HI HK Hp HQ. destruct p as [s k|a]; cbn [write_cache ptr_ok] in *.
  - destruct Hp as [Hk [x Hx]]. pose proof (proj1 (live_Some _ _ _) Hx) as [Hs Hz]. destruct (HK s x Hs) as [Hlen _].
    destruct (lookup_lt_is_Some_2 (s_slots x) k) as [slot Hsl]; [by rewrite Hlen|]. apply (wp_set_slot B [] [] Held s x k slot); [done..|].
    intros w' HI' HK'. apply HQ; [done|done|]. intros q (t & y & Hy & Hq). destruct (decide (s = t)) as [<-|Hne].
    + exists s, (with_slot k (mk_slot (slot_sequence slot) (mk_slot_cache res (cache_used (slot_cached slot)))) x).
      assert (y = x) as -> by congruence. split; [|done]. apply live_Some. split; [apply lookup_insert_eq|done].
    + exists t, y. split; [|done]. apply live_Some. apply live_Some in Hy as [Hy ?]. split; [|done]. simpl. by rewrite lookup_insert_ne.
  - destruct Hp as [c Hc]. apply (wp_set_cid a c); [done|]. apply HQ; [by apply cinv_set_reply|done|done].
Qed.

Lemma wp_data_Free B cs d g :
  cinv B [] [] (held cs) g.1 -> slots_ok g.1 -> wp (compound_data_Free cs d) (fun _ g' => store_held [] g'.1 /\ slots_ok g'.1) g.
Proof.
  intros HI HK. unfold compound_data_Free. apply wp_bind.
  assert (Hfree : forall g', store_held [] g'.1 -> slots_ok g'.1 -> wp (data_free d) (fun _ g' => store_held [] g'.1 /\ slots_ok g'.1) g').
  { intros g' HH HK'. pose proof (free_safe d g' HH) as Hf. apply wp_elim in Hf as ([] & g'' & Hrun & HH'). apply (wp_intro _ _ _ tt g''); [done|].
    split; [done|]. by apply (slots_steady g'.1), HK'; apply (free_steady d g' tt). }
  unfold held in HI. destruct (cd_session cs) as [s|]; [|apply wp_ret, Hfree; [by exists B|done]].
  apply wp_on_clients, wp_steady; [apply frames_dec_session|].
  apply (wp_dec_session B [] [] []); [done|]. intros w1 HI1 _ _ HS. apply Hfree; [by exists B|by apply (slots_steady g.1)].
Qed.

Lemma wp_compound_end res cs d g :
  over cs g.1 -> wp (compound_end res cs d) (fun _ g' => store_held [] g'.1 /\ slots_ok g'.1) g.
Proof.
  intros ([B HI] & HK & _ & Hown & Hptr). unfold compound_end. apply wp_bind.
  assert (Hsave : wp (save_reply res cs) (fun _ g' => cinv B [] [] (held cs) g'.1 /\ slots_ok g'.1 /\ forall q, owned q g.1 -> owned q g'.1) g).
  { unfold save_reply. destruct (cached_res cs) as [p|]; [|by apply wp_ret]. destruct (use_drc cs); [by apply wp_ret|].
    apply wp_bind, wp_on_clients, (wp_write_cache B (held cs)); [done|done|by apply Hptr|]. intros w' HI' HK' Hq. by apply wp_ret. }
  eapply wp_mono; [|done]. clear HI HK. intros res' g1 (HI & HK & Hq). apply wp_bind.
  assert (Hfree : forall g', cinv B [] [] (held cs) g'.1 -> slots_ok g'.1 ->
    wp (compound_data_Free cs d;; mret res') (fun _ g' => store_held [] g'.1 /\ slots_ok g'.1) g').
  { intros g' HI' HK'. apply wp_bind. eapply wp_mono; [|by apply (wp_data_Free B)]. intros [] g'' HP. by apply wp_ret. }
  destruct (preserved_clientid cs) as [p|]; [|by apply wp_ret, Hfree]. destruct (Hq p (Hown p eq_refl)) as (s & x & Hx & <-).
  destruct (session_client _ _ _ _ _ s x HI Hx) as (c & Hc & HB & _). apply wp_on_clients, wp_steady; [apply frames_update_lease|].
  apply (wp_update_lease B [] [] (held cs) _ c); [done..|]. intros w1 HI1 _ _ HS. apply Hfree; [done|by apply (slots_steady g1.1)].
Qed.

(** ** Requests *)

(** A request can come: its tag is of bytes, and its operations can come when their turn is. *)
Definition compound_fits (arg : compound_args D) g : Prop :=
  Forall (fun c => 0 <= c < 256) (arg_tag arg) /\
  forall cred g', compound_start arg g = Ret (inr cred) g' -> ops_fit arg cred 0 (arg_ops arg) zero_cstate (arg_data arg) g'.

(** Between requests. *)
Definition server_ok g : Prop := store_held [] g.1 /\ slots_ok g.1.

Lemma wp_on_cchoose (Q : bool -> cworld * FS -> Prop) g :
  server_ok g -> (forall b g', server_ok g' -> Q b g') -> wp (on_clients cchoose) Q g.
Proof.
  intros [[B HI] HK] HQ. apply wp_on_clients, wp_cchoose. intros w b HSt HE Hn HV. apply HQ. pose proof HSt as (E1 & E2 & E3 & E4 & E5 & E6 & E7).
  pose proof (f_equal (fun t => t.1.2) HE) as Hg. simpl in Hg. split; [exists B; simpl; apply (cinv_same _ _ _ _ g.1); [done|done|lia|lia]|]. unfold slots_ok. simpl. by rewrite E3.
Qed.

Lemma wp_admit (arg : compound_args D) tag g : server_ok g -> wp (compound_admit arg tag) (fun _ g' => server_ok g') g.
Proof.
  intros HG. unfold compound_admit. destruct tag as [status|]; [|by apply wp_ret]. destruct (decide _); [by apply wp_ret|].
  destruct (_ =? 0); [by apply wp_ret|]. destruct (100 <? _); [by apply wp_ret|]. destruct (arg_cred arg); [|by apply wp_ret].
  apply wp_bind, wp_on_cchoose; [done|]. intros b g1 HG1. destruct b; cbn [negb]; [|by apply wp_ret]. cbv zeta. destruct (decide _); by apply wp_ret.
Qed.

Lemma wp_start (arg : compound_args D) g : Forall (fun c => 0 <= c < 256) (arg_tag arg) -> server_ok g -> wp (compound_start arg) (fun _ g' => server_ok g') g.
Proof.
  intros Htag HG. unfold compound_start. destruct (2 <? _); [by apply wp_ret|]. apply wp_bind.
  unfold check_tag. destruct (_ =? 0); [by apply wp_ret, wp_admit|]. apply wp_bind, wp_on_cchoose; [done|]. intros b g1 HG1. destruct b; cbn [negb]; [|by apply wp_ret, wp_admit].
  apply wp_bind, wp_on_cchoose; [done|]. intros b g2 HG2. destruct (utf8string2dynamic_ends (arg_tag arg) UTF8_SCAN_ALL b Htag) as [[st|name] ->]; by apply wp_ret, wp_admit.
Qed.

Lemma wp_compound (arg : compound_args D) g : server_ok g -> compound_fits arg g -> wp (nfs4_Compound arg) (fun _ g' => server_ok g') g.
Proof.
  intros HG [Htag Hfit]. unfold nfs4_Compound. apply wp_bind. pose proof (wp_start arg g Htag HG) as Hst. apply wp_elim in Hst as ([ans|cred] & g1 & Hrun & HG1).
  - apply (wp_intro _ _ _ (inl ans) g1); [done|]. by apply wp_ret.
  - apply (wp_intro _ _ _ (inr cred) g1); [done|]. apply wp_bind. destruct HG1 as [HH HK].
    eapply wp_mono; [|apply (wp_loop arg cred); [by split_and!|done|lia|by apply Hfit]].
    intros [[res cs] d] g2 HO. apply wp_bind. eapply wp_mono; [|by apply wp_compound_end]. intros res' g3 [H1 H2]. by apply wp_ret.
Qed.
End safety.
