(* ===== verification/CompoundOnce.v ===== *)
(** A request on a slot of a session runs at most once: a retry gets the reply that was kept, and
    nothing runs for it, whatever requests came in between on other slots. *)

From S2P Require Import Prelude Status World Owner Utf8 Client ClientInv ClientStep ClientEnter ClientOps ClientFrame ClientSpec ClientConfirm ClientLease ClientSession ClientServer Compound CompoundSafe.

Section slot.
Context {env : ClientEnv}.
Implicit Types (w : cworld).

Lemma wlp_frames {A} (m : M cworld A) (Q : A -> cworld -> Prop) w :
  frames m -> (forall a w', steady w w' -> Q a w') -> wlp m Q w.
Proof. intros Hm HQ a w' Hrun. by apply HQ, (Hm w a). Qed.

(** Slot [k] of the session at [s], which has the number [sid], is [sl], as long as the session is there. *)
Definition slot_is (sid : Z * Z) (s : loc) (k : nat) (sl : nfs41_session_slot_t) w : Prop :=
  (s < cw_next w)%positive /\ forall x, cw_sessions w !! s = Some x -> session_id x = sid /\ s_slots x !! k = Some sl.

Lemma slot_is_steady sid s k sl w w' : steady w w' -> slot_is sid s k sl w -> slot_is sid s k sl w'.
Proof.
  intros HS [Hn HX]. split; [destruct HS; lia|]. intros x' Hx'. destruct (steady_old w w' s x' HS Hx' Hn) as (x & Hx & E).
  destruct (HX x Hx) as [<- <-]. unfold fixed in E. injection E as _ -> -> _ _. done.
Qed.

Lemma slot_is_set sid s k sl s' k' f w w' u :
  set_slot s' k' f w = Ret u w' -> slot_is sid s k sl w -> slot_is sid s k (if decide (s' = s /\ k' = k) then f sl else sl) w'.
Proof.
  intros Hrun [Hn HX]. unfold set_slot, get_slot, set_sess, get_sess, mbind, M_bind, deref, modify in Hrun.
  destruct (cw_sessions w !! s') as [y|] eqn:Hy; [|done]. destruct (s_slots y !! k') as [slot|] eqn:Hk; [|done]. simpl in Hrun. rewrite Hy in Hrun.
  injection Hrun as _ <-. split; [done|]. simpl. intros x [[-> <-]|[Hne Hx]]%lookup_insert_Some.
  - destruct (HX y Hy) as [Hid Hs]. split; [done|]. simpl. destruct (decide _) as [[_ ->]|Hno].
    + rewrite Hs in Hk. injection Hk as ->. rewrite list_lookup_insert_eq; [done|]. by apply lookup_lt_is_Some; eexists.
    + rewrite list_lookup_insert_ne by (intros ->; by apply Hno). done.
  - rewrite decide_False by (by intros [? _]). by apply HX.
Qed.

Lemma frames_get_chan up a : frames (nfs_rpc_get_chan up a).
Proof.
  unfold nfs_rpc_get_chan. pose proof frames_get_cid. framing. apply frames_for_sessions. intros s. pose proof frames_get_sess. framing.
Qed.

Definition reserved_for (x : nfs41_session_t) : cstate := mk_cstate None false None (Some (clientid_record x)).
Definition next_number (sl : nfs41_session_slot_t) : nfs41_session_slot_t := mk_slot (u32 (slot_sequence sl + 1)) (slot_cached sl).
Definition now_used (sl : nfs41_session_slot_t) : nfs41_session_slot_t :=
  mk_slot (slot_sequence sl) (mk_slot_cache (cached_result (slot_cached sl)) true).

(** What SEQUENCE does when the session is there. *)
Definition sequence_cases (arg : SEQUENCE4args) (s : loc) (x : nfs41_session_t) (c : nfs_client_id_t) (slot : nfs41_session_slot_t)
    w (res : op_result * cstate) w' : Prop :=
  let k := Z.to_nat (sa_slotid arg) in
  if negb (lease_valid c w) then steady w w' /\ res = (NFS4ERR_EXPIRED, [], zero_cstate)
  else if ca_maxrequests x <=? sa_slotid arg then steady w w' /\ res = (NFS4ERR_BADSLOT, [], reserved_for x)
  else if negb (u32 (slot_sequence slot + 1) =? sa_sequenceid arg) then
    steady w w' /\
    res = if slot_sequence slot =? sa_sequenceid arg
          then (NFS4_OK, [], mk_cstate None true (Some (in_session s k)) (Some (clientid_record x)))
          else (NFS4ERR_SEQ_MISORDERED, [], reserved_for x)
  else
    res.1.1 = NFS4_OK /\ res.2 = mk_cstate (Some s) false (Some (in_session s k)) (Some (clientid_record x)) /\
    exists w1 w2 w3, steady w w1 /\ set_slot s k next_number w1 = Ret tt w2 /\ steady w2 w3 /\ set_slot s k now_used w3 = Ret tt w'.

Lemma wlp_sequence_cases arg data grace up s x c slot w :
  minorversion data <> 0 -> oppos data = 0 -> ht_session_id w !! sa_sessionid arg = Some s -> cw_sessions w !! s = Some x ->
  (s < cw_next w)%positive -> cw_ids w !! clientid_record x = Some c ->
  (sa_slotid arg < ca_maxrequests x -> s_slots x !! Z.to_nat (sa_slotid arg) = Some slot) ->
  wlp (nfs4_op_sequence arg data zero_cstate grace up) (sequence_cases arg s x c slot w) w.
Proof.
  intros Hm Hp Hk Hs Hlt Hc Hslot. unfold nfs4_op_sequence, sequence_cases. rewrite (proj2 (Z.eqb_neq _ _) Hm), (proj2 (Z.eqb_eq _ _) Hp). cbn [negb].
  apply wlp_bind. unfold nfs41_Session_Get_Pointer. apply wlp_bind, wlp_gets. rewrite Hk. apply wlp_bind. unfold inc_session_ref, set_sess.
  apply wlp_bind, wlp_deref. intros y Hy. assert (y = x) as -> by congruence. apply wlp_modify, wlp_ret. set (w0 := upd_cw_sessions _ w). set (x0 := with_s_refcount _ x) in *.
  assert (S0 : steady w w0).
  { assert (Hrun : set_sess s (fun x => with_s_refcount (s_refcount x + 1) x) w = Ret tt w0) by (unfold set_sess, get_sess, mbind, M_bind, deref; by rewrite Hs).
    by refine (frames_set_sess s _ _ w tt w0 Hrun). }
  apply wlp_bind, wlp_deref. intros y' Hy'. assert (y' = x0) as -> by (unfold w0 in Hy'; simpl in Hy'; rewrite lookup_insert_eq in Hy'; congruence).
  change (clientid_record x0) with (clientid_record x). apply wlp_bind. unfold reserve_lease, valid_lease. apply wlp_bind, wlp_bind, wlp_deref.
  intros c' Hc'. assert (c' = c) as -> by (simpl in Hc'; congruence). apply wlp_bind, wlp_gets, wlp_ret. change (negb (_valid_lease c (cw_time w0) =? 0)) with (lease_valid c w).
  apply wlp_bind. destruct (lease_valid c w); cbn [when negb].
  2: { apply wlp_ret, wlp_ret, wlp_bind, wlp_frames; [apply frames_dec_session|]. intros u w' HS. apply wlp_ret. split; [by etrans|done]. }
  apply wlp_frames; [by apply frames_set_cid|]. intros u1 w1 S1. assert (S01 : steady w w1) by (by etrans). clear S1 u1. apply wlp_ret.
  unfold sequence_slot. apply wlp_bind, wlp_deref. intros x1 Hx1. destruct (steady_old w w1 s x1 S01 Hx1 Hlt) as (x' & Hx' & E).
  assert (x' = x) as -> by congruence. unfold fixed in E. injection E as Erec _ Esl Emax _. rewrite Emax.
  destruct (Z.leb_spec (ca_maxrequests x) (sa_slotid arg)) as [Hbig|Hsmall].
  { apply wlp_bind, wlp_frames; [apply frames_dec_session|]. intros u w' HS. apply wlp_ret. split; [by etrans|done]. }
  apply wlp_bind. unfold get_slot at 1. apply wlp_bind, wlp_deref. intros x2 Hx2. assert (x2 = x1) as -> by congruence. rewrite Esl, (Hslot Hsmall). apply wlp_ret.
  destruct (u32 (slot_sequence slot + 1) =? sa_sequenceid arg) eqn:Enext; cbn [negb].
  - unfold sequence_new. cbn [cd_session use_drc cached_res preserved_clientid].
    apply wlp_bind. intros u2 w2 Hset. destruct u2. apply wlp_bind. unfold get_slot at 1. apply wlp_bind, wlp_deref. intros x3 Hx3.
    destruct (s_slots x3 !! _) as [sl3|]; [|done]. apply wlp_ret, wlp_bind, wlp_deref. intros x4 Hx4.
    apply wlp_bind, wlp_frames; [apply frames_get_chan|]. intros chan w3 S3. apply wlp_bind. intros u4 w4 Hset2. destruct u4. apply wlp_ret.
    split_and!; [done|done|]. by exists w1, w2, w3.
  - destruct (slot_sequence slot =? sa_sequenceid arg);
      (apply wlp_bind, wlp_frames; [apply frames_dec_session|]; intros u w' HS; apply wlp_ret; split; [by etrans|done]).
Qed.
End slot.

Section once.
Context {FS D : Type} {env : ClientEnv} {cenv : CompoundEnv FS D} {laws : CompoundLaws FS D}.
Implicit Types (w : cworld) (g : cworld * FS) (cs : cstate) (d : D).

Lemma wlp_on_clients {A} (m : M cworld A) (Q : A -> cworld * FS -> Prop) g :
  wlp m (fun a w => Q a (w, g.2)) g.1 -> wlp (on_clients m) Q g.
Proof. intros Hm a g'. unfold on_clients. destruct (m g.1) as [b w| | |] eqn:E; try done. intros [= <- <-]. by apply Hm. Qed.

Lemma wlp_clients_steady {A} (m : M cworld A) (Q : A -> cworld * FS -> Prop) g :
  frames m -> (forall a w, steady g.1 w -> Q a (w, g.2)) -> wlp (on_clients m) Q g.
Proof. intros Hm HQ. by apply wlp_on_clients, wlp_frames. Qed.

(** The reply of the compound does not go to slot [k] of the session at [s]. *)
Definition avoids (s : loc) (k : nat) cs : Prop := use_drc cs = true \/ cached_res cs <> Some (in_session s k).

(** What an operation other than a SEQUENCE at the start leaves of the state of a compound. *)
Definition op_keeps (op : nfs_argop4) cs cs' : Prop :=
  if creates_session op then forall s k, cached_res cs <> Some (in_session s k) -> avoids s k cs' else cs' = cs.

Lemma op_keeps_avoids op s k cs cs' : op_keeps op cs cs' -> cached_res cs <> Some (in_session s k) -> avoids s k cs'.
Proof. unfold op_keeps. destruct (creates_session op); [auto|intros ->; by right]. Qed.

Lemma wlp_call_op op data cs d g :
  (forall arg, op = opsequence arg -> oppos data <> 0) ->
  wlp (call_op op data cs d) (fun r g' => steady g.1 g'.1 /\ op_keeps op cs r.1.2) g.
Proof.
  intros Hseq. destruct op as [k|arg|k v|arg|arg|k|arg|k|n args]; cbn [call_op].
  - apply wlp_bind, wlp_clients_steady; [apply frames_renew|]. intros st w' HS. by apply wlp_ret.
  - apply wlp_bind, wlp_clients_steady; [apply frames_setclientid|]. intros st w' HS. by apply wlp_ret.
  - apply wlp_bind, wlp_gets, wlp_bind, wlp_clients_steady; [apply frames_setclientid_confirm|]. intros st w' HS. by apply wlp_ret.
  - apply wlp_bind, wlp_clients_steady; [apply frames_exchange_id|]. intros st w' HS. by apply wlp_ret.
  - apply wlp_bind, wlp_clients_steady; [apply frames_create_session|]. intros [res kb] w' HS. apply wlp_ret. split; [done|].
    intros s k HA. unfold avoids in *. simpl. right. by destruct kb.
  - apply wlp_bind, wlp_clients_steady; [apply frames_destroy_session|]. intros st w' HS. by apply wlp_ret.
  - apply wlp_bind, wlp_gets, wlp_bind, wlp_on_clients. unfold nfs4_op_sequence. rewrite (proj2 (Z.eqb_neq _ _) (Hseq arg eq_refl)).
    destruct (_ =? 0); by apply wlp_ret, wlp_ret.
  - apply wlp_bind, wlp_clients_steady; [apply frames_destroy_clientid|]. intros st w' HS. by apply wlp_ret.
  - apply wlp_bind. intros [[st body] d'] g' Hrun. apply wlp_ret. split; [by apply (other_steady n args data (cd_session cs) d g (st, body, d'))|done].
Qed.

Lemma op_keeps_refl op cs : op_keeps op cs cs.
Proof. unfold op_keeps. destruct (creates_session op); [|done]. intros s k H. by right. Qed.

Lemma wlp_run_op op opcode data cs d g :
  (forall arg, op = opsequence arg -> oppos data <> 0) ->
  wlp (run_op op opcode data cs d) (fun r g' => steady g.1 g'.1 /\ op_keeps op cs r.1.2) g.
Proof.
  intros Hseq. pose proof (op_keeps_refl op cs). unfold run_op. destruct (optabv4 !! _) as [desc|]; [|done].
  destruct (decide _); [by apply wlp_ret|]. destruct (funct desc); [by apply wlp_ret..|].
  apply wlp_bind. eapply wlp_mono; [|by apply wlp_call_op]. intros [[[st body] cs'] d'] g' HP. by apply wlp_ret.
Qed.

Lemma wlp_too_many minor i cs (Q : bool -> cworld * FS -> Prop) g : (forall b, Q b g) -> wlp (too_many_ops minor i cs) Q g.
Proof.
  intros HQ. unfold too_many_ops. destruct (cd_session cs) as [s|]; [|by apply wlp_ret]. destruct (minor =? 0); [by apply wlp_ret|].
  apply wlp_bind, wlp_on_clients, wlp_deref. intros x _. apply wlp_ret. destruct g. apply HQ.
Qed.

Lemma wlp_read_cache p (Q : compound_res -> cworld -> Prop) w :
  (forall res, match p with in_session s k => forall sid sl, slot_is sid s k sl w -> res = cached_result (slot_cached sl) | in_client _ => True end -> Q res w) ->
  wlp (read_cache p) Q w.
Proof.
  intros HQ. destruct p as [s k|a]; cbn [read_cache].
  - unfold get_slot. apply wlp_bind, wlp_bind, wlp_deref. intros x Hx. destruct (s_slots x !! k) as [sl|] eqn:Hk; [|done]. apply wlp_ret, wlp_ret, HQ.
    intros sid sl' [_ HX]. destruct (HX x Hx) as [_ Hk']. congruence.
  - apply wlp_bind, wlp_deref. intros c Hc. by apply wlp_ret, HQ.
Qed.

(** The operations after the first. *)
Lemma wlp_loop arg cred ops : forall i res cs d g,
  0 < i -> use_drc cs = false ->
  wlp (compound_loop arg cred i ops res cs d) (fun r g' => steady g.1 g'.1 /\
    (forall s k, cached_res cs <> Some (in_session s k) -> avoids s k r.1.2) /\
    (Forall (fun op => creates_session op = false) ops -> r.1.2 = cs)) g.
Proof.
  induction ops as [|op ops IH]; intros i res cs d g Hi Hu; cbn [compound_loop].
  { apply wlp_ret. split_and!; [done|by right|done]. }
  apply wlp_bind, wlp_too_many. intros b. apply wlp_bind.
  destruct b; [apply wlp_ret, wlp_ret; split_and!; [done|by right|done]|].
  eapply wlp_mono; [|apply wlp_run_op; simpl; lia]. intros [[r cs'] d'] g' [HS HK]. simpl in HK.
  assert (Hav : forall s k, cached_res cs <> Some (in_session s k) -> avoids s k cs') by (intros s k Ha; by apply (op_keeps_avoids op s k cs cs')).
  assert (Heq : creates_session op = false -> cs' = cs) by (intros Hc; unfold op_keeps in HK; by rewrite Hc in HK).
  destruct (decide _); [apply wlp_ret; split_and!; [done|done|]; by intros [Hc _]%Forall_cons; apply Heq|]. destruct (use_drc cs') eqn:Hu'.
  - destruct (cached_res cs') as [p|] eqn:Hp; [|done]. apply wlp_bind, wlp_on_clients, wlp_read_cache. intros cached _. apply wlp_ret.
    split_and!; [done|done|]; by intros [Hc _]%Forall_cons; apply Heq.
  - eapply wlp_mono; [|apply IH; [lia|done]]. intros r' g'' (HS' & Ha & He). split_and!; [by etrans| |].
    + intros s k Hc. apply Ha. destruct (Hav s k Hc); [congruence|done].
    + intros [Hc Hf]%Forall_cons. rewrite He by done. by apply Heq.
Qed.

(** ** The end of a compound *)

Lemma wlp_save_reply res cs sid s k sl g :
  slot_is sid s k sl g.1 ->
  wlp (save_reply res cs) (fun r g' => res_ops r = res_ops res /\
    (use_drc cs = true -> r = res /\ g' = g) /\ (avoids s k cs -> slot_is sid s k sl g'.1) /\
    (use_drc cs = false -> cached_res cs = Some (in_session s k) ->
       slot_is sid s k (mk_slot (slot_sequence sl) (mk_slot_cache r (cache_used (slot_cached sl)))) g'.1)) g.
Proof.
  intros Hsl. unfold save_reply. destruct (cached_res cs) as [p|] eqn:Hp; [|by apply wlp_ret].
  destruct (use_drc cs) eqn:Hu; [by apply wlp_ret|]. cbv zeta. set (r := mk_compound_res _ _ _ true). apply wlp_bind, wlp_on_clients.
  destruct p as [s' k'|a]; cbn [write_cache].
  - intros u w' Hset. apply wlp_ret. pose proof (slot_is_set _ _ _ _ _ _ _ _ _ _ Hset Hsl) as Hw. split_and!; [done|done| |].
    + intros [Hav|Hav]; [congruence|]. rewrite decide_False in Hw; [done|]. intros [-> ->]. congruence.
    + intros _ [= -> ->]. by rewrite decide_True in Hw.
  - unfold set_cid, get_cid. apply wlp_bind, wlp_deref. intros c Hc. apply wlp_modify, wlp_ret. split_and!; [done|done|done|]. intros _ [=].
Qed.

Lemma wlp_free cs d g : wlp (compound_data_Free cs d) (fun _ g' => steady g.1 g'.1) g.
Proof.
  unfold compound_data_Free. apply wlp_bind. assert (Hf : forall g0 : cworld * FS, steady g.1 g0.1 -> wlp (data_free d) (fun _ g' => steady g.1 g'.1) g0).
  { intros g0 HS u g' Hrun. etrans; [done|]. by apply (free_steady d g0 u). }
  destruct (cd_session cs); [|by apply wlp_ret, Hf]. apply wlp_clients_steady; [apply frames_dec_session|]. intros u w HS. by apply Hf.
Qed.

Lemma wlp_compound_end res cs d sid s k sl g :
  slot_is sid s k sl g.1 ->
  wlp (compound_end res cs d) (fun r g' => (avoids s k cs -> slot_is sid s k sl g'.1) /\
    (use_drc cs = false -> cached_res cs = Some (in_session s k) ->
       slot_is sid s k (mk_slot (slot_sequence sl) (mk_slot_cache r (cache_used (slot_cached sl)))) g'.1)) g.
Proof.
  intros Hsl. unfold compound_end. apply wlp_bind. eapply wlp_mono; [|by apply (wlp_save_reply res cs sid s k sl)]. intros r g1 (_ & _ & H1 & H2). apply wlp_bind.
  assert (Hrest : forall g0 : cworld * FS, steady g1.1 g0.1 -> wlp (compound_data_Free cs d;; mret r) (fun r g' => (avoids s k cs -> slot_is sid s k sl g'.1) /\
    (use_drc cs = false -> cached_res cs = Some (in_session s k) ->
       slot_is sid s k (mk_slot (slot_sequence sl) (mk_slot_cache r (cache_used (slot_cached sl)))) g'.1)) g0).
  { intros g0 HS0. apply wlp_bind. eapply wlp_mono; [|apply wlp_free]. intros u g2 HS2. apply wlp_ret. assert (HS : steady g1.1 g2.1) by (by etrans).
    split; [intros Ha|intros Hu Hc]; apply (slot_is_steady _ _ _ _ g1.1); auto. }
  destruct (preserved_clientid cs); [|by apply wlp_ret, Hrest]. apply wlp_clients_steady; [apply frames_update_lease|]. intros u w HS. by apply Hrest.
Qed.

(** A retry: only what the compound began with is released. *)
Lemma wlp_end_replay res cs d g :
  use_drc cs = true -> cd_session cs = None ->
  wlp (compound_end res cs d) (fun r g' => r = res /\ exists w w', data_free d (w, g.2) = Ret tt (w', g'.2)) g.
Proof.
  intros Hu Hs. unfold compound_end, save_reply. rewrite Hu. apply wlp_bind.
  assert (Hrest : forall w, wlp (match preserved_clientid cs with Some p => on_clients (update_lease p) | None => mret tt end;; compound_data_Free cs d;; mret res)
            (fun r g' => r = res /\ exists w w', data_free d (w, g.2) = Ret tt (w', g'.2)) (w, g.2)).
  { intros w. apply wlp_bind. unfold compound_data_Free. rewrite Hs.
    assert (Hfree : forall w, wlp ((mret tt;; data_free d);; mret res) (fun r g' => r = res /\ exists w w', data_free d (w, g.2) = Ret tt (w', g'.2)) (w, g.2)).
    { clear w. intros w. apply wlp_bind, wlp_bind, wlp_ret. intros [] [w' fs'] Hrun. apply wlp_ret. split; [done|]. by exists w, w'. }
    destruct (preserved_clientid cs); [|by apply wlp_ret, Hfree]. apply wlp_on_clients. intros u w' _. apply Hfree. }
  destruct g as [w fs]. destruct (cached_res cs); apply wlp_ret, Hrest.
Qed.

(** ** The start of a compound *)

Lemma wlp_choose (Q : bool -> cworld * FS -> Prop) g :
  (forall b bs, Q b (upd_cw_choices (fun _ => bs) g.1, g.2)) -> wlp (on_clients cchoose) Q g.
Proof.
  intros HQ. apply wlp_on_clients. intros b w. unfold cchoose. destruct (cw_choices g.1) eqn:E; intros [= <- <-]; [|apply HQ].
  replace g.1 with (upd_cw_choices (fun _ => []) g.1) by (destruct (g.1); simpl in *; by rewrite E). apply HQ.
Qed.

(** Only the outcome of allocations is used up. *)
Definition begins g g' : Prop := exists bs, g' = (upd_cw_choices (fun _ => bs) g.1, g.2).

Lemma begins_refl g : begins g g.
Proof. exists (cw_choices g.1). by destruct g as [[] fs]. Qed.
Lemma begins_trans g1 g2 g3 : begins g1 g2 -> begins g2 g3 -> begins g1 g3.
Proof. intros [bs ->] [bs' ->]. by exists bs'. Qed.

Lemma wlp_start (arg : compound_args D) g : wlp (compound_start arg) (fun _ g' => begins g g') g.
Proof.
  pose proof (begins_refl g) as HB. unfold compound_start. destruct (2 <? _); [by apply wlp_ret|]. apply wlp_bind.
  assert (Had : forall tag g1, begins g g1 -> wlp (compound_admit arg tag) (fun _ g' => begins g g') g1).
  { intros tag g1 HB1. unfold compound_admit. destruct tag; [|by apply wlp_ret]. destruct (decide _); [by apply wlp_ret|].
    destruct (_ =? 0); [by apply wlp_ret|]. destruct (100 <? _); [by apply wlp_ret|]. destruct (arg_cred arg); [|by apply wlp_ret].
    apply wlp_bind, wlp_choose. intros ok bs. assert (begins g (upd_cw_choices (fun _ => bs) g1.1, g1.2)) by (apply (begins_trans _ g1); [done|by exists bs]).
    destruct ok; cbn [negb]; [|by apply wlp_ret]. cbv zeta. destruct (decide _); by apply wlp_ret. }
  unfold check_tag. destruct (_ =? 0); [by apply wlp_ret, Had|]. apply wlp_bind, wlp_choose. intros ok bs. destruct ok; cbn [negb]; [|apply wlp_ret, Had; by exists bs].
  apply wlp_bind, wlp_choose. intros mem bs'. destruct (nfs4_utf8string2dynamic (Some (arg_tag arg)) UTF8_SCAN_ALL mem) as [[|]|]; [| |done]; apply wlp_ret, Had; by exists bs'.
Qed.

Lemma begins_ok g g' : begins g g' -> server_ok g -> server_ok g'.
Proof. intros [bs ->] [[B HI] HK]. split; [|done]. exists B. by apply (cinv_same _ _ _ _ g.1). Qed.
Lemma begins_slot g g' sid s k sl : begins g g' -> slot_is sid s k sl g.1 -> slot_is sid s k sl g'.1.
Proof. by intros [bs ->]. Qed.

(** ** SEQUENCE, seen from a slot *)

(** A session that can be found, with its client and its slots. *)
Lemma found_session w id s :
  store_held [] w -> slots_ok w -> ht_session_id w !! id = Some s ->
  exists x c, cw_sessions w !! s = Some x /\ session_id x = id /\ (s < cw_next w)%positive /\ cw_ids w !! clientid_record x = Some c /\
    ca_maxrequests x = Z.of_nat NFS41_NB_SLOTS /\ length (s_slots x) = NFS41_NB_SLOTS.
Proof.
  intros [B HI] HK Hk. destruct (so_hts _ _ _ _ (ci_sessions _ _ _ _ _ HI) id s Hk) as (x & Hx & Hid). destruct (session_client _ _ _ _ _ s x HI Hx) as (c & Hc & _).
  apply live_Some in Hx as [Hx _]. destruct (HK s x Hx). exists x, c. split_and!; try done. apply (ad_sessions w (ci_addresses _ _ _ _ _ HI)). by eexists.
Qed.

(** The request is not the next on slot [k] of the session [sid]. *)
Definition not_next (sid : Z * Z) (k : nat) (sl : nfs41_session_slot_t) (ops : list nfs_argop4) : Prop :=
  match ops with
  | opsequence a :: _ => ~ (sa_sessionid a = sid /\ Z.to_nat (sa_slotid a) = k /\ sa_sequenceid a = u32 (slot_sequence sl + 1))
  | _ => True
  end.

Lemma wlp_sequence_other arg data grace up sid s k sl w :
  store_held [] w -> slots_ok w -> slot_is sid s k sl w -> oppos data = 0 ->
  ~ (sa_sessionid arg = sid /\ Z.to_nat (sa_slotid arg) = k /\ sa_sequenceid arg = u32 (slot_sequence sl + 1)) ->
  wlp (nfs4_op_sequence arg data zero_cstate grace up) (fun res w' => slot_is sid s k sl w' /\ avoids s k res.2) w.
Proof.
  intros HH HK Hsl Hp Hno. destruct (Z.eq_dec (minorversion data) 0) as [Hm|Hm].
  { unfold nfs4_op_sequence. rewrite (proj2 (Z.eqb_eq _ _) Hm). apply wlp_ret. split; [done|by right]. }
  destruct (ht_session_id w !! sa_sessionid arg) as [s'|] eqn:Hk.
  2: { unfold nfs4_op_sequence, nfs41_Session_Get_Pointer. rewrite (proj2 (Z.eqb_neq _ _) Hm), (proj2 (Z.eqb_eq _ _) Hp). cbn [negb].
       apply wlp_bind, wlp_bind, wlp_gets. rewrite Hk. apply wlp_ret. destruct grace; apply wlp_ret; (split; [done|by right]). }
  destruct (found_session w _ s' HH HK Hk) as (x & c & Hx & Hid & Hlt & Hc & Hmax & Hlen). set (k' := Z.to_nat (sa_slotid arg)) in *.
  assert (exists slot, sa_slotid arg < ca_maxrequests x -> s_slots x !! k' = Some slot) as [slot Hslot].
  { destruct (s_slots x !! k') as [slot|] eqn:E; [by exists slot|]. exists zero_slot. intros Hlt'. apply lookup_ge_None in E. unfold k', NFS41_NB_SLOTS in *. lia. }
  assert (Hne : sa_slotid arg < ca_maxrequests x -> u32 (slot_sequence slot + 1) = sa_sequenceid arg -> ~ (s' = s /\ k' = k)).
  { intros Hl Hn [-> Hkk]. destruct Hsl as [_ HX]. destruct (HX x Hx) as [Hsid Hs]. rewrite <- Hkk, (Hslot Hl) in Hs. injection Hs as ->. apply Hno. by split_and!; [congruence| |]. }
  eapply wlp_mono; [|by apply (wlp_sequence_cases arg data grace up s' x c slot)]. intros res w' Hcase. unfold sequence_cases in Hcase. cbv zeta in Hcase. fold k' in Hcase.
  destruct (negb (lease_valid c w)); [destruct Hcase as [HS ->]; split; [by apply (slot_is_steady _ _ _ _ w)|by right]|].
  destruct (Z.leb_spec (ca_maxrequests x) (sa_slotid arg)); [destruct Hcase as [HS ->]; split; [by apply (slot_is_steady _ _ _ _ w)|by right]|].
  destruct (Z.eqb_spec (u32 (slot_sequence slot + 1)) (sa_sequenceid arg)) as [Hn|Hn]; cbn [negb] in Hcase.
  - destruct Hcase as (_ & -> & w1 & w2 & w3 & S1 & E2 & S3 & E4). specialize (Hne H Hn). apply (slot_is_steady _ _ _ _ _ _ S1) in Hsl.
    apply (slot_is_set _ _ _ _ _ _ _ _ _ _ E2) in Hsl. rewrite decide_False in Hsl by done. apply (slot_is_steady _ _ _ _ _ _ S3) in Hsl.
    apply (slot_is_set _ _ _ _ _ _ _ _ _ _ E4) in Hsl. rewrite decide_False in Hsl by done. split; [done|]. right. simpl. intros [= -> ->]. by apply Hne.
  - destruct Hcase as [HS ->]. split; [by apply (slot_is_steady _ _ _ _ w)|]. destruct (_ =? _); [by left|by right].
Qed.

(** ** A whole compound, seen from a slot *)

(** SEQUENCE has no permissions to check. *)
Lemma run_sequence a data cs d g :
  minorversion data <> 0 ->
  run_op (opsequence a) (opcode_of (minorversion data) NFS4_OP_SEQUENCE) data cs d g =
    ('(res, cs, d) ← call_op (opsequence a) data cs d; mret (mk_nfs_resop NFS4_OP_SEQUENCE res.1 res.2, cs, d)) g.
Proof.
  intros Hm. unfold run_op, opcode_of. rewrite (proj2 (Z.eqb_neq _ _) Hm). change (NFS4_OP_IO_ADVISE <? NFS4_OP_SEQUENCE) with false. cbv iota.
  change (optabv4 !! Z.to_nat NFS4_OP_SEQUENCE) with (Some unchecked). cbn [unchecked exp_perm_flags funct].
  change (Z.land 0 EXPORT_OPTION_ACCESS_TYPE) with 0. unfold check_perms. change (0 =? 0) with true. cbv iota zeta. rewrite decide_False by (intros H; by apply H).
  unfold mbind, M_bind. destruct (call_op _ _ _ _ _) as [[[[st body] cs'] d'] g'| | |]; done.
Qed.

Lemma wlp_compound_other (arg : compound_args D) sid s k sl g :
  server_ok g -> slot_is sid s k sl g.1 -> not_next sid k sl (arg_ops arg) ->
  wlp (nfs4_Compound arg) (fun _ g' => slot_is sid s k sl g'.1) g.
Proof.
  intros HG Hsl Hno. unfold nfs4_Compound. apply wlp_bind. eapply wlp_mono; [|apply wlp_start]. intros start g0 HB0.
  apply (begins_ok g g0 HB0) in HG as [HH HK]. apply (begins_slot g g0 _ _ _ _ HB0) in Hsl. clear HB0. destruct start as [ans|cred]; [by apply wlp_ret|]. apply wlp_bind.
  assert (Hloop : wlp (compound_loop arg cred 0 (arg_ops arg) [] zero_cstate (arg_data arg)) (fun r g' => slot_is sid s k sl g'.1 /\ avoids s k r.1.2) g0).
  { destruct (arg_ops arg) as [|op ops]; cbn [compound_loop]; [apply wlp_ret; split; [done|by right]|]. apply wlp_bind, wlp_too_many. intros many. apply wlp_bind.
    assert (Hop : wlp (if (many : bool) then mret (mk_nfs_resop (argop op) NFS4ERR_TOO_MANY_OPS [], zero_cstate, arg_data arg)
                       else run_op op (opcode_of (arg_minor arg) (argop op)) (mk_data (arg_minor arg) cred (arg_xprt arg) (arg_server arg) 0) zero_cstate (arg_data arg))
                      (fun r g' => slot_is sid s k sl g'.1 /\ avoids s k r.1.2) g0).
    { destruct many; [apply wlp_ret; split; [done|by right]|]. set (data := mk_data _ _ _ _ _).
      destruct (match op with opsequence _ => true | _ => false end) eqn:Hs.
      - destruct op; try done. destruct (Z.eq_dec (arg_minor arg) 0) as [Hm|Hm].
        + rewrite Hm. apply wlp_ret. split; [done|by right].
        + intros r g' Hrun. change (arg_minor arg) with (minorversion data) in Hrun, Hm. change (argop (opsequence arg0)) with NFS4_OP_SEQUENCE in Hrun.
          rewrite run_sequence in Hrun by done. revert r g' Hrun. apply wlp_bind. cbn [call_op]. apply wlp_bind, wlp_gets, wlp_bind, wlp_on_clients.
          eapply wlp_mono; [|by apply (wlp_sequence_other arg0 data _ _ sid s k sl)]. intros [res cs'] w' HP. by apply wlp_ret, wlp_ret.
      - eapply wlp_mono; [|apply wlp_run_op; by intros a ->]. intros r g' [HS HKp]. split; [by apply (slot_is_steady _ _ _ _ g0.1)|]. by apply (op_keeps_avoids op s k zero_cstate). }
    eapply wlp_mono; [|exact Hop]. intros [[r cs'] d'] g' [Hsl' Hav]. destruct (decide _); [by apply wlp_ret|]. destruct (use_drc cs') eqn:Hu.
    - destruct (cached_res cs') as [p|]; [|done]. apply wlp_bind, wlp_on_clients, wlp_read_cache. intros cached _. by apply wlp_ret.
    - eapply wlp_mono; [|apply wlp_loop; [lia|done]]. intros r' g'' (HS & Ha & _). split; [by apply (slot_is_steady _ _ _ _ g'.1)|].
      apply Ha. destruct Hav as [Hav|Hav]; [simpl in Hav; congruence|done]. }
  eapply wlp_mono; [|exact Hloop]. intros [[res cs] d] g1 [Hsl1 Hav]. apply wlp_bind. eapply wlp_mono; [|by apply (wlp_compound_end res cs d sid s k sl)].
  intros r g2 [H1 _]. apply wlp_ret. by apply H1.
Qed.

(** ** The request on a slot, and its retry *)

(** The session of a SEQUENCE is there, at [s], with the slot, and the lease of its client is valid. *)
Definition session_ready (a : SEQUENCE4args) (s : loc) w : Prop :=
  ht_session_id w !! sa_sessionid a = Some s /\ sa_slotid a < Z.of_nat NFS41_NB_SLOTS /\
  exists x c, cw_sessions w !! s = Some x /\ cw_ids w !! clientid_record x = Some c /\ lease_valid c w = true.

Lemma wlp_first_sequence (arg : compound_args D) cred a ops d (Q : compound_res * cstate * D -> cworld * FS -> Prop) sid s sl g :
  arg_minor arg <> 0 -> server_ok g -> session_ready a s g.1 -> slot_is sid s (Z.to_nat (sa_slotid a)) sl g.1 ->
  (forall x c res w', sequence_cases a s x c sl g.1 res w' -> lease_valid c g.1 = true -> ca_maxrequests x = Z.of_nat NFS41_NB_SLOTS ->
     wlp (let r := mk_nfs_resop NFS4_OP_SEQUENCE res.1.1 res.1.2 in
          if decide (nr_status r <> NFS4_OK) then mret (mk_compound_res (nr_status r) (arg_tag arg) ([] ++ [r]) false, res.2, d)
          else if use_drc res.2 then
            match cached_res res.2 with
            | Some p => cached ← on_clients (read_cache p); mret (cached, res.2, d)
            | None => undef
            end
          else compound_loop arg cred (0 + 1) ops ([] ++ [r]) res.2 d) Q (w', g.2)) ->
  wlp (compound_loop arg cred 0 (opsequence a :: ops) [] zero_cstate d) Q g.
Proof.
  intros Hm [HH HK] (Hht & Hlt & x & c & Hx & Hc & Hlease) [_ HX] HQ. cbn [compound_loop]. apply wlp_bind. apply wlp_ret. apply wlp_bind.
  set (data := mk_data _ _ _ _ _). intros r g' Hrun. change (arg_minor arg) with (minorversion data) in Hrun. change (argop (opsequence a)) with NFS4_OP_SEQUENCE in Hrun.
  rewrite run_sequence in Hrun by done. revert r g' Hrun. apply wlp_bind. cbn [call_op]. apply wlp_bind, wlp_gets, wlp_bind, wlp_on_clients.
  destruct (found_session g.1 _ s HH HK Hht) as (x' & c' & Hx' & _ & Hnext & _ & Hmax & _). assert (x' = x) as -> by congruence. destruct (HX x Hx) as [_ Hsl].
  eapply wlp_mono; [|apply (wlp_sequence_cases a data _ _ s x c sl); try done]. intros [[st body] cs'] w' Hcase. apply wlp_ret, wlp_ret.
  by apply (HQ x c (st, body, cs') w' Hcase).
Qed.

(** The next request on a slot leaves its reply there. *)
Lemma wlp_compound_first (arg : compound_args D) cred a ops sid s sl g g0 :
  arg_ops arg = opsequence a :: ops -> Forall (fun op => creates_session op = false) ops -> arg_minor arg <> 0 ->
  compound_start arg g = Ret (inr cred) g0 -> server_ok g -> session_ready a s g.1 -> slot_is sid s (Z.to_nat (sa_slotid a)) sl g.1 ->
  u32 (slot_sequence sl + 1) = sa_sequenceid a ->
  wlp (nfs4_Compound arg) (fun r g' => exists r0, r = Some r0 /\
    slot_is sid s (Z.to_nat (sa_slotid a)) (mk_slot (sa_sequenceid a) (mk_slot_cache r0 true)) g'.1) g.
Proof.
  intros Hops Hcr Hm Hst HG Hrd Hsl Hnum. unfold nfs4_Compound. apply wlp_bind. intros st g0' Hst'. assert (st = inr cred /\ g0' = g0) as [-> ->] by (split; congruence).
  assert (HB0 : begins g g0) by (by apply (wlp_start arg g (inr cred))). apply (begins_ok g g0 HB0) in HG. apply (begins_slot g g0 _ _ _ _ HB0) in Hsl.
  assert (Hrd0 : session_ready a s g0.1) by (by destruct HB0 as [bs ->]). clear HB0 Hrd Hst Hst'. set (k := Z.to_nat (sa_slotid a)) in *. rewrite Hops. apply wlp_bind.
  apply (wlp_first_sequence arg cred a ops _ _ sid s sl); [done..|]. intros x c res w' Hcase Hlease Hmax. unfold sequence_cases in Hcase. cbv zeta in Hcase. fold k in Hcase.
  rewrite Hlease, Hmax, Hnum, Z.eqb_refl in Hcase. destruct Hrd0 as (_ & Hlt & _). rewrite (proj2 (Z.leb_gt _ _) Hlt) in Hcase. cbn [negb] in Hcase.
  destruct Hcase as (Hok & Hcs & w1 & w2 & w3 & S1 & E2 & S3 & E4). apply (slot_is_steady _ _ _ _ _ _ S1) in Hsl.
  apply (slot_is_set _ _ _ _ _ _ _ _ _ _ E2) in Hsl. rewrite decide_True in Hsl by done. apply (slot_is_steady _ _ _ _ _ _ S3) in Hsl.
  apply (slot_is_set _ _ _ _ _ _ _ _ _ _ E4) in Hsl. rewrite decide_True in Hsl by done. cbv zeta. cbn [nr_status]. rewrite Hok, Hcs.
  rewrite decide_False by (intros H; by apply H). cbn [use_drc]. eapply wlp_mono; [|apply wlp_loop; [lia|done]]. intros [[r' cs'] d'] g1 (HS & _ & Heq). simpl in Heq.
  rewrite (Heq Hcr). apply (slot_is_steady _ _ _ _ _ _ HS) in Hsl. apply wlp_bind. eapply wlp_mono; [|by apply (wlp_compound_end r' _ d' sid s k)].
  intros r0 g2 [_ Hsave]. apply wlp_ret. exists r0. split; [done|]. specialize (Hsave eq_refl eq_refl). simpl in Hsave. by rewrite Hnum in Hsave.
Qed.

Lemma replay_case a s x c sl w res w' :
  sequence_cases a s x c sl w res w' -> lease_valid c w = true -> ca_maxrequests x = Z.of_nat NFS41_NB_SLOTS -> sa_slotid a < Z.of_nat NFS41_NB_SLOTS ->
  slot_sequence sl = sa_sequenceid a ->
  steady w w' /\ res = (NFS4_OK, [], mk_cstate None true (Some (in_session s (Z.to_nat (sa_slotid a)))) (Some (clientid_record x))).
Proof.
  intros Hcase Hlease Hmax Hlt Hnum. unfold sequence_cases in Hcase. cbv zeta in Hcase. rewrite Hlease, Hmax, Hnum, Z.eqb_refl, (proj2 (Z.leb_gt _ _) Hlt) in Hcase.
  assert (Hne : u32 (sa_sequenceid a + 1) <> sa_sequenceid a).
  { unfold u32. intros E. assert (0 <= sa_sequenceid a < 2 ^ 32) by (rewrite <- E; apply Z.mod_pos_bound; lia).
    destruct (Z.eq_dec (sa_sequenceid a) (2 ^ 32 - 1)) as [Emax|]; [by rewrite Emax in E|]. rewrite Z.mod_small in E; lia. }
  by rewrite (proj2 (Z.eqb_neq _ _) Hne) in Hcase.
Qed.

(** A retry gets what the slot has; the rest of its operations does not run. *)
Lemma wlp_compound_retry (arg : compound_args D) cred a ops sid s sl g g0 :
  arg_ops arg = opsequence a :: ops -> arg_minor arg <> 0 -> compound_start arg g = Ret (inr cred) g0 -> server_ok g -> session_ready a s g.1 ->
  slot_is sid s (Z.to_nat (sa_slotid a)) sl g.1 -> slot_sequence sl = sa_sequenceid a ->
  wlp (nfs4_Compound arg) (fun r g' => r = Some (cached_result (slot_cached sl)) /\
    exists w w', data_free (arg_data arg) (w, g.2) = Ret tt (w', g'.2)) g.
Proof.
  intros Hops Hm Hst HG Hrd Hsl Hnum. unfold nfs4_Compound. apply wlp_bind. intros st g0' Hst'. assert (st = inr cred /\ g0' = g0) as [-> ->] by (split; congruence).
  assert (HB0 : begins g g0) by (by apply (wlp_start arg g (inr cred))). apply (begins_ok g g0 HB0) in HG. apply (begins_slot g g0 _ _ _ _ HB0) in Hsl.
  assert (Hrd0 : session_ready a s g0.1) by (by destruct HB0 as [bs ->]). assert (Hfs : g0.2 = g.2) by (by destruct HB0 as [bs ->]). clear HB0 Hrd Hst Hst'. rewrite <- Hfs.
  rewrite Hops. apply wlp_bind. apply (wlp_first_sequence arg cred a ops _ _ sid s sl); [done..|]. intros x c res w' Hcase Hlease Hmax.
  destruct (replay_case _ _ _ _ _ _ _ _ Hcase Hlease Hmax (proj1 (proj2 Hrd0)) Hnum) as [HS ->]. cbv zeta. cbn [nr_status fst snd]. rewrite decide_False by (intros H; by apply H).
  cbn [use_drc cached_res]. apply wlp_bind, wlp_on_clients, wlp_read_cache. intros cached Hread. apply wlp_ret.
  rewrite (Hread sid sl (slot_is_steady _ _ _ _ _ _ HS Hsl)). apply wlp_bind. eapply wlp_mono; [|by apply wlp_end_replay].
  intros r g2 [-> Hfree]. by apply wlp_ret.
Qed.

(** A retry can come. *)
Lemma retry_fits (arg : compound_args D) a ops sid s sl g :
  arg_ops arg = opsequence a :: ops -> arg_minor arg <> 0 -> Forall (fun c => 0 <= c < 256) (arg_tag arg) -> server_ok g -> session_ready a s g.1 ->
  slot_is sid s (Z.to_nat (sa_slotid a)) sl g.1 -> slot_sequence sl = sa_sequenceid a -> compound_fits arg g.
Proof.
  intros Hops Hm Htag HG Hrd Hsl Hnum. split; [done|]. intros cred g0 Hst. assert (HB0 : begins g g0) by (by apply (wlp_start arg g (inr cred))).
  apply (begins_ok g g0 HB0) in HG as [HH HK]. apply (begins_slot g g0 _ _ _ _ HB0) in Hsl. assert (session_ready a s g0.1) as (Hht & Hlt & x & c & Hx & Hc & Hlease) by (by destruct HB0 as [bs ->]).
  clear HB0 Hrd Hst. rewrite Hops. cbn [ops_fit]. split_and!; [done|done|]. intros r cs' d' g' Hrun Hok Hu. exfalso. revert Hu.
  set (data := data_at arg cred 0) in Hrun. change (arg_minor arg) with (minorversion data) in Hrun. change (argop (opsequence a)) with NFS4_OP_SEQUENCE in Hrun.
  rewrite run_sequence in Hrun by done. destruct (found_session g0.1 _ s HH HK Hht) as (x' & c' & Hx' & _ & Hnext & _ & Hmax & _). assert (x' = x) as -> by congruence.
  destruct Hsl as [_ HX]. destruct (HX x Hx) as [_ Hslot].
  assert (Hw : wlp ('(res, cs, d) ← call_op (opsequence a) data zero_cstate (arg_data arg); mret (mk_nfs_resop NFS4_OP_SEQUENCE res.1 res.2, cs, d)) (fun r _ => use_drc r.1.2 = true) g0).
  { apply wlp_bind. cbn [call_op]. apply wlp_bind, wlp_gets, wlp_bind, wlp_on_clients. eapply wlp_mono; [|apply (wlp_sequence_cases a data _ _ s x c sl); try done].
    intros [[st body] cs''] w' Hcase. apply wlp_ret, wlp_ret. by destruct (replay_case _ _ _ _ _ _ _ _ Hcase Hlease Hmax Hlt Hnum) as [_ [= _ _ ->]]. }
  pose proof (Hw _ _ Hrun) as Hw'. simpl in Hw'. congruence.
Qed.
End once.
