(* ===== verification/CompoundServer.v ===== *)
(** The theorems on compounds: what a server that runs compounds promises, for any operations
    on files; and concrete runs. *)

From S2P Require Import Prelude Status World Owner Utf8 Client ClientInv ClientStep ClientEnter ClientOps ClientFrame ClientSpec ClientConfirm ClientLease ClientSession ClientServer Compound CompoundSafe CompoundOnce.

(** * The type of a reply *)

(** All results of a reply but the last are without error, and its status is that of the last. *)
Definition well_shaped (res : compound_res) : Prop :=
  forall i r, res_ops res !! i = Some r -> nr_status r = if (S i <? length (res_ops res))%nat then NFS4_OK else res_status res.

(** So are all replies that are kept. *)
Definition replies_typed (w : cworld) : Prop :=
  (forall s x sl, cw_sessions w !! s = Some x -> sl ∈ s_slots x -> well_shaped (cached_result (slot_cached sl))) /\
  (forall a c, cw_ids w !! a = Some c -> well_shaped (kept_reply c)).

Lemma zero_shaped : well_shaped zero_res.
Proof. by intros i r H. Qed.

(** The reply of a loop that ends with the result [r]. *)
Lemma shaped_stop tag res r cached :
  Forall (fun r => nr_status r = NFS4_OK) res -> well_shaped (mk_compound_res (nr_status r) tag (res ++ [r]) cached).
Proof.
  intros Hok i r'. simpl. rewrite length_app. simpl. intros [Hi|[Hlen Hi]]%lookup_app_Some.
  - pose proof (lookup_lt_Some _ _ _ Hi). assert ((S i <? length res + 1)%nat = true) as -> by (apply Nat.ltb_lt; lia). by apply (Forall_lookup_1 _ _ i r' Hok).
  - apply list_lookup_singleton_Some in Hi as [Hi <-]. assert ((S i <? length res + 1)%nat = false) as -> by (apply Nat.ltb_ge; lia). done.
Qed.

Lemma shaped_done tag res cached : Forall (fun r => nr_status r = NFS4_OK) res -> well_shaped (mk_compound_res NFS4_OK tag res cached).
Proof. intros Hok i r Hi. simpl in *. rewrite (Forall_lookup_1 _ _ i r Hok Hi). by destruct (_ <? _)%nat. Qed.

Lemma typed_steady w w' : steady w w' -> replies_typed w -> replies_typed w'.
Proof.
  intros (_ & HS & HR) [T1 T2]. split.
  - intros s x sl Hx Hsl. destruct (HS s x Hx) as [(y & Hy & E)|[_ [E _]]].
    + unfold fixed in E. injection E as _ _ E _ _. apply (T1 s y); [done|by rewrite <- E].
    + rewrite E in Hsl. apply elem_of_replicate in Hsl as [-> _]. apply zero_shaped.
  - intros a c Hc. destruct (HR a c Hc) as [(d & Hd & E)|[_ E]]; rewrite E; [by apply (T2 a)|apply zero_shaped].
Qed.

Section typed.
Context {env : ClientEnv}.
Implicit Types (w : cworld).

(** Computations that keep the type of the replies. *)
Definition keeps_type {A} (m : M cworld A) : Prop := forall w a w', m w = Ret a w' -> replies_typed w -> replies_typed w'.

Lemma type_frames {A} (m : M cworld A) : frames m -> keeps_type m.
Proof. intros Hm w a w' Hrun. by apply typed_steady, (Hm w a). Qed.

Lemma type_bind {A C} (m : M cworld A) (k : A -> M cworld C) : keeps_type m -> (forall a, keeps_type (k a)) -> keeps_type (m ≫= k).
Proof. intros Hm Hk w c w'. unfold mbind, M_bind. destruct (m w) as [a w1| | |] eqn:E; try done. intros Hrun HT. apply (Hk a w1 c w' Hrun). by apply (Hm w a w1). Qed.

Lemma type_set_slot s k f :
  (forall sl, well_shaped (cached_result (slot_cached sl)) -> well_shaped (cached_result (slot_cached (f sl)))) -> keeps_type (set_slot s k f).
Proof.
  intros Hf w u w' Hrun [T1 T2]. unfold set_slot, get_slot, set_sess, get_sess, mbind, M_bind, deref, modify in Hrun.
  destruct (cw_sessions w !! s) as [x|] eqn:Hx; [|done]. destruct (s_slots x !! k) as [sl|] eqn:Hk; [|done]. simpl in Hrun. rewrite Hx in Hrun. injection Hrun as _ <-.
  split; [|done]. simpl. intros t y sl' [[<- <-]|[_ Hy]]%lookup_insert_Some Hin; [|by apply (T1 t y)]. simpl in Hin.
  apply list_elem_of_lookup in Hin as [j Hj]. rewrite list_lookup_insert_Some in Hj. destruct Hj as [(_ & <- & _)|[_ Hj]].
  - apply Hf, (T1 s x); [done|]. by eapply list_elem_of_lookup_2.
  - apply (T1 s x); [done|]. by eapply list_elem_of_lookup_2.
Qed.

Lemma type_sequence arg data cs grace up : keeps_type (nfs4_op_sequence arg data cs grace up).
Proof.
  assert (Hret : forall A (a : A), keeps_type (mret a)) by (intros; apply type_frames, frames_ret).
  assert (Hdec : forall s (r : op_result * cstate), keeps_type (dec_session_ref s;; mret r)) by (intros; apply type_bind; [apply type_frames, frames_dec_session|done]).
  assert (Hget : forall s, keeps_type (get_sess s)) by (intros; apply type_frames, frames_get_sess).
  assert (Hslot : forall s k, keeps_type (get_slot s k)) by (intros; apply type_frames; unfold get_slot; pose proof frames_get_sess; framing).
  unfold nfs4_op_sequence. destruct (_ =? 0); [done|]. destruct (negb _); [done|]. apply type_bind.
  { apply type_frames. unfold nfs41_Session_Get_Pointer, inc_session_ref.
    pose proof (fun s => frames_set_sess s (fun x => with_s_refcount (s_refcount x + 1) x) (fun x => eq_refl)). framing. }
  intros [s|]; [|by destruct grace]. apply type_bind; [done|]. intros x. apply type_bind; [apply type_frames, frames_reserve_lease|]. intros valid. destruct (negb _); [done|].
  unfold sequence_slot. apply type_bind; [done|]. intros x1. destruct (_ <=? _); [done|]. apply type_bind; [done|]. intros slot.
  destruct (negb _); [by destruct (_ =? _)|]. unfold sequence_new. apply type_bind; [by apply type_set_slot|]. intros u. apply type_bind; [done|]. intros sl1.
  apply type_bind; [done|]. intros x2. apply type_bind; [apply type_frames, frames_get_chan|]. intros chan. apply type_bind; [by apply type_set_slot|done].
Qed.
End typed.

Section replies.
Context {FS D : Type} {env : ClientEnv} {cenv : CompoundEnv FS D} {laws : CompoundLaws FS D}.
Implicit Types (w : cworld) (g : cworld * FS) (cs : cstate) (d : D).

Lemma wlp_type {A} (m : M cworld A) (Q : A -> cworld * FS -> Prop) g :
  keeps_type m -> replies_typed g.1 -> (forall a w, replies_typed w -> Q a (w, g.2)) -> wlp (on_clients m) Q g.
Proof. intros Hm HT HQ. apply wlp_on_clients. intros a w Hrun. by apply HQ, (Hm g.1 a). Qed.

Lemma wlp_run_type op opcode data cs d g :
  replies_typed g.1 -> wlp (run_op op opcode data cs d) (fun _ g' => replies_typed g'.1) g.
Proof.
  intros HT. unfold run_op. destruct (optabv4 !! _) as [desc|]; [|done]. destruct (decide _); [by apply wlp_ret|]. destruct (funct desc); [by apply wlp_ret..|].
  apply wlp_bind. assert (Hcall : wlp (call_op op data cs d) (fun _ g' => replies_typed g'.1) g).
  { assert ((exists arg, op = opsequence arg) \/ forall arg, op <> opsequence arg) as [[arg ->]|Hno] by (destruct op; try (by right); left; by eexists).
    - cbn [call_op]. apply wlp_bind, wlp_gets, wlp_bind, wlp_type; [apply type_sequence|done|]. intros [res cs'] w HT'. by apply wlp_ret.
    - eapply wlp_mono; [|apply wlp_call_op]; [intros r g' [HS _]; by apply (typed_steady g.1)|]. intros arg ->. by destruct (Hno arg). }
  eapply wlp_mono; [|exact Hcall]. intros [[[st body] cs'] d'] g' HT'. by apply wlp_ret.
Qed.

Lemma wlp_read_type p (Q : compound_res -> cworld -> Prop) w :
  replies_typed w -> (forall res, well_shaped res -> Q res w) -> wlp (read_cache p) Q w.
Proof.
  intros [T1 T2] HQ. destruct p as [s k|a]; cbn [read_cache].
  - unfold get_slot. apply wlp_bind, wlp_bind, wlp_deref. intros x Hx. destruct (s_slots x !! k) as [sl|] eqn:Hk; [|done]. apply wlp_ret, wlp_ret, HQ, (T1 s x); [done|].
    by eapply list_elem_of_lookup_2.
  - apply wlp_bind, wlp_deref. intros c Hc. by apply wlp_ret, HQ, (T2 a).
Qed.

Lemma wlp_loop_type arg cred ops : forall i res cs d g,
  replies_typed g.1 -> Forall (fun r => nr_status r = NFS4_OK) res ->
  wlp (compound_loop arg cred i ops res cs d) (fun r g' => replies_typed g'.1 /\ well_shaped r.1.1) g.
Proof.
  induction ops as [|op ops IH]; intros i res cs d g HT Hok; cbn [compound_loop]; [apply wlp_ret; split; [done|by apply shaped_done]|].
  apply wlp_bind, wlp_too_many. intros many. apply wlp_bind.
  assert (Hop : wlp (if (many : bool) then mret (mk_nfs_resop (argop op) NFS4ERR_TOO_MANY_OPS [], cs, d)
                     else run_op op (opcode_of (arg_minor arg) (argop op)) (mk_data (arg_minor arg) cred (arg_xprt arg) (arg_server arg) i) cs d)
                    (fun _ g' => replies_typed g'.1) g) by (destruct many; [by apply wlp_ret|by apply wlp_run_type]).
  eapply wlp_mono; [|exact Hop]. intros [[r cs'] d'] g' HT'. destruct (decide _) as [|Hst]; [apply wlp_ret; split; [done|by apply shaped_stop]|]. apply dec_stable in Hst.
  destruct (use_drc cs').
  - destruct (cached_res cs') as [p|]; [|done]. apply wlp_bind, wlp_on_clients, wlp_read_type; [done|]. intros cached Hsh. by apply wlp_ret.
  - apply IH; [done|]. apply Forall_app. by split; [|apply Forall_singleton].
Qed.

Lemma wlp_end_type res cs d g :
  replies_typed g.1 -> well_shaped res -> wlp (compound_end res cs d) (fun r g' => replies_typed g'.1 /\ well_shaped r) g.
Proof.
  intros HT Hsh. unfold compound_end. apply wlp_bind.
  assert (Hsave : wlp (save_reply res cs) (fun r g' => replies_typed g'.1 /\ well_shaped r) g).
  { unfold save_reply. destruct (cached_res cs) as [p|]; [|by apply wlp_ret]. destruct (use_drc cs); [by apply wlp_ret|]. cbv zeta. set (r := mk_compound_res _ _ _ true).
    apply wlp_bind. apply wlp_type; [|done|intros u w HT'; by apply wlp_ret]. destruct p as [s k|a]; cbn [write_cache]; [by apply type_set_slot|].
    intros w u w' Hrun [T1 T2]. unfold set_cid, get_cid, mbind, M_bind, deref, modify in Hrun. destruct (cw_ids w !! a) as [c|] eqn:Hc; [|done]. injection Hrun as _ <-.
    split; [done|]. simpl. intros b e [[<- <-]|[_ Hb]]%lookup_insert_Some; [done|by apply (T2 b)]. }
  eapply wlp_mono; [|exact Hsave]. intros r g1 [HT1 Hr]. apply wlp_bind.
  assert (Hrest : forall g', replies_typed g'.1 -> wlp (compound_data_Free cs d;; mret r) (fun r g' => replies_typed g'.1 /\ well_shaped r) g').
  { intros g' HT'. apply wlp_bind. eapply wlp_mono; [|apply wlp_free]. intros u g2 HS. apply wlp_ret. split; [by apply (typed_steady g'.1)|done]. }
  destruct (preserved_clientid cs); [|by apply wlp_ret, Hrest]. apply wlp_clients_steady; [apply frames_update_lease|]. intros u w HS.
  by apply Hrest, (typed_steady g1.1).
Qed.

Lemma wlp_compound_type (arg : compound_args D) g :
  replies_typed g.1 -> wlp (nfs4_Compound arg) (fun r g' => replies_typed g'.1 /\ forall res, r = Some res -> well_shaped res) g.
Proof.
  intros HT. unfold nfs4_Compound. apply wlp_bind.
  assert (Hst : wlp (compound_start arg) (fun st g' => replies_typed g'.1 /\ forall res, st = inl (Some res) -> well_shaped res) g).
  { intros st g' Hrun. destruct (wlp_start arg g st g' Hrun) as [bs ->]. split; [done|]. intros res ->. revert Hrun. unfold compound_start.
    set (Q := fun (st : option compound_res + nfs_client_cred_t) (_ : cworld * FS) => forall res, st = inl (Some res) -> res_ops res = []).
    assert (Hno : forall st tag, Q (compound_error st tag) g) by (by intros st tag res' [= <-]).
    assert (Had : forall tag g1, wlp (compound_admit arg tag) Q g1).
    { intros tag g1. unfold compound_admit. destruct tag; [|by apply wlp_ret]. destruct (decide _); [by apply wlp_ret, Hno|].
      destruct (_ =? 0); [by apply wlp_ret, Hno|]. destruct (100 <? _); [by apply wlp_ret, Hno|]. destruct (arg_cred arg); [|by apply wlp_ret].
      apply wlp_bind, wlp_choose. intros ok bs'. destruct ok; cbn [negb]; [|by apply wlp_ret]. cbv zeta. destruct (decide _); [by apply wlp_ret, Hno|by apply wlp_ret]. }
    assert (Hw : wlp (if 2 <? arg_minor arg then mret (compound_error NFS4ERR_MINOR_VERS_MISMATCH []) else tag ← check_tag (arg_tag arg); compound_admit arg tag) Q g).
    { destruct (2 <? _); [by apply wlp_ret, Hno|]. apply wlp_bind. intros tag g1 _. apply Had. }
    intros Hrun. pose proof (Hw _ _ Hrun res eq_refl) as Hempty. intros i r Hi. by rewrite Hempty in Hi. }
  eapply wlp_mono; [|exact Hst]. intros [ans|cred] g0 [HT0 Hans]; [apply wlp_ret; split; [done|]; intros res ->; by apply Hans|].
  apply wlp_bind. eapply wlp_mono; [|by apply wlp_loop_type]. intros [[res cs] d] g1 [HT1 Hsh]. apply wlp_bind. eapply wlp_mono; [|by apply wlp_end_type].
  intros r g2 [HT2 Hr]. apply wlp_ret. split; [done|]. by intros res' [= <-].
Qed.
End replies.

(** * When the operations on files run *)

(** The same server, except that an operation on files that runs without [ok] is undefined. *)
Definition guarded {FS D} (ok : Z -> compound_data -> option loc -> D -> bool) (cenv : CompoundEnv FS D) : CompoundEnv FS D := {|
  nfs_in_grace := nfs_in_grace;
  session_bc_up := session_bc_up;
  callback_down := callback_down;
  currentFH := currentFH;
  export_options := export_options;
  op_funct := fun n args data session d => if ok n data session d then op_funct n args data session d else undef;
  data_free := data_free
|}.

Lemma bind_ext {W A C} (m m' : M W A) (k k' : A -> M W C) (w : W) :
  m w = m' w -> (forall a w', m w = Ret a w' -> k a w' = k' a w') -> (m ≫= k) w = (m' ≫= k') w.
Proof. unfold mbind, M_bind. intros <- Hk. destruct (m w) as [a w'| | |]; auto. Qed.

Section guards.
Context {FS D : Type} {env : ClientEnv} {cenv : CompoundEnv FS D}.
Implicit Types (w : cworld) (g : cworld * FS) (cs : cstate) (d : D).

(** What the export of the current file handle has to permit for an operation, by the number of the operation.  The other
    operations need no permission: those on clients and sessions, those that set, save or return the file handle
    (PUTFH, PUTPUBFH, PUTROOTFH, SAVEFH, RESTOREFH, GETFH), and OPEN_CONFIRM, DELEGPURGE, RELEASE_LOCKOWNER,
    GETDEVICEINFO, LAYOUTCOMMIT, LAYOUTRETURN, TEST_STATEID, FREE_STATEID, WRITE_PLUS, READ_PLUS, SEEK and IO_ADVISE, which the
    code does not check. *)
Definition writes_metadata : list Z :=
  [5 (* COMMIT *); 6 (* CREATE *); 11 (* LINK *); 28 (* REMOVE *); 29 (* RENAME *); 34 (* SETATTR *)].
Definition reads_metadata : list Z :=
  [3 (* ACCESS *); 4 (* CLOSE *); 8 (* DELEGRETURN *); 9 (* GETATTR *); 12 (* LOCK *); 13 (* LOCKT *); 14 (* LOCKU *); 15 (* LOOKUP *);
   16 (* LOOKUPP *); 17 (* NVERIFY *); 18 (* OPEN *); 19 (* OPENATTR *); 21 (* OPEN_DOWNGRADE *); 26 (* READDIR *); 27 (* READLINK *);
   33 (* SECINFO *); 37 (* VERIFY *); 48 (* GETDEVICELIST *); 50 (* LAYOUTGET *); 52 (* SECINFO_NO_NAME *)].
Definition permission_needed (n : Z) : option Z :=
  if n =? 25 (* READ *) then Some EXPORT_OPTION_READ_ACCESS
  else if n =? 38 (* WRITE *) then Some EXPORT_OPTION_WRITE_ACCESS
  else if decide (n ∈ writes_metadata) then Some EXPORT_OPTION_MD_WRITE_ACCESS
  else if decide (n ∈ reads_metadata) then Some EXPORT_OPTION_MD_READ_ACCESS
  else None.

(** There is a current file handle, and its export permits what the operation needs. *)
Definition has_permission (n : Z) (data : compound_data) (session : option loc) d : bool :=
  match permission_needed n with
  | Some flags => (0 <? Z.of_nat (length (currentFH d))) && (Z.land (export_options d) flags =? flags)
  | None => true
  end.

(** A compound of NFSv4.1 or later has a session. *)
Definition has_session (n : Z) (data : compound_data) (session : option loc) d : bool :=
  (minorversion data =? 0) || bool_decide (is_Some session).

Section guard.
Variable ok : Z -> compound_data -> option loc -> D -> bool.

Lemma run_guarded op opcode data cs d g :
  (forall n args desc, op = opother n args -> optabv4 !! Z.to_nat opcode = Some desc -> funct desc = f_own ->
     check_perms (Z.land (exp_perm_flags desc) EXPORT_OPTION_ACCESS_TYPE) d = NFS4_OK -> ok n data (cd_session cs) d = true) ->
  run_op (cenv := guarded ok cenv) op opcode data cs d g = run_op op opcode data cs d g.
Proof.
  intros Hok. unfold run_op. destruct (optabv4 !! Z.to_nat opcode) as [desc|] eqn:Hdesc; [|done].
  change (check_perms (cenv := guarded ok cenv)) with (check_perms (cenv := cenv)). cbv zeta. destruct (decide _) as [|Hst]; [done|]. apply dec_stable in Hst.
  destruct (funct desc) eqn:Hf; [done..|]. apply bind_ext; [|done]. destruct op as [| | | | | | | |n args]; try done. cbn [call_op]. apply bind_ext; [|done].
  change (op_funct (CompoundEnv := guarded ok cenv) n args data (cd_session cs) d) with (if ok n data (cd_session cs) d then op_funct n args data (cd_session cs) d else undef).
  by rewrite (Hok n args desc).
Qed.

(** [inv] holds of the state of a compound after its first operation; [good] of its operations. *)
Variable inv : cstate -> Prop.
Variable good : nfs_argop4 -> Prop.
Hypothesis inv_run : forall op data cs d g r cs' d' g',
  inv cs -> oppos data <> 0 -> run_op op (opcode_of (minorversion data) (argop op)) data cs d g = Ret (r, cs', d') g' -> inv cs'.
Hypothesis inv_ok : forall n args opcode desc data cs d,
  inv cs -> opcode = opcode_of (minorversion data) n -> optabv4 !! Z.to_nat opcode = Some desc -> funct desc = f_own ->
  check_perms (Z.land (exp_perm_flags desc) EXPORT_OPTION_ACCESS_TYPE) d = NFS4_OK -> good (opother n args) -> ok n data (cd_session cs) d = true.

Lemma loop_guarded (arg : compound_args D) cred ops : forall i res cs d g,
  0 < i -> inv cs -> Forall good ops ->
  compound_loop (cenv := guarded ok cenv) arg cred i ops res cs d g = compound_loop arg cred i ops res cs d g.
Proof.
  induction ops as [|op ops IH]; intros i res cs d g Hi Hinv Hdec; [done|]. apply Forall_cons in Hdec as [Hd Hdec]. cbn [compound_loop]. apply bind_ext; [done|]. intros many g1 _.
  apply bind_ext.
  - destruct many; [done|]. apply run_guarded. intros n args desc -> Hdesc Hf Hp. by apply (inv_ok n args _ desc _ cs d Hinv eq_refl).
  - intros [[r cs'] d'] g2 Hrun. destruct (decide _) as [|Hst]; [done|]. destruct (use_drc cs'); [done|]. apply IH; [lia| |done].
    destruct many; [injection Hrun as _ <- _ _; done|]. rewrite run_guarded in Hrun; [by eapply inv_run; [exact Hinv| |exact Hrun]; simpl; lia|].
    intros n args desc -> Hdesc Hf Hp. by apply (inv_ok n args _ desc _ cs d Hinv eq_refl).
Qed.

Lemma compound_guarded (arg : compound_args D) g :
  Forall good (arg_ops arg) ->
  (forall cred g0 op ops, compound_start arg g = Ret (inr cred) g0 -> arg_ops arg = op :: ops ->
     let opcode := opcode_of (arg_minor arg) (argop op) in let data := data_at arg cred 0 in
     (forall n args desc, op = opother n args -> optabv4 !! Z.to_nat opcode = Some desc -> funct desc = f_own ->
        check_perms (Z.land (exp_perm_flags desc) EXPORT_OPTION_ACCESS_TYPE) (arg_data arg) = NFS4_OK -> ok n data None (arg_data arg) = true) /\
     forall r cs' d' g', run_op op opcode data zero_cstate (arg_data arg) g0 = Ret (r, cs', d') g' ->
       nr_status r = NFS4_OK -> use_drc cs' = false -> inv cs' \/ ops = []) ->
  nfs4_Compound (cenv := guarded ok cenv) arg g = nfs4_Compound arg g.
Proof.
  intros Hgood Hfirst. unfold nfs4_Compound. apply bind_ext; [done|]. intros [ans|cred] g0 Hst; [done|]. apply bind_ext; [|done].
  destruct (arg_ops arg) as [|op ops] eqn:Hops; [done|]. destruct (Hfirst cred g0 op ops Hst eq_refl) as [Hok Hinv]. apply Forall_cons in Hgood as [_ Hgood].
  assert (Hrun : run_op (cenv := guarded ok cenv) op (opcode_of (arg_minor arg) (argop op)) (data_at arg cred 0) zero_cstate (arg_data arg) g0 =
                 run_op op (opcode_of (arg_minor arg) (argop op)) (data_at arg cred 0) zero_cstate (arg_data arg) g0) by (by apply run_guarded).
  cbn [compound_loop]. apply bind_ext; [done|]. intros many g1 [= <- <-]. apply bind_ext; [exact Hrun|]. intros [[r cs'] d'] g2 Hrun'.
  change (run_op (cenv := guarded ok cenv) op (opcode_of (arg_minor arg) (argop op)) (data_at arg cred 0) zero_cstate (arg_data arg) g0 = Ret (r, cs', d') g2) in Hrun'.
  rewrite Hrun in Hrun'. destruct (decide _) as [|Hstat]; [done|]. apply dec_stable in Hstat. destruct (use_drc cs') eqn:Hu; [done|].
  destruct (Hinv r cs' d' g2 Hrun' Hstat Hu) as [Hi| ->]; [|done]. by apply loop_guarded; [lia| |].
Qed.
End guard.

(** The table has the permission that an operation needs. *)
Lemma permission_in_table minor n flags desc :
  permission_needed n = Some flags -> optabv4 !! Z.to_nat (opcode_of minor n) = Some desc -> funct desc = f_own ->
  Z.land (exp_perm_flags desc) EXPORT_OPTION_ACCESS_TYPE = flags /\ flags <> 0.
Proof.
  assert (forall m, opcode_of minor m = m \/ opcode_of minor m = 0) as Hop by (intros m; unfold opcode_of; repeat case_match; auto).
  intros Hn Hd Hf. destruct (Hop n) as [E|E]; rewrite E in Hd; [|by injection Hd as <-]. clear E Hop. unfold permission_needed in Hn.
  destruct (Z.eqb_spec n 25) as [->|_]; [by injection Hn as <-; injection Hd as <-|].
  destruct (Z.eqb_spec n 38) as [->|_]; [by injection Hn as <-; injection Hd as <-|].
  destruct (decide (n ∈ writes_metadata)) as [Hin|_]; [|destruct (decide (n ∈ reads_metadata)) as [Hin|_]; [|done]]; injection Hn as <-;
    repeat (apply elem_of_cons in Hin as [->|Hin]; [by injection Hd as <-|]); by apply not_elem_of_nil in Hin.
Qed.

Lemma permission_checked opcode desc data d n session :
  opcode = opcode_of (minorversion data) n -> optabv4 !! Z.to_nat opcode = Some desc -> funct desc = f_own ->
  check_perms (Z.land (exp_perm_flags desc) EXPORT_OPTION_ACCESS_TYPE) d = NFS4_OK -> has_permission n data session d = true.
Proof.
  intros -> Hdesc Hf. unfold has_permission. destruct (permission_needed n) as [flags|] eqn:Hn; [|done].
  destruct (permission_in_table _ _ _ _ Hn Hdesc Hf) as [-> Hz]. unfold check_perms, nfs4_Is_Fh_Empty. cbv zeta. rewrite (proj2 (Z.eqb_neq _ _) Hz).
  destruct (Z.eqb_spec (Z.of_nat (length (currentFH d))) 0) as [|Hfh]; [done|]. rewrite decide_False by (intros H; by apply H).
  destruct (Z.land (export_options d) _ =? _); cbn [negb]; [|by destruct (negb _)]. intros _. apply andb_true_iff. split; [apply Z.ltb_lt; lia|done].
Qed.

(** ** The session of a compound *)

Lemma session_stays op data cs d g r cs' d' g' :
  oppos data <> 0 -> run_op op (opcode_of (minorversion data) (argop op)) data cs d g = Ret (r, cs', d') g' -> cd_session cs' = cd_session cs.
Proof.
  intros Hp Hrun. enough (Hw : wlp (run_op op (opcode_of (minorversion data) (argop op)) data cs d) (fun r _ => cd_session r.1.2 = cd_session cs) g) by (by apply (Hw _ _ Hrun)).
  clear Hrun. unfold run_op. destruct (optabv4 !! _) as [desc|]; [|done]. destruct (decide _); [by apply wlp_ret|]. destruct (funct desc); [by apply wlp_ret..|].
  apply wlp_bind. assert (Hcall : wlp (call_op op data cs d) (fun r _ => cd_session r.1.2 = cd_session cs) g).
  { destruct op; cbn [call_op]; try (by apply wlp_bind; intros ? ? _; apply wlp_ret).
    - apply wlp_bind, wlp_gets, wlp_bind. intros ? ? _. by apply wlp_ret.
    - apply wlp_bind, wlp_gets, wlp_bind, wlp_on_clients. unfold nfs4_op_sequence. rewrite (proj2 (Z.eqb_neq _ _) Hp). by destruct (_ =? 0); apply wlp_ret, wlp_ret.
    - apply wlp_bind. intros [[st body] d''] ? _. by apply wlp_ret. }
  eapply wlp_mono; [|exact Hcall]. intros [[[st body] cs''] d''] g'' H. by apply wlp_ret.
Qed.

(** Out of the grace period, SEQUENCE gives a session, an error or a kept reply. *)
Lemma sequence_session arg data up w :
  wlp (nfs4_op_sequence arg data zero_cstate false up) (fun res _ => res.1.1 = NFS4_OK -> use_drc res.2 = false -> is_Some (cd_session res.2)) w.
Proof.
  unfold nfs4_op_sequence. destruct (_ =? 0); [by apply wlp_ret|]. destruct (negb _); [by apply wlp_ret|]. apply wlp_bind. intros [s|] w1 _; [|by apply wlp_ret].
  apply wlp_bind. intros x w2 _. apply wlp_bind. intros valid w3 _. destruct (negb _); [apply wlp_bind; intros u w4 _; by apply wlp_ret|].
  unfold sequence_slot. apply wlp_bind. intros x' w4 _. destruct (_ <=? _); [apply wlp_bind; intros u w5 _; by apply wlp_ret|].
  apply wlp_bind. intros slot w5 _. destruct (negb _); [destruct (_ =? _); apply wlp_bind; intros u w6 _; by apply wlp_ret|].
  unfold sequence_new. apply wlp_bind. intros u w6 _. apply wlp_bind. intros sl w7 _. apply wlp_bind. intros x2 w8 _. apply wlp_bind. intros chan w9 _.
  apply wlp_bind. intros u' w10 _. apply wlp_ret. intros _ _. by eexists.
Qed.

Lemma start_checks (arg : compound_args D) g :
  0 < arg_minor arg -> wlp (compound_start arg) (fun st _ => forall cred, st = inr cred -> check_ops (arg_ops arg) = NFS4_OK) g.
Proof.
  intros Hm. unfold compound_start. destruct (2 <? _); [by apply wlp_ret|]. apply wlp_bind. intros tag g1 _. unfold compound_admit. destruct tag; [|by apply wlp_ret].
  destruct (decide _); [by apply wlp_ret|]. destruct (_ =? 0); [by apply wlp_ret|]. destruct (100 <? _); [by apply wlp_ret|]. destruct (arg_cred arg); [|by apply wlp_ret].
  apply wlp_bind. intros ok g2 _. destruct (negb ok); [by apply wlp_ret|]. cbv zeta. rewrite (proj2 (Z.ltb_lt _ _) Hm). destruct (decide _) as [|Hst]; [by apply wlp_ret|].
  apply dec_stable in Hst. by apply wlp_ret.
Qed.

(** What the first operation of NFSv4.1 can be. *)
Lemma first_operation minor op ops :
  0 < minor -> check_ops (op :: ops) = NFS4_OK -> decoded op = true ->
  (exists arg, op = opsequence arg) \/ (ops = [] /\ forall n args, op <> opother n args) \/
  (exists n args, op = opother n args /\ optabv4 !! Z.to_nat (opcode_of minor n) = Some illegal).
Proof.
  intros Hm. unfold check_ops. destruct (may_be_first (argop op)) eqn:Hin; [|done]. unfold may_be_first in Hin. apply bool_decide_eq_true in Hin. cbn [negb].
  destruct (bool_decide_reflect (ops = [])) as [->|Hne]; cbn [negb andb].
  - intros _ Hd. destruct op as [| | | | | | | |n args]; try (right; left; split; [done|by intros]). right. right. exists n, args. split; [done|]. cbn [argop] in Hin.
    revert Hd. cbn [decoded]. destruct (bool_decide_reflect (n ∈ named_ops)) as [|Hn]; [done|]. intros _. unfold opcode_of. rewrite (proj2 (Z.eqb_neq _ _)) by lia.
    assert (n = NFS4_OP_ILLEGAL \/ n = NFS4_OP_BIND_CONN_TO_SESSION) as [->| ->]; [|done..]. rewrite !elem_of_cons, elem_of_nil in Hin. unfold named_ops in Hn. rewrite !elem_of_cons, elem_of_nil in Hn. tauto.
  - destruct (alone (argop op)) eqn:Hal; [done|]. unfold alone in Hal. apply bool_decide_eq_false in Hal. intros _ Hd. set_unfold in Hal. set_unfold in Hin.
    destruct op as [| | | | | |arg| |n args]; cbn [argop] in Hal, Hin; try (exfalso; unfold NFS4_OP_ILLEGAL, NFS4_OP_SEQUENCE, NFS4_OP_EXCHANGE_ID, NFS4_OP_CREATE_SESSION, NFS4_OP_DESTROY_SESSION, NFS4_OP_BIND_CONN_TO_SESSION, NFS4_OP_DESTROY_CLIENTID, NFS4_OP_RENEW, NFS4_OP_SETCLIENTID, NFS4_OP_SETCLIENTID_CONFIRM in *; lia).
    + left. by eexists.
    + right. right. exists n, args. split; [done|]. revert Hd. cbn [decoded]. destruct (bool_decide_reflect (n ∈ named_ops)) as [|Hn]; [done|]. intros _.
      unfold opcode_of. rewrite (proj2 (Z.eqb_neq _ _)) by lia. unfold named_ops in Hn. set_unfold in Hn.
      assert (n = NFS4_OP_ILLEGAL \/ n = NFS4_OP_BIND_CONN_TO_SESSION) as [->| ->] by tauto; done.
Qed.
End guards.

(** * The server *)

Section server.
Context {FS D : Type} {env : ClientEnv} {cenv : CompoundEnv FS D}.
Implicit Types (w : cworld) (g : cworld * FS).

(** What a server does one after the other: requests, runs of the reaper, and time passes. *)
Inductive server_call : Type :=
| serve (arg : compound_args D)
| reap (fuel : nat)
| wait (seconds : Z).

Definition run_server_call (call : server_call) : M (cworld * FS) unit :=
  match call with
  | serve arg => nfs4_Compound arg;; mret tt
  | reap fuel => on_clients (reaper_run fuel);; mret tt
  | wait seconds => on_clients (modify (upd_cw_time (fun t => t + seconds)))
  end.

Definition call_fits (call : server_call) g : Prop :=
  match call with
  | serve arg => compound_fits arg g
  | reap fuel => (size (ht_confirmed_client_id g.1) < fuel)%nat /\ (size (ht_unconfirmed_client_id g.1) < fuel)%nat
  | wait _ => True
  end.

Fixpoint run_server (calls : list server_call) : M (cworld * FS) unit :=
  match calls with [] => mret tt | call :: calls => run_server_call call;; run_server calls end.

Fixpoint server_fits (calls : list server_call) g : Prop :=
  match calls with
  | [] => True
  | call :: calls => call_fits call g /\ forall g', run_server_call call g = Ret tt g' -> server_fits calls g'
  end.

Context {laws : CompoundLaws FS D}.
Hypothesis Hepoch : epoch_low <> 0.

Lemma wp_server_call call g : server_ok g -> call_fits call g -> wp (run_server_call call) (fun _ g' => server_ok g') g.
Proof.
  intros HG Hfit. pose proof HG as [[B HI] HK]. destruct call as [arg|fuel|dt]; cbn [run_server_call call_fits] in *.
  - apply wp_bind. eapply wp_mono; [|by apply wp_compound]. intros r g' HG'. by apply wp_ret.
  - destruct Hfit as [H1 H2]. apply wp_bind. eapply wp_client_op; [apply frames_reaper_run|by apply (wp_reaper_run [] B)|]. intros n w [HI' _] HS. apply wp_ret.
    split; [by exists B|by apply (slots_steady g.1)].
  - apply wp_on_clients, wp_modify. split; [|done]. exists B. by apply (cinv_same _ _ _ _ g.1).
Qed.

Lemma wp_server calls g : server_ok g -> server_fits calls g -> wp (run_server calls) (fun _ g' => server_ok g') g.
Proof.
  revert g. induction calls as [|call calls IH]; intros g HG Hf; cbn [run_server]; [by apply wp_ret|]. destruct Hf as [Hc Hn].
  apply wp_bind. pose proof (wp_server_call call g HG Hc) as Hwp. apply wp_elim in Hwp as ([] & g1 & Hrun & HG1).
  apply (wp_intro _ _ _ tt g1); [done|]. apply IH; [done|]. by apply Hn.
Qed.

(** A slot keeps its value while no request is the next on it. *)
Definition not_next_call (sid : Z * Z) (k : nat) (sl : nfs41_session_slot_t) (call : server_call) : Prop :=
  match call with serve arg => not_next sid k sl (arg_ops arg) | _ => True end.

Lemma wp_server_slot calls sid s k sl g :
  server_ok g -> server_fits calls g -> slot_is sid s k sl g.1 -> Forall (not_next_call sid k sl) calls ->
  wp (run_server calls) (fun _ g' => server_ok g' /\ slot_is sid s k sl g'.1) g.
Proof.
  revert g. induction calls as [|call calls IH]; intros g HG Hf Hsl Hno; cbn [run_server]; [by apply wp_ret|]. destruct Hf as [Hc Hn]. apply Forall_cons in Hno as [Hno Hnos].
  apply wp_bind. assert (Hwp : wp (run_server_call call) (fun _ g' => server_ok g' /\ slot_is sid s k sl g'.1) g).
  { apply wp_wlp; [by apply wp_server_call|]. destruct call as [arg|fuel|dt]; cbn [run_server_call].
    - apply wlp_bind. eapply wlp_mono; [|by apply (wlp_compound_other arg sid s k sl)]. intros r g' H. by apply wlp_ret.
    - apply wlp_bind, wlp_clients_steady; [apply frames_reaper_run|]. intros n w HS. apply wlp_ret. by apply (slot_is_steady _ _ _ _ g.1).
    - apply wlp_on_clients, wlp_modify. apply (slot_is_steady _ _ _ _ g.1); [by apply steady_same|done]. }
  apply wp_elim in Hwp as ([] & g1 & Hrun & HG1 & Hsl1). apply (wp_intro _ _ _ tt g1); [done|]. apply IH; [done|by apply Hn|done|done].
Qed.

(** * Theorems *)

(** C5: From the empty store a server runs any requests that fit ([server_fits]), in any number and order, with runs of the
    reaper and time in between: every compound is answered or dropped, none uses a client, a session
    or a slot that is gone or ends the server, and the client store stays well formed.  To fit is, for each operation when
    its turn comes: CREATE_SESSION is for a client id of NFSv4.1, is the last operation of its compound and finds a session number that is
    not used; DESTROY_CLIENTID is for a number that no client has; SETCLIENTID and EXCHANGE_ID find memory for the entry of a
    record; a tag is of bytes.  What happens otherwise is in [destroy_clientid_dangles] and [create_session_on_v40].
    The operations on files keep to [CompoundLaws]; reference counts have no bound. *)
Theorem compound_server_safe calls fs
    (Hfits : server_fits calls (empty_store, fs)) :
  wp (run_server calls) (fun _ g => server_ok g) (empty_store, fs).
Proof. apply wp_server; [|done]. split; [exists []; apply empty_store_ok|]. by intros s x Hx. Qed.

(** C6: A request on a slot runs once.  When a compound starts with a SEQUENCE that is the next
    on its slot and creates no session, then after any other requests that are not the next on that
    slot, while the session is there and its lease valid, a compound that starts with the same SEQUENCE
    gets the same reply, and of what the server has besides the client store only
    what the compound came with is released: no operation runs. *)
Theorem compound_runs_once arg a ops cred g g0 s sl
    (Hops : arg_ops arg = opsequence a :: ops) (Hnosession : Forall (fun op => creates_session op = false) ops) (Hminor : 0 < arg_minor arg)
    (Hok : server_ok g) (Hfits : compound_fits arg g) (Hstart : compound_start arg g = Ret (inr cred) g0)
    (Hready : session_ready a s g.1) (Hslot : slot_is (sa_sessionid a) s (Z.to_nat (sa_slotid a)) sl g.1)
    (Hnext : u32 (slot_sequence sl + 1) = sa_sequenceid a) :
  wp (nfs4_Compound arg) (fun r g1 => exists res, r = Some res /\
    forall calls, server_fits calls g1 ->
      Forall (not_next_call (sa_sessionid a) (Z.to_nat (sa_slotid a)) (mk_slot (sa_sequenceid a) (mk_slot_cache res true))) calls ->
      wp (run_server calls) (fun _ g2 =>
        forall again ops' cred' g3, arg_ops again = opsequence a :: ops' -> 0 < arg_minor again -> Forall (fun c => 0 <= c < 256) (arg_tag again) ->
          compound_start again g2 = Ret (inr cred') g3 -> session_ready a s g2.1 ->
          wp (nfs4_Compound again) (fun r' g4 => r' = Some res /\
            exists w w', data_free (arg_data again) (w, g2.2) = Ret tt (w', g4.2)) g2) g1) g.
Proof.
  eapply wp_mono; [|apply wp_wlp; [by apply wp_compound|by apply (wlp_compound_first arg cred a ops (sa_sessionid a) s sl g g0); try done; lia]].
  intros r g1 [HG1 (res & -> & Hsl1)]. exists res. split; [done|]. intros calls Hcf Hno.
  eapply wp_mono; [|by apply (wp_server_slot calls _ _ _ _ _ HG1 Hcf Hsl1 Hno)]. intros u g2 [HG2 Hsl2] again ops' cred' g3 Hops' Hm' Htag Hst' Hrd'.
  assert (Hm0 : arg_minor again <> 0) by lia. pose proof (retry_fits again a ops' _ s _ g2 Hops' Hm0 Htag HG2 Hrd' Hsl2 eq_refl) as Hfit2.
  eapply wp_mono; [|apply wp_wlp; [by apply wp_compound|by apply (wlp_compound_retry again cred' a ops' _ s _ g2 g3 Hops' Hm0 Hst' HG2 Hrd' Hsl2)]].
  by intros r' g4 [_ HR].
Qed.

(** C16: The replies have their type, also the kept ones: every result but the last is without error,
    and the status of a reply is that of its last result. *)
Theorem compound_reply_typed arg g
    (Hok : server_ok g) (Hfits : compound_fits arg g) (Htyped : replies_typed g.1) :
  wp (nfs4_Compound arg) (fun r g' => replies_typed g'.1 /\ forall res, r = Some res -> well_shaped res) g.
Proof.
  eapply wp_mono; [|apply wp_wlp; [by apply wp_compound|by apply wlp_compound_type]]. by intros r g' [_ HR].
Qed.

(** C14: The operations of [permission_needed] (READ, WRITE, the ones that change metadata and the ones that look at it or at
    locks) run only with a current file handle whose export permits data or metadata to be read or written, as the
    operation needs: a server in which they would be undefined without that does the same.  The operations for
    which [permission_needed] is [None] are not checked (see [write_plus_unchecked]). *)
Theorem compound_checks_permissions (arg : compound_args D) g :
  nfs4_Compound (cenv := guarded has_permission cenv) arg g = nfs4_Compound arg g.
Proof.
  apply (compound_guarded has_permission (fun _ => True) (fun _ => True)); [done| |by apply Forall_true|].
  - intros n args opcode desc data cs d _ Ho Hdesc Hf Hp _. by apply (permission_checked opcode desc).
  - intros cred g0 op ops _ _. split; [|by left]. intros n args desc -> Hdesc Hf Hp. by apply (permission_checked (opcode_of (arg_minor arg) n) desc).
Qed.

(** C15: In NFSv4.1 and later, out of the grace period, an operation on files runs only after
    a SEQUENCE that gave the compound a session. *)
Theorem compound_needs_session (arg : compound_args D) g
    (Hminor : 0 < arg_minor arg) (Hgrace : nfs_in_grace g.2 = false) (Hdecoded : Forall (fun op => decoded op = true) (arg_ops arg)) :
  nfs4_Compound (cenv := guarded has_session cenv) arg g = nfs4_Compound arg g.
Proof.
  apply (compound_guarded has_session (fun cs => is_Some (cd_session cs)) (fun op => decoded op = true)); [| |done|].
  - intros op data cs d g1 r cs' d' g' Hs Hp Hrun. by rewrite (session_stays _ _ _ _ _ _ _ _ _ Hp Hrun).
  - intros n args opcode desc data cs d Hs _ _ _ _ _. unfold has_session. rewrite bool_decide_true by done. apply orb_true_r.
  - intros cred g0 op ops Hst Hops. rewrite Hops in Hdecoded. apply Forall_cons in Hdecoded as [Hd _].
    pose proof (start_checks arg g Hminor _ _ Hst cred eq_refl) as Hck. rewrite Hops in Hck. destruct (wlp_start arg g _ _ Hst) as [bs Hg0].
    cbv zeta. destruct (first_operation (arg_minor arg) op ops Hminor Hck Hd) as [[a ->]|[[-> Hno]|(n & args & -> & Hill)]].
    + split; [done|]. intros r cs' d' g' Hrun Hok Hu. left. change (arg_minor arg) with (minorversion (data_at arg cred 0)) in Hrun.
      change (argop (opsequence a)) with NFS4_OP_SEQUENCE in Hrun. rewrite run_sequence in Hrun by (simpl; lia).
      assert (Hw : wlp ('(res, cs, d) ← call_op (opsequence a) (data_at arg cred 0) zero_cstate (arg_data arg); mret (mk_nfs_resop NFS4_OP_SEQUENCE res.1 res.2, cs, d))
                       (fun r _ => nr_status r.1.1 = NFS4_OK -> use_drc r.1.2 = false -> is_Some (cd_session r.1.2)) g0).
      { apply wlp_bind. cbn [call_op]. apply wlp_bind, wlp_gets, wlp_bind, wlp_on_clients. assert (Hg : nfs_in_grace g0.2 = false) by (by rewrite Hg0). rewrite Hg.
        eapply wlp_mono; [|apply sequence_session]. intros [[st body] cs''] w' HP. by apply wlp_ret, wlp_ret. }
      by apply (Hw _ _ Hrun).
    + split; [intros n args desc ->; by destruct (Hno n args)|by right].
    + split; [intros n' args' desc [= <- <-]; cbn [argop]; rewrite Hill; by intros [= <-]|]. intros r cs' d' g' Hrun Hok. exfalso. revert Hrun Hok.
      unfold run_op. cbn [argop]. rewrite Hill. cbn [illegal exp_perm_flags funct]. change (check_perms (Z.land 0 EXPORT_OPTION_ACCESS_TYPE) (arg_data arg)) with NFS4_OK.
      cbv zeta. rewrite decide_False by (intros H; by apply H). by intros [= <- _ _ _].
Qed.
End server.

(** * Concrete runs *)

Module CompoundExamples.
Import ClientExamples.
#[local] Existing Instance ex_env.

(** One file, a log of what was written to it; PUTFH takes the file handle, READ, WRITE and
    WRITE_PLUS work on the file. *)
Record ex_fs : Set := mk_fs { ex_grace : bool; ex_file : list Z }.
Record ex_data : Set := mk_exdata { ex_fh : list Z; ex_options : Z }.

Definition ex_op (n : Z) (args : list Z) (data : compound_data) (session : option loc) (d : ex_data)
    : M (cworld * ex_fs) (nfsstat4 * list Z * ex_data) :=
  if n =? 22 then mret (NFS4_OK, [], mk_exdata args (ex_options d))
  else if n =? 25 then f ← gets (fun g => ex_file g.2); mret (NFS4_OK, f, d)
  else if (n =? 38) || (n =? 64) then
    modify (fun g => (g.1, mk_fs (ex_grace g.2) (ex_file g.2 ++ args)));; mret (NFS4_OK, [Z.of_nat (length args)], d)
  else mret (NFS4ERR_NOTSUPP, [], d).

#[local] Instance ex_cenv : CompoundEnv ex_fs ex_data := {|
  nfs_in_grace := ex_grace;
  session_bc_up := fun _ _ => true;
  callback_down := fun _ => false;
  currentFH := ex_fh;
  export_options := ex_options;
  op_funct := ex_op;
  data_free := fun _ => mret tt
|}.

#[local] Instance ex_laws : CompoundLaws ex_fs ex_data.
Proof.
  assert (Hsame : forall n args data session d (g : cworld * ex_fs), exists r fs, ex_op n args data session d g = Ret r (g.1, fs)).
  { intros n args data session d [w fs]. unfold ex_op. destruct (n =? 22); [by eexists _, _|]. destruct (n =? 25); [by eexists _, _|].
    destruct (_ || _); by eexists _, _. }
  split.
  - intros Held n args data session d g HH _ _. destruct (Hsame n args data session d g) as (r & fs & Hrun). by apply (wp_intro _ _ _ r (g.1, fs)).
  - intros n args data session d g r g' Hrun. destruct (Hsame n args data session d g) as (r' & fs & Hrun'). cbn [op_funct ex_cenv] in Hrun. by replace g' with (g.1, fs) by congruence.
  - intros d g HH. by apply wp_ret.
  - intros d g r g' [= _ <-]. reflexivity.
Qed.

Definition rw : Z := EXPORT_OPTION_ACCESS_TYPE.
Definition ro : Z := Z.lor EXPORT_OPTION_READ_ACCESS EXPORT_OPTION_MD_READ_ACCESS.

Definition request (minor : Z) (options : Z) (ops : list nfs_argop4) : compound_args ex_data :=
  mk_compound minor [] ops (Some (credential alice41)) (xprt_addr alice41) (server_raddr alice41) (mk_exdata [] options).

Definition first_session : Z * Z := (first_id, 1).
Definition seq (slot number : Z) : nfs_argop4 := opsequence (mk_sequence first_session number slot).
Definition write_hello : list nfs_argop4 := [opother 22 [7]; opother 38 [72; 105]].

Definition after_server (call : server_call) (g : cworld * ex_fs) : cworld * ex_fs :=
  match run_server_call call g with Ret _ g' => g' | _ => g end.

Lemma server_fits_cons call calls g : call_fits call g -> server_fits calls (after_server call g) -> server_fits (call :: calls) g.
Proof. intros Hc Hf. split; [done|]. intros g' Hrun. unfold after_server in Hf. by rewrite Hrun in Hf. Qed.

Definition g_start : cworld * ex_fs := (empty_store, mk_fs false []).
Definition ask_exchange : server_call := serve (request 1 rw [opexchange_id ex_arg]).
Definition ask_session : server_call := serve (request 1 rw [opcreate_session (session_arg first_id)]).
Definition g_exchanged : cworld * ex_fs := after_server ask_exchange g_start.
Definition g_session : cworld * ex_fs := after_server ask_session g_exchanged.

(** The replies to some requests, and the file at the end. *)
Fixpoint transcript (args : list (compound_args ex_data)) (g : cworld * ex_fs) : list (option (nfsstat4 * list (nfsstat4 * list Z))) * list Z :=
  match args with
  | [] => ([], ex_file g.2)
  | arg :: args =>
      match nfs4_Compound arg g with
      | Ret r g' =>
          let '(rs, file) := transcript args g' in
          (((fun r => (res_status r, map (fun o => (nr_status o, nr_body o)) (res_ops r))) <$> r) :: rs, file)
      | _ => ([], [])
      end
  end.

(** A write on slot 3, and its retry. *)
Example write_and_retry :
  let reply := Some (NFS4_OK, [(NFS4_OK, [first_id; 1; 1; 3; 63; 63; 0]); (NFS4_OK, []); (NFS4_OK, [2])]) in
  transcript [request 1 rw (seq 3 1 :: write_hello); request 1 rw (seq 3 1 :: write_hello)] g_session = ([reply; reply], [72; 105]).
Proof. by vm_compute. Qed.

(** A read-only export: WRITE is refused, WRITE_PLUS writes. *)
Example write_plus_unchecked :
  transcript [request 1 ro (seq 0 1 :: write_hello); request 1 ro [seq 0 2; opother 22 [7]; opother 64 [72; 105]]] g_session =
    ([Some (NFS4ERR_ROFS, [(NFS4_OK, [first_id; 1; 1; 0; 63; 63; 0]); (NFS4_OK, []); (NFS4ERR_ROFS, [])]);
      Some (NFS4_OK, [(NFS4_OK, [first_id; 1; 2; 0; 63; 63; 0]); (NFS4_OK, []); (NFS4_OK, [2])])], [72; 105]).
Proof. by vm_compute. Qed.

(** In the grace period a write runs without a session, and again when it is retried. *)
Example grace_write_runs_twice :
  let write := request 1 rw (opsequence (mk_sequence (5, 5) 1 0) :: write_hello) in
  (transcript [write; write] (empty_store, mk_fs true [])).2 = [72; 105; 72; 105].
Proof. by vm_compute. Qed.

(** The number 0 on a new slot is taken for a retry: nothing runs, and the reply is empty. *)
Example number_zero_is_a_retry :
  transcript [request 1 rw (seq 0 0 :: write_hello)] g_session = ([Some (NFS4_OK, [])], []).
Proof. by vm_compute. Qed.

(** The reply of a compound that creates a session is not kept in its slot: its retry gets the reply to
    the request before. *)
Example create_session_takes_the_slot :
  let ask := request 1 rw [seq 0 2; opcreate_session (mk_create_session first_id 2 0 16)] in
  transcript [request 1 rw [seq 0 1; opother 22 [7]]; ask; ask] g_session =
    ([Some (NFS4_OK, [(NFS4_OK, [first_id; 1; 1; 0; 63; 63; 0]); (NFS4_OK, [])]);
      Some (NFS4_OK, [(NFS4_OK, [first_id; 1; 2; 0; 63; 63; 0]); (NFS4_OK, [first_id; 2; 2])]);
      Some (NFS4_OK, [(NFS4_OK, [first_id; 1; 1; 0; 63; 63; 0]); (NFS4_OK, [])])], []).
Proof. by vm_compute. Qed.

(** Two sessions whose numbers differ after a NUL are the same for the check of DESTROY_SESSION. *)
Example other_session_not_destroyed :
  transcript [request 1 rw [seq 0 1; opdestroy_session (first_id, 77); opother 22 [7]]] g_session = ([Some (NFS4ERR_NOT_ONLY_OP, [])], []).
Proof. by vm_compute. Qed.

(** ** The theorems apply *)

(** Without allocations that fail, the start of a compound changes nothing. *)
Lemma start_same minor options ops (g g' : cworld * ex_fs) st :
  cw_choices g.1 = [] -> compound_start (request minor options ops) g = Ret st g' -> g' = g.
Proof.
  intros Hch. revert st g'. change (wlp (compound_start (request minor options ops)) (fun _ g' => g' = g) g). unfold compound_start. destruct (2 <? _); [by apply wlp_ret|].
  apply wlp_bind, wlp_ret. unfold compound_admit. destruct (decide _); [by apply wlp_ret|]. destruct (_ =? 0); [by apply wlp_ret|]. destruct (100 <? _); [by apply wlp_ret|].
  cbn [arg_cred request]. apply wlp_bind. intros ok g1. unfold on_clients, cchoose. rewrite Hch. intros [= <- <-]. cbn [negb]. cbv zeta. destruct g. by destruct (decide _); apply wlp_ret.
Qed.

Lemma fits_at minor options ops (g : cworld * ex_fs) :
  cw_choices g.1 = [] -> (forall cred, ops_fit (request minor options ops) cred 0 ops zero_cstate (mk_exdata [] options) g) ->
  compound_fits (request minor options ops) g.
Proof. intros Hch Hfit. split; [constructor|]. intros cred g' Hrun. rewrite (start_same _ _ _ _ _ _ Hch Hrun). apply Hfit. Qed.

Lemma g_exchanged_eq : g_exchanged = (w_exchanged, mk_fs false []).
Proof. by vm_compute. Qed.

Lemma fits_exchange : call_fits ask_exchange g_start.
Proof. apply fits_at; [done|]. intros cred. split_and!; [split; by vm_compute|done|done]. Qed.

Lemma fits_session : call_fits ask_session g_exchanged.
Proof.
  rewrite g_exchanged_eq. apply fits_at; [by vm_compute|]. intros cred. split_and!; [|done|done].
  split_and!; [exact w_exchanged_v41|by vm_compute|exact w_exchanged_number].
Qed.

Definition the_write : compound_args ex_data := request 1 rw (seq 3 1 :: write_hello).

Lemma fits_write g : cw_choices g.1 = [] -> compound_fits the_write g.
Proof. intros Hch. apply fits_at; [done|]. intros cred. by cbn. Qed.

Lemma session_choices : cw_choices g_session.1 = [].
Proof. by vm_compute. Qed.

Definition ex_server_calls : list server_call := [ask_exchange; ask_session; serve the_write; wait 100; reap 5].
Definition g_written : cworld * ex_fs := after_server (serve the_write) g_session.

Lemma server_calls_fit : server_fits ex_server_calls g_start.
Proof.
  apply server_fits_cons; [exact fits_exchange|]. apply server_fits_cons; [exact fits_session|].
  apply server_fits_cons; [exact (fits_write g_session session_choices)|]. apply server_fits_cons; [exact I|].
  apply server_fits_cons; [split; vm_compute; lia|exact I].
Qed.

Lemma compound_server_safe_witness :
  server_fits ex_server_calls (empty_store, mk_fs false []) /\ wp (run_server ex_server_calls) (fun _ g => server_ok g) (empty_store, mk_fs false []).
Proof. split; [exact server_calls_fit|]. exact (compound_server_safe ex_epoch ex_server_calls (mk_fs false []) server_calls_fit). Defined.

Lemma g_session_ok : server_ok g_session.
Proof.
  assert (Hok : server_ok g_start) by (split; [exists []; apply empty_store_ok|by intros s x Hx]).
  pose proof (wp_server_call ex_epoch ask_exchange g_start Hok fits_exchange) as H1. destruct (proj1 (wp_elim _ _ _) H1) as ([] & g1 & Hrun1 & Hok1).
  assert (g1 = g_exchanged) as -> by (unfold g_exchanged, after_server; by rewrite Hrun1).
  pose proof (wp_server_call ex_epoch ask_session g_exchanged Hok1 fits_session) as H2. destruct (proj1 (wp_elim _ _ _) H2) as ([] & g2 & Hrun2 & Hok2).
  by assert (g2 = g_session) as <- by (unfold g_session, after_server; by rewrite Hrun2).
Qed.

Definition the_sequence : SEQUENCE4args := mk_sequence first_session 1 3.

Lemma g_session_ready : session_ready the_sequence 3 g_session.1.
Proof.
  split_and!; [by vm_compute|by vm_compute|]. destruct (cw_sessions g_session.1 !! 3%positive) as [x|] eqn:Hx; [|exfalso; revert Hx; by vm_compute].
  assert (Hrec : clientid_record <$> cw_sessions g_session.1 !! 3%positive = Some 2%positive) by (by vm_compute). rewrite Hx in Hrec. simpl in Hrec. injection Hrec as Hrec.
  destruct (cw_ids g_session.1 !! 2%positive) as [c|] eqn:Hc; [|exfalso; revert Hc; by vm_compute]. exists x, c. rewrite Hrec. split_and!; [done|done|].
  assert (Hl : (fun c => lease_valid c g_session.1) <$> cw_ids g_session.1 !! 2%positive = Some true) by (by vm_compute). rewrite Hc in Hl. by injection Hl.
Qed.

Lemma g_session_slot : slot_is first_session 3 3 zero_slot g_session.1.
Proof.
  split; [by vm_compute|]. intros x Hx. assert (H : (fun x => (session_id x, s_slots x !! 3%nat)) <$> cw_sessions g_session.1 !! 3%positive = Some (first_session, Some zero_slot)) by (by vm_compute).
  rewrite Hx in H. cbn [fmap option_fmap option_map] in H. split; congruence.
Qed.

Lemma write_starts : compound_start the_write g_session = Ret (inr (credential alice41)) g_session.
Proof. by vm_compute. Qed.

Lemma compound_runs_once_witness :
  server_ok g_session /\ session_ready the_sequence 3 g_session.1 /\
  wp (nfs4_Compound the_write) (fun r g1 => exists res, r = Some res /\
    wp (run_server [wait 1]) (fun _ g2 => forall cred g3, compound_start the_write g2 = Ret (inr cred) g3 -> session_ready the_sequence 3 g2.1 ->
      wp (nfs4_Compound the_write) (fun r' _ => r' = Some res) g2) g1) g_session.
Proof.
  split; [exact g_session_ok|]. split; [exact g_session_ready|].
  assert (Hno : Forall (fun op => creates_session op = false) write_hello) by (repeat constructor).
  eapply wp_mono; [|exact (compound_runs_once ex_epoch the_write the_sequence write_hello (credential alice41) g_session g_session 3 zero_slot
    eq_refl Hno eq_refl g_session_ok (fits_write g_session session_choices) write_starts g_session_ready g_session_slot eq_refl)].
  intros r g1 (res & Hr & Honce). exists res. split; [exact Hr|].
  assert (Hcalls : Forall (not_next_call first_session 3 (mk_slot 1 (mk_slot_cache res true))) [wait 1 : server_call (D := ex_data)]) by (by constructor).
  eapply wp_mono; [|exact (Honce [wait 1] (conj I (fun _ _ => I)) Hcalls)].
  intros u g2 Hretry cred g3 Hst Hrd.
  eapply wp_mono; [|exact (Hretry the_write write_hello cred g3 eq_refl eq_refl (List.Forall_nil _) Hst Hrd)].
  intros r' g4 [Hr' _]. exact Hr'.
Defined.

Lemma g_session_typed : replies_typed g_session.1.
Proof.
  assert (HT : replies_typed g_start.1) by (split; by intros).
  assert (Hstep : forall call g g', replies_typed g.1 -> run_server_call call g = Ret tt g' -> (exists arg, call = serve arg) -> replies_typed g'.1).
  { intros call g g' HTg Hrun [arg ->]. assert (Hw : wlp (run_server_call (serve arg)) (fun _ g' => replies_typed g'.1) g).
    { cbn [run_server_call]. apply wlp_bind. eapply wlp_mono; [|by apply wlp_compound_type]. intros r g1 [HT1 _]. by apply wlp_ret. }
    by apply (Hw tt g'). }
  assert (Hok : server_ok g_start) by (split; [exists []; apply empty_store_ok|by intros s x Hx]).
  pose proof (wp_server_call ex_epoch ask_exchange g_start Hok fits_exchange) as H1. destruct (proj1 (wp_elim _ _ _) H1) as ([] & g1 & Hrun1 & Hok1).
  assert (HT1 : replies_typed g1.1) by (apply (Hstep _ _ _ HT Hrun1); by eexists).
  assert (g1 = g_exchanged) as -> by (unfold g_exchanged, after_server; by rewrite Hrun1).
  pose proof (wp_server_call ex_epoch ask_session g_exchanged Hok1 fits_session) as H2. destruct (proj1 (wp_elim _ _ _) H2) as ([] & g2 & Hrun2 & _).
  assert (HT2 : replies_typed g2.1) by (apply (Hstep _ _ _ HT1 Hrun2); by eexists).
  by assert (g2 = g_session) as <- by (unfold g_session, after_server; by rewrite Hrun2).
Qed.

Lemma compound_reply_typed_witness :
  exists res g1, nfs4_Compound the_write g_session = Ret (Some res) g1 /\ well_shaped res /\ length (res_ops res) = 3%nat.
Proof.
  pose proof (compound_reply_typed ex_epoch the_write g_session g_session_ok (fits_write g_session session_choices) g_session_typed) as Hwp.
  destruct (proj1 (wp_elim _ _ _) Hwp) as (r & g1 & Hrun & _ & Hsh).
  assert (Hlen : match nfs4_Compound the_write g_session with Ret (Some res) _ => length (res_ops res) | _ => 0%nat end = 3%nat) by (by vm_compute).
  rewrite Hrun in Hlen. destruct r as [res|]; [|done]. exists res, g1. split_and!; [done|by apply Hsh|done].
Defined.

Lemma compound_needs_session_witness :
  nfs4_Compound (cenv := guarded has_session ex_cenv) the_write g_session = nfs4_Compound the_write g_session /\
  Forall (fun op => decoded op = true) (arg_ops the_write).
Proof.
  assert (Hd : Forall (fun op => decoded op = true) (arg_ops the_write)) by (repeat constructor). split; [|done].
  exact (compound_needs_session the_write g_session eq_refl eq_refl Hd).
Defined.
End CompoundExamples.
