(* ===== verification/Dupreq.v ===== *)
(** The duplicate request cache (RPCAL/nfs_dupreq.c) and the part of the dispatcher that uses it
    (MainNFSD/nfs_worker_thread.c, nfs_rpc_dispatcher_thread.c): a request is looked up by its transaction
    id and checksum in the cache of its connection, is run when it is new, and its result is kept for
    retransmissions.

    The trees of the RPC library are the class [RbTree] with its laws [RbTreeLaws]; the array of
    nodes that stands in front of a tree is part of it.  Mutexes are not modelled: each function is one
    step, and the steps of several requests interleave.  A result is the list of the numbers in it. *)

From S2P Require Import Prelude.

(** * Comparisons *)

(** The memory of a [sockaddr_t], as [sockaddr_cmpf] reads it: the family, the port, the word after it
    (the IPv4 address, or the flow of IPv6) and the sixteen bytes of the IPv6 address. *)
Record sockaddr_storage : Set := mk_ss {
  ss_family : Z;
  sin_port : Z;
  sin_addr : Z;
  sin6_addr : list Z
}.

Definition zero_ss : sockaddr_storage := mk_ss 0 0 0 (repeat 0 16).
Definition FAMILY_INET : Z := 2.
Definition FAMILY_INET6 : Z := 10.

(** The sign of [memcmp]. *)
Fixpoint memcmp (s t : list Z) : Z :=
  match s, t with
  | c :: s, d :: t => if c <? d then -1 else if d <? c then 1 else memcmp s t
  | _, _ => 0
  end.

Definition uint32_cmpf (lhs rhs : Z) : Z := if lhs <? rhs then -1 else if lhs =? rhs then 0 else 1.
Definition uint64_cmpf (lhs rhs : Z) : Z := if lhs <? rhs then -1 else if lhs =? rhs then 0 else 1.

Definition sockaddr_cmpf (addr1 addr2 : sockaddr_storage) (ignore_port : bool) : Z :=
  if ss_family addr1 =? FAMILY_INET then
    if sin_addr addr1 <? sin_addr addr2 then -1
    else if sin_addr addr1 =? sin_addr addr2 then
      if ignore_port then 0
      else if sin_port addr1 <? sin_port addr2 then -1
      else if sin_port addr1 =? sin_port addr2 then 0 else 1
    else 1
  else if ss_family addr1 =? FAMILY_INET6 then
    let acmp := memcmp (sin6_addr addr1) (sin6_addr addr2) in
    if acmp =? 0 then
      if ignore_port then 0
      else if sin_port addr1 <? sin_port addr2 then -1
      else if sin_port addr1 =? sin_port addr2 then 0 else 1
    else if acmp <? 0 then -1 else 1
  else -2.

(** What identifies a request: the address (over UDP), the transaction id, the checksum. *)
Record dupreq_key : Set := mk_key {
  key_addr : sockaddr_storage;
  key_xid : Z;
  key_hk : Z
}.

Definition dupreq_shared_cmpf (lk rk : dupreq_key) : Z :=
  let addr := sockaddr_cmpf (key_addr lk) (key_addr rk) false in
  if addr =? -1 then -1
  else if addr =? 0 then
    let xid := uint32_cmpf (key_xid lk) (key_xid rk) in
    if xid =? -1 then -1 else if xid =? 0 then uint64_cmpf (key_hk lk) (key_hk rk) else 1
  else 1.

Definition dupreq_tcp_cmpf (lk rk : dupreq_key) : Z :=
  if key_xid lk <? key_xid rk then -1
  else if key_xid lk =? key_xid rk then uint64_cmpf (key_hk lk) (key_hk rk) else 1.

Definition drc_recycle_cmpf (lk rk : sockaddr_storage) : Z := sockaddr_cmpf lk rk false.

(** * Trees *)

(** The red-black trees of the RPC library, for a comparison of keys, and the partition a number falls in. *)
Class RbTree := {
  rbt_partition : positive -> Z -> Z;
  rbtree : Type -> Type;
  rbt_init : forall K, rbtree K;
  rbt_lookup : forall {K}, (K -> K -> Z) -> rbtree K -> K -> option loc;
  rbt_insert : forall {K}, (K -> K -> Z) -> rbtree K -> K -> loc -> rbtree K;
  rbt_remove : forall {K}, (K -> K -> Z) -> rbtree K -> K -> rbtree K
}.

(** [rbtree_x]: a tree in partitions, by a number. *)
Abbreviation rbtree_x K := (gmap Z (rbtree K)).

Section rbtree_x.
Context {rb : RbTree} {K : Type} (cmpf : K -> K -> Z) (npart : positive).

Definition rbtx_init : rbtree_x K := ∅.
Definition rbtx_partition_of_scalar (hk : Z) : Z := rbt_partition npart hk.
Definition rbtx_partition (xt : rbtree_x K) (hk : Z) : rbtree K :=
  default (rbt_init K) (xt !! rbtx_partition_of_scalar hk).
Definition rbtx_lookup (xt : rbtree_x K) (hk : Z) (k : K) : option loc := rbt_lookup cmpf (rbtx_partition xt hk) k.
Definition rbtx_insert (xt : rbtree_x K) (hk : Z) (k : K) (node : loc) : rbtree_x K :=
  <[rbtx_partition_of_scalar hk := rbt_insert cmpf (rbtx_partition xt hk) k node]> xt.
Definition rbtx_remove (xt : rbtree_x K) (hk : Z) (k : K) : rbtree_x K :=
  <[rbtx_partition_of_scalar hk := rbt_remove cmpf (rbtx_partition xt hk) k]> xt.
End rbtree_x.

(** * Procedures *)

Inductive func_table : Set :=
| invalid_funcdesc | nfs3_func_desc | nfs4_func_desc | mnt1_func_desc | mnt3_func_desc
| nlm4_func_desc | rquota1_func_desc | rquota2_func_desc.

#[global] Instance func_table_eq_dec : EqDecision func_table.
Proof. solve_decision. Defined.

(** An entry of a table of procedures. *)
Abbreviation nfs_function_desc := (func_table * Z)%type.

(** [dispatch_behaviour & CAN_BE_DUP]. *)
Definition CAN_BE_DUP (desc : nfs_function_desc) : bool :=
  match desc.1 with
  | nfs3_func_desc => bool_decide (desc.2 ∈ [2; 7; 8; 9; 10; 11; 12; 13; 14; 15])
  | nfs4_func_desc => desc.2 =? 1
  | _ => false
  end.
Definition is_compound (desc : nfs_function_desc) : bool := bool_decide (desc = (nfs4_func_desc, 1)).

(** * The lookahead of a compound *)

Definition NFS_LOOKAHEAD_MOUNT : Z := 0x1.
Definition NFS_LOOKAHEAD_OPEN : Z := 0x2.
Definition NFS_LOOKAHEAD_CLOSE : Z := 0x4.
Definition NFS_LOOKAHEAD_READ : Z := 0x8.
Definition NFS_LOOKAHEAD_WRITE : Z := 0x10.
Definition NFS_LOOKAHEAD_COMMIT : Z := 0x20.
Definition NFS_LOOKAHEAD_CREATE : Z := 0x40.
Definition NFS_LOOKAHEAD_REMOVE : Z := 0x80.
Definition NFS_LOOKAHEAD_RENAME : Z := 0x100.
Definition NFS_LOOKAHEAD_LOCK : Z := 0x200.
Definition NFS_LOOKAHEAD_READDIR : Z := 0x400.
Definition NFS_LOOKAHEAD_LAYOUTCOMMIT : Z := 0x40.
Definition NFS_LOOKAHEAD_SETATTR : Z := 0x80.
Definition NFS_LOOKAHEAD_SETCLIENTID : Z := 0x100.
Definition NFS_LOOKAHEAD_SETCLIENTID_CONFIRM : Z := 0x200.
Definition NFS_LOOKAHEAD_LOOKUP : Z := 0x400.
Definition NFS_LOOKAHEAD_READLINK : Z := 0x800.

(** The flag of an operation, by its number; [creates] is that of an OPEN. *)
Definition op_lookahead (op : Z) (creates : bool) : Z :=
  match op with
  | 4 (* CLOSE *) => NFS_LOOKAHEAD_CLOSE
  | 5 (* COMMIT *) => NFS_LOOKAHEAD_COMMIT
  | 6 (* CREATE *) => NFS_LOOKAHEAD_CREATE
  | 12 (* LOCK *) | 14 (* LOCKU *) => NFS_LOOKAHEAD_LOCK
  | 15 (* LOOKUP *) | 16 (* LOOKUPP *) => NFS_LOOKAHEAD_LOOKUP
  | 18 (* OPEN *) => if creates then Z.lor NFS_LOOKAHEAD_OPEN NFS_LOOKAHEAD_CREATE else NFS_LOOKAHEAD_OPEN
  | 20 (* OPEN_CONFIRM *) | 21 (* OPEN_DOWNGRADE *) => NFS_LOOKAHEAD_OPEN
  | 25 (* READ *) | 65 (* READ_PLUS *) => NFS_LOOKAHEAD_READ
  | 26 (* READDIR *) => NFS_LOOKAHEAD_READDIR
  | 27 (* READLINK *) => NFS_LOOKAHEAD_READLINK
  | 28 (* REMOVE *) => NFS_LOOKAHEAD_REMOVE
  | 29 (* RENAME *) => NFS_LOOKAHEAD_RENAME
  | 34 (* SETATTR *) => NFS_LOOKAHEAD_SETATTR
  | 35 (* SETCLIENTID *) => NFS_LOOKAHEAD_SETCLIENTID
  | 36 (* SETCLIENTID_CONFIRM *) => NFS_LOOKAHEAD_SETCLIENTID_CONFIRM
  | 38 (* WRITE *) | 64 (* WRITE_PLUS *) => NFS_LOOKAHEAD_WRITE
  | 49 (* LAYOUTCOMMIT *) => NFS_LOOKAHEAD_LAYOUTCOMMIT
  | _ => 0
  end.

Definition lookahead_flags (ops : list (Z * bool)) : Z :=
  foldr (fun op flags => Z.lor (op_lookahead op.1 op.2) flags) 0 ops.

(** [nfs_dupreq_v4_cacheable], of the minor version and the flags. *)
Definition nfs_dupreq_v4_cacheable (minorversion flags : Z) : bool :=
  if 0 <? minorversion then false
  else if bit_set flags NFS_LOOKAHEAD_CREATE then true
  else if bit_set flags (Z.lor NFS_LOOKAHEAD_OPEN (Z.lor NFS_LOOKAHEAD_CLOSE (Z.lor NFS_LOOKAHEAD_LOCK
            (Z.lor NFS_LOOKAHEAD_READ (Z.lor NFS_LOOKAHEAD_READLINK NFS_LOOKAHEAD_READDIR))))) then false
  else true.

(** * The state *)

Inductive drc_type : Set := DRC_TCP_V4 | DRC_TCP_V3 | DRC_UDP_V234.
(** The comparison that the tree of a cache is made with. *)
Definition type_cmpf (t : drc_type) : dupreq_key -> dupreq_key -> Z :=
  match t with DRC_UDP_V234 => dupreq_shared_cmpf | _ => dupreq_tcp_cmpf end.
Inductive dupreq_state_t : Set := DUPREQ_START | DUPREQ_COMPLETE | DUPREQ_DELETED.
Inductive dupreq_status_t : Set :=
| DUPREQ_SUCCESS | DUPREQ_INSERT_MALLOC_ERROR | DUPREQ_BEING_PROCESSED | DUPREQ_EXISTS | DUPREQ_ERROR.

#[global] Instance drc_type_eq_dec : EqDecision drc_type.
Proof. solve_decision. Defined.
#[global] Instance dupreq_state_eq_dec : EqDecision dupreq_state_t.
Proof. solve_decision. Defined.
#[global] Instance dupreq_status_eq_dec : EqDecision dupreq_status_t.
Proof. solve_decision. Defined.
#[global] Instance sockaddr_storage_eq_dec : EqDecision sockaddr_storage.
Proof. solve_decision. Defined.
#[global] Instance dupreq_key_eq_dec : EqDecision dupreq_key.
Proof. solve_decision. Defined.

(** A cache: [d_recycle] is DRC_FLAG_RECYCLE. *)
Record drc_t `{RbTree} : Type := mk_drc {
  d_type : drc_type;
  d_xt : rbtree_x dupreq_key;
  dupreq_q : list loc;
  d_npart : positive;
  d_size : Z;
  d_maxsize : Z;
  d_hiwat : Z;
  d_recycle : bool;
  d_refcnt : Z;
  d_retwnd : Z;
  d_addr : sockaddr_storage;
  d_recycle_time : Z;
  d_hk : Z
}.
Arguments mk_drc {_}.

Record dupreq_entry_t : Set := mk_dupreq {
  hin_drc : loc;
  de_key : dupreq_key;
  hin_prog : Z;
  hin_vers : Z;
  hin_proc : Z;
  de_state : dupreq_state_t;
  de_refcnt : Z;
  de_res : option loc;
  de_timestamp : Z
}.

(** A transport: whether [xp_p2] and [xp_p1] are set, the address of the caller, and the cache in its private data. *)
Record svcxprt : Set := mk_xprt {
  xp_p2 : bool;
  xp_p1 : bool;
  xp_caller : option sockaddr_storage;
  xu_drc : option loc
}.

(** A request, as it is decoded. *)
Record nfs_request : Set := mk_request {
  rq_xprt : loc;
  rq_xid : Z;
  rq_prog : Z;
  rq_vers : Z;
  rq_proc : Z;
  rq_cksum : Z;
  rq_minorversion : Z;
  rq_lookahead : Z
}.

(** [rq_u1]: a mark, or an entry of a cache. *)
Inductive dupreq_u1 : Set := DUPREQ_NOCACHE | DUPREQ_BAD_ADDR1 | dupreq_at (dv : loc).

#[global] Instance dupreq_u1_eq_dec : EqDecision dupreq_u1.
Proof. solve_decision. Defined.

(** A request that is being executed: its procedure runs, or only its release is left. *)
Inductive phase : Set := running | leaving.
Record thread : Set := mk_thread {
  th_req : nfs_request;
  th_u1 : dupreq_u1;
  th_res : loc;
  th_phase : phase
}.

Record dworld `{RbTree} : Type := mk_dworld {
  dw_drcs : gmap loc drc_t;
  dw_entries : gmap loc dupreq_entry_t;
  dw_results : gmap loc (list Z);
  dw_xprts : gmap loc svcxprt;
  dw_threads : gmap loc thread;
  udp_drc : loc;
  tcp_drc_recycle_t : rbtree_x sockaddr_storage;
  tcp_drc_recycle_q : list loc;
  tcp_drc_recycle_qlen : Z;
  last_expire_check : Z;
  dw_next : loc;
  dw_allocs : list bool;
  dw_time : Z
}.
Arguments mk_dworld {_}.

(** The configuration (DRC and program numbers), and the hash function of support/city.c. *)
Class DupreqEnv := {
  drc_disabled : bool;
  drc_tcp_size : Z;
  drc_tcp_npart : positive;
  drc_udp_size : Z;
  drc_udp_hiwat : Z;
  drc_udp_npart : positive;
  drc_recycle_npart : positive;
  drc_recycle_expire_s : Z;
  core_nfsv3 : bool;
  core_nfsv4 : bool;
  program_nfs : Z;
  program_mnt : Z;
  program_nlm : Z;
  program_rquota : Z;
  hash_sockaddr_911 : sockaddr_storage -> Z
}.

Section setters.
Context {rb : RbTree}.
Implicit Types d : drc_t.

Definition with_queue (xt : rbtree_x dupreq_key) (q : list loc) (size : Z) d : drc_t :=
  mk_drc (d_type d) xt q (d_npart d) size (d_maxsize d) (d_hiwat d) (d_recycle d) (d_refcnt d)
    (d_retwnd d) (d_addr d) (d_recycle_time d) (d_hk d).
Definition with_refcnt (n : Z) d : drc_t :=
  mk_drc (d_type d) (d_xt d) (dupreq_q d) (d_npart d) (d_size d) (d_maxsize d) (d_hiwat d) (d_recycle d) n
    (d_retwnd d) (d_addr d) (d_recycle_time d) (d_hk d).
Definition with_recycle (b : bool) (t : Z) d : drc_t :=
  mk_drc (d_type d) (d_xt d) (dupreq_q d) (d_npart d) (d_size d) (d_maxsize d) (d_hiwat d) b (d_refcnt d)
    (d_retwnd d) (d_addr d) t (d_hk d).
Definition with_retwnd (n : Z) d : drc_t :=
  mk_drc (d_type d) (d_xt d) (dupreq_q d) (d_npart d) (d_size d) (d_maxsize d) (d_hiwat d) (d_recycle d) (d_refcnt d)
    n (d_addr d) (d_recycle_time d) (d_hk d).

Definition with_state (s : dupreq_state_t) (t : Z) (e : dupreq_entry_t) : dupreq_entry_t :=
  mk_dupreq (hin_drc e) (de_key e) (hin_prog e) (hin_vers e) (hin_proc e) s (de_refcnt e) (de_res e) t.
Definition with_entry_refcnt (n : Z) (e : dupreq_entry_t) : dupreq_entry_t :=
  mk_dupreq (hin_drc e) (de_key e) (hin_prog e) (hin_vers e) (hin_proc e) (de_state e) n (de_res e) (de_timestamp e).
Definition with_res (r : option loc) (e : dupreq_entry_t) : dupreq_entry_t :=
  mk_dupreq (hin_drc e) (de_key e) (hin_prog e) (hin_vers e) (hin_proc e) (de_state e) (de_refcnt e) r (de_timestamp e).

Implicit Types w : dworld.
Definition upd_drcs (f : gmap loc drc_t -> gmap loc drc_t) w : dworld :=
  mk_dworld (f (dw_drcs w)) (dw_entries w) (dw_results w) (dw_xprts w) (dw_threads w) (udp_drc w) (tcp_drc_recycle_t w)
    (tcp_drc_recycle_q w) (tcp_drc_recycle_qlen w) (last_expire_check w) (dw_next w) (dw_allocs w) (dw_time w).
Definition upd_entries (f : gmap loc dupreq_entry_t -> gmap loc dupreq_entry_t) w : dworld :=
  mk_dworld (dw_drcs w) (f (dw_entries w)) (dw_results w) (dw_xprts w) (dw_threads w) (udp_drc w) (tcp_drc_recycle_t w)
    (tcp_drc_recycle_q w) (tcp_drc_recycle_qlen w) (last_expire_check w) (dw_next w) (dw_allocs w) (dw_time w).
Definition upd_results (f : gmap loc (list Z) -> gmap loc (list Z)) w : dworld :=
  mk_dworld (dw_drcs w) (dw_entries w) (f (dw_results w)) (dw_xprts w) (dw_threads w) (udp_drc w) (tcp_drc_recycle_t w)
    (tcp_drc_recycle_q w) (tcp_drc_recycle_qlen w) (last_expire_check w) (dw_next w) (dw_allocs w) (dw_time w).
Definition upd_xprts (f : gmap loc svcxprt -> gmap loc svcxprt) w : dworld :=
  mk_dworld (dw_drcs w) (dw_entries w) (dw_results w) (f (dw_xprts w)) (dw_threads w) (udp_drc w) (tcp_drc_recycle_t w)
    (tcp_drc_recycle_q w) (tcp_drc_recycle_qlen w) (last_expire_check w) (dw_next w) (dw_allocs w) (dw_time w).
Definition upd_threads (f : gmap loc thread -> gmap loc thread) w : dworld :=
  mk_dworld (dw_drcs w) (dw_entries w) (dw_results w) (dw_xprts w) (f (dw_threads w)) (udp_drc w) (tcp_drc_recycle_t w)
    (tcp_drc_recycle_q w) (tcp_drc_recycle_qlen w) (last_expire_check w) (dw_next w) (dw_allocs w) (dw_time w).
Definition upd_recycle (t : rbtree_x sockaddr_storage) (q : list loc) (n : Z) w : dworld :=
  mk_dworld (dw_drcs w) (dw_entries w) (dw_results w) (dw_xprts w) (dw_threads w) (udp_drc w) t
    q n (last_expire_check w) (dw_next w) (dw_allocs w) (dw_time w).
Definition upd_last_check (t : Z) w : dworld :=
  mk_dworld (dw_drcs w) (dw_entries w) (dw_results w) (dw_xprts w) (dw_threads w) (udp_drc w) (tcp_drc_recycle_t w)
    (tcp_drc_recycle_q w) (tcp_drc_recycle_qlen w) t (dw_next w) (dw_allocs w) (dw_time w).
Definition upd_next (f : loc -> loc) w : dworld :=
  mk_dworld (dw_drcs w) (dw_entries w) (dw_results w) (dw_xprts w) (dw_threads w) (udp_drc w) (tcp_drc_recycle_t w)
    (tcp_drc_recycle_q w) (tcp_drc_recycle_qlen w) (last_expire_check w) (f (dw_next w)) (dw_allocs w) (dw_time w).
Definition upd_allocs (bs : list bool) w : dworld :=
  mk_dworld (dw_drcs w) (dw_entries w) (dw_results w) (dw_xprts w) (dw_threads w) (udp_drc w) (tcp_drc_recycle_t w)
    (tcp_drc_recycle_q w) (tcp_drc_recycle_qlen w) (last_expire_check w) (dw_next w) bs (dw_time w).
Definition upd_time (t : Z) w : dworld :=
  mk_dworld (dw_drcs w) (dw_entries w) (dw_results w) (dw_xprts w) (dw_threads w) (udp_drc w) (tcp_drc_recycle_t w)
    (tcp_drc_recycle_q w) (tcp_drc_recycle_qlen w) (last_expire_check w) (dw_next w) (dw_allocs w) t.
End setters.

(** Taking an element out of a queue. *)
Definition tailq_remove (x : loc) (q : list loc) : list loc := filter (fun y => y <> x) q.

Section dupreq.
Context {rb : RbTree} {env : DupreqEnv}.
Abbreviation M := (M dworld).

(** * Memory *)

Definition get_drc (c : loc) : M drc_t := deref (fun w => dw_drcs w !! c).
Definition get_entry (dv : loc) : M dupreq_entry_t := deref (fun w => dw_entries w !! dv).
Definition get_xprt (x : loc) : M svcxprt := deref (fun w => dw_xprts w !! x).
Definition set_drc (c : loc) (f : drc_t -> drc_t) : M unit := d ← get_drc c; modify (upd_drcs (<[c := f d]>)).
Definition set_entry (dv : loc) (f : dupreq_entry_t -> dupreq_entry_t) : M unit :=
  e ← get_entry dv; modify (upd_entries (<[dv := f e]>)).

(** A new object: nothing when there is no memory. *)
Definition pool_alloc : M (option loc) := fun w =>
  match dw_allocs w with
  | false :: bs => Ret None (upd_allocs bs w)
  | bs => Ret (Some (dw_next w)) (upd_next Pos.succ (upd_allocs (tail bs) w))
  end.

(** [memset] of the result of a failed allocation is undefined. *)
Definition alloc_nfs_res : M loc :=
  r ← pool_alloc;
  match r with
  | Some r => modify (upd_results (<[r := []]>));; mret r
  | None => undef
  end.
Definition free_nfs_res (r : loc) : M unit := deref (fun w => dw_results w !! r);; modify (upd_results (delete r)).

(** * Caches *)

Definition init_shared_drc : drc_t :=
  mk_drc DRC_UDP_V234 rbtx_init [] drc_udp_npart 0 drc_udp_size drc_udp_hiwat false 0 0 zero_ss 0 0.

Definition dupreq2_pkginit (now : Z) : dworld :=
  mk_dworld {[1%positive := init_shared_drc]} ∅ ∅ ∅ ∅ 1%positive rbtx_init [] 0 now 2%positive [] now.

Definition get_drc_type (xprt : svcxprt) (vers : Z) : drc_type :=
  if xp_p2 xprt then DRC_UDP_V234 else if vers =? 4 then DRC_TCP_V4 else DRC_TCP_V3.

(** The water mark of a cache for a connection is that of UDP. *)
Definition alloc_tcp_drc (dtype : drc_type) : M (option loc) :=
  c ← pool_alloc;
  match c with
  | Some c =>
      modify (upd_drcs (<[c := mk_drc dtype rbtx_init [] drc_tcp_npart 0 drc_tcp_size drc_udp_hiwat false 0 0 zero_ss 0 0]>));;
      mret (Some c)
  | None => mret None
  end.

Definition free_tcp_drc (c : loc) : M unit := get_drc c;; modify (upd_drcs (delete c)).

Definition nfs_dupreq_ref_drc (c : loc) : M unit := set_drc c (fun d => with_refcnt (u32 (d_refcnt d + 1)) d).
Definition nfs_dupreq_unref_drc (c : loc) : M unit := set_drc c (fun d => with_refcnt (u32 (d_refcnt d - 1)) d).

(** The loop over the queue of unused caches. *)
Fixpoint free_expired (fuel : nat) (now : Z) : M unit :=
  match fuel with
  | O => stuck
  | S fuel =>
      q ← gets tcp_drc_recycle_q;
      match q with
      | c :: _ =>
          d ← get_drc c;
          if (0 <? d_recycle_time d) && (drc_recycle_expire_s <? now - d_recycle_time d) && (d_refcnt d =? 0) then
            t ← gets tcp_drc_recycle_t;
            let t' := match rbtx_lookup drc_recycle_cmpf drc_recycle_npart t (d_hk d) (d_addr d) with
                      | Some _ => rbtx_remove drc_recycle_cmpf drc_recycle_npart t (d_hk d) (d_addr d)
                      | None => t
                      end in
            modify (fun w => upd_recycle t' (tailq_remove c q) (i32 (tcp_drc_recycle_qlen w - 1)) w);;
            set_drc c (fun d => with_recycle false (d_recycle_time d) d);;
            when (d_refcnt d =? 0) (free_tcp_drc c);;
            free_expired fuel now
          else modify (upd_last_check now)
      | [] => modify (upd_last_check now)
      end
  end.

Definition drc_free_expired : M unit :=
  now ← gets dw_time;
  qlen ← gets tcp_drc_recycle_qlen;
  last ← gets last_expire_check;
  if (qlen <? 1) || (now - last <? 600) then mret tt
  else q ← gets tcp_drc_recycle_q; free_expired (S (length q)) now.

(** A connection gets the cache of its address, or a new one. *)
Definition attach_drc (dtype : drc_type) (x : loc) : M loc :=
  xprt ← get_xprt x;
  let addr := default zero_ss (xp_caller xprt) in
  let hk := hash_sockaddr_911 addr in
  t ← gets tcp_drc_recycle_t;
  c ← match rbtx_lookup drc_recycle_cmpf drc_recycle_npart t hk addr with
      | Some tdrc =>
          d ← get_drc tdrc;
          when (d_recycle d)
            (modify (fun w => upd_recycle t (tailq_remove tdrc (tcp_drc_recycle_q w)) (i32 (tcp_drc_recycle_qlen w - 1)) w);;
             set_drc tdrc (fun d => with_recycle false (d_recycle_time d) d));;
          mret tdrc
      | None =>
          new ← alloc_tcp_drc dtype;
          match new with
          | None => undef
          | Some c =>
              set_drc c (fun d => mk_drc (d_type d) (d_xt d) (dupreq_q d) (d_npart d) (d_size d) (d_maxsize d) (d_hiwat d)
                                    (d_recycle d) 1 (d_retwnd d) addr (d_recycle_time d) hk);;
              modify (fun w => upd_recycle (rbtx_insert drc_recycle_cmpf drc_recycle_npart t hk addr c)
                                 (tcp_drc_recycle_q w) (tcp_drc_recycle_qlen w) w);;
              mret c
          end
      end;
  set_drc c (fun d => with_recycle (d_recycle d) 0 d);;
  nfs_dupreq_ref_drc c;;
  modify (upd_xprts (<[x := mk_xprt (xp_p2 xprt) (xp_p1 xprt) (xp_caller xprt) (Some c)]>));;
  mret c.

Definition nfs_dupreq_get_drc (req : nfs_request) : M loc :=
  xprt ← get_xprt (rq_xprt req);
  match get_drc_type xprt (rq_vers req) with
  | DRC_UDP_V234 => c ← gets udp_drc; nfs_dupreq_ref_drc c;; mret c
  | dtype =>
      '(c, drc_check_expired) ← match xu_drc xprt with
                                | Some c => get_drc c;; mret (c, false)
                                | None => c ← attach_drc dtype (rq_xprt req); mret (c, true)
                                end;
      nfs_dupreq_ref_drc c;;
      when drc_check_expired drc_free_expired;;
      mret c
  end.

(** When the last reference goes a cache is queued. *)
Definition nfs_dupreq_put_drc (c : loc) : M unit :=
  nfs_dupreq_unref_drc c;;
  d ← get_drc c;
  match d_type d with
  | DRC_UDP_V234 => mret tt
  | _ =>
      if (d_refcnt d =? 0) && negb (d_recycle d) then
        now ← gets dw_time;
        set_drc c (with_recycle true now);;
        modify (fun w => upd_recycle (tcp_drc_recycle_t w) (tcp_drc_recycle_q w ++ [c]) (i32 (tcp_drc_recycle_qlen w + 1)) w)
      else mret tt
  end.

(** * Procedures of requests *)

Definition is_rpc_call_valid (prog vers proc : Z) : bool :=
  if prog =? program_nfs then
    if vers =? 3 then core_nfsv3 && (proc <=? 21)
    else if vers =? 4 then core_nfsv4 && (proc <=? 1)
    else false
  else if (prog =? program_nlm) && core_nfsv3 then (vers =? 4) && (proc <=? 23)
  else if (prog =? program_mnt) && core_nfsv3 then
    if vers =? 3 then proc <=? 5 else if vers =? 1 then (proc <=? 5) && negb (proc =? 1) else false
  else if prog =? program_rquota then ((vers =? 1) || (vers =? 2)) && (proc <=? 4)
  else false.

Definition nfs_rpc_get_funcdesc (prog vers proc : Z) : nfs_function_desc :=
  if prog =? program_nfs then (if vers =? 3 then nfs3_func_desc else nfs4_func_desc, proc)
  else if prog =? program_nlm then (nlm4_func_desc, proc)
  else if prog =? program_mnt then (if vers =? 1 then mnt1_func_desc else mnt3_func_desc, proc)
  else if prog =? program_rquota then (if vers =? 1 then rquota1_func_desc else rquota2_func_desc, proc)
  else (invalid_funcdesc, 0).

Definition nfs_dupreq_func (e : dupreq_entry_t) : option nfs_function_desc :=
  if hin_prog e =? program_nfs then
    if hin_vers e =? 3 then Some (nfs3_func_desc, hin_proc e)
    else if hin_vers e =? 4 then Some (nfs4_func_desc, hin_proc e) else None
  else if hin_prog e =? program_mnt then
    if hin_vers e =? 1 then Some (mnt1_func_desc, hin_proc e)
    else if hin_vers e =? 3 then Some (mnt3_func_desc, hin_proc e) else None
  else if hin_prog e =? program_nlm then
    if hin_vers e =? 4 then Some (nlm4_func_desc, hin_proc e) else None
  else if hin_prog e =? program_rquota then
    if hin_vers e =? 1 then Some (rquota1_func_desc, hin_proc e)
    else if hin_vers e =? 2 then Some (rquota2_func_desc, hin_proc e) else None
  else None.

(** * Entries *)

Definition alloc_dupreq (e : dupreq_entry_t) : M loc :=
  dv ← pool_alloc;
  match dv with
  | Some dv => modify (upd_entries (<[dv := e]>));; mret dv
  | None => undef
  end.

Definition nfs_dupreq_free_dupreq (dv : loc) : M unit :=
  e ← get_entry dv;
  match de_res e with
  | Some r => match nfs_dupreq_func e with Some _ => free_nfs_res r | None => undef end
  | None => mret tt
  end;;
  modify (upd_entries (delete dv)).

Definition RETWND_START_BIAS : Z := 16.
Definition drc_inc_retwnd (d : drc_t) : drc_t :=
  with_retwnd (if d_retwnd d =? 0 then RETWND_START_BIAS else u32 (d_retwnd d + 1)) d.
Definition drc_dec_retwnd (d : drc_t) : drc_t := if 0 <? d_retwnd d then with_retwnd (d_retwnd d - 1) d else d.

Definition drc_should_retire (d : drc_t) : bool :=
  if d_maxsize d <? d_size d then true
  else if 0 <? d_retwnd d then false
  else d_hiwat d <? d_size d.

Definition drc_cmpf (d : drc_t) : dupreq_key -> dupreq_key -> Z := type_cmpf (d_type d).

(** The lookup of a request by its entry [dk]: the status, what [rq_u1] becomes and the result.
    A new request enters the cache; otherwise [dk] is freed. *)
Definition start_lookup (c dk : loc) : M (dupreq_status_t * dupreq_u1 * option loc) :=
  k ← get_entry dk;
  d ← get_drc c;
  match rbtx_lookup (drc_cmpf d) (d_npart d) (d_xt d) (key_hk (de_key k)) (de_key k) with
  | Some dv =>
      e ← get_entry dv;
      r ← (if decide (de_state e = DUPREQ_START) then mret (DUPREQ_BEING_PROCESSED, dupreq_at dv, None)
           else
             set_drc c drc_inc_retwnd;;
             set_entry dv (with_entry_refcnt (u32 (de_refcnt e + 1)));;
             mret (DUPREQ_EXISTS, dupreq_at dv, de_res e));
      nfs_dupreq_free_dupreq dk;;
      mret r
  | None =>
      r ← alloc_nfs_res;
      set_entry dk (fun e => with_entry_refcnt (u32 (de_refcnt e + 1)) (with_res (Some r) e));;
      set_drc c (fun d => with_queue (rbtx_insert (drc_cmpf d) (d_npart d) (d_xt d) (key_hk (de_key k)) (de_key k) dk)
                            (dupreq_q d ++ [dk]) (u32 (d_size d + 1)) d);;
      mret (DUPREQ_SUCCESS, dupreq_at dk, Some r)
  end.

(** Whether a request is not to be kept. *)
Definition start_nocache (d : drc_t) (req : nfs_request) : bool :=
  let desc := nfs_rpc_get_funcdesc (rq_prog req) (rq_vers req) (rq_proc req) in
  match d_type d with
  | DRC_TCP_V4 => is_compound desc && negb (nfs_dupreq_v4_cacheable (rq_minorversion req) (rq_lookahead req))
  | _ => negb (CAN_BE_DUP desc)
  end.

Definition nfs_dupreq_start (req : nfs_request) : M (dupreq_status_t * dupreq_u1 * option loc) :=
  if drc_disabled then r ← alloc_nfs_res; mret (DUPREQ_SUCCESS, DUPREQ_NOCACHE, Some r)
  else
    c ← nfs_dupreq_get_drc req;
    d ← get_drc c;
    if start_nocache d req then r ← alloc_nfs_res; mret (DUPREQ_SUCCESS, DUPREQ_NOCACHE, Some r)
    else
      xprt ← get_xprt (rq_xprt req);
      now ← gets dw_time;
      let entry addr := mk_dupreq c (mk_key addr (rq_xid req) (rq_cksum req)) (rq_prog req) (rq_vers req) (rq_proc req)
                          DUPREQ_START 0 None now in
      res ← match d_type d, xp_caller xprt with
            | DRC_UDP_V234, None =>
                dk ← alloc_dupreq (entry zero_ss);
                nfs_dupreq_free_dupreq dk;;
                mret (DUPREQ_INSERT_MALLOC_ERROR, DUPREQ_BAD_ADDR1, None)
            | DRC_UDP_V234, Some addr => dk ← alloc_dupreq (entry addr); start_lookup c dk
            | _, _ => dk ← alloc_dupreq (entry zero_ss); start_lookup c dk
            end;
      nfs_dupreq_put_drc c;;
      mret res.

(** The oldest entry is retired, if it is not in use. *)
Definition retire (c : loc) : M unit :=
  d ← get_drc c;
  match dupreq_q d with
  | [] => mret tt
  | ov :: _ =>
      set_drc c drc_dec_retwnd;;
      o ← get_entry ov;
      if 0 <? de_refcnt o then mret tt
      else
        set_drc c (fun d => with_queue (rbtx_remove (drc_cmpf d) (d_npart d) (d_xt d) (key_hk (de_key o)) (de_key o))
                              (tailq_remove ov (dupreq_q d)) (u32 (d_size d - 1)) d);;
        nfs_dupreq_free_dupreq ov
  end.

Definition nfs_dupreq_finish (u1 : dupreq_u1) (res : loc) : M dupreq_status_t :=
  match u1 with
  | DUPREQ_NOCACHE | DUPREQ_BAD_ADDR1 => mret DUPREQ_SUCCESS
  | dupreq_at dv =>
      now ← gets dw_time;
      set_entry dv (fun e => with_state DUPREQ_COMPLETE now (with_res (Some res) e));;
      e ← get_entry dv;
      d ← get_drc (hin_drc e);
      when (drc_should_retire d) (retire (hin_drc e));;
      mret DUPREQ_SUCCESS
  end.

Definition nfs_dupreq_delete (u1 : dupreq_u1) : M dupreq_status_t :=
  match u1 with
  | DUPREQ_NOCACHE | DUPREQ_BAD_ADDR1 => mret DUPREQ_SUCCESS
  | dupreq_at dv =>
      set_entry dv (fun e => with_state DUPREQ_DELETED (de_timestamp e) e);;
      e ← get_entry dv;
      set_drc (hin_drc e) (fun d =>
        with_queue (rbtx_remove (drc_cmpf d) (d_npart d) (d_xt d) (key_hk (de_key e)) (de_key e))
          (tailq_remove dv (dupreq_q d)) (u32 (d_size d - 1)) d);;
      nfs_dupreq_put_drc (hin_drc e);;
      mret DUPREQ_SUCCESS
  end.

Definition nfs_dupreq_rele (u1 : dupreq_u1) (res : loc) : M unit :=
  match u1 with
  | DUPREQ_NOCACHE => free_nfs_res res
  | DUPREQ_BAD_ADDR1 => undef
  | dupreq_at dv =>
      set_entry dv (fun e => with_entry_refcnt (u32 (de_refcnt e - 1)) e);;
      e ← get_entry dv;
      when ((de_refcnt e =? 0) && bool_decide (de_state e = DUPREQ_DELETED)) (nfs_dupreq_free_dupreq dv)
  end.

(** * Connections *)

(** [free_gsh_xprt_private], when the last reference on a transport goes. *)
Definition free_gsh_xprt_private (x : loc) : M unit :=
  xprt ← get_xprt x;
  match xu_drc xprt with Some c => nfs_dupreq_put_drc c | None => mret tt end;;
  modify (upd_xprts (delete x)).

(** * The execution of a request *)

(** What a client gets: nothing, a result, or an error of the RPC layer. *)
Inductive answer : Set := no_answer | replied (res : list Z) | rpc_error.

(** What a procedure, or the checks before it, come to: a result to be sent, a request to be dropped, or a
    refusal. *)
Inductive service_end : Set := served (res : list Z) (sent : bool) | dropped (res : list Z) | refused.

(** The first part of [nfs_rpc_execute], up to the procedure: what came of the lookup, and the answer. *)
Definition execute_start (req : nfs_request) (sent : bool) : M (option (dupreq_status_t * dupreq_u1) * answer) :=
  xprt ← get_xprt (rq_xprt req);
  match xp_caller xprt with
  | None => mret (None, rpc_error)
  | Some _ =>
      '(status, u1, res) ← nfs_dupreq_start req;
      let thread_for ph := match res with
                           | Some r => th ← gets dw_next;
                                       modify (upd_next Pos.succ);;
                                       modify (upd_threads (<[th := mk_thread req u1 r ph]>))
                           | None => mret tt
                           end in
      match status with
      | DUPREQ_SUCCESS => thread_for running;; mret (Some (status, u1), no_answer)
      | DUPREQ_EXISTS =>
          match res with
          | Some r => v ← deref (fun w => dw_results w !! r);
                      thread_for leaving;; mret (Some (status, u1), if sent then replied v else rpc_error)
          | None => undef
          end
      | DUPREQ_BEING_PROCESSED => thread_for leaving;; mret (Some (status, u1), no_answer)
      | DUPREQ_ERROR | DUPREQ_INSERT_MALLOC_ERROR => thread_for leaving;; mret (Some (status, u1), rpc_error)
      end
  end.

Definition get_thread (th : loc) : M thread := deref (fun w => dw_threads w !! th).

(** The part after the procedure, up to the release. *)
Definition execute_end (th : loc) (how : service_end) : M answer :=
  t ← get_thread th;
  modify (upd_threads (<[th := mk_thread (th_req t) (th_u1 t) (th_res t) leaving]>));;
  match how with
  | served v sent =>
      deref (fun w => dw_results w !! th_res t);;
      modify (upd_results (<[th_res t := v]>));;
      if sent then nfs_dupreq_finish (th_u1 t) (th_res t);; mret (replied v) else mret no_answer
  | dropped v =>
      deref (fun w => dw_results w !! th_res t);;
      modify (upd_results (<[th_res t := v]>));;
      nfs_dupreq_delete (th_u1 t);; mret no_answer
  | refused => nfs_dupreq_delete (th_u1 t);; mret rpc_error
  end.

Definition execute_release (th : loc) : M unit :=
  t ← get_thread th;
  modify (upd_threads (delete th));;
  nfs_dupreq_rele (th_u1 t) (th_res t).
End dupreq.
