(* ===== verification/DupreqInv.v ===== *)
(** The laws of the trees that the duplicate request cache uses, the orders of its keys, and the
    invariant of its store. *)

From S2P Require Import Prelude Dupreq.

(** * Orders *)

(** A comparison orders the keys that satisfy [P]; two keys are the same when it is 0. *)
Record order_on {K} (P : K -> Prop) (cmpf : K -> K -> Z) : Prop := mk_order {
  cmp_flip : forall a b, P a -> P b -> Z.sgn (cmpf b a) = - Z.sgn (cmpf a b);
  cmp_trans : forall a b c, P a -> P b -> P c -> cmpf a b <= 0 -> cmpf b c <= 0 -> cmpf a c <= 0
}.

Section order.
Context {K : Type} {P : K -> Prop} {cmpf : K -> K -> Z} (HO : order_on P cmpf).

Lemma order_sym a b : P a -> P b -> cmpf a b = 0 -> cmpf b a = 0.
Proof. intros Ha Hb E. pose proof (cmp_flip _ _ HO a b Ha Hb) as H. rewrite E in H. apply Z.sgn_null_iff. by rewrite H. Qed.

Lemma order_refl a : P a -> cmpf a a = 0.
Proof. intros Ha. pose proof (cmp_flip _ _ HO a a Ha Ha). apply Z.sgn_null_iff. lia. Qed.

Lemma order_trans a b c : P a -> P b -> P c -> cmpf a b = 0 -> cmpf b c = 0 -> cmpf a c = 0.
Proof.
  intros Ha Hb Hc E1 E2. pose proof (cmp_trans _ _ HO a b c Ha Hb Hc). pose proof (order_sym a b Ha Hb E1). pose proof (order_sym b c Hb Hc E2).
  pose proof (cmp_trans _ _ HO c b a Hc Hb Ha). pose proof (cmp_flip _ _ HO a c Ha Hc).
  assert (cmpf a c <= 0) by lia. assert (cmpf c a <= 0) by lia. apply Z.sgn_null_iff. destruct (Z.eq_dec (cmpf a c) 0) as [->|]; [done|].
  rewrite (Z.sgn_neg (cmpf a c)) in * by lia. assert (0 < cmpf c a) by (apply Z.sgn_pos_iff; lia). lia.
Qed.
End order.

Lemma memcmp_flip s t : memcmp t s = - memcmp s t.
Proof.
  revert t. induction s as [|c s IH]; intros [|d t]; try done. simpl. rewrite (IH t).
  destruct (Z.ltb_spec c d), (Z.ltb_spec d c); lia.
Qed.

Lemma memcmp_values s t : memcmp s t = -1 \/ memcmp s t = 0 \/ memcmp s t = 1.
Proof.
  revert t. induction s as [|c s IH]; intros [|d t]; simpl; [tauto..|]. destruct (c <? d); [tauto|]. destruct (d <? c); [tauto|]. apply IH.
Qed.

Lemma memcmp_trans s t u :
  length s = length t -> length t = length u -> memcmp s t <= 0 -> memcmp t u <= 0 -> memcmp s u <= 0.
Proof.
  revert t u. induction s as [|c s IH]; intros [|d t] [|e u]; try done. simpl. intros H1 H2.
  destruct (Z.ltb_spec c d), (Z.ltb_spec d c), (Z.ltb_spec d e), (Z.ltb_spec e d), (Z.ltb_spec c e), (Z.ltb_spec e c); try lia.
  intros. eapply (IH t); lia.
Qed.

Lemma memcmp_eq s t : length s = length t -> memcmp s t = 0 <-> s = t.
Proof.
  revert t. induction s as [|c s IH]; intros [|d t]; try done. simpl. intros [= Hl].
  destruct (Z.ltb_spec c d); [split; [done|intros [= -> ->]; lia]|]. destruct (Z.ltb_spec d c); [split; [done|intros [= -> ->]; lia]|].
  rewrite (IH t Hl). split; [intros ->; f_equal; lia|by intros [= _ ->]].
Qed.

Lemma memcmp_app s t s' t' : length s = length t -> memcmp (s ++ s') (t ++ t') = if memcmp s t =? 0 then memcmp s' t' else memcmp s t.
Proof.
  revert t. induction s as [|c s IH]; intros [|d t]; try done. simpl. intros [= Hl]. rewrite (IH t Hl).
  by destruct (c <? d), (d <? c).
Qed.

(** A comparison that compares lists of one length orders. *)
Lemma order_by {K} (P : K -> Prop) (cmpf : K -> K -> Z) (f : K -> list Z) :
  (forall a b, P a -> P b -> length (f a) = length (f b)) -> (forall a b, P a -> P b -> cmpf a b = memcmp (f a) (f b)) -> order_on P cmpf.
Proof.
  intros Hl Hc. split.
  - intros a b Ha Hb. rewrite !Hc by done. rewrite (memcmp_flip (f a)). by destruct (memcmp_values (f a) (f b)) as [->|[->| ->]].
  - intros a b c Ha Hb Hd. rewrite !Hc by done. apply memcmp_trans; by apply Hl.
Qed.

(** ** The keys *)

Section keys.
Context (fam : Z).

(** The addresses of a server: all of one family. *)
Definition good_addr (a : sockaddr_storage) : Prop :=
  ss_family a = fam /\ (fam = FAMILY_INET \/ fam = FAMILY_INET6) /\ length (sin6_addr a) = 16%nat.

Definition addr_list (a : sockaddr_storage) : list Z :=
  if fam =? FAMILY_INET then [sin_addr a; sin_port a] else sin6_addr a ++ [sin_port a].

Lemma addr_list_length a b : good_addr a -> good_addr b -> length (addr_list a) = length (addr_list b).
Proof. intros (_ & _ & Ha) (_ & _ & Hb). unfold addr_list. destruct (fam =? _); [done|]. rewrite !length_app, Ha, Hb. done. Qed.

Lemma sockaddr_cmpf_list a b : good_addr a -> good_addr b -> sockaddr_cmpf a b false = memcmp (addr_list a) (addr_list b).
Proof.
  intros (Ha & Hf & La) (Hb & _ & Lb). unfold sockaddr_cmpf, addr_list. rewrite Ha. destruct Hf as [-> | ->]; simpl.
  - destruct (Z.ltb_spec (sin_addr a) (sin_addr b)), (Z.eqb_spec (sin_addr a) (sin_addr b)), (Z.ltb_spec (sin_addr b) (sin_addr a)); try lia.
    destruct (Z.ltb_spec (sin_port a) (sin_port b)), (Z.eqb_spec (sin_port a) (sin_port b)), (Z.ltb_spec (sin_port b) (sin_port a)); lia.
  - rewrite memcmp_app by congruence. destruct (memcmp_values (sin6_addr a) (sin6_addr b)) as [->|[->| ->]]; simpl; [done| |done].
    destruct (Z.ltb_spec (sin_port a) (sin_port b)), (Z.eqb_spec (sin_port a) (sin_port b)), (Z.ltb_spec (sin_port b) (sin_port a)); lia.
Qed.

Lemma drc_recycle_order : order_on good_addr drc_recycle_cmpf.
Proof. apply (order_by _ _ addr_list); [apply addr_list_length|apply sockaddr_cmpf_list]. Qed.

Lemma dupreq_tcp_order : order_on (fun _ => True) dupreq_tcp_cmpf.
Proof.
  apply (order_by _ _ (fun k => [key_xid k; key_hk k])); [done|]. intros a b _ _. unfold dupreq_tcp_cmpf, uint64_cmpf. simpl.
  destruct (Z.ltb_spec (key_xid a) (key_xid b)), (Z.eqb_spec (key_xid a) (key_xid b)), (Z.ltb_spec (key_xid b) (key_xid a)); try lia.
  destruct (Z.ltb_spec (key_hk a) (key_hk b)), (Z.eqb_spec (key_hk a) (key_hk b)), (Z.ltb_spec (key_hk b) (key_hk a)); lia.
Qed.

Lemma dupreq_shared_order : order_on (fun k => good_addr (key_addr k)) dupreq_shared_cmpf.
Proof.
  apply (order_by _ _ (fun k => addr_list (key_addr k) ++ [key_xid k; key_hk k])).
  { intros a b Ha Hb. rewrite !length_app. by rewrite (addr_list_length _ _ Ha Hb). }
  intros a b Ha Hb. rewrite memcmp_app by (by apply addr_list_length). unfold dupreq_shared_cmpf, uint32_cmpf, uint64_cmpf.
  rewrite sockaddr_cmpf_list by done. destruct (memcmp_values (addr_list (key_addr a)) (addr_list (key_addr b))) as [->|[->| ->]]; simpl; [done| |done].
  destruct (Z.ltb_spec (key_xid a) (key_xid b)), (Z.eqb_spec (key_xid a) (key_xid b)), (Z.ltb_spec (key_xid b) (key_xid a)); try lia; try done.
  simpl. destruct (Z.ltb_spec (key_hk a) (key_hk b)), (Z.eqb_spec (key_hk a) (key_hk b)), (Z.ltb_spec (key_hk b) (key_hk a)); lia.
Qed.
End keys.

(** * The laws of the trees *)

Class RbTreeLaws (rb : RbTree) := {
  rbt_all : forall {K}, (K -> Prop) -> rbtree K -> Prop;
  rbt_all_init K (P : K -> Prop) : rbt_all P (rbt_init K);
  rbt_all_insert K (P : K -> Prop) cmpf t k v : rbt_all P t -> P k -> rbt_all P (rbt_insert cmpf t k v);
  rbt_all_remove K (P : K -> Prop) cmpf t k : rbt_all P t -> rbt_all P (rbt_remove cmpf t k);
  rbt_lookup_init K cmpf (k : K) : rbt_lookup cmpf (rbt_init K) k = None;
  rbt_lookup_same K (P : K -> Prop) cmpf t k k' :
    order_on P cmpf -> rbt_all P t -> P k -> P k' -> cmpf k k' = 0 -> rbt_lookup cmpf t k = rbt_lookup cmpf t k';
  rbt_lookup_insert K (P : K -> Prop) cmpf t k k' v :
    order_on P cmpf -> rbt_all P t -> P k -> P k' -> rbt_lookup cmpf t k = None ->
    rbt_lookup cmpf (rbt_insert cmpf t k v) k' = if cmpf k k' =? 0 then Some v else rbt_lookup cmpf t k';
  rbt_lookup_remove K (P : K -> Prop) cmpf t k k' :
    order_on P cmpf -> rbt_all P t -> P k -> P k' ->
    rbt_lookup cmpf (rbt_remove cmpf t k) k' = if cmpf k k' =? 0 then None else rbt_lookup cmpf t k'
}.

(** They can hold: lists of pairs. *)
Definition list_rbtree : RbTree := {|
  rbt_partition := fun npart hk => hk mod Zpos npart;
  rbtree := fun K => list (K * loc);
  rbt_init := fun K => [];
  rbt_lookup := fun K cmpf t k => snd <$> find (fun p => cmpf k p.1 =? 0) t;
  rbt_insert := fun K cmpf t k v => (k, v) :: t;
  rbt_remove := fun K cmpf t k => filter (fun p => cmpf k p.1 <> 0) t
|}.

Lemma list_lookup_remove {K} (P : K -> Prop) cmpf (t : list (K * loc)) k k' :
  order_on P cmpf -> Forall (fun p => P p.1) t -> P k -> P k' ->
  find (fun p => cmpf k' p.1 =? 0) (filter (fun p => cmpf k p.1 <> 0) t) =
  if cmpf k k' =? 0 then None else find (fun p => cmpf k' p.1 =? 0) t.
Proof.
  intros HO Ht Hk Hk'. induction Ht as [|p t Hp Ht IH]; [by destruct (_ =? _)|]. rewrite filter_cons.
  destruct (Z.eqb_spec (cmpf k k') 0) as [E|E]; destruct (decide (cmpf k p.1 <> 0)) as [Hne|Heq].
  - simpl. destruct (Z.eqb_spec (cmpf k' p.1) 0) as [E'|_]; [|done]. by destruct Hne; apply (order_trans HO _ k').
  - apply IH.
  - simpl. by rewrite IH.
  - simpl. destruct (Z.eqb_spec (cmpf k' p.1) 0) as [E'|_]; [|apply IH]. exfalso. apply dec_stable in Heq.
    apply E, (order_trans HO _ p.1); try done. by apply (order_sym HO).
Qed.

#[global] Instance list_rbtree_laws : RbTreeLaws list_rbtree.
Proof.
  refine {| rbt_all := (fun K P t => Forall (fun p : K * loc => P p.1) t) : forall K, (K -> Prop) -> @rbtree list_rbtree K -> Prop |}; simpl.
  - intros. by constructor.
  - intros. by constructor.
  - intros K P cmpf t k Ht. apply Forall_forall. intros p [_ Hp]%list_elem_of_filter. by apply (proj1 (Forall_forall _ _) Ht).
  - done.
  - intros K P cmpf t k k' HO Ht Hk Hk' E. f_equal. induction Ht as [|p t Hp Ht IH]; [done|]. simpl. rewrite IH.
    destruct (Z.eqb_spec (cmpf k p.1) 0) as [E1|E1], (Z.eqb_spec (cmpf k' p.1) 0) as [E2|E2]; try done; exfalso.
    + apply E2, (order_trans HO _ k); try done. by apply (order_sym HO).
    + by apply E1, (order_trans HO _ k').
  - intros K P cmpf t k k' v HO Ht Hk Hk' Hno.
    destruct (Z.eqb_spec (cmpf k k') 0) as [E|E]; destruct (Z.eqb_spec (cmpf k' k) 0) as [E'|E']; try done; exfalso.
    + by apply E', (order_sym HO).
    + by apply E, (order_sym HO).
  - intros K P cmpf t k k' HO Ht Hk Hk'. rewrite (list_lookup_remove P) by done. by destruct (_ =? _).
Defined.

(** ** Partitions *)

Section partitions.
Context {rb : RbTree} {laws : RbTreeLaws rb} {K : Type} {P : K -> Prop} {cmpf : K -> K -> Z} (HO : order_on P cmpf) (npart : positive).
Implicit Types xt : rbtree_x K.

Definition rbtx_all xt : Prop := forall i t, xt !! i = Some t -> rbt_all P t.

Lemma rbtx_all_init : rbtx_all rbtx_init.
Proof. intros i t H. unfold rbtx_init in H. by rewrite lookup_empty in H. Qed.

Lemma rbtx_all_partition xt hk : rbtx_all xt -> rbt_all P (rbtx_partition npart xt hk).
Proof.
  intros H. unfold rbtx_partition. destruct (xt !! _) eqn:E; simpl; [by apply (H _ _ E)|]. apply rbt_all_init.
Qed.

Lemma rbtx_all_insert xt hk k v : rbtx_all xt -> P k -> rbtx_all (rbtx_insert cmpf npart xt hk k v).
Proof.
  intros H Hk i t Hi. unfold rbtx_insert in Hi. apply lookup_insert_Some in Hi as [[_ <-]|[_ Ht]]; [|by apply (H i)]. apply rbt_all_insert; [by apply rbtx_all_partition|done].
Qed.

Lemma rbtx_all_remove xt hk k : rbtx_all xt -> rbtx_all (rbtx_remove cmpf npart xt hk k).
Proof. intros H i t Hi. unfold rbtx_remove in Hi. apply lookup_insert_Some in Hi as [[_ <-]|[_ Ht]]; [|by apply (H i)]. apply rbt_all_remove. by apply rbtx_all_partition. Qed.

Lemma rbtx_lookup_init hk k : rbtx_lookup cmpf npart rbtx_init hk k = None.
Proof. unfold rbtx_lookup, rbtx_partition, rbtx_init. rewrite lookup_empty. apply rbt_lookup_init. Qed.

Lemma rbtx_lookup_same xt hk k hk' k' :
  rbtx_all xt -> P k -> P k' -> cmpf k k' = 0 -> rbtx_partition_of_scalar npart hk = rbtx_partition_of_scalar npart hk' ->
  rbtx_lookup cmpf npart xt hk k = rbtx_lookup cmpf npart xt hk' k'.
Proof.
  intros Hall Hk Hk' E Ep. unfold rbtx_lookup. assert (rbtx_partition npart xt hk = rbtx_partition npart xt hk') as -> by (unfold rbtx_partition; by rewrite Ep).
  apply (rbt_lookup_same K P); try done. by apply rbtx_all_partition.
Qed.

Lemma rbtx_lookup_insert xt hk k v hk' k' :
  rbtx_all xt -> P k -> P k' -> rbtx_lookup cmpf npart xt hk k = None ->
  rbtx_lookup cmpf npart (rbtx_insert cmpf npart xt hk k v) hk' k' =
  if (rbtx_partition_of_scalar npart hk =? rbtx_partition_of_scalar npart hk') && (cmpf k k' =? 0) then Some v
  else rbtx_lookup cmpf npart xt hk' k'.
Proof.
  intros Hall Hk Hk' Hno. unfold rbtx_lookup at 1. unfold rbtx_partition at 1. unfold rbtx_insert.
  destruct (Z.eqb_spec (rbtx_partition_of_scalar npart hk) (rbtx_partition_of_scalar npart hk')) as [E|E]; simpl.
  - rewrite <- E, lookup_insert_eq. simpl. rewrite (rbt_lookup_insert K P) by (done || by apply rbtx_all_partition).
    unfold rbtx_lookup, rbtx_partition. by rewrite E.
  - by rewrite lookup_insert_ne.
Qed.

Lemma rbtx_lookup_remove xt hk k hk' k' :
  rbtx_all xt -> P k -> P k' ->
  rbtx_lookup cmpf npart (rbtx_remove cmpf npart xt hk k) hk' k' =
  if (rbtx_partition_of_scalar npart hk =? rbtx_partition_of_scalar npart hk') && (cmpf k k' =? 0) then None
  else rbtx_lookup cmpf npart xt hk' k'.
Proof.
  intros Hall Hk Hk'. unfold rbtx_lookup at 1. unfold rbtx_partition at 1. unfold rbtx_remove.
  destruct (Z.eqb_spec (rbtx_partition_of_scalar npart hk) (rbtx_partition_of_scalar npart hk')) as [E|E]; simpl.
  - rewrite <- E, lookup_insert_eq. simpl. rewrite (rbt_lookup_remove K P) by (done || by apply rbtx_all_partition).
    unfold rbtx_lookup, rbtx_partition. by rewrite E.
  - by rewrite lookup_insert_ne.
Qed.
End partitions.
Arguments rbtx_all {rb laws K} P xt.

(** * Counting *)

Section count.
Context {A : Type} (P : loc * A -> Prop) {Pdec : forall p, Decision (P p)}.
Definition count (m : gmap loc A) : Z := Z.of_nat (size (filter P m)).

Lemma count_insert m k v : m !! k = None -> count (<[k := v]> m) = count m + if decide (P (k, v)) then 1 else 0.
Proof.
  intros Hk. unfold count. destruct (decide (P (k, v))) as [H|H].
  - rewrite map_filter_insert_True by done. rewrite map_size_insert_None; [lia|]. apply map_lookup_filter_None. by left.
  - rewrite map_filter_insert_False by done. rewrite delete_id by done. lia.
Qed.

Lemma count_delete m k v : m !! k = Some v -> count (delete k m) = count m - if decide (P (k, v)) then 1 else 0.
Proof.
  intros Hk. pose proof (count_insert (delete k m) k v (lookup_delete_eq _ _)) as H. rewrite insert_delete_id in H by done. lia.
Qed.

Lemma count_update m k v v' :
  m !! k = Some v -> count (<[k := v']> m) = count m - (if decide (P (k, v)) then 1 else 0) + if decide (P (k, v')) then 1 else 0.
Proof.
  intros Hk. rewrite <- insert_delete_eq, (count_insert (delete k m)) by apply lookup_delete_eq. by rewrite (count_delete m k v Hk).
Qed.

Lemma count_zero m : (forall k v, m !! k = Some v -> ~ P (k, v)) -> count m = 0.
Proof.
  intros H. unfold count. assert (filter P m = ∅) as ->; [|by rewrite map_size_empty]. apply map_empty. intros k. apply map_lookup_filter_None. right. intros v Hk. by apply H.
Qed.

Lemma count_pos m k v : m !! k = Some v -> P (k, v) -> 0 < count m.
Proof. intros Hk HP. pose proof (count_delete m k v Hk) as H. rewrite decide_True in H by done. unfold count in *. lia. Qed.

Lemma count_le m : count m <= Z.of_nat (size m).
Proof. unfold count. apply inj_le, map_subseteq_size, map_filter_subseteq. Qed.
End count.

(** * The invariant *)

Section inv.
Context {rb : RbTree} {laws : RbTreeLaws rb} {env : DupreqEnv} (fam : Z).
Implicit Types (d : drc_t) (w : dworld) (c e r th : loc) (E : gmap loc dupreq_entry_t) (X : gmap loc svcxprt) (T : gmap loc thread).

Definition key_ok (t : drc_type) (k : dupreq_key) : Prop := t = DRC_UDP_V234 -> good_addr fam (key_addr k).

Lemma type_order t : order_on (key_ok t) (type_cmpf t).
Proof.
  destruct t; simpl.
  1, 2: destruct dupreq_tcp_order as [H1 H2]; split; intros; by (apply H1 || eapply H2).
  destruct (dupreq_shared_order fam) as [H1 H2]. unfold key_ok.
  split; [intros a b Ha Hb; apply H1; [by apply Ha|by apply Hb]|]. intros a b c Ha Hb Hc. apply H2; [by apply Ha|by apply Hb|by apply Hc].
Qed.

Lemma uint64_cmpf_eq a b : uint64_cmpf a b = 0 -> a = b.
Proof. unfold uint64_cmpf. destruct (a <? b); [done|]. by destruct (Z.eqb_spec a b). Qed.

Lemma type_cmpf_hk t k k' : type_cmpf t k k' = 0 -> key_hk k = key_hk k'.
Proof.
  destruct t; simpl; unfold dupreq_tcp_cmpf, dupreq_shared_cmpf.
  1, 2: destruct (_ <? _); [done|]; destruct (_ =? _); [apply uint64_cmpf_eq|done].
  destruct (_ =? -1); [done|]. destruct (_ =? 0); [|done]. destruct (_ =? -1); [done|]. destruct (_ =? 0); [apply uint64_cmpf_eq|done].
Qed.

(** The entries of a cache are in its queue and in its tree. *)
Definition drc_lookup d (k : dupreq_key) : option loc := rbtx_lookup (drc_cmpf d) (d_npart d) (d_xt d) (key_hk k) k.

Record queue_ok E c d : Prop := mk_queue_ok {
  qo_nodup : NoDup (dupreq_q d);
  qo_in e : e ∈ dupreq_q d ->
    exists x, E !! e = Some x /\ hin_drc x = c /\ de_state x <> DUPREQ_DELETED /\ key_ok (d_type d) (de_key x) /\ drc_lookup d (de_key x) = Some e;
  qo_found k e : key_ok (d_type d) k -> drc_lookup d k = Some e ->
    e ∈ dupreq_q d /\ exists x, E !! e = Some x /\ drc_cmpf d k (de_key x) = 0;
  qo_all : rbtx_all (key_ok (d_type d)) (d_xt d);
  qo_size : d_size d = u32 (Z.of_nat (length (dupreq_q d)))
}.

(** How many connections have a cache; how many requests use an entry. *)
Definition attached X c : Z := count (fun p => xu_drc p.2 = Some c) X.
Definition holds e (p : loc * thread) : Prop := th_u1 p.2 = dupreq_at e.
#[global] Instance holds_dec e p : Decision (holds e p).
Proof. unfold holds. apply _. Defined.
Definition users T e : Z := count (holds e) T.

(** What an entry promises. *)
Definition entry_ok T w e (x : dupreq_entry_t) : Prop :=
  de_refcnt x = users T e /\ is_Some (nfs_dupreq_func x) /\ is_Some (de_res x) /\
  (forall d, dw_drcs w !! hin_drc x = Some d -> e ∈ dupreq_q d \/ de_state x = DUPREQ_DELETED).

(** A request and the cache it uses. *)
Definition serves w (req : nfs_request) c : Prop :=
  exists p, dw_xprts w !! rq_xprt req = Some p /\
    if xp_p2 p then c = udp_drc w else xu_drc p = Some c.

(** The cache that waits for a request: the shared one for a datagram, the one of its connection, and for a new connection the
    one that is kept for the address of its caller. *)
Definition finds w (p : svcxprt) a c : Prop :=
  if xp_p2 p then c = udp_drc w
  else match xu_drc p with
       | Some c' => c' = c
       | None => exists d, dw_drcs w !! c = Some d /\ d_type d <> DRC_UDP_V234 /\ d_addr d = a
       end.

Definition thread_ok w (t : thread) : Prop :=
  is_Some (dw_xprts w !! rq_xprt (th_req t)) /\
  match th_u1 t with
  | DUPREQ_NOCACHE => True
  | DUPREQ_BAD_ADDR1 => False
  | dupreq_at e =>
      exists x, dw_entries w !! e = Some x /\ de_res x = Some (th_res t) /\ serves w (th_req t) (hin_drc x) /\
        (th_phase t = running -> de_state x = DUPREQ_START)
  end.

(** The owner of a result: an entry or a request that is not kept. *)
Definition owns T w r (o : loc + loc) : Prop :=
  match o with
  | inl e => exists x, dw_entries w !! e = Some x /\ de_res x = Some r
  | inr th => exists t, T !! th = Some t /\ th_u1 t = DUPREQ_NOCACHE /\ th_res t = r
  end.

Definition recycle_lookup (t : rbtree_x sockaddr_storage) (hk : Z) (a : sockaddr_storage) : option loc :=
  rbtx_lookup drc_recycle_cmpf drc_recycle_npart t hk a.

(** The invariant, for the requests [T] that are being executed. *)
Record dinv T w : Prop := mk_dinv {
  di_udp : exists d, dw_drcs w !! udp_drc w = Some d /\ d_type d = DRC_UDP_V234;
  di_type c d : dw_drcs w !! c = Some d -> d_type d = DRC_UDP_V234 -> c = udp_drc w;
  di_queue c d : dw_drcs w !! c = Some d -> queue_ok (dw_entries w) c d;
  di_count c d : dw_drcs w !! c = Some d -> attached (dw_xprts w) c <= d_refcnt d <= UINT32_MAX;
  di_home c d : dw_drcs w !! c = Some d -> d_type d <> DRC_UDP_V234 ->
    good_addr fam (d_addr d) /\ recycle_lookup (tcp_drc_recycle_t w) (d_hk d) (d_addr d) = Some c /\ d_hk d = hash_sockaddr_911 (d_addr d);
  di_found hk a c : good_addr fam a -> recycle_lookup (tcp_drc_recycle_t w) hk a = Some c ->
    exists d, dw_drcs w !! c = Some d /\ d_type d <> DRC_UDP_V234 /\ drc_recycle_cmpf a (d_addr d) = 0 /\
      rbtx_partition_of_scalar drc_recycle_npart hk = rbtx_partition_of_scalar drc_recycle_npart (d_hk d);
  di_tree : rbtx_all (good_addr fam) (tcp_drc_recycle_t w);
  di_idle c d : dw_drcs w !! c = Some d -> d_recycle d = true -> d_refcnt d = 0 /\ c ∈ tcp_drc_recycle_q w;
  di_idle_q c : c ∈ tcp_drc_recycle_q w -> exists d, dw_drcs w !! c = Some d /\ d_recycle d = true /\ d_type d <> DRC_UDP_V234;
  di_idle_nodup : NoDup (tcp_drc_recycle_q w);
  di_entry e x : dw_entries w !! e = Some x -> entry_ok T w e x;
  di_thread th t : T !! th = Some t -> thread_ok w t;
  di_running th1 th2 t1 t2 e : T !! th1 = Some t1 -> T !! th2 = Some t2 ->
    th_u1 t1 = dupreq_at e -> th_u1 t2 = dupreq_at e -> th_phase t1 = running -> th1 = th2;
  di_xprt x p : dw_xprts w !! x = Some p ->
    (forall a, xp_caller p = Some a -> good_addr fam a) /\
    (forall c, xu_drc p = Some c -> xp_p2 p = false /\ exists d, dw_drcs w !! c = Some d /\ d_type d <> DRC_UDP_V234);
  di_owner r o : owns T w r o -> is_Some (dw_results w !! r) /\ forall o', owns T w r o' -> o' = o;
  di_fresh_drc c : is_Some (dw_drcs w !! c) -> (c < dw_next w)%positive;
  di_fresh_entry e : is_Some (dw_entries w !! e) -> (e < dw_next w)%positive;
  di_fresh_cache e x : dw_entries w !! e = Some x -> (hin_drc x < dw_next w)%positive;
  di_fresh_result r : is_Some (dw_results w !! r) -> (r < dw_next w)%positive;
  di_fresh_xprt x : is_Some (dw_xprts w !! x) -> (x < dw_next w)%positive;
  di_memory : Forall (eq true) (dw_allocs w)
}.
End inv.
