(* ===== verification/DupreqStep.v ===== *)
(** The functions of the duplicate request cache keep its invariant and end. *)

From S2P Require Import Prelude Dupreq DupreqInv.

Section step.
Context {rb : RbTree} {laws : RbTreeLaws rb} {env : DupreqEnv} (fam : Z) (T : gmap loc thread).
Implicit Types (d : drc_t) (w : dworld) (c e r th : loc) (E : gmap loc dupreq_entry_t) (X : gmap loc svcxprt).
Abbreviation dinv := (dinv fam T).
Abbreviation good_addr := (good_addr fam).

(** * Counters of a cache *)

(** What of a cache is about its entries. *)
Definition core d := (d_type d, d_xt d, dupreq_q d, d_npart d, d_size d, d_maxsize d, d_hiwat d).

Lemma core_inv d d' : core d' = core d ->
  d_type d' = d_type d /\ d_xt d' = d_xt d /\ dupreq_q d' = dupreq_q d /\ d_npart d' = d_npart d /\ d_size d' = d_size d /\
  d_maxsize d' = d_maxsize d /\ d_hiwat d' = d_hiwat d.
Proof. unfold core. intros H. simplify_eq. split_and!; congruence. Qed.

Lemma queue_ok_core E c d d' : core d' = core d -> queue_ok fam E c d -> queue_ok fam E c d'.
Proof.
  intros (H1 & H2 & H3 & H4 & H5 & _)%core_inv [Q1 Q2 Q3 Q4 Q5]. unfold drc_lookup, drc_cmpf in *.
  split; unfold drc_lookup, drc_cmpf; rewrite ?H1, ?H2, ?H3, ?H4, ?H5; done.
Qed.

(** A cache changes but for its entries, with the queue of unused caches. *)
Lemma dinv_drc w w' c d d' :
  dinv w -> dw_drcs w !! c = Some d -> dw_drcs w' = <[c := d']> (dw_drcs w) -> core d' = core d -> d_addr d' = d_addr d -> d_hk d' = d_hk d ->
  attached (dw_xprts w) c <= d_refcnt d' <= UINT32_MAX -> (d_recycle d' = true -> d_refcnt d' = 0 /\ d_type d <> DRC_UDP_V234) ->
  (forall c', c' ∈ tcp_drc_recycle_q w' <-> if decide (c' = c) then d_recycle d' = true else c' ∈ tcp_drc_recycle_q w) -> NoDup (tcp_drc_recycle_q w') ->
  dw_entries w' = dw_entries w -> dw_results w' = dw_results w -> dw_xprts w' = dw_xprts w -> dw_threads w' = dw_threads w -> udp_drc w' = udp_drc w ->
  tcp_drc_recycle_t w' = tcp_drc_recycle_t w -> dw_next w' = dw_next w -> dw_allocs w' = dw_allocs w -> dinv w'.
Proof.
  intros I Hc HD Hcore Ha Hhk Hn Hidle Hq Hnd HE HR HX HT HU Ht Hnext Hal. pose proof Hcore as (Hty & _ & Hqd & _)%core_inv.
  assert (forall c' d1, <[c := d']> (dw_drcs w) !! c' = Some d1 -> exists d0, dw_drcs w !! c' = Some d0 /\ core d1 = core d0 /\ d_addr d1 = d_addr d0 /\ d_hk d1 = d_hk d0) as Hback.
  { intros c' d1 [[<- <-]|[_ H]]%lookup_insert_Some; [by exists d|by exists d1]. }
  assert (forall c' d0, dw_drcs w !! c' = Some d0 -> exists d1, <[c := d']> (dw_drcs w) !! c' = Some d1 /\ core d1 = core d0 /\ d_addr d1 = d_addr d0 /\ d_hk d1 = d_hk d0) as Hfwd.
  { intros c' d0 H. destruct (decide (c' = c)) as [->|Hne]; [assert (d0 = d) as -> by congruence; exists d'; by rewrite lookup_insert_eq|exists d0; by rewrite lookup_insert_ne]. }
  assert (forall d1 d0, core d1 = core d0 -> d_type d0 <> DRC_UDP_V234 -> d_type d1 <> DRC_UDP_V234) as Htyp by (intros d1 d0 (-> & _)%core_inv; done).
  destruct I. split; rewrite ?HE, ?HR, ?HX, ?HT, ?HU, ?Ht, ?Hnext, ?Hal, ?HD; try done.
  - destruct di_udp as (d0 & H0 & Hu). destruct (Hfwd _ _ H0) as (d1 & H1 & (E1 & _)%core_inv & _). exists d1. by rewrite E1.
  - intros c' d1 H1. destruct (Hback _ _ H1) as (d0 & H0 & (-> & _)%core_inv & _). by apply di_type.
  - intros c' d1 H1. destruct (Hback _ _ H1) as (d0 & H0 & Hco & _). by apply (queue_ok_core _ _ d0), di_queue.
  - intros c' d1 [[<- <-]|[_ H]]%lookup_insert_Some; [done|by apply di_count].
  - intros c' d1 H1 Hu. destruct (Hback _ _ H1) as (d0 & H0 & (E1 & _)%core_inv & -> & ->). apply di_home; [done|by rewrite <- E1].
  - intros hk a c' Hga Hl. destruct (di_found hk a c' Hga Hl) as (d0 & H0 & Hu & Hcmp & Hp). destruct (Hfwd _ _ H0) as (d1 & H1 & Hco & E1 & E2).
    exists d1. rewrite E1, E2. split_and!; try done. by apply (Htyp _ d0).
  - intros c' d1 [[<- <-]|[Hne H]]%lookup_insert_Some Hr.
    + destruct (Hidle Hr) as [H0 _]. split; [done|]. apply Hq. by rewrite decide_True.
    + destruct (di_idle c' d1 H Hr) as [H0 H1]. split; [done|]. apply Hq. rewrite decide_False by done. done.
  - intros c' Hin. apply Hq in Hin. destruct (decide (c' = c)) as [->|Hne].
    + exists d'. rewrite lookup_insert_eq. split_and!; try done. apply (Htyp _ d); [done|]. by apply Hidle.
    + destruct (di_idle_q c' Hin) as (d1 & H1 & Hr & Hu). exists d1. by rewrite lookup_insert_ne.
  - intros e x Hx. destruct (di_entry e x Hx) as (E1 & E2 & E3 & E5). split_and!; rewrite ?HT; try done. intros d1. rewrite HD. intros H1.
    destruct (Hback _ _ H1) as (d0 & H0 & (_ & _ & -> & _)%core_inv & _). by apply E5.
  - intros th t H1. destruct (di_thread th t H1) as [T1 T2]. split; [by rewrite HX|]. unfold serves in *. by rewrite HE, HX, HU.
  - intros x p Hx. destruct (di_xprt x p Hx) as [X1 X2]. split; [done|]. intros c' Hc'. destruct (X2 c' Hc') as (Hp2 & d0 & H0 & Hu). split; [done|].
    destruct (Hfwd _ _ H0) as (d1 & H1 & Hco & _). exists d1. split; [done|]. by apply (Htyp _ d0).
  - intros r o Ho. assert (forall o', owns T w' r o' -> owns T w r o') as Hown by (intros [|]; simpl; rewrite ?HE, ?HT; done).
    destruct (di_owner r o (Hown o Ho)) as [O1 O2]. split; [done|]. intros o' Ho'. by apply O2, Hown.
  - intros c' [d1 H1]. destruct (Hback _ _ H1) as (d0 & H0 & _). apply di_fresh_drc. by exists d0.
Qed.

(** What changes neither entries nor requests: caches come and go, and get counted. *)
Definition calm w w' : Prop :=
  dw_entries w' = dw_entries w /\ dw_threads w' = dw_threads w /\ udp_drc w' = udp_drc w /\ (dw_next w <= dw_next w')%positive /\
  (forall r v, dw_results w !! r = Some v -> dw_results w' !! r = Some v) /\
  (forall c d', dw_drcs w' !! c = Some d' -> (exists d, dw_drcs w !! c = Some d /\ core d' = core d) \/ (dw_next w <= c)%positive) /\
  (forall x p, dw_xprts w !! x = Some p -> exists p', dw_xprts w' !! x = Some p' /\ xp_p2 p' = xp_p2 p /\ xp_caller p' = xp_caller p /\
     (xu_drc p = None \/ xu_drc p' = xu_drc p)).

Lemma calm_refl w : calm w w.
Proof. split_and!; try done; [intros c d H; left; by exists d|]. intros x p H. exists p. auto. Qed.

Lemma calm_trans w1 w2 w3 : calm w1 w2 -> calm w2 w3 -> calm w1 w3.
Proof.
  intros (E1 & T1 & U1 & N1 & R1 & D1 & X1) (E2 & T2 & U2 & N2 & R2 & D2 & X2). split_and!; try congruence; [lia|auto| |].
  - intros c d3 H3. destruct (D2 _ _ H3) as [(d2 & H2 & C2)|Hn]; [|right; lia]. destruct (D1 _ _ H2) as [(d1 & H1 & C1)|Hn]; [|by right]. left. exists d1. split; [done|congruence].
  - intros x p1 H1. destruct (X1 _ _ H1) as (p2 & H2 & A1 & B1 & C1). destruct (X2 _ _ H2) as (p3 & H3 & A2 & B2 & C2). exists p3. split_and!; try congruence.
    destruct C1 as [C1|C1]; [by left|]. destruct C2 as [C2|C2]; [left; congruence|right; congruence].
Qed.

Lemma calm_drc w w' c d d' :
  dw_drcs w !! c = Some d -> dw_drcs w' = <[c := d']> (dw_drcs w) -> core d' = core d ->
  dw_entries w' = dw_entries w -> dw_results w' = dw_results w -> dw_xprts w' = dw_xprts w -> dw_threads w' = dw_threads w -> udp_drc w' = udp_drc w ->
  dw_next w' = dw_next w -> calm w w'.
Proof.
  intros Hc HD Hcore HE HR HX HT HU Hn. split_and!; try done; [by rewrite Hn|by rewrite HR| |].
  - intros c' d1. rewrite HD. intros [[<- <-]|[_ H]]%lookup_insert_Some; left; [by exists d|by exists d1].
  - intros x p Hx. exists p. rewrite HX. auto.
Qed.

(** ** References on a cache *)

Lemma wp_get_drc c d (Q : drc_t -> dworld -> Prop) w : dw_drcs w !! c = Some d -> Q d w -> wp (get_drc c) Q w.
Proof. intros H HQ. by apply (wp_deref _ _ _ d). Qed.
Lemma wp_set_drc c d f (Q : unit -> dworld -> Prop) w : dw_drcs w !! c = Some d -> Q tt (upd_drcs (<[c := f d]>) w) -> wp (set_drc c f) Q w.
Proof. intros H HQ. apply wp_bind, (wp_get_drc c d); [done|]. by apply wp_modify. Qed.

Lemma queue_same w c d :
  dinv w -> dw_drcs w !! c = Some d -> forall c', c' ∈ tcp_drc_recycle_q w <-> if decide (c' = c) then d_recycle d = true else c' ∈ tcp_drc_recycle_q w.
Proof.
  intros I Hc c'. destruct (decide (c' = c)) as [->|]; [|done]. split; [intros H|by apply (di_idle _ _ _ I)].
  destruct (di_idle_q _ _ _ I c H) as (d1 & H1 & Hr & _). congruence.
Qed.

Lemma idle_tcp w c d : dinv w -> dw_drcs w !! c = Some d -> d_recycle d = true -> d_refcnt d = 0 /\ d_type d <> DRC_UDP_V234.
Proof.
  intros I Hc Hr. destruct (di_idle _ _ _ I c d Hc Hr) as [H0 Hq]. split; [done|]. destruct (di_idle_q _ _ _ I c Hq) as (d1 & H1 & _ & Hu). congruence.
Qed.

Lemma wp_ref_drc c d (Q : unit -> dworld -> Prop) w :
  dinv w -> dw_drcs w !! c = Some d -> d_recycle d = false -> d_refcnt d + 1 <= UINT32_MAX ->
  (let w' := upd_drcs (<[c := with_refcnt (d_refcnt d + 1) d]>) w in dinv w' -> calm w w' -> Q tt w') -> wp (nfs_dupreq_ref_drc c) Q w.
Proof.
  intros I Hc Hr Hmax HQ. apply (wp_set_drc c d); [done|]. pose proof (di_count _ _ _ I c d Hc). assert (0 <= attached (dw_xprts w) c) by (unfold attached, count; lia).
  rewrite u32_small by lia. apply HQ; [|by apply (calm_drc _ _ c d (with_refcnt (d_refcnt d + 1) d))].
  apply (dinv_drc w _ c d (with_refcnt (d_refcnt d + 1) d)); try done; simpl; [lia|congruence|by apply queue_same|by apply (di_idle_nodup _ _ _ I)].
Qed.

Lemma attached_zero w c : dinv w -> (forall d, dw_drcs w !! c = Some d -> d_type d = DRC_UDP_V234) -> attached (dw_xprts w) c = 0.
Proof. intros I H. apply count_zero. intros x p Hx Hc. simpl in Hc. destruct (di_xprt _ _ _ I x p Hx) as [_ X2]. destruct (X2 c Hc) as (_ & d & Hd & Hu). by apply Hu, H. Qed.

Lemma wp_put_drc c d (Q : unit -> dworld -> Prop) w :
  dinv w -> dw_drcs w !! c = Some d -> (d_type d <> DRC_UDP_V234 -> attached (dw_xprts w) c < d_refcnt d) ->
  (forall w', dinv w' -> calm w w' -> dw_allocs w' = dw_allocs w -> dw_results w' = dw_results w -> dw_xprts w' = dw_xprts w -> dw_next w' = dw_next w -> Q tt w') ->
  wp (nfs_dupreq_put_drc c) Q w.
Proof.
  intros I Hc Hlt HQ. unfold nfs_dupreq_put_drc, nfs_dupreq_unref_drc. apply wp_bind, (wp_set_drc c d); [done|].
  set (d1 := with_refcnt (u32 (d_refcnt d - 1)) d). pose proof (di_count _ _ _ I c d Hc) as Hn. pose proof (queue_same w c d I Hc) as Hq. pose proof (idle_tcp w c d I Hc) as Hid.
  assert (0 <= attached (dw_xprts w) c) as H0 by (unfold attached, count; lia).
  assert (d_recycle d = false) as Hr.
  { apply not_true_is_false. intros Er. destruct (Hid Er) as [E1 E2]. specialize (Hlt E2). lia. }
  apply wp_bind, (wp_get_drc c d1); [by apply lookup_insert_eq|].
  assert (d_type d <> DRC_UDP_V234 -> u32 (d_refcnt d - 1) = d_refcnt d - 1) as Hu by (intros Ht; specialize (Hlt Ht); apply u32_small; lia).
  assert (attached (dw_xprts w) c <= u32 (d_refcnt d - 1) <= UINT32_MAX) as Hb.
  { destruct (decide (d_type d = DRC_UDP_V234)) as [Ht|Ht]; [|specialize (Hlt Ht); rewrite Hu by done; lia].
    rewrite (attached_zero w c I); [apply u32_range|]. intros d' Hd'. congruence. }
  assert (dinv (upd_drcs <[c:=d1]> w)) as I1 by (apply (dinv_drc w _ c d d1); try done; [simpl; congruence|by apply (di_idle_nodup _ _ _ I)]).
  assert (wp (mret tt) Q (upd_drcs <[c:=d1]> w)) as Hdone by (apply wp_ret, HQ; try done; by apply (calm_drc _ _ c d d1)).
  replace (d_type d1) with (d_type d) by done. destruct (d_type d) eqn:Ht; [..|exact Hdone].
  all: destruct ((d_refcnt d1 =? 0) && negb (d_recycle d1)) eqn:Hz; [|exact Hdone]; apply andb_true_iff in Hz as [Hz _]; apply Z.eqb_eq in Hz; simpl in Hz.
  all: apply wp_bind, wp_gets, wp_bind, (wp_set_drc c d1); [by apply lookup_insert_eq|]; apply wp_modify; unfold upd_drcs; simpl; rewrite insert_insert_eq.
  all: apply HQ; try done; [|by apply (calm_drc _ _ c d (with_recycle true (dw_time w) d1))].
  all: assert (c ∉ tcp_drc_recycle_q w) as Hnin by (intros Hin; apply Hq in Hin; rewrite decide_True in Hin by done; congruence).
  all: apply (dinv_drc w _ c d (with_recycle true (dw_time w) d1)); try done; simpl; [by rewrite Ht| |].
  1, 3: intros c'; rewrite elem_of_app, list_elem_of_singleton; destruct (decide (c' = c)) as [->|]; tauto.
  all: apply NoDup_app; split_and!; [by apply (di_idle_nodup _ _ _ I)| |apply NoDup_singleton]; intros c' Hin ->%list_elem_of_singleton; done.
Qed.

(** ** Memory *)

Lemma dinv_next w bs : dinv w -> Forall (eq true) bs -> dinv (upd_next Pos.succ (upd_allocs bs w)).
Proof.
  intros I Hbs. destruct I. split; simpl; try done.
  - intros c H. specialize (di_fresh_drc c H). lia.
  - intros e H. specialize (di_fresh_entry e H). lia.
  - intros e x H. specialize (di_fresh_cache e x H). lia.
  - intros r H. specialize (di_fresh_result r H). lia.
  - intros x H. specialize (di_fresh_xprt x H). lia.
Qed.

Lemma wp_pool_alloc (Q : option loc -> dworld -> Prop) w :
  Forall (eq true) (dw_allocs w) -> (forall bs, Forall (eq true) bs -> Q (Some (dw_next w)) (upd_next Pos.succ (upd_allocs bs w))) -> wp pool_alloc Q w.
Proof.
  intros HM HQ. unfold pool_alloc, wp. destruct (dw_allocs w) as [|b bs]; [by apply HQ|].
  apply Forall_cons in HM as [<- HM]. by apply HQ.
Qed.

Lemma calm_next w bs : calm w (upd_next Pos.succ (upd_allocs bs w)).
Proof. split_and!; simpl; try done; [lia|intros c d H; left; by exists d|]. intros x p H. exists p. auto. Qed.

(** A new result. *)
Lemma dinv_result w bs v : dinv w -> Forall (eq true) bs -> dinv (upd_results (<[dw_next w := v]>) (upd_next Pos.succ (upd_allocs bs w))).
Proof.
  intros I Hbs. pose proof (dinv_next w bs I Hbs) as I1. destruct I1. split; simpl in *; try done.
  - intros r o Ho. destruct (di_owner r o Ho) as [[v' Hv] O2]. split; [|done]. destruct (decide (r = dw_next w)) as [->|Hne]; [by rewrite lookup_insert_eq|].
    rewrite lookup_insert_ne by done. by exists v'.
  - intros r [v' [[<- _]|[_ Hr]]%lookup_insert_Some]; [lia|]. apply di_fresh_result. by exists v'.
Qed.

Lemma wp_alloc_nfs_res (Q : loc -> dworld -> Prop) w :
  dinv w ->
  (forall bs, let w' := upd_results (<[dw_next w := []]>) (upd_next Pos.succ (upd_allocs bs w)) in dinv w' -> calm w w' -> Q (dw_next w) w') ->
  wp alloc_nfs_res Q w.
Proof.
  intros I HQ. apply wp_bind, wp_pool_alloc; [by apply (di_memory _ _ _ I)|]. intros bs Hbs. apply wp_bind, wp_modify, wp_ret. apply HQ; [by apply dinv_result|].
  pose proof (calm_next w bs) as (C1 & C2 & C3 & C4 & C5 & C6 & C7). split_and!; try done. intros r v Hr. simpl. rewrite lookup_insert_ne; [done|].
  intros <-. assert (dw_next w < dw_next w)%positive by (apply (di_fresh_result _ _ _ I); by exists v). lia.
Qed.

(** ** New caches *)

Lemma queue_ok_new E c d : dupreq_q d = [] -> d_xt d = rbtx_init -> d_size d = 0 -> queue_ok fam E c d.
Proof.
  intros H1 H2 H3. split; rewrite ?H1, ?H2, ?H3; try done.
  - constructor.
  - intros e He. by apply not_elem_of_nil in He.
  - intros k e _. unfold drc_lookup. rewrite H2, rbtx_lookup_init. done.
Qed.

Lemma dinv_new_drc w w' c d t' :
  dinv w -> dw_drcs w !! c = None -> dw_drcs w' = <[c := d]> (dw_drcs w) -> (c < dw_next w')%positive -> (dw_next w <= dw_next w')%positive ->
  dupreq_q d = [] -> d_xt d = rbtx_init -> d_size d = 0 -> d_type d <> DRC_UDP_V234 -> d_recycle d = false -> 0 <= d_refcnt d <= UINT32_MAX -> good_addr (d_addr d) -> d_hk d = hash_sockaddr_911 (d_addr d) ->
  recycle_lookup (tcp_drc_recycle_t w) (d_hk d) (d_addr d) = None ->
  t' = rbtx_insert drc_recycle_cmpf drc_recycle_npart (tcp_drc_recycle_t w) (d_hk d) (d_addr d) c -> tcp_drc_recycle_t w' = t' ->
  (dw_next w <= c)%positive ->
  dw_entries w' = dw_entries w -> dw_results w' = dw_results w -> dw_xprts w' = dw_xprts w -> dw_threads w' = dw_threads w -> udp_drc w' = udp_drc w ->
  tcp_drc_recycle_q w' = tcp_drc_recycle_q w -> Forall (eq true) (dw_allocs w') -> dinv w'.
Proof.
  intros I Hc HD Hlt Hnext Hq0 Hx0 Hs0 Hty Hr Hn Hga Hhk Hno -> Ht Hent HE HR HX HT HU HQ Hal.
  assert (forall c' d', dw_drcs w !! c' = Some d' -> <[c := d]> (dw_drcs w) !! c' = Some d') as Hfwd by (intros c' d' H; rewrite lookup_insert_ne; [done|congruence]).
  pose proof (rbtx_lookup_insert (drc_recycle_order fam) drc_recycle_npart (tcp_drc_recycle_t w) (d_hk d) (d_addr d) c) as Hins.
  assert (attached (dw_xprts w) c = 0) as Hatt by (apply attached_zero; [done|]; congruence).
  destruct I. split; rewrite ?HE, ?HR, ?HX, ?HT, ?HU, ?Ht, ?HQ, ?HD; try done.
  - destruct di_udp as (d0 & H0 & Hu). exists d0. split; [by apply Hfwd|done].
  - intros c' d1 [[<- <-]|[_ H]]%lookup_insert_Some; [done|]. by apply di_type.
  - intros c' d1 [[<- <-]|[_ H]]%lookup_insert_Some; [by apply queue_ok_new|by apply di_queue].
  - intros c' d1 [[<- <-]|[_ H]]%lookup_insert_Some; [rewrite Hatt; lia|by apply di_count].
  - intros c' d1 [[<- <-]|[Hne H]]%lookup_insert_Some Hu.
    + split; [done|]. split; [|done]. unfold recycle_lookup. rewrite Hins by done. by rewrite Z.eqb_refl, (order_refl (drc_recycle_order fam)).
    + destruct (di_home c' d1 H Hu) as (G1 & G2 & G3). split; [done|]. split; [|done]. unfold recycle_lookup. rewrite Hins by done.
      destruct ((_ =? _) && (_ =? 0)) eqn:Eq; [|done]. apply andb_true_iff in Eq as [E1 E2]. apply Z.eqb_eq in E1, E2. exfalso.
      unfold recycle_lookup in *. rewrite (rbtx_lookup_same (drc_recycle_order fam) _ _ _ _ (d_hk d1) (d_addr d1)) in Hno by done. congruence.
  - intros hk a c' Ha. unfold recycle_lookup. rewrite Hins by done. destruct ((_ =? _) && (_ =? 0)) eqn:Eq.
    + intros [= <-]. apply andb_true_iff in Eq as [E1 E2]. apply Z.eqb_eq in E1, E2. exists d. rewrite lookup_insert_eq. split_and!; try done.
      by apply (order_sym (drc_recycle_order fam)).
    + intros Hl. destruct (di_found hk a c' Ha Hl) as (d1 & H1 & H2). exists d1. split; [by apply Hfwd|done].
  - by apply (rbtx_all_insert drc_recycle_npart).
  - intros c' d1 [[<- <-]|[Hne H]]%lookup_insert_Some Hr'; [congruence|by apply di_idle].
  - intros c' Hin. destruct (di_idle_q c' Hin) as (d1 & H1 & H2). exists d1. split; [by apply Hfwd|done].
  - intros e x Hx. destruct (di_entry e x Hx) as (E1 & E2 & E3 & E5). split_and!; rewrite ?HT; try done. intros d1. rewrite HD.
    intros [[Heq _]|[_ H]]%lookup_insert_Some; [|by apply E5]. specialize (di_fresh_cache e x Hx). lia.
  - intros th t H1. destruct (di_thread th t H1) as [T1 T2]. split; [by rewrite HX|]. unfold serves in *. by rewrite HE, HX, HU.
  - intros x p Hx. destruct (di_xprt x p Hx) as [X1 X2]. split; [done|]. intros c' Hc'. destruct (X2 c' Hc') as (Hp2 & d0 & H0 & Hu). split; [done|]. exists d0. split; [by apply Hfwd|done].
  - intros r o Ho. assert (forall o', owns T w' r o' -> owns T w r o') as Hown by (intros [|]; simpl; rewrite ?HE, ?HT; done).
    destruct (di_owner r o (Hown o Ho)) as [O1 O2]. split; [done|]. intros o' Ho'. by apply O2, Hown.
  - intros c' [d1 [[<- _]|[_ H]]%lookup_insert_Some]; [done|]. assert (c' < dw_next w)%positive; [|lia]. apply di_fresh_drc. by exists d1.
  - intros e H. specialize (di_fresh_entry e H). lia.
  - intros e x H. specialize (di_fresh_cache e x H). lia.
  - intros r H. specialize (di_fresh_result r H). lia.
  - intros x H. specialize (di_fresh_xprt x H). lia.
Qed.

(** ** Connections and their caches *)

Lemma attached_update X x p p' c :
  X !! x = Some p -> attached (<[x := p']> X) c = attached X c - (if decide (xu_drc p = Some c) then 1 else 0) + if decide (xu_drc p' = Some c) then 1 else 0.
Proof. intros H. unfold attached. by rewrite (count_update _ X x p p' H). Qed.

Lemma dinv_attach w x p c d :
  dinv w -> dw_xprts w !! x = Some p -> xu_drc p = None -> xp_p2 p = false -> dw_drcs w !! c = Some d -> d_type d <> DRC_UDP_V234 -> attached (dw_xprts w) c < d_refcnt d ->
  dinv (upd_xprts (<[x := mk_xprt (xp_p2 p) (xp_p1 p) (xp_caller p) (Some c)]>) w).
Proof.
  intros I Hx Hnone Hp2 Hc Hu Hlt. set (p' := mk_xprt (xp_p2 p) (xp_p1 p) (xp_caller p) (Some c)).
  pose proof (attached_update (dw_xprts w) x p p') as Hatt. destruct I. split; simpl; try done.
  - intros c' d' H. rewrite Hatt by done. rewrite Hnone. specialize (di_count c' d' H). rewrite (decide_False (P := None = Some c')) by done. simpl.
    destruct (decide (Some c = Some c')) as [[= <-]|]; [|lia]. assert (d' = d) as -> by congruence. lia.
  - intros th t H. destruct (di_thread th t H) as [[q Hq] T2]. split.
    { simpl. destruct (decide (x = rq_xprt (th_req t))) as [<-|]; [by rewrite lookup_insert_eq|rewrite lookup_insert_ne by done; by exists q]. }
    destruct (th_u1 t) as [| |e]; try done. destruct T2 as (y & E1 & E2 & (q' & Hq' & Hs) & E4). exists y. split_and!; try done. unfold serves. simpl.
    destruct (decide (x = rq_xprt (th_req t))) as [Ex|]; [|exists q'; by rewrite lookup_insert_ne]. exists p'. rewrite <- Ex in *. rewrite lookup_insert_eq. split; [done|]. simpl.
    assert (q' = p) as -> by congruence. rewrite Hp2, Hnone in Hs. done.
  - intros x' q [[<- <-]|[_ H]]%lookup_insert_Some; [|by apply (di_xprt x')]. destruct (di_xprt x p Hx) as [X1 _]. split; [done|]. intros c' [= <-]. split; [done|]. by exists d.
  - intros x' [q [[<- _]|[_ H]]%lookup_insert_Some]; apply di_fresh_xprt; [by exists p|by exists q].
Qed.

(** Room in the counts of the caches. *)
Definition room w : Prop := forall c d, dw_drcs w !! c = Some d -> d_refcnt d + 2 <= UINT32_MAX.

(** The cache that is found or made for an address, without the reference of the connection. *)
Definition cache_ready w w' c n : Prop :=
  dinv w' /\ calm w w' /\ dw_xprts w' = dw_xprts w /\
  exists d, dw_drcs w' !! c = Some d /\ d_type d <> DRC_UDP_V234 /\ d_recycle d = false /\ attached (dw_xprts w') c + n <= d_refcnt d.

Lemma tailq_remove_elem x y q : y ∈ tailq_remove x q <-> y <> x /\ y ∈ q.
Proof. unfold tailq_remove. by rewrite list_elem_of_filter. Qed.

Lemma tailq_remove_nodup x q : NoDup q -> NoDup (tailq_remove x q).
Proof. apply NoDup_filter. Qed.

Lemma cache_dequeue w c d t (Q : unit -> dworld -> Prop) :
  dinv w -> t = tcp_drc_recycle_t w -> dw_drcs w !! c = Some d -> d_type d <> DRC_UDP_V234 ->
  (forall w', cache_ready w w' c 0 -> (exists d', dw_drcs w' !! c = Some d' /\ d_refcnt d' = d_refcnt d) -> Q tt w') ->
  wp (when (d_recycle d)
        (modify (fun w => upd_recycle t (tailq_remove c (tcp_drc_recycle_q w)) (i32 (tcp_drc_recycle_qlen w - 1)) w);;
         set_drc c (fun d => with_recycle false (d_recycle_time d) d))) Q w.
Proof.
  intros I -> Hc Hu HQ. pose proof (di_count _ _ _ I c d Hc) as Hn. apply wp_when; intros Hr.
  - apply wp_bind, wp_modify, (wp_set_drc c d); [done|]. unfold upd_drcs, upd_recycle. simpl. set (d' := with_recycle false (d_recycle_time d) d).
    apply HQ; [|exists d'; simpl; by rewrite lookup_insert_eq]. split_and!; [|by apply (calm_drc _ _ c d d')|done|].
    + apply (dinv_drc w _ c d d'); try done; simpl; [|by apply tailq_remove_nodup, (di_idle_nodup _ _ _ I)].
      intros c'. rewrite tailq_remove_elem. destruct (decide (c' = c)); [|tauto]. split; [tauto|done].
    + exists d'. simpl. rewrite lookup_insert_eq. split_and!; try done. simpl. lia.
  - apply HQ; [|by exists d]. split_and!; [done|apply calm_refl|done|]. exists d. split_and!; try done. lia.
Qed.

Lemma wp_attach dtype x p a (Q : loc -> dworld -> Prop) w :
  dinv w -> room w -> dtype <> DRC_UDP_V234 -> dw_xprts w !! x = Some p -> xp_caller p = Some a -> xu_drc p = None -> xp_p2 p = false ->
  (forall c w' d, dinv w' -> calm w w' -> dw_xprts w' !! x = Some (mk_xprt (xp_p2 p) (xp_p1 p) (xp_caller p) (Some c)) ->
     dw_drcs w' !! c = Some d -> d_recycle d = false -> d_refcnt d + 1 <= UINT32_MAX ->
     (forall c1, recycle_lookup (tcp_drc_recycle_t w) (hash_sockaddr_911 a) a = Some c1 -> c = c1) -> Q c w') ->
  wp (attach_drc dtype x) Q w.
Proof.
  intros I Hroom Hty Hx Ha Hnone Hp2 HQ. apply wp_bind, (wp_deref _ _ _ p); [done|]. replace (default zero_ss (xp_caller p)) with a by (by rewrite Ha). apply wp_bind, wp_gets, wp_bind.
  destruct (di_xprt _ _ _ I x p Hx) as [X1 _]. specialize (X1 a Ha).
  apply (wp_mono _ (fun c w' => cache_ready w w' c 0 /\ (exists d, dw_drcs w' !! c = Some d /\ d_refcnt d + 2 <= UINT32_MAX) /\
    forall c1, recycle_lookup (tcp_drc_recycle_t w) (hash_sockaddr_911 a) a = Some c1 -> c = c1)).
  { intros c w1 [(I1 & C1 & HX1 & d & Hd & Hu & Hr & Hn) [(d' & Hd' & Hmax) Hkept]]. assert (d' = d) as -> by congruence.
    apply wp_bind, (wp_set_drc c d); [done|]. set (d1 := with_recycle (d_recycle d) 0 d).
    assert (dinv (upd_drcs <[c:=d1]> w1)) as I2.
    { apply (dinv_drc w1 _ c d d1); try done; simpl; [by apply (di_count _ _ _ I1)|congruence|by apply queue_same|by apply (di_idle_nodup _ _ _ I1)]. }
    assert (calm w1 (upd_drcs <[c:=d1]> w1)) as C2 by (by apply (calm_drc _ _ c d d1)).
    apply wp_bind, (wp_ref_drc c d1); [done|by apply lookup_insert_eq|done|simpl; lia|]. intros w2 I3 C3.
    apply wp_bind, wp_modify, wp_ret. set (d2 := with_refcnt (d_refcnt d1 + 1) d1). assert (dw_drcs w2 !! c = Some d2) as Hd2 by apply lookup_insert_eq.
    assert (dw_xprts w2 !! x = Some p) as Hx2 by (change (dw_xprts w2) with (dw_xprts w1); by rewrite HX1).
    apply (HQ c _ d2); [| |by apply lookup_insert_eq|done|done|simpl; lia|done].
    - apply (dinv_attach w2 x p c d2); try done. change (dw_xprts w2) with (dw_xprts w1). simpl. lia.
    - apply (calm_trans _ w1); [done|]. apply (calm_trans _ _ _ C2), (calm_trans _ _ _ C3). split_and!; try done; [intros c' d' H'; left; by exists d'|].
      intros x' p' Hx'. destruct (decide (x' = x)) as [->|Hne]; [|exists p'; simpl; rewrite lookup_insert_ne by done; auto].
      assert (p' = p) as -> by congruence. eexists. simpl. rewrite lookup_insert_eq. split_and!; try done. by left. }
  destruct (rbtx_lookup _ _ _ _ _) as [c|] eqn:Hl.
  - destruct (di_found _ _ _ I _ a c X1 Hl) as (d & Hd & Hu & _). apply wp_bind, (wp_get_drc c d); [done|]. apply wp_bind.
    apply cache_dequeue; try done. intros w' HC (d' & Hd' & Hn'). apply wp_ret. split; [done|]. split; [|unfold recycle_lookup; congruence]. exists d'. split; [done|]. rewrite Hn'. by apply (Hroom c).
  - apply wp_bind. unfold alloc_tcp_drc. apply wp_bind, wp_pool_alloc; [by apply (di_memory _ _ _ I)|]. intros bs Hbs. apply wp_bind, wp_modify, wp_ret.
    set (c := dw_next w). apply wp_bind. eapply wp_set_drc; [by apply lookup_insert_eq|]. apply wp_bind, wp_modify, wp_ret. unfold upd_drcs, upd_recycle. simpl. rewrite insert_insert_eq.
    set (d := mk_drc dtype _ _ _ _ _ _ _ 1 _ _ _ _). assert (dw_drcs w !! c = None) as Hfree.
    { apply eq_None_not_Some. intros H. pose proof (di_fresh_drc _ _ _ I c H). unfold c in *. lia. }
    split; [|split; [exists d; simpl; rewrite lookup_insert_eq; split; [done|]; simpl; unfold UINT32_MAX; lia|unfold recycle_lookup; congruence]].
    split_and!; simpl.
    + eapply (dinv_new_drc w _ c d); try done; simpl; unfold UINT32_MAX; lia.
    + split_and!; simpl; try done; try lia; [|intros x' p' Hx'; exists p'; auto]. intros c' d' [[<- <-]|[_ H]]%lookup_insert_Some; [by right|left; by exists d'].
    + done.
    + exists d. simpl. rewrite lookup_insert_eq. split_and!; try done. rewrite attached_zero; [simpl; lia|done|]. congruence.
Qed.

(** ** Unused caches go *)

Lemma dinv_free w w' c d :
  dinv w -> dw_drcs w !! c = Some d -> d_recycle d = true -> dw_drcs w' = delete c (dw_drcs w) ->
  tcp_drc_recycle_t w' = rbtx_remove drc_recycle_cmpf drc_recycle_npart (tcp_drc_recycle_t w) (d_hk d) (d_addr d) ->
  tcp_drc_recycle_q w' = tailq_remove c (tcp_drc_recycle_q w) ->
  dw_entries w' = dw_entries w -> dw_results w' = dw_results w -> dw_xprts w' = dw_xprts w -> dw_threads w' = dw_threads w -> udp_drc w' = udp_drc w ->
  dw_next w' = dw_next w -> dw_allocs w' = dw_allocs w -> dinv w'.
Proof.
  intros I Hc Hr HD Ht HQ HE HR HX HT HU Hn Hal. destruct (idle_tcp w c d I Hc Hr) as [H0 Hu]. destruct (di_home _ _ _ I c d Hc Hu) as (Hga & Hl & _).
  assert (attached (dw_xprts w) c = 0) as Hatt.
  { pose proof (di_count _ _ _ I c d Hc). assert (0 <= attached (dw_xprts w) c) by (unfold attached, count; lia). lia. }
  assert (forall c' d', delete c (dw_drcs w) !! c' = Some d' -> c' <> c /\ dw_drcs w !! c' = Some d') as Hback.
  { intros c' d' [Hne H]%lookup_delete_Some. done. }
  assert (forall c' d', dw_drcs w !! c' = Some d' -> c' <> c -> delete c (dw_drcs w) !! c' = Some d') as Hfwd by (intros c' d' H Hne; by rewrite lookup_delete_ne).
  pose proof (rbtx_lookup_remove (drc_recycle_order fam) drc_recycle_npart (tcp_drc_recycle_t w) (d_hk d) (d_addr d)) as Hrem.
  destruct I. split; rewrite ?HE, ?HR, ?HX, ?HT, ?HU, ?Ht, ?HQ, ?HD, ?Hn, ?Hal; try done.
  - destruct di_udp as (d0 & E1 & E2). exists d0. split; [|done]. apply Hfwd; [done|]. intros Heq. rewrite Heq in E1. congruence.
  - intros c' d' [_ H]%Hback. by apply di_type.
  - intros c' d' [_ H]%Hback. by apply di_queue.
  - intros c' d' [_ H]%Hback. by apply di_count.
  - intros c' d' [Hne H]%Hback Hu'. destruct (di_home c' d' H Hu') as (G1 & G2 & G3). split; [done|]. split; [|done]. unfold recycle_lookup. rewrite Hrem by done.
    destruct ((_ =? _) && (_ =? 0)) eqn:Eq; [|done]. apply andb_true_iff in Eq as [E1 E2]. apply Z.eqb_eq in E1, E2. exfalso.
    unfold recycle_lookup in *. rewrite (rbtx_lookup_same (drc_recycle_order fam) _ _ _ _ (d_hk d') (d_addr d')) in Hl by done. congruence.
  - intros hk a c' Ha. unfold recycle_lookup. rewrite Hrem by done. destruct ((_ =? _) && (_ =? 0)) eqn:Eq; [done|]. intros Hl'.
    destruct (di_found hk a c' Ha Hl') as (d' & H1 & H2 & H3 & H4). exists d'. split_and!; try done. apply Hfwd; [done|]. intros ->. assert (d' = d) as -> by congruence.
    apply andb_false_iff in Eq as [Eq|Eq]; apply Z.eqb_neq in Eq; [congruence|]. by apply Eq, (order_sym (drc_recycle_order fam)).
  - by apply (rbtx_all_remove drc_recycle_npart).
  - intros c' d' [Hne H]%Hback Hr'. destruct (di_idle c' d' H Hr'). split; [done|]. by apply tailq_remove_elem.
  - intros c' [Hne Hin]%tailq_remove_elem. destruct (di_idle_q c' Hin) as (d' & H1 & H2). exists d'. split; [by apply Hfwd|done].
  - by apply tailq_remove_nodup.
  - intros e x Hx. destruct (di_entry e x Hx) as (E1 & E2 & E3 & E5). split_and!; rewrite ?HT; try done. intros d'. rewrite HD. intros [_ H]%Hback. by apply E5.
  - intros th t H. destruct (di_thread th t H) as [T1 T2]. split; [by rewrite HX|]. unfold serves in *. by rewrite HE, HX, HU.
  - intros x p Hx. destruct (di_xprt x p Hx) as [X1 X2]. split; [done|]. intros c' Hc'. destruct (X2 c' Hc') as (Hp & d' & H1 & H2). split; [done|]. exists d'. split; [|done].
    apply Hfwd; [done|]. intros ->. pose proof (count_pos (fun q => xu_drc q.2 = Some c) (dw_xprts w) x p Hx Hc'). unfold attached in Hatt. lia.
  - intros r o Ho. assert (forall o', owns T w' r o' -> owns T w r o') as Hown by (intros [|]; simpl; rewrite ?HE, ?HT; done).
    destruct (di_owner r o (Hown o Ho)) as [O1 O2]. split; [done|]. intros o' Ho'. by apply O2, Hown.
  - intros c' [d' [_ H]%Hback]. apply di_fresh_drc. by exists d'.
Qed.

Lemma tailq_remove_head c q : NoDup (c :: q) -> tailq_remove c (c :: q) = q.
Proof.
  intros [Hc Hq]%NoDup_cons. unfold tailq_remove. rewrite filter_cons_False by (intros H; by apply H). clear Hq.
  induction q as [|x q IH]; [done|]. apply not_elem_of_cons in Hc as [Hne Hc]. rewrite filter_cons_True by congruence. by rewrite IH.
Qed.

Lemma wp_free_expired now fuel (Q : unit -> dworld -> Prop) w :
  dinv w -> (length (tcp_drc_recycle_q w) < fuel)%nat -> (forall w', dinv w' -> calm w w' -> dw_xprts w' = dw_xprts w -> (forall c, is_Some (dw_drcs w !! c) -> c ∉ tcp_drc_recycle_q w -> dw_drcs w' !! c = dw_drcs w !! c) -> Q tt w') ->
  wp (free_expired fuel now) Q w.
Proof.
  revert Q w. induction fuel as [|fuel IH]; intros Q w I Hlen HQ; [lia|]. simpl. apply wp_bind, wp_gets.
  assert (wp (modify (upd_last_check now)) Q w) as Hstop.
  { apply wp_modify, HQ; try done; [by destruct I|]. pose proof (calm_refl w) as C. exact C. }
  destruct (tcp_drc_recycle_q w) as [|c q] eqn:Hq; [done|]. destruct (di_idle_q _ _ _ I c) as (d & Hd & Hr & Hu); [rewrite Hq; apply elem_of_cons; by left|].
  apply wp_bind, (wp_get_drc c d); [done|]. destruct (_ && _ && _); [|done]. apply wp_bind, wp_gets. destruct (di_home _ _ _ I c d Hd Hu) as (_ & Hl & _). unfold recycle_lookup in Hl. rewrite Hl.
  apply wp_bind, wp_modify, wp_bind, (wp_set_drc c d); [done|]. destruct (idle_tcp w c d I Hd Hr) as [-> _]. simpl. apply wp_bind, wp_bind.
  eapply wp_get_drc; [by apply lookup_insert_eq|]. apply wp_modify. unfold upd_drcs. simpl. rewrite delete_insert_eq.
  pose proof (di_idle_nodup _ _ _ I) as Hnd. rewrite Hq in Hnd. apply IH.
  - apply (dinv_free w _ c d); try done. simpl. by rewrite Hq.
  - simpl. rewrite tailq_remove_head by done. simpl in Hlen. lia.
  - intros w' I' C' HX' HD'. apply HQ; [done| |done|].
    + eapply calm_trans; [|exact C']. split_and!; simpl; try done; [intros c' d' [_ H]%lookup_delete_Some; left; by exists d'|]. intros x p Hx. exists p. auto.
    + intros c' Hc' Hnin. apply not_elem_of_cons in Hnin as [Hne Hnin]. rewrite HD'; simpl.
      * by rewrite lookup_delete_ne.
      * by rewrite lookup_delete_ne.
      * rewrite tailq_remove_head by done. done.
Qed.

Lemma wp_drc_free_expired (Q : unit -> dworld -> Prop) w :
  dinv w -> (forall w', dinv w' -> calm w w' -> dw_xprts w' = dw_xprts w -> (forall c, is_Some (dw_drcs w !! c) -> c ∉ tcp_drc_recycle_q w -> dw_drcs w' !! c = dw_drcs w !! c) -> Q tt w') ->
  wp drc_free_expired Q w.
Proof.
  intros I HQ. unfold drc_free_expired. apply wp_bind, wp_gets, wp_bind, wp_gets, wp_bind, wp_gets.
  destruct (_ || _); [apply wp_ret, HQ; [done|apply calm_refl|done|done]|]. apply wp_bind, wp_gets, wp_free_expired; [done|lia|done].
Qed.

(** * The cache of a request *)

Lemma serves_calm w w' req c : calm w w' -> serves w req c -> serves w' req c.
Proof.
  intros (_ & _ & HU & _ & _ & _ & HX) (p & Hp & Hs). destruct (HX _ _ Hp) as (p' & Hp' & E1 & _ & E2). exists p'. split; [done|]. rewrite E1, HU.
  destruct (xp_p2 p); [done|]. destruct E2 as [E2|E2]; congruence.
Qed.

Lemma wp_dupreq_get_drc req p a (Q : loc -> dworld -> Prop) w :
  dinv w -> room w -> dw_xprts w !! rq_xprt req = Some p -> xp_caller p = Some a ->
  (forall c w' d, dinv w' -> calm w w' -> serves w' req c -> dw_drcs w' !! c = Some d -> (d_type d <> DRC_UDP_V234 -> attached (dw_xprts w') c < d_refcnt d) ->
     (d_type d = DRC_UDP_V234 -> xp_p2 p = true) -> (forall c1, finds w p a c1 -> c = c1) -> Q c w') ->
  wp (nfs_dupreq_get_drc req) Q w.
Proof.
  intros I Hroom Hx Ha HQ. apply wp_bind, (wp_deref _ _ _ p); [done|]. unfold get_drc_type. destruct (xp_p2 p) eqn:Hp2.
  - apply wp_bind, wp_gets. destruct (di_udp _ _ _ I) as (d & Hd & Hu). pose proof (idle_tcp w _ d I Hd) as Hid.
    assert (d_recycle d = false) by (apply not_true_is_false; intros Hr; by destruct (Hid Hr)). specialize (Hroom _ _ Hd).
    apply wp_bind, (wp_ref_drc _ d); [done|done|done|lia|]. intros w' I' C'. apply wp_ret. eapply (HQ _ w'); [done|done| |by apply lookup_insert_eq|done|done|unfold finds; rewrite Hp2; by intros c1 ->].
    exists p. split; [done|]. by rewrite Hp2.
  - assert (exists dtype, dtype <> DRC_UDP_V234 /\ (if rq_vers req =? 4 then DRC_TCP_V4 else DRC_TCP_V3) = dtype) as (dtype & Hty & ->) by (eexists; split; [|reflexivity]; by destruct (_ =? 4)).
    assert (wp ('(c, b) ← match xu_drc p with Some c => get_drc c;; mret (c, false) | None => c ← attach_drc dtype (rq_xprt req); mret (c, true) end;
        nfs_dupreq_ref_drc c;; when b drc_free_expired;; mret c) Q w) as Hgo.
    { apply wp_bind. destruct (xu_drc p) as [c|] eqn:Hxu.
      - destruct (di_xprt _ _ _ I _ p Hx) as [_ X2]. destruct (X2 c Hxu) as (_ & d & Hd & Hu). apply wp_bind, (wp_get_drc c d); [done|]. apply wp_ret.
        assert (d_recycle d = false) as Hr.
        { apply not_true_is_false. intros Hr. destruct (idle_tcp w c d I Hd Hr) as [E0 _]. pose proof (di_count _ _ _ I c d Hd).
          pose proof (count_pos (fun q => xu_drc q.2 = Some c) (dw_xprts w) _ p Hx Hxu). unfold attached in *. lia. }
        pose proof (Hroom _ _ Hd). pose proof (di_count _ _ _ I c d Hd). apply wp_bind, (wp_ref_drc _ d); [done|done|done|lia|]. intros w' I' C'. apply wp_bind, wp_ret, wp_ret.
        eapply (HQ _ w'); [done|done| |by apply lookup_insert_eq|simpl; lia|done|unfold finds; by rewrite Hp2, Hxu]. exists p. split; [done|]. by rewrite Hp2.
      - apply wp_bind, (wp_attach dtype _ p a); try done. intros c w1 d I1 C1 Hx1 Hd Hr Hmax Hkept. apply wp_ret. pose proof (di_count _ _ _ I1 c d Hd).
        apply wp_bind, (wp_ref_drc _ d); [done|done|done|lia|]. intros w2 I2 C2. set (d2 := with_refcnt (d_refcnt d + 1) d). assert (dw_drcs w2 !! c = Some d2) as Hd2 by apply lookup_insert_eq.
        apply wp_bind, wp_drc_free_expired; [done|]. intros w3 I3 C3 HX3 HD3. apply wp_ret.
        assert (dw_drcs w3 !! c = Some d2) as Hd3.
        { rewrite HD3; [done|by exists d2|]. intros Hin. destruct (di_idle_q _ _ _ I2 c Hin) as (d' & E1 & E2 & _). assert (d' = d2) as -> by congruence. simpl in E2. congruence. }
        destruct (di_xprt _ _ _ I1 _ _ Hx1) as [_ X2]. destruct (X2 c eq_refl) as (_ & d' & E1 & Hu). assert (d' = d) as -> by congruence.
        apply (HQ c w3 d2); [done|by apply (calm_trans _ w1), (calm_trans _ w2)| |done| |done|].
        + apply (serves_calm w1); [by apply (calm_trans _ w2)|]. eexists. split; [exact Hx1|]. simpl. by rewrite Hp2.
        + rewrite HX3. simpl. change (dw_xprts w2) with (dw_xprts w1). lia.
        + unfold finds. rewrite Hp2, Hxu. intros c1 (d1 & Hd1 & Hu1 & <-). destruct (di_home _ _ _ I c1 d1 Hd1 Hu1) as (_ & Hl & Hh). apply Hkept. by rewrite <- Hh. }
    destruct dtype; [exact Hgo|exact Hgo|done].
Qed.
End step.

(** * Entries *)

Section entries.
Context {rb : RbTree} {laws : RbTreeLaws rb} {env : DupreqEnv} (fam : Z).
Implicit Types (d : drc_t) (w : dworld) (c e r th : loc) (E : gmap loc dupreq_entry_t) (X : gmap loc svcxprt) (T : gmap loc thread).
Abbreviation dinv := (dinv fam).
Abbreviation good_addr := (good_addr fam).

(** What identifies an entry, and its result. *)
Definition same_entry (x x' : dupreq_entry_t) : Prop :=
  hin_drc x' = hin_drc x /\ de_key x' = de_key x /\ nfs_dupreq_func x' = nfs_dupreq_func x /\ de_res x' = de_res x.

Lemma queue_ok_update E c d e x x' :
  E !! e = Some x -> same_entry x x' -> (e ∈ dupreq_q d -> de_state x' <> DUPREQ_DELETED) -> queue_ok fam E c d -> queue_ok fam (<[e := x']> E) c d.
Proof.
  intros Hx (E1 & E2 & E3 & E4) Hst [Q1 Q2 Q3 Q4 Q5]. split; try done.
  - intros e' He'. destruct (Q2 e' He') as (y & H1 & H2 & H3 & H4 & H5). destruct (decide (e' = e)) as [->|Hne]; [|exists y; by rewrite lookup_insert_ne].
    assert (y = x) as -> by congruence. exists x'. rewrite lookup_insert_eq. rewrite E1, E2. split_and!; try done. by apply Hst.
  - intros k e' Hk Hl. destruct (Q3 k e' Hk Hl) as (H1 & y & H2 & H3). split; [done|]. destruct (decide (e' = e)) as [->|Hne]; [|exists y; by rewrite lookup_insert_ne].
    assert (y = x) as -> by congruence. exists x'. rewrite lookup_insert_eq, E2. done.
Qed.

(** An entry changes, or the requests that use it. *)
Lemma dinv_update T T' w w' e x x' :
  dinv T w -> dw_entries w !! e = Some x -> same_entry x x' -> dw_entries w' = <[e := x']> (dw_entries w) ->
  (forall d, dw_drcs w !! hin_drc x = Some d -> e ∈ dupreq_q d -> de_state x' <> DUPREQ_DELETED) ->
  (de_state x = DUPREQ_DELETED -> de_state x' = DUPREQ_DELETED) ->
  de_refcnt x' = users T' e -> (forall e', e' <> e -> users T' e' = users T e') ->
  (forall th t, T' !! th = Some t -> thread_ok w' t) ->
  (forall th1 th2 t1 t2 e, T' !! th1 = Some t1 -> T' !! th2 = Some t2 -> th_u1 t1 = dupreq_at e -> th_u1 t2 = dupreq_at e -> th_phase t1 = running -> th1 = th2) ->
  (forall r th, owns T' w' r (inr th) -> owns T w r (inr th)) ->
  dw_drcs w' = dw_drcs w -> dw_results w' = dw_results w -> dw_xprts w' = dw_xprts w -> udp_drc w' = udp_drc w ->
  tcp_drc_recycle_t w' = tcp_drc_recycle_t w -> tcp_drc_recycle_q w' = tcp_drc_recycle_q w -> dw_next w' = dw_next w -> dw_allocs w' = dw_allocs w -> dinv T' w'.
Proof.
  intros I Hx Hsame HE Hst Hdel Hn Hothers HT Hrun Hown HD HR HX HU Ht HQ Hnext Hal. pose proof Hsame as (S1 & S2 & S3 & S4).
  assert (forall r o, owns T' w' r o -> owns T w r o) as Hown'.
  { intros r [e'|th] Ho; [|by apply Hown]. destruct Ho as (y & Hy & Hr). rewrite HE in Hy. apply lookup_insert_Some in Hy as [[<- <-]|[_ Hy]]; [exists x; split; [done|congruence]|by exists y]. }
  destruct I. split; rewrite ?HE, ?HR, ?HX, ?HU, ?Ht, ?HQ, ?HD, ?Hnext, ?Hal; try done.
  - intros c d Hd. apply (queue_ok_update _ _ _ _ x); try done; [|by apply di_queue]. intros Hin. apply (Hst d); [|done].
    destruct (qo_in _ _ _ _ (di_queue c d Hd) e Hin) as (y & Hy & Hc & _). congruence.
  - intros e' y [[<- <-]|[Hne Hy]]%lookup_insert_Some.
    + destruct (di_entry e x Hx) as (E1 & E2 & E3 & E4). split_and!; [done|by rewrite S3|by rewrite S4|]. rewrite S1, HD. intros d Hd. destruct (E4 d Hd); [by left|right; auto].
    + destruct (di_entry e' y Hy) as (E1 & E2 & E3 & E4). split_and!; try done; [by rewrite Hothers|by rewrite HD].
  - intros r o Ho. destruct (di_owner r o (Hown' _ _ Ho)) as [O1 O2]. split; [done|]. intros o' Ho'. by apply O2, Hown'.
  - intros e' [y [[<- _]|[_ Hy]]%lookup_insert_Some]; apply di_fresh_entry; [by exists x|by exists y].
  - intros e' y [[<- <-]|[_ Hy]]%lookup_insert_Some; [rewrite S1; by apply (di_fresh_cache e)|by apply (di_fresh_cache e')].
Qed.

Lemma tailq_remove_length e q : NoDup q -> e ∈ q -> length (tailq_remove e q) = (length q - 1)%nat.
Proof.
  intros Hnd (q1 & q2 & ->)%list_elem_of_split. apply NoDup_app in Hnd as (H1 & H2 & H3). apply NoDup_cons in H3 as [H3 H4].
  unfold tailq_remove. rewrite filter_app, filter_cons_False by (intros H; by apply H).
  assert (forall l : list loc, e ∉ l -> filter (fun y => y <> e) l = l) as Hid.
  { intros l Hl. induction l as [|y l IH]; [done|]. apply not_elem_of_cons in Hl as [Hne Hl]. rewrite filter_cons_True by congruence. by rewrite IH. }
  rewrite !Hid; [rewrite !length_app; simpl; lia|done|]. intros Hin. apply (H2 e Hin), elem_of_cons. by left.
Qed.

Lemma drc_lookup_same d k k' : rbtx_all (key_ok fam (d_type d)) (d_xt d) -> key_ok fam (d_type d) k -> key_ok fam (d_type d) k' -> drc_cmpf d k k' = 0 -> drc_lookup d k = drc_lookup d k'.
Proof.
  intros Hall Hk Hk' E. unfold drc_lookup. apply (rbtx_lookup_same (type_order fam (d_type d))); try done. f_equal. by apply (type_cmpf_hk (d_type d)).
Qed.

Lemma drc_cmpf_hk d k k' : drc_cmpf d k k' = 0 -> key_hk k = key_hk k'.
Proof. apply type_cmpf_hk. Qed.

(** The entries of a cache change, not what it counts. *)
Lemma dinv_counters T w c d d' :
  dinv T w -> dw_drcs w !! c = Some d -> d_type d' = d_type d -> d_refcnt d' = d_refcnt d -> d_addr d' = d_addr d -> d_hk d' = d_hk d -> d_recycle d' = d_recycle d ->
  let D := <[c := d']> (dw_drcs w) in
  (exists d0, D !! udp_drc w = Some d0 /\ d_type d0 = DRC_UDP_V234) /\
  (forall c' d0, D !! c' = Some d0 -> d_type d0 = DRC_UDP_V234 -> c' = udp_drc w) /\
  (forall c' d0, D !! c' = Some d0 -> attached (dw_xprts w) c' <= d_refcnt d0 <= UINT32_MAX) /\
  (forall c' d0, D !! c' = Some d0 -> d_type d0 <> DRC_UDP_V234 -> good_addr (d_addr d0) /\ recycle_lookup (tcp_drc_recycle_t w) (d_hk d0) (d_addr d0) = Some c' /\ d_hk d0 = hash_sockaddr_911 (d_addr d0)) /\
  (forall hk a c', good_addr a -> recycle_lookup (tcp_drc_recycle_t w) hk a = Some c' ->
    exists d0, D !! c' = Some d0 /\ d_type d0 <> DRC_UDP_V234 /\ drc_recycle_cmpf a (d_addr d0) = 0 /\
      rbtx_partition_of_scalar drc_recycle_npart hk = rbtx_partition_of_scalar drc_recycle_npart (d_hk d0)) /\
  (forall c' d0, D !! c' = Some d0 -> d_recycle d0 = true -> d_refcnt d0 = 0 /\ c' ∈ tcp_drc_recycle_q w) /\
  (forall c', c' ∈ tcp_drc_recycle_q w -> exists d0, D !! c' = Some d0 /\ d_recycle d0 = true /\ d_type d0 <> DRC_UDP_V234) /\
  (forall x p, dw_xprts w !! x = Some p -> (forall a, xp_caller p = Some a -> good_addr a) /\
    (forall c', xu_drc p = Some c' -> xp_p2 p = false /\ exists d0, D !! c' = Some d0 /\ d_type d0 <> DRC_UDP_V234)) /\
  (forall c', is_Some (D !! c') -> (c' < dw_next w)%positive).
Proof.
  intros I Hd E1 E2 E3 E4 E5 D.
  assert (forall c' d1, D !! c' = Some d1 -> exists d0, dw_drcs w !! c' = Some d0 /\ d_type d1 = d_type d0 /\ d_refcnt d1 = d_refcnt d0 /\ d_addr d1 = d_addr d0 /\ d_hk d1 = d_hk d0 /\ d_recycle d1 = d_recycle d0) as Hback.
  { intros c' d1 [[<- <-]|[_ H]]%lookup_insert_Some; [by exists d|by exists d1]. }
  assert (forall c' d0, dw_drcs w !! c' = Some d0 -> exists d1, D !! c' = Some d1 /\ d_type d1 = d_type d0 /\ d_addr d1 = d_addr d0 /\ d_hk d1 = d_hk d0 /\ d_recycle d1 = d_recycle d0) as Hfwd.
  { intros c' d0 H. unfold D. destruct (decide (c' = c)) as [->|Hne]; [assert (d0 = d) as -> by congruence; exists d'; by rewrite lookup_insert_eq|exists d0; by rewrite lookup_insert_ne]. }
  destruct I. split_and!.
  - destruct di_udp as (d0 & H0 & Hu). destruct (Hfwd _ _ H0) as (d1 & H1 & F1 & _). exists d1. split; [done|congruence].
  - intros c' d1 H1. destruct (Hback _ _ H1) as (d0 & H0 & -> & _). by apply di_type.
  - intros c' d1 H1. destruct (Hback _ _ H1) as (d0 & H0 & _ & -> & _). by apply di_count.
  - intros c' d1 H1 Hu. destruct (Hback _ _ H1) as (d0 & H0 & F1 & _ & -> & -> & _). apply di_home; [done|congruence].
  - intros hk a c' Ha Hl. destruct (di_found hk a c' Ha Hl) as (d0 & H0 & Hu & H2 & H3). destruct (Hfwd _ _ H0) as (d1 & H1 & F1 & F2 & F3 & _). exists d1. rewrite F1, F2, F3. done.
  - intros c' d1 H1 Hr. destruct (Hback _ _ H1) as (d0 & H0 & _ & -> & _ & _ & F1). apply di_idle; [done|congruence].
  - intros c' Hin. destruct (di_idle_q c' Hin) as (d0 & H0 & Hr & Hu). destruct (Hfwd _ _ H0) as (d1 & H1 & F1 & _ & _ & F2). exists d1. rewrite F1, F2. done.
  - intros xp p Hxp. destruct (di_xprt xp p Hxp) as [X1 X2]. split; [done|]. intros c' Hc'. destruct (X2 c' Hc') as (Hp2 & d0 & H0 & Hu). split; [done|].
    destruct (Hfwd _ _ H0) as (d1 & H1 & F1 & _). exists d1. split; [done|congruence].
  - intros c' [d1 H1]. destruct (Hback _ _ H1) as (d0 & H0 & _). apply di_fresh_drc. by exists d0.
Qed.

(** An entry leaves its cache. *)
Definition without e (k : dupreq_key) d : drc_t :=
  with_queue (rbtx_remove (drc_cmpf d) (d_npart d) (d_xt d) (key_hk k) k) (tailq_remove e (dupreq_q d)) (u32 (d_size d - 1)) d.

Lemma queue_ok_remove E c d e x x' :
  queue_ok fam E c d -> e ∈ dupreq_q d -> E !! e = Some x -> same_entry x x' -> queue_ok fam (<[e := x']> E) c (without e (de_key x) d).
Proof.
  intros [Q1 Q2 Q3 Q4 Q5] He Hx (S1 & S2 & _). destruct (Q2 e He) as (x0 & Hx0 & _ & _ & Hk & Hl). assert (x0 = x) as -> by congruence. clear Hx0.
  pose proof (type_order fam (d_type d)) as HO. pose proof (rbtx_lookup_remove HO (d_npart d) (d_xt d) (key_hk (de_key x)) (de_key x)) as Hrem.
  assert (forall k, key_ok fam (d_type d) k -> drc_lookup (without e (de_key x) d) k = if drc_cmpf d (de_key x) k =? 0 then None else drc_lookup d k) as Hlk.
  { intros k Hk'. unfold drc_lookup at 1. change (drc_cmpf (without e (de_key x) d)) with (drc_cmpf d). simpl. unfold drc_cmpf in *. rewrite Hrem by done.
    destruct (Z.eqb_spec (type_cmpf (d_type d) (de_key x) k) 0) as [E0|E0]; [|by rewrite andb_false_r]. by rewrite (type_cmpf_hk _ _ _ E0), Z.eqb_refl. }
  split; simpl.
  - by apply tailq_remove_nodup.
  - intros e' [Hne He']%tailq_remove_elem. destruct (Q2 e' He') as (y & H1 & H2 & H3 & H4 & H5). exists y. rewrite lookup_insert_ne by done. split_and!; try done.
    rewrite Hlk by done. destruct (Z.eqb_spec (drc_cmpf d (de_key x) (de_key y)) 0) as [E0|]; [|done].
    rewrite (drc_lookup_same d _ _ Q4 Hk H4 E0) in Hl. congruence.
  - intros k e' Hk'. rewrite Hlk by done. destruct (Z.eqb_spec (drc_cmpf d (de_key x) k) 0) as [|E0]; [done|]. intros Hl'. destruct (Q3 k e' Hk' Hl') as (H1 & y & H2 & H3).
    assert (e' <> e) as Hne. { intros ->. assert (y = x) as -> by congruence. by apply E0, (order_sym HO). }
    split; [by apply tailq_remove_elem|]. exists y. rewrite lookup_insert_ne by done. done.
  - by apply (rbtx_all_remove (d_npart d)).
  - rewrite Q5, tailq_remove_length by done. unfold u32. rewrite Zminus_mod_idemp_l. f_equal. destruct (dupreq_q d); [by apply not_elem_of_nil in He|]. simpl. lia.
Qed.

Lemma dinv_remove T w w' c d e x x' :
  dinv T w -> dw_drcs w !! c = Some d -> e ∈ dupreq_q d -> dw_entries w !! e = Some x -> same_entry x x' -> de_state x' = DUPREQ_DELETED -> de_refcnt x' = de_refcnt x ->
  (forall th t, T !! th = Some t -> th_u1 t = dupreq_at e -> th_phase t = leaving) ->
  dw_drcs w' = <[c := without e (de_key x) d]> (dw_drcs w) -> dw_entries w' = <[e := x']> (dw_entries w) ->
  dw_results w' = dw_results w -> dw_xprts w' = dw_xprts w -> udp_drc w' = udp_drc w ->
  tcp_drc_recycle_t w' = tcp_drc_recycle_t w -> tcp_drc_recycle_q w' = tcp_drc_recycle_q w -> dw_next w' = dw_next w -> dw_allocs w' = dw_allocs w -> dinv T w'.
Proof.
  intros I Hd He Hx Hsame Hst Hn Hleave HD HE HR HX HU Ht HQ Hnext Hal. pose proof Hsame as (S1 & S2 & S3 & S4). set (d' := without e (de_key x) d).
  assert (hin_drc x = c) as Hhin. { destruct (qo_in _ _ _ _ (di_queue _ _ _ I c d Hd) e He) as (y & Hy & Hc & _). congruence. }
  destruct (dinv_counters T w c d d' I Hd) as (C1 & C2 & C3 & C4 & C5 & C6 & C7 & C8 & C9); [done..|].
  assert (forall r o, owns T w' r o -> owns T w r o) as Hown.
  { intros r [e'|th] Ho; [|done]. destruct Ho as (y & Hy & Hr). rewrite HE in Hy. apply lookup_insert_Some in Hy as [[<- <-]|[_ Hy]]; [exists x; split; [done|congruence]|by exists y]. }
  destruct I. split; rewrite ?HE, ?HR, ?HX, ?HU, ?Ht, ?HQ, ?HD, ?Hnext, ?Hal; try done.
  - intros c' d1 [[<- <-]|[Hne H]]%lookup_insert_Some; [by apply queue_ok_remove; [apply di_queue|..]|].
    apply (queue_ok_update _ _ _ _ x); try done; [|by apply di_queue]. intros Hin. destruct (qo_in _ _ _ _ (di_queue c' d1 H) e Hin) as (y & Hy & Hc & _). congruence.
  - intros e' y [[<- <-]|[Hne Hy]]%lookup_insert_Some.
    + destruct (di_entry e x Hx) as (E1 & E2 & E3 & E4). split_and!; [congruence|by rewrite S3|by rewrite S4|]. intros. by right.
    + destruct (di_entry e' y Hy) as (E1 & E2 & E3 & E4). split_and!; try done. rewrite HD. intros d1 [[Heq <-]|[_ H]]%lookup_insert_Some; [|by apply E4].
      rewrite <- Heq in E4. destruct (E4 d Hd) as [Hin|]; [left|by right]. simpl. by apply tailq_remove_elem.
  - intros th t H. destruct (di_thread th t H) as [T1 T2]. split; [by rewrite HX|]. destruct (th_u1 t) as [| |e'] eqn:Hu1; try done. destruct T2 as (y & H1 & H2 & H3 & H4).
    unfold serves in *. rewrite HX, HU, HE. destruct (decide (e' = e)) as [->|Hne]; [|exists y; by rewrite lookup_insert_ne].
    assert (y = x) as -> by congruence. exists x'. rewrite lookup_insert_eq, S1, S4. split_and!; try done. intros Hph. rewrite (Hleave th t H Hu1) in Hph. done.
  - intros r o Ho. destruct (di_owner r o (Hown _ _ Ho)) as [O1 O2]. split; [done|]. intros o' Ho'. by apply O2, Hown.
  - intros e' [y [[<- _]|[_ Hy]]%lookup_insert_Some]; apply di_fresh_entry; [by exists x|by exists y].
  - intros e' y [[<- <-]|[_ Hy]]%lookup_insert_Some; [rewrite S1; by apply (di_fresh_cache e)|by apply (di_fresh_cache e')].
Qed.

(** An entry that has left its cache and is not used is freed, with its result. *)
Lemma dinv_forget T w w' e x r :
  dinv T w -> dw_entries w !! e = Some x -> de_state x = DUPREQ_DELETED -> users T e = 0 -> de_res x = Some r ->
  dw_entries w' = delete e (dw_entries w) -> dw_results w' = delete r (dw_results w) ->
  dw_drcs w' = dw_drcs w -> dw_xprts w' = dw_xprts w -> udp_drc w' = udp_drc w ->
  tcp_drc_recycle_t w' = tcp_drc_recycle_t w -> tcp_drc_recycle_q w' = tcp_drc_recycle_q w -> dw_next w' = dw_next w -> dw_allocs w' = dw_allocs w -> dinv T w'.
Proof.
  intros I Hx Hst H0 Hr HE HR HD HX HU Ht HQ Hnext Hal.
  assert (forall c d, dw_drcs w !! c = Some d -> e ∉ dupreq_q d) as Hout.
  { intros c d Hd Hin. destruct (qo_in _ _ _ _ (di_queue _ _ _ I c d Hd) e Hin) as (y & Hy & _ & Hns & _). congruence. }
  assert (forall r' o, owns T w' r' o -> owns T w r' o /\ o <> inl e) as Hown.
  { intros r' [e'|th] Ho; [|done]. destruct Ho as (y & Hy & Hr'). rewrite HE in Hy. apply lookup_delete_Some in Hy as [Hne Hy]. split; [by exists y|congruence]. }
  destruct I. split; rewrite ?HE, ?HR, ?HX, ?HU, ?Ht, ?HQ, ?HD, ?Hnext, ?Hal; try done.
  - intros c d Hd. destruct (di_queue c d Hd) as [Q1 Q2 Q3 Q4 Q5]. specialize (Hout c d Hd). split; try done.
    + intros e' He'. destruct (Q2 e' He') as (y & H1 & H2). exists y. rewrite lookup_delete_ne by congruence. done.
    + intros k e' Hk Hl. destruct (Q3 k e' Hk Hl) as (H1 & y & H2 & H3). split; [done|]. exists y. rewrite lookup_delete_ne by congruence. done.
  - intros e' y [Hne Hy]%lookup_delete_Some. destruct (di_entry e' y Hy) as (E1 & E2 & E3 & E4). split_and!; try done. by rewrite HD.
  - intros th t H. destruct (di_thread th t H) as [T1 T2]. split; [by rewrite HX|]. destruct (th_u1 t) as [| |e'] eqn:Hu1; try done. unfold serves in *. rewrite HX, HU, HE.
    destruct T2 as (y & H1 & H2). exists y. rewrite lookup_delete_ne; [done|]. intros ->. pose proof (count_pos (holds e') T th t H Hu1). unfold users in H0. lia.
  - intros r' o Ho. destruct (Hown _ _ Ho) as [Ho1 Hne]. destruct (di_owner r' o Ho1) as [O1 O2]. split.
    + rewrite lookup_delete_ne; [done|]. intros <-. apply Hne. symmetry. apply O2. by exists x.
    + intros o' Ho'. apply O2. by apply Hown.
  - intros e' [y [_ Hy]%lookup_delete_Some]. apply di_fresh_entry. by exists y.
  - intros e' y [_ Hy]%lookup_delete_Some. by apply (di_fresh_cache e').
  - intros r' [v [_ Hv]%lookup_delete_Some]. apply di_fresh_result. by exists v.
Qed.

(** A new entry enters its cache, for a request that starts. *)
Definition entered dk (k : dupreq_key) d : drc_t :=
  with_queue (rbtx_insert (drc_cmpf d) (d_npart d) (d_xt d) (key_hk k) k dk) (dupreq_q d ++ [dk]) (u32 (d_size d + 1)) d.

Lemma queue_ok_enter E c d dk x :
  queue_ok fam E c d -> E !! dk = None -> hin_drc x = c -> de_state x <> DUPREQ_DELETED -> key_ok fam (d_type d) (de_key x) -> drc_lookup d (de_key x) = None ->
  queue_ok fam (<[dk := x]> E) c (entered dk (de_key x) d).
Proof.
  intros [Q1 Q2 Q3 Q4 Q5] Hdk Hc Hst Hk Hno. pose proof (type_order fam (d_type d)) as HO.
  pose proof (rbtx_lookup_insert HO (d_npart d) (d_xt d) (key_hk (de_key x)) (de_key x) dk) as Hins.
  assert (forall k, key_ok fam (d_type d) k -> drc_lookup (entered dk (de_key x) d) k = if drc_cmpf d (de_key x) k =? 0 then Some dk else drc_lookup d k) as Hlk.
  { intros k Hk'. unfold drc_lookup at 1. change (drc_cmpf (entered dk (de_key x) d)) with (drc_cmpf d). simpl. unfold drc_lookup, drc_cmpf in *. rewrite Hins by done.
    destruct (Z.eqb_spec (type_cmpf (d_type d) (de_key x) k) 0) as [E0|E0]; [|by rewrite andb_false_r]. by rewrite (type_cmpf_hk _ _ _ E0), Z.eqb_refl. }
  assert (forall e y, E !! e = Some y -> <[dk := x]> E !! e = Some y) as Hfwd by (intros e y H; rewrite lookup_insert_ne; [done|congruence]).
  assert (dk ∉ dupreq_q d) as Hnin by (intros Hin; destruct (Q2 dk Hin) as (y & Hy & _); congruence).
  split; simpl.
  - apply NoDup_app. split_and!; [done| |apply NoDup_singleton]. intros e He ->%list_elem_of_singleton. done.
  - intros e [He| ->%list_elem_of_singleton]%elem_of_app.
    + destruct (Q2 e He) as (y & H1 & H2 & H3 & H4 & H5). exists y. split_and!; try done; [by apply Hfwd|]. rewrite Hlk by done.
      destruct (Z.eqb_spec (drc_cmpf d (de_key x) (de_key y)) 0) as [E0|]; [|done]. rewrite (drc_lookup_same d _ _ Q4 Hk H4 E0) in Hno. congruence.
    + exists x. rewrite lookup_insert_eq. split_and!; try done. rewrite Hlk by done. unfold drc_cmpf. by rewrite (order_refl HO).
  - intros k e Hk'. rewrite Hlk by done. destruct (Z.eqb_spec (drc_cmpf d (de_key x) k) 0) as [E0|].
    + intros [= <-]. split; [apply elem_of_app; right; by apply list_elem_of_singleton|]. exists x. rewrite lookup_insert_eq. split; [done|]. by apply (order_sym HO).
    + intros Hl. destruct (Q3 k e Hk' Hl) as (H1 & y & H2 & H3). split; [apply elem_of_app; by left|]. exists y. split; [by apply Hfwd|done].
  - by apply (rbtx_all_insert (d_npart d)).
  - rewrite Q5, u32_add_l, length_app. f_equal. simpl. lia.
Qed.

Lemma users_insert T th t e : T !! th = None -> users (<[th := t]> T) e = users T e + if decide (th_u1 t = dupreq_at e) then 1 else 0.
Proof.
  intros H. unfold users. by rewrite count_insert.
Qed.

Lemma unused T w e : dinv T w -> dw_entries w !! e = None -> users T e = 0.
Proof.
  intros I He. apply count_zero. intros th t Ht Hu. destruct (di_thread _ _ _ I th t Ht) as [_ T2]. unfold holds in Hu. simpl in Hu. rewrite Hu in T2. destruct T2 as (x & Hx & _). congruence.
Qed.

Lemma dinv_enter T w w' c d dk x r th t :
  dinv T w -> dw_drcs w !! c = Some d -> dw_entries w !! dk = None -> (dk < dw_next w)%positive -> T !! th = None ->
  hin_drc x = c -> de_state x = DUPREQ_START -> de_refcnt x = 1 -> de_res x = Some r -> is_Some (nfs_dupreq_func x) ->
  key_ok fam (d_type d) (de_key x) -> drc_lookup d (de_key x) = None ->
  th_u1 t = dupreq_at dk -> th_res t = r -> th_phase t = running -> serves w (th_req t) c -> is_Some (dw_results w !! r) -> (forall o, ~ owns T w r o) ->
  dw_drcs w' = <[c := entered dk (de_key x) d]> (dw_drcs w) -> dw_entries w' = <[dk := x]> (dw_entries w) ->
  dw_results w' = dw_results w -> dw_xprts w' = dw_xprts w -> udp_drc w' = udp_drc w ->
  tcp_drc_recycle_t w' = tcp_drc_recycle_t w -> tcp_drc_recycle_q w' = tcp_drc_recycle_q w -> dw_next w' = dw_next w -> dw_allocs w' = dw_allocs w ->
  dinv (<[th := t]> T) w'.
Proof.
  intros I Hd Hdk Hlt Hth Hhin Hst Hn Hres Hf Hk Hno Hu1 Htr Hph Hserve Hr Hunowned HD HE HR HX HU Ht HQ Hnext Hal. set (d' := entered dk (de_key x) d).
  destruct (dinv_counters T w c d d' I Hd) as (C1 & C2 & C3 & C4 & C5 & C6 & C7 & C8 & C9); [done..|].
  assert (forall e y, dw_entries w !! e = Some y -> <[dk := x]> (dw_entries w) !! e = Some y) as Hkeep by (intros e y H; rewrite lookup_insert_ne; [done|congruence]).
  assert (forall r' o, owns (<[th := t]> T) w' r' o -> owns T w r' o \/ r' = r /\ o = inl dk) as Hown.
  { intros r' [e'|th'] Ho; destruct Ho as (y & Hy & Hr').
    - rewrite HE in Hy. apply lookup_insert_Some in Hy as [[<- <-]|[_ Hy]]; [right; split; congruence|left; by exists y].
    - apply lookup_insert_Some in Hy as [[_ <-]|[_ Hy]]; [destruct Hr'; congruence|left; by exists y]. }
  pose proof (unused T w dk I Hdk) as H0.
  assert (forall th' t', T !! th' = Some t' -> th_u1 t' <> dupreq_at dk) as Hnot.
  { intros th' t' H Hu. destruct (di_thread _ _ _ I th' t' H) as [_ T2]. rewrite Hu in T2. destruct T2 as (y & Hy & _). congruence. }
  destruct I. split; rewrite ?HE, ?HR, ?HX, ?HU, ?Ht, ?HQ, ?HD, ?Hnext, ?Hal; try done.
  - intros c' d1 [[<- <-]|[Hne H]]%lookup_insert_Some; [apply queue_ok_enter; try done; [by apply di_queue|congruence]|].
    destruct (di_queue c' d1 H) as [Q1 Q2 Q3 Q4 Q5]. split; try done.
    + intros e He. destruct (Q2 e He) as (y & H1 & H2). exists y. split; [by apply Hkeep|done].
    + intros k e Hk' Hl. destruct (Q3 k e Hk' Hl) as (H1 & y & H2 & H3). split; [done|]. exists y. split; [by apply Hkeep|done].
  - intros e y [[<- <-]|[Hne Hy]]%lookup_insert_Some.
    + split_and!; [|done|by rewrite Hres|]. { rewrite users_insert, decide_True by done. lia. }
      rewrite Hhin, HD, lookup_insert_eq. intros d1 [= <-]. left. simpl. apply elem_of_app. right. by apply list_elem_of_singleton.
    + destruct (di_entry e y Hy) as (E1 & E2 & E3 & E4). split_and!; try done. { rewrite users_insert, decide_False by congruence. lia. }
      rewrite HD. intros d1 [[Heq <-]|[_ H]]%lookup_insert_Some; [|by apply E4]. rewrite <- Heq in E4. destruct (E4 d Hd) as [Hin|]; [left|by right]. simpl. apply elem_of_app. by left.
  - intros th' t' [[<- <-]|[_ H]]%lookup_insert_Some.
    + destruct Hserve as (p & Hp & Hs). split; [by rewrite HX, Hp|]. rewrite Hu1. exists x. unfold serves. rewrite HE, HX, HU, lookup_insert_eq, Hhin. split_and!; try done; [congruence|by exists p].
    + destruct (di_thread th' t' H) as [T1 T2]. split; [by rewrite HX|]. unfold serves in *. rewrite HX, HU, HE. destruct (th_u1 t') as [| |e']; try done. destruct T2 as (y & H1 & H2). exists y. split; [by apply Hkeep|done].
  - intros th1 th2 t1 t2 e [[<- <-]|[Hn1 H1]]%lookup_insert_Some [[<- <-]|[Hn2 H2]]%lookup_insert_Some; [done| | |by apply di_running].
    + intros Ha Hb. rewrite Hu1 in Ha. injection Ha as <-. by destruct (Hnot _ _ H2).
    + intros Ha Hb. rewrite Hu1 in Hb. injection Hb as <-. by destruct (Hnot _ _ H1).
  - intros r' o Ho. destruct (Hown _ _ Ho) as [Ho1|[-> ->]].
    + destruct (di_owner r' o Ho1) as [O1 O2]. split; [done|]. intros o' Ho'. destruct (Hown _ _ Ho') as [Ho2|[-> _]]; [by apply O2|by destruct (Hunowned o)].
    + split; [done|]. intros o' Ho'. destruct (Hown _ _ Ho') as [Ho2|[_ ->]]; [by destruct (Hunowned o')|done].
  - intros e [y [[<- _]|[_ Hy]]%lookup_insert_Some]; [done|]. apply di_fresh_entry. by exists y.
  - intros e y [[<- <-]|[_ Hy]]%lookup_insert_Some; [|by apply (di_fresh_cache e)]. rewrite Hhin. apply di_fresh_drc. by exists d.
Qed.

(** ** Requests *)

Lemma dinv_threads T T' w w' :
  dinv T w -> (forall e, users T' e = users T e) -> (forall th t, T' !! th = Some t -> thread_ok w t) ->
  (forall th1 th2 t1 t2 e, T' !! th1 = Some t1 -> T' !! th2 = Some t2 -> th_u1 t1 = dupreq_at e -> th_u1 t2 = dupreq_at e -> th_phase t1 = running -> th1 = th2) ->
  (forall r o, owns T' w r o -> is_Some (dw_results w' !! r) /\ forall o', owns T' w r o' -> o' = o) -> (forall r, is_Some (dw_results w' !! r) -> (r < dw_next w)%positive) ->
  dw_drcs w' = dw_drcs w -> dw_entries w' = dw_entries w -> dw_xprts w' = dw_xprts w -> udp_drc w' = udp_drc w ->
  tcp_drc_recycle_t w' = tcp_drc_recycle_t w -> tcp_drc_recycle_q w' = tcp_drc_recycle_q w -> dw_next w' = dw_next w -> dw_allocs w' = dw_allocs w -> dinv T' w'.
Proof.
  intros I Husers Hok Hrun Howner Hfresh HD HE HX HU Ht HQ Hnext Hal.
  assert (forall r o, owns T' w' r o -> owns T' w r o) as Hown by (intros r [|]; simpl; rewrite ?HE; done).
  destruct I. split; rewrite ?HE, ?HX, ?HU, ?Ht, ?HQ, ?HD, ?Hnext, ?Hal; try done.
  - intros e x Hx. destruct (di_entry e x Hx) as (E1 & E2 & E3 & E4). split_and!; try done; [by rewrite Husers|by rewrite HD].
  - intros th t H. destruct (Hok th t H) as [T1 T2]. split; [by rewrite HX|]. unfold serves in *. by rewrite HX, HU, HE.
  - intros r o Ho. destruct (Howner r o (Hown _ _ Ho)) as [O1 O2]. split; [done|]. intros o' Ho'. by apply O2, Hown.
Qed.

Lemma dinv_nocache T w th t :
  dinv T w -> T !! th = None -> th_u1 t = DUPREQ_NOCACHE -> is_Some (dw_xprts w !! rq_xprt (th_req t)) -> is_Some (dw_results w !! th_res t) -> (forall o, ~ owns T w (th_res t) o) ->
  dinv (<[th := t]> T) w.
Proof.
  intros I Hth Hu Hx Hr Hno. assert (forall r o, owns (<[th := t]> T) w r o -> owns T w r o \/ r = th_res t /\ o = inr th) as Hown.
  { intros r [e|th'] Ho; [by left|]. destruct Ho as (t' & [[<- <-]|[_ H]]%lookup_insert_Some & H1 & H2); [right; by subst|left; by exists t']. }
  apply (dinv_threads T _ w); try done; try apply (di_fresh_result _ _ _ I).
  - intros e. rewrite users_insert by done. rewrite decide_False by congruence. lia.
  - intros th' t' [[<- <-]|[_ H]]%lookup_insert_Some; [split; [done|by rewrite Hu]|by apply (di_thread _ _ _ I th')].
  - intros th1 th2 t1 t2 e [[<- <-]|[_ H1]]%lookup_insert_Some [[<- <-]|[_ H2]]%lookup_insert_Some; [congruence..|by apply (di_running _ _ _ I)].
  - intros r o Ho. destruct (Hown r o Ho) as [Ho1|[-> ->]].
    + destruct (di_owner _ _ _ I r o Ho1) as [O1 O2]. split; [done|]. intros o' Ho'. destruct (Hown _ _ Ho') as [Ho2|[-> _]]; [by apply O2|by destruct (Hno o)].
    + split; [done|]. intros o' Ho'. destruct (Hown _ _ Ho') as [Ho2|[_ ->]]; [by destruct (Hno o')|done].
Qed.

Lemma dinv_nocache_done T w th t :
  dinv T w -> T !! th = Some t -> th_u1 t = DUPREQ_NOCACHE -> dinv (delete th T) (upd_results (delete (th_res t)) w).
Proof.
  intros I Hth Hu. assert (forall r o, owns (delete th T) w r o -> owns T w r o /\ o <> inr th) as Hown.
  { intros r [e|th'] Ho; [by split|]. destruct Ho as (t' & [Hne H]%lookup_delete_Some & H1 & H2). split; [by exists t'|congruence]. }
  apply (dinv_threads T _ w); try done.
  - intros e. unfold users. rewrite (count_delete _ T th t Hth). rewrite decide_False; [lia|]. unfold holds. simpl. congruence.
  - intros th' t' [_ H]%lookup_delete_Some. by apply (di_thread _ _ _ I th').
  - intros th1 th2 t1 t2 e [_ H1]%lookup_delete_Some [_ H2]%lookup_delete_Some. by apply (di_running _ _ _ I).
  - intros r o Ho. destruct (Hown r o Ho) as [Ho1 Hne]. destruct (di_owner _ _ _ I r o Ho1) as [O1 O2]. split.
    + simpl. rewrite lookup_delete_ne; [done|]. intros <-. apply Hne. symmetry. apply O2. by exists t.
    + intros o' Ho'. apply O2. by apply Hown.
  - simpl. intros r [v [_ H]%lookup_delete_Some]. apply (di_fresh_result _ _ _ I). by exists v.
Qed.

(** The procedure of a request has ended. *)
Definition left (t : thread) : thread := mk_thread (th_req t) (th_u1 t) (th_res t) leaving.

Lemma dinv_left T w th t : dinv T w -> T !! th = Some t -> dinv (<[th := left t]> T) w.
Proof.
  intros I Hth. assert (forall th' t', <[th := left t]> T !! th' = Some t' -> exists t0, T !! th' = Some t0 /\ th_req t' = th_req t0 /\ th_u1 t' = th_u1 t0 /\ th_res t' = th_res t0 /\ (th_phase t' = running -> th_phase t0 = running)) as Hback.
  { intros th' t' [[<- <-]|[_ H]]%lookup_insert_Some; [by exists t|by exists t']. }
  apply (dinv_threads T _ w); try done; try apply (di_fresh_result _ _ _ I).
  - intros e. unfold users. rewrite (count_update _ T th t _ Hth). unfold holds. simpl. destruct (decide _); lia.
  - intros th' t' H. destruct (Hback _ _ H) as (t0 & H0 & E1 & E2 & E3 & E4). destruct (di_thread _ _ _ I th' t0 H0) as [T1 T2]. split; [by rewrite E1|]. rewrite E1, E2, E3.
    destruct (th_u1 t0); try done. destruct T2 as (x & H1 & H2 & H3 & H4). exists x. split_and!; auto.
  - intros th1 th2 t1 t2 e H1 H2. destruct (Hback _ _ H1) as (t3 & H3 & _ & -> & _ & E3). destruct (Hback _ _ H2) as (t4 & H4 & _ & -> & _). intros. eapply (di_running _ _ _ I); eauto.
  - intros r o Ho. assert (forall r o, owns (<[th := left t]> T) w r o -> owns T w r o) as Hown.
    { intros r' [e|th']; [done|]. intros (t' & H & H1 & H2). destruct (Hback _ _ H) as (t0 & H0 & _ & E2 & E3 & _). exists t0. by rewrite <- E2, <- E3. }
    destruct (di_owner _ _ _ I r o (Hown _ _ Ho)) as [O1 O2]. split; [done|]. intros o' Ho'. by apply O2, Hown.
Qed.
End entries.
