(* ===== verification/DupreqOps.v ===== *)
(** The start, the end and the release of requests in the duplicate request cache: each keeps the
    invariant, and a finished request stays in its cache while there are few newer ones. *)

From S2P Require Import Prelude Dupreq DupreqInv DupreqStep.

(** * How entries age *)

(** How many entries of a queue are behind [e]. *)
Fixpoint behind (e : loc) (q : list loc) : Z :=
  match q with
  | [] => 0
  | y :: q => if decide (y = e) then Z.of_nat (length q) else behind e q
  end.

Lemma behind_snoc e q y : e ∈ q -> behind e (q ++ [y]) = behind e q + 1.
Proof.
  induction q as [|z q IH]; intros He; [by apply not_elem_of_nil in He|]. simpl. destruct (decide (z = e)) as [->|Hne]; [rewrite length_app; simpl; lia|].
  apply IH. apply elem_of_cons in He as [->|He]; done.
Qed.

Lemma behind_remove e q y : e <> y -> behind e (tailq_remove y q) <= behind e q.
Proof.
  intros Hne. induction q as [|z q IH]; [done|]. unfold tailq_remove. rewrite filter_cons. destruct (decide (z <> y)) as [Hz|Hz].
  - simpl. destruct (decide (z = e)); [|apply IH]. apply inj_le. apply length_filter.
  - apply dec_stable in Hz as ->. simpl. rewrite decide_False by congruence. apply IH.
Qed.

Section ops.
Context {rb : RbTree} {laws : RbTreeLaws rb} {env : DupreqEnv} (fam : Z).
Implicit Types (d : drc_t) (w : dworld) (c e r th : loc) (T : gmap loc thread) (n : loc -> Z).
Abbreviation dinv := (dinv fam).
Abbreviation good_addr := (good_addr fam).

(** The size from which a cache may retire its oldest entry. *)
Definition limit d : Z := Z.min (d_maxsize d) (d_hiwat d).

(** Entry [e] of cache [c] is complete, with the result [v]. *)
Definition cached w c d e x r (v : list Z) : Prop :=
  dw_drcs w !! c = Some d /\ e ∈ dupreq_q d /\ dw_entries w !! e = Some x /\ de_state x = DUPREQ_COMPLETE /\ de_res x = Some r /\ dw_results w !! r = Some v.

(** From [w] to [w'] at most [n c] entries enter the cache [c], and complete entries stay while fewer than the limit are behind them. *)
Definition evolves n w w' : Prop :=
  (dw_next w <= dw_next w')%positive /\
  (forall c d', dw_drcs w' !! c = Some d' -> (exists d, dw_drcs w !! c = Some d) \/ (dw_next w <= c)%positive) /\
  forall c d d' e x r v, cached w c d e x r v -> dw_drcs w' !! c = Some d' -> behind e (dupreq_q d) + n c < limit d ->
    exists x', cached w' c d' e x' r v /\ behind e (dupreq_q d') <= behind e (dupreq_q d) + n c /\ limit d' = limit d /\ d_type d' = d_type d /\ same_entry x x'.

Lemma same_entry_refl x : same_entry x x.
Proof. done. Qed.

Lemma same_entry_trans x y z : same_entry x y -> same_entry y z -> same_entry x z.
Proof. intros (A1 & A2 & A3 & A4) (B1 & B2 & B3 & B4). split_and!; congruence. Qed.

Lemma evolves_trans n1 n2 w1 w2 w3 :
  (forall c, is_Some (dw_drcs w1 !! c) -> (c < dw_next w1)%positive) -> (forall c, 0 <= n2 c) -> evolves n1 w1 w2 -> evolves n2 w2 w3 -> evolves (fun c => n1 c + n2 c) w1 w3.
Proof.
  intros Hfresh Hn (N1 & D1 & S1) (N2 & D2 & S2). split_and!; [lia| |].
  - intros c d3 H3. destruct (D2 _ _ H3) as [(d2 & H2)|]; [|right; lia]. destruct (D1 _ _ H2) as [(d1 & H1)|]; [|by right]. left. by exists d1.
  - intros c d1 d3 e x r v Hc H3 Hlt. specialize (Hn c). destruct (D2 _ _ H3) as [(d2 & H2)|Hge].
    + destruct (S1 c d1 d2 e x r v Hc H2) as (x2 & C2 & B2 & L2 & T2 & E2); [lia|]. destruct (S2 c d2 d3 e x2 r v C2 H3) as (x3 & C3 & B3 & L3 & T3 & E3); [lia|].
      exists x3. split_and!; try done; [lia|congruence|congruence|by apply (same_entry_trans _ x2)].
    + destruct Hc as (Hd & _). assert (c < dw_next w1)%positive by (apply Hfresh; by exists d1). lia.
Qed.

(** A step that brings each cache of [w'] from one of [w]. *)
Lemma evolves_by n w w' :
  (dw_next w <= dw_next w')%positive ->
  (forall c d', dw_drcs w' !! c = Some d' -> (exists d, dw_drcs w !! c = Some d /\ limit d' = limit d /\ d_type d' = d_type d /\
     forall e x r v, cached w c d e x r v -> behind e (dupreq_q d) + n c < limit d ->
       (e ∈ dupreq_q d' /\ behind e (dupreq_q d') <= behind e (dupreq_q d) + n c) /\
       exists x', dw_entries w' !! e = Some x' /\ de_state x' = DUPREQ_COMPLETE /\ same_entry x x' /\ dw_results w' !! r = Some v)
     \/ ((dw_next w <= c)%positive /\ dw_drcs w !! c = None)) -> evolves n w w'.
Proof.
  intros HN HD. split_and!; [done| |].
  - intros c d' H. destruct (HD c d' H) as [(d & H1 & _)|[H1 _]]; [left; by exists d|by right].
  - intros c d d' e x r v HC H Hlt. pose proof HC as (H1 & H2 & H3 & H4 & H5 & H6). destruct (HD c d' H) as [(d0 & H0 & L & Ty & Hk)|[_ H0]]; [|congruence].
    assert (d0 = d) as -> by congruence. destruct (Hk e x r v HC Hlt) as [[K1 K2] (x' & K3 & K4 & K5 & K6)]. exists x'. split_and!; try done. split_and!; try done.
    destruct K5 as (_ & _ & _ & ->). done.
Qed.

Lemma evolves_calm T w w' : dinv T w -> calm w w' -> evolves (fun _ => 0) w w'.
Proof.
  intros I (HE & _ & _ & HN & HR & HD & _). apply evolves_by; [done|]. intros c d' H. destruct (HD _ _ H) as [(d & H1 & Hco)|Hge].
  - left. exists d. pose proof Hco as (Ty & _ & Hq & _ & _ & L1 & L2)%core_inv. unfold limit. rewrite L1, L2. split_and!; try done.
    intros e x r v (_ & H2 & H3 & H4 & H5 & H6) _. rewrite Hq, HE. split; [split; [done|lia]|]. exists x. split_and!; try done. by apply HR.
  - right. split; [done|]. apply eq_None_not_Some. intros Hs. pose proof (di_fresh_drc _ _ _ I c Hs). lia.
Qed.

Lemma wp_get_entry e x (Q : dupreq_entry_t -> dworld -> Prop) w : dw_entries w !! e = Some x -> Q x w -> wp (get_entry e) Q w.
Proof. intros H HQ. by apply (wp_deref _ _ _ x). Qed.
Lemma wp_set_entry e x f (Q : unit -> dworld -> Prop) w : dw_entries w !! e = Some x -> Q tt (upd_entries (<[e := f x]>) w) -> wp (set_entry e f) Q w.
Proof. intros H HQ. apply wp_bind, (wp_get_entry e x); [done|]. by apply wp_modify. Qed.

(** * The lookup of a request *)

Definition one c : loc -> Z := fun c' => if decide (c' = c) then 1 else 0.

(** What the lookup of [x0] in the cache [d] comes to. *)
Definition lookup_post T w c d (x0 : dupreq_entry_t) (req : nfs_request) th (res : dupreq_status_t * dupreq_u1 * option loc) w' : Prop :=
  match res with
  | (DUPREQ_SUCCESS, dupreq_at dk, Some r) =>
      drc_lookup d (de_key x0) = None /\ dinv (<[th := mk_thread req (dupreq_at dk) r running]> T) w' /\ evolves (one c) w w' /\
      exists x, dw_entries w' !! dk = Some x /\ hin_drc x = c /\ de_key x = de_key x0
  | (DUPREQ_EXISTS, dupreq_at e, Some r) =>
      drc_lookup d (de_key x0) = Some e /\ dinv (<[th := mk_thread req (dupreq_at e) r leaving]> T) w' /\ evolves (fun _ => 0) w w' /\
      exists x x' v, dw_entries w !! e = Some x /\ hin_drc x = c /\ de_state x <> DUPREQ_START /\ de_res x = Some r /\ dw_results w !! r = Some v /\ dw_results w' !! r = Some v /\
        dw_entries w' !! e = Some x' /\ same_entry x x'
  | (DUPREQ_BEING_PROCESSED, dupreq_at e, None) =>
      drc_lookup d (de_key x0) = Some e /\ dinv T w' /\ evolves (fun _ => 0) w w' /\ exists x, dw_entries w !! e = Some x /\ hin_drc x = c /\ de_state x = DUPREQ_START /\ dw_entries w' !! e = Some x
  | _ => False
  end.

(** The cache after the lookup. *)
Definition lookup_drc w c d w' : Prop :=
  (exists d', dw_drcs w' !! c = Some d' /\ d_type d' = d_type d /\ d_refcnt d' = d_refcnt d) /\ dw_xprts w' = dw_xprts w /\ udp_drc w' = udp_drc w /\ dw_threads w' = dw_threads w /\ (dw_next w <= dw_next w')%positive.

Lemma entries_fresh T w : dinv T w -> dw_entries w !! dw_next w = None.
Proof. intros I. apply eq_None_not_Some. intros H. pose proof (di_fresh_entry _ _ _ I _ H). lia. Qed.

Lemma evolves_enter T w w' c d dk k :
  dinv T w -> dw_drcs w !! c = Some d -> dw_drcs w' = <[c := entered dk k d]> (dw_drcs w) -> (forall e x, dw_entries w !! e = Some x -> dw_entries w' !! e = Some x) ->
  (forall r v, dw_results w !! r = Some v -> dw_results w' !! r = Some v) -> (dw_next w <= dw_next w')%positive -> evolves (one c) w w'.
Proof.
  intros I Hd HD HE HR HN. apply evolves_by; [done|]. intros c' d'. rewrite HD. intros [[<- <-]|[Hne H]]%lookup_insert_Some; left.
  - exists d. split_and!; try done. intros e x r v (_ & H2 & H3 & H4 & H5 & H6) _. simpl. split.
    + split; [apply elem_of_app; by left|]. rewrite behind_snoc by done. unfold one. rewrite decide_True by done. lia.
    + exists x. split_and!; auto. apply same_entry_refl.
  - exists d'. split_and!; try done. intros e x r v (_ & H2 & H3 & H4 & H5 & H6) _. unfold one. rewrite decide_False by done. split; [split; [done|lia]|].
    exists x. split_and!; auto. apply same_entry_refl.
Qed.

Lemma dinv_inc_retwnd T w c d : dinv T w -> dw_drcs w !! c = Some d -> dinv T (upd_drcs (<[c := drc_inc_retwnd d]>) w).
Proof.
  intros I Hd. eapply (dinv_drc fam T w _ c d (drc_inc_retwnd d)); try done; [by apply (di_count _ _ _ I c d)|by apply (idle_tcp fam T w c d)|by apply (queue_same fam T w c d)|by apply (di_idle_nodup _ _ _ I)].
Qed.

(** A request is answered from the entry [e]. *)
Lemma dinv_hit T w e x r th req :
  dinv T w -> dw_entries w !! e = Some x -> de_state x <> DUPREQ_START -> de_state x <> DUPREQ_DELETED -> de_res x = Some r -> T !! th = None -> serves w req (hin_drc x) -> users T e < UINT32_MAX ->
  dinv (<[th := mk_thread req (dupreq_at e) r leaving]> T) (upd_entries (<[e := with_entry_refcnt (u32 (de_refcnt x + 1)) x]>) w).
Proof.
  intros I Hx Hns Hnd Hr Hth Hs Hmax. set (t := mk_thread req (dupreq_at e) r leaving). destruct (di_entry _ _ _ I e x Hx) as (E1 & E2 & E3 & E4).
  assert (0 <= users T e) by (unfold users, count; lia). assert (u32 (de_refcnt x + 1) = users T e + 1) as Hn by (rewrite E1; apply u32_small; lia).
  set (x' := with_entry_refcnt (u32 (de_refcnt x + 1)) x).
  assert (forall th' t', T !! th' = Some t' -> thread_ok (upd_entries (<[e := x']>) w) t') as Hold.
  { intros th' t' H'. destruct (di_thread _ _ _ I th' t' H') as [T1 T2]. split; [done|]. destruct (th_u1 t') as [| |e']; try done. destruct T2 as (y & H1 & H2 & H3 & H4). simpl.
    destruct (decide (e' = e)) as [->|Hne]; [|exists y; by rewrite lookup_insert_ne]. assert (y = x) as -> by congruence. exists x'. by rewrite lookup_insert_eq. }
  eapply (dinv_update fam T _ w _ e x x'); try done.
  - rewrite users_insert by done. rewrite decide_True by done. done.
  - intros e' Hne. rewrite users_insert by done. rewrite decide_False; [lia|]. intros [= ->]. done.
  - intros th' t' [[<- <-]|[_ H']]%lookup_insert_Some; [|by apply (Hold th')]. destruct Hs as (p & Hp & Hs). split; [by exists p|]. exists x'. simpl. rewrite lookup_insert_eq. split_and!; try done. by exists p.
  - intros th1 th2 t1 t2 e' [[<- <-]|[Hn1 H1]]%lookup_insert_Some [[<- <-]|[Hn2 H2]]%lookup_insert_Some; [done|done| |by apply (di_running _ _ _ I)].
    simpl. intros Ha [= <-] Hb. destruct (di_thread _ _ _ I th1 t1 H1) as [_ T2]. rewrite Ha in T2. destruct T2 as (y & Hy & _ & _ & Hrun). assert (y = x) as -> by congruence. by destruct Hns; apply Hrun.
  - intros r' th' (t' & [[<- <-]|[_ H']]%lookup_insert_Some & H1 & H2); [done|]. by exists t'.
Qed.

Lemma wp_lookup T w c d x0 req th :
  dinv T w -> dw_drcs w !! c = Some d -> hin_drc x0 = c -> de_state x0 = DUPREQ_START -> de_refcnt x0 = 0 -> de_res x0 = None -> is_Some (nfs_dupreq_func x0) ->
  key_ok fam (d_type d) (de_key x0) -> serves w req c -> T !! th = None -> (forall e, users T e < UINT32_MAX) ->
  wp (dk ← alloc_dupreq x0; start_lookup c dk) (fun res w' => lookup_post T w c d x0 req th res w' /\ lookup_drc w c d w') w.
Proof.
  intros I Hd Hhin Hst Hn Hres Hf Hk Hs Hth Hmax. pose proof (entries_fresh T w I) as Hfree. set (dk := dw_next w) in *.
  apply wp_bind. unfold alloc_dupreq. apply wp_bind, wp_pool_alloc; [by apply (di_memory _ _ _ I)|]. intros bs Hbs. apply wp_bind, wp_modify, wp_ret. fold dk.
  pose proof (dinv_next fam T w bs I Hbs) as I1. pose proof (calm_next w bs) as C1. set (w1 := upd_next Pos.succ (upd_allocs bs w)) in *.
  apply wp_bind, (wp_get_entry dk x0); [by apply lookup_insert_eq|]. apply wp_bind, (wp_get_drc c d); [done|]. fold (drc_lookup d (de_key x0)).
  destruct (drc_lookup d (de_key x0)) as [e|] eqn:Hl.
  - destruct (qo_found _ _ _ _ (di_queue _ _ _ I c d Hd) _ e Hk Hl) as (He & x & Hx & Hcmp). destruct (qo_in _ _ _ _ (di_queue _ _ _ I c d Hd) e He) as (x1 & Hx1 & Hxc & Hnd & _).
    assert (x1 = x) as -> by congruence. assert (e <> dk) as Hne by congruence. apply wp_bind, (wp_get_entry e x); [simpl; by rewrite lookup_insert_ne|]. apply wp_bind.
    destruct (decide (de_state x = DUPREQ_START)) as [Hstart|Hstart].
    + apply wp_ret, wp_bind. unfold nfs_dupreq_free_dupreq. apply wp_bind, (wp_get_entry dk x0); [by apply lookup_insert_eq|]. rewrite Hres. apply wp_bind, wp_ret, wp_modify, wp_ret.
      unfold upd_entries. simpl. rewrite delete_insert_id by done. split.
      * unfold lookup_post. split_and!; [done|exact I1|by apply (evolves_calm T w w1)|]. by exists x.
      * split_and!; try done; [by exists d|simpl; lia].
    + apply wp_bind, (wp_set_drc c d); [done|]. apply wp_bind, (wp_set_entry e x); [simpl; by rewrite lookup_insert_ne|]. apply wp_ret, wp_bind. unfold nfs_dupreq_free_dupreq.
      apply wp_bind, (wp_get_entry dk x0); [simpl; rewrite lookup_insert_ne by done; by apply lookup_insert_eq|]. rewrite Hres. apply wp_bind, wp_ret, wp_modify, wp_ret.
      unfold upd_entries, upd_drcs. simpl. rewrite insert_insert_ne by done. rewrite delete_insert_id by (by rewrite lookup_insert_ne).
      destruct (di_entry _ _ _ I e x Hx) as (_ & _ & [r Hr] & _). rewrite Hr. assert (owns T w r (inl e)) as Ho by (by exists x). destruct (di_owner _ _ _ I r _ Ho) as [[v Hv] _].
      pose proof (dinv_inc_retwnd T w1 c d I1 Hd) as I2. split.
      * split_and!; [done| | |].
        { assert (serves (upd_drcs <[c:=drc_inc_retwnd d]> w1) req (hin_drc x)) as Hs2 by (by rewrite Hxc).
          exact (dinv_hit T (upd_drcs (<[c := drc_inc_retwnd d]>) w1) e x r th req I2 Hx Hstart Hnd Hr Hth Hs2 (Hmax e)). }
        { apply evolves_by; [simpl; lia|]. simpl. intros c' d' [[<- <-]|[Hc H]]%lookup_insert_Some; left; [exists d|exists d']; split_and!; try done.
          all: intros e' y r' v' (_ & H2 & H3 & H4 & H5 & H6) _; split; [split; [done|simpl; lia]|]; destruct (decide (e' = e)) as [->|Hne'].
          1, 3: assert (y = x) as -> by congruence; eexists; rewrite lookup_insert_eq; split_and!; try done.
          all: exists y; rewrite lookup_insert_ne by done; split_and!; done. }
        { exists x, (with_entry_refcnt (u32 (de_refcnt x + 1)) x), v. rewrite lookup_insert_eq. split_and!; done. }
      * split_and!; try done; [|simpl; lia]. exists (drc_inc_retwnd d). simpl. by rewrite lookup_insert_eq.
  - apply wp_bind. unfold alloc_nfs_res. apply wp_bind, wp_pool_alloc; [done|]. intros bs2 Hbs2. apply wp_bind, wp_modify, wp_ret.
    apply wp_bind, (wp_set_entry dk x0); [by apply lookup_insert_eq|]. apply wp_bind, (wp_set_drc c d); [done|]. apply wp_ret.
    unfold upd_entries, upd_drcs, upd_results, upd_next, upd_allocs. simpl. rewrite insert_insert_eq. fold (entered dk (de_key x0) d).
    pose proof (dinv_result fam T w1 bs2 [] I1 Hbs2) as I2. set (r := dw_next w1) in *. change (Pos.succ (dw_next w)) with r. set (x := with_entry_refcnt _ _).
    assert (de_refcnt x = 1) as Hx1 by (simpl; rewrite Hn; done). split.
    + split_and!; [done| | |].
      * eapply (dinv_enter fam T _ _ c d dk x r th (mk_thread req (dupreq_at dk) r running) I2); try done; [simpl; unfold r, dk; lia|simpl; by rewrite lookup_insert_eq|].
        intros o Ho. assert (owns T w1 r o) as Ho1 by (destruct o; exact Ho). destruct (di_owner _ _ _ I1 r o Ho1) as [Hsome _]. pose proof (di_fresh_result _ _ _ I1 r Hsome). unfold r in *. lia.
      * apply (evolves_enter T w _ c d dk (de_key x0)); try done; simpl; [|intros r' v Hv; rewrite lookup_insert_ne; [done|]|unfold r, w1; simpl; lia].
        { intros e y Hy. rewrite lookup_insert_ne; [done|congruence]. }
        { intros <-. assert (r < dw_next w1)%positive by (apply (di_fresh_result _ _ _ I1); by exists v). unfold r in *. lia. }
      * exists x. rewrite lookup_insert_eq. split_and!; done.
    + split_and!; try done; [|unfold r, w1; simpl; lia]. exists (entered dk (de_key x0) d). simpl. by rewrite lookup_insert_eq.
Qed.

(** * The start of a request *)

(** The programs have different numbers. *)
Definition programs_differ : Prop := program_mnt <> program_nlm /\ program_mnt <> program_rquota /\ program_nlm <> program_rquota.

(** The procedure of a valid call is found again when its entry is freed. *)
Lemma dupreq_func_valid x :
  programs_differ -> is_rpc_call_valid (hin_prog x) (hin_vers x) (hin_proc x) = true ->
  nfs_dupreq_func x = Some (nfs_rpc_get_funcdesc (hin_prog x) (hin_vers x) (hin_proc x)).
Proof.
  intros (P1 & P2 & P3). unfold is_rpc_call_valid, nfs_dupreq_func, nfs_rpc_get_funcdesc. destruct (Z.eqb_spec (hin_prog x) program_nfs) as [Heq|Hn].
  { destruct (Z.eqb_spec (hin_vers x) 3); [done|]. by destruct (Z.eqb_spec (hin_vers x) 4). }
  destruct (Z.eqb_spec (hin_prog x) program_nlm) as [Heq|Hnlm]; simpl.
  { rewrite Heq. rewrite (proj2 (Z.eqb_neq program_nlm program_mnt)) by congruence. rewrite (proj2 (Z.eqb_neq program_nlm program_rquota)) by congruence. simpl.
    destruct core_nfsv3; [|done]. by destruct (hin_vers x =? 4). }
  destruct (Z.eqb_spec (hin_prog x) program_mnt) as [Heq|Hmnt]; simpl.
  { rewrite Heq. rewrite (proj2 (Z.eqb_neq program_mnt program_rquota)) by congruence. destruct core_nfsv3; [|done].
    destruct (Z.eqb_spec (hin_vers x) 3) as [E3|]; [by rewrite E3|]. by destruct (Z.eqb_spec (hin_vers x) 1). }
  destruct (Z.eqb_spec (hin_prog x) program_rquota); [|done]. destruct (Z.eqb_spec (hin_vers x) 1); [done|]. by destruct (Z.eqb_spec (hin_vers x) 2).
Qed.

Definition req_key (t : drc_type) (a : sockaddr_storage) (req : nfs_request) : dupreq_key :=
  mk_key (match t with DRC_UDP_V234 => a | _ => zero_ss end) (rq_xid req) (rq_cksum req).

(** The cache [c] of a request as it was before, [d'], or a new one; it is the one that waits for the request, if there is one. *)
Definition cache_of w (req : nfs_request) c d' w' : Prop :=
  serves w' req c /\ ((exists d, dw_drcs w !! c = Some d /\ core d' = core d) \/ (dw_next w <= c)%positive) /\
  forall p a c1, dw_xprts w !! rq_xprt req = Some p -> xp_caller p = Some a -> finds w p a c1 -> c = c1.

Definition start_post T w (req : nfs_request) a th (res : dupreq_status_t * dupreq_u1 * option loc) w' : Prop :=
  (dw_next w <= dw_next w')%positive /\ dw_threads w' = dw_threads w /\
  match res with
  | (DUPREQ_SUCCESS, DUPREQ_NOCACHE, Some r) =>
      dinv (<[th := mk_thread req DUPREQ_NOCACHE r running]> T) w' /\ evolves (fun _ => 0) w w' /\
      (drc_disabled = true \/ exists c d, cache_of w req c d w' /\ start_nocache d req = true)
  | (DUPREQ_SUCCESS, dupreq_at dk, Some r) =>
      exists c d x, cache_of w req c d w' /\ start_nocache d req = false /\ drc_lookup d (req_key (d_type d) a req) = None /\
        dinv (<[th := mk_thread req (dupreq_at dk) r running]> T) w' /\ evolves (one c) w w' /\ dw_entries w' !! dk = Some x /\ hin_drc x = c
  | (DUPREQ_EXISTS, dupreq_at e, Some r) =>
      exists c d x x' v, cache_of w req c d w' /\ start_nocache d req = false /\ drc_lookup d (req_key (d_type d) a req) = Some e /\
        dinv (<[th := mk_thread req (dupreq_at e) r leaving]> T) w' /\ evolves (fun _ => 0) w w' /\
        dw_entries w !! e = Some x /\ de_state x <> DUPREQ_START /\ de_res x = Some r /\ dw_results w' !! r = Some v /\ (forall v0, dw_results w !! r = Some v0 -> v0 = v) /\
        dw_entries w' !! e = Some x' /\ hin_drc x' = c
  | (DUPREQ_BEING_PROCESSED, dupreq_at e, None) =>
      exists c d x, cache_of w req c d w' /\ start_nocache d req = false /\ drc_lookup d (req_key (d_type d) a req) = Some e /\
        dinv T w' /\ evolves (fun _ => 0) w w' /\ dw_entries w !! e = Some x /\ de_state x = DUPREQ_START /\ dw_entries w' !! e = Some x /\ hin_drc x = c
  | _ => False
  end.

Lemma evolves_then n T w1 w2 w3 : dinv T w1 -> (forall c, 0 <= n c) -> calm w1 w2 -> evolves n w2 w3 -> evolves n w1 w3.
Proof.
  intros I Hn C E. pose proof (evolves_trans _ n w1 w2 w3 (di_fresh_drc _ _ _ I) Hn (evolves_calm T w1 w2 I C) E) as H.
  destruct H as (H1 & H2 & H3). split_and!; try done.
Qed.

Lemma evolves_done n T w1 w2 w3 : (forall c, is_Some (dw_drcs w1 !! c) -> (c < dw_next w1)%positive) -> dinv T w2 -> evolves n w1 w2 -> calm w2 w3 -> evolves n w1 w3.
Proof.
  intros Hf I E C. destruct (evolves_trans n (fun _ => 0) w1 w2 w3 Hf (fun _ => Z.le_refl 0) E (evolves_calm T w2 w3 I C)) as (H1 & H2 & H3).
  split_and!; try done. intros c d d' e x r v Hc Hd Hlt. destruct (H3 c d d' e x r v Hc Hd) as (x' & K1 & K2 & K3); [lia|]. exists x'. split_and!; try apply K3; [done|lia].
Qed.

Lemma wp_nocache T w w1 req th c d :
  dinv T w -> dinv T w1 -> calm w w1 -> dw_threads w1 = dw_threads w -> T !! th = None -> is_Some (dw_xprts w1 !! rq_xprt req) ->
  (drc_disabled = true \/ cache_of w req c d w1 /\ start_nocache d req = true) -> forall a,
  wp (r ← alloc_nfs_res; mret (DUPREQ_SUCCESS, DUPREQ_NOCACHE, Some r)) (start_post T w req a th) w1.
Proof.
  intros I I1 C1 HT1 Hth Hx Hwhy a. apply wp_bind, (wp_alloc_nfs_res fam T); [done|]. intros bs w2 I2 C2. apply wp_ret.
  assert (calm w w2) as C by (by apply (calm_trans _ w1)). split; [apply C|]. split; [by rewrite <- HT1|].
  split_and!; [|by apply (evolves_calm T)|].
  - apply dinv_nocache; try done; simpl; [by rewrite lookup_insert_eq|]. intros o Ho. assert (owns T w1 (dw_next w1) o) as Ho1 by (destruct o; exact Ho).
    destruct (di_owner _ _ _ I1 _ o Ho1) as [Hs _]. pose proof (di_fresh_result _ _ _ I1 _ Hs). lia.
  - destruct Hwhy as [|[[Hs Hc] Hn]]; [by left|]. right. exists c, d. split; [|done]. split; [by apply (serves_calm w1)|done].
Qed.

Lemma wp_dupreq_start T w req p a th :
  programs_differ -> dinv T w -> room w -> dw_xprts w !! rq_xprt req = Some p -> xp_caller p = Some a ->
  is_rpc_call_valid (rq_prog req) (rq_vers req) (rq_proc req) = true -> T !! th = None -> (forall e, users T e < UINT32_MAX) ->
  wp (nfs_dupreq_start req) (start_post T w req a th) w.
Proof.
  intros Hprog I Hroom Hx Ha Hvalid Hth Hmax. unfold nfs_dupreq_start. destruct drc_disabled eqn:Hdis.
  { apply (wp_nocache T w w req th 1%positive init_shared_drc); try done; [apply calm_refl|by left]. }
  apply wp_bind, (wp_dupreq_get_drc fam T req p a); [done..|]. intros c w1 d I1 C1 Hs Hd Hcnt Hudp Hfinds. apply wp_bind, (wp_get_drc c d); [done|].
  assert (cache_of w req c d w1) as Hco. { split; [done|]. destruct C1 as (_ & _ & _ & _ & _ & HD & _). split; [by apply HD|]. intros p' a' c1 Hp' Ha'. assert (p' = p) as -> by congruence. assert (a' = a) as -> by congruence. apply Hfinds. }
  assert (dw_threads w1 = dw_threads w) as HT1 by apply C1.
  destruct (proj2 (proj2 (proj2 (proj2 (proj2 (proj2 C1))))) _ _ Hx) as (p1 & Hx1 & Hp2 & Hcall & _).
  destruct (start_nocache d req) eqn:Hnc. { apply (wp_nocache T w w1 req th c d); try done. by right. }
  apply wp_bind, (wp_deref _ _ _ p1); [done|]. apply wp_bind, wp_gets. rewrite Hcall, Ha. apply wp_bind.
  set (x0 := mk_dupreq c (req_key (d_type d) a req) (rq_prog req) (rq_vers req) (rq_proc req) DUPREQ_START 0 None (dw_time w1)).
  assert (wp (dk ← alloc_dupreq x0; start_lookup c dk) (fun res w' => lookup_post T w1 c d x0 req th res w' /\ lookup_drc w1 c d w') w1) as Hlook.
  { apply wp_lookup; try done.
    - rewrite dupreq_func_valid by done. done.
    - intros Hty. simpl. rewrite Hty. destruct (di_xprt _ _ _ I _ p Hx) as [X1 _]. by apply X1. }
  assert (forall res w2, lookup_post T w1 c d x0 req th res w2 -> lookup_drc w1 c d w2 ->
    wp (nfs_dupreq_put_drc c;; mret res) (start_post T w req a th) w2) as Hput.
  { intros [[st u1] res] w2 HP ((d2 & Hd2 & Ty & Hn) & HX & HU & HT & HN).
    assert (forall T', dinv T' w2 -> wp (nfs_dupreq_put_drc c) (fun _ w3 => dinv T' w3 /\ calm w2 w3) w2) as Hput.
    { intros T' I2. apply (wp_put_drc fam T' c d2); [done|done| |by intros]. rewrite Ty, Hn, HX. done. }
    assert (forall T' w3, dinv T' w2 -> calm w2 w3 -> cache_of w req c d w3) as Hco3.
    { intros T' w3 I2 C3. destruct Hco as [(q & Hq & Hsq) Hc]. split; [|done]. apply (serves_calm w2); [done|]. exists q. by rewrite HX, HU. }
    assert (forall w3, calm w2 w3 -> (dw_next w <= dw_next w3)%positive /\ dw_threads w3 = dw_threads w) as Hnext.
    { intros w3 C3. destruct C1 as (_ & E1 & _ & N1 & _). destruct C3 as (_ & E3 & _ & N3 & _). split; [lia|congruence]. }
    assert (forall n, (forall c, 0 <= n c) -> evolves n w1 w2 -> evolves n w w2) as Hev by (intros n Hn0 He; by apply (evolves_then n T w w1)).
    pose proof (di_fresh_drc _ _ _ I) as Hf.
    destruct st, u1 as [| |e], res as [r|]; try done; simpl in HP; apply wp_bind.
    - destruct HP as (L & I2 & E2 & x & Hx2 & Hc2 & _). eapply wp_mono; [|by apply Hput]. intros _ w3 [I3 C3]. apply wp_ret. destruct (Hnext w3 C3). split_and!; try done.
      exists c, d, x. split_and!; try done; [by apply (Hco3 _ w3 I2)| |by rewrite (proj1 C3)]. apply (fun E => evolves_done _ _ w w2 w3 Hf I2 E C3), Hev; [|done]. intros c'. unfold one. by destruct (decide _).
    - destruct HP as (L & I2 & E2 & x & Hx2 & Hc2 & Hs2 & Hx3). eapply wp_mono; [|by apply Hput]. intros _ w3 [I3 C3]. apply wp_ret. destruct (Hnext w3 C3). split_and!; try done.
      exists c, d, x. split_and!; try done; [by apply (Hco3 _ w3 I2)|by apply (fun E => evolves_done _ _ w w2 w3 Hf I2 E C3), Hev|by rewrite <- (proj1 C1)|by rewrite (proj1 C3)].
    - destruct HP as (L & I2 & E2 & x & x' & v & Hx2 & Hc2 & Hs2 & Hr2 & Hv1 & Hv2 & Hx3 & Hsame). eapply wp_mono; [|by apply Hput]. intros _ w3 [I3 C3]. apply wp_ret. destruct (Hnext w3 C3).
      split_and!; try done. exists c, d, x, x', v. split_and!; try done; [by apply (Hco3 _ w3 I2)|by apply (fun E => evolves_done _ _ w w2 w3 Hf I2 E C3), Hev|by rewrite <- (proj1 C1)| | |by rewrite (proj1 C3)|].
      + apply C3. done.
      + intros v0 Hv0. assert (dw_results w1 !! r = Some v0) by (by apply C1). congruence.
      + destruct Hsame as (-> & _). done. }
  apply (wp_mono _ (fun res w' => lookup_post T w1 c d x0 req th res w' /\ lookup_drc w1 c d w')); [intros res w2 [HP HD]; by apply Hput|]. revert Hlook.
  unfold x0, req_key. by destruct (d_type d).
Qed.

(** * The end of a request *)

Lemma in_queue T w e x d : dinv T w -> dw_entries w !! e = Some x -> de_state x <> DUPREQ_DELETED -> dw_drcs w !! hin_drc x = Some d -> e ∈ dupreq_q d.
Proof. intros I Hx Hst Hd. destruct (di_entry _ _ _ I e x Hx) as (_ & _ & _ & E4). by destruct (E4 d Hd). Qed.

Lemma not_held T e : users T e = 0 -> forall th t, T !! th = Some t -> th_u1 t <> dupreq_at e.
Proof. intros H0 th t Ht Hu. pose proof (count_pos (holds e) T th t Ht Hu). unfold users in H0. lia. Qed.

(** Only the oldest entry is retired, and only when more than the limit are there. *)
Lemma retire_old T w c d ov q :
  dinv T w -> dw_drcs w !! c = Some d -> dupreq_q d = ov :: q -> drc_should_retire d = true -> limit d <= behind ov (dupreq_q d).
Proof.
  intros I Hd Hq Hr. pose proof (qo_size _ _ _ _ (di_queue _ _ _ I c d Hd)) as Hs. rewrite Hq. simpl. rewrite decide_True by done. unfold drc_should_retire in Hr. unfold limit.
  assert (d_size d <= Z.of_nat (length q) + 1) as Hle.
  { rewrite Hs, Hq. simpl. unfold u32. etransitivity; [apply Z.mod_le; lia|lia]. }
  destruct (Z.ltb_spec (d_maxsize d) (d_size d)); [lia|]. destruct (0 <? d_retwnd d); [done|]. apply Z.ltb_lt in Hr. lia.
Qed.

Lemma wp_free_nfs_res r (Q : unit -> dworld -> Prop) w : is_Some (dw_results w !! r) -> Q tt (upd_results (delete r) w) -> wp (free_nfs_res r) Q w.
Proof. intros [v Hv] HQ. apply wp_bind, (wp_deref _ _ _ v); [done|]. by apply wp_modify. Qed.

(** An entry that nothing refers to is freed. *)
Lemma wp_free_dupreq T w e x (Q : unit -> dworld -> Prop) :
  dinv T w -> dw_entries w !! e = Some x -> de_state x = DUPREQ_DELETED -> users T e = 0 ->
  (forall w' r, de_res x = Some r -> dinv T w' -> dw_entries w' = delete e (dw_entries w) -> dw_results w' = delete r (dw_results w) -> dw_drcs w' = dw_drcs w -> dw_xprts w' = dw_xprts w ->
     dw_threads w' = dw_threads w -> dw_next w' = dw_next w -> Q tt w') ->
  wp (nfs_dupreq_free_dupreq e) Q w.
Proof.
  intros I Hx Hst H0 HQ. destruct (di_entry _ _ _ I e x Hx) as (_ & [fd Hf] & [r Hr] & _). assert (owns T w r (inl e)) as Ho by (by exists x). destruct (di_owner _ _ _ I r _ Ho) as [Hs _].
  apply wp_bind, (wp_get_entry e x); [done|]. rewrite Hr, Hf. apply wp_bind, wp_free_nfs_res; [done|]. apply wp_modify. apply (HQ _ r); try done.
  by apply (dinv_forget fam T w _ e x r).
Qed.

Definition deleted (x : dupreq_entry_t) : dupreq_entry_t := with_state DUPREQ_DELETED (de_timestamp x) x.

Lemma wp_retire T w c d :
  dinv T w -> dw_drcs w !! c = Some d -> drc_should_retire d = true ->
  wp (retire c) (fun _ w' => dinv T w' /\ evolves (fun _ => 0) w w' /\ dw_threads w' = dw_threads w /\ dw_next w' = dw_next w /\ dw_xprts w' = dw_xprts w /\
    (forall e x, dw_entries w !! e = Some x -> 0 < users T e -> dw_entries w' !! e = Some x /\ forall r v, de_res x = Some r -> dw_results w !! r = Some v -> dw_results w' !! r = Some v)) w.
Proof.
  intros I Hd Hret. apply wp_bind, (wp_get_drc c d); [done|]. destruct (dupreq_q d) as [|ov q] eqn:Hq.
  { apply wp_ret. split_and!; try done. by apply (evolves_calm T), calm_refl. }
  assert (ov ∈ dupreq_q d) as Hin by (rewrite Hq; apply elem_of_cons; by left).
  destruct (qo_in _ _ _ _ (di_queue _ _ _ I c d Hd) ov Hin) as (o & Ho & Hc & Hnd & Hk & Hl). pose proof (retire_old T w c d ov q I Hd Hq Hret) as Hold.
  apply wp_bind, (wp_set_drc c d); [done|]. set (d1 := drc_dec_retwnd d). assert (core d1 = core d) as Hcore by (unfold d1, drc_dec_retwnd; by destruct (0 <? _)).
  assert (d_refcnt d1 = d_refcnt d /\ d_recycle d1 = d_recycle d /\ d_addr d1 = d_addr d /\ d_hk d1 = d_hk d) as (F1 & F2 & F3 & F4) by (unfold d1, drc_dec_retwnd; by destruct (0 <? _)).
  set (w1 := upd_drcs <[c:=d1]> w). assert (dinv T w1) as I1.
  { apply (dinv_drc fam T w _ c d d1); rewrite ?F1, ?F2; try done; [by apply (di_count _ _ _ I c d)|by apply (idle_tcp fam T w c d)|by apply (queue_same fam T w c d)|by apply (di_idle_nodup _ _ _ I)]. }
  assert (calm w w1) as C1 by (by apply (calm_drc w w1 c d d1)). assert (dw_drcs w1 !! c = Some d1) as Hd1 by apply lookup_insert_eq.
  apply wp_bind, (wp_get_entry ov o); [done|]. destruct (di_entry _ _ _ I ov o Ho) as (Hn & _). destruct (Z.ltb_spec 0 (de_refcnt o)) as [Hpos|Hzero].
  { apply wp_ret. split_and!; try done. by apply (evolves_calm T). }
  assert (users T ov = 0) as H0 by (unfold users, count in *; lia). pose proof Hcore as (K1 & _ & K3 & _ & _ & K6 & K7)%core_inv.
  assert (ov ∈ dupreq_q d1) as Hin1 by (by rewrite K3).
  apply wp_bind, (wp_set_drc c d1); [done|]. fold (without ov (de_key o) d1). set (w2 := upd_drcs _ w1).
  set (w2' := upd_entries <[ov := deleted o]> w2). assert (dinv T w2') as I2.
  { eapply (dinv_remove fam T w1 _ c d1 ov o (deleted o)); try done. intros th t Ht Hu. by destruct (not_held T ov H0 th t Ht). }
  destruct (di_entry _ _ _ I ov o Ho) as (_ & [fd Hf] & [r Hr] & _). assert (owns T w r (inl ov)) as Hown by (by exists o). destruct (di_owner _ _ _ I r _ Hown) as [Hs Huniq].
  apply wp_bind, (wp_get_entry ov o); [done|]. rewrite Hr, Hf. apply wp_bind, wp_free_nfs_res; [done|]. apply wp_modify. set (w3 := upd_entries _ _).
  assert (forall e x r', dw_entries w !! e = Some x -> e <> ov -> de_res x = Some r' -> r' <> r) as Hother.
  { intros e x r' Hx Hne Hr' ->. assert (owns T w r (inl e)) as Ho2 by (by exists x). specialize (Huniq _ Ho2). congruence. }
  split_and!; try done.
  - apply (dinv_forget fam T w2' w3 ov (deleted o) r); try done; simpl; [by rewrite lookup_insert_eq|by rewrite delete_insert_eq].
  - apply evolves_by; [done|]. simpl. rewrite insert_insert_eq. intros c' d' [[<- <-]|[Hne H]]%lookup_insert_Some; left.
    + exists d. unfold limit. simpl. rewrite K1, K3, K6, K7. split_and!; try done. intros e x r' v (_ & H2 & H3 & H4 & H5 & H6) Hlt.
      assert (e <> ov) as Hne by (intros ->; unfold limit in Hold; lia). split; [split; [by apply tailq_remove_elem|pose proof (behind_remove e (dupreq_q d) ov Hne); lia]|].
      exists x. rewrite lookup_delete_ne by done. split_and!; try done. rewrite lookup_delete_ne; [done|]. intros <-. by apply (Hother e x r).
    + exists d'. split_and!; try done. intros e x r' v (H1 & H2 & H3 & H4 & H5 & H6) Hlt. split; [split; [done|lia]|].
      assert (e <> ov) as Hne'. { intros ->. destruct (qo_in _ _ _ _ (di_queue _ _ _ I c' d' H1) ov H2) as (y & Hy & Hc' & _). congruence. }
      exists x. rewrite lookup_delete_ne by done. split_and!; try done. rewrite lookup_delete_ne; [done|]. intros <-. by apply (Hother e x r).
  - intros e x Hx Hpos. assert (e <> ov) as Hne by (intros ->; lia). simpl. rewrite lookup_delete_ne by done. split; [done|]. intros r' v Hr' Hv.
    rewrite lookup_delete_ne; [done|]. intros <-. by apply (Hother e x r).
Qed.

(** An entry changes that is not complete. *)
Lemma evolves_entry w w' e x x' :
  dw_entries w !! e = Some x -> de_state x <> DUPREQ_COMPLETE -> dw_entries w' = <[e := x']> (dw_entries w) -> dw_drcs w' = dw_drcs w -> dw_results w' = dw_results w -> dw_next w' = dw_next w ->
  evolves (fun _ => 0) w w'.
Proof.
  intros Hx Hst HE HD HR HN. apply evolves_by; [lia|]. intros c d Hd. left. exists d. rewrite <- HD. split_and!; try done. intros e' y r v (_ & H2 & H3 & H4 & H5 & H6) _.
  split; [split; [done|lia]|]. exists y. rewrite HE, HR, lookup_insert_ne by congruence. done.
Qed.

Lemma dinv_state T w e x x' :
  dinv T w -> dw_entries w !! e = Some x -> same_entry x x' -> de_refcnt x' = de_refcnt x -> de_state x <> DUPREQ_DELETED -> de_state x' <> DUPREQ_DELETED ->
  (forall th t, T !! th = Some t -> th_u1 t = dupreq_at e -> th_phase t = leaving) -> dinv T (upd_entries (<[e := x']>) w).
Proof.
  intros I Hx Hsame Hn Hs Hs' Hleave. pose proof Hsame as (S1 & S2 & S3 & S4). eapply (dinv_update fam T T w _ e x x'); try done.
  - rewrite Hn. by apply (di_entry _ _ _ I e x).
  - intros th t Ht. destruct (di_thread _ _ _ I th t Ht) as [T1 T2]. split; [done|]. destruct (th_u1 t) as [| |e'] eqn:Hu; try done. destruct T2 as (y & H1 & H2 & H3 & H4). simpl.
    destruct (decide (e' = e)) as [->|Hne]; [|exists y; by rewrite lookup_insert_ne]. assert (y = x) as -> by congruence. exists x'. rewrite lookup_insert_eq, S1, S4. split_and!; try done.
    intros Hrun. rewrite (Hleave th t Ht Hu) in Hrun. done.
  - apply (di_running _ _ _ I).
Qed.

Lemma wp_finish T w e x d r v :
  dinv T w -> dw_entries w !! e = Some x -> de_state x = DUPREQ_START -> de_res x = Some r -> dw_results w !! r = Some v -> dw_drcs w !! hin_drc x = Some d -> 0 < users T e ->
  (forall th t, T !! th = Some t -> th_u1 t = dupreq_at e -> th_phase t = leaving) ->
  wp (nfs_dupreq_finish (dupreq_at e) r) (fun _ w' => dinv T w' /\ evolves (fun _ => 0) w w' /\ dw_threads w' = dw_threads w /\ dw_next w' = dw_next w /\ dw_xprts w' = dw_xprts w /\
    exists x', dw_entries w' !! e = Some x' /\ same_entry x x' /\ de_state x' = DUPREQ_COMPLETE /\ dw_results w' !! r = Some v) w.
Proof.
  intros I Hx Hst Hr Hv Hd Hpos Hleave. apply wp_bind, wp_gets, wp_bind, (wp_set_entry e x); [done|]. set (x' := with_state DUPREQ_COMPLETE (dw_time w) (with_res (Some r) x)).
  assert (same_entry x x') as Hsame by (split_and!; done). assert (dinv T (upd_entries <[e:=x']> w)) as I1 by (apply (dinv_state T w e x x'); try done; congruence).
  set (w1 := upd_entries <[e:=x']> w) in *. assert (evolves (fun _ => 0) w w1) as E1 by (apply (evolves_entry w w1 e x x'); try done; congruence).
  assert (dw_entries w1 !! e = Some x') as Hx1 by apply lookup_insert_eq. apply wp_bind, (wp_get_entry e x'); [done|]. apply wp_bind, (wp_get_drc _ d); [done|]. apply wp_bind.
  apply wp_when; intros Hret.
  - eapply wp_mono; [|by apply (wp_retire T w1 (hin_drc x') d)]. intros _ w2 (I2 & E2 & HT & HN & HX & Hkeep). apply wp_ret. destruct (Hkeep e x' Hx1 Hpos) as [K1 K2].
    split_and!; try done; [by apply (evolves_trans _ _ _ _ _ (di_fresh_drc _ _ _ I) (fun _ => Z.le_refl 0) E1 E2)|]. exists x'. split_and!; try done. by apply K2.
  - apply wp_ret. split_and!; try done. by exists x'.
Qed.

Lemma wp_delete T w e x d :
  dinv T w -> dw_entries w !! e = Some x -> de_state x = DUPREQ_START -> dw_drcs w !! hin_drc x = Some d -> (d_type d <> DRC_UDP_V234 -> attached (dw_xprts w) (hin_drc x) < d_refcnt d) ->
  (forall th t, T !! th = Some t -> th_u1 t = dupreq_at e -> th_phase t = leaving) ->
  wp (nfs_dupreq_delete (dupreq_at e)) (fun _ w' => dinv T w' /\ evolves (fun _ => 0) w w' /\ dw_threads w' = dw_threads w /\ dw_next w' = dw_next w /\ dw_xprts w' = dw_xprts w) w.
Proof.
  intros I Hx Hst Hd Hcnt Hleave. assert (e ∈ dupreq_q d) as Hin by (apply (in_queue T w e x); try done; congruence). set (c := hin_drc x) in *.
  apply wp_bind, (wp_set_entry e x); [done|]. fold (deleted x). apply wp_bind, (wp_get_entry e (deleted x)); [by apply lookup_insert_eq|].
  change (hin_drc (deleted x)) with c. apply wp_bind, (wp_set_drc c d); [done|]. change (de_key (deleted x)) with (de_key x). fold (without e (de_key x) d). set (w1 := upd_drcs _ _).
  assert (dinv T w1) as I1 by (by eapply (dinv_remove fam T w _ c d e x (deleted x))).
  assert (evolves (fun _ => 0) w w1) as E1.
  { apply evolves_by; [simpl; lia|]. simpl. intros c' d' H. left. assert (exists d0, dw_drcs w !! c' = Some d0 /\ limit d' = limit d0 /\ d_type d' = d_type d0 /\ (dupreq_q d' = dupreq_q d0 \/ dupreq_q d' = tailq_remove e (dupreq_q d0))) as (d0 & H0 & L & Ty & Hq).
    { apply lookup_insert_Some in H as [[<- <-]|[_ H]]; [exists d; split_and!; try done; by right|exists d'; split_and!; try done; by left]. }
    exists d0. split_and!; try done. intros e' y r v (_ & H2 & H3 & H4 & H5 & H6) _. assert (e' <> e) as Hne by congruence. split.
    - destruct Hq as [-> | ->]; [split; [done|lia]|]. split; [by apply tailq_remove_elem|]. pose proof (behind_remove e' (dupreq_q d0) e Hne). lia.
    - exists y. rewrite lookup_insert_ne by done. done. }
  apply wp_bind, (wp_put_drc fam T c (without e (de_key x) d)); [done|by apply lookup_insert_eq|done|]. intros w2 I2 C2 _ _ HX HN. apply wp_ret. split_and!; try done; [|by rewrite (proj1 (proj2 C2))].
  apply (evolves_done _ T w w1 w2 (di_fresh_drc _ _ _ I) I1 E1 C2).
Qed.

(** * The release of a request *)

Lemma users_delete T th t e : T !! th = Some t -> users (delete th T) e = users T e - if decide (th_u1 t = dupreq_at e) then 1 else 0.
Proof. intros H. unfold users. by rewrite (count_delete _ T th t H). Qed.

Lemma dinv_unuse T w th t e x :
  dinv T w -> T !! th = Some t -> th_u1 t = dupreq_at e -> dw_entries w !! e = Some x -> users T e <= UINT32_MAX ->
  dinv (delete th T) (upd_entries (<[e := with_entry_refcnt (u32 (de_refcnt x - 1)) x]>) w).
Proof.
  intros I Ht Hu Hx Hmax. destruct (di_entry _ _ _ I e x Hx) as (Hn & _). pose proof (count_pos (holds e) T th t Ht Hu) as Hpos. fold (users T e) in Hpos.
  assert (u32 (de_refcnt x - 1) = users T e - 1) as Hu32 by (rewrite Hn; apply u32_small; lia). set (x' := with_entry_refcnt (u32 (de_refcnt x - 1)) x).
  eapply (dinv_update fam T _ w _ e x x'); try done.
  - intros d Hd Hin. destruct (qo_in _ _ _ _ (di_queue _ _ _ I _ d Hd) e Hin) as (y & Hy & _ & Hns & _). simpl. congruence.
  - rewrite (users_delete T th t) by done. by rewrite decide_True.
  - intros e' Hne. rewrite (users_delete T th t) by done. rewrite decide_False by congruence. lia.
  - intros th' t' [_ H']%lookup_delete_Some. destruct (di_thread _ _ _ I th' t' H') as [T1 T2]. split; [done|]. destruct (th_u1 t') as [| |e']; try done. destruct T2 as (y & H1 & H2 & H3 & H4). simpl.
    destruct (decide (e' = e)) as [->|Hne]; [|exists y; by rewrite lookup_insert_ne]. assert (y = x) as -> by congruence. exists x'. by rewrite lookup_insert_eq.
  - intros th1 th2 t1 t2 e' [_ H1]%lookup_delete_Some [_ H2]%lookup_delete_Some. by apply (di_running _ _ _ I).
  - intros r th' (t' & [_ H']%lookup_delete_Some & H1 & H2). by exists t'.
Qed.

Lemma wp_rele T w th t :
  dinv T w -> T !! th = Some t -> (forall e, users T e <= UINT32_MAX) ->
  wp (nfs_dupreq_rele (th_u1 t) (th_res t)) (fun _ w' => dinv (delete th T) w' /\ evolves (fun _ => 0) w w' /\ dw_threads w' = dw_threads w /\ dw_next w' = dw_next w /\ dw_xprts w' = dw_xprts w) w.
Proof.
  intros I Ht Hmax. destruct (di_thread _ _ _ I th t Ht) as [_ T2]. destruct (th_u1 t) as [| |e] eqn:Hu; [|done|].
  - assert (owns T w (th_res t) (inr th)) as Ho by (by exists t). destruct (di_owner _ _ _ I _ _ Ho) as [Hs Huniq]. apply wp_free_nfs_res; [done|]. split_and!; try done; [by apply dinv_nocache_done|].
    apply evolves_by; [done|]. intros c d Hd. left. exists d. split_and!; try done. intros e y r v (_ & H2 & H3 & H4 & H5 & H6) _. split; [split; [done|lia]|]. exists y. split_and!; try done.
    simpl. rewrite lookup_delete_ne; [done|]. intros <-. assert (owns T w (th_res t) (inl e)) as Ho2 by (by exists y). specialize (Huniq _ Ho2). done.
  - destruct T2 as (x & Hx & Hr & Hs & _). apply wp_bind, (wp_set_entry e x); [done|]. set (x' := with_entry_refcnt (u32 (de_refcnt x - 1)) x). set (w1 := upd_entries _ w).
    pose proof (dinv_unuse T w th t e x I Ht Hu Hx (Hmax e)) as I1. fold w1 in I1.
    assert (evolves (fun _ => 0) w w1) as E1.
    { apply evolves_by; [simpl; lia|]. intros c d Hd. left. exists d. split_and!; try done. intros e' y r v (_ & H2 & H3 & H4 & H5 & H6) _. split; [split; [done|lia]|]. simpl.
      destruct (decide (e' = e)) as [->|Hne]; [|exists y; by rewrite lookup_insert_ne]. assert (y = x) as -> by congruence. exists x'. by rewrite lookup_insert_eq. }
    apply wp_bind, (wp_get_entry e x'); [by apply lookup_insert_eq|]. apply wp_when; intros Hz; [|by split_and!].
    apply andb_true_iff in Hz as [Hz Hdel]. apply Z.eqb_eq in Hz. apply bool_decide_eq_true in Hdel.
    assert (users (delete th T) e = 0) as H0. { destruct (di_entry _ _ _ I1 e x') as (Hn & _); [by apply lookup_insert_eq|]. congruence. }
    apply (wp_free_dupreq (delete th T) w1 e x'); [done|by apply lookup_insert_eq|done|done|]. intros w2 r Hr2 I2 HE HR HD HX HT HN. split_and!; try done.
    assert (owns (delete th T) w1 r (inl e)) as Ho by (exists x'; split; [apply lookup_insert_eq|done]). destruct (di_owner _ _ _ I1 _ _ Ho) as [_ Huniq].
    apply (evolves_trans _ _ w w1 w2 (di_fresh_drc _ _ _ I) (fun _ => Z.le_refl 0) E1). apply evolves_by; [by rewrite HN|]. rewrite HD. intros c d Hd. left. exists d. split_and!; try done.
    intros e' y r' v (_ & H2 & H3 & H4 & H5 & H6) _. split; [split; [done|lia]|].
    assert (e' <> e) as Hne. { intros ->. change (<[e := x']> (dw_entries w) !! e = Some y) in H3. rewrite lookup_insert_eq in H3. injection H3 as <-. simpl in *. congruence. }
    exists y. rewrite HE, HR, lookup_delete_ne by done. split_and!; try done. rewrite lookup_delete_ne; [done|]. intros <-.
    assert (owns (delete th T) w1 r (inl e')) as Ho2 by (by exists y). specialize (Huniq _ Ho2). congruence.
Qed.
End ops.
