(* ===== verification/DupreqServer.v ===== *)
(** The theorems on the duplicate request cache: a server that executes any requests on any connections, and
    concrete runs. *)

From S2P Require Import Prelude Dupreq DupreqInv DupreqStep DupreqOps.

(** * The server *)

Inductive devent : Set :=
| ev_connect (p2 p1 : bool) (caller : option sockaddr_storage)
| ev_close (x : loc)
| ev_request (req : nfs_request) (sent : bool)
| ev_serve (th : loc) (how : service_end)
| ev_release (th : loc)
| ev_time (now : Z).

(** What is noted of a request: the cache of its entry, if it has one, the status and the answer. *)
Inductive dlog : Set :=
| log_request (req : nfs_request) (c : option loc) (st : option dupreq_status_t) (ans : answer)
| log_serve (th : loc) (ans : answer)
| log_nothing.

Section server.
Context {rb : RbTree} {laws : RbTreeLaws rb} {env : DupreqEnv}.
Implicit Types (d : drc_t) (w : dworld) (c e r th : loc) (T : gmap loc thread).

Definition entry_cache (u1 : dupreq_u1) w : option loc := match u1 with dupreq_at e => hin_drc <$> dw_entries w !! e | _ => None end.

Definition run_event (ev : devent) : M dworld dlog :=
  match ev with
  | ev_connect p2 p1 caller =>
      x ← gets dw_next;
      modify (upd_next Pos.succ);;
      modify (upd_xprts (<[x := mk_xprt p2 p1 caller None]>));;
      mret log_nothing
  | ev_close x => free_gsh_xprt_private x;; mret log_nothing
  | ev_request req sent =>
      '(st, ans) ← execute_start req sent;
      c ← gets (fun w => st ← st; entry_cache st.2 w);
      mret (log_request req c (fst <$> st) ans)
  | ev_serve th how => ans ← execute_end th how; mret (log_serve th ans)
  | ev_release th => execute_release th;; mret log_nothing
  | ev_time now => modify (upd_time now);; mret log_nothing
  end.

Fixpoint run_events (evs : list devent) : M dworld (list dlog) :=
  match evs with
  | [] => mret []
  | ev :: evs => l ← run_event ev; ls ← run_events evs; mret (l :: ls)
  end.

Context (fam : Z).

(** What is assumed of an event: an address is of the family of the server; a connection is closed when no
    request uses it; a call is valid and there is room in the counters; and, where a request is dropped or refused, the
    cache of its connection has a reference to give up besides those of its connections. *)
Definition fits (ev : devent) w : Prop :=
  match ev with
  | ev_connect p2 p1 caller => forall a, caller = Some a -> good_addr fam a
  | ev_close x => is_Some (dw_xprts w !! x) /\ forall th t, dw_threads w !! th = Some t -> rq_xprt (th_req t) <> x
  | ev_request req sent =>
      is_Some (dw_xprts w !! rq_xprt req) /\ is_rpc_call_valid (rq_prog req) (rq_vers req) (rq_proc req) = true /\ room w /\ Z.of_nat (size (dw_threads w)) < UINT32_MAX
  | ev_serve th how =>
      exists t, dw_threads w !! th = Some t /\ th_phase t = running /\
        match how with
        | served _ _ => True
        | _ => forall e x d, th_u1 t = dupreq_at e -> dw_entries w !! e = Some x -> dw_drcs w !! hin_drc x = Some d -> d_type d <> DRC_UDP_V234 ->
                 attached (dw_xprts w) (hin_drc x) < d_refcnt d
        end
  | ev_release th => exists t, dw_threads w !! th = Some t /\ th_phase t = leaving /\ Z.of_nat (size (dw_threads w)) <= UINT32_MAX
  | ev_time _ => True
  end.

Fixpoint events_fit (evs : list devent) w : Prop :=
  match evs with
  | [] => True
  | ev :: evs => fits ev w /\ forall l w', run_event ev w = Ret l w' -> events_fit evs w'
  end.

(** The server between its steps. *)
Definition sinv w : Prop := dinv fam (dw_threads w) w /\ forall th, is_Some (dw_threads w !! th) -> (th < dw_next w)%positive.

(** How many new requests entered a cache. *)
Definition enters c (l : dlog) : Z :=
  match l with
  | log_request _ (Some c') (Some DUPREQ_SUCCESS) _ => one c' c
  | _ => 0
  end.
Definition entered_since c (ls : list dlog) : Z := foldr (fun l n => enters c l + n) 0 ls.

(** * Steps *)

Lemma dinv_upd_threads T w f : dinv fam T w -> dinv fam T (upd_threads f w).
Proof. intros []. by split. Qed.

Lemma dinv_bump T w : dinv fam T w -> dinv fam T (upd_next Pos.succ w).
Proof.
  intros []. split; simpl; try done.
  - intros c H. specialize (di_fresh_drc c H). lia.
  - intros e H. specialize (di_fresh_entry e H). lia.
  - intros e x H. specialize (di_fresh_cache e x H). lia.
  - intros r H. specialize (di_fresh_result r H). lia.
  - intros x H. specialize (di_fresh_xprt x H). lia.
Qed.

Lemma evolves_same n w w' w'' :
  evolves n w w' -> dw_drcs w'' = dw_drcs w' -> dw_entries w'' = dw_entries w' -> dw_results w'' = dw_results w' -> (dw_next w' <= dw_next w'')%positive -> evolves n w w''.
Proof.
  intros (N & D & S) HD HE HR HN. split_and!; [lia|by rewrite HD|]. unfold cached in *. rewrite HD, HE, HR. done.
Qed.

Lemma evolves_refl w : evolves (fun _ => 0) w w.
Proof.
  apply evolves_by; [lia|]. intros c d Hd. left. exists d. split_and!; try done. intros e x r v (_ & H2 & H3 & H4 & H5 & H6) _. split; [split; [done|lia]|]. by exists x.
Qed.

Lemma evolves_zero n w w' : (forall c, 0 <= n c) -> evolves (fun _ => 0) w w' -> evolves n w w'.
Proof.
  intros Hn (N & D & S). split_and!; [done..|]. intros c d d' e x r v Hc Hd Hlt. specialize (Hn c).
  destruct (S c d d' e x r v Hc Hd) as (x' & K1 & K2 & K3); [lia|]. exists x'. split; [done|]. split; [lia|done].
Qed.

Definition same_cache w w' : Prop :=
  dw_drcs w' = dw_drcs w /\ dw_entries w' = dw_entries w /\ dw_results w' = dw_results w /\ dw_xprts w' = dw_xprts w /\ udp_drc w' = udp_drc w /\ (dw_next w <= dw_next w')%positive.

(** No procedure begins. *)
Definition runs_nothing w w' : Prop := forall th t, dw_threads w' !! th = Some t -> th_phase t = running -> dw_threads w !! th = Some t.

(** What executing a request comes to before its procedure. *)
Definition requested w (req : nfs_request) (sent : bool) p (r : option (dupreq_status_t * dupreq_u1) * answer) w' : Prop :=
  match xp_caller p with
  | None => r = (None, rpc_error) /\ w' = w
  | Some a =>
      exists st u1 res w2, start_post fam (dw_threads w) w req a (dw_next w2) (st, u1, res) w2 /\ same_cache w2 w' /\ r.1 = Some (st, u1) /\ (st <> DUPREQ_SUCCESS -> runs_nothing w w') /\
        match st, res with
        | DUPREQ_EXISTS, Some r0 => exists v, dw_results w2 !! r0 = Some v /\ r.2 = if sent then replied v else rpc_error
        | _, _ => r.2 = no_answer
        end
  end.

Lemma wp_new_thread w t (Q : unit -> dworld -> Prop) :
  Q tt (upd_threads (<[dw_next w := t]>) (upd_next Pos.succ w)) ->
  wp (th ← gets dw_next; modify (upd_next Pos.succ);; modify (upd_threads (<[th := t]>))) Q w.
Proof. intros H. by apply wp_bind, wp_gets, wp_bind, wp_modify, wp_modify. Qed.

Lemma sinv_new w w2 t :
  sinv w -> (dw_next w <= dw_next w2)%positive -> dw_threads w2 = dw_threads w -> dinv fam (<[dw_next w2 := t]> (dw_threads w)) w2 ->
  sinv (upd_threads (<[dw_next w2 := t]>) (upd_next Pos.succ w2)).
Proof.
  intros [_ Hf] HN HT I. split; simpl.
  - rewrite HT. by apply dinv_upd_threads, dinv_bump.
  - rewrite HT. intros th Hth. destruct (decide (th = dw_next w2)) as [->|Hne]; [lia|]. rewrite lookup_insert_ne in Hth by done. specialize (Hf th Hth). lia.
Qed.

Lemma users_le T e : users T e <= Z.of_nat (size T).
Proof. apply count_le. Qed.

Lemma wp_execute_start w req sent p :
  programs_differ -> sinv w -> fits (ev_request req sent) w -> dw_xprts w !! rq_xprt req = Some p ->
  wp (execute_start req sent) (fun out w' => sinv w' /\ requested w req sent p out w') w.
Proof.
  intros Hprog Hinv (_ & Hvalid & Hroom & Hsize) Hp. pose proof Hinv as [I Hf]. unfold requested. apply wp_bind, (wp_deref _ _ _ p); [done|]. destruct (xp_caller p) as [a|] eqn:Ha; [|by apply wp_ret].
  apply wp_bind. eapply wp_mono; [|apply (wp_forall _ (fun th => dw_threads w !! th = None) (start_post fam (dw_threads w) w req a))].
  2: { intros th Hth. apply (wp_dupreq_start fam _ w req p a th); try done. intros e. pose proof (users_le (dw_threads w) e). lia. }
  2: { exists (dw_next w). apply eq_None_not_Some. intros H. specialize (Hf _ H). lia. }
  intros [[st u1] res] w2 Hpost.
  assert (dw_threads w !! dw_next w2 = None) as Hnew.
  { apply eq_None_not_Some. intros H. pose proof (Hf _ H). destruct (Hpost (dw_next w)) as [HN _]; [|lia]. apply eq_None_not_Some. intros H'. specialize (Hf _ H'). lia. }
  specialize (Hpost _ Hnew). pose proof Hpost as (HN & HT & Hcase).
  assert (forall t, same_cache w2 (upd_threads (<[dw_next w2 := t]>) (upd_next Pos.succ w2))) as Hsame by (intros t; split_and!; try done; simpl; lia).
  destruct st; try done; destruct u1 as [| |e]; try done; destruct res as [r|]; try done.
  - destruct Hcase as (I2 & _ & _). apply wp_bind, wp_new_thread, wp_ret. split; [by apply (sinv_new w)|]. by eexists _, _, _, w2.
  - destruct Hcase as (c & d & x & _ & _ & _ & I2 & _). apply wp_bind, wp_new_thread, wp_ret. split; [by apply (sinv_new w)|]. by eexists _, _, _, w2.
  - destruct Hcase as (c & d & x & _ & _ & _ & I2 & _). apply wp_bind, wp_ret, wp_ret. split; [split; [by rewrite HT|rewrite HT; intros th Hth; specialize (Hf _ Hth); lia]|].
    eexists _, _, _, w2. split; [done|]. split; [split_and!; try done; lia|]. split; [done|]. split; [|done]. intros _ th t. by rewrite HT.
  - destruct Hcase as (c & d & x & x' & v & _ & _ & _ & I2 & _ & _ & _ & _ & Hv & _). apply wp_bind, (wp_deref _ _ _ v); [done|]. apply wp_bind, wp_new_thread, wp_ret. split; [by apply (sinv_new w)|].
    eexists _, _, _, w2. split; [done|]. split; [done|]. split; [done|]. split; [|by exists v]. intros _ th t. simpl. rewrite HT. by intros [[_ <-]|[_ H]]%lookup_insert_Some.
Qed.

(** The result of a request being executed is written. *)
Lemma dinv_write T w r v : dinv fam T w -> is_Some (dw_results w !! r) -> dinv fam T (upd_results (<[r := v]>) w).
Proof.
  intros I Hr. apply (dinv_threads fam T T w); try done; simpl.
  - apply (di_thread _ _ _ I).
  - apply (di_running _ _ _ I).
  - intros r' o Ho. destruct (di_owner _ _ _ I r' o Ho) as [O1 O2]. split; [|done]. destruct (decide (r' = r)) as [->|Hne]; [by rewrite lookup_insert_eq|by rewrite lookup_insert_ne].
  - intros r' H. apply (di_fresh_result _ _ _ I). destruct (decide (r' = r)) as [->|Hne]; [done|by rewrite lookup_insert_ne in H].
Qed.

Lemma running_result T w th t :
  dinv fam T w -> T !! th = Some t -> th_phase t = running ->
  is_Some (dw_results w !! th_res t) /\ forall e x, dw_entries w !! e = Some x -> de_state x = DUPREQ_COMPLETE -> de_res x <> Some (th_res t).
Proof.
  intros I Ht Hrun. destruct (di_thread _ _ _ I th t Ht) as [_ T2]. destruct (th_u1 t) as [| |e] eqn:Hu; try done.
  - assert (owns T w (th_res t) (inr th)) as Ho by (by exists t). destruct (di_owner _ _ _ I _ _ Ho) as [Hs Huniq]. split; [done|]. intros e' y Hy _ Hr.
    assert (owns T w (th_res t) (inl e')) as Ho' by (by exists y). by specialize (Huniq _ Ho').
  - destruct T2 as (x & Hx & Hr & _ & Hst). assert (owns T w (th_res t) (inl e)) as Ho by (by exists x). destruct (di_owner _ _ _ I _ _ Ho) as [Hs Huniq]. split; [done|].
    intros e' y Hy Hc Hr'. assert (owns T w (th_res t) (inl e')) as Ho' by (by exists y). specialize (Huniq _ Ho'). injection Huniq as ->. specialize (Hst Hrun). congruence.
Qed.

Lemma evolves_write w r v :
  (forall e x, dw_entries w !! e = Some x -> de_state x = DUPREQ_COMPLETE -> de_res x <> Some r) -> evolves (fun _ => 0) w (upd_results (<[r := v]>) w).
Proof.
  intros Hr. apply evolves_by; [simpl; lia|]. intros c d Hd. left. exists d. split_and!; try done. intros e x r' v' (_ & H2 & H3 & H4 & H5 & H6) _.
  split; [split; [done|lia]|]. exists x. split_and!; try done. simpl. rewrite lookup_insert_ne; [done|]. intros <-. by destruct (Hr e x H3 H4).
Qed.

(** The cache of a request being executed. *)
Lemma thread_cache T w th t e :
  dinv fam T w -> T !! th = Some t -> th_u1 t = dupreq_at e ->
  exists x d, dw_entries w !! e = Some x /\ dw_drcs w !! hin_drc x = Some d /\ de_res x = Some (th_res t) /\ (th_phase t = running -> de_state x = DUPREQ_START).
Proof.
  intros I Ht Hu. destruct (di_thread _ _ _ I th t Ht) as [_ T2]. rewrite Hu in T2. destruct T2 as (x & Hx & Hr & (p & Hp & Hs) & Hst). exists x. destruct (xp_p2 p) eqn:E.
  - destruct (di_udp _ _ _ I) as (d & Hd & _). exists d. split_and!; try done. by rewrite Hs.
  - destruct (di_xprt _ _ _ I _ _ Hp) as [_ K]. destruct (K _ Hs) as (_ & d & Hd & _). by exists d.
Qed.

(** While a request is being executed no other one has its entry. *)
Lemma only_leaving T w th t e :
  dinv fam T w -> T !! th = Some t -> th_phase t = running -> th_u1 t = dupreq_at e ->
  forall th' t', <[th := left t]> T !! th' = Some t' -> th_u1 t' = dupreq_at e -> th_phase t' = leaving.
Proof.
  intros I Ht Hrun Hu th' t' [[<- <-]|[Hne H]]%lookup_insert_Some Hu'; [done|]. destruct Hne. by apply (di_running _ _ _ I th th' t t' e).
Qed.

Definition sstep w w' : Prop := sinv w' /\ evolves (fun _ => 0) w w'.

(** A request that a thread has done leaves the rest of the server alone. *)
Lemma sstep_leave w th t w1 w' :
  sinv w -> dw_threads w !! th = Some t -> w1 = upd_threads (<[th := left t]>) w -> dinv fam (<[th := left t]> (dw_threads w)) w' -> evolves (fun _ => 0) w1 w' ->
  dw_threads w' = dw_threads w1 -> dw_next w' = dw_next w1 -> sstep w w'.
Proof.
  intros [I Hf] Ht -> I' E HT HN. split.
  - split; [by rewrite HT|]. rewrite HT, HN. simpl. intros th' H. apply Hf. destruct (decide (th' = th)) as [->|Hne]; [by exists t|by rewrite lookup_insert_ne in H].
  - destruct E as (N & D & S). split_and!; [exact N|exact D|exact S].
Qed.

Lemma evolves_2 T w1 w2 w3 : dinv fam T w1 -> evolves (fun _ => 0) w1 w2 -> evolves (fun _ => 0) w2 w3 -> evolves (fun _ => 0) w1 w3.
Proof. intros I E1 E2. exact (evolves_trans _ _ _ _ _ (di_fresh_drc _ _ _ I) (fun _ => Z.le_refl 0) E1 E2). Qed.

Lemma wp_delete_thread w th t w1 :
  dinv fam (dw_threads w) w -> dw_threads w !! th = Some t -> th_phase t = running ->
  (forall e x d, th_u1 t = dupreq_at e -> dw_entries w !! e = Some x -> dw_drcs w !! hin_drc x = Some d -> d_type d <> DRC_UDP_V234 -> attached (dw_xprts w) (hin_drc x) < d_refcnt d) ->
  dinv fam (<[th := left t]> (dw_threads w)) w1 -> dw_entries w1 = dw_entries w -> dw_drcs w1 = dw_drcs w -> dw_xprts w1 = dw_xprts w ->
  wp (nfs_dupreq_delete (th_u1 t)) (fun _ w' => dinv fam (<[th := left t]> (dw_threads w)) w' /\ evolves (fun _ => 0) w1 w' /\ dw_threads w' = dw_threads w1 /\ dw_next w' = dw_next w1) w1.
Proof.
  intros I Ht Hrun Hcnt I1 HE HD HX. destruct (th_u1 t) as [| |e] eqn:Hu; [apply wp_ret; split_and!; try done; apply evolves_refl..|].
  destruct (thread_cache _ w th t e I Ht Hu) as (x & d & Hx & Hd & Hr & Hst).
  eapply wp_mono; [|apply (wp_delete fam _ w1 e x d I1)]; rewrite ?HE, ?HD, ?HX; auto.
  - simpl. intros _ w' (K1 & K2 & K3 & K4 & _). done.
  - intros Ty. by apply (Hcnt e x d).
  - by apply (only_leaving _ w th t e).
Qed.

Lemma wp_execute_end w th how : sinv w -> fits (ev_serve th how) w -> wp (execute_end th how) (fun _ w' => sstep w w') w.
Proof.
  intros Hinv (t & Ht & Hrun & Hcnt). pose proof Hinv as [I Hf]. destruct (running_result _ w th t I Ht Hrun) as [Hs Hne].
  apply wp_bind, (wp_deref _ _ _ t); [done|]. apply wp_bind, wp_modify. fold (left t). set (w1 := upd_threads _ w).
  pose proof (dinv_upd_threads _ _ (<[th := left t]>) (dinv_left fam _ w th t I Ht)) as I1. fold w1 in I1. destruct Hs as [v0 Hv0].
  assert (forall v, let w2 := upd_results (<[th_res t := v]>) w1 in dinv fam (<[th := left t]> (dw_threads w)) w2 /\ evolves (fun _ => 0) w1 w2) as Hwrite.
  { intros v. split; [apply dinv_write; [done|by exists v0]|by apply evolves_write]. }
  destruct how as [v sent|v|].
  - apply wp_bind, (wp_deref _ _ _ v0); [done|]. apply wp_bind, wp_modify. destruct (Hwrite v) as [I2 E2]. set (w2 := upd_results _ w1) in *. destruct sent; [|by apply wp_ret, (sstep_leave w th t w1)].
    apply wp_bind. destruct (th_u1 t) as [| |e] eqn:Hu; [by apply wp_ret, wp_ret, (sstep_leave w th t w1)..|].
    destruct (thread_cache _ w th t e I Ht Hu) as (x & d & Hx & Hd & Hr & Hst).
    eapply wp_mono; [|apply (wp_finish fam _ w2 e x d (th_res t) v I2); try done; auto].
    + intros _ w' (K1 & K2 & K3 & K4 & _). apply wp_ret, (sstep_leave w th t w1); try done. by apply (evolves_2 _ w1 w2 w' I1).
    + apply lookup_insert_eq.
    + apply (count_pos (holds e) _ th (left t)); [apply lookup_insert_eq|exact Hu].
    + by apply (only_leaving _ w th t e).
  - apply wp_bind, (wp_deref _ _ _ v0); [done|]. apply wp_bind, wp_modify. destruct (Hwrite v) as [I2 E2]. set (w2 := upd_results _ w1) in *. apply wp_bind.
    eapply wp_mono; [|by apply (wp_delete_thread w th t w2)]. intros _ w' (K1 & K2 & K3 & K4). apply wp_ret, (sstep_leave w th t w1); try done. by apply (evolves_2 _ w1 w2 w' I1).
  - apply wp_bind. eapply wp_mono; [|by apply (wp_delete_thread w th t w1)]. intros _ w' (K1 & K2 & K3 & K4). by apply wp_ret, (sstep_leave w th t w1).
Qed.

Lemma wp_execute_release w th : sinv w -> fits (ev_release th) w -> wp (execute_release th) (fun _ w' => sstep w w') w.
Proof.
  intros [I Hf] (t & Ht & _ & Hsize). apply wp_bind, (wp_deref _ _ _ t); [done|]. apply wp_bind, wp_modify. set (w1 := upd_threads _ w).
  eapply wp_mono; [|apply (wp_rele fam (dw_threads w) w1 th t); [by apply dinv_upd_threads|done|]].
  - intros _ w' (K1 & K2 & K3 & K4 & _). split; [split; rewrite K3; [exact K1|]|].
    + rewrite K4. simpl. intros th' [t' [_ H]%lookup_delete_Some]. apply Hf. by exists t'.
    + destruct K2 as (N & D & S). split_and!; [exact N|exact D|exact S].
  - intros e. pose proof (users_le (dw_threads w) e). lia.
Qed.

(** A transport is not looked at when a reference on a cache is given up. *)
Lemma put_drc_xprts c f w :
  nfs_dupreq_put_drc c (upd_xprts f w) = match nfs_dupreq_put_drc c w with Ret a w' => Ret a (upd_xprts f w') | Undef => Undef | Fatal => Fatal | Stuck => Stuck end.
Proof.
  unfold nfs_dupreq_put_drc, nfs_dupreq_unref_drc, set_drc, get_drc, mbind, mret, M_bind, M_ret, deref, modify, gets. cbn. destruct (dw_drcs w !! c) as [d|]; [|done]. cbn. rewrite !lookup_insert_eq. cbn.
  destruct (d_type d); [..|done]; destruct (_ && _); cbn; rewrite ?lookup_insert_eq; done.
Qed.

Lemma attached_delete X x p c : X !! x = Some p -> attached (delete x X) c = attached X c - if decide (xu_drc p = Some c) then 1 else 0.
Proof. intros H. unfold attached. by rewrite (count_delete _ X x p H). Qed.

Lemma dinv_close T w x :
  dinv fam T w -> is_Some (dw_xprts w !! x) -> (forall th t, T !! th = Some t -> rq_xprt (th_req t) <> x) -> dinv fam T (upd_xprts (delete x) w).
Proof.
  intros I [p Hp] Hno. destruct I. split; simpl; try done.
  - intros c d Hd. pose proof (di_count c d Hd). rewrite (attached_delete _ x p c Hp). destruct (decide _); lia.
  - intros th t Ht. destruct (di_thread th t Ht) as [T1 T2]. pose proof (Hno th t Ht). split; [simpl; by rewrite lookup_delete_ne|].
    destruct (th_u1 t); try done. destruct T2 as (y & H1 & H2 & (q & Hq & H3) & H4). exists y. split_and!; try done. exists q. simpl. by rewrite lookup_delete_ne.
  - intros x' p' [_ H]%lookup_delete_Some. by apply di_xprt in H.
  - intros x' [p' [_ H]%lookup_delete_Some]. apply di_fresh_xprt. by exists p'.
Qed.

Lemma sstep_calm w w1 w' : sinv w -> calm w1 w' -> dw_drcs w1 = dw_drcs w -> dw_entries w1 = dw_entries w -> dw_results w1 = dw_results w -> dw_threads w1 = dw_threads w -> (dw_next w <= dw_next w1)%positive ->
  dinv fam (dw_threads w) w1 -> dinv fam (dw_threads w) w' -> sstep w w'.
Proof.
  intros [I Hf] C HD HE HR HT HN I1 I'. pose proof C as (_ & CT & _ & CN & _). split.
  - split; [by rewrite CT, HT|]. rewrite CT, HT. intros th Hth. specialize (Hf th Hth). lia.
  - pose proof (evolves_same (fun _ => 0) w w w1 (evolves_refl w) HD HE HR HN) as E1. by apply (evolves_2 _ w w1 w' I E1), (evolves_calm fam (dw_threads w)).
Qed.

Lemma wp_close_xprt w x : sinv w -> fits (ev_close x) w -> wp (free_gsh_xprt_private x) (fun _ w' => sstep w w') w.
Proof.
  intros Hinv [[p Hp] Hno]. pose proof Hinv as [I Hf]. pose proof (dinv_close _ w x I (ex_intro _ p Hp) Hno) as I0. apply wp_bind, (wp_deref _ _ _ p); [done|]. apply wp_bind.
  destruct (xu_drc p) as [c|] eqn:Hc.
  - destruct (di_xprt _ _ _ I _ _ Hp) as [_ K]. destruct (K c Hc) as (_ & d & Hd & Hty). set (w0 := upd_xprts (delete x) w) in *.
    assert (wp (nfs_dupreq_put_drc c) (fun _ w' => sstep w w') w0) as H.
    { apply (wp_put_drc fam (dw_threads w) c d); [done|done| |].
      - intros _. simpl. rewrite (attached_delete _ x p c Hp), decide_True by done. pose proof (di_count _ _ _ I c d Hd). lia.
      - intros w' I' C _ _ _ _. apply (sstep_calm w w0 w'); try done. }
    unfold wp in *. unfold w0 in H. rewrite put_drc_xprts in H. destruct (nfs_dupreq_put_drc c w); done.
  - apply wp_ret, wp_modify. apply (sstep_calm w (upd_xprts (delete x) w)); try done. apply calm_refl.
Qed.

Lemma dinv_connect T w p :
  dinv fam T w -> xu_drc p = None -> (forall a, xp_caller p = Some a -> good_addr fam a) -> dinv fam T (upd_xprts (<[dw_next w := p]>) (upd_next Pos.succ w)).
Proof.
  intros I Hu Ha. assert (dw_xprts w !! dw_next w = None) as Hnew by (apply eq_None_not_Some; intros H; pose proof (di_fresh_xprt _ _ _ I _ H); lia).
  pose proof (dinv_bump T w I) as I1. destruct I1. split; simpl in *; try done.
  - intros c d Hd. unfold attached. rewrite count_insert by done. rewrite decide_False by (simpl; congruence). pose proof (di_count c d Hd) as H. unfold attached in H. lia.
  - intros th t Ht. destruct (di_thread th t Ht) as [[q Hq] T2]. split; [exists q; simpl; rewrite lookup_insert_ne; [done|intros E; simpl in *; congruence]|].
    destruct (th_u1 t); try done. destruct T2 as (y & H1 & H2 & (q' & Hq' & H3) & H4). exists y. split_and!; try done. exists q'. simpl. rewrite lookup_insert_ne; [done|]. intros E. simpl in *. congruence.
  - intros x p' [[<- <-]|[_ H]]%lookup_insert_Some; [split; [done|congruence]|by apply di_xprt in H].
  - intros x [p' [[<- _]|[_ H]]%lookup_insert_Some]; [lia|]. apply di_fresh_xprt. by exists p'.
Qed.

Lemma requested_evolves w req sent p out w' :
  sinv w -> requested w req sent p out w' -> evolves (fun c => enters c (log_request req (st ← out.1; entry_cache st.2 w') (fst <$> out.1) out.2)) w w'.
Proof.
  intros [I Hf] H. unfold requested in H. destruct (xp_caller p) as [a|]; [|destruct H as [-> ->]; apply evolves_refl].
  destruct H as (st & u1 & res & w2 & (HN & HT & H) & (SD & SE & SR & SX & SU & SN) & -> & _ & Hans). apply (evolves_same _ w w2 w'); [|done..]. cbn.
  destruct st; try done; destruct u1 as [| |e]; try done; destruct res as [r|]; try done; unfold entry_cache.
  - apply H.
  - destruct H as (c & d & x & _ & _ & _ & _ & E & Hx & Hc). rewrite SE, Hx. cbn. by rewrite Hc.
  - destruct H as (c & d & x & _ & _ & _ & _ & E & _). apply evolves_zero; [|done]. intros c'. by destruct (hin_drc <$> _).
  - destruct H as (c & d & x & x' & v & _ & _ & _ & _ & E & _). apply evolves_zero; [|done]. intros c'. by destruct (hin_drc <$> _).
Qed.

Lemma wp_event w ev : programs_differ -> sinv w -> fits ev w -> wp (run_event ev) (fun l w' => sinv w' /\ evolves (fun c => enters c l) w w') w.
Proof.
  intros Hprog Hinv Hfit. pose proof Hinv as [I Hf]. destruct ev as [p2 p1 caller|x|req sent|th how|th|now].
  - apply wp_bind, wp_gets, wp_bind, wp_modify, wp_bind, wp_modify, wp_ret. set (w1 := upd_xprts _ _).
    assert (sstep w w1) as [H1 H2]; [|done]. apply (sstep_calm w w1); try done; [apply calm_refl|simpl; lia|by apply dinv_connect..].
  - apply wp_bind. eapply wp_mono; [|by apply (wp_close_xprt w x)]. intros _ w' [H1 H2]. by apply wp_ret.
  - destruct Hfit as [[p Hp] Hfit]. apply wp_bind. eapply wp_mono; [|apply (wp_execute_start w req sent p Hprog Hinv); [split; [by exists p|done]|done]].
    intros [st ans] w' [H1 H2]. apply wp_bind, wp_gets, wp_ret. split; [done|]. exact (requested_evolves w req sent p (st, ans) w' Hinv H2).
  - apply wp_bind. eapply wp_mono; [|by apply (wp_execute_end w th how)]. intros a w' [H1 H2]. by apply wp_ret.
  - apply wp_bind. eapply wp_mono; [|by apply (wp_execute_release w th)]. intros _ w' [H1 H2]. by apply wp_ret.
  - apply wp_bind, wp_modify, wp_ret. assert (dinv fam (dw_threads w) (upd_time now w)) as I1 by (destruct I; by split).
    assert (sstep w (upd_time now w)) as [H1 H2]; [|done]. apply (sstep_calm w (upd_time now w)); try done. apply calm_refl.
Qed.

Lemma enters_pos c l : 0 <= enters c l.
Proof. destruct l as [req [c'|] [[]|] ans| |]; simpl; try lia. unfold one. destruct (decide _); lia. Qed.

Lemma entered_pos c ls : 0 <= entered_since c ls.
Proof. induction ls as [|l ls IH]; simpl; [lia|]. pose proof (enters_pos c l). lia. Qed.

Lemma wp_events evs w :
  programs_differ -> sinv w -> events_fit evs w -> wp (run_events evs) (fun ls w' => sinv w' /\ evolves (fun c => entered_since c ls) w w') w.
Proof.
  intros Hprog. revert w. induction evs as [|ev evs IH]; intros w Hinv Hfit.
  - apply wp_ret. split; [done|apply evolves_refl].
  - destruct Hfit as [Hev Hrest]. apply wp_bind. destruct (proj1 (wp_elim _ _ _) (wp_event w ev Hprog Hinv Hev)) as (l & w1 & Hrun & I1 & E1).
    apply wp_intro with l w1; [done|]. apply wp_bind. eapply wp_mono; [|by apply (IH w1 I1), (Hrest l)]. intros ls w2 [I2 E2]. apply wp_ret. split; [done|].
    exact (evolves_trans _ _ _ _ _ (di_fresh_drc _ _ _ (proj1 Hinv)) (fun c => entered_pos c ls) E1 E2).
Qed.

(** * Retries *)

Lemma sinv_init now : sinv (dupreq2_pkginit now).
Proof.
  split; [|intros th [t H]; simpl in H; by rewrite lookup_empty in H]. split; simpl; try done.
  - exists init_shared_drc. by rewrite lookup_singleton_eq.
  - intros c d [<- _]%lookup_singleton_Some. done.
  - intros c d [<- <-]%lookup_singleton_Some. by apply queue_ok_new.
  - intros c d [<- <-]%lookup_singleton_Some. simpl. unfold attached, count. rewrite map_filter_empty, map_size_empty. split; done.
  - intros c d [<- <-]%lookup_singleton_Some. done.
  - intros hk a c _. unfold recycle_lookup. by rewrite rbtx_lookup_init.
  - intros c d [<- <-]%lookup_singleton_Some. done.
  - intros c Hc. by apply not_elem_of_nil in Hc.
  - constructor.
  - intros r [e|th] (y & Hy & _); simpl in Hy; by rewrite lookup_empty in Hy.
  - intros c [d [<- _]%lookup_singleton_Some]. done.
  - intros e [x Hx]. by rewrite lookup_empty in Hx.
  - intros r [x Hx]. by rewrite lookup_empty in Hx.
  - intros r [x Hx]. by rewrite lookup_empty in Hx.
Qed.

Lemma events_fit_app evs evs' w ls w1 : events_fit (evs ++ evs') w -> run_events evs w = Ret ls w1 -> events_fit evs' w1.
Proof.
  revert w ls. induction evs as [|ev evs IH]; intros w ls Hfit Hrun.
  - by injection Hrun as <- <-.
  - destruct Hfit as [_ Hrest]. cbn in Hrun. unfold mbind, M_bind in Hrun. destruct (run_event ev w) as [l w2| | |] eqn:E; try done.
    destruct (run_events evs w2) as [ls2 w3| | |] eqn:E2; try done. injection Hrun as <- <-. by apply (IH w2 ls2); [apply (Hrest l)|].
Qed.

Lemma events_fit_prefix evs evs' w : events_fit (evs ++ evs') w -> events_fit evs w.
Proof. revert w. induction evs as [|ev evs IH]; intros w; [done|]. intros [H1 H2]. split; [done|]. intros l w' Hr. by apply IH, (H2 l). Qed.

(** The cache that waits for a request is there. *)
Lemma finds_alive T w x p a c : dinv fam T w -> dw_xprts w !! x = Some p -> finds w p a c -> is_Some (dw_drcs w !! c).
Proof.
  intros I Hp. unfold finds. destruct (xp_p2 p).
  - intros ->. destruct (di_udp _ _ _ I) as (d & Hd & _). by exists d.
  - destruct (xu_drc p) as [c'|] eqn:Hxu; [|intros (d & Hd & _); by exists d]. intros ->. destruct (di_xprt _ _ _ I _ _ Hp) as [_ K]. destruct (K c Hxu) as (_ & d & Hd & _). by exists d.
Qed.

(** The key of a request is found where an entry of the queue has an equal one. *)
Lemma lookup_entry T w c d dd e x k :
  dinv fam T w -> dw_drcs w !! c = Some d -> core dd = core d -> e ∈ dupreq_q d -> dw_entries w !! e = Some x -> key_ok fam (d_type d) k -> type_cmpf (d_type d) k (de_key x) = 0 ->
  drc_lookup dd k = Some e.
Proof.
  intros I Hd (H1 & H2 & H3 & H4 & _)%core_inv He Hx Hk Hcmp. pose proof (di_queue _ _ _ I c d Hd) as Q. destruct (qo_in _ _ _ _ Q e He) as (y & Hy & _ & _ & Hky & Hl). assert (y = x) as -> by congruence.
  rewrite <- Hl, <- (drc_lookup_same fam d k (de_key x)); [|apply Q|done..]. unfold drc_lookup, drc_cmpf. by rewrite H1, H2, H4.
Qed.

Lemma req_key_ok t a req : good_addr fam a -> key_ok fam t (req_key t a req).
Proof. intros Ha ->. done. Qed.

(** A request that finds an entry of its cache is not executed. *)
Lemma retry_found w req sent p a c d e x out w' :
  sinv w -> drc_disabled = false -> requested w req sent p out w' -> dw_xprts w !! rq_xprt req = Some p -> xp_caller p = Some a -> finds w p a c ->
  dw_drcs w !! c = Some d -> e ∈ dupreq_q d -> dw_entries w !! e = Some x -> start_nocache d req = false -> type_cmpf (d_type d) (req_key (d_type d) a req) (de_key x) = 0 ->
  (de_state x = DUPREQ_START /\ out = (Some (DUPREQ_BEING_PROCESSED, dupreq_at e), no_answer) /\ runs_nothing w w') \/
  (de_state x <> DUPREQ_START /\ runs_nothing w w' /\ forall r v, de_res x = Some r -> dw_results w !! r = Some v -> out = (Some (DUPREQ_EXISTS, dupreq_at e), if sent then replied v else rpc_error)).
Proof.
  intros [I Hf] Hdis Hreq Hp Ha Hs Hd He Hx Hnc Hcmp. unfold requested in Hreq. rewrite Ha in Hreq.
  destruct Hreq as (st & u1 & res & w2 & (HN & HT & H) & (SD & SE & SR & SX & SU & SN) & Ho & Hnew & Hans).
  assert (forall c1 dd, cache_of w req c1 dd w2 -> core dd = core d /\ d_type dd = d_type d) as Hcache.
  { intros c1 dd (_ & Hor & Hwaits). assert (c1 = c) as -> by (by apply (Hwaits p a)).
    assert (core dd = core d) as Hco. { destruct Hor as [(d1 & H1 & ->)|Hge]; [congruence|]. assert (c < dw_next w)%positive by (apply (di_fresh_drc _ _ _ I); by exists d). lia. }
    split; [done|]. by apply core_inv. }
  assert (good_addr fam a) as Hga by (by apply (di_xprt _ _ _ I _ _ Hp)).
  assert (forall dd, core dd = core d -> drc_lookup dd (req_key (d_type d) a req) = Some e) as Hl by (intros dd Hco; apply (lookup_entry (dw_threads w) w c d dd e x); try done; by apply req_key_ok).
  destruct out as [o ans]. simpl in Ho, Hans. subst o.
  destruct st; try done; destruct u1 as [| |e1]; try done; destruct res as [r|]; try done.
  - destruct H as (_ & _ & [|(c1 & dd & Hc & Hb)]); [congruence|]. destruct (Hcache _ _ Hc) as [_ Hty]. unfold start_nocache in *. rewrite Hty in Hb. congruence.
  - destruct H as (c1 & dd & y & Hc & _ & Hno & _). destruct (Hcache _ _ Hc) as [Hco Hty]. rewrite Hty, (Hl dd Hco) in Hno. done.
  - left. destruct H as (c1 & dd & y & Hc & _ & Hyes & _ & _ & Hy & Hst & _). destruct (Hcache _ _ Hc) as [Hco Hty]. rewrite Hty, (Hl dd Hco) in Hyes. injection Hyes as <-. split_and!; [congruence..|by apply Hnew].
  - right. destruct H as (c1 & dd & y & y' & v & Hc & _ & Hyes & _ & _ & Hy & Hst & Hr & Hv & Hvv & _). destruct (Hcache _ _ Hc) as [Hco Hty]. rewrite Hty, (Hl dd Hco) in Hyes. injection Hyes as <-.
    split; [congruence|]. split; [by apply Hnew|]. intros r' v' Hr' Hv'. destruct Hans as (v1 & Hv1 & ->). assert (r' = r) as -> by congruence. specialize (Hvv v' Hv'). by assert (v1 = v') as -> by congruence.
Qed.

(** C7: The duplicate request cache is safe: whatever connections, requests and releases come in whatever order, as long as
    each of them fits, every step of the server is defined and ends, and its invariant holds: an entry has as many references
    as requests use it, at most one of them being executed; the cache of a connection exists and is counted; every result has
    one owner. To fit ([fits]) is: the addresses are of one family; a connection that closes has no request; a request has an
    open connection, is a valid call, and finds room in the 32-bit counters; before a drop or a refusal the cache has one
    reference more than connections, for the step gives up one that it does not have (see [refused_cache_freed]). Memory does
    not run out. *)
Theorem dupreq_server_safe evs now :
  programs_differ -> events_fit evs (dupreq2_pkginit now) -> wp (run_events evs) (fun _ w => sinv w) (dupreq2_pkginit now).
Proof.
  intros Hprog Hfit. eapply wp_mono; [|by apply (wp_events evs _ Hprog (sinv_init now))]. by intros ls w [H _].
Qed.

(** C8: A retry of an answered request that can be cached gets the same answer and is not executed again. This holds after
    any run of steps that fit: the connections have addresses of one family, a request or a cache in use is not taken away,
    a drop or a refusal leaves the connections their references to the cache, memory and room in the counters last. It holds
    when fewer requests entered the cache since than its size and its water mark allow, and the retry comes by datagram to the
    shared cache, over the connection of the cache, or over a new connection from the address the cache is kept for. *)
Theorem dupreq_retry_answered w c d e x r v evs req sent a :
  programs_differ -> drc_disabled = false -> sinv w -> cached w c d e x r v -> start_nocache d req = false ->
  drc_cmpf d (req_key (d_type d) a req) (de_key x) = 0 -> events_fit (evs ++ [ev_request req sent]) w ->
  wp (ls ← run_events evs; w1 ← get_state; out ← execute_start req sent; mret (ls, w1, out))
     (fun '(ls, w1, out) w' =>
        (exists p, dw_xprts w1 !! rq_xprt req = Some p /\ xp_caller p = Some a /\ finds w1 p a c) -> behind e (dupreq_q d) + entered_since c ls < limit d ->
        out = (Some (DUPREQ_EXISTS, dupreq_at e), if sent then replied v else rpc_error) /\ runs_nothing w1 w') w.
Proof.
  intros Hprog Hdis Hinv HC Hnc Hcmp Hfit. destruct (proj1 (wp_elim _ _ _) (wp_events evs w Hprog Hinv (events_fit_prefix _ _ _ Hfit))) as (ls & w1 & Hrun & Hinv1 & E).
  destruct (events_fit_app _ _ _ _ _ Hfit Hrun) as [Hev _]. apply wp_bind, (wp_intro _ _ _ ls w1 Hrun), wp_bind, wp_gets, wp_bind. pose proof Hev as ([p Hp] & _).
  eapply wp_mono; [|by apply (wp_execute_start w1 req sent p)]. intros out w' [Hinv' Hreq]. apply wp_ret. intros (p' & Hp' & Ha & Hs) Hlt. assert (p' = p) as -> by congruence.
  destruct (finds_alive _ w1 _ p a c (proj1 Hinv1) Hp Hs) as [d1 Hd1]. destruct E as (HN & _ & Hkeep).
  destruct (Hkeep c d d1 e x r v HC Hd1 Hlt) as (x1 & (_ & He & Hx1 & Hst & Hr & Hv) & _ & _ & Hty & (_ & Hkey & _)).
  destruct (retry_found w1 req sent p a c d1 e x1 out w' Hinv1 Hdis Hreq Hp Ha Hs Hd1 He Hx1) as [[Hno _]|(_ & Hnew & Hans)]; [| |congruence|split; [by apply (Hans r v)|done]].
  - unfold start_nocache in *. by rewrite Hty.
  - rewrite Hty, Hkey. exact Hcmp.
Qed.

(** C9: While a request that can be cached is being executed, a retry of it is neither executed nor answered, when it comes by
    datagram to the shared cache, over the connection of the cache or over a new connection from the address the cache is
    kept for. *)
Theorem dupreq_in_progress w th t e x req sent p a :
  programs_differ -> drc_disabled = false -> sinv w -> dw_threads w !! th = Some t -> th_phase t = running -> th_u1 t = dupreq_at e -> dw_entries w !! e = Some x ->
  fits (ev_request req sent) w -> dw_xprts w !! rq_xprt req = Some p -> xp_caller p = Some a -> finds w p a (hin_drc x) ->
  (forall d, dw_drcs w !! hin_drc x = Some d -> start_nocache d req = false /\ drc_cmpf d (req_key (d_type d) a req) (de_key x) = 0) ->
  wp (execute_start req sent)
     (fun out w' => out = (Some (DUPREQ_BEING_PROCESSED, dupreq_at e), no_answer) /\ runs_nothing w w') w.
Proof.
  intros Hprog Hdis Hinv Ht Hrun Hu Hx Hfit Hp Ha Hs Hsame. eapply wp_mono; [|by apply (wp_execute_start w req sent p)]. intros out w' [Hinv' Hreq].
  destruct (thread_cache _ w th t e (proj1 Hinv) Ht Hu) as (y & d & Hy & Hd & _ & Hst). assert (y = x) as -> by congruence. specialize (Hst Hrun). destruct (Hsame d Hd) as [Hnc Hcmp].
  assert (e ∈ dupreq_q d) as He by (apply (in_queue fam _ w e x d (proj1 Hinv)); [done|congruence|done]).
  destruct (retry_found w req sent p a _ d e x out w' Hinv Hdis Hreq Hp Ha Hs Hd He Hx Hnc Hcmp) as [(_ & H1 & H2)|(Hno & _)]; done.
Qed.
End server.

(** * Runs *)

(** The assumptions on events can be computed. *)
Section check.
Context {rb : RbTree} {env : DupreqEnv} (fam : Z).
Implicit Types w : dworld.

Definition fitsb (ev : devent) w : bool :=
  match ev with
  | ev_connect _ _ None => true
  | ev_connect _ _ (Some a) => (ss_family a =? fam) && ((fam =? FAMILY_INET) || (fam =? FAMILY_INET6)) && (length (sin6_addr a) =? 16)%nat
  | ev_close x => bool_decide (is_Some (dw_xprts w !! x)) && bool_decide (map_Forall (fun _ t => rq_xprt (th_req t) <> x) (dw_threads w))
  | ev_request req _ =>
      bool_decide (is_Some (dw_xprts w !! rq_xprt req)) && is_rpc_call_valid (rq_prog req) (rq_vers req) (rq_proc req) &&
      bool_decide (map_Forall (fun _ d => d_refcnt d + 2 <= UINT32_MAX) (dw_drcs w)) && (Z.of_nat (size (dw_threads w)) <? UINT32_MAX)
  | ev_serve th how =>
      match dw_threads w !! th with
      | Some (mk_thread _ u1 _ running) =>
          match how, u1 with
          | served _ _, _ => true
          | _, dupreq_at e =>
              match dw_entries w !! e with
              | Some x => match dw_drcs w !! hin_drc x with
                          | Some d => bool_decide (d_type d = DRC_UDP_V234) || (attached (dw_xprts w) (hin_drc x) <? d_refcnt d)
                          | None => true
                          end
              | None => true
              end
          | _, _ => true
          end
      | _ => false
      end
  | ev_release th =>
      match dw_threads w !! th with
      | Some (mk_thread _ _ _ leaving) => Z.of_nat (size (dw_threads w)) <=? UINT32_MAX
      | _ => false
      end
  | ev_time _ => true
  end.

Lemma fitsb_sound ev w : fitsb ev w = true -> fits fam ev w.
Proof.
  destruct ev as [p2 p1 [a|]|x|req sent|th how|th|now]; simpl; try done.
  - intros [[H1 H2]%andb_true_iff H3]%andb_true_iff a' [= <-]. split_and!; [by apply Z.eqb_eq| |by apply Nat.eqb_eq]. apply orb_true_iff in H2 as [H2|H2]; apply Z.eqb_eq in H2; auto.
  - intros [H1%bool_decide_eq_true H2%bool_decide_eq_true]%andb_true_iff. by split.
  - intros [[[H1%bool_decide_eq_true H2]%andb_true_iff H3%bool_decide_eq_true]%andb_true_iff H4%Z.ltb_lt]%andb_true_iff. by split_and!.
  - destruct (dw_threads w !! th) as [[req u1 r []]|]; try done. intros H. eexists. split; [done|]. split; [done|]. destruct how; [done|..]; simpl; intros e x d -> Hx Hd Hty; rewrite Hx, Hd in H;
      (apply orb_true_iff in H as [H|H]; [by apply bool_decide_eq_true in H|by apply Z.ltb_lt in H]).
  - destruct (dw_threads w !! th) as [[req u1 r []]|]; try done. intros H%Z.leb_le. by eexists.
Qed.

Fixpoint fit_run (evs : list devent) w : bool :=
  match evs with
  | [] => true
  | ev :: evs => fitsb ev w && match run_event ev w with Ret _ w' => fit_run evs w' | _ => true end
  end.

Lemma fit_run_sound evs w : fit_run evs w = true -> events_fit fam evs w.
Proof.
  revert w. induction evs as [|ev evs IH]; intros w; [done|]. intros [H1 H2]%andb_true_iff. split; [by apply fitsb_sound|]. intros l w' Hr. rewrite Hr in H2. by apply IH.
Qed.

(** The world after a run. *)
Definition dworld_after (evs : list devent) w : dworld := match run_events evs w with Ret _ w' => w' | _ => w end.
End check.

Definition ex_drc_env : DupreqEnv := {|
  drc_disabled := false; drc_tcp_size := 1024; drc_tcp_npart := 1; drc_udp_size := 32768; drc_udp_hiwat := 16384; drc_udp_npart := 7;
  drc_recycle_npart := 7; drc_recycle_expire_s := 600; core_nfsv3 := true; core_nfsv4 := true;
  program_nfs := 100003; program_mnt := 100005; program_nlm := 100021; program_rquota := 100011;
  hash_sockaddr_911 := fun a => sin_addr a + sin_port a
|}.
#[local] Existing Instance ex_drc_env.
#[local] Existing Instance list_rbtree.

Definition ex_host : sockaddr_storage := mk_ss FAMILY_INET 800 3232235777 (replicate 16 0).
Definition ex_host2 : sockaddr_storage := mk_ss FAMILY_INET 801 3232235778 (replicate 16 0).
(** NFSv3 CREATE, and a request of another client. *)
Definition ex_create (x : loc) : nfs_request := mk_request x 17 100003 3 8 4711 0 0.
Definition ex_other (x : loc) : nfs_request := mk_request x 18 100003 3 8 4712 0 0.

(** A file is created and the reply sent. *)
Definition ex_served : list devent := [ev_connect false false (Some ex_host); ev_request (ex_create 2) true; ev_serve 6 (served [7] true); ev_release 6].
(** The connection breaks; others come; the client connects again. *)
Definition ex_between : list devent :=
  [ev_close 2; ev_connect false false (Some ex_host2); ev_request (ex_other 7) true; ev_serve 11 (dropped [5]); ev_release 11; ev_time 700; ev_connect false false (Some ex_host)].


Lemma ex_programs : programs_differ.
Proof. by split_and!. Qed.

Lemma ex_fit : events_fit FAMILY_INET (ex_served ++ ex_between ++ [ev_request (ex_create 12) true]) (dupreq2_pkginit 100).
Proof. apply fit_run_sound. by vm_compute. Qed.

Lemma dupreq_server_safe_witness :
  events_fit FAMILY_INET (ex_served ++ ex_between ++ [ev_request (ex_create 12) true]) (dupreq2_pkginit 100) /\
  wp (run_events (ex_served ++ ex_between ++ [ev_request (ex_create 12) true])) (fun _ w => sinv FAMILY_INET w) (dupreq2_pkginit 100).
Proof. split; [exact ex_fit|]. exact (dupreq_server_safe FAMILY_INET _ 100 ex_programs ex_fit). Defined.

Definition w_served : dworld := Eval vm_compute in dworld_after ex_served (dupreq2_pkginit 100).

Lemma served_ok : sinv FAMILY_INET w_served /\ events_fit FAMILY_INET (ex_between ++ [ev_request (ex_create 12) true]) w_served.
Proof.
  assert (exists ls, run_events ex_served (dupreq2_pkginit 100) = Ret ls w_served) as [ls Hrun] by (eexists; by vm_compute). split.
  - destruct (proj1 (wp_elim _ _ _) (wp_events FAMILY_INET ex_served _ ex_programs (sinv_init FAMILY_INET 100) (events_fit_prefix _ _ _ _ ex_fit))) as (ls' & w' & Hrun' & H & _).
    rewrite Hrun in Hrun'. by injection Hrun' as <- <-.
  - exact (events_fit_app _ _ _ _ _ _ ex_fit Hrun).
Qed.

Definition w_back : dworld := Eval vm_compute in dworld_after ex_between w_served.

Lemma back_run : exists ls, run_events ex_between w_served = Ret ls w_back /\ entered_since 3 ls = 0.
Proof. eexists. split; by vm_compute. Qed.

(** The new connection has no cache yet. *)
Lemma back_xprt : exists p, dw_xprts w_back !! 12%positive = Some p /\ xp_caller p = Some ex_host /\ finds w_back p ex_host 3.
Proof. eexists. split; [by vm_compute|]. split; [by vm_compute|]. eexists. by vm_compute. Qed.

Lemma retry_run : exists out w', execute_start (ex_create 12) true w_back = Ret out w'.
Proof. eexists _, _. by vm_compute. Qed.

(** The client that connects again gets the reply of its first request. *)
Lemma dupreq_retry_answered_witness :
  (exists d x, cached w_served 3 d 4 x 5 [7]) /\ exists w', execute_start (ex_create 12) true w_back = Ret (Some (DUPREQ_EXISTS, dupreq_at 4), replied [7]) w'.
Proof.
  destruct served_ok as [Hinv Hfit]. destruct (dw_drcs w_served !! 3%positive) as [d|] eqn:Hd; [|by vm_compute in Hd]. destruct (dw_entries w_served !! 4%positive) as [x|] eqn:Hx; [|by vm_compute in Hx].
  assert (cached w_served 3 d 4 x 5 [7]) as HC. { vm_compute in Hd, Hx. injection Hd as <-. injection Hx as <-. split_and!; try by vm_compute. by left. }
  assert (start_nocache d (ex_create 12) = false /\ drc_cmpf d (req_key (d_type d) ex_host (ex_create 12)) (de_key x) = 0 /\ dupreq_q d = [4%positive] /\ limit d = 1024) as (Hnc & Hcmp & Hq & Hlim).
  { vm_compute in Hd, Hx. injection Hd as <-. injection Hx as <-. by vm_compute. }
  split; [by exists d, x|]. pose proof (dupreq_retry_answered FAMILY_INET w_served 3 d 4 x 5 [7] ex_between (ex_create 12) true ex_host ex_programs eq_refl Hinv HC Hnc Hcmp Hfit) as H.
  destruct back_run as (ls & Hback & Hls). destruct retry_run as (out & w' & Hretry).
  apply (wp_bind_run _ _ _ _ _ _ Hback) in H. apply (wp_bind_run get_state _ _ w_back w_back w_back eq_refl) in H. apply (wp_bind_run _ _ _ _ _ _ Hretry) in H. exists w'. rewrite Hretry.
  destruct (H back_xprt) as [-> _]; [|done]. rewrite Hq, Hls, Hlim. by vm_compute.
Defined.

(** A retry while the first request is being executed. *)
Definition w_running : dworld := Eval vm_compute in dworld_after (take 2 ex_served) (dupreq2_pkginit 100).

Lemma running_ok : sinv FAMILY_INET w_running.
Proof.
  assert (exists ls, run_events (take 2 ex_served) (dupreq2_pkginit 100) = Ret ls w_running) as [ls Hrun] by (eexists; by vm_compute).
  assert (events_fit FAMILY_INET (take 2 ex_served) (dupreq2_pkginit 100)) as Hfit by (apply fit_run_sound; by vm_compute).
  destruct (proj1 (wp_elim _ _ _) (wp_events FAMILY_INET _ _ ex_programs (sinv_init FAMILY_INET 100) Hfit)) as (ls' & w' & Hrun' & H & _). rewrite Hrun in Hrun'. by injection Hrun' as <- <-.
Qed.

Lemma running_thread : exists t, dw_threads w_running !! 6%positive = Some t /\ th_phase t = running /\ th_u1 t = dupreq_at 4.
Proof. eexists. split_and!; by vm_compute. Qed.

Lemma running_xprt : exists p, dw_xprts w_running !! 2%positive = Some p /\ xp_caller p = Some ex_host /\ finds w_running p ex_host 3.
Proof. eexists. split; [by vm_compute|]. split; by vm_compute. Qed.

Lemma dupreq_in_progress_witness : exists w', execute_start (ex_create 2) true w_running = Ret (Some (DUPREQ_BEING_PROCESSED, dupreq_at 4), no_answer) w'.
Proof.
  destruct (dw_entries w_running !! 4%positive) as [x|] eqn:Hx; [|by vm_compute in Hx]. assert (hin_drc x = 3%positive) as Hc by (vm_compute in Hx; by injection Hx as <-).
  assert (forall d, dw_drcs w_running !! hin_drc x = Some d -> start_nocache d (ex_create 2) = false /\ drc_cmpf d (req_key (d_type d) ex_host (ex_create 2)) (de_key x) = 0) as Hsame.
  { intros d Hd. rewrite Hc in Hd. vm_compute in Hd, Hx. injection Hd as <-. injection Hx as <-. by vm_compute. }
  assert (fits FAMILY_INET (ev_request (ex_create 2) true) w_running) as Hfit by (apply fitsb_sound; by vm_compute).
  destruct running_thread as (t & Ht & Hph & Hu). destruct running_xprt as (p & Hp & Ha & Hs). rewrite <- Hc in Hs.
  pose proof (dupreq_in_progress FAMILY_INET w_running 6 t 4 x (ex_create 2) true p ex_host ex_programs eq_refl running_ok Ht Hph Hu Hx Hfit Hp Ha Hs Hsame) as H.
  destruct (proj1 (wp_elim _ _ _) H) as (out & w' & Hrun & -> & _). by exists w'.
Defined.

(** ** Defects *)

Definition dlogs (evs : list devent) : option (list (option dupreq_status_t * answer)) :=
  match run_events evs (dupreq2_pkginit 100) with
  | Ret ls _ => Some (omap (fun l => match l with log_request _ _ st ans => Some (st, ans) | _ => None end) ls)
  | _ => None
  end.

(** A reply that could not be sent leaves the entry as if the request were being executed: no retry is ever answered. *)
Example lost_reply_ignored :
  dlogs [ev_connect false false (Some ex_host); ev_request (ex_create 2) true; ev_serve 6 (served [7] false); ev_release 6; ev_time 100000; ev_request (ex_create 2) true]
  = Some [(Some DUPREQ_SUCCESS, no_answer); (Some DUPREQ_BEING_PROCESSED, no_answer)].
Proof. by vm_compute. Qed.

(** Two refused requests give up the references of the connection: the cache is freed under it. *)
Example refused_cache_freed :
  let refuse r th := [ev_request r true; ev_serve th refused; ev_release th] in
  let evs := ev_connect false false (Some ex_host) :: refuse (ex_create 2) 6%positive ++ refuse (ex_other 2) 9%positive ++ [ev_time 1000; ev_connect false false (Some ex_host2); ev_request (ex_create 10) true] in
  (exists ls w, run_events evs (dupreq2_pkginit 100) = Ret ls w /\ (p ← dw_xprts w !! 2%positive; xu_drc p) = Some 3%positive /\ dw_drcs w !! 3%positive = None) /\
  run_events (evs ++ [ev_request (ex_create 2) true]) (dupreq2_pkginit 100) = Undef.
Proof. split; [eexists _, _; split; [by vm_compute|by vm_compute]|by vm_compute]. Qed.

(** The flags of LOOKUP and READDIR are the same bit: a REMOVE is cached, one after a LOOKUP is not. *)
Example lookup_disables_cache :
  nfs_dupreq_v4_cacheable 0 (lookahead_flags [(22, false); (28, false)]) = true /\ nfs_dupreq_v4_cacheable 0 (lookahead_flags [(22, false); (15, false); (28, false)]) = false.
Proof. by vm_compute. Qed.

(** A cache whose connection is gone keeps a reference, and is never queued to be freed. *)
Example closed_cache_kept :
  exists ls w d, run_events (ex_served ++ [ev_close 2]) (dupreq2_pkginit 100) = Ret ls w /\ dw_xprts w = ∅ /\ dw_drcs w !! 3%positive = Some d /\ d_refcnt d = 1 /\ tcp_drc_recycle_q w = [].
Proof. eexists _, _, _. split_and!; by vm_compute. Qed.
